(* ===== verification/_CoqProject ===== *)
-Q . S2P
Prelude.v
Bytes.v
GoStrings.v
GoCollections.v
LivenessVersion.v
LivenessPacket.v
Routing.v
GoNet.v
LivenessConfig.v
LivenessSession.v
GoHeap.v
EventQueue.v
LivenessScheduler.v
LivenessProtocol.v
LivenessReceiver.v
LivenessManager.v
ByteReader.v
Accounts.v
Deserialize.v
ProgramData.v
TelemetryBuffer.v
TelemetrySubmitter.v
TelemetryCollector.v
ControllerDevice.v
Controller.v
ClientApi.v
ClientServices.v
ClientManager.v
ClientBgp.v
Pim.v
BgpStatus.v
Executor.v
HealthOracle.v
Twamp.v
TwampSigned.v
BorshIncremental.v
Allocators.v
OnchainState.v
ResourceExtension.v
OnchainLedger.v
OnchainGovernance.v
OnchainAccess.v
OnchainLink.v
TelemetryAccounts.v
OnchainTelemetry.v
TelemetryClient.v
GeoOffset.v
GeoCaches.v
GeoAccounts.v
GeoDevice.v
GeoDiscovery.v
GeoAgent.v
