(* ===== verification/Prelude.v ===== *)
(** * DoubleZero: a verification development

    DoubleZero is a network of contributed links. An on-chain program keeps
    its accounts (devices, links, users, multicast groups); a controller turns
    them into device configurations; an agent on each device measures the
    links and writes samples on chain; a client daemon on each host keeps
    tunnels to a device, announces routes by BGP and watches over them with a
    liveness protocol of its own. This library models the Go code of these
    parts, and the core of the on-chain program in Rust, as Gallina functions
    and proves what they promise.

    ** Parts, and the files that model them

    Paths are under [src/].

    - Route liveness, [client/doublezerod/internal/liveness]: a BFD-like
      protocol between clients. [LivenessVersion] ([version.go]) and
      [LivenessPacket] ([packet.go]) are the wire format, [LivenessConfig] the
      checked configuration, [LivenessSession] ([session.go]) one session,
      [EventQueue] and [LivenessScheduler] ([scheduler.go]) its timers,
      [LivenessReceiver] ([receiver.go]) the receive loop, [LivenessManager]
      ([manager.go], [routerw.go]) the sessions and the kernel routes that
      depend on them, and [LivenessProtocol] two peers and a network.
    - Accounts, [smartcontract/sdk/go/serviceability]: [ByteReader]
      ([bytereader.go]), [Accounts] ([state.go]), [Deserialize]
      ([deserialize.go]) and [ProgramData] ([client.go]). [BorshIncremental]
      ([sdk/borsh-incremental/go]) is the reader as a library.
    - The on-chain program,
      [smartcontract/programs/doublezero-serviceability/src]: [OnchainState]
      (the account types of [state] with their checks, [error.rs],
      [helper.rs]), [OnchainLedger] (the accounts an instruction sees,
      [serializer.rs], [authorize.rs]), [Allocators] ([id_allocator.rs],
      [ip_allocator.rs]), [ResourceExtension] ([state/resource_extension.rs]
      and [processors/resource]), and the instructions under [processors]:
      [OnchainGovernance] ([permission], [globalstate], [allowlist]),
      [OnchainAccess] ([multicastgroup/allowlist]) and [OnchainLink]
      ([link]).
    - Latency samples on chain: [TelemetryAccounts] (the account layouts, of
      [smartcontract/programs/doublezero-telemetry/src/state] and of [state.go]
      and [state_v0.go] of the SDK), [OnchainTelemetry] (the instructions of
      the telemetry program) and [TelemetryClient]
      ([smartcontract/sdk/go/telemetry]: [pda.go], the instructions,
      [executor.go], [client.go]).
    - Device telemetry, [controlplane/telemetry]: [TelemetryBuffer]
      ([pkg/buffer/memory.go]), [TelemetrySubmitter] ([submitter.go]),
      [TelemetryCollector] ([peers.go], [pinger.go], [collector.go],
      [netutil/tunnels.go]) and [BgpStatus] ([internal/bgpstatus]).
    - Writing on chain: [Executor] ([executor.go] and [pda.go] of
      [smartcontract/sdk/go/serviceability]: instructions, transactions,
      batches and program addresses) and [HealthOracle]
      ([controlplane/device-health-oracle/internal/worker]), which uses it.
    - Probes, [tools/twamp/pkg]: [Twamp] ([light]) and [TwampSigned]
      ([signed]).
    - Geolocation. Devices measure probes, probes measure targets, and each
      passes on a signed offset (place and round trip time) that builds on the
      one before. [controlplane/telemetry/internal/geoprobe]: [GeoOffset]
      ([offset.go], [signer.go], [transport.go]), [GeoCaches] ([mincache.go],
      and the cache of [cmd/geoprobe-agent]), [GeoDevice] ([address.go],
      [pinger.go], [publisher.go], [coordinator.go], [discovery.go]: the part of
      a device) and [GeoDiscovery] ([dns_cache.go],
      [delivery_dns_refresher.go], [onchain_discovery.go],
      [target_discovery.go], [icmp_pinger.go]: what a probe uses); [GeoAgent]
      is the probe and a target ([cmd/geoprobe-agent],
      [cmd/geoprobe-target]), and [GeoAccounts] the accounts and the client of
      [sdk/geolocation/go].
    - Controller, [controlplane/controller/internal/controller]:
      [ControllerDevice] ([models.go]) and [Controller] ([server.go],
      [features_config.go], [render.go]).
    - Client daemon, [client/doublezerod/internal]: [ClientApi]
      ([api/requests.go]), [ClientServices] ([services], [routing/tunnel.go],
      [routing/rules.go] and the life cycle of the senders of [multicast] and
      [pim]), [ClientManager] ([manager/manager.go]), [ClientBgp] ([bgp]) and
      [Pim] ([pim]: the messages, and what the server sends).
    - The language and its library: this file (records, fixed-width integers,
      results), [Bytes] ([encoding/binary]), [GoStrings] ([strings],
      [strconv], [fmt]), [GoCollections] (maps, [sort]), [GoHeap]
      ([container/heap]), [Routing] and [GoNet] ([net] and the routes of
      [internal/routing]).

    The controller, the telemetry agent and the client manager all start from
    the [ProgramData.t] the account readers return. The client manager sets
    services up, which reach the kernel and the BGP server; the BGP plugin
    writes its routes through [RouteReaderWriter], which the kernel and the
    liveness manager both implement. The submitter of the agent drives
    [TelemetryClient], whose transactions a cluster runs with
    [OnchainTelemetry] on the ledger that [TelemetryClient] reads back. The
    publisher of [GeoDevice] sends what the listener of [GeoAgent] takes, whose
    cache feeds the signed reflector of [TwampSigned] and the offsets that the
    probe sends to its targets; devices, probes and targets find each other
    through [GeoAccounts] and [ProgramData].

    ** How code becomes definitions

    Integers are [Z], with [wrap] or [swrap] written where Go can leave the
    range of the type. Times are nanoseconds. Byte slices and strings are
    [list Z]; where slices are shared and reused ([TelemetryBuffer]) there is a
    heap of arrays. A struct is a record, updated by [r <| f := v |>]. A
    function that can fail or panic returns a [res] or an [option]; a client
    service can also block forever ([E] in [ClientServices]). Maps are [gmap].
    Objects shared by several owners, such as sessions and plugins, live in a
    store and are named by their address.

    The ledger of the on-chain program is a map from public keys to accounts.
    An account holds its owner and the value last serialised into it, so that a
    read of another type fails as the type tag makes it fail; resource
    extensions and the accounts of the telemetry program are kept as bytes,
    since the code edits them in place. An
    instruction takes the list of accounts the caller chose, with their
    signer and writable marks, and the ledger; it returns the new ledger, an
    error, or a panic, and the last two leave the ledger as it was. The
    theorems on reachable ledgers quantify over every caller and every list of
    accounts.

    A method that holds its lock throughout is one step. Goroutines that were
    started and have not run, timers, and messages in flight are part of the
    state, so that the order in which they run is left open; the theorems on
    reachable states quantify over every order. Where a method releases its
    lock half-way and the order matters, it is split at that point
    ([OnEstablished] and the timeouts in [ClientBgp], the sender cache in [TelemetryCollector],
    [Partitioned.get_or_create] in [TelemetryBuffer]).

    Code outside the repository is an argument or a type class: the kernel
    ([RouteReaderWriter], [Netlinker]), the BGP library (what it answers and
    when it calls back), sockets, RPC calls, clocks, random numbers, the text
    template, which 64-bit patterns of floats the encoder takes ([floats]), the
    order in which Go ranges over a map ([range], any permutation), signatures
    ([Ed25519]), the derivation of program addresses, the [ipnetwork] crate
    ([IpNetwork]), the readers of the [borsh-incremental] crate
    ([IncrementalReader]) and the character tables ([Unicode]). The classes
    that carry laws say what the code relies on and have a small
    implementation, on which the witnesses compute: [GroupRoutes],
    [ListedRoutes], [IpNetwork], [IncrementalReader]; [AtomicCluster] (a cluster
    admits a transaction whole or not at all, and its errors name only
    rejected instructions), [AnsweredReads] (account reads are answered) and
    [TelemetryCluster] (a transaction takes effect when it is sent or never),
    where any call may fail, also after its effect; and [PimRouter] (a router
    that takes the messages of RFC 7761 as that document says).

    ** What is proved

    - Liveness. In every reachable state each managed session that is not
      administratively down has its transmission queued, and its detection as
      long as no event was dropped; draining the timers then detects every
      silent peer in time and never early; reception refines an abstract state table; two fresh peers
      come up with three packets; the heap refines a sorted list; packets
      round-trip and malformed ones are refused with the right error; the
      passive mode leaves the kernel alone.
    - Accounts. Every account the program writes is read back, old layouts
      included, and no reader leaves its data.
    - The on-chain program. The leases an allocator has handed out stay
      disjoint and inside its range, for requests of at most 32 addresses; links
      never share a tunnel network or a number other than 0; by the governance
      instructions only those allowed change who is allowed, and the foundation
      can always recover; an account keeps its type. What a caller without
      authority can still do is stated as theorems of its own.
    - Telemetry. The buffer refines a queue although slices are recycled; a
      tick loses no sample the buffer has room for; each peer gets one sample a
      tick; no sender leaks. What a reader finds on chain after a submission,
      through client, cluster and program, whatever others do in between and
      whatever calls fail, are the earlier samples and the first of those the
      submitter was given: all of them on success; on every ledger anyone can reach the readers
      return the history of an account, and the accounts keep to their sizes.
    - On-chain writers. The recorded BGP status of a user follows the ledger
      through every interleaving of tick and worker, apart from listed
      exceptions, and one round of both brings it up to date; a tick of the
      health oracle lands accepted updates only, each at most once, and all of
      them if nothing else fails, although the executor edits the shared array
      between retries; program addresses are distinct; the timed waits end.
    - Probes. A challenge nonce is accepted at most once and only from whom it
      was issued to; a challenged pair over a lossless path completes with a
      verified reply.
    - Geolocation. The decoder of offsets accepts exactly what begins with an
      encoding within its limits. What a device publishes arrives at the targets of a probe,
      signed twice and with the sum of both times; what a probe holds was signed
      by whom it names, whatever arrives. The cache of minimal times is a
      minimum over a sliding window, and sweeping it is not observable. An
      update of the probes of a device is carried out exactly where hosts are
      distinct, and a probe measures exactly what paying users assign to it.
    - Controller. A tunnel slot holds the user that owns it; a configuration
      that is handed out has distinct tunnels and removes exactly the peers
      that are neither known nor foreign.
    - Client daemon. A reconciliation without error reaches what the chain
      asks for and the next one changes nothing while the tunnel sources stay;
      the slots of the manager stay well-formed; an established session is
      reported up whatever its own old timeouts do; a closed session leaves no
      route through its peer; a router joins no group from the PIM datagrams
      that was not asked for, and exactly the current ones if none is lost.
    - Where the code does not do what it means to, a theorem says so and holds
      for every state of that kind: dropped timers that blind detection, a
      restarted peer that is never recognised, retries that duplicate samples,
      a reused slot that keeps its old owner's flags, a group that loses its
      route, a removal that blocks, a request that is lost, a wait for a
      forgotten transaction that never ends, a late answer that fails the next
      probe, a deleted request that unlinks the interface of another link, a probe or
      target that is lost when its port changes, a last target that is never
      removed, a forged offset that hides the offsets of a probe, an offset that
      silences a reflector, a destination that is not ready between refreshes.

    Each theorem with a hypothesis is followed by a witness that applies it to
    a concrete input.

    ** Bounds and fuel

    [heap_up] and [heap_down] get the index and the length of the heap as
    fuel, which [up_ordered] and [down_ordered] show to be enough. The loops of
    the Hello decoder ([decode_options], [decode_addresses]) get the length of
    the data, of which each round consumes at least four bytes; [fold_carry]
    gets two rounds, which fold any 32-bit sum ([fold_carry_spec]). [count_bits]
    gets eight, the bits of a byte; [dec_digits] gets twenty, the
    digits of a 64-bit number. [drain] runs a given number of scheduler iterations, and
    [drain_detects] gives the number after which nothing is due. The polls of
    [Executor] get a number of rounds, [timed_waits_end] gives one that is
    enough for those with a timeout, and the batches get one round for each
    update, since each round lands or removes at least one. The loops over a
    socket ([Twamp], [TwampSigned], [ICMPPinger]) end with what it yields.
    [unmarshalHelper] gets the levels of references it may still enter, as the
    code counts them; [MinCache.expire] gets two rounds, since a backup is
    promoted only if it has not expired. All other recursion is structural.

    ** Not modelled

    Sockets, netlink and namespaces, HTTP and gRPC handlers, metrics, logs,
    databases, object storage, start-up and shutdown: they have no state of
    their own, or state outside the program. JSON and InfluxDB output of the
    accounts. The configuration template. Generated code. The Python and
    TypeScript parts. Of the Rust parts the command line, the SDK and the
    activator, which call the programs; the geolocation and record programs;
    and of the serviceability program the instructions on users, devices, contributors, locations, exchanges,
    tenants and indexes, which follow the pattern of those modelled. Lamports,
    rent and the limits of the runtime on compute and account size. Smaller
    Go programs that were not reached: the latency
    cache, the funder, the internet latency collector, the epoch finder. Of
    geolocation the ClickHouse writer, the rate limiter of a target (its tokens
    are floats; its answer is an argument), IPv6 texts, the command-line sender
    and the instructions of the SDK. An operation of the caches reads the clock
    once. *)

From stdpp Require Import base tactics numbers list strings gmap.
From Stdlib Require Import ZArith Lia ZifyBool.

#[local] Open Scope Z_scope.

(** ** Functional record update

    Go methods mutate a few fields of a large struct.  [r <| f := v |>] is the
    struct [r] with field [f] set to [v]; the setter of a projection is derived
    from the eta-expansion of its record type. *)

Class RecordEta (R : Type) := {
  eta_record : R -> R;
  eta_record_id : forall r, eta_record r = r
}.

Class FieldSetter {R T : Type} (p : R -> T) := {
  set_field : (T -> T) -> R -> R
}.
Arguments set_field {R T} p {_} _ _.

Ltac derive_setter :=
  match goal with
  | |- @FieldSetter ?R ?T ?p =>
      let inst := constr:(_ : RecordEta R) in
      let e := eval cbv beta iota delta [eta_record] in (@eta_record R inst) in
      let e := eval hnf in e in
      let e := eval pattern p in e in
      match e with
      | ?g _ => exact {| set_field := fun f => g (fun r => f (p r)) |}
      end
  end.

#[export] Hint Extern 1 (FieldSetter _) => derive_setter : typeclass_instances.

Declare Scope record_scope.
Open Scope record_scope.
Notation "r <| p := v |>" := (set_field p (fun _ => v) r)
  (at level 1, left associativity, p at level 11) : record_scope.

(** ** Fixed-width integers

    Go integers are kept as [Z]; every conversion and every arithmetic
    operation that can leave the type's range is followed by an explicit
    [wrap] (unsigned) or [swrap] (two's complement). *)

Definition wrap (w x : Z) : Z := x mod 2 ^ w.
Definition swrap (w x : Z) : Z := (x + 2 ^ (w - 1)) mod 2 ^ w - 2 ^ (w - 1).

Abbreviation u8 := (wrap 8).
Abbreviation u16 := (wrap 16).
Abbreviation u32 := (wrap 32).
Abbreviation u64 := (wrap 64).
Abbreviation i64 := (swrap 64).

Definition is_u (w x : Z) : Prop := 0 <= x < 2 ^ w.
Definition is_i (w x : Z) : Prop := - 2 ^ (w - 1) <= x < 2 ^ (w - 1).

Abbreviation is_u8 := (is_u 8).
Abbreviation is_u16 := (is_u 16).
Abbreviation is_u32 := (is_u 32).
Abbreviation is_u64 := (is_u 64).
Abbreviation is_i64 := (is_i 64).

#[export] Instance is_u_dec w x : Decision (is_u w x).
Proof. unfold is_u. apply _. Defined.
#[export] Instance is_i_dec w x : Decision (is_i w x).
Proof. unfold is_i. apply _. Defined.

Definition max_i64 : Z := 2 ^ 63 - 1.
Definition min_i64 : Z := - 2 ^ 63.

(** ** Fallible computations

    [Ok] is a normal return, [Err] a returned Go error, [Panic] a run-time
    panic (slice bounds or index out of range). *)

Inductive res (E A : Type) :=
| Ok (a : A)
| Err (e : E)
| Panic.
Arguments Ok {E A} _.
Arguments Err {E A} _.
Arguments Panic {E A}.

#[export] Instance res_ret {E} : MRet (res E) := fun _ a => Ok a.
#[export] Instance res_bind {E} : MBind (res E) := fun _ _ k m =>
  match m with Ok a => k a | Err e => Err e | Panic => Panic end.

(** ** Go's [time.Time] and [time.Duration]

    A [Time] counts nanoseconds from Go's zero time, so [IsZero t] is [t = 0].
    A [Duration] is an [int64] number of nanoseconds. *)

Definition Time := Z.
Definition Duration := Z.
Definition time_zero : Time := 0.

Definition IsZero (t : Time) : bool := t =? 0.
Definition Before (t u : Time) : bool := t <? u.
Definition After (t u : Time) : bool := u <? t.
Definition TimeEqual (t u : Time) : bool := t =? u.
Definition TimeAdd (t : Time) (d : Duration) : Time := t + d.
(** [Time.Sub] saturates at the limits of [Duration]. *)
Definition TimeSub (t u : Time) : Duration := Z.max min_i64 (Z.min max_i64 (t - u)).

Definition Microsecond : Duration := 1000.
Definition Millisecond : Duration := 1000000.
Definition Second : Duration := 1000000000.
Definition Minute : Duration := 60000000000.

(** ** Automation *)

Create HintDb dz discriminated.

(** Split every [if] and [match] scrutinee of the goal, then of the
    hypotheses, keeping the equations; close what is arithmetic or trivial. *)

Ltac case_goal :=
  match goal with
  | |- context [if ?b then _ else _] =>
      let E := fresh "E" in destruct b eqn:E
  | |- context [match ?o with Some _ => _ | None => _ end] =>
      let E := fresh "E" in destruct o eqn:E
  end.

Ltac case_hyp :=
  match goal with
  | H : context [if ?b then _ else _] |- _ =>
      let E := fresh "E" in destruct b eqn:E
  | H : context [match ?o with Some _ => _ | None => _ end] |- _ =>
      let E := fresh "E" in destruct o eqn:E
  end.

Ltac time_unfold :=
  unfold IsZero, Before, After, TimeEqual, TimeAdd, time_zero in *.

(** ** Integer lemmas *)

Section Integers.
Context (w : Z) (Hw : 0 < w).

Lemma pow_w_pos : 0 < 2 ^ w.
Proof. apply Z.pow_pos_nonneg; lia. Qed.

Lemma pow_w_half : 2 ^ w = 2 * 2 ^ (w - 1).
Proof. rewrite <- Z.pow_succ_r by lia. f_equal. lia. Qed.

Lemma wrap_range x : is_u w (wrap w x).
Proof. apply Z.mod_pos_bound, pow_w_pos. Qed.

Lemma wrap_id x : is_u w x -> wrap w x = x.
Proof. apply Z.mod_small. Qed.

Lemma wrap_wrap x : wrap w (wrap w x) = wrap w x.
Proof. apply wrap_id, wrap_range. Qed.

Lemma swrap_range x : is_i w (swrap w x).
Proof.
  unfold is_i, swrap. pose proof pow_w_half.
  pose proof (Z.mod_pos_bound (x + 2 ^ (w - 1)) (2 ^ w) pow_w_pos). lia.
Qed.

Lemma swrap_id x : is_i w x -> swrap w x = x.
Proof.
  unfold is_i, swrap. pose proof pow_w_half. intros.
  rewrite Z.mod_small by lia. lia.
Qed.
End Integers.

#[export] Hint Resolve wrap_range swrap_range : dz.

(** ** List lemmas *)

Lemma take_app_exact {A} (l k : list A) n : length l = n -> take n (l ++ k) = l.
Proof. intros <-. apply take_app_length. Qed.

Lemma drop_app_exact {A} (l k : list A) n : length l = n -> drop n (l ++ k) = k.
Proof. intros <-. apply drop_app_length. Qed.
