(* ===== verification/Bytes.v ===== *)
(** * Byte buffers

    Buffers are [list Z] whose elements are bytes ([is_u8]).  The file models
    what the code uses of Go's [encoding/binary] (fixed-width little- and
    big-endian integers) and of slice expressions, with the lemmas every wire
    format shares. *)

From stdpp Require Import base tactics numbers list.
From Stdlib Require Import ZArith Lia ZifyBool.
From S2P Require Import Prelude.

#[local] Open Scope Z_scope.

Abbreviation bytes := (list Z).
Definition bytes_ok (b : bytes) : Prop := Forall is_u8 b.

#[export] Instance bytes_ok_dec b : Decision (bytes_ok b).
Proof. unfold bytes_ok. apply _. Defined.

(** ** Fixed-width integers in a buffer *)

Fixpoint le_bytes (n : nat) (v : Z) : bytes :=
  match n with
  | O => []
  | S n => v mod 256 :: le_bytes n (v / 256)
  end.

Fixpoint le_val (b : bytes) : Z :=
  match b with
  | [] => 0
  | x :: b => x + 256 * le_val b
  end.

Definition be_bytes (n : nat) (v : Z) : bytes := rev (le_bytes n v).
Definition be_val (b : bytes) : Z := le_val (rev b).

(** ** Slices: [b[i:j]] and [b[i]], partial as in Go *)

Definition slice (b : bytes) (i j : nat) : bytes := take (j - i) (drop i b).

Definition slice_opt (b : bytes) (i j : nat) : option bytes :=
  if decide (i <= j <= length b)%nat then Some (slice b i j) else None.

(** Array element with Go's zero value; used where a length guard holds. *)
Definition byte_at (b : bytes) (i : nat) : Z := nth i b 0.

(** ** Lemmas *)

Lemma length_le_bytes n v : length (le_bytes n v) = n.
Proof. revert v. induction n; intros; simpl; auto. Qed.

Lemma length_be_bytes n v : length (be_bytes n v) = n.
Proof. unfold be_bytes. rewrite length_rev. apply length_le_bytes. Qed.

Lemma le_bytes_ok n v : bytes_ok (le_bytes n v).
Proof.
  revert v. induction n; intros; simpl; constructor; [|apply IHn].
  apply (Z.mod_pos_bound v 256). lia.
Qed.

Lemma be_bytes_ok n v : bytes_ok (be_bytes n v).
Proof. apply Forall_rev, le_bytes_ok. Qed.

Lemma pow256_S (n : nat) : 2 ^ (8 * Z.of_nat (S n)) = 256 * 2 ^ (8 * Z.of_nat n).
Proof.
  replace (8 * Z.of_nat (S n)) with (8 + 8 * Z.of_nat n) by lia.
  rewrite Z.pow_add_r by lia. reflexivity.
Qed.

Lemma le_val_bytes n v : le_val (le_bytes n v) = wrap (8 * Z.of_nat n) v.
Proof.
  revert v. induction n; intros; cbn [le_bytes le_val].
  - unfold wrap. simpl. by rewrite Z.mod_1_r.
  - rewrite IHn. unfold wrap. rewrite pow256_S.
    rewrite Z.rem_mul_r by lia. lia.
Qed.

Lemma be_val_bytes n v : be_val (be_bytes n v) = wrap (8 * Z.of_nat n) v.
Proof. unfold be_val, be_bytes. rewrite rev_involutive. apply le_val_bytes. Qed.

Lemma le_val_range b : bytes_ok b -> is_u (8 * Z.of_nat (length b)) (le_val b).
Proof.
  unfold is_u. induction 1 as [|x b Hx Hb IH]; simpl le_val; [simpl; lia|].
  cbn [length]. rewrite pow256_S. unfold is_u in *.
  change (2 ^ 8) with 256 in *. lia.
Qed.

Lemma bytes_ok_rev b : bytes_ok b -> bytes_ok (rev b).
Proof. apply Forall_rev. Qed.

Lemma be_val_range b : bytes_ok b -> is_u (8 * Z.of_nat (length b)) (be_val b).
Proof.
  intros. unfold be_val. rewrite <- length_rev.
  by apply le_val_range, bytes_ok_rev.
Qed.

Lemma le_bytes_val b : bytes_ok b -> le_bytes (length b) (le_val b) = b.
Proof.
  induction 1 as [|x b Hx Hb IH]; [done|].
  cbn [length le_bytes le_val]. unfold is_u in Hx. change (2 ^ 8) with 256 in Hx.
  f_equal.
  - rewrite Z.mul_comm, Z.mod_add by lia. apply Z.mod_small. lia.
  - rewrite Z.mul_comm, Z.div_add by lia. rewrite Z.div_small by lia. done.
Qed.

Lemma be_bytes_val b : bytes_ok b -> be_bytes (length b) (be_val b) = b.
Proof.
  intros. unfold be_bytes, be_val. rewrite <- length_rev.
  rewrite le_bytes_val by by apply bytes_ok_rev. apply rev_involutive.
Qed.

Lemma le_round n v : is_u (8 * Z.of_nat n) v -> le_val (le_bytes n v) = v.
Proof. intros. rewrite le_val_bytes. by apply wrap_id. Qed.

Lemma be_round n v : is_u (8 * Z.of_nat n) v -> be_val (be_bytes n v) = v.
Proof. intros. rewrite be_val_bytes. by apply wrap_id. Qed.

Lemma bytes_ok_app b c : bytes_ok (b ++ c) <-> bytes_ok b /\ bytes_ok c.
Proof. apply Forall_app. Qed.

Lemma bytes_ok_take n b : bytes_ok b -> bytes_ok (take n b).
Proof. apply Forall_take. Qed.

Lemma bytes_ok_drop n b : bytes_ok b -> bytes_ok (drop n b).
Proof. apply Forall_drop. Qed.

Lemma bytes_ok_slice b i j : bytes_ok b -> bytes_ok (slice b i j).
Proof. intros. by apply bytes_ok_take, bytes_ok_drop. Qed.

Lemma bytes_ok_zeros n : bytes_ok (replicate n 0).
Proof. apply Forall_replicate. done. Qed.

Lemma byte_at_ok b i : bytes_ok b -> is_u8 (byte_at b i).
Proof.
  intros Hb. unfold byte_at. revert i.
  induction Hb; intros [|i]; simpl; try done.
Qed.

Lemma length_slice b i j : (i <= j <= length b)%nat -> length (slice b i j) = (j - i)%nat.
Proof. intros. unfold slice. rewrite length_take, length_drop. lia. Qed.

#[export] Hint Resolve le_bytes_ok be_bytes_ok bytes_ok_take bytes_ok_drop
  bytes_ok_slice bytes_ok_zeros byte_at_ok bytes_ok_rev : dz.

Create Rewrite HintDb bytes.
#[export] Hint Rewrite length_le_bytes length_be_bytes @length_app @length_cons
  @length_nil @length_replicate : bytes.

(** A fixed-width field as its individual bytes, so that indexing into a
    concatenation computes. *)

Lemma be_bytes_4 v : is_u32 v ->
  exists a b c d, be_bytes 4 v = [a; b; c; d] /\ be_val [a; b; c; d] = v.
Proof. intros. repeat eexists. by apply (be_round 4). Qed.

Lemma be_bytes_2 v : is_u16 v -> exists a b, be_bytes 2 v = [a; b] /\ be_val [a; b] = v.
Proof. intros. repeat eexists. by apply (be_round 2). Qed.

Ltac explode_be :=
  repeat match goal with
  | |- context [be_bytes 4 ?v] =>
      let H1 := fresh in let H2 := fresh in
      destruct (be_bytes_4 v) as (? & ? & ? & ? & H1 & H2); [assumption|]; rewrite H1; clear H1
  | |- context [be_bytes 2 ?v] =>
      let H1 := fresh in let H2 := fresh in
      destruct (be_bytes_2 v) as (? & ? & H1 & H2); [assumption|]; rewrite H1; clear H1
  end.

(** ** Wire formats

    What a packet type promises to the code that sends and receives it: every
    valid value survives encoding and decoding. *)

Class Codec (A E : Type) := {
  enc : A -> bytes;
  dec : bytes -> res E A;
  valid : A -> Prop;
  dec_enc : forall a, valid a -> dec (enc a) = Ok a
}.

Section Codec.
Context {A E : Type} `{!Codec A E}.

(** Distinct valid values have distinct encodings. *)
Lemma enc_inj a b : valid a -> valid b -> enc a = enc b -> a = b.
Proof.
  intros Ha Hb H. apply dec_enc in Ha, Hb. rewrite H, Hb in Ha. by injection Ha.
Qed.
End Codec.
