(* ===== verification/GoStrings.v ===== *)
(** * Go strings

    A Go string is its byte sequence.  The functions below are the parts of
    packages [strings], [strconv] and [fmt] the modelled code calls, on ASCII
    input (bytes below 128), which is what versions, addresses and labels
    contain. *)

From stdpp Require Import base tactics numbers list.
From Stdlib Require Import ZArith Lia ZifyBool.
From Stdlib Require Ascii String.
Export String.StringSyntax.
From S2P Require Import Prelude Bytes.

#[local] Open Scope Z_scope.

(** A string literal as bytes. *)
Definition lit (s : String.string) : bytes :=
  map (fun a => Z.of_N (Ascii.N_of_ascii a)) (String.list_ascii_of_string s).
Arguments lit s%_string_scope.

(** ** [strings] *)

Definition is_space (c : Z) : bool :=
  (c =? 32) || (c =? 9) || (c =? 10) || (c =? 11) || (c =? 12) || (c =? 13).

Fixpoint trim_left (s : bytes) : bytes :=
  match s with
  | [] => []
  | c :: s' => if is_space c then trim_left s' else s
  end.

Definition TrimSpace (s : bytes) : bytes := rev (trim_left (rev (trim_left s))).

Definition any_of (chars : bytes) (c : Z) : bool := existsb (Z.eqb c) chars.

Fixpoint IndexAny (s chars : bytes) : option nat :=
  match s with
  | [] => None
  | c :: s' => if any_of chars c then Some O else S <$> IndexAny s' chars
  end.

(** ** Runes *)

Definition RuneError : Z := 65533.
Definition between (lo hi c : Z) : bool := (lo <=? c) && (c <=? hi).
(** The range of the second byte, by the first one ([unicode/utf8]). *)
Definition second_range (b0 : Z) : Z * Z :=
  if b0 =? 224 then (160, 191) else if b0 =? 237 then (128, 159) else if b0 =? 240 then (144, 191) else if b0 =? 244 then (128, 143) else (128, 191).

(** What a range over a string yields; a byte that starts no valid sequence is
    [RuneError] on its own. *)
Fixpoint runes (s : bytes) : list Z :=
  match s with
  | [] => []
  | b0 :: s1 =>
      if b0 <? 128 then b0 :: runes s1
      else if negb (between 194 244 b0) then RuneError :: runes s1
      else match s1 with
           | [] => [RuneError]
           | b1 :: s2 =>
               if negb (between (second_range b0).1 (second_range b0).2 b1) then RuneError :: runes s1
               else if b0 <? 224 then ((b0 - 192) * 64 + (b1 - 128)) :: runes s2
               else match s2 with
                    | [] => RuneError :: runes s1
                    | b2 :: s3 =>
                        if negb (between 128 191 b2) then RuneError :: runes s1
                        else if b0 <? 240 then ((b0 - 224) * 4096 + (b1 - 128) * 64 + (b2 - 128)) :: runes s3
                        else match s3 with
                             | [] => RuneError :: runes s1
                             | b3 :: s4 =>
                                 if negb (between 128 191 b3) then RuneError :: runes s1
                                 else ((b0 - 240) * 262144 + (b1 - 128) * 4096 + (b2 - 128) * 64 + (b3 - 128)) :: runes s4
                             end
                    end
           end
  end.

(** [unicode.IsControl] and [unicode.IsSpace] *)
Definition IsControl (r : Z) : bool := between 0 31 r || between 127 159 r.
Definition IsSpace (r : Z) : bool :=
  between 9 13 r || between 8192 8202 r || existsb (Z.eqb r) [32; 133; 160; 5760; 8232; 8233; 8239; 8287; 12288].


(** [strings.Split] on a one-byte separator. *)
Fixpoint Split (s : bytes) (sep : Z) : list bytes :=
  match s with
  | [] => [[]]
  | c :: s' =>
      if c =? sep then [] :: Split s' sep
      else match Split s' sep with
           | [] => [[c]]
           | h :: t => (c :: h) :: t
           end
  end.

(** [strings.SplitN(s, sep, 2)] on a one-byte separator. *)
Definition SplitN2 (s : bytes) (sep : Z) : list bytes :=
  match IndexAny s [sep] with
  | Some i => [take i s; drop (S i) s]
  | None => [s]
  end.

Definition to_lower (c : Z) : Z := if (65 <=? c) && (c <=? 90) then c + 32 else c.
Definition ToLower (s : bytes) : bytes := map to_lower s.

Definition HasPrefix (s p : bytes) : bool := bool_decide (take (length p) s = p).

Fixpoint Contains (s p : bytes) : bool :=
  HasPrefix s p || match s with [] => false | _ :: s' => Contains s' p end.

Fixpoint Join (parts : list bytes) (sep : bytes) : bytes :=
  match parts with
  | [] => []
  | [p] => p
  | p :: rest => p ++ sep ++ Join rest sep
  end.

(** ** [strconv] and [%d] *)

Definition digit_val (c : Z) : option Z :=
  if (48 <=? c) && (c <=? 57) then Some (c - 48) else None.

Fixpoint digits_val (acc : Z) (s : bytes) : option Z :=
  match s with
  | [] => Some acc
  | c :: s' => d ← digit_val c; digits_val (10 * acc + d) s'
  end.

(** [strconv.Atoi]: an optional sign, one or more decimal digits, a value that
    fits in [int] (64 bits); [None] is the returned error. *)
Definition Atoi (s : bytes) : option Z :=
  let '(neg, ds) :=
    match s with
    | c :: s' => if c =? 45 then (true, s') else if c =? 43 then (false, s') else (false, s)
    | [] => (false, s)
    end in
  match ds with
  | [] => None
  | _ =>
      v ← digits_val 0 ds;
      let v := if (neg : bool) then - v else v in
      if bool_decide (is_i64 v) then Some v else None
  end.

(** Decimal digits of a non-negative integer, most significant first; [fuel]
    bounds the number of digits. *)
Fixpoint dec_digits (fuel : nat) (n : Z) (acc : bytes) : bytes :=
  match fuel with
  | O => acc
  | S fuel =>
      let acc := (48 + n mod 10) :: acc in
      if n / 10 =? 0 then acc else dec_digits fuel (n / 10) acc
  end.

(** [fmt.Sprintf("%d", n)] for an unsigned integer of at most 64 bits (20
    digits). *)
Definition format_uint (n : Z) : bytes := dec_digits 20 n [].

(** ** Lemmas *)

Lemma trim_left_id s :
  match s with [] => True | c :: _ => is_space c = false end -> trim_left s = s.
Proof. destruct s; simpl; [done|]. by intros ->. Qed.

Lemma TrimSpace_id s : Forall (fun c => is_space c = false) s -> TrimSpace s = s.
Proof.
  intros H. unfold TrimSpace.
  rewrite (trim_left_id s) by by destruct H.
  rewrite (trim_left_id (rev s)); [apply rev_involutive|].
  apply Forall_rev in H. by destruct H.
Qed.

Lemma IndexAny_None s chars :
  Forall (fun c => any_of chars c = false) s -> IndexAny s chars = None.
Proof. induction 1 as [|c s Hc _ IH]; simpl; [done|]. by rewrite Hc, IH. Qed.

Lemma IndexAny_app s t chars c :
  Forall (fun c => any_of chars c = false) s -> any_of chars c = true ->
  IndexAny (s ++ c :: t) chars = Some (length s).
Proof.
  induction 1 as [|x s Hx _ IH]; simpl; intros Hc; [by rewrite Hc|].
  by rewrite Hx, IH.
Qed.

Lemma SplitN2_None s sep :
  Forall (fun c => any_of [sep] c = false) s -> SplitN2 s sep = [s].
Proof. intros. unfold SplitN2. by rewrite IndexAny_None. Qed.

Lemma SplitN2_app s t sep :
  Forall (fun c => any_of [sep] c = false) s -> SplitN2 (s ++ sep :: t) sep = [s; t].
Proof.
  intros. unfold SplitN2. rewrite IndexAny_app; [|done|unfold any_of; simpl; lia].
  rewrite take_app_exact by done.
  change (sep :: t) with ([sep] ++ t). rewrite app_assoc, drop_app_exact; [done|].
  rewrite length_app. simpl. lia.
Qed.

Lemma Split_None s sep : Forall (fun c => (c =? sep) = false) s -> Split s sep = [s].
Proof. induction 1 as [|c s Hc _ IH]; simpl; [done|]. by rewrite Hc, IH. Qed.

Lemma Split_app s t sep :
  Forall (fun c => (c =? sep) = false) s -> Split (s ++ sep :: t) sep = s :: Split t sep.
Proof.
  induction 1 as [|c s Hc _ IH]; simpl; [by rewrite Z.eqb_refl|].
  by rewrite Hc, IH.
Qed.

(** A property of every byte value, checked by evaluation. *)
Definition all_bytes (f : Z -> bool) : bool :=
  forallb (fun n => f (Z.of_nat n)) (seq 0 256).

Lemma all_bytes_spec f : all_bytes f = true -> forall n, is_u8 n -> f n = true.
Proof.
  unfold all_bytes. rewrite forallb_forall. intros H n [Hl Hu].
  change (2 ^ 8) with 256 in Hu.
  rewrite <- (Z2Nat.id n) by done. apply H, in_seq. lia.
Qed.

Lemma format_uint_digits n : is_u8 n ->
  Forall (fun c => digit_val c <> None) (format_uint n) /\ format_uint n <> [] /\
  Atoi (format_uint n) = Some n.
Proof.
  intros Hn.
  pose (f := fun n => bool_decide (Forall (fun c => digit_val c <> None) (format_uint n) /\
    format_uint n <> [] /\ Atoi (format_uint n) = Some n)).
  assert (f n = true) as H by (apply all_bytes_spec; [vm_compute; reflexivity|done]).
  unfold f in H. by apply bool_decide_eq_true in H.
Qed.

(** Evaluate decimal printing only on closed terms ([vm_compute]). *)
#[global] Opaque format_uint.
#[global] Arguments format_uint : simpl never.
