(* ===== verification/GoCollections.v ===== *)
(** * Go maps, sorting and string order

    Maps built by a loop over records ([index_by]: a later record of the same
    key wins), and [sort.Slice] on a key: a permutation of the input sorted by
    the key. [sort.Slice] is not stable; where the keys are distinct the result
    is unique, which is what the clients rely on ([sort_on_unique]). Go
    compares strings byte by byte. *)

From stdpp Require Import base tactics numbers list gmap sorting.
From Stdlib Require Import ZArith Lia ZifyBool.
From S2P Require Import Prelude Bytes.

#[local] Open Scope Z_scope.

(** ** String order *)

Fixpoint bytes_le (s t : bytes) : Prop :=
  match s, t with
  | [], _ => True
  | _ :: _, [] => False
  | a :: s, b :: t => a < b \/ (a = b /\ bytes_le s t)
  end.

#[global] Instance bytes_le_dec s t : Decision (bytes_le s t).
Proof. revert t. induction s as [|a s IH]; intros [|b t]; cbn; apply _. Defined.

#[global] Instance bytes_le_trans : Transitive bytes_le.
Proof.
  intros s. induction s as [|a s IH]; intros [|b t] [|c u]; cbn; try done.
  intros [?|[-> ?]] [?|[-> ?]]; [left; lia|left; lia|left; lia|right]. split; [done|]. by eapply IH.
Qed.

#[global] Instance bytes_le_total : Total bytes_le.
Proof.
  intros s. induction s as [|a s IH]; intros [|b t]; cbn; [by left|by left|by right|].
  destruct (Z.lt_total a b) as [?|[->|?]]; [by left; left| |by right; left].
  destruct (IH t); [left|right]; by right.
Qed.

#[global] Instance bytes_le_antisymm : AntiSymm (=) bytes_le.
Proof.
  intros s. induction s as [|a s IH]; intros [|b t]; cbn; try done.
  intros [?|[-> ?]] [?|[? ?]]; [lia|lia|lia|]. f_equal. by apply IH.
Qed.

(** ** [sort.Slice] on a key *)

Section SortOn.
Context {A K : Type} (le : K -> K -> Prop) `{!Transitive le, !Total le, !AntiSymm (=) le}.
Context `{forall x y, Decision (le x y)} (key : A -> K).

Definition key_le (a b : A) : Prop := le (key a) (key b).

#[local] Instance key_le_dec a b : Decision (key_le a b).
Proof. unfold key_le. apply _. Defined.

Definition sort_on (l : list A) : list A := merge_sort key_le l.

#[local] Instance key_le_trans : Transitive key_le.
Proof. intros a b c. unfold key_le. apply transitivity. Qed.

#[local] Instance key_le_total : Total key_le.
Proof. intros a b. unfold key_le. apply total; apply _. Qed.

Lemma sort_on_perm l : sort_on l ≡ₚ l.
Proof. apply merge_sort_Permutation. Qed.

Lemma sort_on_sorted l : StronglySorted key_le (sort_on l).
Proof. apply StronglySorted_merge_sort; apply _. Qed.

Lemma key_inj (l : list A) a b : NoDup (key <$> l) -> a ∈ l -> b ∈ l -> key a = key b -> a = b.
Proof.
  induction l as [|c l IH]; cbn; [by intros _ ?%not_elem_of_nil|].
  intros [Hc Hn]%NoDup_cons Ha Hb He.
  apply elem_of_cons in Ha as [->|Ha], Hb as [->|Hb]; [done| | |by apply IH].
  - exfalso. apply Hc. rewrite He. by apply list_elem_of_fmap_2.
  - exfalso. apply Hc. rewrite <- He. by apply list_elem_of_fmap_2.
Qed.

(** With distinct keys, every sorted permutation is the same list. *)
Lemma sorted_unique l l' : NoDup (key <$> l) -> l ≡ₚ l' ->
  StronglySorted key_le l -> StronglySorted key_le l' -> l = l'.
Proof.
  intros Hn Hp Hs Hs'. apply (StronglySorted_unique_strong key_le); [|done..].
  intros a b Ha Hb Hab Hba. apply (key_inj l); [done|done|by rewrite Hp|].
  by apply (anti_symm le).
Qed.

Lemma sort_on_unique l l' : NoDup (key <$> l) -> l ≡ₚ l' -> sort_on l = sort_on l'.
Proof.
  intros Hn Hp. apply sorted_unique.
  - by rewrite sort_on_perm.
  - by rewrite !sort_on_perm.
  - apply sort_on_sorted.
  - apply sort_on_sorted.
Qed.
End SortOn.
#[global] Typeclasses Opaque key_le.

(** ** Maps by key *)

(** Later entries of the same key win. *)
Definition index_by {A} (key : A -> bytes) (l : list A) : gmap bytes A :=
  foldl (fun m a => <[key a := a]> m) ∅ l.

Lemma index_by_elem {A} (key : A -> bytes) l k a : index_by key l !! k = Some a -> a ∈ l /\ key a = k.
Proof.
  unfold index_by. induction l as [|x l IH] using rev_ind; [by cbn; rewrite lookup_empty|].
  rewrite foldl_snoc, lookup_insert_Some, elem_of_app, list_elem_of_singleton.
  intros [[<- <-]|[_ Ha]]; [by auto|]. apply IH in Ha as [Ha Hk]. by auto.
Qed.

Lemma index_by_lookup {A} (key : A -> bytes) l k a : NoDup (key <$> l) ->
  index_by key l !! k = Some a <-> a ∈ l /\ key a = k.
Proof.
  intros Hnd. split; [apply index_by_elem|]. unfold index_by. revert Hnd.
  induction l as [|x l IH] using rev_ind; intros Hnd [Ha Hk]; [by apply elem_of_nil in Ha|].
  rewrite fmap_app, NoDup_app in Hnd. destruct Hnd as (Hnd & Hx & _).
  rewrite foldl_snoc, lookup_insert_Some.
  apply elem_of_app in Ha as [Ha|Ha%list_elem_of_singleton]; [right|left; by subst].
  split; [|by apply IH]. intros Heq. apply (Hx (key a)); [by apply list_elem_of_fmap_2|].
  rewrite Hk, <- Heq. by left.
Qed.
