(* ===== verification/LivenessVersion.v ===== *)
(** * Route liveness: the client version advertised on the wire

    Models [client/doublezerod/internal/liveness/version.go]. *)

From stdpp Require Import base tactics numbers list.
From Stdlib Require Import ZArith Lia ZifyBool.
From S2P Require Import Prelude Bytes GoStrings.

#[local] Open Scope Z_scope.

Module ClientVersion.

(** [ClientVersionChannel] is a [uint8]; any byte can arrive from the wire. *)
Definition ClientVersionChannel := Z.
Definition VersionChannelStable : ClientVersionChannel := 0.
Definition VersionChannelAlpha : ClientVersionChannel := 1.
Definition VersionChannelBeta : ClientVersionChannel := 2.
Definition VersionChannelRC : ClientVersionChannel := 3.
Definition VersionChannelDev : ClientVersionChannel := 4.
Definition VersionChannelOther : ClientVersionChannel := 5.

Definition channel_String (ch : ClientVersionChannel) : bytes :=
  if ch =? VersionChannelStable then lit ""
  else if ch =? VersionChannelAlpha then lit "-alpha"
  else if ch =? VersionChannelBeta then lit "-beta"
  else if ch =? VersionChannelRC then lit "-rc"
  else if ch =? VersionChannelDev then lit "-dev"
  else if ch =? VersionChannelOther then lit "-other"
  else lit "-unknown(" ++ format_uint ch ++ lit ")".

Record t := mk {
  Major : Z;
  Minor : Z;
  Patch : Z;
  Channel : ClientVersionChannel
}.

#[global] Instance eq_dec : EqDecision t.
Proof. solve_decision. Defined.

Definition wf (v : t) : Prop :=
  is_u8 (Major v) /\ is_u8 (Minor v) /\ is_u8 (Patch v) /\ is_u8 (Channel v).

Definition String (v : t) : bytes :=
  format_uint (Major v) ++ lit "." ++ format_uint (Minor v) ++ lit "." ++
  format_uint (Patch v) ++ channel_String (Channel v).

Inductive error :=
| EmptyVersion
| NotThreeParts
| InvalidMajor
| InvalidMinor
| InvalidPatch.

(** One numeric component: [Atoi] and the 0..255 range check. *)
Definition parse_component (s : bytes) (e : error) : res error Z :=
  match Atoi s with
  | Some n => if (n <? 0) || (255 <? n) then Err e else Ok n
  | None => Err e
  end.

(** The release channel of the suffix after the first ['-']. *)
Definition parse_channel (suffix : bytes) : ClientVersionChannel :=
  let suffix :=
    match IndexAny suffix (lit "+~.") with
    | Some idx => take idx suffix
    | None => suffix
    end in
  let l := ToLower suffix in
  if bool_decide (l = lit "alpha") then VersionChannelAlpha
  else if bool_decide (l = lit "beta") then VersionChannelBeta
  else if bool_decide (l = lit "rc") then VersionChannelRC
  else if bool_decide (l = lit "dev") then VersionChannelDev
  else VersionChannelOther.

Definition ParseClientVersion (s : bytes) : res error t :=
  let s := TrimSpace s in
  if bool_decide (s = []) then Err EmptyVersion else
  let parts := SplitN2 s 45 in
  let rawNumeric := default [] (parts !! 0%nat) in
  let '(numeric, meta) :=
    match IndexAny rawNumeric (lit "~+") with
    | Some idx =>
        (take idx rawNumeric,
         if decide (idx + 1 < length rawNumeric)%nat then drop (idx + 1) rawNumeric else [])
    | None => (rawNumeric, [])
    end in
  match Split numeric 46 with
  | [n0; n1; n2] =>
      maj ← parse_component n0 InvalidMajor;
      min ← parse_component n1 InvalidMinor;
      pat ← parse_component n2 InvalidPatch;
      let ch :=
        match parts !! 1%nat with
        | Some suffix => parse_channel suffix
        | None => VersionChannelStable
        end in
      let ch :=
        if (ch =? VersionChannelStable) && Contains (ToLower meta) (lit "git")
        then VersionChannelDev else ch in
      mret (mk (u8 maj) (u8 min) (u8 pat) ch)
  | _ => Err NotThreeParts
  end.

(** ** Lemmas *)

(** Digits are none of the separators the parser looks for. *)
Lemma digit_not_sep c : digit_val c <> None ->
  is_space c = false /\ any_of [45] c = false /\ any_of (lit "~+") c = false /\
  (c =? 46) = false.
Proof.
  unfold digit_val. case_goal; [intros _|done].
  unfold is_space, any_of. simpl. lia.
Qed.

Definition numeric_part (v : t) : bytes :=
  format_uint (Major v) ++ 46 :: format_uint (Minor v) ++ 46 :: format_uint (Patch v).

Lemma String_split v : String v = numeric_part v ++ channel_String (Channel v).
Proof. unfold String, numeric_part. rewrite <- !app_assoc. simpl. by rewrite <- !app_assoc. Qed.

Lemma Split_numeric v : wf v ->
  Split (numeric_part v) 46 =
  [format_uint (Major v); format_uint (Minor v); format_uint (Patch v)].
Proof.
  intros (H1 & H2 & H3 & _).
  destruct (format_uint_digits _ H1) as [D1 _], (format_uint_digits _ H2) as [D2 _],
    (format_uint_digits _ H3) as [D3 _].
  unfold numeric_part.
  rewrite Split_app by (eapply Forall_impl; [exact D1|apply digit_not_sep]).
  rewrite Split_app by (eapply Forall_impl; [exact D2|apply digit_not_sep]).
  by rewrite Split_None by (eapply Forall_impl; [exact D3|apply digit_not_sep]).
Qed.

Lemma numeric_forall v (P : Z -> Prop) : wf v ->
  (forall c, digit_val c <> None -> P c) -> P 46 -> Forall P (numeric_part v).
Proof.
  intros (H1 & H2 & H3 & _) Hd Hdot.
  assert (forall n, is_u8 n -> Forall P (format_uint n)) as HF.
  { intros n Hn. destruct (format_uint_digits _ Hn) as [D _].
    eapply Forall_impl; [exact D|exact Hd]. }
  unfold numeric_part. rewrite Forall_app, Forall_cons, Forall_app, Forall_cons.
  exact (conj (HF _ H1) (conj Hdot (conj (HF _ H2) (conj Hdot (HF _ H3))))).
Qed.

Lemma parse_component_format n e : is_u8 n -> parse_component (format_uint n) e = Ok n.
Proof.
  intros Hn. unfold parse_component. destruct (format_uint_digits n Hn) as (_ & _ & ->).
  unfold is_u in Hn. change (2 ^ 8) with 256 in Hn. case_goal; [lia|done].
Qed.

(** What the parser makes of a numeric part followed by a channel suffix. *)
Definition suffix_channel (suffix : bytes) : ClientVersionChannel :=
  match suffix with
  | 45 :: rest => parse_channel rest
  | _ => VersionChannelStable
  end.

Lemma Parse_numeric v suffix : wf v ->
  Forall (fun c => is_space c = false) suffix ->
  (suffix = [] \/ exists rest, suffix = 45 :: rest) ->
  ParseClientVersion (numeric_part v ++ suffix) =
  Ok (mk (Major v) (Minor v) (Patch v) (suffix_channel suffix)).
Proof.
  intros Hv Hsp Hsuf. unfold ParseClientVersion.
  rewrite TrimSpace_id by
    (apply Forall_app; split; [apply numeric_forall; [done|apply digit_not_sep|done]|done]).
  rewrite bool_decide_eq_false_2.
  2: { destruct (format_uint_digits (Major v)) as (_ & Hne & _); [apply Hv|].
       unfold numeric_part. by destruct (format_uint (Major v)). }
  assert (SplitN2 (numeric_part v ++ suffix) 45 =
          numeric_part v :: match suffix with [] => [] | _ :: r => [r] end) as ->.
  { assert (Forall (fun c => any_of [45] c = false) (numeric_part v))
      by (apply numeric_forall; [done|apply digit_not_sep|done]).
    destruct Hsuf as [->|[rest ->]]; [rewrite app_nil_r; by apply SplitN2_None|].
    by apply SplitN2_app. }
  cbn [default lookup list_lookup].
  rewrite IndexAny_None by (apply numeric_forall; [done|apply digit_not_sep|done]).
  cbv beta iota zeta delta [id].
  rewrite Split_numeric by done. destruct Hv as (H1 & H2 & H3 & _).
  rewrite !parse_component_format by done. simpl.
  rewrite !wrap_id by (done || lia).
  destruct Hsuf as [->|[rest ->]]; [done|]. cbn. by rewrite andb_false_r.
Qed.

(** Printing a client version and parsing the result gives the version
    back, for every major, minor and patch byte and each of the six named
    release channels. *)
Theorem ParseClientVersion_String v :
  wf v -> Channel v <= VersionChannelOther ->
  ParseClientVersion (String v) = Ok v.
Proof.
  intros Hv Hch. rewrite String_split.
  assert (Channel v = 0 \/ Channel v = 1 \/ Channel v = 2 \/ Channel v = 3 \/
          Channel v = 4 \/ Channel v = 5) as Hcases.
  { destruct Hv as (_ & _ & _ & [Hlo _]). unfold VersionChannelOther in Hch. lia. }
  rewrite Parse_numeric; try done;
    destruct v as [maj min pat ch]; cbn [Channel Major Minor Patch] in *;
    destruct Hcases as [->|[->|[->|[->|[->| ->]]]]];
    solve [done | by left | right; eexists; reflexivity | repeat constructor].
Qed.

Lemma ParseClientVersion_String_witness :
  wf (mk 0 8 255 VersionChannelRC) /\
  ParseClientVersion (lit "0.8.255-rc") = Ok (mk 0 8 255 VersionChannelRC).
Proof.
  split; [vm_compute; intuition congruence|].
  apply (ParseClientVersion_String (mk 0 8 255 VersionChannelRC));
    vm_compute; intuition congruence.
Defined.
End ClientVersion.
