(* ===== verification/LivenessPacket.v ===== *)
(** * Route liveness: control packets

    Models [client/doublezerod/internal/liveness/packet.go]: the session
    states and the fixed 40-byte control packet. *)

From stdpp Require Import base tactics numbers list.
From Stdlib Require Import ZArith Lia ZifyBool.
From S2P Require Import Prelude Bytes GoStrings LivenessVersion.

#[local] Open Scope Z_scope.

(** ** Session states *)

Inductive State :=
| StateAdminDown
| StateDown
| StateInit
| StateUp.

#[global] Instance State_eq_dec : EqDecision State.
Proof. solve_decision. Defined.

Definition state_code (s : State) : Z :=
  match s with StateAdminDown => 0 | StateDown => 1 | StateInit => 2 | StateUp => 3 end.

(** The state of a two-bit code. *)
Definition state_of_code (z : Z) : State :=
  if z =? 0 then StateAdminDown
  else if z =? 1 then StateDown
  else if z =? 2 then StateInit
  else StateUp.

Definition state_String (s : State) : bytes :=
  match s with
  | StateAdminDown => lit "admin_down"
  | StateDown => lit "down"
  | StateInit => lit "init"
  | StateUp => lit "up"
  end.

Module ControlPacket.

Definition FlagPassive : Z := 1.

Record t := mk {
  Version : Z;
  PktState : State;
  DetectMult : Z;
  Length : Z;
  LocalDiscr : Z;
  PeerDiscr : Z;
  DesiredMinTxUs : Z;
  RequiredMinRxUs : Z;
  Flags : Z;
  Client : ClientVersion.t
}.

#[global] Instance eta : RecordEta t := {
  eta_record := fun r => mk (Version r) (PktState r) (DetectMult r) (Length r)
    (LocalDiscr r) (PeerDiscr r) (DesiredMinTxUs r) (RequiredMinRxUs r) (Flags r)
    (Client r);
  eta_record_id := fun r => match r with mk _ _ _ _ _ _ _ _ _ _ => eq_refl end
}.

#[global] Instance eq_dec : EqDecision t.
Proof. solve_decision. Defined.

Inductive error :=
| ErrShortPacket
| ErrInvalidLength
| ErrUnsupportedVersion (ver : Z).

Definition Marshal (c : t) : bytes :=
  let vd := u8 (Z.shiftl (Z.land (Version c) 7) 5) in
  let sf := u8 (Z.shiftl (Z.land (state_code (PktState c)) 3) 6) in
  [vd; sf; DetectMult c; 40] ++
  be_bytes 4 (LocalDiscr c) ++
  be_bytes 4 (PeerDiscr c) ++
  be_bytes 4 (DesiredMinTxUs c) ++
  be_bytes 4 (RequiredMinRxUs c) ++
  [Flags c] ++
  [ClientVersion.Major (Client c); ClientVersion.Minor (Client c);
   ClientVersion.Patch (Client c); ClientVersion.Channel (Client c)] ++
  replicate 15 0.

Definition UnmarshalControlPacket (b : bytes) : res error t :=
  if decide (length b < 40)%nat then Err ErrShortPacket
  else if negb (byte_at b 3 =? 40) then Err ErrInvalidLength
  else
    let vd := byte_at b 0 in
    let sf := byte_at b 1 in
    let ver := Z.land (Z.shiftr vd 5) 7 in
    if negb (ver =? 1) then Err (ErrUnsupportedVersion ver)
    else
      let rd off := be_val (slice b off (off + 4)) in
      Ok {| Version := ver;
            PktState := state_of_code (Z.land (Z.shiftr sf 6) 3);
            DetectMult := byte_at b 2;
            Length := byte_at b 3;
            LocalDiscr := rd 4%nat;
            PeerDiscr := rd 8%nat;
            DesiredMinTxUs := rd 12%nat;
            RequiredMinRxUs := rd 16%nat;
            Flags := byte_at b 20;
            Client := {| ClientVersion.Major := byte_at b 21;
                         ClientVersion.Minor := byte_at b 22;
                         ClientVersion.Patch := byte_at b 23;
                         ClientVersion.Channel := byte_at b 24 |} |}.

Definition SetPassive (c : t) : t := c <| Flags := Z.lor (Flags c) FlagPassive |>.

Definition IsPassive (c : t) : bool := negb (Z.land (Flags c) FlagPassive =? 0).

Definition FlagsString (c : t) : bytes :=
  if Flags c =? 0 then lit "none"
  else
    let parts := if negb (Z.land (Flags c) FlagPassive =? 0) then [lit "passive"] else [] in
    Join parts (lit ",").

(** A packet as the code builds or receives it: every field within its width,
    version 1 and length 40. *)
Definition wf (c : t) : Prop :=
  Version c = 1 /\ Length c = 40 /\
  is_u8 (DetectMult c) /\ is_u8 (Flags c) /\
  is_u32 (LocalDiscr c) /\ is_u32 (PeerDiscr c) /\
  is_u32 (DesiredMinTxUs c) /\ is_u32 (RequiredMinRxUs c) /\
  ClientVersion.wf (Client c).

(** ** Lemmas *)

Lemma length_Marshal c : length (Marshal c) = 40%nat.
Proof. unfold Marshal. autorewrite with bytes. reflexivity. Qed.

Lemma state_bits s :
  state_of_code (Z.land (Z.shiftr (u8 (Z.shiftl (Z.land (state_code s) 3) 6)) 6) 3) = s.
Proof. by destruct s. Qed.

Lemma Unmarshal_Marshal c extra : wf c -> UnmarshalControlPacket (Marshal c ++ extra) = Ok c.
Proof.
  intros (HV & HL & HD & HF & H1 & H2 & H3 & H4 & _).
  unfold UnmarshalControlPacket. rewrite decide_False by
    (rewrite length_app, length_Marshal; lia).
  destruct c as [v s dm len ld pd tx rx fl [ma mi pa ch]].
  cbn in HV, HL, HD, HF, H1, H2, H3, H4. subst v len.
  unfold Marshal. cbn [Version PktState DetectMult LocalDiscr PeerDiscr DesiredMinTxUs
    RequiredMinRxUs Flags Client].
  explode_be. cbn -[Z.shiftl Z.shiftr Z.land wrap be_val].
  change (Z.land (Z.shiftr (u8 (Z.shiftl (Z.land 1 7) 5)) 5) 7) with 1.
  rewrite state_bits. cbn [negb Z.eqb Pos.eqb]. congruence.
Qed.

Lemma Unmarshal_Marshal_exact c : wf c -> UnmarshalControlPacket (Marshal c) = Ok c.
Proof. intros. rewrite <- (app_nil_r (Marshal c)). by apply Unmarshal_Marshal. Qed.

#[global] Instance packet_codec : Codec t error := {
  enc := Marshal;
  dec := UnmarshalControlPacket;
  valid := wf;
  dec_enc := Unmarshal_Marshal_exact
}.

Lemma Unmarshal_wf b c : bytes_ok b -> UnmarshalControlPacket b = Ok c -> wf c.
Proof.
  intros Hb. unfold UnmarshalControlPacket.
  destruct (decide _) as [|Hlen]; [done|].
  destruct (byte_at b 3 =? 40) eqn:E3; cbn [negb]; [|done].
  destruct (_ =? 1) eqn:EV; cbn [negb]; [|done].
  intros [= <-]. unfold wf, ClientVersion.wf; cbn -[be_val slice].
  assert (forall o, (o + 4 <= length b)%nat -> is_u32 (be_val (slice b o (o + 4)))) as Hrd.
  { intros o Ho. replace 32 with (8 * Z.of_nat (length (slice b o (o + 4)))).
    - by apply be_val_range, bytes_ok_slice.
    - rewrite length_slice by lia. lia. }
  split_and!; try (apply Hrd; lia); try (by apply byte_at_ok); lia.
Qed.

(** ** Properties *)

(** A control packet survives the wire: marshalling it and unmarshalling
    the 40 bytes, with anything after them, gives the same packet. *)
Theorem Marshal_roundtrip c extra :
  wf c ->
  length (Marshal c) = 40%nat /\ UnmarshalControlPacket (Marshal c ++ extra) = Ok c.
Proof. split; [apply length_Marshal|by apply Unmarshal_Marshal]. Qed.

Definition sample : t :=
  {| Version := 1; PktState := StateInit; DetectMult := 3; Length := 40;
     LocalDiscr := 3735928559; PeerDiscr := 7; DesiredMinTxUs := 300000;
     RequiredMinRxUs := 4294967295; Flags := 1;
     Client := ClientVersion.mk 0 8 1 ClientVersion.VersionChannelDev |}.

Lemma sample_wf : wf sample.
Proof. unfold wf, ClientVersion.wf. vm_compute. intuition congruence. Qed.

Lemma Marshal_roundtrip_witness :
  UnmarshalControlPacket (Marshal sample ++ [1; 2; 3]) = Ok sample.
Proof. apply Marshal_roundtrip, sample_wf. Defined.

(** Unmarshalling is total and its outcome is decided by the first four
    bytes and the length: short input, a length byte other than 40 and a
    version other than 1 give the three errors, in this order, and nothing
    else fails.  What is accepted is well formed, and re-marshalling it gives
    a packet that unmarshals to the same value. *)
Theorem Unmarshal_outcome b :
  bytes_ok b ->
  match UnmarshalControlPacket b with
  | Err ErrShortPacket => (length b < 40)%nat
  | Err ErrInvalidLength => (40 <= length b)%nat /\ byte_at b 3 <> 40
  | Err (ErrUnsupportedVersion ver) =>
      (40 <= length b)%nat /\ byte_at b 3 = 40 /\ ver = byte_at b 0 / 32 /\ ver <> 1
  | Ok c =>
      (40 <= length b)%nat /\ byte_at b 3 = 40 /\ byte_at b 0 / 32 = 1 /\ wf c /\
      UnmarshalControlPacket (Marshal c) = Ok c
  | Panic => False
  end.
Proof.
  intros Hb.
  assert (Z.land (Z.shiftr (byte_at b 0) 5) 7 = byte_at b 0 / 32) as Hver.
  { change 7 with (Z.ones 3). rewrite Z.land_ones, Z.shiftr_div_pow2 by lia.
    pose proof (byte_at_ok b 0 Hb) as [? Hu]. change (2 ^ 8) with 256 in Hu.
    change (2 ^ 5) with 32. change (2 ^ 3) with 8. apply Z.mod_small.
    split; [apply Z.div_pos|apply Z.div_lt_upper_bound]; lia. }
  destruct (UnmarshalControlPacket b) as [c|e|] eqn:E; pose proof E as E';
    unfold UnmarshalControlPacket in E'; rewrite Hver in E';
    destruct (decide _) as [Hl|Hl];
    try (destruct (byte_at b 3 =? 40) eqn:E3; cbn [negb] in E');
    try (destruct (byte_at b 0 / 32 =? 1) eqn:E0; cbn [negb] in E');
    simplify_eq; try (split_and?; lia).
  pose proof (Unmarshal_wf b _ Hb E) as Hwf.
  pose proof (Unmarshal_Marshal_exact _ Hwf) as Hrt.
  split_and!; lia || assumption.
Qed.

Lemma Unmarshal_outcome_witness :
  bytes_ok (Marshal sample) /\
  match UnmarshalControlPacket (Marshal sample) with
  | Ok c => UnmarshalControlPacket (Marshal c) = Ok c
  | _ => False
  end.
Proof.
  assert (bytes_ok (Marshal sample)) as H.
  { apply (bool_decide_unpack (bytes_ok (Marshal sample))). vm_compute. reflexivity. }
  split; [exact H|]. exact (proj2 (proj2 (proj2 (proj2 (Unmarshal_outcome _ H))))).
Defined.
End ControlPacket.
