(* ===== verification/Routing.v ===== *)
(** * Routes and addresses

    Models [client/doublezerod/internal/routing/routes.go] and the exclusion
    wrapper of [config.go], with the parts of package [net] they use.  The
    kernel routing table is reached through the [RouteReaderWriter] interface,
    a type class here: netlink itself is a parameter. *)

From stdpp Require Import base tactics numbers list gmap.
From Stdlib Require Import ZArith Lia ZifyBool.
From S2P Require Import Prelude Bytes GoStrings.

#[local] Open Scope Z_scope.

(** ** [net.IP]: a byte slice of length 4 or 16; nil is the empty slice *)

Definition IP := bytes.

Definition v4InV6Prefix : bytes := replicate 10 0 ++ [255; 255].

Definition To4 (ip : IP) : IP :=
  if decide (length ip = 4%nat) then ip
  else if decide (length ip = 16%nat /\ take 12 ip = v4InV6Prefix) then drop 12 ip
  else [].

(** [IP.String] of an IPv4 address. *)
Definition IP_String (ip : IP) : bytes := Join (map format_uint ip) (lit ".").

(** The [if ip != nil && ip.To4() != nil { s = ip.To4().String() }] idiom:
    the dotted form of an IPv4 address, the empty string otherwise. *)
Definition ip4_string (ip : IP) : bytes :=
  match To4 ip with [] => [] | ip4 => IP_String ip4 end.

(** ** [routing.Route] *)

Record IPNet := mkIPNet { net_IP : IP; net_Mask : bytes }.

Record Route := mkRoute {
  Dst : IPNet;
  Src : IP;
  Table : Z;
  NextHop : IP;
  Protocol : Z
}.

#[global] Instance IPNet_eq_dec : EqDecision IPNet.
Proof. solve_decision. Defined.
#[global] Instance Route_eq_dec : EqDecision Route.
Proof. solve_decision. Defined.

Definition NewRoute (table : Z) (dst : IPNet) (src nexthop : IP) (protocol : Z) : Route :=
  {| Table := table; Dst := dst; Src := src; NextHop := nexthop; Protocol := protocol |}.

(** ** The routing backend *)

Class RouteReaderWriter (K : Type) := {
  RouteAdd : Route -> K -> bool * K;     (* [true]: no error *)
  RouteDelete : Route -> K -> bool * K;
  RouteByProtocol : Z -> K -> list Route
}.

(** [ConfiguredRouteReaderWriter]: calls on excluded destinations succeed
    without reaching the backend. *)
Section Configured.
Context {K : Type} `{!RouteReaderWriter K}.
Context (exclude : list bytes).

Definition IsExcluded (ip : bytes) : bool := bool_decide (ip ∈ exclude).

Definition configured_RouteAdd (r : Route) (k : K) : bool * K :=
  if IsExcluded (ip4_string (net_IP (Dst r))) then (true, k) else RouteAdd r k.

Definition configured_RouteDelete (r : Route) (k : K) : bool * K :=
  if IsExcluded (ip4_string (net_IP (Dst r))) then (true, k) else RouteDelete r k.

Definition ConfiguredRouteReaderWriter : RouteReaderWriter K := {|
  RouteAdd := configured_RouteAdd;
  RouteDelete := configured_RouteDelete;
  RouteByProtocol := RouteByProtocol
|}.
End Configured.

(** ** Lemmas *)

Lemma To4_length ip : length (To4 ip) = 0%nat \/ length (To4 ip) = 4%nat.
Proof.
  unfold To4. destruct (decide _); [by right|].
  destruct (decide _) as [[Hl _]|]; [right; rewrite length_drop; lia|by left].
Qed.

Lemma To4_idem ip : To4 (To4 ip) = To4 ip.
Proof.
  destruct (To4_length ip) as [H|H]; [by apply nil_length_inv in H as ->|].
  unfold To4 at 1. by rewrite decide_True.
Qed.
