(* ===== verification/GoNet.v ===== *)
(** * IPv4 networks

    The parts of Go's package [net] on networks and addresses that the
    controller and the telemetry agent use. *)

From stdpp Require Import base tactics numbers list.
From Stdlib Require Import ZArith Lia ZifyBool.
From S2P Require Import Prelude Bytes GoStrings Routing.

#[local] Open Scope Z_scope.

(** [net.CIDRMask(ones, 32)]; nil out of range. *)
Definition CIDRMask (ones : Z) : bytes :=
  if (ones <? 0) || (32 <? ones) then []
  else (fun i => let n := Z.max 0 (Z.min 8 (ones - 8 * i)) in Z.lxor 255 (Z.shiftr 255 n)) <$> [0; 1; 2; 3].

(** [IPNet.Contains] for an IPv4 network: equal on the masked bits. *)
Definition net_Contains (n : IPNet) (ip : IP) : bool :=
  bool_decide (length (net_IP n) = 4%nat /\ length (net_Mask n) = 4%nat /\ length (To4 ip) = 4%nat) &&
  bool_decide (zip_with Z.land (net_IP n) (net_Mask n) = zip_with Z.land (To4 ip) (net_Mask n)).

(** The network of a five-byte block: address and prefix length. *)
Definition block_net (b : bytes) : IPNet := mkIPNet (take 4 b) (CIDRMask (byte_at b 4)).

(** [IP.Equal]: an IPv4 address equals its IPv6 form. *)
Definition ip_equal (x y : IP) : bool :=
  bool_decide (x = y) || (bool_decide (To4 x <> []) && bool_decide (To4 x = To4 y)).

(** [IP.IsUnspecified]. *)
Definition IsUnspecified (ip : IP) : bool :=
  bool_decide (To4 ip = [0; 0; 0; 0]) || bool_decide (ip = replicate 16 0).

(** [IPNet.String] of an IPv4 network; nil masks give no network. *)
Definition net_String (n : IPNet) (ones : Z) : bytes :=
  if bool_decide (length (net_Mask n) = 4%nat) then IP_String (net_IP n) ++ lit "/" ++ format_uint ones
  else lit "<nil>".

Lemma To4_nil : To4 [] = [].
Proof. reflexivity. Qed.

Lemma ip_equal_refl x : ip_equal x x = true.
Proof. unfold ip_equal. by rewrite bool_decide_eq_true_2. Qed.

Lemma ip_equal_sym x y : ip_equal x y = ip_equal y x.
Proof.
  unfold ip_equal. f_equal; [apply bool_decide_ext; split; congruence|].
  destruct (decide (To4 x = To4 y)) as [->|E]; [done|].
  by rewrite !(bool_decide_eq_false_2 (_ = _)), !andb_false_r by congruence.
Qed.

Lemma ip_equal_v4 x y : length x = 4%nat -> length y = 4%nat -> ip_equal x y = true -> x = y.
Proof.
  intros Hx Hy. unfold ip_equal, To4. rewrite !decide_True by done.
  case_bool_decide; [done|]. cbn. by rewrite andb_false_r.
Qed.

(** ** The dotted form determines an address *)

Lemma Split_Join parts sep : parts <> [] -> Forall (Forall (fun c => (c =? sep) = false)) parts ->
  Split (Join parts [sep]) sep = parts.
Proof.
  intros Hne H. induction H as [|p parts Hp Hf IH]; [done|]. destruct parts as [|q parts].
  - cbn. by apply Split_None.
  - change (Join (p :: q :: parts) [sep]) with (p ++ sep :: Join (q :: parts) [sep]).
    by rewrite Split_app, IH.
Qed.

Lemma format_uint_no_sep n sep : is_u8 n -> digit_val sep = None ->
  Forall (fun c => (c =? sep) = false) (format_uint n).
Proof.
  intros Hn Hsep. destruct (format_uint_digits n Hn) as (H & _). eapply Forall_impl; [exact H|].
  intros c Hc. apply Z.eqb_neq. by intros ->.
Qed.

Lemma format_uint_inj x y : is_u8 x -> is_u8 y -> format_uint x = format_uint y -> x = y.
Proof.
  intros Hx Hy E. destruct (format_uint_digits x Hx) as (_ & _ & Ax), (format_uint_digits y Hy) as (_ & _ & Ay).
  rewrite E in Ax. congruence.
Qed.

Definition addr_ok (ip : IP) : Prop := length ip = 4%nat /\ bytes_ok ip.

Lemma IP_String_inj x y : addr_ok x -> addr_ok y -> IP_String x = IP_String y -> x = y.
Proof.
  assert (Hs : forall ip, addr_ok ip -> Split (IP_String ip) 46 = map format_uint ip).
  { intros ip [Hl Hb]. apply Split_Join; [by destruct ip|]. apply Forall_map. eapply Forall_impl; [exact Hb|].
    intros c Hc. by apply format_uint_no_sep. }
  intros Hx Hy E. apply (f_equal (fun s => Split s 46)) in E. rewrite !Hs in E by done.
  destruct Hx as [_ Hx], Hy as [_ Hy]. revert y Hy E. induction Hx as [|a x Ha Hx IH]; intros [|b y] Hy; [done..|].
  apply Forall_cons in Hy as [Hb Hy]. intros [= E1 E2]. f_equal; [by apply format_uint_inj|by apply IH].
Qed.

Lemma IP_String_no_colon x : addr_ok x -> Forall (fun c => any_of [58] c = false) (IP_String x).
Proof.
  intros [_ Hb]. unfold IP_String. induction Hb as [|a x Ha Hx IH]; [constructor|].
  assert (Hd : Forall (fun c => any_of [58] c = false) (format_uint a)).
  { eapply Forall_impl; [by apply (format_uint_no_sep a 58)|]. intros c Hc. unfold any_of. cbn. by rewrite Hc. }
  destruct x as [|b x]; [done|].
  change (Join (map format_uint (a :: b :: x)) (lit ".")) with
    (format_uint a ++ lit "." ++ Join (map format_uint (b :: x)) (lit ".")).
  apply Forall_app. split; [done|]. apply Forall_app. split; [by repeat constructor|done].
Qed.
