(* ===== verification/LivenessConfig.v ===== *)
(** * Route liveness: manager configuration

    Models [ManagerConfig] and [Validate] of
    [client/doublezerod/internal/liveness/manager.go]. *)

From stdpp Require Import base tactics numbers list.
From Stdlib Require Import ZArith Lia ZifyBool.
From S2P Require Import Prelude Bytes GoStrings.

#[local] Open Scope Z_scope.

Definition defaultMinTxFloor : Duration := 50 * Millisecond.
Definition defaultMaxTxCeil : Duration := 3 * Second.
Definition defaultBackoffMax : Duration := Minute.
Definition defaultMaxEvents : Z := 10240.

(** The logger, netlinker, UDP service and metrics registry are interface
    values; of them [Validate] only tests the first two against nil. *)
Record ManagerConfig := mkConfig {
  HasLogger : bool;
  HasNetlinker : bool;
  BindIP : bytes;
  Port : Z;
  PassiveMode : bool;
  TxMin : Duration;
  RxMin : Duration;
  DetectMult : Z;
  MinTxFloor : Duration;
  MaxTxCeil : Duration;
  BackoffMax : Duration;
  EnablePeerMetrics : bool;
  MaxEvents : Z;
  HonorPeerAdvertisedPassive : bool;
  CfgClientVersion : bytes
}.

#[global] Instance ManagerConfig_eta : RecordEta ManagerConfig := {
  eta_record := fun r => mkConfig (HasLogger r) (HasNetlinker r) (BindIP r) (Port r)
    (PassiveMode r) (TxMin r) (RxMin r) (DetectMult r) (MinTxFloor r) (MaxTxCeil r)
    (BackoffMax r) (EnablePeerMetrics r) (MaxEvents r) (HonorPeerAdvertisedPassive r)
    (CfgClientVersion r);
  eta_record_id := fun r =>
    match r with mkConfig _ _ _ _ _ _ _ _ _ _ _ _ _ _ _ => eq_refl end
}.

Inductive config_error :=
| LoggerRequired | NetlinkerRequired | BindIPRequired | PortNegative
| TxMinNotPositive | RxMinNotPositive | DetectMultNotPositive
| MinTxFloorNegative | MaxTxCeilNegative | MaxTxCeilBelowFloor
| BackoffMaxNegative | BackoffMaxBelowFloor | MaxEventsNegative
| ClientVersionRequired.

(** A failed check: [if cond { return err }]. *)
Definition check (bad : bool) (e : config_error) : res config_error () :=
  if bad then Err e else Ok ().

(** [if c.Field == 0 { c.Field = default }] *)
Definition fill_floor (c : ManagerConfig) : ManagerConfig :=
  c <| MinTxFloor := if MinTxFloor c =? 0 then defaultMinTxFloor else MinTxFloor c |>.
Definition fill_ceil (c : ManagerConfig) : ManagerConfig :=
  c <| MaxTxCeil := if MaxTxCeil c =? 0 then defaultMaxTxCeil else MaxTxCeil c |>.
Definition fill_backoff (c : ManagerConfig) : ManagerConfig :=
  c <| BackoffMax := if BackoffMax c =? 0 then defaultBackoffMax else BackoffMax c |>.
Definition fill_events (c : ManagerConfig) : ManagerConfig :=
  c <| MaxEvents := if MaxEvents c =? 0 then defaultMaxEvents else MaxEvents c |>.

Definition Validate (c : ManagerConfig) : res config_error ManagerConfig :=
  _ ← check (negb (HasLogger c)) LoggerRequired;
  _ ← check (negb (HasNetlinker c)) NetlinkerRequired;
  _ ← check (bool_decide (BindIP c = [])) BindIPRequired;
  _ ← check (Port c <? 0) PortNegative;
  _ ← check (TxMin c <=? 0) TxMinNotPositive;
  _ ← check (RxMin c <=? 0) RxMinNotPositive;
  _ ← check (DetectMult c <=? 0) DetectMultNotPositive;
  let c := fill_floor c in
  _ ← check (MinTxFloor c <? 0) MinTxFloorNegative;
  let c := fill_ceil c in
  _ ← check (MaxTxCeil c <? 0) MaxTxCeilNegative;
  _ ← check (MaxTxCeil c <? MinTxFloor c) MaxTxCeilBelowFloor;
  let c := fill_backoff c in
  _ ← check (BackoffMax c <? 0) BackoffMaxNegative;
  _ ← check (BackoffMax c <? MinTxFloor c) BackoffMaxBelowFloor;
  let c := fill_events c in
  _ ← check (MaxEvents c <? 0) MaxEventsNegative;
  _ ← check (bool_decide (CfgClientVersion c = [])) ClientVersionRequired;
  mret c.

(** What a validated configuration guarantees. *)
Definition config_ok (c : ManagerConfig) : Prop :=
  0 <= Port c /\ 0 < TxMin c /\ 0 < RxMin c /\ 0 < DetectMult c /\
  0 < MinTxFloor c <= MaxTxCeil c /\ MinTxFloor c <= BackoffMax c /\
  0 < MaxEvents c /\ BindIP c <> [] /\ CfgClientVersion c <> [].

(** ** Lemmas *)

Lemma check_bind {A} b e (k : () -> res config_error A) r :
  check b e ≫= k = Ok r <-> b = false /\ k () = Ok r.
Proof. destruct b; simpl; intuition discriminate. Qed.

(** Each step of [Validate] that succeeded. *)
Ltac validate_steps H :=
  unfold Validate in H;
  repeat (rewrite check_bind in H;
          let E := fresh "Chk" in destruct H as [E H]; cbv zeta in H).

(** ** Properties *)

(** A configuration that passes [Validate] has positive timers, a floor
    not above the ceiling or the backoff cap, and a positive event bound; the
    fields given by the caller are unchanged except that zero limits become
    the documented defaults (50ms, 3s, 1m, 10240). *)
Theorem Validate_ok c c' :
  Validate c = Ok c' ->
  config_ok c' /\
  TxMin c' = TxMin c /\ RxMin c' = RxMin c /\ DetectMult c' = DetectMult c /\
  MinTxFloor c' = (if MinTxFloor c =? 0 then 50000000 else MinTxFloor c) /\
  MaxTxCeil c' = (if MaxTxCeil c =? 0 then 3000000000 else MaxTxCeil c) /\
  BackoffMax c' = (if BackoffMax c =? 0 then 60000000000 else BackoffMax c) /\
  MaxEvents c' = (if MaxEvents c =? 0 then 10240 else MaxEvents c).
Proof.
  intros H. validate_steps H. injection H as <-.
  repeat match goal with H : bool_decide _ = false |- _ => apply bool_decide_eq_false in H end.
  destruct c; unfold config_ok, fill_events, fill_backoff, fill_ceil, fill_floor in *;
    cbn -[Z.mul Z.leb Z.ltb Z.eqb] in *.
  change defaultMinTxFloor with 50000000 in *. change defaultMaxTxCeil with 3000000000 in *.
  change defaultBackoffMax with 60000000000 in *. change defaultMaxEvents with 10240 in *.
  split_and!; assumption || (repeat case_goal; lia).
Qed.

Definition sample_config : ManagerConfig :=
  {| HasLogger := true; HasNetlinker := true; BindIP := lit "0.0.0.0"; Port := 44880;
     PassiveMode := false; TxMin := 300 * Millisecond; RxMin := 300 * Millisecond;
     DetectMult := 3; MinTxFloor := 0; MaxTxCeil := 0; BackoffMax := 0;
     EnablePeerMetrics := false; MaxEvents := 0; HonorPeerAdvertisedPassive := false;
     CfgClientVersion := lit "0.8.1" |}.

Definition sample_config_ok : ManagerConfig :=
  sample_config <| MinTxFloor := defaultMinTxFloor |> <| MaxTxCeil := defaultMaxTxCeil |>
    <| BackoffMax := defaultBackoffMax |> <| MaxEvents := defaultMaxEvents |>.

Lemma Validate_ok_witness :
  Validate sample_config = Ok sample_config_ok /\ config_ok sample_config_ok.
Proof.
  assert (Validate sample_config = Ok sample_config_ok) as H by reflexivity.
  split; [exact H|]. exact (proj1 (Validate_ok _ _ H)).
Defined.
