(* ===== verification/LivenessSession.v ===== *)
(** * Route liveness: the session state machine

    Models [client/doublezerod/internal/liveness/session.go], and the places
    of [manager.go] and [scheduler.go] that write session fields directly.
    A session is a BFD-like relationship with one peer: its operations pass
    the session record explicitly; the lock [mu] makes each one atomic. *)

From stdpp Require Import base tactics numbers list.
From Stdlib Require Import ZArith Lia ZifyBool.
From S2P Require Import Prelude Bytes GoStrings LivenessVersion LivenessPacket.
From S2P Require Import Routing LivenessConfig.

#[local] Open Scope Z_scope.

Inductive DownReason :=
| DownReasonNone
| DownReasonTimeout
| DownReasonRemoteAdmin
| DownReasonLocalAdmin
| DownReasonRemoteDown.

Definition DownReason_String (d : DownReason) : bytes :=
  match d with
  | DownReasonNone => lit "none"
  | DownReasonTimeout => lit "timeout"
  | DownReasonRemoteAdmin => lit "remote_admin"
  | DownReasonLocalAdmin => lit "local_admin"
  | DownReasonRemoteDown => lit "remote_down"
  end.

Inductive KernelState :=
| KernelStateUnknown
| KernelStateAbsent
| KernelStatePresent.

Inductive PeerMode :=
| PeerModeUnknown
| PeerModeActive
| PeerModePassive.

#[global] Instance DownReason_eq_dec : EqDecision DownReason.
Proof. solve_decision. Defined.
#[global] Instance PeerMode_eq_dec : EqDecision PeerMode.
Proof. solve_decision. Defined.

(** [Peer] and [Route] of [manager.go]. *)
Record Peer := mkPeer { Interface : bytes; LocalIP : bytes; PeerIP : bytes }.

Record LRoute := mkLRoute { lr_Route : Route; NoUninstall : bool }.

Record Session := mkSession {
  route : option LRoute;
  localDiscr : Z;
  peerDiscr : Z;
  state : State;
  upSince : Time;
  downSince : Time;
  lastDownReason : DownReason;
  lastUpdated : Time;
  peerAdvertisedMode : PeerMode;
  peerClientVersion : ClientVersion.t;
  detectMult : Z;
  localTxMin : Duration;
  localRxMin : Duration;
  peerTxMin : Duration;
  peerRxMin : Duration;
  nextTx : Time;
  detectDeadline : Time;
  lastRx : Time;
  peer : Peer;
  peerAddr : IP * Z;
  alive : bool;
  minTxFloor : Duration;
  maxTxCeil : Duration;
  backoffMax : Duration;
  backoffFactor : Z;
  convUpStart : Time;
  convDownStart : Time;
  nextTxScheduled : Time;
  nextDetectScheduled : Time
}.

#[global] Instance Session_eta : RecordEta Session := {
  eta_record := fun r => mkSession (route r) (localDiscr r) (peerDiscr r) (state r)
    (upSince r) (downSince r) (lastDownReason r) (lastUpdated r) (peerAdvertisedMode r)
    (peerClientVersion r) (detectMult r) (localTxMin r) (localRxMin r) (peerTxMin r)
    (peerRxMin r) (nextTx r) (detectDeadline r) (lastRx r) (peer r) (peerAddr r)
    (alive r) (minTxFloor r) (maxTxCeil r) (backoffMax r) (backoffFactor r) (convUpStart r)
    (convDownStart r) (nextTxScheduled r) (nextDetectScheduled r);
  eta_record_id := fun r =>
    match r with
    | mkSession _ _ _ _ _ _ _ _ _ _ _ _ _ _ _ _ _ _ _ _ _ _ _ _ _ _ _ _ _ => eq_refl
    end
}.

Definition state_eqb (a b : State) : bool := bool_decide (a = b).

(** ** Intervals *)

(** The greater of [localTxMin] and [peerRxMin], bounded by floor and ceiling. *)
Definition txInterval (s : Session) : Duration :=
  let iv := localTxMin s in
  let iv := if iv <? peerRxMin s then peerRxMin s else iv in
  let iv := if iv <? minTxFloor s then minTxFloor s else iv in
  if maxTxCeil s <? iv then maxTxCeil s else iv.

Definition rxInterval (s : Session) : Duration :=
  let ref := peerTxMin s in
  let ref := if ref <? localRxMin s then localRxMin s else ref in
  let ref := if ref =? 0 then localRxMin s else ref in
  let ref := if ref <? minTxFloor s then minTxFloor s else ref in
  if maxTxCeil s <? ref then maxTxCeil s else ref.

Definition detectTime (s : Session) : Duration := i64 (detectMult s * rxInterval s).

(** ** Transmission *)

(** The interval before jitter, and the (normalised) backoff factor it used:
    the first half of [ComputeNextTx]. *)
Definition effInterval (s : Session) : Duration * Z :=
  let base := txInterval s in
  if state_eqb (state s) StateDown then
    let f := if backoffFactor s <? 1 then 1 else backoffFactor s in
    let eff := i64 (base * f) in
    ((if (0 <? backoffMax s) && (backoffMax s <? eff) then backoffMax s else eff), f)
  else (base, backoffFactor s).

(** [rand.Int63n(span)] is the argument [int63n]. *)
Definition ComputeNextTx (int63n : Z -> Z) (now : Time) (s : Session) : Session * Time :=
  let '(eff, f) := effInterval s in
  let s := s <| backoffFactor := f |> in
  let j := Z.quot eff 10 in
  let span := i64 (i64 (2 * j) + 1) in
  let span := if span <? 1 then 1 else span in
  let off := int63n span in
  let jit := i64 (off - j) in
  let next := TimeAdd now (i64 (eff + jit)) in
  let s := s <| nextTx := next |> in
  let s :=
    if state_eqb (state s) StateDown then
      if (backoffMax s =? 0) || (eff <? backoffMax s) then
        let f := if backoffFactor s =? 0 then 1 else backoffFactor s in
        s <| backoffFactor := u32 (f * 2) |>
      else s
    else s <| backoffFactor := 1 |> in
  (s, next).

(** ** Detection *)

Definition ArmDetect (now : Time) (s : Session) : Session * option Time :=
  if negb (alive s) || IsZero (detectDeadline s) then (s, None)
  else
    let ddl := detectDeadline s in
    if negb (After ddl now) then
      let ddl := TimeAdd now (detectTime s) in
      (s <| detectDeadline := ddl |>, Some ddl)
    else (s, Some ddl).

Definition ExpireIfDue (now : Time) (s : Session) : Session * bool :=
  if negb (alive s) then (s, false)
  else if (state_eqb (state s) StateUp || state_eqb (state s) StateInit) &&
          negb (IsZero (detectDeadline s)) && negb (Before now (detectDeadline s)) then
    let start := TimeAdd (lastRx s) (rxInterval s) in
    (s <| convDownStart :=
            if state_eqb (state s) StateUp && IsZero (convDownStart s) then
              if After now start then start else now
            else convDownStart s |>
       <| state := StateDown |>
       <| downSince := now |>
       <| lastDownReason := DownReasonTimeout |>
       <| upSince := time_zero |>
       <| backoffFactor := 1 |>
       <| detectDeadline := time_zero |>
       <| convUpStart := time_zero |>
       <| lastUpdated := now |>, true)
  else (s, false).

(** ** Reception *)

(** A peer-advertised interval, in microseconds, clamped to the bounds. *)
Definition clamp_peer (s : Session) (us : Z) : Duration :=
  let r := i64 (us * Microsecond) in
  if r <? minTxFloor s then minTxFloor s
  else if (0 <? maxTxCeil s) && (maxTxCeil s <? r) then maxTxCeil s
  else r.

(** The transitions to Down of [HandleRx]: peer AdminDown, and peer Down. *)
Definition remote_admin_down (now : Time) (s : Session) : Session :=
  s <| convDownStart :=
         if (state_eqb (state s) StateUp || state_eqb (state s) StateInit) &&
            IsZero (convDownStart s)
         then now else convDownStart s |>
    <| state := StateDown |>
    <| downSince := now |>
    <| lastDownReason := DownReasonRemoteAdmin |>
    <| upSince := time_zero |>
    <| detectDeadline := time_zero |>
    <| backoffFactor := 1 |>
    <| lastUpdated := now |>.

Definition remote_down (now : Time) (s : Session) : Session :=
  s <| convDownStart := if IsZero (convDownStart s) then now else convDownStart s |>
    <| state := StateDown |>
    <| downSince := now |>
    <| lastDownReason := DownReasonRemoteDown |>
    <| upSince := time_zero |>
    <| detectDeadline := time_zero |>
    <| backoffFactor := 1 |>
    <| convUpStart := time_zero |>
    <| lastUpdated := now |>.

(** The suppression of a stale Down just after coming Up. *)
Definition stale_down (now : Time) (s : Session) : bool :=
  if state_eqb (state s) StateUp && negb (IsZero (upSince s)) then
    let age := TimeSub now (upSince s) in
    let dt := detectTime s in
    (0 <? dt) && (age <? dt)
  else false.

(** The state switch at the end of [HandleRx]. *)
Definition rx_advance (now : Time) (ctrl : ControlPacket.t) (s : Session) : Session :=
  let active := state_code StateInit <=? state_code (ControlPacket.PktState ctrl) in
  let echo := ControlPacket.PeerDiscr ctrl =? localDiscr s in
  match state s with
  | StateDown =>
      let s := s <| convUpStart := if IsZero (convUpStart s) then now else convUpStart s |> in
      if negb (peerDiscr s =? 0) then
        let s :=
          if echo && active then
            s <| state := StateUp |>
              <| upSince := now |>
              <| downSince := time_zero |>
              <| lastDownReason := DownReasonNone |>
          else
            s <| state := StateInit |>
              <| downSince := time_zero |>
              <| lastDownReason := DownReasonNone |> in
        s <| backoffFactor := 1 |> <| lastUpdated := now |>
      else s
  | StateInit =>
      if negb (peerDiscr s =? 0) && active && echo then
        s <| state := StateUp |>
          <| upSince := now |>
          <| downSince := time_zero |>
          <| lastDownReason := DownReasonNone |>
          <| backoffFactor := 1 |>
          <| lastUpdated := now |>
      else s
  | StateUp =>
      if negb (ControlPacket.LocalDiscr ctrl =? 0) &&
         negb (ControlPacket.LocalDiscr ctrl =? peerDiscr s) then
        s <| peerDiscr := ControlPacket.LocalDiscr ctrl |>
          <| convUpStart := now |>
          <| lastUpdated := now |>
      else s
  | StateAdminDown => s
  end.

(** What any accepted packet teaches: the peer's mode and client version. *)
Definition learn_mode (ctrl : ControlPacket.t) (s : Session) : Session :=
  s <| peerAdvertisedMode :=
         if ControlPacket.IsPassive ctrl then PeerModePassive else PeerModeActive |>
    <| peerClientVersion := ControlPacket.Client ctrl |>.

(** The peer's discriminator if it was unknown, its clamped timers, the
    receive time and a fresh detection deadline. *)
Definition learn_timers (now : Time) (ctrl : ControlPacket.t) (s : Session) : Session :=
  let s := s <| peerDiscr :=
    if (peerDiscr s =? 0) && negb (ControlPacket.LocalDiscr ctrl =? 0)
    then ControlPacket.LocalDiscr ctrl else peerDiscr s |> in
  let rtx := clamp_peer s (ControlPacket.DesiredMinTxUs ctrl) in
  let rrx := clamp_peer s (ControlPacket.RequiredMinRxUs ctrl) in
  let s := s <| peerTxMin := rtx |> <| peerRxMin := rrx |> <| lastRx := now |> in
  s <| detectDeadline := TimeAdd now (detectTime s) |>.

Definition HandleRx (now : Time) (ctrl : ControlPacket.t) (s : Session) : Session * bool :=
  if state_eqb (state s) StateAdminDown then (s, false)
  else if negb (ControlPacket.PeerDiscr ctrl =? 0) &&
          negb (ControlPacket.PeerDiscr ctrl =? localDiscr s) then (s, false)
  else
    let prev := state s in
    let s := learn_mode ctrl s in
    if state_eqb (ControlPacket.PktState ctrl) StateAdminDown then
      let s := remote_admin_down now s in
      (s, negb (state_eqb (state s) prev))
    else if state_eqb (ControlPacket.PktState ctrl) StateDown &&
            (state_eqb prev StateUp || state_eqb prev StateInit) then
      if stale_down now s then (s, false)
      else
        let s := remote_down now s in
        (s, negb (state_eqb (state s) prev))
    else
      let s := rx_advance now ctrl (learn_timers now ctrl s) in
      (s, negb (state_eqb (state s) prev)).

(** ** Snapshots *)

Record SessionSnapshot := mkSnapshot {
  snap_Peer : Peer;
  snap_Route : option LRoute;
  snap_State : State;
  snap_LocalDiscr : Z;
  snap_PeerDiscr : Z;
  snap_ConvUpStart : Time;
  snap_ConvDownStart : Time;
  snap_UpSince : Time;
  snap_DownSince : Time;
  snap_LastDownReason : DownReason;
  snap_DetectDeadline : Time;
  snap_NextDetectScheduled : Time;
  snap_LastUpdated : Time;
  snap_PeerAdvertisedMode : PeerMode;
  snap_PeerClientVersion : ClientVersion.t;
  snap_ExpectedKernelState : KernelState
}.

#[global] Instance SessionSnapshot_eta : RecordEta SessionSnapshot := {
  eta_record := fun r => mkSnapshot (snap_Peer r) (snap_Route r) (snap_State r)
    (snap_LocalDiscr r) (snap_PeerDiscr r) (snap_ConvUpStart r) (snap_ConvDownStart r)
    (snap_UpSince r) (snap_DownSince r) (snap_LastDownReason r) (snap_DetectDeadline r)
    (snap_NextDetectScheduled r) (snap_LastUpdated r) (snap_PeerAdvertisedMode r)
    (snap_PeerClientVersion r) (snap_ExpectedKernelState r);
  eta_record_id := fun r =>
    match r with mkSnapshot _ _ _ _ _ _ _ _ _ _ _ _ _ _ _ _ => eq_refl end
}.

Definition Snapshot (s : Session) : SessionSnapshot := {|
  snap_Peer := peer s;
  snap_Route := route s;
  snap_State := state s;
  snap_LocalDiscr := localDiscr s;
  snap_PeerDiscr := peerDiscr s;
  snap_ConvUpStart := convUpStart s;
  snap_ConvDownStart := convDownStart s;
  snap_UpSince := upSince s;
  snap_DownSince := downSince s;
  snap_LastDownReason := lastDownReason s;
  snap_DetectDeadline := detectDeadline s;
  snap_NextDetectScheduled := nextDetectScheduled s;
  snap_LastUpdated := lastUpdated s;
  snap_PeerAdvertisedMode := peerAdvertisedMode s;
  snap_PeerClientVersion := peerClientVersion s;
  snap_ExpectedKernelState := KernelStateUnknown
|}.

(** ** Writes to a session made by the manager *)

(** The session [RegisterRoute] creates. *)
Definition newSession (cfg : ManagerConfig) (discr : Z) (r : LRoute) (p : Peer)
    (addr : IP * Z) (now : Time) : Session := {|
  route := Some r;
  localDiscr := discr;
  peerDiscr := 0;
  state := StateDown;
  upSince := time_zero;
  downSince := time_zero;
  lastDownReason := DownReasonNone;
  lastUpdated := now;
  peerAdvertisedMode := PeerModeUnknown;
  peerClientVersion := ClientVersion.mk 0 0 0 ClientVersion.VersionChannelStable;
  detectMult := DetectMult cfg;
  localTxMin := TxMin cfg;
  localRxMin := RxMin cfg;
  peerTxMin := 0;
  peerRxMin := 0;
  nextTx := time_zero;
  detectDeadline := time_zero;
  lastRx := time_zero;
  peer := p;
  peerAddr := addr;
  alive := true;
  minTxFloor := MinTxFloor cfg;
  maxTxCeil := MaxTxCeil cfg;
  backoffMax := BackoffMax cfg;
  backoffFactor := 1;
  convUpStart := time_zero;
  convDownStart := time_zero;
  nextTxScheduled := time_zero;
  nextDetectScheduled := time_zero
|}.

(** The locked section of [AdminDownRoute]. *)
Definition admin_down (now : Time) (s : Session) : Session :=
  let prev := state s in
  if state_eqb prev StateAdminDown then s
  else
    s <| convDownStart :=
           if (state_eqb prev StateUp || state_eqb prev StateInit) && IsZero (convDownStart s)
           then now else convDownStart s |>
      <| state := StateAdminDown |>
      <| downSince := now |>
      <| lastDownReason := DownReasonLocalAdmin |>
      <| upSince := time_zero |>
      <| detectDeadline := time_zero |>
      <| nextDetectScheduled := time_zero |>
      <| lastUpdated := now |>.

(** ** Invariant *)

(** Timing parameters as [Validate] leaves them, small enough that interval
    arithmetic stays within [int64] and the backoff factor within [uint32]
    (the defaults, 50ms, 3s and 1m, are far inside). *)
Definition timing_ok (s : Session) : Prop :=
  0 < minTxFloor s <= maxTxCeil s /\
  255 * maxTxCeil s <= max_i64 /\
  1 <= detectMult s <= 255 /\
  0 < localTxMin s /\ 0 < localRxMin s /\
  minTxFloor s <= backoffMax s /\
  backoffMax s <= 2 ^ 31 * minTxFloor s /\
  2 * maxTxCeil s * backoffMax s <= max_i64 * minTxFloor s.

(** The backoff factor stays positive and bounded by the cap. *)
Definition factor_ok (s : Session) : Prop :=
  1 <= backoffFactor s /\ minTxFloor s * backoffFactor s < 2 * backoffMax s.

Definition peer_timer_ok (s : Session) (d : Duration) : Prop :=
  d = 0 \/ minTxFloor s <= d <= maxTxCeil s.

(** What each state says about the other fields. *)
Definition state_ok (s : Session) : Prop :=
  match state s with
  | StateUp =>
      0 < upSince s /\ downSince s = 0 /\ lastDownReason s = DownReasonNone /\
      peerDiscr s <> 0 /\ 0 < detectDeadline s /\ 0 < lastRx s
  | StateInit =>
      upSince s = 0 /\ downSince s = 0 /\ lastDownReason s = DownReasonNone /\
      peerDiscr s <> 0 /\ 0 < detectDeadline s /\ 0 < lastRx s
  | StateDown =>
      upSince s = 0 /\ 0 <= downSince s /\ 0 <= detectDeadline s /\
      (lastDownReason s = DownReasonNone <-> downSince s = 0)
  | StateAdminDown =>
      upSince s = 0 /\ 0 < downSince s /\ lastDownReason s = DownReasonLocalAdmin /\
      detectDeadline s = 0
  end.

Record session_ok (s : Session) : Prop := {
  ok_timing : timing_ok s;
  ok_discr : localDiscr s <> 0;
  ok_factor : factor_ok s;
  ok_peerTx : peer_timer_ok s (peerTxMin s);
  ok_peerRx : peer_timer_ok s (peerRxMin s);
  ok_state : state_ok s
}.

(** ** Steps: every operation that writes a session *)

Inductive sstep : Session -> Session -> Prop :=
| step_rx s now ctrl :
    0 < now -> ControlPacket.wf ctrl -> sstep s (HandleRx now ctrl s).1
| step_expire s now :
    0 < now -> sstep s (ExpireIfDue now s).1
| step_arm s now :
    0 < now -> sstep s (ArmDetect now s).1
| step_next_tx s now int63n :
    0 < now -> sstep s (ComputeNextTx int63n now s).1
| step_admin s now :
    0 < now -> sstep s (admin_down now s)
| step_withdraw s : sstep s (s <| alive := false |>)
| step_conv_up s : sstep s (s <| convUpStart := time_zero |>)
| step_conv_down s : sstep s (s <| convDownStart := time_zero |>)
| step_tx_marker s t : sstep s (s <| nextTxScheduled := t |>)
| step_detect_marker s t : sstep s (s <| nextDetectScheduled := t |>).

(** The sessions of a manager configured with [cfg]. *)
Inductive reachable (cfg : ManagerConfig) : Session -> Prop :=
| reach_new discr r p addr now :
    discr <> 0 -> 0 < now -> reachable cfg (newSession cfg discr r p addr now)
| reach_step s s' : reachable cfg s -> sstep s s' -> reachable cfg s'.

(** The state changes the protocol allows. *)
Definition fsm_edge (a b : State) : bool :=
  match a, b with
  | StateAdminDown, StateAdminDown => true
  | StateAdminDown, _ => false
  | _, StateAdminDown => true
  | StateDown, _ => true
  | StateInit, _ => true
  | StateUp, StateInit => false
  | StateUp, _ => true
  end.

(** *** The abstract receive machine

    What [HandleRx] does to the state, as a table over an abstract event: the
    packet is for another session, or it carries AdminDown, Down (possibly
    stale), or an active state (Init or Up) that may echo our discriminator. *)

Inductive rx_event :=
| RxForeign
| RxAdminDown
| RxDown (stale : bool)
| RxActive (echo : bool).

Definition classify (now : Time) (ctrl : ControlPacket.t) (s : Session) : rx_event :=
  if negb (ControlPacket.PeerDiscr ctrl =? 0) &&
     negb (ControlPacket.PeerDiscr ctrl =? localDiscr s) then RxForeign
  else match ControlPacket.PktState ctrl with
       | StateAdminDown => RxAdminDown
       | StateDown => RxDown (stale_down now s)
       | _ => RxActive (ControlPacket.PeerDiscr ctrl =? localDiscr s)
       end.

(** The peer's discriminator is known, or this packet carries it. *)
Definition peer_known (ctrl : ControlPacket.t) (s : Session) : bool :=
  negb (peerDiscr s =? 0) || negb (ControlPacket.LocalDiscr ctrl =? 0).

Definition rx_next (prev : State) (known : bool) (ev : rx_event) : State :=
  match prev, ev with
  | StateAdminDown, _ => StateAdminDown
  | _, RxForeign => prev
  | _, RxAdminDown => StateDown
  | StateDown, RxDown _ => if known then StateInit else StateDown
  | StateDown, RxActive echo =>
      if known then (if echo then StateUp else StateInit) else StateDown
  | StateInit, RxDown _ => StateDown
  | StateInit, RxActive echo => if known && echo then StateUp else StateInit
  | StateUp, RxDown stale => if stale then StateUp else StateDown
  | StateUp, RxActive _ => StateUp
  end.

(** The session after transmissions at the given times. *)
Definition transmissions (int63n : Z -> Z) (nows : list Time) (s : Session) : Session :=
  fold_left (fun s now => (ComputeNextTx int63n now s).1) nows s.

(** Configurations within the arithmetic limits of [timing_ok]. *)
Definition config_limits (c : ManagerConfig) : Prop :=
  DetectMult c <= 255 /\ 255 * MaxTxCeil c <= max_i64 /\
  BackoffMax c <= 2 ^ 31 * MinTxFloor c /\
  2 * MaxTxCeil c * BackoffMax c <= max_i64 * MinTxFloor c.

(** Reduce projections of an updated session; the session is destructed first,
    so that each update is evaluated once. *)
Ltac session_cbv :=
  cbv beta iota zeta delta [set_field fst snd
    route localDiscr peerDiscr state upSince downSince lastDownReason lastUpdated
    peerAdvertisedMode peerClientVersion detectMult localTxMin localRxMin peerTxMin
    peerRxMin nextTx detectDeadline lastRx peer peerAddr alive minTxFloor maxTxCeil
    backoffMax backoffFactor convUpStart convDownStart nextTxScheduled
    nextDetectScheduled] in *.

(** ** Lemmas: intervals *)

Section Intervals.
Context (s : Session) (Hle : minTxFloor s <= maxTxCeil s).

Lemma txInterval_bounds : minTxFloor s <= txInterval s <= maxTxCeil s.
Proof. unfold txInterval. repeat case_goal; lia. Qed.

Lemma rxInterval_bounds : minTxFloor s <= rxInterval s <= maxTxCeil s.
Proof. unfold rxInterval. repeat case_goal; lia. Qed.

Lemma clamp_peer_bounds us : 0 < maxTxCeil s -> minTxFloor s <= clamp_peer s us <= maxTxCeil s.
Proof. unfold clamp_peer. repeat case_goal; lia. Qed.
End Intervals.

Lemma detectTime_eq s : timing_ok s ->
  detectTime s = detectMult s * rxInterval s /\ 0 < detectTime s.
Proof.
  intros (? & ? & ? & _). pose proof (rxInterval_bounds s ltac:(lia)).
  unfold detectTime. unfold max_i64 in *. rewrite swrap_id; [split; [done|nia]|lia|unfold is_i; nia].
Qed.

(** ** Lemmas: the backoff factor *)

Lemma factor_fits s :
  0 < minTxFloor s -> 0 < maxTxCeil s -> minTxFloor s * backoffFactor s < 2 * backoffMax s ->
  2 * maxTxCeil s * backoffMax s <= max_i64 * minTxFloor s ->
  maxTxCeil s * backoffFactor s < max_i64.
Proof.
  intros H0 H1 Hf Hm. apply (Z.mul_lt_mono_pos_r (minTxFloor s)); [lia|].
  apply (Z.mul_lt_mono_pos_l (maxTxCeil s)) in Hf; lia.
Qed.

Lemma effInterval_down s : timing_ok s -> factor_ok s -> state s = StateDown ->
  effInterval s = (Z.min (txInterval s * backoffFactor s) (backoffMax s), backoffFactor s).
Proof.
  intros (? & ? & ? & ? & ? & ? & ? & Hm) [? Hf] Hs.
  pose proof (txInterval_bounds s ltac:(lia)).
  unfold effInterval, state_eqb. rewrite Hs, bool_decide_eq_true_2 by done.
  rewrite (proj2 (Z.ltb_ge (backoffFactor s) 1)) by lia.
  pose proof (factor_fits s ltac:(lia) ltac:(lia) Hf Hm).
  rewrite swrap_id; [|lia|unfold is_i, max_i64 in *; nia].
  f_equal. case_goal; lia.
Qed.

(** One transmission while Down: the factor doubles until the cap is met. *)
Lemma ComputeNextTx_down int63n now s : timing_ok s -> factor_ok s -> state s = StateDown ->
  backoffFactor (ComputeNextTx int63n now s).1 =
  (if txInterval s * backoffFactor s <? backoffMax s then 2 * backoffFactor s
   else backoffFactor s).
Proof.
  intros Ht Hf Hs. unfold ComputeNextTx. rewrite effInterval_down by done.
  destruct Ht as (? & ? & ? & ? & ? & ? & ? & Hm), Hf as [? ?].
  pose proof (txInterval_bounds s ltac:(lia)).
  cbv zeta iota beta. cbn [state backoffMax backoffFactor set_field].
  unfold state_eqb. rewrite Hs, bool_decide_eq_true_2 by done.
  rewrite (proj2 (Z.eqb_neq (backoffFactor s) 0)) by lia.
  rewrite (proj2 (Z.eqb_neq (backoffMax s) 0)) by lia. cbn [orb].
  destruct (txInterval s * backoffFactor s <? backoffMax s) eqn:E.
  - rewrite (proj2 (Z.ltb_lt _ _)) by lia. cbn [fst backoffFactor set_field].
    rewrite wrap_id; [lia|]. unfold is_u. nia.
  - rewrite (proj2 (Z.ltb_ge _ _)) by lia. done.
Qed.

(** ** Lemmas: every operation preserves the invariant *)

Create HintDb session discriminated.

(** Operations that leave the fields of the invariant alone. *)
Ltac frame_ok := intros []; constructor; assumption.

Lemma learn_mode_ok ctrl s : session_ok s -> session_ok (learn_mode ctrl s).
Proof. frame_ok. Qed.

(** A transition to Down that resets the backoff keeps the invariant. *)
Lemma down_ok s s' : session_ok s ->
  state s' = StateDown -> upSince s' = 0 -> 0 < downSince s' -> detectDeadline s' = 0 ->
  lastDownReason s' <> DownReasonNone -> backoffFactor s' = 1 ->
  timing_ok s' -> localDiscr s' = localDiscr s -> minTxFloor s' = minTxFloor s ->
  backoffMax s' = backoffMax s ->
  peer_timer_ok s' (peerTxMin s') -> peer_timer_ok s' (peerRxMin s') -> session_ok s'.
Proof.
  intros [Ht Hd Hf ? ? ?] Hst Hup Hdown Hddl Hr Hbf Ht' Hld Hfl Hbm ? ?.
  constructor; try done; [by rewrite Hld| |].
  - unfold factor_ok. rewrite Hbf, Hfl, Hbm. destruct Ht as (? & ? & ? & ? & ? & ? & _). lia.
  - unfold state_ok. rewrite Hst. split_and!; [done|lia|lia|]. split; [done|lia].
Qed.

Ltac by_down_ok s := intros ? Hok; apply (down_ok s); try done; apply Hok.

Lemma remote_admin_down_ok now s :
  0 < now -> session_ok s -> session_ok (remote_admin_down now s).
Proof. by_down_ok s. Qed.

Lemma remote_down_ok now s : 0 < now -> session_ok s -> session_ok (remote_down now s).
Proof. by_down_ok s. Qed.

Lemma ExpireIfDue_ok now s : 0 < now -> session_ok s -> session_ok (ExpireIfDue now s).1.
Proof.
  intros Hn Hok. unfold ExpireIfDue. case_goal; [done|]. case_goal; [|done].
  revert Hn Hok. by_down_ok s.
Qed.

Lemma admin_down_ok now s : 0 < now -> session_ok s -> session_ok (admin_down now s).
Proof.
  intros Hn Hok. unfold admin_down. case_goal; [done|].
  destruct Hok as [Ht Hd Hf Hp1 Hp2 _]. constructor; try assumption.
  unfold state_ok. cbn. split_and!; (assumption || reflexivity).
Qed.

Lemma ArmDetect_ok now s : 0 < now -> session_ok s -> session_ok (ArmDetect now s).1.
Proof.
  intros Hn Hok. unfold ArmDetect. destruct (negb (alive s) || IsZero (detectDeadline s)) eqn:E;
    [done|]. case_goal; [|done].
  destruct Hok as [Ht Hd Hf Hp1 Hp2 Hst]. constructor; try done.
  pose proof (detectTime_eq s Ht). time_unfold. unfold state_ok in *. cbn in *.
  destruct (state s); lia || (split_and!; try apply Hst; lia).
Qed.

Lemma ComputeNextTx_ok int63n now s :
  session_ok s -> session_ok (ComputeNextTx int63n now s).1.
Proof.
  intros [Ht Hd Hf Hp1 Hp2 Hst].
  assert (factor_ok (ComputeNextTx int63n now s).1) as Hf'.
  { destruct (decide (state s = StateDown)) as [Hs|Hs].
    - unfold factor_ok. rewrite ComputeNextTx_down by done.
      assert (minTxFloor (ComputeNextTx int63n now s).1 = minTxFloor s /\
              backoffMax (ComputeNextTx int63n now s).1 = backoffMax s) as [-> ->].
      { unfold ComputeNextTx. destruct (effInterval s). by repeat case_goal. }
      destruct Hf as [? Hf], Ht as (? & ? & _). pose proof (txInterval_bounds s ltac:(lia)).
      case_goal; [split; nia|lia].
    - unfold ComputeNextTx, effInterval, state_eqb.
      rewrite !bool_decide_eq_false_2 by done. unfold factor_ok. cbn.
      destruct Ht as (? & ? & ? & ? & ? & ? & _). lia. }
  revert Hf'. unfold ComputeNextTx. destruct (effInterval s) as [eff f]. cbv zeta.
  intros Hf'. constructor; try assumption; by repeat case_goal.
Qed.

Lemma learn_timers_deadline now ctrl s :
  detectDeadline (learn_timers now ctrl s) = now + detectTime (learn_timers now ctrl s).
Proof. destruct s. reflexivity. Qed.

Lemma learn_timers_ok now ctrl s :
  0 < now -> session_ok s -> state s <> StateAdminDown ->
  session_ok (learn_timers now ctrl s) /\
  0 < detectDeadline (learn_timers now ctrl s) /\ lastRx (learn_timers now ctrl s) = now.
Proof.
  intros Hn [Ht Hd Hf Hp1 Hp2 Hst] Hna.
  assert (timing_ok (learn_timers now ctrl s)) as Ht' by exact Ht.
  assert (0 < detectDeadline (learn_timers now ctrl s)) as Hddl.
  { pose proof (detectTime_eq (learn_timers now ctrl s) Ht') as [_ Hdt].
    rewrite learn_timers_deadline. lia. }
  split_and!; [|done|done].
  constructor; try done.
  - right. change (minTxFloor s <= clamp_peer s (ControlPacket.DesiredMinTxUs ctrl) <= maxTxCeil s).
    apply clamp_peer_bounds; destruct Ht; lia.
  - right. change (minTxFloor s <= clamp_peer s (ControlPacket.RequiredMinRxUs ctrl) <= maxTxCeil s).
    apply clamp_peer_bounds; destruct Ht; lia.
  - assert (peerDiscr s <> 0 -> peerDiscr (learn_timers now ctrl s) <> 0) as Hpd.
    { intros. cbn. case_goal; lia. }
    set (s' := learn_timers now ctrl s) in *.
    assert (state s' = state s /\ upSince s' = upSince s /\ downSince s' = downSince s /\
            lastDownReason s' = lastDownReason s /\ lastRx s' = now) as (E1 & E2 & E3 & E4 & E5)
      by by split_and!.
    unfold state_ok in *. rewrite E1, E2, E3, E4, E5.
    destruct (state s); [done| |..]; intuition lia.
Qed.

Lemma rx_advance_ok now ctrl s :
  0 < now -> session_ok s -> 0 < detectDeadline s -> 0 < lastRx s ->
  session_ok (rx_advance now ctrl s).
Proof.
  intros Hn [Ht Hd Hf Hp1 Hp2 Hst] Hddl Hrx.
  assert (minTxFloor s * 1 < 2 * backoffMax s) as Hf1
    by (destruct Ht as (? & ? & ? & ? & ? & ? & _); lia).
  destruct s as [? ? pd st]. unfold rx_advance, timing_ok, factor_ok, peer_timer_ok, state_ok in *.
  session_cbv.
  destruct st; [done|..];
    repeat case_goal;
    (constructor; unfold timing_ok, factor_ok, peer_timer_ok, state_ok; session_cbv;
     [assumption|assumption|assumption || (split; [lia|assumption])|assumption|assumption|];
     split_and!; lia || reflexivity || apply Hst).
Qed.

Lemma HandleRx_ok now ctrl s : 0 < now -> session_ok s -> session_ok (HandleRx now ctrl s).1.
Proof.
  intros Hn Hok. unfold HandleRx.
  destruct (state_eqb (state s) StateAdminDown) eqn:Ea; [done|].
  apply bool_decide_eq_false in Ea.
  case_goal; [done|]. cbv zeta.
  pose proof (learn_mode_ok ctrl s Hok) as Hlm.
  case_goal; [by apply remote_admin_down_ok|].
  case_goal; [case_goal; [done|by apply remote_down_ok]|].
  destruct (learn_timers_ok now ctrl _ Hn Hlm Ea) as (? & ? & Hrx).
  apply rx_advance_ok; rewrite ?Hrx; assumption.
Qed.

#[export] Hint Resolve HandleRx_ok ExpireIfDue_ok ArmDetect_ok ComputeNextTx_ok
  admin_down_ok : session.

Lemma sstep_ok s s' : sstep s s' -> session_ok s -> session_ok s'.
Proof. destruct 1; eauto with session; frame_ok. Qed.

Lemma newSession_ok cfg discr r p addr now :
  config_ok cfg -> config_limits cfg -> discr <> 0 ->
  session_ok (newSession cfg discr r p addr now).
Proof.
  intros (? & ? & ? & ? & ? & ? & ?) (? & ? & ? & ?) Hd.
  constructor; unfold timing_ok, factor_ok, peer_timer_ok, state_ok; cbn -[Z.mul Z.pow];
    split_and?; try lia || (by left); done.
Qed.

(** ** Lemmas: the receive table *)

Lemma rx_advance_state now ctrl s :
  state s <> StateAdminDown ->
  state_eqb (ControlPacket.PktState ctrl) StateAdminDown = false ->
  state_eqb (ControlPacket.PktState ctrl) StateDown &&
    (state_eqb (state s) StateUp || state_eqb (state s) StateInit) = false ->
  state (rx_advance now ctrl s) =
  rx_next (state s) (negb (peerDiscr s =? 0))
    (match ControlPacket.PktState ctrl with
     | StateDown => RxDown false
     | _ => RxActive (ControlPacket.PeerDiscr ctrl =? localDiscr s)
     end).
Proof.
  intros Hna Ha Hd. destruct s as [? ? pd st]. unfold rx_advance. session_cbv.
  destruct (ControlPacket.PktState ctrl), st; try discriminate; try done; cbn;
    repeat case_goal; try done; lia.
Qed.

Lemma HandleRx_rx_next now ctrl s :
  state (HandleRx now ctrl s).1 =
    rx_next (state s) (peer_known ctrl s) (classify now ctrl s) /\
  (HandleRx now ctrl s).2 = negb (state_eqb (state (HandleRx now ctrl s).1) (state s)).
Proof.
  assert (forall b, negb (state_eqb b b) = false) as Hrefl.
  { intros. unfold state_eqb. by rewrite bool_decide_eq_true_2. }
  unfold HandleRx, classify.
  destruct (state_eqb (state s) StateAdminDown) eqn:Ea.
  { apply bool_decide_eq_true in Ea. cbn [fst snd]. rewrite Hrefl, Ea. done. }
  apply bool_decide_eq_false in Ea.
  destruct (negb (ControlPacket.PeerDiscr ctrl =? 0) && _) eqn:Ef.
  { cbn [fst snd]. rewrite Hrefl. by destruct (state s). }
  cbv zeta. assert (state (learn_mode ctrl s) = state s) as Hlm by done.
  destruct (state_eqb (ControlPacket.PktState ctrl) StateAdminDown) eqn:Eca.
  { apply bool_decide_eq_true in Eca. rewrite Eca. cbn [fst snd]. split; [|done].
    change (state (remote_admin_down now (learn_mode ctrl s))) with StateDown.
    by destruct (state s). }
  destruct (state_eqb (ControlPacket.PktState ctrl) StateDown && _) eqn:Ecd.
  - assert (stale_down now (learn_mode ctrl s) = stale_down now s) as Hst
      by (destruct s; reflexivity).
    rewrite Hst. apply andb_true_iff in Ecd as [Ecd Ep].
    apply bool_decide_eq_true in Ecd. rewrite Ecd.
    destruct (stale_down now s) eqn:Estale; cbn [fst snd]; rewrite ?Hlm, ?Hrefl.
    + split; [|done]. unfold stale_down in Estale. case_hyp; [|done].
      destruct (state s); try done; discriminate.
    + split; [|done]. change (state (remote_down now (learn_mode ctrl s))) with StateDown.
      destruct (state s); try done; discriminate.
  - cbn [fst snd]. split; [|done].
    rewrite rx_advance_state by done.
    change (state (learn_timers now ctrl (learn_mode ctrl s))) with (state s).
    change (localDiscr (learn_timers now ctrl (learn_mode ctrl s))) with (localDiscr s).
    assert (negb (peerDiscr (learn_timers now ctrl (learn_mode ctrl s)) =? 0) =
            peer_known ctrl s) as ->.
    { unfold peer_known. destruct s as [? ? pd]. unfold learn_timers, learn_mode. session_cbv.
      case_goal; lia. }
    destruct (ControlPacket.PktState ctrl), (state s); try discriminate; done.
Qed.

Lemma sstep_edge s s' : sstep s s' -> fsm_edge (state s) (state s') = true.
Proof.
  assert (forall st, fsm_edge st st = true) as Hrefl by by intros [].
  destruct 1; try apply Hrefl.
  - destruct (HandleRx_rx_next now ctrl s) as [-> _].
    destruct (state s), (peer_known ctrl s), (classify now ctrl s) as [| |[]|[]]; done.
  - unfold ExpireIfDue. case_goal; [apply Hrefl|]. case_goal; [|apply Hrefl].
    cbn. destruct (state s); done.
  - unfold ArmDetect. case_goal; [apply Hrefl|]. case_goal; apply Hrefl.
  - unfold ComputeNextTx. destruct (effInterval s). cbv zeta. repeat case_goal; apply Hrefl.
  - unfold admin_down. case_goal; [apply Hrefl|]. by destruct (state s).
Qed.

Lemma ComputeNextTx_frame int63n now s :
  let s' := (ComputeNextTx int63n now s).1 in
  state s' = state s /\ txInterval s' = txInterval s /\ backoffMax s' = backoffMax s.
Proof.
  unfold ComputeNextTx. destruct (effInterval s). cbv zeta.
  repeat match goal with |- context [fst (if ?b then _ else _, _)] => destruct b end;
    split_and!; reflexivity.
Qed.

(** *** The fields the scheduler owns *)

Definition sched_fields (s : Session) : bool * Time * Time :=
  (alive s, nextTxScheduled s, nextDetectScheduled s).

Lemma ComputeNextTx_sched_fields int63n now s :
  sched_fields (ComputeNextTx int63n now s).1 = sched_fields s /\
  detectDeadline (ComputeNextTx int63n now s).1 = detectDeadline s.
Proof.
  unfold ComputeNextTx. destruct (effInterval s). cbv zeta.
  repeat match goal with |- context [fst (if ?b then _ else _, _)] => destruct b end;
    split; reflexivity.
Qed.

Lemma ExpireIfDue_sched_fields now s : sched_fields (ExpireIfDue now s).1 = sched_fields s.
Proof. unfold ExpireIfDue. repeat case_goal; reflexivity. Qed.

Lemma rx_advance_sched_fields now ctrl s : sched_fields (rx_advance now ctrl s) = sched_fields s.
Proof.
  destruct s as [? ? ? st]. unfold rx_advance, sched_fields. session_cbv.
  destruct st; repeat case_goal; reflexivity.
Qed.

Lemma HandleRx_sched_fields now ctrl s : sched_fields (HandleRx now ctrl s).1 = sched_fields s.
Proof.
  unfold HandleRx. cbv zeta. repeat (case_goal; [reflexivity|]).
  case_goal; [case_goal; reflexivity|]. cbn [fst]. by rewrite rx_advance_sched_fields.
Qed.

(** ** Lemmas: transmission and detection times *)

(** The jittered interval of [ComputeNextTx], evaluated without overflow. *)
Lemma jitter_bounds (int63n : Z -> Z) eff :
  (forall n, 0 < n -> 0 <= int63n n < n) -> 0 < eff <= 2 ^ 62 ->
  let j := Z.quot eff 10 in
  let span := i64 (i64 (2 * j) + 1) in
  let v := i64 (eff + i64 (int63n (if span <? 1 then 1 else span) - j)) in
  eff - eff / 10 <= v <= eff + eff / 10.
Proof.
  intros Hr He. cbv zeta. rewrite Z.quot_div_nonneg by lia.
  assert (0 <= eff / 10 <= 2 ^ 62 / 10) as Hj
    by (split; [apply Z.div_pos|apply Z.div_le_mono]; lia).
  change (2 ^ 62 / 10) with 461168601842738790 in Hj.
  rewrite (swrap_id 64 ltac:(lia) (2 * (eff / 10))) by (unfold is_i; lia).
  rewrite (swrap_id 64 ltac:(lia) (2 * (eff / 10) + 1)) by (unfold is_i; lia).
  rewrite (proj2 (Z.ltb_ge _ _)) by lia.
  pose proof (Hr (2 * (eff / 10) + 1) ltac:(lia)).
  rewrite (swrap_id 64 ltac:(lia) (int63n _ - eff / 10)) by (unfold is_i; lia).
  rewrite swrap_id by (unfold is_i; lia). lia.
Qed.

Lemma effInterval_bounds s : session_ok s ->
  0 < (effInterval s).1 <= Z.max (maxTxCeil s) (backoffMax s) /\
  (state s = StateDown -> (effInterval s).1 <= backoffMax s) /\
  Z.max (maxTxCeil s) (backoffMax s) <= 2 ^ 62.
Proof.
  intros [Ht _ Hf _ _ _].
  pose proof (txInterval_bounds s ltac:(destruct Ht; lia)) as Hiv.
  destruct (decide (state s = StateDown)) as [Hs|Hs].
  - rewrite effInterval_down by done. cbn -[Z.pow].
    destruct Ht as (? & ? & ? & ? & ? & ? & ? & ?), Hf. unfold max_i64 in *.
    split_and!; nia.
  - unfold effInterval, state_eqb. rewrite bool_decide_eq_false_2 by done. cbn -[Z.pow].
    destruct Ht as (? & ? & ? & ? & ? & ? & ? & ?). unfold max_i64 in *.
    split_and!; [lia|lia|done|nia].
Qed.

Lemma expire_guard now s :
  (state_eqb (state s) StateUp || state_eqb (state s) StateInit) &&
  negb (IsZero (detectDeadline s)) && negb (Before now (detectDeadline s)) = true <->
  (state s = StateUp \/ state s = StateInit) /\
  detectDeadline s <> 0 /\ detectDeadline s <= now.
Proof.
  time_unfold. unfold state_eqb.
  rewrite !andb_true_iff, orb_true_iff, !negb_true_iff, !bool_decide_eq_true,
    Z.eqb_neq, Z.ltb_ge. tauto.
Qed.

Lemma ExpireIfDue_due t s :
  (ExpireIfDue t s).2 = true <->
  alive s = true /\ (state s = StateUp \/ state s = StateInit) /\
  detectDeadline s <> 0 /\ detectDeadline s <= t.
Proof.
  rewrite <- expire_guard. unfold ExpireIfDue.
  destruct (alive s); cbn [negb]; [|by split; [|intros []]].
  case_goal; cbn [snd]; by split; [|intros []].
Qed.

Lemma rx_advance_frame now ctrl s :
  let s' := rx_advance now ctrl s in
  detectDeadline s' = detectDeadline s /\ alive s' = alive s /\ detectMult s' = detectMult s /\
  minTxFloor s' = minTxFloor s /\ maxTxCeil s' = maxTxCeil s /\ detectTime s' = detectTime s.
Proof.
  destruct s as [? ? ? st]. unfold rx_advance. session_cbv.
  destruct st; repeat case_goal; split_and!; reflexivity.
Qed.

(** A packet that is neither foreign nor a transition to Down re-arms the
    detection deadline. *)
Lemma HandleRx_deadline now ctrl s :
  (state s <> StateDown -> ControlPacket.PktState ctrl <> StateDown) ->
  classify now ctrl s <> RxForeign ->
  let s' := (HandleRx now ctrl s).1 in
  state s' = StateUp \/ state s' = StateInit ->
  detectDeadline s' = now + detectTime s' /\ alive s' = alive s /\
  detectMult s' = detectMult s /\ minTxFloor s' = minTxFloor s /\ maxTxCeil s' = maxTxCeil s.
Proof.
  intros Hnd Hnf. unfold classify in Hnf. unfold HandleRx.
  destruct (state_eqb (state s) StateAdminDown) eqn:Ea.
  { apply bool_decide_eq_true in Ea. cbn. rewrite Ea. intuition discriminate. }
  destruct (negb (ControlPacket.PeerDiscr ctrl =? 0) && _); [done|]. cbv zeta.
  case_goal; [cbn; intuition discriminate|].
  destruct (state_eqb (ControlPacket.PktState ctrl) StateDown && _) eqn:Ed.
  { apply andb_true_iff in Ed as [Ed1 Ed2]. apply bool_decide_eq_true in Ed1.
    exfalso. apply Hnd; [|done]. intros E'. rewrite E' in Ed2. discriminate. }
  intros _. cbn [fst].
  destruct (rx_advance_frame now ctrl (learn_timers now ctrl (learn_mode ctrl s)))
    as (-> & -> & -> & -> & -> & ->).
  rewrite learn_timers_deadline. by split_and!.
Qed.

(** ** Properties *)

(** C19.  Every session a validated manager creates satisfies the invariant in
    every state the operations can bring it to: an Up session knows its peer,
    has an armed detection deadline and no down-time; Down records a reason
    exactly when it records a time; AdminDown has detection disarmed; peer
    timers are clamped; the backoff factor never overflows. *)
Theorem reachable_session_ok cfg s :
  config_ok cfg -> config_limits cfg -> reachable cfg s -> session_ok s.
Proof.
  intros Hc Hl. induction 1 as [discr r p addr now Hd Hn|s s' _ IH Hstep].
  - by apply newSession_ok.
  - by eapply sstep_ok.
Qed.

(** No operation leaves the protocol's state graph: AdminDown is
    absorbing, an Up session never goes back to Init, and every other change
    is one of Down to Init or Up, Init to Up or Down, Up to Down, or any
    state to AdminDown. *)
Theorem session_steps_follow_fsm s s' :
  sstep s s' ->
  fsm_edge (state s) (state s') = true /\
  (state s = StateAdminDown -> state s' = StateAdminDown) /\
  (state s = StateUp -> state s' <> StateInit).
Proof.
  intros H. apply sstep_edge in H.
  split_and!; [done| |]; intros E; rewrite E in H; destruct (state s'); done.
Qed.

(** C14.  [HandleRx] implements the abstract receive machine on every packet,
    and reports a change exactly when the state changed.  In particular a
    session comes Up only on a packet that echoes its discriminator from a
    peer in Init or Up. *)
Theorem HandleRx_refines now ctrl s :
  state (HandleRx now ctrl s).1 = rx_next (state s) (peer_known ctrl s) (classify now ctrl s) /\
  ((HandleRx now ctrl s).2 = true <-> state (HandleRx now ctrl s).1 <> state s) /\
  (state s <> StateUp -> state (HandleRx now ctrl s).1 = StateUp ->
   ControlPacket.PeerDiscr ctrl = localDiscr s /\
   (ControlPacket.PktState ctrl = StateInit \/ ControlPacket.PktState ctrl = StateUp)).
Proof.
  destruct (HandleRx_rx_next now ctrl s) as [H1 H2]. split_and!; [done| |].
  - rewrite H2. unfold state_eqb. rewrite negb_true_iff, bool_decide_eq_false. done.
  - rewrite H1. unfold classify. case_goal; [by destruct (state s)|].
    destruct (ControlPacket.PktState ctrl), (state s), (peer_known ctrl s);
      try done; cbn; try (case_goal; try done); (split; [lia|auto]).
Qed.

(** A detection timeout fires exactly on a managed Up or Init session
    whose deadline is set and reached; it moves the session to Down with
    reason timeout and disarms detection, and otherwise changes nothing. *)
Theorem ExpireIfDue_exact now s :
  let due := alive s = true /\ (state s = StateUp \/ state s = StateInit) /\
             detectDeadline s <> 0 /\ detectDeadline s <= now in
  ((ExpireIfDue now s).2 = true <-> due) /\
  (due -> let s' := (ExpireIfDue now s).1 in
     state s' = StateDown /\ lastDownReason s' = DownReasonTimeout /\ downSince s' = now /\
     upSince s' = 0 /\ detectDeadline s' = 0 /\ backoffFactor s' = 1) /\
  (~ due -> ExpireIfDue now s = (s, false)).
Proof.
  intros due. rewrite ExpireIfDue_due. subst due. rewrite <- expire_guard.
  unfold ExpireIfDue. destruct (alive s); cbn [negb].
  - case_goal; split_and!; try done; try tauto; intros []; discriminate.
  - split_and!; [done|by intros []|done].
Qed.

Lemma ComputeNextTx_next int63n now s :
  (forall n, 0 < n -> 0 <= int63n n < n) -> session_ok s ->
  let eff := (effInterval s).1 in
  0 < eff /\ now + eff - eff / 10 <= (ComputeNextTx int63n now s).2 <= now + eff + eff / 10.
Proof.
  intros Hr Hok. destruct (effInterval_bounds s Hok) as (Heff & _ & Hmax).
  cbv zeta. split; [lia|]. unfold ComputeNextTx. destruct (effInterval s) as [eff f].
  cbn [fst snd] in *. pose proof (jitter_bounds int63n eff Hr ltac:(lia)).
  cbv zeta in *. cbn [fst snd]. unfold TimeAdd. lia.
Qed.

(** The next transmission is within ten percent of the effective
    interval, which is positive and, while Down, capped by the backoff
    maximum: no arithmetic overflows on the way. *)
Theorem ComputeNextTx_jitter int63n now s :
  (forall n, 0 < n -> 0 <= int63n n < n) -> session_ok s ->
  let eff := (effInterval s).1 in
  let next := (ComputeNextTx int63n now s).2 in
  0 < eff <= Z.max (maxTxCeil s) (backoffMax s) /\
  now + eff - eff / 10 <= next <= now + eff + eff / 10 /\
  (state s = StateDown -> eff <= backoffMax s).
Proof.
  intros Hr Hok. destruct (effInterval_bounds s Hok) as (Heff & Hcap & _).
  intros eff next. destruct (ComputeNextTx_next int63n now s Hr Hok) as [_ ?].
  split_and!; try apply Heff; try done; subst eff next; lia.
Qed.

(** While Down the transmit interval backs off exponentially: after [n]
    transmissions it is the base interval times [2^n] times the current
    factor, up to the cap, where it stays. *)
Theorem backoff_exponential int63n nows s :
  session_ok s -> state s = StateDown ->
  (effInterval (transmissions int63n nows s)).1 =
  Z.min (txInterval s * backoffFactor s * 2 ^ Z.of_nat (length nows)) (backoffMax s).
Proof.
  revert s. induction nows as [|now nows IH]; intros s Hok Hs; cbn [transmissions fold_left length].
  - rewrite effInterval_down by (apply Hok || done). cbn. f_equal. lia.
  - destruct (ComputeNextTx_frame int63n now s) as (E1 & E2 & E3). cbn zeta in *.
    fold (transmissions int63n nows (ComputeNextTx int63n now s).1).
    rewrite IH; [|by apply ComputeNextTx_ok|by rewrite E1].
    rewrite E2, E3, ComputeNextTx_down by (apply Hok || done).
    rewrite Nat2Z.inj_succ, Z.pow_succ_r by lia.
    case_goal; [f_equal; lia|].
    pose proof (Z.pow_pos_nonneg 2 (Z.of_nat (length nows)) ltac:(lia) ltac:(lia)) as HP.
    revert HP E. generalize (2 ^ Z.of_nat (length nows)).
    generalize (txInterval s * backoffFactor s). intros b P HP E.
    pose proof (ok_timing _ Hok) as (? & _ & _ & _ & _ & ? & _).
    rewrite !Z.min_r; nia.
Qed.

(** After a packet that leaves the session Up or Init, the session times
    out exactly when [detectMult] receive intervals have passed without
    another packet, neither earlier nor later; the window lies between
    [detectMult] floors and [detectMult] ceilings. *)
Theorem detect_window now ctrl s t :
  0 < now -> session_ok s -> alive s = true ->
  (state s <> StateDown -> ControlPacket.PktState ctrl <> StateDown) ->
  classify now ctrl s <> RxForeign ->
  let s' := (HandleRx now ctrl s).1 in
  state s' = StateUp \/ state s' = StateInit ->
  ((ExpireIfDue t s').2 = true <-> now + detectMult s * rxInterval s' <= t) /\
  detectMult s * minTxFloor s <= detectMult s * rxInterval s' <= detectMult s * maxTxCeil s.
Proof.
  intros Hn Hok Ha Hnd Hnf s' Hst.
  assert (detectDeadline s' = now + detectTime s' /\ alive s' = alive s /\
          detectMult s' = detectMult s /\ minTxFloor s' = minTxFloor s /\
          maxTxCeil s' = maxTxCeil s) as (E1 & E2 & E3 & E4 & E5)
    by by apply HandleRx_deadline.
  pose proof (HandleRx_ok now ctrl s Hn Hok) as Hok'. fold s' in Hok'.
  destruct (detectTime_eq s' (ok_timing _ Hok')) as [Hdt Hpos].
  pose proof (rxInterval_bounds s') as Hrx. rewrite E4, E5 in Hrx.
  destruct (ok_timing _ Hok) as (? & ? & ? & _). specialize (Hrx ltac:(lia)).
  split; [|nia].
  rewrite (ExpireIfDue_due t s'), E1, E2, Ha, Hdt, E3. rewrite Hdt, E3 in Hpos.
  split; [by intros (_ & _ & _ & ?)|]. intros. split_and!; try done; lia.
Qed.

(** ** Witnesses *)

Definition sample_route : LRoute :=
  mkLRoute (mkRoute (mkIPNet [10; 0; 0; 2] [255; 255; 255; 255]) [10; 0; 0; 1] 254
              [169; 254; 0; 1] 186) false.
Definition sample_peer : Peer := mkPeer (lit "doublezero0") (lit "10.0.0.1") (lit "10.0.0.2").

(** A fresh session under the default limits, at the given time. *)
Definition sample_session (discr : Z) (now : Time) : Session :=
  newSession sample_config_ok discr sample_route sample_peer ([10; 0; 0; 2], 44880) now.

Lemma sample_config_limits : config_ok sample_config_ok /\ config_limits sample_config_ok.
Proof. unfold config_ok, config_limits. vm_compute. intuition congruence. Qed.

Lemma sample_session_ok discr now : discr <> 0 -> session_ok (sample_session discr now).
Proof. intros. apply newSession_ok; [apply sample_config_limits..|done]. Qed.

(** Packets from a peer that echoes discriminator 7. *)
Definition sample_init : ControlPacket.t :=
  {| ControlPacket.Version := 1; ControlPacket.PktState := StateInit;
     ControlPacket.DetectMult := 3; ControlPacket.Length := 40;
     ControlPacket.LocalDiscr := 9; ControlPacket.PeerDiscr := 7;
     ControlPacket.DesiredMinTxUs := 300000; ControlPacket.RequiredMinRxUs := 300000;
     ControlPacket.Flags := 0; ControlPacket.Client := ClientVersion.mk 0 8 1 0 |}.

Lemma sample_init_wf : ControlPacket.wf sample_init.
Proof. unfold ControlPacket.wf, ClientVersion.wf. vm_compute. intuition congruence. Qed.

Lemma reachable_session_ok_witness :
  session_ok (HandleRx (5 * Second) sample_init (sample_session 7 Second)).1.
Proof.
  apply (reachable_session_ok sample_config_ok); [apply sample_config_limits..|].
  apply (reach_step _ (sample_session 7 Second));
    [apply reach_new; [discriminate|reflexivity]|].
  apply step_rx; [reflexivity|apply sample_init_wf].
Defined.

Lemma session_steps_follow_fsm_witness :
  fsm_edge StateDown (state (HandleRx (5 * Second) sample_init (sample_session 7 Second)).1) = true.
Proof.
  apply (session_steps_follow_fsm (sample_session 7 Second)).
  apply step_rx; [reflexivity|apply sample_init_wf].
Defined.

Lemma HandleRx_refines_witness :
  ControlPacket.PeerDiscr sample_init = 7 /\
  state (HandleRx (5 * Second) sample_init (sample_session 7 Second)).1 = StateUp.
Proof.
  split; [|vm_compute; reflexivity].
  apply (HandleRx_refines (5 * Second) sample_init (sample_session 7 Second));
    [discriminate|vm_compute; reflexivity].
Defined.

Lemma ExpireIfDue_exact_witness :
  let s := (HandleRx (5 * Second) sample_init (sample_session 7 Second)).1 in
  (ExpireIfDue (6 * Second) s).2 = true /\ state (ExpireIfDue (6 * Second) s).1 = StateDown.
Proof.
  intros s. split; [vm_compute; reflexivity|].
  apply (ExpireIfDue_exact (6 * Second) s). vm_compute. intuition congruence.
Defined.

Lemma ComputeNextTx_jitter_witness :
  9 * Second <= (ComputeNextTx (fun n => n - 1) (9 * Second) (sample_session 7 Second)).2.
Proof.
  destruct (ComputeNextTx_jitter (fun n => n - 1) (9 * Second) (sample_session 7 Second))
    as (H1 & H2 & _); [lia|by apply sample_session_ok|].
  revert H1 H2. generalize (effInterval (sample_session 7 Second)).1. intros eff [? _] [? _].
  pose proof (Z.div_le_upper_bound eff 10 eff ltac:(lia) ltac:(lia)). lia.
Defined.

Lemma backoff_exponential_witness :
  (effInterval (transmissions (fun _ => 0) [1; 2; 3] (sample_session 7 Second))).1 =
  2400 * Millisecond.
Proof.
  rewrite (backoff_exponential (fun _ => 0) [1; 2; 3] (sample_session 7 Second));
    [reflexivity|by apply sample_session_ok|reflexivity].
Defined.

Lemma detect_window_witness :
  let s := (HandleRx (5 * Second) sample_init (sample_session 7 Second)).1 in
  (ExpireIfDue (5900 * Millisecond) s).2 = true /\
  (ExpireIfDue (5900 * Millisecond - 1) s).2 <> true.
Proof.
  assert (forall t, (ExpireIfDue t (HandleRx (5 * Second) sample_init (sample_session 7 Second)).1).2
            = true <-> 5900 * Millisecond <= t) as H.
  { intros t.
    destruct (detect_window (5 * Second) sample_init (sample_session 7 Second) t) as [H _];
      [done|by apply sample_session_ok|done|done|vm_compute; discriminate| |exact H].
    left. vm_compute. reflexivity. }
  split; [apply H; lia|]. rewrite H. lia.
Defined.
