(* ===== verification/GoHeap.v ===== *)
(** * Go's [container/heap]

    The binary heap of the Go standard library over a list, with the
    comparison as a parameter: [up], [down], [Push] and [Pop] as the library
    writes them. The lemmas say that [Push] and [Pop] keep the heap order,
    permute the elements, and that [Pop] returns a least one. *)

From stdpp Require Import base tactics numbers list.
From Stdlib Require Import Lia ZifyBool ZifyNat.
From S2P Require Import Prelude.

#[local] Ltac Zify.zify_post_hook ::= Z.to_euclidean_division_equations.

Section Heap.

Context {E : Type} `{Inhabited E}.
Variable less : E -> E -> bool.

Definition heap_swap (i j : nat) (h : list E) : list E :=
  match h !! i, h !! j with
  | Some a, Some b => <[i := b]> (<[j := a]> h)
  | _, _ => h
  end.

Definition parent (j : nat) : nat := (j - 1) / 2.

(** Every call of [up] passes fuel [S j]: the index decreases. *)
Fixpoint heap_up (fuel : nat) (h : list E) (j : nat) : list E :=
  match fuel with
  | O => h
  | S fuel =>
      let i := parent j in
      if (i =? j)%nat || negb (less (h !!! j) (h !!! i)) then h
      else heap_up fuel (heap_swap i j h) i
  end.

(** The child [down] compares with. *)
Definition down_child (h : list E) (i n : nat) : nat :=
  let j1 := (2 * i + 1)%nat in
  let j2 := (j1 + 1)%nat in
  if (j2 <? n)%nat && less (h !!! j2) (h !!! j1) then j2 else j1.

(** Every call of [down] passes fuel [n]: the index at least doubles. *)
Fixpoint heap_down (fuel : nat) (h : list E) (i n : nat) : list E :=
  match fuel with
  | O => h
  | S fuel =>
      if (n <=? 2 * i + 1)%nat then h
      else
        let j := down_child h i n in
        if negb (less (h !!! j) (h !!! i)) then h
        else heap_down fuel (heap_swap i j h) j n
  end.

Definition heap_push (h : list E) (x : E) : list E :=
  let h := h ++ [x] in
  heap_up (length h) h (length h - 1).

(** [Pop] on a non-empty heap; the library indexes out of range on an empty one. *)
Definition heap_pop (h : list E) : option (E * list E) :=
  match h with
  | [] => None
  | _ =>
      let n := (length h - 1)%nat in
      let h := heap_down n (heap_swap 0 n h) 0 n in
      Some (h !!! n, take n h)
  end.

(** ** Order *)

Definition le_of (x y : E) : Prop := less y x = false.

Class TotalLess : Prop := {
  less_total : forall x y, le_of x y \/ le_of y x;
  less_trans : forall x y z, le_of x y -> le_of y z -> le_of x z
}.

(** Every element below [n] is at or after its parent. *)
Definition heap_ordered (n : nat) (h : list E) : Prop :=
  forall i, (0 < i < n)%nat -> le_of (h !!! parent i) (h !!! i).

Context `{TotalLess}.

Lemma le_of_refl x : le_of x x.
Proof. by destruct (less_total x x). Qed.

Lemma less_le x y : less x y = true -> le_of x y.
Proof. intros Hl. destruct (less_total x y) as [|Hle]; [done|]. unfold le_of in Hle. congruence. Qed.

Lemma length_swap i j h : length (heap_swap i j h) = length h.
Proof. unfold heap_swap. destruct (h !! i), (h !! j); by rewrite ?length_insert. Qed.

Lemma lookup_swap i j h k : (i < length h)%nat -> (j < length h)%nat ->
  heap_swap i j h !!! k =
  if decide (k = i) then h !!! j else if decide (k = j) then h !!! i else h !!! k.
Proof.
  intros Hi Hj. unfold heap_swap.
  destruct (lookup_lt_is_Some_2 h i Hi) as [a Ha], (lookup_lt_is_Some_2 h j Hj) as [b Hb].
  rewrite Ha, Hb. rewrite !list_lookup_total_alt, Ha, Hb. cbn.
  destruct (decide (k = i)) as [->|].
  { rewrite list_lookup_insert_eq; [done|by rewrite length_insert]. }
  rewrite list_lookup_insert_ne by done.
  destruct (decide (k = j)) as [->|]; [by rewrite list_lookup_insert_eq|].
  by rewrite list_lookup_insert_ne.
Qed.

Lemma swap_perm i j h : heap_swap i j h ≡ₚ h.
Proof.
  unfold heap_swap. destruct (h !! i) as [a|] eqn:Ha; [|done].
  destruct (h !! j) as [b|] eqn:Hb; [|done].
  apply Permutation_inj. rewrite !length_insert. split; [done|].
  exists (fun k => if decide (k = i) then j else if decide (k = j) then i else k). split.
  - intros x y. repeat case_decide; congruence.
  - intros k. apply lookup_lt_Some in Ha as Hi. apply lookup_lt_Some in Hb as Hj.
    case_decide as Hk; [subst k; rewrite list_lookup_insert_eq; [done|by rewrite length_insert]|].
    rewrite list_lookup_insert_ne by done.
    case_decide as Hk'; [subst k; by rewrite list_lookup_insert_eq|].
    by rewrite list_lookup_insert_ne.
Qed.

Lemma length_up fuel h j : length (heap_up fuel h j) = length h.
Proof.
  revert h j. induction fuel as [|fuel IH]; intros h j; cbn; [done|].
  case_match; [done|]. by rewrite IH, length_swap.
Qed.

Lemma up_perm fuel h j : heap_up fuel h j ≡ₚ h.
Proof.
  revert h j. induction fuel as [|fuel IH]; intros h j; cbn; [done|].
  case_match; [done|]. by rewrite IH, swap_perm.
Qed.

Lemma length_down fuel h i n : length (heap_down fuel h i n) = length h.
Proof.
  revert h i. induction fuel as [|fuel IH]; intros h i; cbn -[Nat.mul]; [done|].
  repeat case_match; try done; by rewrite IH, length_swap.
Qed.

Lemma down_perm fuel h i n : heap_down fuel h i n ≡ₚ h.
Proof.
  revert h i. induction fuel as [|fuel IH]; intros h i; cbn -[Nat.mul]; [done|].
  repeat case_match; try done; by rewrite IH, swap_perm.
Qed.

(** Rewrites every lookup in a swapped list and splits on the indices. *)
Ltac swap_cases :=
  rewrite !lookup_swap by lia;
  repeat (case_decide; subst; try (unfold parent in *; lia)).

Lemma up_ordered fuel h j n :
  (j < fuel)%nat -> (j < n <= length h)%nat ->
  (forall i, (0 < i < n)%nat -> i <> j -> le_of (h !!! parent i) (h !!! i)) ->
  (forall i, (0 < i < n)%nat -> parent i = j -> (0 < j)%nat ->
     le_of (h !!! parent j) (h !!! i)) ->
  heap_ordered n (heap_up fuel h j).
Proof.
  revert h j. induction fuel as [|fuel IH]; intros h j Hf Hn H1 H2; [lia|]. cbn [heap_up].
  case_match eqn:Hg.
  { apply orb_true_iff in Hg as [Hg|Hg].
    - intros i Hi. apply H1; [lia|]. unfold parent in Hg. lia.
    - intros i Hi. destruct (decide (i = j)) as [->|]; [by apply negb_true_iff in Hg|auto]. }
  apply orb_false_iff in Hg as [Hp Hl]. apply negb_false_iff in Hl.
  assert (parent j < j)%nat by (unfold parent in *; lia).
  apply IH; rewrite ?length_swap; try lia.
  - intros i Hi Hne. destruct (decide (i = j)) as [->|].
    { swap_cases. by apply less_le. }
    destruct (decide (parent i = j)) as [Hj|].
    { rewrite Hj. swap_cases. apply H2; [lia|done|lia]. }
    destruct (decide (parent i = parent j)) as [Hj|].
    + rewrite Hj. swap_cases. apply less_trans with (h !!! parent j); [by apply less_le|].
      rewrite <- Hj. by apply H1.
    + swap_cases. by apply H1.
  - intros i Hi Hpi Hpos. assert (parent (parent j) < parent j)%nat by (unfold parent in *; lia).
    assert (le_of (h !!! parent (parent j)) (h !!! parent j)) by (apply H1; lia).
    destruct (decide (i = j)) as [->|]; [by swap_cases|].
    assert (i <> parent j) by (unfold parent in *; lia).
    swap_cases. apply less_trans with (h !!! parent j); [done|]. rewrite <- Hpi. by apply H1.
Qed.

(** That child is a least one. *)
Lemma down_child_least (h : list E) i n (j := down_child h i n) :
  (2 * i + 1 < n)%nat ->
  (parent j = i /\ (i < j < n)%nat) /\
  forall k, (0 < k < n)%nat -> parent k = i -> le_of (h !!! j) (h !!! k).
Proof.
  intros Hn. subst j. unfold down_child. set (j1 := (2 * i + 1)%nat). set (j2 := (j1 + 1)%nat).
  case_match eqn:Hg.
  - apply andb_true_iff in Hg as [Hlt Hl]. split; [subst j2 j1; unfold parent; lia|].
    intros k Hk Hp. assert (k = j1 \/ k = j2) as [->| ->] by (subst j2 j1; unfold parent in *; lia).
    + by apply less_le.
    + apply le_of_refl.
  - split; [subst j2 j1; unfold parent; lia|]. intros k Hk Hp.
    assert (k = j1 \/ k = j2) as [->| ->] by (subst j2 j1; unfold parent in *; lia).
    + apply le_of_refl.
    + apply andb_false_iff in Hg as [Hg|Hg]; [lia|done].
Qed.

Lemma down_ordered fuel h i n :
  (n <= fuel + i)%nat -> (i < length h)%nat -> (n <= length h)%nat ->
  (forall k, (0 < k < n)%nat -> parent k <> i -> le_of (h !!! parent k) (h !!! k)) ->
  (forall k, (0 < k < n)%nat -> parent k = i -> (0 < i)%nat ->
     le_of (h !!! parent i) (h !!! k)) ->
  heap_ordered n (heap_down fuel h i n).
Proof.
  revert h i. induction fuel as [|fuel IH]; intros h i Hf Hil Hn H1 H2; cbn [heap_down].
  { intros k Hk. apply H1; [lia|]. unfold parent. lia. }
  case_match eqn:Hg.
  { intros k Hk. apply H1; [lia|]. unfold parent. lia. }
  destruct (down_child_least h i n) as [[Hpj Hj] Hmin]; [lia|].
  set (j := down_child h i n) in *. clearbody j. case_match eqn:Hl.
  { apply negb_true_iff in Hl. intros k Hk. destruct (decide (parent k = i)) as [Hp|].
    - rewrite Hp. apply less_trans with (h !!! j); [done|by apply Hmin].
    - by apply H1. }
  apply negb_false_iff in Hl. apply IH; rewrite ?length_swap; try lia.
  - intros k Hk Hp. destruct (decide (parent k = i)) as [Hpi|].
    { rewrite Hpi. assert (k <> i) by (unfold parent in *; lia).
      swap_cases; [by apply less_le|by apply Hmin]. }
    destruct (decide (k = i)) as [->|].
    { swap_cases. apply H2; [lia|done|lia]. }
    assert (k <> j) by congruence. swap_cases. by apply H1.
  - intros k Hk Hp Hpos. rewrite Hpj. assert (k <> i /\ k <> j) by (unfold parent in *; lia).
    swap_cases. apply H1; [done|]. lia.
Qed.

(** ** [Push] and [Pop] *)

Lemma push_perm h x : heap_push h x ≡ₚ x :: h.
Proof. unfold heap_push. rewrite up_perm. by rewrite Permutation_app_comm. Qed.

Lemma push_ordered h x : heap_ordered (length h) h ->
  heap_ordered (length (heap_push h x)) (heap_push h x).
Proof.
  intros Ho. unfold heap_push. rewrite length_up. apply up_ordered; rewrite length_app; cbn [length]; try lia.
  - intros i Hi Hne.
    rewrite !lookup_total_app_l by (unfold parent; lia). apply Ho. lia.
  - intros i Hi Hp. unfold parent in Hp. lia.
Qed.

(** The root of an ordered heap is a least element. *)
Lemma root_least n h i : heap_ordered n h -> (i < n)%nat -> le_of (h !!! 0%nat) (h !!! i).
Proof.
  intros Ho. induction i as [i IH] using lt_wf_ind. intros Hi.
  destruct (decide (i = 0%nat)) as [->|]; [apply le_of_refl|].
  apply less_trans with (h !!! parent i); [apply IH; unfold parent; lia|apply Ho; lia].
Qed.

Lemma down_beyond fuel h i n k : (i < n)%nat -> (n <= length h)%nat -> (n <= k)%nat ->
  heap_down fuel h i n !!! k = h !!! k.
Proof.
  revert h i. induction fuel as [|fuel IH]; intros h i Hi Hn Hk; cbn [heap_down]; [done|].
  case_match eqn:Hg; [done|].
  destruct (down_child_least h i n) as [[_ Hj] _]; [lia|].
  set (j := down_child h i n) in *. clearbody j.
  case_match; [done|]. rewrite IH by (rewrite ?length_swap; lia). swap_cases; done.
Qed.

Lemma split_last (h : list E) n : length h = S n -> h = take n h ++ [h !!! n].
Proof.
  intros Hlen. rewrite <- (take_drop n h) at 1. f_equal.
  destruct (lookup_lt_is_Some_2 h n ltac:(lia)) as [x Hx].
  rewrite (drop_S _ x) by done. rewrite list_lookup_total_alt, Hx, drop_ge by lia. done.
Qed.

(** The heap after the root has been exchanged with the last element and
    sifted down. *)
Lemma pop_sift h n (hd := heap_down n (heap_swap 0 n h) 0 n) :
  length h = S n -> heap_ordered (length h) h ->
  length hd = S n /\ hd !!! n = h !!! 0%nat /\ heap_ordered n hd.
Proof.
  intros Hlen Ho. subst hd. split; [by rewrite length_down, length_swap|]. split.
  - destruct (decide (n = 0%nat)) as [->|].
    { cbn. swap_cases; done. }
    rewrite down_beyond by (rewrite ?length_swap; lia). swap_cases; done.
  - apply down_ordered; rewrite ?length_swap; try lia.
    intros k Hk Hp. assert (parent k <> n) by (unfold parent; lia). swap_cases. apply Ho. lia.
Qed.

Lemma pop_spec h x h' : heap_ordered (length h) h -> heap_pop h = Some (x, h') ->
  x = h !!! 0%nat /\ x :: h' ≡ₚ h /\ heap_ordered (length h') h' /\
  Forall (le_of x) h'.
Proof.
  intros Ho Hp. destruct (length h) as [|n] eqn:Hlen.
  { apply nil_length_inv in Hlen as ->. done. }
  destruct (pop_sift h n) as (Hl & Hx & Hod); [done|by rewrite Hlen|].
  assert (Hpop : Some (h !!! 0%nat, take n (heap_down n (heap_swap 0 n h) 0 n)) = Some (x, h')).
  { rewrite <- Hp, <- Hx. destruct h; [done|]. cbn [length] in Hlen. unfold heap_pop.
    replace (length (e :: h) - 1)%nat with n by (cbn; lia). done. }
  injection Hpop as <- <-. clear Hp. set (hd := heap_down _ _ _ _) in *.
  assert (Hperm : h !!! 0%nat :: take n hd ≡ₚ h).
  { transitivity hd; [|unfold hd; by rewrite down_perm, swap_perm].
    rewrite (split_last hd n Hl) at 2. rewrite Hx. by rewrite Permutation_app_comm. }
  split; [done|]. split; [done|]. rewrite length_take, Hl, Nat.min_l by lia. split.
  - intros i Hi. rewrite !lookup_total_take, !decide_True by (unfold parent; lia).
    by apply Hod.
  - apply Forall_forall. intros y Hy.
    assert (Hin : y ∈ h) by (rewrite <- Hperm; by constructor).
    apply list_elem_of_lookup_total in Hin as (i & Hi & <-). rewrite Hlen in Hi.
    by apply (root_least (S n)).
Qed.

Lemma pop_None h : heap_pop h = None <-> h = [].
Proof. by destruct h. Qed.

End Heap.
