(* ===== verification/EventQueue.v ===== *)
(** * Route liveness: the event queue

    Models [EventQueue] and [eventHeap] of
    [client/doublezerod/internal/liveness/scheduler.go]: a binary heap of
    timers ordered by time, then by a sequence number given at insertion.
    [TimerQueue] is what the scheduler relies on; the heap implements it, and
    refines a list kept sorted by time with first-in first-out ties. *)

From stdpp Require Import base tactics numbers list gmap.
From Stdlib Require Import ZArith Lia ZifyBool Sorted.
From S2P Require Import Prelude Bytes GoHeap LivenessSession.

#[local] Open Scope Z_scope.

Inductive eventType :=
| eventTypeTX
| eventTypeDetect.

#[global] Instance eventType_eq_dec : EqDecision eventType.
Proof. solve_decision. Defined.

(** A [*Session] is the address of a session in a store. *)
Definition sid := nat.

Record event := mkEvent {
  when : Time;
  ev_type : eventType;
  ev_session : sid;
  seq : Z
}.

#[global] Instance event_eta : RecordEta event := {
  eta_record := fun r => mkEvent (when r) (ev_type r) (ev_session r) (seq r);
  eta_record_id := fun r => match r with mkEvent _ _ _ _ => eq_refl end
}.
#[global] Instance event_eq_dec : EqDecision event.
Proof. solve_decision. Defined.
#[global] Instance event_inhabited : Inhabited event := populate (mkEvent 0 eventTypeTX 0%nat 0).

Definition Less (a b : event) : bool :=
  if TimeEqual (when a) (when b) then seq a <? seq b else Before (when a) (when b).

Record EventQueue := mkEventQueue { pq : list event; qseq : Z }.

Definition NewEventQueue : EventQueue := {| pq := []; qseq := 0 |}.

Definition Push (e : event) (q : EventQueue) : EventQueue :=
  let n := u64 (qseq q + 1) in
  {| pq := heap_push Less (pq q) (e <| seq := n |>); qseq := n |}.

Definition Pop (q : EventQueue) : option event * EventQueue :=
  match heap_pop Less (pq q) with
  | None => (None, q)
  | Some (ev, h) => (Some ev, {| pq := h; qseq := qseq q |})
  end.

Definition PopIfDue (now : Time) (q : EventQueue) : option event * Duration * EventQueue :=
  match pq q with
  | [] => (None, 10 * Millisecond, q)
  | ev :: _ =>
      let d := TimeSub (when ev) now in
      if 0 <? d then (None, d, q)
      else let '(r, q') := Pop q in (r, 0, q')
  end.

Definition Len (q : EventQueue) : Z := Z.of_nat (length (pq q)).

(** The events of the sessions on one interface and local address. *)
Definition CountFor (store : gmap sid Session) (iface localIP : bytes) (q : EventQueue) : Z :=
  Z.of_nat (length (List.filter (fun ev =>
    match store !! ev_session ev with
    | Some s => bool_decide (Interface (peer s) = iface) && bool_decide (LocalIP (peer s) = localIP)
    | None => false
    end) (pq q))).

(** ** What the scheduler relies on *)

Class TimerQueue (Q : Type) := {
  tq_push : event -> Q -> Q;
  tq_pop_due : Time -> Q -> option event * Duration * Q;
  tq_len : Q -> Z;
  tq_ok : Q -> Prop;
  tq_pending : Q -> list event;
  tq_push_ok e q : tq_ok q ->
    tq_ok (tq_push e q) /\
    exists n, tq_pending (tq_push e q) ≡ₚ e <| seq := n |> :: tq_pending q;
  tq_pop_some now q e d q' : tq_ok q -> tq_pop_due now q = (Some e, d, q') ->
    tq_ok q' /\ tq_pending q ≡ₚ e :: tq_pending q' /\ when e <= now /\
    Forall (fun e' => when e <= when e') (tq_pending q');
  tq_pop_none now q d q' : tq_ok q -> tq_pop_due now q = (None, d, q') ->
    q' = q /\ 0 < d /\ Forall (fun e => now < when e) (tq_pending q);
  tq_len_pending q : tq_len q = Z.of_nat (length (tq_pending q))
}.

(** ** The specification: a list sorted by time, ties first-in first-out *)

(** A timer without its sequence number. *)
Definition timer := (Time * eventType * sid)%type.
Definition timer_of (e : event) : timer := (when e, ev_type e, ev_session e).
Definition due_at (t : timer) : Time := t.1.1.

Fixpoint insert_timer (t : timer) (l : list timer) : list timer :=
  match l with
  | [] => [t]
  | u :: l' => if due_at u <=? due_at t then u :: insert_timer t l' else t :: l
  end.

Inductive queue_op :=
| OpPush (e : event)
| OpPop
| OpPopIfDue (now : Time).

(** What an operation returns: the timer, and the time to sleep. *)
Definition queue_out := (option timer * Duration)%type.

Definition spec_op (o : queue_op) (l : list timer) : queue_out * list timer :=
  match o with
  | OpPush e => ((None, 0), insert_timer (timer_of e) l)
  | OpPop => match l with [] => ((None, 0), []) | t :: l' => ((Some t, 0), l') end
  | OpPopIfDue now =>
      match l with
      | [] => ((None, 10 * Millisecond), [])
      | t :: l' =>
          if due_at t <=? now then ((Some t, 0), l')
          else ((None, TimeSub (due_at t) now), l)
      end
  end.

Definition impl_op (o : queue_op) (q : EventQueue) : queue_out * EventQueue :=
  match o with
  | OpPush e => ((None, 0), Push e q)
  | OpPop => let '(r, q') := Pop q in ((timer_of <$> r, 0), q')
  | OpPopIfDue now => let '(r, d, q') := PopIfDue now q in ((timer_of <$> r, d), q')
  end.

Fixpoint run_ops {S} (op : queue_op -> S -> queue_out * S) (os : list queue_op) (s : S) :
    list queue_out :=
  match os with
  | [] => []
  | o :: os => let '(r, s') := op o s in r :: run_ops op os s'
  end.

(** ** Lemmas *)

#[global] Instance Less_total : TotalLess Less.
Proof.
  split; unfold le_of, Less; time_unfold.
  - intros x y. destruct (when y =? when x) eqn:E1, (when x =? when y) eqn:E2; lia.
  - intros x y z. destruct (when y =? when x) eqn:E1, (when z =? when y) eqn:E2,
      (when z =? when x) eqn:E3; lia.
Qed.

Lemma le_of_when x y : le_of Less x y -> when x <= when y.
Proof. unfold le_of, Less. time_unfold. destruct (when y =? when x) eqn:E; lia. Qed.

Lemma TimeSub_pos t u : (0 <? TimeSub t u) = negb (t <=? u).
Proof. unfold TimeSub, max_i64, min_i64. lia. Qed.

Definition queue_ok (q : EventQueue) : Prop := heap_ordered Less (length (pq q)) (pq q).

Lemma Push_ok e q : queue_ok q -> queue_ok (Push e q).
Proof. intros H. by apply push_ordered; [apply _|]. Qed.

Lemma Pop_spec q e q' : queue_ok q -> Pop q = (Some e, q') ->
  e = pq q !!! 0%nat /\ e :: pq q' ≡ₚ pq q /\ queue_ok q' /\ qseq q' = qseq q /\
  Forall (le_of Less e) (pq q').
Proof.
  intros Hok. unfold Pop. destruct (heap_pop Less (pq q)) as [[x h]|] eqn:E; [|done].
  intros [= -> <-]. cbn. apply pop_spec in E as (? & ? & ? & ?); [done|apply _|done].
Qed.

Lemma Pop_None q q' : Pop q = (None, q') -> pq q = [] /\ q' = q.
Proof.
  unfold Pop. destruct (heap_pop Less (pq q)) as [[]|] eqn:E; [done|].
  apply pop_None in E. by intros [= <-].
Qed.

Lemma PopIfDue_some now q e d q' : PopIfDue now q = (Some e, d, q') ->
  d = 0 /\ Pop q = (Some e, q') /\ when (pq q !!! 0%nat) <= now.
Proof.
  unfold PopIfDue. destruct (pq q) as [|ev l] eqn:E; [done|].
  rewrite TimeSub_pos. destruct (when ev <=? now) eqn:Hd; [|done].
  destruct (Pop q) as [r q'']. intros [= -> <- ->]. cbn. split_and!; [done..|lia].
Qed.

Lemma PopIfDue_none now q d q' : PopIfDue now q = (None, d, q') ->
  q' = q /\ (pq q = [] /\ d = 10 * Millisecond \/
             pq q <> [] /\ d = TimeSub (when (pq q !!! 0%nat)) now /\ now < when (pq q !!! 0%nat)).
Proof.
  unfold PopIfDue. destruct (pq q) as [|ev l] eqn:E; [intros [= <- <-]; auto|].
  rewrite TimeSub_pos. destruct (when ev <=? now) eqn:Hd.
  - destruct (Pop q) as [[|] q''] eqn:Ep; [done|]. apply Pop_None in Ep as [Ep _]. congruence.
  - intros [= <- <-]. split; [done|]. right. cbn. split_and!; [done..|lia].
Qed.

#[global] Program Instance event_queue_timer : TimerQueue EventQueue := {|
  tq_push := Push;
  tq_pop_due := PopIfDue;
  tq_len := Len;
  tq_ok := queue_ok;
  tq_pending := pq
|}.
Next Obligation.
  intros e q Hok. split; [by apply Push_ok|]. eexists. apply push_perm.
Qed.
Next Obligation.
  intros now q e d q' Hok Hp. apply PopIfDue_some in Hp as (_ & Hp & Hw).
  apply Pop_spec in Hp as (-> & Hperm & Hok' & _ & Hall); [|done].
  split_and!; [done|by symmetry|done|]. eapply Forall_impl; [done|]. apply le_of_when.
Qed.
Next Obligation.
  intros now q d q' Hok Hp. apply PopIfDue_none in Hp as [-> [[Hq ->]|(Hne & -> & Hlt)]].
  - rewrite Hq. by split_and!.
  - split_and!; [done|pose proof (TimeSub_pos (when (pq q !!! 0%nat)) now); lia|].
    apply Forall_forall. intros e He. apply list_elem_of_lookup_total in He as (i & Hi & <-).
    pose proof (le_of_when _ _ (root_least Less _ _ i Hok Hi)). lia.
Qed.
Next Obligation. done. Qed.

(** *** Refinement of the sorted list *)

Fixpoint insert_event (e : event) (l : list event) : list event :=
  match l with
  | [] => [e]
  | u :: l' => if when u <=? when e then u :: insert_event e l' else e :: l
  end.

Abbreviation earlier := (fun x y => Less x y = true).

(** The sorted list of the queue's events: all numbered by the counter. *)
Definition sorted_view (q : EventQueue) (es : list event) : Prop :=
  queue_ok q /\ es ≡ₚ pq q /\ StronglySorted earlier es /\
  Forall (fun e => seq e <= qseq q) es.

Definition queue_rel (q : EventQueue) (l : list timer) : Prop :=
  exists es, sorted_view q es /\ l = map timer_of es.

Lemma insert_event_timer e es :
  map timer_of (insert_event e es) = insert_timer (timer_of e) (map timer_of es).
Proof. induction es as [|u es IH]; cbn; [done|]. unfold due_at. cbn. case_match; cbn; by rewrite ?IH. Qed.

Lemma insert_event_perm e es : insert_event e es ≡ₚ e :: es.
Proof. induction es as [|u es IH]; cbn; [done|]. case_match; [|done]. rewrite IH. constructor. Qed.

Lemma insert_event_sorted e es :
  Forall (fun u => seq u < seq e) es -> StronglySorted earlier es ->
  StronglySorted earlier (insert_event e es).
Proof.
  intros Hseq Hs. induction Hs as [|u es Hs IH Hall]; cbn; [by repeat constructor|].
  apply Forall_cons in Hseq as [Hu Hseq]. case_match eqn:E.
  - constructor; [by apply IH|]. rewrite insert_event_perm. constructor; [|done].
    unfold Less. time_unfold. destruct (when u =? when e) eqn:Ee; lia.
  - assert (Less e u = true).
    { unfold Less. time_unfold. destruct (when e =? when u) eqn:Ee; lia. }
    constructor; [by constructor|]. constructor; [done|].
    eapply Forall_impl; [done|]. intros x Hx. cbn in *. unfold Less in *. time_unfold.
    destruct (when u =? when x) eqn:E1, (when e =? when x) eqn:E2; lia.
Qed.

Lemma Push_rel e q l : 0 <= qseq q < 2 ^ 64 - 1 -> queue_rel q l ->
  queue_rel (Push e q) (insert_timer (timer_of e) l) /\ qseq (Push e q) = qseq q + 1.
Proof.
  intros Hq (es & (Hok & Hp & Hs & Hall) & ->).
  assert (Hn : u64 (qseq q + 1) = qseq q + 1) by (apply wrap_id; unfold is_u; lia).
  split; [|done]. exists (insert_event (e <| seq := qseq q + 1 |>) es).
  split; [split_and!|by rewrite insert_event_timer].
  - by apply Push_ok.
  - rewrite insert_event_perm. unfold Push. cbn [pq]. rewrite push_perm, Hn, Hp. done.
  - apply insert_event_sorted; [|done]. eapply Forall_impl; [done|]. cbn. lia.
  - rewrite insert_event_perm. unfold Push. cbn [qseq]. rewrite Hn.
    constructor; [cbn; lia|]. eapply Forall_impl; [done|]. cbn. lia.
Qed.

(** The root of the heap is the head of the sorted list. *)
Lemma Pop_head q x es : sorted_view q (x :: es) ->
  exists q', Pop q = (Some x, q') /\ sorted_view q' es /\ qseq q' = qseq q /\ pq q !!! 0%nat = x.
Proof.
  intros (Hok & Hp & Hs & Hall). destruct (Pop q) as [[e|] q'] eqn:Ep.
  - apply Pop_spec in Ep as (He & Hperm & Hok' & Hseq & Hmin); [|done].
    assert (e = x) as ->.
    { assert (Hin : e ∈ x :: es) by (rewrite Hp, <- Hperm; by constructor).
      apply StronglySorted_inv in Hs as [_ Hs]. apply elem_of_cons in Hin as [->|Hin]; [done|].
      rewrite Forall_forall in Hs. specialize (Hs _ Hin).
      assert (Hx : x ∈ e :: pq q') by (rewrite Hperm, <- Hp; by constructor).
      apply elem_of_cons in Hx as [->|Hx]; [done|].
      rewrite Forall_forall in Hmin. specialize (Hmin _ Hx). unfold le_of in Hmin. congruence. }
    exists q'. split; [done|]. split; [|done]. split; [done|]. split_and!.
    + apply (Permutation_cons_inv (a := x)). by rewrite Hperm.
    + by apply StronglySorted_inv in Hs as [? _].
    + rewrite Hseq. by apply Forall_cons in Hall as [_ ?].
  - apply Pop_None in Ep as [Ep _]. rewrite Ep in Hp. by apply Permutation_nil_r in Hp.
Qed.

Lemma impl_op_rel o q l : 0 <= qseq q < 2 ^ 64 - 1 -> queue_rel q l ->
  (impl_op o q).1 = (spec_op o l).1 /\ queue_rel (impl_op o q).2 (spec_op o l).2 /\
  qseq q <= qseq (impl_op o q).2 <= qseq q + 1.
Proof.
  intros Hq Hr. destruct o as [e| |now].
  - destruct (Push_rel e q l Hq Hr) as [? Hs]. cbn -[Push]. rewrite Hs. split_and!; [done..|lia|lia].
  - destruct Hr as (es & Hv & ->). destruct es as [|x es]; cbn -[Pop].
    + pose proof Hv as (_ & Hp & _). apply Permutation_nil_l in Hp.
      unfold Pop. rewrite <- Hp. cbn. split_and!; [done|by exists []|lia..].
    + destruct (Pop_head q x es Hv) as (q' & -> & Hv' & Hseq & _). cbn. rewrite Hseq.
      split_and!; [done|by exists es|lia..].
  - destruct Hr as (es & Hv & ->). destruct es as [|x es]; cbn -[PopIfDue].
    + pose proof Hv as (_ & Hp & _). apply Permutation_nil_l in Hp.
      unfold PopIfDue. rewrite <- Hp. cbn. split_and!; [done|by exists []|lia..].
    + destruct (Pop_head q x es Hv) as (q' & Ep & Hv' & Hseq & Hx).
      unfold PopIfDue. destruct (pq q) as [|y t] eqn:Eq.
      { destruct Hv as (_ & Hp & _). rewrite Eq in Hp. by apply Permutation_nil_r in Hp. }
      cbn in Hx. subst y. rewrite TimeSub_pos. unfold due_at. cbn.
      destruct (when x <=? now); cbn.
      * rewrite Ep. cbn. rewrite Hseq. split_and!; [done|by exists es|lia..].
      * split_and!; [done|by exists (x :: es)|lia..].
Qed.

(** C13.  The event queue is a stable priority queue: over any sequence of
    pushes and pops short of wrapping the 64-bit sequence counter, the heap
    returns exactly what a list kept sorted by time returns, events with equal
    times leaving in the order they were pushed; [PopIfDue] hands out the
    earliest event once it is due and otherwise the time left until it is. *)
Theorem queue_refines_sorted os :
  Z.of_nat (length os) < 2 ^ 64 ->
  run_ops impl_op os NewEventQueue = run_ops spec_op os [].
Proof.
  intros Hlen. assert (Hr : queue_rel NewEventQueue []) by (exists []; by repeat constructor).
  assert (Hq : 0 <= qseq NewEventQueue /\ qseq NewEventQueue + Z.of_nat (length os) < 2 ^ 64)
    by (cbn; lia).
  revert Hq Hr. clear Hlen. generalize NewEventQueue as q, (@nil timer) as l.
  induction os as [|o os IH]; intros q l Hq Hr; cbn [run_ops]; [done|]. cbn [length] in Hq.
  destruct (impl_op_rel o q l) as (Ho & Hr' & Hs); [lia|done|].
  destruct (impl_op o q) as [r q'], (spec_op o l) as [r' l']. cbn [fst snd] in *. subst r'.
  f_equal. apply IH; [lia|done].
Qed.

Lemma queue_refines_sorted_witness :
  let e w t i := {| when := w; ev_type := t; ev_session := i; seq := 0 |} in
  run_ops impl_op [OpPush (e 5 eventTypeTX 1%nat); OpPush (e 3 eventTypeDetect 2%nat);
                   OpPush (e 5 eventTypeDetect 3%nat); OpPopIfDue 4; OpPopIfDue 4; OpPop; OpPop]
    NewEventQueue =
  [(None, 0); (None, 0); (None, 0); (Some (3, eventTypeDetect, 2%nat), 0); (None, 1);
   (Some (5, eventTypeTX, 1%nat), 0); (Some (5, eventTypeDetect, 3%nat), 0)].
Proof. cbv zeta. rewrite queue_refines_sorted; [reflexivity|done]. Defined.
