(* ===== verification/LivenessScheduler.v ===== *)
(** * Route liveness: the scheduler

    Models [Scheduler] of [client/doublezerod/internal/liveness/scheduler.go]:
    transmit and detect timers over any [TimerQueue], the packet each
    transmission sends, and the body of the event loop. Sessions are shared
    objects: they live in a store and events hold their address. Metrics and
    logs are left out; the throttling state of the write warning is kept. *)

From stdpp Require Import base tactics numbers list gmap.
From Stdlib Require Import ZArith Lia ZifyBool.
From S2P Require Import Prelude Bytes GoStrings LivenessVersion LivenessPacket Routing.
From S2P Require Import LivenessConfig LivenessSession EventQueue.

#[local] Open Scope Z_scope.

(** The fields [NewScheduler] fixes. *)
Record SchedulerConfig := mkSchedulerConfig {
  maxEvents : Z;
  passiveMode : bool;
  schedClientVersion : ClientVersion.t;
  writeErrWarnEvery : Duration
}.

Definition NewScheduler (max : Z) (passive : bool) (v : ClientVersion.t) : SchedulerConfig :=
  {| maxEvents := max; passiveMode := passive; schedClientVersion := v;
     writeErrWarnEvery := 5 * Second |}.

(** A datagram handed to [UDPService.WriteTo]. *)
Record Datagram := mkDatagram {
  dg_payload : bytes;
  dg_dst : IP * Z;
  dg_iface : bytes;
  dg_src : IP
}.

(** How [WriteTo] ends: sent, failed, or failed after the context was cancelled. *)
Inductive write_result := WriteOk | WriteErr | WriteErrDone.

(** A goroutine that handles a session change: [onSessionUp] or [onSessionDown]. *)
Inductive task :=
| TaskUp (i : sid)
| TaskDown (i : sid).

#[global] Instance task_eq_dec : EqDecision task.
Proof. solve_decision. Defined.

(** [spawned] lists the goroutines that were started and have not run, oldest
    first; [overflow] counts the detect events dropped because the queue was
    full (the metric [SchedulerEventsDropped] with label "overflow"). *)
#[global] Instance SchedulerConfig_eta : RecordEta SchedulerConfig := {
  eta_record := fun r => mkSchedulerConfig (maxEvents r) (passiveMode r) (schedClientVersion r)
    (writeErrWarnEvery r);
  eta_record_id := fun r => match r with mkSchedulerConfig _ _ _ _ => eq_refl end
}.

Record SchedState (Q : Type) := mkSchedState {
  eq_ : Q;
  store : gmap sid Session;
  sent : list Datagram;
  writeErrWarnLast : Time;
  spawned : list task;
  overflow : nat
}.
Arguments mkSchedState {Q}.
Arguments eq_ {Q}.
Arguments store {Q}.
Arguments sent {Q}.
Arguments writeErrWarnLast {Q}.
Arguments spawned {Q}.
Arguments overflow {Q}.

#[global] Instance SchedState_eta Q : RecordEta (SchedState Q) := {
  eta_record := fun r => mkSchedState (eq_ r) (store r) (sent r) (writeErrWarnLast r) (spawned r)
    (overflow r);
  eta_record_id := fun r => match r with mkSchedState _ _ _ _ _ _ => eq_refl end
}.

Section Scheduler.
Context {Q : Type} `{!TimerQueue Q} (cfg : SchedulerConfig).

Definition put (i : sid) (s : Session) (st : SchedState Q) : SchedState Q :=
  st <| store := <[i := s]> (store st) |>.

Definition push_event (t : Time) (ty : eventType) (i : sid) (st : SchedState Q) : SchedState Q :=
  st <| eq_ := tq_push {| when := t; ev_type := ty; ev_session := i; seq := 0 |} (eq_ st) |>.

Definition maybeDropOnOverflow (et : eventType) (st : SchedState Q) : SchedState Q * bool :=
  if maxEvents cfg <=? 0 then (st, false)
  else if tq_len (eq_ st) <? maxEvents cfg then (st, false)
  else match et with
       | eventTypeTX => (st, false)
       | eventTypeDetect => (st <| overflow := S (overflow st) |>, true)
       end.

Definition scheduleTx (int63n : Z -> Z) (now : Time) (i : sid) (st : SchedState Q) :
    SchedState Q :=
  match store st !! i with
  | None => st
  | Some s =>
      if negb (alive s) || negb (IsZero (nextTxScheduled s)) then st
      else
        let '(s, next) := ComputeNextTx int63n now s in
        if negb (alive s) || negb (IsZero (nextTxScheduled s)) then put i s st
        else push_event next eventTypeTX i (put i (s <| nextTxScheduled := next |>) st)
  end.

Definition scheduleDetect (now : Time) (i : sid) (st : SchedState Q) : SchedState Q :=
  match store st !! i with
  | None => st
  | Some s =>
      let '(s, armed) := ArmDetect now s in
      match armed with
      | None => put i s st
      | Some ddl =>
          if TimeEqual (nextDetectScheduled s) ddl then put i s st
          else
            let s := s <| nextDetectScheduled := ddl |> in
            let '(st, dropped) := maybeDropOnOverflow eventTypeDetect st in
            if dropped then
              (* undo the marker, which is still [ddl] *)
              put i (s <| nextDetectScheduled := time_zero |>) st
            else push_event ddl eventTypeDetect i (put i s st)
      end
  end.

(** The packet [doTX] sends for a session. *)
Definition tx_packet (s : Session) : ControlPacket.t :=
  let pkt := {|
    ControlPacket.Version := 1;
    ControlPacket.PktState := state s;
    ControlPacket.DetectMult := detectMult s;
    ControlPacket.Length := 40;
    ControlPacket.LocalDiscr := localDiscr s;
    ControlPacket.PeerDiscr := peerDiscr s;
    ControlPacket.DesiredMinTxUs := u32 (Z.quot (localTxMin s) Microsecond);
    ControlPacket.RequiredMinRxUs := u32 (Z.quot (localRxMin s) Microsecond);
    ControlPacket.Flags := 0;
    ControlPacket.Client := schedClientVersion cfg |} in
  if passiveMode cfg then ControlPacket.SetPassive pkt else pkt.

Definition tx_datagram (s : Session) : Datagram := {|
  dg_payload := ControlPacket.Marshal (tx_packet s);
  dg_dst := peerAddr s;
  dg_iface := Interface (peer s);
  dg_src := match route s with Some r => Src (lr_Route r) | None => [] end
|}.

Definition doTX (wr : write_result) (now : Time) (i : sid) (st : SchedState Q) : SchedState Q :=
  match store st !! i with
  | None => st
  | Some s =>
      if negb (alive s) then st
      else match wr with
           | WriteErrDone => st
           | WriteErr =>
               if IsZero (writeErrWarnLast st) ||
                  (writeErrWarnEvery cfg <=? TimeSub now (writeErrWarnLast st))
               then st <| writeErrWarnLast := now |> else st
           | WriteOk => st <| sent := sent st ++ [tx_datagram s] |>
           end
  end.

Definition tryExpire (now : Time) (i : sid) (st : SchedState Q) : SchedState Q * bool :=
  match store st !! i with
  | None => (st, false)
  | Some s =>
      let '(s, expired) := ExpireIfDue now s in
      if expired then (push_event now eventTypeTX i (put i s st), true)
      else (put i s st, false)
  end.

(** What one iteration of [Run] observes: the clock at the top of the loop
    and at its later reads, the random source, and the write's outcome. *)
Record Tick := mkTick {
  tick_now : Time;
  tick_later : Time;
  tick_last : Time;
  tick_int63n : Z -> Z;
  tick_write : write_result
}.

Definition run_tx (tk : Tick) (ev : event) (s : Session) (st : SchedState Q) : SchedState Q :=
  let i := ev_session ev in
  let s := if TimeEqual (when ev) (nextTxScheduled s) then s <| nextTxScheduled := time_zero |>
           else s in
  let st := doTX (tick_write tk) (tick_later tk) i (put i s st) in
  if state_eqb (state s) StateAdminDown then st
  else scheduleTx (tick_int63n tk) (tick_last tk) i st.

Definition run_detect (tk : Tick) (ev : event) (s : Session) (st : SchedState Q) : SchedState Q :=
  let i := ev_session ev in
  let clear (s : Session) :=
    if TimeEqual (when ev) (nextDetectScheduled s) then s <| nextDetectScheduled := time_zero |>
    else s in
  if negb (TimeEqual (when ev) (detectDeadline s)) then put i (clear s) st
  else
    let '(st, expired) := tryExpire (tick_later tk) i (put i (clear s) st) in
    if expired then st <| spawned := spawned st ++ [TaskDown i] |>
    else match store st !! i with
         | Some s' =>
             if state_eqb (state s') StateUp || state_eqb (state s') StateInit
             then scheduleDetect (tick_last tk) i st else st
         | None => st
         end.

(** One iteration of [Run] whose context is not cancelled: the state, and the
    time to sleep when no event is due. *)
Definition run_iter (tk : Tick) (st : SchedState Q) : SchedState Q * option Duration :=
  match tq_pop_due (tick_now tk) (eq_ st) with
  | (None, wait, q) =>
      (st <| eq_ := q |>, Some (if wait <=? 0 then 10 * Millisecond else wait))
  | (Some ev, _, q) =>
      let st := st <| eq_ := q |> in
      match store st !! ev_session ev with
      | None => (st, None)
      | Some s =>
          (match ev_type ev with
           | eventTypeTX => run_tx tk ev s st
           | eventTypeDetect => run_detect tk ev s st
           end, None)
      end
  end.

(** The loop until no event is due, as long as the clock stands still. *)
Fixpoint drain (fuel : nat) (tk : Tick) (st : SchedState Q) : SchedState Q :=
  match fuel with
  | O => st
  | S fuel =>
      match run_iter tk st with
      | (st', Some _) => st'
      | (st', None) => drain fuel tk st'
      end
  end.

(** The iterations the due events can take: an expiry queues a transmission. *)
Definition cost (now : Time) (e : event) : nat :=
  if when e <=? now then match ev_type e with eventTypeTX => 1 | eventTypeDetect => 2 end else 0.

(** ** Invariant *)

Definition pending (st : SchedState Q) : list event := tq_pending (eq_ st).

(** A marker [t] is unset, or an event of that time is queued for the session. *)
Definition marked (pend : list event) (i : sid) (ty : eventType) (t : Time) : Prop :=
  t = 0 \/ exists e, e ∈ pend /\ ev_type e = ty /\ ev_session e = i /\ when e = t.

Record base (pend : list event) (i : sid) (s : Session) : Prop := {
  base_ok : session_ok s;
  base_tx : marked pend i eventTypeTX (nextTxScheduled s);
  base_detect : marked pend i eventTypeDetect (nextDetectScheduled s)
}.

(** A managed session that is not AdminDown has a transmission scheduled. *)
Definition driven (s : Session) : Prop :=
  alive s = true -> state s <> StateAdminDown -> nextTxScheduled s <> 0.

(** While no detect event was dropped, a managed Init or Up session has one
    scheduled exactly at its deadline. *)
Definition armed (drops : nat) (s : Session) : Prop :=
  drops = 0%nat -> alive s = true -> state s = StateUp \/ state s = StateInit ->
  nextDetectScheduled s = detectDeadline s.

Definition queue_valid (st : SchedState Q) : Prop :=
  tq_ok (eq_ st) /\ forall e, e ∈ pending st -> is_Some (store st !! ev_session e).

Definition sched_inv (st : SchedState Q) : Prop :=
  queue_valid st /\
  forall i s, store st !! i = Some s -> base (pending st) i s /\ driven s /\ armed (overflow st) s.

(** The invariant everywhere but at session [i], of which [P] holds. *)
Definition focus (i : sid) (st : SchedState Q) (P : Session -> Prop) : Prop :=
  queue_valid st /\
  (forall j s, j <> i -> store st !! j = Some s ->
     base (pending st) j s /\ driven s /\ armed (overflow st) s) /\
  exists s, store st !! i = Some s /\ base (pending st) i s /\ P s.

Definition tick_ok (tk : Tick) : Prop :=
  0 < tick_now tk <= tick_later tk /\ tick_later tk <= tick_last tk /\
  forall n, 0 < n -> 0 <= tick_int63n tk n < n.

(** ** Lemmas: focusing on one session *)

Lemma marked_perm pend pend' i ty t : pend ≡ₚ pend' -> marked pend i ty t -> marked pend' i ty t.
Proof. intros Hp [?|(e & He & ?)]; [by left|]. right. exists e. by rewrite <- Hp. Qed.

Lemma marked_cons e pend i ty t : marked pend i ty t -> marked (e :: pend) i ty t.
Proof. intros [?|(e' & He & ?)]; [by left|]. right. exists e'. split; [by right|done]. Qed.

Lemma push_pending t ty i st : queue_valid st ->
  tq_ok (eq_ (push_event t ty i st)) /\
  exists n, pending (push_event t ty i st) ≡ₚ mkEvent t ty i n :: pending st.
Proof.
  intros [Hok _]. unfold push_event, pending. cbn.
  destruct (tq_push_ok (mkEvent t ty i 0) (eq_ st) Hok) as [? [n ?]]. eauto.
Qed.

Lemma base_push t ty i st j s : queue_valid st ->
  base (pending st) j s -> base (pending (push_event t ty i st)) j s.
Proof.
  intros Hq [? ? ?]. destruct (push_pending t ty i st Hq) as [_ [n Hp]].
  constructor; [done|..]; (eapply marked_perm; [symmetry; exact Hp|by apply marked_cons]).
Qed.

Lemma marked_push t ty i st : queue_valid st -> marked (pending (push_event t ty i st)) i ty t.
Proof.
  intros Hq. destruct (push_pending t ty i st Hq) as [_ [n Hp]].
  right. exists (mkEvent t ty i n). rewrite Hp. split; [by left|done].
Qed.

Lemma put_valid i s st : queue_valid st -> queue_valid (put i s st).
Proof.
  intros [? Hv]. split; [done|]. intros e He. unfold put. cbn.
  apply lookup_insert_is_Some'. right. by apply Hv.
Qed.

Lemma push_valid t ty i st : queue_valid st -> is_Some (store st !! i) ->
  queue_valid (push_event t ty i st).
Proof.
  intros Hq Hi. destruct (push_pending t ty i st Hq) as [Hok [n Hp]]. split; [done|].
  intros e. rewrite Hp. intros [->|He]%elem_of_cons; [done|]. by apply Hq.
Qed.

Lemma focus_intro i s st : sched_inv st -> store st !! i = Some s ->
  focus i st (fun s' => s' = s /\ driven s /\ armed (overflow st) s).
Proof.
  intros [Hq Hall] Hi. split_and!; [done|by intros; apply Hall|].
  exists s. by destruct (Hall i s Hi).
Qed.

Lemma focus_elim i st : focus i st (fun s => driven s /\ armed (overflow st) s) -> sched_inv st.
Proof.
  intros (Hq & Hall & s & Hi & Hb & Hd). split; [done|]. intros j s' Hj.
  destruct (decide (j = i)) as [->|]; [|by apply Hall]. by simplify_eq.
Qed.

Lemma focus_impl i st (P P' : Session -> Prop) :
  focus i st P -> (forall s, session_ok s -> P s -> P' s) -> focus i st P'.
Proof.
  intros (Hq & Hall & s & Hi & Hb & HP) HPP. split_and!; [done..|].
  exists s. split_and!; [done..|]. apply HPP; [apply Hb|done].
Qed.

Lemma focus_put i st s (P P' : Session -> Prop) :
  focus i st P -> base (pending st) i s -> P' s -> focus i (put i s st) P'.
Proof.
  intros (Hq & Hall & s' & Hi & Hb & HP) Hs HP'. split_and!.
  - by apply put_valid.
  - intros j s'' Hj. unfold put. cbn. rewrite lookup_insert_ne by done. by apply Hall.
  - exists s. unfold put. cbn. rewrite lookup_insert_eq. done.
Qed.

Lemma focus_store i st st' (P : Session -> Prop) :
  store st' = store st -> eq_ st' = eq_ st -> (overflow st <= overflow st')%nat ->
  focus i st P -> focus i st' P.
Proof.
  unfold focus, queue_valid, pending. intros -> -> Hov (Hq & Hall & Hi).
  split; [done|]. split; [|done].
  intros j s Hj Hs. destruct (Hall j s Hj Hs) as (? & ? & Ha). split_and!; [done..|].
  intros Hz. apply Ha. lia.
Qed.

Lemma armed_same drops drops' s s' : (drops <= drops')%nat -> alive s' = alive s ->
  state s' = state s -> nextDetectScheduled s' = nextDetectScheduled s ->
  detectDeadline s' = detectDeadline s -> armed drops s -> armed drops' s'.
Proof.
  intros Hle Ea Es En Ed Ha Hz. rewrite Ea, Es, En, Ed. apply Ha. lia.
Qed.

(** Storing a session and queueing the event that justifies its new marker. *)
Lemma focus_push t ty i st s (P P' : Session -> Prop) :
  focus i st P -> session_ok s ->
  (ty = eventTypeTX -> nextTxScheduled s = t \/ marked (pending st) i eventTypeTX (nextTxScheduled s)) ->
  (ty = eventTypeTX -> marked (pending st) i eventTypeDetect (nextDetectScheduled s)) ->
  (ty = eventTypeDetect -> nextDetectScheduled s = t /\
     marked (pending st) i eventTypeTX (nextTxScheduled s)) ->
  P' s -> focus i (push_event t ty i (put i s st)) P'.
Proof.
  intros (Hq & Hall & s' & Hi & Hb & HP) Hs Ht1 Ht2 Hd HP'.
  pose proof (put_valid i s st Hq) as Hq'.
  assert (Hi' : store (put i s st) !! i = Some s) by (unfold put; cbn; apply lookup_insert_eq).
  assert (Hold : forall ty' t', marked (pending st) i ty' t' ->
            marked (pending (push_event t ty i (put i s st))) i ty' t').
  { intros ty' t' Hm. destruct (push_pending t ty i _ Hq') as [_ [n Hp]].
    eapply marked_perm; [by symmetry|]. by apply marked_cons. }
  pose proof (marked_push t ty i _ Hq') as Hnew.
  split_and!.
  - apply push_valid; [done|by eexists].
  - intros j s'' Hj Hl. unfold put in Hl. cbn in Hl. rewrite lookup_insert_ne in Hl by done.
    destruct (Hall j s'' Hj Hl) as (Hbj & ? & ?). split_and!; [|done..]. by apply base_push.
  - exists s. split_and!; [exact Hi'| |done]. destruct ty; constructor; try done.
    + destruct Ht1 as [->|]; [done|done|by apply Hold].
    + apply Hold. by apply Ht2.
    + apply Hold. by apply Hd.
    + destruct Hd as [-> _]; done.
Qed.

(** ** Lemmas: the operations *)

Lemma sched_fields_eq s s' : sched_fields s' = sched_fields s ->
  alive s' = alive s /\ nextTxScheduled s' = nextTxScheduled s /\
  nextDetectScheduled s' = nextDetectScheduled s.
Proof. unfold sched_fields. by intros [= -> -> ->]. Qed.

(** Replacing a session by one with the same scheduling fields. *)
Lemma base_same pend i s s' : base pend i s -> sched_fields s' = sched_fields s ->
  session_ok s' -> base pend i s'.
Proof.
  intros [? ? ?] (_ & E2 & E3)%sched_fields_eq ?. constructor; [done|by rewrite E2|by rewrite E3].
Qed.

Lemma scheduleTx_overflow int63n now i st :
  overflow (scheduleTx int63n now i st) = overflow st.
Proof. unfold scheduleTx. repeat case_match; done. Qed.

Lemma scheduleDetect_overflow now i st :
  (overflow st <= overflow (scheduleDetect now i st))%nat.
Proof. unfold scheduleDetect, maybeDropOnOverflow. repeat case_match; simplify_eq; cbn; lia. Qed.

Lemma scheduleTx_focus int63n now i s st :
  (forall n, 0 < n -> 0 <= int63n n < n) -> 0 < now -> focus i st (eq s) ->
  focus i (scheduleTx int63n now i st) (fun s' =>
    (alive s = true -> nextTxScheduled s' <> 0) /\ alive s' = alive s /\ state s' = state s /\
    nextDetectScheduled s' = nextDetectScheduled s /\ detectDeadline s' = detectDeadline s).
Proof.
  intros Hr Hn Hf. pose proof Hf as (Hq & Hall & s0 & Hi & Hb & ->).
  unfold scheduleTx. rewrite Hi. case_goal.
  { eapply focus_impl; [exact Hf|]. intros s _ <-. split_and!; try done.
    intros Ha E0. rewrite Ha in E. unfold IsZero in E. rewrite E0 in E. done. }
  apply orb_false_iff in E as [Ea Ez].
  destruct (ComputeNextTx_sched_fields int63n now s0) as [Hsf Hdd].
  destruct (ComputeNextTx_next int63n now s0 Hr (base_ok _ _ _ Hb)) as [He Hnx].
  pose proof (ComputeNextTx_ok int63n now s0 (base_ok _ _ _ Hb)) as Hok.
  destruct (ComputeNextTx_frame int63n now s0) as (Hst & _ & _).
  destruct (ComputeNextTx int63n now s0) as [s1 next]. cbn [fst snd] in *.
  destruct (sched_fields_eq _ _ Hsf) as (-> & -> & Hd1). rewrite Ea, Ez. cbn [orb].
  assert ((effInterval s0).1 / 10 < (effInterval s0).1) by (apply Z.div_lt; lia).
  assert (next <> 0) by lia.
  eapply focus_push; [exact Hf|..].
  - destruct Hok as [? ? ? ? ? ?]. by constructor.
  - intros _. left. done.
  - intros _. change (nextDetectScheduled (s1 <| nextTxScheduled := next |>)) with
      (nextDetectScheduled s1). rewrite Hd1. apply Hb.
  - done.
  - destruct (sched_fields_eq _ _ Hsf) as (Ha1 & _ & _). by split_and!.
Qed.

Lemma ArmDetect_spec now s : 0 < now -> session_ok s ->
  let '(s', r) := ArmDetect now s in
  session_ok s' /\ sched_fields s' = sched_fields s /\ state s' = state s /\
  match r with
  | None => s' = s /\ (alive s = false \/ detectDeadline s = 0)
  | Some ddl => ddl = detectDeadline s' /\ now < ddl
  end.
Proof.
  intros Hn Hok. pose proof (ArmDetect_ok now s Hn Hok) as Hok'. revert Hok'. unfold ArmDetect.
  destruct (negb (alive s) || IsZero (detectDeadline s)) eqn:E; cbn [fst].
  { intros _. split_and!; [done..|]. unfold IsZero in E. destruct (alive s); [right|by left].
    cbn in E. lia. }
  destruct (detectTime_eq s (ok_timing s Hok)) as [_ Hdt].
  destruct (negb (After (detectDeadline s) now)) eqn:E2; cbn [fst]; intros Hok';
    split_and!; try done; time_unfold; lia.
Qed.

Lemma scheduleDetect_focus now i s st :
  0 < now -> focus i st (eq s) ->
  focus i (scheduleDetect now i st) (fun s' =>
    (overflow (scheduleDetect now i st) = 0%nat -> alive s = true -> detectDeadline s <> 0 ->
       nextDetectScheduled s' = detectDeadline s') /\
    alive s' = alive s /\ state s' = state s /\ nextTxScheduled s' = nextTxScheduled s).
Proof.
  intros Hn Hf. pose proof Hf as (Hq & Hall & s0 & Hi & Hb & ->).
  unfold scheduleDetect. rewrite Hi.
  pose proof (ArmDetect_spec now s0 Hn (base_ok _ _ _ Hb)) as Hs.
  destruct (ArmDetect now s0) as [s1 r]. destruct Hs as (Hok & Hsf & Hst & Hr).
  destruct (sched_fields_eq _ _ Hsf) as (Ha & Ht & Hd).
  pose proof (base_same _ _ _ _ Hb Hsf Hok) as Hb1.
  destruct r as [ddl|].
  - destruct Hr as [-> Hlt]. case_goal.
    { eapply focus_put; [exact Hf|exact Hb1|]. unfold TimeEqual in E. split_and!; [lia|done..]. }
    assert (Hdrop : maybeDropOnOverflow eventTypeDetect st = (st, false) \/
        maybeDropOnOverflow eventTypeDetect st = (st <| overflow := S (overflow st) |>, true))
      by (unfold maybeDropOnOverflow; repeat case_goal; auto).
    destruct Hdrop as [-> | ->]; cycle 1.
    + eapply (focus_put _ (st <| overflow := S (overflow st) |>)).
      * eapply focus_store; [..|exact Hf]; [done|done|cbn; lia].
      * destruct Hb1 as [Hk ? ?]. constructor; [destruct Hk; by constructor|done|by left].
      * by split_and!.
    + eapply focus_push; [exact Hf|..]; try done.
      * destruct Hok as [? ? ? ? ? ?]. by constructor.
      * intros _. split; [done|]. apply Hb1.
  - destruct Hr as [-> Hr]. eapply focus_put; [exact Hf|done|]. split_and!; [|done..].
    intros _ ? ?. destruct Hr; congruence.
Qed.

Lemma doTX_store wr now i st :
  store (doTX wr now i st) = store st /\ eq_ (doTX wr now i st) = eq_ st /\
  overflow (doTX wr now i st) = overflow st.
Proof. unfold doTX. repeat case_match; done. Qed.


(** Popping an event for session [i]: the others keep their markers. *)
Lemma pop_focus now st ev d q s :
  sched_inv st -> tq_pop_due now (eq_ st) = (Some ev, d, q) ->
  store st !! ev_session ev = Some s ->
  let st' := st <| eq_ := q |> in
  queue_valid st' /\ when ev <= now /\
  (forall j s', j <> ev_session ev -> store st' !! j = Some s' ->
     base (pending st') j s' /\ driven s' /\ armed (overflow st) s') /\
  session_ok s /\ driven s /\ armed (overflow st) s /\
  (forall ty t, marked (pending st) (ev_session ev) ty t -> ty <> ev_type ev \/ t <> when ev ->
     marked (pending st') (ev_session ev) ty t) /\
  base (pending st) (ev_session ev) s.
Proof.
  intros [[Hok Hv] Hall] Hp Hi.
  destruct (tq_pop_some now (eq_ st) ev d q Hok Hp) as (Hok' & Hperm & Hw & _).
  assert (Hm : forall j ty t, marked (pending st) j ty t ->
            (j <> ev_session ev \/ ty <> ev_type ev \/ t <> when ev) -> marked (tq_pending q) j ty t).
  { intros j ty t [->|(e & He & <- & <- & <-)] Hne; [by left|]. right. exists e.
    unfold pending in He. rewrite Hperm in He. apply elem_of_cons in He as [->|]; [tauto|done]. }
  destruct (Hall _ _ Hi) as ([? ? ?] & Hd & Ha).
  split_and!; try done.
  - split; [done|]. intros e He. apply Hv. unfold pending in *. rewrite Hperm. by right.
  - intros j s' Hj Hl. destruct (Hall _ _ Hl) as ([? ? ?] & ? & ?).
    split_and!; [|done..]. constructor; [done|..]; (apply Hm; [done|by left]).
  - intros ty t H1 H2. apply Hm; [done|by right].
Qed.

(** The session with the marker of the popped event cleared. *)
Lemma clear_tx_base st ev q s :
  ev_type ev = eventTypeTX -> base (pending st) (ev_session ev) s ->
  (forall ty t, marked (pending st) (ev_session ev) ty t -> ty <> ev_type ev \/ t <> when ev ->
     marked (tq_pending q) (ev_session ev) ty t) ->
  base (tq_pending q) (ev_session ev)
    (if TimeEqual (when ev) (nextTxScheduled s) then s <| nextTxScheduled := time_zero |> else s).
Proof.
  intros Hty [Hok Htx Hd] Hm. unfold TimeEqual.
  assert (marked (tq_pending q) (ev_session ev) eventTypeDetect (nextDetectScheduled s))
    by (apply Hm; [done|left; by rewrite Hty]).
  destruct (when ev =? nextTxScheduled s) eqn:E; constructor; try done.
  - destruct Hok. by constructor.
  - by left.
  - apply Hm; [done|right; lia].
Qed.

Lemma clear_detect_base st ev q s :
  ev_type ev = eventTypeDetect -> base (pending st) (ev_session ev) s ->
  (forall ty t, marked (pending st) (ev_session ev) ty t -> ty <> ev_type ev \/ t <> when ev ->
     marked (tq_pending q) (ev_session ev) ty t) ->
  base (tq_pending q) (ev_session ev)
    (if TimeEqual (when ev) (nextDetectScheduled s) then s <| nextDetectScheduled := time_zero |>
     else s).
Proof.
  intros Hty [Hok Htx Hd] Hm. unfold TimeEqual.
  assert (marked (tq_pending q) (ev_session ev) eventTypeTX (nextTxScheduled s))
    by (apply Hm; [done|left; by rewrite Hty]).
  destruct (when ev =? nextDetectScheduled s) eqn:E; constructor; try done.
  - destruct Hok. by constructor.
  - by left.
  - apply Hm; [done|right; lia].
Qed.

(** Storing a session when the popped one is the only unconstrained one. *)
Lemma put_focus i s st (P : Session -> Prop) :
  queue_valid st ->
  (forall j s', j <> i -> store st !! j = Some s' -> base (pending st) j s' /\ driven s' /\ armed (overflow st) s') ->
  base (pending st) i s -> P s -> focus i (put i s st) P.
Proof.
  intros Hq Hall Hb HP. split_and!.
  - by apply put_valid.
  - intros j s' Hj. unfold put. cbn. rewrite lookup_insert_ne by done. by apply Hall.
  - exists s. unfold put. cbn. by rewrite lookup_insert_eq.
Qed.

Lemma ExpireIfDue_state_down now s :
  (ExpireIfDue now s).2 = true -> state (ExpireIfDue now s).1 = StateDown.
Proof. unfold ExpireIfDue. by repeat case_goal. Qed.

Lemma ExpireIfDue_not_due now s : (ExpireIfDue now s).2 = false -> (ExpireIfDue now s).1 = s.
Proof. unfold ExpireIfDue. by repeat case_goal. Qed.

Lemma active_deadline s : session_ok s -> state s = StateUp \/ state s = StateInit ->
  detectDeadline s <> 0.
Proof.
  intros [_ _ _ _ _ Hs]. unfold state_ok in Hs.
  intros [E|E]; rewrite E in Hs; destruct Hs as (_ & _ & _ & _ & ? & _); lia.
Qed.

Lemma tryExpire_focus now i s st :
  0 < now -> focus i st (eq s) ->
  focus i (tryExpire now i st).1 (fun s' => s' = (ExpireIfDue now s).1) /\
  (tryExpire now i st).2 = (ExpireIfDue now s).2.
Proof.
  intros Hn Hf. pose proof Hf as (Hq & Hall & s0 & Hi & Hb & ->).
  unfold tryExpire. rewrite Hi.
  pose proof (ExpireIfDue_sched_fields now s0) as Hsf.
  pose proof (ExpireIfDue_ok now s0 Hn (base_ok _ _ _ Hb)) as Hok.
  destruct (ExpireIfDue now s0) as [s1 b]. cbn [fst snd] in *.
  pose proof (base_same _ _ _ _ Hb Hsf Hok) as [? Htx Hd].
  destruct b; cbn [fst snd]; (split; [|done]).
  - eapply focus_push; [exact Hf|..]; try done. intros _. by right.
  - by eapply focus_put; [exact Hf|..].
Qed.

Lemma run_tx_inv tk ev s st q now d :
  tick_ok tk -> sched_inv st -> tq_pop_due now (eq_ st) = (Some ev, d, q) ->
  store st !! ev_session ev = Some s -> ev_type ev = eventTypeTX ->
  sched_inv (run_tx tk ev s (st <| eq_ := q |>)).
Proof.
  intros (Hn & Hl & Hr) Hinv Hp Hi Hty.
  destruct (pop_focus _ _ _ _ _ _ Hinv Hp Hi) as (Hq & Hw & Hall & Hok & Hd & Ha & Hm & Hb).
  pose proof (clear_tx_base st ev q s Hty Hb Hm) as Hb'. unfold run_tx.
  set (s' := if TimeEqual _ _ then _ else s) in *.
  assert (Hs' : state s' = state s /\ alive s' = alive s /\
            nextDetectScheduled s' = nextDetectScheduled s /\ detectDeadline s' = detectDeadline s)
    by (unfold s'; case_goal; done).
  destruct Hs' as (Hst & Hal & Hds & Hdd). clearbody s'.
  assert (Hf : focus (ev_session ev)
            (doTX (tick_write tk) (tick_later tk) (ev_session ev)
               (put (ev_session ev) s' (st <| eq_ := q |>))) (eq s')).
  { destruct (doTX_store (tick_write tk) (tick_later tk) (ev_session ev)
      (put (ev_session ev) s' (st <| eq_ := q |>))) as (D1 & D2 & D3).
    eapply focus_store; [exact D1|exact D2|by rewrite D3|]. by apply put_focus. }
  unfold state_eqb. case_bool_decide as Hadm.
  - apply (focus_elim (ev_session ev)). eapply focus_impl; [exact Hf|].
    intros s1 _ <-. split; [by intros _ ?|]. eapply armed_same; [|done..|exact Ha].
    by rewrite (proj2 (proj2 (doTX_store _ _ _ _))).
  - apply (focus_elim (ev_session ev)).
    eapply focus_impl; [apply scheduleTx_focus; [done|lia|exact Hf]|].
    intros s1 _ (H1 & H2 & H3 & H4 & H5). split.
    + intros Hal1 _. apply H1. congruence.
    + apply (armed_same (overflow st) _ s); [|congruence..|exact Ha].
      by rewrite scheduleTx_overflow, (proj2 (proj2 (doTX_store _ _ _ _))).
Qed.

Lemma run_detect_inv tk ev s st q d :
  tick_ok tk -> sched_inv st -> tq_pop_due (tick_now tk) (eq_ st) = (Some ev, d, q) ->
  store st !! ev_session ev = Some s -> ev_type ev = eventTypeDetect ->
  sched_inv (run_detect tk ev s (st <| eq_ := q |>)).
Proof.
  intros (Hn & Hl & Hr) Hinv Hp Hi Hty.
  destruct (pop_focus _ _ _ _ _ _ Hinv Hp Hi) as (Hq & Hw & Hall & Hok & Hd & Ha & Hm & Hb).
  pose proof (clear_detect_base st ev q s Hty Hb Hm) as Hb'. unfold run_detect.
  assert (Hs' : forall b : bool, let s' := if b then s <| nextDetectScheduled := time_zero |> else s in
            state s' = state s /\ alive s' = alive s /\ nextTxScheduled s' = nextTxScheduled s /\
            detectDeadline s' = detectDeadline s) by (intros []; done).
  specialize (Hs' (TimeEqual (when ev) (nextDetectScheduled s))).
  unfold TimeEqual in *. destruct (negb (when ev =? detectDeadline s)) eqn:E.
  - apply (focus_elim (ev_session ev)). apply put_focus; [done..|].
    destruct Hs' as (Hst & Hal & Htx & Hdd). split.
    + unfold driven. rewrite Hst, Hal, Htx. exact Hd.
    + intros Hmax Hal1 Hst1. rewrite Hdd. rewrite Hal in Hal1. rewrite Hst in Hst1.
      pose proof (Ha Hmax Hal1 Hst1) as Heq. rewrite Heq.
      destruct (when ev =? detectDeadline s); [done|exact Heq].
  - set (s' := if _ =? _ then _ else s) in *. destruct Hs' as (Hst & Hal & Htx & Hdd). clearbody s'.
    assert (Hf : focus (ev_session ev) (put (ev_session ev) s' (st <| eq_ := q |>)) (eq s'))
      by by apply put_focus.
    destruct (tryExpire_focus (tick_later tk) _ _ _ ltac:(lia) Hf) as [Hf2 Hexp].
    destruct (tryExpire _ _ _) as [st2 expired]. cbn [fst snd] in *.
    apply (focus_elim (ev_session ev)). destruct expired.
    + eapply focus_store; [done..|]. eapply focus_impl; [exact Hf2|]. intros s2 _ ->.
      symmetry in Hexp. pose proof (ExpireIfDue_state_down _ _ Hexp) as Hdown.
      apply ExpireIfDue_due in Hexp as (Hal' & Hst' & Hdl).
      destruct (sched_fields_eq _ _ (ExpireIfDue_sched_fields (tick_later tk) s')) as (_ & E2 & _).
      split; [|intros _ _ [?|?]; congruence]. intros _ _. rewrite E2, Htx. apply Hd; [congruence|].
      rewrite <- Hst. by destruct Hst' as [-> | ->].
    + destruct Hf2 as (Hq2 & Hall2 & s2 & Hi2 & Hb2 & ->). rewrite Hi2.
      rewrite ExpireIfDue_not_due in * by done.
      assert (Hf3 : focus (ev_session ev) st2 (eq s')) by (split_and!; eauto).
      assert (Hdr : forall s3, alive s3 = alive s' -> state s3 = state s' ->
                nextTxScheduled s3 = nextTxScheduled s' -> driven s3).
      { intros s3 E1 E2 E3. unfold driven. rewrite E1, E2, E3, Hal, Hst, Htx. exact Hd. }
      case_goal.
      * eapply focus_impl; [apply scheduleDetect_focus; [lia|exact Hf3]|].
        intros s3 _ (H1 & H2 & H3 & H4). split; [by apply Hdr|].
        intros Hmax Hal3 Hst3. apply H1; [done|congruence|]. rewrite H3 in Hst3.
        by apply active_deadline; [apply Hb2|].
      * eapply focus_impl; [exact Hf3|]. intros s3 _ <-. split; [by apply Hdr|].
        intros _ _ Hst3. apply orb_false_iff in E0 as [E1 E2].
        unfold state_eqb in *. apply bool_decide_eq_false in E1, E2. by destruct Hst3.
Qed.

Lemma run_iter_inv tk st : tick_ok tk -> sched_inv st -> sched_inv (run_iter tk st).1.
Proof.
  intros Htk Hinv. unfold run_iter.
  destruct (tq_pop_due (tick_now tk) (eq_ st)) as [[[ev|] d] q] eqn:Hp.
  - change (store (st <| eq_ := q |>)) with (store st).
    destruct (proj2 (proj1 Hinv) ev) as [s Hs].
    { apply tq_pop_some in Hp as (_ & Hp & _); [|apply Hinv]. unfold pending. rewrite Hp. by left. }
    rewrite Hs. cbn [fst]. destruct (ev_type ev) eqn:Hty.
    + by eapply run_tx_inv.
    + by eapply run_detect_inv.
  - apply tq_pop_none in Hp as (-> & _); [|apply Hinv]. cbn [fst].
    destruct Hinv as [[? ?] ?]. by split.
Qed.

(** ** Lemmas: draining the due events *)

Definition work (now : Time) (st : SchedState Q) : nat := sum_list_with (cost now) (pending st).

(** What an iteration may change only by expiring a session. *)
Definition core (s : Session) : bool * State * Time * DownReason :=
  (alive s, state s, detectDeadline s, lastDownReason s).

Lemma work_push now t ty i st : queue_valid st ->
  work now (push_event t ty i st) = (cost now (mkEvent t ty i 0) + work now st)%nat.
Proof. intros Hq. destruct (push_pending t ty i st Hq) as [_ [n Hp]]. unfold work. by rewrite Hp. Qed.

Lemma put_core i s s' st : store st !! i = Some s -> core s' = core s ->
  core <$> store (put i s' st) = core <$> store st.
Proof.
  intros Hi Hc. unfold put. cbn. rewrite fmap_insert, Hc. apply insert_id.
  by rewrite lookup_fmap, Hi.
Qed.

Lemma ComputeNextTx_core int63n now s : core (ComputeNextTx int63n now s).1 = core s.
Proof.
  unfold ComputeNextTx. destruct (effInterval s). cbv zeta.
  repeat match goal with |- context [fst (if ?b then _ else _, _)] => destruct b end; reflexivity.
Qed.

Lemma scheduleTx_drain int63n now i st :
  (forall n, 0 < n -> 0 <= int63n n < n) -> queue_valid st ->
  (forall s, store st !! i = Some s -> session_ok s) ->
  core <$> store (scheduleTx int63n now i st) = core <$> store st /\
  spawned (scheduleTx int63n now i st) = spawned st /\
  work now (scheduleTx int63n now i st) = work now st.
Proof.
  intros Hr Hq Hok. unfold scheduleTx. destruct (store st !! i) as [s|] eqn:Hi; [|done].
  case_goal; [done|].
  pose proof (ComputeNextTx_core int63n now s) as Hc.
  destruct (ComputeNextTx_next int63n now s Hr (Hok s eq_refl)) as [He Hnx].
  destruct (ComputeNextTx int63n now s) as [s1 next]. cbn [fst snd] in *.
  case_goal; [split_and!; [by eapply put_core|done..]|].
  change (store (push_event next eventTypeTX i (put i (s1 <| nextTxScheduled := next |>) st)))
    with (store (put i (s1 <| nextTxScheduled := next |>) st)).
  split_and!; [by eapply put_core|done|].
  rewrite work_push by by apply put_valid. unfold cost. cbn [when].
  assert ((effInterval s).1 / 10 < (effInterval s).1) by (apply Z.div_lt; lia).
  by rewrite (proj2 (Z.leb_gt next now)) by lia.
Qed.

Lemma pop_work now st ev d q : tq_ok (eq_ st) -> tq_pop_due now (eq_ st) = (Some ev, d, q) ->
  work now st = (match ev_type ev with eventTypeTX => 1 | eventTypeDetect => 2 end +
                 work now (st <| eq_ := q |>))%nat.
Proof.
  intros Hok Hp. apply tq_pop_some in Hp as (_ & Hperm & Hw & _); [|done].
  unfold work, pending. rewrite Hperm. cbn. unfold cost at 1.
  by rewrite (proj2 (Z.leb_le _ _)) by lia.
Qed.

Lemma run_tx_drain tk ev s st :
  (forall n, 0 < n -> 0 <= tick_int63n tk n < n) -> queue_valid st ->
  store st !! ev_session ev = Some s -> session_ok s ->
  let st' := run_tx tk ev s st in
  core <$> store st' = core <$> store st /\ spawned st' = spawned st /\
  overflow st' = overflow st /\
  (tick_last tk = tick_now tk -> work (tick_now tk) st' = work (tick_now tk) st).
Proof.
  intros Hr Hq Hi Hok. cbv zeta. unfold run_tx.
  set (s' := if TimeEqual _ _ then _ else s).
  assert (Hs' : core s' = core s /\ session_ok s').
  { unfold s'. case_goal; [|done]. split; [done|]. destruct Hok. by constructor. }
  destruct Hs' as [Hc Hok']. clearbody s'.
  set (st1 := doTX _ _ _ _).
  assert (H1 : store st1 = store (put (ev_session ev) s' st) /\ eq_ st1 = eq_ st /\
               spawned st1 = spawned st /\ overflow st1 = overflow st).
  { unfold st1. destruct (doTX_store (tick_write tk) (tick_later tk) (ev_session ev)
      (put (ev_session ev) s' st)) as (-> & -> & ->). split_and!; [done..| |done]. unfold doTX.
    repeat case_match; done. }
  destruct H1 as (Hs1 & Hq1 & Hsp1 & Hov1). clearbody st1.
  assert (Hq' : queue_valid st1).
  { destruct (put_valid (ev_session ev) s' st Hq) as [? Hv]. split; [by rewrite Hq1|].
    unfold pending. rewrite Hq1, Hs1. exact Hv. }
  assert (Hw1 : work (tick_now tk) st1 = work (tick_now tk) st) by (unfold work, pending; by rewrite Hq1).
  case_goal.
  - rewrite Hs1, Hsp1, Hw1, Hov1. split_and!; [by eapply put_core|done..].
  - destruct (scheduleTx_drain (tick_int63n tk) (tick_last tk) (ev_session ev) st1 Hr Hq')
      as (-> & -> & Hw).
    { rewrite Hs1. unfold put. cbn. rewrite lookup_insert_eq. by intros ? [= <-]. }
    rewrite scheduleTx_overflow, Hs1, Hsp1. split_and!; [by eapply put_core|done..|]. intros Et.
    rewrite <- Hw1, <- Et. exact Hw.
Qed.

Definition overdue (now : Time) (s : Session) : Prop :=
  alive s = true /\ (state s = StateUp \/ state s = StateInit) /\ detectDeadline s <= now.

(** Session [i] expired in [st']: Down by timeout, its down handler started. *)
Definition expired (i : sid) (st' : SchedState Q) : Prop :=
  (exists s', store st' !! i = Some s' /\ state s' = StateDown /\
              lastDownReason s' = DownReasonTimeout) /\ TaskDown i ∈ spawned st'.

(** A transmission of session [i], which is Down, is due. *)
Definition announcing (now : Time) (i : sid) (st' : SchedState Q) : Prop :=
  exists s' e, store st' !! i = Some s' /\ alive s' = true /\ state s' = StateDown /\
    e ∈ pending st' /\ ev_type e = eventTypeTX /\ ev_session e = i /\ when e <= now.

Lemma ArmDetect_dead now s : alive s = false -> ArmDetect now s = (s, None).
Proof. intros Ha. unfold ArmDetect. by rewrite Ha. Qed.

(** A detect event that does not expire its session changes nothing else. *)
Lemma detect_kept now i s st :
  store st !! i = Some s -> session_ok s ->
  (state s = StateUp \/ state s = StateInit -> alive s = false) ->
  let st' := if state_eqb (state s) StateUp || state_eqb (state s) StateInit
             then scheduleDetect now i st else st in
  core <$> store st' = core <$> store st /\ spawned st' = spawned st /\ eq_ st' = eq_ st /\
  overflow st' = overflow st.
Proof.
  intros Hi Hok Hdead. cbv zeta. case_goal; [|done]. unfold scheduleDetect. rewrite Hi.
  rewrite ArmDetect_dead; [split_and!; [by eapply put_core|done..]|].
  apply Hdead. unfold state_eqb in E. apply orb_true_iff in E as [E|E];
    apply bool_decide_eq_true in E; auto.
Qed.

Lemma run_detect_drain tk ev s st (i := ev_session ev) (st' := run_detect tk ev s st) :
  when ev <= tick_later tk -> queue_valid st -> store st !! i = Some s -> session_ok s ->
  overflow st' = overflow st /\
  ((core <$> store st' = core <$> store st /\ spawned st' = spawned st /\
   work (tick_now tk) st' = work (tick_now tk) st) \/
  (overdue (tick_later tk) s /\ expired i st' /\ announcing (tick_later tk) i st' /\
   spawned st' = spawned st ++ [TaskDown i] /\ (forall j, j <> i -> store st' !! j = store st !! j) /\
   (work (tick_now tk) st' <= 1 + work (tick_now tk) st)%nat)).
Proof.
  intros Hw Hq Hi Hok. subst st'. unfold run_detect. fold i.
  set (s' := if TimeEqual _ (nextDetectScheduled _) then _ else s).
  assert (Hs' : core s' = core s /\ session_ok s').
  { unfold s'. case_goal; [|done]. split; [done|]. destruct Hok. by constructor. }
  destruct Hs' as [Hc Hok']. clearbody s'.
  case_goal; [split; [done|]; left; split_and!; [by eapply put_core|done..]|].
  assert (Hp : store (put i s' st) !! i = Some s') by (unfold put; cbn; apply lookup_insert_eq).
  unfold tryExpire. rewrite Hp.
  pose proof (ExpireIfDue_due (tick_later tk) s') as Hdue.
  destruct (ExpireIfDue (tick_later tk) s') as [s2 b] eqn:Ex. cbn [snd] in Hdue.
  assert (Hcore : alive s' = alive s /\ state s' = state s /\ detectDeadline s' = detectDeadline s)
    by (revert Hc; unfold core; by intros [= -> -> -> _]).
  destruct Hcore as (Ha & Hst & Hdd). destruct b.
  - split; [done|]. right. destruct Hdue as [Hdue _]. destruct (Hdue eq_refl) as (Hal & Hact & Hnz & Hle).
    rewrite Ha in Hal. rewrite Hst in Hact. rewrite Hdd in Hle. split; [done|].
    assert (Hs2 : state s2 = StateDown /\ lastDownReason s2 = DownReasonTimeout /\ alive s2 = alive s').
    { revert Ex. unfold ExpireIfDue. repeat case_goal; intros [= <-]; done. }
    destruct Hs2 as (Hd2 & Hr2 & Ha2).
    split; [split|split; [|split; [done|split]]].
    + exists s2. split; [|done]. cbn. apply lookup_insert_eq.
    + cbn. apply elem_of_app. right. by left.
    + destruct (push_pending (tick_later tk) eventTypeTX i (put i s2 (put i s' st))) as [_ [n Hpe]]; [by repeat apply put_valid|].
      exists s2, (mkEvent (tick_later tk) eventTypeTX i n). split_and!; [cbn; apply lookup_insert_eq|congruence|done| |done..].
      change (mkEvent (tick_later tk) eventTypeTX i n ∈ pending (push_event (tick_later tk) eventTypeTX i (put i s2 (put i s' st)))).
      rewrite Hpe. by left.
    + intros j Hj. cbn. rewrite !lookup_insert_ne by done. done.
    + etrans; [apply Nat.eq_le_incl; apply (work_push (tick_now tk)); by repeat apply put_valid|].
      unfold cost. cbn [when ev_type]. unfold work, pending, put. cbn. case_goal; lia.
  - assert (s2 = s') as -> by (pose proof (ExpireIfDue_not_due (tick_later tk) s') as Hn;
      rewrite Ex in Hn; by apply Hn).
    assert (Hput : store (put i s' (put i s' st)) !! i = Some s') by (unfold put; cbn; apply lookup_insert_eq).
    rewrite Hput. destruct (detect_kept (tick_last tk) i s' (put i s' (put i s' st)) Hput Hok') as (Hk1 & Hk2 & Hk3 & Hk4).
    { intros Hact. destruct (alive s') eqn:Hal; [|done]. exfalso.
      assert (false = true) by (apply Hdue; split_and!; [done..| |]; [by apply active_deadline|];
        unfold TimeEqual in E; lia). done. }
    split; [by rewrite Hk4|]. left. split_and!.
    + rewrite Hk1. rewrite (put_core i s') by done. by eapply put_core.
    + by rewrite Hk2.
    + unfold work, pending. by rewrite Hk3.
Qed.

(** One session across an iteration: kept, or expired because overdue. *)
Definition kept_or_expired (now : Time) (i : sid) (s : Session) (st' : SchedState Q) : Prop :=
  (exists s', store st' !! i = Some s' /\ core s' = core s) \/
  (overdue now s /\ expired i st' /\ announcing now i st').

Lemma core_kept now (st st' : SchedState Q) i s : core <$> store st' = core <$> store st ->
  store st !! i = Some s -> kept_or_expired now i s st'.
Proof.
  intros Hc Hi. left. assert (Hl : (core <$> store st') !! i = Some (core s))
    by (by rewrite Hc, lookup_fmap, Hi).
  rewrite lookup_fmap in Hl. apply fmap_Some in Hl as (s' & ? & ?). eauto.
Qed.

Lemma run_iter_drain tk st :
  tick_ok tk -> tick_last tk = tick_now tk -> sched_inv st ->
  let '(st', r) := run_iter tk st in
  (forall i s, store st !! i = Some s -> kept_or_expired (tick_now tk) i s st') /\
  (forall t, t ∈ spawned st -> t ∈ spawned st') /\ overflow st' = overflow st /\
  match r with
  | Some _ => Forall (fun e => tick_now tk < when e) (pending st')
  | None => (work (tick_now tk) st' < work (tick_now tk) st)%nat
  end.
Proof.
  intros (Hn & Hl & Hr) Ht [[Hok Hv] Hall]. unfold run_iter.
  destruct (tq_pop_due (tick_now tk) (eq_ st)) as [[[ev|] d] q] eqn:Hp.
  - pose proof (pop_work _ _ _ _ _ Hok Hp) as Hwk.
    apply tq_pop_some in Hp as (Hok' & Hperm & Hw & _); [|done].
    assert (Hq : queue_valid (st <| eq_ := q |>)).
    { split; [done|]. intros e He. apply Hv. unfold pending. rewrite Hperm. by right. }
    destruct (Hv ev) as [s Hs]; [unfold pending; rewrite Hperm; by left|].
    change (store (st <| eq_ := q |>)) with (store st). rewrite Hs.
    pose proof (base_ok _ _ _ (proj1 (Hall _ _ Hs))) as Hsok.
    destruct (ev_type ev) eqn:Hty.
    + destruct (run_tx_drain tk ev s (st <| eq_ := q |>)) as (Hc & Hsp & Hov & Hw'); [done..|].
      split_and!; [intros; by eapply core_kept|by rewrite Hsp|by rewrite Hov|]. rewrite Hw' by done. lia.
    + destruct (run_detect_drain tk ev s (st <| eq_ := q |>)) as [Hov [(Hc & Hsp & Hw')|H]];
        [lia|done..| |].
      { split_and!; [intros; by eapply core_kept|by rewrite Hsp|by rewrite Hov|lia]. }
      destruct H as (Hdue & Hex & Han & Hsp & Hoth & Hw').
      split_and!; [|intros; rewrite Hsp; apply elem_of_app; by left|by rewrite Hov|lia].
      intros i s' Hi. destruct (decide (i = ev_session ev)) as [->|Hne].
      * right. simplify_eq. replace (tick_now tk) with (tick_later tk) by lia. done.
      * left. exists s'. split; [|done]. by rewrite Hoth.
  - apply tq_pop_none in Hp as (-> & _ & Hf); [|done].
    split_and!; [|done..]. intros i s Hi. left. by exists s.
Qed.

Lemma overdue_core now s s' : core s' = core s -> overdue now s' <-> overdue now s.
Proof. unfold core, overdue. by intros [= -> -> -> _]. Qed.

(** The packet that a session sends when it is Down. *)
Definition down_datagram (s : Session) : Datagram := tx_datagram (s <| state := StateDown |>).

(** No event and no packet is lost, and the packets of the sessions stay as
    they are. *)
Definition grows (st st' : SchedState Q) : Prop :=
  tq_ok (eq_ st) ->
  tq_ok (eq_ st') /\ (forall e, e ∈ pending st -> e ∈ pending st') /\ (forall d, d ∈ sent st -> d ∈ sent st') /\
  down_datagram <$> store st' = down_datagram <$> store st.

Lemma grows_refl st : grows st st.
Proof. by intros ?. Qed.

Lemma grows_trans st1 st2 st3 : grows st1 st2 -> grows st2 st3 -> grows st1 st3.
Proof.
  intros H12 H23 Hok. destruct (H12 Hok) as (Hok2 & He2 & Hd2 & Hs2), (H23 Hok2) as (Hok3 & He3 & Hd3 & Hs3).
  split_and!; [done|auto|auto|congruence].
Qed.

Lemma grows_fields st st' : store st' = store st -> eq_ st' = eq_ st -> (forall d, d ∈ sent st -> d ∈ sent st') -> grows st st'.
Proof. intros Es Eq Hd Hok. unfold pending. rewrite Es, Eq. by split_and!. Qed.

Lemma grows_put i s s' st : store st !! i = Some s -> down_datagram s' = down_datagram s -> grows st (put i s' st).
Proof.
  intros Hi Hd Hok. split_and!; [done..|]. unfold put. cbn. rewrite fmap_insert, Hd. apply insert_id. by rewrite lookup_fmap, Hi.
Qed.

Lemma grows_push i t ty st : grows st (push_event t ty i st).
Proof.
  intros Hok. unfold push_event, pending. cbn. destruct (tq_push_ok (mkEvent t ty i 0) (eq_ st) Hok) as [Hok' [n Hp]].
  split_and!; [done| |done|done]. intros e He. rewrite Hp. by right.
Qed.

Lemma grows_put_push i t ty s s' st : store st !! i = Some s -> down_datagram s' = down_datagram s -> grows st (push_event t ty i (put i s' st)).
Proof. intros. eapply grows_trans; [by eapply grows_put|apply grows_push]. Qed.

Lemma grows_scheduleTx i int63n now st : grows st (scheduleTx int63n now i st).
Proof.
  unfold scheduleTx. destruct (store st !! i) as [s|] eqn:Hi; [|apply grows_refl]. case_goal; [apply grows_refl|].
  assert (Hd : down_datagram (ComputeNextTx int63n now s).1 = down_datagram s).
  { unfold ComputeNextTx. destruct (effInterval s). cbv zeta.
    repeat match goal with |- context [fst (if ?b then _ else _, _)] => destruct b end; reflexivity. }
  destruct (ComputeNextTx int63n now s) as [s1 next]. cbn [fst] in Hd.
  case_goal; [by eapply grows_put|]. by eapply grows_put_push.
Qed.

Lemma grows_scheduleDetect i now st : grows st (scheduleDetect now i st).
Proof.
  unfold scheduleDetect. destruct (store st !! i) as [s|] eqn:Hi; [|apply grows_refl].
  assert (Hd : down_datagram (ArmDetect now s).1 = down_datagram s) by (unfold ArmDetect; by repeat case_goal).
  destruct (ArmDetect now s) as [s1 [ddl|]]; cbn [fst] in Hd; [|by eapply grows_put].
  case_goal; [by eapply grows_put|]. unfold maybeDropOnOverflow.
  repeat case_goal; try (by eapply grows_put_push).
  apply (grows_trans _ (st <| overflow := S (overflow st) |>)); [by apply grows_fields|]. by eapply grows_put.
Qed.

Lemma grows_tryExpire i now st : grows st (tryExpire now i st).1.
Proof.
  unfold tryExpire. destruct (store st !! i) as [s|] eqn:Hi; [|apply grows_refl].
  assert (Hd : down_datagram (ExpireIfDue now s).1 = down_datagram s) by (unfold ExpireIfDue; by repeat case_goal).
  destruct (ExpireIfDue now s) as [s1 []]; cbn [fst] in *; [by eapply grows_put_push|by eapply grows_put].
Qed.

Lemma grows_run_tx tk ev s st : store st !! ev_session ev = Some s -> grows st (run_tx tk ev s st) /\
  (tick_write tk = WriteOk -> alive s = true -> state s = StateDown -> down_datagram s ∈ sent (run_tx tk ev s st)).
Proof.
  intros Hs. unfold run_tx. set (s' := if TimeEqual _ _ then _ else s).
  assert (Hc : down_datagram s' = down_datagram s /\ alive s' = alive s /\ state s' = state s) by (unfold s'; by case_goal).
  destruct Hc as (Hc & Ha & Hst). clearbody s'. set (st0 := put (ev_session ev) s' st).
  assert (H0 : grows st st0) by by eapply grows_put.
  assert (H1 : grows st0 (doTX (tick_write tk) (tick_later tk) (ev_session ev) st0)).
  { apply grows_fields; [apply doTX_store..|]. unfold doTX. intros d Hd. repeat case_match; try done. cbn. apply elem_of_app. by left. }
  assert (H2 : tick_write tk = WriteOk -> alive s = true -> state s = StateDown ->
    down_datagram s ∈ sent (doTX (tick_write tk) (tick_later tk) (ev_session ev) st0)).
  { intros Hw Hal Hd. unfold doTX, st0, put. cbn. rewrite lookup_insert_eq, Ha, Hal, Hw. cbn. apply elem_of_app. right.
    apply list_elem_of_singleton. rewrite <- Hc. unfold down_datagram. f_equal. destruct s'. cbn in *. congruence. }
  case_goal; [by split; [eapply grows_trans|]|]. split; [by eapply grows_trans; [by eapply grows_trans|apply grows_scheduleTx]|].
  intros Hw Hal Hd. unfold scheduleTx. repeat case_match; by apply H2.
Qed.

Lemma grows_run_detect tk ev s st : store st !! ev_session ev = Some s -> grows st (run_detect tk ev s st).
Proof.
  intros Hs. unfold run_detect. case_goal; [by eapply grows_put; [done|case_goal]|].
  set (st1 := put _ _ _). assert (H1 : grows st st1) by (by eapply grows_put; [done|case_goal]).
  pose proof (grows_tryExpire (ev_session ev) (tick_later tk) st1) as H2.
  destruct (tryExpire _ _ _) as [st2 b]. cbn [fst] in H2. assert (H3 : grows st st2) by by eapply grows_trans.
  destruct b; [eapply grows_trans; [exact H3|by apply grows_fields]|].
  repeat case_goal; try done. eapply grows_trans; [exact H3|apply grows_scheduleDetect].
Qed.

(** An iteration loses no event but the one it handles, and a transmission of a
    session that is Down is sent. *)
Lemma run_iter_sends tk st : sched_inv st ->
  let '(st', r) := run_iter tk st in
  (forall d, d ∈ sent st -> d ∈ sent st') /\ down_datagram <$> store st' = down_datagram <$> store st /\
  forall e, e ∈ pending st -> e ∈ pending st' \/
    (tick_write tk = WriteOk -> ev_type e = eventTypeTX -> forall s, store st !! ev_session e = Some s -> alive s = true ->
     state s = StateDown -> down_datagram s ∈ sent st').
Proof.
  intros [[Hok Hv] _]. unfold run_iter. destruct (tq_pop_due (tick_now tk) (eq_ st)) as [[[ev|] d] q] eqn:Hp; cycle 1.
  { apply tq_pop_none in Hp as (-> & _); [|done]. split_and!; [done..|by left]. }
  apply tq_pop_some in Hp as (Hok' & Hperm & _ & _); [|done].
  destruct (Hv ev) as [s Hs]; [unfold pending; rewrite Hperm; by left|]. change (store (st <| eq_ := q |>)) with (store st). rewrite Hs.
  assert (Hrest : forall e, e ∈ pending st -> e = ev \/ e ∈ pending (st <| eq_ := q |>)).
  { intros e He. unfold pending in He. rewrite Hperm in He. by apply elem_of_cons in He. }
  destruct (ev_type ev) eqn:Hty.
  - destruct (grows_run_tx tk ev s (st <| eq_ := q |>)) as [Hg Hsend]; [done|]. destruct (Hg Hok') as (_ & He & Hd & Hw).
    split_and!; [done|done|]. intros e [->|Hin]%Hrest; [right|left; by apply He]. intros ? _ s' Hs'. rewrite Hs in Hs'. injection Hs' as <-. by apply Hsend.
  - destruct (grows_run_detect tk ev s (st <| eq_ := q |>)) as (_ & He & Hd & Hw); [done..|].
    split_and!; [done|done|]. intros e [->|Hin]%Hrest; [right; congruence|left; by apply He].
Qed.

Lemma drain_frame fuel tk st : tick_ok tk -> sched_inv st ->
  (forall d, d ∈ sent st -> d ∈ sent (drain fuel tk st)) /\ down_datagram <$> store (drain fuel tk st) = down_datagram <$> store st.
Proof.
  intros Htk. revert st. induction fuel as [|fuel IH]; intros st Hinv; [done|]. cbn [drain].
  pose proof (run_iter_inv tk st Htk Hinv) as Hinv'. pose proof (run_iter_sends tk st Hinv) as Hs.
  destruct (run_iter tk st) as [st1 [r|]]; destruct Hs as (Hd & Hw & _); [done|]. destruct (IH st1 Hinv') as [Hd' Hw'].
  split; [auto|congruence].
Qed.

(** A due transmission of a session that is Down is sent. *)
Lemma drain_sends fuel tk st i s e :
  tick_ok tk -> tick_last tk = tick_now tk -> tick_write tk = WriteOk -> sched_inv st -> (work (tick_now tk) st < fuel)%nat ->
  store st !! i = Some s -> alive s = true -> state s = StateDown ->
  e ∈ pending st -> ev_type e = eventTypeTX -> ev_session e = i -> when e <= tick_now tk ->
  down_datagram s ∈ sent (drain fuel tk st).
Proof.
  intros Htk Ht Hwr. revert st s. induction fuel as [|fuel IH]; intros st s Hinv Hw Hs Ha Hd He Hty Hi Hdue; [lia|]. cbn [drain].
  pose proof (run_iter_inv tk st Htk Hinv) as Hinv'. pose proof (run_iter_drain tk st Htk Ht Hinv) as Hit.
  pose proof (run_iter_sends tk st Hinv) as Hse. destruct (run_iter tk st) as [st1 [r|]] eqn:Hrun;
    destruct Hit as (Hk & _ & _ & Hr), Hse as (_ & Hwire & Hev); cbn [fst] in Hinv'; subst i.
  - destruct (Hev e He) as [He1|Hsend]; [|by apply Hsend]. rewrite Forall_forall in Hr. specialize (Hr e He1). lia.
  - destruct (Hev e He) as [He1|Hsend]; [|apply (drain_frame fuel tk st1 Htk Hinv'); by apply Hsend].
    destruct (Hk _ s Hs) as [(s1 & Hs1 & Hc)|((_ & [] & _) & _)]; [|congruence..].
    assert (Hd1 : down_datagram s1 = down_datagram s).
    { pose proof (f_equal (lookup (ev_session e)) Hwire) as Hl. rewrite !lookup_fmap, Hs1, Hs in Hl. by apply (inj Some). }
    rewrite <- Hd1. revert Hc. unfold core. intros [= Hc1 Hc2 _ _]. by eapply (IH st1 s1); [done|lia|done|congruence|congruence|..].
Qed.

Lemma drain_kept fuel tk st :
  tick_ok tk -> tick_last tk = tick_now tk -> sched_inv st -> (work (tick_now tk) st < fuel)%nat ->
  let st' := drain fuel tk st in
  sched_inv st' /\ Forall (fun e => tick_now tk < when e) (pending st') /\
  (forall t, t ∈ spawned st -> t ∈ spawned st') /\ overflow st' = overflow st /\
  forall i s, store st !! i = Some s ->
    (exists s', store st' !! i = Some s' /\ core s' = core s) \/
    (overdue (tick_now tk) s /\ expired i st' /\ (tick_write tk = WriteOk -> down_datagram s ∈ sent st')).
Proof.
  intros Htk Ht. revert st. induction fuel as [|fuel IH]; intros st Hinv Hw; [lia|]. cbn [drain].
  pose proof (run_iter_inv tk st Htk Hinv) as Hinv'.
  pose proof (run_iter_drain tk st Htk Ht Hinv) as Hit. pose proof (run_iter_sends tk st Hinv) as Hse.
  destruct (run_iter tk st) as [st1 [r|]]; destruct Hit as (Hk & Hsp & Hov & Hr), Hse as (_ & Hwire & _); cbn [fst] in Hinv'.
  { split_and!; [done..|]. intros i s Hi. destruct (Hk i s Hi) as [?|(_ & _ & s' & e & _ & _ & _ & He & _ & _ & Hdue)]; [by left|].
    rewrite Forall_forall in Hr. specialize (Hr e He). lia. }
  assert (Hw1 : forall i s s1, store st !! i = Some s -> store st1 !! i = Some s1 -> down_datagram s1 = down_datagram s).
  { intros i s s1 Hi Hi1. pose proof (f_equal (lookup i) Hwire) as Hl. rewrite !lookup_fmap, Hi, Hi1 in Hl. by apply (inj Some). }
  destruct (IH st1 Hinv' ltac:(lia)) as (Hi2 & Hf2 & Hsp2 & Hov2 & Hk2).
  split_and!; [done|done|by intros; apply Hsp2, Hsp|congruence|].
  intros i s Hi. destruct (Hk i s Hi) as [(s1 & Hs1 & Hc)|(Hdue & [(s1 & Hs1 & Hd & Hre) Hin] & Han)].
  - destruct (Hk2 i s1 Hs1) as [(s2 & Hs2 & Hc2)|(Hdue & ? & Hsend)].
    + left. exists s2. split; [done|congruence].
    + right. rewrite <- (Hw1 i s s1) by done. split; [by apply (overdue_core _ s s1)|done].
  - right. split_and!; [done| |].
    + split; [|by apply Hsp2]. destruct (Hk2 i s1 Hs1) as [(s2 & Hs2 & Hc2)|[(_ & [] & _) _]]; [|congruence..].
      exists s2. split; [done|]. revert Hc2. unfold core. intros [= _ -> _ ->]. done.
    + intros Hwr. destruct Han as (s' & e & Hs' & Ha' & Hd' & He & Hty & Hei & Hwh). rewrite <- (Hw1 i s s') by done.
      by eapply drain_sends; [..|exact He|exact Hty|exact Hei|exact Hwh]; [done..|lia|done|done|done].
Qed.

(** C12.  Failure detection is complete as long as no detect event was dropped
    from a full queue: when the loop has handled every
    event due at [now], which takes at most [work] iterations, each session
    that was Up or Init with an expired deadline is Down with reason timeout,
    its route-withdrawal handler has been started, and, if writes to the socket
    succeed, the packet that announces Down to its peer was sent; every other
    session keeps its state, deadline and reason; and every event left is in the
    future. The bound on the fuel shows that the loop reaches its sleep. *)
Theorem drain_detects fuel tk st :
  overflow st = 0%nat -> tick_ok tk -> tick_last tk = tick_now tk ->
  sched_inv st -> (work (tick_now tk) st < fuel)%nat ->
  let st' := drain fuel tk st in
  sched_inv st' /\ Forall (fun e => tick_now tk < when e) (pending st') /\
  forall i s, store st !! i = Some s ->
    (overdue (tick_now tk) s -> expired i st' /\ (tick_write tk = WriteOk -> tx_datagram (s <| state := StateDown |>) ∈ sent st')) /\
    (~ overdue (tick_now tk) s -> exists s', store st' !! i = Some s' /\ core s' = core s).
Proof.
  intros Hmax Htk Ht Hinv Hw st'.
  destruct (drain_kept fuel tk st Htk Ht Hinv Hw) as (Hi & Hf & _ & Hov & Hk).
  fold st' in Hi, Hf, Hk, Hov.
  split_and!; [done|done|]. intros i s Hs. destruct (Hk i s Hs) as [(s' & Hs' & Hc)|[Hdue Hex]].
  - split; [|by exists s']. intros (Ha & Hst & Hd)%(overdue_core _ _ _ Hc). exfalso.
    destruct Hi as [_ Hall]. destruct (Hall i s' Hs') as ([Hok _ Hm] & _ & Harm).
    pose proof (active_deadline s' Hok Hst). rewrite (Harm ltac:(congruence) Ha Hst) in Hm.
    destruct Hm as [?|(e & He & _ & _ & Hwhen)]; [done|].
    rewrite Forall_forall in Hf. specialize (Hf e He). lia.
  - by split.
Qed.

(** ** Lemmas: a session without a detect event *)

(** From [st] to [st'] session [i] gains no detect event and keeps its core. *)
Definition quiet (i : sid) (st st' : SchedState Q) : Prop :=
  tq_ok (eq_ st) ->
  tq_ok (eq_ st') /\
  (forall e, e ∈ pending st' -> ev_session e = i -> e ∈ pending st \/ ev_type e = eventTypeTX) /\
  core <$> (store st' !! i) = core <$> (store st !! i).

Lemma quiet_refl i st : quiet i st st.
Proof. intros ?. split_and!; auto. Qed.

Lemma quiet_trans i st1 st2 st3 : quiet i st1 st2 -> quiet i st2 st3 -> quiet i st1 st3.
Proof.
  intros H12 H23 Hok. destruct (H12 Hok) as (Hok2 & He2 & Hc2), (H23 Hok2) as (Hok3 & He3 & Hc3).
  split_and!; [done| |congruence]. intros e He Hi. destruct (He3 e He Hi); auto.
Qed.

Lemma quiet_put i j s s' st : store st !! j = Some s -> (j = i -> core s' = core s) ->
  quiet i st (put j s' st).
Proof.
  intros Hj Hc Hok. split_and!; [done|by left|]. unfold put. cbn.
  destruct (decide (j = i)) as [->|]; [|by rewrite lookup_insert_ne].
  rewrite lookup_insert_eq, Hj. cbn. by rewrite Hc.
Qed.

Lemma quiet_push i j t ty st : j <> i \/ ty = eventTypeTX -> quiet i st (push_event t ty j st).
Proof.
  intros Hj Hok. unfold push_event, pending. cbn.
  destruct (tq_push_ok (mkEvent t ty j 0) (eq_ st) Hok) as [Hok' [n Hp]].
  split_and!; [done| |done]. intros e He Hi. rewrite Hp in He.
  apply elem_of_cons in He as [->|He]; [|by left]. cbn in *. destruct Hj; [done|by right].
Qed.

Lemma quiet_put_push i j t ty s s' st : store st !! j = Some s -> (j = i -> core s' = core s) ->
  j <> i \/ ty = eventTypeTX -> quiet i st (push_event t ty j (put j s' st)).
Proof. intros. eapply quiet_trans; [by eapply (quiet_put i j s s')|by apply quiet_push]. Qed.

Lemma quiet_fields i st st' : store st' = store st -> eq_ st' = eq_ st -> quiet i st st'.
Proof. intros Es Eq Hok. unfold pending. rewrite Es, Eq. split_and!; auto. Qed.

Lemma quiet_scheduleTx i j int63n now st : quiet i st (scheduleTx int63n now j st).
Proof.
  unfold scheduleTx. destruct (store st !! j) as [s|] eqn:Hj; [|apply quiet_refl].
  case_goal; [apply quiet_refl|]. pose proof (ComputeNextTx_core int63n now s) as Hc.
  destruct (ComputeNextTx int63n now s) as [s1 next]. cbn [fst] in Hc.
  case_goal; [by eapply quiet_put|].
  eapply quiet_put_push; [done| |by right]. done.
Qed.

Lemma quiet_scheduleDetect i j now st : j <> i -> quiet i st (scheduleDetect now j st).
Proof.
  intros Hne. unfold scheduleDetect. destruct (store st !! j) as [s|] eqn:Hj; [|apply quiet_refl].
  destruct (ArmDetect now s) as [s1 [ddl|]]; [|by eapply quiet_put].
  case_goal; [by eapply quiet_put|]. unfold maybeDropOnOverflow.
  repeat case_goal; try (eapply quiet_put_push; [done|done|by left]).
  apply (quiet_trans i _ (st <| overflow := S (overflow st) |>)); [by apply quiet_fields|].
  by eapply quiet_put.
Qed.

Lemma quiet_tryExpire i j now st : j <> i -> quiet i st (tryExpire now j st).1.
Proof.
  intros Hne. unfold tryExpire. destruct (store st !! j) as [s|] eqn:Hj; [|apply quiet_refl].
  destruct (ExpireIfDue now s) as [s1 b]. destruct b; cbn [fst]; [|by eapply quiet_put].
  eapply quiet_put_push; [done| |by right]. done.
Qed.

Lemma quiet_run_tx i tk ev s st : store st !! ev_session ev = Some s -> quiet i st (run_tx tk ev s st).
Proof.
  intros Hs. unfold run_tx. set (s' := if TimeEqual _ _ then _ else s).
  assert (Hc : core s' = core s) by (unfold s'; by case_goal). clearbody s'.
  assert (quiet i st (doTX (tick_write tk) (tick_later tk) (ev_session ev)
            (put (ev_session ev) s' st))).
  { apply (quiet_trans i _ (put (ev_session ev) s' st)); [by eapply quiet_put|].
    apply quiet_fields; apply doTX_store. }
  case_goal; [done|]. eapply quiet_trans; [done|apply quiet_scheduleTx].
Qed.

Lemma quiet_run_detect i tk ev s st : store st !! ev_session ev = Some s -> ev_session ev <> i ->
  quiet i st (run_detect tk ev s st).
Proof.
  intros Hs Hne. unfold run_detect. case_goal; [by eapply quiet_put|].
  set (st1 := put _ _ _). assert (H1 : quiet i st st1) by by eapply quiet_put.
  pose proof (quiet_tryExpire i (ev_session ev) (tick_later tk) st1 Hne) as H2.
  destruct (tryExpire _ _ _) as [st2 b]. cbn [fst] in H2.
  assert (H3 : quiet i st st2) by by eapply quiet_trans.
  destruct b; [eapply quiet_trans; [exact H3|by apply quiet_fields]|].
  repeat case_goal; try done. eapply quiet_trans; [exact H3|by apply quiet_scheduleDetect].
Qed.

(** Session [i] has no detect event queued. *)
Definition undetected (i : sid) (st : SchedState Q) : Prop :=
  tq_ok (eq_ st) /\ forall e, e ∈ pending st -> ev_session e = i -> ev_type e = eventTypeTX.

Lemma undetected_quiet i st st' : undetected i st -> quiet i st st' ->
  undetected i st' /\ core <$> (store st' !! i) = core <$> (store st !! i).
Proof.
  intros [Hok Hu] Hq. destruct (Hq Hok) as (Hok' & He & Hc). split; [|done]. split; [done|].
  intros e Hin Hi. destruct (He e Hin Hi); auto.
Qed.

Lemma undetected_run_iter i tk st : undetected i st ->
  undetected i (run_iter tk st).1 /\
  core <$> (store (run_iter tk st).1 !! i) = core <$> (store st !! i).
Proof.
  intros [Hok Hu]. unfold run_iter.
  destruct (tq_pop_due (tick_now tk) (eq_ st)) as [[[ev|] d] q] eqn:Hp; cycle 1.
  { apply tq_pop_none in Hp as (-> & _); done. }
  apply tq_pop_some in Hp as (Hok' & Hperm & _ & _); [|done].
  assert (Hu' : undetected i (st <| eq_ := q |>)).
  { split; [done|]. intros e He. apply Hu. unfold pending. rewrite Hperm. by right. }
  destruct (store (st <| eq_ := q |>) !! ev_session ev) as [s|] eqn:Hs; [|done].
  cbn [fst]. apply (undetected_quiet i (st <| eq_ := q |>) _ Hu').
  destruct (ev_type ev) eqn:Hty; [by apply quiet_run_tx|].
  apply quiet_run_detect; [done|]. intros Hi.
  assert (ev_type ev = eventTypeTX); [|congruence].
  apply Hu; [unfold pending; rewrite Hperm; by left|done].
Qed.

Definition run_ticks (tks : list Tick) (st : SchedState Q) : SchedState Q :=
  fold_left (fun st tk => (run_iter tk st).1) tks st.

(** A dropped detect event is never made up for by the scheduler: if
    the queue is full when a session's deadline is to be scheduled and no
    detect event of that session is queued, then, unless the peer is heard
    from again, no amount of scheduling expires the session, at any time. *)
Theorem overflow_blinds i now tks s st :
  0 < maxEvents cfg <= tq_len (eq_ st) -> undetected i st ->
  store st !! i = Some s -> now < detectDeadline s -> nextDetectScheduled s <> detectDeadline s ->
  core <$> (store (run_ticks tks (scheduleDetect now i st)) !! i) = Some (core s).
Proof.
  intros Hmax Hu Hi Hnow Hmark.
  assert (H : undetected i (scheduleDetect now i st) /\
              core <$> (store (scheduleDetect now i st) !! i) = Some (core s)).
  { replace (Some (core s)) with (core <$> (store st !! i)) by by rewrite Hi.
    apply undetected_quiet; [done|]. unfold scheduleDetect. rewrite Hi. unfold ArmDetect.
    case_goal; [by eapply quiet_put|]. time_unfold.
    rewrite (proj2 (Z.ltb_lt _ _) Hnow). cbn [negb].
    rewrite (proj2 (Z.eqb_neq _ _) Hmark). unfold maybeDropOnOverflow.
    rewrite (proj2 (Z.leb_gt _ _)), (proj2 (Z.ltb_ge _ _)) by lia.
    apply (quiet_trans i _ (st <| overflow := S (overflow st) |>)); [by apply quiet_fields|].
    by eapply quiet_put. }
  destruct H as [Hu' Hc]. rewrite <- Hc. clear -Hu'. revert Hu'.
  generalize (scheduleDetect now i st) as st0.
  induction tks as [|tk tks IH]; intros st0 Hu0; [done|]. cbn [run_ticks fold_left].
  destruct (undetected_run_iter i tk st0 Hu0) as [Hu1 Hc1]. rewrite <- Hc1. by apply IH.
Qed.

End Scheduler.

(** ** Examples *)

(** One session, Up since a packet received at 5s, with both timers set. *)
Definition sample_scheduler : SchedulerConfig :=
  NewScheduler 0 false (ClientVersion.mk 0 8 1 ClientVersion.VersionChannelStable).

Definition sample_up : Session := (HandleRx (5 * Second) sample_init (sample_session 7 Second)).1.

Definition sample_start : SchedState EventQueue :=
  {| eq_ := NewEventQueue; store := {[ 1%nat := sample_up ]}; sent := [];
     writeErrWarnLast := 0; spawned := []; overflow := 0 |}.

Definition sample_sched : SchedState EventQueue :=
  scheduleTx (fun _ => 0) (5 * Second) 1%nat
    (scheduleDetect sample_scheduler (5 * Second) 1%nat sample_start).

Definition sample_tick (now : Time) : Tick := mkTick now now now (fun _ => 0) WriteOk.

Lemma sample_tick_ok now : 0 < now -> tick_ok (sample_tick now).
Proof. intros. unfold tick_ok. cbn. split_and!; intros; lia. Qed.

Lemma sample_sched_inv : sched_inv sample_sched.
Proof.
  assert (Hok : session_ok sample_up) by (apply HandleRx_ok; [done|by apply sample_session_ok]).
  assert (Hf : focus 1%nat sample_start (eq sample_up)).
  { split_and!; [split; [|by intros e ?%elem_of_nil]|..].
    - intros i Hi. exfalso. cbn [sample_start eq_ pq NewEventQueue length] in Hi. lia.
    - intros j s Hj Hl. cbn [sample_start store] in Hl. by rewrite lookup_singleton_ne in Hl.
    - exists sample_up. split_and!; [apply lookup_singleton_eq| |done].
      constructor; [done|by left..]. }
  pose proof (scheduleDetect_focus sample_scheduler (5 * Second) 1%nat sample_up _ eq_refl Hf)
    as (Hq & Hall & s & Hs & Hb & H1 & H2 & H3 & H4).
  assert (Hf2 : focus 1%nat
            (scheduleDetect sample_scheduler (5 * Second) 1%nat sample_start) (eq s))
    by (split_and!; eauto).
  apply (focus_elim 1%nat). eapply focus_impl;
    [apply (scheduleTx_focus (fun _ => 0) (5 * Second) 1%nat s); [lia|done|exact Hf2]|].
  intros s' _ (G1 & G2 & G3 & G4 & G5). split.
  - intros _ _. apply G1. by rewrite H2.
  - intros _ _ _. rewrite G4, G5. apply H1; [done|done|]. vm_compute. discriminate.
Qed.

Lemma drain_detects_witness :
  expired 1%nat (drain sample_scheduler 9 (sample_tick (50 * Second)) sample_sched) /\
  exists d, d ∈ sent (drain sample_scheduler 9 (sample_tick (50 * Second)) sample_sched).
Proof.
  destruct (drain_detects sample_scheduler 9 (sample_tick (50 * Second)) sample_sched) as (_ & _ & H);
    [done|by apply sample_tick_ok|done|apply sample_sched_inv|vm_compute; lia|].
  destruct (store sample_sched !! 1%nat) as [s|] eqn:Hs; [|vm_compute in Hs; discriminate].
  destruct (proj1 (H 1%nat s Hs)) as [He Hd].
  { vm_compute in Hs. injection Hs as <-. unfold overdue. vm_compute. intuition congruence. }
  split; [exact He|]. eexists. exact (Hd eq_refl).
Defined.

(** A queue of one event, already full: the session stays Up for ever. *)
Lemma overflow_blinds_witness :
  let cfg := sample_scheduler <| maxEvents := 1 |> in
  let st := scheduleTx (fun _ => 0) (5 * Second) 1%nat sample_start in
  core <$> (store (run_ticks cfg [sample_tick (50 * Second); sample_tick (90 * Second)]
                     (scheduleDetect cfg (5 * Second) 1%nat st)) !! 1%nat) =
  Some (core sample_up).
Proof.
  intros cfg st. destruct (store st !! 1%nat) as [s|] eqn:Hs; [|vm_compute in Hs; discriminate].
  assert (Hc : core s = core sample_up) by (vm_compute in Hs; injection Hs as <-; vm_compute; reflexivity).
  rewrite <- Hc. apply overflow_blinds; [vm_compute; intuition congruence|..].
  - split; [apply Push_ok; intros i Hi; exfalso; cbn in Hi; lia|].
    intros e He _. vm_compute in He. apply elem_of_cons in He as [->|He]; [reflexivity|].
    by apply elem_of_nil in He.
  - exact Hs.
  - vm_compute in Hs. injection Hs as <-. vm_compute. reflexivity.
  - vm_compute in Hs. injection Hs as <-. vm_compute. discriminate.
Defined.
