(* ===== verification/LivenessProtocol.v ===== *)
(** * Route liveness: two peers

    Two sessions that exchange control packets, encoded by [doTX] and decoded
    by the receiver, over a network that may lose, duplicate, delay and
    reorder them. *)

From stdpp Require Import base tactics numbers list gmap.
From Stdlib Require Import ZArith Lia ZifyBool.
From S2P Require Import Prelude Bytes GoStrings LivenessVersion LivenessPacket Routing.
From S2P Require Import LivenessConfig LivenessSession EventQueue LivenessScheduler.

#[local] Open Scope Z_scope.

Section Protocol.
Context (cfg : SchedulerConfig).

(** A datagram reaches a session. *)
Definition receive (now : Time) (p : bytes) (s : Session) : Session :=
  match ControlPacket.UnmarshalControlPacket p with
  | Ok ctrl => (HandleRx now ctrl s).1
  | _ => s
  end.

Definition transmit (s : Session) : bytes := ControlPacket.Marshal (tx_packet cfg s).

(** What makes a session's packets encodable: each field fits its width. *)
Definition tx_ok (s : Session) : Prop :=
  is_u32 (localDiscr s) /\ is_u32 (peerDiscr s) /\ is_u8 (detectMult s) /\
  ClientVersion.wf (schedClientVersion cfg).

(** Two sessions, and every datagram sent so far towards each of them. *)
Record Net := mkNet { na : Session; nb : Session; to_a : list bytes; to_b : list bytes }.

(** A local action: the peer does not see it. *)
Inductive local_step : Session -> Session -> Prop :=
| local_expire s now : 0 < now -> local_step s (ExpireIfDue now s).1
| local_arm s now : 0 < now -> local_step s (ArmDetect now s).1
| local_next_tx s int63n now : 0 < now -> local_step s (ComputeNextTx int63n now s).1.

Inductive net_step : Net -> Net -> Prop :=
| net_send_a n : net_step n (mkNet (na n) (nb n) (to_a n) (transmit (na n) :: to_b n))
| net_send_b n : net_step n (mkNet (na n) (nb n) (transmit (nb n) :: to_a n) (to_b n))
| net_recv_a n now p : 0 < now -> p ∈ to_a n ->
    net_step n (mkNet (receive now p (na n)) (nb n) (to_a n) (to_b n))
| net_recv_b n now p : 0 < now -> p ∈ to_b n ->
    net_step n (mkNet (na n) (receive now p (nb n)) (to_a n) (to_b n))
| net_local_a n s : local_step (na n) s -> net_step n (mkNet s (nb n) (to_a n) (to_b n))
| net_local_b n s : local_step (nb n) s -> net_step n (mkNet (na n) s (to_a n) (to_b n)).

Definition net_steps := rtc net_step.

(** ** Lemmas *)

Lemma tx_packet_wf s : tx_ok s -> ControlPacket.wf (tx_packet cfg s).
Proof.
  intros (? & ? & ? & ?). unfold tx_packet, ControlPacket.SetPassive.
  destruct (passiveMode cfg); unfold ControlPacket.wf; cbn -[Z.quot];
    (split_and!; try done; try (apply wrap_range; lia); unfold is_u; cbn; lia).
Qed.

Lemma tx_packet_fields s :
  ControlPacket.PktState (tx_packet cfg s) = state s /\
  ControlPacket.LocalDiscr (tx_packet cfg s) = localDiscr s /\
  ControlPacket.PeerDiscr (tx_packet cfg s) = peerDiscr s.
Proof. unfold tx_packet. by destruct (passiveMode cfg). Qed.

Lemma receive_transmit now s r : tx_ok s ->
  receive now (transmit s) r = (HandleRx now (tx_packet cfg s) r).1.
Proof.
  intros H. unfold receive, transmit.
  by rewrite ControlPacket.Unmarshal_Marshal_exact by by apply tx_packet_wf.
Qed.

(** Discriminators and the multiplier across a receive. *)
Lemma rx_advance_ids now ctrl s :
  localDiscr (rx_advance now ctrl s) = localDiscr s /\
  detectMult (rx_advance now ctrl s) = detectMult s /\
  (state s <> StateUp -> peerDiscr (rx_advance now ctrl s) = peerDiscr s).
Proof.
  destruct s as [? ? ? st]. unfold rx_advance. session_cbv.
  destruct st; repeat case_goal; by split_and!.
Qed.

Lemma HandleRx_ids now ctrl s :
  localDiscr (HandleRx now ctrl s).1 = localDiscr s /\
  detectMult (HandleRx now ctrl s).1 = detectMult s.
Proof.
  unfold HandleRx. cbv zeta. repeat (case_goal; [by split|]).
  case_goal; [case_goal; by split|]. cbn [fst].
  destruct (rx_advance_ids now ctrl (learn_timers now ctrl (learn_mode ctrl s))) as (-> & -> & _).
  done.
Qed.

Lemma HandleRx_foreign now ctrl s :
  ControlPacket.PeerDiscr ctrl <> 0 -> ControlPacket.PeerDiscr ctrl <> localDiscr s ->
  (HandleRx now ctrl s).1 = s.
Proof.
  intros H1 H2. unfold HandleRx. case_goal; [done|].
  rewrite (proj2 (Z.eqb_neq _ _) H1), (proj2 (Z.eqb_neq _ _) H2). done.
Qed.

(** A session that knows a discriminator keeps it on Down packets, and on any
    packet it takes while Init. *)
Lemma HandleRx_keeps_peer now ctrl s :
  peerDiscr s <> 0 -> ControlPacket.PktState ctrl = StateDown \/ state s = StateInit ->
  peerDiscr (HandleRx now ctrl s).1 = peerDiscr s.
Proof.
  intros Hk Hc. unfold HandleRx. cbv zeta. repeat (case_goal; [done|]).
  case_goal; [case_goal; done|]. cbn [fst].
  destruct (rx_advance_ids now ctrl (learn_timers now ctrl (learn_mode ctrl s))) as (_ & _ & Hp).
  rewrite Hp.
  - cbn. by rewrite (proj2 (Z.eqb_neq _ _) Hk).
  - change (state s <> StateUp). intros Hup. destruct Hc as [Hc|Hc]; [|congruence].
    rewrite Hc, Hup in *. done.
Qed.

(** A Down session without a peer learns it from the packet. *)
Lemma HandleRx_learns now ctrl s :
  peerDiscr s = 0 -> state s = StateDown -> ControlPacket.LocalDiscr ctrl <> 0 ->
  ControlPacket.PktState ctrl <> StateAdminDown ->
  ControlPacket.PeerDiscr ctrl = 0 \/ ControlPacket.PeerDiscr ctrl = localDiscr s ->
  peerDiscr (HandleRx now ctrl s).1 = ControlPacket.LocalDiscr ctrl.
Proof.
  intros H0 Hs Hl Hna Hp. unfold HandleRx, state_eqb. cbv zeta.
  rewrite Hs, bool_decide_eq_false_2 by done.
  assert (negb (ControlPacket.PeerDiscr ctrl =? 0) &&
          negb (ControlPacket.PeerDiscr ctrl =? localDiscr s) = false) as -> by lia.
  rewrite bool_decide_eq_false_2 by done.
  rewrite (bool_decide_eq_false_2 (StateDown = StateUp)), (bool_decide_eq_false_2 (StateDown = StateInit)),
    andb_false_r by done. cbn [fst].
  destruct (rx_advance_ids now ctrl (learn_timers now ctrl (learn_mode ctrl s))) as (_ & _ & Hpd).
  rewrite Hpd by (change (state s <> StateUp); by rewrite Hs).
  cbn. rewrite H0. cbn. by rewrite (proj2 (Z.eqb_neq _ _) Hl).
Qed.

(** ** The handshake *)

Lemma receive_fresh t s r (r' := receive t (transmit s) r) :
  tx_ok s -> tx_ok r -> localDiscr s <> 0 -> state r = StateDown -> peerDiscr r = 0 ->
  state s = StateDown /\ peerDiscr s = 0 \/ state s = StateInit /\ peerDiscr s = localDiscr r ->
  tx_ok r' /\ localDiscr r' = localDiscr r /\ peerDiscr r' = localDiscr s /\
  state r' = match state s with StateInit => StateUp | _ => StateInit end.
Proof.
  intros Hs Hr Hl Hd Hp Hc. subst r'. rewrite receive_transmit by done.
  destruct (tx_packet_fields s) as (P1 & P2 & P3).
  destruct (HandleRx_ids t (tx_packet cfg s) r) as [I M].
  destruct (HandleRx_rx_next t (tx_packet cfg s) r) as [S _].
  assert (L : peerDiscr (HandleRx t (tx_packet cfg s) r).1 = localDiscr s).
  { rewrite <- P2. apply HandleRx_learns; rewrite ?P1, ?P2, ?P3; try done.
    - by destruct Hc as [[-> _]|[-> _]].
    - destruct Hc as [[_ ->]|[_ ->]]; auto. }
  split_and!; [|done..|].
  - unfold tx_ok in *. rewrite I, M, L. tauto.
  - rewrite S. unfold classify, peer_known. rewrite P1, P2, P3, Hd, Hp.
    rewrite (proj2 (Z.eqb_neq _ _) Hl). destruct Hc as [[-> ->]|[-> ->]]; [done|].
    rewrite !Z.eqb_refl. cbn [negb]. by rewrite andb_false_r.
Qed.

Lemma receive_promotes t s r (r' := receive t (transmit s) r) :
  tx_ok s -> state s = StateUp -> peerDiscr s = localDiscr r ->
  state r = StateInit -> peerDiscr r <> 0 ->
  state r' = StateUp /\ peerDiscr r' = peerDiscr r.
Proof.
  intros Hs Hu Hp Hi Hk. subst r'. rewrite receive_transmit by done.
  destruct (tx_packet_fields s) as (P1 & P2 & P3).
  destruct (HandleRx_rx_next t (tx_packet cfg s) r) as [S _].
  split; [|by apply HandleRx_keeps_peer; [|right]].
  rewrite S. unfold classify, peer_known. rewrite P1, P2, P3, Hu, Hi, Hp.
  rewrite (proj2 (Z.eqb_neq _ _) Hk), Z.eqb_refl. cbn [negb]. by rewrite andb_false_r.
Qed.

(** Two fresh sessions come Up in three packets: a Down packet brings
    the far side to Init, its Init packet brings the near side Up, and the
    next packet brings the far side Up, each side holding the other's
    discriminator. The packets pass through the wire format. *)
Theorem handshake_three_packets t1 t2 t3 a b :
  tx_ok a -> tx_ok b -> localDiscr a <> 0 -> localDiscr b <> 0 ->
  state a = StateDown -> state b = StateDown -> peerDiscr a = 0 -> peerDiscr b = 0 ->
  let b1 := receive t1 (transmit a) b in
  let a1 := receive t2 (transmit b1) a in
  let b2 := receive t3 (transmit a1) b1 in
  state b1 = StateInit /\ state a1 = StateUp /\ state b2 = StateUp /\
  peerDiscr a1 = localDiscr b /\ peerDiscr b2 = localDiscr a.
Proof.
  intros Ha Hb Hla Hlb Hsa Hsb Hpa Hpb b1 a1 b2.
  destruct (receive_fresh t1 a b) as (Tb & Lb & Pb & Sb); auto. fold b1 in Tb, Lb, Pb, Sb.
  rewrite Hsa in Sb.
  destruct (receive_fresh t2 b1 a) as (Ta & La & Pa & Sa); auto; [congruence|].
  fold a1 in Ta, La, Pa, Sa. rewrite Sb in Sa.
  destruct (receive_promotes t3 a1 b1) as (Sb2 & Pb2); [done|done|congruence|done|congruence|].
  fold b2 in Sb2, Pb2. split_and!; congruence.
Qed.

(** ** A restarted peer *)

(** What stays true after one side restarts with a new discriminator: the
    survivor still addresses the old one, which the restarted side rejects. *)
Record stuck (old disc discB : Z) (was_up : Prop) (n : Net) : Prop := {
  stuck_a : localDiscr (na n) = disc;
  stuck_peer : peerDiscr (na n) = old;
  stuck_mult : is_u8 (detectMult (na n)) /\ is_u8 (detectMult (nb n));
  stuck_b : localDiscr (nb n) = discB /\ peerDiscr (nb n) = 0 /\ state (nb n) = StateDown;
  stuck_not_up : state (na n) = StateUp -> was_up;
  stuck_to_b : forall p, p ∈ to_b n -> exists ctrl,
    ControlPacket.UnmarshalControlPacket p = Ok ctrl /\ ControlPacket.PeerDiscr ctrl = old;
  stuck_to_a : forall p, p ∈ to_a n -> exists ctrl,
    ControlPacket.UnmarshalControlPacket p = Ok ctrl /\
    ControlPacket.PktState ctrl = StateDown /\ ControlPacket.PeerDiscr ctrl = 0
}.

Lemma local_step_ids s s' : local_step s s' ->
  localDiscr s' = localDiscr s /\ peerDiscr s' = peerDiscr s /\ detectMult s' = detectMult s /\
  (state s' = state s \/ state s' = StateDown).
Proof.
  destruct 1 as [s now _|s now _|s int63n now _].
  - unfold ExpireIfDue. repeat case_goal; split_and!; auto.
  - unfold ArmDetect. repeat case_goal; split_and!; auto.
  - unfold ComputeNextTx. destruct (effInterval s). cbv zeta.
    repeat match goal with |- context [fst (if ?b then _ else _, _)] => destruct b end;
      split_and!; auto.
Qed.

(** A Down packet from the restarted peer never brings the survivor Up. *)
Lemma receive_restarted now ctrl s :
  ControlPacket.PktState ctrl = StateDown -> ControlPacket.PeerDiscr ctrl = 0 -> peerDiscr s <> 0 ->
  let s' := (HandleRx now ctrl s).1 in
  localDiscr s' = localDiscr s /\ peerDiscr s' = peerDiscr s /\ detectMult s' = detectMult s /\
  (state s' = StateUp -> state s = StateUp).
Proof.
  intros Hd Hp Hk s'. destruct (HandleRx_ids now ctrl s) as [I M].
  destruct (HandleRx_rx_next now ctrl s) as [S _].
  split_and!; [done|by apply HandleRx_keeps_peer; [|left]|done|].
  subst s'. rewrite S. unfold classify. rewrite Hd, Hp. cbn.
  destruct (state s); cbn; try done. by case_goal.
Qed.

Context (Hversion : ClientVersion.wf (schedClientVersion cfg)).

Lemma transmit_decodes s : tx_ok s ->
  ControlPacket.UnmarshalControlPacket (transmit s) = Ok (tx_packet cfg s).
Proof. intros H. by apply ControlPacket.Unmarshal_Marshal_exact, tx_packet_wf. Qed.

Lemma stuck_step old disc discB wu n n' :
  is_u32 old -> is_u32 disc -> is_u32 discB -> old <> 0 -> old <> discB ->
  net_step n n' -> stuck old disc discB wu n -> stuck old disc discB wu n'.
Proof.
  intros Ho Hd HB H0 Hne Hstep [A P [Ma Mb] (B1 & B2 & B3) U TB TA].
  destruct Hstep as [n|n|n now p Hn Hp|n now p Hn Hp|n s Hl|n s Hl].
  - constructor; cbn [na nb to_a to_b]; try done. intros p [->|Hp]%elem_of_cons; [|by apply TB].
    exists (tx_packet cfg (na n)). rewrite transmit_decodes by (unfold tx_ok; by rewrite A, P).
    by destruct (tx_packet_fields (na n)) as (_ & _ & ->).
  - constructor; cbn [na nb to_a to_b]; try done. intros p [->|Hp]%elem_of_cons; [|by apply TA].
    exists (tx_packet cfg (nb n)). rewrite transmit_decodes by (unfold tx_ok; by rewrite B1, B2).
    by destruct (tx_packet_fields (nb n)) as (-> & _ & ->).
  - destruct (TA p Hp) as (ctrl & Hdec & Hst & Hpd).
    destruct (receive_restarted now ctrl (na n) Hst Hpd) as (I1 & I2 & I3 & I4); [by rewrite P|].
    unfold receive. rewrite Hdec. constructor; cbn [na nb to_a to_b]; rewrite ?I1, ?I2, ?I3; try done. auto.
  - destruct (TB p Hp) as (ctrl & Hdec & Hpd).
    unfold receive. rewrite Hdec, HandleRx_foreign by (rewrite Hpd, ?B1; done). by constructor.
  - destruct (local_step_ids _ _ Hl) as (I1 & I2 & I3 & I4).
    constructor; cbn [na nb to_a to_b]; rewrite ?I1, ?I2, ?I3; try done. intros Hu. apply U.
    destruct I4 as [E|E]; congruence.
  - destruct (local_step_ids _ _ Hl) as (I1 & I2 & I3 & I4).
    constructor; cbn [na nb to_a to_b]; rewrite ?I1, ?I2, ?I3; try done. split_and!; [done..|].
    destruct I4 as [E|E]; congruence.
Qed.

(** A peer that restarts cannot come Up again against a session that
    still remembers its old discriminator: whatever packets are sent, lost,
    duplicated or reordered and whatever timers fire, the restarted side stays
    Down, the survivor keeps addressing the old discriminator, and once the
    survivor has left Up it never returns to it. *)
Theorem restarted_peer_stuck n n' :
  is_u32 (localDiscr (na n)) -> is_u32 (peerDiscr (na n)) -> is_u32 (localDiscr (nb n)) ->
  is_u8 (detectMult (na n)) -> is_u8 (detectMult (nb n)) ->
  peerDiscr (na n) <> 0 -> peerDiscr (na n) <> localDiscr (nb n) ->
  state (nb n) = StateDown -> peerDiscr (nb n) = 0 -> to_a n = [] -> to_b n = [] ->
  net_steps n n' ->
  state (nb n') = StateDown /\ peerDiscr (nb n') = 0 /\
  peerDiscr (na n') = peerDiscr (na n) /\
  (state (na n) <> StateUp -> state (na n') <> StateUp).
Proof.
  intros H1 H2 H3 H4 H5 H6 H7 H8 H9 Ha Hb Hs.
  set (wu := state (na n) = StateUp).
  assert (Hinv : stuck (peerDiscr (na n)) (localDiscr (na n)) (localDiscr (nb n)) wu n').
  { assert (Hn : stuck (peerDiscr (na n)) (localDiscr (na n)) (localDiscr (nb n)) wu n).
    { constructor; try done; rewrite ?Ha, ?Hb; by intros p ?%elem_of_nil. }
    revert Hn. generalize (peerDiscr (na n)) (localDiscr (na n)) (localDiscr (nb n)) wu H1 H2 H3 H6 H7.
    clear -Hs Hversion. intros old disc discB wu H1 H2 H3 H6 H7.
    induction Hs as [|x y z Hxy _ IH]; [done|]. intros Hx. apply IH. by eapply stuck_step. }
  destruct Hinv as [? ? ? (? & ? & ?) ? ? ?]. split_and!; auto.
Qed.

End Protocol.

(** ** Examples *)

Lemma handshake_three_packets_witness :
  let a := sample_session 7 Second in
  let b := sample_session 9 Second in
  let b1 := receive (2 * Second) (transmit sample_scheduler a) b in
  let a1 := receive (3 * Second) (transmit sample_scheduler b1) a in
  let b2 := receive (4 * Second) (transmit sample_scheduler a1) b1 in
  state b1 = StateInit /\ state a1 = StateUp /\ state b2 = StateUp.
Proof.
  intros a b b1 a1 b2.
  assert (Ha : tx_ok sample_scheduler a) by (unfold tx_ok; vm_compute; intuition congruence).
  assert (Hb : tx_ok sample_scheduler b) by (unfold tx_ok; vm_compute; intuition congruence).
  destruct (handshake_three_packets sample_scheduler (2 * Second) (3 * Second) (4 * Second) a b)
    as (H1 & H2 & H3 & _);
    [exact Ha|exact Hb|vm_compute; discriminate|vm_compute; discriminate|reflexivity..|].
  exact (conj H1 (conj H2 H3)).
Defined.

(** The survivor is Up, the peer restarts with discriminator 11 and its first
    packet arrives a minute later. *)
Definition sample_restart : Net := mkNet sample_up (sample_session 11 (60 * Second)) [] [].

Definition sample_restarted : Net :=
  let p := transmit sample_scheduler (sample_session 11 (60 * Second)) in
  mkNet (receive (61 * Second) p sample_up) (sample_session 11 (60 * Second)) [p] [].

Lemma one_packet_steps cfg t a b : 0 < t ->
  net_steps cfg (mkNet a b [] [])
    (mkNet (receive t (transmit cfg b) a) b [transmit cfg b] []).
Proof.
  intros Ht. eapply rtc_l; [apply net_send_b|]. apply rtc_once.
  apply (net_recv_a cfg (mkNet a b [transmit cfg b] [])); [done|by left].
Qed.

Lemma restarted_peer_stuck_witness :
  state (na sample_restart) = StateUp /\ state (na sample_restarted) = StateDown /\
  state (nb sample_restarted) = StateDown /\
  peerDiscr (na sample_restarted) = peerDiscr (na sample_restart).
Proof.
  split_and!; [reflexivity|vm_compute; reflexivity|..].
  all: apply (restarted_peer_stuck sample_scheduler ltac:(vm_compute; intuition congruence)
         sample_restart sample_restarted); try (vm_compute; intuition congruence).
  all: apply (one_packet_steps sample_scheduler (61 * Second)); reflexivity.
Defined.
