(* ===== verification/LivenessReceiver.v ===== *)
(** * Route liveness: the receiver

    Models one iteration of [Receiver.Run] and [isFatalNetErr] of
    [client/doublezerod/internal/liveness/receiver.go]. What the socket and the
    context return is the iteration's input; the outcome says whether the loop
    ends, goes on, counts an invalid packet or hands one to the handler. *)

From stdpp Require Import base tactics numbers list.
From Stdlib Require Import ZArith Lia ZifyBool.
From S2P Require Import Prelude Bytes GoStrings LivenessVersion LivenessPacket Routing.
From S2P Require Import LivenessConfig LivenessSession.

#[local] Open Scope Z_scope.

(** What the code inspects of an error: [errors.Is(err, net.ErrClosed)],
    [net.Error.Timeout()], the wrapped [syscall.Errno], and, if the error wraps
    a [*net.OpError], its [Timeout()] and [Temporary()]. *)
Record NetError := mkNetError {
  err_closed : bool;
  err_timeout : bool;
  err_errno : option Z;
  err_op : option (bool * bool)
}.

Definition ENXIO : Z := 6.
Definition EBADF : Z := 9.
Definition ENODEV : Z := 19.
Definition ENETDOWN : Z := 100.

Definition isFatalNetErr (e : NetError) : bool :=
  if err_closed e then true
  else if match err_errno e with
          | Some n => (n =? EBADF) || (n =? ENETDOWN) || (n =? ENODEV) || (n =? ENXIO)
          | None => false
          end then true
  else match err_op e with
       | Some (timeout, temporary) => negb timeout && negb temporary
       | None => false
       end.

Inductive invalid_reason := InvShort | InvBadLen | InvBadVersion | InvNotIPv4.

Inductive stop_reason :=
| ClosedSetReadDeadline | FatalSetReadDeadline | ClosedReadFrom | FatalReadFrom.

Inductive rx_outcome :=
| RxStopped
| RxFailed (why : stop_reason)
| RxContinue
| RxInvalid (why : invalid_reason)
| RxDelivered (ctrl : ControlPacket.t) (p : Peer).

(** A datagram as [ReadFrom] returns it: payload, sender, local address, interface. *)
Record RxDatagram := mkRxDatagram {
  rx_payload : bytes;
  rx_peer : IP;
  rx_local : IP;
  rx_ifname : bytes
}.

(** The inputs of an iteration: whether the context is done at the top of the
    loop and after an error, the results of [SetReadDeadline] and [ReadFrom],
    and the clock when an error is reported. *)
Record RxInput := mkRxInput {
  in_done : bool;
  in_done_err : bool;
  in_deadline : option NetError;
  in_read : NetError + RxDatagram;
  in_now : Time
}.

Definition readErrWarnEvery : Duration := 5 * Second.

(** The throttled warning: the time of the last one is the receiver's state. *)
Definition warn (now last : Time) : Time :=
  if IsZero last || (readErrWarnEvery <=? TimeSub now last) then now else last.

(** The part of the loop body after a successful read. *)
Definition rx_packet (d : RxDatagram) : rx_outcome :=
  match ControlPacket.UnmarshalControlPacket (rx_payload d) with
  | Err ControlPacket.ErrShortPacket => RxInvalid InvShort
  | Err ControlPacket.ErrInvalidLength => RxInvalid InvBadLen
  | Err (ControlPacket.ErrUnsupportedVersion _) => RxInvalid InvBadVersion
  | Panic => RxStopped
  | Ok ctrl =>
      let localIP4 := ip4_string (rx_local d) in
      let peerIP4 := ip4_string (rx_peer d) in
      if bool_decide (localIP4 = []) || bool_decide (peerIP4 = []) then RxInvalid InvNotIPv4
      else RxDelivered ctrl
             {| Interface := rx_ifname d; LocalIP := localIP4; PeerIP := peerIP4 |}
  end.

Definition rx_iter (i : RxInput) (last : Time) : rx_outcome * Time :=
  if in_done i then (RxStopped, last)
  else match in_deadline i with
       | Some e =>
           if in_done_err i then (RxStopped, last)
           else if err_closed e then (RxFailed ClosedSetReadDeadline, last)
           else
             let last := warn (in_now i) last in
             if isFatalNetErr e then (RxFailed FatalSetReadDeadline, last)
             else (RxContinue, last)
       | None =>
           match in_read i with
           | inl e =>
               if in_done_err i then (RxStopped, last)
               else if err_timeout e then (RxContinue, last)
               else if err_closed e then (RxFailed ClosedReadFrom, last)
               else
                 let last := warn (in_now i) last in
                 if isFatalNetErr e then (RxFailed FatalReadFrom, last)
                 else (RxContinue, last)
           | inr d => (rx_packet d, last)
           end
       end.

(** The loop over successive inputs: the packets handed to the handler, in
    order, and how the loop ended, if it did. *)
Fixpoint rx_run (ins : list RxInput) (last : Time) :
    list (ControlPacket.t * Peer) * option (option stop_reason) :=
  match ins with
  | [] => ([], None)
  | i :: ins =>
      match rx_iter i last with
      | (RxStopped, _) => ([], Some None)
      | (RxFailed why, _) => ([], Some (Some why))
      | (RxContinue, last) | (RxInvalid _, last) => rx_run ins last
      | (RxDelivered ctrl p, last) =>
          let '(ds, e) := rx_run ins last in ((ctrl, p) :: ds, e)
      end
  end.

(** ** Lemmas *)

(** The decoder never panics: it checks the length first. *)
Lemma Unmarshal_no_panic b : ControlPacket.UnmarshalControlPacket b <> Panic.
Proof. unfold ControlPacket.UnmarshalControlPacket. by repeat case_goal. Qed.

(** What a datagram means to the handler, as a specification. *)
Definition accepted (d : RxDatagram) : option (ControlPacket.t * Peer) :=
  match ControlPacket.UnmarshalControlPacket (rx_payload d) with
  | Ok ctrl =>
      if bool_decide (To4 (rx_local d) <> []) && bool_decide (To4 (rx_peer d) <> []) then
        Some (ctrl, mkPeer (rx_ifname d) (ip4_string (rx_local d)) (ip4_string (rx_peer d)))
      else None
  | _ => None
  end.

(** An input that ends the loop: cancellation, or a fatal socket error. *)
Definition stops (i : RxInput) : bool :=
  in_done i ||
  match in_deadline i, in_read i with
  | Some e, _ => in_done_err i || isFatalNetErr e
  | None, inl e => in_done_err i || negb (err_timeout e) && isFatalNetErr e
  | None, inr _ => false
  end.

Definition accepted_input (i : RxInput) : option (ControlPacket.t * Peer) :=
  match in_deadline i, in_read i with
  | None, inr d => accepted d
  | _, _ => None
  end.

Fixpoint before_stop (ins : list RxInput) : list RxInput :=
  match ins with
  | [] => []
  | i :: ins => if stops i then [] else i :: before_stop ins
  end.

Lemma ip4_string_nil ip : ip4_string ip = [] <-> To4 ip = [].
Proof.
  unfold ip4_string. destruct (To4_length ip) as [H|H]; [by apply nil_length_inv in H as ->|].
  destruct (To4 ip) as [|a [|b l]] eqn:E; cbn in H; [done|lia|].
  split; [|done]. unfold IP_String. cbn [map Join].
  intros Hc. exfalso. apply app_nil in Hc as [_ Hc]. by apply app_nil in Hc as [? _].
Qed.

Lemma rx_packet_accepted d :
  match rx_packet d with
  | RxDelivered ctrl p => accepted d = Some (ctrl, p)
  | RxInvalid _ => accepted d = None
  | _ => False
  end.
Proof.
  unfold rx_packet, accepted. pose proof (Unmarshal_no_panic (rx_payload d)) as Hp.
  destruct (ControlPacket.UnmarshalControlPacket (rx_payload d)) as [ctrl|[]|]; try done.
  pose proof (ip4_string_nil (rx_local d)). pose proof (ip4_string_nil (rx_peer d)).
  repeat case_bool_decide; cbn; try done; tauto.
Qed.

Lemma rx_iter_stops i last :
  match (rx_iter i last).1 with
  | RxStopped | RxFailed _ => stops i = true
  | RxContinue | RxInvalid _ => stops i = false /\ accepted_input i = None
  | RxDelivered ctrl p => stops i = false /\ accepted_input i = Some (ctrl, p)
  end.
Proof.
  unfold rx_iter, stops, accepted_input. destruct (in_done i); [done|].
  destruct (in_deadline i) as [e|].
  - destruct (in_done_err i); [done|]. unfold isFatalNetErr.
    destruct (err_closed e); [done|]. cbn [orb fst]. by case_goal.
  - destruct (in_read i) as [e|d].
    + destruct (in_done_err i); [done|]. destruct (err_timeout e); [done|]. unfold isFatalNetErr.
      destruct (err_closed e); [done|]. cbn [orb fst andb negb]. by case_goal.
    + cbn [fst]. pose proof (rx_packet_accepted d) as H. by destruct (rx_packet d).
Qed.

(** The receive loop hands to the handler exactly the well-formed
    control packets between IPv4 addresses, in arrival order, until the
    context is cancelled or the socket fails fatally: malformed packets,
    timeouts and transient errors neither end the loop nor lose a packet, and
    it ends at the first input that should end it. *)
Theorem rx_run_delivers ins last :
  (rx_run ins last).1 = omap accepted_input (before_stop ins) /\
  ((rx_run ins last).2 = None <-> Forall (fun i => stops i = false) ins).
Proof.
  revert last. induction ins as [|i ins IH]; intros last; cbn [rx_run before_stop].
  { split; [done|]. split; [constructor|done]. }
  pose proof (rx_iter_stops i last) as H. destruct (rx_iter i last) as [o last']. cbn [fst] in H.
  destruct (IH last') as [IH1 IH2]. rewrite Forall_cons.
  destruct o as [|why| |why|ctrl p].
  1,2: rewrite H; cbn; split; [done|]; split; [done|intros [? _]; congruence].
  1,2: destruct H as [-> H]; cbn; rewrite H; split; [done|]; rewrite IH2; tauto.
  destruct H as [-> H]. cbn. rewrite H. destruct (rx_run ins last') as [ds e]. cbn in *.
  split; [by rewrite IH1|]. rewrite IH2. tauto.
Qed.
