(* ===== verification/LivenessManager.v ===== *)
(** * Route liveness: the manager

    Models [manager] of [client/doublezerod/internal/liveness/manager.go] and
    the adapter of [routerw.go]: the maps of sessions, desired and installed
    routes, the operations on them, and the goroutines that install and remove
    kernel routes when a session comes Up or goes Down. The kernel is any
    [RouteReaderWriter]; goroutines that were started and have not run are
    part of the state. *)

From stdpp Require Import base tactics numbers list gmap countable.
From Stdlib Require Import ZArith Lia ZifyBool.
From S2P Require Import Prelude Bytes GoStrings LivenessVersion LivenessPacket Routing.
From S2P Require Import LivenessConfig LivenessSession EventQueue LivenessScheduler.

#[local] Open Scope Z_scope.

Record RouteKey := mkRouteKey {
  rk_Interface : bytes;
  rk_SrcIP : bytes;
  rk_Table : Z;
  rk_DstPrefix : bytes;
  rk_NextHop : bytes
}.

#[global] Instance Peer_eq_dec : EqDecision Peer.
Proof. solve_decision. Defined.
#[global] Instance RouteKey_eq_dec : EqDecision RouteKey.
Proof. solve_decision. Defined.
#[global] Program Instance Peer_countable : Countable Peer :=
  inj_countable' (fun p => (Interface p, LocalIP p, PeerIP p))
    (fun '(a, b, c) => mkPeer a b c) _.
Next Obligation. by intros []. Qed.
#[global] Program Instance RouteKey_countable : Countable RouteKey :=
  inj_countable' (fun k => (rk_Interface k, rk_SrcIP k, rk_Table k, rk_DstPrefix k, rk_NextHop k))
    (fun '(a, b, c, d, e) => mkRouteKey a b c d e) _.
Next Obligation. by intros []. Qed.

Definition routeKeyFor (iface : bytes) (r : LRoute) : RouteKey := {|
  rk_Interface := iface;
  rk_SrcIP := ip4_string (Src (lr_Route r));
  rk_Table := Table (lr_Route r);
  rk_DstPrefix := ip4_string (net_IP (Dst (lr_Route r)));
  rk_NextHop := ip4_string (NextHop (lr_Route r))
|}.

(** [rand32]: the four random bytes are the argument; zero becomes one. *)
Definition rand32 (b : bytes) : Z :=
  let v := be_val b in if v =? 0 then 1 else v.

(** [net.ResolveUDPAddr("udp", peerAddrFor(r, port))] for a literal IPv4
    address: it fails only on a port that is not a 16-bit number. *)
Definition resolve_peer (r : LRoute) (port : Z) : option (IP * Z) :=
  if (0 <=? port) && (port <=? 65535) then Some (To4 (net_IP (Dst (lr_Route r))), port) else None.

(** [r.Src.To4().String()] without a nil check: a nil address prints as "<nil>". *)
Definition To4_String (ip : IP) : bytes :=
  match To4 ip with [] => lit "<nil>" | ip4 => IP_String ip4 end.

(** The goroutines started by the manager and its scheduler are in [sched]. *)
Record Manager (K : Type) := mkManager {
  sched : SchedState EventQueue;
  sessions : gmap Peer sid;
  desired : gmap RouteKey LRoute;
  installed : gmap RouteKey bool;
  kernel : K;
  next_sid : sid;
  unknownPeerErrWarnLast : Time
}.
Arguments mkManager {K}.
Arguments sched {K}.
Arguments sessions {K}.
Arguments desired {K}.
Arguments installed {K}.
Arguments kernel {K}.
Arguments next_sid {K}.
Arguments unknownPeerErrWarnLast {K}.

#[global] Instance Manager_eta K : RecordEta (Manager K) := {
  eta_record := fun r => mkManager (sched r) (sessions r) (desired r) (installed r) (kernel r)
    (next_sid r) (unknownPeerErrWarnLast r);
  eta_record_id := fun r => match r with mkManager _ _ _ _ _ _ _ => eq_refl end
}.

Inductive manager_error :=
| ErrNonIPv4 | ErrNilAddress | ErrRouteAdd | ErrResolve | ErrRouteDelete.

Section Manager.
Context {K : Type} `{!RouteReaderWriter K} (cfg : ManagerConfig) (scfg : SchedulerConfig).

Abbreviation M := (Manager K).

(** [NewManager] up to the start of its loops. *)
Definition newManager (k : K) : M := {|
  sched := {| eq_ := NewEventQueue; store := ∅; sent := []; writeErrWarnLast := 0;
              spawned := []; overflow := 0 |};
  sessions := ∅; desired := ∅; installed := ∅; kernel := k;
  next_sid := 0%nat; unknownPeerErrWarnLast := 0
|}.

Definition sess_of (i : sid) (m : M) : option Session := store (sched m) !! i.

Definition set_sess (i : sid) (s : Session) (m : M) : M := m <| sched := put i s (sched m) |>.

(** [m.installed[rk]]: absent reads as false. *)
Definition isInstalled (rk : RouteKey) (m : M) : bool := default false (installed m !! rk).

Definition IsInstalled := isInstalled.

Definition set_installed (rk : RouteKey) (b : bool) (m : M) : M :=
  m <| installed := <[rk := b]> (installed m) |>.

(** The environment of a call: the clock, the random sources. *)
Record Env := mkEnv { env_now : Time; env_int63n : Z -> Z; env_rand : bytes }.

(** The passive-mode part of [RegisterRoute]. *)
Definition register_passive (rk : RouteKey) (r : LRoute) (m : M) : M + M :=
  if PassiveMode cfg then
    let '(ok, k) := RouteAdd (lr_Route r) (kernel m) in
    let m := m <| kernel := k |> in
    if ok then inr (set_installed rk true m) else inl m
  else inr m.

(** The session [RegisterRoute] creates when the peer has none. *)
Definition register_session (e : Env) (p : Peer) (r : LRoute) (addr : IP * Z) (m : M) : M :=
  let i := next_sid m in
  let s := newSession cfg (rand32 (env_rand e)) r p addr (env_now e) in
  let m := m <| next_sid := S i |> <| sessions := <[p := i]> (sessions m) |> in
  m <| sched := scheduleTx (env_int63n e) (env_now e) i (put i s (sched m)) |>.

Definition RegisterRoute (e : Env) (r : LRoute) (iface : bytes) (port : Z) (m : M) :
    M * option manager_error :=
  let srcIP := ip4_string (Src (lr_Route r)) in
  let dstIP := ip4_string (net_IP (Dst (lr_Route r))) in
  if bool_decide (srcIP = []) || bool_decide (dstIP = []) then (m, Some ErrNonIPv4)
  else
    let rk := routeKeyFor iface r in
    match register_passive rk r m with
    | inl m => (m, Some ErrRouteAdd)
    | inr m =>
        match resolve_peer r port with
        | None => (m, Some ErrResolve)
        | Some addr =>
            let m := m <| desired := <[rk := r]> (desired m) |> in
            let p := {| Interface := iface; LocalIP := srcIP; PeerIP := dstIP |} in
            match sessions m !! p with
            | Some _ => (m, None)
            | None => (register_session e p r addr m, None)
            end
        end
    end.

(** [WithdrawRoute] after the passive-mode kernel update. *)
Definition withdraw_tracked (r : LRoute) (iface : bytes) (p : Peer) (m : M) :
    M * option manager_error :=
  let rk := routeKeyFor iface r in
  let wasInstalled := isInstalled rk m in
  let m := m <| desired := delete rk (desired m) |> <| installed := delete rk (installed m) |> in
  let m := match sessions m !! p with
           | Some i => match sess_of i m with
                       | Some s => set_sess i (s <| alive := false |>) m
                       | None => m
                       end
           | None => m
           end in
  let m := m <| sessions := delete p (sessions m) |> in
  if wasInstalled && negb (PassiveMode cfg) && negb (NoUninstall r) then
    let '(ok, k) := RouteDelete (lr_Route r) (kernel m) in
    (m <| kernel := k |>, if ok then None else Some ErrRouteDelete)
  else (m, None).

Definition WithdrawRoute (r : LRoute) (iface : bytes) (m : M) : M * option manager_error :=
  let src := Src (lr_Route r) in
  let dst := net_IP (Dst (lr_Route r)) in
  if bool_decide (src = []) || bool_decide (dst = []) then (m, Some ErrNilAddress)
  else if bool_decide (To4 src = []) || bool_decide (To4 dst = []) then (m, Some ErrNonIPv4)
  else
    let p := {| Interface := iface; LocalIP := To4_String src; PeerIP := To4_String dst |} in
    if PassiveMode cfg && negb (NoUninstall r) then
      let '(ok, k) := RouteDelete (lr_Route r) (kernel m) in
      let m := m <| kernel := k |> in
      if ok then withdraw_tracked r iface p m else (m, Some ErrRouteDelete)
    else withdraw_tracked r iface p m.

(** A [go] statement. *)
Definition spawn (t : task) (m : M) : M :=
  m <| sched := (sched m) <| spawned := spawned (sched m) ++ [t] |> |>.

Definition arm_detect (now : Time) (i : sid) (m : M) : M :=
  m <| sched := scheduleDetect scfg now i (sched m) |>.

Definition unknownPeerErrWarnEvery : Duration := 5 * Second.

Definition Manager_HandleRx (now : Time) (ctrl : ControlPacket.t) (p : Peer) (m : M) : M :=
  match sessions m !! p with
  | None =>
      if IsZero (unknownPeerErrWarnLast m) ||
         (unknownPeerErrWarnEvery <=? TimeSub now (unknownPeerErrWarnLast m))
      then m <| unknownPeerErrWarnLast := now |> else m
  | Some i =>
      match sess_of i m with
      | None => m
      | Some s =>
          let '(s, changed) := HandleRx now ctrl s in
          let m := set_sess i s m in
          if changed then
            match state s with
            | StateUp => arm_detect now i (spawn (TaskUp i) m)
            | StateInit => arm_detect now i m
            | StateDown | StateAdminDown => spawn (TaskDown i) m
            end
          else
            match state s with
            | StateUp | StateInit => arm_detect now i m
            | _ => m
            end
      end
  end.

(** The key of a session's own route; a session always has one. *)
Definition sess_key (s : Session) : RouteKey :=
  match route s with
  | Some r => routeKeyFor (Interface (peer s)) r
  | None => mkRouteKey (Interface (peer s)) [] 0 [] []
  end.

Definition onSessionUp (i : sid) (m : M) : M :=
  match sess_of i m with
  | None => m
  | Some s =>
      let rk := sess_key s in
      let m := match desired m !! rk with
               | Some r =>
                   if isInstalled rk m || PassiveMode cfg then m
                   else
                     let m := set_installed rk true m in
                     m <| kernel := (RouteAdd (lr_Route r) (kernel m)).2 |>
               | None => m
               end in
      set_sess i (s <| convUpStart := time_zero |>) m
  end.

Definition isPeerEffectivelyPassive (s : Session) : bool :=
  HonorPeerAdvertisedPassive cfg && bool_decide (peerAdvertisedMode s = PeerModePassive).

Definition onSessionDown (i : sid) (m : M) : M :=
  match sess_of i m with
  | None => m
  | Some s =>
      let rk := sess_key s in
      let effectivelyPassive := isPeerEffectivelyPassive s in
      let route := desired m !! rk in
      let wasInstalled := isInstalled rk m in
      let m := if PassiveMode cfg || effectivelyPassive then m
               else if wasInstalled then set_installed rk false m else m in
      let m := set_sess i (s <| convDownStart := time_zero |>) m in
      match route with
      | Some r =>
          if negb wasInstalled || PassiveMode cfg || effectivelyPassive || NoUninstall r then m
          else m <| kernel := (RouteDelete (lr_Route r) (kernel m)).2 |>
      | None => m
      end
  end.

Definition AdminDownRoute (e : Env) (r : LRoute) (iface : bytes) (m : M) : M :=
  let p := {| Interface := iface; LocalIP := To4_String (Src (lr_Route r));
              PeerIP := To4_String (net_IP (Dst (lr_Route r))) |} in
  match sessions m !! p with
  | None => m
  | Some i =>
      match sess_of i m with
      | None => m
      | Some s =>
          if state_eqb (state s) StateAdminDown then m
          else
            let m := set_sess i (admin_down (env_now e) s) m in
            let m := onSessionDown i m in
            let m := set_installed (routeKeyFor iface r) false m in
            m <| sched := scheduleTx (env_int63n e) (env_now e) i (sched m) |>
      end
  end.

(** [GetSessions]: a snapshot per session, with what the kernel should hold. *)
Definition expected_kernel (s : Session) (m : M) : KernelState :=
  match desired m !! sess_key s with
  | None => KernelStateUnknown
  | Some _ => if isInstalled (sess_key s) m then KernelStatePresent else KernelStateAbsent
  end.

Definition GetSessions (m : M) : list SessionSnapshot :=
  omap (fun pi : Peer * sid => (fun s : Session => (Snapshot s) <| snap_ExpectedKernelState := expected_kernel s m |>)
                         <$> sess_of pi.2 m) (map_to_list (sessions m)).

Definition GetSession (p : Peer) (m : M) : option Session := sessions m !! p ≫= fun i => sess_of i m.

Definition HasSession (p : Peer) (m : M) : bool := bool_decide (is_Some (sessions m !! p)).

(** ** The adapter the BGP plugin uses, [routerw.go] *)

Definition DefaultLivenessPort : Z := 44880.
Definition RTPROT_BGP : Z := 186.

Definition rrw_RouteAdd (e : Env) (iface : bytes) (noUninstall : bool) (r : Route) (m : M) : bool * M :=
  let '(m, err) := RegisterRoute e {| lr_Route := r; NoUninstall := noUninstall |} iface
                     DefaultLivenessPort m in
  (match err with None => true | Some _ => false end, m).

Definition rrw_RouteDelete (iface : bytes) (noUninstall : bool) (r : Route) (m : M) : bool * M :=
  let '(m, err) := WithdrawRoute {| lr_Route := r; NoUninstall := noUninstall |} iface m in
  (match err with None => true | Some _ => false end, m).

Definition rrw_RouteByProtocol (protocol : Z) (m : M) : list Route :=
  if negb (protocol =? RTPROT_BGP) then RouteByProtocol protocol (kernel m)
  else omap (fun snap => lr_Route <$> snap_Route snap) (GetSessions m).

Definition NewRouteReaderWriter (e : Env) (iface : bytes) (noUninstall : bool) :
    RouteReaderWriter M := {|
  RouteAdd := rrw_RouteAdd e iface noUninstall;
  RouteDelete := rrw_RouteDelete iface noUninstall;
  RouteByProtocol := rrw_RouteByProtocol
|}.

(** ** The system *)

Definition run_task (t : task) (m : M) : M :=
  match t with TaskUp i => onSessionUp i m | TaskDown i => onSessionDown i m end.

(** Run the started goroutine between [l1] and [l2]. *)
Definition take_task (l1 : list task) (t : task) (l2 : list task) (m : M) : M :=
  run_task t (m <| sched := (sched m) <| spawned := l1 ++ l2 |> |>).

Definition env_ok (e : Env) : Prop :=
  0 < env_now e /\ (forall n, 0 < n -> 0 <= env_int63n e n < n) /\
  length (env_rand e) = 4%nat /\ bytes_ok (env_rand e).

Inductive mstep : M -> M -> Prop :=
| m_register m e r iface port : env_ok e -> mstep m (RegisterRoute e r iface port m).1
| m_withdraw m r iface : mstep m (WithdrawRoute r iface m).1
| m_rx m now ctrl p : 0 < now -> mstep m (Manager_HandleRx now ctrl p m)
| m_admin m e r iface : env_ok e -> mstep m (AdminDownRoute e r iface m)
| m_tick m tk : tick_ok tk -> mstep m (m <| sched := (run_iter scfg tk (sched m)).1 |>)
| m_task m l1 t l2 : spawned (sched m) = l1 ++ t :: l2 -> mstep m (take_task l1 t l2 m).

Definition msteps := rtc mstep.

(** ** Invariant *)

(** What identifies a session; only withdrawal changes it. *)
Definition ident (s : Session) : Peer * option LRoute * bool := (peer s, route s, alive s).

(** The managed sessions are those alive in the store, under their peer. *)
Record tracked (m : M) : Prop := {
  tr_session p i : sessions m !! p = Some i ->
    exists s, sess_of i m = Some s /\ peer s = p /\ alive s = true;
  tr_alive i s : sess_of i m = Some s -> alive s = true -> sessions m !! peer s = Some i;
  tr_fresh i s : sess_of i m = Some s -> (i < next_sid m)%nat /\ is_Some (route s)
}.

Definition manager_ok (m : M) : Prop := sched_inv (sched m) /\ tracked m.

(** ** Lemmas: identities *)

Lemma HandleRx_ident now ctrl s : ident (HandleRx now ctrl s).1 = ident s.
Proof.
  unfold HandleRx. cbv zeta. repeat (case_goal; [reflexivity|]).
  case_goal; [case_goal; reflexivity|]. cbn [fst].
  transitivity (ident (learn_timers now ctrl (learn_mode ctrl s))); [|reflexivity].
  generalize (learn_timers now ctrl (learn_mode ctrl s)). intros [? ? ? st].
  unfold rx_advance, ident. session_cbv. destruct st; repeat case_goal; reflexivity.
Qed.

Lemma ExpireIfDue_ident now s : ident (ExpireIfDue now s).1 = ident s.
Proof. unfold ExpireIfDue. repeat case_goal; reflexivity. Qed.

Lemma ArmDetect_ident now s : ident (ArmDetect now s).1 = ident s.
Proof. unfold ArmDetect. repeat case_goal; reflexivity. Qed.

Lemma ComputeNextTx_ident int63n now s : ident (ComputeNextTx int63n now s).1 = ident s.
Proof.
  unfold ComputeNextTx. destruct (effInterval s). cbv zeta.
  repeat match goal with |- context [fst (if ?b then _ else _, _)] => destruct b end; reflexivity.
Qed.

Definition same_ids (st st' : SchedState EventQueue) : Prop :=
  ident <$> store st' = ident <$> store st.

Lemma ids_put i s s' st : store st !! i = Some s -> ident s' = ident s -> same_ids st (put i s' st).
Proof.
  intros Hi Hc. unfold same_ids, put. cbn. rewrite fmap_insert, Hc. apply insert_id.
  by rewrite lookup_fmap, Hi.
Qed.

Lemma ids_scheduleTx int63n now i st : same_ids st (scheduleTx int63n now i st).
Proof.
  unfold scheduleTx. destruct (store st !! i) as [s|] eqn:Hi; [|done]. case_goal; [done|].
  pose proof (ComputeNextTx_ident int63n now s) as Hc.
  destruct (ComputeNextTx int63n now s) as [s1 next]. cbn [fst] in Hc.
  case_goal; [by eapply ids_put|].
  apply (ids_put i s (s1 <| nextTxScheduled := next |>) st); done.
Qed.

Lemma ids_scheduleDetect now i st : same_ids st (scheduleDetect scfg now i st).
Proof.
  unfold scheduleDetect. destruct (store st !! i) as [s|] eqn:Hi; [|done].
  pose proof (ArmDetect_ident now s) as Hc.
  destruct (ArmDetect now s) as [s1 [ddl|]]; cbn [fst] in Hc; [|by eapply ids_put].
  case_goal; [by eapply ids_put|]. unfold maybeDropOnOverflow. repeat case_goal.
  1,2: apply (ids_put i s (s1 <| nextDetectScheduled := ddl |>) st); done.
  apply (ids_put i s (s1 <| nextDetectScheduled := ddl |> <| nextDetectScheduled := time_zero |>) st); done.
Qed.

Lemma ids_run_tx tk ev s st : store st !! ev_session ev = Some s -> same_ids st (run_tx scfg tk ev s st).
Proof.
  intros Hs. unfold run_tx. set (s' := if TimeEqual _ _ then _ else s).
  assert (Hc : ident s' = ident s) by (unfold s'; by case_goal). clearbody s'.
  assert (H1 : same_ids st (doTX scfg (tick_write tk) (tick_later tk) (ev_session ev)
                              (put (ev_session ev) s' st))).
  { unfold same_ids. rewrite (proj1 (doTX_store _ _ _ _ _)). by eapply ids_put. }
  case_goal; [done|]. etrans; [apply ids_scheduleTx|exact H1].
Qed.

Lemma ids_run_detect tk ev s st : store st !! ev_session ev = Some s ->
  same_ids st (run_detect scfg tk ev s st).
Proof.
  intros Hs. unfold run_detect. set (s' := if TimeEqual _ (nextDetectScheduled _) then _ else s).
  assert (Hc : ident s' = ident s) by (unfold s'; by case_goal). clearbody s'.
  case_goal; [by eapply ids_put|]. unfold tryExpire.
  assert (Hp : store (put (ev_session ev) s' st) !! ev_session ev = Some s')
    by (unfold put; cbn; apply lookup_insert_eq).
  rewrite Hp. pose proof (ExpireIfDue_ident (tick_later tk) s') as Hx.
  destruct (ExpireIfDue (tick_later tk) s') as [s2 b]. cbn [fst] in Hx.
  assert (H2 : same_ids st (put (ev_session ev) s2 (put (ev_session ev) s' st))).
  { etrans; [by eapply (ids_put _ s' s2)|by eapply (ids_put _ s s')]. }
  destruct b; [exact H2|]. repeat case_goal; try exact H2.
  etrans; [apply ids_scheduleDetect|exact H2].
Qed.

Lemma ids_run_iter tk st : same_ids st (run_iter scfg tk st).1.
Proof.
  unfold run_iter. destruct (tq_pop_due (tick_now tk) (eq_ st)) as [[[ev|] d] q]; [|done].
  destruct (store (st <| eq_ := q |>) !! ev_session ev) as [s|] eqn:Hs; [|done]. cbn [fst].
  match goal with |- same_ids _ ?x => change (same_ids (st <| eq_ := q |>) x) end.
  destruct (ev_type ev); [by apply (ids_run_tx tk ev s)|by apply (ids_run_detect tk ev s)].
Qed.

(** Tracking only looks at identities. *)
Lemma tracked_ids m m' : sessions m' = sessions m -> next_sid m' = next_sid m ->
  same_ids (sched m) (sched m') -> tracked m -> tracked m'.
Proof.
  intros Es En Hid [T1 T2 T3].
  assert (Hback : forall i s', sess_of i m' = Some s' -> exists s, sess_of i m = Some s /\ ident s = ident s').
  { intros i s' Hi. unfold sess_of in *. assert (H : (ident <$> store (sched m')) !! i = Some (ident s'))
      by (by rewrite lookup_fmap, Hi).
    rewrite Hid, lookup_fmap in H. apply fmap_Some in H as (s & ? & ?). eauto. }
  constructor.
  - intros p i Hp. rewrite Es in Hp. destruct (T1 p i Hp) as (s & Hs & Hpe & Ha). unfold sess_of in *.
    assert (H : (ident <$> store (sched m')) !! i = Some (ident s)) by (by rewrite Hid, lookup_fmap, Hs).
    rewrite lookup_fmap in H. apply fmap_Some in H as (s' & Hs' & Hident). exists s'.
    unfold ident in Hident. simplify_eq. split_and!; congruence.
  - intros i s' Hi Ha. destruct (Hback i s' Hi) as (s & Hs & Hident). unfold ident in Hident.
    injection Hident as Hp Hr Hal. rewrite Es, <- Hp. apply T2; congruence.
  - intros i s' Hi. destruct (Hback i s' Hi) as (s & Hs & Hident). unfold ident in Hident.
    injection Hident as Hp Hr Hal. rewrite En, <- Hr. by apply (T3 i s).
Qed.

(** ** Lemmas: the scheduler's invariant under the manager's writes *)

Lemma focus_of_inv i s (st : SchedState EventQueue) : sched_inv st -> store st !! i = Some s ->
  focus i st (eq s).
Proof. intros Hinv Hi. eapply focus_impl; [by apply focus_intro|]. by intros s' _ [-> _]. Qed.

Lemma scheduleTx_inv int63n now i (st : SchedState EventQueue) :
  (forall n, 0 < n -> 0 <= int63n n < n) -> 0 < now -> sched_inv st ->
  sched_inv (scheduleTx int63n now i st).
Proof.
  intros Hr Hn Hinv. destruct (store st !! i) as [s|] eqn:Hi; cycle 1.
  { unfold scheduleTx. by rewrite Hi. }
  destruct (proj2 Hinv i s Hi) as (_ & Hd & Ha). apply (focus_elim i).
  eapply focus_impl; [apply scheduleTx_focus; [done|done|by apply focus_of_inv]|].
  intros s' _ (H1 & H2 & H3 & H4 & H5). split.
  - intros Hal _. apply H1. congruence.
  - apply (armed_same (overflow st) _ s); [|done..]. by rewrite scheduleTx_overflow.
Qed.

(** A write that keeps what the scheduler looks at. *)
Lemma put_same_inv i s s' (st : SchedState EventQueue) :
  sched_inv st -> store st !! i = Some s -> session_ok s' -> sched_fields s' = sched_fields s ->
  state s' = state s -> detectDeadline s' = detectDeadline s -> sched_inv (put i s' st).
Proof.
  intros Hinv Hi Hok Hsf Hst Hdd. destruct (proj2 Hinv i s Hi) as (Hb & Hd & Ha).
  destruct (sched_fields_eq _ _ Hsf) as (E1 & E2 & E3).
  apply (focus_elim i). eapply focus_put; [by apply focus_of_inv|by eapply base_same|]. split.
  - unfold driven. rewrite E1, E2, Hst. exact Hd.
  - by apply (armed_same (overflow st) _ s).
Qed.

(** A write after which the session is dead or AdminDown. *)
Lemma put_idle_inv i s s' (st : SchedState EventQueue) :
  sched_inv st -> store st !! i = Some s -> session_ok s' ->
  nextTxScheduled s' = nextTxScheduled s ->
  nextDetectScheduled s' = nextDetectScheduled s \/ nextDetectScheduled s' = 0 ->
  alive s' = false \/ state s' = StateAdminDown -> sched_inv (put i s' st).
Proof.
  intros Hinv Hi Hok Htx Hdt Hidle. destruct (proj2 Hinv i s Hi) as ([_ Hb1 Hb2] & Hd & Ha).
  apply (focus_elim i). eapply focus_put; [by apply focus_of_inv| |].
  - constructor; [done|by rewrite Htx|]. destruct Hdt as [-> | ->]; [done|by left].
  - split; [by intros ? ?; destruct Hidle; congruence|].
    intros _ Hal [Hs|Hs]; destruct Hidle; congruence.
Qed.

(** A write followed by arming the detector, as after a received packet. *)
Lemma put_arm_inv now i s s' (st : SchedState EventQueue) :
  0 < now -> sched_inv st -> store st !! i = Some s -> session_ok s' ->
  sched_fields s' = sched_fields s -> state s <> StateAdminDown ->
  sched_inv (if state_eqb (state s') StateUp || state_eqb (state s') StateInit
             then scheduleDetect scfg now i (put i s' st) else put i s' st).
Proof.
  intros Hn Hinv Hi Hok Hsf Hna. destruct (proj2 Hinv i s Hi) as (Hb & Hd & Ha).
  destruct (sched_fields_eq _ _ Hsf) as (E1 & E2 & E3).
  assert (Hf : focus i (put i s' st) (eq s')).
  { eapply focus_put; [by apply focus_of_inv|by eapply base_same|done]. }
  assert (Hdr : forall s2, alive s2 = alive s' -> nextTxScheduled s2 = nextTxScheduled s' -> driven s2).
  { intros s2 F1 F2 Hal _. rewrite F2, E2. apply Hd; [congruence|done]. }
  apply (focus_elim i). case_goal.
  - eapply focus_impl; [apply scheduleDetect_focus; [done|exact Hf]|].
    intros s2 _ (H1 & H2 & H3 & H4). split; [by apply Hdr|].
    intros Hov Hal Hst. apply H1; [done|congruence|]. rewrite H3 in Hst. by apply active_deadline.
  - eapply focus_impl; [exact Hf|]. intros s2 _ <-. split; [by apply Hdr|].
    intros _ _ Hst. apply orb_false_iff in E as [F1 F2].
    unfold state_eqb in *. apply bool_decide_eq_false in F1, F2. by destruct Hst.
Qed.

(** ** Lemmas: every operation keeps the invariant *)

Lemma rand32_nonzero b : rand32 b <> 0.
Proof. unfold rand32. case_goal; lia. Qed.

Context (Hcfg : config_ok cfg) (Hlim : config_limits cfg).

Lemma register_session_ok e p r addr m : env_ok e -> manager_ok m -> sessions m !! p = None ->
  manager_ok (register_session e p r addr m).
Proof.
  intros (Hn & Hr & _) [Hinv Htr] Hp. unfold register_session.
  set (i := next_sid m). set (s := newSession _ _ _ _ _ _).
  assert (Hnew : store (sched m) !! i = None).
  { destruct (store (sched m) !! i) as [s0|] eqn:E; [|done].
    destruct (tr_fresh m Htr i s0 E) as [? _]. unfold i in *. lia. }
  assert (Hs : session_ok s) by (apply newSession_ok; [done..|apply rand32_nonzero]).
  assert (Hf : focus i (put i s (sched m)) (eq s)).
  { apply put_focus; [apply Hinv| |by constructor; [|left..]|done].
    intros j s' _ Hj. by apply Hinv. }
  split.
  - apply (focus_elim i). eapply focus_impl; [apply scheduleTx_focus; [done|done|exact Hf]|].
    intros s' _ (H1 & H2 & H3 & _ & _). split; [intros _ _; by apply H1|].
    intros _ _ Hst. rewrite H3 in Hst. by destruct Hst.
  - apply (tracked_ids (m <| next_sid := S i |> <| sessions := <[p := i]> (sessions m) |>
      <| sched := put i s (sched m) |>)); [done|done|apply ids_scheduleTx|].
    destruct Htr as [T1 T2 T3]. constructor; unfold sess_of; cbn.
    + intros q j [[<- <-]|[Hne Hq]]%lookup_insert_Some.
      { exists s. by rewrite lookup_insert_eq. }
      destruct (T1 q j Hq) as (s' & Hs' & ? & ?). exists s'. unfold sess_of in Hs'.
      rewrite lookup_insert_ne by congruence. done.
    + intros j s' [[<- <-]|[Hne Hj]]%lookup_insert_Some Ha; [apply lookup_insert_eq|].
      rewrite lookup_insert_ne; [by apply T2|]. intros ->. specialize (T2 j s' Hj Ha). congruence.
    + intros j s' [[<- <-]|[Hne Hj]]%lookup_insert_Some; [split; [lia|by eexists]|].
      destruct (T3 j s' Hj). split; [lia|done].
Qed.

(** An operation on the route maps or the kernel. *)
Lemma manager_ok_frame m m' : sched m' = sched m -> sessions m' = sessions m ->
  next_sid m' = next_sid m -> manager_ok m -> manager_ok m'.
Proof.
  intros Es Ep En [Hi Ht]. split; [by rewrite Es|].
  apply (tracked_ids m); [done|done|by rewrite Es|done].
Qed.

Lemma RegisterRoute_ok e r iface port m : env_ok e -> manager_ok m ->
  manager_ok (RegisterRoute e r iface port m).1.
Proof.
  intros He Hm. unfold RegisterRoute. case_goal; [done|].
  assert (Hp : match register_passive (routeKeyFor iface r) r m with inl m' | inr m' => manager_ok m' end).
  { unfold register_passive. case_goal; [|done].
    destruct (RouteAdd _ _) as [[] k]; by apply (manager_ok_frame m). }
  destruct (register_passive _ r m) as [m1|m1]; [done|].
  destruct (resolve_peer r port) as [addr|]; [|done]. cbv zeta.
  set (m2 := m1 <| desired := _ |>). assert (manager_ok m2) by by apply (manager_ok_frame m1).
  case_goal; [done|]. by apply register_session_ok.
Qed.

Lemma set_sess_tracked i s s' m : sess_of i m = Some s -> ident s' = ident s ->
  tracked m -> tracked (set_sess i s' m).
Proof. intros Hi Hid. apply tracked_ids; [done|done|by eapply ids_put]. Qed.

(** Withdrawing a peer's session: it is no longer alive nor listed. *)
Lemma withdraw_session_ok p m : manager_ok m ->
  let m1 := match sessions m !! p with
            | Some i => match sess_of i m with
                        | Some s => set_sess i (s <| alive := false |>) m
                        | None => m
                        end
            | None => m
            end in
  manager_ok (m1 <| sessions := delete p (sessions m1) |>).
Proof.
  intros [Hinv Htr]. pose proof Htr as [T1 T2 T3]. destruct (sessions m !! p) as [i|] eqn:Hp; cbv zeta.
  - destruct (T1 p i Hp) as (s & Hs & Hpe & Ha). rewrite Hs.
    destruct (proj2 Hinv i s Hs) as (Hb & _ & _). split.
    { eapply put_idle_inv; [done|exact Hs|..]; try by left.
      - destruct (base_ok _ _ _ Hb). by constructor.
      - done. }
    constructor; unfold sess_of; cbn.
    + intros q j [Hne Hq]%lookup_delete_Some. destruct (T1 q j Hq) as (s' & Hs' & ? & ?).
      exists s'. unfold sess_of in *. rewrite lookup_insert_ne; [done|]. intros <-. congruence.
    + intros j s' [[<- <-]|[Hne Hj]]%lookup_insert_Some Hal; [done|].
      rewrite lookup_delete_ne; [by apply T2|]. intros ->. specialize (T2 j s' Hj Hal). congruence.
    + intros j s' [[<- <-]|[Hne Hj]]%lookup_insert_Some; [by apply (T3 _ s)|by apply T3].
  - split; [done|]. replace (delete p (sessions m)) with (sessions m) by (symmetry; by apply delete_id).
    by apply (tracked_ids m).
Qed.

Lemma withdraw_tracked_ok r iface p m : manager_ok m -> manager_ok (withdraw_tracked r iface p m).1.
Proof.
  intros Hm. unfold withdraw_tracked. cbv zeta.
  set (m0 := m <| desired := _ |> <| installed := _ |>).
  assert (H0 : manager_ok m0) by by apply (manager_ok_frame m).
  pose proof (withdraw_session_ok p m0 H0) as H1. cbv zeta in H1.
  case_goal; [|exact H1]. destruct (RouteDelete _ _) as [ok k]. cbn [fst].
  eapply manager_ok_frame; [..|exact H1]; done.
Qed.

Lemma WithdrawRoute_ok r iface m : manager_ok m -> manager_ok (WithdrawRoute r iface m).1.
Proof.
  intros Hm. unfold WithdrawRoute. repeat (case_goal; [done|]). cbv zeta.
  case_goal; [|by apply withdraw_tracked_ok]. destruct (RouteDelete _ _) as [[] k];
    [apply withdraw_tracked_ok|]; by apply (manager_ok_frame m).
Qed.

Lemma Manager_HandleRx_ok now ctrl p m : 0 < now -> manager_ok m ->
  manager_ok (Manager_HandleRx now ctrl p m).
Proof.
  intros Hn [Hinv Htr]. unfold Manager_HandleRx.
  destruct (sessions m !! p) as [i|]; [|case_goal; by apply (manager_ok_frame m)].
  destruct (sess_of i m) as [s|] eqn:Hs; [|done].
  pose proof (HandleRx_ok now ctrl s Hn (base_ok _ _ _ (proj1 (proj2 Hinv i s Hs)))) as Hok.
  pose proof (HandleRx_sched_fields now ctrl s) as Hsf.
  pose proof (HandleRx_ident now ctrl s) as Hid.
  assert (Hadm : state s = StateAdminDown -> HandleRx now ctrl s = (s, false)).
  { intros E. unfold HandleRx, state_eqb. by rewrite bool_decide_eq_true_2. }
  destruct (HandleRx now ctrl s) as [s' changed]. cbn [fst] in *.
  assert (Hids : same_ids (sched m) (put i s' (sched m))) by by eapply ids_put.
  destruct (decide (state s = StateAdminDown)) as [Ea|Ea].
  { injection (Hadm Ea) as -> ->. rewrite Ea. split; [by eapply put_same_inv|].
    by eapply set_sess_tracked. }
  assert (Harm : forall tasks, sched_inv (let st := (sched m) <| spawned := tasks |> in
            if state_eqb (state s') StateUp || state_eqb (state s') StateInit
            then scheduleDetect scfg now i (put i s' st) else put i s' st))
    by (intros tasks; by apply (put_arm_inv now i s s' ((sched m) <| spawned := tasks |>))).
  assert (Hids2 : forall tasks, same_ids (sched m)
            (scheduleDetect scfg now i (put i s' ((sched m) <| spawned := tasks |>))))
    by (intros tasks; etrans; [apply ids_scheduleDetect|exact Hids]).
  destruct changed, (state s'); (split; [by (apply (Harm (spawned (sched m)))) || apply Harm|]);
    (apply (tracked_ids m); [done|done| |done]); (apply (Hids2 (spawned (sched m))) || apply Hids2 || exact Hids).
Qed.

(** Clearing a convergence marker. *)
Lemma set_conv_ok i s s' m : manager_ok m -> sess_of i m = Some s ->
  s' = s <| convUpStart := time_zero |> \/ s' = s <| convDownStart := time_zero |> ->
  manager_ok (set_sess i s' m).
Proof.
  intros [Hinv Htr] Hs Hs'. pose proof (base_ok _ _ _ (proj1 (proj2 Hinv i s Hs))) as Hok.
  split.
  - eapply put_same_inv; [done|exact Hs|..]; destruct Hs' as [-> | ->]; try done;
      (destruct Hok; by constructor).
  - eapply set_sess_tracked; [exact Hs| |done]. by destruct Hs' as [-> | ->].
Qed.

Lemma onSessionUp_ok i m : manager_ok m -> manager_ok (onSessionUp i m).
Proof.
  intros Hm. unfold onSessionUp. destruct (sess_of i m) as [s|] eqn:Hs; [|done]. cbv zeta.
  set (m1 := match desired m !! _ with Some _ => _ | None => _ end).
  assert (H1 : sched m1 = sched m /\ sessions m1 = sessions m /\ next_sid m1 = next_sid m)
    by (unfold m1; repeat case_goal; done).
  destruct H1 as (E1 & E2 & E3). eapply (set_conv_ok i s); [by apply (manager_ok_frame m)| |by left].
  unfold sess_of. by rewrite E1.
Qed.

Lemma onSessionDown_ok i m : manager_ok m -> manager_ok (onSessionDown i m).
Proof.
  intros Hm. unfold onSessionDown. destruct (sess_of i m) as [s|] eqn:Hs; [|done]. cbv zeta.
  set (m1 := if PassiveMode cfg || _ then m else _).
  assert (H1 : sched m1 = sched m /\ sessions m1 = sessions m /\ next_sid m1 = next_sid m)
    by (unfold m1; repeat case_goal; done).
  destruct H1 as (E1 & E2 & E3).
  assert (H2 : manager_ok (set_sess i (s <| convDownStart := time_zero |>) m1)).
  { eapply (set_conv_ok i s); [by apply (manager_ok_frame m)| |by right]. unfold sess_of. by rewrite E1. }
  repeat case_goal; try exact H2; (eapply manager_ok_frame; [..|exact H2]; done).
Qed.

Lemma AdminDownRoute_ok e r iface m : env_ok e -> manager_ok m -> manager_ok (AdminDownRoute e r iface m).
Proof.
  intros (Hn & Hr & _) Hm. unfold AdminDownRoute.
  destruct (sessions m !! _) as [i|]; [|done]. destruct (sess_of i m) as [s|] eqn:Hs; [|done].
  destruct (state_eqb (state s) StateAdminDown) eqn:Ea; [done|].
  assert (H1 : manager_ok (set_sess i (admin_down (env_now e) s) m)).
  { destruct Hm as [Hinv Htr]. pose proof (base_ok _ _ _ (proj1 (proj2 Hinv i s Hs))) as Hok.
    unfold admin_down. rewrite Ea. split.
    - eapply put_idle_inv; [done|exact Hs|..]; [|done|by right|by right].
      pose proof (admin_down_ok (env_now e) s Hn Hok) as H. unfold admin_down in H. by rewrite Ea in H.
    - by eapply set_sess_tracked. }
  pose proof (onSessionDown_ok i _ H1) as H2. cbv zeta.
  set (m2 := set_installed _ false _). assert (H3 : manager_ok m2)
    by (eapply manager_ok_frame; [..|exact H2]; done).
  destruct H3 as [Hi3 Ht3]. split; [by apply scheduleTx_inv|].
  apply (tracked_ids m2); [done|done|apply ids_scheduleTx|done].
Qed.

Lemma mstep_ok m m' : mstep m m' -> manager_ok m -> manager_ok m'.
Proof.
  intros Hs Hm. destruct Hs as [m e r iface port He|m r iface|m now ctrl p Hn|m e r iface He|m tk Htk|m l1 t l2 Ht].
  - by apply RegisterRoute_ok.
  - by apply WithdrawRoute_ok.
  - by apply Manager_HandleRx_ok.
  - by apply AdminDownRoute_ok.
  - destruct Hm as [Hi Htr]. split; [by apply run_iter_inv|].
    apply (tracked_ids m); [done|done|apply ids_run_iter|done].
  - assert (H1 : manager_ok (m <| sched := (sched m) <| spawned := l1 ++ l2 |> |>)).
    { destruct Hm as [Hi Htr]. split; [exact Hi|]. by apply (tracked_ids m). }
    unfold take_task. destruct t; [by apply onSessionUp_ok|by apply onSessionDown_ok].
Qed.

Lemma newManager_ok k : manager_ok (newManager k).
Proof.
  split.
  - split; [split|].
    + intros i Hi. cbn in Hi. lia.
    + intros e He. by apply elem_of_nil in He.
    + intros i s Hi. cbn in Hi. by rewrite lookup_empty in Hi.
  - constructor; unfold sess_of; cbn; intros *; by rewrite lookup_empty.
Qed.

Lemma msteps_ok m m' : msteps m m' -> manager_ok m -> manager_ok m'.
Proof. induction 1 as [|x y z Hxy _ IH]; [done|]. intros Hx. apply IH. by eapply mstep_ok. Qed.

(** C1.  In every reachable state of the manager, under any interleaving of
    registrations, withdrawals, received packets, timer iterations, admin
    actions and goroutines: every managed session that is not AdminDown has a
    transmission queued; every managed session that is Up or Init has a detect
    event queued exactly at its deadline, as long as no detect event was
    dropped; and the managed sessions are exactly those alive, each under its
    own peer. *)
Theorem manager_timers_armed k m :
  msteps (newManager k) m ->
  (forall p i, sessions m !! p = Some i ->
     exists s, sess_of i m = Some s /\ peer s = p /\ alive s = true) /\
  forall i s, sess_of i m = Some s -> alive s = true ->
    sessions m !! peer s = Some i /\
    (state s <> StateAdminDown ->
     exists ev, ev ∈ pending (sched m) /\ ev_type ev = eventTypeTX /\ ev_session ev = i /\
                when ev = nextTxScheduled s) /\
    (state s = StateUp \/ state s = StateInit -> overflow (sched m) = 0%nat ->
     exists ev, ev ∈ pending (sched m) /\ ev_type ev = eventTypeDetect /\ ev_session ev = i /\
                when ev = detectDeadline s).
Proof.
  intros Hm. destruct (msteps_ok _ _ Hm (newManager_ok k)) as [[_ Hinv] [T1 T2 T3]].
  split; [done|]. intros i s Hi Ha. destruct (Hinv i s Hi) as ([Hok Htx Hdt] & Hd & Harm).
  split_and!; [by apply T2|..].
  - intros Hna. specialize (Hd Ha Hna). by destruct Htx as [?|Htx].
  - intros Hact Hov. pose proof (active_deadline s Hok Hact).
    rewrite (Harm Hov Ha Hact) in Hdt. by destruct Hdt as [?|Hdt].
Qed.

(** ** Passive mode *)

(** The steps driven by the protocol: packets, timers, goroutines. *)
Inductive estep : M -> M -> Prop :=
| e_rx m now ctrl p : 0 < now -> estep m (Manager_HandleRx now ctrl p m)
| e_tick m tk : tick_ok tk -> estep m (m <| sched := (run_iter scfg tk (sched m)).1 |>)
| e_task m l1 t l2 : spawned (sched m) = l1 ++ t :: l2 -> estep m (take_task l1 t l2 m).

(** In passive mode liveness never touches the data plane: whatever
    packets arrive and timers fire, the kernel routes, the desired routes and
    the installed marks stay as registration and withdrawal left them. *)
Theorem passive_keeps_dataplane m m' :
  PassiveMode cfg = true -> rtc estep m m' ->
  kernel m' = kernel m /\ desired m' = desired m /\ installed m' = installed m.
Proof.
  intros Hpas Hs. induction Hs as [m|m1 m2 m3 H12 _ IH]; [done|].
  assert (H : kernel m2 = kernel m1 /\ desired m2 = desired m1 /\ installed m2 = installed m1).
  { destruct H12 as [m now ctrl p _|m tk _|m l1 t l2 _]; [| done |].
    - unfold Manager_HandleRx. destruct (sessions m !! p) as [i|]; [|by case_goal].
      destruct (sess_of i m) as [s|]; [|done]. destruct (HandleRx now ctrl s) as [s' []];
        by destruct (state s').
    - unfold take_task. destruct t as [i|i]; cbn [run_task].
      + unfold onSessionUp. case_goal; [|done]. rewrite Hpas, orb_true_r. by case_goal.
      + unfold onSessionDown. case_goal; [|done]. rewrite Hpas. cbn [orb].
        rewrite orb_true_r. by repeat case_goal. }
  destruct IH as (-> & -> & ->). exact H.
Qed.

(** ** Withdrawal *)

Lemma withdraw_tracked_spec r iface q m (m1 := (withdraw_tracked r iface q m).1) :
  let rk := routeKeyFor iface r in
  desired m1 !! rk = None /\ isInstalled rk m1 = false /\ sessions m1 !! q = None /\
  (forall i s, sessions m !! q = Some i -> sess_of i m = Some s ->
     exists s', sess_of i m1 = Some s' /\ alive s' = false) /\
  kernel m1 = if isInstalled rk m && negb (PassiveMode cfg) && negb (NoUninstall r)
              then (RouteDelete (lr_Route r) (kernel m)).2 else kernel m.
Proof.
  subst m1. cbv zeta. unfold withdraw_tracked. cbv zeta.
  set (m0 := m <| desired := _ |> <| installed := _ |>).
  set (m2 := match sessions m0 !! q with Some _ => _ | None => m0 end).
  assert (H2 : desired m2 = delete (routeKeyFor iface r) (desired m) /\
            installed m2 = delete (routeKeyFor iface r) (installed m) /\ kernel m2 = kernel m /\
            (forall i s, sessions m !! q = Some i -> sess_of i m = Some s ->
               exists s', sess_of i m2 = Some s' /\ alive s' = false)).
  { unfold m2. change (sessions m0) with (sessions m).
    destruct (sessions m !! q) as [i|]; [|by split_and!].
    change (sess_of i m0) with (sess_of i m). destruct (sess_of i m) as [s|] eqn:Hs;
      (split_and!; [done..|]); intros i' s' [= <-] Hs'; [|congruence].
    eexists. split; [unfold sess_of, set_sess; cbn; apply lookup_insert_eq|done]. }
  destruct H2 as (Ed & Ei & Ek & Hdead). clearbody m2.
  case_goal; [destruct (RouteDelete _ _) as [ok k] eqn:Er|]; cbn [fst];
    (split_and!; [| | |exact Hdead|]);
    [cbn; by rewrite Ed, lookup_delete_eq|unfold isInstalled; cbn; by rewrite Ei, lookup_delete_eq
    |cbn; apply lookup_delete_eq|cbn; change (kernel (m2 <| sessions := _ |>)) with (kernel m2) in Er;
     rewrite Ek in Er; by rewrite Er
    |cbn; by rewrite Ed, lookup_delete_eq|unfold isInstalled; cbn; by rewrite Ei, lookup_delete_eq
    |cbn; apply lookup_delete_eq|exact Ek].
Qed.

(** A withdrawal that returns no error leaves no trace of the route:
    it is neither desired nor installed, its peer has no session, the session
    it had is dead and will never transmit or expire again, and the kernel
    route is deleted exactly when it may be uninstalled and, in active mode,
    was marked installed. *)
Theorem WithdrawRoute_clears r iface m (m' := (WithdrawRoute r iface m).1) :
  (WithdrawRoute r iface m).2 = None ->
  let rk := routeKeyFor iface r in
  let p := mkPeer iface (ip4_string (Src (lr_Route r))) (ip4_string (net_IP (Dst (lr_Route r)))) in
  desired m' !! rk = None /\ isInstalled rk m' = false /\ sessions m' !! p = None /\
  (forall i s, sessions m !! p = Some i -> sess_of i m = Some s ->
     exists s', sess_of i m' = Some s' /\ alive s' = false /\
       (forall wr now (st : SchedState EventQueue), store st !! i = Some s' ->
          doTX scfg wr now i st = st) /\
       (forall now, ExpireIfDue now s' = (s', false))) /\
  kernel m' =
    (if (PassiveMode cfg || isInstalled rk m) && negb (NoUninstall r)
     then (RouteDelete (lr_Route r) (kernel m)).2 else kernel m).
Proof.
  subst m'. unfold WithdrawRoute. repeat (case_goal; [done|]).
  assert (Hp : forall ip, To4 ip <> [] -> To4_String ip = ip4_string ip).
  { intros ip Hip. unfold To4_String, ip4_string. by destruct (To4 ip). }
  apply orb_false_iff in E0 as [E1 E2]. apply bool_decide_eq_false in E1, E2.
  rewrite !Hp by done. clear Hp E E1 E2. cbv zeta. set (p := mkPeer _ _ _).
  assert (Hdead : forall (i : sid) s', alive s' = false ->
    (forall wr now (st : SchedState EventQueue), store st !! i = Some s' -> doTX scfg wr now i st = st) /\
    (forall now, ExpireIfDue now s' = (s', false))).
  { intros i s' Ha. split; [intros wr now st Hs; unfold doTX; by rewrite Hs, Ha|].
    intros now. unfold ExpireIfDue. by rewrite Ha. }
  destruct (PassiveMode cfg && negb (NoUninstall r)) eqn:Epn.
  - apply andb_true_iff in Epn as [Ep En]. destruct (RouteDelete (lr_Route r) (kernel m)) as [[] k] eqn:Er;
      [|done]. intros _.
    destruct (withdraw_tracked_spec r iface p (m <| kernel := k |>)) as (H1 & H2 & H3 & H4 & H5).
    rewrite Ep, En, andb_false_r in *. split_and!; [done..| |exact H5].
    intros i s Hi Hs. destruct (H4 i s Hi Hs) as (s' & Hs' & Ha). exists s'. split; [done|]. split; [done|by apply Hdead].
  - intros _. destruct (withdraw_tracked_spec r iface p m) as (H1 & H2 & H3 & H4 & H5).
    split_and!; [done..| |].
    + intros i s Hi Hs. destruct (H4 i s Hi Hs) as (s' & Hs' & Ha). exists s'. split; [done|]. split; [done|by apply Hdead].
    + rewrite H5. destruct (PassiveMode cfg), (NoUninstall r), (isInstalled (routeKeyFor iface r) m); done.
Qed.

End Manager.

(** ** Examples *)

(** A kernel table that never fails. *)
#[global] Instance table_rrw : RouteReaderWriter (list Route) := {|
  RouteAdd := fun r k => (true, r :: k);
  RouteDelete := fun r k => (true, filter (fun r' => r' <> r) k);
  RouteByProtocol := fun p k => filter (fun r => Protocol r = p) k
|}.

Definition sample_env (now : Time) : Env := mkEnv now (fun _ => 0) [0; 0; 0; 7].

Lemma sample_env_ok now : 0 < now -> env_ok (sample_env now).
Proof.
  intros. unfold env_ok. cbn. split_and!; try done; [intros; lia..|].
  repeat constructor; unfold is_u; lia.
Qed.

Definition sample_active : ManagerConfig := sample_config_ok.
Definition sample_passive : ManagerConfig := sample_config_ok <| PassiveMode := true |>.

Section Runs.
Context (cfg : ManagerConfig).

(** The route is registered at 1s; its peer answers at 5s and the session comes Up. *)
Definition run_registered : Manager (list Route) :=
  (RegisterRoute cfg (sample_env Second) sample_route (lit "doublezero0") DefaultLivenessPort
     (newManager [])).1.

Definition run_up : Manager (list Route) :=
  Manager_HandleRx sample_scheduler (5 * Second) sample_init sample_peer run_registered.

Lemma run_up_steps : msteps cfg sample_scheduler (newManager []) run_up.
Proof.
  eapply rtc_l; [apply (m_register cfg sample_scheduler _ (sample_env Second) sample_route
    (lit "doublezero0") DefaultLivenessPort), sample_env_ok; reflexivity|].
  apply rtc_once. apply m_rx. reflexivity.
Qed.
End Runs.

Lemma manager_timers_armed_witness :
  exists ev, ev ∈ pending (sched (run_up sample_active)) /\ ev_type ev = eventTypeDetect.
Proof.
  destruct (manager_timers_armed sample_active sample_scheduler (proj1 sample_config_limits)
    (proj2 sample_config_limits) _ _ (run_up_steps sample_active)) as [_ H].
  destruct (sess_of 0%nat (run_up sample_active)) as [s|] eqn:Hs; [|vm_compute in Hs; discriminate].
  destruct (H 0%nat s Hs) as (_ & _ & Hdet);
    [vm_compute in Hs; injection Hs as <-; reflexivity|].
  destruct Hdet as (ev & Hev & Hty & _);
    [left; vm_compute in Hs; injection Hs as <-; reflexivity|vm_compute; reflexivity|].
  exists ev. split; [exact Hev|exact Hty].
Defined.

Lemma passive_keeps_dataplane_witness :
  kernel (run_up sample_passive) = kernel (run_registered sample_passive) /\
  kernel (run_up sample_passive) = [lr_Route sample_route].
Proof.
  split; [|vm_compute; reflexivity].
  apply (passive_keeps_dataplane sample_passive sample_scheduler); [reflexivity|].
  apply rtc_once. apply e_rx. reflexivity.
Defined.

Lemma WithdrawRoute_clears_witness :
  sessions (WithdrawRoute sample_active sample_route (lit "doublezero0") (run_up sample_active)).1
    !! sample_peer = None.
Proof.
  destruct (WithdrawRoute_clears sample_active sample_scheduler sample_route (lit "doublezero0")
    (run_up sample_active)) as (_ & _ & H & _); [vm_compute; reflexivity|exact H].
Defined.

(** *** Goroutines that run out of order *)

(** The peer's AdminDown packet. *)
Definition sample_admin : ControlPacket.t :=
  sample_init <| ControlPacket.PktState := StateAdminDown |>.

(** The session goes Down at 6s, before either goroutine has run. *)
Definition run_down : Manager (list Route) :=
  Manager_HandleRx sample_scheduler (6 * Second) sample_admin sample_peer (run_up sample_active).

(** The goroutine of the second change runs first. *)
Definition run_reordered : Manager (list Route) :=
  take_task sample_active [] (TaskUp 0%nat) []
    (take_task sample_active [TaskUp 0%nat] (TaskDown 0%nat) [] run_down).

(** The goroutines started for an Up and a following Down change may
    run in the opposite order, and then the route stays installed in the
    kernel, and marked so, while its session is Down and nothing is pending
    that would remove it. *)
Theorem goroutine_order_unsafe :
  msteps sample_active sample_scheduler (newManager []) run_reordered /\
  spawned (sched run_reordered) = [] /\
  state <$> sess_of 0%nat run_reordered = Some StateDown /\
  kernel run_reordered = [lr_Route sample_route] /\
  snap_ExpectedKernelState <$> GetSessions run_reordered = [KernelStatePresent].
Proof.
  split; [|vm_compute; split_and!; reflexivity].
  etrans; [apply run_up_steps|].
  eapply rtc_l; [apply (m_rx _ _ _ (6 * Second) sample_admin sample_peer); reflexivity|].
  eapply rtc_l; [apply (m_task _ _ _ [TaskUp 0%nat] (TaskDown 0%nat) []); vm_compute; reflexivity|].
  apply rtc_once. apply (m_task _ _ _ [] (TaskUp 0%nat) []). vm_compute. reflexivity.
Qed.

(** *** Excluded routes at start-up *)

(** The loop at the end of [NewManager]: AdminDown for every excluded address. *)
Definition exclude_all {K} `{!RouteReaderWriter K} (cfg : ManagerConfig) (e : Env)
    (excluded : list IP) (m : Manager K) : Manager K :=
  fold_left (fun m ip =>
    AdminDownRoute cfg e
      {| lr_Route := mkRoute (mkIPNet ip [255; 255; 255; 255]) ip 0 ip 0; NoUninstall := false |}
      (lit "doublezero0") m) excluded m.

(** Marking the excluded routes AdminDown at start-up does nothing:
    the manager has no session yet, so every call returns at once. *)
Theorem exclude_all_noop {K} `{!RouteReaderWriter K} cfg e excluded (k : K) :
  exclude_all cfg e excluded (newManager k) = newManager k.
Proof.
  unfold exclude_all. induction excluded as [|ip l IH]; [done|]. cbn [fold_left].
  unfold AdminDownRoute at 2. cbn [sessions newManager]. by rewrite lookup_empty.
Qed.
