(* ===== verification/ByteReader.v ===== *)
(** * On-chain accounts: the byte reader

    Models [ByteReader] of [smartcontract/sdk/go/serviceability/bytereader.go]:
    a cursor over account data whose reads never fail and return a zero value
    when the data is too short. A reader is a function of the data and of the
    offset. [reads] relates a reader to the bytes it decodes. *)

From stdpp Require Import base tactics numbers list.
From Stdlib Require Import ZArith Lia ZifyBool ZifyNat.
From S2P Require Import Prelude Bytes GoStrings.

#[local] Open Scope Z_scope.

Definition Rd (A : Type) : Type := bytes -> nat -> A * nat.

#[global] Instance Rd_ret : MRet Rd := fun A a _ o => (a, o).
#[global] Instance Rd_bind : MBind Rd := fun A B k m d o => let '(a, o') := m d o in k a d o'.

Abbreviation pubkey := bytes.

Definition GetOffset : Rd nat := fun _ o => (o, o).

(** [uint32(len(data) - offset)] *)
Definition Remaining : Rd Z := fun d o => (u32 (Z.of_nat (length d) - Z.of_nat o), o).

(** The shape of every fixed-size read: [n] bytes if they are there, else the
    default and no progress. *)
Definition read_fixed {A} (n : nat) (conv : bytes -> A) (def : A) : Rd A := fun d o =>
  if (o + n <=? length d)%nat then (conv (slice d o (o + n)), (o + n)%nat) else (def, o).

Definition ReadU8 : Rd Z := read_fixed 1 le_val 0.
Definition ReadU16 : Rd Z := read_fixed 2 le_val 0.
Definition ReadU32 : Rd Z := read_fixed 4 le_val 0.
Definition ReadU64 : Rd Z := read_fixed 8 le_val 0.

Definition ReadU16OrDefault (def : Z) : Rd Z := fun d o =>
  if (length d <? o + 2)%nat then (def, o) else ReadU16 d o.

Definition ReadI64 : Rd Z := v ← ReadU64; mret (i64 v).

(** A [float64] is kept as its 64 bits. *)
Definition ReadF64 : Rd Z := ReadU64.

(** The Go struct: [High] holds the first eight bytes. *)
Record Uint128 := mkUint128 { High : Z; Low : Z }.

Definition ReadU128 : Rd Uint128 :=
  read_fixed 16 (fun b => {| High := le_val (slice b 0 8); Low := le_val (slice b 8 16) |})
    {| High := 0; Low := 0 |}.

Definition ReadPubkey : Rd pubkey := read_fixed 32 (fun b => b) (replicate 32 0).
Definition ReadIPv4 : Rd bytes := read_fixed 4 (fun b => b) (replicate 4 0).
Definition ReadNetworkV4 : Rd bytes := read_fixed 5 (fun b => b) (replicate 5 0).

(** [for i := 0; i < n; i++ { result[i] = read() }] *)
Fixpoint read_n {A} (n : nat) (m : Rd A) : Rd (list A) :=
  match n with
  | O => mret []
  | S n => x ← m; xs ← read_n n m; mret (x :: xs)
  end.

(** The length-prefixed slices: the product is computed in [uint32]. *)
Definition read_slice {A} (size : Z) (m : Rd A) : Rd (list A) :=
  len ← ReadU32;
  rem ← Remaining;
  if (len =? 0) || (rem <? u32 (len * size)) then mret [] else read_n (Z.to_nat len) m.

Definition ReadPubkeySlice : Rd (list pubkey) := read_slice 32 ReadPubkey.
Definition ReadIPv4Slice : Rd (list bytes) := read_slice 4 ReadIPv4.
Definition ReadNetworkV4Slice : Rd (list bytes) := read_slice 5 ReadNetworkV4.

Definition ReadBytes (n : nat) : Rd bytes := read_fixed n (fun b => b) [].

Definition ReadString : Rd bytes :=
  len ← ReadU32;
  if len =? 0 then mret [] else ReadBytes (Z.to_nat len).

Definition Skip (n : nat) : Rd () := fun d o => ((), Nat.min (o + n) (length d)).

(** ** Reading what was written *)

(** [m] decodes the bytes [e] to [a] wherever they stand, and ends after them.
    Accounts are shorter than 4 GiB. *)
Definition reads {A} (m : Rd A) (e : bytes) (a : A) : Prop :=
  forall pre post, Z.of_nat (length (pre ++ e ++ post)) < 2 ^ 32 ->
    m (pre ++ e ++ post) (length pre) = (a, (length pre + length e)%nat).

(** The cursor never moves back nor past the end. *)
Definition within {A} (m : Rd A) : Prop :=
  forall d o, (o <= length d)%nat -> (o <= (m d o).2 <= length d)%nat.

(** At the end of the data [m] returns [a] and stays. *)
Definition at_eof {A} (m : Rd A) (a : A) : Prop := forall d, m d (length d) = (a, length d).

(** ** Encodings, as the on-chain program writes them *)

Definition enc_u8 (x : Z) : bytes := le_bytes 1 x.
Definition enc_u16 (x : Z) : bytes := le_bytes 2 x.
Definition enc_u32 (x : Z) : bytes := le_bytes 4 x.
Definition enc_u64 (x : Z) : bytes := le_bytes 8 x.
Definition enc_i64 (x : Z) : bytes := le_bytes 8 (u64 x).
(** The 128-bit value whose low half is the field [High]. *)
Definition enc_u128 (x : Uint128) : bytes := le_bytes 16 (High x + 2 ^ 64 * Low x).
Definition enc_vec {A} (enc : A -> bytes) (l : list A) : bytes :=
  enc_u32 (Z.of_nat (length l)) ++ concat (map enc l).
Definition enc_string (s : bytes) : bytes := enc_u32 (Z.of_nat (length s)) ++ s.
Definition enc_bool (b : bool) : bytes := enc_u8 (if b then 1 else 0).

Definition is_key (k : pubkey) : Prop := length k = 32%nat.
Definition is_short (s : bytes) : Prop := Z.of_nat (length s) < 2 ^ 32.

Create HintDb reads.

(** ** Lemmas: fixed-size reads *)

Lemma reads_ret {A} (a : A) : reads (mret a) [] a.
Proof. intros pre post _. cbn. f_equal. lia. Qed.

Lemma reads_bind {A B} (m : Rd A) (k : A -> Rd B) e1 e2 a b :
  reads m e1 a -> reads (k a) e2 b -> reads (m ≫= k) (e1 ++ e2) b.
Proof.
  intros H1 H2 pre post Hlen. unfold mbind, Rd_bind. rewrite <- !app_assoc in *.
  rewrite H1 by (rewrite <- ?app_assoc; done).
  replace (length pre + length e1)%nat with (length (pre ++ e1)) by by rewrite length_app.
  rewrite (app_assoc pre e1). rewrite H2 by (by rewrite <- !app_assoc).
  f_equal. rewrite !length_app. lia.
Qed.

Lemma reads_fixed {A} n (conv : bytes -> A) def e a : length e = n -> conv e = a ->
  reads (read_fixed n conv def) e a.
Proof.
  intros Hn Ha pre post _. unfold read_fixed. rewrite !length_app.
  rewrite (proj2 (Nat.leb_le _ _)) by lia. f_equal; [|lia]. rewrite <- Ha. f_equal.
  unfold slice. rewrite drop_app_exact by done. rewrite take_app_exact; [done|lia].
Qed.

(** [reads] at a position of given data. *)
Lemma reads_at {A} (m : Rd A) e a d p q : reads m e a -> d = p ++ e ++ q ->
  Z.of_nat (length d) < 2 ^ 32 -> m d (length p) = (a, length (p ++ e)).
Proof. intros Hm -> Hlen. rewrite Hm by done. by rewrite length_app. Qed.

Lemma within_ret {A} (a : A) : within (mret a).
Proof. intros d o Ho. cbn. lia. Qed.

Lemma within_bind {A B} (m : Rd A) (k : A -> Rd B) :
  within m -> (forall a, within (k a)) -> within (m ≫= k).
Proof.
  intros Hm Hk d o Ho. unfold mbind, Rd_bind. specialize (Hm d o Ho).
  destruct (m d o) as [a o']. cbn in Hm. specialize (Hk a d o' ltac:(lia)). lia.
Qed.

Lemma within_fixed {A} n (conv : bytes -> A) def : within (read_fixed n conv def).
Proof. intros d o Ho. unfold read_fixed. destruct (Nat.leb_spec (o + n) (length d)); cbn; lia. Qed.

Lemma eof_ret {A} (a : A) : at_eof (mret a) a.
Proof. done. Qed.

Lemma eof_bind {A B} (m : Rd A) (k : A -> Rd B) a b :
  at_eof m a -> at_eof (k a) b -> at_eof (m ≫= k) b.
Proof. intros Hm Hk d. unfold mbind, Rd_bind. by rewrite Hm, Hk. Qed.

Lemma eof_fixed {A} n (conv : bytes -> A) def : (0 < n)%nat -> at_eof (read_fixed n conv def) def.
Proof. intros Hn d. unfold read_fixed. by rewrite (proj2 (Nat.leb_gt _ _)) by lia. Qed.

(** ** Lemmas: the readers *)

Lemma length_enc_u32 x : length (enc_u32 x) = 4%nat.
Proof. apply length_le_bytes. Qed.

Section Reads.
#[local] Ltac fixed_int := apply reads_fixed; [apply length_le_bytes|by apply le_round].

Lemma reads_u8 x : is_u8 x -> reads ReadU8 (enc_u8 x) x.
Proof. intros. fixed_int. Qed.
Lemma reads_u16 x : is_u16 x -> reads ReadU16 (enc_u16 x) x.
Proof. intros. fixed_int. Qed.
Lemma reads_u32 x : is_u32 x -> reads ReadU32 (enc_u32 x) x.
Proof. intros. fixed_int. Qed.
Lemma reads_u64 x : is_u64 x -> reads ReadU64 (enc_u64 x) x.
Proof. intros. fixed_int. Qed.
Lemma reads_f64 x : is_u64 x -> reads ReadF64 (enc_u64 x) x.
Proof. intros. fixed_int. Qed.

Lemma reads_u16_or_default def x : is_u16 x -> reads (ReadU16OrDefault def) (enc_u16 x) x.
Proof.
  intros Hx pre post Hlen. unfold ReadU16OrDefault.
  rewrite !length_app, (length_le_bytes 2). rewrite (proj2 (Nat.ltb_ge _ _)) by lia.
  rewrite reads_u16 by done. by rewrite (length_le_bytes 2).
Qed.

Lemma i64_u64 x : is_i64 x -> i64 (u64 x) = x.
Proof.
  unfold is_i, swrap, wrap. intros Hx. cbn [Z.sub Z.pow] in *.
  rewrite Z.add_mod_idemp_l by lia. rewrite Z.mod_small by lia. lia.
Qed.

Lemma reads_i64 x : is_i64 x -> reads ReadI64 (enc_i64 x) x.
Proof.
  intros Hx. unfold ReadI64. rewrite <- (app_nil_r (enc_i64 x)).
  eapply reads_bind; [apply (reads_u64 (u64 x)), wrap_range; lia|].
  rewrite i64_u64 by done. apply reads_ret.
Qed.

Lemma le_bytes_app n m x y : is_u (8 * Z.of_nat n) x ->
  le_bytes (n + m) (x + 2 ^ (8 * Z.of_nat n) * y) = le_bytes n x ++ le_bytes m y.
Proof.
  revert x y. induction n as [|n IH]; intros x y Hx; unfold is_u in Hx.
  { cbn in *. f_equal. lia. }
  rewrite pow256_S in *. cbn [le_bytes Nat.add app]. f_equal.
  - rewrite <- Z.mul_assoc, Z.mul_comm, Z.mul_comm, (Z.mul_comm 256). rewrite Z.mod_add by lia. done.
  - rewrite <- IH.
    + f_equal. rewrite <- Z.mul_assoc, (Z.mul_comm 256), Z.div_add by lia. lia.
    + unfold is_u. split; [apply Z.div_pos; lia|apply Z.div_lt_upper_bound; lia].
Qed.

Lemma reads_u128 x : is_u64 (High x) -> is_u64 (Low x) -> reads ReadU128 (enc_u128 x) x.
Proof.
  intros Hh Hl. apply reads_fixed; [apply length_le_bytes|]. unfold enc_u128.
  change 16%nat with (8 + 8)%nat. change (2 ^ 64) with (2 ^ (8 * Z.of_nat 8)).
  rewrite le_bytes_app by done. destruct x as [h l]; cbn [High Low] in *. f_equal.
  - unfold slice. rewrite drop_0, take_app_exact by apply length_le_bytes. by apply le_round.
  - unfold slice. rewrite drop_app_exact by apply length_le_bytes.
    rewrite take_ge by (by rewrite length_le_bytes). by apply le_round.
Qed.

Lemma reads_pubkey k : is_key k -> reads ReadPubkey k k.
Proof. intros. by apply reads_fixed. Qed.
Lemma reads_ipv4 a : length a = 4%nat -> reads ReadIPv4 a a.
Proof. intros. by apply reads_fixed. Qed.
Lemma reads_net a : length a = 5%nat -> reads ReadNetworkV4 a a.
Proof. intros. by apply reads_fixed. Qed.

Lemma reads_bytes s : reads (ReadBytes (length s)) s s.
Proof. by apply reads_fixed. Qed.

Lemma reads_string s : is_short s -> reads ReadString (enc_string s) s.
Proof.
  intros Hs. eapply reads_bind; [apply reads_u32; unfold is_u, is_short in *; lia|]. cbn beta.
  destruct (Z.eqb_spec (Z.of_nat (length s)) 0) as [E|E].
  - destruct s; [apply reads_ret|cbn in E; lia].
  - rewrite Nat2Z.id. apply reads_bytes.
Qed.

Lemma reads_bool b : reads (x ← ReadU8; mret (negb (x =? 0))) (enc_bool b) b.
Proof.
  rewrite <- (app_nil_r (enc_bool b)). eapply reads_bind; [apply reads_u8; by destruct b|].
  destruct b; apply reads_ret.
Qed.

Lemma reads_n {A} (m : Rd A) enc l : Forall (fun x => reads m (enc x) x) l ->
  reads (read_n (length l) m) (concat (map enc l)) l.
Proof.
  induction 1 as [|x l Hx _ IH]; [apply reads_ret|]. cbn [read_n length map concat].
  eapply reads_bind; [done|]. cbn beta. rewrite <- (app_nil_r (concat _)).
  eapply reads_bind; [done|]. apply reads_ret.
Qed.

Lemma length_concat_fixed {A} (enc : A -> bytes) n l : Forall (fun x => length (enc x) = n) l ->
  length (concat (map enc l)) = (length l * n)%nat.
Proof. induction 1 as [|x l Hx _ IH]; [done|]. cbn. rewrite length_app, IH, Hx. lia. Qed.

(** A slice of elements that each take [n] bytes passes the bound check. *)
Lemma reads_vec {A} (m : Rd A) enc (n : nat) l :
  (0 < n)%nat -> Forall (fun x => reads m (enc x) x /\ length (enc x) = n) l ->
  reads (read_slice (Z.of_nat n) m) (enc_vec enc l) l.
Proof.
  intros Hn Hl pre post Hlen.
  assert (Hl1 : reads (read_n (length l) m) (concat (map enc l)) l)
    by (apply reads_n; eapply Forall_impl; [done|]; by intros ? []).
  assert (Hl2 : length (concat (map enc l)) = (length l * n)%nat)
    by (apply length_concat_fixed; eapply Forall_impl; [done|]; by intros ? []).
  pose proof Hlen as Hlen'. unfold enc_vec in Hlen'. rewrite !length_app, length_enc_u32, Hl2 in Hlen'.
  unfold read_slice, mbind, Rd_bind, enc_vec in *. rewrite <- !app_assoc in *.
  rewrite reads_u32 by (done || (unfold is_u; nia)). unfold Remaining.
  rewrite !length_app, length_enc_u32, Hl2.
  rewrite (wrap_id 32) by (unfold is_u; lia). rewrite (wrap_id 32) by (unfold is_u; nia).
  rewrite (proj2 (Z.ltb_ge _ _)) by lia. rewrite orb_false_r.
  destruct (Z.eqb_spec (Z.of_nat (length l)) 0) as [E|E].
  - destruct l; [cbn; f_equal; lia|cbn in E; lia].
  - rewrite Nat2Z.id.
    replace (length pre + 4)%nat with (length (pre ++ enc_u32 (Z.of_nat (length l))))
      by (by rewrite length_app, length_enc_u32).
    rewrite (app_assoc pre). rewrite Hl1 by (by rewrite <- app_assoc).
    rewrite length_app, length_enc_u32, Hl2. f_equal. lia.
Qed.

Lemma reads_keys l : Forall is_key l -> reads ReadPubkeySlice (enc_vec (fun k => k) l) l.
Proof.
  intros Hl. apply (reads_vec ReadPubkey (fun k => k) 32); [lia|]. eapply Forall_impl; [done|].
  intros k Hk. split; [by apply reads_pubkey|done].
Qed.

Lemma reads_nets l : Forall (fun a => length a = 5%nat) l ->
  reads ReadNetworkV4Slice (enc_vec (fun k => k) l) l.
Proof.
  intros Hl. apply (reads_vec ReadNetworkV4 (fun k => k) 5); [lia|]. eapply Forall_impl; [done|].
  intros k Hk. split; [by apply reads_net|done].
Qed.

Lemma reads_ipv4s l : Forall (fun a => length a = 4%nat) l ->
  reads ReadIPv4Slice (enc_vec (fun k => k) l) l.
Proof.
  intros Hl. apply (reads_vec ReadIPv4 (fun k => k) 4); [lia|]. eapply Forall_impl; [done|].
  intros k Hk. split; [by apply reads_ipv4|done].
Qed.
End Reads.

#[export] Hint Resolve reads_u8 reads_u16 reads_u32 reads_u64 reads_f64 reads_u16_or_default
  reads_i64 reads_u128 reads_pubkey reads_ipv4 reads_net reads_string reads_bool reads_keys
  reads_nets reads_ipv4s : reads.

(** ** Lemmas: bounds and end of data *)

Lemma within_n {A} n (m : Rd A) : within m -> within (read_n n m).
Proof.
  intros Hm. induction n as [|n IH]; cbn; [apply within_ret|].
  apply within_bind; [done|]. intros x. apply within_bind; [done|]. intros xs. apply within_ret.
Qed.

Lemma within_remaining : within Remaining.
Proof. intros d o Ho. cbn. lia. Qed.

Lemma within_offset : within GetOffset.
Proof. intros d o Ho. cbn. lia. Qed.

Lemma within_skip n : within (Skip n).
Proof. intros d o Ho. cbn. lia. Qed.

Lemma within_u16_or_default def : within (ReadU16OrDefault def).
Proof. intros d o Ho. unfold ReadU16OrDefault. case_goal; [cbn; lia|by apply within_fixed]. Qed.

Create HintDb within.

#[export] Hint Resolve within_ret within_fixed within_remaining within_offset within_skip
  within_u16_or_default : within.

(** Splits a reader into its primitive reads. *)
Ltac within_tac :=
  repeat first
    [ solve [eauto with within]
    | apply within_bind; [|intros ?]
    | apply within_n
    | apply within_fixed
    | match goal with |- within (if ?b then _ else _) => destruct b end
    | match goal with |- within (match ?x with _ => _ end) => destruct x end ].

Lemma within_slice {A} size (m : Rd A) : within m -> within (read_slice size m).
Proof. intros Hm. unfold read_slice, ReadU32. within_tac. Qed.

Lemma within_string : within ReadString.
Proof. unfold ReadString, ReadU32, ReadBytes. within_tac. Qed.

Lemma within_i64 : within ReadI64.
Proof. unfold ReadI64, ReadU64. within_tac. Qed.

Lemma within_keys : within ReadPubkeySlice.
Proof. apply within_slice, within_fixed. Qed.

Lemma within_nets : within ReadNetworkV4Slice.
Proof. apply within_slice, within_fixed. Qed.

#[export] Hint Resolve within_string within_i64 within_keys within_nets : within.
#[export] Hint Extern 1 (within ReadU8) => apply within_fixed : within.
#[export] Hint Extern 1 (within ReadU16) => apply within_fixed : within.
#[export] Hint Extern 1 (within ReadU32) => apply within_fixed : within.
#[export] Hint Extern 1 (within ReadU64) => apply within_fixed : within.
#[export] Hint Extern 1 (within ReadF64) => apply within_fixed : within.
#[export] Hint Extern 1 (within ReadU128) => apply within_fixed : within.
#[export] Hint Extern 1 (within ReadPubkey) => apply within_fixed : within.
#[export] Hint Extern 1 (within ReadIPv4) => apply within_fixed : within.
#[export] Hint Extern 1 (within ReadNetworkV4) => apply within_fixed : within.

Lemma eof_slice {A} size (m : Rd A) : at_eof (read_slice size m) [].
Proof. intros d. unfold read_slice, mbind, Rd_bind. unfold ReadU32. rewrite eof_fixed by lia. done. Qed.

Lemma eof_string : at_eof ReadString [].
Proof. intros d. unfold ReadString, mbind, Rd_bind, ReadU32. rewrite eof_fixed by lia. done. Qed.

Lemma eof_u16_or_default def : at_eof (ReadU16OrDefault def) def.
Proof. intros d. unfold ReadU16OrDefault. by rewrite (proj2 (Nat.ltb_lt _ _)) by lia. Qed.

(** ** Truncated data *)

(** Reading an encoding that stops at a field boundary: the fields before it
    are read, the others take their end-of-data value. *)
Definition reads_end {A} (m : Rd A) (e : bytes) (a : A) : Prop :=
  forall pre, Z.of_nat (length (pre ++ e)) < 2 ^ 32 ->
    m (pre ++ e) (length pre) = (a, length (pre ++ e)).

Lemma reads_end_eof {A} (m : Rd A) a : at_eof m a -> reads_end m [] a.
Proof. intros Hm pre _. rewrite app_nil_r. apply Hm. Qed.

Lemma reads_end_bind {A B} (m : Rd A) (k : A -> Rd B) e1 e2 a b :
  reads m e1 a -> reads_end (k a) e2 b -> reads_end (m ≫= k) (e1 ++ e2) b.
Proof.
  intros H1 H2 pre Hlen. unfold mbind, Rd_bind. rewrite H1 by done.
  replace (length pre + length e1)%nat with (length (pre ++ e1)) by by rewrite length_app.
  rewrite app_assoc in *. by rewrite H2.
Qed.

Lemma reads_end_of_reads {A} (m : Rd A) e a : reads m e a -> reads_end m e a.
Proof.
  intros H pre Hlen. specialize (H pre []). rewrite app_nil_r in H. rewrite H by done.
  by rewrite length_app.
Qed.
