(* ===== verification/Accounts.v ===== *)
(** * On-chain accounts: data types

    Models the account structs and enums of
    [smartcontract/sdk/go/serviceability/state.go]. Enum values are kept as the
    byte the account holds; each enum's [String] method is a function of it,
    with an out-of-range array index a panic. Arrays and strings are byte
    lists, floats their bits. JSON and influx encodings are left out. *)

From stdpp Require Import base tactics numbers list.
From Stdlib Require Import ZArith Lia ZifyBool.
From S2P Require Import Prelude Bytes GoStrings Routing ByteReader.

#[local] Open Scope Z_scope.

(** ** Account types *)

Definition GlobalStateType : Z := 1.
Definition GlobalConfigType : Z := 2.
Definition LocationType : Z := 3.
Definition ExchangeType : Z := 4.
Definition DeviceType : Z := 5.
Definition LinkType : Z := 6.
Definition UserType : Z := 7.
Definition MulticastGroupType : Z := 8.
Definition ProgramConfigType : Z := 9.
Definition ContributorType : Z := 10.
Definition AccessPassType : Z := 11.
Definition ResourceExtensionType : Z := 12.
Definition TenantType : Z := 13.
Definition PermissionType : Z := 15.
Definition IndexType : Z := 16.
Definition TopologyType : Z := 17.
Definition FeedType : Z := 18.

(** ** Enum names *)

(** [[...]string{...}[i]]: an index past the end panics. *)
Definition index_string (names : list bytes) (i : Z) : res () bytes :=
  match names !! Z.to_nat i with Some s => Ok s | None => Panic end.

(** A [switch] over the known values. *)
Fixpoint switch_string (cases : list (Z * bytes)) (def : bytes) (i : Z) : bytes :=
  match cases with
  | [] => def
  | (v, s) :: cases => if i =? v then s else switch_string cases def i
  end.

Definition LocationStatus_String (s : Z) : bytes :=
  switch_string
    [(0, lit "pending (deprecated)"); (1, lit "activated"); (2, lit "suspended")]
    (lit "unknown") s.

Definition ExchangeStatus_String (s : Z) : bytes :=
  switch_string
    [(0, lit "pending (deprecated)"); (1, lit "activated"); (2, lit "suspended")]
    (lit "unknown") s.

Definition DeviceDeviceType_String (i : Z) : res () bytes :=
  index_string [lit "hybrid"; lit "transit"; lit "edge"] i.

Definition DeviceStatus_String (s : Z) : bytes :=
  switch_string
    [(0, lit "pending (deprecated)"); (1, lit "activated"); (3, lit "deleting");
     (4, lit "rejected (deprecated)"); (5, lit "drained"); (6, lit "device-provisioning");
     (7, lit "link-provisioning")]
    (lit "unknown") s.

Definition DeviceHealth_String (s : Z) : bytes :=
  switch_string
    [(0, lit "unknown"); (1, lit "pending"); (2, lit "ready_for_links");
     (3, lit "ready_for_users"); (4, lit "impaired")]
    (lit "DeviceHealth(" ++ format_uint s ++ lit ")") s.

Definition DeviceDesiredStatus_String (s : Z) : bytes :=
  switch_string
    [(0, lit "pending"); (1, lit "activated"); (6, lit "drained")]
    (lit "unknown") s.

Definition InterfaceStatus_String (i : Z) : res () bytes :=
  index_string [lit "invalid"; lit "unmanaged"; lit "pending"; lit "activated"; lit "deleting";
    lit "rejecting"; lit "unlinked"] i.

Definition InterfaceType_String (i : Z) : res () bytes :=
  index_string [lit "invalid"; lit "loopback"; lit "physical"] i.

Definition LoopbackType_String (i : Z) : res () bytes :=
  index_string [lit "none"; lit "vpnv4"; lit "ipv4"; lit "pim_rp_addr"; lit "reserved"] i.

Definition InterfaceCYOA_String (i : Z) : res () bytes :=
  index_string [lit "none"; lit "gre_over_dia"; lit "gre_over_fabric"; lit "gre_over_private_peering";
    lit "gre_over_public_peering"; lit "gre_over_cable"] i.

Definition InterfaceDIA_String (i : Z) : res () bytes :=
  index_string [lit "none"; lit "dia"] i.

Definition RoutingMode_String (i : Z) : res () bytes :=
  index_string [lit "static"; lit "bgp"] i.

Definition LinkLinkType_String (s : Z) : bytes :=
  switch_string
    [(1, lit "WAN"); (127, lit "DZX")]
    ([]) s.

Definition LinkStatus_String (s : Z) : bytes :=
  switch_string
    [(0, lit "pending (deprecated)"); (1, lit "activated"); (3, lit "deleting");
     (4, lit "rejected (deprecated)"); (5, lit "requested"); (6, lit "hard-drained");
     (7, lit "soft-drained"); (8, lit "provisioning")]
    (lit "unknown") s.

Definition LinkHealth_String (s : Z) : bytes :=
  switch_string
    [(0, lit "unknown"); (1, lit "pending"); (2, lit "ready_for_service"); (3, lit "impaired")]
    (lit "LinkHealth(" ++ format_uint s ++ lit ")") s.

Definition BGPStatus_String (s : Z) : bytes :=
  switch_string
    [(0, lit "unknown"); (1, lit "up"); (2, lit "down")]
    (lit "BGPStatus(" ++ format_uint s ++ lit ")") s.

Definition LinkDesiredStatus_String (s : Z) : bytes :=
  switch_string
    [(0, lit "pending"); (1, lit "activated"); (6, lit "hard-drained"); (7, lit "soft-drained")]
    (lit "unknown") s.

Definition ContributorStatus_String (s : Z) : bytes :=
  switch_string
    [(0, lit "pending"); (1, lit "activated"); (2, lit "suspended"); (3, lit "deleting")]
    (lit "unknown") s.

Definition TenantPaymentStatus_String (i : Z) : res () bytes :=
  index_string [lit "delinquent"; lit "paid"] i.

Definition UserUserType_String (i : Z) : res () bytes :=
  index_string [lit "ibrl"; lit "ibrl_with_allocated_ip"; lit "edge_filtering"; lit "multicast"] i.

Definition CyoaType_String (i : Z) : res () bytes :=
  index_string [lit "unknown"; lit "gre_over_dia"; lit "gre_over_fabric"; lit "gre_over_private_peering";
    lit "gre_over_public_peering"; lit "gre_over_cable"] i.

Definition UserStatus_String (s : Z) : bytes :=
  switch_string
    [(0, lit "pending (deprecated)"); (1, lit "activated"); (2, lit "suspended (deprecated)");
     (3, lit "deleted"); (4, lit "rejected (deprecated)"); (5, lit "pending_ban (deprecated)");
     (6, lit "banned"); (7, lit "updating (deprecated)"); (8, lit "out_of_credits")]
    (lit "unknown") s.

Definition MulticastGroupStatus_String (s : Z) : bytes :=
  switch_string
    [(0, lit "pending (deprecated)"); (1, lit "activated"); (2, lit "suspended");
     (3, lit "deleting"); (4, lit "rejected (deprecated)")]
    (lit "unknown") s.

Definition AccessPassStatus_String (s : Z) : bytes :=
  switch_string
    [(0, lit "requested"); (1, lit "connected"); (2, lit "disconnected");
     (3, lit "expired (deprecated)")]
    (lit "unknown") s.

Definition AllocatorType_String (s : Z) : bytes :=
  switch_string
    [(0, lit "ip"); (1, lit "id")]
    (lit "unknown") s.

Definition PermissionStatus_String (s : Z) : bytes :=
  switch_string
    [(0, lit "none"); (1, lit "activated"); (2, lit "suspended"); (3, lit "deleting")]
    (lit "unknown") s.

Definition TopologyConstraint_String (s : Z) : bytes :=
  switch_string
    [(0, lit "include-any"); (1, lit "exclude")]
    (lit "unknown") s.

Definition DeviceStatus_IsDrained (d : Z) : bool := d =? 5.
Definition LinkStatus_IsHardDrained (l : Z) : bool := l =? 6.

(** [onChainNetToString]: an address and a prefix length from 1 to 32. *)
Definition onChainNetToString (n : bytes) : bytes :=
  let prefixLen := byte_at n 4 in
  if (0 <? prefixLen) && (prefixLen <=? 32)
  then IP_String (take 4 n) ++ lit "/" ++ format_uint prefixLen else [].

(** ** Accounts *)

Definition zero_key : pubkey := replicate 32 0.

Definition CurrentInterfaceVersion : Z := 4.

Module GlobalConfig.
Record t := mk {
  AccountType : Z;
  Owner : bytes;
  BumpSeed : Z;
  LocalASN : Z;
  RemoteASN : Z;
  DeviceTunnelBlock : bytes;
  UserTunnelBlock : bytes;
  MulticastGroupBlock : bytes;
  NextBGPCommunity : Z;
  MulticastPublisherBlock : bytes;
  PubKey : bytes
}.
#[global] Instance eta : RecordEta t := {
  eta_record := fun r => mk (AccountType r) (Owner r) (BumpSeed r) (LocalASN r) (RemoteASN r) (DeviceTunnelBlock r)
    (UserTunnelBlock r) (MulticastGroupBlock r) (NextBGPCommunity r) (MulticastPublisherBlock r)
    (PubKey r);
  eta_record_id := fun r => match r with mk _ _ _ _ _ _ _ _ _ _ _ => eq_refl end
}.
End GlobalConfig.

Module GlobalState.
Record t := mk {
  AccountType : Z;
  BumpSeed : Z;
  AccountIndex : Uint128;
  FoundationAllowlist : list bytes;
  ActivatorAuthorityPK : bytes;
  SentinelAuthorityPK : bytes;
  ContributorAirdropLamports : Z;
  UserAirdropLamports : Z;
  HealthOraclePK : bytes;
  QAAllowlist : list bytes;
  FeatureFlags : Uint128;
  FeedAuthorityPK : bytes;
  PubKey : bytes
}.
#[global] Instance eta : RecordEta t := {
  eta_record := fun r => mk (AccountType r) (BumpSeed r) (AccountIndex r) (FoundationAllowlist r)
    (ActivatorAuthorityPK r) (SentinelAuthorityPK r) (ContributorAirdropLamports r)
    (UserAirdropLamports r) (HealthOraclePK r) (QAAllowlist r) (FeatureFlags r)
    (FeedAuthorityPK r) (PubKey r);
  eta_record_id := fun r => match r with mk _ _ _ _ _ _ _ _ _ _ _ _ _ => eq_refl end
}.
End GlobalState.

Module Location.
Record t := mk {
  AccountType : Z;
  Owner : bytes;
  Index : Uint128;
  BumpSeed : Z;
  Lat : Z;
  Lng : Z;
  LocId : Z;
  Status : Z;
  Code : bytes;
  Name : bytes;
  Country : bytes;
  ReferenceCount : Z;
  PubKey : bytes
}.
#[global] Instance eta : RecordEta t := {
  eta_record := fun r => mk (AccountType r) (Owner r) (Index r) (BumpSeed r) (Lat r) (Lng r) (LocId r) (Status r)
    (Code r) (Name r) (Country r) (ReferenceCount r) (PubKey r);
  eta_record_id := fun r => match r with mk _ _ _ _ _ _ _ _ _ _ _ _ _ => eq_refl end
}.
End Location.

Module Exchange.
Record t := mk {
  AccountType : Z;
  Owner : bytes;
  Index : Uint128;
  BumpSeed : Z;
  Lat : Z;
  Lng : Z;
  BgpCommunity : Z;
  ReferenceCount : Z;
  Status : Z;
  Code : bytes;
  Name : bytes;
  Device1PK : bytes;
  Device2PK : bytes;
  PubKey : bytes
}.
#[global] Instance eta : RecordEta t := {
  eta_record := fun r => mk (AccountType r) (Owner r) (Index r) (BumpSeed r) (Lat r) (Lng r) (BgpCommunity r)
    (ReferenceCount r) (Status r) (Code r) (Name r) (Device1PK r) (Device2PK r) (PubKey r);
  eta_record_id := fun r => match r with mk _ _ _ _ _ _ _ _ _ _ _ _ _ _ => eq_refl end
}.
End Exchange.

Module FlexAlgoNodeSegment.
Record t := mk {
  Topology : bytes;
  NodeSegmentIdx : Z
}.
#[global] Instance eta : RecordEta t := {
  eta_record := fun r => mk (Topology r) (NodeSegmentIdx r);
  eta_record_id := fun r => match r with mk _ _ => eq_refl end
}.
End FlexAlgoNodeSegment.

Module Interface.
Record t := mk {
  Size : Z;
  Version : Z;
  Status : Z;
  Name : bytes;
  InterfaceType : Z;
  InterfaceCYOA : Z;
  InterfaceDIA : Z;
  LoopbackType : Z;
  Bandwidth : Z;
  Cir : Z;
  Mtu : Z;
  RoutingMode : Z;
  VlanId : Z;
  IpNet : bytes;
  NodeSegmentIdx : Z;
  UserTunnelEndpoint : bool;
  FlexAlgoNodeSegments : list FlexAlgoNodeSegment.t
}.
#[global] Instance eta : RecordEta t := {
  eta_record := fun r => mk (Size r) (Version r) (Status r) (Name r) (InterfaceType r) (InterfaceCYOA r)
    (InterfaceDIA r) (LoopbackType r) (Bandwidth r) (Cir r) (Mtu r) (RoutingMode r) (VlanId r)
    (IpNet r) (NodeSegmentIdx r) (UserTunnelEndpoint r) (FlexAlgoNodeSegments r);
  eta_record_id := fun r => match r with mk _ _ _ _ _ _ _ _ _ _ _ _ _ _ _ _ _ => eq_refl end
}.
End Interface.

Module Device.
Record t := mk {
  AccountType : Z;
  Owner : bytes;
  Index : Uint128;
  BumpSeed : Z;
  LocationPubKey : bytes;
  ExchangePubKey : bytes;
  DeviceType : Z;
  PublicIp : bytes;
  Status : Z;
  Code : bytes;
  DzPrefixes : list bytes;
  MetricsPublisherPubKey : bytes;
  ContributorPubKey : bytes;
  MgmtVrf : bytes;
  DeprecatedInterfaces : list Interface.t;
  ReferenceCount : Z;
  UsersCount : Z;
  MaxUsers : Z;
  DeviceHealth : Z;
  DeviceDesiredStatus : Z;
  UnicastUsersCount : Z;
  MulticastSubscribersCount : Z;
  MaxUnicastUsers : Z;
  MaxMulticastSubscribers : Z;
  ReservedSeats : Z;
  MulticastPublishersCount : Z;
  MaxMulticastPublishers : Z;
  Interfaces : list Interface.t;
  DeserializeError : option (Z * nat);
  PubKey : bytes
}.
#[global] Instance eta : RecordEta t := {
  eta_record := fun r => mk (AccountType r) (Owner r) (Index r) (BumpSeed r) (LocationPubKey r) (ExchangePubKey r)
    (DeviceType r) (PublicIp r) (Status r) (Code r) (DzPrefixes r) (MetricsPublisherPubKey r)
    (ContributorPubKey r) (MgmtVrf r) (DeprecatedInterfaces r) (ReferenceCount r) (UsersCount r)
    (MaxUsers r) (DeviceHealth r) (DeviceDesiredStatus r) (UnicastUsersCount r)
    (MulticastSubscribersCount r) (MaxUnicastUsers r) (MaxMulticastSubscribers r)
    (ReservedSeats r) (MulticastPublishersCount r) (MaxMulticastPublishers r) (Interfaces r)
    (DeserializeError r) (PubKey r);
  eta_record_id := fun r => match r with mk _ _ _ _ _ _ _ _ _ _ _ _ _ _ _ _ _ _ _ _ _ _ _ _ _ _ _ _ _ _ => eq_refl end
}.
End Device.

Module Link.
Record t := mk {
  AccountType : Z;
  Owner : bytes;
  Index : Uint128;
  BumpSeed : Z;
  SideAPubKey : bytes;
  SideZPubKey : bytes;
  LinkType : Z;
  Bandwidth : Z;
  Mtu : Z;
  DelayNs : Z;
  JitterNs : Z;
  TunnelId : Z;
  TunnelNet : bytes;
  Status : Z;
  Code : bytes;
  ContributorPubKey : bytes;
  SideAIfaceName : bytes;
  SideZIfaceName : bytes;
  DelayOverrideNs : Z;
  LinkHealth : Z;
  LinkDesiredStatus : Z;
  LinkTopologies : list bytes;
  LinkFlags : Z;
  PubKey : bytes
}.
#[global] Instance eta : RecordEta t := {
  eta_record := fun r => mk (AccountType r) (Owner r) (Index r) (BumpSeed r) (SideAPubKey r) (SideZPubKey r)
    (LinkType r) (Bandwidth r) (Mtu r) (DelayNs r) (JitterNs r) (TunnelId r) (TunnelNet r)
    (Status r) (Code r) (ContributorPubKey r) (SideAIfaceName r) (SideZIfaceName r)
    (DelayOverrideNs r) (LinkHealth r) (LinkDesiredStatus r) (LinkTopologies r) (LinkFlags r)
    (PubKey r);
  eta_record_id := fun r => match r with mk _ _ _ _ _ _ _ _ _ _ _ _ _ _ _ _ _ _ _ _ _ _ _ _ => eq_refl end
}.
End Link.

Module Contributor.
Record t := mk {
  AccountType : Z;
  Owner : bytes;
  Index : Uint128;
  BumpSeed : Z;
  Status : Z;
  Code : bytes;
  ReferenceCount : Z;
  OpsManagerPK : bytes;
  PubKey : bytes
}.
#[global] Instance eta : RecordEta t := {
  eta_record := fun r => mk (AccountType r) (Owner r) (Index r) (BumpSeed r) (Status r) (Code r) (ReferenceCount r)
    (OpsManagerPK r) (PubKey r);
  eta_record_id := fun r => match r with mk _ _ _ _ _ _ _ _ _ => eq_refl end
}.
End Contributor.

Module Tenant.
Record t := mk {
  AccountType : Z;
  Owner : bytes;
  BumpSeed : Z;
  Code : bytes;
  VrfId : Z;
  ReferenceCount : Z;
  Administrators : list bytes;
  PaymentStatus : Z;
  TokenAccount : bytes;
  MetroRouting : bool;
  RouteLiveness : bool;
  BillingDiscriminant : Z;
  BillingRate : Z;
  BillingLastDeductionDzEpoch : Z;
  IncludeTopologies : list bytes;
  PubKey : bytes
}.
#[global] Instance eta : RecordEta t := {
  eta_record := fun r => mk (AccountType r) (Owner r) (BumpSeed r) (Code r) (VrfId r) (ReferenceCount r)
    (Administrators r) (PaymentStatus r) (TokenAccount r) (MetroRouting r) (RouteLiveness r)
    (BillingDiscriminant r) (BillingRate r) (BillingLastDeductionDzEpoch r)
    (IncludeTopologies r) (PubKey r);
  eta_record_id := fun r => match r with mk _ _ _ _ _ _ _ _ _ _ _ _ _ _ _ _ => eq_refl end
}.
End Tenant.

Module User.
Record t := mk {
  AccountType : Z;
  Owner : bytes;
  Index : Uint128;
  BumpSeed : Z;
  UserType : Z;
  TenantPubKey : bytes;
  DevicePubKey : bytes;
  CyoaType : Z;
  ClientIp : bytes;
  DzIp : bytes;
  TunnelId : Z;
  TunnelNet : bytes;
  Status : Z;
  Publishers : list bytes;
  Subscribers : list bytes;
  ValidatorPubKey : bytes;
  TunnelEndpoint : bytes;
  TunnelFlags : Z;
  BgpStatus : Z;
  LastBgpUpAt : Z;
  LastBgpReportedAt : Z;
  BgpRttNs : Z;
  FeedPk : bytes;
  PubKey : bytes
}.
#[global] Instance eta : RecordEta t := {
  eta_record := fun r => mk (AccountType r) (Owner r) (Index r) (BumpSeed r) (UserType r) (TenantPubKey r)
    (DevicePubKey r) (CyoaType r) (ClientIp r) (DzIp r) (TunnelId r) (TunnelNet r) (Status r)
    (Publishers r) (Subscribers r) (ValidatorPubKey r) (TunnelEndpoint r) (TunnelFlags r)
    (BgpStatus r) (LastBgpUpAt r) (LastBgpReportedAt r) (BgpRttNs r) (FeedPk r) (PubKey r);
  eta_record_id := fun r => match r with mk _ _ _ _ _ _ _ _ _ _ _ _ _ _ _ _ _ _ _ _ _ _ _ _ => eq_refl end
}.
End User.

Module MulticastGroup.
Record t := mk {
  AccountType : Z;
  Owner : bytes;
  Index : Uint128;
  BumpSeed : Z;
  TenantPubKey : bytes;
  MulticastIp : bytes;
  MaxBandwidth : Z;
  Status : Z;
  Code : bytes;
  PublisherCount : Z;
  SubscriberCount : Z;
  PubKey : bytes
}.
#[global] Instance eta : RecordEta t := {
  eta_record := fun r => mk (AccountType r) (Owner r) (Index r) (BumpSeed r) (TenantPubKey r) (MulticastIp r)
    (MaxBandwidth r) (Status r) (Code r) (PublisherCount r) (SubscriberCount r) (PubKey r);
  eta_record_id := fun r => match r with mk _ _ _ _ _ _ _ _ _ _ _ _ => eq_refl end
}.
End MulticastGroup.

Module ProgramVersion.
Record t := mk {
  Major : Z;
  Minor : Z;
  Patch : Z
}.
#[global] Instance eta : RecordEta t := {
  eta_record := fun r => mk (Major r) (Minor r) (Patch r);
  eta_record_id := fun r => match r with mk _ _ _ => eq_refl end
}.
End ProgramVersion.

Module ProgramConfig.
Record t := mk {
  AccountType : Z;
  BumpSeed : Z;
  Version : ProgramVersion.t;
  MinCompatVersion : ProgramVersion.t
}.
#[global] Instance eta : RecordEta t := {
  eta_record := fun r => mk (AccountType r) (BumpSeed r) (Version r) (MinCompatVersion r);
  eta_record_id := fun r => match r with mk _ _ _ _ => eq_refl end
}.
End ProgramConfig.

Module FeedSeat.
Record t := mk {
  FeedKey : bytes;
  MaxUsers : Z;
  MaxFutureUsers : Z;
  CurrentUsers : Z;
  AnniversaryDay : Z;
  WindowEnd : Z;
  TerminatesAt : Z
}.
#[global] Instance eta : RecordEta t := {
  eta_record := fun r => mk (FeedKey r) (MaxUsers r) (MaxFutureUsers r) (CurrentUsers r) (AnniversaryDay r)
    (WindowEnd r) (TerminatesAt r);
  eta_record_id := fun r => match r with mk _ _ _ _ _ _ _ => eq_refl end
}.
End FeedSeat.

Module AccessPass.
Record t := mk {
  AccountType : Z;
  Owner : bytes;
  BumpSeed : Z;
  AccessPassTypeTag : Z;
  AssociatedPubkey : bytes;
  OthersTypeName : bytes;
  OthersKey : bytes;
  FeedSeats : list FeedSeat.t;
  ClientIp : bytes;
  UserPayer : bytes;
  LastAccessEpoch : Z;
  ConnectionCount : Z;
  Status : Z;
  MGroupPubAllowlist : list bytes;
  MGroupSubAllowlist : list bytes;
  Flags : Z;
  TenantAllowlist : list bytes;
  UnicastUserCount : Z;
  MaxUnicastUsers : Z;
  MulticastUserCount : Z;
  MaxMulticastUsers : Z;
  PubKey : bytes
}.
#[global] Instance eta : RecordEta t := {
  eta_record := fun r => mk (AccountType r) (Owner r) (BumpSeed r) (AccessPassTypeTag r) (AssociatedPubkey r)
    (OthersTypeName r) (OthersKey r) (FeedSeats r) (ClientIp r) (UserPayer r)
    (LastAccessEpoch r) (ConnectionCount r) (Status r) (MGroupPubAllowlist r)
    (MGroupSubAllowlist r) (Flags r) (TenantAllowlist r) (UnicastUserCount r)
    (MaxUnicastUsers r) (MulticastUserCount r) (MaxMulticastUsers r) (PubKey r);
  eta_record_id := fun r => match r with mk _ _ _ _ _ _ _ _ _ _ _ _ _ _ _ _ _ _ _ _ _ _ => eq_refl end
}.
End AccessPass.

Module IpAllocator.
Record t := mk {
  BaseNet : bytes;
  FirstFreeIndex : Z
}.
#[global] Instance eta : RecordEta t := {
  eta_record := fun r => mk (BaseNet r) (FirstFreeIndex r);
  eta_record_id := fun r => match r with mk _ _ => eq_refl end
}.
End IpAllocator.

Module IdAllocator.
Record t := mk {
  RangeStart : Z;
  RangeEnd : Z;
  FirstFreeIndex : Z
}.
#[global] Instance eta : RecordEta t := {
  eta_record := fun r => mk (RangeStart r) (RangeEnd r) (FirstFreeIndex r);
  eta_record_id := fun r => match r with mk _ _ _ => eq_refl end
}.
End IdAllocator.

(** [Type] says which of the two pointers is set. *)
Module Allocator.
Record t := mk {
  AType : Z;
  IpAlloc : option IpAllocator.t;
  IdAlloc : option IdAllocator.t
}.
End Allocator.

Module ResourceExtension.
Record t := mk {
  AccountType : Z;
  Owner : bytes;
  BumpSeed : Z;
  AssociatedWith : bytes;
  Allocator : Allocator.t;
  Storage : bytes;
  PubKey : bytes
}.
#[global] Instance eta : RecordEta t := {
  eta_record := fun r => mk (AccountType r) (Owner r) (BumpSeed r) (AssociatedWith r) (Allocator r) (Storage r)
    (PubKey r);
  eta_record_id := fun r => match r with mk _ _ _ _ _ _ _ => eq_refl end
}.
End ResourceExtension.

Module Permission.
Record t := mk {
  AccountType : Z;
  Owner : bytes;
  BumpSeed : Z;
  Status : Z;
  UserPayer : bytes;
  PermissionsLo : Z;
  PermissionsHi : Z;
  PubKey : bytes
}.
#[global] Instance eta : RecordEta t := {
  eta_record := fun r => mk (AccountType r) (Owner r) (BumpSeed r) (Status r) (UserPayer r) (PermissionsLo r)
    (PermissionsHi r) (PubKey r);
  eta_record_id := fun r => match r with mk _ _ _ _ _ _ _ _ => eq_refl end
}.
End Permission.

Module TopologyInfo.
Record t := mk {
  AccountType : Z;
  Owner : bytes;
  BumpSeed : Z;
  Name : bytes;
  AdminGroupBit : Z;
  FlexAlgoNumber : Z;
  Constraint : Z;
  ReferenceCount : Z;
  PubKey : bytes
}.
#[global] Instance eta : RecordEta t := {
  eta_record := fun r => mk (AccountType r) (Owner r) (BumpSeed r) (Name r) (AdminGroupBit r) (FlexAlgoNumber r)
    (Constraint r) (ReferenceCount r) (PubKey r);
  eta_record_id := fun r => match r with mk _ _ _ _ _ _ _ _ _ => eq_refl end
}.
End TopologyInfo.

Module Feed.
Record t := mk {
  AccountType : Z;
  Owner : bytes;
  BumpSeed : Z;
  Code : bytes;
  Name : bytes;
  Exchange : bytes;
  Groups : list bytes;
  PubKey : bytes
}.
#[global] Instance eta : RecordEta t := {
  eta_record := fun r => mk (AccountType r) (Owner r) (BumpSeed r) (Code r) (Name r) (Exchange r) (Groups r) (PubKey r);
  eta_record_id := fun r => match r with mk _ _ _ _ _ _ _ _ => eq_refl end
}.
End Feed.

(** ** Resource pools *)

Definition AllocatorTypeIp : Z := 0.
Definition AllocatorTypeId : Z := 1.

Definition TotalCapacity (r : ResourceExtension.t) : Z :=
  let a := ResourceExtension.Allocator r in
  if Allocator.AType a =? AllocatorTypeIp then
    match Allocator.IpAlloc a with
    | None => 0
    | Some ip =>
        let prefixLen := byte_at (IpAllocator.BaseNet ip) 4 in
        if 32 <? prefixLen then 0 else Z.shiftl 1 (32 - prefixLen)
    end
  else if Allocator.AType a =? AllocatorTypeId then
    match Allocator.IdAlloc a with
    | None => 0
    | Some id => u16 (IdAllocator.RangeEnd id - IdAllocator.RangeStart id)
    end
  else 0.

(** [for b != 0 { count += int(b & 1); b >>= 1 }]; a byte is zero after eight
    shifts, which is the fuel. *)
Fixpoint count_bits (fuel : nat) (b : Z) : Z :=
  match fuel with
  | O => 0
  | S fuel => if b =? 0 then 0 else Z.land b 1 + count_bits fuel (Z.shiftr b 1)
  end.

Definition AllocatedCount (r : ResourceExtension.t) : Z :=
  fold_left (fun count b => count + count_bits 8 b) (ResourceExtension.Storage r) 0.

Definition AvailableCount (r : ResourceExtension.t) : Z := TotalCapacity r - AllocatedCount r.

Definition BaseNetString (r : ResourceExtension.t) : bytes :=
  let a := ResourceExtension.Allocator r in
  if negb (Allocator.AType a =? AllocatorTypeIp) then []
  else match Allocator.IpAlloc a with
       | None => []
       | Some ip => onChainNetToString (IpAllocator.BaseNet ip)
       end.

Definition RangeString (r : ResourceExtension.t) : bytes :=
  let a := ResourceExtension.Allocator r in
  if negb (Allocator.AType a =? AllocatorTypeId) then []
  else match Allocator.IdAlloc a with
       | None => []
       | Some id => lit "[" ++ format_uint (IdAllocator.RangeStart id) ++ lit ", " ++
                    format_uint (IdAllocator.RangeEnd id) ++ lit ")"
       end.
