(* ===== verification/Deserialize.v ===== *)
(** * On-chain accounts: deserialization

    Models [smartcontract/sdk/go/serviceability/deserialize.go]: one reader per
    account type, its fields in the order of the code. For each type there is
    the layout the on-chain program writes ([encode_*]), what makes a value
    encodable ([valid_*]) and the proof that the reader reads it back. *)

From stdpp Require Import base tactics numbers list.
From Stdlib Require Import ZArith Lia ZifyBool ZifyNat.
From S2P Require Import Prelude Bytes GoStrings ByteReader Accounts.

#[local] Open Scope Z_scope.

(** ** Readers *)

Definition DeserializeGlobalState : Rd GlobalState.t :=
  xAccountType ← ReadU8;
  xBumpSeed ← ReadU8;
  xAccountIndex ← ReadU128;
  xFoundationAllowlist ← ReadPubkeySlice;
  _ ← ReadPubkeySlice;
  _ ← ReadPubkeySlice;
  xActivatorAuthorityPK ← ReadPubkey;
  xSentinelAuthorityPK ← ReadPubkey;
  xContributorAirdropLamports ← ReadU64;
  xUserAirdropLamports ← ReadU64;
  xHealthOraclePK ← ReadPubkey;
  xQAAllowlist ← ReadPubkeySlice;
  xFeatureFlags ← ReadU128;
  xFeedAuthorityPK ← ReadPubkey;
  mret (GlobalState.mk xAccountType xBumpSeed xAccountIndex xFoundationAllowlist xActivatorAuthorityPK
    xSentinelAuthorityPK xContributorAirdropLamports xUserAirdropLamports xHealthOraclePK
    xQAAllowlist xFeatureFlags xFeedAuthorityPK zero_key).

Definition DeserializeGlobalConfig : Rd GlobalConfig.t :=
  xAccountType ← ReadU8;
  xOwner ← ReadPubkey;
  xBumpSeed ← ReadU8;
  xLocalASN ← ReadU32;
  xRemoteASN ← ReadU32;
  xDeviceTunnelBlock ← ReadNetworkV4;
  xUserTunnelBlock ← ReadNetworkV4;
  xMulticastGroupBlock ← ReadNetworkV4;
  xNextBGPCommunity ← ReadU16;
  xMulticastPublisherBlock ← ReadNetworkV4;
  mret (GlobalConfig.mk xAccountType xOwner xBumpSeed xLocalASN xRemoteASN xDeviceTunnelBlock xUserTunnelBlock
    xMulticastGroupBlock xNextBGPCommunity xMulticastPublisherBlock zero_key).

Definition DeserializeLocation : Rd Location.t :=
  xAccountType ← ReadU8;
  xOwner ← ReadPubkey;
  xIndex ← ReadU128;
  xBumpSeed ← ReadU8;
  xLat ← ReadF64;
  xLng ← ReadF64;
  xLocId ← ReadU32;
  xStatus ← ReadU8;
  xCode ← ReadString;
  xName ← ReadString;
  xCountry ← ReadString;
  xReferenceCount ← ReadU32;
  mret (Location.mk xAccountType xOwner xIndex xBumpSeed xLat xLng xLocId xStatus xCode xName xCountry
    xReferenceCount zero_key).

Definition DeserializeExchange : Rd Exchange.t :=
  xAccountType ← ReadU8;
  xOwner ← ReadPubkey;
  xIndex ← ReadU128;
  xBumpSeed ← ReadU8;
  xLat ← ReadF64;
  xLng ← ReadF64;
  xBgpCommunity ← ReadU16;
  _ ← ReadU16;
  xStatus ← ReadU8;
  xCode ← ReadString;
  xName ← ReadString;
  xReferenceCount ← ReadU32;
  xDevice1PK ← ReadPubkey;
  xDevice2PK ← ReadPubkey;
  mret (Exchange.mk xAccountType xOwner xIndex xBumpSeed xLat xLng xBgpCommunity xReferenceCount xStatus xCode
    xName xDevice1PK xDevice2PK zero_key).

Definition DeserializeContributor : Rd Contributor.t :=
  xAccountType ← ReadU8;
  xOwner ← ReadPubkey;
  xIndex ← ReadU128;
  xBumpSeed ← ReadU8;
  xStatus ← ReadU8;
  xCode ← ReadString;
  xReferenceCount ← ReadU32;
  xOpsManagerPK ← ReadPubkey;
  mret (Contributor.mk xAccountType xOwner xIndex xBumpSeed xStatus xCode xReferenceCount xOpsManagerPK zero_key).

(** An interface with every field zero, as [var iface Interface]. *)
Definition zero_iface : Interface.t :=
  Interface.mk 0 0 0 [] 0 0 0 0 0 0 0 0 0 (replicate 5 0) 0 false [].

Definition DeserializeInterfaceV1 (iface : Interface.t) : Rd Interface.t :=
  status ← ReadU8;
  name ← ReadString;
  itype ← ReadU8;
  ltype ← ReadU8;
  vlan ← ReadU16;
  ipnet ← ReadNetworkV4;
  seg ← ReadU16;
  ute ← (x ← ReadU8; mret (negb (x =? 0)));
  mret (Interface.mk (Interface.Size iface) (Interface.Version iface) status name itype
    (Interface.InterfaceCYOA iface) (Interface.InterfaceDIA iface) ltype
    (Interface.Bandwidth iface) (Interface.Cir iface) (Interface.Mtu iface)
    (Interface.RoutingMode iface) vlan ipnet seg ute (Interface.FlexAlgoNodeSegments iface)).

Definition DeserializeInterfaceV2 (iface : Interface.t) : Rd Interface.t :=
  status ← ReadU8;
  name ← ReadString;
  itype ← ReadU8;
  cyoa ← ReadU8;
  dia ← ReadU8;
  ltype ← ReadU8;
  bw ← ReadU64;
  cir ← ReadU64;
  mtu ← ReadU16;
  rmode ← ReadU8;
  vlan ← ReadU16;
  ipnet ← ReadNetworkV4;
  seg ← ReadU16;
  ute ← (x ← ReadU8; mret (negb (x =? 0)));
  mret (Interface.mk (Interface.Size iface) (Interface.Version iface) status name itype cyoa dia
    ltype bw cir mtu rmode vlan ipnet seg ute (Interface.FlexAlgoNodeSegments iface)).

(** The segments of a version 3 interface are read and dropped. *)
Definition read_segment : Rd FlexAlgoNodeSegment.t :=
  topo ← ReadPubkey;
  idx ← ReadU16;
  mret (FlexAlgoNodeSegment.mk topo idx).

Definition DeserializeInterface (iface : Interface.t) : Rd Interface.t :=
  version ← ReadU8;
  let iface := iface <| Interface.Version := version |> in
  if version =? 0 then DeserializeInterfaceV1 iface
  else if (version =? 1) || (version =? 2) then DeserializeInterfaceV2 iface
  else if version =? 3 then
    iface ← DeserializeInterfaceV2 iface;
    segCount ← ReadU32;
    _ ← read_n (Z.to_nat segCount) read_segment;
    mret iface
  else mret iface.

(** The segments loop of [DeserializeInterfaceSized]: it stops when fewer than
    34 bytes remain. *)
Fixpoint read_segments (n : nat) : Rd (list FlexAlgoNodeSegment.t) :=
  match n with
  | O => mret []
  | S n =>
      rem ← Remaining;
      if rem <? 34 then mret []
      else (x ← read_segment; xs ← read_segments n; mret (x :: xs))
  end.

(** The prefix and the known body fields. *)
Definition read_iface_known (iface : Interface.t) : Rd Interface.t :=
  size ← ReadU16;
  version ← ReadU8;
  iface ← DeserializeInterfaceV2
            (iface <| Interface.Size := size |> <| Interface.Version := version |>);
  segCount ← ReadU32;
  segs ← read_segments (Z.to_nat segCount);
  mret (iface <| Interface.FlexAlgoNodeSegments := segs |>).

Definition DeserializeInterfaceSized (iface : Interface.t) : Rd Interface.t :=
  start ← GetOffset;
  iface ← read_iface_known iface;
  cur ← GetOffset;
  let target := (start + Z.to_nat (Interface.Size iface))%nat in
  _ ← (if (cur <? target)%nat then Skip (target - cur) else mret ());
  mret iface.

(** The head of [DeserializeDevice], up to the legacy interfaces. *)
Definition read_device_head : Rd Device.t :=
  accountType ← ReadU8;
  owner ← ReadPubkey;
  index ← ReadU128;
  bump ← ReadU8;
  location ← ReadPubkey;
  exchange ← ReadPubkey;
  deviceType ← ReadU8;
  publicIp ← ReadIPv4;
  status ← ReadU8;
  code ← ReadString;
  prefixes ← ReadNetworkV4Slice;
  metrics ← ReadPubkey;
  contributor ← ReadPubkey;
  vrf ← ReadString;
  mret (Device.mk accountType owner index bump location exchange deviceType publicIp status code
    prefixes metrics contributor vrf [] 0 0 0 0 0 0 0 0 0 0 0 0 [] None zero_key).

(** The counters after the legacy interfaces. *)
Definition read_device_counters (dev : Device.t) : Rd Device.t :=
  referenceCount ← ReadU32;
  users ← ReadU16;
  maxUsers ← ReadU16;
  health ← ReadU8;
  desired ← ReadU8;
  unicast ← ReadU16;
  subscribers ← ReadU16;
  maxUnicast ← ReadU16;
  maxSubscribers ← ReadU16;
  reserved ← ReadU16;
  publishers ← ReadU16;
  maxPublishers ← ReadU16;
  mret (dev <| Device.ReferenceCount := referenceCount |> <| Device.UsersCount := users |>
    <| Device.MaxUsers := maxUsers |> <| Device.DeviceHealth := health |>
    <| Device.DeviceDesiredStatus := desired |> <| Device.UnicastUsersCount := unicast |>
    <| Device.MulticastSubscribersCount := subscribers |>
    <| Device.MaxUnicastUsers := maxUnicast |> <| Device.MaxMulticastSubscribers := maxSubscribers |>
    <| Device.ReservedSeats := reserved |> <| Device.MulticastPublishersCount := publishers |>
    <| Device.MaxMulticastPublishers := maxPublishers |>).

(** An interface rebuilt from the legacy slot. *)
Definition rebuilt (i : Interface.t) : Interface.t :=
  i <| Interface.Version := CurrentInterfaceVersion |> <| Interface.Size := 0 |>.

(** The trailing interfaces. *)
Definition read_device_interfaces (dev : Device.t) : Rd Device.t :=
  rem ← Remaining;
  if rem =? 0 then
    mret (dev <| Device.Interfaces := map rebuilt (Device.DeprecatedInterfaces dev) |>)
  else
    newLen ← ReadU32;
    if negb (newLen =? Z.of_nat (length (Device.DeprecatedInterfaces dev))) then
      mret (dev <| Device.DeserializeError :=
                     Some (newLen, length (Device.DeprecatedInterfaces dev)) |>)
    else
      ifaces ← read_n (Z.to_nat newLen) (DeserializeInterfaceSized zero_iface);
      mret (dev <| Device.Interfaces := ifaces |>).

Definition DeserializeDevice : Rd Device.t :=
  dev ← read_device_head;
  len ← ReadU32;
  rem ← Remaining;
  if (0 <? len) && (rem <? u32 (len * 18)) then mret dev
  else
    ifaces ← read_n (Z.to_nat len) (DeserializeInterface zero_iface);
    dev ← read_device_counters (dev <| Device.DeprecatedInterfaces := ifaces |>);
    read_device_interfaces dev.

Definition DeserializeLink : Rd Link.t :=
  xAccountType ← ReadU8;
  xOwner ← ReadPubkey;
  xIndex ← ReadU128;
  xBumpSeed ← ReadU8;
  xSideAPubKey ← ReadPubkey;
  xSideZPubKey ← ReadPubkey;
  xLinkType ← ReadU8;
  xBandwidth ← ReadU64;
  xMtu ← ReadU32;
  xDelayNs ← ReadU64;
  xJitterNs ← ReadU64;
  xTunnelId ← ReadU16;
  xTunnelNet ← ReadNetworkV4;
  xStatus ← ReadU8;
  xCode ← ReadString;
  xContributorPubKey ← ReadPubkey;
  xSideAIfaceName ← ReadString;
  xSideZIfaceName ← ReadString;
  xDelayOverrideNs ← ReadU64;
  xLinkHealth ← ReadU8;
  xLinkDesiredStatus ← ReadU8;
  xLinkTopologies ← ReadPubkeySlice;
  xLinkFlags ← ReadU32;
  mret (Link.mk xAccountType xOwner xIndex xBumpSeed xSideAPubKey xSideZPubKey xLinkType xBandwidth xMtu
    xDelayNs xJitterNs xTunnelId xTunnelNet xStatus xCode xContributorPubKey xSideAIfaceName
    xSideZIfaceName xDelayOverrideNs xLinkHealth xLinkDesiredStatus xLinkTopologies xLinkFlags
    zero_key).

Definition DeserializeUser : Rd User.t :=
  xAccountType ← ReadU8;
  xOwner ← ReadPubkey;
  xIndex ← ReadU128;
  xBumpSeed ← ReadU8;
  xUserType ← ReadU8;
  xTenantPubKey ← ReadPubkey;
  xDevicePubKey ← ReadPubkey;
  xCyoaType ← ReadU8;
  xClientIp ← ReadIPv4;
  xDzIp ← ReadIPv4;
  xTunnelId ← ReadU16;
  xTunnelNet ← ReadNetworkV4;
  xStatus ← ReadU8;
  xPublishers ← ReadPubkeySlice;
  xSubscribers ← ReadPubkeySlice;
  xValidatorPubKey ← ReadPubkey;
  xTunnelEndpoint ← ReadIPv4;
  xTunnelFlags ← ReadU8;
  xBgpStatus ← ReadU8;
  xLastBgpUpAt ← ReadU64;
  xLastBgpReportedAt ← ReadU64;
  xBgpRttNs ← ReadU64;
  xFeedPk ← ReadPubkey;
  mret (User.mk xAccountType xOwner xIndex xBumpSeed xUserType xTenantPubKey xDevicePubKey xCyoaType
    xClientIp xDzIp xTunnelId xTunnelNet xStatus xPublishers xSubscribers xValidatorPubKey
    xTunnelEndpoint xTunnelFlags xBgpStatus xLastBgpUpAt xLastBgpReportedAt xBgpRttNs xFeedPk
    zero_key).

Definition DeserializeMulticastGroup : Rd MulticastGroup.t :=
  xAccountType ← ReadU8;
  xOwner ← ReadPubkey;
  xIndex ← ReadU128;
  xBumpSeed ← ReadU8;
  xTenantPubKey ← ReadPubkey;
  xMulticastIp ← ReadIPv4;
  xMaxBandwidth ← ReadU64;
  xStatus ← ReadU8;
  xCode ← ReadString;
  xPublisherCount ← ReadU32;
  xSubscriberCount ← ReadU32;
  mret (MulticastGroup.mk xAccountType xOwner xIndex xBumpSeed xTenantPubKey xMulticastIp xMaxBandwidth xStatus xCode
    xPublisherCount xSubscriberCount zero_key).

Definition DeserializeTenant : Rd Tenant.t :=
  xAccountType ← ReadU8;
  xOwner ← ReadPubkey;
  xBumpSeed ← ReadU8;
  xCode ← ReadString;
  xVrfId ← ReadU16;
  xReferenceCount ← ReadU32;
  xAdministrators ← ReadPubkeySlice;
  xPaymentStatus ← ReadU8;
  xTokenAccount ← ReadPubkey;
  xMetroRouting ← (x ← ReadU8; mret (negb (x =? 0)));
  xRouteLiveness ← (x ← ReadU8; mret (negb (x =? 0)));
  xBillingDiscriminant ← ReadU8;
  xBillingRate ← ReadU64;
  xBillingLastDeductionDzEpoch ← ReadU64;
  xIncludeTopologies ← ReadPubkeySlice;
  mret (Tenant.mk xAccountType xOwner xBumpSeed xCode xVrfId xReferenceCount xAdministrators xPaymentStatus
    xTokenAccount xMetroRouting xRouteLiveness xBillingDiscriminant xBillingRate
    xBillingLastDeductionDzEpoch xIncludeTopologies zero_key).

Definition DeserializePermission : Rd Permission.t :=
  xAccountType ← ReadU8;
  xOwner ← ReadPubkey;
  xBumpSeed ← ReadU8;
  xStatus ← ReadU8;
  xUserPayer ← ReadPubkey;
  xPermissionsLo ← ReadU64;
  xPermissionsHi ← ReadU64;
  mret (Permission.mk xAccountType xOwner xBumpSeed xStatus xUserPayer xPermissionsLo xPermissionsHi zero_key).

Definition DeserializeTopologyInfo : Rd TopologyInfo.t :=
  xAccountType ← ReadU8;
  xOwner ← ReadPubkey;
  xBumpSeed ← ReadU8;
  xName ← ReadString;
  xAdminGroupBit ← ReadU8;
  xFlexAlgoNumber ← ReadU8;
  xConstraint ← ReadU8;
  xReferenceCount ← ReadU32;
  mret (TopologyInfo.mk xAccountType xOwner xBumpSeed xName xAdminGroupBit xFlexAlgoNumber xConstraint
    xReferenceCount zero_key).

Definition DeserializeFeed : Rd Feed.t :=
  xAccountType ← ReadU8;
  xOwner ← ReadPubkey;
  xBumpSeed ← ReadU8;
  xCode ← ReadString;
  xName ← ReadString;
  xExchange ← ReadPubkey;
  xGroups ← ReadPubkeySlice;
  mret (Feed.mk xAccountType xOwner xBumpSeed xCode xName xExchange xGroups zero_key).

Definition DeserializeProgramVersion : Rd ProgramVersion.t :=
  major ← ReadU32;
  minor ← ReadU32;
  patch ← ReadU32;
  mret (ProgramVersion.mk major minor patch).

Definition DeserializeProgramConfig : Rd ProgramConfig.t :=
  accountType ← ReadU8;
  bump ← ReadU8;
  version ← DeserializeProgramVersion;
  minCompat ← DeserializeProgramVersion;
  mret (ProgramConfig.mk accountType bump version minCompat).

Definition read_feed_seat : Rd FeedSeat.t :=
  key ← ReadPubkey;
  maxUsers ← ReadU8;
  maxFuture ← ReadU8;
  current ← ReadU8;
  day ← ReadU8;
  windowEnd ← ReadI64;
  terminates ← ReadI64;
  mret (FeedSeat.mk key maxUsers maxFuture current day windowEnd terminates).

(** The data of an access pass's type: pubkey, two strings, feed seats. *)
Definition read_pass_data (tag : Z) : Rd (pubkey * bytes * bytes * list FeedSeat.t) :=
  if (tag =? 1) || (tag =? 2) then
    k ← ReadPubkey; mret (k, [], [], [])
  else if tag =? 3 then
    tn ← ReadString; key ← ReadString; mret (zero_key, tn, key, [])
  else if tag =? 4 then
    count ← ReadU32;
    rem ← Remaining;
    if (0 <? count) && (count <=? rem / 52) then
      seats ← read_n (Z.to_nat count) read_feed_seat; mret (zero_key, [], [], seats)
    else mret (zero_key, [], [], [])
  else mret (zero_key, [], [], []).

Definition DeserializeAccessPass : Rd AccessPass.t :=
  accountType ← ReadU8;
  owner ← ReadPubkey;
  bump ← ReadU8;
  tag ← ReadU8;
  data ← read_pass_data tag;
  clientIp ← ReadIPv4;
  payer ← ReadPubkey;
  epoch ← ReadU64;
  conns ← ReadU16;
  status ← ReadU8;
  pubs ← ReadPubkeySlice;
  subs ← ReadPubkeySlice;
  flags ← ReadU8;
  tenants ← ReadPubkeySlice;
  unicast ← ReadU16;
  maxUnicast ← ReadU16OrDefault 1;
  multicast ← ReadU16;
  maxMulticast ← ReadU16OrDefault 1;
  let '(assoc, tn, key, seats) := data in
  mret (AccessPass.mk accountType owner bump tag assoc tn key seats clientIp payer epoch conns status
    pubs subs flags tenants unicast maxUnicast multicast maxMulticast zero_key).

Definition resourceExtensionBitmapOffset : nat := 88.

(** Skip the padding before the bitmap and read what follows it. *)
Definition read_storage : Rd bytes :=
  cur ← GetOffset;
  _ ← (if (cur <? resourceExtensionBitmapOffset)%nat
       then Skip (resourceExtensionBitmapOffset - cur) else mret ());
  rem ← Remaining;
  if 0 <? rem then ReadBytes (Z.to_nat rem) else mret [].

Definition DeserializeResourceExtension : Rd ResourceExtension.t :=
  accountType ← ReadU8;
  owner ← ReadPubkey;
  bump ← ReadU8;
  assoc ← ReadPubkey;
  atype ← ReadU8;
  if atype =? AllocatorTypeIp then
    base ← ReadNetworkV4;
    first ← ReadU64;
    storage ← read_storage;
    mret (ResourceExtension.mk accountType owner bump assoc
      (Allocator.mk atype (Some (IpAllocator.mk base first)) None) storage zero_key)
  else if atype =? AllocatorTypeId then
    start ← ReadU16;
    stop ← ReadU16;
    first ← ReadU64;
    storage ← read_storage;
    mret (ResourceExtension.mk accountType owner bump assoc
      (Allocator.mk atype None (Some (IdAllocator.mk start stop first))) storage zero_key)
  else mret (ResourceExtension.mk accountType owner bump assoc
      (Allocator.mk atype None None) [] zero_key).

(** ** Layouts *)

Definition encode_GlobalState (a : GlobalState.t) : bytes := concat [
  enc_u8 (GlobalState.AccountType a); enc_u8 (GlobalState.BumpSeed a);
  enc_u128 (GlobalState.AccountIndex a);
  enc_vec (fun k => k) (GlobalState.FoundationAllowlist a); enc_vec (fun k => k) [];
  enc_vec (fun k => k) []; GlobalState.ActivatorAuthorityPK a;
  GlobalState.SentinelAuthorityPK a; enc_u64 (GlobalState.ContributorAirdropLamports a);
  enc_u64 (GlobalState.UserAirdropLamports a); GlobalState.HealthOraclePK a;
  enc_vec (fun k => k) (GlobalState.QAAllowlist a); enc_u128 (GlobalState.FeatureFlags a);
  GlobalState.FeedAuthorityPK a].

Definition valid_GlobalState (a : GlobalState.t) : Prop :=
  is_u8 (GlobalState.AccountType a) /\ is_u8 (GlobalState.BumpSeed a) /\
  is_u64 (High (GlobalState.AccountIndex a)) /\ is_u64 (Low (GlobalState.AccountIndex a)) /\
  Forall is_key (GlobalState.FoundationAllowlist a) /\
  is_key (GlobalState.ActivatorAuthorityPK a) /\ is_key (GlobalState.SentinelAuthorityPK a) /\
  is_u64 (GlobalState.ContributorAirdropLamports a) /\
  is_u64 (GlobalState.UserAirdropLamports a) /\ is_key (GlobalState.HealthOraclePK a) /\
  Forall is_key (GlobalState.QAAllowlist a) /\
  is_u64 (High (GlobalState.FeatureFlags a)) /\ is_u64 (Low (GlobalState.FeatureFlags a)) /\
  is_key (GlobalState.FeedAuthorityPK a) /\ GlobalState.PubKey a = zero_key.

Definition encode_GlobalConfig (a : GlobalConfig.t) : bytes := concat [
  enc_u8 (GlobalConfig.AccountType a); GlobalConfig.Owner a; enc_u8 (GlobalConfig.BumpSeed a);
  enc_u32 (GlobalConfig.LocalASN a); enc_u32 (GlobalConfig.RemoteASN a);
  GlobalConfig.DeviceTunnelBlock a; GlobalConfig.UserTunnelBlock a;
  GlobalConfig.MulticastGroupBlock a; enc_u16 (GlobalConfig.NextBGPCommunity a);
  GlobalConfig.MulticastPublisherBlock a].

Definition valid_GlobalConfig (a : GlobalConfig.t) : Prop :=
  is_u8 (GlobalConfig.AccountType a) /\ is_key (GlobalConfig.Owner a) /\
  is_u8 (GlobalConfig.BumpSeed a) /\ is_u32 (GlobalConfig.LocalASN a) /\
  is_u32 (GlobalConfig.RemoteASN a) /\ length (GlobalConfig.DeviceTunnelBlock a) = 5%nat /\
  length (GlobalConfig.UserTunnelBlock a) = 5%nat /\
  length (GlobalConfig.MulticastGroupBlock a) = 5%nat /\
  is_u16 (GlobalConfig.NextBGPCommunity a) /\
  length (GlobalConfig.MulticastPublisherBlock a) = 5%nat /\ GlobalConfig.PubKey a = zero_key.

Definition encode_Location (a : Location.t) : bytes := concat [
  enc_u8 (Location.AccountType a); Location.Owner a; enc_u128 (Location.Index a);
  enc_u8 (Location.BumpSeed a); enc_u64 (Location.Lat a); enc_u64 (Location.Lng a);
  enc_u32 (Location.LocId a); enc_u8 (Location.Status a); enc_string (Location.Code a);
  enc_string (Location.Name a); enc_string (Location.Country a);
  enc_u32 (Location.ReferenceCount a)].

Definition valid_Location (a : Location.t) : Prop :=
  is_u8 (Location.AccountType a) /\ is_key (Location.Owner a) /\
  is_u64 (High (Location.Index a)) /\ is_u64 (Low (Location.Index a)) /\
  is_u8 (Location.BumpSeed a) /\ is_u64 (Location.Lat a) /\ is_u64 (Location.Lng a) /\
  is_u32 (Location.LocId a) /\ is_u8 (Location.Status a) /\ is_short (Location.Code a) /\
  is_short (Location.Name a) /\ is_short (Location.Country a) /\
  is_u32 (Location.ReferenceCount a) /\ Location.PubKey a = zero_key.

Definition encode_Exchange (a : Exchange.t) : bytes := concat [
  enc_u8 (Exchange.AccountType a); Exchange.Owner a; enc_u128 (Exchange.Index a);
  enc_u8 (Exchange.BumpSeed a); enc_u64 (Exchange.Lat a); enc_u64 (Exchange.Lng a);
  enc_u16 (Exchange.BgpCommunity a); enc_u16 0; enc_u8 (Exchange.Status a);
  enc_string (Exchange.Code a); enc_string (Exchange.Name a);
  enc_u32 (Exchange.ReferenceCount a); Exchange.Device1PK a; Exchange.Device2PK a].

Definition valid_Exchange (a : Exchange.t) : Prop :=
  is_u8 (Exchange.AccountType a) /\ is_key (Exchange.Owner a) /\
  is_u64 (High (Exchange.Index a)) /\ is_u64 (Low (Exchange.Index a)) /\
  is_u8 (Exchange.BumpSeed a) /\ is_u64 (Exchange.Lat a) /\ is_u64 (Exchange.Lng a) /\
  is_u16 (Exchange.BgpCommunity a) /\ is_u8 (Exchange.Status a) /\
  is_short (Exchange.Code a) /\ is_short (Exchange.Name a) /\
  is_u32 (Exchange.ReferenceCount a) /\ is_key (Exchange.Device1PK a) /\
  is_key (Exchange.Device2PK a) /\ Exchange.PubKey a = zero_key.

Definition encode_Contributor (a : Contributor.t) : bytes := concat [
  enc_u8 (Contributor.AccountType a); Contributor.Owner a; enc_u128 (Contributor.Index a);
  enc_u8 (Contributor.BumpSeed a); enc_u8 (Contributor.Status a);
  enc_string (Contributor.Code a); enc_u32 (Contributor.ReferenceCount a);
  Contributor.OpsManagerPK a].

Definition valid_Contributor (a : Contributor.t) : Prop :=
  is_u8 (Contributor.AccountType a) /\ is_key (Contributor.Owner a) /\
  is_u64 (High (Contributor.Index a)) /\ is_u64 (Low (Contributor.Index a)) /\
  is_u8 (Contributor.BumpSeed a) /\ is_u8 (Contributor.Status a) /\
  is_short (Contributor.Code a) /\ is_u32 (Contributor.ReferenceCount a) /\
  is_key (Contributor.OpsManagerPK a) /\ Contributor.PubKey a = zero_key.

Definition encode_Link (a : Link.t) : bytes := concat [
  enc_u8 (Link.AccountType a); Link.Owner a; enc_u128 (Link.Index a);
  enc_u8 (Link.BumpSeed a); Link.SideAPubKey a; Link.SideZPubKey a; enc_u8 (Link.LinkType a);
  enc_u64 (Link.Bandwidth a); enc_u32 (Link.Mtu a); enc_u64 (Link.DelayNs a);
  enc_u64 (Link.JitterNs a); enc_u16 (Link.TunnelId a); Link.TunnelNet a;
  enc_u8 (Link.Status a); enc_string (Link.Code a); Link.ContributorPubKey a;
  enc_string (Link.SideAIfaceName a); enc_string (Link.SideZIfaceName a);
  enc_u64 (Link.DelayOverrideNs a); enc_u8 (Link.LinkHealth a);
  enc_u8 (Link.LinkDesiredStatus a); enc_vec (fun k => k) (Link.LinkTopologies a);
  enc_u32 (Link.LinkFlags a)].

Definition valid_Link (a : Link.t) : Prop :=
  is_u8 (Link.AccountType a) /\ is_key (Link.Owner a) /\
  is_u64 (High (Link.Index a)) /\ is_u64 (Low (Link.Index a)) /\ is_u8 (Link.BumpSeed a) /\
  is_key (Link.SideAPubKey a) /\ is_key (Link.SideZPubKey a) /\ is_u8 (Link.LinkType a) /\
  is_u64 (Link.Bandwidth a) /\ is_u32 (Link.Mtu a) /\ is_u64 (Link.DelayNs a) /\
  is_u64 (Link.JitterNs a) /\ is_u16 (Link.TunnelId a) /\ length (Link.TunnelNet a) = 5%nat /\
  is_u8 (Link.Status a) /\ is_short (Link.Code a) /\ is_key (Link.ContributorPubKey a) /\
  is_short (Link.SideAIfaceName a) /\ is_short (Link.SideZIfaceName a) /\
  is_u64 (Link.DelayOverrideNs a) /\ is_u8 (Link.LinkHealth a) /\
  is_u8 (Link.LinkDesiredStatus a) /\ Forall is_key (Link.LinkTopologies a) /\
  is_u32 (Link.LinkFlags a) /\ Link.PubKey a = zero_key.

Definition encode_User (a : User.t) : bytes := concat [
  enc_u8 (User.AccountType a); User.Owner a; enc_u128 (User.Index a);
  enc_u8 (User.BumpSeed a); enc_u8 (User.UserType a); User.TenantPubKey a;
  User.DevicePubKey a; enc_u8 (User.CyoaType a); User.ClientIp a; User.DzIp a;
  enc_u16 (User.TunnelId a); User.TunnelNet a; enc_u8 (User.Status a);
  enc_vec (fun k => k) (User.Publishers a); enc_vec (fun k => k) (User.Subscribers a);
  User.ValidatorPubKey a; User.TunnelEndpoint a; enc_u8 (User.TunnelFlags a);
  enc_u8 (User.BgpStatus a); enc_u64 (User.LastBgpUpAt a); enc_u64 (User.LastBgpReportedAt a);
  enc_u64 (User.BgpRttNs a); User.FeedPk a].

Definition valid_User (a : User.t) : Prop :=
  is_u8 (User.AccountType a) /\ is_key (User.Owner a) /\
  is_u64 (High (User.Index a)) /\ is_u64 (Low (User.Index a)) /\ is_u8 (User.BumpSeed a) /\
  is_u8 (User.UserType a) /\ is_key (User.TenantPubKey a) /\ is_key (User.DevicePubKey a) /\
  is_u8 (User.CyoaType a) /\ length (User.ClientIp a) = 4%nat /\
  length (User.DzIp a) = 4%nat /\ is_u16 (User.TunnelId a) /\
  length (User.TunnelNet a) = 5%nat /\ is_u8 (User.Status a) /\
  Forall is_key (User.Publishers a) /\ Forall is_key (User.Subscribers a) /\
  is_key (User.ValidatorPubKey a) /\ length (User.TunnelEndpoint a) = 4%nat /\
  is_u8 (User.TunnelFlags a) /\ is_u8 (User.BgpStatus a) /\ is_u64 (User.LastBgpUpAt a) /\
  is_u64 (User.LastBgpReportedAt a) /\ is_u64 (User.BgpRttNs a) /\ is_key (User.FeedPk a) /\
  User.PubKey a = zero_key.

Definition encode_MulticastGroup (a : MulticastGroup.t) : bytes := concat [
  enc_u8 (MulticastGroup.AccountType a); MulticastGroup.Owner a;
  enc_u128 (MulticastGroup.Index a); enc_u8 (MulticastGroup.BumpSeed a);
  MulticastGroup.TenantPubKey a; MulticastGroup.MulticastIp a;
  enc_u64 (MulticastGroup.MaxBandwidth a); enc_u8 (MulticastGroup.Status a);
  enc_string (MulticastGroup.Code a); enc_u32 (MulticastGroup.PublisherCount a);
  enc_u32 (MulticastGroup.SubscriberCount a)].

Definition valid_MulticastGroup (a : MulticastGroup.t) : Prop :=
  is_u8 (MulticastGroup.AccountType a) /\ is_key (MulticastGroup.Owner a) /\
  is_u64 (High (MulticastGroup.Index a)) /\ is_u64 (Low (MulticastGroup.Index a)) /\
  is_u8 (MulticastGroup.BumpSeed a) /\ is_key (MulticastGroup.TenantPubKey a) /\
  length (MulticastGroup.MulticastIp a) = 4%nat /\ is_u64 (MulticastGroup.MaxBandwidth a) /\
  is_u8 (MulticastGroup.Status a) /\ is_short (MulticastGroup.Code a) /\
  is_u32 (MulticastGroup.PublisherCount a) /\ is_u32 (MulticastGroup.SubscriberCount a) /\
  MulticastGroup.PubKey a = zero_key.

Definition encode_Tenant (a : Tenant.t) : bytes := concat [
  enc_u8 (Tenant.AccountType a); Tenant.Owner a; enc_u8 (Tenant.BumpSeed a);
  enc_string (Tenant.Code a); enc_u16 (Tenant.VrfId a); enc_u32 (Tenant.ReferenceCount a);
  enc_vec (fun k => k) (Tenant.Administrators a); enc_u8 (Tenant.PaymentStatus a);
  Tenant.TokenAccount a; enc_bool (Tenant.MetroRouting a); enc_bool (Tenant.RouteLiveness a);
  enc_u8 (Tenant.BillingDiscriminant a); enc_u64 (Tenant.BillingRate a);
  enc_u64 (Tenant.BillingLastDeductionDzEpoch a);
  enc_vec (fun k => k) (Tenant.IncludeTopologies a)].

Definition valid_Tenant (a : Tenant.t) : Prop :=
  is_u8 (Tenant.AccountType a) /\ is_key (Tenant.Owner a) /\ is_u8 (Tenant.BumpSeed a) /\
  is_short (Tenant.Code a) /\ is_u16 (Tenant.VrfId a) /\ is_u32 (Tenant.ReferenceCount a) /\
  Forall is_key (Tenant.Administrators a) /\ is_u8 (Tenant.PaymentStatus a) /\
  is_key (Tenant.TokenAccount a) /\ is_u8 (Tenant.BillingDiscriminant a) /\
  is_u64 (Tenant.BillingRate a) /\ is_u64 (Tenant.BillingLastDeductionDzEpoch a) /\
  Forall is_key (Tenant.IncludeTopologies a) /\ Tenant.PubKey a = zero_key.

Definition encode_Permission (a : Permission.t) : bytes := concat [
  enc_u8 (Permission.AccountType a); Permission.Owner a; enc_u8 (Permission.BumpSeed a);
  enc_u8 (Permission.Status a); Permission.UserPayer a; enc_u64 (Permission.PermissionsLo a);
  enc_u64 (Permission.PermissionsHi a)].

Definition valid_Permission (a : Permission.t) : Prop :=
  is_u8 (Permission.AccountType a) /\ is_key (Permission.Owner a) /\
  is_u8 (Permission.BumpSeed a) /\ is_u8 (Permission.Status a) /\
  is_key (Permission.UserPayer a) /\ is_u64 (Permission.PermissionsLo a) /\
  is_u64 (Permission.PermissionsHi a) /\ Permission.PubKey a = zero_key.

Definition encode_TopologyInfo (a : TopologyInfo.t) : bytes := concat [
  enc_u8 (TopologyInfo.AccountType a); TopologyInfo.Owner a; enc_u8 (TopologyInfo.BumpSeed a);
  enc_string (TopologyInfo.Name a); enc_u8 (TopologyInfo.AdminGroupBit a);
  enc_u8 (TopologyInfo.FlexAlgoNumber a); enc_u8 (TopologyInfo.Constraint a);
  enc_u32 (TopologyInfo.ReferenceCount a)].

Definition valid_TopologyInfo (a : TopologyInfo.t) : Prop :=
  is_u8 (TopologyInfo.AccountType a) /\ is_key (TopologyInfo.Owner a) /\
  is_u8 (TopologyInfo.BumpSeed a) /\ is_short (TopologyInfo.Name a) /\
  is_u8 (TopologyInfo.AdminGroupBit a) /\ is_u8 (TopologyInfo.FlexAlgoNumber a) /\
  is_u8 (TopologyInfo.Constraint a) /\ is_u32 (TopologyInfo.ReferenceCount a) /\
  TopologyInfo.PubKey a = zero_key.

Definition encode_Feed (a : Feed.t) : bytes := concat [
  enc_u8 (Feed.AccountType a); Feed.Owner a; enc_u8 (Feed.BumpSeed a);
  enc_string (Feed.Code a); enc_string (Feed.Name a); Feed.Exchange a;
  enc_vec (fun k => k) (Feed.Groups a)].

Definition valid_Feed (a : Feed.t) : Prop :=
  is_u8 (Feed.AccountType a) /\ is_key (Feed.Owner a) /\ is_u8 (Feed.BumpSeed a) /\
  is_short (Feed.Code a) /\ is_short (Feed.Name a) /\ is_key (Feed.Exchange a) /\
  Forall is_key (Feed.Groups a) /\ Feed.PubKey a = zero_key.

(** ** Lemmas: reading back *)

(** Reads the next field of an encoded record. *)
Ltac reads_step := eapply reads_bind; [solve [eauto with reads]|cbv beta].

(** Reads a record whose fields are all primitive. *)
Ltac reads_record :=
  intros Hv; repeat match goal with H : _ /\ _ |- _ => destruct H end;
  cbn [concat]; repeat reads_step;
  repeat match goal with H : _ = zero_key |- _ => rewrite <- H end;
  match goal with |- reads _ _ ?a => destruct a end; apply reads_ret.

#[local] Hint Resolve Forall_nil_2 : reads.
#[local] Hint Extern 1 (is_u _ 0) => by split : reads.

Lemma reads_GlobalState a : valid_GlobalState a -> reads DeserializeGlobalState (encode_GlobalState a) a.
Proof. unfold valid_GlobalState, encode_GlobalState, DeserializeGlobalState. reads_record. Qed.

Lemma reads_GlobalConfig a : valid_GlobalConfig a -> reads DeserializeGlobalConfig (encode_GlobalConfig a) a.
Proof. unfold valid_GlobalConfig, encode_GlobalConfig, DeserializeGlobalConfig. reads_record. Qed.

Lemma reads_Location a : valid_Location a -> reads DeserializeLocation (encode_Location a) a.
Proof. unfold valid_Location, encode_Location, DeserializeLocation. reads_record. Qed.

Lemma reads_Exchange a : valid_Exchange a -> reads DeserializeExchange (encode_Exchange a) a.
Proof. unfold valid_Exchange, encode_Exchange, DeserializeExchange. reads_record. Qed.

Lemma reads_Contributor a : valid_Contributor a -> reads DeserializeContributor (encode_Contributor a) a.
Proof. unfold valid_Contributor, encode_Contributor, DeserializeContributor. reads_record. Qed.

Lemma reads_Link a : valid_Link a -> reads DeserializeLink (encode_Link a) a.
Proof. unfold valid_Link, encode_Link, DeserializeLink. reads_record. Qed.

Lemma reads_User a : valid_User a -> reads DeserializeUser (encode_User a) a.
Proof. unfold valid_User, encode_User, DeserializeUser. reads_record. Qed.

Lemma reads_MulticastGroup a : valid_MulticastGroup a -> reads DeserializeMulticastGroup (encode_MulticastGroup a) a.
Proof. unfold valid_MulticastGroup, encode_MulticastGroup, DeserializeMulticastGroup. reads_record. Qed.

Lemma reads_Tenant a : valid_Tenant a -> reads DeserializeTenant (encode_Tenant a) a.
Proof. unfold valid_Tenant, encode_Tenant, DeserializeTenant. reads_record. Qed.

Lemma reads_Permission a : valid_Permission a -> reads DeserializePermission (encode_Permission a) a.
Proof. unfold valid_Permission, encode_Permission, DeserializePermission. reads_record. Qed.

Lemma reads_TopologyInfo a : valid_TopologyInfo a -> reads DeserializeTopologyInfo (encode_TopologyInfo a) a.
Proof. unfold valid_TopologyInfo, encode_TopologyInfo, DeserializeTopologyInfo. reads_record. Qed.

Lemma reads_Feed a : valid_Feed a -> reads DeserializeFeed (encode_Feed a) a.
Proof. unfold valid_Feed, encode_Feed, DeserializeFeed. reads_record. Qed.

(** ** Interfaces *)

(** The body shared by the V2 and the size-prefixed layouts. *)
Definition encode_iface_body (i : Interface.t) : bytes := concat [
  enc_u8 (Interface.Status i); enc_string (Interface.Name i); enc_u8 (Interface.InterfaceType i);
  enc_u8 (Interface.InterfaceCYOA i); enc_u8 (Interface.InterfaceDIA i);
  enc_u8 (Interface.LoopbackType i); enc_u64 (Interface.Bandwidth i); enc_u64 (Interface.Cir i);
  enc_u16 (Interface.Mtu i); enc_u8 (Interface.RoutingMode i); enc_u16 (Interface.VlanId i);
  Interface.IpNet i; enc_u16 (Interface.NodeSegmentIdx i); enc_bool (Interface.UserTunnelEndpoint i)].

Definition valid_iface_body (i : Interface.t) : Prop :=
  is_u8 (Interface.Status i) /\ is_short (Interface.Name i) /\ is_u8 (Interface.InterfaceType i) /\
  is_u8 (Interface.InterfaceCYOA i) /\ is_u8 (Interface.InterfaceDIA i) /\
  is_u8 (Interface.LoopbackType i) /\ is_u64 (Interface.Bandwidth i) /\ is_u64 (Interface.Cir i) /\
  is_u16 (Interface.Mtu i) /\ is_u8 (Interface.RoutingMode i) /\ is_u16 (Interface.VlanId i) /\
  length (Interface.IpNet i) = 5%nat /\ is_u16 (Interface.NodeSegmentIdx i).

Definition encode_segment (g : FlexAlgoNodeSegment.t) : bytes :=
  concat [FlexAlgoNodeSegment.Topology g; enc_u16 (FlexAlgoNodeSegment.NodeSegmentIdx g)].
Definition valid_segment (g : FlexAlgoNodeSegment.t) : Prop :=
  is_key (FlexAlgoNodeSegment.Topology g) /\ is_u16 (FlexAlgoNodeSegment.NodeSegmentIdx g).

(** The legacy slot, projected as V2. *)
Definition encode_Interface (i : Interface.t) : bytes := enc_u8 1 ++ encode_iface_body i.
Definition valid_Interface (i : Interface.t) : Prop :=
  valid_iface_body i /\ Interface.Version i = 1 /\ Interface.Size i = 0 /\
  Interface.FlexAlgoNodeSegments i = [].

(** The size-prefixed layout; [extra] are bytes a later version may append. *)
Definition encode_InterfaceSized (i : Interface.t) (extra : bytes) : bytes := concat [
  enc_u16 (Interface.Size i); enc_u8 (Interface.Version i); encode_iface_body i;
  enc_vec encode_segment (Interface.FlexAlgoNodeSegments i); extra].
Definition valid_InterfaceSized (i : Interface.t) (extra : bytes) : Prop :=
  valid_iface_body i /\ is_u8 (Interface.Version i) /\
  Forall valid_segment (Interface.FlexAlgoNodeSegments i) /\ is_u16 (Interface.Size i) /\
  Interface.Size i = Z.of_nat (length (encode_InterfaceSized i extra)).

Lemma length_iface_body i : valid_iface_body i ->
  length (encode_iface_body i) = (38 + length (Interface.Name i))%nat.
Proof.
  intros Hv. destruct Hv as (_ & _ & _ & _ & _ & _ & _ & _ & _ & _ & _ & Hn & _).
  unfold encode_iface_body, enc_string, enc_bool, enc_u8, enc_u16, enc_u32, enc_u64.
  cbn [concat]. rewrite !length_app, !length_le_bytes, Hn. cbn. lia.
Qed.

(** The V2 reader fills the body and keeps the rest of the interface. *)
Lemma reads_iface_body i i0 : valid_iface_body i ->
  reads (DeserializeInterfaceV2 i0) (encode_iface_body i)
    (i <| Interface.Size := Interface.Size i0 |> <| Interface.Version := Interface.Version i0 |>
       <| Interface.FlexAlgoNodeSegments := Interface.FlexAlgoNodeSegments i0 |>).
Proof.
  intros Hv. unfold valid_iface_body in Hv. repeat match goal with H : _ /\ _ |- _ => destruct H end.
  unfold encode_iface_body, DeserializeInterfaceV2. cbn [concat]. repeat reads_step. apply reads_ret.
Qed.

Lemma reads_Interface i : valid_Interface i ->
  reads (DeserializeInterface zero_iface) (encode_Interface i) i.
Proof.
  intros (Hv & H1 & H2 & H3). unfold DeserializeInterface, encode_Interface.
  eapply reads_bind; [apply reads_u8; by split|]. cbv beta iota zeta. cbn [Z.eqb orb Pos.eqb].
  pose proof (reads_iface_body i (zero_iface <| Interface.Version := 1 |>) Hv) as Hr.
  match type of Hr with reads _ _ ?x =>
    assert (E : x = i) by (destruct i; cbn in *; by subst);
    exact (eq_ind x (fun y => reads _ _ y) Hr i E) end.
Qed.

Lemma length_segment g : valid_segment g -> length (encode_segment g) = 34%nat.
Proof.
  intros [Hk _]. unfold encode_segment, enc_u16. cbn [concat].
  rewrite !length_app, length_le_bytes, Hk. done.
Qed.

Lemma reads_segment g : valid_segment g -> reads read_segment (encode_segment g) g.
Proof.
  intros [H1 H2]. unfold read_segment, encode_segment. cbn [concat]. repeat reads_step.
  destruct g. apply reads_ret.
Qed.

Lemma reads_segments l : Forall valid_segment l ->
  reads (read_segments (length l)) (concat (map encode_segment l)) l.
Proof.
  induction 1 as [|g l Hg Hl IH]; [apply reads_ret|]. cbn [read_segments length map concat].
  intros pre post Hlen. unfold mbind at 1, Rd_bind at 1, Remaining.
  pose proof (length_segment g Hg) as H34. rewrite !length_app, H34 in *.
  rewrite wrap_id by (unfold is_u; lia). rewrite (proj2 (Z.ltb_ge _ _)) by lia.
  assert (Hr : reads (x ← read_segment; xs ← read_segments (length l); mret (x :: xs))
                 (encode_segment g ++ concat (map encode_segment l)) (g :: l)).
  { eapply reads_bind; [by apply reads_segment|]. cbv beta.
    rewrite <- (app_nil_r (concat _)). eapply reads_bind; [exact IH|]. apply reads_ret. }
  rewrite Hr by (rewrite !length_app, H34; lia). rewrite length_app, H34. done.
Qed.

Definition encode_known (i : Interface.t) : bytes := concat [
  enc_u16 (Interface.Size i); enc_u8 (Interface.Version i); encode_iface_body i;
  enc_vec encode_segment (Interface.FlexAlgoNodeSegments i)].

Lemma reads_iface_known i i0 : valid_iface_body i -> is_u16 (Interface.Size i) ->
  is_u8 (Interface.Version i) -> Forall valid_segment (Interface.FlexAlgoNodeSegments i) ->
  is_u32 (Z.of_nat (length (Interface.FlexAlgoNodeSegments i))) ->
  reads (read_iface_known i0) (encode_known i) i.
Proof.
  intros Hb Hs Hv Hg Hn. unfold read_iface_known, encode_known, enc_vec. cbn [concat].
  do 2 reads_step. eapply reads_bind; [by apply reads_iface_body|]. cbv beta.
  rewrite <- app_assoc. reads_step. rewrite Nat2Z.id.
  eapply reads_bind; [by apply reads_segments|]. cbv beta. destruct i. apply reads_ret.
Qed.

Lemma reads_InterfaceSized i extra : valid_InterfaceSized i extra ->
  reads (DeserializeInterfaceSized zero_iface) (encode_InterfaceSized i extra) i.
Proof.
  intros (Hb & Hv & Hg & Hs & Hsize) pre post Hlen.
  assert (He : encode_InterfaceSized i extra = encode_known i ++ extra).
  { unfold encode_InterfaceSized, encode_known. cbn [concat]. by rewrite !app_nil_r, <- !app_assoc. }
  rewrite He in *. unfold DeserializeInterfaceSized, GetOffset, mbind, Rd_bind.
  assert (Hn : is_u32 (Z.of_nat (length (Interface.FlexAlgoNodeSegments i)))).
  { assert (length (concat (map encode_segment (Interface.FlexAlgoNodeSegments i))) <= length (encode_known i))%nat
      by (unfold encode_known, enc_vec; cbn [concat]; rewrite !length_app; lia).
    rewrite (length_concat_fixed encode_segment 34) in H
      by (eapply Forall_impl; [exact Hg|apply length_segment]).
    rewrite !length_app in Hlen. unfold is_u. lia. }
  rewrite <- app_assoc in Hlen |- *. rewrite (reads_iface_known i) by done.
  rewrite length_app in Hsize. rewrite !length_app in Hlen. rewrite Hsize, Nat2Z.id.
  destruct (Nat.ltb_spec (length pre + length (encode_known i)) (length pre + (length (encode_known i) + length extra))).
  - unfold Skip, mret, Rd_ret. f_equal. rewrite !length_app. lia.
  - unfold mret, Rd_ret. f_equal. rewrite length_app. lia.
Qed.

(** The size-prefixed interface reader is forward compatible: it reads
    back every known field of an encoded interface and lands exactly at the
    end of the element, also when a later version has appended bytes it does
    not know. *)
Theorem InterfaceSized_forward_compat i extra :
  valid_InterfaceSized i extra ->
  reads (DeserializeInterfaceSized zero_iface) (encode_InterfaceSized i extra) i.
Proof. apply reads_InterfaceSized. Qed.

(** ** Devices *)

Definition encode_device_head (d : Device.t) : bytes := concat [
  enc_u8 (Device.AccountType d); Device.Owner d; enc_u128 (Device.Index d);
  enc_u8 (Device.BumpSeed d); Device.LocationPubKey d; Device.ExchangePubKey d;
  enc_u8 (Device.DeviceType d); Device.PublicIp d; enc_u8 (Device.Status d);
  enc_string (Device.Code d); enc_vec (fun k => k) (Device.DzPrefixes d);
  Device.MetricsPublisherPubKey d; Device.ContributorPubKey d; enc_string (Device.MgmtVrf d)].

Definition encode_device_counters (d : Device.t) : bytes := concat [
  enc_u32 (Device.ReferenceCount d); enc_u16 (Device.UsersCount d); enc_u16 (Device.MaxUsers d);
  enc_u8 (Device.DeviceHealth d); enc_u8 (Device.DeviceDesiredStatus d);
  enc_u16 (Device.UnicastUsersCount d); enc_u16 (Device.MulticastSubscribersCount d);
  enc_u16 (Device.MaxUnicastUsers d); enc_u16 (Device.MaxMulticastSubscribers d);
  enc_u16 (Device.ReservedSeats d); enc_u16 (Device.MulticastPublishersCount d);
  enc_u16 (Device.MaxMulticastPublishers d)].

(** A device written before the trailing interfaces existed. *)
Definition encode_legacy_Device (d : Device.t) : bytes :=
  encode_device_head d ++ enc_vec encode_Interface (Device.DeprecatedInterfaces d) ++
  encode_device_counters d.

(** [extras] are the bytes later versions append to each interface. *)
Definition encode_Device (d : Device.t) (extras : list bytes) : bytes :=
  encode_legacy_Device d ++ enc_u32 (Z.of_nat (length (Device.Interfaces d))) ++
  concat (zip_with encode_InterfaceSized (Device.Interfaces d) extras).

Definition valid_device_head (d : Device.t) : Prop :=
  is_u8 (Device.AccountType d) /\ is_key (Device.Owner d) /\
  is_u64 (High (Device.Index d)) /\ is_u64 (Low (Device.Index d)) /\ is_u8 (Device.BumpSeed d) /\
  is_key (Device.LocationPubKey d) /\ is_key (Device.ExchangePubKey d) /\
  is_u8 (Device.DeviceType d) /\ length (Device.PublicIp d) = 4%nat /\ is_u8 (Device.Status d) /\
  is_short (Device.Code d) /\ Forall (fun a => length a = 5%nat) (Device.DzPrefixes d) /\
  is_key (Device.MetricsPublisherPubKey d) /\ is_key (Device.ContributorPubKey d) /\
  is_short (Device.MgmtVrf d) /\ Device.PubKey d = zero_key /\ Device.DeserializeError d = None.

Definition valid_device_counters (d : Device.t) : Prop :=
  is_u32 (Device.ReferenceCount d) /\ is_u16 (Device.UsersCount d) /\ is_u16 (Device.MaxUsers d) /\
  is_u8 (Device.DeviceHealth d) /\ is_u8 (Device.DeviceDesiredStatus d) /\
  is_u16 (Device.UnicastUsersCount d) /\ is_u16 (Device.MulticastSubscribersCount d) /\
  is_u16 (Device.MaxUnicastUsers d) /\ is_u16 (Device.MaxMulticastSubscribers d) /\
  is_u16 (Device.ReservedSeats d) /\ is_u16 (Device.MulticastPublishersCount d) /\
  is_u16 (Device.MaxMulticastPublishers d).

Definition valid_legacy_Device (d : Device.t) : Prop :=
  valid_device_head d /\ valid_device_counters d /\
  Forall valid_Interface (Device.DeprecatedInterfaces d).

Definition valid_Device (d : Device.t) (extras : list bytes) : Prop :=
  valid_legacy_Device d /\ Forall2 valid_InterfaceSized (Device.Interfaces d) extras /\
  length (Device.Interfaces d) = length (Device.DeprecatedInterfaces d).

(** The device with the fields of the head only. *)
Definition device_head (d : Device.t) : Device.t :=
  Device.mk (Device.AccountType d) (Device.Owner d) (Device.Index d) (Device.BumpSeed d)
    (Device.LocationPubKey d) (Device.ExchangePubKey d) (Device.DeviceType d) (Device.PublicIp d)
    (Device.Status d) (Device.Code d) (Device.DzPrefixes d) (Device.MetricsPublisherPubKey d)
    (Device.ContributorPubKey d) (Device.MgmtVrf d) [] 0 0 0 0 0 0 0 0 0 0 0 0 [] None zero_key.

Lemma reads_device_head d : valid_device_head d ->
  reads read_device_head (encode_device_head d) (device_head d).
Proof.
  intros Hv. unfold valid_device_head in Hv. repeat match goal with H : _ /\ _ |- _ => destruct H end.
  unfold encode_device_head, read_device_head. cbn [concat]. repeat reads_step. apply reads_ret.
Qed.

(** The counters are read into a device that agrees on the other fields. *)
Lemma reads_device_counters d : valid_device_head d -> valid_device_counters d ->
  reads (read_device_counters ((device_head d) <| Device.DeprecatedInterfaces := Device.DeprecatedInterfaces d |>))
    (encode_device_counters d) (d <| Device.Interfaces := [] |>).
Proof.
  intros Hh Hv. unfold valid_device_counters in Hv. repeat match goal with H : _ /\ _ |- _ => destruct H end.
  unfold encode_device_counters, read_device_counters. cbn [concat]. repeat reads_step.
  assert (Hz : Device.DeserializeError d = None /\ Device.PubKey d = zero_key) by (unfold valid_device_head in Hh; tauto).
  destruct d; cbn in Hz. destruct Hz as [-> ->]. apply reads_ret.
Qed.

Lemma length_encode_Interface i : valid_Interface i -> (18 <= length (encode_Interface i))%nat.
Proof.
  intros [Hv _]. unfold encode_Interface. rewrite length_app, length_iface_body by done. lia.
Qed.

Lemma length_concat_ge {A} (enc : A -> bytes) n l : Forall (fun x => n <= length (enc x))%nat l ->
  (length l * n <= length (concat (map enc l)))%nat.
Proof. induction 1 as [|x l Hx _ IH]; cbn; [lia|]. rewrite length_app. lia. Qed.

(** The reader up to and including the counters. *)
Lemma DeserializeDevice_legacy d data pre post : valid_legacy_Device d ->
  data = pre ++ encode_legacy_Device d ++ post -> Z.of_nat (length data) < 2 ^ 32 ->
  DeserializeDevice data (length pre) =
  read_device_interfaces (d <| Device.Interfaces := [] |>) data
    (length (pre ++ encode_legacy_Device d)).
Proof.
  intros (Hh & Hc & Hi) Hd Hlen. unfold DeserializeDevice, mbind, Rd_bind.
  set (ifs := Device.DeprecatedInterfaces d) in *.
  assert (Hge : (length ifs * 18 <= length (concat (map encode_Interface ifs)))%nat)
    by (apply length_concat_ge; eapply Forall_impl; [exact Hi|apply length_encode_Interface]).
  assert (Hri : reads (read_n (length ifs) (DeserializeInterface zero_iface))
      (concat (map encode_Interface ifs)) ifs)
    by (apply reads_n; eapply Forall_impl; [exact Hi|apply reads_Interface]).
  unfold encode_legacy_Device, enc_vec in *. fold ifs in Hd |- *.
  set (eh := encode_device_head d) in *. set (ei := concat (map encode_Interface ifs)) in *.
  set (ec := encode_device_counters d) in *. set (el := enc_u32 (Z.of_nat (length ifs))) in *.
  assert (Hel : length el = 4%nat) by apply length_enc_u32.
  pose proof (f_equal length Hd) as Hdl. rewrite !length_app, Hel in Hdl.
  rewrite (reads_at _ eh (device_head d) data pre (el ++ ei ++ ec ++ post))
    by (done || by apply reads_device_head || by rewrite Hd, <- !app_assoc).
  rewrite (reads_at _ el (Z.of_nat (length ifs)) data (pre ++ eh) (ei ++ ec ++ post))
    by (done || (apply reads_u32; unfold is_u; lia) || by rewrite Hd, <- !app_assoc).
  unfold Remaining. rewrite !length_app, Hel.
  rewrite (wrap_id 32) by (unfold is_u; lia). rewrite (wrap_id 32) by (unfold is_u; lia).
  rewrite (proj2 (Z.ltb_ge _ (Z.of_nat (length ifs) * 18))) by lia. rewrite andb_false_r, Nat2Z.id.
  replace (length pre + length eh + 4)%nat with (length ((pre ++ eh) ++ el))
    by (rewrite !length_app, Hel; lia).
  rewrite (reads_at _ ei ifs data ((pre ++ eh) ++ el) (ec ++ post))
    by (done || by rewrite Hd, <- !app_assoc).
  rewrite (reads_at _ ec (d <| Device.Interfaces := [] |>) data (((pre ++ eh) ++ el) ++ ei) post)
    by (done || by apply reads_device_counters || by rewrite Hd, <- !app_assoc).
  by rewrite <- !app_assoc, !length_app, Hel.
Qed.

Lemma reads_n_sized ifs extras : Forall2 valid_InterfaceSized ifs extras ->
  reads (read_n (length ifs) (DeserializeInterfaceSized zero_iface))
    (concat (zip_with encode_InterfaceSized ifs extras)) ifs.
Proof.
  induction 1 as [|i x ifs extras Hi _ IH]; [apply reads_ret|].
  cbn [read_n length zip_with concat]. eapply reads_bind; [by apply reads_InterfaceSized|]. cbv beta.
  rewrite <- (app_nil_r (concat _)). eapply reads_bind; [exact IH|]. apply reads_ret.
Qed.

Lemma zip_length_ge ifs extras : Forall2 valid_InterfaceSized ifs extras ->
  (length ifs <= length (concat (zip_with encode_InterfaceSized ifs extras)))%nat.
Proof.
  induction 1 as [|i x ifs extras Hi _ IH]; cbn [length zip_with concat]; [lia|].
  rewrite length_app. assert (1 <= length (encode_InterfaceSized i x))%nat; [|lia].
  unfold encode_InterfaceSized, enc_u16. cbn [concat]. rewrite length_app, length_le_bytes. lia.
Qed.

Lemma reads_Device d extras : valid_Device d extras ->
  reads DeserializeDevice (encode_Device d extras) d.
Proof.
  intros (Hl & Hs & Hn) pre post Hlen. unfold encode_Device in *.
  pose proof (reads_n_sized _ _ Hs) as Hri. pose proof (zip_length_ge _ _ Hs) as Hge.
  set (ei := concat (zip_with encode_InterfaceSized (Device.Interfaces d) extras)) in *.
  set (n := length (Device.Interfaces d)) in *. set (el := enc_u32 (Z.of_nat n)) in *.
  assert (Hel : length el = 4%nat) by apply length_enc_u32.
  set (old := encode_legacy_Device d) in *.
  set (data := pre ++ _ ++ post) in *.
  assert (Hd : data = pre ++ old ++ el ++ ei ++ post) by (unfold data; by rewrite <- !app_assoc).
  clearbody data. pose proof (f_equal length Hd) as Hdl. rewrite !length_app, Hel in Hdl.
  rewrite (DeserializeDevice_legacy d data pre (el ++ ei ++ post)) by done. fold old.
  unfold read_device_interfaces, mbind, Rd_bind, Remaining.
  rewrite length_app, wrap_id by (unfold is_u; lia). rewrite (proj2 (Z.eqb_neq _ _)) by lia.
  rewrite <- length_app.
  rewrite (reads_at _ el (Z.of_nat n) data (pre ++ old) (ei ++ post))
    by (done || (apply reads_u32; unfold is_u; lia) || by rewrite Hd, <- !app_assoc).
  change (Device.DeprecatedInterfaces (d <| Device.Interfaces := [] |>)) with (Device.DeprecatedInterfaces d).
  rewrite <- Hn, Z.eqb_refl, Nat2Z.id. cbn [negb].
  rewrite (reads_at _ ei (Device.Interfaces d) data ((pre ++ old) ++ el) post)
    by (done || by rewrite Hd, <- !app_assoc).
  unfold mret, Rd_ret. f_equal; [by destruct d|]. rewrite !length_app. lia.
Qed.

Lemma reads_legacy_Device d : valid_legacy_Device d ->
  reads_end DeserializeDevice (encode_legacy_Device d)
    (d <| Device.Interfaces := map rebuilt (Device.DeprecatedInterfaces d) |>).
Proof.
  intros Hl pre Hlen.
  rewrite (DeserializeDevice_legacy d (pre ++ encode_legacy_Device d) pre [])
    by (done || by rewrite app_nil_r).
  unfold read_device_interfaces, mbind, Rd_bind, Remaining. rewrite Z.sub_diag. done.
Qed.

(** A device account is read back field by field: with its trailing
    interfaces, also when later versions have appended bytes to them; and a
    legacy account that ends before them gets its interfaces rebuilt from the
    legacy slot, marked with the current version. *)
Theorem Device_roundtrip d extras :
  valid_Device d extras ->
  reads DeserializeDevice (encode_Device d extras) d /\
  reads_end DeserializeDevice (encode_legacy_Device d)
    (d <| Device.Interfaces := map rebuilt (Device.DeprecatedInterfaces d) |>).
Proof.
  intros Hv. split; [by apply reads_Device|]. apply reads_legacy_Device. apply Hv.
Qed.

(** ** Program configuration *)

Definition encode_ProgramVersion (v : ProgramVersion.t) : bytes := concat [
  enc_u32 (ProgramVersion.Major v); enc_u32 (ProgramVersion.Minor v); enc_u32 (ProgramVersion.Patch v)].
Definition valid_ProgramVersion (v : ProgramVersion.t) : Prop :=
  is_u32 (ProgramVersion.Major v) /\ is_u32 (ProgramVersion.Minor v) /\ is_u32 (ProgramVersion.Patch v).

Definition encode_ProgramConfig (c : ProgramConfig.t) : bytes := concat [
  enc_u8 (ProgramConfig.AccountType c); enc_u8 (ProgramConfig.BumpSeed c);
  encode_ProgramVersion (ProgramConfig.Version c);
  encode_ProgramVersion (ProgramConfig.MinCompatVersion c)].
Definition valid_ProgramConfig (c : ProgramConfig.t) : Prop :=
  is_u8 (ProgramConfig.AccountType c) /\ is_u8 (ProgramConfig.BumpSeed c) /\
  valid_ProgramVersion (ProgramConfig.Version c) /\
  valid_ProgramVersion (ProgramConfig.MinCompatVersion c).

Lemma reads_ProgramVersion v : valid_ProgramVersion v ->
  reads DeserializeProgramVersion (encode_ProgramVersion v) v.
Proof. unfold valid_ProgramVersion, encode_ProgramVersion, DeserializeProgramVersion. reads_record. Qed.

Lemma reads_ProgramConfig c : valid_ProgramConfig c ->
  reads DeserializeProgramConfig (encode_ProgramConfig c) c.
Proof.
  intros (H1 & H2 & H3 & H4). unfold encode_ProgramConfig, DeserializeProgramConfig. cbn [concat].
  do 2 reads_step. do 2 (eapply reads_bind; [by apply reads_ProgramVersion|cbv beta]).
  destruct c. apply reads_ret.
Qed.

(** ** Access passes *)

Definition encode_seat (s : FeedSeat.t) : bytes := concat [
  FeedSeat.FeedKey s; enc_u8 (FeedSeat.MaxUsers s); enc_u8 (FeedSeat.MaxFutureUsers s);
  enc_u8 (FeedSeat.CurrentUsers s); enc_u8 (FeedSeat.AnniversaryDay s);
  enc_i64 (FeedSeat.WindowEnd s); enc_i64 (FeedSeat.TerminatesAt s)].
Definition valid_seat (s : FeedSeat.t) : Prop :=
  is_key (FeedSeat.FeedKey s) /\ is_u8 (FeedSeat.MaxUsers s) /\ is_u8 (FeedSeat.MaxFutureUsers s) /\
  is_u8 (FeedSeat.CurrentUsers s) /\ is_u8 (FeedSeat.AnniversaryDay s) /\
  is_i64 (FeedSeat.WindowEnd s) /\ is_i64 (FeedSeat.TerminatesAt s).

(** The data of the pass type, by tag. *)
Definition encode_pass_data (p : AccessPass.t) : bytes :=
  let tag := AccessPass.AccessPassTypeTag p in
  if (tag =? 1) || (tag =? 2) then AccessPass.AssociatedPubkey p
  else if tag =? 3 then
    enc_string (AccessPass.OthersTypeName p) ++ enc_string (AccessPass.OthersKey p)
  else if tag =? 4 then enc_vec encode_seat (AccessPass.FeedSeats p)
  else [].

Definition valid_pass_data (p : AccessPass.t) : Prop :=
  let tag := AccessPass.AccessPassTypeTag p in
  let key := AccessPass.AssociatedPubkey p in
  let strs := (AccessPass.OthersTypeName p, AccessPass.OthersKey p) in
  let seats := AccessPass.FeedSeats p in
  if (tag =? 1) || (tag =? 2) then is_key key /\ strs = ([], []) /\ seats = []
  else if tag =? 3 then key = zero_key /\ is_short strs.1 /\ is_short strs.2 /\ seats = []
  else if tag =? 4 then key = zero_key /\ strs = ([], []) /\ Forall valid_seat seats
  else key = zero_key /\ strs = ([], []) /\ seats = [].

(** The fields up to the tenant allowlist; the user caps follow. *)
Definition encode_pass_fields (p : AccessPass.t) : list bytes := [
  enc_u8 (AccessPass.AccountType p); AccessPass.Owner p; enc_u8 (AccessPass.BumpSeed p);
  enc_u8 (AccessPass.AccessPassTypeTag p); encode_pass_data p; AccessPass.ClientIp p;
  AccessPass.UserPayer p; enc_u64 (AccessPass.LastAccessEpoch p);
  enc_u16 (AccessPass.ConnectionCount p); enc_u8 (AccessPass.Status p);
  enc_vec (fun k => k) (AccessPass.MGroupPubAllowlist p);
  enc_vec (fun k => k) (AccessPass.MGroupSubAllowlist p); enc_u8 (AccessPass.Flags p);
  enc_vec (fun k => k) (AccessPass.TenantAllowlist p)].

Definition encode_AccessPass (p : AccessPass.t) : bytes :=
  concat (encode_pass_fields p ++ [enc_u16 (AccessPass.UnicastUserCount p);
    enc_u16 (AccessPass.MaxUnicastUsers p); enc_u16 (AccessPass.MulticastUserCount p);
    enc_u16 (AccessPass.MaxMulticastUsers p)]).

(** A pass written before the user caps existed. *)
Definition encode_old_AccessPass (p : AccessPass.t) : bytes := concat (encode_pass_fields p).

Definition valid_AccessPass (p : AccessPass.t) : Prop :=
  is_u8 (AccessPass.AccountType p) /\ is_key (AccessPass.Owner p) /\ is_u8 (AccessPass.BumpSeed p) /\
  is_u8 (AccessPass.AccessPassTypeTag p) /\ valid_pass_data p /\
  length (AccessPass.ClientIp p) = 4%nat /\ is_key (AccessPass.UserPayer p) /\
  is_u64 (AccessPass.LastAccessEpoch p) /\ is_u16 (AccessPass.ConnectionCount p) /\
  is_u8 (AccessPass.Status p) /\ Forall is_key (AccessPass.MGroupPubAllowlist p) /\
  Forall is_key (AccessPass.MGroupSubAllowlist p) /\ is_u8 (AccessPass.Flags p) /\
  Forall is_key (AccessPass.TenantAllowlist p) /\ is_u16 (AccessPass.UnicastUserCount p) /\
  is_u16 (AccessPass.MaxUnicastUsers p) /\ is_u16 (AccessPass.MulticastUserCount p) /\
  is_u16 (AccessPass.MaxMulticastUsers p) /\ AccessPass.PubKey p = zero_key.

Lemma reads_seat s : valid_seat s -> reads read_feed_seat (encode_seat s) s.
Proof. unfold valid_seat, encode_seat, read_feed_seat. reads_record. Qed.

Lemma length_seat s : valid_seat s -> length (encode_seat s) = 52%nat.
Proof.
  intros (H & _). unfold encode_seat, enc_u8, enc_i64. cbn [concat].
  rewrite !length_app, !length_le_bytes, H. done.
Qed.

(** The guard of the seats divides instead of multiplying, so it cannot wrap. *)
Lemma reads_seats l : Forall valid_seat l ->
  reads (count ← ReadU32; rem ← Remaining;
         if (0 <? count) && (count <=? rem / 52) then
           seats ← read_n (Z.to_nat count) read_feed_seat; mret (zero_key, @nil Z, @nil Z, seats)
         else mret (zero_key, [], [], []))
    (enc_vec encode_seat l) (zero_key, [], [], l).
Proof.
  intros Hl pre post Hlen. unfold mbind, Rd_bind, enc_vec in *.
  assert (Hr : reads (read_n (length l) read_feed_seat) (concat (map encode_seat l)) l)
    by (apply reads_n; eapply Forall_impl; [exact Hl|apply reads_seat]).
  assert (Hc : length (concat (map encode_seat l)) = (length l * 52)%nat)
    by (apply length_concat_fixed; eapply Forall_impl; [exact Hl|apply length_seat]).
  set (es := concat (map encode_seat l)) in *. set (el := enc_u32 (Z.of_nat (length l))) in *.
  assert (Hel : length el = 4%nat) by apply length_enc_u32.
  set (data := pre ++ _ ++ post) in *.
  assert (Hd : data = pre ++ el ++ es ++ post) by (unfold data; by rewrite <- !app_assoc).
  clearbody data. pose proof (f_equal length Hd) as Hdl. rewrite !length_app, Hel, Hc in Hdl.
  rewrite (reads_at _ el (Z.of_nat (length l)) data pre (es ++ post))
    by (done || (apply reads_u32; unfold is_u; lia)).
  unfold Remaining. rewrite wrap_id by (unfold is_u; rewrite length_app; lia).
  rewrite (proj2 (Z.leb_le (Z.of_nat (length l)) _))
    by (apply Z.div_le_lower_bound; [lia|]; rewrite length_app; lia).
  rewrite andb_true_r, Nat2Z.id. destruct (Z.ltb_spec 0 (Z.of_nat (length l))).
  - rewrite (reads_at _ es l data (pre ++ el) post) by (done || by rewrite Hd, <- !app_assoc).
    unfold mret, Rd_ret. f_equal. rewrite !length_app. lia.
  - destruct l; [|cbn in *; lia]. unfold mret, Rd_ret. f_equal. rewrite !length_app, Hc. cbn. lia.
Qed.

Lemma reads_pass_data p : valid_pass_data p ->
  reads (read_pass_data (AccessPass.AccessPassTypeTag p)) (encode_pass_data p)
    (AccessPass.AssociatedPubkey p, AccessPass.OthersTypeName p, AccessPass.OthersKey p,
     AccessPass.FeedSeats p).
Proof.
  unfold valid_pass_data, encode_pass_data, read_pass_data. cbv zeta.
  destruct ((AccessPass.AccessPassTypeTag p =? 1) || (AccessPass.AccessPassTypeTag p =? 2)) eqn:E1.
  { intros (H1 & [= H2 H3] & H4). rewrite H2, H3, H4, <- (app_nil_r (AccessPass.AssociatedPubkey p)).
    reads_step. rewrite app_nil_r. apply reads_ret. }
  destruct (AccessPass.AccessPassTypeTag p =? 3) eqn:E2; cbn [fst snd].
  { intros (H1 & H2 & H3 & H4). rewrite H1, H4. reads_step.
    rewrite <- (app_nil_r (enc_string (AccessPass.OthersKey p))). reads_step. apply reads_ret. }
  destruct (AccessPass.AccessPassTypeTag p =? 4) eqn:E3.
  - intros (H1 & [= H2 H3] & H4). rewrite H1, H2, H3. by apply reads_seats.
  - intros (H1 & [= H2 H3] & H4). rewrite H1, H2, H3, H4. apply reads_ret.
Qed.

#[local] Hint Resolve reads_pass_data : reads.

Lemma reads_AccessPass p : valid_AccessPass p -> reads DeserializeAccessPass (encode_AccessPass p) p.
Proof.
  intros Hv. unfold valid_AccessPass in Hv. repeat match goal with H : _ /\ _ |- _ => destruct H end.
  unfold encode_AccessPass, encode_pass_fields, DeserializeAccessPass. cbn [concat app].
  repeat reads_step. repeat match goal with H : _ = zero_key |- _ => rewrite <- H end.
  destruct p. apply reads_ret.
Qed.

(** At the end of the data the remaining reads return their defaults. *)
Ltac eof_tac :=
  repeat first
    [ apply eof_ret
    | eapply eof_bind; [first [ apply eof_fixed; lia | apply eof_u16_or_default | apply eof_slice | apply eof_string ]|cbv beta] ].

(** An access pass is read back whatever its type, and one written
    before the user caps existed is read with counts of zero and caps of one,
    the defaults of the on-chain program. *)
Theorem AccessPass_roundtrip p :
  valid_AccessPass p ->
  reads DeserializeAccessPass (encode_AccessPass p) p /\
  reads_end DeserializeAccessPass (encode_old_AccessPass p)
    (p <| AccessPass.UnicastUserCount := 0 |> <| AccessPass.MaxUnicastUsers := 1 |>
       <| AccessPass.MulticastUserCount := 0 |> <| AccessPass.MaxMulticastUsers := 1 |>).
Proof.
  intros Hv. split; [by apply reads_AccessPass|].
  unfold valid_AccessPass in Hv. repeat match goal with H : _ /\ _ |- _ => destruct H end.
  unfold encode_old_AccessPass, encode_pass_fields, DeserializeAccessPass. cbn [concat].
  repeat (eapply reads_end_bind; [solve [eauto with reads]|cbv beta]).
  repeat match goal with H : _ = zero_key |- _ => rewrite <- H end.
  apply reads_end_eof. eof_tac.
Qed.

(** ** Sample accounts *)

Definition sample_key (n : Z) : bytes := replicate 32 n.

Definition sample_legacy_iface : Interface.t :=
  Interface.mk 0 1 3 (lit "Ethernet1") 2 0 0 0 1000 500 9000 0 7 [10; 0; 0; 1; 31] 4 true [].

(** 90 bytes: the known body, one 34-byte segment and two bytes of a later version. *)
Definition sample_iface : Interface.t :=
  Interface.mk 90 4 3 (lit "Ethernet1") 2 0 0 0 1000 500 9000 0 7 [10; 0; 0; 1; 31] 4 true
    [FlexAlgoNodeSegment.mk (sample_key 5) 300].

Definition sample_device : Device.t :=
  Device.mk DeviceType (sample_key 1) (mkUint128 7 0) 255 (sample_key 2) (sample_key 3) 0
    [192; 168; 0; 1] 1 (lit "dev-a") [[10; 1; 0; 0; 16]] (sample_key 4) (sample_key 6) (lit "mgmt")
    [sample_legacy_iface] 1 2 100 1 1 2 0 50 50 0 0 10 [sample_iface] None zero_key.

(** An access pass with one feed seat. *)
Definition sample_pass : AccessPass.t :=
  AccessPass.mk AccessPassType (sample_key 1) 254 4 zero_key [] []
    [FeedSeat.mk (sample_key 9) 3 2 1 15 1700000000 (-1)] [10; 0; 0; 9] (sample_key 2) 600 1 1
    [sample_key 3] [] 1 [] 2 5 0 5 zero_key.

(** Checks the fields of a concrete account. *)
Ltac check_valid :=
  repeat match goal with
  | |- _ /\ _ => split
  | |- Forall _ (_ :: _) => constructor; cbv beta
  | |- Forall _ [] => constructor
  | |- Forall ?P ?l => let l' := eval hnf in l in progress change (Forall P l')
  | |- Forall2 _ (_ :: _) _ => constructor; cbv beta
  | |- Forall2 _ [] _ => constructor
  | |- Forall2 ?P ?l ?k => let l' := eval hnf in l in progress change (Forall2 P l' k)
  | |- is_u _ _ => split
  | |- is_i _ _ => split
  end; try (vm_compute; first [reflexivity | discriminate]).

Lemma InterfaceSized_forward_compat_witness :
  valid_InterfaceSized sample_iface [1; 2] /\
  reads (DeserializeInterfaceSized zero_iface) (encode_InterfaceSized sample_iface [1; 2]) sample_iface.
Proof.
  assert (H : valid_InterfaceSized sample_iface [1; 2])
    by (unfold valid_InterfaceSized, valid_iface_body, valid_segment; check_valid).
  split; [exact H|exact (InterfaceSized_forward_compat sample_iface [1; 2] H)].
Defined.

Lemma valid_sample_device : valid_Device sample_device [[1; 2]].
Proof.
  unfold valid_Device, valid_legacy_Device, valid_device_head, valid_device_counters,
    valid_Interface, valid_InterfaceSized, valid_iface_body, valid_segment.
  check_valid.
Qed.

Lemma Device_roundtrip_witness :
  reads DeserializeDevice (encode_Device sample_device [[1; 2]]) sample_device /\
  reads_end DeserializeDevice (encode_legacy_Device sample_device)
    (sample_device <| Device.Interfaces := map rebuilt [sample_legacy_iface] |>).
Proof. exact (Device_roundtrip sample_device [[1; 2]] valid_sample_device). Defined.

Lemma valid_sample_pass : valid_AccessPass sample_pass.
Proof.
  unfold valid_AccessPass, valid_pass_data, valid_seat.
  cbn [AccessPass.AccessPassTypeTag sample_pass Z.eqb Pos.eqb orb]. check_valid.
Qed.

Lemma AccessPass_roundtrip_witness :
  reads DeserializeAccessPass (encode_AccessPass sample_pass) sample_pass /\
  reads_end DeserializeAccessPass (encode_old_AccessPass sample_pass)
    (sample_pass <| AccessPass.UnicastUserCount := 0 |> <| AccessPass.MaxUnicastUsers := 1 |>
       <| AccessPass.MulticastUserCount := 0 |> <| AccessPass.MaxMulticastUsers := 1 |>).
Proof. exact (AccessPass_roundtrip sample_pass valid_sample_pass). Defined.
