(* ===== verification/ProgramData.v ===== *)
(** * On-chain accounts: the program's data

    Resource pools and the bounds of every account reader, then
    [Client.GetProgramData] of [smartcontract/sdk/go/serviceability/client.go]:
    the accounts of the program, dispatched on their first byte. The RPC call
    is a parameter: its result is the argument. *)

From stdpp Require Import base tactics numbers list.
From Stdlib Require Import ZArith Lia ZifyBool ZifyNat.
From S2P Require Import Prelude Bytes GoStrings ByteReader Accounts Deserialize.

#[local] Open Scope Z_scope.

(** ** Resource pools *)

Definition encode_allocator (a : Allocator.t) : bytes :=
  match Allocator.IpAlloc a, Allocator.IdAlloc a with
  | Some ip, _ => IpAllocator.BaseNet ip ++ enc_u64 (IpAllocator.FirstFreeIndex ip)
  | None, Some id =>
      enc_u16 (IdAllocator.RangeStart id) ++ enc_u16 (IdAllocator.RangeEnd id) ++
      enc_u64 (IdAllocator.FirstFreeIndex id)
  | None, None => []
  end.

Definition encode_pool_header (r : ResourceExtension.t) : bytes :=
  enc_u8 (ResourceExtension.AccountType r) ++ ResourceExtension.Owner r ++
  enc_u8 (ResourceExtension.BumpSeed r) ++ ResourceExtension.AssociatedWith r ++
  enc_u8 (Allocator.AType (ResourceExtension.Allocator r)) ++
  encode_allocator (ResourceExtension.Allocator r).

(** The header is padded to the offset of the bitmap. *)
Definition encode_ResourceExtension (r : ResourceExtension.t) : bytes :=
  let h := encode_pool_header r in
  h ++ replicate (resourceExtensionBitmapOffset - length h) 0 ++ ResourceExtension.Storage r.

Definition valid_allocator (a : Allocator.t) : Prop :=
  match Allocator.IpAlloc a, Allocator.IdAlloc a with
  | Some ip, None =>
      Allocator.AType a = AllocatorTypeIp /\ length (IpAllocator.BaseNet ip) = 5%nat /\
      is_u64 (IpAllocator.FirstFreeIndex ip)
  | None, Some id =>
      Allocator.AType a = AllocatorTypeId /\ is_u16 (IdAllocator.RangeStart id) /\
      is_u16 (IdAllocator.RangeEnd id) /\ is_u64 (IdAllocator.FirstFreeIndex id)
  | _, _ => False
  end.

Definition valid_ResourceExtension (r : ResourceExtension.t) : Prop :=
  is_u8 (ResourceExtension.AccountType r) /\ is_key (ResourceExtension.Owner r) /\
  is_u8 (ResourceExtension.BumpSeed r) /\ is_key (ResourceExtension.AssociatedWith r) /\
  valid_allocator (ResourceExtension.Allocator r) /\ ResourceExtension.PubKey r = zero_key /\
  Z.of_nat (length (ResourceExtension.Storage r)) < 2 ^ 31.

(** A reader followed by another, on data that starts with what the first reads. *)
Lemma run_bind {A B} (m : Rd A) (k : A -> Rd B) e a d p q :
  reads m e a -> d = p ++ e ++ q -> Z.of_nat (length d) < 2 ^ 32 ->
  (m ≫= k) d (length p) = k a d (length (p ++ e)).
Proof. intros Hm Hd Hl. unfold mbind, Rd_bind. by rewrite (reads_at m e a d p q). Qed.

Lemma read_storage_spec h s : (length h <= resourceExtensionBitmapOffset)%nat ->
  Z.of_nat (length s) < 2 ^ 31 ->
  let d := h ++ replicate (resourceExtensionBitmapOffset - length h) 0 ++ s in
  read_storage d (length h) = (s, length d).
Proof.
  intros Hh Hs d. assert (Hd : length d = (88 + length s)%nat).
  { unfold d, resourceExtensionBitmapOffset in *. rewrite !length_app, length_replicate. lia. }
  assert (Hdrop : drop 88 d = s).
  { unfold d, resourceExtensionBitmapOffset in *. rewrite app_assoc. apply drop_app_exact.
    rewrite length_app, length_replicate. lia. }
  clearbody d. unfold read_storage, mbind, Rd_bind, GetOffset, resourceExtensionBitmapOffset in *.
  assert (Hskip : (if (length h <? 88)%nat then Skip (88 - length h) else mret ()) d (length h) = ((), 88%nat)).
  { destruct (Nat.ltb_spec (length h) 88); unfold Skip, mret, Rd_ret; f_equal; lia. }
  rewrite Hskip. unfold Remaining. rewrite Hd, wrap_id by (unfold is_u; lia).
  destruct (Z.ltb_spec 0 (Z.of_nat (88 + length s) - Z.of_nat 88)).
  - unfold ReadBytes, read_fixed. rewrite Hd.
    replace (Z.to_nat (Z.of_nat (88 + length s) - Z.of_nat 88)) with (length s) by lia.
    rewrite (proj2 (Nat.leb_le _ _)) by lia. unfold slice. rewrite Hdrop, take_ge by lia. done.
  - destruct s; [done|cbn in *; lia].
Qed.

(** The next field of a reader on data written as a concatenation. *)
Ltac run_step e :=
  lazymatch goal with
  | Hd : ?d = _ ++ _ |- @mbind Rd _ _ _ ?k ?m ?d (length ?p) = _ =>
      erewrite (run_bind m k e _ d p);
        [|solve [eauto with reads]
         |rewrite Hd, ?app_nil_l, <- ?app_assoc; reflexivity
         |assumption]
  end; cbv beta.

Lemma length_pool_header r : valid_ResourceExtension r -> (length (encode_pool_header r) <= 80)%nat.
Proof.
  intros (H1 & H2 & H3 & H4 & H5 & _). unfold encode_pool_header, encode_allocator, valid_allocator in *.
  rewrite !length_app, H2, H4. unfold enc_u8, enc_u16, enc_u64. rewrite !length_le_bytes.
  destruct (Allocator.IpAlloc _) as [ip|], (Allocator.IdAlloc _) as [id|]; try done.
  - destruct H5 as (_ & H5 & _). rewrite length_app, length_le_bytes, H5. lia.
  - rewrite !length_app, !length_le_bytes. lia.
Qed.

(** A resource pool is read back with its whole bitmap, for address
    and for id allocators: the padding up to the bitmap's offset is skipped
    and the bitmap extends to the end of the account. *)
Lemma ResourceExtension_read r :
  valid_ResourceExtension r ->
  DeserializeResourceExtension (encode_ResourceExtension r) 0%nat =
  (r, length (encode_ResourceExtension r)).
Proof.
  intros Hv. pose proof (length_pool_header r Hv) as Hh.
  destruct Hv as (H1 & H2 & H3 & H4 & H5 & H6 & H7).
  pose proof (read_storage_spec (encode_pool_header r) (ResourceExtension.Storage r)) as Hst.
  fold (encode_ResourceExtension r) in Hst. unfold resourceExtensionBitmapOffset in Hst.
  specialize (Hst ltac:(lia) H7). remember (encode_ResourceExtension r) as d eqn:Hd.
  assert (Hlen : Z.of_nat (length d) < 2 ^ 32).
  { rewrite Hd. unfold encode_ResourceExtension. rewrite !length_app, length_replicate.
    unfold resourceExtensionBitmapOffset. lia. }
  unfold encode_ResourceExtension in Hd.
  set (pad := replicate _ 0) in Hd. clearbody pad.
  unfold encode_pool_header in Hd, Hst. unfold DeserializeResourceExtension.
  destruct r as [ty own bump asc [at_ ipa ida] sto pk]; 
    cbn [ResourceExtension.AccountType ResourceExtension.Owner ResourceExtension.BumpSeed
      ResourceExtension.AssociatedWith ResourceExtension.Allocator ResourceExtension.Storage
      ResourceExtension.PubKey Allocator.AType] in *. subst pk.
  change 0%nat with (length (@nil Z)).
  assert (Hty : is_u8 at_).
  { unfold valid_allocator in H5; cbn in H5. unfold AllocatorTypeIp, AllocatorTypeId, is_u8, is_u in *.
    destruct ipa, ida; try done; destruct H5 as (-> & _); lia. }
  run_step (enc_u8 ty). run_step own. run_step (enc_u8 bump). run_step asc. run_step (enc_u8 at_).
  rewrite app_nil_l.
  unfold valid_allocator, encode_allocator in *;
    cbn [Allocator.AType Allocator.IpAlloc Allocator.IdAlloc] in *.
  destruct ipa as [[base first]|], ida as [[start stop fst_]|]; try done; 
    cbn [IpAllocator.BaseNet IpAllocator.FirstFreeIndex IdAllocator.RangeStart IdAllocator.RangeEnd
      IdAllocator.FirstFreeIndex] in *;
    destruct H5 as (-> & H5); destruct_and?.
  - rewrite Z.eqb_refl. run_step base. run_step (enc_u64 first).
    unfold mbind at 1, Rd_bind at 1. rewrite <- !app_assoc. by rewrite Hst.
  - change (AllocatorTypeId =? AllocatorTypeIp) with false. rewrite Z.eqb_refl.
    run_step (enc_u16 start). run_step (enc_u16 stop). run_step (enc_u64 fst_).
    unfold mbind at 1, Rd_bind at 1. rewrite <- !app_assoc. by rewrite Hst.
Qed.

(** ** [GetProgramData] *)

Module ProgramData.
Record t := mk {
  GlobalState : option GlobalState.t;
  GlobalConfig : option GlobalConfig.t;
  Locations : list Location.t;
  Exchanges : list Exchange.t;
  Contributors : list Contributor.t;
  Tenants : list Tenant.t;
  Devices : list Device.t;
  Links : list Link.t;
  Users : list User.t;
  MulticastGroups : list MulticastGroup.t;
  ProgramConfig : option ProgramConfig.t;
  AccessPasses : list AccessPass.t;
  ResourceExtensions : list ResourceExtension.t;
  Permissions : list Permission.t;
  Topologies : list TopologyInfo.t;
  Feeds : list Feed.t
}.
#[global] Instance eta : RecordEta t := {
  eta_record := fun r => mk (GlobalState r) (GlobalConfig r) (Locations r) (Exchanges r) (Contributors r) (Tenants r)
    (Devices r) (Links r) (Users r) (MulticastGroups r) (ProgramConfig r)
    (AccessPasses r) (ResourceExtensions r) (Permissions r) (Topologies r) (Feeds r);
  eta_record_id := fun r => match r with mk _ _ _ _ _ _ _ _ _ _ _ _ _ _ _ _ => eq_refl end
}.
(** The value the accounts are added to. *)
Definition empty : t := mk None None [] [] [] [] [] [] [] [] None [] [] [] [] [].
End ProgramData.

(** One iteration of the loop: the account is decoded by the reader of its
    first byte; other types and empty accounts are ignored. *)
Definition load_account (pd : ProgramData.t) (acc : pubkey * bytes) : ProgramData.t :=
  let '(key, data) := acc in
  match data with
  | [] => pd
  | ty :: _ =>
      if ty =? GlobalStateType then
        pd <| ProgramData.GlobalState := Some ((DeserializeGlobalState data 0%nat).1 <| GlobalState.PubKey := key |>) |>
      else if ty =? GlobalConfigType then
        pd <| ProgramData.GlobalConfig := Some ((DeserializeGlobalConfig data 0%nat).1 <| GlobalConfig.PubKey := key |>) |>
      else if ty =? LocationType then
        pd <| ProgramData.Locations := ProgramData.Locations pd ++ [(DeserializeLocation data 0%nat).1 <| Location.PubKey := key |>] |>
      else if ty =? ExchangeType then
        pd <| ProgramData.Exchanges := ProgramData.Exchanges pd ++ [(DeserializeExchange data 0%nat).1 <| Exchange.PubKey := key |>] |>
      else if ty =? ContributorType then
        pd <| ProgramData.Contributors := ProgramData.Contributors pd ++ [(DeserializeContributor data 0%nat).1 <| Contributor.PubKey := key |>] |>
      else if ty =? TenantType then
        pd <| ProgramData.Tenants := ProgramData.Tenants pd ++ [(DeserializeTenant data 0%nat).1 <| Tenant.PubKey := key |>] |>
      else if ty =? DeviceType then
        pd <| ProgramData.Devices := ProgramData.Devices pd ++ [(DeserializeDevice data 0%nat).1 <| Device.PubKey := key |>] |>
      else if ty =? LinkType then
        pd <| ProgramData.Links := ProgramData.Links pd ++ [(DeserializeLink data 0%nat).1 <| Link.PubKey := key |>] |>
      else if ty =? UserType then
        pd <| ProgramData.Users := ProgramData.Users pd ++ [(DeserializeUser data 0%nat).1 <| User.PubKey := key |>] |>
      else if ty =? MulticastGroupType then
        pd <| ProgramData.MulticastGroups := ProgramData.MulticastGroups pd ++ [(DeserializeMulticastGroup data 0%nat).1 <| MulticastGroup.PubKey := key |>] |>
      else if ty =? ProgramConfigType then
        pd <| ProgramData.ProgramConfig := Some ((DeserializeProgramConfig data 0%nat).1) |>
      else if ty =? AccessPassType then
        pd <| ProgramData.AccessPasses := ProgramData.AccessPasses pd ++ [(DeserializeAccessPass data 0%nat).1 <| AccessPass.PubKey := key |>] |>
      else if ty =? ResourceExtensionType then
        pd <| ProgramData.ResourceExtensions := ProgramData.ResourceExtensions pd ++ [(DeserializeResourceExtension data 0%nat).1 <| ResourceExtension.PubKey := key |>] |>
      else if ty =? PermissionType then
        pd <| ProgramData.Permissions := ProgramData.Permissions pd ++ [(DeserializePermission data 0%nat).1 <| Permission.PubKey := key |>] |>
      else if ty =? TopologyType then
        pd <| ProgramData.Topologies := ProgramData.Topologies pd ++ [(DeserializeTopologyInfo data 0%nat).1 <| TopologyInfo.PubKey := key |>] |>
      else if ty =? FeedType then
        pd <| ProgramData.Feeds := ProgramData.Feeds pd ++ [(DeserializeFeed data 0%nat).1 <| Feed.PubKey := key |>] |>
      else pd
  end.

(** [out, err] is what the RPC returned. *)
Definition GetProgramData (out : option (list (pubkey * bytes))) : option ProgramData.t :=
  match out with
  | None => None
  | Some [] => None
  | Some accs => Some (foldl load_account ProgramData.empty accs)
  end.

(** *** The accounts the program stores, by kind *)

Inductive account :=
  | AGlobalState (a : GlobalState.t)
  | AGlobalConfig (a : GlobalConfig.t)
  | ALocation (a : Location.t)
  | AExchange (a : Exchange.t)
  | AContributor (a : Contributor.t)
  | ATenant (a : Tenant.t)
  | ADevice (a : Device.t) (extras : list bytes)
  | ALink (a : Link.t)
  | AUser (a : User.t)
  | AMulticastGroup (a : MulticastGroup.t)
  | AProgramConfig (a : ProgramConfig.t)
  | AAccessPass (a : AccessPass.t)
  | AResourceExtension (a : ResourceExtension.t)
  | APermission (a : Permission.t)
  | ATopologyInfo (a : TopologyInfo.t)
  | AFeed (a : Feed.t).

Definition encode_account (x : account) : bytes :=
  match x with
  | AGlobalState a => encode_GlobalState a
  | AGlobalConfig a => encode_GlobalConfig a
  | ALocation a => encode_Location a
  | AExchange a => encode_Exchange a
  | AContributor a => encode_Contributor a
  | ATenant a => encode_Tenant a
  | ADevice a extras => encode_Device a extras
  | ALink a => encode_Link a
  | AUser a => encode_User a
  | AMulticastGroup a => encode_MulticastGroup a
  | AProgramConfig a => encode_ProgramConfig a
  | AAccessPass a => encode_AccessPass a
  | AResourceExtension a => encode_ResourceExtension a
  | APermission a => encode_Permission a
  | ATopologyInfo a => encode_TopologyInfo a
  | AFeed a => encode_Feed a
  end.

Definition valid_kind (x : account) : Prop :=
  match x with
  | AGlobalState a => valid_GlobalState a /\ GlobalState.AccountType a = GlobalStateType
  | AGlobalConfig a => valid_GlobalConfig a /\ GlobalConfig.AccountType a = GlobalConfigType
  | ALocation a => valid_Location a /\ Location.AccountType a = LocationType
  | AExchange a => valid_Exchange a /\ Exchange.AccountType a = ExchangeType
  | AContributor a => valid_Contributor a /\ Contributor.AccountType a = ContributorType
  | ATenant a => valid_Tenant a /\ Tenant.AccountType a = TenantType
  | ADevice a extras => valid_Device a extras /\ Device.AccountType a = DeviceType
  | ALink a => valid_Link a /\ Link.AccountType a = LinkType
  | AUser a => valid_User a /\ User.AccountType a = UserType
  | AMulticastGroup a => valid_MulticastGroup a /\ MulticastGroup.AccountType a = MulticastGroupType
  | AProgramConfig a => valid_ProgramConfig a /\ ProgramConfig.AccountType a = ProgramConfigType
  | AAccessPass a => valid_AccessPass a /\ AccessPass.AccountType a = AccessPassType
  | AResourceExtension a => valid_ResourceExtension a /\ ResourceExtension.AccountType a = ResourceExtensionType
  | APermission a => valid_Permission a /\ Permission.AccountType a = PermissionType
  | ATopologyInfo a => valid_TopologyInfo a /\ TopologyInfo.AccountType a = TopologyType
  | AFeed a => valid_Feed a /\ Feed.AccountType a = FeedType
  end.

Definition valid_account (x : account) : Prop :=
  valid_kind x /\ Z.of_nat (length (encode_account x)) < 2 ^ 32.

(** What the client holds for a list of accounts: the last one of each
    singleton and every account of the other kinds, in order, with its address. *)
Definition collect (l : list (pubkey * account)) : ProgramData.t := ProgramData.mk
  (last (omap (fun ka => match ka.2 with AGlobalState a => Some (a <| GlobalState.PubKey := ka.1 |>) | _ => None end) l))
  (last (omap (fun ka => match ka.2 with AGlobalConfig a => Some (a <| GlobalConfig.PubKey := ka.1 |>) | _ => None end) l))
  (omap (fun ka => match ka.2 with ALocation a => Some (a <| Location.PubKey := ka.1 |>) | _ => None end) l)
  (omap (fun ka => match ka.2 with AExchange a => Some (a <| Exchange.PubKey := ka.1 |>) | _ => None end) l)
  (omap (fun ka => match ka.2 with AContributor a => Some (a <| Contributor.PubKey := ka.1 |>) | _ => None end) l)
  (omap (fun ka => match ka.2 with ATenant a => Some (a <| Tenant.PubKey := ka.1 |>) | _ => None end) l)
  (omap (fun ka => match ka.2 with ADevice a _ => Some (a <| Device.PubKey := ka.1 |>) | _ => None end) l)
  (omap (fun ka => match ka.2 with ALink a => Some (a <| Link.PubKey := ka.1 |>) | _ => None end) l)
  (omap (fun ka => match ka.2 with AUser a => Some (a <| User.PubKey := ka.1 |>) | _ => None end) l)
  (omap (fun ka => match ka.2 with AMulticastGroup a => Some (a <| MulticastGroup.PubKey := ka.1 |>) | _ => None end) l)
  (last (omap (fun ka => match ka.2 with AProgramConfig a => Some a | _ => None end) l))
  (omap (fun ka => match ka.2 with AAccessPass a => Some (a <| AccessPass.PubKey := ka.1 |>) | _ => None end) l)
  (omap (fun ka => match ka.2 with AResourceExtension a => Some (a <| ResourceExtension.PubKey := ka.1 |>) | _ => None end) l)
  (omap (fun ka => match ka.2 with APermission a => Some (a <| Permission.PubKey := ka.1 |>) | _ => None end) l)
  (omap (fun ka => match ka.2 with ATopologyInfo a => Some (a <| TopologyInfo.PubKey := ka.1 |>) | _ => None end) l)
  (omap (fun ka => match ka.2 with AFeed a => Some (a <| Feed.PubKey := ka.1 |>) | _ => None end) l).

Lemma reads_start {A} (m : Rd A) e a : reads m e a -> Z.of_nat (length e) < 2 ^ 32 -> (m e 0%nat).1 = a.
Proof.
  intros Hm He. specialize (Hm [] []). rewrite app_nil_r, app_nil_l in Hm.
  specialize (Hm He). cbn [length] in Hm. by rewrite Hm.
Qed.

Definition account_tag (x : account) : Z :=
  match x with
  | AGlobalState _ => GlobalStateType | AGlobalConfig _ => GlobalConfigType
  | ALocation _ => LocationType | AExchange _ => ExchangeType
  | AContributor _ => ContributorType | ATenant _ => TenantType
  | ADevice _ _ => DeviceType | ALink _ => LinkType | AUser _ => UserType
  | AMulticastGroup _ => MulticastGroupType | AProgramConfig _ => ProgramConfigType
  | AAccessPass _ => AccessPassType | AResourceExtension _ => ResourceExtensionType
  | APermission _ => PermissionType | ATopologyInfo _ => TopologyType | AFeed _ => FeedType
  end.

Lemma first_of e t r ty : t = ty -> ty mod 256 = ty -> e = enc_u8 t ++ r -> exists r', e = ty :: r'.
Proof. intros -> Hm ->. exists r. cbn. by rewrite Hm. Qed.

Lemma first_byte x : valid_kind x -> exists r, encode_account x = account_tag x :: r.
Proof.
  destruct x; intros [_ Ht]; cbn [encode_account account_tag];
    (eapply (first_of _ _ _ _ Ht); [reflexivity|]);
    unfold encode_GlobalState, encode_GlobalConfig, encode_Location, encode_Exchange,
      encode_Contributor, encode_Tenant, encode_Device, encode_device_head, encode_Link, encode_User,
      encode_MulticastGroup, encode_ProgramConfig, encode_AccessPass, encode_pass_fields,
      encode_ResourceExtension, encode_pool_header, encode_Permission, encode_TopologyInfo,
      encode_Feed; cbn [concat app]; rewrite <- ?app_assoc; reflexivity.
Qed.

(** The accounts of [collect l] with one more. *)
Lemma load_snoc l k x : valid_account x ->
  load_account (collect l) (k, encode_account x) = collect (l ++ [(k, x)]).
Proof.
  intros [Hk Hlen]. destruct (first_byte x Hk) as [r Hr].
  unfold load_account. rewrite Hr at 1. unfold collect. rewrite !omap_app.
  destruct x; cbn [omap list_omap fst snd]; rewrite ?app_nil_r, ?last_snoc;
    cbn [valid_kind encode_account] in *; destruct Hk as [Hv _].
  all: cbn [account_tag]; unfold GlobalStateType, GlobalConfigType, LocationType, ExchangeType,
    ContributorType, TenantType, DeviceType, LinkType, UserType, MulticastGroupType,
    ProgramConfigType, AccessPassType, ResourceExtensionType, PermissionType, TopologyType, FeedType;
    cbn [Z.eqb Pos.eqb].
  13: by rewrite ResourceExtension_read.
  all: erewrite reads_start; [reflexivity| |exact Hlen].
  all: auto using reads_GlobalState, reads_GlobalConfig, reads_Location, reads_Exchange,
    reads_Contributor, reads_Tenant, reads_Device, reads_Link, reads_User, reads_MulticastGroup,
    reads_ProgramConfig, reads_AccessPass, reads_Permission, reads_TopologyInfo, reads_Feed.
Qed.

(** The account types [GetProgramData] has a reader for. *)
Definition known_type (ty : Z) : bool :=
  bool_decide (ty ∈ [1; 2; 3; 4; 5; 6; 7; 8; 9; 10; 11; 12; 13; 15; 17; 18]).

Lemma load_unknown pd k ty data : known_type ty = false -> load_account pd (k, ty :: data) = pd.
Proof.
  intros Hd. apply bool_decide_eq_false in Hd.
  assert (H : forall c, c ∈ [1; 2; 3; 4; 5; 6; 7; 8; 9; 10; 11; 12; 13; 15; 17; 18] -> (ty =? c) = false).
  { intros c Hc. apply Z.eqb_neq. by intros ->. }
  unfold load_account, GlobalStateType, GlobalConfigType, LocationType, ExchangeType,
    ContributorType, TenantType, DeviceType, LinkType, UserType, MulticastGroupType,
    ProgramConfigType, AccessPassType, ResourceExtensionType, PermissionType, TopologyType, FeedType.
  by rewrite !H by (eapply (bool_decide_unpack _); exact I).
Qed.

(** C15.  [GetProgramData] on the encoded accounts of the program, mixed with
    empty accounts and accounts of other types, returns exactly the accounts
    of each kind, in order, decoded field by field and with their addresses;
    of the singletons, the last. The list [l] has [inl] for a known account and
    [inr] for the data of another one. *)
Theorem GetProgramData_complete (l : list (pubkey * (account + bytes))) :
  l <> [] ->
  Forall (fun ka => match ka.2 with
    | inl x => valid_account x
    | inr data => match data with [] => True | ty :: _ => known_type ty = false end
    end) l ->
  GetProgramData (Some ((fun ka => (ka.1, match ka.2 with inl x => encode_account x | inr data => data end)) <$> l)) =
  Some (collect (omap (fun ka => match ka.2 with inl x => Some (ka.1, x) | inr _ => None end) l)).
Proof.
  intros Hne Hl. set (f := fun ka => _). set (g := fun ka => _).
  assert (H : foldl load_account ProgramData.empty (f <$> l) = collect (omap g l)); cycle 1.
  { destruct l as [|ka l]; [done|]. rewrite fmap_cons in *. cbn [GetProgramData]. by f_equal. }
  clear Hne.
  induction l as [|[k [x|data]] l IH] using rev_ind; [done| |];
    apply Forall_app in Hl as [Hl Hx]; apply Forall_cons in Hx as [Hx _]; cbn [snd] in Hx;
    rewrite fmap_app, foldl_app, IH, omap_app by done; cbn [fmap list_fmap foldl omap list_omap fst snd].
  - exact (load_snoc (omap g l) k x Hx).
  - rewrite app_nil_r. destruct data as [|ty data]; [done|by apply load_unknown].
Qed.

(** ** Bounds *)

Lemma within_v2 i : within (DeserializeInterfaceV2 i).
Proof. unfold DeserializeInterfaceV2. within_tac. Qed.

Lemma within_segment : within read_segment.
Proof. unfold read_segment. within_tac. Qed.

#[local] Hint Resolve within_v2 within_segment : within.

Lemma within_segments n : within (read_segments n).
Proof. induction n; cbn [read_segments]; within_tac. Qed.

#[local] Hint Resolve within_segments : within.

Lemma within_interface i : within (DeserializeInterface i).
Proof. unfold DeserializeInterface, DeserializeInterfaceV1. within_tac. Qed.

Lemma within_sized i : within (DeserializeInterfaceSized i).
Proof. unfold DeserializeInterfaceSized, read_iface_known. within_tac. Qed.

#[local] Hint Resolve within_interface within_sized : within.

Lemma within_device : within DeserializeDevice.
Proof.
  unfold DeserializeDevice, read_device_head, read_device_interfaces, read_device_counters.
  within_tac.
Qed.

Lemma within_access_pass : within DeserializeAccessPass.
Proof. unfold DeserializeAccessPass, read_pass_data, read_feed_seat, ReadBytes. within_tac. Qed.

Lemma within_pool : within DeserializeResourceExtension.
Proof. unfold DeserializeResourceExtension, read_storage, ReadBytes. within_tac. Qed.

(** On any data, valid or not, every account reader leaves the cursor
    between where it was and the end of the data: no read goes past the end
    and [Remaining] never wraps. *)
Theorem account_readers_within :
  within DeserializeGlobalState /\ within DeserializeGlobalConfig /\ within DeserializeLocation /\
  within DeserializeExchange /\ within DeserializeContributor /\ within DeserializeTenant /\
  within DeserializeDevice /\ within DeserializeLink /\ within DeserializeUser /\
  within DeserializeMulticastGroup /\ within DeserializeProgramConfig /\
  within DeserializeAccessPass /\ within DeserializeResourceExtension /\
  within DeserializePermission /\ within DeserializeTopologyInfo /\ within DeserializeFeed.
Proof.
  split_and!; [..|apply within_device| | | | |apply within_access_pass|apply within_pool| | |];
    unfold DeserializeGlobalState, DeserializeGlobalConfig, DeserializeLocation, DeserializeExchange,
      DeserializeContributor, DeserializeTenant, DeserializeLink, DeserializeUser,
      DeserializeMulticastGroup, DeserializeProgramConfig, DeserializeProgramVersion,
      DeserializePermission, DeserializeTopologyInfo, DeserializeFeed; within_tac.
Qed.

(** ** Length-prefixed slices *)

Lemma length_read_n {A} n (m : Rd A) d o : length (read_n n m d o).1 = n.
Proof.
  revert o. induction n as [|n IH]; intros o; [done|]. cbn [read_n]. unfold mbind, Rd_bind.
  destruct (m d o) as [x o1]. specialize (IH o1). destruct (read_n n m d o1) as [xs o2].
  cbn in *. by rewrite IH.
Qed.

Lemma read_n_eof {A} n (m : Rd A) a d : at_eof m a ->
  read_n n m d (length d) = (replicate n a, length d).
Proof.
  intros Hm. induction n as [|n IH]; [done|]. cbn [read_n replicate]. unfold mbind, Rd_bind.
  by rewrite Hm, IH.
Qed.

(** What a key vector costs. The number of keys [ReadPubkeySlice]
    allocates is covered by the bytes that remain after the count, unless the
    count times 32 overflows [uint32]. *)
Theorem ReadPubkeySlice_alloc d o :
  bytes_ok d -> (o <= length d)%nat -> Z.of_nat (length d) < 2 ^ 32 ->
  let n := length (ReadPubkeySlice d o).1 in
  (o + 4 + 32 * n <= length d)%nat \/ n = 0%nat \/ 2 ^ 32 <= 32 * Z.of_nat n.
Proof.
  intros Hok Ho Hd. cbv zeta. unfold ReadPubkeySlice, read_slice, mbind, Rd_bind, ReadU32, read_fixed, Remaining.
  destruct (Nat.leb_spec (o + 4) (length d)) as [H4|]; [|by right; left].
  set (len := le_val _). rewrite wrap_id by (unfold is_u; lia).
  destruct (Z.eqb_spec len 0); cbn [orb]; [by right; left|].
  destruct (Z.ltb_spec (Z.of_nat (length d) - Z.of_nat (o + 4)) (u32 (len * 32))) as [|Hle]; [by right; left|].
  rewrite length_read_n.
  assert (Hlen : 0 <= len).
  { by apply le_val_range, bytes_ok_slice. }
  destruct (decide (len * 32 < 2 ^ 32)); [left|right; right; lia].
  rewrite wrap_id in Hle by (unfold is_u; lia). lia.
Qed.

(** Four bytes are enough to make [ReadPubkeySlice] allocate 2{^27}
    zero keys: 2{^27} * 32 is 0 in [uint32], so the length check passes. *)
Theorem ReadPubkeySlice_overflow :
  ReadPubkeySlice [0; 0; 0; 8] 0%nat = (replicate (Z.to_nat (2 ^ 27)) (replicate 32 0), 4%nat).
Proof.
  pose proof (read_n_eof (Z.to_nat (2 ^ 27)) ReadPubkey (replicate 32 0) [0; 0; 0; 8]) as H.
  specialize (H (eof_fixed 32 _ _ ltac:(lia))).
  change (ReadPubkeySlice [0; 0; 0; 8] 0%nat) with (read_n (Z.to_nat (2 ^ 27)) ReadPubkey [0; 0; 0; 8] 4%nat).
  exact H.
Qed.

(** ** Pool accounting *)

(** Bit [i] of the bitmap: bit [i mod 8] of byte [i / 8]. *)
Definition allocated (r : ResourceExtension.t) (i : nat) : bool :=
  Z.testbit (nth (i / 8) (ResourceExtension.Storage r) 0) (Z.of_nat (i mod 8)).

Definition byte_bits (b : Z) : list nat := filter (fun i => Z.testbit b (Z.of_nat i)) (seq 0 8).

Lemma count_bits_spec b : is_u8 b -> count_bits 8 b = Z.of_nat (length (byte_bits b)).
Proof.
  intros Hb. unfold is_u in Hb. change (2 ^ 8) with 256 in Hb.
  assert (H : forallb (fun n => count_bits 8 (Z.of_nat n) =? Z.of_nat (length (byte_bits (Z.of_nat n))))
    (seq 0 256) = true) by (vm_compute; reflexivity).
  rewrite forallb_forall in H. specialize (H (Z.to_nat b)). rewrite Z2Nat.id in H by lia.
  apply Z.eqb_eq, H, in_seq. lia.
Qed.

Lemma filter_seq_shift (P Q : nat -> bool) j k n : (forall i, P (j + i)%nat = Q i) ->
  length (filter P (seq (j + k) n)) = length (filter Q (seq k n)).
Proof.
  intros H. revert k. induction n as [|n IH]; intros k; [done|]. cbn [seq].
  rewrite !filter_cons, H. specialize (IH (S k)). rewrite Nat.add_succ_r in IH.
  case_decide; cbn [length]; by rewrite IH.
Qed.

Lemma allocated_cons r b s : ResourceExtension.Storage r = b :: s ->
  length (filter (allocated r) (seq 0 (8 * length (b :: s)))) =
  (length (byte_bits b) +
   length (filter (allocated (r <| ResourceExtension.Storage := s |>)) (seq 0 (8 * length s))))%nat.
Proof.
  intros Hr. replace (8 * length (b :: s))%nat with (8 + 8 * length s)%nat by (cbn; lia).
  rewrite seq_app, filter_app, length_app. f_equal.
  - unfold allocated, byte_bits. by rewrite Hr.
  - change (0 + 8)%nat with (8 + 0)%nat. apply filter_seq_shift. intros i. unfold allocated.
    change (ResourceExtension.Storage (r <| ResourceExtension.Storage := s |>)) with s. rewrite Hr.
    replace ((8 + i) / 8)%nat with (S (i / 8))
      by (symmetry; exact (Nat.div_add_l 1 8 i ltac:(lia))).
    by replace ((8 + i) mod 8)%nat with (i mod 8)%nat
      by (rewrite (Nat.add_comm 8); symmetry; exact (Nat.Div0.mod_add i 1 8)).
Qed.

(** Pool accounting is exact: [AllocatedCount] is the number of indices
    whose bit is set in the bitmap, so capacity is the sum of what is
    allocated and what is available. *)
Theorem pool_accounting r :
  bytes_ok (ResourceExtension.Storage r) ->
  let used := filter (allocated r) (seq 0 (8 * length (ResourceExtension.Storage r))) in
  AllocatedCount r = Z.of_nat (length used) /\
  TotalCapacity r = Z.of_nat (length used) + AvailableCount r.
Proof.
  intros Hok used. assert (H : AllocatedCount r = Z.of_nat (length used)); [|unfold AvailableCount; lia].
  unfold used, AllocatedCount. clear used. remember (ResourceExtension.Storage r) as s eqn:Hs.
  change (Z.of_nat ?n) with (0 + Z.of_nat n). generalize 0 as acc. revert r Hs.
  induction Hok as [|b s Hb _ IH]; intros r Hs acc; [cbn; lia|]. cbn [fold_left].
  rewrite (IH (r <| ResourceExtension.Storage := s |>)) by done. rewrite (allocated_cons r b s) by done.
  rewrite count_bits_spec by done. lia.
Qed.

(** ** Accounts written before their last fields existed *)

Definition encode_old_User (a : User.t) : bytes := concat [
  enc_u8 (User.AccountType a); User.Owner a; enc_u128 (User.Index a);
  enc_u8 (User.BumpSeed a); enc_u8 (User.UserType a); User.TenantPubKey a;
  User.DevicePubKey a; enc_u8 (User.CyoaType a); User.ClientIp a; User.DzIp a;
  enc_u16 (User.TunnelId a); User.TunnelNet a; enc_u8 (User.Status a);
  enc_vec (fun k => k) (User.Publishers a); enc_vec (fun k => k) (User.Subscribers a);
  User.ValidatorPubKey a; User.TunnelEndpoint a; enc_u8 (User.TunnelFlags a);
  enc_u8 (User.BgpStatus a); enc_u64 (User.LastBgpUpAt a); enc_u64 (User.LastBgpReportedAt a)].

(** A user account is read back, and one written before the round-trip
    time and the feed existed is read with a time of zero and no feed. *)
Theorem User_roundtrip a :
  valid_User a ->
  reads DeserializeUser (encode_User a) a /\
  reads_end DeserializeUser (encode_old_User a)
    (a <| User.BgpRttNs := 0 |> <| User.FeedPk := zero_key |>).
Proof.
  intros Hv. split; [by apply reads_User|].
  unfold valid_User in Hv. repeat match goal with H : _ /\ _ |- _ => destruct H end.
  unfold encode_old_User, DeserializeUser. cbn [concat].
  repeat (eapply reads_end_bind; [solve [eauto with reads]|cbv beta]).
  apply reads_end_eof. destruct a; cbn [User.PubKey] in *; subst. eof_tac.
Qed.

(** ** Sample accounts *)

Definition sample_user : User.t :=
  User.mk UserType (sample_key 1) (mkUint128 3 0) 250 0 zero_key (sample_key 2) 1 [10; 0; 0; 5]
    [10; 9; 0; 5] 501 [169; 254; 0; 0; 31] 1 [sample_key 7] [] zero_key [192; 0; 2; 1] 1 1
    1000 1001 45000 (sample_key 8) zero_key.

Lemma valid_sample_user : valid_User sample_user.
Proof. unfold valid_User. check_valid. Qed.

Lemma User_roundtrip_witness :
  reads DeserializeUser (encode_User sample_user) sample_user /\
  reads_end DeserializeUser (encode_old_User sample_user)
    (sample_user <| User.BgpRttNs := 0 |> <| User.FeedPk := zero_key |>).
Proof. exact (User_roundtrip sample_user valid_sample_user). Defined.

(** An address pool whose bitmap has indices 0, 1, 2 and 9 allocated. *)
Definition sample_pool : ResourceExtension.t :=
  ResourceExtension.mk ResourceExtensionType (sample_key 1) 253 zero_key
    (Allocator.mk AllocatorTypeIp (Some (IpAllocator.mk [10; 0; 0; 0; 28] 3)) None) [7; 2] zero_key.

Lemma pool_accounting_witness :
  AllocatedCount sample_pool = 4 /\ TotalCapacity sample_pool = 4 + AvailableCount sample_pool.
Proof. apply (pool_accounting sample_pool). unfold bytes_ok. check_valid. Defined.

Lemma ReadPubkeySlice_alloc_witness :
  let n := length (ReadPubkeySlice (le_bytes 4 1 ++ sample_key 9) 0%nat).1 in
  (0 + 4 + 32 * n <= length (le_bytes 4 1 ++ sample_key 9))%nat \/ n = 0%nat \/
  2 ^ 32 <= 32 * Z.of_nat n.
Proof.
  apply (ReadPubkeySlice_alloc (le_bytes 4 1 ++ sample_key 9) 0%nat).
  - unfold bytes_ok. check_valid.
  - vm_compute. lia.
  - vm_compute. reflexivity.
Defined.

(** A user, an empty account, an account of another type and a pool. *)
Definition sample_accounts : list (pubkey * (account + bytes)) :=
  [(sample_key 20, inl (AUser sample_user)); (sample_key 21, inr []);
   (sample_key 22, inr [16; 1; 2]); (sample_key 23, inl (AResourceExtension sample_pool))].

Lemma GetProgramData_complete_witness :
  exists pd, GetProgramData (Some ((fun ka => (ka.1, match ka.2 with inl x => encode_account x | inr data => data end)) <$> sample_accounts)) = Some pd /\
    ProgramData.Users pd = [sample_user <| User.PubKey := sample_key 20 |>] /\
    ProgramData.ResourceExtensions pd = [sample_pool <| ResourceExtension.PubKey := sample_key 23 |>].
Proof.
  eexists. split.
  - apply (GetProgramData_complete sample_accounts); [discriminate|].
    repeat constructor; try (vm_compute; first [reflexivity|discriminate]).
  - vm_compute. split; reflexivity.
Defined.
