(* ===== verification/TelemetryBuffer.v ===== *)
(** * Device telemetry: the sample buffer

    Models [controlplane/telemetry/pkg/buffer/memory.go]. [MemoryBuffer] is
    modelled with Go's slices: an array in a heap, and a view of its first
    cells, so that the reuse of recycled slices through [sync.Pool] is visible.
    [MemoryPartitionedBuffer] maps keys to buffers held by reference. *)

From stdpp Require Import base tactics numbers list gmap.
From Stdlib Require Import ZArith Lia.
From S2P Require Import Prelude.

#[local] Open Scope nat_scope.

(** ** Slices *)

Section Slices.
Context {R : Type}.

(** The cells written so far of an array of capacity [acap]. *)
Record array := mkArray { acap : nat; acells : list R }.

Record slice := mkSlice { sl_arr : nat; sl_len : nat }.

Definition slice_val (h : list array) (s : slice) : list R :=
  match h !! sl_arr s with Some a => take (sl_len s) (acells a) | None => [] end.

Definition alloc (a : array) (len : nat) (h : list array) : list array * slice :=
  (h ++ [a], mkSlice (length h) len).

(** [make([]R, 0, cap)] *)
Definition make_slice (cap : nat) (h : list array) : list array * slice := alloc (mkArray cap []) 0 h.

(** [s[:0]] *)
Definition reslice0 (s : slice) : slice := mkSlice (sl_arr s) 0.

Definition write_at (a : array) (n : nat) (xs : list R) : array :=
  mkArray (acap a) (take n (acells a) ++ xs ++ drop (n + length xs) (acells a)).

(** [append(s, xs...)]: in place when the capacity allows, else in a new array
    whose capacity the runtime chooses. *)
Definition append (grow : nat -> nat -> nat) (s : slice) (xs : list R) (h : list array) : list array * slice :=
  let n := sl_len s + length xs in
  match h !! sl_arr s with
  | None => (h, s)
  | Some a =>
      if n <=? acap a then (<[sl_arr s := write_at a (sl_len s) xs]> h, mkSlice (sl_arr s) n)
      else alloc (mkArray (Nat.max n (grow (acap a) n)) (slice_val h s ++ xs)) n h
  end.
End Slices.
Arguments array : clear implicits.

(** The heap: an array per address; a new one gets the next address. *)
Abbreviation heap R := (list (array R)).

(** ** [MemoryBuffer] *)

Record MemoryBuffer := mkMemoryBuffer {
  records : slice;
  maxCapacity : nat;
  pool : list slice
}.

Section Buffer.
Context {R : Type} (grow : nat -> nat -> nat).

Abbreviation St := (heap R * MemoryBuffer)%type.

Definition NewMemoryBuffer (capacity : nat) (h : heap R) : St :=
  let '(h, s) := make_slice capacity h in (h, mkMemoryBuffer s capacity []).

Definition set_records (s : slice) (b : MemoryBuffer) : MemoryBuffer :=
  mkMemoryBuffer s (maxCapacity b) (pool b).

Definition Len (st : St) : nat := sl_len (records st.2).

(** [Add] waits while the buffer is full: [None] is a blocked caller. *)
Definition Add (r : R) (st : St) : option St :=
  let '(h, b) := st in
  if maxCapacity b <=? sl_len (records b) then None
  else let '(h, s) := append grow (records b) [r] h in Some (h, set_records s b).

Definition TryAdd (r : R) (st : St) : St * bool :=
  match Add r st with Some st => (st, true) | None => (st, false) end.

(** [pool.Get()]: a recycled slice, chosen by the runtime, or a new one. *)
Definition pool_get (pick : option nat) (st : St) : St * slice :=
  let '(h, b) := st in
  match pick ≫= fun i => pair i <$> pool b !! i with
  | Some (i, s) => ((h, mkMemoryBuffer (records b) (maxCapacity b) (delete i (pool b))), s)
  | None => let '(h, s) := make_slice (maxCapacity b) h in ((h, b), s)
  end.

Definition CopyAndReset (pick : option nat) (st : St) : St * slice :=
  let '((h, b), tmp) := pool_get pick st in
  let '(h, tmp) := append grow (reslice0 tmp) (slice_val h (records b)) h in
  ((h, set_records (reslice0 (records b)) b), tmp).

(** [Read] and [FlushWithoutReset]: a fresh copy. *)
Definition Read (st : St) : St * slice :=
  let '(h, b) := st in
  let v := slice_val h (records b) in
  let '(h, s) := alloc (mkArray (length v) v) (length v) h in ((h, b), s).

Definition Recycle (s : slice) (st : St) : St :=
  let '(h, b) := st in (h, mkMemoryBuffer (records b) (maxCapacity b) (reslice0 s :: pool b)).

Definition PriorityPrepend (s : slice) (st : St) : St :=
  let '(h, b) := st in
  let v := slice_val h s ++ slice_val h (records b) in
  let '(h, s) := alloc (mkArray (length v) v) (length v) h in (h, set_records s b).

(** ** Runs

    A client holds the slices it was given until it recycles them. *)

Record BufSys := mkBufSys { bs_st : St; bs_held : list slice }.

Inductive buf_op :=
| OpAdd (r : R)
| OpTryAdd (r : R)
| OpCopyAndReset (pick : option nat)
| OpRead
| OpRecycle (i : nat)
| OpPriorityPrepend (i : nat).

Definition buf_step (op : buf_op) (y : BufSys) : option BufSys :=
  let '(mkBufSys st held) := y in
  match op with
  | OpAdd r => (fun st => mkBufSys st held) <$> Add r st
  | OpTryAdd r => Some (mkBufSys (TryAdd r st).1 held)
  | OpCopyAndReset pick => let '(st, s) := CopyAndReset pick st in Some (mkBufSys st (held ++ [s]))
  | OpRead => let '(st, s) := Read st in Some (mkBufSys st (held ++ [s]))
  | OpRecycle i => (fun s => mkBufSys (Recycle s st) (delete i held)) <$> held !! i
  | OpPriorityPrepend i => (fun s => mkBufSys (PriorityPrepend s st) held) <$> held !! i
  end.

Definition buf_run (ops : list buf_op) (y : BufSys) : option BufSys :=
  foldl (fun y op => y ≫= buf_step op) (Some y) ops.

(** ** Specification: a bounded queue and the lists its clients hold *)

Definition spec_step (cap : nat) (op : buf_op) (a : list R * list (list R)) :
    option (list R * list (list R)) :=
  let '(q, held) := a in
  match op with
  | OpAdd r => if cap <=? length q then None else Some (q ++ [r], held)
  | OpTryAdd r => Some (if cap <=? length q then q else q ++ [r], held)
  | OpCopyAndReset _ => Some ([], held ++ [q])
  | OpRead => Some (q, held ++ [q])
  | OpRecycle i => (fun _ => (q, delete i held)) <$> held !! i
  | OpPriorityPrepend i => (fun v => (v ++ q, held)) <$> held !! i
  end.

Definition spec_run (cap : nat) (ops : list buf_op) (a : list R * list (list R)) :
    option (list R * list (list R)) :=
  foldl (fun a op => a ≫= spec_step cap op) (Some a) ops.

(** What a system means: the queued records and the held lists. *)
Definition buf_abs (y : BufSys) : list R * list (list R) :=
  let '(mkBufSys (h, b) held) := y in (slice_val h (records b), slice_val h <$> held).

(** ** Ownership

    The buffer, its pool and its clients own distinct arrays. *)

Definition slice_ok (h : heap R) (s : slice) : Prop :=
  exists a, h !! sl_arr s = Some a /\ sl_len s <= length (acells a) <= acap a.

Definition owned (h : heap R) (l : list slice) : Prop :=
  Forall (slice_ok h) l /\ NoDup (sl_arr <$> l).

#[global] Instance owned_proper h : Proper ((≡ₚ) ==> iff) (owned h).
Proof. intros l l' Hl. unfold owned. by rewrite Hl. Qed.

Definition sys_ok (y : BufSys) : Prop :=
  let '(mkBufSys (h, b) held) := y in owned h (records b :: held ++ pool b).

(** Going from [h] to [h'] leaves the slices of [l] alone. *)
Definition frames (h h' : heap R) (l : list slice) : Prop :=
  Forall (slice_ok h') l /\ slice_val h' <$> l = slice_val h <$> l.

Lemma slice_ok_bound h s : slice_ok h s -> sl_arr s < length h.
Proof. intros (a & Ha & _). by eapply lookup_lt_Some. Qed.

Lemma length_slice_val h s : slice_ok h s -> length (slice_val h s) = sl_len s.
Proof. intros (a & Ha & ?). unfold slice_val. rewrite Ha, length_take. lia. Qed.

Lemma slice_ok_reslice0 h s : slice_ok h s -> slice_ok h (reslice0 s).
Proof. intros (a & Ha & ?). exists a. cbn. split; [done|lia]. Qed.

Lemma slice_val_reslice0 (h : heap R) s : slice_val h (reslice0 s) = [].
Proof. unfold slice_val, reslice0. cbn. by destruct (h !! _). Qed.

Lemma frames_alloc h a l : Forall (slice_ok h) l -> frames h (h ++ [a]) l.
Proof.
  intros Hl. split.
  - eapply Forall_impl; [done|]. intros s (b & Hb & ?). exists b. split; [|done].
    by apply lookup_app_l_Some.
  - apply list_fmap_ext. intros i s Hs. rewrite Forall_lookup in Hl.
    destruct (Hl i s Hs) as (b & Hb & _). unfold slice_val.
    by rewrite Hb, (lookup_app_l_Some _ _ _ _ Hb).
Qed.

Lemma owned_alloc h a len l : owned h l -> len <= length (acells a) <= acap a ->
  owned (h ++ [a]) (mkSlice (length h) len :: l).
Proof.
  intros [Hl Hnd] Ha. split.
  - constructor; [|by apply frames_alloc]. exists a. cbn.
    by rewrite lookup_app_r, Nat.sub_diag by lia.
  - rewrite fmap_cons. constructor; [|done]. cbn. rewrite list_elem_of_fmap. intros (s & Hs & Hin).
    rewrite Forall_forall in Hl. specialize (Hl s Hin). apply slice_ok_bound in Hl. lia.
Qed.

Lemma slice_val_alloc (h : heap R) a n : slice_val (h ++ [a]) (mkSlice (length h) n) = take n (acells a).
Proof. unfold slice_val. cbn. by rewrite lookup_app_r, Nat.sub_diag by lia. Qed.

Lemma take_write (a : array R) n xs : n <= length (acells a) ->
  take (n + length xs) (acells (write_at a n xs)) = take n (acells a) ++ xs.
Proof.
  intros Hn. cbn. rewrite app_assoc. apply take_app_exact. rewrite length_app, length_take. lia.
Qed.

Lemma frames_write h s a n xs l : h !! sl_arr s = Some a ->
  Forall (slice_ok h) l -> sl_arr s ∉ sl_arr <$> l ->
  frames h (<[sl_arr s := write_at a n xs]> h) l.
Proof.
  intros Ha Hl Hs. assert (H : forall t, t ∈ l -> <[sl_arr s := write_at a n xs]> h !! sl_arr t = h !! sl_arr t).
  { intros t Ht. apply list_lookup_insert_ne. intros Heq. apply Hs. rewrite Heq.
    by apply list_elem_of_fmap_2. }
  split.
  - rewrite Forall_forall in *. intros t Ht. destruct (Hl t Ht) as (b & Hb & ?). exists b.
    by rewrite H.
  - apply list_fmap_ext. intros i t Ht. unfold slice_val.
    by rewrite H by (by apply list_elem_of_lookup_2 in Ht).
Qed.

(** Appending to a slice one owns: the slice grows, possibly in a new array,
    and the others keep their contents. *)
Lemma append_owned s xs h l : owned h (s :: l) ->
  let '(h', s') := append grow s xs h in
  owned h' (s' :: l) /\ slice_val h' s' = slice_val h s ++ xs /\ slice_val h' <$> l = slice_val h <$> l.
Proof.
  intros [Hl Hnd]. apply Forall_cons in Hl as [(a & Ha & Hlen) Hl].
  rewrite fmap_cons in Hnd. apply NoDup_cons in Hnd as [Hs Hnd].
  unfold append. rewrite Ha. destruct (Nat.leb_spec (sl_len s + length xs) (acap a)) as [Hc|Hc].
  - destruct (frames_write h s a (sl_len s) xs l Ha Hl Hs) as [H1 H2].
    assert (Hlook : <[sl_arr s := write_at a (sl_len s) xs]> h !! sl_arr s = Some (write_at a (sl_len s) xs))
      by (apply list_lookup_insert_eq; by eapply lookup_lt_Some).
    split_and!; [split| |exact H2].
    + constructor; [|done]. exists (write_at a (sl_len s) xs). split; [exact Hlook|]. cbn.
      rewrite !length_app, length_take, length_drop. lia.
    + rewrite fmap_cons. by constructor.
    + unfold slice_val. cbn [sl_arr sl_len]. rewrite Hlook, Ha. apply take_write. lia.
  - destruct (frames_alloc h (mkArray (Nat.max (sl_len s + length xs) (grow (acap a) (sl_len s + length xs)))
      (slice_val h s ++ xs)) l Hl) as [H1 H2]. cbn [alloc].
    assert (Hval : length (slice_val h s) = sl_len s) by (apply length_slice_val; exists a; auto).
    split_and!; [apply owned_alloc| |exact H2].
    + by split.
    + cbn. rewrite length_app. lia.
    + rewrite slice_val_alloc. cbn. apply take_ge. rewrite length_app. lia.
Qed.

(** ** Simulation *)

Lemma Add_sim r h b held : owned h (records b :: held ++ pool b) ->
  match Add r (h, b) with
  | Some (h', b') =>
      length (slice_val h (records b)) < maxCapacity b /\
      sys_ok (mkBufSys (h', b') held) /\ maxCapacity b' = maxCapacity b /\
      slice_val h' (records b') = slice_val h (records b) ++ [r] /\
      slice_val h' <$> held = slice_val h <$> held
  | None => maxCapacity b <= length (slice_val h (records b))
  end.
Proof.
  intros Ho. pose proof Ho as [[Hr _]%Forall_cons _]. rewrite (length_slice_val _ _ Hr).
  unfold Add. destruct (Nat.leb_spec (maxCapacity b) (sl_len (records b))); [done|].
  pose proof (append_owned (records b) [r] h (held ++ pool b) Ho) as Ha.
  destruct (append grow (records b) [r] h) as [h' s']. destruct Ha as (H1 & H2 & H3).
  rewrite !fmap_app in H3. apply app_inj_1 in H3 as [H3 _]; [|by rewrite !length_fmap].
  by split_and!.
Qed.

Lemma pool_get_owned pick h b held : owned h (records b :: held ++ pool b) ->
  let '((h', b'), s) := pool_get pick (h, b) in
  owned h' (s :: records b' :: held ++ pool b') /\ maxCapacity b' = maxCapacity b /\
  slice_val h' (records b') = slice_val h (records b) /\ slice_val h' <$> held = slice_val h <$> held.
Proof.
  intros Ho. unfold pool_get. destruct (pick ≫= _) as [[i s]|] eqn:Hp.
  - destruct pick as [j|]; [|done]. cbn in Hp. destruct (pool b !! j) as [s'|] eqn:Hj; [|done].
    injection Hp as -> ->. split_and!; [|done..]. cbn [records pool].
    apply delete_Permutation in Hj. rewrite Hj in Ho. rewrite <- (Permutation_middle held) in Ho.
    by rewrite Permutation_swap.
  - cbn [make_slice alloc].
    pose proof Ho as [Hok _]. apply (frames_alloc _ (mkArray (maxCapacity b) [])) in Hok as [_ Hv].
    rewrite fmap_cons, fmap_app, fmap_cons, fmap_app in Hv. injection Hv as Hv1 Hv2.
    apply app_inj_1 in Hv2 as [Hv2 _]; [|by rewrite !length_fmap].
    split_and!; [|done..]. apply owned_alloc; [done|cbn; lia].
Qed.

Lemma CopyAndReset_sim pick h b held : owned h (records b :: held ++ pool b) ->
  let '((h', b'), s) := CopyAndReset pick (h, b) in
  sys_ok (mkBufSys (h', b') (held ++ [s])) /\ maxCapacity b' = maxCapacity b /\
  slice_val h' (records b') = [] /\
  slice_val h' <$> (held ++ [s]) = (slice_val h <$> held) ++ [slice_val h (records b)].
Proof.
  intros Ho. unfold CopyAndReset. pose proof (pool_get_owned pick h b held Ho) as Hg.
  destruct (pool_get pick (h, b)) as [[h1 b1] t]. destruct Hg as (Ho1 & Hc & Hv & Hh).
  assert (Ho2 : owned h1 (reslice0 t :: records b1 :: held ++ pool b1)).
  { destruct Ho1 as [[Ht Hl]%Forall_cons Hnd]. split; [|exact Hnd].
    constructor; [by apply slice_ok_reslice0|done]. }
  pose proof (append_owned (reslice0 t) (slice_val h1 (records b1)) h1 _ Ho2) as Ha.
  destruct (append grow (reslice0 t) _ h1) as [h2 s]. destruct Ha as (Ho3 & Hs & Hrest).
  rewrite slice_val_reslice0, app_nil_l in Hs. rewrite !fmap_cons, !fmap_app in Hrest.
  injection Hrest as Hr Hrest. apply app_inj_1 in Hrest as [Hrest _]; [|by rewrite !length_fmap].
  split_and!; [|done|apply slice_val_reslice0|].
  - unfold sys_ok, set_records. cbn [records pool]. rewrite <- app_assoc.
    rewrite (Permutation_app_comm held), <- app_assoc. cbn.
    destruct Ho3 as [[Hs' [Hr' Hl]%Forall_cons]%Forall_cons Hnd]. rewrite Permutation_swap.
    rewrite (Permutation_app_comm (pool b1)).
    split; [|exact Hnd]. constructor; [done|]. constructor; [by apply slice_ok_reslice0|done].
  - rewrite fmap_app, Hrest, Hh. cbn. by rewrite Hs, Hv.
Qed.

Lemma alloc_copy_sim h l v : owned h l ->
  let '(h', s) := alloc (mkArray (length v) v) (length v) h in
  owned h' (s :: l) /\ slice_val h' s = v /\ slice_val h' <$> l = slice_val h <$> l.
Proof.
  intros Ho. cbn [alloc]. split_and!.
  - apply owned_alloc; [done|cbn; lia].
  - rewrite slice_val_alloc. by apply take_ge.
  - apply frames_alloc, Ho.
Qed.

Definition sys_cap (y : BufSys) : nat := maxCapacity (bs_st y).2.

Lemma step_sim op y : sys_ok y ->
  match buf_step op y with
  | Some y' => sys_ok y' /\ sys_cap y' = sys_cap y /\
               spec_step (sys_cap y) op (buf_abs y) = Some (buf_abs y')
  | None => spec_step (sys_cap y) op (buf_abs y) = None
  end.
Proof.
  destruct y as [[h b] held]. cbn [sys_ok]. intros Ho. unfold sys_cap. cbn [bs_st snd buf_abs].
  destruct op as [r|r|pick| |i|i]; cbn [buf_step spec_step].
  - pose proof (Add_sim r h b held Ho) as Ha. destruct (Add r (h, b)) as [[h' b']|]; cbn [fmap option_fmap option_map].
    + destruct Ha as (Hlt & Hok & Hc & Hv & Hh). rewrite (proj2 (Nat.leb_gt _ _)) by done.
      cbn [buf_abs bs_st snd]. by rewrite Hv, Hh.
    + by rewrite (proj2 (Nat.leb_le _ _)).
  - pose proof (Add_sim r h b held Ho) as Ha. unfold TryAdd. destruct (Add r (h, b)) as [[h' b']|]; cbn [fst].
    + destruct Ha as (Hlt & Hok & Hc & Hv & Hh). rewrite (proj2 (Nat.leb_gt _ _)) by done.
      cbn [buf_abs bs_st snd]. by rewrite Hv, Hh.
    + by rewrite (proj2 (Nat.leb_le _ _)).
  - pose proof (CopyAndReset_sim pick h b held Ho) as Ha.
    destruct (CopyAndReset pick (h, b)) as [[h' b'] s]. destruct Ha as (Hok & Hc & Hv & Hh).
    cbn [buf_abs bs_st snd]. by rewrite Hv, Hh.
  - pose proof (alloc_copy_sim h _ (slice_val h (records b)) Ho) as Ha. unfold Read.
    destruct (alloc _ _ h) as [h' s]. destruct Ha as (Hok & Hv & Hh).
    rewrite !fmap_cons, !fmap_app in Hh. injection Hh as Hr Hh.
    apply app_inj_1 in Hh as [Hh _]; [|by rewrite !length_fmap].
    cbn [buf_abs bs_st snd]. split_and!; [|done|by rewrite fmap_app, Hr, Hh; cbn; rewrite Hv].
    unfold sys_ok. rewrite <- app_assoc. cbn. rewrite <- Permutation_middle, Permutation_swap. exact Hok.
  - rewrite list_lookup_fmap. destruct (held !! i) as [s|] eqn:Hi; cbn [fmap option_fmap option_map]; [|done].
    split_and!; [|done|cbn [buf_abs Recycle]; by rewrite list_fmap_delete].
    cbn [sys_ok Recycle records pool]. rewrite (delete_Permutation _ _ _ Hi) in Ho.
    rewrite <- Permutation_middle. cbn in Ho. destruct Ho as [Hl Hnd]. split; [|exact Hnd].
    apply Forall_cons in Hl as [Hr [Hs Hl]%Forall_cons]. constructor; [done|].
    constructor; [by apply slice_ok_reslice0|done].
  - rewrite list_lookup_fmap. destruct (held !! i) as [s|] eqn:Hi; cbn [fmap option_fmap option_map]; [|done].
    pose proof (alloc_copy_sim h _ (slice_val h s ++ slice_val h (records b)) Ho) as Ha.
    unfold PriorityPrepend. destruct (alloc _ _ h) as [h' t]. destruct Ha as (Hok & Hv & Hh).
    rewrite !fmap_cons, !fmap_app in Hh. injection Hh as Hr Hh.
    apply app_inj_1 in Hh as [Hh _]; [|by rewrite !length_fmap].
    cbn [buf_abs bs_st snd set_records records]. split_and!; [|done|by rewrite Hv, Hh].
    cbn [sys_ok set_records records pool]. rewrite Permutation_swap in Hok.
    destruct Hok as [[_ Hl]%Forall_cons [_ Hnd]%NoDup_cons]. by split.
Qed.

Lemma new_sys_ok cap : sys_ok (mkBufSys (NewMemoryBuffer cap []) []).
Proof.
  cbn. split.
  - constructor; [|constructor]. eexists. split; [done|]. cbn. lia.
  - apply NoDup_singleton.
Qed.

(** C16.  The pooled buffer refines a bounded queue of values. From an empty
    buffer, for every sequence of operations, whatever slices the pool hands
    out: a call blocks exactly when the queue is full; the queued records and
    every list a client holds are those of the specification, so that no
    recycled array is shared with live data, and prepending what was copied
    restores the order. *)
Theorem buffer_refines_queue cap (ops : list buf_op) :
  buf_abs <$> buf_run ops (mkBufSys (NewMemoryBuffer cap []) []) = spec_run cap ops ([], []).
Proof.
  unfold buf_run, spec_run.
  assert (H : forall y, sys_ok y -> sys_cap y = cap ->
    buf_abs <$> foldl (fun y op => y ≫= buf_step op) (Some y) ops =
    foldl (fun a op => a ≫= spec_step cap op) (Some (buf_abs y)) ops); cycle 1.
  { exact (H _ (new_sys_ok cap) eq_refl). }
  induction ops as [|op ops IH]; intros y Hok Hcap; [done|]. cbn [foldl].
  pose proof (step_sim op y Hok) as Hs. rewrite Hcap in Hs. cbn [mbind option_bind].
  destruct (buf_step op y) as [y'|].
  - destruct Hs as (Hok' & Hcap' & ->). apply IH; congruence.
  - rewrite Hs. clear. induction ops as [|op' ops IH]; [done|exact IH].
Qed.
End Buffer.

(** ** [MemoryPartitionedBuffer]

    Buffers are bounded queues, as just shown; a caller may hold a reference
    to a buffer that is no longer in the map. *)

Module Partitioned.
Section Partitioned.
Context {K : Type} `{Countable K} {R : Type}.

Record t := mk {
  partitions : gmap K nat;
  buffers : list (list R);
  partitionBufferCapacity : nat
}.
#[global] Instance eta : RecordEta t := {
  eta_record := fun r => mk (partitions r) (buffers r) (partitionBufferCapacity r);
  eta_record_id := fun r => match r with mk _ _ _ => eq_refl end
}.

Definition New (capacity : nat) : t := mk ∅ [] capacity.

Definition Capacity (k : K) (p : t) : nat := partitionBufferCapacity p.

Definition contents (id : nat) (p : t) : list R := default [] (buffers p !! id).

Definition Has (k : K) (p : t) : bool := bool_decide (is_Some (partitions p !! k)).

Definition Read (k : K) (p : t) : list R :=
  match partitions p !! k with Some id => contents id p | None => [] end.

Definition Len (k : K) (p : t) : nat := length (Read k p).

(** The buffer of a key, created if it has none: the locked part of [Add] and
    [PriorityPrepend]. *)
Definition get_or_create (k : K) (p : t) : t * nat :=
  match partitions p !! k with
  | Some id => (p, id)
  | None =>
      let id := length (buffers p) in
      (p <| partitions := <[k := id]> (partitions p) |> <| buffers := buffers p ++ [[]] |>, id)
  end.

(** [pb.Add(record)] on a reference: [None] while the buffer is full. *)
Definition buffer_add (id : nat) (r : R) (p : t) : option t :=
  if partitionBufferCapacity p <=? length (contents id p) then None
  else Some (p <| buffers := <[id := contents id p ++ [r]]> (buffers p) |>).

Definition Add (k : K) (r : R) (p : t) : option (t * nat) :=
  let '(p, id) := get_or_create k p in
  (fun p => (p, length (contents id p))) <$> buffer_add id r p.

Definition FlushWithoutReset (p : t) : gmap K (list R) := (fun id => contents id p) <$> partitions p.

Definition Remove (k : K) (p : t) : t := p <| partitions := delete k (partitions p) |>.

Definition CopyAndReset (k : K) (p : t) : t * list R :=
  match partitions p !! k with
  | Some id => (p <| buffers := <[id := []]> (buffers p) |>, contents id p)
  | None => (p, [])
  end.

Definition buffer_prepend (id : nat) (rs : list R) (p : t) : t :=
  p <| buffers := <[id := rs ++ contents id p]> (buffers p) |>.

Definition PriorityPrepend (k : K) (rs : list R) (p : t) : t :=
  let '(p, id) := get_or_create k p in buffer_prepend id rs p.

(** Distinct keys have distinct buffers, all allocated. *)
Definition ok (p : t) : Prop :=
  (forall k id, partitions p !! k = Some id -> id < length (buffers p)) /\
  (forall k k' id, partitions p !! k = Some id -> partitions p !! k' = Some id -> k = k').

Lemma New_ok capacity : ok (New capacity).
Proof. split; intros *; cbn; by rewrite lookup_empty. Qed.

Lemma contents_insert id id' v p : id < length (buffers p) ->
  contents id' (p <| buffers := <[id := v]> (buffers p) |>) = if decide (id = id') then v else contents id' p.
Proof.
  intros Hid. unfold contents. cbn. case_decide as Heq.
  - subst. by rewrite list_lookup_insert_eq.
  - by rewrite list_lookup_insert_ne.
Qed.

Lemma get_or_create_spec k p : ok p ->
  let '(p', id) := get_or_create k p in
  ok p' /\ partitions p' !! k = Some id /\ contents id p' = Read k p /\
  (forall k', k' <> k -> partitions p' !! k' = partitions p !! k') /\
  (forall k', Read k' p' = Read k' p) /\
  partitionBufferCapacity p' = partitionBufferCapacity p.
Proof.
  intros [Hlt Hinj]. unfold get_or_create, Read. destruct (partitions p !! k) as [id|] eqn:Hk.
  { by rewrite Hk. }
  set (n := length (buffers p)).
  assert (Hc : forall id, contents id (p <| partitions := <[k := n]> (partitions p) |> <| buffers := buffers p ++ [[]] |>)
    = contents id p).
  { intros id. unfold contents. cbn. destruct (decide (id < n)) as [Hid|Hid].
    - by rewrite lookup_app_l.
    - rewrite lookup_app_r by lia. rewrite (lookup_ge_None_2 (buffers p)) by lia.
      by destruct (id - length (buffers p)) as [|[]]. }
  assert (Hn : contents n p = []) by (unfold contents; by rewrite lookup_ge_None_2).
  split_and!.
  - split; cbn.
    + intros k' id. rewrite length_app, lookup_insert_Some. cbn.
      intros [[<- <-]|[_ Hk']]; [lia|]. specialize (Hlt _ _ Hk'). lia.
    + intros k1 k2 id. rewrite !lookup_insert_Some.
      intros [[<- <-]|[? H1]] [[<- H2]|[? H2]]; try done; subst.
      * specialize (Hlt _ _ H2). lia.
      * specialize (Hlt _ _ H1). lia.
      * by eapply Hinj.
  - cbn. by rewrite lookup_insert_eq.
  - by rewrite Hc.
  - intros k' Hk'. cbn. by rewrite lookup_insert_ne.
  - intros k'. cbn [partitions]. destruct (decide (k' = k)) as [->|Hne].
    + cbn. rewrite lookup_insert_eq, Hk, Hc. done.
    + cbn. rewrite lookup_insert_ne by done. destruct (partitions p !! k'); [by rewrite Hc|done].
  - done.
Qed.

(** Writing the buffer of one key. *)
Lemma Read_insert k k' id v p : ok p -> partitions p !! k = Some id ->
  Read k' (p <| buffers := <[id := v]> (buffers p) |>) = if decide (k' = k) then v else Read k' p.
Proof.
  intros [Hlt Hinj] Hk. unfold Read. cbn [partitions].
  change (partitions (p <| buffers := <[id:=v]> (buffers p) |>)) with (partitions p).
  case_decide as Heq.
  - subst. rewrite Hk, contents_insert by eauto. by rewrite decide_True.
  - destruct (partitions p !! k') as [id'|] eqn:Hk'; [|done].
    rewrite contents_insert by eauto. rewrite decide_False; [done|].
    intros ->. apply Heq. by eapply Hinj.
Qed.

Lemma ok_insert id v p : ok p -> ok (p <| buffers := <[id := v]> (buffers p) |>).
Proof. intros [Hlt Hinj]. split; [|exact Hinj]. cbn. intros. rewrite length_insert. eauto. Qed.

Lemma Add_spec k r p : ok p ->
  match Add k r p with
  | Some (p', n) =>
      ok p' /\ length (Read k p) < partitionBufferCapacity p /\ n = S (length (Read k p)) /\
      partitionBufferCapacity p' = partitionBufferCapacity p /\
      forall k', Read k' p' = if decide (k' = k) then Read k p ++ [r] else Read k' p
  | None => partitionBufferCapacity p <= length (Read k p)
  end.
Proof.
  intros Hok. unfold Add. pose proof (get_or_create_spec k p Hok) as Hg.
  destruct (get_or_create k p) as [p1 id]. destruct Hg as (Hok1 & Hid & Hc & _ & Hr & Hcap).
  unfold buffer_add. rewrite Hc, Hcap.
  destruct (Nat.leb_spec (partitionBufferCapacity p) (length (Read k p))); cbn [fmap option_fmap option_map]; [done|].
  split_and!; [by apply ok_insert|done| |exact Hcap|].
  - rewrite contents_insert by (by eapply Hok1). rewrite decide_True, length_app by done. cbn. lia.
  - intros k'. rewrite (Read_insert k) by done. case_decide; [done|apply Hr].
Qed.

Lemma CopyAndReset_spec k p : ok p ->
  let '(p', v) := CopyAndReset k p in
  ok p' /\ v = Read k p /\ partitions p' = partitions p /\
  partitionBufferCapacity p' = partitionBufferCapacity p /\
  forall k', Read k' p' = if decide (k' = k) then [] else Read k' p.
Proof.
  intros Hok. unfold CopyAndReset. destruct (partitions p !! k) as [id|] eqn:Hk.
  - split_and!; [by apply ok_insert|unfold Read; by rewrite Hk|done..|].
    intros k'. by apply Read_insert.
  - split_and!; [done|unfold Read; by rewrite Hk|done..|]. intros k'. case_decide as Heq; [|done].
    subst. unfold Read. by rewrite Hk.
Qed.

Lemma PriorityPrepend_spec k rs p : ok p ->
  ok (PriorityPrepend k rs p) /\
  partitionBufferCapacity (PriorityPrepend k rs p) = partitionBufferCapacity p /\
  forall k', Read k' (PriorityPrepend k rs p) = if decide (k' = k) then rs ++ Read k p else Read k' p.
Proof.
  intros Hok. unfold PriorityPrepend. pose proof (get_or_create_spec k p Hok) as Hg.
  destruct (get_or_create k p) as [p1 id]. destruct Hg as (Hok1 & Hid & Hc & _ & Hr & Hcap).
  unfold buffer_prepend. rewrite Hc. split_and!; [by apply ok_insert|exact Hcap|].
  intros k'. rewrite (Read_insert k) by done. case_decide; [done|apply Hr].
Qed.

Lemma Remove_spec k p : ok p ->
  ok (Remove k p) /\ partitionBufferCapacity (Remove k p) = partitionBufferCapacity p /\
  forall k', Read k' (Remove k p) = if decide (k' = k) then [] else Read k' p.
Proof.
  intros [Hlt Hinj]. split_and!; [split|done|]; unfold Remove; cbn.
  - intros k' id [_ ?]%lookup_delete_Some. eauto.
  - intros k1 k2 id [_ H1]%lookup_delete_Some [_ H2]%lookup_delete_Some. eauto.
  - intros k'. unfold Read. cbn. case_decide as Heq.
    + subst. by rewrite lookup_delete_eq.
    + by rewrite lookup_delete_ne.
Qed.

(** A reference no key has: what is added to it is seen by nobody. *)
Lemma orphan_lost id r p p' : (forall k, partitions p !! k <> Some id) ->
  buffer_add id r p = Some p' -> forall k, Read k p' = Read k p.
Proof.
  intros Hno Hadd k. unfold buffer_add in Hadd. case_match; [done|]. injection Hadd as <-.
  unfold Read. cbn. destruct (partitions p !! k) as [id'|] eqn:Hk; [|done].
  unfold contents. cbn. rewrite list_lookup_insert_ne; [done|]. intros ->. by apply (Hno k).
Qed.

(** An [Add] is not atomic: when the partition is removed between the
    lookup of its buffer and the append, the call succeeds and the record is in
    no partition. *)
Theorem add_after_remove_lost k r p p1 id p2 :
  ok p -> get_or_create k p = (p1, id) -> buffer_add id r (Remove k p1) = Some p2 ->
  forall k', Read k' p2 = Read k' (Remove k p1).
Proof.
  intros Hok Hg Hadd. pose proof (get_or_create_spec k p Hok) as Hs. rewrite Hg in Hs.
  destruct Hs as ([_ Hinj] & Hid & _). eapply orphan_lost; [|exact Hadd].
  intros k'. unfold Remove. cbn. intros [Hne Hk']%lookup_delete_Some. apply Hne. by eapply Hinj.
Qed.
End Partitioned.
Arguments t K {_ _} R.

Lemma add_after_remove_lost_witness :
  exists p1 id p2, get_or_create 7 (New (R:=nat) 4) = (p1, id) /\
    buffer_add id 5 (Remove 7 p1) = Some p2 /\ Read 7 p2 = Read 7 (Remove 7 p1).
Proof.
  do 3 eexists. split; [reflexivity|]. split; [reflexivity|].
  eapply (add_after_remove_lost 7 5 (New 4)); [apply New_ok|reflexivity..].
Defined.
End Partitioned.
