(* ===== verification/TelemetrySubmitter.v ===== *)
(** * Device telemetry: the submitter

    Models [submitter.go], [sample.go] and [partition.go] of
    [controlplane/telemetry/internal/telemetry]. The calls to the telemetry
    program are made to an environment: [env n] is the result of the [n]-th
    call. A run returns the calls it made, in order. *)

From stdpp Require Import base tactics numbers list gmap.
From Stdlib Require Import ZArith Lia ZifyBool ZifyNat.
From S2P Require Import Prelude Bytes TelemetryBuffer.

#[local] Open Scope Z_scope.

Record PartitionKey := mkPartitionKey {
  OriginDevicePK : bytes;
  TargetDevicePK : bytes;
  LinkPK : bytes;
  Epoch : Z
}.

#[global] Instance PartitionKey_eq_dec : EqDecision PartitionKey.
Proof. solve_decision. Defined.

#[global] Instance PartitionKey_countable : Countable PartitionKey.
Proof.
  refine (inj_countable' (fun k => (OriginDevicePK k, TargetDevicePK k, LinkPK k, Epoch k))
    (fun '(a, b, c, d) => mkPartitionKey a b c d) _).
  by intros [].
Defined.

Record Sample := mkSample { Timestamp : Time; RTT : Duration; Loss : bool }.

(** ** Submitting a list of samples *)

Definition MaxDeviceLatencySamplesPerBatch : nat := 239.

(** What the program client reports: success, [ErrAccountNotFound],
    [ErrSamplesAccountFull], another error. *)
Inductive rpc_result := RpcOk | RpcAccountNotFound | RpcAccountFull | RpcError.

#[global] Instance rpc_result_eq_dec : EqDecision rpc_result.
Proof. solve_decision. Defined.

Inductive rpc_call :=
| WriteDeviceLatencySamples (start : Z) (rtts : list Z) (res : rpc_result)
| InitializeDeviceLatencySamples (res : rpc_result).

(** [uint32(sample.RTT.Microseconds())]; 0 is a loss on chain. *)
Definition rtt_of (s : Sample) : Z :=
  if Loss s then 0 else if RTT s =? 0 then 1 else u32 (Z.quot (RTT s) 1000).

(** The earliest timestamp of a batch; [IsZero] marks none so far. *)
Definition min_timestamp (batch : list Sample) : Time :=
  fold_left (fun m s => if IsZero m || Before (Timestamp s) m then Timestamp s else m) batch time_zero.

(** Nanoseconds from Go's zero time to the Unix epoch. *)
Definition unix_epoch : Z := 62135596800 * Second.

Definition UnixMicro (t : Time) : Z := (t - unix_epoch) / 1000.

Inductive submit_outcome := SubmitOk | SubmitAccountFull | SubmitErr.

Section Submit.
Context (env : nat -> rpc_result).

(** The body of the loop of [SubmitSamples]: the outcome, [None] to go on,
    and the calls. *)
Definition submit_batch (n : nat) (batch : list Sample) :
    option submit_outcome * nat * list rpc_call :=
  let rtts := rtt_of <$> batch in
  let start := u64 (UnixMicro (min_timestamp batch)) in
  let w := WriteDeviceLatencySamples start rtts in
  match env n with
  | RpcOk => (None, S n, [w RpcOk])
  | RpcAccountNotFound =>
      let c1 := [w RpcAccountNotFound; InitializeDeviceLatencySamples (env (S n))] in
      if bool_decide (env (S n) = RpcOk) then
        let r := env (S (S n)) in
        (match r with
         | RpcOk => None
         | RpcAccountFull => Some SubmitAccountFull
         | _ => Some SubmitErr
         end, S (S (S n)), c1 ++ [w r])
      else (Some SubmitErr, S (S n), c1)
  | RpcAccountFull => (Some SubmitAccountFull, S n, [w RpcAccountFull])
  | RpcError => (Some SubmitErr, S n, [w RpcError])
  end.

(** [for i := 0; i < len(samples); i += MaxDeviceLatencySamplesPerBatch] *)
Fixpoint submit_from (fuel : nat) (samples : list Sample) (i n : nat) :
    submit_outcome * nat * list rpc_call :=
  match fuel with
  | O => (SubmitOk, n, [])
  | S fuel =>
      if (i <? length samples)%nat then
        let stop := Nat.min (i + MaxDeviceLatencySamplesPerBatch) (length samples) in
        match submit_batch n (take (stop - i) (drop i samples)) with
        | (Some o, n, calls) => (o, n, calls)
        | (None, n, calls) =>
            let '(o, n, calls') := submit_from fuel samples (i + MaxDeviceLatencySamplesPerBatch) n in
            (o, n, calls ++ calls')
        end
      else (SubmitOk, n, [])
  end.

(** The loop runs at most once per sample. *)
Definition SubmitSamples (samples : list Sample) (n : nat) : submit_outcome * nat * list rpc_call :=
  if (length samples =? 0)%nat then (SubmitOk, n, [])
  else submit_from (length samples) samples 0 n.

(** ** The attempts of [Tick] for one partition

    [slept attempt] is the result of [sleepOrDone] after a failed attempt. *)
Fixpoint submit_attempts (todo : nat) (attempt : nat) (slept : nat -> bool) (samples : list Sample)
    (n : nat) : option submit_outcome * nat * list rpc_call :=
  match todo with
  | O => (None, n, [])
  | S todo =>
      let '(o, n, calls) := SubmitSamples samples n in
      match o with
      | SubmitErr =>
          if slept attempt then
            let '(o, n, calls') := submit_attempts todo (S attempt) slept samples n in
            (o, n, calls ++ calls')
          else (None, n, calls)
      | o => (Some o, n, calls)
      end
  end.
End Submit.

(** The samples the program accepted, in order. *)
Definition accepted (calls : list rpc_call) : list Z :=
  concat (omap (fun c => match c with
                         | WriteDeviceLatencySamples _ rtts RpcOk => Some rtts
                         | _ => None
                         end) calls).

(** ** One partition of [Tick] *)

Record SubmitterConfig := mkSubmitterConfig { MaxAttempts : Z; MaxConcurrency : Z }.

Definition defaultMaxAttempts : Z := 5.

(** [NewSubmitter]: the checks it makes and the default it fills in. *)
Definition NewSubmitter (hasEpoch : bool) (cfg : SubmitterConfig) : option SubmitterConfig :=
  if negb hasEpoch then None
  else if MaxConcurrency cfg <=? 0 then None
  else Some (if MaxAttempts cfg =? 0 then mkSubmitterConfig defaultMaxAttempts (MaxConcurrency cfg)
             else cfg).

Abbreviation Buf := (Partitioned.t PartitionKey Sample).

(** Producers adding records to the partition while the goroutine runs: those
    that do not fit wait. *)
Fixpoint produce (k : PartitionKey) (rs : list Sample) (p : Buf) : Buf :=
  match rs with
  | [] => p
  | r :: rs => match Partitioned.Add k r p with
               | Some (p, _) => produce k rs p
               | None => p
               end
  end.

(** What a goroutine of [Tick] observes: the program's answers, whether each
    pause completed, the current epoch if it was obtained, and the records
    added before and after the capacity check. *)
Record TickEnv := mkTickEnv {
  te_rpc : nat -> rpc_result;
  te_slept : nat -> bool;
  te_epoch : option Z;
  te_during : list Sample;
  te_after : list Sample
}.

Definition submit_partition (cfg : SubmitterConfig) (e : TickEnv) (k : PartitionKey) (p : Buf) :
    Buf * list rpc_call :=
  let '(p, tmp) := Partitioned.CopyAndReset k p in
  if (length tmp =? 0)%nat then
    (match te_epoch e with
     | Some epoch => if Epoch k <? epoch then Partitioned.Remove k p else p
     | None => p
     end, [])
  else
    let '(o, _, calls) := submit_attempts (te_rpc e) (Z.to_nat (MaxAttempts cfg)) 1 (te_slept e) tmp 0 in
    let p := produce k (te_during e) p in
    let p := match o with Some SubmitAccountFull => Partitioned.Remove k p | _ => p end in
    let overCapacity := (Partitioned.Capacity k p <=? Partitioned.Len k p + length tmp)%nat in
    let p := produce k (te_after e) p in
    let p := match o with
             | None => if overCapacity then p else Partitioned.PriorityPrepend k tmp p
             | Some _ => p
             end in
    (p, calls).

(** ** Lemmas: batches *)

Abbreviation Max := MaxDeviceLatencySamplesPerBatch.

(** Every write carries between one and [Max] samples. *)
Definition call_ok (c : rpc_call) : Prop :=
  match c with
  | WriteDeviceLatencySamples _ rtts _ => (0 < length rtts <= Max)%nat
  | InitializeDeviceLatencySamples _ => True
  end.

Lemma accepted_app l l' : accepted (l ++ l') = accepted l ++ accepted l'.
Proof. unfold accepted. by rewrite omap_app, concat_app. Qed.

Lemma submit_batch_spec env n batch o n' calls : (0 < length batch <= Max)%nat ->
  submit_batch env n batch = (o, n', calls) ->
  accepted calls = match o with None => rtt_of <$> batch | Some _ => [] end /\ o <> Some SubmitOk /\
  Forall call_ok calls /\ n' = (n + length calls)%nat /\ (length calls <= 3)%nat.
Proof.
  intros Hb. unfold submit_batch, accepted.
  assert (Hw : forall t r, call_ok (WriteDeviceLatencySamples t (rtt_of <$> batch) r))
    by (intros; cbn; by rewrite length_fmap).
  destruct (env n); [|case_bool_decide; [destruct (env (S (S n)))|destruct (env (S n))]| |];
    try done; intros [= <- <- <-]; cbn [omap list_omap concat app length]; rewrite ?app_nil_r;
    (split_and!; [done|done|repeat (apply Forall_cons; split; [apply Hw || exact I|]); apply Forall_nil; done|lia|lia]).
Qed.

(** The loop accepts whole batches: all of them exactly when it succeeds. *)
Lemma submit_from_spec env fuel samples i n o n' calls :
  (length samples <= i + fuel * Max)%nat ->
  submit_from env fuel samples i n = (o, n', calls) ->
  exists m, accepted calls = rtt_of <$> take (m * Max) (drop i samples) /\
    (o = SubmitOk <-> (length samples <= i + m * Max)%nat) /\
    Forall call_ok calls /\ n' = (n + length calls)%nat /\ (length calls <= 3 * fuel)%nat.
Proof.
  revert i n o n' calls. induction fuel as [|fuel IH]; intros i n o n' calls Hf; cbn [submit_from].
  { intros [= <- <- <-]. exists 0%nat. cbn. split_and!; [done| |constructor|lia|lia]. split; [lia|done]. }
  destruct (Nat.ltb_spec i (length samples)) as [Hi|Hi]; cycle 1.
  { intros [= <- <- <-]. exists 0%nat. cbn. split_and!; [done| |constructor|lia|lia]. split; [lia|done]. }
  set (stop := Nat.min _ _).
  assert (Hbatch : take (stop - i) (drop i samples) = take Max (drop i samples)).
  { destruct (decide (i + Max <= length samples)%nat).
    - f_equal. unfold stop. lia.
    - rewrite !take_ge; [done|rewrite length_drop; lia|rewrite length_drop; unfold stop; lia]. }
  rewrite Hbatch. destruct (submit_batch env n _) as [[ob n1] c1] eqn:Hb.
  apply submit_batch_spec in Hb as (Ha & Hno & Hok & Hn & Hc);
    [|rewrite length_take, length_drop; unfold MaxDeviceLatencySamplesPerBatch; lia].
  destruct ob as [o'|].
  - intros [= <- <- <-]. exists 0%nat. rewrite Ha. split_and!; [done| |done|done|lia].
    split; [congruence|lia].
  - destruct (submit_from env fuel samples _ n1) as [[o2 n2] c2] eqn:Hrec. intros [= <- <- <-].
    apply IH in Hrec as (m & Ha2 & Ho & Hok2 & Hn2 & Hc2); [|lia]. exists (S m).
    split_and!; [| |by apply Forall_app|rewrite length_app; lia|rewrite length_app; lia].
    + rewrite accepted_app, Ha, Ha2, <- fmap_app. f_equal. cbn [Nat.mul].
      rewrite <- drop_drop, take_take_drop. done.
    + rewrite Ho. cbn [Nat.mul]. lia.
Qed.

Lemma SubmitSamples_prefix env samples n o n' calls :
  SubmitSamples env samples n = (o, n', calls) ->
  exists m, accepted calls = rtt_of <$> take (m * Max) samples /\
    (o = SubmitOk <-> (length samples <= m * Max)%nat) /\
    Forall call_ok calls /\ n' = (n + length calls)%nat /\ (length calls <= 3 * length samples)%nat.
Proof.
  unfold SubmitSamples. destruct (Nat.eqb_spec (length samples) 0) as [H0|H0].
  - intros [= <- <- <-]. exists 0%nat. split_and!; [done| |constructor|cbn; lia|cbn; lia]. split; [lia|done].
  - intros H. eapply submit_from_spec in H; [exact H|]. unfold MaxDeviceLatencySamplesPerBatch. lia.
Qed.

(** [SubmitSamples] makes at most three calls per sample, each write
    with one to 239 samples, and stops. On success the program has accepted
    every sample exactly once and in order; on an error, or when the account
    is full, exactly the samples of the batches before the failing one. *)
Theorem SubmitSamples_exact env samples n o n' calls :
  SubmitSamples env samples n = (o, n', calls) ->
  (length calls <= 3 * length samples)%nat /\ Forall call_ok calls /\
  (o = SubmitOk -> accepted calls = rtt_of <$> samples) /\
  (o <> SubmitOk -> exists m, (m * Max < length samples)%nat /\
     accepted calls = rtt_of <$> take (m * Max) samples).
Proof.
  intros H. apply SubmitSamples_prefix in H as (m & Ha & Ho & Hok & _ & Hc).
  split_and!; [done|done| |].
  - intros ->. rewrite Ha, take_ge; [done|]. by apply Ho.
  - intros Hne. exists m. split; [|done]. rewrite Ho in Hne. lia.
Qed.

(** The accepted samples of a series of attempts: a prefix of whole batches per
    attempt, all of them short but the last one of a success. *)
Lemma submit_attempts_spec env todo attempt slept samples n o n' calls :
  submit_attempts env todo attempt slept samples n = (o, n', calls) ->
  exists ms : list nat, (length ms <= todo)%nat /\ Forall call_ok calls /\
    Forall (fun m => (m * Max < length samples)%nat) ms /\
    match o with
    | Some SubmitOk => accepted calls = concat ((fun m => rtt_of <$> take (m * Max) samples) <$> ms) ++ (rtt_of <$> samples)
    | _ => accepted calls = concat ((fun m => rtt_of <$> take (m * Max) samples) <$> ms)
    end.
Proof.
  revert attempt n o n' calls. induction todo as [|todo IH]; intros attempt n o n' calls; cbn [submit_attempts].
  { intros [= <- <- <-]. exists []. cbn. split_and!; [lia|constructor|constructor|done]. }
  destruct (SubmitSamples env samples n) as [[o1 n1] c1] eqn:Hs.
  apply SubmitSamples_prefix in Hs as (m & Ha & Ho & Hok & _ & _).
  assert (Hm : o1 <> SubmitOk -> (m * Max < length samples)%nat) by (rewrite Ho; lia).
  destruct o1.
  - intros [= <- <- <-]. exists []. cbn. split_and!; [lia|done|constructor|].
    rewrite Ha, take_ge; [done|by apply Ho].
  - intros [= <- <- <-]. exists [m]. cbn. rewrite app_nil_r. split_and!; [lia|done| |done].
    constructor; [by apply Hm|constructor].
  - destruct (slept attempt).
    + destruct (submit_attempts env todo (S attempt) slept samples n1) as [[o2 n2] c2] eqn:Hrec.
      intros [= <- <- <-]. apply IH in Hrec as (ms & Hl & Hok2 & Hms & Hacc). exists (m :: ms).
      split_and!; [cbn; lia|by apply Forall_app|constructor; [by apply Hm|done]|].
      rewrite accepted_app, Ha, fmap_cons. cbn [concat].
      destruct o2 as [[]|]; rewrite Hacc, ?app_assoc; done.
    + intros [= <- <- <-]. exists [m]. cbn. rewrite app_nil_r. split_and!; [lia|done| |done].
      constructor; [by apply Hm|constructor].
Qed.

Lemma accepted_small env todo attempt slept samples n o n' calls :
  (length samples <= Max)%nat ->
  submit_attempts env todo attempt slept samples n = (o, n', calls) ->
  accepted calls = match o with Some SubmitOk => rtt_of <$> samples | _ => [] end.
Proof.
  intros Hl H. apply submit_attempts_spec in H as (ms & _ & _ & Hms & Ha).
  assert (Hnil : concat ((fun m => rtt_of <$> take (m * Max) samples) <$> ms) = []).
  { clear Ha. induction Hms as [|m ms Hm _ IH]; [done|]. rewrite fmap_cons. cbn [concat].
    assert (m = 0%nat) as -> by nia. exact IH. }
  destruct o as [[]|]; rewrite Ha, Hnil; done.
Qed.

(** Retries duplicate data. When the samples need two batches, the
    first is written, the second fails and the retry succeeds, the program has
    accepted the first batch twice: an attempt starts again from the first
    sample. *)
Theorem retry_duplicates env slept samples todo :
  (Max < length samples <= 2 * Max)%nat -> (2 <= todo)%nat ->
  env 0%nat = RpcOk -> env 1%nat = RpcError -> env 2%nat = RpcOk -> env 3%nat = RpcOk ->
  slept 1%nat = true ->
  let '(o, _, calls) := submit_attempts env todo 1 slept samples 0 in
  o = Some SubmitOk /\
  accepted calls = (rtt_of <$> take Max samples) ++ (rtt_of <$> samples).
Proof.
  intros Hl Ht H0 H1 H2 H3 Hs. destruct todo as [|[|todo]]; [lia..|].
  assert (Hfuel : exists f, length samples = S (S f)) by (exists (length samples - 2)%nat; unfold MaxDeviceLatencySamplesPerBatch in Hl; lia).
  destruct Hfuel as [f Hf].
  assert (Hok : forall n, env n = RpcOk -> env (S n) = RpcOk ->
    exists n' calls, SubmitSamples env samples n = (SubmitOk, n', calls)).
  { intros n Ha Hb. unfold SubmitSamples. rewrite (proj2 (Nat.eqb_neq _ _)) by lia. rewrite Hf.
    cbn [submit_from]. rewrite (proj2 (Nat.ltb_lt _ _)) by lia. unfold submit_batch at 1. rewrite Ha.
    rewrite (proj2 (Nat.ltb_lt _ _)) by lia. unfold submit_batch at 1. rewrite Hb.
    destruct f as [|f]; cbn [submit_from]; [by do 2 eexists|].
    rewrite (proj2 (Nat.ltb_ge _ _)) by lia. by do 2 eexists. }
  assert (Herr : exists calls, SubmitSamples env samples 0 = (SubmitErr, 2%nat, calls) /\
    accepted calls = rtt_of <$> take Max samples).
  { unfold SubmitSamples. rewrite (proj2 (Nat.eqb_neq _ _)) by lia. rewrite Hf.
    cbn [submit_from]. rewrite (proj2 (Nat.ltb_lt _ _)) by lia. unfold submit_batch at 1. rewrite H0.
    rewrite (proj2 (Nat.ltb_lt _ _)) by lia. unfold submit_batch at 1. rewrite H1.
    eexists. split; [done|]. unfold accepted. cbn [omap list_omap concat app]. rewrite app_nil_r, drop_0.
    do 2 f_equal. lia. }
  destruct Herr as (c1 & E1 & A1). destruct (Hok 2%nat H2 H3) as (n' & c2 & E2).
  cbn [submit_attempts]. rewrite E1, Hs, E2. split; [done|].
  rewrite accepted_app, A1. f_equal. by eapply SubmitSamples_exact in E2 as (_ & _ & -> & _).
Qed.

(** ** Lemmas: the partition *)

(** [p'] is [p] with [v] in partition [k]. *)
Definition holds (k : PartitionKey) (v : list Sample) (p p' : Buf) : Prop :=
  Partitioned.ok p' /\ Partitioned.partitionBufferCapacity p' = Partitioned.partitionBufferCapacity p /\
  forall k', Partitioned.Read k' p' = if decide (k' = k) then v else Partitioned.Read k' p.

Lemma holds_trans k v w p p1 p2 : holds k v p p1 -> holds k w p1 p2 -> holds k w p p2.
Proof.
  intros (_ & Hc1 & H1) (Hok & Hc2 & H2). split_and!; [done|congruence|].
  intros k'. rewrite H2. case_decide; [done|]. rewrite H1. by rewrite decide_False.
Qed.

Lemma holds_read k v p p' : holds k v p p' -> Partitioned.Read k p' = v.
Proof. intros (_ & _ & H). rewrite H. by rewrite decide_True. Qed.

Lemma produce_holds k rs p : Partitioned.ok p ->
  exists m, holds k (Partitioned.Read k p ++ take m rs) p (produce k rs p).
Proof.
  revert p. induction rs as [|r rs IH]; intros p Hok; cbn [produce].
  - exists 0%nat. rewrite take_nil, app_nil_r. split_and!; [done|done|].
    intros k'. case_decide; congruence.
  - pose proof (Partitioned.Add_spec k r p Hok) as Ha. destruct (Partitioned.Add k r p) as [[p1 l]|].
    + destruct Ha as (Hok1 & _ & _ & Hc & Hr). destruct (IH p1 Hok1) as [m Hm]. exists (S m).
      assert (H1 : holds k (Partitioned.Read k p ++ [r]) p p1) by done.
      rewrite (holds_read _ _ _ _ H1), <- app_assoc in Hm. by eapply holds_trans.
    + exists 0%nat. rewrite take_0, app_nil_r. split_and!; [done|done|].
      intros k'. case_decide; congruence.
Qed.

(** What a goroutine of [Tick] does to its partition, with producers
    adding records all along: the other partitions are untouched; a success
    leaves exactly the records added meanwhile; after the last failed attempt
    the samples are put back in front of them, in order and none lost, unless
    the partition would be full, when they are dropped. With at most one batch
    of samples the program has accepted all of them once, or none. *)
Theorem submit_partition_conserves cfg e k p p' calls o n all :
  let tmp := Partitioned.Read k p in
  Partitioned.ok p -> tmp <> [] ->
  submit_attempts (te_rpc e) (Z.to_nat (MaxAttempts cfg)) 1 (te_slept e) tmp 0 = (o, n, all) ->
  submit_partition cfg e k p = (p', calls) ->
  calls = all /\
  (exists a b, 
     let during := take a (te_during e) in
     let after := take b (te_after e) in
     holds k (match o with
              | Some SubmitAccountFull => after
              | Some _ => during ++ after
              | None =>
                  if (Partitioned.partitionBufferCapacity p <=? length during + length tmp)%nat
                  then during ++ after else tmp ++ during ++ after
              end) p p') /\
  ((length tmp <= Max)%nat ->
     accepted calls = match o with Some SubmitOk => rtt_of <$> tmp | _ => [] end).
Proof.
  intros tmp Hok Hne Hatt. unfold submit_partition.
  pose proof (Partitioned.CopyAndReset_spec k p Hok) as Hcr.
  destruct (Partitioned.CopyAndReset k p) as [p1 v]. destruct Hcr as (Hok1 & -> & _ & Hcap & Hr1).
  fold tmp. rewrite (proj2 (Nat.eqb_neq _ _)) by (by destruct tmp). rewrite Hatt.
  intros [= <- <-]. split; [done|]. split; [|intros; by eapply accepted_small].
  assert (H1 : holds k [] p p1) by done.
  destruct (produce_holds k (te_during e) p1 Hok1) as [a Ha].
  rewrite (holds_read _ _ _ _ H1), app_nil_l in Ha. apply (holds_trans _ _ _ _ _ _ H1) in Ha. clear H1 Hr1.
  set (p2 := produce k (te_during e) p1) in *.
  set (p3 := match o with Some SubmitAccountFull => _ | _ => _ end).
  assert (H3 : holds k (match o with Some SubmitAccountFull => [] | _ => take a (te_during e) end) p p3).
  { subst p3. destruct o as [[]|]; [done| |done|done]. eapply holds_trans; [exact Ha|].
    apply Partitioned.Remove_spec, Ha. }
  destruct (produce_holds k (te_after e) p3 (proj1 H3)) as [b Hb].
  rewrite (holds_read _ _ _ _ H3) in Hb. pose proof (holds_trans _ _ _ _ _ _ H3 Hb) as H4.
  exists a, b. cbv zeta. destruct o as [[]|]; try done.
  unfold Partitioned.Len, Partitioned.Capacity. rewrite (holds_read _ _ _ _ H3).
  destruct H3 as (_ & -> & _). case_match; [done|].
  eapply holds_trans; [exact H4|]. pose proof (Partitioned.PriorityPrepend_spec k tmp _ (proj1 Hb)) as (Hp1 & Hp2 & Hp3).
  split_and!; [done|done|]. intros k'. rewrite Hp3. case_decide; [|done].
  by rewrite (holds_read _ _ _ _ H4).
Qed.

(** Which samples are stored as losses: a lost probe, as meant, and also
    a round trip below one microsecond, which the guard for zero misses. *)
Theorem stored_as_loss s :
  0 <= RTT s < 2 ^ 32 * 1000 ->
  rtt_of s = 0 <-> Loss s = true \/ 0 < RTT s < 1000.
Proof.
  intros Hr. unfold rtt_of. destruct (Loss s); [by intuition|].
  destruct (Z.eqb_spec (RTT s) 0) as [->|Hne]; [split; [lia|intros [|]; [done|lia]]|].
  rewrite Z.quot_div_nonneg by lia.
  assert (Hq : 0 <= RTT s / 1000 < 2 ^ 32) by (split; [apply Z.div_pos; lia|apply Z.div_lt_upper_bound; lia]).
  rewrite wrap_id by done. rewrite Z.div_small_iff by lia.
  split; [intros [|]; right; lia|intros [|]; [done|lia]].
Qed.

(** ** Examples *)

Definition sample_tick (i : nat) : Sample := mkSample (unix_epoch + Z.of_nat i * Second) (5000 * Z.of_nat i) false.

Lemma stored_as_loss_witness : rtt_of (mkSample 0 500 false) = 0.
Proof. apply (stored_as_loss (mkSample 0 500 false)); [cbn; lia|right; cbn; lia]. Defined.

Lemma SubmitSamples_exact_witness :
  accepted (SubmitSamples (fun n => if (n =? 0)%nat then RpcAccountNotFound else RpcOk)
    [sample_tick 1; sample_tick 2] 0).2 = [5; 10].
Proof.
  pose proof (SubmitSamples_exact (fun n => if (n =? 0)%nat then RpcAccountNotFound else RpcOk)
    [sample_tick 1; sample_tick 2] 0 SubmitOk 3 _ eq_refl) as (_ & _ & H & _).
  exact (H eq_refl).
Defined.

(** 240 samples, one more than a batch; the second write fails once. *)
Definition sample_flaky (n : nat) : rpc_result := if (n =? 1)%nat then RpcError else RpcOk.

Lemma retry_duplicates_witness :
  let samples := sample_tick <$> seq 0 240 in
  let '(o, _, calls) := submit_attempts sample_flaky 5 1 (fun _ => true) samples 0 in
  o = Some SubmitOk /\ accepted calls = (rtt_of <$> take 239 samples) ++ (rtt_of <$> samples).
Proof.
  apply (retry_duplicates sample_flaky (fun _ => true) (sample_tick <$> seq 0 240) 5);
    [rewrite length_fmap, length_seq; unfold MaxDeviceLatencySamplesPerBatch; lia|lia|reflexivity..].
Defined.

Definition sample_partition : PartitionKey := mkPartitionKey [1] [2] [3] 900.

Definition sample_buffer : Buf := produce sample_partition [sample_tick 1; sample_tick 2] (Partitioned.New 16).

(** Every call fails; one record arrives meanwhile. *)
Definition sample_down : TickEnv := mkTickEnv (fun _ => RpcError) (fun _ => true) None [sample_tick 3] [].

Lemma submit_partition_conserves_witness :
  exists p' calls,
    submit_partition (mkSubmitterConfig 5 1) sample_down sample_partition sample_buffer = (p', calls) /\
    accepted calls = [] /\
    Partitioned.Read sample_partition p' = [sample_tick 1; sample_tick 2; sample_tick 3].
Proof.
  destruct (submit_partition (mkSubmitterConfig 5 1) sample_down sample_partition sample_buffer)
    as [p' calls] eqn:Hs. exists p', calls. split; [reflexivity|].
  assert (Hok : Partitioned.ok sample_buffer).
  { destruct (produce_holds sample_partition [sample_tick 1; sample_tick 2] (Partitioned.New 16)
      (Partitioned.New_ok 16)) as [m Hm]. exact (proj1 Hm). }
  pose proof (submit_partition_conserves (mkSubmitterConfig 5 1) sample_down sample_partition
    sample_buffer p' calls None 5 _ Hok ltac:(discriminate) eq_refl Hs) as (_ & _ & Hacc).
  split; [apply Hacc; vm_compute; lia|].
  vm_compute in Hs. injection Hs as <- _. vm_compute. reflexivity.
Defined.
