(* ===== verification/TelemetryCollector.v ===== *)
(** * Device telemetry: peers, probes and senders

    Models [peers.go], [pinger.go] and the sender cache of [collector.go] in
    [controlplane/telemetry/internal/telemetry], with [FindLocalTunnel] of
    [controlplane/telemetry/internal/netutil/tunnels.go]. TWAMP senders and
    the epoch service are parameters. *)

From stdpp Require Import base tactics numbers list gmap.
From Stdlib Require Import ZArith Lia ZifyBool ZifyNat.
From S2P Require Import Prelude Bytes GoStrings GoCollections Routing GoNet ByteReader Accounts Deserialize ProgramData.
From S2P Require Import TelemetryBuffer TelemetrySubmitter.

#[local] Open Scope Z_scope.

(** ** Local tunnels *)

Record LocalTunnel := mkLocalTunnel { lt_Interface : bytes; SourceIP : IP; TargetIP : IP }.

(** A local interface; an address that is not an [*net.IPNet] is [None]. *)
Record NetInterface := mkNetInterface { if_Name : bytes; if_Addrs : list (option IPNet) }.

Definition bytesToIP4Net (b : bytes) : IPNet := block_net b.

(** [getPeerIPIn31] on the address its dotted form denotes: the other address
    of a /31. *)
Definition getPeerIPIn31 (ip : IP) : IP :=
  let ipInt := be_val ip in be_bytes 4 (Z.lxor ipInt 1).

(** [Mask.Size()] is 31 of 32. *)
Definition is_31 (mask : bytes) : bool := bool_decide (mask = [255; 255; 255; 254]).

Definition tunnel_addr (tunnelNet : IPNet) (a : option IPNet) : option IP :=
  n ← a;
  let ip := To4 (net_IP n) in
  if bool_decide (ip = []) then None
  else if negb (is_31 (net_Mask n)) then None
  else if net_Contains tunnelNet ip then Some ip else None.

(** [None] is [ErrLocalTunnelNotFound]. *)
Definition FindLocalTunnel (interfaces : list NetInterface) (tunnelNet : IPNet) : option LocalTunnel :=
  head (interfaces ≫= fun i =>
    (fun ip => mkLocalTunnel (if_Name i) ip (getPeerIPIn31 ip)) <$> omap (tunnel_addr tunnelNet) (if_Addrs i)).

(** ** Peer discovery *)

Record TPeer := mkTPeer {
  peer_LinkPK : bytes;
  peer_DevicePK : bytes;
  peer_Tunnel : option LocalTunnel;
  peer_TWAMPPort : Z
}.

(** Activated, soft or hard drained, or provisioning. *)
Definition probed_status (s : Z) : bool := (s =? 1) || (s =? 7) || (s =? 6) || (s =? 8).

(** The far device of a link of the local device. *)
Definition remote_side (localPK : pubkey) (l : Link.t) : option pubkey :=
  if bool_decide (Link.SideAPubKey l = localPK) then Some (Link.SideZPubKey l)
  else if bool_decide (Link.SideZPubKey l = localPK) then Some (Link.SideAPubKey l)
  else None.

Definition link_peer (localPK : pubkey) (port : Z) (devices : gmap pubkey Device.t)
    (interfaces : list NetInterface) (l : Link.t) : option TPeer :=
  if negb (probed_status (Link.Status l)) then None
  else if bool_decide (Link.TunnelNet l = [0; 0; 0; 0; 0]) then None
  else
    remote ← remote_side localPK l;
    device ← devices !! remote;
    Some (mkTPeer (Link.PubKey l) (Device.PubKey device)
      (FindLocalTunnel interfaces (bytesToIP4Net (Link.TunnelNet l))) port).

(** [refresh]: the new peers, and whether it returned an error. The peers are
    cleared before the interfaces are listed. *)
Definition refresh (localPK : pubkey) (port : Z) (data : option ProgramData.t)
    (interfaces : option (list NetInterface)) (peers : list TPeer) : list TPeer * bool :=
  match data with
  | None => (peers, false)
  | Some pd =>
      let devices := index_by Device.PubKey (ProgramData.Devices pd) in
      let links := index_by Link.PubKey (ProgramData.Links pd) in
      match interfaces with
      | None => ([], false)
      | Some ifs => (omap (link_peer localPK port devices ifs) (map_to_list links).*2, true)
      end
  end.

(** ** Probes *)

(** How the goroutine of a peer goes: cancelled first; no sender; the result
    of the probe. *)
Inductive probe_run :=
| ProbeCancelled
| ProbeNoSender (ts : Time)
| ProbeFailed (ts : Time)
| ProbeRtt (ts : Time) (rtt : Duration).

Definition lost (ts : Time) : Sample := mkSample ts 0 true.

(** The sample it adds, and what it reports to [RecordProbeResult]. *)
Definition probe_peer (peer : TPeer) (r : probe_run) : option Sample * option bool :=
  match r with
  | ProbeCancelled => (None, None)
  | ProbeNoSender ts => (Some (lost ts), None)
  | ProbeFailed ts =>
      match peer_Tunnel peer with
      | None => (Some (lost ts), None)
      | Some _ => (Some (lost ts), Some false)
      end
  | ProbeRtt ts rtt =>
      match peer_Tunnel peer with
      | None => (Some (lost ts), None)
      | Some _ => (Some (mkSample ts rtt false), Some true)
      end
  end.

Definition probe_key (localPK : pubkey) (epoch : Z) (peer : TPeer) : PartitionKey :=
  mkPartitionKey localPK (peer_DevicePK peer) (peer_LinkPK peer) epoch.

(** The samples of a tick, in the order the goroutines add them: [runs] has
    each peer with its run. *)
Definition pinger_Tick (localPK : pubkey) (epoch : option Z) (runs : list (TPeer * probe_run)) (p : Buf) :
    option Buf :=
  match epoch with
  | None => Some p
  | Some epoch =>
      foldl (fun p '(peer, r) =>
        match (probe_peer peer r).1 with
        | None => p
        | Some s => p ≫= fun p => fst <$> Partitioned.Add (probe_key localPK epoch peer) s p
        end) (Some p) runs
  end.

(** ** Lemmas: probes *)

Section Pinger.
Context (localPK : pubkey) (epoch : Z).

(** What a peer contributes to partition [k] in a tick. *)
Definition contribution (k : PartitionKey) (pr : TPeer * probe_run) : list Sample :=
  if decide (probe_key localPK epoch pr.1 = k) then option_list (probe_peer pr.1 pr.2).1 else [].

Definition run_keys (runs : list (TPeer * probe_run)) : list PartitionKey :=
  (fun pr => probe_key localPK epoch pr.1) <$> runs.

Lemma contribution_absent k runs : k ∉ run_keys runs -> concat (contribution k <$> runs) = [].
Proof.
  induction runs as [|pr runs IH]; intros Hk; [done|]. unfold run_keys in *. rewrite fmap_cons in *.
  apply not_elem_of_cons in Hk as [Hne Hk]. cbn [concat]. rewrite IH by done.
  unfold contribution. by rewrite decide_False.
Qed.

Lemma contribution_perm k runs runs' : NoDup (run_keys runs) -> runs ≡ₚ runs' ->
  concat (contribution k <$> runs) = concat (contribution k <$> runs').
Proof.
  intros Hnd Hp. revert Hnd. induction Hp as [|pr l l' _ IH|x y l|l l1 l2 H1 IH1 _ IH2]; intros Hnd.
  - done.
  - cbn. f_equal. apply IH. unfold run_keys in Hnd. rewrite fmap_cons, NoDup_cons in Hnd. apply Hnd.
  - unfold run_keys in Hnd. rewrite !fmap_cons, !NoDup_cons, not_elem_of_cons in Hnd.
    destruct Hnd as [[Hne _] _]. cbv beta in Hne. rewrite !fmap_cons. cbn [concat]. rewrite !app_assoc. f_equal.
    unfold contribution. do 2 case_decide; rewrite ?app_nil_r; first [done|exfalso; congruence].
  - rewrite IH1 by done. apply IH2. unfold run_keys. by rewrite <- H1.
Qed.

Lemma pinger_Tick_reads runs p :
  Partitioned.ok p -> NoDup (run_keys runs) ->
  (forall k, k ∈ run_keys runs -> Partitioned.Len k p < Partitioned.Capacity k p)%nat ->
  exists p', pinger_Tick localPK (Some epoch) runs p = Some p' /\ Partitioned.ok p' /\
    forall k, Partitioned.Read k p' = Partitioned.Read k p ++ concat (contribution k <$> runs).
Proof.
  cbn [pinger_Tick]. revert p. induction runs as [|[peer r] runs IH]; intros p Hok Hnd Hcap.
  { exists p. split_and!; [done|done|]. intros k. by rewrite app_nil_r. }
  unfold run_keys in *. rewrite fmap_cons in *. apply NoDup_cons in Hnd as [Hk Hnd].
  cbn [foldl fst] in *. set (k := probe_key localPK epoch peer) in *.
  destruct (probe_peer peer r).1 as [s|] eqn:Hs.
  - pose proof (Partitioned.Add_spec k s p Hok) as Ha. cbn [mbind option_bind].
    specialize (Hcap k ltac:(left)) as Hck. unfold Partitioned.Len, Partitioned.Capacity in Hck.
    destruct (Partitioned.Add k s p) as [[p1 n]|]; [|lia].
    destruct Ha as (Hok1 & _ & _ & Hc & Hr). cbn [fmap option_fmap option_map fst].
    destruct (IH p1 Hok1 Hnd) as (p' & -> & Hok' & Hr').
    { intros k' Hk'. unfold Partitioned.Len, Partitioned.Capacity. rewrite Hc, Hr.
      rewrite decide_False by (intros ->; done). apply (Hcap k'). by right. }
    exists p'. split_and!; [done|done|]. intros k'. rewrite Hr', Hr, fmap_cons. cbn [concat].
    unfold contribution at 2. cbn [fst snd]. fold k. rewrite Hs.
    destruct (decide (k' = k)) as [->|Hne].
    + rewrite decide_True by done. by rewrite <- app_assoc.
    + by rewrite decide_False.
  - destruct (IH p Hok Hnd) as (p' & -> & Hok' & Hr'); [intros k' Hk'; apply Hcap; by right|].
    exists p'. split_and!; [done|done|]. intros k'. rewrite Hr', fmap_cons. cbn [concat].
    unfold contribution at 2. cbn [fst snd]. rewrite Hs. by case_decide.
Qed.

(** A tick of the pinger adds to the partition of each peer exactly the
    sample of its probe, a loss when there is no tunnel, no sender or no
    answer, and leaves the others alone, whatever the order in which the
    goroutines finish, as long as no partition is full. *)
Theorem pinger_one_sample runs order p :
  Partitioned.ok p -> NoDup (run_keys runs) -> order ≡ₚ runs ->
  (forall k, k ∈ run_keys runs -> Partitioned.Len k p < Partitioned.Capacity k p)%nat ->
  exists p', pinger_Tick localPK (Some epoch) order p = Some p' /\
    forall k, Partitioned.Read k p' = Partitioned.Read k p ++ concat (contribution k <$> runs).
Proof.
  intros Hok Hnd Hp Hcap. destruct (pinger_Tick_reads order p) as (p' & Ht & _ & Hr).
  - done.
  - unfold run_keys. by rewrite Hp.
  - intros k Hk. apply Hcap. unfold run_keys in *. by rewrite <- Hp.
  - exists p'. split; [done|]. intros k. rewrite Hr. f_equal.
    symmetry. by apply contribution_perm.
Qed.
End Pinger.

(** ** The sender cache

    [Peer.String()] prints the device, the target address and the link, which
    are the key. [opened] are the senders created and not closed; [creating]
    are those a goroutine has created and not yet put in the cache. *)

Abbreviation SenderKey := (bytes * bytes * bytes)%type.

Definition peer_key (p : TPeer) : SenderKey :=
  (peer_DevicePK p, match peer_Tunnel p with Some t => IP_String (TargetIP t) | None => [] end, peer_LinkPK p).

Record senderEntry := mkSenderEntry {
  se_sender : nat;
  lastUsed : Time;
  createdAt : Time;
  consecutiveLosses : Z
}.
#[global] Instance senderEntry_eta : RecordEta senderEntry := {
  eta_record := fun r => mkSenderEntry (se_sender r) (lastUsed r) (createdAt r) (consecutiveLosses r);
  eta_record_id := fun r => match r with mkSenderEntry _ _ _ _ => eq_refl end
}.

Record SenderCache := mkSenderCache {
  senders : gmap SenderKey senderEntry;
  creating : gmap SenderKey nat;
  opened : gset nat;
  next_sender : nat
}.
#[global] Instance SenderCache_eta : RecordEta SenderCache := {
  eta_record := fun r => mkSenderCache (senders r) (creating r) (opened r) (next_sender r);
  eta_record_id := fun r => match r with mkSenderCache _ _ _ _ => eq_refl end
}.

Definition empty_cache : SenderCache := mkSenderCache ∅ ∅ ∅ 0.

(** [_ = entry.sender.Close(); delete(c.senders, key)] *)
Definition evict (key : SenderKey) (e : senderEntry) (c : SenderCache) : SenderCache :=
  c <| opened := opened c ∖ {[se_sender e]} |> <| senders := delete key (senders c) |>.

(** The first locked part of [getOrCreateSender]. *)
Definition lookup_sender (ttl : Duration) (now : Time) (key : SenderKey) (c : SenderCache) :
    SenderCache * option nat :=
  match senders c !! key with
  | None => (c, None)
  | Some e =>
      let e := e <| lastUsed := now |> in
      if (0 <? ttl) && (ttl <=? TimeSub now (createdAt e)) then (evict key e c, None)
      else (c <| senders := <[key := e]> (senders c) |>, Some (se_sender e))
  end.

(** [twamplight.NewSender] returning without error. *)
Definition new_sender (key : SenderKey) (c : SenderCache) : SenderCache * nat :=
  let s := next_sender c in
  (c <| next_sender := S s |> <| opened := {[s]} ∪ opened c |> <| creating := <[key := s]> (creating c) |>, s).

(** The second locked part; the clock is read twice. *)
Definition insert_sender (key : SenderKey) (s : nat) (t1 t2 : Time) (c : SenderCache) : SenderCache :=
  c <| senders := <[key := mkSenderEntry s t1 t2 0]> (senders c) |>
    <| creating := delete key (creating c) |>.

Definition getOrCreateSender (ttl : Duration) (now t1 t2 : Time) (created : bool) (key : SenderKey)
    (c : SenderCache) : SenderCache * option nat :=
  match lookup_sender ttl now key c with
  | (c, Some s) => (c, Some s)
  | (c, None) =>
      if created then let '(c, s) := new_sender key c in (insert_sender key s t1 t2 c, Some s)
      else (c, None)
  end.

Definition is_idle (now : Time) (maxIdle : Duration) (e : senderEntry) : bool :=
  maxIdle <? TimeSub now (lastUsed e).

(** The loop over the map, in the order [order] of its keys. *)
Definition cleanupIdleSenders (now : Time) (maxIdle : Duration) (order : list SenderKey) (c : SenderCache) :
    SenderCache :=
  foldl (fun c key => match senders c !! key with
                      | Some e => if is_idle now maxIdle e then evict key e c else c
                      | None => c
                      end) c order.

Definition recordProbeResult (maxLosses : Z) (key : SenderKey) (success : bool) (c : SenderCache) :
    SenderCache :=
  match senders c !! key with
  | None => c
  | Some e =>
      if success then c <| senders := <[key := e <| consecutiveLosses := 0 |>]> (senders c) |>
      else
        let e := e <| consecutiveLosses := consecutiveLosses e + 1 |> in
        if maxLosses <=? consecutiveLosses e then evict key e c
        else c <| senders := <[key := e]> (senders c) |>
  end.

(** Any interleaving of the locked sections: one goroutine per peer, the
    clean-up loop and the results. A goroutine creates a sender after its
    lookup found none. *)
Inductive cache_step : SenderCache -> SenderCache -> Prop :=
| cs_lookup ttl now key c : creating c !! key = None -> cache_step c (lookup_sender ttl now key c).1
| cs_create key c : creating c !! key = None -> senders c !! key = None ->
    cache_step c (new_sender key c).1
| cs_insert key s t1 t2 c : creating c !! key = Some s -> cache_step c (insert_sender key s t1 t2 c)
| cs_cleanup now maxIdle order c : cache_step c (cleanupIdleSenders now maxIdle order c)
| cs_record maxLosses key success c : cache_step c (recordProbeResult maxLosses key success c).

Record cache_ok (c : SenderCache) : Prop := {
  co_open : forall s, s ∈ opened c <->
    (exists k e, senders c !! k = Some e /\ se_sender e = s) \/ (exists k, creating c !! k = Some s);
  co_inj : forall k k' e e', senders c !! k = Some e -> senders c !! k' = Some e' ->
    se_sender e = se_sender e' -> k = k';
  co_inj_creating : forall k k' s, creating c !! k = Some s -> creating c !! k' = Some s -> k = k';
  co_disjoint : forall k k' e, senders c !! k = Some e -> creating c !! k' = Some (se_sender e) -> False;
  co_exclusive : forall k, is_Some (creating c !! k) -> senders c !! k = None;
  co_fresh : forall s, s ∈ opened c -> (s < next_sender c)%nat
}.

Lemma empty_cache_ok : cache_ok empty_cache.
Proof.
  constructor; cbn.
  - intros s. split; [by intros ?%elem_of_empty|].
    intros [(k & e & Hk & _)|[k Hk]]; by rewrite lookup_empty in Hk.
  - intros k k' e e' Hk. by rewrite lookup_empty in Hk.
  - intros k k' s Hk. by rewrite lookup_empty in Hk.
  - intros k k' e Hk. by rewrite lookup_empty in Hk.
  - intros k [s Hk]. by rewrite lookup_empty in Hk.
  - by intros s ?%elem_of_empty.
Qed.

Lemma evict_ok c key e0 e : cache_ok c -> senders c !! key = Some e0 -> se_sender e = se_sender e0 ->
  cache_ok (evict key e c).
Proof.
  intros [Ho Hi Hic Hd Hx Hf] Hk He. constructor; cbn [evict opened senders creating next_sender set_field]; cbn.
  - intros s. rewrite elem_of_difference, elem_of_singleton, Ho. split.
    + intros [[(k & e1 & Hk1 & Hs)|Hc] Hne]; [left|by right].
      exists k, e1. split; [|done]. rewrite lookup_delete_ne; [done|]. intros <-. congruence.
    + intros [(k & e1 & [Hne Hk1]%lookup_delete_Some & <-)|[k Hk1]].
      * split; [left; by exists k, e1|]. intros Heq. apply Hne. eapply Hi; [done..|]. congruence.
      * split; [right; by exists k|]. intros ->. eapply Hd; [exact Hk|]. by rewrite <- He, Hk1.
  - intros k k' e1 e2 [_ H1]%lookup_delete_Some [_ H2]%lookup_delete_Some. eauto.
  - done.
  - intros k k' e1 [_ H1]%lookup_delete_Some. eauto.
  - intros k Hc. destruct (decide (k = key)) as [->|Hne]; [by rewrite lookup_delete_eq|].
    rewrite lookup_delete_ne by done. by apply Hx.
  - intros s [Hs _]%elem_of_difference. by apply Hf.
Qed.

Lemma update_ok c key e0 e : cache_ok c -> senders c !! key = Some e0 -> se_sender e = se_sender e0 ->
  cache_ok (c <| senders := <[key := e]> (senders c) |>).
Proof.
  intros [Ho Hi Hic Hd Hx Hf] Hk He.
  assert (Hsub : forall k e1, <[key := e]> (senders c) !! k = Some e1 ->
    exists e2, senders c !! k = Some e2 /\ se_sender e2 = se_sender e1).
  { intros k e1 [[<- <-]|[_ H1]]%lookup_insert_Some; eauto. }
  constructor; cbn.
  - intros s. rewrite Ho. f_equiv. split.
    + intros (k & e1 & Hk1 & Hs). destruct (decide (k = key)) as [->|Hne].
      * exists key, e. rewrite lookup_insert_eq. split; [done|congruence].
      * exists k, e1. by rewrite lookup_insert_ne.
    + intros (k & e1 & H1 & Hs). apply Hsub in H1 as (e2 & H2 & Hs2). exists k, e2. by rewrite Hs2.
  - intros k k' e1 e2 (e3 & H3 & E3)%Hsub (e4 & H4 & E4)%Hsub Heq. eapply Hi; [done..|]. congruence.
  - done.
  - intros k k' e1 (e3 & H3 & E3)%Hsub. rewrite <- E3. eauto.
  - intros k Hc. rewrite lookup_insert_ne; [by apply Hx|]. intros <-. apply Hx in Hc. congruence.
  - done.
Qed.

Lemma new_sender_ok c key : cache_ok c -> creating c !! key = None -> senders c !! key = None ->
  cache_ok (new_sender key c).1.
Proof.
  intros [Ho Hi Hic Hd Hx Hf] Hc Hk.
  assert (Hnew : next_sender c ∉ opened c) by (intros Hin; apply Hf in Hin; lia).
  assert (Hs : forall k s, creating c !! k = Some s -> s <> next_sender c).
  { intros k s Hks ->. apply Hnew, Ho. eauto. }
  constructor; cbn.
  - intros s. rewrite elem_of_union, elem_of_singleton, Ho. split.
    + intros [->|[Hl|[k Hk1]]]; [right; exists key; by rewrite lookup_insert_eq|by left|].
      right. exists k. rewrite lookup_insert_ne; [done|]. intros <-. congruence.
    + intros [Hl|[k [[<- <-]|[_ H1]]%lookup_insert_Some]]; eauto.
  - done.
  - intros k k' s [[<- <-]|[_ H1]]%lookup_insert_Some [[<- H2]|[_ H2]]%lookup_insert_Some; try done; eauto.
    + by apply Hs in H2.
    + subst. by apply Hs in H1.
  - intros k k' e H1 [[<- H2]|[_ H2]]%lookup_insert_Some; [|eauto].
    apply Hnew. rewrite H2. apply Ho. eauto.
  - intros k [s [[<- _]|[_ H1]]%lookup_insert_Some]; [done|]. apply Hx. eauto.
  - intros s [->%elem_of_singleton|Hin%Hf]%elem_of_union; lia.
Qed.

Lemma insert_sender_ok c key s t1 t2 : cache_ok c -> creating c !! key = Some s ->
  cache_ok (insert_sender key s t1 t2 c).
Proof.
  intros [Ho Hi Hic Hd Hx Hf] Hc. assert (Hk : senders c !! key = None) by eauto.
  constructor; cbn.
  - intros s'. rewrite Ho. split.
    + intros [(k & e & H1 & Hs)|[k H1]].
      * left. exists k, e. rewrite lookup_insert_ne; [done|]. intros <-. congruence.
      * destruct (decide (k = key)) as [->|Hne].
        -- left. exists key. eexists. rewrite lookup_insert_eq. split; [done|]. cbn. congruence.
        -- right. exists k. by rewrite lookup_delete_ne.
    + intros [(k & e & [[<- <-]|[_ H1]]%lookup_insert_Some & <-)|[k [_ H1]%lookup_delete_Some]]; eauto.
  - intros k k' e e' [[<- <-]|[? H1]]%lookup_insert_Some [[<- <-]|[? H2]]%lookup_insert_Some; cbn; try done; eauto.
    + intros ->. exfalso. by eapply Hd.
    + intros <-. exfalso. by eapply Hd.
  - intros k k' s' [_ H1]%lookup_delete_Some [_ H2]%lookup_delete_Some. eauto.
  - intros k k' e [[<- <-]|[? H1]]%lookup_insert_Some [Hne H2]%lookup_delete_Some; cbn in *; eauto.
  - intros k [s' [Hne H1]%lookup_delete_Some]. rewrite lookup_insert_ne by done. eauto.
  - done.
Qed.

Lemma cache_step_ok c c' : cache_step c c' -> cache_ok c -> cache_ok c'.
Proof.
  intros Hs Hok. destruct Hs as [ttl now key c Hc|key c Hc Hk|key s t1 t2 c Hc|now maxIdle order c|maxLosses key success c].
  - unfold lookup_sender. destruct (senders c !! key) as [e|] eqn:Hk; [|done].
    case_match; [by eapply evict_ok|by eapply update_ok].
  - by apply new_sender_ok.
  - by apply insert_sender_ok.
  - unfold cleanupIdleSenders. revert c Hok. induction order as [|key order IH]; intros c Hok; [done|].
    cbn [foldl]. apply IH. destruct (senders c !! key) as [e|] eqn:Hk; [|done].
    case_match; [by eapply evict_ok|done].
  - unfold recordProbeResult. destruct (senders c !! key) as [e|] eqn:Hk; [|done].
    destruct success; [by eapply update_ok|]. case_match; [by eapply evict_ok|by eapply update_ok].
Qed.

Lemma cache_reachable_ok c : rtc cache_step empty_cache c -> cache_ok c.
Proof.
  intros Hs. assert (H : forall c0, rtc cache_step c0 c -> cache_ok c0 -> cache_ok c).
  { intros c0 H0. induction H0 as [|x y z Hxy _ IH]; [done|]. intros Hx. by eapply IH, cache_step_ok. }
  by eapply H, empty_cache_ok.
Qed.

(** No TWAMP sender is leaked and none is used after it was closed:
    under any interleaving of probes, expiry, clean-up and evictions the open
    senders are exactly those in the cache and those being put in it, each for
    one peer, and the sender a probe is given is open. *)
Theorem senders_no_leak c ttl now t1 t2 created key :
  rtc cache_step empty_cache c -> creating c !! key = None ->
  (forall s, s ∈ opened c <->
     (exists k e, senders c !! k = Some e /\ se_sender e = s) \/ (exists k, creating c !! k = Some s)) /\
  (forall k k' e e', senders c !! k = Some e -> senders c !! k' = Some e' ->
     se_sender e = se_sender e' -> k = k') /\
  let '(c', given) := getOrCreateSender ttl now t1 t2 created key c in
  rtc cache_step empty_cache c' /\ creating c' !! key = None /\
  (forall s, given = Some s -> s ∈ opened c').
Proof.
  intros Hr Hc. pose proof (cache_reachable_ok c Hr) as Hok.
  split_and!; [apply Hok..|]. unfold getOrCreateSender.
  pose proof (rtc_r _ _ _ Hr (cs_lookup ttl now key c Hc)) as Hr1.
  assert (Hc1 : creating (lookup_sender ttl now key c).1 = creating c)
    by (unfold lookup_sender; by repeat case_match).
  assert (Hgone : (lookup_sender ttl now key c).2 = None -> senders (lookup_sender ttl now key c).1 !! key = None).
  { unfold lookup_sender. destruct (senders c !! key) eqn:Hk; [|done]. case_match; [|done].
    intros _. cbn. by rewrite lookup_delete_eq. }
  assert (Hgot : forall s, (lookup_sender ttl now key c).2 = Some s ->
    exists e, senders (lookup_sender ttl now key c).1 !! key = Some e /\ se_sender e = s).
  { intros s. unfold lookup_sender. destruct (senders c !! key); [|done]. case_match; [done|].
    cbn. intros [= <-]. eexists. by rewrite lookup_insert_eq. }
  destruct (lookup_sender ttl now key c) as [c1 [s|]]; cbn [fst snd] in *.
  { split_and!; [done|congruence|]. intros s' [= <-]. apply (cache_reachable_ok c1 Hr1).
    left. exists key. by apply Hgot. }
  destruct created; [|split_and!; [done|congruence|done]].
  specialize (Hgone eq_refl). rewrite <- Hc1 in Hc.
  pose proof (rtc_r _ _ _ Hr1 (cs_create key c1 Hc Hgone)) as Hr2. cbn [new_sender fst] in Hr2.
  cbn [new_sender]. split_and!.
  - eapply rtc_r; [exact Hr2|]. apply cs_insert. cbn. by rewrite lookup_insert_eq.
  - cbn. by rewrite lookup_delete_eq.
  - intros s [= <-]. cbn. set_solver.
Qed.

Lemma senders_no_leak_witness :
  exists c s, getOrCreateSender (5 * Minute) 100 101 102 true ([1], lit "10.0.0.1", [2]) empty_cache = (c, Some s) /\
    s ∈ opened c.
Proof.
  pose proof (senders_no_leak empty_cache (5 * Minute) 100 101 102 true ([1], lit "10.0.0.1", [2])
    (rtc_refl _ _) eq_refl) as (_ & _ & _ & _ & H).
  do 2 eexists. split; [reflexivity|]. by apply H.
Defined.

(** ** Peers: what [refresh] finds *)

Lemma lxor_one x : Z.lxor x 1 = x + 1 - 2 * (x mod 2).
Proof.
  assert (He : forall q, Z.lxor (2 * q) 1 = 2 * q + 1).
  { intros q. symmetry. apply Z.add_nocarry_lxor. change 1 with (Z.ones 1).
    rewrite Z.land_ones by lia. change (2 ^ 1) with 2. rewrite Z.mul_comm. by apply Z.mod_mul. }
  pose proof (Z.div_mod x 2 ltac:(lia)) as Hx. pose proof (Z.mod_pos_bound x 2 ltac:(lia)) as Hb.
  assert (Hm : x mod 2 = 0 \/ x mod 2 = 1) by lia. destruct Hm as [Hm|Hm]; rewrite Hm in *.
  - rewrite Hx at 1. rewrite Z.add_0_r, He. lia.
  - rewrite Hx at 1. rewrite <- He, Z.lxor_assoc, Z.lxor_nilpotent, Z.lxor_0_r. lia.
Qed.

Lemma lxor_one_byte d : is_u8 d -> is_u8 (Z.lxor d 1).
Proof.
  unfold is_u. change (2 ^ 8) with 256. intros Hd. rewrite lxor_one.
  pose proof (Z.div_mod d 2). pose proof (Z.mod_pos_bound d 2). lia.
Qed.

Lemma getPeerIPIn31_last a b c d : bytes_ok [a; b; c; d] ->
  getPeerIPIn31 [a; b; c; d] = [a; b; c; Z.lxor d 1].
Proof.
  intros Hok. unfold getPeerIPIn31.
  assert (Hv : Z.lxor (be_val [a; b; c; d]) 1 = be_val [a; b; c; Z.lxor d 1]).
  { rewrite !lxor_one. unfold be_val. cbn [rev app le_val].
    replace ((d + 256 * (c + 256 * (b + 256 * (a + 256 * 0)))) mod 2) with (d mod 2); [lia|].
    rewrite <- (Z.mod_add d (128 * (c + 256 * (b + 256 * (a + 256 * 0)))) 2) by lia. f_equal. lia. }
  rewrite Hv. unfold be_bytes, be_val.
  rewrite <- (rev_involutive [a; b; c; Z.lxor d 1]) at 2. f_equal.
  apply (le_bytes_val (rev [a; b; c; Z.lxor d 1])). apply bytes_ok_rev.
  unfold bytes_ok in *. rewrite !Forall_cons in *. destruct_and?. split_and!; try done.
  by apply lxor_one_byte.
Qed.

Lemma To4_cases ip : To4 ip = [] \/ exists a b c d, To4 ip = [a; b; c; d].
Proof.
  destruct (To4_length ip) as [H|H]; [left; by apply nil_length_inv|right].
  destruct (To4 ip) as [|a [|b [|c [|d [|]]]]]; try done. eauto.
Qed.

Lemma tunnel_addr_spec net a ip : tunnel_addr net a = Some ip ->
  exists n, a = Some n /\ ip = To4 (net_IP n) /\ is_31 (net_Mask n) = true /\ net_Contains net ip = true.
Proof.
  unfold tunnel_addr. destruct a as [n|]; [|done]. cbn [mbind option_bind].
  case_bool_decide; [done|]. destruct (is_31 (net_Mask n)) eqn:H31; [|done]. cbn [negb].
  destruct (net_Contains net _) eqn:Hc; [|done]. intros [= <-]. exists n. by split_and!.
Qed.

Lemma FindLocalTunnel_some ifs net t : FindLocalTunnel ifs net = Some t ->
  exists i n, i ∈ ifs /\ Some n ∈ if_Addrs i /\ lt_Interface t = if_Name i /\
    SourceIP t = To4 (net_IP n) /\ is_31 (net_Mask n) = true /\
    net_Contains net (SourceIP t) = true /\ TargetIP t = getPeerIPIn31 (SourceIP t).
Proof.
  unfold FindLocalTunnel. intros Hh. apply head_Some_elem_of in Hh.
  apply list_elem_of_bind in Hh as (i & Ht & Hi).
  apply list_elem_of_fmap in Ht as (ip & -> & Hip). apply list_elem_of_omap in Hip as (a & Ha & Hta).
  apply tunnel_addr_spec in Hta as (n & -> & -> & H31 & Hc). exists i, n. by split_and!.
Qed.

Lemma FindLocalTunnel_none ifs net i a : FindLocalTunnel ifs net = None -> i ∈ ifs -> a ∈ if_Addrs i ->
  tunnel_addr net a = None.
Proof.
  unfold FindLocalTunnel. intros Hh Hi Ha. destruct (tunnel_addr net a) as [ip|] eqn:Hta; [|done].
  exfalso. apply head_None in Hh.
  assert (Hin : mkLocalTunnel (if_Name i) ip (getPeerIPIn31 ip) ∈ (ifs ≫= fun i =>
    (fun ip => mkLocalTunnel (if_Name i) ip (getPeerIPIn31 ip)) <$> omap (tunnel_addr net) (if_Addrs i))).
  { apply list_elem_of_bind. exists i. split; [|done]. apply list_elem_of_fmap. exists ip. split; [done|].
    apply list_elem_of_omap. eauto. }
  rewrite Hh in Hin. by apply elem_of_nil in Hin.
Qed.

(** The peers [refresh] finds are exactly the far ends of the local
    device's links that are activated, drained or provisioning, have a tunnel
    network and a known device; the tunnel of a peer, when there is one, is a
    local /31 address inside the link's network, and the target is the other
    address of that /31. *)
Theorem refresh_peers localPK port pd ifs old peer :
  NoDup (Link.PubKey <$> ProgramData.Links pd) -> NoDup (Device.PubKey <$> ProgramData.Devices pd) ->
  (forall i n, i ∈ ifs -> Some n ∈ if_Addrs i -> bytes_ok (net_IP n)) ->
  let '(peers, ok) := refresh localPK port (Some pd) (Some ifs) old in
  ok = true /\
  (peer ∈ peers <-> exists l d,
     l ∈ ProgramData.Links pd /\ d ∈ ProgramData.Devices pd /\
     probed_status (Link.Status l) = true /\ Link.TunnelNet l <> [0; 0; 0; 0; 0] /\
     remote_side localPK l = Some (Device.PubKey d) /\
     peer = mkTPeer (Link.PubKey l) (Device.PubKey d)
              (FindLocalTunnel ifs (bytesToIP4Net (Link.TunnelNet l))) port) /\
  forall t, peer_Tunnel peer = Some t -> peer ∈ peers ->
    exists a b c d, SourceIP t = [a; b; c; d] /\ TargetIP t = [a; b; c; Z.lxor d 1].
Proof.
  intros Hl Hd Hok. cbn [refresh].
  assert (Hiff : forall peer, peer ∈ omap (link_peer localPK port (index_by Device.PubKey (ProgramData.Devices pd)) ifs)
      (map_to_list (index_by Link.PubKey (ProgramData.Links pd))).*2 <-> exists l d,
     l ∈ ProgramData.Links pd /\ d ∈ ProgramData.Devices pd /\
     probed_status (Link.Status l) = true /\ Link.TunnelNet l <> [0; 0; 0; 0; 0] /\
     remote_side localPK l = Some (Device.PubKey d) /\
     peer = mkTPeer (Link.PubKey l) (Device.PubKey d)
              (FindLocalTunnel ifs (bytesToIP4Net (Link.TunnelNet l))) port); [clear peer; intros peer|].
  { rewrite list_elem_of_omap. setoid_rewrite list_elem_of_fmap.
    split.
    - intros (l & ([k l'] & -> & Hin) & Hp). cbn [snd] in Hp. apply elem_of_map_to_list, index_by_lookup in Hin as [Hin _]; [|done].
      unfold link_peer in Hp. destruct (probed_status _) eqn:Hs; [|done]. cbn [negb] in Hp.
      case_bool_decide as Hn; [done|]. destruct (remote_side localPK l') as [r|] eqn:Hr; [|done].
      cbn [mbind option_bind] in Hp. destruct (index_by Device.PubKey _ !! r) as [d|] eqn:Hdev; [|done].
      apply index_by_lookup in Hdev as [Hdin <-]; [|done]. injection Hp as <-. exists l', d. by split_and!.
    - intros (l & d & Hlin & Hdin & Hs & Hn & Hr & ->). exists l. split.
      + exists (Link.PubKey l, l). split; [done|]. by apply elem_of_map_to_list, index_by_lookup.
      + unfold link_peer. rewrite Hs. cbn [negb]. rewrite bool_decide_false by done. rewrite Hr.
        cbn [mbind option_bind]. by rewrite (proj2 (index_by_lookup _ _ _ d Hd) (conj Hdin eq_refl)). }
  split_and!; [done|apply Hiff|]. intros t Ht Hin. apply Hiff in Hin as (l & d & _ & _ & _ & _ & _ & ->).
  cbn [peer_Tunnel] in Ht. apply FindLocalTunnel_some in Ht as (i & n & Hi & Hn & _ & Hs & _ & Hc & ->).
  destruct (To4_cases (net_IP n)) as [H4|(a & b & c & e & H4)].
  { rewrite Hs, H4 in Hc. unfold net_Contains in Hc. apply andb_prop in Hc as [Hc _].
    apply bool_decide_eq_true in Hc. by destruct Hc as (_ & _ & Hc). }
  exists a, b, c, e. rewrite Hs, H4. split; [done|]. apply getPeerIPIn31_last.
  specialize (Hok i n Hi Hn). rewrite <- H4. unfold To4. repeat case_decide;
    [done|by apply bytes_ok_drop|constructor].
Qed.

(** ** Examples *)

Definition sample_ifs : list NetInterface :=
  [mkNetInterface (lit "lo") [None; Some (mkIPNet [127; 0; 0; 1] [255; 0; 0; 0])];
   mkNetInterface (lit "tun1") [Some (mkIPNet [172; 16; 0; 6] [255; 255; 255; 254])]].

Definition sample_link : Link.t :=
  Link.mk LinkType (sample_key 1) (mkUint128 1 0) 255 (sample_key 11) (sample_key 12) 1 10000000000 9000
    5000 100 1 [172; 16; 0; 6; 31] 1 (lit "a-b") (sample_key 9) (lit "Eth1") (lit "Eth2") 0 0 1 [] 0
    (sample_key 30).

(** The far device of [sample_link], and the program data with both. *)
Definition sample_remote : Device.t := sample_device <| Device.PubKey := sample_key 12 |>.

Definition sample_pd : ProgramData.t :=
  ProgramData.empty <| ProgramData.Devices := [sample_remote] |> <| ProgramData.Links := [sample_link] |>.

Lemma refresh_peers_witness :
  let peer := mkTPeer (sample_key 30) (sample_key 12)
    (Some (mkLocalTunnel (lit "tun1") [172; 16; 0; 6] [172; 16; 0; 7])) 862 in
  peer ∈ (refresh (sample_key 11) 862 (Some sample_pd) (Some sample_ifs) []).1.
Proof.
  intros peer.
  apply (refresh_peers (sample_key 11) 862 sample_pd sample_ifs [] peer).
  - apply NoDup_singleton.
  - apply NoDup_singleton.
  - intros i n Hi Hn. unfold sample_ifs in Hi. rewrite elem_of_cons, list_elem_of_singleton in Hi.
    destruct Hi as [-> | ->]; cbn in Hn; rewrite !elem_of_cons, elem_of_nil in Hn; destruct_or?;
      simplify_eq; unfold bytes_ok; check_valid.
  - exists sample_link, sample_remote. split_and!; [by left|by left|reflexivity|discriminate|reflexivity|].
    vm_compute. reflexivity.
Defined.

Lemma pinger_one_sample_witness :
  let peer := mkTPeer (sample_key 30) (sample_key 12) None 862 in
  let k := probe_key (sample_key 11) 900 peer in
  exists p', pinger_Tick (sample_key 11) (Some 900) [(peer, ProbeFailed 77)] (Partitioned.New 4) = Some p' /\
    Partitioned.Read k p' = [lost 77].
Proof.
  intros peer k.
  destruct (pinger_one_sample (sample_key 11) 900 [(peer, ProbeFailed 77)] [(peer, ProbeFailed 77)]
    (Partitioned.New 4)) as (p' & Ht & Hr).
  - apply Partitioned.New_ok.
  - apply NoDup_singleton.
  - reflexivity.
  - intros k' _. cbn. unfold Partitioned.Len, Partitioned.Read. cbn. rewrite lookup_empty. cbn. lia.
  - exists p'. split; [exact Ht|]. rewrite Hr. vm_compute. reflexivity.
Defined.
