(* ===== verification/ControllerDevice.v ===== *)
(** * Controller: interfaces and devices

    Models [models.go] of [controlplane/controller/internal/controller] and
    [processDeviceInterfacesAndPeers] of [server.go]: how the interfaces of an
    on-chain device become those the configuration is rendered from. Keys are
    raw: base58 is injective. *)

From stdpp Require Import base tactics numbers list gmap sorting.
From Stdlib Require Import ZArith Lia ZifyBool ZifyNat.
From S2P Require Import Prelude Bytes GoStrings GoCollections Routing GoNet ByteReader Accounts Deserialize ProgramData.

#[local] Open Scope Z_scope.

(** ** Interfaces *)

Inductive IfaceKind := InterfaceTypeUnknown | InterfaceTypeLoopback | InterfaceTypePhysical.

Inductive LoopKind :=
| LoopbackTypeUnknown | LoopbackTypeVpnv4 | LoopbackTypeIpv4 | LoopbackTypePimRpAddr | LoopbackTypeReserved.

#[global] Instance IfaceKind_eq_dec : EqDecision IfaceKind.
Proof. solve_decision. Defined.
#[global] Instance LoopKind_eq_dec : EqDecision LoopKind.
Proof. solve_decision. Defined.

Definition linkStatusUnknown : Z := 255.
Definition InterfaceMtu : Z := 9000.
Definition CyoaDiaInterfaceMtu : Z := 1500.

Definition mtuForInterface (isCYOA isDIA : bool) : Z :=
  if isCYOA || isDIA then CyoaDiaInterfaceMtu else InterfaceMtu.

Record FlexAlgoNodeSegmentModel := mkFlexAlgoNodeSegmentModel {
  seg_NodeSegmentIdx : Z;
  seg_TopologyName : bytes
}.

#[global] Instance FlexAlgoNodeSegmentModel_eq_dec : EqDecision FlexAlgoNodeSegmentModel.
Proof. solve_decision. Defined.

(** The controller's [Interface]; the zero [netip.Prefix] is [None]. *)
Module CIface.
Record t := mk {
  Name : bytes;
  VlanId : Z;
  Ip : option (bytes * Z);
  NodeSegmentIdx : Z;
  Mtu : Z;
  IsSubInterface : bool;
  IsSubInterfaceParent : bool;
  InterfaceType : IfaceKind;
  LoopbackType : LoopKind;
  Metric : Z;
  IsLink : bool;
  LinkStatus : Z;
  IsCYOA : bool;
  IsDIA : bool;
  LinkTopologies : list bytes;
  UnicastDrained : bool;
  PubKey : bytes;
  FlexAlgoNodeSegments : list FlexAlgoNodeSegmentModel
}.
#[global] Instance eta : RecordEta t := {
  eta_record := fun r => mk (Name r) (VlanId r) (Ip r) (NodeSegmentIdx r) (Mtu r) (IsSubInterface r)
    (IsSubInterfaceParent r) (InterfaceType r) (LoopbackType r) (Metric r) (IsLink r) (LinkStatus r) (IsCYOA r)
    (IsDIA r) (LinkTopologies r) (UnicastDrained r) (PubKey r) (FlexAlgoNodeSegments r);
  eta_record_id := fun r => match r with mk _ _ _ _ _ _ _ _ _ _ _ _ _ _ _ _ _ _ => eq_refl end
}.
Definition zero : t :=
  mk [] 0 None 0 0 false false InterfaceTypeUnknown LoopbackTypeUnknown 0 false 0 false false [] false [] [].
End CIface.

Inductive iface_error := ErrNoName | ErrPrefix | ErrNodeSegment | ErrNotSub.

Definition is_digit (c : Z) : bool := (48 <=? c) && (c <=? 57).

(** The match of [^(.+)\.(\d+)$]: the second group has no dot, so the dot is
    the last one; [.] matches no newline. The result is the first group. *)
Definition isSubInterface (name : bytes) : option bytes :=
  i ← IndexAny (rev name) [46];
  let digits := rev (take i (rev name)) in
  let parent := rev (drop (S i) (rev name)) in
  if bool_decide (parent = []) || bool_decide (digits = []) || negb (forallb is_digit digits)
     || existsb (Z.eqb 10) parent
  then None else Some parent.

Definition iface_kind (t : Z) : IfaceKind :=
  if t =? 1 then InterfaceTypeLoopback else if t =? 2 then InterfaceTypePhysical else InterfaceTypeUnknown.

Definition loop_kind (t : Z) : LoopKind :=
  if t =? 1 then LoopbackTypeVpnv4 else if t =? 2 then LoopbackTypeIpv4 else LoopbackTypeUnknown.

(** A prefix length above 32 is not valid; 0.0.0.0/0 is no address. *)
Definition toInterface (iface : Interface.t) : res iface_error CIface.t :=
  if bool_decide (Interface.Name iface = []) then Err ErrNoName
  else
    let addr := take 4 (Interface.IpNet iface) in
    let prefixLen := byte_at (Interface.IpNet iface) 4 in
    if 32 <? prefixLen then Err ErrPrefix
    else
      let prefix := if bool_decide (addr = [0; 0; 0; 0]) && (prefixLen =? 0) then None else Some (addr, prefixLen) in
      let ifType := iface_kind (Interface.InterfaceType iface) in
      let loopbackType := loop_kind (Interface.LoopbackType iface) in
      if negb (bool_decide (loopbackType = LoopbackTypeVpnv4)) && negb (Interface.NodeSegmentIdx iface =? 0)
      then Err ErrNodeSegment
      else
        let isCYOA := negb (Interface.InterfaceCYOA iface =? 0) in
        let isDIA := negb (Interface.InterfaceDIA iface =? 0) in
        let out := CIface.zero
          <| CIface.Name := Interface.Name iface |>
          <| CIface.VlanId := Interface.VlanId iface |>
          <| CIface.Ip := prefix |>
          <| CIface.NodeSegmentIdx := Interface.NodeSegmentIdx iface |>
          <| CIface.IsSubInterface := bool_decide (is_Some (isSubInterface (Interface.Name iface))) |>
          <| CIface.InterfaceType := ifType |>
          <| CIface.LoopbackType := loopbackType |>
          <| CIface.IsCYOA := isCYOA |>
          <| CIface.IsDIA := isDIA |> in
        Ok (if bool_decide (ifType = InterfaceTypePhysical)
            then out <| CIface.Mtu := mtuForInterface isCYOA isDIA |> else out).

Definition IsLoopback (i : CIface.t) : bool := bool_decide (CIface.InterfaceType i = InterfaceTypeLoopback).
Definition IsVpnv4Loopback (i : CIface.t) : bool :=
  IsLoopback i && bool_decide (CIface.LoopbackType i = LoopbackTypeVpnv4).
Definition IsIpv4Loopback (i : CIface.t) : bool :=
  IsLoopback i && bool_decide (CIface.LoopbackType i = LoopbackTypeIpv4).

Definition GetParent (i : CIface.t) : res iface_error CIface.t :=
  if negb (CIface.IsSubInterface i) then Err ErrNotSub
  else match isSubInterface (CIface.Name i) with
       | None => Err ErrNotSub
       | Some parentName => Ok (CIface.zero
           <| CIface.Name := parentName |>
           <| CIface.IsSubInterfaceParent := true |>
           <| CIface.InterfaceType := CIface.InterfaceType i |>
           <| CIface.LoopbackType := CIface.LoopbackType i |>)
       end.

(** ** Tunnels and devices *)

Definition StartUserTunnelNum : Z := 500.
Definition DefaultMaxUserTunnelSlots : Z := 128.

Module Tunnel.
Record t := mk {
  Id : Z;
  UnderlaySrcIP : IP;
  UnderlayDstIP : IP;
  OverlaySrcIP : IP;
  OverlayDstIP : IP;
  DzIp : IP;
  PubKey : bytes;
  Allocated : bool;
  IsMulticast : bool;
  VrfId : Z;
  MetroRouting : bool;
  MulticastBoundaryList : list IP;
  MulticastSubscribers : list IP;
  MulticastPublishers : list IP;
  TenantPubKey : bytes;
  TenantTopologyColors : bytes
}.
#[global] Instance eta : RecordEta t := {
  eta_record := fun r => mk (Id r) (UnderlaySrcIP r) (UnderlayDstIP r) (OverlaySrcIP r) (OverlayDstIP r) (DzIp r)
    (PubKey r) (Allocated r) (IsMulticast r) (VrfId r) (MetroRouting r) (MulticastBoundaryList r)
    (MulticastSubscribers r) (MulticastPublishers r) (TenantPubKey r) (TenantTopologyColors r);
  eta_record_id := fun r => match r with mk _ _ _ _ _ _ _ _ _ _ _ _ _ _ _ _ => eq_refl end
}.
(** A free slot. *)
Definition free (id : Z) : t := mk id [] [] [] [] [] [] false false 0 false [] [] [] [] [].
End Tunnel.

(** The reasons for which no configuration is rendered. *)
Inductive pathology :=
| CommunityOutOfRange (community : Z)
| NoVpnv4Loopback
| NoIpv4Loopback
| Vpnv4LoopbackUnassigned
| Ipv4LoopbackUnassigned
| NoIsisNet
| CommunityZero.

Module CDevice.
Record t := mk {
  PubKey : bytes;
  PublicIP : IP;
  Vpn4vLoopbackIP : IP;
  Ipv4LoopbackIP : IP;
  Tunnels : list Tunnel.t;
  TunnelSlots : Z;
  Vpn4vLoopbackIntfName : bytes;
  Ipv4LoopbackIntfName : bytes;
  Interfaces : list CIface.t;
  MgmtVrf : bytes;
  IsisNet : bytes;
  DevicePathologies : list pathology;
  BgpCommunity : Z;
  ExchangeCode : bytes;
  Status : Z;
  Code : bytes;
  ContributorCode : bytes;
  LocationCode : bytes
}.
#[global] Instance eta : RecordEta t := {
  eta_record := fun r => mk (PubKey r) (PublicIP r) (Vpn4vLoopbackIP r) (Ipv4LoopbackIP r) (Tunnels r)
    (TunnelSlots r) (Vpn4vLoopbackIntfName r) (Ipv4LoopbackIntfName r) (Interfaces r) (MgmtVrf r) (IsisNet r)
    (DevicePathologies r) (BgpCommunity r) (ExchangeCode r) (Status r) (Code r) (ContributorCode r) (LocationCode r);
  eta_record_id := fun r => match r with mk _ _ _ _ _ _ _ _ _ _ _ _ _ _ _ _ _ _ => eq_refl end
}.
End CDevice.

Definition slot_ids (tunnelSlots : Z) : list Z :=
  (fun i => StartUserTunnelNum + Z.of_nat i) <$> seq 0 (Z.to_nat tunnelSlots).

Definition NewDevice (ip : IP) (publicKey : bytes) (tunnelSlots : Z) : CDevice.t :=
  CDevice.mk publicKey ip [] [] (Tunnel.free <$> slot_ids tunnelSlots) tunnelSlots [] [] [] [] [] [] 0 [] 0 [] [] [].

(** The index of the slot, the tunnel [findTunnel] points to. *)
Definition findTunnel (id : Z) (d : CDevice.t) : option nat :=
  fst <$> list_find (fun t => Tunnel.Id t = id) (CDevice.Tunnels d).

Definition bgpMartianNets : list IPNet :=
  (fun '(ip, ones) => mkIPNet ip (CIDRMask ones)) <$>
  [([0; 0; 0; 0], 8); ([10; 0; 0; 0], 8); ([100; 64; 0; 0], 10); ([127; 0; 0; 0], 8); ([169; 254; 0; 0], 16);
   ([172; 16; 0; 0], 12); ([192; 0; 2; 0], 24); ([192; 168; 0; 0], 16); ([198; 51; 100; 0], 24);
   ([203; 0; 113; 0], 24); ([224; 0; 0; 0], 4); ([240; 0; 0; 0], 4)].

Definition isBgpMartian (ip : IP) : bool := existsb (fun n => net_Contains n ip) bgpMartianNets.

Record BgpPeer := mkBgpPeer { PeerIP : IP; PeerName : bytes }.

(** ** [processDeviceInterfacesAndPeers] *)

Record IfaceScan := mkIfaceScan {
  parents : gmap bytes CIface.t;
  seenNames : gset bytes;
  scanned : list CIface.t
}.

(** One on-chain interface: an invalid one is skipped; a subinterface is
    counted for its parent even when its name is a duplicate. *)
Definition scan_parent (intf : CIface.t) (ps : gmap bytes CIface.t) : option (gmap bytes CIface.t) :=
  if CIface.IsSubInterface intf then
    match GetParent intf with
    | Ok parent =>
        Some (match ps !! CIface.Name parent with
              | Some e => <[CIface.Name parent := e <| CIface.Mtu := Z.max (CIface.Mtu e) (CIface.Mtu intf) |>]> ps
              | None => <[CIface.Name parent := parent <| CIface.Mtu := CIface.Mtu intf |>]> ps
              end)
    | _ => None
    end
  else Some ps.

Definition scan_iface (s : IfaceScan) (iface : Interface.t) : IfaceScan :=
  match toInterface iface with
  | Ok intf =>
      match scan_parent intf (parents s) with
      | None => s
      | Some ps =>
          if bool_decide (CIface.Name intf ∈ seenNames s) then mkIfaceScan ps (seenNames s) (scanned s)
          else mkIfaceScan ps ({[CIface.Name intf]} ∪ seenNames s) (scanned s ++ [intf])
      end
  | _ => s
  end.

(** The parents no explicit interface has the name of are added; then all are
    sorted by name. *)
Definition device_interfaces (ifaces : list Interface.t) : list CIface.t :=
  let s := foldl scan_iface (mkIfaceScan ∅ ∅ []) ifaces in
  sort_on bytes_le CIface.Name
    (scanned s ++ filter (fun p => CIface.Name p ∉ seenNames s) (map_to_list (parents s)).*2).

(** [Ip.Addr().AsSlice()]: nil for the zero prefix. *)
Definition addr_slice (i : CIface.t) : IP := match CIface.Ip i with Some (a, _) => a | None => [] end.

Definition hex_digit (n : Z) : Z := if n <? 10 then 48 + n else 87 + n.
(** [%02x] of a byte. *)
Definition hex2 (b : Z) : bytes := [hex_digit (b / 16); hex_digit (b mod 16)].

Definition isis_net (ip : IP) : bytes :=
  let systemID := hex2 (byte_at ip 0) ++ hex2 (byte_at ip 1) ++ lit "." ++ hex2 (byte_at ip 2) ++ hex2 (byte_at ip 3) in
  Join [lit "49"; lit "0000"; systemID; lit "0000"; lit "00"] (lit ".").

Definition zero_peer : BgpPeer := mkBgpPeer [] [].

(** One interface of the second loop; the last loopback of each type wins. *)
Definition loopback_step (code : bytes) (acc : CDevice.t * BgpPeer * BgpPeer) (iface : CIface.t) :
    CDevice.t * BgpPeer * BgpPeer :=
  let '(d, vpn, ipv4) := acc in
  let ip := addr_slice iface in
  if IsVpnv4Loopback iface then
    let d := d <| CDevice.Vpn4vLoopbackIP := ip |> <| CDevice.Vpn4vLoopbackIntfName := CIface.Name iface |> in
    let d := if (4 <=? length ip)%nat then d <| CDevice.IsisNet := isis_net ip |> else d in
    (d, mkBgpPeer ip code, ipv4)
  else if IsIpv4Loopback iface then
    (d <| CDevice.Ipv4LoopbackIP := ip |> <| CDevice.Ipv4LoopbackIntfName := CIface.Name iface |>, vpn, mkBgpPeer ip code)
  else (d, vpn, ipv4).

Definition processDeviceInterfacesAndPeers (device : Device.t) (d : CDevice.t) : CDevice.t * BgpPeer * BgpPeer :=
  let d := d <| CDevice.Interfaces := device_interfaces (Device.Interfaces device) |> in
  foldl (loopback_step (Device.Code device)) (d, zero_peer, zero_peer) (CDevice.Interfaces d).

(** ** The rendered interfaces, specified *)

(** The valid on-chain interfaces, in order. *)
Definition converted (ifaces : list Interface.t) : list CIface.t :=
  omap (fun i => match toInterface i with Ok x => Some x | _ => None end) ifaces.

Definition is_sub_of (n : bytes) (i : CIface.t) : Prop := isSubInterface (CIface.Name i) = Some n.

#[global] Instance is_sub_of_dec n i : Decision (is_sub_of n i).
Proof. unfold is_sub_of. apply _. Defined.

(** The parent [n] of the interfaces [l]: its types are those of the first
    subinterface, its MTU is the largest. *)
Definition parent_of (n : bytes) (l : list CIface.t) : option CIface.t :=
  match filter (is_sub_of n) l with
  | [] => None
  | i :: rest => Some (CIface.zero
      <| CIface.Name := n |>
      <| CIface.IsSubInterfaceParent := true |>
      <| CIface.InterfaceType := CIface.InterfaceType i |>
      <| CIface.LoopbackType := CIface.LoopbackType i |>
      <| CIface.Mtu := foldl Z.max (CIface.Mtu i) (CIface.Mtu <$> rest) |>)
  end.

Definition first_named (i : CIface.t) (l : list CIface.t) : Prop :=
  exists pre post, l = pre ++ i :: post /\ CIface.Name i ∉ CIface.Name <$> pre.

Lemma toInterface_sub iface i : toInterface iface = Ok i ->
  CIface.IsSubInterface i = bool_decide (is_Some (isSubInterface (CIface.Name i))).
Proof. unfold toInterface. repeat case_match; intros [= <-]; reflexivity. Qed.

Lemma parent_of_name n l p : parent_of n l = Some p -> CIface.Name p = n.
Proof. unfold parent_of. case_match; [done|]. by intros [= <-]. Qed.

Lemma parent_of_snoc n l i :
  parent_of n (l ++ [i]) =
  if decide (is_sub_of n i) then
    Some (match parent_of n l with
          | Some e => e <| CIface.Mtu := Z.max (CIface.Mtu e) (CIface.Mtu i) |>
          | None => CIface.zero <| CIface.Name := n |> <| CIface.IsSubInterfaceParent := true |>
              <| CIface.InterfaceType := CIface.InterfaceType i |>
              <| CIface.LoopbackType := CIface.LoopbackType i |> <| CIface.Mtu := CIface.Mtu i |>
          end)
  else parent_of n l.
Proof.
  unfold parent_of. rewrite filter_app, filter_cons, filter_nil. destruct (decide _).
  - destruct (filter (is_sub_of n) l) as [|j rest]; [done|]. cbn [app].
    rewrite fmap_app. cbn [fmap list_fmap]. by rewrite foldl_snoc.
  - by rewrite app_nil_r.
Qed.

Lemma scan_parent_spec intf ps l :
  CIface.IsSubInterface intf = bool_decide (is_Some (isSubInterface (CIface.Name intf))) ->
  (forall n, ps !! n = parent_of n l) ->
  exists ps', scan_parent intf ps = Some ps' /\ forall n, ps' !! n = parent_of n (l ++ [intf]).
Proof.
  intros Hsub Hps. unfold scan_parent, GetParent. rewrite Hsub.
  case_bool_decide as Hs; cbn [negb].
  - destruct Hs as [p Hp]. rewrite Hp.
    match goal with |- context [ps !! CIface.Name ?q] => set (Q := q) end.
    change (CIface.Name Q) with p. eexists. split; [done|]. intros n.
    rewrite parent_of_snoc, Hps. destruct (decide (is_sub_of n intf)) as [Hn|Hn]; unfold is_sub_of in Hn.
    + assert (p = n) as -> by congruence. destruct (parent_of n l); by rewrite lookup_insert_eq.
    + assert (p <> n) by congruence. destruct (parent_of p l); by rewrite lookup_insert_ne by done.
  - exists ps. split; [done|]. intros n. rewrite parent_of_snoc, Hps. unfold is_sub_of.
    rewrite decide_False; [done|]. intros E. apply Hs. by rewrite E.
Qed.

Record scan_ok (s : IfaceScan) (l : list CIface.t) : Prop := {
  so_parents : forall n, parents s !! n = parent_of n l;
  so_seen : forall n, n ∈ seenNames s <-> n ∈ CIface.Name <$> l;
  so_nodup : NoDup (CIface.Name <$> scanned s);
  so_first : forall i, i ∈ scanned s <-> first_named i l
}.

Lemma first_named_snoc i l j :
  first_named i (l ++ [j]) <-> first_named i l \/ (i = j /\ CIface.Name j ∉ CIface.Name <$> l).
Proof.
  unfold first_named. split.
  - intros (pre & post & E & Hn). destruct post as [|x post _] using rev_ind.
    + apply app_inj_tail in E as [<- <-]. auto.
    + rewrite app_comm_cons, app_assoc in E. apply app_inj_tail in E as [-> _]. left. eauto.
  - intros [(pre & post & -> & Hn)|[-> Hn]].
    + exists pre, (post ++ [j]). by rewrite <- app_assoc.
    + by exists l, [].
Qed.

Lemma first_named_elem i l : first_named i l -> i ∈ l.
Proof. intros (pre & post & -> & _). apply elem_of_app. right. by left. Qed.

Lemma converted_snoc l i : converted (l ++ [i]) =
  converted l ++ match toInterface i with Ok x => [x] | _ => [] end.
Proof. unfold converted. rewrite omap_app. f_equal. cbn. by destruct (toInterface i). Qed.

Lemma scan_iface_ok s l iface : scan_ok s (converted l) ->
  scan_ok (scan_iface s iface) (converted (l ++ [iface])).
Proof.
  intros [Hp Hs Hn Hf]. rewrite converted_snoc. unfold scan_iface.
  destruct (toInterface iface) as [i| |] eqn:Hi; [|by rewrite app_nil_r..].
  destruct (scan_parent_spec i (parents s) (converted l)) as (ps & -> & Hps); [by eapply toInterface_sub|done|].
  assert (Hseen : forall n, n ∈ CIface.Name <$> converted l ++ [i] <-> n = CIface.Name i \/ n ∈ seenNames s).
  { intros n. rewrite fmap_app, elem_of_app, Hs. cbn. rewrite list_elem_of_singleton. tauto. }
  case_bool_decide as Hd; split; cbn; [done| |done| |done| | |]; intros; rewrite ?Hseen, ?first_named_snoc, ?Hf; try done.
  - split; [auto|]. by intros [->|?].
  - split; [auto|]. intros [?|[-> Hnot]]; [done|]. by destruct Hnot; apply Hs.
  - rewrite elem_of_union, elem_of_singleton. done.
  - rewrite fmap_app. apply NoDup_app. split_and!; [done| |apply NoDup_singleton].
    intros n Hin ->%list_elem_of_singleton. apply Hd, Hs.
    apply list_elem_of_fmap_1 in Hin as (j & -> & Hj). by apply list_elem_of_fmap_2, first_named_elem, Hf.
  - rewrite elem_of_app, list_elem_of_singleton, Hf. split; [|tauto].
    intros [?| ->]; [auto|]. right. split; [done|]. by rewrite <- Hs.
Qed.

Lemma scan_ok_all ifaces : scan_ok (foldl scan_iface (mkIfaceScan ∅ ∅ []) ifaces) (converted ifaces).
Proof.
  induction ifaces as [|i l IH] using rev_ind; [|rewrite foldl_snoc; by apply scan_iface_ok].
  split; cbn.
  - intros n. by rewrite lookup_empty.
  - intros n. split; [by intros ?%elem_of_empty|by intros ?%elem_of_nil].
  - constructor.
  - intros i. split; [by intros ?%elem_of_nil|]. by intros ([|? pre] & post & [=] & _).
Qed.

(** The interfaces rendered for a device: their names are distinct and in
    order, so that the result does not depend on the iteration order of the
    map of parents nor on the stability of the sort; they are exactly the
    first valid on-chain interface of each name, and one parent for each
    parent name of a subinterface that no on-chain interface has, with the
    largest MTU of its subinterfaces. *)
Theorem device_interfaces_spec ifaces :
  let l := device_interfaces ifaces in
  let conv := converted ifaces in
  NoDup (CIface.Name <$> l) /\ StronglySorted (key_le bytes_le CIface.Name) l /\
  (forall l', l' ≡ₚ l -> StronglySorted (key_le bytes_le CIface.Name) l' -> l' = l) /\
  (forall i, i ∈ l <-> first_named i conv \/
     ((CIface.Name i ∉ CIface.Name <$> conv) /\ parent_of (CIface.Name i) conv = Some i)).
Proof.
  cbv zeta. unfold device_interfaces. destruct (scan_ok_all ifaces) as [Hp Hs Hn Hf].
  set (s := foldl _ _ _) in *. set (ps := filter _ _).
  assert (Hps : forall i, i ∈ ps <-> (CIface.Name i ∉ CIface.Name <$> converted ifaces) /\
    parent_of (CIface.Name i) (converted ifaces) = Some i).
  { intros i. unfold ps. rewrite list_elem_of_filter, Hs. apply and_iff_compat_l.
    rewrite <- Hp, list_elem_of_fmap. split.
    - intros ([n j] & -> & Hin%elem_of_map_to_list). cbn. rewrite Hp in Hin.
      by rewrite (parent_of_name _ _ _ Hin), Hp.
    - intros Hin. exists (CIface.Name i, i). split; [done|]. by apply elem_of_map_to_list. }
  assert (Hnd : NoDup (CIface.Name <$> scanned s ++ ps)).
  { rewrite fmap_app. apply NoDup_app. split_and!; [done| |].
    - intros n Hin (j & -> & Hj)%list_elem_of_fmap_1. apply Hps in Hj as [Hj _]. apply Hj.
      apply list_elem_of_fmap_1 in Hin as (i & -> & Hi). by apply list_elem_of_fmap_2, first_named_elem, Hf.
    - apply NoDup_fmap_2_strong; [intros i j [_ Hi]%Hps [_ Hj]%Hps; congruence|].
      apply NoDup_filter, NoDup_fmap_2_strong; [|apply NoDup_map_to_list].
      intros [n i] [m j] Hi%elem_of_map_to_list Hj%elem_of_map_to_list [= ->]. rewrite Hp in Hi, Hj.
      by rewrite <- (parent_of_name _ _ _ Hi), <- (parent_of_name _ _ _ Hj). }
  assert (Hd : NoDup (CIface.Name <$> sort_on bytes_le CIface.Name (scanned s ++ ps))) by (by rewrite sort_on_perm).
  split_and!; [done|apply (sort_on_sorted bytes_le)|..].
  - intros l' Hl Hso. apply (sorted_unique bytes_le CIface.Name); [by rewrite Hl|done|done|apply (sort_on_sorted bytes_le)].
  - intros i. rewrite sort_on_perm, elem_of_app, Hf, Hps. done.
Qed.
