(* ===== verification/Controller.v ===== *)
(** * Controller: the state cache and the configuration of a device

    Models [server.go], [features_config.go] and the checks of [render.go] in
    [controlplane/controller/internal/controller]: [updateStateCache], which
    turns the on-chain accounts into devices with user tunnels, and
    [GetConfig], which selects what the configuration of a device is rendered
    from. The text template is a parameter; metrics and logs are left out. *)

From stdpp Require Import base tactics numbers list gmap sorting.
From Stdlib Require Import ZArith Lia ZifyBool ZifyNat.
From S2P Require Import Prelude Bytes GoStrings GoCollections Routing GoNet ByteReader Accounts Deserialize ProgramData.
From S2P Require Import ControllerDevice.

#[local] Open Scope Z_scope.

(** ** Features *)

Record FeaturesConfig := mkFeaturesConfig {
  fa_Enabled : bool;
  lt_ExcludeLinks : list bytes;
  cs_All : bool;
  cs_Tenants : list bytes;
  cs_Devices : list bytes;
  cs_ExcludeDevices : list bytes
}.

Definition link_IsExcluded (c : FeaturesConfig) (linkPubKey : bytes) : bool := bool_decide (linkPubKey ∈ lt_ExcludeLinks c).

Definition ShouldStamp (c : FeaturesConfig) (tenantPubKey devicePubKey : bytes) : bool :=
  if bool_decide (devicePubKey ∈ cs_ExcludeDevices c) then false
  else if cs_All c then true
  else bool_decide (tenantPubKey ∈ cs_Tenants c) || bool_decide (devicePubKey ∈ cs_Devices c).

(** ** State *)

Module StateCache.
Record t := mk {
  GlobalConfig : option GlobalConfig.t;
  Devices : gmap bytes CDevice.t;
  MulticastGroups : gmap bytes MulticastGroup.t;
  Tenants : gmap bytes Tenant.t;
  Topologies : gmap bytes TopologyInfo.t;
  UnicastVrfs : list Z;
  Vpnv4BgpPeers : list BgpPeer;
  Ipv4BgpPeers : list BgpPeer
}.
#[global] Instance eta : RecordEta t := {
  eta_record := fun r => mk (GlobalConfig r) (Devices r) (MulticastGroups r) (Tenants r) (Topologies r)
    (UnicastVrfs r) (Vpnv4BgpPeers r) (Ipv4BgpPeers r);
  eta_record_id := fun r => match r with mk _ _ _ _ _ _ _ _ => eq_refl end
}.
Definition empty : t := mk None ∅ ∅ ∅ ∅ [] [] [].
End StateCache.

Record Controller := mkController {
  cache : StateCache.t;
  featuresConfig : option FeaturesConfig;
  maxUserTunnelSlots : Z;
  environment : bytes;
  deviceLocalASN : Z;
  noHardware : bool
}.

#[global] Instance Controller_eta : RecordEta Controller := {
  eta_record := fun r => mkController (cache r) (featuresConfig r) (maxUserTunnelSlots r) (environment r)
    (deviceLocalASN r) (noHardware r);
  eta_record_id := fun r => match r with mkController _ _ _ _ _ _ => eq_refl end
}.

Definition flexAlgoEnabled (f : option FeaturesConfig) : bool :=
  match f with Some f => fa_Enabled f | None => false end.

(** ** Links *)

Definition bgpCommunityMinValid : Z := 10000.
Definition bgpCommunityMaxValid : Z := 10999.

Definition findLink (pk : bytes) (links : list Link.t) (intf : CIface.t) : option Link.t :=
  snd <$> list_find (fun l =>
    (pk = Link.SideAPubKey l /\ CIface.Name intf = Link.SideAIfaceName l) \/
    (pk = Link.SideZPubKey l /\ CIface.Name intf = Link.SideZIfaceName l)) links.

(** [math.Ceil(float64(ns) / 1000.0)]; the division is exact enough below
    1000 * 2^42 nanoseconds, seven weeks. *)
Definition ceil_us (ns : Z) : Z := (ns + 999) / 1000.

Definition link_active (s : Z) : bool := (s =? 1) || (s =? 7) || (s =? 6).

Definition link_metric (link : Link.t) : Z :=
  let microseconds := ceil_us (Link.DelayNs link) in
  let microseconds :=
    if Link.DelayOverrideNs link =? 0 then microseconds
    else if (Link.DelayOverrideNs link <? 10000) || (1000000000 <? Link.DelayOverrideNs link) then microseconds
    else ceil_us (Link.DelayOverrideNs link) in
  let microseconds := if Link.Status link =? 7 then 1000000 else microseconds in
  u32 microseconds.

(** The loop over the interfaces that assigns metrics. *)
Definition annotate_link (pk : bytes) (links : list Link.t) (topologies : gmap bytes TopologyInfo.t)
    (intf : CIface.t) : CIface.t :=
  let inactive := intf <| CIface.IsLink := false |> <| CIface.Metric := 0 |>
    <| CIface.LinkStatus := linkStatusUnknown |> in
  match findLink pk links intf with
  | None => inactive
  | Some link =>
      if negb (link_active (Link.Status link)) then inactive
      else if Link.DelayNs link <=? 0 then intf
      else intf
        <| CIface.Metric := link_metric link |>
        <| CIface.IsLink := true |>
        <| CIface.LinkStatus := Link.Status link |>
        <| CIface.UnicastDrained := negb (Z.land (Link.LinkFlags link) 1 =? 0) |>
        <| CIface.PubKey := Link.PubKey link |>
        <| CIface.LinkTopologies := CIface.LinkTopologies intf ++
             omap (fun k => TopologyInfo.Name <$> topologies !! k) (Link.LinkTopologies link) |>
  end.

(** The node segments of a VPNv4 loopback: those of the first on-chain
    interface of its name. *)
Definition annotate_segments (onchain : list Interface.t) (topologies : gmap bytes TopologyInfo.t)
    (intf : CIface.t) : CIface.t :=
  if negb (IsVpnv4Loopback intf) then intf
  else match list_find (fun i => Interface.Name i = CIface.Name intf) onchain with
       | None => intf
       | Some (_, i) => intf <| CIface.FlexAlgoNodeSegments := CIface.FlexAlgoNodeSegments intf ++
           omap (fun seg => (fun topo => mkFlexAlgoNodeSegmentModel (FlexAlgoNodeSegment.NodeSegmentIdx seg)
                                           (TopologyInfo.Name topo))
                            <$> topologies !! FlexAlgoNodeSegment.Topology seg)
             (Interface.FlexAlgoNodeSegments i) |>
       end.

(** ** Devices *)

Section Update.
Context (c : Controller) (data : ProgramData.t).

Let topologies : gmap bytes TopologyInfo.t := index_by TopologyInfo.PubKey (ProgramData.Topologies data).

Definition when (b : bool) (p : pathology) : list pathology := if b then [p] else [].

(** The device before its interfaces are read: labels and the exchange. *)
Definition device_labels (device : Device.t) : CDevice.t :=
  let d := (NewDevice (Device.PublicIp device) (Device.PubKey device) (maxUserTunnelSlots c))
    <| CDevice.MgmtVrf := Device.MgmtVrf device |>
    <| CDevice.Code := Device.Code device |>
    <| CDevice.Status := Device.Status device |> in
  let d := d <| CDevice.ContributorCode :=
    match index_by Contributor.PubKey (ProgramData.Contributors data) !! Device.ContributorPubKey device with
    | Some contributor => Contributor.Code contributor
    | None => lit "unknown"
    end |> in
  let d :=
    match index_by Exchange.PubKey (ProgramData.Exchanges data) !! Device.ExchangePubKey device with
    | Some exchange => d
        <| CDevice.ExchangeCode := Exchange.Code exchange |>
        <| CDevice.BgpCommunity := Exchange.BgpCommunity exchange |>
        <| CDevice.DevicePathologies := CDevice.DevicePathologies d ++
             when ((Exchange.BgpCommunity exchange <? bgpCommunityMinValid) ||
                   (bgpCommunityMaxValid <? Exchange.BgpCommunity exchange))
               (CommunityOutOfRange (Exchange.BgpCommunity exchange)) |>
    | None => d <| CDevice.ExchangeCode := lit "unknown" |> <| CDevice.BgpCommunity := 0 |>
    end in
  d <| CDevice.LocationCode :=
    match index_by Location.PubKey (ProgramData.Locations data) !! Device.LocationPubKey device with
    | Some location => Location.Code location
    | None => lit "unknown"
    end |>.

Definition loopback_pathologies (d : CDevice.t) : list pathology :=
  when (bool_decide (length (CDevice.Vpn4vLoopbackIP d) = 0%nat)) NoVpnv4Loopback ++
  when (bool_decide (length (CDevice.Ipv4LoopbackIP d) = 0%nat)) NoIpv4Loopback ++
  when (ip_equal (CDevice.Vpn4vLoopbackIP d) [0; 0; 0; 0]) Vpnv4LoopbackUnassigned ++
  when (ip_equal (CDevice.Ipv4LoopbackIP d) [0; 0; 0; 0]) Ipv4LoopbackUnassigned ++
  when (bool_decide (CDevice.IsisNet d = [])) NoIsisNet ++
  when (CDevice.BgpCommunity d =? 0) CommunityZero.

(** One iteration of the loop over the devices: the device, and its BGP peers
    unless it has a pathology. *)
Definition build_device (device : Device.t) : CDevice.t * option (BgpPeer * BgpPeer) :=
  let '(d, vpnv4, ipv4) := processDeviceInterfacesAndPeers device (device_labels device) in
  let d := d <| CDevice.DevicePathologies := CDevice.DevicePathologies d ++ loopback_pathologies d |> in
  match CDevice.DevicePathologies d with
  | _ :: _ => (d, None)
  | [] =>
      let d := d <| CDevice.Interfaces :=
        annotate_link (CDevice.PubKey d) (ProgramData.Links data) topologies <$> CDevice.Interfaces d |> in
      let d := match featuresConfig c with
               | None => d
               | Some _ => d <| CDevice.Interfaces :=
                   annotate_segments (Device.Interfaces device) topologies <$> CDevice.Interfaces d |>
               end in
      (d, Some (vpnv4, ipv4))
  end.

Definition add_device (k : StateCache.t) (device : Device.t) : StateCache.t :=
  let '(d, peers) := build_device device in
  let k := k <| StateCache.Devices := <[Device.PubKey device := d]> (StateCache.Devices k) |> in
  match peers with
  | None => k
  | Some (vpnv4, ipv4) => k
      <| StateCache.Vpnv4BgpPeers := StateCache.Vpnv4BgpPeers k ++ [vpnv4] |>
      <| StateCache.Ipv4BgpPeers := StateCache.Ipv4BgpPeers k ++ [ipv4] |>
  end.

(** ** Users *)

Definition color_of (topo : TopologyInfo.t) : bytes := lit "color " ++ format_uint (TopologyInfo.AdminGroupBit topo + 1).

(** The topology names are ASCII; which of several default topologies the loop
    over the map meets first is not specified. *)
Definition resolveTenantColors (includeTopologies : list bytes) (topologyMap : gmap bytes TopologyInfo.t) : bytes :=
  let colors :=
    match includeTopologies with
    | _ :: _ => omap (fun k => color_of <$> topologyMap !! k) includeTopologies
    | [] =>
        match list_find (fun t => ToLower (TopologyInfo.Name t) = lit "unicast-default") (map_to_list topologyMap).*2 with
        | Some (_, topo) => [color_of topo]
        | None => []
        end
    end in
  Join colors (lit " ").

Definition valid_user (user : User.t) : bool :=
  negb (User.TunnelId user =? 0) &&
  negb (bool_decide (User.ClientIp user = [0; 0; 0; 0])) &&
  negb (bool_decide (User.DzIp user = [0; 0; 0; 0])) &&
  negb (isBgpMartian (User.DzIp user)) &&
  (byte_at (User.TunnelNet user) 4 =? 31).

(** The client side of the tunnel network: the last octet plus one, as a byte. *)
Definition overlay_dst (net : bytes) : IP := take 3 net ++ [u8 (byte_at net 3 + 1)].

(** The assignments every user makes to its slot. *)
Definition fill_addresses (publicIP : IP) (user : User.t) (t : Tunnel.t) : Tunnel.t :=
  t <| Tunnel.UnderlayDstIP := User.ClientIp user |>
    <| Tunnel.UnderlaySrcIP := if IsUnspecified (User.TunnelEndpoint user) then publicIP else User.TunnelEndpoint user |>
    <| Tunnel.OverlaySrcIP := take 4 (User.TunnelNet user) |>
    <| Tunnel.OverlayDstIP := overlay_dst (User.TunnelNet user) |>
    <| Tunnel.DzIp := User.DzIp user |>
    <| Tunnel.PubKey := User.PubKey user |>
    <| Tunnel.Allocated := true |>
    <| Tunnel.TenantPubKey := User.TenantPubKey user |>.

Definition fill_unicast (k : StateCache.t) (user : User.t) (t : Tunnel.t) : Tunnel.t :=
  let t := t <| Tunnel.VrfId := 1 |> <| Tunnel.MetroRouting := true |> in
  match StateCache.Tenants k !! User.TenantPubKey user with
  | Some tenant =>
      let t := t <| Tunnel.VrfId := Tenant.VrfId tenant |> <| Tunnel.MetroRouting := Tenant.MetroRouting tenant |> in
      if flexAlgoEnabled (featuresConfig c)
      then t <| Tunnel.TenantTopologyColors := resolveTenantColors (Tenant.IncludeTopologies tenant) (StateCache.Topologies k) |>
      else t
  | None =>
      if flexAlgoEnabled (featuresConfig c)
      then t <| Tunnel.TenantTopologyColors := resolveTenantColors [] (StateCache.Topologies k) |>
      else t
  end.

Definition group_ips (k : StateCache.t) (keys : list bytes) : list IP :=
  omap (fun g => MulticastGroup.MulticastIp <$> StateCache.MulticastGroups k !! g) keys.

(** The lists are appended to; [net.ParseIP] gives the 16-byte form. *)
Definition fill_multicast (k : StateCache.t) (user : User.t) (t : Tunnel.t) : Tunnel.t :=
  let subs := group_ips k (User.Subscribers user) in
  let pubs := group_ips k (User.Publishers user) in
  let boundaryList : gset bytes := list_to_set (subs ++ pubs) in
  t <| Tunnel.IsMulticast := true |>
    <| Tunnel.MulticastSubscribers := Tunnel.MulticastSubscribers t ++ subs |>
    <| Tunnel.MulticastPublishers := Tunnel.MulticastPublishers t ++ pubs |>
    <| Tunnel.MulticastBoundaryList := sort_on bytes_le ip4_string
         (Tunnel.MulticastBoundaryList t ++ ((v4InV6Prefix ++.) <$> elements boundaryList)) |>.

Definition fill_tunnel (k : StateCache.t) (publicIP : IP) (user : User.t) (t : Tunnel.t) : Tunnel.t :=
  let t := fill_addresses publicIP user t in
  if User.UserType user =? 3 then fill_multicast k user t else fill_unicast k user t.

(** One iteration of the loop over the users. *)
Definition add_user (k : StateCache.t) (user : User.t) : StateCache.t :=
  if negb (User.Status user =? 1) then k
  else match StateCache.Devices k !! User.DevicePubKey user with
       | None => k
       | Some d =>
           if negb (valid_user user) then k
           else match findTunnel (User.TunnelId user) d with
                | None => k
                | Some i =>
                    let d := d <| CDevice.Tunnels :=
                      alter (fill_tunnel k (CDevice.PublicIP d) user) i (CDevice.Tunnels d) |> in
                    k <| StateCache.Devices := <[User.DevicePubKey user := d]> (StateCache.Devices k) |>
                end
       end.

(** ** [updateStateCache] *)

Definition vrf_set : gset Z := {[1]} ∪ list_to_set (Tenant.VrfId <$> ProgramData.Tenants data).

Definition base_cache : StateCache.t :=
  StateCache.empty <| StateCache.GlobalConfig := ProgramData.GlobalConfig data |>
    <| StateCache.Topologies := topologies |>.

Definition group_cache (k : StateCache.t) : StateCache.t :=
  k <| StateCache.MulticastGroups := index_by MulticastGroup.PubKey (ProgramData.MulticastGroups data) |>
    <| StateCache.Tenants := index_by Tenant.PubKey (ProgramData.Tenants data) |>
    <| StateCache.UnicastVrfs := sort_on Z.le id (elements vrf_set) |>.

Definition build_cache : StateCache.t :=
  foldl add_user (group_cache (foldl add_device base_cache (ProgramData.Devices data))) (ProgramData.Users data).
End Update.

(** The fetch result is an argument; an error leaves the old cache. *)
Definition updateStateCache (c : Controller) (data : option ProgramData.t) : Controller * bool :=
  match data with
  | None => (c, false)
  | Some data =>
      match ProgramData.Devices data with
      | [] => (c, false)
      | _ :: _ => (c <| cache := build_cache c data |>, true)
      end
  end.

(** ** [NewController] *)

Inductive ctl_error := ErrInvalidMaxUserTunnelSlots | ErrListen | ErrServiceabilityRequired | ErrLoggerRequired.

(** [slots] is the value of the last [WithMaxUserTunnelSlots] option;
    [listener] is whether one is given or can be opened. *)
Definition NewController (features : option FeaturesConfig) (slots : option Z) (env : bytes) (asn : Z) (noHW : bool)
    (listener serviceability log : bool) : res ctl_error Controller :=
  let c := mkController StateCache.empty features (default DefaultMaxUserTunnelSlots slots) env asn noHW in
  if maxUserTunnelSlots c <? 1 then Err ErrInvalidMaxUserTunnelSlots
  else if negb listener then Err ErrListen
  else if negb serviceability then Err ErrServiceabilityRequired
  else if negb log then Err ErrLoggerRequired
  else Ok c.

(** ** The fetch failure score, in halves *)

Definition cacheFetchErrorThreshold : Z := 12.

Definition nextFetchFailScore (score : Z) (failed : bool) : Z :=
  if failed then Z.min (score + 2) cacheFetchErrorThreshold
  else let score := score - 1 in if score <? 0 then 0 else score.

(** [recordFetch]: whether the fetch is logged as an error. *)
Definition recordFetch (score : Z) (failed : bool) : Z * bool :=
  let score := nextFetchFailScore score failed in
  (score, failed && (cacheFetchErrorThreshold <=? score)).

(** ** [GetConfig] *)

Definition tunnel_key (t : Tunnel.t) : bytes :=
  IP_String (Tunnel.UnderlaySrcIP t) ++ lit ":" ++ IP_String (Tunnel.UnderlayDstIP t).

(** The loop of [deduplicateTunnels]: [seen] are the keys met so far. *)
Fixpoint dedup_loop (seen : gset bytes) (l : list Tunnel.t) : list Tunnel.t :=
  match l with
  | [] => []
  | t :: l =>
      if negb (Tunnel.Allocated t) then t :: dedup_loop seen l
      else if bool_decide (tunnel_key t ∈ seen) then dedup_loop seen l
      else t :: dedup_loop ({[tunnel_key t]} ∪ seen) l
  end.

Definition deduplicateTunnels (device : CDevice.t) : list Tunnel.t := dedup_loop ∅ (CDevice.Tunnels device).

Definition isIPInBlock (ip : IP) (block : bytes) : bool := net_Contains (block_net block) ip.

Definition formatCIDR (b : bytes) : bytes := net_String (block_net b) (byte_at b 4).

Definition peerFound (tunnels : list Tunnel.t) (k : StateCache.t) (peer : IP) : bool :=
  existsb (fun t => ip_equal (Tunnel.OverlayDstIP t) peer) tunnels ||
  existsb (fun b => ip_equal (PeerIP b) peer) (StateCache.Vpnv4BgpPeers k) ||
  existsb (fun b => ip_equal (PeerIP b) peer) (StateCache.Ipv4BgpPeers k).

(** The peers to remove; [peers] are the results of [net.ParseIP]. *)
Definition unknown_peers (tunnels : list Tunnel.t) (k : StateCache.t) (g : GlobalConfig.t) (peers : list (option IP)) :
    list IP :=
  filter (fun ip => peerFound tunnels k ip = false /\
    (isIPInBlock ip (GlobalConfig.UserTunnelBlock g) || isIPInBlock ip (GlobalConfig.DeviceTunnelBlock g)) = true)
    (omap id peers).

(** The part of [config.NetworkConfigForEnv] used here. *)
Definition DeviceLocalASN (env : bytes) : option Z :=
  if bool_decide (env = lit "mainnet-beta") || bool_decide (env = lit "mainnet") then Some 209321
  else if bool_decide (env = lit "testnet") then Some 65342
  else if bool_decide (env = lit "devnet") || bool_decide (env = lit "localnet") then Some 21682
  else None.

Record TopologyModel := mkTopologyModel {
  tm_Name : bytes;
  tm_AdminGroupBit : Z;
  tm_FlexAlgoNumber : Z;
  tm_Color : Z;
  tm_ConstraintStr : bytes
}.

Definition topology_model (t : TopologyInfo.t) : TopologyModel :=
  mkTopologyModel (TopologyInfo.Name t) (TopologyInfo.AdminGroupBit t) (TopologyInfo.FlexAlgoNumber t)
    (TopologyInfo.AdminGroupBit t + 1) (TopologyConstraint_String (TopologyInfo.Constraint t)).

Definition TWAMPListenPort : Z := 862.

Record templateData := mkTemplateData {
  td_Device : CDevice.t;
  td_Vpnv4BgpPeers : list BgpPeer;
  td_Ipv4BgpPeers : list BgpPeer;
  td_UnknownBgpPeers : list IP;
  td_MulticastGroupBlock : bytes;
  td_NoHardware : bool;
  td_TelemetryTWAMPListenPort : Z;
  td_LocalASN : Z;
  td_UnicastVrfs : list Z;
  td_AllTopologies : list TopologyModel;
  td_Config : option FeaturesConfig
}.

Definition isInvalidConfigChar (r : Z) : bool := IsControl r || IsSpace r.

(** The strings that end up in the configuration. *)
Definition rendered_fields (data : templateData) : list bytes :=
  let d := td_Device data in
  [CDevice.MgmtVrf d; CDevice.ExchangeCode d; CDevice.IsisNet d; CDevice.Vpn4vLoopbackIntfName d;
   CDevice.Ipv4LoopbackIntfName d] ++
  (CDevice.Interfaces d ≫= fun i =>
     CIface.Name i :: CIface.LinkTopologies i ++ (seg_TopologyName <$> CIface.FlexAlgoNodeSegments i)) ++
  (PeerName <$> td_Ipv4BgpPeers data) ++ (PeerName <$> td_Vpnv4BgpPeers data) ++
  (tm_Name <$> td_AllTopologies data).

Definition validateTemplateData (data : templateData) : bool :=
  forallb (fun f => negb (existsb isInvalidConfigChar (runes f))) (rendered_fields data).

Inductive status := NotFound | FailedPrecondition | Internal | Aborted.

Section GetConfig.
(** Execution of the text template. *)
Context (execute : templateData -> option bytes).

Definition renderConfig (data : templateData) : option bytes :=
  if validateTemplateData data then execute data else None.

Definition local_asn (c : Controller) : option Z :=
  if negb (deviceLocalASN c =? 0) then Some (deviceLocalASN c)
  else if negb (bool_decide (environment c = [])) then DeviceLocalASN (environment c)
  else None.

(** What the template is given for a device. *)
Definition template_of (c : Controller) (device : CDevice.t) (g : GlobalConfig.t) (peers : list (option IP)) (asn : Z) :
    templateData :=
  let k := cache c in
  let tunnels := deduplicateTunnels device in
  let ipv4Peers :=
    match StateCache.Ipv4BgpPeers k with
    | [p] => if ip_equal (PeerIP p) (CDevice.Ipv4LoopbackIP device) then [] else [p]
    | l => l
    end in
  mkTemplateData (device <| CDevice.Tunnels := tunnels |>) (StateCache.Vpnv4BgpPeers k) ipv4Peers
    (unknown_peers tunnels k g peers) (formatCIDR (GlobalConfig.MulticastGroupBlock g)) (noHardware c)
    TWAMPListenPort asn (StateCache.UnicastVrfs k)
    (sort_on Z.le tm_AdminGroupBit (topology_model <$> (map_to_list (StateCache.Topologies k)).*2)) (featuresConfig c).

(** Without a global configuration the handler dereferences nil. *)
Definition GetConfig (c : Controller) (pubkey : bytes) (peers : list (option IP)) : res status bytes :=
  match StateCache.Devices (cache c) !! pubkey with
  | None => Err NotFound
  | Some device =>
      match CDevice.DevicePathologies device with
      | _ :: _ => Err FailedPrecondition
      | [] =>
          match StateCache.GlobalConfig (cache c) with
          | None => Panic
          | Some g =>
              match local_asn c with
              | None => Err Internal
              | Some asn =>
                  match renderConfig (template_of c device g peers asn) with
                  | None => Err Aborted
                  | Some config => Ok config
                  end
              end
          end
      end
  end.
End GetConfig.

(** ** What the slots of a device hold *)

(** The users whose tunnel is the slot [id] of the device [key]. *)
Definition serves (key : bytes) (id : Z) (u : User.t) : Prop :=
  User.Status u = 1 /\ User.DevicePubKey u = key /\ valid_user u = true /\ User.TunnelId u = id.

#[global] Instance serves_dec key id u : Decision (serves key id u).
Proof. unfold serves. apply _. Defined.

Lemma elem_slot_ids n id : id ∈ slot_ids n <-> StartUserTunnelNum <= id < StartUserTunnelNum + n.
Proof.
  unfold slot_ids, StartUserTunnelNum. rewrite list_elem_of_fmap. split.
  - intros (i & -> & Hi%elem_of_seq). lia.
  - intros Hi. exists (Z.to_nat (id - 500)). rewrite elem_of_seq. lia.
Qed.

Lemma NoDup_slot_ids n : NoDup (slot_ids n).
Proof. apply NoDup_fmap_2; [intros x y; lia|]. apply NoDup_seq. Qed.

(** Changing the element of one key of a list given by distinct keys. *)
Lemma alter_fmap_key {A} (f : A -> A) (g : Z -> A) ids i id : NoDup ids -> ids !! i = Some id ->
  alter f i (g <$> ids) = (fun x => if decide (x = id) then f (g x) else g x) <$> ids.
Proof.
  intros Hn Hi. apply list_eq. intros j. rewrite list_lookup_fmap.
  destruct (decide (i = j)) as [<-|Hne].
  - rewrite list_lookup_alter_eq, list_lookup_fmap, Hi. cbn. by rewrite decide_True.
  - rewrite list_lookup_alter_ne, list_lookup_fmap by done. destruct (ids !! j) as [x|] eqn:Hj; cbn; [|done].
    rewrite decide_False; [done|]. intros ->. by eapply Hne, NoDup_lookup.
Qed.

Section Slots.
Context (c : Controller) (env : StateCache.t).

(** The slot after the users [us]: each user of the slot in turn. *)
Definition slot_of (key : bytes) (ip : IP) (us : list User.t) (id : Z) : Tunnel.t :=
  foldl (fun t u => fill_tunnel c env ip u t) (Tunnel.free id) (filter (serves key id) us).

Definition with_slots (key : bytes) (us : list User.t) (d : CDevice.t) : CDevice.t :=
  d <| CDevice.Tunnels := slot_of key (CDevice.PublicIP d) us <$> slot_ids (maxUserTunnelSlots c) |>.

Lemma fill_unicast_frame k u t : let t' := fill_unicast c k u t in
  Tunnel.Id t' = Tunnel.Id t /\ Tunnel.Allocated t' = Tunnel.Allocated t /\
  Tunnel.PubKey t' = Tunnel.PubKey t /\ Tunnel.DzIp t' = Tunnel.DzIp t /\
  Tunnel.IsMulticast t' = Tunnel.IsMulticast t /\ Tunnel.MulticastSubscribers t' = Tunnel.MulticastSubscribers t /\
  Tunnel.MulticastPublishers t' = Tunnel.MulticastPublishers t /\
  Tunnel.MulticastBoundaryList t' = Tunnel.MulticastBoundaryList t /\
  Tunnel.UnderlaySrcIP t' = Tunnel.UnderlaySrcIP t /\ Tunnel.UnderlayDstIP t' = Tunnel.UnderlayDstIP t /\
  Tunnel.OverlaySrcIP t' = Tunnel.OverlaySrcIP t /\ Tunnel.OverlayDstIP t' = Tunnel.OverlayDstIP t.
Proof.
  cbv zeta. unfold fill_unicast. destruct (StateCache.Tenants k !! User.TenantPubKey u); by destruct (flexAlgoEnabled _).
Qed.

Lemma fill_Id k ip u t : Tunnel.Id (fill_tunnel c k ip u t) = Tunnel.Id t.
Proof.
  unfold fill_tunnel. destruct (_ =? 3); [done|].
  by destruct (fill_unicast_frame k u (fill_addresses ip u t)) as (-> & _).
Qed.

Lemma fill_Allocated k ip u t : Tunnel.Allocated (fill_tunnel c k ip u t) = true.
Proof.
  unfold fill_tunnel. destruct (_ =? 3); [done|].
  by destruct (fill_unicast_frame k u (fill_addresses ip u t)) as (_ & -> & _).
Qed.

Lemma slot_of_snoc key ip us u id : slot_of key ip (us ++ [u]) id =
  if decide (serves key id u) then fill_tunnel c env ip u (slot_of key ip us id) else slot_of key ip us id.
Proof.
  unfold slot_of. rewrite filter_app, filter_cons, filter_nil.
  destruct (decide _); [by rewrite foldl_snoc|by rewrite app_nil_r].
Qed.

Lemma slot_of_Id key ip us id : Tunnel.Id (slot_of key ip us id) = id.
Proof.
  induction us as [|u us IH] using rev_ind; [done|]. rewrite slot_of_snoc.
  destruct (decide _); [by rewrite fill_Id|done].
Qed.

Lemma slot_of_Allocated key ip us id :
  Tunnel.Allocated (slot_of key ip us id) = true <-> exists u, u ∈ us /\ serves key id u.
Proof.
  induction us as [|u us IH] using rev_ind.
  { split; [done|]. by intros (u & ?%elem_of_nil & _). }
  rewrite slot_of_snoc. setoid_rewrite elem_of_app. setoid_rewrite list_elem_of_singleton.
  destruct (decide _) as [Hu|Hu].
  - rewrite fill_Allocated. split; [|done]. intros _. exists u. auto.
  - rewrite IH. split; [intros (v & ? & ?); eauto|]. intros (v & [?| ->] & ?); [eauto|done].
Qed.

Lemma find_slot key us d id : findTunnel id (with_slots key us d) =
  fst <$> list_find (fun x => x = id) (slot_ids (maxUserTunnelSlots c)).
Proof.
  unfold findTunnel, with_slots. cbn [CDevice.Tunnels set_field].
  rewrite list_find_fmap. rewrite <- option_fmap_compose.
  rewrite (list_find_ext _ (fun x => x = id)); [|intros x; cbn; by rewrite slot_of_Id].
  by destruct (list_find _ _) as [[]|].
Qed.

Lemma add_user_slots key us d u :
  serves key (User.TunnelId u) u ->
  match findTunnel (User.TunnelId u) (with_slots key us d) with
  | None => with_slots key us d
  | Some i => (with_slots key us d) <| CDevice.Tunnels :=
      alter (fill_tunnel c env (CDevice.PublicIP d) u) i (CDevice.Tunnels (with_slots key us d)) |>
  end = with_slots key (us ++ [u]) d.
Proof.
  intros (Hst & Hk & Hv & _). rewrite find_slot.
  assert (Hs : forall id, serves key id u <-> id = User.TunnelId u) by (unfold serves; intuition congruence).
  destruct (list_find _ _) as [[i x]|] eqn:Hf; cbn.
  - apply list_find_Some in Hf as (Hi & -> & _). unfold with_slots. cbn [CDevice.Tunnels set_field].
    rewrite (alter_fmap_key _ _ _ i (User.TunnelId u)); [|apply NoDup_slot_ids|done].
    f_equal. apply list_fmap_ext. intros j id _. rewrite slot_of_snoc.
    destruct (decide (id = _)) as [->|Hne]; [by rewrite decide_True by by apply Hs|].
    by rewrite decide_False by by rewrite Hs.
  - apply list_find_None in Hf. unfold with_slots. f_equal. apply list_fmap_ext. intros j id Hj.
    rewrite slot_of_snoc, decide_False; [done|]. rewrite Hs. rewrite Forall_lookup in Hf. by eapply Hf.
Qed.

Lemma skip_user_slots key us d u : (forall id, ~ serves key id u) ->
  with_slots key (us ++ [u]) d = with_slots key us d.
Proof.
  intros Hn. unfold with_slots. cbn [set_field]. f_equal. apply list_fmap_ext. intros j id _.
  by rewrite slot_of_snoc, decide_False.
Qed.
End Slots.

(** The whole cache after the users [us]. *)
Definition with_users (c : Controller) (k : StateCache.t) (us : list User.t) : StateCache.t :=
  k <| StateCache.Devices := map_imap (fun key d => Some (with_slots c k key us d)) (StateCache.Devices k) |>.

Lemma with_users_lookup c k us key :
  StateCache.Devices (with_users c k us) !! key = with_slots c k key us <$> StateCache.Devices k !! key.
Proof. cbn. rewrite map_lookup_imap. by destruct (_ !! _). Qed.

Lemma with_users_devices (c : Controller) (k : StateCache.t) (us us' : list User.t) (m : gmap bytes CDevice.t) :
  (forall key : bytes, m !! key = with_slots c k key us' <$> StateCache.Devices k !! key) ->
  (with_users c k us) <| StateCache.Devices := m |> = with_users c k us'.
Proof.
  intros Hm. unfold with_users. cbn [set_field]. f_equal. apply map_eq. intros key.
  rewrite Hm, map_lookup_imap. by destruct (_ !! _).
Qed.

Lemma with_users_same (c : Controller) (k : StateCache.t) (us us' : list User.t) :
  (forall key d, StateCache.Devices k !! key = Some d -> with_slots c k key us' d = with_slots c k key us d) ->
  with_users c k us = with_users c k us'.
Proof.
  intros H. unfold with_users. cbn [set_field]. f_equal. apply map_eq. intros key. rewrite !map_lookup_imap.
  destruct (_ !! _) as [d|] eqn:Hd; [|done]. cbn [mbind option_bind]. f_equal. by rewrite H.
Qed.

Lemma add_user_step c k us u : add_user c (with_users c k us) u = with_users c k (us ++ [u]).
Proof.
  unfold add_user. destruct (Z.eqb_spec (User.Status u) 1) as [Hst|Hst]; cbn [negb]; cycle 1.
  { apply with_users_same. intros key d _. apply skip_user_slots. by intros id [? _]. }
  rewrite with_users_lookup.
  destruct (StateCache.Devices k !! User.DevicePubKey u) as [d|] eqn:Hd; cbn [fmap option_fmap option_map]; cycle 1.
  { apply with_users_same. intros key d Hk. apply skip_user_slots. intros id (_ & <- & _). congruence. }
  destruct (valid_user u) eqn:Hv; cbn [negb]; cycle 1.
  { apply with_users_same. intros key d' _. apply skip_user_slots. intros id (_ & _ & ? & _). congruence. }
  pose proof (add_user_slots c k _ us d u (conj Hst (conj eq_refl (conj Hv eq_refl)))) as Hs.
  assert (Hne : forall key d', key <> User.DevicePubKey u ->
    with_slots c k key (us ++ [u]) d' = with_slots c k key us d').
  { intros key d' Hk. apply skip_user_slots. intros id (_ & <- & _). done. }
  destruct (findTunnel _ _) as [i|].
  - apply with_users_devices. intros key. destruct (decide (key = User.DevicePubKey u)) as [->|Hk].
    + rewrite lookup_insert_eq, Hd. cbn [fmap option_fmap option_map]. f_equal. rewrite <- Hs.
      cbn [set_field]. f_equal.
    + rewrite lookup_insert_ne, with_users_lookup by done. destruct (_ !! key); cbn [fmap option_fmap option_map]; [|done]. f_equal. by rewrite Hne.
  - apply with_users_same. intros key d' Hk. destruct (decide (key = User.DevicePubKey u)) as [->|Hn]; [|by apply Hne].
    rewrite Hd in Hk. injection Hk as <-. by rewrite Hs.
Qed.

Lemma add_users_eq c k us : (forall key d, StateCache.Devices k !! key = Some d -> with_slots c k key [] d = d) ->
  foldl (add_user c) k us = with_users c k us.
Proof.
  intros Hk. induction us as [|u us IH] using rev_ind.
  - cbn [foldl]. destruct k as [g ds mg te to uv vp ip]. unfold with_users. cbn [set_field]. f_equal.
    apply map_eq. intros key. rewrite map_lookup_imap. cbn [StateCache.Devices] in *.
    destruct (ds !! key) as [d|] eqn:Hd; [|done]. cbn [mbind option_bind]. by rewrite Hk.
  - rewrite foldl_snoc, IH. apply add_user_step.
Qed.

(** ** Devices in the cache *)

Lemma loopbacks_frame code l d v i d' v' i' : foldl (loopback_step code) (d, v, i) l = (d', v', i') ->
  CDevice.Tunnels d' = CDevice.Tunnels d /\ CDevice.PublicIP d' = CDevice.PublicIP d /\
  CDevice.PubKey d' = CDevice.PubKey d /\ CDevice.Interfaces d' = CDevice.Interfaces d /\
  (PeerIP v = CDevice.Vpn4vLoopbackIP d -> PeerIP v' = CDevice.Vpn4vLoopbackIP d') /\
  (PeerIP i = CDevice.Ipv4LoopbackIP d -> PeerIP i' = CDevice.Ipv4LoopbackIP d').
Proof.
  revert d v i. induction l as [|x l IH]; intros d v i; cbn [foldl]; [by intros [= <- <- <-]|].
  unfold loopback_step at 2. destruct (IsVpnv4Loopback x); [|destruct (IsIpv4Loopback x)]; [destruct (4 <=? _)%nat|..];
    intros (? & ? & ? & ? & ? & ?)%IH; cbn in *; split_and!; auto.
Qed.

Lemma build_device_spec c data device d peers : build_device c data device = (d, peers) ->
  CDevice.Tunnels d = Tunnel.free <$> slot_ids (maxUserTunnelSlots c) /\
  CDevice.PublicIP d = Device.PublicIp device /\
  match peers with
  | None => CDevice.DevicePathologies d <> []
  | Some (v, i) => CDevice.DevicePathologies d = [] /\
      PeerIP v = CDevice.Vpn4vLoopbackIP d /\ PeerIP i = CDevice.Ipv4LoopbackIP d
  end.
Proof.
  unfold build_device, processDeviceInterfacesAndPeers.
  set (d0 := (device_labels _ _ _) <| CDevice.Interfaces := _ |>).
  assert (H0 : CDevice.Tunnels d0 = Tunnel.free <$> slot_ids (maxUserTunnelSlots c) /\
    CDevice.PublicIP d0 = Device.PublicIp device /\ CDevice.Vpn4vLoopbackIP d0 = [] /\ CDevice.Ipv4LoopbackIP d0 = []).
  { unfold d0, device_labels. destruct (_ !! _); by destruct (index_by Exchange.PubKey _ !! _). }
  destruct (foldl _ _ _) as [[d1 v] i] eqn:Hf. apply loopbacks_frame in Hf as (Ht & Hp & _ & _ & Hv & Hi).
  destruct H0 as (Ht0 & Hp0 & Hv0 & Hi0).
  destruct (CDevice.DevicePathologies (set_field _ _ _)) as [|p l] eqn:Hpath.
  - destruct (featuresConfig c); intros [= <- <-]; cbn in *; rewrite Ht, Hp; split_and!; auto.
  - intros [= <- <-]. cbn in *. rewrite Ht, Hp, Hpath. split_and!; auto.
Qed.

Section CacheDevices.
Context (c : Controller) (data : ProgramData.t).

Let devices_of (l : list Device.t) : StateCache.t := foldl (add_device c data) (base_cache data) l.

(** The cache the users are added to. *)
Definition user_env : StateCache.t := group_cache data (devices_of (ProgramData.Devices data)).

Lemma devices_frame l : StateCache.GlobalConfig (devices_of l) = ProgramData.GlobalConfig data.
Proof.
  induction l as [|device l IH] using rev_ind; [done|]. unfold devices_of. rewrite foldl_snoc. fold (devices_of l).
  unfold add_device. destruct (build_device _ _ _) as [d [[v i]|]]; done.
Qed.

Lemma devices_elem l key d : StateCache.Devices (devices_of l) !! key = Some d ->
  exists device, device ∈ l /\ Device.PubKey device = key /\ (build_device c data device).1 = d.
Proof.
  induction l as [|device l IH] using rev_ind; [by cbn; rewrite lookup_empty|].
  unfold devices_of. rewrite foldl_snoc. fold (devices_of l). unfold add_device.
  destruct (build_device _ _ _) as [d' peers] eqn:Hb. intros Hd.
  assert (Hins : <[Device.PubKey device := d']> (StateCache.Devices (devices_of l)) !! key = Some d)
    by (by destruct peers as [[v i]|]).
  apply lookup_insert_Some in Hins as [[<- <-]|[_ Hl]].
  - exists device. split_and!; [apply elem_of_app; right; by left|done|by rewrite Hb].
  - destruct (IH Hl) as (dev & ? & ? & ?). exists dev. split_and!; [apply elem_of_app; by left|done|done].
Qed.

(** The peers of the cache are those of the devices without a pathology. *)
Lemma devices_peers l : StateCache.Vpnv4BgpPeers (devices_of l) = omap (fun device => fst <$> (build_device c data device).2) l /\
  StateCache.Ipv4BgpPeers (devices_of l) = omap (fun device => snd <$> (build_device c data device).2) l.
Proof.
  induction l as [|x l [IHv IHi]] using rev_ind; [done|]. unfold devices_of. rewrite foldl_snoc, !omap_app. fold (devices_of l).
  unfold add_device. cbn [omap list_omap]. rewrite <- IHv, <- IHi.
  destruct (build_device c data x) as [d [[v i]|]]; cbn; by rewrite ?app_nil_r.
Qed.

Lemma build_cache_eq : build_cache c data = with_users c user_env (ProgramData.Users data).
Proof.
  unfold build_cache. apply add_users_eq. intros key d Hd.
  apply devices_elem in Hd as (device & _ & _ & <-).
  destruct (build_device c data device) as [d peers] eqn:Hb. apply build_device_spec in Hb as (Ht & _).
  unfold with_slots. cbn [fst set_field]. destruct d. cbn in Ht. subst. done.
Qed.

Lemma build_cache_lookup key d : StateCache.Devices (build_cache c data) !! key = Some d ->
  exists device, device ∈ ProgramData.Devices data /\ Device.PubKey device = key /\
    d = with_slots c user_env key (ProgramData.Users data) (build_device c data device).1.
Proof.
  rewrite build_cache_eq, with_users_lookup. intros (d0 & Hd & ->)%fmap_Some.
  apply devices_elem in Hd as (device & ? & ? & <-). eauto.
Qed.

Lemma build_cache_slot key d t : StateCache.Devices (build_cache c data) !! key = Some d ->
  t ∈ CDevice.Tunnels d ->
  t = slot_of c user_env key (CDevice.PublicIP d) (ProgramData.Users data) (Tunnel.Id t) /\
  Tunnel.Id t ∈ slot_ids (maxUserTunnelSlots c).
Proof.
  intros (device & _ & _ & ->)%build_cache_lookup. unfold with_slots. cbn [CDevice.Tunnels CDevice.PublicIP set_field].
  intros (id & -> & Hid)%list_elem_of_fmap. by rewrite slot_of_Id.
Qed.
End CacheDevices.

(** C9.  The tunnels of a device in the cache. There is one slot for each
    number from 500 on; a slot is allocated exactly when a valid activated user
    of the device has its number, so that every such user in range has a slot;
    and where the numbers are not shared the slot holds the addresses and the
    type of that user, over a free slot, with the device's public address when
    the user has no endpoint of its own. *)
Theorem cache_slots c data key d :
  StateCache.Devices (build_cache c data) !! key = Some d ->
  Tunnel.Id <$> CDevice.Tunnels d = slot_ids (maxUserTunnelSlots c) /\
  (exists device, device ∈ ProgramData.Devices data /\ Device.PubKey device = key /\
     CDevice.PublicIP d = Device.PublicIp device) /\
  forall t, t ∈ CDevice.Tunnels d ->
    (Tunnel.Allocated t = true <-> exists u, u ∈ ProgramData.Users data /\ serves key (Tunnel.Id t) u) /\
    forall u, filter (serves key (Tunnel.Id t)) (ProgramData.Users data) = [u] ->
      t = fill_tunnel c (user_env c data) (CDevice.PublicIP d) u (Tunnel.free (Tunnel.Id t)) /\
      Tunnel.PubKey t = User.PubKey u /\ Tunnel.DzIp t = User.DzIp u /\ isBgpMartian (Tunnel.DzIp t) = false /\
      Tunnel.IsMulticast t = (User.UserType u =? 3).
Proof.
  intros Hd. pose proof Hd as (device & Hin & Hk & Heq)%build_cache_lookup. split_and!.
  - subst d. unfold with_slots. cbn [CDevice.Tunnels set_field]. rewrite <- list_fmap_compose.
    rewrite <- (list_fmap_id (slot_ids _)) at 2. apply list_fmap_ext. intros j id _. cbn. apply slot_of_Id.
  - exists device. split_and!; [done|done|]. subst d.
    destruct (build_device c data device) as [d0 peers] eqn:Hb. by apply build_device_spec in Hb as (_ & ? & _).
  - intros t Ht. destruct (build_cache_slot _ _ _ _ _ Hd Ht) as [Hs _].
    split; [rewrite Hs at 1; apply slot_of_Allocated|]. intros u Hu.
    assert (Hsv : serves key (Tunnel.Id t) u).
    { assert (H : u ∈ filter (serves key (Tunnel.Id t)) (ProgramData.Users data)) by (rewrite Hu; by left).
      by apply list_elem_of_filter in H as [? _]. }
    unfold slot_of in Hs. rewrite Hu in Hs. cbn [foldl] in Hs. split; [done|]. rewrite Hs.
    destruct Hsv as (_ & _ & Hv & _). unfold valid_user in Hv.
    assert (Hm : isBgpMartian (User.DzIp u) = false) by (destruct (isBgpMartian _); [|done]; lia).
    unfold fill_tunnel. destruct (_ =? 3); [by split_and!|].
    destruct (fill_unicast_frame c (user_env c data) u (fill_addresses (CDevice.PublicIP d) u (Tunnel.free (Tunnel.Id t))))
      as (_ & _ & -> & -> & -> & _). by split_and!.
Qed.

(** A slot shared by two users is not reset between them: after a
    multicast user, a unicast user with the same tunnel number gets the slot
    with its own key, and with the multicast flag and the groups of the other
    user. *)
Theorem shared_slot_stale c data key d t u1 u2 :
  StateCache.Devices (build_cache c data) !! key = Some d -> t ∈ CDevice.Tunnels d ->
  filter (serves key (Tunnel.Id t)) (ProgramData.Users data) = [u1; u2] ->
  User.UserType u1 = 3 -> User.UserType u2 <> 3 ->
  Tunnel.PubKey t = User.PubKey u2 /\ Tunnel.IsMulticast t = true /\
  Tunnel.MulticastSubscribers t = group_ips (user_env c data) (User.Subscribers u1) /\
  Tunnel.MulticastPublishers t = group_ips (user_env c data) (User.Publishers u1) /\
  t <> fill_tunnel c (user_env c data) (CDevice.PublicIP d) u2 (Tunnel.free (Tunnel.Id t)).
Proof.
  intros Hd Ht Hu H1 H2. destruct (build_cache_slot _ _ _ _ _ Hd Ht) as [Hs _].
  unfold slot_of in Hs. rewrite Hu in Hs. cbn [foldl] in Hs.
  apply Z.eqb_neq in H2. unfold fill_tunnel in Hs at 1. rewrite H2 in Hs.
  unfold fill_tunnel in Hs. rewrite H1 in Hs. cbn [Z.eqb Pos.eqb] in Hs. revert Hs.
  set (env := user_env c data). set (ip := CDevice.PublicIP d).
  set (t1 := fill_multicast _ _ _). intros Hs.
  destruct (fill_unicast_frame c env u2 (fill_addresses ip u2 t1)) as (_ & _ & Hpk & _ & Hm & Hsub & Hpub & _).
  rewrite <- Hs in *. split_and!; [done|done|done|done|].
  intros Heq. unfold fill_tunnel in Heq. rewrite H2 in Heq.
  destruct (fill_unicast_frame c env u2 (fill_addresses ip u2 (Tunnel.free (Tunnel.Id t)))) as (_ & _ & _ & _ & Hm' & _).
  rewrite <- Heq, Hm in Hm'. discriminate.
Qed.

(** ** Duplicate underlay pairs *)

Definition underlay (t : Tunnel.t) : IP * IP := (Tunnel.UnderlaySrcIP t, Tunnel.UnderlayDstIP t).

Definition allocated_of (l : list Tunnel.t) : list Tunnel.t := filter (fun t => Tunnel.Allocated t = true) l.

Definition tunnel_ok (t : Tunnel.t) : Prop :=
  Tunnel.Allocated t = true -> addr_ok (Tunnel.UnderlaySrcIP t) /\ addr_ok (Tunnel.UnderlayDstIP t).

Lemma tunnel_key_inj t t' : tunnel_ok t -> tunnel_ok t' -> Tunnel.Allocated t = true -> Tunnel.Allocated t' = true ->
  tunnel_key t = tunnel_key t' -> underlay t = underlay t'.
Proof.
  intros H H' Ha Ha'. destruct (H Ha) as [Hs Hd], (H' Ha') as [Hs' Hd']. unfold tunnel_key.
  change (lit ":") with [58]. intros E. apply (f_equal (fun s => SplitN2 s 58)) in E. cbn [app] in E.
  rewrite !SplitN2_app in E by by apply IP_String_no_colon. injection E as E1 E2. unfold underlay.
  f_equal; by apply IP_String_inj.
Qed.

Lemma allocated_of_cons t l : allocated_of (t :: l) = if Tunnel.Allocated t then t :: allocated_of l else allocated_of l.
Proof. unfold allocated_of. rewrite filter_cons. destruct (Tunnel.Allocated t); [by rewrite decide_True|by rewrite decide_False]. Qed.

Lemma dedup_sublist seen l : sublist (dedup_loop seen l) l.
Proof.
  revert seen. induction l as [|t l IH]; intros seen; cbn; [constructor|].
  destruct (negb _); [by constructor|]. case_bool_decide; by constructor.
Qed.

Lemma dedup_keys seen l : NoDup (tunnel_key <$> allocated_of (dedup_loop seen l)) /\
  Forall (fun t => tunnel_key t ∉ seen) (allocated_of (dedup_loop seen l)).
Proof.
  revert seen. induction l as [|t l IH]; intros seen; [by split; constructor|]. cbn [dedup_loop].
  destruct (Tunnel.Allocated t) eqn:Ha; cbn [negb]; [|rewrite allocated_of_cons, Ha; apply IH].
  case_bool_decide as Hk; [apply IH|]. rewrite allocated_of_cons, Ha.
  destruct (IH ({[tunnel_key t]} ∪ seen)) as [Hn Hf]. split.
  - cbn. constructor; [|done]. intros (t' & Heq & Hin)%list_elem_of_fmap. rewrite Forall_forall in Hf.
    apply (Hf t' Hin), elem_of_union. left. by apply elem_of_singleton.
  - constructor; [done|]. eapply Forall_impl; [exact Hf|]. cbn. intros t' Ht' Hin. apply Ht', elem_of_union. by right.
Qed.

Lemma dedup_free seen l : filter (fun t => Tunnel.Allocated t = false) (dedup_loop seen l) =
  filter (fun t => Tunnel.Allocated t = false) l.
Proof.
  revert seen. induction l as [|t l IH]; intros seen; [done|]. cbn [dedup_loop].
  rewrite (filter_cons _ t l). destruct (Tunnel.Allocated t) eqn:Ha; cbn [negb].
  - rewrite decide_False by done. case_bool_decide; [apply IH|]. by rewrite filter_cons, Ha, decide_False.
  - by rewrite filter_cons, Ha, !decide_True, IH.
Qed.

Lemma dedup_first seen pre t post : Tunnel.Allocated t = true -> tunnel_key t ∉ seen ->
  tunnel_key t ∉ tunnel_key <$> allocated_of pre -> t ∈ dedup_loop seen (pre ++ t :: post).
Proof.
  intros Ha. revert seen. induction pre as [|x pre IH]; intros seen Hs Hp; cbn [app dedup_loop].
  - rewrite Ha. cbn [negb]. rewrite bool_decide_eq_false_2 by done. by left.
  - rewrite allocated_of_cons in Hp. destruct (Tunnel.Allocated x); cbn [negb]; [|right; by apply IH].
    cbn in Hp. apply not_elem_of_cons in Hp as [Hne Hp]. case_bool_decide; [by apply IH|].
    right. apply IH; [|done]. rewrite elem_of_union, elem_of_singleton. tauto.
Qed.

(** [deduplicateTunnels] drops only allocated tunnels and leaves at most
    one for each pair of underlay addresses, the first of the slots; the free
    slots and the order stay. *)
Theorem deduplicateTunnels_spec d :
  Forall tunnel_ok (CDevice.Tunnels d) ->
  let l := deduplicateTunnels d in
  sublist l (CDevice.Tunnels d) /\ NoDup (underlay <$> allocated_of l) /\
  filter (fun t => Tunnel.Allocated t = false) l = filter (fun t => Tunnel.Allocated t = false) (CDevice.Tunnels d) /\
  forall pre t post, CDevice.Tunnels d = pre ++ t :: post -> Tunnel.Allocated t = true ->
    (t ∈ l \/ underlay t ∈ underlay <$> allocated_of pre).
Proof.
  intros Hok. cbv zeta. unfold deduplicateTunnels. pose proof (dedup_sublist ∅ (CDevice.Tunnels d)) as Hsub.
  split_and!; [done| |apply dedup_free|].
  - destruct (dedup_keys ∅ (CDevice.Tunnels d)) as [Hn _]. apply NoDup_fmap_2_strong; [|by eapply NoDup_fmap_1].
    intros t t' Ht Ht' E. eapply (key_inj tunnel_key); [exact Hn|done|done|].
    unfold underlay in E. injection E as E1 E2. unfold tunnel_key. by rewrite E1, E2.
  - intros pre t post E Ha. destruct (decide (tunnel_key t ∈ tunnel_key <$> allocated_of pre)) as [Hk|Hk].
    + right. apply list_elem_of_fmap in Hk as (t' & Hk & Ht'). apply list_elem_of_fmap. exists t'. split; [|done].
      pose proof Ht' as [Ha' Hp]%list_elem_of_filter. rewrite Forall_forall in Hok.
      apply tunnel_key_inj; [apply Hok; rewrite E; apply elem_of_app; right; by left|
        apply Hok; rewrite E; apply elem_of_app; by left|done|done|done].
    + left. rewrite E. apply dedup_first; [done|apply not_elem_of_empty|done].
Qed.

(** ** What a device is told *)

(** The addresses of the accounts are arrays of four bytes. *)
Definition data_ok (data : ProgramData.t) : Prop :=
  Forall (fun u => addr_ok (User.ClientIp u) /\ addr_ok (User.TunnelEndpoint u)) (ProgramData.Users data) /\
  Forall (fun d => addr_ok (Device.PublicIp d)) (ProgramData.Devices data).

Lemma fill_tunnel_ok c env ip u t : addr_ok ip -> addr_ok (User.ClientIp u) -> addr_ok (User.TunnelEndpoint u) ->
  tunnel_ok (fill_tunnel c env ip u t).
Proof.
  intros Hip Hc He _. unfold fill_tunnel.
  assert (Ha : forall t', Tunnel.UnderlaySrcIP t' = Tunnel.UnderlaySrcIP (fill_addresses ip u t) ->
    Tunnel.UnderlayDstIP t' = Tunnel.UnderlayDstIP (fill_addresses ip u t) ->
    addr_ok (Tunnel.UnderlaySrcIP t') /\ addr_ok (Tunnel.UnderlayDstIP t')).
  { intros t' -> ->. cbn. split; [|done]. by destruct (IsUnspecified _). }
  destruct (_ =? 3); apply Ha; try done;
    destruct (fill_unicast_frame c env u (fill_addresses ip u t)) as (_ & _ & _ & _ & _ & _ & _ & _ & ? & ? & _); done.
Qed.

Lemma slot_of_ok c env key ip us id : addr_ok ip ->
  Forall (fun u => addr_ok (User.ClientIp u) /\ addr_ok (User.TunnelEndpoint u)) us ->
  tunnel_ok (slot_of c env key ip us id).
Proof.
  intros Hip. induction us as [|u us IH] using rev_ind; [done|].
  intros [Hus [[? ?] _]%Forall_cons]%Forall_app. rewrite slot_of_snoc.
  destruct (decide _); [by apply fill_tunnel_ok|by apply IH].
Qed.

Lemma build_cache_ok c data key d : data_ok data -> StateCache.Devices (build_cache c data) !! key = Some d ->
  Forall tunnel_ok (CDevice.Tunnels d).
Proof.
  intros [Hu Hdev] Hd. pose proof Hd as (device & Hin & Hk & Heq)%build_cache_lookup.
  apply Forall_forall. intros t Ht. destruct (build_cache_slot _ _ _ _ _ Hd Ht) as [-> _].
  apply slot_of_ok; [|done]. rewrite Forall_forall in Hdev. subst d.
  destruct (build_device c data device) as [d0 peers] eqn:Hb. apply build_device_spec in Hb as (_ & Hp & _).
  cbn. rewrite Hp. by apply Hdev.
Qed.

Lemma existsb_false {A} (f : A -> bool) l a : existsb f l = false -> a ∈ l -> f a = false.
Proof.
  intros H Ha. destruct (f a) eqn:E; [|done]. rewrite <- H. symmetry. apply existsb_exists.
  exists a. by rewrite <- list_elem_of_In.
Qed.

Lemma unknown_peers_spec tunnels k g peers ip : ip ∈ unknown_peers tunnels k g peers <->
  Some ip ∈ peers /\
  (isIPInBlock ip (GlobalConfig.UserTunnelBlock g) || isIPInBlock ip (GlobalConfig.DeviceTunnelBlock g)) = true /\
  peerFound tunnels k ip = false.
Proof.
  unfold unknown_peers. rewrite list_elem_of_filter, list_elem_of_omap. split.
  - intros [[? ?] (x & Hx & E)]. cbn in E. subst. auto.
  - intros (Hx & ? & ?). split; [done|]. by exists (Some ip).
Qed.

(** An address that the device has to keep: of the client of a tunnel, or of a
    loopback of a device without a pathology. *)
Definition known_peer (c : Controller) (data : ProgramData.t) (tunnels : list Tunnel.t) (ip : IP) : Prop :=
  (exists t, t ∈ tunnels /\ ip_equal (Tunnel.OverlayDstIP t) ip = true) \/
  exists dev, dev ∈ ProgramData.Devices data /\ CDevice.DevicePathologies (build_device c data dev).1 = [] /\
    (ip_equal (CDevice.Vpn4vLoopbackIP (build_device c data dev).1) ip = true \/
     ip_equal (CDevice.Ipv4LoopbackIP (build_device c data dev).1) ip = true).

Lemma existsb_elem {A} (f : A -> bool) l : existsb f l = true <-> exists a, a ∈ l /\ f a = true.
Proof. rewrite existsb_exists. by setoid_rewrite list_elem_of_In. Qed.

Lemma healthy_peers c data dev :
  match (build_device c data dev).2 with
  | Some (v, i) => CDevice.DevicePathologies (build_device c data dev).1 = [] /\
      PeerIP v = CDevice.Vpn4vLoopbackIP (build_device c data dev).1 /\ PeerIP i = CDevice.Ipv4LoopbackIP (build_device c data dev).1
  | None => CDevice.DevicePathologies (build_device c data dev).1 <> []
  end.
Proof. destruct (build_device c data dev) as [d [[v i]|]] eqn:Hb; by pose proof (build_device_spec _ _ _ _ _ Hb) as (_ & _ & ?). Qed.

Lemma peerFound_known c data tunnels ip : peerFound tunnels (build_cache c data) ip = true <-> known_peer c data tunnels ip.
Proof.
  unfold peerFound, known_peer. rewrite !orb_true_iff, !existsb_elem, build_cache_eq.
  change (StateCache.Vpnv4BgpPeers _) with (StateCache.Vpnv4BgpPeers (foldl (add_device c data) (base_cache data) (ProgramData.Devices data))).
  change (StateCache.Ipv4BgpPeers _) with (StateCache.Ipv4BgpPeers (foldl (add_device c data) (base_cache data) (ProgramData.Devices data))).
  destruct (devices_peers c data (ProgramData.Devices data)) as [-> ->]. setoid_rewrite list_elem_of_omap. split.
  - intros [[Ht|(b & (dev & Hd & Hb) & He)]|(b & (dev & Hd & Hb) & He)]; [by left|right..];
      (exists dev; pose proof (healthy_peers c data dev) as Hp; destruct (build_device c data dev).2 as [[v i]|]; [|done]);
      injection Hb as <-; destruct Hp as (? & <- & <-); auto.
  - intros [Ht|(dev & Hd & Hh & Hl)]; [by do 2 left|]. pose proof (healthy_peers c data dev) as Hp.
    destruct (build_device c data dev).2 as [[v i]|] eqn:Hb; [|done]. destruct Hp as (_ & Hv & Hi). rewrite <- Hv, <- Hi in Hl.
    destruct Hl as [Hl|Hl]; [left; right; exists v|right; exists i]; (split; [|done]); exists dev; by rewrite Hb.
Qed.


(** ** The fetch failure score *)

Definition fetch_run (score : Z) (outcomes : list bool) : Z := foldl nextFetchFailScore score outcomes.

Lemma fetch_run_range score l : 0 <= score <= cacheFetchErrorThreshold ->
  0 <= fetch_run score l <= cacheFetchErrorThreshold.
Proof.
  revert score. induction l as [|b l IH]; intros score Hs; [done|]. apply IH.
  unfold nextFetchFailScore, cacheFetchErrorThreshold in *. destruct b; [lia|]. destruct (score - 1 <? 0) eqn:?; lia.
Qed.

Lemma fetch_alternating n score : 0 <= score <= cacheFetchErrorThreshold ->
  Z.min (score + Z.of_nat n) (cacheFetchErrorThreshold - 1) <= fetch_run score (mjoin (replicate n [true; false])).
Proof.
  revert score. induction n as [|n IH]; intros score Hs; [cbn; lia|].
  change (fetch_run score _) with (fetch_run (nextFetchFailScore (nextFetchFailScore score true) false)
    (mjoin (replicate n [true; false]))).
  unfold nextFetchFailScore, cacheFetchErrorThreshold in *.
  destruct (Z.min (score + 2) 12 - 1 <? 0) eqn:E; [lia|].
  etransitivity; [|apply IH; lia]. lia.
Qed.

Lemma fetch_sparse n k : fetch_run 0 (take k (mjoin (replicate n [true; false; false]))) < cacheFetchErrorThreshold.
Proof.
  revert k. induction n as [|n IH]; intros k; [cbn; by rewrite take_nil|].
  destruct k as [|[|[|k]]]; [done..|]. exact (IH k).
Qed.

(** The calibration of the fetch failure score: it stays within the
    threshold; six failures in a row reach it from any score, and so does an
    endpoint that fails every other time, within 21 fetches; one success always
    takes it below; failures each followed by two successes never reach it. *)
Theorem fetch_score_calibrated score : 0 <= score <= cacheFetchErrorThreshold ->
  (forall l, 0 <= fetch_run score l <= cacheFetchErrorThreshold) /\
  (recordFetch (fetch_run score (replicate 5 true)) true).2 = true /\
  (recordFetch (fetch_run score (mjoin (replicate 10 [true; false]))) true).2 = true /\
  nextFetchFailScore score false < cacheFetchErrorThreshold /\
  forall n k, fetch_run 0 (take k (mjoin (replicate n [true; false; false]))) < cacheFetchErrorThreshold.
Proof.
  intros Hs. pose proof (fetch_alternating 10 score Hs) as Ha.
  split_and!; [intros l; by apply fetch_run_range| | | |intros; apply fetch_sparse].
  - unfold recordFetch, fetch_run. cbn [replicate foldl snd andb]. unfold nextFetchFailScore, cacheFetchErrorThreshold in *. lia.
  - unfold recordFetch. cbn [snd andb]. unfold nextFetchFailScore, cacheFetchErrorThreshold in *. lia.
  - unfold nextFetchFailScore, cacheFetchErrorThreshold in *. destruct (score - 1 <? 0) eqn:?; lia.
Qed.

Lemma fetch_score_calibrated_witness : (recordFetch (fetch_run 3 (replicate 5 true)) true).2 = true.
Proof. apply (fetch_score_calibrated 3). unfold cacheFetchErrorThreshold. lia. Defined.

(** ** A small network *)

Definition loopback (name : bytes) (kind : Z) (ip : bytes) : Interface.t :=
  Interface.mk 0 1 3 name 1 0 0 kind 0 0 0 0 0 (ip ++ [32]) 0 false [].

Definition net_device : Device.t := sample_device
  <| Device.PubKey := sample_key 30 |>
  <| Device.PublicIp := [5; 6; 7; 8] |>
  <| Device.Interfaces := [loopback (lit "Loopback256") 2 [172; 16; 0; 2]; loopback (lit "Loopback255") 1 [172; 16; 0; 1]] |>.

Definition net_user (n userType tunnel : Z) : User.t := sample_user
  <| User.PubKey := sample_key n |> <| User.UserType := userType |> <| User.TunnelId := tunnel |>
  <| User.DevicePubKey := sample_key 30 |> <| User.ClientIp := [1; 2; 3; n] |> <| User.DzIp := [100; 0; 0; n] |>
  <| User.TunnelNet := [169; 254; 0; 2 * n; 31] |> <| User.TunnelEndpoint := [0; 0; 0; 0] |>
  <| User.Subscribers := if userType =? 3 then [sample_key 7] else [] |> <| User.Publishers := [] |>.

Definition net_data : ProgramData.t := ProgramData.empty
  <| ProgramData.GlobalConfig := Some (GlobalConfig.mk 2 [] 0 0 0 [172; 16; 0; 0; 16] [169; 254; 0; 0; 16]
       [233; 84; 178; 0; 24] 0 [] []) |>
  <| ProgramData.Exchanges := [Exchange.mk ExchangeType [] (mkUint128 0 0) 0 0 0 10001 0 1 (lit "fra") [] [] [] (sample_key 3)] |>
  <| ProgramData.Devices := [net_device] |>
  <| ProgramData.MulticastGroups := [MulticastGroup.mk MulticastGroupType [] (mkUint128 0 0) 0 [] [233; 84; 178; 1] 0 1 [] 0 0 (sample_key 7)] |>
  <| ProgramData.Users := [net_user 41 3 501; net_user 42 0 501; net_user 43 0 502] |>.

Definition net_controller : Controller := mkController StateCache.empty None 4 (lit "devnet") 0 false.

Definition net_cdevice : CDevice.t :=
  default (NewDevice [] [] 0) (StateCache.Devices (build_cache net_controller net_data) !! sample_key 30).

Definition net_slot (i : nat) : Tunnel.t := default (Tunnel.free 0) (CDevice.Tunnels net_cdevice !! i).

Lemma cache_slots_witness : exists u, Tunnel.PubKey (net_slot 2) = User.PubKey u /\ Tunnel.DzIp (net_slot 2) = [100; 0; 0; 43].
Proof.
  exists (net_user 43 0 502).
  destruct (cache_slots net_controller net_data (sample_key 30) net_cdevice) as (_ & _ & H); [vm_compute; reflexivity|].
  destruct (H (net_slot 2)) as [_ Hu]; [apply (list_elem_of_lookup_2 _ 2); vm_compute; reflexivity|].
  destruct (Hu (net_user 43 0 502)) as (_ & Hpk & Hdz & _); [vm_compute; reflexivity|]. split; [exact Hpk|exact Hdz].
Defined.

Lemma shared_slot_stale_witness : Tunnel.PubKey (net_slot 1) = sample_key 42 /\ Tunnel.IsMulticast (net_slot 1) = true.
Proof.
  destruct (shared_slot_stale net_controller net_data (sample_key 30) net_cdevice (net_slot 1)
    (net_user 41 3 501) (net_user 42 0 501)) as (H1 & H2 & _);
    [vm_compute; reflexivity|apply (list_elem_of_lookup_2 _ 1); vm_compute; reflexivity|vm_compute; reflexivity|
     reflexivity|discriminate|]. split; [exact H1|exact H2].
Defined.

(** Users 42 and 44 of the same client on the same device endpoint. *)
Definition net_twins : CDevice.t := net_cdevice <| CDevice.Tunnels :=
  [Tunnel.free 500; net_slot 1; (net_slot 1) <| Tunnel.Id := 503 |>] |>.

Lemma deduplicateTunnels_spec_witness :
  deduplicateTunnels net_twins = [Tunnel.free 500; net_slot 1] /\ NoDup (underlay <$> allocated_of (deduplicateTunnels net_twins)).
Proof.
  split; [vm_compute; reflexivity|]. apply (deduplicateTunnels_spec net_twins).
  repeat constructor; try (vm_compute; first [reflexivity|discriminate]); vm_compute; intros; discriminate.
Defined.

Lemma net_data_ok : data_ok net_data.
Proof. split; repeat constructor; try (vm_compute; first [reflexivity|discriminate]). Qed.

(** The template prints the peers to remove. *)
Definition net_render (td : templateData) : option bytes := Some (mjoin (td_UnknownBgpPeers td)).

Definition net_updated : Controller := (updateStateCache net_controller (Some net_data)).1.

