(* ===== verification/ClientApi.v ===== *)
(** * Client daemon: provision requests

    Models [client/doublezerod/internal/api/requests.go]: what a tunnel is
    provisioned from, and the comparisons the reconciler decides by. Addresses
    are IPv4, as on chain. *)

From stdpp Require Import base tactics numbers list gmap.
From Stdlib Require Import ZArith Lia ZifyBool ZifyNat.
From S2P Require Import Prelude Bytes GoStrings GoCollections Routing GoNet.

#[local] Open Scope Z_scope.

Inductive UserKind :=
| UserTypeUnknown | UserTypeIBRL | UserTypeIBRLWithAllocatedIP | UserTypeEdgeFiltering | UserTypeMulticast.

#[global] Instance UserKind_eq_dec : EqDecision UserKind.
Proof. solve_decision. Defined.

Definition ValidUserTypes : list UserKind :=
  [UserTypeIBRL; UserTypeIBRLWithAllocatedIP; UserTypeEdgeFiltering; UserTypeMulticast].

Definition UserKind_String (u : UserKind) : bytes :=
  match u with
  | UserTypeUnknown => lit "Unknown"
  | UserTypeIBRL => lit "IBRL"
  | UserTypeIBRLWithAllocatedIP => lit "IBRLWithAllocatedIP"
  | UserTypeEdgeFiltering => lit "EdgeFiltering"
  | UserTypeMulticast => lit "Multicast"
  end.

(** A missing key of the map gives the zero value. *)
Definition UserKind_FromString (s : bytes) : UserKind :=
  if bool_decide (s = lit "IBRL") then UserTypeIBRL
  else if bool_decide (s = lit "IBRLWithAllocatedIP") then UserTypeIBRLWithAllocatedIP
  else if bool_decide (s = lit "EdgeFiltering") then UserTypeEdgeFiltering
  else if bool_decide (s = lit "Multicast") then UserTypeMulticast
  else UserTypeUnknown.

(** [RemoveRequest.Validate]. *)
Definition valid_remove (u : UserKind) : bool := bool_decide (u ∈ ValidUserTypes).

Module PR.
Record t := mk {
  UserType : UserKind;
  TunnelSrc : IP;
  TunnelDst : IP;
  TunnelNet : option IPNet;
  DoubleZeroIP : IP;
  DoubleZeroPrefixes : list IPNet;
  MulticastSubGroups : list IP;
  MulticastPubGroups : list IP;
  MulticastRpAddress : IP;
  BgpLocalAsn : Z;
  BgpRemoteAsn : Z
}.
#[global] Instance eta : RecordEta t := {
  eta_record := fun r => mk (UserType r) (TunnelSrc r) (TunnelDst r) (TunnelNet r) (DoubleZeroIP r)
    (DoubleZeroPrefixes r) (MulticastSubGroups r) (MulticastPubGroups r) (MulticastRpAddress r) (BgpLocalAsn r)
    (BgpRemoteAsn r);
  eta_record_id := fun r => match r with mk _ _ _ _ _ _ _ _ _ _ _ => eq_refl end
}.
End PR.

(** ** Comparisons *)

(** [fmt.Sprint] of a mask is its hexadecimal form, which determines it. *)
Definition ipNetsEqual (a b : option IPNet) : bool :=
  match a, b with
  | Some a, Some b => ip_equal (net_IP a) (net_IP b) && bool_decide (net_Mask a = net_Mask b)
  | None, None => true
  | _, _ => false
  end.

(** The string of a network with a prefix mask; other masks are printed in
    hexadecimal, here as they are. *)
Definition net_str (n : IPNet) : bytes :=
  ip4_string (net_IP n) ++ lit "/" ++
  match list_find (fun k => CIDRMask (Z.of_nat k) = net_Mask n) (seq 0 33) with
  | Some (_, k) => format_uint (Z.of_nat k)
  | None => net_Mask n
  end.

Definition string_slices_equal {A} (str : A -> bytes) (a b : list A) : bool :=
  if negb (length a =? length b)%nat then false
  else forallb (fun x => bool_decide (str x ∈ str <$> a)) b.

Definition ipSlicesEqual : list IP -> list IP -> bool := string_slices_equal ip4_string.
Definition ipNetSlicesEqual : list IPNet -> list IPNet -> bool := string_slices_equal net_str.

Definition InfraEqual (p other : PR.t) : bool :=
  bool_decide (PR.UserType p = PR.UserType other) &&
  ip_equal (PR.TunnelSrc p) (PR.TunnelSrc other) && ip_equal (PR.TunnelDst p) (PR.TunnelDst other) &&
  ipNetsEqual (PR.TunnelNet p) (PR.TunnelNet other) &&
  ip_equal (PR.DoubleZeroIP p) (PR.DoubleZeroIP other) &&
  (PR.BgpLocalAsn p =? PR.BgpLocalAsn other) && (PR.BgpRemoteAsn p =? PR.BgpRemoteAsn other) &&
  ip_equal (PR.MulticastRpAddress p) (PR.MulticastRpAddress other) &&
  ipNetSlicesEqual (PR.DoubleZeroPrefixes p) (PR.DoubleZeroPrefixes other).

Definition Equal (p other : PR.t) : bool :=
  bool_decide (PR.UserType p = PR.UserType other) &&
  ip_equal (PR.TunnelSrc p) (PR.TunnelSrc other) && ip_equal (PR.TunnelDst p) (PR.TunnelDst other) &&
  ipNetsEqual (PR.TunnelNet p) (PR.TunnelNet other) &&
  ip_equal (PR.DoubleZeroIP p) (PR.DoubleZeroIP other) &&
  (PR.BgpLocalAsn p =? PR.BgpLocalAsn other) && (PR.BgpRemoteAsn p =? PR.BgpRemoteAsn other) &&
  ipSlicesEqual (PR.MulticastPubGroups p) (PR.MulticastPubGroups other) &&
  ipSlicesEqual (PR.MulticastSubGroups p) (PR.MulticastSubGroups other) &&
  ip_equal (PR.MulticastRpAddress p) (PR.MulticastRpAddress other) &&
  ipNetSlicesEqual (PR.DoubleZeroPrefixes p) (PR.DoubleZeroPrefixes other).

(** Keyed by the printed address; a later duplicate replaces the value. The
    loops over the maps give an unspecified order. *)
Definition IPSetDiff (oldIPs newIPs : list IP) : list IP * list IP :=
  let oldSet := index_by ip4_string oldIPs in
  let newSet := index_by ip4_string newIPs in
  ((map_to_list (newSet ∖ oldSet)).*2, (map_to_list (oldSet ∖ newSet)).*2).

(** Defaults, and the error for an RP address that is not IPv4; the default
    [net.IPv4(10, 0, 0, 0)] has 16 bytes. *)
Definition PR_Validate (p : PR.t) : option PR.t :=
  let p := if PR.BgpLocalAsn p =? 0 then p <| PR.BgpLocalAsn := 65000 |> else p in
  let p := if PR.BgpRemoteAsn p =? 0 then p <| PR.BgpRemoteAsn := 65001 |> else p in
  if bool_decide (PR.MulticastRpAddress p = [])
  then Some (p <| PR.MulticastRpAddress := v4InV6Prefix ++ [10; 0; 0; 0] |>)
  else if bool_decide (To4 (PR.MulticastRpAddress p) = []) then None else Some p.

(** ** Lemmas *)

Lemma string_slices_refl {A} (str : A -> bytes) a : string_slices_equal str a a = true.
Proof.
  unfold string_slices_equal. rewrite Nat.eqb_refl. cbn. apply forallb_forall. intros x Hx.
  apply bool_decide_eq_true, list_elem_of_fmap_2. by apply list_elem_of_In.
Qed.

Lemma ipNetsEqual_refl a : ipNetsEqual a a = true.
Proof. destruct a; [|done]. cbn. by rewrite ip_equal_refl, bool_decide_eq_true_2. Qed.

Lemma Equal_refl p : Equal p p = true.
Proof.
  unfold Equal, ipSlicesEqual, ipNetSlicesEqual.
  by rewrite !ip_equal_refl, ipNetsEqual_refl, !string_slices_refl, !Z.eqb_refl, bool_decide_eq_true_2.
Qed.

Lemma Equal_InfraEqual p q : Equal p q = true -> InfraEqual p q = true.
Proof. unfold Equal, InfraEqual. rewrite !andb_true_iff. tauto. Qed.

(** On lists without duplicates the comparison is equality of sets. *)
Lemma string_slices_equal_nodup {A} (str : A -> bytes) a b :
  NoDup (str <$> a) -> NoDup (str <$> b) ->
  string_slices_equal str a b = true <-> (str <$> a) ≡ₚ (str <$> b).
Proof.
  intros Ha Hb. unfold string_slices_equal. split.
  - destruct (Nat.eqb_spec (length a) (length b)) as [Hl|]; [|done]. cbn. rewrite forallb_forall. intros H.
    symmetry. apply submseteq_length_Permutation; [|rewrite !length_fmap; lia].
    apply NoDup_submseteq; [done|]. intros s (x & -> & Hx)%list_elem_of_fmap.
    apply list_elem_of_In in Hx. specialize (H x Hx). by apply bool_decide_eq_true in H.
  - intros Hp. assert (Hl : length a = length b) by (by rewrite <- (length_fmap str a), Hp, length_fmap).
    rewrite Hl, Nat.eqb_refl. cbn. apply forallb_forall. intros x Hx. apply bool_decide_eq_true.
    rewrite Hp. apply list_elem_of_fmap_2. by apply list_elem_of_In.
Qed.

Lemma ip4_string_inj x y : addr_ok x -> addr_ok y -> ip4_string x = ip4_string y -> x = y.
Proof.
  assert (H : forall z, addr_ok z -> ip4_string z = IP_String z).
  { intros z [Hl _]. unfold ip4_string, To4. rewrite decide_True by done. by destruct z. }
  intros Hx Hy. rewrite !H by done. by apply IP_String_inj.
Qed.

Lemma index_by_str l k ip : Forall addr_ok l -> index_by ip4_string l !! k = Some ip <-> ip ∈ l /\ ip4_string ip = k.
Proof.
  intros Hl. split; [apply index_by_elem|]. unfold index_by.
  induction l as [|x l IH] using rev_ind; intros [Hin Hk]; [by apply elem_of_nil in Hin|].
  apply Forall_app in Hl as [Hl [Hx _]%Forall_cons]. rewrite foldl_snoc, lookup_insert_Some.
  destruct (decide (ip4_string x = k)) as [E|E].
  - left. split; [done|]. apply elem_of_app in Hin as [Hin|Hin%list_elem_of_singleton]; [|done].
    apply ip4_string_inj; [done| |congruence]. rewrite Forall_forall in Hl. by apply Hl.
  - right. split; [done|]. apply IH; [done|]. split; [|done].
    apply elem_of_app in Hin as [Hin| ->%list_elem_of_singleton]; [done|congruence].
Qed.

(** [IPSetDiff] is the difference of sets. *)
Lemma IPSetDiff_spec old new : Forall addr_ok old -> Forall addr_ok new -> forall ip,
  (ip ∈ (IPSetDiff old new).1 <-> ip ∈ new /\ ip ∉ old) /\
  (ip ∈ (IPSetDiff old new).2 <-> ip ∈ old /\ ip ∉ new).
Proof.
  assert (H : forall a b, Forall addr_ok a -> Forall addr_ok b -> forall ip,
    ip ∈ (map_to_list (index_by ip4_string b ∖ index_by ip4_string a)).*2 <-> ip ∈ b /\ ip ∉ a).
  { intros a b Ha Hb ip. rewrite list_elem_of_fmap. split.
    - intros ([k x] & -> & Hin). cbn. apply elem_of_map_to_list, lookup_difference_Some in Hin as [Hi Hn].
      apply index_by_str in Hi as [Hi Hk]; [|done]. split; [done|]. intros Hx.
      assert (index_by ip4_string a !! k = Some x) by (by apply index_by_str). congruence.
    - intros [Hi Hn]. exists (ip4_string ip, ip). split; [done|].
      apply elem_of_map_to_list, lookup_difference_Some. split; [by apply index_by_str|].
      destruct (index_by ip4_string a !! ip4_string ip) as [y|] eqn:E; [|done].
      apply index_by_str in E as [Hy Hk]; [|done]. rewrite Forall_forall in Ha, Hb.
      apply ip4_string_inj in Hk; [by subst|by apply Ha|by apply Hb]. }
  intros Ho Hn ip. split; by apply H.
Qed.
