(* ===== verification/ClientServices.v ===== *)
(** * Client daemon: tunnel services

    Models [client/doublezerod/internal/services] (IBRL, edge filtering and
    multicast), [routing/tunnel.go], [routing/rules.go], and the parts of the
    heartbeat, register and PIM senders ([multicast/heartbeat.go],
    [pim/register.go], [pim/server.go]) that start, update and stop their
    goroutines. Netlink and the BGP server are reached through type classes. A
    computation can return, return an error, or block forever. *)

From stdpp Require Import base tactics numbers list gmap.
From Stdlib Require Import ZArith Lia ZifyBool ZifyNat.
From S2P Require Import Prelude Bytes GoStrings GoCollections Routing GoNet ClientApi.

#[local] Open Scope Z_scope.

(** ** Tunnels, rules, peers *)

Record Tun := mkTun {
  tun_Name : bytes;
  LocalUnderlay : IP;
  RemoteUnderlay : IP;
  LocalOverlay : IP;
  RemoteOverlay : IP;
  tun_MTU : Z
}.

Definition GREMTU : Z := 1476.

(** The network is printed and parsed back, which fails without a prefix mask;
    the mask must be a /31. The local side is the second address. *)
Definition NewTunnel (tunnelName : bytes) (local remote : IP) (overlayNet : option IPNet) : option Tun :=
  n ← overlayNet;
  if bool_decide (net_Mask n = [255; 255; 255; 254]) && bool_decide (To4 (net_IP n) <> []) then
    let base := zip_with Z.land (To4 (net_IP n)) (net_Mask n) in
    Some (mkTun tunnelName local remote (take 3 base ++ [u8 (byte_at base 3 + 1)]) base GREMTU)
  else None.

Record IPRule := mkIPRule { Priority : Z; rule_Table : Z; SrcNet : IPNet; DstNet : IPNet }.

Definition DzTableSpecific : Z := 100.
Definition DzTableDefault : Z := 101.

Definition NewIPRule (priority table : Z) (src dst : IPNet) : option IPRule :=
  if (priority <? 100) || (200 <? priority) then None
  else if (table <? 100) || (200 <? table) then None
  else Some (mkIPRule priority table src dst).

Record NLRI := mkNLRI { AsPath : list Z; nlri_NextHop : bytes; nlri_Prefix : bytes; PrefixLength : Z }.

Definition NewNLRI (aspath : list Z) (nexthop prefix : bytes) (prefixlen : Z) : option NLRI :=
  if 32 <? prefixlen then None else Some (mkNLRI aspath nexthop prefix prefixlen).

Record PeerConfig := mkPeerConfig {
  LocalAddress : IP;
  RemoteAddress : IP;
  LocalAs : Z;
  RemoteAs : Z;
  RouteSrc : IP;
  RouteTable : Z;
  NoUninstall : bool;
  NoInstall : bool;
  peer_Interface : bytes;
  AllowLivenessEnabled : bool
}.

(** ** The outside world *)

Inductive nl_result := NlOk | NlExists | NlErr.

#[global] Instance nl_result_eq_dec : EqDecision nl_result.
Proof. solve_decision. Defined.

(** [routing.Netlinker], besides the routes of [RouteReaderWriter]; [true] is
    no error. *)
Class Netlinker (K : Type) := {
  TunnelAdd : Tun -> K -> nl_result * K;
  TunnelDown : Tun -> K -> bool * K;
  TunnelDelete : Tun -> K -> bool * K;
  TunnelAddrAdd : Tun -> bytes -> Z -> K -> nl_result * K;
  TunnelUp : Tun -> K -> bool * K;
  RouteGet : IP -> K -> option (list Route);
  RuleAdd : IPRule -> K -> nl_result * K;
  RuleDel : IPRule -> K -> bool * K
}.

(** [BGPReaderWriter]; [NlExists] is [ErrBgpPeerExists] of [AddPeer] and
    [ErrBgpPeerNotExists] of [DeletePeer]. *)
Class BGPReaderWriter (B : Type) := {
  AddPeer : PeerConfig -> list NLRI -> B -> nl_result * B;
  DeletePeer : IP -> B -> nl_result * B
}.

(** ** Senders

    A sender runs goroutines that stop when they receive from the channel
    [done]. Each start makes a new wait group and a goroutine for it, named
    alike; [wg] is the current wait group. *)

Record sender := mkSender {
  live : list nat;
  wg : option nat;
  groups : list IP;
  next_wg : nat
}.

#[global] Instance sender_eta : RecordEta sender := {
  eta_record := fun r => mkSender (live r) (wg r) (groups r) (next_wg r);
  eta_record_id := fun r => match r with mkSender _ _ _ _ => eq_refl end
}.

Definition new_sender_state : sender := mkSender [] None [] 0.

Definition spawn (gs : list IP) (s : sender) : sender :=
  mkSender (live s ++ [next_wg s]) (Some (next_wg s)) gs (S (next_wg s)).

(** [HeartbeatSender.Start] and [RegisterSender.Start]: errors come first. *)
Definition sender_Start (ok : bool) (gs : list IP) (s : sender) : bool * sender :=
  if ok then (true, spawn gs s) else (false, s).

(** [PIMServer.Start] sets the groups before it can fail. *)
Definition pim_Start (ok : bool) (gs : list IP) (s : sender) : bool * sender :=
  if ok then (true, spawn gs s) else (false, s <| groups := gs |>).

(** Sending on [done], received by the goroutine [pick] chooses, and waiting
    for the current wait group; [None] blocks forever. *)
Definition stop_one (pick : nat) (s : sender) : option sender :=
  match live s with
  | [] => None
  | l =>
      let l' := delete (pick mod length l)%nat l in
      match wg s with
      | Some w => if bool_decide (w ∈ l') then None else Some (s <| live := l' |>)
      | None => None
      end
  end.

(** [HeartbeatSender.Close] and [RegisterSender.Close]. *)
Definition sender_Close (pick : nat) (s : sender) : option sender :=
  match wg s with
  | None => Some s
  | Some _ => s' ← stop_one pick s; Some (s' <| wg := None |>)
  end.

Definition pim_Close (pick : nat) (s : sender) : option sender := stop_one pick s.

(** [UpdateGroups] of the heartbeat and register senders never blocks; that of
    PIM hands the groups to a goroutine. *)
Definition sender_UpdateGroups (gs : list IP) (s : sender) : sender := s <| groups := gs |>.

Definition pim_UpdateGroups (gs : list IP) (s : sender) : option sender :=
  match live s with [] => None | _ => Some (s <| groups := gs |>) end.

(** ** Computations *)

Record World (K B : Type) := mkWorld {
  kernel : K;
  bgp_srv : B;
  heartbeat : sender;
  register : sender;
  pim : sender
}.
Arguments mkWorld {K B} _ _ _ _ _.
Arguments kernel {K B} _.
Arguments bgp_srv {K B} _.
Arguments heartbeat {K B} _.
Arguments register {K B} _.
Arguments pim {K B} _.

#[global] Instance World_eta K B : RecordEta (World K B) := {
  eta_record := fun r => mkWorld (kernel r) (bgp_srv r) (heartbeat r) (register r) (pim r);
  eta_record_id := fun r => match r with mkWorld _ _ _ _ _ => eq_refl end
}.

(** What the sockets do: whether each start succeeds, and which goroutine a
    stop reaches. *)
Record SockEnv := mkSockEnv {
  heartbeat_ok : bool;
  register_ok : bool;
  listen_ok : bool;
  pim_ok : bool;
  picked : nat
}.

(** [None] blocks forever; [Some (w, None)] returns an error. *)
Definition E (W A : Type) : Type := W -> option (W * option A).

#[global] Instance E_ret W : MRet (E W) := fun A a w => Some (w, Some a).
#[global] Instance E_bind W : MBind (E W) := fun A A' k m w =>
  match m w with
  | Some (w', Some a) => k a w'
  | Some (w', None) => Some (w', None)
  | None => None
  end.

Definition fail {W A} : E W A := fun w => Some (w, None).
Definition check {W} (b : bool) : E W () := if b then mret () else fail.

(** Run, and go on with whether it failed. *)
Definition attempt {W} (m : E W ()) : E W bool := fun w =>
  match m w with
  | Some (w', r) => Some (w', Some (match r with Some _ => true | None => false end))
  | None => None
  end.

(** Each element in turn, until one fails. *)
Fixpoint for_each {W A} (f : A -> E W ()) (l : list A) : E W () :=
  match l with [] => mret () | x :: l => _ ← f x; for_each f l end.

(** Each element in turn; the error of the last one is returned. *)
Fixpoint for_all_last {W A} (f : A -> E W ()) (l : list A) (err : bool) : E W bool :=
  match l with [] => mret err | x :: l => ok ← attempt (f x); for_all_last f l (negb ok) end.

Inductive ServiceType := ServiceTypeUnknown | ServiceTypeUnicast | ServiceTypeMulticast.

Definition IsUnicastUser (u : UserKind) : bool :=
  bool_decide (u ∈ [UserTypeEdgeFiltering; UserTypeIBRL; UserTypeIBRLWithAllocatedIP]).

Definition IsMulticastUser (u : UserKind) : bool := bool_decide (u = UserTypeMulticast).

Definition RT_SCOPE_UNIVERSE : Z := 0.
Definition RT_SCOPE_LINK : Z := 253.
Definition RT_TABLE_MAIN : Z := 254.
Definition RTPROT_STATIC : Z := 4.

(** ** Services *)

Module Svc.
Record t := mk {
  Kind : UserKind;
  Tunnel : option Tun;
  DoubleZeroAddr : IP;
  MulticastPubGroups : list IP;
  MulticastSubGroups : list IP;
  Routes : list Route;
  Rules : list IPRule;
  provisionReq : option PR.t
}.
#[global] Instance eta : RecordEta t := {
  eta_record := fun r => mk (Kind r) (Tunnel r) (DoubleZeroAddr r) (MulticastPubGroups r) (MulticastSubGroups r)
    (Routes r) (Rules r) (provisionReq r);
  eta_record_id := fun r => match r with mk _ _ _ _ _ _ _ _ => eq_refl end
}.
Definition new (kind : UserKind) : t := mk kind None [] [] [] [] [] None.
End Svc.

Definition svc_type (s : Svc.t) : ServiceType :=
  if bool_decide (Svc.Kind s = UserTypeMulticast) then ServiceTypeMulticast else ServiceTypeUnicast.

Section Services.
Context {K B : Type} `{!Netlinker K, !RouteReaderWriter K, !BGPReaderWriter B}.
Context (env : SockEnv).
Let W := World K B.

Definition onK {A} (f : K -> A * K) : E W A := fun w =>
  let '(a, k) := f (kernel w) in Some (w <| kernel := k |>, Some a).

Definition onB {A} (f : B -> A * B) : E W A := fun w =>
  let '(a, b) := f (bgp_srv w) in Some (w <| bgp_srv := b |>, Some a).

Definition okK (f : K -> bool * K) : E W () := b ← onK f; check b.

(** A result of a kind the caller tolerates. *)
Definition tolerate (m : E W nl_result) : E W () := r ← m; check (negb (bool_decide (r = NlErr))).

(** ** [base.go] *)

Definition createBaseTunnel (tun : Tun) : E W () :=
  if bool_decide (LocalOverlay tun = []) then fail
  else
    _ ← tolerate (onK (TunnelAdd tun));
    _ ← tolerate (onK (TunnelAddrAdd tun (IP_String (LocalOverlay tun) ++ lit "/31") RT_SCOPE_LINK));
    okK (TunnelUp tun).

Definition createTunnelWithIP (tun : Tun) (dzIp : IP) : E W () :=
  _ ← createBaseTunnel tun;
  tolerate (onK (TunnelAddrAdd tun (IP_String dzIp ++ lit "/32") RT_SCOPE_UNIVERSE)).

Definition advertise (asn : Z) (tun : Tun) (ip : IP) : E W NLRI :=
  match NewNLRI [asn] (IP_String (LocalOverlay tun)) (IP_String ip) 32 with Some n => mret n | None => fail end.

Definition new_tunnel (name : bytes) (p : PR.t) : E W Tun :=
  match NewTunnel name (PR.TunnelSrc p) (PR.TunnelDst p) (PR.TunnelNet p) with Some t => mret t | None => fail end.

Definition set_tunnel (tun : Tun) (p : PR.t) (s : Svc.t) : Svc.t :=
  s <| Svc.Tunnel := Some tun |> <| Svc.DoubleZeroAddr := PR.DoubleZeroIP p |> <| Svc.provisionReq := Some p |>.

(** [IBRLService.Setup], also that of the service with an allocated address. *)
Definition IBRL_Setup (p : PR.t) (s : Svc.t) : E W Svc.t :=
  tun ← new_tunnel (lit "doublezero0") p;
  noUninstall ← match PR.UserType p with
                | UserTypeIBRL => _ ← createBaseTunnel tun; mret false
                | UserTypeIBRLWithAllocatedIP => _ ← createTunnelWithIP tun (PR.DoubleZeroIP p); mret true
                | _ => fail
                end;
  let peer := mkPeerConfig (LocalOverlay tun) (RemoteOverlay tun) (PR.BgpLocalAsn p) (PR.BgpRemoteAsn p)
    (PR.DoubleZeroIP p) RT_TABLE_MAIN noUninstall false (lit "doublezero0") true in
  nlri ← advertise (LocalAs peer) tun (PR.DoubleZeroIP p);
  _ ← tolerate (onB (AddPeer peer [nlri]));
  mret (set_tunnel tun p s).

(** The common end of the teardowns: whether both removals succeeded. *)
Definition remove_tunnel (tun : Tun) : E W () :=
  peerOk ← attempt (tolerate (onB (DeletePeer (RemoteOverlay tun))));
  _ ← onK (TunnelDown tun);
  tunnelOk ← onK (TunnelDelete tun);
  check (tunnelOk && peerOk).

Definition IBRL_Teardown (s : Svc.t) : E W Svc.t :=
  match Svc.Tunnel s with
  | None => mret s
  | Some tun => _ ← remove_tunnel tun; mret s
  end.

(** *** Edge filtering *)

Definition default_net : IPNet := mkIPNet [0; 0; 0; 0] (CIDRMask 0).

Fixpoint edge_rules (prefixes : list IPNet) : option (list IPRule) :=
  match prefixes with
  | [] => Some []
  | prefix :: rest =>
      a ← NewIPRule 100 DzTableSpecific default_net prefix;
      b ← NewIPRule 101 DzTableDefault prefix default_net;
      l ← edge_rules rest;
      Some (a :: b :: l)
  end.

(** [routing.CreateIPRules]. *)
Definition CreateIPRules (rules : list IPRule) : E W () := for_each (fun r => tolerate (onK (RuleAdd r))) rules.

Definition createIPRules (prefixes : list IPNet) (s : Svc.t) : E W Svc.t :=
  match edge_rules prefixes with
  | None => fail
  | Some rules => _ ← CreateIPRules rules; mret (s <| Svc.Rules := rules |>)
  end.

Definition createDefaultRoutingTable (tun : Tun) (s : Svc.t) : E W Svc.t :=
  let routes := [{| Dst := default_net; Src := Svc.DoubleZeroAddr s; Table := 101; NextHop := RemoteOverlay tun; Protocol := 0 |}] in
  _ ← for_each (fun r => okK (RouteAdd r)) routes;
  mret (s <| Svc.Routes := routes |>).

Definition Edge_Setup (p : PR.t) (s : Svc.t) : E W Svc.t :=
  tun ← new_tunnel (lit "doublezero0") p;
  _ ← createTunnelWithIP tun (PR.DoubleZeroIP p);
  let s := set_tunnel tun p s in
  s ← createIPRules (PR.DoubleZeroPrefixes p) s;
  s ← createDefaultRoutingTable tun s;
  let peer := mkPeerConfig (LocalOverlay tun) (RemoteOverlay tun) (PR.BgpLocalAsn p) (PR.BgpRemoteAsn p)
    (PR.DoubleZeroIP p) 100 false false [] false in
  nlri ← advertise (LocalAs peer) tun (PR.DoubleZeroIP p);
  _ ← tolerate (onB (AddPeer peer [nlri]));
  mret s.

(** The flushes return the error of the last deletion only; without a tunnel
    their errors are dropped. The service is emptied even when the teardown
    fails, so the result is the service and whether there was no error. *)
Definition Edge_Teardown (s : Svc.t) : E W (Svc.t * bool) :=
  errRules ← for_all_last (fun r => okK (RuleDel r)) (Svc.Rules s) false;
  errRoutes ← for_all_last (fun r => okK (RouteDelete r)) (Svc.Routes s) false;
  let s := s <| Svc.Rules := [] |> <| Svc.Routes := [] |> in
  match Svc.Tunnel s with
  | None => mret (s, true)
  | Some tun => ok ← attempt (remove_tunnel tun); mret (s, ok && negb errRules && negb errRoutes)
  end.

(** *** Multicast *)

Definition containsIP (ips : list IP) (target : IP) : bool := existsb (fun ip => ip_equal ip target) ips.

Definition group_net (group : IP) : IPNet := mkIPNet (To4 group) (CIDRMask 32).

Definition group_route (tun : Tun) (src : IP) (group : IP) : Route :=
  {| Dst := group_net group; NextHop := RemoteOverlay tun; Table := RT_TABLE_MAIN; Src := src; Protocol := RTPROT_STATIC |}.

Definition add_group (tun : Tun) (src : IP) (group : IP) : E W () := okK (RouteAdd (group_route tun src group)).
Definition del_group (tun : Tun) (src : IP) (group : IP) : E W () := okK (RouteDelete (group_route tun src group)).

Definition on_heartbeat (f : sender -> bool * sender) : E W () := fun w =>
  let '(ok, s) := f (heartbeat w) in check ok (w <| heartbeat := s |>).
Definition on_register (f : sender -> bool * sender) : E W () := fun w =>
  let '(ok, s) := f (register w) in check ok (w <| register := s |>).
Definition on_pim (f : sender -> bool * sender) : E W () := fun w =>
  let '(ok, s) := f (pim w) in check ok (w <| pim := s |>).

(** Stops, which can block. *)
Definition close_heartbeat : E W () := fun w =>
  s ← sender_Close (picked env) (heartbeat w); Some (w <| heartbeat := s |>, Some ()).
Definition close_register : E W () := fun w =>
  s ← sender_Close (picked env) (register w); Some (w <| register := s |>, Some ()).
Definition close_pim : E W () := fun w =>
  s ← pim_Close (picked env) (pim w); Some (w <| pim := s |>, Some ()).

Definition isPublisher (s : Svc.t) : bool := negb (bool_decide (Svc.MulticastPubGroups s = [])).
Definition isSubscriber (s : Svc.t) : bool := negb (bool_decide (Svc.MulticastSubGroups s = [])).

Definition when_ {W'} (b : bool) (m : E W' ()) : E W' () := if b then m else mret ().

(** The groups a subscriber has its own route for. *)
Definition sub_routed (pubs subs : list IP) : list IP :=
  base.filter (fun g => containsIP pubs g = false) subs.

Definition start_pim (groups : list IP) : E W () :=
  _ ← check (listen_ok env); on_pim (pim_Start (pim_ok env) groups).

Definition Multicast_Setup (p : PR.t) (s : Svc.t) : E W Svc.t :=
  let pubs := PR.MulticastPubGroups p in
  let subs := PR.MulticastSubGroups p in
  let isPub := negb (bool_decide (pubs = [])) in
  let isSub := negb (bool_decide (subs = [])) in
  if negb isPub && negb isSub then fail
  else
    tun ← new_tunnel (lit "doublezero1") p;
    nlri ← (if isPub then
              _ ← createTunnelWithIP tun (PR.DoubleZeroIP p);
              rt ← advertise (PR.BgpLocalAsn p) tun (PR.DoubleZeroIP p);
              _ ← for_each (add_group tun (PR.DoubleZeroIP p)) pubs;
              _ ← on_heartbeat (sender_Start (heartbeat_ok env) pubs);
              _ ← on_register (sender_Start (register_ok env) pubs);
              mret [rt]
            else mret []);
    _ ← when_ isSub (
          _ ← when_ (negb isPub) (createBaseTunnel tun);
          _ ← for_each (add_group tun []) (sub_routed pubs subs);
          start_pim subs);
    let peer := mkPeerConfig (LocalOverlay tun) (RemoteOverlay tun) (PR.BgpLocalAsn p) (PR.BgpRemoteAsn p)
      [] 0 false true [] false in
    _ ← tolerate (onB (AddPeer peer nlri));
    mret (s <| Svc.Tunnel := Some tun |> <| Svc.provisionReq := Some p |>
            <| Svc.DoubleZeroAddr := if isPub then PR.DoubleZeroIP p else Svc.DoubleZeroAddr s |>
            <| Svc.MulticastPubGroups := if isPub then pubs else Svc.MulticastPubGroups s |>
            <| Svc.MulticastSubGroups := if isSub then subs else Svc.MulticastSubGroups s |>).

Definition Multicast_Teardown (s : Svc.t) : E W Svc.t :=
  match Svc.Tunnel s with
  | None => mret s
  | Some tun =>
      _ ← when_ (isPublisher s) (_ ← close_heartbeat; close_register);
      _ ← when_ (isSubscriber s) close_pim;
      _ ← remove_tunnel tun;
      mret s
  end.

(** A service that was set up has its tunnel; without one the code would
    dereference nil at the first route. *)
Definition UpdateGroups (newPR : PR.t) (s : Svc.t) : E W Svc.t :=
  let newPub := PR.MulticastPubGroups newPR in
  let newSub := PR.MulticastSubGroups newPR in
  let isPub := negb (bool_decide (newPub = [])) in
  let isSub := negb (bool_decide (newSub = [])) in
  if negb (bool_decide (isPublisher s = isPub)) then fail
  else
    match Svc.Tunnel s with
    | None => fail
    | Some tun =>
        let '(pubAdded, pubRemoved) := IPSetDiff (Svc.MulticastPubGroups s) newPub in
        let '(subAdded, subRemoved) := IPSetDiff (Svc.MulticastSubGroups s) newSub in
        let changed (a r : list IP) := negb (bool_decide (a = [] /\ r = [])) in
        let routed := if isPub then newPub else [] in
        _ ← for_each (del_group tun (Svc.DoubleZeroAddr s)) pubRemoved;
        _ ← for_each (add_group tun (Svc.DoubleZeroAddr s)) pubAdded;
        _ ← when_ (isPub && changed pubAdded pubRemoved) (
              _ ← on_heartbeat (fun h => (true, sender_UpdateGroups newPub h));
              on_register (fun r => (true, sender_UpdateGroups newPub r)));
        _ ← for_each (del_group tun []) (sub_routed routed subRemoved);
        _ ← for_each (add_group tun []) (sub_routed routed subAdded);
        _ ← when_ (isSubscriber s && negb isSub) close_pim;
        _ ← (if negb (isSubscriber s) && isSub then start_pim newSub
             else when_ (isSub && changed subAdded subRemoved) (fun w =>
                    q ← pim_UpdateGroups newSub (pim w); Some (w <| pim := q |>, Some ())));
        mret (s <| Svc.MulticastPubGroups := newPub |> <| Svc.MulticastSubGroups := newSub |>
                <| Svc.provisionReq := Some newPR |>)
    end.

(** ** The [Provisioner] interface *)

Definition CreateService (u : UserKind) : option Svc.t :=
  match u with
  | UserTypeUnknown => None
  | u => Some (Svc.new u)
  end.

Definition Setup (p : PR.t) (s : Svc.t) : E W Svc.t :=
  match Svc.Kind s with
  | UserTypeEdgeFiltering => Edge_Setup p s
  | UserTypeMulticast => Multicast_Setup p s
  | _ => IBRL_Setup p s
  end.

(** The service after the teardown, and whether it returned no error. *)
Definition Teardown (s : Svc.t) : E W (Svc.t * bool) :=
  match Svc.Kind s with
  | UserTypeEdgeFiltering => Edge_Teardown s
  | UserTypeMulticast => ok ← attempt (_ ← Multicast_Teardown s; mret ()); mret (s, ok)
  | _ => ok ← attempt (_ ← IBRL_Teardown s; mret ()); mret (s, ok)
  end.
End Services.

(** ** Reasoning about computations *)

Lemma E_bind_inv {W A A'} (m : E W A) (k : A -> E W A') w w' r :
  (m ≫= k) w = Some (w', Some r) -> exists w1 a, m w = Some (w1, Some a) /\ k a w1 = Some (w', Some r).
Proof. unfold mbind, E_bind. destruct (m w) as [[w1 [a|]]|]; [|done|done]. eauto. Qed.

Lemma check_inv {W} b (w w' : W) r : check b w = Some (w', Some r) -> b = true /\ w' = w.
Proof. destruct b; [|done]. intros [= <-]. done. Qed.

Lemma attempt_inv {W} (m : E W ()) w w' b : attempt m w = Some (w', Some b) ->
  exists r, m w = Some (w', r) /\ b = match r with Some _ => true | None => false end.
Proof. unfold attempt. destruct (m w) as [[w1 r]|]; [|done]. intros [= <- <-]. eauto. Qed.

(** Takes a successful sequence apart. *)
Ltac e_inv H :=
  repeat match type of H with
  | (_ ≫= _) _ = Some (_, Some _) =>
      let w := fresh "w" in let a := fresh "a" in let H1 := fresh "Hm" in
      apply E_bind_inv in H as (w & a & H1 & H)
  end.

Section SetupSpec.
Context {K B : Type} `{!Netlinker K, !RouteReaderWriter K, !BGPReaderWriter B}.

(** A service as it is for the request [p]: its groups are those of [p], and its
    tunnel and address those of a request from which [p] may differ only in what
    [InfraEqual] leaves out. *)
Definition same_infra (q p : PR.t) : Prop := InfraEqual q p = true.
Definition tunnel_name (u : UserKind) : bytes := match u with UserTypeMulticast => lit "doublezero1" | _ => lit "doublezero0" end.
Definition built_from (q : PR.t) (s : Svc.t) : Prop :=
  exists tun, Svc.Tunnel s = Some tun /\ NewTunnel (tunnel_name (Svc.Kind s)) (PR.TunnelSrc q) (PR.TunnelDst q) (PR.TunnelNet q) = Some tun /\
    (Svc.Kind s <> UserTypeMulticast \/ isPublisher s = true -> Svc.DoubleZeroAddr s = PR.DoubleZeroIP q).
Definition serves (s : Svc.t) (p : PR.t) : Prop :=
  Svc.provisionReq s = Some p /\
  (Svc.Kind s = UserTypeMulticast -> Svc.MulticastPubGroups s = PR.MulticastPubGroups p /\ Svc.MulticastSubGroups s = PR.MulticastSubGroups p) /\
  exists q, rtc same_infra q p /\ built_from q s.

Lemma new_tunnel_inv name p (w w' : World K B) tun : new_tunnel name p w = Some (w', Some tun) ->
  NewTunnel name (PR.TunnelSrc p) (PR.TunnelDst p) (PR.TunnelNet p) = Some tun.
Proof. unfold new_tunnel. destruct (NewTunnel _ _ _ _); [|done]. by intros [= _ <-]. Qed.

(** A service after its setup. *)
Lemma Setup_spec (env : SockEnv) p s (w w' : World K B) s' : Svc.MulticastPubGroups s = [] -> Svc.MulticastSubGroups s = [] ->
  Setup env p s w = Some (w', Some s') -> Svc.Kind s' = Svc.Kind s /\ serves s' p.
Proof.
  intros Hpub Hsub. assert (HI : Svc.Kind s <> UserTypeMulticast -> IBRL_Setup p s w = Some (w', Some s') -> Svc.Kind s' = Svc.Kind s /\ serves s' p).
  { intros Hk H. unfold IBRL_Setup in H. e_inv H. injection H as _ <-. apply new_tunnel_inv in Hm.
    unfold serves. split_and!; [done..|]. exists p. split; [done|]. eexists. split_and!; [done| |done]. cbn. by destruct (Svc.Kind s). }
  unfold Setup. destruct (Svc.Kind s) eqn:Hk; intros H; [by apply HI..| |].
  - unfold Edge_Setup in H. e_inv H. injection H as _ <-. apply new_tunnel_inv in Hm.
    match goal with Hr : createIPRules _ _ _ = _ |- _ => unfold createIPRules in Hr;
      destruct (edge_rules _); [|done]; e_inv Hr; injection Hr as _ <- end.
    match goal with Hr : createDefaultRoutingTable _ _ _ = _ |- _ => unfold createDefaultRoutingTable in Hr;
      e_inv Hr; injection Hr as _ <- end.
    unfold serves. split_and!; [done..|cbn; by rewrite Hk|]. exists p. split; [done|]. eexists. split_and!; [done| |done]. cbn. by rewrite Hk.
  - unfold Multicast_Setup in H. destruct (_ && _); [done|]. e_inv H. injection H as _ <-. apply new_tunnel_inv in Hm.
    assert (Hg : forall l l' : list IP, l' = [] -> (if negb (bool_decide (l = [])) then l else l') = l) 
      by (intros l l' ->; destruct (decide (l = [])) as [->|]; [done|by rewrite bool_decide_eq_false_2]).
    unfold serves. split_and!; [done..|cbn; by rewrite !Hg|]. exists p. split; [done|]. eexists. split_and!; [done|cbn; by rewrite Hk|].
    unfold isPublisher. cbn. rewrite Hk, Hg by done. by intros [[]| ->].
Qed.

Lemma UpdateGroups_spec (env : SockEnv) q p s (w w' : World K B) s' : serves s q -> InfraEqual q p = true ->
  UpdateGroups env p s w = Some (w', Some s') -> Svc.Kind s' = Svc.Kind s /\ serves s' p.
Proof.
  intros (_ & Hg & q0 & Hq0 & tun & Ht & Hn & Ha) Hi. unfold UpdateGroups. case_bool_decide as Hpub; [|done]. cbn [negb]. rewrite Ht.
  destruct (IPSetDiff _ _) as [pa pr], (IPSetDiff _ _) as [sa sr]. intros H. e_inv H. injection H as _ <-.
  unfold serves. split_and!; [done..|]. exists q0. split; [by eapply rtc_r|]. exists tun. split_and!; [done..|]. intros Hc. apply Ha. destruct Hc as [Hc|Hc]; [by left|right].
  unfold isPublisher in Hc at 1. cbn in Hc. by rewrite Hpub.
Qed.

Lemma attempt_total {W} (m : E W ()) w w' r : attempt m w = Some (w', r) -> exists b, r = Some b.
Proof. unfold attempt. destruct (m w) as [[w1 o]|]; [|done]. intros [= <- <-]. eauto. Qed.

Lemma for_all_last_total {W A} (f : A -> E W ()) l err w w' r : for_all_last f l err w = Some (w', r) ->
  exists b, r = Some b.
Proof.
  revert err w. induction l as [|x l IH]; intros err w; cbn; [intros [= <- <-]; eauto|].
  unfold mbind, E_bind. destruct (attempt (f x) w) as [[w1 o]|] eqn:Hx; [|done].
  apply attempt_total in Hx as [b ->]. apply IH.
Qed.

(** A teardown keeps the identity of the service. *)
Lemma Teardown_spec (env : SockEnv) s (w w' : World K B) r : Teardown env s w = Some (w', r) ->
  exists s' ok, r = Some (s', ok) /\ Svc.Kind s' = Svc.Kind s /\ forall p, serves s p -> serves s' p.
Proof.
  assert (Ha : forall m : E (World K B) (), (ok ← attempt m; mret (s, ok)) w = Some (w', r) ->
    exists s' ok, r = Some (s', ok) /\ Svc.Kind s' = Svc.Kind s /\ forall p, serves s p -> serves s' p).
  { intros m. unfold mbind, E_bind, attempt. destruct (m w) as [[w1 o]|]; [|done].
    intros [= <- <-]. eexists _, _. split_and!; done. }
  unfold Teardown. destruct (Svc.Kind s) eqn:Hk; try (intros H; by eapply Ha).
  unfold Edge_Teardown, mbind, E_bind.
  destruct (for_all_last _ (Svc.Rules s) _ w) as [[w1 o1]|] eqn:H1; [|done]. apply for_all_last_total in H1 as [b1 ->].
  destruct (for_all_last _ (Svc.Routes s) _ w1) as [[w2 o2]|] eqn:H2; [|done]. apply for_all_last_total in H2 as [b2 ->].
  cbn [Svc.Tunnel set_field]. destruct (Svc.Tunnel s) eqn:Ht.
  - destruct (attempt _ w2) as [[w3 o3]|] eqn:H3; [|done]. apply attempt_total in H3 as [b3 ->]. intros [= <- <-].
    eexists _, _. split_and!; [done|done|]. intros p Hp. unfold serves, built_from in *. cbn. by rewrite Ht in Hp.
  - intros [= <- <-]. eexists _, _. split_and!; [done|done|]. intros p Hp. unfold serves, built_from in *. cbn. by rewrite Ht in Hp.
Qed.
End SetupSpec.

(** ** Routes to the groups

    What the daemon relies on of [netlink.RouteReplace] and [netlink.RouteDel]
    on the host routes of groups in the main table. *)
Class GroupRoutes (K : Type) `{!RouteReaderWriter K} := {
  has_route : K -> IPNet -> Prop;
  has_route_add : forall r k k', RouteAdd r k = (true, k') -> forall d, has_route k' d <-> d = Dst r \/ has_route k d;
  has_route_del : forall r k k', RouteDelete r k = (true, k') -> forall d, has_route k' d <-> d <> Dst r /\ has_route k d
}.

Section GroupRoutes.
Context {K B : Type} `{!Netlinker K, !RouteReaderWriter K, !BGPReaderWriter B, !GroupRoutes K}.
Context (env : SockEnv).

Lemma okK_inv (f : K -> bool * K) (w w' : World K B) r : okK f w = Some (w', Some r) -> f (kernel w) = (true, kernel w').
Proof.
  unfold okK, mbind, E_bind, onK. destruct (f (kernel w)) as [[] k]; [|done]. intros [= <-]. done.
Qed.

Lemma for_each_add tun src gs (w w' : World K B) r : for_each (add_group tun src) gs w = Some (w', Some r) ->
  forall d, has_route (kernel w') d <-> d ∈ group_net <$> gs \/ has_route (kernel w) d.
Proof.
  revert w. induction gs as [|g gs IH]; intros w; cbn [for_each].
  - intros [= <-] d. cbn. rewrite elem_of_nil. tauto.
  - intros H d. e_inv H. apply okK_inv in Hm. rewrite (IH _ H d), (has_route_add _ _ _ Hm d). cbn.
    rewrite elem_of_cons. tauto.
Qed.

Lemma for_each_del tun src gs (w w' : World K B) r : for_each (del_group tun src) gs w = Some (w', Some r) ->
  forall d, has_route (kernel w') d <-> (d ∉ group_net <$> gs) /\ has_route (kernel w) d.
Proof.
  revert w. induction gs as [|g gs IH]; intros w; cbn [for_each].
  - intros [= <-] d. cbn. rewrite elem_of_nil. tauto.
  - intros H d. e_inv H. apply okK_inv in Hm. rewrite (IH _ H d), (has_route_del _ _ _ Hm d). cbn.
    rewrite elem_of_cons. tauto.
Qed.

(** Computations that leave the kernel alone. *)
Definition off_kernel (m : E (World K B) ()) : Prop := forall w w' r, m w = Some (w', Some r) -> kernel w' = kernel w.

Lemma off_heartbeat f : off_kernel (on_heartbeat f).
Proof. intros w w' r. unfold on_heartbeat. destruct (f _) as [[] s]; intros [= <-]; done. Qed.
Lemma off_register f : off_kernel (on_register f).
Proof. intros w w' r. unfold on_register. destruct (f _) as [[] s]; intros [= <-]; done. Qed.
Lemma off_pim f : off_kernel (on_pim f).
Proof. intros w w' r. unfold on_pim. destruct (f _) as [[] s]; intros [= <-]; done. Qed.
Lemma off_close_pim : off_kernel (close_pim env).
Proof. intros w w' r. unfold close_pim. destruct (pim_Close _ _); intros [= <-]; done. Qed.
Lemma off_seq m k : off_kernel m -> off_kernel k -> off_kernel (_ ← m; k).
Proof. intros Hm Hk w w' r H. e_inv H. by rewrite (Hk _ _ _ H), (Hm _ _ _ Hm0). Qed.
Lemma off_when b m : off_kernel m -> off_kernel (when_ b m).
Proof. intros Hm w w' r. destruct b; [apply Hm|]. by intros [= <-]. Qed.
Lemma off_start_pim gs : off_kernel (start_pim env gs).
Proof. apply off_seq; [|apply off_pim]. intros w w' r [_ ->]%check_inv. done. Qed.
Lemma off_update_pim gs : off_kernel (fun w => q ← pim_UpdateGroups gs (pim w); Some (w <| pim := q |>, Some ())).
Proof. intros w w' r. destruct (pim_UpdateGroups _ _); intros [= <-]; done. Qed.

Lemma group_net_inj a b : addr_ok a -> addr_ok b -> group_net a = group_net b -> a = b.
Proof. intros [Ha _] [Hb _]. unfold group_net, To4. rewrite !decide_True by done. intros E. by injection E. Qed.

Lemma group_nets g l : addr_ok g -> Forall addr_ok l -> group_net g ∈ group_net <$> l <-> g ∈ l.
Proof.
  intros Hg Hl. rewrite list_elem_of_fmap. split; [|by eauto].
  intros (x & E & Hx). rewrite Forall_forall in Hl. by rewrite (group_net_inj g x Hg (Hl x Hx) E).
Qed.

Lemma containsIP_spec l g : Forall addr_ok l -> addr_ok g -> containsIP l g = true <-> g ∈ l.
Proof.
  intros Hl Hg. unfold containsIP. rewrite existsb_exists. split.
  - intros (x & Hx & E). apply list_elem_of_In in Hx. rewrite Forall_forall in Hl.
    destruct (Hl x Hx), Hg. by rewrite <- (ip_equal_v4 x g).
  - intros Hin. exists g. split; [by apply list_elem_of_In|apply ip_equal_refl].
Qed.

Lemma elem_sub_routed pubs subs g : Forall addr_ok pubs -> addr_ok g -> g ∈ sub_routed pubs subs <-> g ∈ subs /\ g ∉ pubs.
Proof.
  intros Hp Hg. unfold sub_routed. rewrite list_elem_of_filter, <- (containsIP_spec pubs g) by done.
  destruct (containsIP pubs g); intuition congruence.
Qed.

Definition svc_groups_ok (s : Svc.t) : Prop :=
  Forall addr_ok (Svc.MulticastPubGroups s) /\ Forall addr_ok (Svc.MulticastSubGroups s).

Definition pr_groups_ok (p : PR.t) : Prop :=
  Forall addr_ok (PR.MulticastPubGroups p) /\ Forall addr_ok (PR.MulticastSubGroups p).

Lemma nonempty_or_nil {A} (l : list A) : (if negb (bool_decide (l = [])) then l else []) = l.
Proof. case_bool_decide; by subst. Qed.

Lemma Forall_of_elem (l l' : list IP) : Forall addr_ok l' -> (forall x, x ∈ l -> x ∈ l') -> Forall addr_ok l.
Proof. rewrite !Forall_forall. auto. Qed.

(** A setup installs a route to every group it was given. *)
Lemma Multicast_Setup_routes p s (w w' : World K B) s' : pr_groups_ok p ->
  Multicast_Setup env p s w = Some (w', Some s') ->
  forall g, g ∈ PR.MulticastPubGroups p ++ PR.MulticastSubGroups p -> has_route (kernel w') (group_net g).
Proof.
  intros [Hpub Hsub]. unfold Multicast_Setup. set (pubs := PR.MulticastPubGroups p) in *.
  set (subs := PR.MulticastSubGroups p) in *. destruct (_ && _); [done|]. intros H. e_inv H. injection H as <- _.
  intros g Hg.
  assert (Hok : addr_ok g).
  { rewrite Forall_forall in Hpub, Hsub. apply elem_of_app in Hg as [?|?]; auto. }
  assert (Hb : forall (f : B -> nl_result * B) (v v' : World K B) r, tolerate (onB f) v = Some (v', Some r) -> kernel v' = kernel v).
  { intros f v v' r. unfold tolerate, mbind, E_bind, onB. destruct (f _) as [x b]. by intros [_ ->]%check_inv. }
  apply Hb in Hm2. rewrite Hm2. clear Hm2 Hb Hm.
  assert (Hp : g ∈ pubs -> has_route (kernel w1) (group_net g)).
  { intros Hin. destruct (bool_decide (pubs = [])) eqn:Hemp.
    { apply bool_decide_eq_true in Hemp. rewrite Hemp in Hin. by apply elem_of_nil in Hin. }
    cbn [negb] in Hm0. e_inv Hm0. injection Hm0 as <- _.
    rewrite (off_register _ _ _ _ Hm5), (off_heartbeat _ _ _ _ Hm4), (for_each_add _ _ _ _ _ _ Hm3).
    left. by apply list_elem_of_fmap_2. }
  unfold when_ in Hm1. destruct (bool_decide (subs = [])) eqn:Hemp; cbn [negb] in Hm1.
  { injection Hm1 as <- _. apply bool_decide_eq_true in Hemp. rewrite Hemp, app_nil_r in Hg. auto. }
  e_inv Hm1. rewrite (off_start_pim _ _ _ _ Hm1), (for_each_add _ _ _ _ _ _ Hm2), group_nets, elem_sub_routed;
    [|done..|eapply Forall_of_elem; [exact Hsub|]; intros x [_ Hx]%list_elem_of_filter; done].
  destruct (decide (g ∈ pubs)) as [Hin|Hin]; cycle 1.
  { left. apply elem_of_app in Hg as [?|?]; done. }
  right. destruct (bool_decide (pubs = [])) eqn:Hpe; cbn [negb] in Hm.
  - apply bool_decide_eq_true in Hpe. rewrite Hpe in Hin. by apply elem_of_nil in Hin.
  - injection Hm as <-. auto.
Qed.

(** A successful [UpdateGroups] leaves the service with the new groups
    and, if every old group had a route, a route to each new group, except to
    one that was published and subscribed and stays only subscribed: its route
    is deleted with the publisher's and not put back. *)
Theorem UpdateGroups_routes p s (w w' : World K B) s' :
  svc_groups_ok s -> pr_groups_ok p ->
  (forall g, g ∈ Svc.MulticastPubGroups s ++ Svc.MulticastSubGroups s -> has_route (kernel w) (group_net g)) ->
  UpdateGroups env p s w = Some (w', Some s') ->
  Svc.MulticastPubGroups s' = PR.MulticastPubGroups p /\ Svc.MulticastSubGroups s' = PR.MulticastSubGroups p /\
  forall g, g ∈ PR.MulticastPubGroups p ++ PR.MulticastSubGroups p ->
    has_route (kernel w') (group_net g) <->
    ~ (g ∈ Svc.MulticastPubGroups s /\ (g ∉ PR.MulticastPubGroups p) /\ g ∈ Svc.MulticastSubGroups s).
Proof.
  intros [Hop Hos] [Hnp Hns] Hold. unfold UpdateGroups. destruct (negb _); [done|].
  destruct (Svc.Tunnel s) as [tun|]; [|done]. rewrite nonempty_or_nil.
  pose proof (IPSetDiff_spec _ _ Hop Hnp) as Hdp. pose proof (IPSetDiff_spec _ _ Hos Hns) as Hds.
  destruct (IPSetDiff (Svc.MulticastPubGroups s) _) as [pa pr], (IPSetDiff (Svc.MulticastSubGroups s) _) as [sa sr].
  cbn [fst snd] in *. intros H. e_inv H. injection H as <- <-. split_and!; [done|done|]. intros g Hg.
  assert (Hok : addr_ok g). { rewrite Forall_forall in Hnp, Hns. apply elem_of_app in Hg as [?|?]; auto. }
  assert (Hk7 : kernel w6 = kernel w5).
  { destruct (_ && _) in Hm5; [by eapply off_start_pim|by eapply (off_when _ _ (off_update_pim _))]. }
  apply (off_when _ _ off_close_pim) in Hm4. rewrite Hk7, Hm4.
  apply (off_when _ _ (off_seq _ _ (off_heartbeat _) (off_register _))) in Hm1.
  rewrite (for_each_add _ _ _ _ _ _ Hm3), (for_each_del _ _ _ _ _ _ Hm2), Hm1, (for_each_add _ _ _ _ _ _ Hm0),
    (for_each_del _ _ _ _ _ _ Hm).
  destruct (Hdp g) as [Hpa Hpr], (Hds g) as [Hsa Hsr].
  assert (Fpa : Forall addr_ok pa) by (eapply Forall_of_elem; [exact Hnp|]; intros x Hx; by apply Hdp in Hx as [? _]).
  assert (Fpr : Forall addr_ok pr) by (eapply Forall_of_elem; [exact Hop|]; intros x Hx; by apply Hdp in Hx as [? _]).
  assert (Fsa : Forall addr_ok (sub_routed (PR.MulticastPubGroups p) sa)).
  { eapply Forall_of_elem; [exact Hns|]. intros x [_ Hx]%list_elem_of_filter. by apply Hds in Hx as [? _]. }
  assert (Fsr : Forall addr_ok (sub_routed (PR.MulticastPubGroups p) sr)).
  { eapply Forall_of_elem; [exact Hos|]. intros x [_ Hx]%list_elem_of_filter. by apply Hds in Hx as [? _]. }
  rewrite !group_nets, !elem_sub_routed, Hpa, Hpr, Hsa, Hsr by done.
  specialize (Hold g). rewrite elem_of_app in Hold, Hg. clear - Hold Hg.
  destruct (decide (g ∈ Svc.MulticastPubGroups s)), (decide (g ∈ PR.MulticastPubGroups p)),
    (decide (g ∈ Svc.MulticastSubGroups s)), (decide (g ∈ PR.MulticastSubGroups p)); tauto.
Qed.
End GroupRoutes.

(** ** A small kernel

    Host routes, and whether the tunnel interface still exists; peers are
    always accepted. *)
Module Sim.
Record kernel := mkKernel { sim_routes : list Route; sim_link : bool }.

#[global] Instance routes : RouteReaderWriter kernel := {
  RouteAdd r k := (true, mkKernel (r :: base.filter (fun x => Dst x <> Dst r) (sim_routes k)) (sim_link k));
  RouteDelete r k :=
    (existsb (fun x => bool_decide (Dst x = Dst r)) (sim_routes k),
     mkKernel (base.filter (fun x => Dst x <> Dst r) (sim_routes k)) (sim_link k));
  RouteByProtocol p k := base.filter (fun x => Protocol x = p) (sim_routes k)
}.

#[global] Instance links : Netlinker kernel := {
  TunnelAdd _ k := (if sim_link k then NlExists else NlOk, mkKernel (sim_routes k) true);
  TunnelDown _ k := (sim_link k, k);
  TunnelDelete _ k := (sim_link k, mkKernel (sim_routes k) false);
  TunnelAddrAdd _ _ _ k := (NlOk, k);
  TunnelUp _ k := (sim_link k, k);
  RouteGet dst k := Some [mkRoute (mkIPNet dst (CIDRMask 32)) [192; 0; 2; 1] 0 [] 0];
  RuleAdd _ k := (NlOk, k);
  RuleDel _ k := (true, k)
}.

#[global] Instance peers : BGPReaderWriter () := {
  AddPeer _ _ b := (NlOk, b);
  DeletePeer _ b := (NlOk, b)
}.

Lemma elem_dst_filter (r : Route) (l : list Route) (d : IPNet) :
  d ∈ Dst <$> base.filter (fun x => Dst x <> Dst r) l <-> d <> Dst r /\ d ∈ Dst <$> l.
Proof.
  rewrite !list_elem_of_fmap. split.
  - intros (x & -> & [Hx Hin]%list_elem_of_filter). split; [done|by exists x].
  - intros [Hd (x & -> & Hin)]. exists x. split; [done|]. by apply list_elem_of_filter.
Qed.

#[global] Instance group_routes : GroupRoutes kernel.
Proof.
  refine {| has_route k d := d ∈ Dst <$> sim_routes k |}.
  - intros r k k' [= <-] d. cbn [sim_routes fmap list_fmap]. rewrite elem_of_cons, elem_dst_filter.
    destruct (decide (d = Dst r)); tauto.
  - intros r k k' [= _ <-] d. cbn [sim_routes]. apply elem_dst_filter.
Defined.

Lemma routed (k : kernel) d : bool_decide (d ∈ Dst <$> sim_routes k) = true -> has_route k d.
Proof. apply bool_decide_eq_true. Qed.

Definition sockets : SockEnv := mkSockEnv true true true true 0.
Definition world : World kernel () :=
  mkWorld (mkKernel [] false) () new_sender_state new_sender_state new_sender_state.

Definition request (pubs subs : list IP) : PR.t :=
  PR.mk UserTypeMulticast [192; 0; 2; 1] [198; 51; 100; 1] (Some (mkIPNet [169; 254; 0; 0] [255; 255; 255; 254]))
    [203; 0; 113; 7] [] subs pubs [10; 0; 0; 0] 65000 65001.

Definition g1 : IP := [233; 84; 178; 1].
Definition g2 : IP := [233; 84; 178; 2].

(** A service that publishes [g1] and [g2] and subscribes to [g1], set up. *)
Definition provisioned : option (World kernel () * Svc.t) :=
  match Setup sockets (request [g1; g2] [g1]) (Svc.new UserTypeMulticast) world with
  | Some (w, Some s) => Some (w, s)
  | _ => None
  end.
End Sim.

(** Leaving [g1] as a publisher while still subscribed to it loses its route. *)
Lemma UpdateGroups_routes_witness : exists w s w' s', Sim.provisioned = Some (w, s) /\
  UpdateGroups Sim.sockets (Sim.request [Sim.g2] [Sim.g1]) s w = Some (w', Some s') /\
  Svc.MulticastSubGroups s' = [Sim.g1] /\ ~ has_route (kernel w') (group_net Sim.g1) /\
  has_route (kernel w') (group_net Sim.g2).
Proof.
  destruct Sim.provisioned as [[w s]|] eqn:Hp; [|by vm_compute in Hp].
  destruct (UpdateGroups Sim.sockets (Sim.request [Sim.g2] [Sim.g1]) s w) as [[w' [s'|]]|] eqn:Hu;
    vm_compute in Hp; injection Hp as <- <-; [|by vm_compute in Hu..].
  match type of Hu with UpdateGroups _ _ ?s0 ?w0 = _ => exists w0, s0, w', s' end.
  edestruct (UpdateGroups_routes (K := Sim.kernel) (B := ()) Sim.sockets) as (_ & Hsub & Hr); [| | |exact Hu|].
  1-2: split; repeat constructor; by vm_compute.
  { intros g Hg. cbn [app Svc.MulticastPubGroups Svc.MulticastSubGroups] in Hg.
    do 3 (apply elem_of_cons in Hg as [->|Hg]; [apply Sim.routed; vm_compute; reflexivity|]).
    exfalso. exact (not_elem_of_nil g Hg). }
  split; [by vm_compute|]. split; [exact Hu|]. split; [exact Hsub|]. split.
  - rewrite Hr; [|right; left]. intros Hn. apply Hn. split_and!; by apply (bool_decide_unpack _); vm_compute.
  - rewrite Hr; [|left]. intros (_ & Hn & _). apply Hn. by left.
Defined.
