(* ===== verification/ClientManager.v ===== *)
(** * Client daemon: the manager and its reconciler

    Models [client/doublezerod/internal/manager/manager.go]: provisioning and
    removal of the unicast and the multicast service, and the reconciler that
    brings them in line with the on-chain users of this client. *)

From stdpp Require Import base tactics numbers list gmap.
From Stdlib Require Import ZArith Lia ZifyBool ZifyNat.
From S2P Require Import Prelude Bytes GoStrings GoCollections Routing GoNet ByteReader Accounts Deserialize ProgramData.
From S2P Require Import ClientApi ClientServices.

#[local] Open Scope Z_scope.

Record NetlinkManager := mkNetlinkManager {
  UnicastService : option Svc.t;
  MulticastService : option Svc.t;
  clientIP : IP;
  enabled : bool;
  enableCh : option bool;
  tunnelSrcCache : gmap bytes IP
}.

#[global] Instance NetlinkManager_eta : RecordEta NetlinkManager := {
  eta_record := fun r => mkNetlinkManager (UnicastService r) (MulticastService r) (clientIP r) (enabled r)
    (enableCh r) (tunnelSrcCache r);
  eta_record_id := fun r => match r with mkNetlinkManager _ _ _ _ _ _ => eq_refl end
}.

Definition NewNetlinkManager (ip : IP) (on : bool) : NetlinkManager := mkNetlinkManager None None ip on None ∅.

(** The slot of a service type. *)
Definition service_of (t : ServiceType) (n : NetlinkManager) : option Svc.t :=
  match t with
  | ServiceTypeUnicast => UnicastService n
  | ServiceTypeMulticast => MulticastService n
  | ServiceTypeUnknown => None
  end.

Definition set_service (t : ServiceType) (s : option Svc.t) (n : NetlinkManager) : NetlinkManager :=
  match t with
  | ServiceTypeUnicast => n <| UnicastService := s |>
  | ServiceTypeMulticast => n <| MulticastService := s |>
  | ServiceTypeUnknown => n
  end.

(** ** Users *)

Definition mapUserType (ut : Z) : UserKind :=
  if ut =? 0 then UserTypeIBRL
  else if ut =? 1 then UserTypeIBRLWithAllocatedIP
  else if ut =? 2 then UserTypeEdgeFiltering
  else if ut =? 3 then UserTypeMulticast
  else UserTypeUnknown.

Definition parseOnchainNet (raw : bytes) : option IPNet :=
  if 32 <? byte_at raw 4 then None
  else let mask := CIDRMask (byte_at raw 4) in Some (mkIPNet (zip_with Z.land (take 4 raw) mask) mask).

(** The activated users of this client with a known type, in order. *)
Definition matches_client (ip : IP) (u : User.t) : bool :=
  ip_equal (User.ClientIp u) ip && (User.Status u =? 1) && negb (bool_decide (mapUserType (User.UserType u) = UserTypeUnknown)).

Definition want (p : UserKind -> bool) (ip : IP) (users : list User.t) : option User.t :=
  head (base.filter (fun u => matches_client ip u = true /\ p (mapUserType (User.UserType u)) = true) users).

Definition all_prefixes (devices : list Device.t) : list IPNet :=
  devices ≫= fun d => omap parseOnchainNet (Device.DzPrefixes d).

Section Manager.
Context {K B : Type} `{!Netlinker K, !RouteReaderWriter K, !BGPReaderWriter B}.
Context (env : SockEnv).
Let W := World K B.

(** ** Provisioning

    The result is the manager, and whether there was no error. *)

Definition provisionLocked (pr : PR.t) (n : NetlinkManager) : E W (NetlinkManager * bool) :=
  match CreateService (PR.UserType pr) with
  | None => mret (n, false)
  | Some svc =>
      let t := svc_type svc in
      if bool_decide (is_Some (service_of t n)) then mret (n, false)
      else fun w =>
        match Setup env pr svc w with
        | None => None
        | Some (w', None) => Some (w', Some (n, false))
        | Some (w', Some svc') => Some (w', Some (set_service t (Some svc') n, true))
        end
  end.

(** The teardown of one slot; a failed one keeps the service. *)
Definition remove_slot (t : ServiceType) (n : NetlinkManager) : E W (NetlinkManager * bool) :=
  match service_of t n with
  | None => mret (n, true)
  | Some svc =>
      r ← Teardown env svc;
      mret (if (r.2 : bool) then (set_service t None n, true) else (set_service t (Some r.1) n, false))
  end.

Definition removeLocked (u : UserKind) (n : NetlinkManager) : E W (NetlinkManager * bool) :=
  match UnicastService n, MulticastService n with
  | None, None => mret (n, true)
  | _, _ =>
      if negb (IsUnicastUser u) && negb (IsMulticastUser u) then mret (n, false)
      else
        r ← (if IsUnicastUser u then remove_slot ServiceTypeUnicast n else mret (n, true));
        if negb r.2 then mret r
        else if IsMulticastUser u then remove_slot ServiceTypeMulticast r.1 else mret r
  end.

Definition Reprovision (u : UserKind) (pr : PR.t) (n : NetlinkManager) : E W (NetlinkManager * bool) :=
  r ← removeLocked u n;
  if negb r.2 then mret r else provisionLocked pr r.1.

(** [Close] tears both services down and keeps them. *)
Definition Close (n : NetlinkManager) : E W bool :=
  a ← match UnicastService n with None => mret true | Some s => r ← Teardown env s; mret r.2 end;
  b ← match MulticastService n with None => mret true | Some s => r ← Teardown env s; mret r.2 end;
  mret (a && b).

Definition GetProvisionedServices (n : NetlinkManager) : list PR.t :=
  omap (fun o => s ← o; Svc.provisionReq s) [UnicastService n; MulticastService n].

(** ** Provision requests *)

(** The first exact route with a source, else the first source. *)
Definition ResolveTunnelSrc (dst : IP) (k : K) : option IP :=
  routes ← RouteGet dst k;
  let with_src := base.filter (fun r => Src r <> []) routes in
  match list_find (fun r => ip_equal (net_IP (Dst r)) dst = true) with_src with
  | Some (_, r) => Some (Src r)
  | None => Src <$> head with_src
  end.

(** The tunnel source, and the cache of resolved ones. *)
Definition tunnel_src (u : User.t) (dst : IP) (n : NetlinkManager) (k : K) : IP * NetlinkManager :=
  if (User.UserType u =? 1) || (User.UserType u =? 3) then
    match tunnelSrcCache n !! ip4_string dst with
    | Some cached => (cached, n)
    | None =>
        match ResolveTunnelSrc dst k with
        | Some resolved => (resolved, n <| tunnelSrcCache := <[ip4_string dst := resolved]> (tunnelSrcCache n) |>)
        | None => (clientIP n, n)
        end
    end
  else (clientIP n, n).

Definition group_addrs (groups : gmap bytes MulticastGroup.t) (keys : list bytes) : list IP :=
  omap (fun g => MulticastGroup.MulticastIp <$> groups !! g) keys.

Definition tunnel_dst (u : User.t) (device : Device.t) : IP :=
  if ip_equal (User.TunnelEndpoint u) [0; 0; 0; 0] || IsUnspecified (User.TunnelEndpoint u)
  then Device.PublicIp device else User.TunnelEndpoint u.

Definition buildProvisionRequest (u : User.t) (data : ProgramData.t) (cfg : GlobalConfig.t) (n : NetlinkManager) (k : K) :
    option PR.t * NetlinkManager :=
  match index_by Device.PubKey (ProgramData.Devices data) !! User.DevicePubKey u with
  | None => (None, n)
  | Some device =>
      match parseOnchainNet (User.TunnelNet u) with
      | None => (None, n)
      | Some tunnelNet =>
          let tunnelDst := tunnel_dst u device in
          let '(tunnelSrc, n) := tunnel_src u tunnelDst n k in
          let mcast := index_by MulticastGroup.PubKey (ProgramData.MulticastGroups data) in
          (PR_Validate (PR.mk (mapUserType (User.UserType u)) tunnelSrc tunnelDst (Some tunnelNet) (User.DzIp u)
             (all_prefixes (ProgramData.Devices data)) (group_addrs mcast (User.Subscribers u))
             (group_addrs mcast (User.Publishers u)) [] (GlobalConfig.LocalASN cfg) (GlobalConfig.RemoteASN cfg)), n)
      end
  end.

(** ** Reconciliation *)

(** Only the multicast service is a [GroupUpdater]. *)
Definition try_update (pr : PR.t) (t : ServiceType) (n : NetlinkManager) : E W (option NetlinkManager) :=
  match service_of t n with
  | Some svc =>
      match Svc.provisionReq svc, svc_type svc with
      | Some cur, ServiceTypeMulticast =>
          if InfraEqual cur pr then fun w =>
            match UpdateGroups env pr svc w with
            | None => None
            | Some (w', None) => Some (w', Some None)
            | Some (w', Some svc') => Some (w', Some (Some (set_service t (Some svc') n)))
            end
          else mret None
      | _, _ => mret None
      end
  | None => mret None
  end.

(** [removeAsType] of the two calls. *)
Definition remove_as (t : ServiceType) : UserKind :=
  match t with ServiceTypeMulticast => UserTypeMulticast | _ => UserTypeIBRL end.

(** The result is the manager, and whether no error was logged. *)
Definition reconcileService (wanted : option User.t) (t : ServiceType) (data : ProgramData.t) (cfg : GlobalConfig.t)
    (n : NetlinkManager) : E W (NetlinkManager * bool) := fun w =>
  match wanted with
  | Some u =>
      match buildProvisionRequest u data cfg n (kernel w) with
      | (None, n) => Some (w, Some (n, false))
      | (Some pr, n) =>
          match service_of t n with
          | None => provisionLocked pr n w
          | Some svc =>
              if match Svc.provisionReq svc with Some cur => Equal cur pr | None => false end
              then Some (w, Some (n, true))
              else match try_update pr t n w with
                   | None => None
                   | Some (w, Some (Some n)) => Some (w, Some (n, true))
                   | Some (w, _) => Reprovision (remove_as t) pr n w
                   end
          end
      end
  | None =>
      match service_of t n with
      | None => Some (w, Some (n, true))
      | Some _ => removeLocked (remove_as t) n w
      end
  end.

(** [reconcile] on the result of the fetch, with the global configuration it
    dereferences. *)
Definition reconcile (data : option (ProgramData.t * GlobalConfig.t)) (n : NetlinkManager) : E W (NetlinkManager * bool) :=
  match data with
  | None => mret (n, false)
  | Some (data, cfg) =>
      let users := ProgramData.Users data in
      a ← reconcileService (want IsUnicastUser (clientIP n) users) ServiceTypeUnicast data cfg n;
      b ← reconcileService (want IsMulticastUser (clientIP n) users) ServiceTypeMulticast data cfg a.1;
      mret (b.1, a.2 && b.2)
  end.

Definition reconcilerTeardown (n : NetlinkManager) : E W NetlinkManager :=
  a ← match UnicastService n with None => mret (n, true) | Some _ => removeLocked UserTypeIBRL n end;
  b ← match MulticastService a.1 with None => mret a | Some _ => removeLocked UserTypeMulticast a.1 end;
  mret (b.1 <| tunnelSrcCache := ∅ |>).

(** ** Enabling

    [SetEnabled], up to a send that blocks when another caller has filled the
    channel meanwhile. *)
Definition SetEnabled (on : bool) (n : NetlinkManager) : NetlinkManager :=
  if bool_decide (enabled n = on) then n else n <| enableCh := Some on |>.

(** The cases of the loop of [StartReconciler]. *)
Inductive loop_event := Tick | Signal.

Definition loop_step (ev : loop_event) (data : option (ProgramData.t * GlobalConfig.t)) (n : NetlinkManager) :
    E W NetlinkManager :=
  match ev with
  | Tick => if enabled n then r ← reconcile data n; mret r.1 else mret n
  | Signal =>
      match enableCh n with
      | None => mret n
      | Some on =>
          let n := n <| enableCh := None |> <| enabled := on |> in
          if on then r ← reconcile data n; mret r.1 else reconcilerTeardown n
      end
  end.
End Manager.

(** ** Invariant

    A slot holds a service of its type that was set up for the request it
    remembers. *)

Definition kind_type (u : UserKind) : ServiceType :=
  if IsUnicastUser u then ServiceTypeUnicast else if IsMulticastUser u then ServiceTypeMulticast else ServiceTypeUnknown.

Definition slot_ok (t : ServiceType) (o : option Svc.t) : Prop :=
  match o with
  | None => True
  | Some s => kind_type (Svc.Kind s) = t /\ exists p, serves s p /\ PR.UserType p = Svc.Kind s
  end.

Definition manager_ok (n : NetlinkManager) : Prop :=
  slot_ok ServiceTypeUnicast (UnicastService n) /\ slot_ok ServiceTypeMulticast (MulticastService n).

#[global] Instance ServiceType_eq_dec : EqDecision ServiceType.
Proof. solve_decision. Defined.

Lemma service_set t t' o n : t <> ServiceTypeUnknown ->
  service_of t' (set_service t o n) = if decide (t' = t) then o else service_of t' n.
Proof. by destruct t, t'. Qed.

Lemma set_service_id t n : set_service t (service_of t n) n = n.
Proof. by destruct n, t. Qed.

Lemma set_service_set t o o' n : set_service t o (set_service t o' n) = set_service t o n.
Proof. by destruct t. Qed.

Lemma manager_ok_set t o n : manager_ok n -> slot_ok t o -> manager_ok (set_service t o n).
Proof. intros [Hu Hm] Ho. by destruct t. Qed.

Lemma manager_ok_slot t n : manager_ok n -> slot_ok t (service_of t n).
Proof. intros [Hu Hm]. by destruct t. Qed.

(** The parts of the manager no service operation touches; the cache of tunnel
    sources only grows. *)
Definition same_config (n n' : NetlinkManager) : Prop :=
  clientIP n' = clientIP n /\ enabled n' = enabled n /\ enableCh n' = enableCh n /\ tunnelSrcCache n ⊆ tunnelSrcCache n'.

#[global] Instance same_config_preorder : PreOrder same_config.
Proof.
  split; [by intros n; split_and!|]. intros a b c (H1&H2&H3&H4) (K1&K2&K3&K4).
  split_and!; [congruence..|by etrans].
Qed.

Lemma same_config_set t o n : same_config n (set_service t o n).
Proof. by destruct t; split_and!. Qed.

Lemma svc_type_new u : u <> UserTypeUnknown -> svc_type (Svc.new u) = kind_type u.
Proof. by destruct u. Qed.

(** What a removal of the services of a type returns. *)
Definition removed (t : ServiceType) (n : NetlinkManager) (r : option (NetlinkManager * bool)) : Prop :=
  exists o ok, r = Some (set_service t o n, ok) /\ (ok = true -> t = ServiceTypeUnknown \/ o = None) /\
    (slot_ok t (service_of t n) -> slot_ok t o).

Section ManagerFacts.
Context {K B : Type} `{!Netlinker K, !RouteReaderWriter K, !BGPReaderWriter B}.
Context (env : SockEnv).

Lemma provisionLocked_spec pr n (w w' : World K B) r : provisionLocked env pr n w = Some (w', r) ->
  r = Some (n, false) \/
  exists s, kind_type (PR.UserType pr) <> ServiceTypeUnknown /\ service_of (kind_type (PR.UserType pr)) n = None /\
    r = Some (set_service (kind_type (PR.UserType pr)) (Some s) n, true) /\
    Svc.provisionReq s = Some pr /\ slot_ok (kind_type (PR.UserType pr)) (Some s).
Proof.
  unfold provisionLocked, CreateService.
  destruct (PR.UserType pr) eqn:Hu; [by intros [= <- <-]; left|..]; rewrite svc_type_new by done.
  all: case_bool_decide as Hs; [by intros [= <- <-]; left|].
  all: destruct (Setup env pr _ w) as [[w1 [s|]]|] eqn:Hset; [|by intros [= <- <-]; left|done].
  all: intros [= <- <-]; right; exists s; apply Setup_spec in Hset as (Hk & Hp); [|done..].
  all: split_and!; [done|by apply eq_None_not_Some|done|apply Hp|].
  all: split; [by rewrite Hk|exists pr; by rewrite Hk, Hu].
Qed.

Lemma remove_slot_spec t n (w w' : World K B) r : t <> ServiceTypeUnknown -> remove_slot env t n w = Some (w', r) ->
  removed t n r.
Proof.
  intros Ht. unfold remove_slot. destruct (service_of t n) as [s|] eqn:Hs.
  - unfold mbind, E_bind. destruct (Teardown env s w) as [[w1 r1]|] eqn:Htd; [|done].
    apply Teardown_spec in Htd as (s' & ok & -> & Hk & Hp). cbn. intros [= <- <-]. destruct ok.
    + exists None, true. by split_and!; [|right|].
    + exists (Some s'), false. split_and!; [done|done|]. rewrite Hs. cbn. rewrite Hk. intros (? & p & ? & ?). split; [done|]. exists p. split; [by apply Hp|done].
  - intros [= <- <-]. exists None, true. split_and!; [|by right|done]. by rewrite <- Hs, set_service_id.
Qed.

Lemma removeLocked_spec u n (w w' : World K B) r : removeLocked env u n w = Some (w', r) -> removed (kind_type u) n r.
Proof.
  assert (Hsome : (if negb (IsUnicastUser u) && negb (IsMulticastUser u) then mret (n, false)
     else r ← (if IsUnicastUser u then remove_slot env ServiceTypeUnicast n else mret (n, true));
        if negb r.2 then mret r else if IsMulticastUser u then remove_slot env ServiceTypeMulticast r.1 else mret r) w
      = Some (w', r) -> removed (kind_type u) n r).
  { unfold kind_type, mbind, E_bind.
    destruct (IsUnicastUser u) eqn:Hi, (IsMulticastUser u) eqn:Hj; [by destruct u| | |].
    - cbn [negb andb]. destruct (remove_slot env _ n w) as [[w1 r1]|] eqn:Hr; [|done].
      apply remove_slot_spec in Hr as (o & ok & -> & H); [|done].
      intros Hw. exists o, ok. split; [destruct ok; by injection Hw as _ <-|done].
    - by apply remove_slot_spec.
    - intros [= <- <-]. exists None, false. by split_and!. }
  unfold removeLocked. destruct (UnicastService n) eqn:Hu; [exact Hsome|].
  destruct (MulticastService n) eqn:Hm; [exact Hsome|]. intros [= <- <-].
  exists None, true. split_and!; [|by right|done]. destruct n; cbn in *; subst. by destruct (kind_type u).
Qed.

Lemma Reprovision_spec u pr n (w w' : World K B) r : kind_type u <> ServiceTypeUnknown ->
  kind_type (PR.UserType pr) = kind_type u -> slot_ok (kind_type u) (service_of (kind_type u) n) ->
  Reprovision env u pr n w = Some (w', r) ->
  exists o ok, r = Some (set_service (kind_type u) o n, ok) /\ slot_ok (kind_type u) o /\
    (ok = true -> exists s, o = Some s /\ Svc.provisionReq s = Some pr).
Proof.
  intros Hu Hpr Hok. unfold Reprovision, mbind, E_bind.
  destruct (removeLocked env u n w) as [[w1 r1]|] eqn:Hr; [|done].
  apply removeLocked_spec in Hr as (o & ok & -> & Ho & Hs). destruct ok; cbn.
  - destruct (Ho eq_refl) as [?| ->]; [done|]. intros Hp.
    apply provisionLocked_spec in Hp as [->|(s & _ & _ & -> & Hreq & Hsl)].
    + by exists None, false.
    + rewrite Hpr in *. exists (Some s), true. rewrite set_service_set. split_and!; [done|done|eauto].
  - intros [= <- <-]. exists o, false. split_and!; [done|auto|done].
Qed.

(** *** Provision requests *)

Lemma tunnel_src_config u dst n (k : K) : same_config n (tunnel_src u dst n k).2 /\
  forall t, service_of t (tunnel_src u dst n k).2 = service_of t n.
Proof.
  unfold tunnel_src. destruct (_ || _); [|done]. destruct (tunnelSrcCache n !! _) eqn:Hc; [done|].
  destruct (ResolveTunnelSrc dst k); [|done]. split; [|by intros []]. split_and!; [done..|].
  by apply insert_subseteq.
Qed.

(** The users whose source is looked up, and a destination that was. *)
Definition cached (u : User.t) (dst : IP) (n : NetlinkManager) : Prop :=
  (User.UserType u =? 1) || (User.UserType u =? 3) = true -> is_Some (tunnelSrcCache n !! ip4_string dst).

Lemma cached_config u dst n n' : same_config n n' -> cached u dst n -> cached u dst n'.
Proof. intros (_ & _ & _ & Hsub) H Hu. destruct (H Hu) as [src Hsrc]. exists src. by eapply lookup_weaken. Qed.

(** A cached source is found again whatever the routes. *)
Lemma tunnel_src_again u dst n n' (k k' : K) : cached u dst n ->
  same_config n n' -> tunnel_src u dst n' k' = ((tunnel_src u dst n k).1, n').
Proof.
  unfold cached, tunnel_src. destruct (_ || _); [|by intros _ (-> & _)].
  intros [src Hsrc] (_ & _ & _ & Hsub); [done|]. by rewrite Hsrc, (lookup_weaken _ _ _ _ Hsrc Hsub).
Qed.

(** A lookup does not change what another finds from the same routes. *)
Lemma tunnel_src_extend u u' dst dst' n (k : K) : addr_ok dst -> addr_ok dst' ->
  (tunnel_src u dst (tunnel_src u' dst' n k).2 k).1 = (tunnel_src u dst n k).1.
Proof.
  intros Hd Hd'. unfold tunnel_src at 2. destruct (_ || _); [|done].
  destruct (tunnelSrcCache n !! ip4_string dst') eqn:Hc; [done|]. destruct (ResolveTunnelSrc dst' k) as [src|] eqn:Hr; [|done].
  unfold tunnel_src. cbn. destruct (_ || _); [|done]. rewrite lookup_insert. destruct (decide _) as [E|].
  - assert (dst' = dst) as -> by by apply ip4_string_inj. by rewrite Hc, Hr.
  - destruct (tunnelSrcCache n !! ip4_string dst); [reflexivity|]. destruct (ResolveTunnelSrc dst k); reflexivity.
Qed.

(** The request does not depend on the source but in that field. *)
Lemma PR_Validate_source p q src : PR_Validate p = Some q ->
  PR_Validate (p <| PR.TunnelSrc := src |>) = Some (q <| PR.TunnelSrc := src |>).
Proof.
  unfold PR_Validate. destruct p as [? ? ? ? ? ? ? ? rp lasn rasn]; cbn.
  destruct (lasn =? 0); cbn; destruct (rasn =? 0); cbn.
  all: destruct (bool_decide (rp = [])); [by intros [= <-]|]; destruct (bool_decide (To4 rp = [])); by intros [= <-].
Qed.

Lemma Equal_source q pr src : Equal q pr = true -> ip_equal (PR.TunnelSrc q) src = true ->
  Equal q (pr <| PR.TunnelSrc := src |>) = true.
Proof. unfold Equal. destruct pr; cbn. rewrite !andb_true_iff. tauto. Qed.

Lemma PR_Validate_kind p q : PR_Validate p = Some q -> PR.UserType q = PR.UserType p.
Proof.
  unfold PR_Validate. set (p1 := if PR.BgpLocalAsn p =? 0 then _ else p).
  set (p2 := if PR.BgpRemoteAsn p1 =? 0 then _ else p1).
  assert (Hk : PR.UserType p2 = PR.UserType p) by (unfold p2, p1; repeat destruct (_ =? _); done).
  case_bool_decide; [by intros [= <-]|]. case_bool_decide; [done|]. by intros [= <-].
Qed.

Lemma build_config u data cfg n (k : K) o n' : buildProvisionRequest u data cfg n k = (o, n') ->
  same_config n n' /\ (forall t, service_of t n' = service_of t n) /\
  (forall pr, o = Some pr -> PR.UserType pr = mapUserType (User.UserType u)).
Proof.
  unfold buildProvisionRequest. destruct (_ !! _) as [d|]; [|by intros [= <- <-]].
  destruct (parseOnchainNet _) as [net|]; [|by intros [= <- <-]].
  pose proof (tunnel_src_config u (tunnel_dst u d) n k) as [Hc Hs].
  destruct (tunnel_src _ _ _ _) as [src n1]. intros [= <- <-]. split_and!; [done|done|].
  intros pr Hpr. by apply PR_Validate_kind in Hpr.
Qed.

Definition device_of (data : ProgramData.t) (u : User.t) : option Device.t :=
  index_by Device.PubKey (ProgramData.Devices data) !! User.DevicePubKey u.

Lemma build_again u data cfg n (k k' : K) o n1 n' :
  (forall d, device_of data u = Some d -> cached u (tunnel_dst u d) n) ->
  buildProvisionRequest u data cfg n k = (o, n1) -> same_config n n' ->
  buildProvisionRequest u data cfg n' k' = (o, n').
Proof.
  unfold device_of, buildProvisionRequest. destruct (_ !! _) as [d|]; [|by intros _ [= <- <-]].
  intros Hc. destruct (parseOnchainNet _) as [net|]; [|by intros [= <- <-]].
  pose proof (tunnel_src_again u (tunnel_dst u d) n n' k k' (Hc d eq_refl)) as Hs.
  destruct (tunnel_src u _ n k) as [src n2]. intros [= <- <-] Hn. by rewrite Hs.
Qed.

(** The request built later differs at most in the source looked up. *)
Lemma build_later u data cfg n (k k' : K) pr n1 n' : buildProvisionRequest u data cfg n k = (Some pr, n1) ->
  exists d, device_of data u = Some d /\ buildProvisionRequest u data cfg n' k' =
    (Some (pr <| PR.TunnelSrc := (tunnel_src u (tunnel_dst u d) n' k').1 |>), (tunnel_src u (tunnel_dst u d) n' k').2).
Proof.
  unfold device_of, buildProvisionRequest. destruct (_ !! _) as [d|]; [|done].
  destruct (parseOnchainNet _) as [net|]; [|done]. destruct (tunnel_src u _ n k) as [src n2].
  intros [= Hv <-]. exists d. split; [done|]. destruct (tunnel_src u _ n' k') as [src' n3]. cbn [fst snd].
  by rewrite <- (PR_Validate_source _ _ src' Hv).
Qed.

(** *** Reconciliation *)

Lemma InfraEqual_kind p q : InfraEqual p q = true -> PR.UserType p = PR.UserType q.
Proof. unfold InfraEqual. rewrite !andb_true_iff, bool_decide_eq_true. tauto. Qed.

Lemma try_update_spec pr t n (w w' : World K B) r : slot_ok t (service_of t n) -> try_update env pr t n w = Some (w', r) ->
  r = Some None \/
  exists s, r = Some (Some (set_service t (Some s) n)) /\ Svc.provisionReq s = Some pr /\ slot_ok t (Some s).
Proof.
  unfold try_update. destruct (service_of t n) as [s|]; [|intros _ [= <- <-]; by left].
  intros (Ht & p & Hs & Hk). pose proof Hs as [Hp _]. rewrite Hp.
  destruct (svc_type s); [intros [= <- <-]; by left..|].
  destruct (InfraEqual p pr) eqn:Hi; [|intros [= <- <-]; by left].
  destruct (UpdateGroups env pr s w) as [[w1 [s'|]]|] eqn:Hu; [|intros [= <- <-]; by left|done].
  intros [= <- <-]. right. exists s'. apply (UpdateGroups_spec _ p) in Hu as (Hk' & Hs'); [|done..].
  split_and!; [done|apply Hs'|]. split; [by rewrite Hk'|]. exists pr. split; [done|].
  by rewrite <- (InfraEqual_kind _ _ Hi), Hk'.
Qed.

(** The slot after a reconciliation without error. *)
Definition slot_settled (wanted : option User.t) (t : ServiceType) data cfg n (k : K) n' : Prop :=
  match wanted with
  | None => service_of t n' = None
  | Some u => exists s q pr n1, service_of t n' = Some s /\ Svc.provisionReq s = Some q /\ Equal q pr = true /\
      buildProvisionRequest u data cfg n k = (Some pr, n1) /\ same_config n1 n'
  end.

Lemma reconcileService_slot wanted t data cfg n (w w' : World K B) r :
  t <> ServiceTypeUnknown -> slot_ok t (service_of t n) ->
  (forall u, wanted = Some u -> kind_type (mapUserType (User.UserType u)) = t) ->
  reconcileService env wanted t data cfg n w = Some (w', r) ->
  exists n1 o ok, r = Some (set_service t o n1, ok) /\ same_config n n1 /\ (forall t', service_of t' n1 = service_of t' n) /\
    slot_ok t o /\ (ok = true -> slot_settled wanted t data cfg n (kernel w) (set_service t o n1)).
Proof.
  intros Ht Hok Hw.
  assert (Hra : kind_type (remove_as t) = t) by by destruct t.
  unfold reconcileService. destruct wanted as [u|].
  - specialize (Hw u eq_refl).
    destruct (buildProvisionRequest u data cfg n (kernel w)) as [[pr|] n1] eqn:Hb;
      pose proof (build_config _ _ _ _ _ _ _ Hb) as (Hc & Hs & Hk); cycle 1.
    { intros [= <- <-]. exists n1, (service_of t n1), false. rewrite set_service_id, Hs. by split_and!. }
    specialize (Hk pr eq_refl).
    assert (Hdone : forall s, Svc.provisionReq s = Some pr ->
      slot_settled (Some u) t data cfg n (kernel w) (set_service t (Some s) n1)).
    { intros s Hp. exists s, pr, pr, n1. split_and!; [|done|apply Equal_refl|done|apply same_config_set].
      rewrite service_set, decide_True by done. done. }
    destruct (service_of t n1) as [s|] eqn:Hst.
    + assert (Hsl : slot_ok t (service_of t n1)) by by rewrite Hs.
      destruct (match Svc.provisionReq s with Some cur => Equal cur pr | None => false end) eqn:Heq.
      { intros [= <- <-]. exists n1, (service_of t n1), true. rewrite set_service_id. split_and!; [done..|].
        intros _. destruct (Svc.provisionReq s) as [q|] eqn:Hq; [|done]. by exists s, q, pr, n1. }
      destruct (try_update env pr t n1 w) as [[w1 r1]|] eqn:Hu; [|done].
      apply try_update_spec in Hu as [->|(s' & -> & Hp & Hs')]; [| |done].
      * intros Hr. apply Reprovision_spec in Hr as (o & ok & -> & Ho & Hd);
          rewrite ?Hra in *; [|done|by rewrite Hk|done].
        exists n1, o, ok. split_and!; [done..|]. intros (s' & -> & Hp)%Hd. auto.
      * intros [= <- <-]. exists n1, (Some s'), true. split_and!; [done..|]. auto.
    + intros Hp. apply provisionLocked_spec in Hp as [->|(s & _ & _ & -> & Hreq & Hsl)].
      * exists n1, (service_of t n1), false. rewrite set_service_id, Hst. by split_and!.
      * rewrite Hk, Hw in *. exists n1, (Some s), true. split_and!; [done..|]. auto.
  - destruct (service_of t n) eqn:Hst.
    + intros (o & ok & -> & Ho & Hs)%removeLocked_spec. rewrite Hra in *. exists n, o, ok.
      split_and!; [done|done|done|apply Hs; by rewrite Hst|]. intros Hok'. destruct (Ho Hok') as [?| ->]; [done|].
      cbn. by rewrite service_set, decide_True.
    + intros [= <- <-]. exists n, (service_of t n), true. rewrite set_service_id, Hst. by split_and!.
Qed.

Lemma want_elem p ip users u : want p ip users = Some u -> p (mapUserType (User.UserType u)) = true.
Proof. intros Hu%head_Some_elem_of. by apply list_elem_of_filter in Hu as [[_ ?] _]. Qed.

Lemma want_type t p ip users u : (t, p) ∈ [(ServiceTypeUnicast, IsUnicastUser); (ServiceTypeMulticast, IsMulticastUser)] ->
  want p ip users = Some u -> kind_type (mapUserType (User.UserType u)) = t.
Proof.
  intros Htp Hu%want_elem. unfold kind_type.
  apply elem_of_cons in Htp as [[= -> ->]|[= -> ->]%list_elem_of_singleton]; [by rewrite Hu|].
  rewrite Hu. by destruct (mapUserType _).
Qed.

Lemma slot_settled_mono wanted t data cfg n k n' n'' : slot_settled wanted t data cfg n k n' ->
  same_config n' n'' -> service_of t n'' = service_of t n' -> slot_settled wanted t data cfg n k n''.
Proof.
  intros Hs Hc Ht. destruct wanted as [u|]; cbn in *; [|by rewrite Ht].
  destruct Hs as (s & q & pr & n1 & Hsv & Hq & He & Hb & Hc1).
  exists s, q, pr, n1. rewrite Ht. split_and!; [done..|by etrans].
Qed.

Lemma reconcileService_spec wanted t data cfg n (w w' : World K B) r :
  t <> ServiceTypeUnknown -> manager_ok n -> (forall u, wanted = Some u -> kind_type (mapUserType (User.UserType u)) = t) ->
  reconcileService env wanted t data cfg n w = Some (w', r) ->
  exists n' ok, r = Some (n', ok) /\ manager_ok n' /\ same_config n n' /\
    (forall t', t' <> t -> service_of t' n' = service_of t' n) /\
    (ok = true -> slot_settled wanted t data cfg n (kernel w) n').
Proof.
  intros Ht Hok Hw H. apply reconcileService_slot in H as (n1 & o & ok & -> & Hc & Hs & Ho & Hd); [|done|by apply manager_ok_slot|done].
  eexists _, _. split_and!; [done| |etrans; [exact Hc|apply same_config_set]| |exact Hd].
  - apply manager_ok_set; [|done]. destruct Hok as [Hu Hm]. split.
    + by rewrite (Hs ServiceTypeUnicast : UnicastService n1 = UnicastService n).
    + by rewrite (Hs ServiceTypeMulticast : MulticastService n1 = MulticastService n).
  - intros t' Hne. by rewrite service_set, decide_False.
Qed.

(** A settled slot is left alone if its source is found again: in any world
    if it is cached, else while the routes give it. *)
Lemma reconcileService_again wanted t data cfg n k n' (w : World K B) :
  (forall u d, wanted = Some u -> device_of data u = Some d -> cached u (tunnel_dst u d) n) -> same_config n n' ->
  slot_settled wanted t data cfg n k n' -> reconcileService env wanted t data cfg n' w = Some (w, Some (n', true)).
Proof.
  intros Hres Hn. unfold reconcileService. destruct wanted as [u|]; cbn [slot_settled]; [|by intros ->].
  intros (s & q & pr & n1 & Hsv & Hq & He & Hb & Hc).
  by rewrite (build_again _ _ _ _ _ (kernel w) _ _ _ (fun d => Hres u d eq_refl) Hb Hn), Hsv, Hq, He.
Qed.

Definition source_kept (wanted : option User.t) (t : ServiceType) data n (k : K) : Prop :=
  forall u d s q, wanted = Some u -> device_of data u = Some d -> service_of t n = Some s -> Svc.provisionReq s = Some q ->
    ip_equal (PR.TunnelSrc q) (tunnel_src u (tunnel_dst u d) n k).1 = true.

Lemma reconcileService_later wanted t data cfg n k n' (w : World K B) : source_kept wanted t data n' (kernel w) ->
  slot_settled wanted t data cfg n k n' ->
  exists n'', reconcileService env wanted t data cfg n' w = Some (w, Some (n'', true)) /\ same_config n' n'' /\
    (forall t', service_of t' n'' = service_of t' n') /\
    (n'' = n' \/ exists u d, wanted = Some u /\ device_of data u = Some d /\ n'' = (tunnel_src u (tunnel_dst u d) n' (kernel w)).2).
Proof.
  intros Hk. unfold reconcileService. destruct wanted as [u|]; cbn [slot_settled]; [|intros ->; exists n'; by split_and!; [..|left]].
  intros (s & q & pr & n1 & Hsv & Hq & He & Hb & _).
  destruct (build_later _ _ _ _ _ (kernel w) _ _ n' Hb) as (d & Hd & ->).
  pose proof (tunnel_src_config u (tunnel_dst u d) n' (kernel w)) as [Hc Hs]. exists (tunnel_src u (tunnel_dst u d) n' (kernel w)).2.
  rewrite Hs, Hsv, Hq, (Equal_source _ _ _ He (Hk u d s q eq_refl Hd Hsv Hq)). split_and!; [done..|right; by exists u, d].
Qed.

Lemma reconcile_spec data cfg n (w w' : World K B) r : manager_ok n -> reconcile env (Some (data, cfg)) n w = Some (w', r) ->
  exists n1 n' a b w1, r = Some (n', a && b) /\ manager_ok n' /\ same_config n n1 /\ same_config n1 n' /\
    (a = true -> slot_settled (want IsUnicastUser (clientIP n) (ProgramData.Users data)) ServiceTypeUnicast data cfg
       n (kernel w) n') /\
    (b = true -> slot_settled (want IsMulticastUser (clientIP n) (ProgramData.Users data)) ServiceTypeMulticast data cfg
       n1 (kernel (w1 : World K B)) n').
Proof.
  intros Hok. unfold reconcile, mbind, E_bind.
  destruct (reconcileService env _ ServiceTypeUnicast data cfg n w) as [[w1 r1]|] eqn:H1; [|done].
  apply reconcileService_spec in H1 as (n1 & a & -> & Hok1 & Hc1 & Ho1 & Hd1); [|done|done|intros u Hu; eapply want_type; [by left|done]].
  cbn [fst snd]. destruct (reconcileService env _ ServiceTypeMulticast data cfg n1 w1) as [[w2 r2]|] eqn:H2; [|done].
  apply reconcileService_spec in H2 as (n2 & b & -> & Hok2 & Hc2 & Ho2 & Hd2);
    [|done|done|intros u Hu; eapply want_type; [right; by left|done]].
  intros [= <- <-]. exists n1, n2, a, b, w1. split_and!; [done..| |done].
  intros Ha%Hd1. eapply slot_settled_mono; [done|done|by apply Ho2].
Qed.

(** The slots with the users they serve. *)
Definition slots : list (ServiceType * (UserKind -> bool)) :=
  [(ServiceTypeUnicast, IsUnicastUser); (ServiceTypeMulticast, IsMulticastUser)].

(** Each service still has the source its user would be given now. *)
Definition sources_kept (data : ProgramData.t) (n : NetlinkManager) (k : K) : Prop :=
  forall t p, (t, p) ∈ slots -> source_kept (want p (clientIP n) (ProgramData.Users data)) t data n k.

Definition sources_keptb (data : ProgramData.t) (n : NetlinkManager) (k : K) : bool :=
  forallb (fun tp => match want tp.2 (clientIP n) (ProgramData.Users data) with
    | Some u => match device_of data u, service_of tp.1 n ≫= Svc.provisionReq with
                | Some d, Some q => ip_equal (PR.TunnelSrc q) (tunnel_src u (tunnel_dst u d) n k).1
                | _, _ => true
                end
    | None => true
    end) slots.

Lemma sources_keptb_spec data n k : sources_keptb data n k = true -> sources_kept data n k.
Proof.
  intros H t p Htp u d s q Hu Hd Hs Hq. unfold sources_keptb in H. rewrite forallb_forall in H.
  specialize (H (t, p)). rewrite <- list_elem_of_In in H. specialize (H Htp). cbn [fst snd] in H.
  by rewrite Hu, Hd, Hs in H; cbn in H; rewrite Hq in H.
Qed.

(** The sources of this client's users were looked up before. *)
Definition sources_cached (data : ProgramData.t) (n : NetlinkManager) : Prop :=
  forall t p u d, (t, p) ∈ slots -> want p (clientIP n) (ProgramData.Users data) = Some u -> device_of data u = Some d ->
    cached u (tunnel_dst u d) n.

(** Endpoints of four bytes, as the accounts have them. *)
Definition endpoints_ok (data : ProgramData.t) : Prop :=
  Forall (fun u => addr_ok (User.TunnelEndpoint u)) (ProgramData.Users data) /\
  Forall (fun d => addr_ok (Device.PublicIp d)) (ProgramData.Devices data).

Lemma endpoints_dst data p ip u d : endpoints_ok data -> want p ip (ProgramData.Users data) = Some u ->
  device_of data u = Some d -> addr_ok (tunnel_dst u d).
Proof.
  intros [Hu Hd] Hw%head_Some_elem_of%list_elem_of_filter [Hin _]%index_by_elem. rewrite Forall_forall in Hu. rewrite Forall_forall in Hd.
  unfold tunnel_dst. destruct (_ || _); [by apply Hd|]. apply Hu, Hw.
Qed.

Lemma settled_later data cfg n k n1 k1 n' (w : World K B) : endpoints_ok data ->
  slot_settled (want IsUnicastUser (clientIP n') (ProgramData.Users data)) ServiceTypeUnicast data cfg n k n' ->
  slot_settled (want IsMulticastUser (clientIP n') (ProgramData.Users data)) ServiceTypeMulticast data cfg n1 k1 n' ->
  sources_kept data n' (kernel w) ->
  exists n'', reconcile env (Some (data, cfg)) n' w = Some (w, Some (n'', true)) /\ same_config n' n'' /\
    forall t, service_of t n'' = service_of t n'.
Proof.
  intros He Ha Hb Hk. unfold reconcile, mbind, E_bind.
  destruct (reconcileService_later _ _ _ cfg n k n' w (Hk _ _ ltac:(by left)) Ha) as (n2 & -> & Hc & Hs & Hn2). cbn [fst snd].
  apply (slot_settled_mono _ _ _ _ _ _ _ n2) in Hb; [|done..].
  assert (Hk2 : source_kept (want IsMulticastUser (clientIP n') (ProgramData.Users data)) ServiceTypeMulticast data n2 (kernel w)).
  { intros u d s q Hu Hd. rewrite Hs. intros Hsv Hq. pose proof (Hk _ _ ltac:(right; by left) u d s q Hu Hd Hsv Hq) as Hsrc.
    destruct Hn2 as [->|(u' & d' & Hu' & Hd' & ->)]; [done|]. by rewrite tunnel_src_extend by by eapply endpoints_dst. }
  destruct (reconcileService_later _ _ _ cfg n1 k1 n2 w Hk2 Hb) as (n3 & -> & Hc3 & Hs3 & _).
  exists n3. split_and!; [done|by etrans|]. intros t. by rewrite Hs3.
Qed.

(** C11.  A reconciliation without error leaves each slot as the users of this
    client ask: empty without a user, else holding a service whose request is
    equal to the one built from the first such user. Reconciling again on the
    same data changes no service, no kernel state and no sender as long as the
    tunnel sources looked up then are still those of the services. If the
    sources were looked up successfully before the first reconciliation, they
    come from the cache: then nothing changes whatever happened to the kernel
    and the senders in between. *)
Theorem reconcile_converges data cfg n (w w' : World K B) n' :
  manager_ok n -> endpoints_ok data ->
  reconcile env (Some (data, cfg)) n w = Some (w', Some (n', true)) ->
  (forall t p, (t, p) ∈ slots ->
    match want p (clientIP n) (ProgramData.Users data) with
    | None => service_of t n' = None
    | Some u => exists s q m k pr m', service_of t n' = Some s /\ Svc.provisionReq s = Some q /\ Equal q pr = true /\
        same_config n m /\ buildProvisionRequest u data cfg m k = (Some pr, m') /\ same_config m' n'
    end) /\
  (forall w'' : World K B, sources_kept data n' (kernel w'') ->
    exists n'', reconcile env (Some (data, cfg)) n' w'' = Some (w'', Some (n'', true)) /\ same_config n' n'' /\
      forall t, service_of t n'' = service_of t n') /\
  (sources_cached data n ->
    forall w'' : World K B, reconcile env (Some (data, cfg)) n' w'' = Some (w'', Some (n', true))).
Proof.
  intros Hok Hep H. apply reconcile_spec in H as (n1 & n2 & a & b & w1 & [= <- Hab] & Hok' & Hc1 & Hc2 & Ha & Hb); [|done].
  symmetry in Hab. apply andb_true_iff in Hab as [-> ->]. specialize (Ha eq_refl). specialize (Hb eq_refl).
  assert (Hip : clientIP n' = clientIP n) by (transitivity (clientIP n1); [apply Hc2|apply Hc1]). split_and!.
  - assert (Hset : forall t wanted m k, same_config n m -> slot_settled wanted t data cfg m k n' ->
      match wanted with
      | None => service_of t n' = None
      | Some u => exists s q m k pr m', service_of t n' = Some s /\ Svc.provisionReq s = Some q /\ Equal q pr = true /\
          same_config n m /\ buildProvisionRequest u data cfg m k = (Some pr, m') /\ same_config m' n'
      end).
    { intros t [u|] m k Hm; [|done]. intros (s & q & pr & m1 & ? & ? & ? & ? & ?). by exists s, q, m, k, pr, m1. }
    intros t p [[= -> ->]|[= -> ->]%list_elem_of_singleton]%elem_of_cons; [exact (Hset _ _ n _ ltac:(done) Ha)|exact (Hset _ _ n1 _ Hc1 Hb)].
  - intros w''. rewrite <- Hip in Ha, Hb. by eapply settled_later.
  - intros Hca w''. unfold reconcile, mbind, E_bind. rewrite Hip.
    assert (Hn : same_config n n') by by etrans.
    rewrite (reconcileService_again _ _ _ _ _ _ _ w'' (fun u d => Hca ServiceTypeUnicast IsUnicastUser u d ltac:(by left)) Hn Ha). cbn [fst snd].
    by rewrite (reconcileService_again _ _ _ _ _ _ _ w''
      (fun u d Hu Hd => cached_config _ _ _ _ Hc1 (Hca ServiceTypeMulticast IsMulticastUser u d ltac:(right; by left) Hu Hd)) Hc2 Hb).
Qed.

(** *** The loop *)

Lemma removeLocked_keeps u n (w w' : World K B) r : manager_ok n -> removeLocked env u n w = Some (w', r) ->
  exists n' ok, r = Some (n', ok) /\ manager_ok n' /\ same_config n n'.
Proof.
  intros Hok (o & ok & -> & _ & Hs)%removeLocked_spec. eexists _, _. split_and!; [done| |apply same_config_set].
  apply manager_ok_set; [done|]. by apply Hs, manager_ok_slot.
Qed.

Lemma provisionLocked_keeps pr n (w w' : World K B) r : manager_ok n -> provisionLocked env pr n w = Some (w', r) ->
  exists n' ok, r = Some (n', ok) /\ manager_ok n' /\ same_config n n'.
Proof.
  intros Hok [->|(s & _ & _ & -> & _ & Hs)]%provisionLocked_spec; [by eexists _, _|].
  eexists _, _. split_and!; [done|by apply manager_ok_set|apply same_config_set].
Qed.

Lemma Reprovision_keeps u pr n (w w' : World K B) r : manager_ok n -> Reprovision env u pr n w = Some (w', r) ->
  exists n' ok, r = Some (n', ok) /\ manager_ok n' /\ same_config n n'.
Proof.
  intros Hok. unfold Reprovision, mbind, E_bind. destruct (removeLocked env u n w) as [[w1 r1]|] eqn:Hr; [|done].
  apply removeLocked_keeps in Hr as (n1 & ok & -> & Hok1 & Hc); [|done]. destruct ok; cbn [negb fst snd].
  - intros Hp. apply provisionLocked_keeps in Hp as (n2 & ok & -> & Hok2 & Hc2); [|done].
    eexists _, _. split_and!; [done|done|by etrans].
  - intros [= <- <-]. by eexists _, _.
Qed.

Lemma reconcile_keeps data n (w w' : World K B) r : manager_ok n -> reconcile env data n w = Some (w', r) ->
  exists n' ok, r = Some (n', ok) /\ manager_ok n' /\ same_config n n'.
Proof.
  intros Hok. destruct data as [[data cfg]|]; [|intros [= <- <-]; by eexists _, _].
  intros (n1 & n' & a & b & w1 & -> & Hok' & Hc1 & Hc2 & _)%reconcile_spec; [|done].
  eexists _, _. split_and!; [done|done|by etrans].
Qed.

Lemma reconcilerTeardown_keeps n (w w' : World K B) r : manager_ok n -> reconcilerTeardown env n w = Some (w', r) ->
  exists n', r = Some n' /\ manager_ok n' /\ enabled n' = enabled n /\ enableCh n' = enableCh n.
Proof.
  assert (Hstep : forall (o : option Svc.t) u m b (v v' : World K B) x, manager_ok m ->
    match o with None => mret (m, b) | Some _ => removeLocked env u m end v = Some (v', x) ->
    exists m' ok, x = Some (m', ok) /\ manager_ok m' /\ same_config m m').
  { intros [?|] u m b v v' x Hm; [by apply removeLocked_keeps|]. intros [= <- <-]. by eexists _, _. }
  intros Hok. unfold reconcilerTeardown, mbind, E_bind.
  destruct (match UnicastService n with None => mret (n, true) | Some _ => removeLocked env UserTypeIBRL n end w) as [[w1 r1]|] eqn:H1; [|done].
  apply Hstep in H1 as (n1 & a & -> & Hok1 & Hc1); [|done]. cbn [fst].
  destruct (match MulticastService n1 with None => mret (n1, a) | Some _ => removeLocked env UserTypeMulticast n1 end w1) as [[w2 r2]|] eqn:H2; [|done].
  apply Hstep in H2 as (n2 & b & -> & Hok2 & Hc2); [|done]. intros [= <- <-]. eexists. split; [done|].
  destruct Hc1 as (_ & He1 & Hch1 & _), Hc2 as (_ & He2 & Hch2 & _). split_and!; [exact Hok2|cbn; congruence..].
Qed.

Lemma loop_step_keeps ev data n (w w' : World K B) r : manager_ok n -> loop_step env ev data n w = Some (w', r) ->
  exists n', r = Some n' /\ manager_ok n' /\
    enabled n' = match ev, enableCh n with Signal, Some on => on | _, _ => enabled n end.
Proof.
  assert (Hrec : forall m (v : World K B), manager_ok m -> (x ← reconcile env data m; mret x.1) v = Some (w', r) ->
    exists n', r = Some n' /\ manager_ok n' /\ enabled n' = enabled m).
  { intros m v Hm. unfold mbind, E_bind. destruct (reconcile env data m v) as [[v1 r1]|] eqn:Hr; [|done].
    apply reconcile_keeps in Hr as (n' & ok & -> & Hok' & Hc); [|done]. intros [= <- <-]. exists n'.
    split_and!; [done|done|apply Hc]. }
  intros Hok. destruct ev; cbn [loop_step].
  - destruct (enabled n) eqn:He; [|intros [= <- <-]; by eexists].
    intros H. destruct (Hrec _ _ Hok H) as (n' & -> & Hok' & He'). exists n'. by rewrite He', He.
  - destruct (enableCh n) as [[]|]; [| |intros [= <- <-]; by eexists].
    + intros H. by apply Hrec in H.
    + intros (n' & -> & Hok' & He & _)%reconcilerTeardown_keeps; [|done]. by exists n'.
Qed.
End ManagerFacts.

(** ** Reachable managers *)

Section Reachable.
Context {K B : Type} `{!Netlinker K, !RouteReaderWriter K, !BGPReaderWriter B}.

Inductive manager_step : NetlinkManager -> NetlinkManager -> Prop :=
  | step_provision env pr n n' ok (w w' : World K B) :
      provisionLocked env pr n w = Some (w', Some (n', ok)) -> manager_step n n'
  | step_remove env u n n' ok (w w' : World K B) :
      removeLocked env u n w = Some (w', Some (n', ok)) -> manager_step n n'
  | step_reprovision env u pr n n' ok (w w' : World K B) :
      Reprovision env u pr n w = Some (w', Some (n', ok)) -> manager_step n n'
  | step_enable on n : manager_step n (SetEnabled on n)
  | step_loop env ev data n n' (w w' : World K B) :
      loop_step env ev data n w = Some (w', Some n') -> manager_step n n'.

Lemma manager_step_ok n n' : manager_step n n' -> manager_ok n -> manager_ok n'.
Proof.
  destruct 1 as [env pr n n' ok w w' H|env u n n' ok w w' H|env u pr n n' ok w w' H|on n|env ev data n n' w w' H]; intros Hok.
  - by apply provisionLocked_keeps in H as (? & ? & [= -> ->] & ? & _).
  - by apply removeLocked_keeps in H as (? & ? & [= -> ->] & ? & _).
  - by apply Reprovision_keeps in H as (? & ? & [= -> ->] & ? & _).
  - unfold SetEnabled. by destruct (bool_decide _).
  - by apply loop_step_keeps in H as (? & [= ->] & ? & _).
Qed.

(** C20.  Whatever sequence of requests and reconciler iterations ran, each slot
    is empty or holds a service of its own type that is as its request has it: its
    groups are those of the request it remembers, and its tunnel and address
    were made for a request that differs from it at most in the groups. The
    reported requests are exactly those of the services in the slots. *)
Theorem reachable_manager_ok ip on n : rtc manager_step (NewNetlinkManager ip on) n ->
  (forall t s, service_of t n = Some s -> kind_type (Svc.Kind s) = t /\ exists p, serves s p /\ PR.UserType p = Svc.Kind s) /\
  Some <$> GetProvisionedServices n = Svc.provisionReq <$> omap (fun t => service_of t n) [ServiceTypeUnicast; ServiceTypeMulticast].
Proof.
  intros H. assert (Hok : manager_ok n).
  { revert H. set (n0 := NewNetlinkManager ip on). assert (H0 : manager_ok n0) by done. clearbody n0.
    intros H. induction H; [done|]. eauto using manager_step_ok. }
  split; [intros t s Hs; pose proof (manager_ok_slot t n Hok) as Hsl; by rewrite Hs in Hsl|]. destruct Hok as [Hu Hm]. unfold GetProvisionedServices.
  destruct n as [u m]; cbn in *. destruct u as [u|], m as [m|]; cbn in *.
  all: repeat match goal with H : _ /\ (exists _, _ /\ _) |- _ => destruct H as (_ & ? & [? _] & _) end.
  all: repeat match goal with H : Svc.provisionReq _ = Some _ |- _ => rewrite H; clear H end; reflexivity.
Qed.

(** ** Enabling *)

Lemma SetEnabled_ok on n : manager_ok (SetEnabled on n) <-> manager_ok n.
Proof. unfold SetEnabled. by destruct (bool_decide _). Qed.

Lemma enable_requests_pending rs n : manager_ok n ->
  let n' := foldl (fun n on => SetEnabled on n) n rs in
  manager_ok n' /\ enabled n' = enabled n /\
  enableCh n' = if bool_decide (negb (enabled n) ∈ rs) then Some (negb (enabled n)) else enableCh n.
Proof.
  revert n. induction rs as [|on rs IH]; intros n Hok; [done|]. cbn [foldl].
  destruct (IH (SetEnabled on n)) as (Hok' & He & Hc); [by apply SetEnabled_ok|]. split; [done|]. rewrite He, Hc.
  assert (He' : enabled (SetEnabled on n) = enabled n) by (unfold SetEnabled; by destruct (bool_decide (enabled n = on))).
  rewrite He'. split; [done|]. clear. unfold SetEnabled. destruct (decide (negb (enabled n) ∈ rs)) as [Hin|Hin].
  { rewrite (bool_decide_eq_true_2 (_ ∈ rs)), (bool_decide_eq_true_2 (_ ∈ on :: rs)); [done|by right|done]. }
  rewrite (bool_decide_eq_false_2 (_ ∈ rs)) by done. case_bool_decide as Hon.
  - rewrite bool_decide_eq_false_2; [done|]. intros [E|?]%elem_of_cons; [|done]. rewrite <- Hon in E. by destruct (enabled n).
  - assert (E : negb (enabled n) = on) by by destruct (enabled n), on.
    rewrite bool_decide_eq_true_2; [by rewrite E|]. rewrite E. by left.
Qed.

(** After the requests [rs] and one wake-up the reconciler is in the other
    state if any request asked for it, not in the last state asked for: a
    request for the current state does not cancel a pending one. *)
Theorem enable_requests_lossy (env : SockEnv) rs data n (w w' : World K B) n' :
  manager_ok n -> enableCh n = None ->
  loop_step env Signal data (foldl (fun n on => SetEnabled on n) n rs) w = Some (w', Some n') ->
  enabled n' = if bool_decide (negb (enabled n) ∈ rs) then negb (enabled n) else enabled n.
Proof.
  intros Hok Hch H. destruct (enable_requests_pending rs n Hok) as (Hok' & He & Hc).
  apply loop_step_keeps in H as (m & [= ->] & _ & ->); [|done]. rewrite Hc, He, Hch. by case_bool_decide.
Qed.

(** ** A removal that fails *)

Definition keeps_pim {A} (m : E (World K B) A) : Prop := forall w w' r, m w = Some (w', r) -> pim w' = pim w.

Lemma keeps_bind {A A'} (m : E (World K B) A) (k : A -> E (World K B) A') :
  keeps_pim m -> (forall a, keeps_pim (k a)) -> keeps_pim (m ≫= k).
Proof.
  intros Hm Hk w w' r. unfold mbind, E_bind. destruct (m w) as [[w1 [a|]]|] eqn:H; [| |done].
  - intros H'. by rewrite (Hk _ _ _ _ H'), (Hm _ _ _ H).
  - intros [= <- <-]. by apply Hm in H.
Qed.

Lemma keeps_onK {A} (f : K -> A * K) : keeps_pim (onK f).
Proof. intros w w' r. unfold onK. destruct (f _). by intros [= <- <-]. Qed.
Lemma keeps_onB {A} (f : B -> A * B) : keeps_pim (onB f).
Proof. intros w w' r. unfold onB. destruct (f _). by intros [= <- <-]. Qed.
Lemma keeps_check b : keeps_pim (check b).
Proof. intros w w' r. by destruct b; intros [= <- <-]. Qed.
Lemma keeps_attempt m : keeps_pim m -> keeps_pim (attempt m).
Proof. intros Hm w w' r. unfold attempt. destruct (m w) as [[w1 x]|] eqn:H; [|done]. intros [= <- <-]. by eapply Hm. Qed.
Lemma keeps_heartbeat env : keeps_pim (close_heartbeat env).
Proof. intros w w' r. unfold close_heartbeat. destruct (sender_Close _ _); [|done]. by intros [= <- <-]. Qed.
Lemma keeps_register env : keeps_pim (close_register env).
Proof. intros w w' r. unfold close_register. destruct (sender_Close _ _); [|done]. by intros [= <- <-]. Qed.
Lemma keeps_when b (m : E (World K B) ()) : keeps_pim m -> keeps_pim (when_ b m).
Proof. intros Hm. destruct b; [done|]. intros w w' r. by intros [= <- <-]. Qed.

Lemma keeps_remove_tunnel tun : keeps_pim (remove_tunnel tun).
Proof.
  apply keeps_bind; [apply keeps_attempt, keeps_bind; [apply keeps_onB|intros; apply keeps_check]|]. intros peerOk.
  apply keeps_bind; [apply keeps_onK|]. intros _. apply keeps_bind; [apply keeps_onK|]. intros. apply keeps_check.
Qed.

Lemma keeps_senders env b : keeps_pim (when_ b (_ ← close_heartbeat env; close_register env)).
Proof. apply keeps_when, keeps_bind; [apply keeps_heartbeat|]. intros _. apply keeps_register. Qed.

Lemma senders_no_error env b (w w' : World K B) r :
  when_ b (_ ← close_heartbeat env; close_register env) w = Some (w', r) -> is_Some r.
Proof.
  destruct b; [|by intros [= <- <-]]. cbn [when_]. unfold mbind, E_bind, close_heartbeat, close_register.
  destruct (sender_Close _ (heartbeat w)); [|done]. cbn [mbind option_bind].
  destruct (sender_Close _ _); [|done]. by intros [= <- <-].
Qed.

(** A subscriber's teardown stops one PIM goroutine, or blocks. *)
Lemma Multicast_Teardown_pim env s (w : World K B) : is_Some (Svc.Tunnel s) -> isSubscriber s = true ->
  match Multicast_Teardown env s w with
  | Some (w', _) => pim_Close (picked env) (pim w) = Some (pim w')
  | None => True
  end.
Proof.
  intros [tun Ht] Hsub. unfold Multicast_Teardown. rewrite Ht, Hsub. unfold mbind at 1, E_bind at 1.
  destruct (when_ (isPublisher s) _ w) as [[w1 r1]|] eqn:H1; [|done].
  pose proof (senders_no_error _ _ _ _ _ H1) as [u ->]. apply keeps_senders in H1 as <-. cbn [when_].
  unfold mbind at 1, E_bind at 1, close_pim. destruct (pim_Close _ (pim w1)) as [q|]; [|done]. cbn [mbind option_bind].
  match goal with |- match ?m _ with _ => _ end => assert (Hk : keeps_pim m) end.
  { apply keeps_bind; [apply keeps_remove_tunnel|]. intros _ v v' x. by intros [= <- <-]. }
  destruct ((remove_tunnel tun ≫= _) _) as [[w2 r2]|] eqn:H2; [|done]. apply Hk in H2. by rewrite H2.
Qed.

Lemma stop_one_live pick q q' : stop_one pick q = Some q' -> S (length (live q')) = length (live q).
Proof.
  unfold stop_one. destruct (live q) as [|x l] eqn:Hl; [done|]. set (i := (pick mod _)%nat).
  destruct (wg q); [|done]. case_bool_decide; [done|]. intros [= <-]. cbn [live set_field].
  rewrite length_delete; [cbn; lia|]. apply lookup_lt_is_Some. apply Nat.mod_upper_bound. done.
Qed.

Lemma removeLocked_multicast env n s (w : World K B) : MulticastService n = Some s ->
  removeLocked env UserTypeMulticast n w = remove_slot env ServiceTypeMulticast n w.
Proof. intros H. unfold removeLocked. rewrite H. by destruct (UnicastService n). Qed.

Lemma remove_multicast env n s (w : World K B) : MulticastService n = Some s -> Svc.Kind s = UserTypeMulticast ->
  remove_slot env ServiceTypeMulticast n w =
    match Multicast_Teardown env s w with
    | Some (w', Some _) => Some (w', Some (n <| MulticastService := None |>, true))
    | Some (w', None) => Some (w', Some (n <| MulticastService := Some s |>, false))
    | None => None
    end.
Proof.
  intros Hs Hk. unfold remove_slot. cbn [service_of]. rewrite Hs. unfold Teardown. rewrite Hk.
  unfold mbind, E_bind, attempt. by destruct (Multicast_Teardown env s w) as [[w1 [x|]]|].
Qed.

(** Once the removal of a subscribing multicast service has failed, the
    service is kept and the next removal blocks forever, with the manager's
    lock held: the first one has stopped the only PIM goroutine. *)
Theorem failed_removal_blocks env env' n s (w w' : World K B) n' :
  MulticastService n = Some s -> Svc.Kind s = UserTypeMulticast -> is_Some (Svc.Tunnel s) -> isSubscriber s = true ->
  length (live (pim w)) = 1%nat ->
  removeLocked env UserTypeMulticast n w = Some (w', Some (n', false)) ->
  MulticastService n' = Some s /\ removeLocked env' UserTypeMulticast n' w' = None.
Proof.
  intros Hs Hk Ht Hsub Hlive. rewrite (removeLocked_multicast _ _ _ _ Hs), (remove_multicast _ _ _ _ Hs Hk).
  pose proof (Multicast_Teardown_pim env s w Ht Hsub) as Hp.
  destruct (Multicast_Teardown env s w) as [[w1 [x|]]|]; [done| |done]. intros [= <- <-]. split; [done|].
  rewrite (removeLocked_multicast _ _ s), (remove_multicast _ _ s) by done.
  pose proof (Multicast_Teardown_pim env' s w1 Ht Hsub) as Hp'.
  destruct (Multicast_Teardown env' s w1) as [[w2 r2]|]; [|done].
  apply stop_one_live in Hp. apply stop_one_live in Hp'. lia.
Qed.
End Reachable.

(** ** A client with a unicast and a multicast user *)

Definition client_user (n userType : Z) (pubs subs : list bytes) : User.t := sample_user
  <| User.PubKey := sample_key n |> <| User.UserType := userType |> <| User.DevicePubKey := Device.PubKey sample_device |>
  <| User.ClientIp := [192; 0; 2; 1] |> <| User.DzIp := [100; 0; 0; n] |> <| User.TunnelNet := [169; 254; 0; 2 * n; 31] |>
  <| User.TunnelEndpoint := [0; 0; 0; 0] |> <| User.Publishers := pubs |> <| User.Subscribers := subs |>.

Definition client_cfg : GlobalConfig.t := GlobalConfig.mk 2 [] 0 65000 65342 [] [] [] 0 [] [].

Definition client_data : ProgramData.t := ProgramData.empty
  <| ProgramData.Devices := [sample_device] |>
  <| ProgramData.MulticastGroups := [MulticastGroup.mk MulticastGroupType [] (mkUint128 0 0) 0 [] [233; 84; 178; 1] 0 1 [] 0 0 (sample_key 7)] |>
  <| ProgramData.Users := [client_user 41 0 [] []; client_user 42 3 [sample_key 7] [sample_key 7]] |>.

Definition client_manager : NetlinkManager := NewNetlinkManager [192; 0; 2; 1] true.

(** The world and the manager after the first reconciliation. *)
Definition client_settled : World Sim.kernel () * NetlinkManager :=
  match reconcile Sim.sockets (Some (client_data, client_cfg)) client_manager Sim.world with
  | Some (w, Some (n, true)) => (w, n)
  | _ => (Sim.world, client_manager)
  end.

Lemma client_settles : reconcile Sim.sockets (Some (client_data, client_cfg)) client_manager Sim.world =
  Some (client_settled.1, Some (client_settled.2, true)).
Proof. vm_compute. reflexivity. Qed.

Lemma client_endpoints : endpoints_ok client_data.
Proof. by repeat constructor; cbn; try lia. Qed.

Lemma client_keeps : sources_kept client_data client_settled.2 (kernel Sim.world).
Proof. apply sources_keptb_spec. vm_compute. reflexivity. Qed.

Lemma client_wants : want IsUnicastUser (clientIP client_manager) (ProgramData.Users client_data) = Some (client_user 41 0 [] []).
Proof. vm_compute. reflexivity. Qed.

Lemma client_unicast : PR.DoubleZeroIP <$> (UnicastService client_settled.2 ≫= Svc.provisionReq) = Some [100; 0; 0; 41].
Proof. vm_compute. reflexivity. Qed.

Lemma reconcile_converges_witness :
  (exists s q, UnicastService client_settled.2 = Some s /\ Svc.provisionReq s = Some q /\
    PR.DoubleZeroIP q = [100; 0; 0; 41]) /\
  exists n'', reconcile Sim.sockets (Some (client_data, client_cfg)) client_settled.2 Sim.world =
    Some (Sim.world, Some (n'', true)) /\ UnicastService n'' = UnicastService client_settled.2.
Proof.
  pose proof client_settles as Hrun. pose proof client_unicast as Hip. pose proof client_keeps as Hk. revert Hrun Hip Hk.
  generalize client_settled. intros [w n]. cbn [fst snd]. intros Hrun Hip Hk.
  destruct (reconcile_converges Sim.sockets client_data client_cfg client_manager Sim.world w n) as (Hs & Hr & _);
    [by split|exact client_endpoints|exact Hrun|].
  split; [|destruct (Hr Sim.world Hk) as (n'' & Hn & _ & Ht); exists n''; exact (conj Hn (Ht ServiceTypeUnicast))].
  specialize (Hs ServiceTypeUnicast IsUnicastUser). rewrite client_wants in Hs.
  destruct Hs as (s & q & _ & _ & _ & _ & Hu & Hq & _); [by left|]. cbn [service_of] in Hu.
  exists s, q. split; [exact Hu|split; [exact Hq|]].
  rewrite Hu in Hip. cbn [mbind option_bind] in Hip. rewrite Hq in Hip. by injection Hip.
Defined.

Lemma reachable_manager_ok_witness :
  length (GetProvisionedServices client_settled.2) = 2%nat /\
  Some <$> GetProvisionedServices client_settled.2 =
    Svc.provisionReq <$> omap (fun t => service_of t client_settled.2) [ServiceTypeUnicast; ServiceTypeMulticast].
Proof.
  destruct (reachable_manager_ok (K := Sim.kernel) (B := ()) [192; 0; 2; 1] true client_settled.2) as [_ H].
  - apply rtc_once, (step_loop Sim.sockets Tick (Some (client_data, client_cfg)) _ _ Sim.world client_settled.1).
    vm_compute. reflexivity.
  - split; [vm_compute; reflexivity|exact H].
Defined.

(** Disable and enable again before the loop runs: it ends disabled. *)
Lemma enable_requests_lossy_witness : exists w' n',
  loop_step Sim.sockets Signal None (SetEnabled true (SetEnabled false client_manager)) Sim.world = Some (w', Some n') /\
  enabled n' = false.
Proof.
  eexists _, _. split; [vm_compute; reflexivity|].
  rewrite (enable_requests_lossy (K := Sim.kernel) (B := ()) Sim.sockets [false; true] None client_manager Sim.world Sim.world);
    [reflexivity|by split|reflexivity|vm_compute; reflexivity].
Defined.

(** The interface is deleted behind the daemon's back. *)
Definition client_unplugged : World Sim.kernel () :=
  client_settled.1 <| kernel := Sim.mkKernel (Sim.sim_routes (kernel client_settled.1)) false |>.

Lemma failed_removal_blocks_witness : exists w' n',
  removeLocked Sim.sockets UserTypeMulticast client_settled.2 client_unplugged = Some (w', Some (n', false)) /\
  removeLocked Sim.sockets UserTypeMulticast n' w' = None.
Proof.
  eexists _, _. split; [vm_compute; reflexivity|].
  eapply (failed_removal_blocks (K := Sim.kernel) (B := ()) Sim.sockets Sim.sockets client_settled.2 _ client_unplugged).
  6: vm_compute; reflexivity.
  1: vm_compute; reflexivity.
  all: first [reflexivity|by eexists].
Defined.
