(* ===== verification/ClientBgp.v ===== *)
(** * Client daemon: BGP sessions

    Models [client/doublezerod/internal/bgp] ([bgp.go], [plugin.go],
    [routerw.go]): the plugin that reports the status of a session and installs
    its routes, with the goroutines of its timeouts, and the server that keeps
    the last status of each peer. The corebgp library calls the plugin and
    answers [AddPeer] and [DeletePeer]; gobgp decodes updates. Both are
    arguments here. *)

From stdpp Require Import base tactics numbers list gmap.
From Stdlib Require Import ZArith Lia ZifyBool ZifyNat.
From S2P Require Import Prelude Bytes GoStrings GoCollections Routing GoNet ClientServices.

#[local] Open Scope Z_scope.

(** ** Status *)

Inductive SessionStatus :=
  | SessionStatusPending | SessionStatusInitializing | SessionStatusDown
  | SessionStatusUp | SessionStatusFailed | SessionStatusUnreachable.

#[global] Instance SessionStatus_eq_dec : EqDecision SessionStatus.
Proof. solve_decision. Defined.

Record BgpSession := mkBgpSession { session_status : SessionStatus; LastSessionUpdate : Z }.

Definition SessionStatus_String (s : SessionStatus) : bytes :=
  match s with
  | SessionStatusPending => lit "Pending BGP Session"
  | SessionStatusInitializing => lit "Initializing BGP Session"
  | SessionStatusDown => lit "BGP Session Down"
  | SessionStatusUp => lit "BGP Session Up"
  | SessionStatusFailed => lit "BGP Session Failed"
  | SessionStatusUnreachable => lit "Network Unreachable"
  end.

Definition all_statuses : list SessionStatus :=
  [SessionStatusPending; SessionStatusInitializing; SessionStatusDown; SessionStatusUp; SessionStatusFailed; SessionStatusUnreachable].

(** A string that is not in the map gives the zero status. *)
Definition SessionStatus_FromString (str : bytes) : SessionStatus :=
  default SessionStatusPending (snd <$> list_find (fun s => SessionStatus_String s = str) all_statuses).

Lemma SessionStatus_roundtrip s : SessionStatus_FromString (SessionStatus_String s) = s.
Proof. by destruct s; vm_compute. Qed.

(** ** Plugin

    [timeout] is the deadline of the timeout that was started last and not
    cancelled; [escaped] counts the goroutines whose timer fired and that have
    not yet taken the lock [mu]; [emitting] is what the one that holds it has
    decided to send. *)

Record Plugin := mkPlugin {
  AdvertisedNLRI : list NLRI;
  plugin_RouteSrc : IP;
  plugin_RouteTable : Z;
  plugin_NoInstall : bool;
  plugin_NoUninstall : bool;
  startedAt : Z;
  initiallyEstablished : bool;
  currentlyEstablished : bool;
  peerAddr : IP;
  tcpConnected : bool;
  deleted : bool;
  timeout : option Z;
  escaped : nat;
  emitting : option (IP * BgpSession)
}.

#[global] Instance Plugin_eta : RecordEta Plugin := {
  eta_record := fun r => mkPlugin (AdvertisedNLRI r) (plugin_RouteSrc r) (plugin_RouteTable r) (plugin_NoInstall r)
    (plugin_NoUninstall r) (startedAt r) (initiallyEstablished r) (currentlyEstablished r) (peerAddr r)
    (tcpConnected r) (deleted r) (timeout r) (escaped r) (emitting r);
  eta_record_id := fun r => match r with mkPlugin _ _ _ _ _ _ _ _ _ _ _ _ _ _ => eq_refl end
}.

Definition BGPSessionTimeout : Z := 30 * 1000000000.

Definition NewBgpPlugin (advertised : list NLRI) (src : IP) (table : Z) (noInstall noUninstall : bool) (now : Z) : Plugin :=
  mkPlugin advertised src table noInstall noUninstall now false false [] false false None 0 None.

Definition startSessionTimeout (now : Z) (p : Plugin) : Plugin := p <| timeout := Some (now + BGPSessionTimeout) |>.

Definition MarkDeleted (p : Plugin) : Plugin := p <| deleted := true |> <| timeout := None |>.

(** The timer of the timeout fires. *)
Definition elapse (now : Z) (p : Plugin) : Plugin :=
  match timeout p with
  | Some d => if d <=? now then p <| timeout := None |> <| escaped := S (escaped p) |> else p
  | None => p
  end.

(** What [emitTimeoutStatus] reports, if anything. *)
Definition emitTimeoutStatus (p : Plugin) : option SessionStatus :=
  if deleted p then None
  else if currentlyEstablished p then None
  else Some (if tcpConnected p then SessionStatusFailed else SessionStatusUnreachable).

(** ** Server

    [peerPlugins] and the events name plugins by their index in [heap]. The
    status goroutine of [Serve] has received [inflight] and not yet stored it;
    a send completes when that goroutine receives again. *)

Record BgpServer := mkBgpServer {
  plugins_heap : list Plugin;
  inflight : option (bytes * BgpSession);
  peerStatus : gmap bytes BgpSession;
  peerPlugins : gmap bytes nat
}.

#[global] Instance BgpServer_eta : RecordEta BgpServer := {
  eta_record := fun r => mkBgpServer (plugins_heap r) (inflight r) (peerStatus r) (peerPlugins r);
  eta_record_id := fun r => match r with mkBgpServer _ _ _ _ => eq_refl end
}.

Definition NewBgpServer : BgpServer := mkBgpServer [] None ∅ ∅.

Definition store_status (b : BgpServer) : BgpServer :=
  match inflight b with
  | Some (addr, s) => b <| inflight := None |> <| peerStatus := <[addr := s]> (peerStatus b) |>
  | None => b
  end.

Definition session_at (s : SessionStatus) (now : Z) : BgpSession := mkBgpSession s (now / 1000000000).

Definition send_event (addr : IP) (s : BgpSession) (b : BgpServer) : BgpServer :=
  (store_status b) <| inflight := Some (IP_String addr, s) |>.

Definition send_status (addr : IP) (s : SessionStatus) (now : Z) (b : BgpServer) : BgpServer :=
  send_event addr (session_at s now) b.

Definition on_plugin (i : nat) (f : Plugin -> Plugin) (b : BgpServer) : BgpServer :=
  b <| plugins_heap := alter f i (plugins_heap b) |>.

Definition GetPeerStatus (ip : IP) (b : BgpServer) : BgpSession :=
  default (mkBgpSession SessionStatusPending 0) (peerStatus b !! IP_String ip).

Inductive core_result := CoreOk | CorePeerExists | CorePeerNotExist | CoreErr.

(** [AddPeer], given what corebgp answers; [NlExists] is [ErrBgpPeerExists].
    The plugin of a failed call keeps running its timeout. *)
Definition bgp_AddPeer (p : PeerConfig) (advertised : list NLRI) (core : core_result) (now : Z) (b : BgpServer) :
    nl_result * BgpServer :=
  let plugin := startSessionTimeout now
    ((NewBgpPlugin advertised (RouteSrc p) (RouteTable p) (NoInstall p) (NoUninstall p) now) <| peerAddr := RemoteAddress p |>) in
  let i := length (plugins_heap b) in
  let b := send_status (RemoteAddress p) SessionStatusPending now b in
  let b := b <| plugins_heap := plugins_heap b ++ [plugin] |> in
  match core with
  | CorePeerExists => (NlExists, b)
  | _ => (match core with CoreOk => NlOk | _ => NlErr end,
          b <| peerPlugins := <[IP_String (RemoteAddress p) := i]> (peerPlugins b) |>)
  end.

Definition bgp_DeletePeer (ip : IP) (core : core_result) (b : BgpServer) : nl_result * BgpServer :=
  if negb (bool_decide (length ip = 4%nat \/ length ip = 16%nat)) then (NlErr, b)
  else
    let b := match peerPlugins b !! IP_String ip with
             | Some i => (on_plugin i MarkDeleted b) <| peerPlugins := delete (IP_String ip) (peerPlugins b) |>
             | None => b
             end in
    let b := b <| peerStatus := delete (IP_String ip) (peerStatus b) |> in
    (match core with CoreOk => NlOk | CorePeerNotExist => NlExists | _ => NlErr end, b).

(** ** Callbacks of corebgp *)

Definition GetCapabilities (i : nat) (remote : IP) (now : Z) (b : BgpServer) : BgpServer :=
  send_status remote SessionStatusPending now
    (on_plugin i (fun p => p <| tcpConnected := true |> <| peerAddr := remote |>) b).

Definition OnOpenMessage (remote : IP) (now : Z) (b : BgpServer) : BgpServer :=
  send_status remote SessionStatusInitializing now b.

(** [OnEstablished] up to the release of the lock, and from there on. It waits
    for the lock while a timeout holds it. *)
Definition OnEstablished_lock (i : nat) (b : BgpServer) : BgpServer :=
  on_plugin i (fun p => match emitting p with Some _ => p | None => p <| currentlyEstablished := true |> end) b.

Definition OnEstablished_report (i : nat) (remote : IP) (now : Z) (b : BgpServer) : BgpServer :=
  send_status remote SessionStatusUp now
    (on_plugin i (fun p => p <| timeout := None |> <| initiallyEstablished := true |>) b).

(** [OnClose] but for the routes, and the timeout started at its end. *)
Definition OnClose_report (i : nat) (remote : IP) (now : Z) (b : BgpServer) : BgpServer :=
  send_status remote SessionStatusDown now
    (on_plugin i (fun p => p <| timeout := None |> <| currentlyEstablished := false |>) b).

Definition OnClose_restart (i : nat) (now : Z) (b : BgpServer) : BgpServer :=
  on_plugin i (fun p => if deleted p then p else startSessionTimeout now p) b.

(** A goroutine whose timer fired takes the lock, reads the flags, and sends
    holding the lock; [MarkDeleted] and [OnClose] set the flags without it. *)
Definition emit_check (i : nat) (now : Z) (b : BgpServer) : BgpServer :=
  match plugins_heap b !! i with
  | Some p =>
      match escaped p, emitting p with
      | S n, None => on_plugin i (fun q => q <| escaped := n |>
          <| emitting := (fun s => (peerAddr p, session_at s now)) <$> emitTimeoutStatus p |>) b
      | _, _ => b
      end
  | None => b
  end.

Definition emit_send (i : nat) (b : BgpServer) : BgpServer :=
  match plugins_heap b !! i ≫= emitting with
  | Some (addr, s) => send_event addr s (on_plugin i (fun p => p <| emitting := None |>) b)
  | None => b
  end.

(** ** Routes *)

Definition RTPROT_BGP : Z := 186.

Record BGPUpdate := mkBGPUpdate {
  WithdrawnRoutes : list (IP * Z);
  NextHops : list IP;
  UpdateNLRI : list (IP * Z)
}.

Section Routes.
Context {K : Type} `{!RouteReaderWriter K}.

(** [routeReaderWriterWithNoUninstall]. *)
Definition rw_RouteDelete (noUninstall : bool) (r : Route) (k : K) : bool * K :=
  if noUninstall then (true, k) else RouteDelete r k.

Definition flush_route (p : Plugin) (remote : IP) (k : K) (r : Route) : K :=
  if ip_equal (NextHop r) remote then (rw_RouteDelete (plugin_NoUninstall p) r k).2 else k.

Definition OnClose_routes (p : Plugin) (remote : IP) (k : K) : K :=
  if plugin_NoInstall p then k else foldl (flush_route p remote) k (RouteByProtocol RTPROT_BGP k).

Definition prefix_net (prefix : IP * Z) : IPNet := mkIPNet prefix.1 (CIDRMask prefix.2).

(** The last next hop of the update applies to every prefix. *)
Definition handleUpdate (p : Plugin) (remote : IP) (decoded : option BGPUpdate) (k : K) : K :=
  if plugin_NoInstall p then k
  else match decoded with
  | None => k
  | Some u =>
      let withdraw k prefix := (rw_RouteDelete (plugin_NoUninstall p)
        (mkRoute (prefix_net prefix) (plugin_RouteSrc p) (plugin_RouteTable p) remote 0) k).2 in
      let nexthop := default [] (last (NextHops u)) in
      let announce k prefix := (RouteAdd
        (mkRoute (prefix_net prefix) (plugin_RouteSrc p) (plugin_RouteTable p) nexthop RTPROT_BGP) k).2 in
      foldl announce (foldl withdraw k (WithdrawnRoutes u)) (UpdateNLRI u)
  end.
End Routes.

(** ** Interleavings *)

Inductive bgp_event :=
  | EvCapabilities (i : nat) (remote : IP) (now : Z)
  | EvOpen (remote : IP) (now : Z)
  | EvLock (i : nat)
  | EvEstablished (i : nat) (remote : IP) (now : Z)
  | EvClose (i : nat) (remote : IP) (now : Z)
  | EvRestart (i : nat) (now : Z)
  | EvElapse (i : nat) (now : Z)
  | EvCheck (i : nat) (now : Z)
  | EvSend (i : nat)
  | EvStore
  | EvAdd (p : PeerConfig) (advertised : list NLRI) (core : core_result) (now : Z)
  | EvDelete (ip : IP) (core : core_result).

Definition bgp_step (b : BgpServer) (ev : bgp_event) : BgpServer :=
  match ev with
  | EvCapabilities i remote now => GetCapabilities i remote now b
  | EvOpen remote now => OnOpenMessage remote now b
  | EvLock i => OnEstablished_lock i b
  | EvEstablished i remote now => OnEstablished_report i remote now b
  | EvClose i remote now => OnClose_report i remote now b
  | EvRestart i now => OnClose_restart i now b
  | EvElapse i now => on_plugin i (elapse now) b
  | EvCheck i now => emit_check i now b
  | EvSend i => emit_send i b
  | EvStore => store_status b
  | EvAdd p advertised core now => (bgp_AddPeer p advertised core now b).2
  | EvDelete ip core => (bgp_DeletePeer ip core b).2
  end.

(** Nothing closes, adds or deletes the peer of plugin [i] at [addr], and
    corebgp starts no other session with it; timers may fire at any point. *)
Definition quiet (i : nat) (addr : bytes) (ev : bgp_event) : Prop :=
  match ev with
  | EvCapabilities j remote _ | EvEstablished j remote _ | EvClose j remote _ => j <> i /\ IP_String remote <> addr
  | EvOpen remote _ => IP_String remote <> addr
  | EvAdd p _ _ _ => IP_String (RemoteAddress p) <> addr
  | EvDelete ip _ => IP_String ip <> addr
  | EvLock _ | EvRestart _ _ | EvElapse _ _ | EvCheck _ _ | EvSend _ | EvStore => True
  end.

(** The status of a peer once the status goroutine is idle. *)
Definition last_status (addr : bytes) (b : BgpServer) : option BgpSession := peerStatus (store_status b) !! addr.

(** The other plugins that were made for an address are deleted, and none of
    them is about to send. *)
Definition silent (addr : bytes) (q : Plugin) : Prop :=
  (IP_String (peerAddr q) = addr -> deleted q = true) /\ (forall a s, emitting q = Some (a, s) -> IP_String a <> addr).

Definition others_silent (i : nat) (addr : bytes) (b : BgpServer) : Prop :=
  forall j q, j <> i -> plugins_heap b !! j = Some q -> silent addr q.

Definition mutex_free (i : nat) (b : BgpServer) : Prop := exists p, plugins_heap b !! i = Some p /\ emitting p = None.

(** The session of a plugin is established, and no timeout holds its lock. *)
Definition established (p : Plugin) : Prop := currentlyEstablished p = true /\ emitting p = None.

Definition is_established (i : nat) (b : BgpServer) : Prop := exists p, plugins_heap b !! i = Some p /\ established p.

Lemma last_status_alt addr b : last_status addr b =
  match inflight b with Some (a, s) => if decide (a = addr) then Some s else peerStatus b !! addr | None => peerStatus b !! addr end.
Proof.
  unfold last_status, store_status. destruct (inflight b) as [[a s]|]; [|done]. cbn [peerStatus set_field].
  destruct (decide (a = addr)) as [->|]; [apply lookup_insert_eq|by apply lookup_insert_ne].
Qed.

Lemma last_status_store addr b : last_status addr (store_status b) = last_status addr b.
Proof. rewrite (last_status_alt _ (store_status b)). unfold last_status, store_status. by destruct (inflight b) as [[a s]|] eqn:E; [|rewrite E]. Qed.

Lemma last_status_event addr ip s b : last_status addr (send_event ip s b) =
  if decide (IP_String ip = addr) then Some s else last_status addr b.
Proof. by rewrite last_status_alt. Qed.

Lemma last_status_plugin addr i f b : last_status addr (on_plugin i f b) = last_status addr b.
Proof. by rewrite !last_status_alt. Qed.

Lemma heap_store b : plugins_heap (store_status b) = plugins_heap b.
Proof. unfold store_status. by destruct (inflight b) as [[a s]|]. Qed.

Lemma heap_event ip s b : plugins_heap (send_event ip s b) = plugins_heap b.
Proof. apply heap_store. Qed.

(** Updates of a plugin that keep what the others rely on. *)
Lemma on_plugin_keeps i addr j f b : is_established i b -> others_silent i addr b ->
  (forall p, j = i -> established p -> established (f p)) -> (forall p, j <> i -> silent addr p -> silent addr (f p)) ->
  is_established i (on_plugin j f b) /\ others_silent i addr (on_plugin j f b).
Proof.
  intros (p & Hp & He) Ho Hi Hj. split.
  - destruct (decide (j = i)) as [->|Hne].
    + exists (f p). cbn. rewrite list_lookup_alter_eq, Hp. auto.
    + exists p. cbn. by rewrite list_lookup_alter_ne.
  - intros m q Hm. cbn. destruct (decide (j = m)) as [->|Hne].
    + rewrite list_lookup_alter_eq, fmap_Some. intros (q0 & Hq0 & ->). apply Hj; [done|]. by eapply Ho.
    + rewrite list_lookup_alter_ne by done. by apply Ho.
Qed.

(** What the steps keep. *)
Definition keeps (i : nat) (addr : bytes) (b b' : BgpServer) : Prop :=
  is_established i b -> others_silent i addr b ->
  is_established i b' /\ others_silent i addr b' /\ last_status addr b' = last_status addr b.

Lemma keeps_plugin i addr j f b :
  (forall p, j = i -> established p -> established (f p)) -> (forall p, j <> i -> silent addr p -> silent addr (f p)) ->
  keeps i addr b (on_plugin j f b).
Proof. intros Hi Hj He Ho. apply and_assoc; split; [by apply on_plugin_keeps|apply last_status_plugin]. Qed.

Lemma keeps_event i addr ip s b : IP_String ip <> addr -> keeps i addr b (send_event ip s b).
Proof.
  intros Ha He Ho. unfold is_established, others_silent. rewrite heap_event, last_status_event, decide_False by done. done.
Qed.

Lemma keeps_trans i addr b b' b'' : keeps i addr b b' -> keeps i addr b' b'' -> keeps i addr b b''.
Proof. intros H1 H2 He Ho. destruct (H1 He Ho) as (He1 & Ho1 & <-). by apply H2. Qed.

(** A timeout of the plugin itself finds the session established, one of
    another plugin finds the plugin deleted. *)
Lemma check_quiet i addr j now b : keeps i addr b (emit_check j now b).
Proof.
  unfold emit_check. destruct (plugins_heap b !! j) as [p|] eqn:Hp; [|done].
  destruct (escaped p) as [|n]; [done|]. destruct (emitting p) eqn:Hem; [done|].
  intros He Ho. assert (Hst : emitTimeoutStatus p = None \/ j <> i /\ IP_String (peerAddr p) <> addr).
  { unfold emitTimeoutStatus. destruct (decide (j = i)) as [->|Hne].
    - destruct He as (p' & Hp' & Hest & _). rewrite Hp in Hp'. injection Hp' as <-. rewrite Hest. left. by destruct (deleted p).
    - destruct (Ho j p Hne Hp) as [Hd _]. destruct (decide (IP_String (peerAddr p) = addr)) as [Ha|]; [|by right].
      left. by rewrite Hd. }
  revert He Ho. apply keeps_plugin.
  - intros q -> [Hq Hn]. split; [done|]. cbn. destruct Hst as [->|[? _]]; done.
  - intros q Hne [Hd Hs]. split; [done|]. cbn. destruct Hst as [->|[_ Ha]]; [done|].
    intros a s (? & _ & [= -> _])%fmap_Some. exact Ha.
Qed.

Lemma send_quiet i addr j b : keeps i addr b (emit_send j b).
Proof.
  unfold emit_send. destruct (plugins_heap b !! j) as [p|] eqn:Hp; [cbn [mbind option_bind]|done].
  destruct (emitting p) as [[ip s]|] eqn:Hem; [|done].
  intros He Ho. assert (Ha : IP_String ip <> addr).
  { destruct (decide (j = i)) as [->|Hne].
    - destruct He as (p' & Hp' & _ & Hn). rewrite Hp in Hp'. injection Hp' as <-. by rewrite Hem in Hn.
    - by apply (proj2 (Ho j p Hne Hp) ip s). }
  revert He Ho. eapply keeps_trans; [apply keeps_plugin|by apply keeps_event].
  - by intros q _ [Hq _].
  - by intros q _ [Hd _].
Qed.

Lemma add_quiet i addr p advertised core now b : IP_String (RemoteAddress p) <> addr ->
  keeps i addr b (bgp_AddPeer p advertised core now b).2.
Proof.
  intros Ha He Ho. set (q := startSessionTimeout now
    ((NewBgpPlugin advertised (RouteSrc p) (RouteTable p) (NoInstall p) (NoUninstall p) now) <| peerAddr := RemoteAddress p |>)).
  assert (Hheap : plugins_heap (bgp_AddPeer p advertised core now b).2 = plugins_heap b ++ [q]).
  { rewrite <- (heap_store b). by destruct core. }
  assert (Hlast : last_status addr (bgp_AddPeer p advertised core now b).2 = last_status addr b).
  { transitivity (last_status addr (send_status (RemoteAddress p) SessionStatusPending now b));
      [|unfold send_status; by rewrite last_status_event, decide_False]. rewrite !last_status_alt. by destruct core. }
  unfold is_established, others_silent. rewrite Hheap. split_and!; [| |done].
  - destruct He as (r & Hr & He). exists r. split; [|done]. by apply lookup_app_l_Some.
  - intros j r Hj [Hr|[Hlen Hr]]%lookup_app_Some; [by eapply Ho|].
    apply list_lookup_singleton_Some in Hr as [_ <-]. split; [|done]. intros E. by destruct Ha.
Qed.

Lemma delete_quiet i addr ip core b : IP_String ip <> addr -> keeps i addr b (bgp_DeletePeer ip core b).2.
Proof.
  intros Ha. unfold bgp_DeletePeer. destruct (negb _); [done|]. cbn [snd].
  assert (Hmap : forall b0 f, plugins_heap (b0 <| peerPlugins := f |>) = plugins_heap b0) by done.
  assert (Hdel : forall b0, keeps i addr b b0 -> keeps i addr b (b0 <| peerStatus := delete (IP_String ip) (peerStatus b0) |>)).
  { intros b0 H He Ho. destruct (H He Ho) as (He0 & Ho0 & <-). split_and!; [exact He0|exact Ho0|].
    rewrite !last_status_alt. cbn [inflight peerStatus set_field]. by rewrite lookup_delete_ne. }
  apply Hdel. destruct (peerPlugins b !! IP_String ip) as [j|]; [|done].
  intros He Ho. destruct (keeps_plugin i addr j MarkDeleted b) with (3 := He) (4 := Ho) as (He' & Ho' & Hs).
  - by intros p _ [? ?].
  - by intros p _ [? ?].
  - split_and!; [exact He'|exact Ho'|]. by rewrite <- Hs, !last_status_alt.
Qed.

(** A callback to another plugin, for another address. *)
Lemma report_quiet i addr j f ip s b : j <> i /\ IP_String ip <> addr ->
  (forall p, deleted (f p) = deleted p) -> (forall p, emitting (f p) = emitting p) ->
  (forall p, peerAddr (f p) = peerAddr p \/ peerAddr (f p) = ip) ->
  keeps i addr b (send_event ip s (on_plugin j f b)).
Proof.
  intros [Hj Ha] Hd He Hp. eapply keeps_trans; [apply keeps_plugin; [done|]|by apply keeps_event].
  intros p _ [H1 H2]. split; [|by rewrite He]. rewrite Hd. destruct (Hp p) as [->|Hr]; [done|]. by rewrite Hr.
Qed.

Lemma quiet_step i addr ev b : quiet i addr ev -> keeps i addr b (bgp_step b ev).
Proof.
  intros Hq. destruct ev; cbn [bgp_step quiet] in *.
  - apply report_quiet; [done..|by right].
  - by apply keeps_event.
  - apply keeps_plugin; [by intros p _ [? Hn]; rewrite Hn|]. intros p _ Hs. destruct (emitting p); [done|exact Hs].
  - apply report_quiet; [done..|by left].
  - apply report_quiet; [done..|by left].
  - apply keeps_plugin; intros p _ Hs; destruct (deleted p); exact Hs.
  - apply keeps_plugin; intros p _ Hs; unfold elapse; (destruct (timeout p); [destruct (_ <=? _)|]); exact Hs.
  - apply check_quiet.
  - apply send_quiet.
  - intros He Ho. unfold is_established, others_silent. by rewrite heap_store, last_status_store.
  - by apply add_quiet.
  - by apply delete_quiet.
Qed.

Lemma quiet_run i addr evs b : Forall (quiet i addr) evs -> keeps i addr b (foldl bgp_step b evs).
Proof.
  intros Hq. revert b. induction Hq as [|ev evs Hev _ IH]; intros b; [done|]. cbn [foldl].
  eapply keeps_trans; [by apply quiet_step|apply IH].
Qed.

(** C26.  Let the other plugins that were made for the address of a peer be
    deleted and not about to send. Once the plugin of the peer has taken its
    lock in [OnEstablished], the peer is reported up, until something closes,
    adds or deletes it or corebgp negotiates another session with it: a timeout
    whose timer fired before or during [OnEstablished] does not overwrite the
    status, however its goroutine is scheduled. *)
Theorem established_stays_up i remote now evs1 evs2 b :
  mutex_free i b -> others_silent i (IP_String remote) b ->
  Forall (quiet i (IP_String remote)) evs1 -> Forall (quiet i (IP_String remote)) evs2 ->
  GetPeerStatus remote (store_status (foldl bgp_step
    (OnEstablished_report i remote now (foldl bgp_step (OnEstablished_lock i b) evs1)) evs2)) =
  mkBgpSession SessionStatusUp (now / 1000000000).
Proof.
  intros (p & Hp & Hem) Ho H1 H2.
  assert (He : is_established i (OnEstablished_lock i b)).
  { exists (p <| currentlyEstablished := true |>). cbn. by rewrite list_lookup_alter_eq, Hp; cbn; rewrite Hem. }
  assert (Ho1 : others_silent i (IP_String remote) (OnEstablished_lock i b)).
  { intros j q Hj. cbn. rewrite list_lookup_alter_ne by done. by apply Ho. }
  destruct (quiet_run _ _ _ _ H1 He Ho1) as (He1 & Ho2 & _).
  set (b1 := foldl bgp_step _ evs1) in *.
  destruct (on_plugin_keeps i (IP_String remote) i (fun p => p <| timeout := None |> <| initiallyEstablished := true |>) b1 He1 Ho2)
    as [He2 Ho3]; [done..|].
  assert (H3 : is_established i (OnEstablished_report i remote now b1) /\
    others_silent i (IP_String remote) (OnEstablished_report i remote now b1)).
  { unfold OnEstablished_report, send_status, is_established, others_silent. by rewrite heap_event. }
  destruct (quiet_run _ _ _ _ H2 (proj1 H3) (proj2 H3)) as (_ & _ & Hs). unfold last_status in Hs at 1.
  unfold GetPeerStatus. rewrite Hs. unfold OnEstablished_report, send_status. by rewrite last_status_event, decide_True.
Qed.

(** Adding a peer that already exists reports it pending, and unreachable
    30 seconds later, while its session stays established: the plugin of the
    failed call was never handed to corebgp, and its timeout is not cancelled. *)
Theorem readded_peer_unreachable i p advertised now t b :
  is_established i b -> now + BGPSessionTimeout <= t ->
  let '(res, b1) := bgp_AddPeer p advertised CorePeerExists now b in
  let j := length (plugins_heap b) in
  let b2 := store_status (foldl bgp_step b1 [EvElapse j t; EvCheck j t; EvSend j]) in
  res = NlExists /\ is_established i b2 /\
  GetPeerStatus (RemoteAddress p) (store_status b1) = mkBgpSession SessionStatusPending (now / 1000000000) /\
  GetPeerStatus (RemoteAddress p) b2 = mkBgpSession SessionStatusUnreachable (t / 1000000000).
Proof.
  intros (q & Hq & He) Ht. unfold bgp_AddPeer. set (b0 := send_status (RemoteAddress p) SessionStatusPending now b).
  set (fresh := startSessionTimeout now _). set (b1 := b0 <| plugins_heap := plugins_heap b0 ++ [fresh] |>). cbn zeta.
  set (j := length (plugins_heap b)). assert (Hi : (i < j)%nat) by by apply lookup_lt_Some in Hq.
  assert (Hh : plugins_heap b1 = plugins_heap b ++ [fresh]) by (cbn; by rewrite heap_store).
  assert (Hel : plugins_heap (bgp_step b1 (EvElapse j t)) = plugins_heap b ++ [elapse t fresh]).
  { cbn [bgp_step]. unfold on_plugin. cbn [plugins_heap set_field]. rewrite Hh. by rewrite alter_app_r_alt, Nat.sub_diag by done. }
  assert (Hfr : elapse t fresh = fresh <| timeout := None |> <| escaped := 1%nat |>).
  { unfold elapse, fresh, startSessionTimeout. cbn [timeout set_field]. by rewrite (proj2 (Z.leb_le _ _) Ht). }
  assert (Hpend : GetPeerStatus (RemoteAddress p) (store_status b1) = mkBgpSession SessionStatusPending (now / 1000000000)).
  { unfold GetPeerStatus. cbn. by rewrite lookup_insert_eq. }
  split; [done|]. cbn [foldl]. set (b2 := bgp_step b1 (EvElapse j t)) in *. clearbody b2 b1.
  assert (Hck : bgp_step b2 (EvCheck j t) = on_plugin j (fun p' => p' <| escaped := O |>
    <| emitting := Some (RemoteAddress p, session_at SessionStatusUnreachable t) |>) b2).
  { cbn [bgp_step]. unfold emit_check. rewrite Hel, lookup_app_r, Nat.sub_diag by done. cbn [lookup list_lookup].
    by rewrite Hfr. }
  rewrite Hck. set (b3 := on_plugin j _ b2) in *.
  assert (Hsd : bgp_step b3 (EvSend j) = send_event (RemoteAddress p) (session_at SessionStatusUnreachable t)
    (on_plugin j (fun p => p <| emitting := None |>) b3)).
  { cbn [bgp_step]. unfold emit_send, b3 at 1. cbn [plugins_heap on_plugin set_field].
    by rewrite list_lookup_alter_eq, Hel, lookup_app_r, Nat.sub_diag by done. }
  rewrite Hsd. split_and!; [|done|].
  - exists q. rewrite heap_store, heap_event. cbn. rewrite !list_lookup_alter_ne by lia. by rewrite Hel, lookup_app_l.
  - unfold GetPeerStatus. cbn. by rewrite lookup_insert_eq.
Qed.

(** ** Flushing the routes of a peer *)

(** What the plugin relies on of the kernel: a listed route can be deleted,
    and a deletion concerns only the route it names. *)
Class ListedRoutes (K : Type) `{!RouteReaderWriter K} := {
  delete_listed : forall proto r (k : K), r ∈ RouteByProtocol proto k -> (RouteDelete r k).1 = true;
  delete_exact : forall proto r x (k : K), (RouteDelete r k).1 = true ->
    x ∈ RouteByProtocol proto (RouteDelete r k).2 <-> x ∈ RouteByProtocol proto k /\ x <> r;
  delete_absent : forall proto r x (k : K), (RouteDelete r k).1 = false ->
    x ∈ RouteByProtocol proto (RouteDelete r k).2 <-> x ∈ RouteByProtocol proto k
}.

Section Flush.
Context {K : Type} `{!RouteReaderWriter K, !ListedRoutes K}.

Lemma delete_route proto r x (k : K) :
  x ∈ RouteByProtocol proto (RouteDelete r k).2 <-> x ∈ RouteByProtocol proto k /\ x <> r.
Proof.
  destruct ((RouteDelete r k).1) eqn:Hr; [by apply delete_exact|]. rewrite (delete_absent proto r x k Hr).
  split; [|tauto]. intros Hx. split; [done|]. intros ->. by rewrite (delete_listed proto r k Hx) in Hr.
Qed.

Lemma flush_routes p remote rs (k : K) x :
  x ∈ RouteByProtocol RTPROT_BGP (foldl (flush_route p remote) k rs) <->
  x ∈ RouteByProtocol RTPROT_BGP k /\ (plugin_NoUninstall p = true \/ ip_equal (NextHop x) remote = false \/ x ∉ rs).
Proof.
  revert k. induction rs as [|r rs IH]; intros k; cbn [foldl].
  - rewrite elem_of_nil. tauto.
  - rewrite IH, not_elem_of_cons. unfold flush_route, rw_RouteDelete.
    destruct (plugin_NoUninstall p); [destruct (ip_equal (NextHop r) remote); cbn [snd]; intuition|].
    destruct (ip_equal (NextHop r) remote) eqn:Hr.
    + rewrite delete_route. destruct (decide (x = r)) as [->|]; [|tauto]. rewrite Hr. intuition congruence.
    + destruct (decide (x = r)) as [->|]; [|tauto]. rewrite Hr. intuition congruence.
Qed.

(** When a session closes, the BGP routes left in the kernel are exactly
    those with another next hop than the peer, or all of them if the plugin
    installs or uninstalls none. *)
Theorem OnClose_flushes p remote (k : K) x :
  x ∈ RouteByProtocol RTPROT_BGP (OnClose_routes p remote k) <->
  x ∈ RouteByProtocol RTPROT_BGP k /\
    (plugin_NoInstall p = true \/ plugin_NoUninstall p = true \/ ip_equal (NextHop x) remote = false).
Proof.
  unfold OnClose_routes. destruct (plugin_NoInstall p); [tauto|]. rewrite flush_routes. intuition congruence.
Qed.
End Flush.

(** ** Examples *)

Definition peer_ip : IP := [169; 254; 0; 0].

Definition peer_cfg : PeerConfig :=
  mkPeerConfig [169; 254; 0; 1] peer_ip 65000 65001 [100; 0; 0; 1] 254 false false [] false.

Definition peer_plugin : Plugin :=
  (NewBgpPlugin [] [100; 0; 0; 1] 254 false false 0) <| peerAddr := peer_ip |>.

(** A peer is added, its timer fires while the session comes up, and the
    goroutine runs only after [OnEstablished]. *)
Definition peer_added : BgpServer := (bgp_AddPeer peer_cfg [] CoreOk 0 NewBgpServer).2.

Lemma established_stays_up_witness :
  GetPeerStatus peer_ip (store_status (foldl bgp_step
    (OnEstablished_report 0 peer_ip 31000000000 (foldl bgp_step (OnEstablished_lock 0 peer_added) [EvElapse 0 30000000000]))
    [EvCheck 0 31000000000; EvSend 0; EvStore])) = mkBgpSession SessionStatusUp 31.
Proof.
  rewrite (established_stays_up 0 peer_ip 31000000000 [EvElapse 0 30000000000] [EvCheck 0 31000000000; EvSend 0; EvStore] peer_added);
    [reflexivity|by eexists| |by repeat constructor|by repeat constructor].
  intros [|j] q Hj; [done|]. by rewrite lookup_ge_None_2 by (vm_compute; lia).
Defined.

Definition peer_up : BgpServer := OnEstablished_report 0 peer_ip 1000000000 (OnEstablished_lock 0 peer_added).

Lemma readded_peer_unreachable_witness :
  GetPeerStatus peer_ip (store_status peer_up) = mkBgpSession SessionStatusUp 1 /\
  let b1 := (bgp_AddPeer peer_cfg [] CorePeerExists 2000000000 peer_up).2 in
  let b2 := store_status (foldl bgp_step b1 [EvElapse 1 40000000000; EvCheck 1 40000000000; EvSend 1]) in
  is_established 0 b2 /\ GetPeerStatus peer_ip b2 = mkBgpSession SessionStatusUnreachable 40.
Proof.
  split; [vm_compute; reflexivity|].
  assert (He : is_established 0 peer_up) by (eexists; split; [vm_compute; reflexivity|split; reflexivity]).
  pose proof (readded_peer_unreachable 0 peer_cfg [] 2000000000 40000000000 peer_up He) as H.
  destruct H as (_ & H1 & _ & H2); [by vm_compute|]. split; [exact H1|exact H2].
Defined.

(** A kernel that deletes exactly the route it is given. *)
Definition exact_routes := list Route.

#[global] Instance exact_rw : RouteReaderWriter exact_routes := {
  RouteAdd r k := (true, r :: k);
  RouteDelete r k := (bool_decide (r ∈ k), base.filter (fun x => x <> r) k);
  RouteByProtocol proto k := base.filter (fun x => Protocol x = proto) k
}.

#[global] Instance exact_listed : ListedRoutes exact_routes.
Proof.
  split.
  - intros proto r k [_ Hr]%list_elem_of_filter. by apply bool_decide_eq_true.
  - intros proto r x k _. cbn. rewrite !list_elem_of_filter. tauto.
  - intros proto r x k Hr%bool_decide_eq_false. cbn. rewrite !list_elem_of_filter.
    split; [tauto|]. intros [Hp Hx]. split_and!; [done| |done]. intros ->. done.
Qed.

Definition update_of (nexthop : IP) (prefix : IP) : BGPUpdate := mkBGPUpdate [] [nexthop] [(prefix, 32)].

(** One route through the peer and one through another next hop: only the
    first is removed when the session closes. *)
Lemma OnClose_flushes_witness :
  let k := handleUpdate (K := exact_routes) peer_plugin peer_ip (Some (update_of [10; 0; 0; 9] [100; 0; 0; 3]))
    (handleUpdate peer_plugin peer_ip (Some (update_of peer_ip [100; 0; 0; 2])) []) in
  let kept := mkRoute (prefix_net ([100; 0; 0; 3], 32)) [100; 0; 0; 1] 254 [10; 0; 0; 9] RTPROT_BGP in
  let gone := mkRoute (prefix_net ([100; 0; 0; 2], 32)) [100; 0; 0; 1] 254 peer_ip RTPROT_BGP in
  gone ∈ RouteByProtocol RTPROT_BGP k /\ (gone ∉ RouteByProtocol RTPROT_BGP (OnClose_routes peer_plugin peer_ip k)) /\
  kept ∈ RouteByProtocol RTPROT_BGP (OnClose_routes peer_plugin peer_ip k).
Proof.
  cbn zeta. split; [apply (bool_decide_unpack _); by vm_compute|]. rewrite !(OnClose_flushes (K := exact_routes)). split.
  - intros [_ [H|[H|H]]]; by vm_compute in H.
  - split; [apply (bool_decide_unpack _); by vm_compute|]. right; right. by vm_compute.
Defined.
