(* ===== verification/Pim.v ===== *)
(** * Client daemon: PIM messages

    Models [client/doublezerod/internal/pim]: the Hello, Join/Prune and
    Register messages of [pim.go], and what the goroutines of [server.go] and
    [register.go] send. A serialize buffer is its contents; the library that
    builds the datagram inside a Register is an argument. A received packet is
    an array of its own, so a slice of it can be extended up to its end. *)

From stdpp Require Import base tactics numbers list gmap.
From Stdlib Require Import ZArith Lia ZifyBool ZifyNat.
From S2P Require Import Prelude Bytes GoStrings GoCollections Routing GoNet ClientApi.

#[local] Open Scope Z_scope.

Inductive pim_error :=
  | ErrUnicastTooShort | ErrIPv4TooShort | ErrIPv6TooShort | ErrAddressFamily | ErrHelloOptionTooShort | ErrInvalidAddress.

Abbreviation R := (res pim_error).

(** ** Indexing *)

Definition idx (b : bytes) (i : nat) : R Z := match b !! i with Some x => Ok x | None => Panic end.
Definition sub (b : bytes) (i j : nat) : R bytes := match slice_opt b i j with Some s => Ok s | None => Panic end.
Definition from (b : bytes) (i : nat) : R bytes := sub b i (length b).
Definition Uint16 (b : bytes) : R Z := if decide (length b < 2)%nat then Panic else Ok (be_val (take 2 b)).
Definition Uint32 (b : bytes) : R Z := if decide (length b < 4)%nat then Panic else Ok (be_val (take 4 b)).

(** ** Checksum *)

Fixpoint sum_words (b : bytes) (csum : Z) : R Z :=
  match b with
  | [] => Ok csum
  | [_] => Panic
  | x :: y :: b => sum_words b (u32 (u32 (csum + u32 (Z.shiftl x 8)) + y))
  end.

(** A 32-bit sum needs at most two rounds. *)
Fixpoint fold_carry (fuel : nat) (csum : Z) : Z :=
  match fuel with
  | O => csum
  | S fuel => if csum <=? 65535 then csum else fold_carry fuel (u32 (Z.shiftr csum 16 + u16 csum))
  end.

Definition Checksum (b : bytes) : R Z := csum ← sum_words b 0; Ok (65535 - u16 (fold_carry 2 csum)).

(** ** Messages *)

Definition MsgHello : Z := 0.
Definition MsgRegister : Z := 1.
Definition MsgJoinPrune : Z := 3.

Record PIMHeader := mkPIMHeader { pim_Version : Z; pim_Type : Z; pim_Reserved : Z; pim_Checksum : Z }.

Record HelloMessage := mkHello {
  Holdtime : Z;
  PropDelay : Z;
  OverrideeInterval : Z;
  DRPriority : Z;
  GenerationID : Z;
  SecondaryAddress : list IP;
  StateRefreshInterval : Z
}.

#[global] Instance HelloMessage_eta : RecordEta HelloMessage := {
  eta_record := fun r => mkHello (Holdtime r) (PropDelay r) (OverrideeInterval r) (DRPriority r) (GenerationID r)
    (SecondaryAddress r) (StateRefreshInterval r);
  eta_record_id := fun r => match r with mkHello _ _ _ _ _ _ _ => eq_refl end
}.

Definition zero_hello : HelloMessage := mkHello 0 0 0 0 0 [] 0.

Record SourceAddress := mkSource {
  src_AddressFamily : Z;
  src_EncodingType : Z;
  src_Flags : Z;
  src_MaskLength : Z;
  src_Address : IP
}.

Record Group := mkGroup {
  GroupID : Z;
  grp_AddressFamily : Z;
  grp_EncodingType : Z;
  grp_Flags : Z;
  grp_MaskLength : Z;
  MulticastGroupAddress : IP;
  NumJoinedSources : Z;
  NumPrunedSources : Z;
  Joins : list SourceAddress;
  Prunes : list SourceAddress
}.

Record JoinPruneMessage := mkJoinPrune {
  UpstreamNeighborAddress : IP;
  jp_Reserved : Z;
  NumGroups : Z;
  jp_Holdtime : Z;
  Groups : list Group
}.

(** ** Serialization *)

(** The header is prepended to what the buffer holds. *)
Definition PIMMessage_SerializeTo (h : PIMHeader) (buf : bytes) : bytes :=
  be_bytes 4 (Z.lor (Z.lor (Z.lor (u32 (Z.shiftl (pim_Version h) 28)) (u32 (Z.shiftl (pim_Type h) 24)))
    (u32 (Z.shiftl (pim_Reserved h) 16))) (pim_Checksum h)) ++ buf.

Definition hello_option (ty len : Z) (value : bytes) : bytes := be_bytes 2 ty ++ be_bytes 2 len ++ value.

Definition NewHoldtime_Bytes (holdtime : Z) : bytes := hello_option 1 2 (be_bytes 2 holdtime).

(** [JoinSuppressionDisabled] sets a bit of the type. *)
Definition LANPruneDelay_Bytes (joinSuppressionDisabled : bool) (propDelay overrideInterval : Z) : bytes :=
  hello_option (if joinSuppressionDisabled then Z.lor 2 (Z.shiftl 128 8) else 2) 4
    (be_bytes 2 propDelay ++ be_bytes 2 overrideInterval).

Definition NewDRPriority_Bytes (priority : Z) : bytes := hello_option 19 4 (be_bytes 4 priority).
Definition NewGenerationID_Bytes (genID : Z) : bytes := hello_option 20 4 (be_bytes 4 genID).
Definition NewStateRefreshInterval_Bytes (interval : Z) : bytes := hello_option 21 4 (1 :: interval :: be_bytes 2 0).

Definition serializeEncodedUnicastAddr (addr : IP) : bytes :=
  if decide (length addr = 4%nat) then 1 :: 0 :: addr
  else if decide (length addr = 16%nat) then 2 :: 0 :: addr
  else [].

(** The length field counts four bytes for an address. *)
Definition NewAddressList_Bytes (addresses : list IP) : bytes :=
  hello_option 24 (u16 (Z.of_nat (length addresses) * 4)) (mjoin (serializeEncodedUnicastAddr <$> addresses)).

Definition Hello_SerializeTo (m : HelloMessage) (buf : bytes) : bytes :=
  NewHoldtime_Bytes (Holdtime m) ++ buf ++ NewGenerationID_Bytes (GenerationID m) ++ NewDRPriority_Bytes (DRPriority m).

Definition To16 (ip : IP) : IP :=
  if decide (length ip = 4%nat) then v4InV6Prefix ++ ip else if decide (length ip = 16%nat) then ip else [].

(** The address copied into as many bytes as its family has. *)
Definition bytesFromNetIP (ip : IP) (family : Z) : bytes :=
  let fill (n : nat) (b : bytes) := take n b ++ replicate (n - length b) 0 in
  if family =? 1 then fill 4%nat (To4 ip) else if family =? 2 then fill 16%nat (To16 ip) else [].

Definition Source_Bytes (s : SourceAddress) : bytes :=
  [src_AddressFamily s; src_EncodingType s; src_Flags s; src_MaskLength s] ++
  bytesFromNetIP (src_Address s) (src_AddressFamily s).

Definition Group_Bytes (g : Group) : bytes :=
  [grp_AddressFamily g; grp_EncodingType g; grp_Flags g; grp_MaskLength g] ++
  bytesFromNetIP (MulticastGroupAddress g) (grp_AddressFamily g) ++
  be_bytes 2 (NumJoinedSources g) ++ be_bytes 2 (NumPrunedSources g) ++
  mjoin (Source_Bytes <$> Joins g) ++ mjoin (Source_Bytes <$> Prunes g).

Definition JoinPrune_SerializeTo (m : JoinPruneMessage) (buf : bytes) : bytes :=
  serializeEncodedUnicastAddr (UpstreamNeighborAddress m) ++ buf ++
  [jp_Reserved m; NumGroups m] ++ be_bytes 2 (jp_Holdtime m) ++ mjoin (Group_Bytes <$> Groups m).

Definition Register_SerializeTo (border null : bool) (data buf : bytes) : bytes :=
  be_bytes 4 (Z.lor (if border then Z.shiftl 1 31 else 0) (if null then Z.shiftl 1 30 else 0)) ++ buf ++ data.

(** ** Decoding *)

Definition decodeEncodedUnicastAddr (data : bytes) : R IP :=
  if decide (length data < 2)%nat then Err ErrUnicastTooShort
  else
    family ← idx data 0;
    if family =? 1 then if decide (length (drop 2 data) < 4)%nat then Err ErrIPv4TooShort else sub data 2 6
    else if family =? 2 then if decide (length (drop 2 data) < 16)%nat then Err ErrIPv6TooShort else sub data 2 18
    else Err ErrAddressFamily.

(** The loop over the addresses of an option runs up to the length of all the
    remaining data. *)
Fixpoint decode_addresses (fuel : nat) (data value : bytes) (i : nat) (acc : list IP) : R (list IP) :=
  if decide (length data <= i)%nat then Ok acc
  else match fuel with
  | O => Panic
  | S fuel =>
      rest ← from value i;
      addr ← decodeEncodedUnicastAddr rest;
      if bool_decide (addr = []) then Err ErrInvalidAddress
      else decode_addresses fuel data value (i + (length addr + 2)) (acc ++ [addr])
  end.

(** What an option sets; a slice of [value] can be extended to the end of
    [data]. *)
Definition option_effect (ty : Z) (value data : bytes) (hello : HelloMessage) : R HelloMessage :=
  let value_cap := drop 4 data in
  if ty =? 1 then v ← Uint16 value; Ok (hello <| Holdtime := v |>)
  else if ty =? 2 then
    a ← sub value_cap 0 2; p ← Uint16 a; b ← sub value_cap 2 4; o ← Uint16 b;
    Ok (hello <| PropDelay := p |> <| OverrideeInterval := o |>)
  else if ty =? 19 then a ← sub value_cap 0 4; v ← Uint32 a; Ok (hello <| DRPriority := v |>)
  else if ty =? 20 then v ← Uint32 value; Ok (hello <| GenerationID := v |>)
  else if ty =? 21 then v ← idx value 1; Ok (hello <| StateRefreshInterval := v |>)
  else if ty =? 24 then addrs ← decode_addresses (length data) data value 0 []; Ok (hello <| SecondaryAddress := addrs |>)
  else Ok hello.

Definition decode_option (data : bytes) (hello : HelloMessage) : R (HelloMessage * bytes) :=
  if decide (length data < 4)%nat then Err ErrHelloOptionTooShort
  else
    t ← sub data 0 2; ty ← Uint16 t;
    l ← sub data 2 4; len ← Uint16 l;
    let next := Z.to_nat (u16 (4 + len)) in
    value ← sub data 4 next;
    hello ← option_effect ty value data hello;
    rest ← from data next;
    Ok (hello, rest).

(** Each option takes at least four bytes. *)
Fixpoint decode_options (fuel : nat) (data : bytes) (hello : HelloMessage) : R HelloMessage :=
  match data, fuel with
  | [], _ => Ok hello
  | _, O => Panic
  | _, S fuel => x ← decode_option data hello; decode_options fuel x.2 x.1
  end.

Definition decodePimHelloMessage (data : bytes) : R HelloMessage := decode_options (length data) data zero_hello.

(** An encoded address after its four bytes; [addr] keeps its value when the
    family is unknown. *)
Definition decode_addr (data : bytes) (addr : IP) : R (IP * bytes) :=
  family ← idx data 0;
  if family =? 1 then a ← sub data 4 8; rest ← from data 8; Ok (a, rest)
  else if family =? 2 then a ← sub data 4 20; rest ← from data 20; Ok (a, rest)
  else rest ← from data 4; Ok (addr, rest).

Fixpoint decode_sources (n : nat) (data : bytes) (addr : IP) : R (list SourceAddress * bytes * IP) :=
  match n with
  | O => Ok ([], data, addr)
  | S n =>
      f ← idx data 0; e ← idx data 1; g ← idx data 2; m ← idx data 3;
      x ← decode_addr data addr;
      y ← decode_sources n x.2 x.1;
      Ok (mkSource f e g m x.1 :: y.1.1, y.1.2, y.2)
  end.

Definition decode_group (i : nat) (data : bytes) : R (Group * bytes) :=
  f ← idx data 0; e ← idx data 1; g ← idx data 2; m ← idx data 3;
  x ← decode_addr data [];
  let data := x.2 in
  a ← sub data 0 2; joined ← Uint16 a;
  b ← sub data 2 4; pruned ← Uint16 b;
  data ← from data 4;
  js ← decode_sources (Z.to_nat joined) data x.1;
  ps ← decode_sources (Z.to_nat pruned) js.1.2 js.2;
  Ok (mkGroup (u8 (Z.of_nat i)) f e g m x.1 joined pruned js.1.1 ps.1.1, ps.1.2).

Fixpoint decodeGroups (n i : nat) (data : bytes) : R (list Group) :=
  match n with
  | O => Ok []
  | S n => x ← decode_group i data; gs ← decodeGroups n (S i) x.2; Ok (x.1 :: gs)
  end.

Definition decodePimJoinPruneMessage (data : bytes) : R JoinPruneMessage :=
  addr ← decodeEncodedUnicastAddr data;
  if bool_decide (addr = []) then Err ErrInvalidAddress
  else
    data ← from data (length addr + 2);
    reserved ← idx data 0; num ← idx data 1;
    h ← sub data 2 4; holdtime ← Uint16 h;
    rest ← from data 4;
    groups ← decodeGroups (Z.to_nat num) 0 rest;
    Ok (mkJoinPrune addr reserved num holdtime groups).

Inductive pim_layer := LayerHello (m : HelloMessage) | LayerJoinPrune (m : JoinPruneMessage) | LayerNone.

(** The next decoder is not called on an empty payload. *)
Definition decodePim (data : bytes) : R (PIMHeader * pim_layer) :=
  b0 ← idx data 0; b1 ← idx data 1; c ← sub data 2 4; csum ← Uint16 c; payload ← from data 4;
  let h := mkPIMHeader (Z.shiftr b0 4) (Z.land b0 15) b1 csum in
  if bool_decide (payload = []) then Ok (h, LayerNone)
  else if pim_Type h =? MsgHello then m ← decodePimHelloMessage payload; Ok (h, LayerHello m)
  else if pim_Type h =? MsgJoinPrune then m ← decodePimJoinPruneMessage payload; Ok (h, LayerJoinPrune m)
  else Ok (h, LayerNone).

(** ** What is sent *)

Definition RpAddress : IP := [10; 0; 0; 0].
Definition joinHoldtime : Z := 120.
Definition pruneHoldtime : Z := 5.

Definition constructSourceAddress (ip : IP) : list SourceAddress :=
  if bool_decide (ip = []) then [] else [mkSource 1 0 7 32 ip].

Definition constructGroups (ips : list IP) (joinSource pruneSource : IP) : list Group :=
  let joins := constructSourceAddress joinSource in
  let prunes := constructSourceAddress pruneSource in
  imap (fun i ip => mkGroup (u8 (Z.of_nat i)) 1 0 0 32 ip (u16 (Z.of_nat (length joins))) (u16 (Z.of_nat (length prunes)))
    joins prunes) ips.

Definition constructJoinPruneMessage (upstream : IP) (ips : list IP) (joinSource pruneSource : IP) (holdtime : Z) : bytes :=
  PIMMessage_SerializeTo (mkPIMHeader 2 MsgJoinPrune 0 0)
    (JoinPrune_SerializeTo (mkJoinPrune upstream 0 (u8 (Z.of_nat (length ips))) holdtime
      (constructGroups ips joinSource pruneSource)) []).

Definition sent_hello : HelloMessage := zero_hello <| Holdtime := 105 |> <| DRPriority := 1 |> <| GenerationID := 3614426332 |>.

Definition constructHelloMessage : bytes :=
  PIMMessage_SerializeTo (mkPIMHeader 2 MsgHello 0 0) (Hello_SerializeTo sent_hello []).

(** The bytes written: the checksum of the first [n] goes into its field. *)
Definition put_checksum (n : nat) (b : bytes) : R bytes :=
  part ← sub b 0 n; c ← Checksum part;
  _ ← sub b 2 4;
  Ok (take 2 b ++ be_bytes 2 c ++ drop 4 b).

(** The IPv4 header and the socket of [RawConner]: a write has no error, or
    one that is only logged. [intf] is the index of the interface. *)
Record IPv4Header := mkIPv4Header {
  ip_Version : Z;
  ip_Len : Z;
  ip_TotalLen : Z;
  ip_TTL : Z;
  ip_Protocol : Z;
  ip_Src : IP;
  ip_Dst : IP
}.

Class RawConner (C : Type) := WriteTo : IPv4Header -> bytes -> Z -> C -> C * bool.

Definition constructRegisterMessage (datagram : bytes) : bytes :=
  PIMMessage_SerializeTo (mkPIMHeader 2 MsgRegister 0 0) (Register_SerializeTo false false datagram []).

Definition ipDiff (old new : list IP) : list IP * list IP :=
  (base.filter (fun ip => ip4_string ip ∉ ip4_string <$> old) new,
   base.filter (fun ip => ip4_string ip ∉ ip4_string <$> new) old).

Definition join_msg (tunnelAddr : IP) (gs : list IP) : bytes := constructJoinPruneMessage tunnelAddr gs RpAddress [] joinHoldtime.
Definition prune_msg (tunnelAddr : IP) (gs : list IP) : bytes := constructJoinPruneMessage tunnelAddr gs [] RpAddress pruneHoldtime.

(** The events of the goroutine of [PIMServer]. *)
Inductive pim_event := PimTick | PimUpdate (groups : list IP) | PimDone.

Section Sending.
Context {C : Type} `{!RawConner C}.
Context (intf : Z).

Definition sendMsg (buf : bytes) (conn : C) : R (C * bool) :=
  let iph := mkIPv4Header 4 20 (20 + Z.of_nat (length buf)) 1 103 [] [224; 0; 0; 13] in
  b ← put_checksum (length buf) buf;
  Ok (WriteTo iph b intf conn).

Definition sendRegister (srcOverlay rp : IP) (datagram : bytes) (conn : C) : R (C * bool) :=
  b ← put_checksum 8 (constructRegisterMessage datagram);
  Ok (WriteTo (mkIPv4Header 4 20 (20 + Z.of_nat (length b)) 32 103 srcOverlay rp) b intf conn).

(** A failed send is logged. *)
Definition sendHelloAndJoin (tunnelAddr : IP) (gs : list IP) (conn : C) : R C :=
  r ← sendMsg constructHelloMessage conn;
  r ← sendMsg (join_msg tunnelAddr gs) r.1;
  Ok r.1.

(** One iteration of the goroutine, on its groups and its socket: the groups
    are replaced whether or not the messages could be sent. *)
Definition pim_react (tunnelAddr : IP) (ev : pim_event) (st : list IP * C) : R (list IP * C) :=
  let '(gs, conn) := st in
  match ev with
  | PimTick => conn ← sendHelloAndJoin tunnelAddr gs conn; Ok (gs, conn)
  | PimUpdate new =>
      let '(added, removed) := ipDiff gs new in
      conn ← (if bool_decide (removed = []) then Ok conn
              else r ← sendMsg (prune_msg tunnelAddr removed) conn; Ok r.1);
      conn ← (if bool_decide (added = []) then Ok conn
              else r ← sendMsg (join_msg tunnelAddr added) conn; Ok r.1);
      Ok (new, conn)
  | PimDone => r ← sendMsg (prune_msg tunnelAddr gs) conn; Ok (gs, r.1)
  end.

Fixpoint pim_loop (tunnelAddr : IP) (evs : list pim_event) (st : list IP * C) : R (list IP * C) :=
  match evs with
  | [] => Ok st
  | ev :: evs => st ← pim_react tunnelAddr ev st; pim_loop tunnelAddr evs st
  end.

(** [Start] sends a Hello and a Join before it waits for events. *)
Definition pim_session (tunnelAddr : IP) (gs : list IP) (evs : list pim_event) (conn : C) : R (list IP * C) :=
  conn ← sendHelloAndJoin tunnelAddr gs conn; pim_loop tunnelAddr evs (gs, conn).
End Sending.

(** ** Slices of concatenations *)

Lemma sub_app p a r : sub (p ++ a ++ r) (length p) (length p + length a) = Ok a.
Proof.
  unfold sub, slice_opt. rewrite decide_True by (rewrite !length_app; lia). unfold slice.
  rewrite drop_app_length, Nat.add_comm, Nat.add_sub, take_app_length. done.
Qed.

Lemma sub_at p a r i j : i = length p -> j = (length p + length a)%nat -> sub (p ++ a ++ r) i j = Ok a.
Proof. intros -> ->. apply sub_app. Qed.

Lemma from_at p r i : i = length p -> from (p ++ r) i = Ok r.
Proof.
  intros ->. unfold from. rewrite <- (app_nil_r (p ++ r)), <- app_assoc, !length_app, Nat.add_0_r. apply sub_app.
Qed.

Lemma Uint16_be v : is_u 16 v -> Uint16 (be_bytes 2 v) = Ok v.
Proof. intros Hv. unfold Uint16. rewrite decide_False by (rewrite length_be_bytes; lia). rewrite take_ge by (by rewrite length_be_bytes). by rewrite (be_round 2). Qed.

Lemma Uint32_be v : is_u 32 v -> Uint32 (be_bytes 4 v) = Ok v.
Proof. intros Hv. unfold Uint32. rewrite decide_False by (rewrite length_be_bytes; lia). rewrite take_ge by (by rewrite length_be_bytes). by rewrite (be_round 4). Qed.

(** ** The checksum *)

Fixpoint word_sum (b : bytes) : Z :=
  match b with x :: y :: b => x * 256 + y + word_sum b | _ => 0 end.

Lemma sum_words_spec n b csum : length b = (2 * n)%nat -> bytes_ok b -> 0 <= csum -> csum + 65535 * Z.of_nat n < 2 ^ 32 ->
  sum_words b csum = Ok (csum + word_sum b) /\ 0 <= word_sum b <= 65535 * Z.of_nat n.
Proof.
  revert b csum. induction n as [|n IH]; intros b csum Hl Hb Hc Hs.
  { destruct b; [|done]. cbn. rewrite Z.add_0_r. split; [done|lia]. }
  destruct b as [|x [|y b]]; [done|cbn in Hl; lia|]. apply Forall_cons in Hb as [Hx [Hy Hb]%Forall_cons].
  unfold is_u8, is_u in Hx, Hy. cbn [sum_words word_sum].
  rewrite Z.shiftl_mul_pow2 by lia. change (2 ^ 8) with 256 in *. change (2 ^ 32) with 4294967296 in *.
  rewrite (wrap_id 32 (x * 256)), (wrap_id 32 (csum + x * 256)), (wrap_id 32 (csum + x * 256 + y)) by (unfold is_u; lia).
  destruct (IH b (csum + x * 256 + y)) as [-> Hw]; [cbn in Hl; lia|done|lia|lia|]. split; [f_equal; lia|lia].
Qed.

Lemma fold_once x : 65535 < x < 2 ^ 32 -> let y := u32 (Z.shiftr x 16 + u16 x) in
  0 < y < x /\ y mod 65535 = x mod 65535 /\ (x < 131071 -> y <= 65535) /\ y < 131071.
Proof.
  intros Hx. change (2 ^ 32) with 4294967296 in *.
  pose proof (Z.div_mod x 65536 ltac:(lia)) as Hdm. pose proof (Z.mod_pos_bound x 65536 ltac:(lia)) as Hm.
  assert (Hd : 1 <= x / 65536 <= 65535) by lia.
  assert (Hy : u32 (Z.shiftr x 16 + u16 x) = x / 65536 + x mod 65536).
  { rewrite Z.shiftr_div_pow2 by lia. apply (wrap_id 32). unfold is_u, wrap. change (2 ^ 32) with 4294967296.
    change (2 ^ 16) with 65536. lia. }
  rewrite Hy. cbn zeta. set (q := x / 65536) in *. set (r := x mod 65536) in *.
  split_and!; [lia|lia| |lia|lia]. rewrite Hdm. replace (65536 * q + r) with (q + r + q * 65535) by lia.
  by rewrite Z.mod_add by lia.
Qed.

Lemma fold_carry_spec x : 0 <= x < 2 ^ 32 -> let r := fold_carry 2 x in
  0 <= r <= 65535 /\ r <= x /\ r mod 65535 = x mod 65535 /\ (0 < x -> 0 < r).
Proof.
  intros Hx. cbn [fold_carry]. destruct (Z.leb_spec x 65535); [split_and!; lia|].
  pose proof (fold_once x ltac:(lia)) as (H1 & H2 & _ & H3). set (y := u32 _) in *. clearbody y.
  destruct (Z.leb_spec y 65535); [split_and!; lia|].
  pose proof (fold_once y ltac:(lia)) as (K1 & K2 & K3 & _). set (z := u32 _) in *. clearbody z. split_and!; lia.
Qed.

(** The checksum of data whose field is zero, put in the field, makes the sum
    of the whole verify. *)
Lemma checksum_verifies hd rest : length hd = 2%nat -> bytes_ok (hd ++ rest) -> (Z.of_nat (length rest) <= 65534) ->
  Nat.even (length rest) = true ->
  exists c, Checksum (hd ++ [0; 0] ++ rest) = Ok c /\ is_u 16 c /\ Checksum (hd ++ be_bytes 2 c ++ rest) = Ok 0.
Proof.
  intros Hh Hok Hl He. destruct hd as [|h0 [|h1 [|]]]; try done. apply Nat.even_spec in He as [n Hn].
  apply Forall_cons in Hok as [H0 [H1 Hr]%Forall_cons]. unfold is_u8, is_u in H0, H1.
  assert (Hsum : forall a b, is_u8 a -> is_u8 b -> sum_words ([h0; h1] ++ [a; b] ++ rest) 0 =
    Ok (h0 * 256 + h1 + (a * 256 + b) + word_sum rest) /\ 0 <= word_sum rest <= 65535 * Z.of_nat n).
  { intros a b Ha Hb. destruct (sum_words_spec (2 + n) ([h0; h1] ++ [a; b] ++ rest) 0) as [-> Hw].
    - cbn. lia.
    - cbn. do 4 (apply Forall_cons; split; [done|]). done.
    - lia.
    - change (2 ^ 32) with 4294967296. lia.
    - split; [cbn; f_equal; lia|]. destruct (sum_words_spec n rest 0); [lia|done|lia| |done].
      change (2 ^ 32) with 4294967296. lia. }
  unfold Checksum. destruct (Hsum 0 0) as [-> Hw]; [done|done|]. cbn [mbind res_bind].
  set (s := h0 * 256 + h1 + (0 * 256 + 0) + word_sum rest) in *.
  pose proof (fold_carry_spec s ltac:(change (2 ^ 32) with 4294967296; lia)) as (Hr1 & Hr2 & Hr3 & Hr4).
  set (r := fold_carry 2 s) in *. rewrite (wrap_id 16 r) by (unfold is_u; lia).
  exists (65535 - r). split; [done|]. split; [unfold is_u; lia|].
  destruct (be_bytes_2 (65535 - r)) as (a & b & Hab & Hv); [unfold is_u; lia|]. rewrite Hab.
  assert (Hu : bytes_ok [a; b]) by (rewrite <- Hab; apply be_bytes_ok).
  apply Forall_cons in Hu as [Ha [Hb _]%Forall_cons]. destruct (Hsum a b Ha Hb) as [-> _]. cbn [mbind res_bind].
  assert (Hval : a * 256 + b = 65535 - r) by (rewrite <- Hv; cbn; lia).
  replace (h0 * 256 + h1 + (a * 256 + b) + word_sum rest) with (s + (65535 - r)) by lia.
  pose proof (fold_carry_spec (s + (65535 - r)) ltac:(change (2 ^ 32) with 4294967296; lia)) as (K1 & K2 & K3 & K4).
  set (t := fold_carry 2 (s + (65535 - r))) in *. rewrite (wrap_id 16 t) by (unfold is_u; lia). f_equal.
  enough (t = 65535) by lia.
  pose proof (Z.div_mod s 65535 ltac:(lia)). pose proof (Z.div_mod r 65535 ltac:(lia)).
  assert (Hz : t mod 65535 = 0).
  { rewrite K3. replace (s + (65535 - r)) with ((s / 65535 - r / 65535 + 1) * 65535) by lia. apply Z.mod_mul. lia. }
  pose proof (Z.div_mod t 65535 ltac:(lia)). nia.
Qed.

(** ** Join/Prune messages *)

(** An address of a known family. *)
Definition addr_of_family (family : Z) (ip : IP) : Prop :=
  family = 1 /\ length ip = 4%nat \/ family = 2 /\ length ip = 16%nat.

Definition source_ok (s : SourceAddress) : Prop := addr_of_family (src_AddressFamily s) (src_Address s).

Definition group_ok (i : nat) (g : Group) : Prop :=
  GroupID g = u8 (Z.of_nat i) /\ addr_of_family (grp_AddressFamily g) (MulticastGroupAddress g) /\
  is_u 16 (NumJoinedSources g) /\ NumJoinedSources g = Z.of_nat (length (Joins g)) /\
  is_u 16 (NumPrunedSources g) /\ NumPrunedSources g = Z.of_nat (length (Prunes g)) /\
  Forall source_ok (Joins g) /\ Forall source_ok (Prunes g).

Lemma bytesFromNetIP_family ip family : addr_of_family family ip -> bytesFromNetIP ip family = ip.
Proof.
  unfold bytesFromNetIP. intros [[-> Hl]|[-> Hl]]; cbn [Z.eqb Pos.eqb].
  - unfold To4. rewrite decide_True by done. rewrite Hl, take_ge by lia. apply app_nil_r.
  - unfold To16. rewrite decide_False, decide_True by lia. rewrite Hl, take_ge by lia. apply app_nil_r.
Qed.

Lemma decode_addr_family family e g m ip rest addr : addr_of_family family ip ->
  decode_addr (family :: e :: g :: m :: ip ++ rest) addr = Ok (ip, rest).
Proof.
  set (hd := [family; e; g; m]). change (family :: e :: g :: m :: ip ++ rest) with (hd ++ ip ++ rest).
  unfold decode_addr. change (idx (hd ++ ip ++ rest) 0) with (@Ok pim_error _ family). cbn [mbind res_bind].
  intros [[-> Hl]|[-> Hl]]; cbn [Z.eqb Pos.eqb].
  - rewrite (sub_at hd ip rest) by (cbn; lia). rewrite app_assoc, from_at by (rewrite length_app; cbn; lia). done.
  - rewrite (sub_at hd ip rest) by (cbn; lia). rewrite app_assoc, from_at by (rewrite length_app; cbn; lia). done.
Qed.

Lemma mjoin_fmap_cons {A} (f : A -> bytes) x l : mjoin (f <$> (x :: l)) = f x ++ mjoin (f <$> l).
Proof. done. Qed.

Lemma decode_sources_bytes ss rest addr : Forall source_ok ss ->
  exists addr', decode_sources (length ss) (mjoin (Source_Bytes <$> ss) ++ rest) addr = Ok (ss, rest, addr').
Proof.
  intros Hss. revert addr. induction Hss as [|[f e g m ip] ss Hs _ IH]; intros addr; [by eexists|].
  destruct (IH ip) as [addr' H]. exists addr'. rewrite mjoin_fmap_cons, <- app_assoc.
  unfold Source_Bytes at 1. cbn [src_AddressFamily src_EncodingType src_Flags src_MaskLength src_Address].
  rewrite bytesFromNetIP_family by exact Hs. cbn [app]. cbn [length decode_sources idx lookup list_lookup].
  cbn [mbind res_bind]. rewrite decode_addr_family by exact Hs. cbn [mbind res_bind fst snd].
  by rewrite H.
Qed.

Lemma sub_prefix a r j : j = length a -> sub (a ++ r) 0 j = Ok a.
Proof. intros ->. exact (sub_app [] a r). Qed.

(** Two counts and what follows. *)
Lemma decode_counts {A} x y rest (k : Z -> Z -> bytes -> R A) : is_u 16 x -> is_u 16 y ->
  (let data := be_bytes 2 x ++ be_bytes 2 y ++ rest in
   a ← sub data 0 2; joined ← Uint16 a; b ← sub data 2 4; pruned ← Uint16 b; data ← from data 4; k joined pruned data) =
  k x y rest.
Proof.
  intros Hx Hy. cbn zeta. rewrite sub_prefix by (by rewrite length_be_bytes). cbn [mbind res_bind].
  rewrite Uint16_be by done. cbn [mbind res_bind]. rewrite sub_at by (by rewrite !length_be_bytes). cbn [mbind res_bind].
  rewrite Uint16_be by done. cbn [mbind res_bind]. rewrite app_assoc, from_at by (by rewrite length_app, !length_be_bytes). done.
Qed.

Lemma decode_group_bytes i g rest : group_ok i g -> decode_group i (Group_Bytes g ++ rest) = Ok (g, rest).
Proof.
  destruct g as [id f e fl m ip nj np js ps]. intros (Hid & Hf & Hj & Hjl & Hp & Hpl & Hjs & Hps).
  cbn in Hid, Hf, Hj, Hjl, Hp, Hpl, Hjs, Hps. subst id.
  unfold Group_Bytes. cbn [grp_AddressFamily grp_EncodingType grp_Flags grp_MaskLength MulticastGroupAddress
    NumJoinedSources NumPrunedSources Joins Prunes].
  rewrite bytesFromNetIP_family by done. rewrite <- !app_assoc.
  unfold decode_group. cbn [app idx lookup list_lookup]. cbn [mbind res_bind]. rewrite decode_addr_family by done.
  cbn [mbind res_bind fst snd].
  destruct (decode_sources_bytes js (mjoin (Source_Bytes <$> ps) ++ rest) ip Hjs) as [a1 H1].
  destruct (decode_sources_bytes ps rest a1 Hps) as [a2 H2].
  rewrite (decode_counts nj np _ (fun joined pruned data => js' ← decode_sources (Z.to_nat joined) data ip;
    ps' ← decode_sources (Z.to_nat pruned) js'.1.2 js'.2;
    Ok (mkGroup (u8 (Z.of_nat i)) f e fl m ip joined pruned js'.1.1 ps'.1.1, ps'.1.2))) by done.
  rewrite Hjl, Hpl, !Nat2Z.id, H1. cbn [mbind res_bind fst snd]. rewrite H2. done.
Qed.

(** The decoder takes as many groups as it is told. *)
Lemma decodeGroups_bytes n i gs rest : (forall j g, gs !! j = Some g -> group_ok (i + j) g) -> (n <= length gs)%nat ->
  decodeGroups n i (mjoin (Group_Bytes <$> gs) ++ rest) = Ok (take n gs).
Proof.
  revert i gs. induction n as [|n IH]; intros i gs Hgs Hn; [done|]. destruct gs as [|g gs]; [cbn in Hn; lia|].
  rewrite mjoin_fmap_cons, <- app_assoc. cbn [decodeGroups take].
  rewrite decode_group_bytes by (rewrite <- (Nat.add_0_r i); by apply Hgs). cbn [mbind res_bind fst snd].
  rewrite IH; [done| |cbn in Hn; lia]. intros j g' Hj. rewrite Nat.add_succ_comm. by apply Hgs.
Qed.

Lemma unicast_bytes_v4 ip : length ip = 4%nat -> serializeEncodedUnicastAddr ip = [1; 0] ++ ip.
Proof. intros Hl. unfold serializeEncodedUnicastAddr. by rewrite decide_True. Qed.

Lemma decode_unicast_bytes ip rest : length ip = 4%nat ->
  decodeEncodedUnicastAddr (serializeEncodedUnicastAddr ip ++ rest) = Ok ip.
Proof.
  intros Hl. rewrite unicast_bytes_v4, <- app_assoc by done. unfold decodeEncodedUnicastAddr.
  rewrite decide_False by (cbn; lia). change (idx ([1; 0] ++ ip ++ rest) 0) with (@Ok pim_error _ 1).
  cbn [mbind res_bind Z.eqb Pos.eqb]. change (drop 2 ([1; 0] ++ ip ++ rest)) with (ip ++ rest).
  rewrite decide_False by (rewrite length_app; lia).
  apply sub_at; [done|by rewrite Hl].
Qed.

Lemma decodeJoinPrune_bytes m rest : length (UpstreamNeighborAddress m) = 4%nat -> is_u 16 (jp_Holdtime m) ->
  is_u 8 (NumGroups m) -> (Z.to_nat (NumGroups m) <= length (Groups m))%nat ->
  (forall j g, Groups m !! j = Some g -> group_ok j g) ->
  decodePimJoinPruneMessage (JoinPrune_SerializeTo m [] ++ rest) =
  Ok (mkJoinPrune (UpstreamNeighborAddress m) (jp_Reserved m) (NumGroups m) (jp_Holdtime m)
        (take (Z.to_nat (NumGroups m)) (Groups m))).
Proof.
  destruct m as [up res num hold gs]. intros Hup Hh Hn Hlen Hgs. cbn in Hup, Hh, Hn, Hlen, Hgs.
  unfold JoinPrune_SerializeTo, decodePimJoinPruneMessage. cbn [UpstreamNeighborAddress jp_Reserved NumGroups jp_Holdtime Groups].
  rewrite <- !app_assoc. cbn [app]. rewrite decode_unicast_bytes by done. cbn [mbind res_bind].
  rewrite bool_decide_eq_false_2 by (by intros ->). rewrite from_at; cycle 1.
  { rewrite unicast_bytes_v4 by done. cbn. lia. }
  cbn [mbind res_bind idx lookup list_lookup].
  change (res :: num :: be_bytes 2 hold ++ mjoin (Group_Bytes <$> gs) ++ rest)
    with ([res; num] ++ be_bytes 2 hold ++ mjoin (Group_Bytes <$> gs) ++ rest).
  rewrite sub_at by (by rewrite ?length_be_bytes). cbn [mbind res_bind]. rewrite Uint16_be by done. cbn [mbind res_bind].
  rewrite app_assoc, from_at by (by rewrite length_app, length_be_bytes). cbn [mbind res_bind].
  rewrite decodeGroups_bytes; [done| |done]. done.
Qed.

(** ** The common header *)

Lemma decodePim_header ty csum payload : is_u 16 csum -> payload <> [] -> ty = MsgHello \/ ty = MsgJoinPrune ->
  decodePim ([32 + ty; 0] ++ be_bytes 2 csum ++ payload) =
  (let h := mkPIMHeader 2 ty 0 csum in
   if ty =? MsgHello then m ← decodePimHelloMessage payload; Ok (h, LayerHello m)
   else m ← decodePimJoinPruneMessage payload; Ok (h, LayerJoinPrune m)).
Proof.
  intros Hc Hp Hty. unfold decodePim. change (idx ([32 + ty; 0] ++ be_bytes 2 csum ++ payload) 0) with (@Ok pim_error _ (32 + ty)).
  change (idx ([32 + ty; 0] ++ be_bytes 2 csum ++ payload) 1) with (@Ok pim_error _ 0). cbn [mbind res_bind].
  rewrite sub_at by (by rewrite ?length_be_bytes). cbn [mbind res_bind]. rewrite Uint16_be by done. cbn [mbind res_bind].
  rewrite app_assoc, from_at by (by rewrite length_app, length_be_bytes). cbn [mbind res_bind].
  rewrite bool_decide_eq_false_2 by done. by destruct Hty as [-> | ->].
Qed.

Lemma header_bytes ty buf : ty = MsgHello \/ ty = MsgJoinPrune ->
  PIMMessage_SerializeTo (mkPIMHeader 2 ty 0 0) buf = [32 + ty; 0] ++ [0; 0] ++ buf.
Proof. by intros [-> | ->]. Qed.

(** ** Sent Join/Prune messages *)

(** No source, or an IPv4 address. *)
Definition maybe_addr (ip : IP) : Prop := ip = [] \/ addr_ok ip.

Lemma mjoin_length {A} (f : A -> bytes) l n : Forall (fun x => length (f x) = n) l -> length (mjoin (f <$> l)) = (n * length l)%nat.
Proof.
  induction 1 as [|x l Hx _ IH]; [cbn; lia|]. rewrite mjoin_fmap_cons, length_app, IH, Hx. cbn. lia.
Qed.

Lemma mjoin_ok {A} (f : A -> bytes) l : Forall (fun x => bytes_ok (f x)) l -> bytes_ok (mjoin (f <$> l)).
Proof. induction 1 as [|x l Hx _ IH]; [constructor|]. rewrite mjoin_fmap_cons. by apply bytes_ok_app. Qed.

Lemma addr_ok_family ip : addr_ok ip -> addr_of_family 1 ip.
Proof. intros [Hl _]. by left. Qed.

Lemma sources_ok ip : maybe_addr ip -> Forall source_ok (constructSourceAddress ip) /\
  (length (constructSourceAddress ip) <= 1)%nat /\
  Forall (fun s => length (Source_Bytes s) = 8%nat /\ bytes_ok (Source_Bytes s)) (constructSourceAddress ip).
Proof.
  unfold constructSourceAddress. case_bool_decide as Hip; [intros _; split_and!; [constructor|cbn; lia|constructor]|]. intros [?|Ha]; [done|].
  pose proof (addr_ok_family ip Ha) as Hf. split_and!; [constructor; [exact Hf|constructor]|cbn; lia|]. constructor; [|done].
  unfold Source_Bytes. cbn [src_AddressFamily src_EncodingType src_Flags src_MaskLength src_Address].
  rewrite bytesFromNetIP_family by done. destruct Ha as [Hl Hb]. split; [rewrite length_app; cbn; lia|].
  apply bytes_ok_app. split; [by repeat constructor|done].
Qed.

Section Sent.
Context (upstream joinSource pruneSource : IP) (holdtime : Z).
Context (Hup : addr_ok upstream) (Hjoin : maybe_addr joinSource) (Hprune : maybe_addr pruneSource) (Hhold : is_u 16 holdtime).

Let nsources := (length (constructSourceAddress joinSource) + length (constructSourceAddress pruneSource))%nat.

Lemma constructGroups_ok ips : Forall addr_ok ips -> forall j g, constructGroups ips joinSource pruneSource !! j = Some g ->
  group_ok j g /\ length (Group_Bytes g) = (12 + 8 * nsources)%nat /\ bytes_ok (Group_Bytes g).
Proof.
  intros Hips j g. unfold constructGroups. rewrite list_lookup_imap, fmap_Some. intros (ip & Hip & ->).
  assert (Ha : addr_ok ip) by (rewrite Forall_forall in Hips; by apply Hips, (list_elem_of_lookup_2 _ j)).
  destruct (sources_ok _ Hjoin) as (Hj & Hjl & Hjb), (sources_ok _ Hprune) as (Hp & Hpl & Hpb).
  apply Forall_and in Hjb as [Hjl8 Hjb]. apply Forall_and in Hpb as [Hpl8 Hpb].
  set (js := constructSourceAddress joinSource) in *. set (ps := constructSourceAddress pruneSource) in *.
  assert (Hsmall : forall n : nat, (n <= 1)%nat -> u16 (Z.of_nat n) = Z.of_nat n /\ is_u 16 (Z.of_nat n)).
  { intros n Hn. split; [apply wrap_id|]; unfold is_u; change (2 ^ 16) with 65536; lia. }
  destruct (Hsmall _ Hjl) as [Ej Uj], (Hsmall _ Hpl) as [Ep Up]. rewrite Ej, Ep.
  split; [split_and!; cbn; first [done|by apply addr_ok_family]|].
  unfold Group_Bytes. cbn [grp_AddressFamily grp_EncodingType grp_Flags grp_MaskLength MulticastGroupAddress
    NumJoinedSources NumPrunedSources Joins Prunes].
  rewrite bytesFromNetIP_family by (by apply addr_ok_family). destruct Ha as [Hl Hb]. split.
  - rewrite !length_app, !length_be_bytes, (mjoin_length _ _ 8 Hjl8), (mjoin_length _ _ 8 Hpl8), Hl. cbn. unfold nsources. lia.
  - rewrite !bytes_ok_app. split_and!; [by repeat constructor|done|apply be_bytes_ok|apply be_bytes_ok|by apply mjoin_ok..].
Qed.

Lemma length_constructGroups ips : length (constructGroups ips joinSource pruneSource) = length ips.
Proof. apply length_imap. Qed.

Lemma sub_whole b : sub b 0 (length b) = Ok b.
Proof. rewrite <- (app_nil_r b) at 1. by apply sub_prefix. Qed.

Lemma put_checksum_spec hd payload : length hd = 2%nat -> bytes_ok (hd ++ payload) -> Z.of_nat (length payload) <= 65534 ->
  Nat.even (length payload) = true ->
  exists c, is_u 16 c /\ put_checksum (length (hd ++ [0; 0] ++ payload)) (hd ++ [0; 0] ++ payload) = Ok (hd ++ be_bytes 2 c ++ payload) /\
    Checksum (hd ++ be_bytes 2 c ++ payload) = Ok 0.
Proof.
  intros Hh Hok Hl He. destruct (checksum_verifies hd payload Hh Hok Hl He) as (c & Hc & Hu & Hv).
  exists c. split_and!; [done| |done]. unfold put_checksum. rewrite sub_whole. cbn [mbind res_bind]. rewrite Hc.
  cbn [mbind res_bind]. rewrite (sub_at hd [0; 0] payload) by (by rewrite Hh). cbn [mbind res_bind].
  by destruct hd as [|a [|b [|]]].
Qed.

Lemma even_groups k n : Nat.even (10 + (12 + 8 * k) * n) = true.
Proof. apply Nat.even_spec. exists (5 + (6 + 4 * k) * n)%nat. lia. Qed.

Let message ips := mkJoinPrune upstream 0 (u8 (Z.of_nat (length ips))) holdtime (constructGroups ips joinSource pruneSource).

Lemma message_payload ips : Forall addr_ok ips ->
  length (JoinPrune_SerializeTo (message ips) []) = (10 + (12 + 8 * nsources) * length ips)%nat /\
  bytes_ok (JoinPrune_SerializeTo (message ips) []).
Proof.
  intros Hips. pose proof (constructGroups_ok ips Hips) as Hg. unfold JoinPrune_SerializeTo, message.
  cbn [UpstreamNeighborAddress jp_Reserved NumGroups jp_Holdtime Groups]. destruct Hup as [Hl Hb].
  rewrite unicast_bytes_v4 by done. split.
  - rewrite !length_app, length_be_bytes, Hl, (mjoin_length _ _ (12 + 8 * nsources)), length_constructGroups; [cbn; lia|].
    apply Forall_lookup. intros j g Hj. by destruct (Hg j g Hj) as (_ & ? & _).
  - rewrite !bytes_ok_app. split_and!; [by repeat constructor|done|constructor| |apply be_bytes_ok|apply mjoin_ok].
    + apply Forall_cons; split; [done|]. apply Forall_cons; split; [apply (wrap_range 8); lia|constructor].
    + apply Forall_lookup. intros j g Hj. by destruct (Hg j g Hj) as (_ & _ & ?).
Qed.

Lemma decode_sent ips csum : Forall addr_ok ips -> is_u 16 csum ->
  decodePim ([32 + MsgJoinPrune; 0] ++ be_bytes 2 csum ++ JoinPrune_SerializeTo (message ips) []) =
  Ok (mkPIMHeader 2 MsgJoinPrune 0 csum, LayerJoinPrune
    (mkJoinPrune upstream 0 (u8 (Z.of_nat (length ips))) holdtime
      (take (Z.to_nat (u8 (Z.of_nat (length ips)))) (constructGroups ips joinSource pruneSource)))).
Proof.
  intros Hips Hc. destruct (message_payload ips Hips) as [Hl _]. rewrite decodePim_header; [|done| |by right]; cycle 1.
  { intros E. rewrite E in Hl. cbn in Hl. lia. }
  cbn [Z.eqb MsgJoinPrune MsgHello].
  rewrite <- (app_nil_r (JoinPrune_SerializeTo (message ips) [])), decodeJoinPrune_bytes; [done| | | | |].
  - apply Hup.
  - exact Hhold.
  - apply (wrap_range 8). lia.
  - cbn [NumGroups Groups message]. rewrite length_constructGroups. unfold wrap.
    pose proof (Z.mod_le (Z.of_nat (length ips)) (2 ^ 8)). lia.
  - intros j g Hj. by apply constructGroups_ok in Hj as [? _].
Qed.

Lemma join_prune_sent ips : Forall addr_ok ips -> Z.of_nat (14 + (12 + 8 * nsources) * length ips) <= 65515 ->
  let m := constructJoinPruneMessage upstream ips joinSource pruneSource holdtime in
  exists csum, is_u 16 csum /\
    let b := [32 + MsgJoinPrune; 0] ++ be_bytes 2 csum ++ JoinPrune_SerializeTo (message ips) [] in
    put_checksum (length m) m = Ok b /\ Checksum b = Ok 0.
Proof.
  intros Hips Hlen. destruct (message_payload ips Hips) as [Hl Hb]. cbn zeta. unfold constructJoinPruneMessage.
  fold (message ips). rewrite header_bytes by (by right). apply put_checksum_spec.
  - done.
  - apply bytes_ok_app. split; [by repeat constructor|done].
  - lia.
  - rewrite Hl. apply even_groups.
Qed.
End Sent.

(** ** The upstream router

    The router is no part of the repository. The client relies on what RFC 7761
    says of it: the format of a Join/Prune message (section 4.9.5), here with
    one kind of record for the rendezvous point of the network, and that a
    message addressed to the router whose checksum is right joins or prunes the
    groups it lists, while a Hello does not. That a join expires after its
    holdtime without a refresh is not part of it. *)

(** At most 255 IPv4 groups. *)
Definition groups_fit (gs : list IP) : Prop := Forall addr_ok gs /\ (length gs <= 255)%nat.

Definition rfc_record (join : bool) (g : IP) : bytes :=
  [1; 0; 0; 32] ++ g ++ (if join then [0; 1; 0; 0] else [0; 0; 0; 1]) ++ [1; 0; 7; 32] ++ RpAddress.

Definition rfc_join_prune (join : bool) (csum : Z) (upstream : IP) (holdtime : Z) (gs : list IP) : bytes :=
  [35; 0] ++ be_bytes 2 csum ++ [1; 0] ++ upstream ++ [0; Z.of_nat (length gs)] ++ be_bytes 2 holdtime ++
  mjoin (rfc_record join <$> gs).

Class PimRouter (Rt : Type) (upstream : IP) := {
  router_input : bytes -> Rt -> Rt;
  joined : Rt -> gset IP;
  router_hello rest r : joined (router_input (32 :: rest) r) = joined r;
  router_join csum holdtime gs r : addr_ok upstream -> is_u 16 csum -> 0 < holdtime < 2 ^ 16 -> groups_fit gs ->
    Checksum (rfc_join_prune true csum upstream holdtime gs) = Ok 0 ->
    joined (router_input (rfc_join_prune true csum upstream holdtime gs) r) = list_to_set gs ∪ joined r;
  router_prune csum holdtime gs r : addr_ok upstream -> is_u 16 csum -> 0 < holdtime < 2 ^ 16 -> groups_fit gs ->
    Checksum (rfc_join_prune false csum upstream holdtime gs) = Ok 0 ->
    joined (router_input (rfc_join_prune false csum upstream holdtime gs) r) = joined r ∖ list_to_set gs
}.

Lemma u8_fit (gs : list IP) : (length gs <= 255)%nat -> u8 (Z.of_nat (length gs)) = Z.of_nat (length gs).
Proof. intros Hn. apply wrap_id. unfold is_u. lia. Qed.

(** The messages the client builds are in that format. *)
Lemma group_records (join : bool) gs (k : nat -> Z) : Forall addr_ok gs ->
  let js := constructSourceAddress (if join then RpAddress else []) in
  let ps := constructSourceAddress (if join then [] else RpAddress) in
  Group_Bytes <$> imap (fun i ip => mkGroup (k i) 1 0 0 32 ip (u16 (Z.of_nat (length js))) (u16 (Z.of_nat (length ps))) js ps) gs =
  rfc_record join <$> gs.
Proof.
  intros Hgs. cbn zeta. revert k. induction Hgs as [|g gs Hg _ IH]; intros k; [done|].
  cbn [imap]. rewrite !fmap_cons. f_equal; [|exact (IH (k ∘ S))].
  unfold Group_Bytes, rfc_record. cbn [grp_AddressFamily grp_EncodingType grp_Flags grp_MaskLength MulticastGroupAddress
    NumJoinedSources NumPrunedSources Joins Prunes].
  rewrite bytesFromNetIP_family by (by apply addr_ok_family). by destruct join.
Qed.

Lemma rfc_format (join : bool) csum upstream holdtime gs : addr_ok upstream -> groups_fit gs ->
  [32 + MsgJoinPrune; 0] ++ be_bytes 2 csum ++ JoinPrune_SerializeTo (mkJoinPrune upstream 0 (u8 (Z.of_nat (length gs))) holdtime
    (constructGroups gs (if join then RpAddress else []) (if join then [] else RpAddress))) [] =
  rfc_join_prune join csum upstream holdtime gs.
Proof.
  intros [Hu _] [Hgs Hn]. unfold JoinPrune_SerializeTo, rfc_join_prune.
  cbn [UpstreamNeighborAddress jp_Reserved NumGroups jp_Holdtime Groups].
  unfold constructGroups. rewrite group_records, unicast_bytes_v4, u8_fit by done.
  by rewrite <- ?app_assoc.
Qed.

Lemma RpAddress_ok : addr_ok RpAddress.
Proof. split; [done|by repeat constructor]. Qed.

Lemma rfc_sent (join : bool) upstream holdtime gs : addr_ok upstream -> is_u 16 holdtime -> groups_fit gs ->
  let m := constructJoinPruneMessage upstream gs (if join then RpAddress else []) (if join then [] else RpAddress) holdtime in
  exists csum, is_u 16 csum /\ put_checksum (length m) m = Ok (rfc_join_prune join csum upstream holdtime gs) /\
    Checksum (rfc_join_prune join csum upstream holdtime gs) = Ok 0.
Proof.
  intros Hu Hh Hgs. pose proof Hgs as [Hok Hn]. cbn zeta.
  assert (Hj : maybe_addr (if join then RpAddress else [])) by (destruct join; [right; exact RpAddress_ok|by left]).
  assert (Hp : maybe_addr (if join then [] else RpAddress)) by (destruct join; [by left|right; exact RpAddress_ok]).
  destruct (join_prune_sent upstream _ _ holdtime Hu Hj Hp gs Hok) as (csum & Hc & Hs); [destruct join; cbn; lia|].
  cbn zeta in Hs. rewrite rfc_format in Hs by done. by exists csum.
Qed.

(** *** A router that reads with the package's decoder *)

Definition apply_group (joined : gset IP) (g : Group) : gset IP :=
  if negb (bool_decide (Joins g = [])) then {[MulticastGroupAddress g]} ∪ joined
  else if negb (bool_decide (Prunes g = [])) then joined ∖ {[MulticastGroupAddress g]}
  else joined.

Definition decoder_receive (b : bytes) (joined : gset IP) : gset IP :=
  match decodePim b with
  | Ok (_, LayerJoinPrune m) => foldl apply_group joined (Groups m)
  | _ => joined
  end.

Lemma apply_groups_join ips js joined : js <> [] -> forall k,
  foldl apply_group joined (imap (fun i ip => mkGroup (k i) 1 0 0 32 ip (u16 (Z.of_nat (length js))) 0 js []) ips) =
  list_to_set ips ∪ joined.
Proof.
  intros Hjs. revert joined. induction ips as [|ip ips IH]; intros joined k; [symmetry; apply union_empty_l_L|].
  cbn [imap foldl]. unfold apply_group at 2. cbn [Joins MulticastGroupAddress]. rewrite bool_decide_eq_false_2 by done. cbn [negb].
  rewrite (IH _ (k ∘ S)). cbn [list_to_set]. by rewrite (assoc_L (∪)), (comm_L (∪) (list_to_set ips)).
Qed.

Lemma apply_groups_prune ips ps joined : ps <> [] -> forall k,
  foldl apply_group joined (imap (fun i ip => mkGroup (k i) 1 0 0 32 ip 0 (u16 (Z.of_nat (length ps))) [] ps) ips) =
  joined ∖ list_to_set ips.
Proof.
  intros Hps. revert joined. induction ips as [|ip ips IH]; intros joined k; [symmetry; apply difference_empty_L|].
  cbn [imap foldl]. unfold apply_group at 2. cbn [Joins Prunes MulticastGroupAddress].
  rewrite bool_decide_eq_true_2, bool_decide_eq_false_2 by done. cbn [negb].
  rewrite (IH _ (k ∘ S)). cbn [list_to_set]. apply difference_difference_l_L.
Qed.

Lemma constructGroups_take n gs joinSource pruneSource :
  take n (constructGroups gs joinSource pruneSource) = constructGroups (take n gs) joinSource pruneSource.
Proof.
  apply list_eq. intros i. unfold constructGroups. rewrite list_lookup_imap. destruct (decide (i < n)%nat) as [Hi|Hi].
  - by rewrite !lookup_take_lt, list_lookup_imap.
  - by rewrite !lookup_take_ge by lia.
Qed.

(** It joins or prunes as many groups as the count of the message says. *)
Lemma decoder_counts (join : bool) csum upstream holdtime gs j : addr_ok upstream -> is_u 16 csum -> is_u 16 holdtime ->
  Forall addr_ok gs ->
  let gs' := take (Z.to_nat (u8 (Z.of_nat (length gs)))) gs in
  decoder_receive ([32 + MsgJoinPrune; 0] ++ be_bytes 2 csum ++ JoinPrune_SerializeTo (mkJoinPrune upstream 0
    (u8 (Z.of_nat (length gs))) holdtime (constructGroups gs (if join then RpAddress else []) (if join then [] else RpAddress))) []) j =
  if join then list_to_set gs' ∪ j else j ∖ list_to_set gs'.
Proof.
  intros Hu Hc Hh Hgs. cbn zeta.
  assert (Hj : maybe_addr (if join then RpAddress else [])) by (destruct join; [right; exact RpAddress_ok|by left]).
  assert (Hp : maybe_addr (if join then [] else RpAddress)) by (destruct join; [by left|right; exact RpAddress_ok]).
  unfold decoder_receive. rewrite (decode_sent upstream _ _ holdtime Hu Hj Hp Hh gs csum Hgs Hc).
  cbn [Groups]. rewrite constructGroups_take. destruct join.
  - by apply (apply_groups_join _ (constructSourceAddress RpAddress) j).
  - by apply (apply_groups_prune _ (constructSourceAddress RpAddress) j).
Qed.

Lemma decoder_rfc (join : bool) csum upstream holdtime gs j : addr_ok upstream -> is_u 16 csum -> 0 < holdtime < 2 ^ 16 ->
  groups_fit gs ->
  decoder_receive (rfc_join_prune join csum upstream holdtime gs) j = if join then list_to_set gs ∪ j else j ∖ list_to_set gs.
Proof.
  intros Hu Hc Hh Hgs. pose proof Hgs as [Hok Hn]. rewrite <- rfc_format, decoder_counts by (done || unfold is_u; lia).
  rewrite u8_fit, Nat2Z.id, take_ge by lia. done.
Qed.

Lemma decoder_hello rest j : decoder_receive (32 :: rest) j = j.
Proof.
  unfold decoder_receive, decodePim. cbn [idx lookup list_lookup mbind res_bind].
  destruct (idx (32 :: rest) 1) as [b1| |]; [|done..]. cbn [mbind res_bind].
  destruct (sub (32 :: rest) 2 4) as [c| |]; [|done..]. cbn [mbind res_bind].
  destruct (Uint16 c) as [csum| |]; [|done..]. cbn [mbind res_bind].
  destruct (from (32 :: rest) 4) as [payload| |]; [|done..]. cbn [mbind res_bind].
  destruct (bool_decide _); [done|]. change (Z.land 32 15) with 0. change (0 =? MsgHello) with true. cbn [pim_Type].
  change (0 =? MsgHello) with true. cbn iota. by destruct (decodePimHelloMessage payload).
Qed.

#[global] Instance decoder_router upstream : PimRouter (gset IP) upstream := {
  router_input := decoder_receive;
  joined := fun j => j;
  router_hello := decoder_hello;
  router_join := fun csum holdtime gs r Hu Hc Hh Hgs _ => decoder_rfc true csum upstream holdtime gs r Hu Hc Hh Hgs;
  router_prune := fun csum holdtime gs r Hu Hc Hh Hgs _ => decoder_rfc false csum upstream holdtime gs r Hu Hc Hh Hgs
}.

Lemma ipDiff_spec old new : Forall addr_ok old -> Forall addr_ok new -> forall ip,
  (ip ∈ (ipDiff old new).1 <-> ip ∈ new /\ ip ∉ old) /\ (ip ∈ (ipDiff old new).2 <-> ip ∈ old /\ ip ∉ new).
Proof.
  assert (H : forall a b, Forall addr_ok a -> Forall addr_ok b -> forall ip,
    ip ∈ base.filter (fun ip => ip4_string ip ∉ ip4_string <$> a) b <-> ip ∈ b /\ ip ∉ a).
  { intros a b Ha Hb ip. rewrite Forall_forall in Ha, Hb. rewrite list_elem_of_filter, list_elem_of_fmap. split.
    - intros [Hn Hin]. split; [done|]. intros Hx. apply Hn. by exists ip.
    - intros [Hin Hn]. split; [|done]. intros (x & E & Hx). by rewrite (ip4_string_inj ip x (Hb _ Hin) (Ha _ Hx) E) in Hn. }
  intros Ho Hn ip. split; [by apply H|by apply H].
Qed.

Lemma groups_fit_filter (P : IP -> Prop) `{!forall x, Decision (P x)} gs : groups_fit gs -> groups_fit (base.filter P gs).
Proof.
  intros [Hgs Hn]. split.
  { rewrite Forall_forall in Hgs. apply Forall_forall. intros x [_ Hx]%list_elem_of_filter. by apply Hgs. }
  pose proof (length_filter P gs). lia.
Qed.

Lemma ipDiff_fit gs new : groups_fit gs -> groups_fit new -> groups_fit (ipDiff gs new).1 /\ groups_fit (ipDiff gs new).2.
Proof. split; by apply groups_fit_filter. Qed.

(** ** Groups and joins

    The tunnel between the socket and the router: the fate of each write, in
    turn. A write that is too large for the tunnel, as any other that fails, is
    [Refused]. *)
Inductive send_fate := Delivered | Lost | Refused.

Record path (Rt : Type) := mkPath { fates : nat -> send_fate; writes : nat; router : Rt }.
Arguments mkPath {_}.
Arguments fates {_}.
Arguments writes {_}.
Arguments router {_}.

Section Tracking.
Context {Rt : Type} (upstream : IP) `{!PimRouter Rt upstream} (Hup : addr_ok upstream).

#[global] Instance path_conn : RawConner (path Rt) := fun _ b _ p =>
  match fates p (writes p) with
  | Delivered => (mkPath (fates p) (S (writes p)) (router_input b (router p)), true)
  | Lost => (mkPath (fates p) (S (writes p)) (router p), true)
  | Refused => (mkPath (fates p) (S (writes p)) (router p), false)
  end.

Definition on_path (p : path Rt) : gset IP := joined (router p).

(** What a message changes if it is delivered. *)
Definition effect (p p' : path Rt) (f : gset IP -> gset IP) : Prop :=
  fates p' = fates p /\ writes p' = S (writes p) /\
  on_path p' = match fates p (writes p) with Delivered => f (on_path p) | _ => on_path p end.

Lemma sendMsg_effect (intf : Z) (buf b : bytes) (p : path Rt) (f : gset IP -> gset IP) : put_checksum (length buf) buf = Ok b ->
  (forall r : Rt, joined (router_input b r) = f (joined r)) ->
  exists p' ok, sendMsg intf buf p = Ok (p', ok) /\ effect p p' f.
Proof.
  intros Hb Hf. unfold sendMsg. rewrite Hb. cbn [mbind res_bind]. unfold WriteTo, path_conn, effect, on_path.
  destruct (fates p (writes p)); eexists _, _; (split; [reflexivity|]); cbn; by rewrite ?Hf.
Qed.

Lemma hello_effect intf (p : path Rt) : exists p' ok, sendMsg intf constructHelloMessage p = Ok (p', ok) /\ effect p p' id.
Proof.
  destruct (put_checksum (length constructHelloMessage) constructHelloMessage) as [b| |] eqn:Hb; [|by vm_compute in Hb..].
  assert (exists rest, b = 32 :: rest) as [rest ->] by (vm_compute in Hb; injection Hb as <-; by eexists).
  eapply sendMsg_effect; [exact Hb|]. intros r. apply router_hello.
Qed.

Lemma join_effect intf gs (p : path Rt) : groups_fit gs ->
  exists p' ok, sendMsg intf (join_msg upstream gs) p = Ok (p', ok) /\ effect p p' (fun j => list_to_set gs ∪ j).
Proof.
  intros Hgs. destruct (rfc_sent true upstream joinHoldtime gs Hup ltac:(by unfold is_u, joinHoldtime) Hgs) as (c & Hc & Hb & Hv).
  eapply sendMsg_effect; [exact Hb|]. intros r. by apply router_join.
Qed.

Lemma prune_effect intf gs (p : path Rt) : groups_fit gs ->
  exists p' ok, sendMsg intf (prune_msg upstream gs) p = Ok (p', ok) /\ effect p p' (fun j => j ∖ list_to_set gs).
Proof.
  intros Hgs. destruct (rfc_sent false upstream pruneHoldtime gs Hup ltac:(by unfold is_u, pruneHoldtime) Hgs) as (c & Hc & Hb & Hv).
  eapply sendMsg_effect; [exact Hb|]. intros r. by apply router_prune.
Qed.

Lemma hello_join_effect intf gs (p : path Rt) : groups_fit gs -> exists p', sendHelloAndJoin intf upstream gs p = Ok p' /\
  fates p' = fates p /\ writes p' = S (S (writes p)) /\
  on_path p' = match fates p (S (writes p)) with Delivered => list_to_set gs ∪ on_path p | _ => on_path p end.
Proof.
  intros Hgs. unfold sendHelloAndJoin. destruct (hello_effect intf p) as (p1 & ok1 & -> & Hf1 & Hw1 & Hj1). cbn [mbind res_bind fst].
  destruct (join_effect intf gs p1 Hgs) as (p2 & ok2 & -> & Hf2 & Hw2 & Hj2). exists p2. split_and!; [done|congruence..|].
  rewrite Hj2, Hf1, Hw1, Hj1. unfold id. by destruct (fates p (writes p)).
Qed.

(** Sending only if there is something to send. *)
Lemma unless_empty (send : path Rt -> R (path Rt * bool)) (gs : list IP) f (p : path Rt) :
  (forall p, exists p' ok, send p = Ok (p', ok) /\ effect p p' f) -> (gs = [] -> f (on_path p) = on_path p) ->
  exists p', (if bool_decide (gs = []) then Ok p else r ← send p; Ok r.1) = Ok p' /\ fates p' = fates p /\
    (writes p <= writes p')%nat /\ (on_path p' = on_path p \/ on_path p' = f (on_path p)) /\
    ((forall i, (writes p <= i < writes p')%nat -> fates p i = Delivered) -> on_path p' = f (on_path p)).
Proof.
  intros Hs He. case_bool_decide as Hgs.
  - exists p. rewrite (He Hgs). by split_and!; [..|left|].
  - destruct (Hs p) as (p' & ok & -> & Hf & Hw & Hj). exists p'. cbn [mbind res_bind fst]. split_and!; [done|done|lia| |].
    + rewrite Hj. destruct (fates p (writes p)); [by right|by left..].
    + intros Hd. by rewrite Hj, Hd by lia.
Qed.

(** The groups after an event. *)
Definition after (gs : list IP) (ev : pim_event) : list IP := match ev with PimUpdate new => new | _ => gs end.
Definition current (gs : list IP) (evs : list pim_event) : list IP := foldl after gs evs.

Definition event_fits (ev : pim_event) : Prop :=
  match ev with PimTick => True | PimUpdate gs => groups_fit gs | PimDone => False end.

(** What an iteration or several do to the joined groups. *)
Definition tracks (gs gs' : list IP) (p p' : path Rt) : Prop :=
  fates p' = fates p /\ (writes p <= writes p')%nat /\
  ((forall i, (writes p <= i < writes p')%nat -> fates p i = Delivered) -> on_path p = list_to_set gs -> on_path p' = list_to_set gs').

Lemma react_tracks intf ev gs (p : path Rt) : groups_fit gs -> event_fits ev ->
  exists p', pim_react intf upstream ev (gs, p) = Ok (after gs ev, p') /\ tracks gs (after gs ev) p p' /\
    on_path p' ⊆ list_to_set (after gs ev) ∪ on_path p.
Proof.
  intros Hgs Hev. destruct ev as [|new|]; [| |done]; unfold pim_react, tracks.
  - destruct (hello_join_effect intf gs p Hgs) as (p' & -> & Hf & Hw & Hj). exists p'. split_and!; [done|done|lia| |].
    + intros Hd Hp. rewrite Hj, Hd, Hp by lia. apply union_idemp_L.
    + rewrite Hj. cbn [after]. destruct (fates p _); set_solver.
  - pose proof (ipDiff_spec gs new (proj1 Hgs) (proj1 Hev)) as Hd. pose proof (ipDiff_fit gs new Hgs Hev) as [Hfa Hfr].
    destruct (ipDiff gs new) as [added removed]. cbn [fst snd] in *.
    destruct (unless_empty (sendMsg intf (prune_msg upstream removed)) removed (fun j => j ∖ list_to_set removed) p)
      as (p1 & -> & Hf1 & Hw1 & Hj1 & Ha1); [by intros; apply prune_effect|intros ->; apply difference_empty_L|]. cbn [mbind res_bind].
    destruct (unless_empty (sendMsg intf (join_msg upstream added)) added (fun j => list_to_set added ∪ j) p1)
      as (p2 & -> & Hf2 & Hw2 & Hj2 & Ha2); [by intros; apply join_effect|intros ->; apply union_empty_l_L|]. cbn [mbind res_bind after].
    exists p2. split_and!; [done|congruence|lia| |].
    + intros Hall Hp. rewrite Ha2, Ha1, Hp by (intros i Hi; rewrite ?Hf1; apply Hall; lia). apply set_eq. intros ip.
      destruct (Hd ip) as [H1 H2]. rewrite elem_of_union, elem_of_difference, !elem_of_list_to_set, H1, H2.
      destruct (decide (ip ∈ gs)), (decide (ip ∈ new)); tauto.
    + assert (Hadd : list_to_set (C := gset IP) added ⊆ list_to_set new).
      { intros ip. rewrite !elem_of_list_to_set. intros Hip. by apply (Hd ip) in Hip as []. }
      destruct Hj1 as [Hj1|Hj1], Hj2 as [Hj2|Hj2]; rewrite Hj2, Hj1; set_solver.
Qed.

Definition mentioned (evs : list pim_event) : list IP := evs ≫= fun ev => after [] ev.

Lemma loop_tracks intf evs gs (p : path Rt) : groups_fit gs -> Forall event_fits evs ->
  exists p', pim_loop intf upstream evs (gs, p) = Ok (current gs evs, p') /\ tracks gs (current gs evs) p p' /\
    on_path p' ⊆ list_to_set (gs ++ mentioned evs) ∪ on_path p /\ groups_fit (current gs evs).
Proof.
  intros Hgs Hevs. unfold tracks. revert gs p Hgs. induction Hevs as [|ev evs Hev _ IH]; intros gs p Hgs.
  { exists p. split_and!; [done|done|done|done|set_solver|done]. }
  cbn [pim_loop]. destruct (react_tracks intf ev gs p Hgs Hev) as (p1 & -> & (Hf1 & Hw1 & Ht1) & Hs1). cbn [mbind res_bind].
  destruct (IH (after gs ev) p1) as (p2 & -> & (Hf2 & Hw2 & Ht2) & Hs2 & Hfit); [by destruct ev|].
  exists p2. split_and!; [done|congruence|lia| | |done].
  - intros Hall Hp. apply Ht2; [intros i Hi; rewrite Hf1; apply Hall; lia|]. apply Ht1; [intros i Hi; apply Hall; lia|done].
  - etrans; [exact Hs2|]. etrans; [apply union_mono_l, Hs1|].
    unfold mentioned. rewrite bind_cons, !list_to_set_app_L. destruct ev; cbn [after]; set_solver.
Qed.

End Tracking.

(** ** Hello options *)

Inductive hello_opt :=
  | OptHoldtime (v : Z)
  | OptLANPruneDelay (propDelay overrideInterval : Z)
  | OptDRPriority (v : Z)
  | OptGenerationID (v : Z)
  | OptStateRefresh (interval : Z)
  | OptUnknown (ty : Z) (value : bytes).

Definition opt_bytes (o : hello_opt) : bytes :=
  match o with
  | OptHoldtime v => NewHoldtime_Bytes v
  | OptLANPruneDelay p o => LANPruneDelay_Bytes false p o
  | OptDRPriority v => NewDRPriority_Bytes v
  | OptGenerationID v => NewGenerationID_Bytes v
  | OptStateRefresh i => NewStateRefreshInterval_Bytes i
  | OptUnknown ty value => hello_option ty (Z.of_nat (length value)) value
  end.

Definition opt_apply (hello : HelloMessage) (o : hello_opt) : HelloMessage :=
  match o with
  | OptHoldtime v => hello <| Holdtime := v |>
  | OptLANPruneDelay p o => hello <| PropDelay := p |> <| OverrideeInterval := o |>
  | OptDRPriority v => hello <| DRPriority := v |>
  | OptGenerationID v => hello <| GenerationID := v |>
  | OptStateRefresh i => hello <| StateRefreshInterval := i |>
  | OptUnknown _ _ => hello
  end.

Definition opt_ok (o : hello_opt) : Prop :=
  match o with
  | OptHoldtime v => is_u 16 v
  | OptLANPruneDelay p o => is_u 16 p /\ is_u 16 o
  | OptDRPriority v | OptGenerationID v => is_u 32 v
  | OptStateRefresh i => True
  | OptUnknown ty value => is_u 16 ty /\ (ty ∉ [1; 2; 19; 20; 21; 24]) /\ Z.of_nat (length value) <= 65531
  end.

Lemma decode_option_bytes ty value rest hello : is_u 16 ty -> Z.of_nat (length value) <= 65531 ->
  decode_option (hello_option ty (Z.of_nat (length value)) value ++ rest) hello =
  (h ← option_effect ty value (hello_option ty (Z.of_nat (length value)) value ++ rest) hello; Ok (h, rest)).
Proof.
  intros Hty Hl. set (data := hello_option ty (Z.of_nat (length value)) value ++ rest).
  assert (Hd : data = be_bytes 2 ty ++ be_bytes 2 (Z.of_nat (length value)) ++ value ++ rest).
  { unfold data, hello_option. by rewrite <- !app_assoc. }
  assert (Hu : is_u 16 (Z.of_nat (length value))) by (unfold is_u; lia).
  unfold decode_option. rewrite decide_False by (rewrite Hd, !length_app, !length_be_bytes; lia).
  rewrite Hd at 1. rewrite sub_prefix by (by rewrite length_be_bytes). cbn [mbind res_bind]. rewrite Uint16_be by done.
  cbn [mbind res_bind]. rewrite Hd at 1. rewrite sub_at by (by rewrite !length_be_bytes). cbn [mbind res_bind].
  rewrite Uint16_be by done. cbn [mbind res_bind].
  rewrite (wrap_id 16 (4 + Z.of_nat (length value))) by (unfold is_u; change (2 ^ 16) with 65536; lia).
  assert (Hn : Z.to_nat (4 + Z.of_nat (length value)) = (4 + length value)%nat) by lia. rewrite Hn.
  assert (Hd' : data = (be_bytes 2 ty ++ be_bytes 2 (Z.of_nat (length value))) ++ value ++ rest) by (by rewrite Hd, app_assoc).
  rewrite Hd' at 1. rewrite sub_at by (rewrite length_app, !length_be_bytes; lia). cbn [mbind res_bind].
  destruct (option_effect _ _ _ _); [|done..]. cbn [mbind res_bind].
  rewrite Hd', app_assoc, from_at by (rewrite !length_app, !length_be_bytes; lia). done.
Qed.

Lemma option_value_cap ty value rest :
  drop 4 (hello_option ty (Z.of_nat (length value)) value ++ rest) = value ++ rest.
Proof. done. Qed.

Lemma decode_option_ok o rest hello : opt_ok o -> decode_option (opt_bytes o ++ rest) hello = Ok (opt_apply hello o, rest).
Proof.
  assert (Hshape : forall ty value h', is_u 16 ty -> Z.of_nat (length value) <= 65531 ->
    option_effect ty value (hello_option ty (Z.of_nat (length value)) value ++ rest) hello = Ok h' ->
    decode_option (hello_option ty (Z.of_nat (length value)) value ++ rest) hello = Ok (h', rest)).
  { intros ty value h' Hty Hl He. by rewrite decode_option_bytes, He. }
  destruct o as [v|p o|v|v|i|ty value]; cbn [opt_ok opt_bytes opt_apply].
  - intros Hv. apply (Hshape 1 (be_bytes 2 v)); [done|done|]. unfold option_effect. cbn [Z.eqb Pos.eqb].
    by rewrite Uint16_be.
  - intros [Hp Ho]. apply (Hshape 2 (be_bytes 2 p ++ be_bytes 2 o)); [done|done|]. unfold option_effect. cbn [Z.eqb Pos.eqb].
    rewrite option_value_cap, <- app_assoc, sub_prefix by (by rewrite length_be_bytes). cbn [mbind res_bind].
    rewrite Uint16_be by done. cbn [mbind res_bind]. rewrite sub_at by (by rewrite !length_be_bytes). cbn [mbind res_bind].
    by rewrite Uint16_be.
  - intros Hv. apply (Hshape 19 (be_bytes 4 v)); [done|done|]. unfold option_effect. cbn [Z.eqb Pos.eqb].
    rewrite option_value_cap, sub_prefix by (by rewrite length_be_bytes). cbn [mbind res_bind]. by rewrite Uint32_be.
  - intros Hv. apply (Hshape 20 (be_bytes 4 v)); [done|done|]. unfold option_effect. cbn [Z.eqb Pos.eqb].
    by rewrite Uint32_be.
  - intros _. by apply (Hshape 21 (1 :: i :: be_bytes 2 0)).
  - intros (Hty & Hn & Hl). apply (Hshape ty value); [done|done|]. unfold option_effect.
    repeat match goal with |- context [?t =? ?c] => destruct (Z.eqb_spec t c) as [->|]; [exfalso; apply Hn; by repeat constructor|] end.
    done.
Qed.

Lemma decode_options_bytes fuel os hello : Forall opt_ok os -> (length (mjoin (opt_bytes <$> os)) <= fuel)%nat ->
  decode_options fuel (mjoin (opt_bytes <$> os)) hello = Ok (foldl opt_apply hello os).
Proof.
  intros Hos. revert fuel hello. induction Hos as [|o os Ho _ IH]; intros fuel hello Hf; [by destruct fuel|].
  rewrite mjoin_fmap_cons in *. assert (Hlen : (4 <= length (opt_bytes o))%nat).
  { destruct o; cbn [opt_bytes]; unfold NewHoldtime_Bytes, LANPruneDelay_Bytes, NewDRPriority_Bytes, NewGenerationID_Bytes,
      NewStateRefreshInterval_Bytes, hello_option; rewrite !length_app, ?length_be_bytes; lia. }
  rewrite length_app in Hf. destruct fuel as [|fuel]; [lia|].
  destruct (opt_bytes o ++ _) as [|x l] eqn:Hx.
  { apply (f_equal length) in Hx. rewrite length_app in Hx. cbn in Hx. lia. }
  cbn [decode_options]. rewrite <- Hx, decode_option_ok by done. cbn [mbind res_bind fst snd foldl]. apply IH. lia.
Qed.

(** The Hello decoder reads back every sequence of options the package
    can write, and skips unknown ones. *)
Theorem Hello_roundtrip os : Forall opt_ok os ->
  decodePimHelloMessage (mjoin (opt_bytes <$> os)) = Ok (foldl opt_apply zero_hello os).
Proof. intros Hos. by apply decode_options_bytes. Qed.

Lemma decode_unicast_length data addr : decodeEncodedUnicastAddr data = Ok addr -> (length addr + 2 <= length data)%nat.
Proof.
  unfold decodeEncodedUnicastAddr. destruct (decide (length data < 2)%nat); [done|]. destruct (idx data 0) as [f| |]; [|done..].
  cbn [mbind res_bind]. assert (Hsub : forall j, sub data 2 j = Ok addr -> (length addr + 2 <= length data)%nat).
  { intros j. unfold sub, slice_opt. destruct (decide _) as [Hj|]; [|done]. intros [= <-]. rewrite length_slice by done. lia. }
  destruct (f =? 1); [destruct (decide _); [done|apply Hsub]|].
  destruct (f =? 2); [destruct (decide _); [done|apply Hsub]|done].
Qed.

(** The loop stops at the end of the message, where the option has ended. *)
Lemma decode_addresses_fails fuel data value i acc l : (i <= length value < length data)%nat ->
  decode_addresses fuel data value i acc <> Ok l.
Proof.
  revert i acc. induction fuel as [|fuel IH]; intros i acc Hi; cbn [decode_addresses]; rewrite decide_False by lia; [done|].
  unfold from, sub, slice_opt. rewrite decide_True by lia. cbn [mbind res_bind].
  destruct (decodeEncodedUnicastAddr _) as [addr| |] eqn:Ha; [|done..]. apply decode_unicast_length in Ha.
  rewrite length_slice in Ha by lia. cbn [mbind res_bind]. case_bool_decide; [done|]. apply IH. lia.
Qed.

Lemma option_effect_addresses ty value data hello h : (length value < length data)%nat -> SecondaryAddress hello = [] ->
  option_effect ty value data hello = Ok h -> SecondaryAddress h = [].
Proof.
  intros Hl Hn. unfold option_effect.
  repeat (match goal with |- (if ?c then _ else _) = _ -> _ => destruct c end; [
    repeat match goal with |- (?m ≫= _) = _ -> _ => destruct m eqn:?; [|done..]; cbn [mbind res_bind] end;
    first [intros [= <-]; exact Hn|exfalso; eapply (decode_addresses_fails (length data) data value 0); [|eassumption]; lia]|]).
  by intros [= <-].
Qed.

Lemma decode_option_addresses data hello h rest : SecondaryAddress hello = [] ->
  decode_option data hello = Ok (h, rest) -> SecondaryAddress h = [].
Proof.
  intros Hn. unfold decode_option. destruct (decide _); [done|]. destruct (sub data 0 2) as [t| |]; [|done..]. cbn [mbind res_bind].
  destruct (Uint16 t) as [ty| |]; [|done..]. cbn [mbind res_bind]. destruct (sub data 2 4) as [l| |]; [|done..].
  cbn [mbind res_bind]. destruct (Uint16 l) as [len| |]; [|done..]. cbn [mbind res_bind].
  destruct (sub data 4 _) as [value| |] eqn:Hv; [|done..]. cbn [mbind res_bind].
  assert (Hlen : (length value < length data)%nat).
  { unfold sub, slice_opt in Hv. destruct (decide _) as [Hj|]; [|done]. injection Hv as <-. rewrite length_slice by done. lia. }
  destruct (option_effect ty value data hello) as [h1| |] eqn:He; [|done..]. cbn [mbind res_bind].
  destruct (from data _); [|done..]. cbn [mbind res_bind]. intros [= <- _]. by eapply option_effect_addresses.
Qed.

(** The decoder never returns a secondary address: a Hello with an
    address list, however well-formed, is refused. *)
Theorem Hello_refuses_addresses data m : decodePimHelloMessage data = Ok m -> SecondaryAddress m = [].
Proof.
  unfold decodePimHelloMessage. generalize (length data) as fuel. assert (H : SecondaryAddress zero_hello = []) by done. revert H.
  generalize zero_hello as hello. intros hello Hh fuel. revert data hello Hh.
  induction fuel as [|fuel IH]; intros [|x data] hello Hh; cbn [decode_options]; [by intros [= <-]|done|by intros [= <-]|].
  destruct (decode_option (x :: data) hello) as [[h rest]| |] eqn:Ho; [|done..]. cbn [mbind res_bind fst snd].
  apply IH. by eapply decode_option_addresses.
Qed.

(** The count of groups in a message is one byte: of [n] groups in a Join
    the router joins the first [n mod 256], so from 256 on some group is never
    joined. *)
Theorem excess_groups_dropped tunnelAddr gs j :
  addr_ok tunnelAddr -> Forall addr_ok gs -> (256 <= length gs <= 3200)%nat ->
  let m := join_msg tunnelAddr gs in
  exists b, put_checksum (length m) m = Ok b /\ decoder_receive b j = list_to_set (take (length gs mod 256) gs) ∪ j /\
  (length (take (length gs mod 256) gs) < length gs)%nat.
Proof.
  intros Htun Hgs Hn. assert (Hh : is_u 16 joinHoldtime) by (by unfold is_u, joinHoldtime).
  destruct (join_prune_sent tunnelAddr RpAddress [] joinHoldtime Htun (or_intror RpAddress_ok) (or_introl eq_refl) gs Hgs)
    as (c & Hc & Hb & _).
  { change (length (constructSourceAddress RpAddress) + length (constructSourceAddress []))%nat with 1%nat. lia. }
  eexists. split; [exact Hb|]. rewrite (decoder_counts true) by done. split.
  - do 3 f_equal. unfold wrap. change (2 ^ 8) with (Z.of_nat 256). rewrite <- Nat2Z.inj_mod. apply Nat2Z.id.
  - rewrite length_take. pose proof (Nat.mod_upper_bound (length gs) 256 ltac:(lia)). lia.
Qed.

(** ** Examples *)

#[global] Instance addr_ok_dec ip : Decision (addr_ok ip).
Proof. unfold addr_ok. apply _. Defined.

Definition pim_tunnel : IP := [169; 254; 0; 0].
Definition pim_group (i : nat) : IP := [233; 84; Z.of_nat (i / 256); Z.of_nat (i mod 256)].

Definition pim_events : list pim_event := [PimUpdate [pim_group 1; pim_group 2]; PimTick; PimUpdate [pim_group 2]].


Lemma Hello_roundtrip_witness :
  decodePimHelloMessage (mjoin (opt_bytes <$> [OptHoldtime 105; OptUnknown 65001 [1; 2; 3]; OptLANPruneDelay 500 2500; OptStateRefresh 60])) =
    Ok (mkHello 105 500 2500 0 0 [] 60).
Proof.
  rewrite (Hello_roundtrip [OptHoldtime 105; OptUnknown 65001 [1; 2; 3]; OptLANPruneDelay 500 2500; OptStateRefresh 60]); [reflexivity|].
  repeat constructor; try done. rewrite !not_elem_of_cons. split_and!; try done. apply not_elem_of_nil.
Defined.

(** A single option of two addresses, with the right length, is an error; the
    Hello the daemon sends is not. *)
Lemma Hello_refuses_addresses_witness :
  decodePimHelloMessage (hello_option 24 12 (mjoin (serializeEncodedUnicastAddr <$> [pim_tunnel; pim_group 1]))) =
    Err ErrUnicastTooShort /\
  decodePimHelloMessage (Hello_SerializeTo sent_hello []) = Ok sent_hello /\ SecondaryAddress sent_hello = [].
Proof.
  assert (H : decodePimHelloMessage (Hello_SerializeTo sent_hello []) = Ok sent_hello) by (vm_compute; reflexivity).
  split; [vm_compute; reflexivity|]. split; [exact H|]. exact (Hello_refuses_addresses _ _ H).
Defined.

Lemma excess_groups_dropped_witness : exists b,
  put_checksum (length (join_msg pim_tunnel (pim_group <$> seq 0 258))) (join_msg pim_tunnel (pim_group <$> seq 0 258)) = Ok b /\
  decoder_receive b ∅ = {[pim_group 0; pim_group 1]}.
Proof.
  destruct (excess_groups_dropped pim_tunnel (pim_group <$> seq 0 258) ∅) as (b & Hb & H & _).
  - by apply (bool_decide_unpack _); vm_compute.
  - by apply (bool_decide_unpack _); vm_compute.
  - rewrite length_fmap, length_seq. lia.
  - exists b. split; [exact Hb|]. rewrite H. replace (take _ _) with [pim_group 0; pim_group 1] by (vm_compute; reflexivity).
    cbn [list_to_set]. by rewrite !(right_id_L ∅ (∪)).
Defined.
