(* ===== verification/BgpStatus.v ===== *)
(** * Device telemetry: BGP status of the users

    Models [controlplane/telemetry/internal/bgpstatus] ([bgpstatus.go] and
    [submitter.go]): each tick maps the activated users of the device to the
    peers of their tunnels and queues the statuses to write, a worker writes
    them to the ledger. The collector of a namespace, the directory of the
    namespaces and the executor are parameters; the tick and the worker
    interleave under the submitter's lock.

    [DefaultCollector], which reads the kernel's sockets, is not modelled. *)

From stdpp Require Import base tactics numbers list gmap.
From Stdlib Require Import ZArith Lia ZifyBool ZifyNat.
From S2P Require Import Prelude Bytes GoStrings GoCollections Routing GoNet ByteReader Accounts Deserialize ProgramData.
From S2P Require Import TelemetryBuffer TelemetrySubmitter TelemetryCollector.

#[local] Open Scope Z_scope.

(** ** Constants and configuration *)

Definition taskChannelCapacity : Z := 256.
Definition defaultInterval : Duration := 60 * Second.
Definition defaultRefreshInterval : Duration := 6 * 60 * Minute.
Definition submitMaxRetries : nat := 3.
Definition submitBaseBackoff : Duration := 100 * Millisecond.
Definition defaultNetnsDir : bytes := lit "/var/run/netns".

Definition BGPStatusUnknown : Z := 0.
Definition BGPStatusUp : Z := 1.
Definition BGPStatusDown : Z := 2.

Module BgpStatusConfig.
(** The interfaces and the logger as whether they are set. *)
Record t := mk {
  Log : bool;
  Executor : bool;
  ServiceabilityClient : bool;
  Collector : bool;
  LocalDevicePK : pubkey;
  NetnsDir : bytes;
  Interval : Duration;
  PeriodicRefreshInterval : Duration;
  DownGracePeriod : Duration
}.
#[global] Instance eta : RecordEta t := {
  eta_record := fun r => mk (Log r) (Executor r) (ServiceabilityClient r) (Collector r) (LocalDevicePK r)
    (NetnsDir r) (Interval r) (PeriodicRefreshInterval r) (DownGracePeriod r);
  eta_record_id := fun r => match r with mk _ _ _ _ _ _ _ _ _ => eq_refl end
}.

Inductive error := NoLog | NoExecutor | NoClient | NoCollector | NoDevice.

Definition validate (c : t) : res error t :=
  if negb (Log c) then Err NoLog
  else if negb (Executor c) then Err NoExecutor
  else if negb (ServiceabilityClient c) then Err NoClient
  else if negb (Collector c) then Err NoCollector
  else if bool_decide (LocalDevicePK c = replicate 32 0) then Err NoDevice
  else
    let c := if bool_decide (NetnsDir c = []) then c <| NetnsDir := defaultNetnsDir |> else c in
    let c := if Interval c <=? 0 then c <| Interval := defaultInterval |> else c in
    Ok (if PeriodicRefreshInterval c <=? 0
        then c <| PeriodicRefreshInterval := defaultRefreshInterval |> else c).
End BgpStatusConfig.

(** ** State *)

Record BGPPeerState := mkBGPPeerState { Established : bool; RttNs : Z }.
Definition no_peer : BGPPeerState := mkBGPPeerState false 0.

Record userState := mkUserState {
  lastOnchainStatus : Z;
  lastWriteTime : Time;
  lastUpObservedAt : Time
}.
#[global] Instance userState_eta : RecordEta userState := {
  eta_record := fun r => mkUserState (lastOnchainStatus r) (lastWriteTime r) (lastUpObservedAt r);
  eta_record_id := fun r => match r with mkUserState _ _ _ => eq_refl end
}.

Record submitTask := mkSubmitTask { task_user : User.t; task_status : Z; task_rttNs : Z }.

(** The maps are keyed by the public key, whose base58 form the code uses;
    [pending] holds the keys mapped to true; [taskCh] is the buffer of the
    channel, oldest first. *)
Record BgpSubmitter := mkBgpSubmitter {
  userStates : gmap pubkey userState;
  pending : gset pubkey;
  taskCh : list submitTask
}.
#[global] Instance BgpSubmitter_eta : RecordEta BgpSubmitter := {
  eta_record := fun r => mkBgpSubmitter (userStates r) (pending r) (taskCh r);
  eta_record_id := fun r => match r with mkBgpSubmitter _ _ _ => eq_refl end
}.

Definition NewBgpSubmitter (cfg : BgpStatusConfig.t) : res BgpStatusConfig.error (BgpStatusConfig.t * BgpSubmitter) :=
  cfg ← BgpStatusConfig.validate cfg; Ok (cfg, mkBgpSubmitter ∅ ∅ []).

Definition userStateFor (s : BgpSubmitter) (key : pubkey) (initialStatus : Z) : userState * BgpSubmitter :=
  match userStates s !! key with
  | Some us => (us, s)
  | None =>
      let us := mkUserState initialStatus time_zero time_zero in
      (us, s <| userStates := <[key := us]> (userStates s) |>)
  end.

(** ** Helpers *)

Record bgpSocket := mkBgpSocket { RemoteIP : bytes; SockState : bytes; sock_RttNs : Z }.

Definition buildPeerStateMap (sockets : list bgpSocket) : gmap bytes BGPPeerState :=
  foldl (fun m sock =>
    <[RemoteIP sock := mkBGPPeerState (bool_decide (SockState sock = lit "ESTABLISHED")) (sock_RttNs sock)]> m)
    ∅ sockets.

Definition tunnelNetToIPNet (b : bytes) : IPNet := mkIPNet (take 4 b) (CIDRMask (byte_at b 4)).

Definition computeEffectiveStatus (observedUp : bool) (us : userState) (now : Time) (gracePeriod : Duration) : Z :=
  if observedUp then BGPStatusUp
  else if IsZero (lastUpObservedAt us) then BGPStatusDown
  else if (0 <? gracePeriod) && (TimeSub now (lastUpObservedAt us) <? gracePeriod) then BGPStatusUp
  else BGPStatusDown.

Definition shouldSubmit (us : userState) (newStatus : Z) (now : Time) (refreshInterval : Duration) : bool :=
  if IsZero (lastWriteTime us) then true
  else if negb (lastOnchainStatus us =? newStatus) then true
  else refreshInterval <=? TimeSub now (lastWriteTime us).

(** The activated users of the device. *)
Definition device_users (localPK : pubkey) (users : list User.t) : list User.t :=
  filter (fun u => User.Status u = 1 /\ User.DevicePubKey u = localPK) users.

(** What the collector returns for a namespace; [None] is an error. *)
Definition Collection := option (gmap bytes BGPPeerState * list NetInterface).

(** The merged peers, the interfaces and the number of successes. *)
Definition collect_all (collect : bytes -> Collection) (namespaces : list bytes) :
    gmap bytes BGPPeerState * list NetInterface * nat :=
  foldl (fun acc ns =>
    match collect ns with
    | None => acc
    | Some (nsPeers, ifaces) => (nsPeers ∪ acc.1.1, acc.1.2 ++ ifaces, S acc.2)
    end) (∅, [], 0%nat) namespaces.

(** ** The tick *)

Section Tick.
Context (cfg : BgpStatusConfig.t) (now : Time).

(** The end of an iteration, from the effective status on. *)
Definition report (s : BgpSubmitter) (user : User.t) (us : userState) (observedUp : bool) (peer : BGPPeerState) :
    BgpSubmitter :=
  let effectiveStatus := computeEffectiveStatus observedUp us now (BgpStatusConfig.DownGracePeriod cfg) in
  if negb (shouldSubmit us effectiveStatus now (BgpStatusConfig.PeriodicRefreshInterval cfg)) then s
  else if bool_decide (User.PubKey user ∈ pending s) then s
  else
    let rttNs := if effectiveStatus =? BGPStatusUp then RttNs peer else 0 in
    if Z.of_nat (length (taskCh s)) <? taskChannelCapacity
    then s <| taskCh := taskCh s ++ [mkSubmitTask user effectiveStatus rttNs] |>
           <| pending := {[User.PubKey user]} ∪ pending s |>
    else s.

(** One iteration of the loop over the users of the device. *)
Definition tick_user (peers : gmap bytes BGPPeerState) (interfaces : list NetInterface)
    (s : BgpSubmitter) (user : User.t) : BgpSubmitter :=
  let userPK := User.PubKey user in
  let '(us, s) := userStateFor s userPK (User.BgpStatus user) in
  match FindLocalTunnel interfaces (tunnelNetToIPNet (User.TunnelNet user)) with
  | None =>
      if negb (lastOnchainStatus us =? BGPStatusUp) then s
      else report s user us false no_peer
  | Some tunnel =>
      let peer := default no_peer (peers !! IP_String (TargetIP tunnel)) in
      let observedUp := Established peer in
      if observedUp then
        let us := us <| lastUpObservedAt := now |> in
        report (s <| userStates := <[userPK := us]> (userStates s) |>) user us observedUp peer
      else report s user us observedUp peer
  end.

(** Forget the users that are no longer activated on the device. *)
Definition prune (active : gset pubkey) (s : BgpSubmitter) : BgpSubmitter :=
  s <| userStates := filter (fun p => p.1 ∈ active) (userStates s) |>
    <| pending := pending s ∖ (dom (userStates s) ∖ active) |>.

(** [data] and [dir] are what the ledger and the directory of the namespaces
    return; [None] is an error. *)
Definition tick (data : option ProgramData.t) (dir : option (list bytes)) (collect : bytes -> Collection)
    (s : BgpSubmitter) : BgpSubmitter :=
  match data, dir with
  | Some programData, Some namespaces =>
      let deviceUsers := device_users (BgpStatusConfig.LocalDevicePK cfg) (ProgramData.Users programData) in
      if bool_decide (namespaces = []) then s
      else
        let '(peers, interfaces, successCount) := collect_all collect namespaces in
        if bool_decide (successCount = 0%nat) then s
        else prune (list_to_set (User.PubKey <$> deviceUsers))
               (foldl (tick_user peers interfaces) s deviceUsers)
  | _, _ => s
  end.
End Tick.

(** ** The worker *)

(** One call of the executor: its signature, or an error after which the wait
    ended, or the context did. *)
Inductive attempt := Sent (sig : bytes) | Failed | FailedCancelled.

(** The signature if a call succeeded, and the waits between the calls. *)
Fixpoint bgp_submit_from (exec : nat -> attempt) (n : nat) (i : nat) : option bytes * list Duration :=
  match n with
  | O => (None, [])
  | S n =>
      match exec i with
      | Sent sig => (Some sig, [])
      | FailedCancelled => (None, [])
      | Failed =>
          let '(r, waits) := bgp_submit_from exec n (S i) in
          (r, submitBaseBackoff * Z.shiftl 1 (Z.of_nat i) :: waits)
      end
  end.

Definition submitWithRetry (exec : nat -> attempt) : option bytes * list Duration :=
  bgp_submit_from exec submitMaxRetries 0.

(** The worker once the submission of a task has ended. *)
Definition worker_done (now : Time) (s : BgpSubmitter) (task : submitTask) (ok : bool) : BgpSubmitter :=
  let userPK := User.PubKey (task_user task) in
  let s := s <| pending := pending s ∖ {[userPK]} |> in
  if ok then
    let '(us, s) := userStateFor s userPK BGPStatusUnknown in
    s <| userStates := <[userPK := us <| lastOnchainStatus := task_status task |> <| lastWriteTime := now |>]>
                         (userStates s) |>
  else s.

(** ** The submitter beside the ledger

    A ledger maps the users to their status and round-trip time; accounts are
    closed and created again under the same address. The tick reads the ledger
    before it takes the lock, and the worker writes it outside the lock. Each
    call of the executor hands a transaction to the cluster, which may land
    during the call or, if the call failed, at any later time or not at all.
    Only the submitter of the device writes these fields. *)

Abbreviation Ledger := (gmap pubkey (Z * Z)).

Definition task_key (t : submitTask) : pubkey := User.PubKey (task_user t).
Definition write_task (t : submitTask) (c : Ledger) : Ledger :=
  alter (fun _ => (task_status t, task_rttNs t)) (task_key t) c.

Inductive WorkerPc := WIdle | WSubmitting (t : submitTask) | WDone (t : submitTask) (ok : bool).

Definition worker_tasks (w : WorkerPc) : list submitTask :=
  match w with WIdle => [] | WSubmitting t | WDone t _ => [t] end.

(** [sys_flight] holds the transactions that may still land. [sys_stray] is
    for the specification only: the users whose account was closed or created,
    or for whom a transaction landed that was not acknowledged, since the
    submitter last learned their status: from an acknowledged write, or, when it
    did not track them, from reading the ledger. *)
Record BgpSystem := mkBgpSystem {
  sys_sub : BgpSubmitter;
  sys_fetched : option ProgramData.t;
  sys_worker : WorkerPc;
  sys_ledger : Ledger;
  sys_flight : list submitTask;
  sys_stray : gset pubkey
}.

(** The users of [pd] are in the ledger as it stands. *)
Definition pd_current (c : Ledger) (pd : ProgramData.t) : Prop :=
  forall u, u ∈ ProgramData.Users pd -> c !! User.PubKey u = Some (User.BgpStatus u, User.BgpRttNs u).

(** The users whose status the submitter or the worker keeps. *)
Definition known_users (s : BgpSubmitter) (w : WorkerPc) : gset pubkey :=
  dom (userStates s) ∪ list_to_set (task_key <$> worker_tasks w).

Inductive bgp_step (cfg : BgpStatusConfig.t) : BgpSystem -> BgpSystem -> Prop :=
| step_create s f w c fl r k :
    c !! k = None ->
    bgp_step cfg (mkBgpSystem s f w c fl r) (mkBgpSystem s f w (<[k := (BGPStatusUnknown, 0)]> c) fl ({[k]} ∪ r))
| step_close s f w c fl r k :
    bgp_step cfg (mkBgpSystem s f w c fl r) (mkBgpSystem s f w (delete k c) fl ({[k]} ∪ r))
| step_fetch s w c fl r pd :
    pd_current c pd ->
    bgp_step cfg (mkBgpSystem s None w c fl r) (mkBgpSystem s (Some pd) w c fl (r ∩ known_users s w))
| step_tick s w c fl r pd now dir collect :
    bgp_step cfg (mkBgpSystem s (Some pd) w c fl r) (mkBgpSystem (tick cfg now (Some pd) dir collect s) None w c fl r)
| step_take s f c fl r t ts :
    taskCh s = t :: ts ->
    bgp_step cfg (mkBgpSystem s f WIdle c fl r) (mkBgpSystem (s <| taskCh := ts |>) f (WSubmitting t) c fl r)
| step_call s f c fl r t :
    bgp_step cfg (mkBgpSystem s f (WSubmitting t) c fl r) (mkBgpSystem s f (WSubmitting t) c (t :: fl) r)
| step_land s f w c fl1 fl2 r t :
    bgp_step cfg (mkBgpSystem s f w c (fl1 ++ t :: fl2) r)
      (mkBgpSystem s f w (write_task t c) (fl1 ++ fl2) ({[task_key t]} ∪ r))
| step_drop s f w c fl1 fl2 r t :
    bgp_step cfg (mkBgpSystem s f w c (fl1 ++ t :: fl2) r) (mkBgpSystem s f w c (fl1 ++ fl2) r)
| step_submit s f c fl r t exec sig :
    (submitWithRetry exec).1 = Some sig -> is_Some (c !! task_key t) ->
    bgp_step cfg (mkBgpSystem s f (WSubmitting t) c fl r)
      (mkBgpSystem s f (WDone t true) (write_task t c) fl (r ∖ {[task_key t]}))
| step_give_up s f c fl r t exec :
    (submitWithRetry exec).1 = None ->
    bgp_step cfg (mkBgpSystem s f (WSubmitting t) c fl r) (mkBgpSystem s f (WDone t false) c fl r)
| step_done s f c fl r t ok now :
    bgp_step cfg (mkBgpSystem s f (WDone t ok) c fl r) (mkBgpSystem (worker_done now s t ok) f WIdle c fl r).

(** A daemon starts with transactions of its predecessor in flight. *)
Definition bgp_init (c : Ledger) (fl : list submitTask) : BgpSystem :=
  mkBgpSystem (mkBgpSubmitter ∅ ∅ []) None WIdle c fl ∅.

(** ** One iteration, in closed form *)

Section Iteration.
Context (cfg : BgpStatusConfig.t) (now : Time) (peers : gmap bytes BGPPeerState) (ifs : list NetInterface).

(** The tracking entry the iteration works on. *)
Definition user_entry (s : BgpSubmitter) (u : User.t) : userState :=
  default (mkUserState (User.BgpStatus u) time_zero time_zero) (userStates s !! User.PubKey u).

(** The peer of the user's tunnel, if the tunnel is there. *)
Definition observed_peer (u : User.t) : option BGPPeerState :=
  (fun tunnel => default no_peer (peers !! IP_String (TargetIP tunnel)))
    <$> FindLocalTunnel ifs (tunnelNetToIPNet (User.TunnelNet u)).

Definition session_up (u : User.t) : bool :=
  match observed_peer u with Some peer => Established peer | None => false end.

Definition user_seen (us : userState) (u : User.t) : userState :=
  if session_up u then us <| lastUpObservedAt := now |> else us.

(** The status to report; [None] leaves the ledger as it is. *)
Definition wanted_status (us : userState) (u : User.t) : option Z :=
  match observed_peer u with
  | None => if lastOnchainStatus us =? BGPStatusUp
            then Some (computeEffectiveStatus false us now (BgpStatusConfig.DownGracePeriod cfg)) else None
  | Some _ => Some (computeEffectiveStatus (session_up u) (user_seen us u) now (BgpStatusConfig.DownGracePeriod cfg))
  end.

Definition user_task (us : userState) (u : User.t) : option submitTask :=
  st ← wanted_status us u;
  if shouldSubmit (user_seen us u) st now (BgpStatusConfig.PeriodicRefreshInterval cfg)
  then Some (mkSubmitTask u st (if st =? BGPStatusUp then RttNs (default no_peer (observed_peer u)) else 0))
  else None.

Definition push_task (s : BgpSubmitter) (t : option submitTask) : BgpSubmitter :=
  match t with
  | None => s
  | Some t =>
      if bool_decide (task_key t ∈ pending s) then s
      else if Z.of_nat (length (taskCh s)) <? taskChannelCapacity
      then s <| taskCh := taskCh s ++ [t] |> <| pending := {[task_key t]} ∪ pending s |>
      else s
  end.

Lemma report_eq s u us up peer :
  report cfg now s u us up peer =
  let st := computeEffectiveStatus up us now (BgpStatusConfig.DownGracePeriod cfg) in
  push_task s (if shouldSubmit us st now (BgpStatusConfig.PeriodicRefreshInterval cfg)
    then Some (mkSubmitTask u st (if st =? BGPStatusUp then RttNs peer else 0)) else None).
Proof. unfold report. cbv zeta. by destruct (shouldSubmit _ _ _ _). Qed.

Lemma tick_user_eq s u :
  tick_user cfg now peers ifs s u =
  push_task (s <| userStates := <[User.PubKey u := user_seen (user_entry s u) u]> (userStates s) |>)
    (user_task (user_entry s u) u).
Proof.
  unfold tick_user, user_task, wanted_status, user_seen, session_up, observed_peer, user_entry, userStateFor.
  destruct s as [m p ch]; cbn [userStates set_field].
  destruct (m !! User.PubKey u) as [us|] eqn:Hm; cbn [default id];
    (destruct (FindLocalTunnel ifs _) as [tunnel|]; cbn [fmap option_fmap option_map mbind option_bind default id];
    [destruct (Established _) eqn:Hup|destruct (_ =? BGPStatusUp) eqn:Hst]); cbn -[report shouldSubmit computeEffectiveStatus];
    rewrite ?Hst, ?report_eq; cbn -[push_task shouldSubmit computeEffectiveStatus];
    rewrite ?insert_insert_eq, ?(insert_id _ _ _ Hm); done.
Qed.
End Iteration.

(** ** The invariant *)

(** The worker has written the status of [k] and not yet recorded it. *)
Definition unrecorded (w : WorkerPc) (k : pubkey) : Prop :=
  match w with WDone t true => task_key t = k | _ => False end.

Definition status_current (w : WorkerPc) (c : Ledger) (r : gset pubkey) (k : pubkey) (st : Z) : Prop :=
  unrecorded w k \/ k ∈ r \/ fst <$> c !! k = Some st.

(** A task reports Up, or Down without a round-trip time, for an activated
    user of the device. *)
Definition task_ok (cfg : BgpStatusConfig.t) (t : submitTask) : Prop :=
  (task_status t = BGPStatusUp \/ task_status t = BGPStatusDown /\ task_rttNs t = 0) /\
  User.Status (task_user t) = 1 /\ User.DevicePubKey (task_user t) = BgpStatusConfig.LocalDevicePK cfg.

Record sub_ok (cfg : BgpStatusConfig.t) (w : WorkerPc) (c : Ledger) (r : gset pubkey) (s : BgpSubmitter) : Prop := {
  ok_capacity : Z.of_nat (length (taskCh s)) <= taskChannelCapacity;
  ok_pending : forall k, k ∈ pending s -> k ∈ task_key <$> worker_tasks w ++ taskCh s;
  ok_tracked : forall k us, userStates s !! k = Some us -> status_current w c r k (lastOnchainStatus us);
  ok_tasks : Forall (task_ok cfg) (worker_tasks w ++ taskCh s)
}.

Definition ledger_ok (c : Ledger) : Prop :=
  forall k st rtt, c !! k = Some (st, rtt) -> st = BGPStatusDown -> rtt = 0.

Definition unseen_current (w : WorkerPc) (c : Ledger) (r : gset pubkey) (s : BgpSubmitter) (u : User.t) : Prop :=
  userStates s !! User.PubKey u = None -> status_current w c r (User.PubKey u) (User.BgpStatus u).

Record system_ok (cfg : BgpStatusConfig.t) (y : BgpSystem) : Prop := {
  sys_sub_ok : sub_ok cfg (sys_worker y) (sys_ledger y) (sys_stray y) (sys_sub y);
  sys_ledger_ok : ledger_ok (sys_ledger y);
  sys_flight_ok : Forall (task_ok cfg) (sys_flight y);
  sys_written : forall t, sys_worker y = WDone t true ->
    task_key t ∈ sys_stray y \/ sys_ledger y !! task_key t = Some (task_status t, task_rttNs t);
  sys_fetched_ok : forall pd u, sys_fetched y = Some pd -> u ∈ ProgramData.Users pd ->
    unseen_current (sys_worker y) (sys_ledger y) (sys_stray y) (sys_sub y) u
}.

(** ** The tick keeps it *)

Lemma user_seen_status now peers ifs us u : lastOnchainStatus (user_seen now peers ifs us u) = lastOnchainStatus us.
Proof. unfold user_seen. by destruct (session_up _ _ _). Qed.

Lemma effective_cases up us now g :
  computeEffectiveStatus up us now g = BGPStatusUp \/ computeEffectiveStatus up us now g = BGPStatusDown.
Proof. unfold computeEffectiveStatus. repeat case_goal; auto. Qed.

Lemma wanted_cases cfg now peers ifs us u st : wanted_status cfg now peers ifs us u = Some st ->
  st = BGPStatusUp \/ st = BGPStatusDown.
Proof.
  unfold wanted_status. destruct (observed_peer _ _ _); [|destruct (_ =? _)]; intros; simplify_eq;
    apply effective_cases.
Qed.

Lemma user_task_spec cfg now peers ifs us u t : user_task cfg now peers ifs us u = Some t ->
  task_user t = u /\ wanted_status cfg now peers ifs us u = Some (task_status t) /\
  (task_status t = BGPStatusDown -> task_rttNs t = 0).
Proof.
  unfold user_task. destruct (wanted_status _ _ _ _ _ _) as [st|]; [|done]. cbn [mbind option_bind].
  destruct (shouldSubmit _ _ _ _); [|done]. intros [= <-]. split_and!; [done..|].
  cbn. by intros ->.
Qed.

Lemma user_task_ok cfg now peers ifs us u t :
  u ∈ device_users (BgpStatusConfig.LocalDevicePK cfg) [u] ->
  user_task cfg now peers ifs us u = Some t -> task_ok cfg t.
Proof.
  intros Hu Ht. apply user_task_spec in Ht as (Htu & Hw & Hr).
  apply list_elem_of_filter in Hu as [Hu _]. apply wanted_cases in Hw.
  unfold task_ok. rewrite Htu. split; [|done]. destruct Hw as [?|?]; [by left|right; auto].
Qed.

Section TickKeeps.
Context (cfg : BgpStatusConfig.t) (w : WorkerPc) (c : Ledger) (r : gset pubkey).

Lemma push_task_ok s t :
  sub_ok cfg w c r s -> (forall x, t = Some x -> task_ok cfg x) -> sub_ok cfg w c r (push_task s t).
Proof.
  intros [Hc Hp Ht Hf] Hok. unfold push_task. destruct t as [t|]; [|by constructor].
  destruct (bool_decide _); [by constructor|].
  destruct (_ <? _) eqn:Hlt; [|by constructor].
  constructor; cbn.
  - rewrite length_app. cbn. lia.
  - intros k. rewrite app_assoc, fmap_app, elem_of_app, elem_of_union, elem_of_singleton.
    intros [->|Hk]; [right; by apply list_elem_of_singleton|by left; apply Hp].
  - done.
  - rewrite app_assoc. apply Forall_app_2; [done|]. constructor; [by apply Hok|done].
Qed.

Lemma push_task_states s t : userStates (push_task s t) = userStates s.
Proof. unfold push_task. by repeat case_match. Qed.

Lemma seen_ok now peers ifs s u :
  sub_ok cfg w c r s -> unseen_current w c r s u ->
  sub_ok cfg w c r (s <| userStates := <[User.PubKey u := user_seen now peers ifs (user_entry s u) u]> (userStates s) |>).
Proof.
  intros [Hc Hp Ht Hf] Hu. constructor; cbn; [done..| |done].
  intros k us. destruct (decide (k = User.PubKey u)) as [->|Hne].
  - rewrite lookup_insert_eq. intros [= <-]. rewrite user_seen_status. unfold user_entry.
    destruct (userStates s !! User.PubKey u) eqn:Hl; [by apply Ht|by apply Hu].
  - rewrite lookup_insert_ne by done. apply Ht.
Qed.

Lemma tick_user_ok now peers ifs s u :
  sub_ok cfg w c r s -> unseen_current w c r s u ->
  u ∈ device_users (BgpStatusConfig.LocalDevicePK cfg) [u] ->
  sub_ok cfg w c r (tick_user cfg now peers ifs s u).
Proof.
  intros Hs Hu Hd. rewrite tick_user_eq. apply push_task_ok; [by apply seen_ok|].
  intros x. by apply user_task_ok.
Qed.

Lemma tick_user_unseen now peers ifs s u v :
  unseen_current w c r s v -> unseen_current w c r (tick_user cfg now peers ifs s u) v.
Proof.
  unfold unseen_current. rewrite tick_user_eq, push_task_states. cbn.
  intros Hv Hl. apply Hv. by apply lookup_insert_None in Hl as [? _].
Qed.

Lemma tick_users_ok now peers ifs users s :
  sub_ok cfg w c r s -> (forall u, u ∈ users -> unseen_current w c r s u) ->
  (forall u, u ∈ users -> u ∈ device_users (BgpStatusConfig.LocalDevicePK cfg) [u]) ->
  sub_ok cfg w c r (foldl (tick_user cfg now peers ifs) s users).
Proof.
  revert s. induction users as [|u users IH]; intros s Hs Hu Hd; [done|]. cbn.
  apply IH.
  - apply tick_user_ok; [done|apply Hu|apply Hd]; left.
  - intros v Hv. apply tick_user_unseen, Hu. by right.
  - intros v Hv. apply Hd. by right.
Qed.

Lemma prune_ok active s : sub_ok cfg w c r s -> sub_ok cfg w c r (prune active s).
Proof.
  intros [Hc Hp Ht Hf]. constructor; cbn; [done| |  |done].
  - intros k [Hk _]%elem_of_difference. by apply Hp.
  - intros k us [Hk _]%map_lookup_filter_Some. by apply Ht.
Qed.

Lemma device_users_self local u users : u ∈ device_users local users -> u ∈ device_users local [u] /\ u ∈ users.
Proof.
  intros [Hu Hin]%list_elem_of_filter. split; [|done]. apply list_elem_of_filter. split; [done|].
  by apply list_elem_of_singleton.
Qed.

Lemma tick_ok now data dir collect s :
  sub_ok cfg w c r s ->
  (forall pd u, data = Some pd -> u ∈ ProgramData.Users pd -> unseen_current w c r s u) ->
  sub_ok cfg w c r (tick cfg now data dir collect s).
Proof.
  intros Hs Hu. unfold tick. destruct data as [pd|]; [|done]. destruct dir as [ns|]; [|done].
  destruct (bool_decide (ns = [])); [done|]. destruct (collect_all collect ns) as [[peers ifs] n].
  destruct (bool_decide (n = 0%nat)); [done|]. apply prune_ok, tick_users_ok; [done|..].
  - intros u Hin. apply (Hu pd); [done|]. by apply device_users_self in Hin as [_ ?].
  - intros u Hin. by apply device_users_self in Hin as [? _].
Qed.
End TickKeeps.

(** ** Every step keeps it *)

(** A change of the account of [k] that marks it. *)
Lemma status_current_stray w c c' r k k' st : (k' <> k -> c' !! k' = c !! k') ->
  status_current w c r k' st -> status_current w c' ({[k]} ∪ r) k' st.
Proof.
  intros Hc. destruct (decide (k' = k)) as [->|Hne]; [intros _; right; left; set_solver|].
  intros [?|[?|?]]; [by left|right; left; set_solver|]. right; right. by rewrite Hc.
Qed.

Lemma stray_ok cfg s f w c c' fl fl' r k : (forall k', k' <> k -> c' !! k' = c !! k') ->
  ledger_ok c' -> Forall (task_ok cfg) fl' ->
  system_ok cfg (mkBgpSystem s f w c fl r) -> system_ok cfg (mkBgpSystem s f w c' fl' ({[k]} ∪ r)).
Proof.
  intros Hc Hl Hfl [[Hca Hp Ht Hf] _ _ Hw Hu]; cbn in *. constructor; cbn; [|done|done| |].
  - constructor; [done..| |done]. intros k' us Hk'. eapply status_current_stray; [apply Hc|]. by apply Ht.
  - intros t Hd. destruct (decide (task_key t = k)) as [->|Hne]; [left; set_solver|].
    destruct (Hw t Hd) as [?|?]; [left; set_solver|right; by rewrite Hc].
  - intros pd u Hpd Hin Hn. eapply status_current_stray; [apply Hc|]. by apply (Hu pd).
Qed.

Lemma write_task_ne t c k : k <> task_key t -> write_task t c !! k = c !! k.
Proof. intros Hne. unfold write_task. by apply lookup_alter_ne. Qed.

Lemma ledger_ok_write cfg t c : task_ok cfg t -> ledger_ok c -> ledger_ok (write_task t c).
Proof.
  intros [Ht _] Hc k st rtt. destruct (decide (k = task_key t)) as [->|Hne]; [|rewrite write_task_ne by done; apply Hc].
  unfold write_task. rewrite lookup_alter_eq. intros (? & _ & [= -> ->])%fmap_Some Hd. destruct Ht as [Ht|[_ ?]]; [|done].
  by rewrite Ht in Hd.
Qed.

(** After an acknowledged submission the user's status is unrecorded, and the
    others are as they were. *)
Lemma status_current_write t c r k st :
  status_current (WSubmitting t) c r k st -> status_current (WDone t true) (write_task t c) (r ∖ {[task_key t]}) k st.
Proof.
  destruct (decide (task_key t = k)) as [<-|Hne]; [by intros _; left|].
  intros [[]|[Hk|Hc]]; right; [left; set_solver|right]. by rewrite write_task_ne.
Qed.

Lemma submit_ok cfg s f t c fl r : is_Some (c !! task_key t) ->
  system_ok cfg (mkBgpSystem s f (WSubmitting t) c fl r) ->
  system_ok cfg (mkBgpSystem s f (WDone t true) (write_task t c) fl (r ∖ {[task_key t]})).
Proof.
  intros [v Hv] [[Hc Hp Ht Hf] Hl Hfl Hw Hu]; cbn in *; constructor; cbn.
  - constructor; cbn; [done..| |done]. intros k us Hk. by apply status_current_write, Ht.
  - eapply ledger_ok_write; [|done]. by apply Forall_inv in Hf.
  - done.
  - intros t' [= <-]. right. unfold write_task. by rewrite lookup_alter_eq, Hv.
  - intros pd u Hpd Hin Hn. by apply status_current_write, (Hu pd).
Qed.

Lemma worker_done_pending now s t ok : pending (worker_done now s t ok) = pending s ∖ {[task_key t]}.
Proof. unfold worker_done, userStateFor. destruct ok; [|done]. cbn. by destruct (_ !! _). Qed.

Lemma worker_done_taskCh now s t ok : taskCh (worker_done now s t ok) = taskCh s.
Proof. unfold worker_done, userStateFor. destruct ok; [|done]. cbn. by destruct (_ !! _). Qed.

(** The entries after the worker: only the one of the user of a task that
    succeeded changes. *)
Lemma worker_done_states now s t ok k :
  userStates (worker_done now s t ok) !! k =
  if ok then
    if decide (k = task_key t)
    then Some ((default (mkUserState BGPStatusUnknown time_zero time_zero) (userStates s !! k))
               <| lastOnchainStatus := task_status t |> <| lastWriteTime := now |>)
    else userStates s !! k
  else userStates s !! k.
Proof.
  unfold worker_done, userStateFor. destruct ok; [|done]. cbn. fold (task_key t).
  destruct (decide (k = task_key t)) as [->|Hne];
    destruct (userStates s !! task_key t) eqn:Hl; cbn;
    rewrite ?lookup_insert_eq, ?lookup_insert_ne by done; done.
Qed.

Lemma done_ok cfg now s f t ok c fl r :
  system_ok cfg (mkBgpSystem s f (WDone t ok) c fl r) -> system_ok cfg (mkBgpSystem (worker_done now s t ok) f WIdle c fl r).
Proof.
  intros [[Hc Hp Ht Hf] Hl Hfl Hw Hu]; cbn in *. constructor; cbn; [|done..|].
  - constructor; cbn; rewrite ?worker_done_taskCh, ?worker_done_pending.
    + done.
    + intros k [Hk Hne]%elem_of_difference. apply Hp in Hk. rewrite elem_of_singleton in Hne.
      by apply elem_of_cons in Hk as [->|?].
    + intros k us. rewrite worker_done_states. destruct ok.
      * destruct (decide (k = task_key t)) as [->|Hne].
        -- intros [= <-]. right. cbn. destruct (Hw t eq_refl) as [?| ->]; [by left|by right].
        -- intros Hk. right. by destruct (Ht k us Hk) as [?|?].
      * intros Hk. right. by destruct (Ht k us Hk) as [?|?].
    + by apply Forall_cons in Hf as [_ ?].
  - intros pd u Hpd Hin. specialize (Hu pd u Hpd Hin). unfold unseen_current in *.
    rewrite worker_done_states. intros Hn. right. destruct ok.
    + destruct (decide _) as [|Hne]; [done|]. by destruct (Hu Hn) as [?|?].
    + by destruct (Hu Hn) as [?|?].
Qed.

(** Reading the ledger clears the marks of the users that are not kept. *)
Lemma fetch_ok cfg s w c fl r pd : pd_current c pd ->
  system_ok cfg (mkBgpSystem s None w c fl r) -> system_ok cfg (mkBgpSystem s (Some pd) w c fl (r ∩ known_users s w)).
Proof.
  intros Hpd [[Hc Hp Ht Hf] Hl Hfl Hw _]; cbn in *. unfold known_users. constructor; cbn; [|done|done| |].
  - constructor; [done..| |done]. intros k us Hk. destruct (Ht k us Hk) as [?|[?|?]]; [by left| |by right; right].
    right; left. apply elem_of_intersection. split; [done|]. apply elem_of_union_l, elem_of_dom. by exists us.
  - intros t Hd. destruct (Hw t Hd) as [?|?]; [left|by right]. rewrite Hd. set_solver.
  - intros pd' u [= <-] Hin _. right; right. by rewrite (Hpd u Hin).
Qed.

Lemma bgp_step_ok cfg y y' : bgp_step cfg y y' -> system_ok cfg y -> system_ok cfg y'.
Proof.
  intros Hst Hy. destruct Hst as [s f w c fl r k Hk|s f w c fl r k|s w c fl r pd Hpd|s w c fl r pd now dir collect
    |s f c fl r t ts Hts|s f c fl r t|s f w c fl1 fl2 r t|s f w c fl1 fl2 r t|s f c fl r t exec sig _ Hacc
    |s f c fl r t exec _|s f c fl r t ok now];
    [| |by apply fetch_ok| | | | | |by apply submit_ok| |by apply done_ok];
    pose proof Hy as [Hs Hl Hfl Hw Hu]; cbn -[tick] in *.
  - eapply stray_ok; [| |done|exact Hy]; [intros; by rewrite lookup_insert_ne|].
    intros k' st rtt Hk'. apply lookup_insert_Some in Hk' as [[_ [= <- <-]]|[_ Hk']]; [done|]. by apply (Hl k').
  - eapply stray_ok; [| |done|exact Hy]; [intros; by rewrite lookup_delete_ne|].
    intros k' st rtt [_ Hk']%lookup_delete_Some. by apply (Hl k').
  - constructor; cbn -[tick]; [|done..]. apply tick_ok; [done|]. by intros pd' u [= <-]; apply Hu.
  - constructor; cbn; [|done..|].
    + destruct Hs as [Hc Hp Ht Hf]. rewrite Hts in *. constructor; cbn in *; [lia|done..].
    + intros pd u Hf Hin Hn. by destruct (Hu pd u Hf Hin Hn) as [[]|?]; right.
  - constructor; cbn; [done|done| |done|done]. constructor; [|done]. destruct Hs as [_ _ _ Hf]. by apply Forall_inv in Hf.
  - apply Forall_app in Hfl as [H1 [H2 H3]%Forall_cons].
    eapply stray_ok; [intros; by apply write_task_ne|by eapply ledger_ok_write|by apply Forall_app|exact Hy].
  - constructor; cbn; [done|done| |done|done]. apply Forall_app in Hfl as [H1 [_ H3]%Forall_cons]. by apply Forall_app.
  - destruct Hs as [Hc Hp Ht Hf]. constructor; cbn; [by constructor|done..].
Qed.

Definition bgp_reachable (cfg : BgpStatusConfig.t) (c : Ledger) (fl : list submitTask) (y : BgpSystem) : Prop :=
  rtc (bgp_step cfg) (bgp_init c fl) y.

Lemma bgp_init_ok cfg c fl : ledger_ok c -> Forall (task_ok cfg) fl -> system_ok cfg (bgp_init c fl).
Proof.
  intros Hc Hfl. constructor; [|done..]. constructor; cbn; [done| | |constructor].
  - intros k Hk. by apply elem_of_empty in Hk.
  - intros k us Hk. by rewrite lookup_empty in Hk.
Qed.

Lemma reachable_system_ok cfg c fl y : ledger_ok c -> Forall (task_ok cfg) fl -> bgp_reachable cfg c fl y -> system_ok cfg y.
Proof.
  intros Hc Hfl Hr. pose proof (bgp_init_ok cfg c fl Hc Hfl) as Hi. unfold bgp_reachable in Hr.
  induction Hr as [|y1 y2 y3 Hst _ IH]; [done|]. apply IH. by apply (bgp_step_ok cfg y1).
Qed.

(** ** One round: a tick, then the worker on all it queued *)

(** The worker takes every task of the channel, each submission succeeding at
    the first call. *)
Definition drain_tasks (now : Time) (s : BgpSubmitter) (c : Ledger) : BgpSubmitter * Ledger :=
  foldl (fun '(s, c) t => (worker_done now s t true, write_task t c)) (s <| taskCh := [] |>, c) (taskCh s).

Section Round.
Context (cfg : BgpStatusConfig.t) (now : Time) (peers : gmap bytes BGPPeerState) (ifs : list NetInterface).

Definition round_tasks (s : BgpSubmitter) (users : list User.t) : list submitTask :=
  omap (fun u => user_task cfg now peers ifs (user_entry s u) u) users.

Lemma tick_user_other s u v :
  User.PubKey v <> User.PubKey u -> user_entry (tick_user cfg now peers ifs s u) v = user_entry s v.
Proof.
  intros Hne. unfold user_entry. rewrite tick_user_eq, push_task_states. cbn.
  by rewrite lookup_insert_ne by done.
Qed.

Lemma round_tasks_other s u users :
  User.PubKey u ∉ User.PubKey <$> users ->
  round_tasks (tick_user cfg now peers ifs s u) users = round_tasks s users.
Proof.
  intros Hn. apply list_omap_ext, Forall2_same_length_lookup_2; [done|].
  intros i v v' Hv Hv'. simplify_eq. rewrite tick_user_other; [done|].
  intros Heq. apply Hn. rewrite <- Heq. by eapply list_elem_of_fmap_2, list_elem_of_lookup_2.
Qed.

Lemma tick_user_pending s u k : k ∈ pending (tick_user cfg now peers ifs s u) -> k = User.PubKey u \/ k ∈ pending s.
Proof.
  rewrite tick_user_eq. unfold push_task. destruct (user_task _ _ _ _ _ _) as [t|] eqn:Ht; [|by right].
  apply user_task_spec in Ht as (Htu & _ & _). unfold task_key. rewrite Htu.
  destruct (bool_decide _); [by right|]. destruct (_ <? _); [|by right].
  cbn. rewrite elem_of_union, elem_of_singleton. done.
Qed.

Lemma tick_user_taskCh s u :
  User.PubKey u ∉ pending s -> Z.of_nat (length (taskCh s)) < taskChannelCapacity ->
  taskCh (tick_user cfg now peers ifs s u) = taskCh s ++ option_list (user_task cfg now peers ifs (user_entry s u) u).
Proof.
  intros Hp Hc. rewrite tick_user_eq. unfold push_task.
  destruct (user_task _ _ _ _ _ _) as [t|] eqn:Ht; [|by rewrite app_nil_r].
  apply user_task_spec in Ht as (Htu & _ & _). unfold task_key. rewrite Htu. cbn [pending taskCh set_field].
  cbn. rewrite bool_decide_eq_false_2 by done. by rewrite (proj2 (Z.ltb_lt _ _) Hc).
Qed.

(** The tasks a tick queues when no user is pending and the channel has room. *)
Lemma tick_users_tasks users s :
  NoDup (User.PubKey <$> users) ->
  (forall u, u ∈ users -> User.PubKey u ∉ pending s) ->
  Z.of_nat (length (taskCh s) + length users) <= taskChannelCapacity ->
  taskCh (foldl (tick_user cfg now peers ifs) s users) = taskCh s ++ round_tasks s users.
Proof.
  revert s. induction users as [|u users IH]; intros s Hnd Hp Hc; [by rewrite app_nil_r|].
  apply NoDup_cons in Hnd as [Hnu Hnd]. cbn [foldl]. cbn [length] in Hc.
  assert (Hch := tick_user_taskCh s u (Hp u (list_elem_of_here _ _)) ltac:(lia)).
  rewrite IH; [|done|..].
  - rewrite Hch, round_tasks_other by done. rewrite <- app_assoc. f_equal.
    unfold round_tasks. cbn. by destruct (user_task _ _ _ _ _ _).
  - intros v Hv Hk. apply tick_user_pending in Hk as [Hk|Hk].
    + apply Hnu. rewrite <- Hk. by apply list_elem_of_fmap_2.
    + apply (Hp v); [by right|done].
  - rewrite Hch, length_app. destruct (user_task _ _ _ _ _ _); cbn; lia.
Qed.

Lemma round_tasks_in s users t : t ∈ round_tasks s users ->
  exists u, u ∈ users /\ task_key t = User.PubKey u.
Proof.
  intros (u & Hu & Ht)%list_elem_of_omap. apply user_task_spec in Ht as (Htu & _ & _).
  exists u. split; [done|]. unfold task_key. by rewrite Htu.
Qed.

Lemma round_tasks_none s users k : k ∉ User.PubKey <$> users ->
  filter (fun t => task_key t = k) (round_tasks s users) = [].
Proof.
  intros Hk. apply elem_of_nil_inv. intros t [Ht Hin]%list_elem_of_filter.
  apply round_tasks_in in Hin as (u & Hu & Hkey). apply Hk. rewrite <- Ht, Hkey. by apply list_elem_of_fmap_2.
Qed.

Lemma round_tasks_user s users u : NoDup (User.PubKey <$> users) -> u ∈ users ->
  filter (fun t => task_key t = User.PubKey u) (round_tasks s users) =
  option_list (user_task cfg now peers ifs (user_entry s u) u).
Proof.
  induction users as [|v users IH]; intros Hnd Hu; [by apply not_elem_of_nil in Hu|].
  apply NoDup_cons in Hnd as [Hn Hnd]. unfold round_tasks in *. cbn [omap list_omap].
  destruct (user_task cfg now peers ifs (user_entry s v) v) as [t|] eqn:Ht;
    apply elem_of_cons in Hu as [->|Hu].
  - rewrite Ht. apply user_task_spec in Ht as (Htu & _ & _). rewrite filter_cons_True by (unfold task_key; by rewrite Htu).
    change (option_list (Some t)) with [t]. f_equal. by apply round_tasks_none.
  - apply user_task_spec in Ht as (Htu & _ & _). rewrite filter_cons_False; [by apply IH|].
    unfold task_key. rewrite Htu. intros Heq. apply Hn. rewrite Heq. by apply list_elem_of_fmap_2.
  - rewrite Ht. by apply round_tasks_none.
  - by apply IH.
Qed.

Lemma round_tasks_NoDup s users : NoDup (User.PubKey <$> users) -> NoDup (task_key <$> round_tasks s users).
Proof.
  induction users as [|v users IH]; intros Hnd; [constructor|].
  apply NoDup_cons in Hnd as [Hn Hnd]. unfold round_tasks in *. cbn [omap list_omap].
  destruct (user_task cfg now peers ifs (user_entry s v) v) as [t|] eqn:Ht; [|by apply IH].
  apply user_task_spec in Ht as (Htu & _ & _). apply NoDup_cons. split; [|by apply IH].
  intros (x & Hx & Hin)%list_elem_of_fmap. apply round_tasks_in in Hin as (w & Hw & Hk).
  apply Hn. unfold task_key in Hx at 1. rewrite Htu in Hx. rewrite Hx, Hk. by apply list_elem_of_fmap_2.
Qed.
End Round.

(** What the ledger holds for a user once the worker has drained tasks of
    different users. *)
Lemma drain_ledger now ts s c k :
  NoDup (task_key <$> ts) -> is_Some (c !! k) ->
  (foldl (fun '(s, c) t => (worker_done now s t true, write_task t c)) (s, c) ts).2 !! k =
  match filter (fun t => task_key t = k) ts with
  | t :: _ => Some (task_status t, task_rttNs t)
  | [] => c !! k
  end.
Proof.
  revert s c. induction ts as [|t ts IH]; intros s c Hnd Hk; [done|].
  apply NoDup_cons in Hnd as [Hn Hnd]. cbn [foldl]. rewrite IH; [|done|unfold write_task; by apply lookup_alter_is_Some].
  rewrite filter_cons. destruct (decide (task_key t = k)) as [<-|Hne]; [|by rewrite write_task_ne].
  replace (filter (fun x => task_key x = task_key t) ts) with (@nil submitTask).
  - unfold write_task. rewrite lookup_alter_eq. by destruct Hk as [v ->].
  - symmetry. apply elem_of_nil_inv. intros x [Hk' Hx]%list_elem_of_filter.
    apply Hn. rewrite <- Hk'. by apply list_elem_of_fmap_2.
Qed.

(** The status a task would report is the one on the ledger when no task is
    queued. *)
Lemma no_task_current cfg now peers ifs us u st :
  wanted_status cfg now peers ifs us u = Some st -> user_task cfg now peers ifs us u = None ->
  lastOnchainStatus us = st.
Proof.
  unfold user_task. intros ->. cbn [mbind option_bind]. unfold shouldSubmit. rewrite user_seen_status.
  destruct (IsZero _); [done|]. destruct (lastOnchainStatus us =? st) eqn:Heq; cbn; [lia|done].
Qed.

Lemma entry_current cfg c r s u : sub_ok cfg WIdle c r s -> User.PubKey u ∉ r -> fst <$> c !! User.PubKey u = Some (User.BgpStatus u) ->
  lastOnchainStatus (user_entry s u) = User.BgpStatus u.
Proof.
  intros Hs Hr Hu. unfold user_entry. destruct (userStates s !! User.PubKey u) as [us|] eqn:Hl; [|done].
  destruct (ok_tracked _ _ _ _ _ Hs _ _ Hl) as [[]|[?|Hc]]; [done|]. cbn. congruence.
Qed.

(** A session was up less than the grace period ago. *)
Definition recently_up (cfg : BgpStatusConfig.t) (now : Time) (us : userState) : bool :=
  bool_decide (lastUpObservedAt us <> 0 /\ now - lastUpObservedAt us < BgpStatusConfig.DownGracePeriod cfg /\
               0 < BgpStatusConfig.DownGracePeriod cfg).

Lemma effective_down cfg us now : is_i64 (BgpStatusConfig.DownGracePeriod cfg) ->
  computeEffectiveStatus false us now (BgpStatusConfig.DownGracePeriod cfg) =
  if recently_up cfg now us then BGPStatusUp else BGPStatusDown.
Proof.
  intros Hg. unfold computeEffectiveStatus, recently_up, IsZero, TimeSub, max_i64, min_i64, is_i in *.
  case_bool_decide as Hr; repeat case_goal; [lia|done|lia|done|lia|done].
Qed.

(** What a status report has to say of a user: Up with a session, the grace
    period when there is a tunnel or the ledger says Up, and otherwise what
    the ledger says. *)
Definition due_status (cfg : BgpStatusConfig.t) (now : Time) (peers : gmap bytes BGPPeerState)
    (ifs : list NetInterface) (us : userState) (u : User.t) : Z :=
  if session_up peers ifs u then BGPStatusUp
  else if bool_decide (is_Some (observed_peer peers ifs u) \/ User.BgpStatus u = BGPStatusUp) then
    if recently_up cfg now us then BGPStatusUp else BGPStatusDown
  else User.BgpStatus u.

Lemma wanted_due cfg now peers ifs us u : is_i64 (BgpStatusConfig.DownGracePeriod cfg) ->
  lastOnchainStatus us = User.BgpStatus u ->
  default (User.BgpStatus u) (wanted_status cfg now peers ifs us u) = due_status cfg now peers ifs us u.
Proof.
  intros Hg Hus. unfold wanted_status, due_status, user_seen, session_up.
  destruct (observed_peer peers ifs u) as [peer|].
  - cbn [default]. rewrite bool_decide_eq_true_2 by eauto.
    destruct (Established peer); [done|]. cbn. by apply effective_down.
  - rewrite Hus. destruct (_ =? _) eqn:Hup.
    + rewrite bool_decide_eq_true_2 by (right; lia). cbn. by apply effective_down.
    + rewrite bool_decide_eq_false_2; [done|]. intros [[? ?]|?]; [done|lia].
Qed.

Lemma drain_tick cfg now now' pd dir collect ns peers ifs n s c k :
  dir = Some ns -> ns <> [] -> collect_all collect ns = (peers, ifs, n) -> n <> 0%nat ->
  pending s = ∅ -> taskCh s = [] ->
  let users := device_users (BgpStatusConfig.LocalDevicePK cfg) (ProgramData.Users pd) in
  NoDup (User.PubKey <$> users) -> Z.of_nat (length users) <= taskChannelCapacity -> is_Some (c !! k) ->
  (drain_tasks now' (tick cfg now (Some pd) dir collect s) c).2 !! k =
  match filter (fun t => task_key t = k) (round_tasks cfg now peers ifs s users) with
  | t :: _ => Some (task_status t, task_rttNs t)
  | [] => c !! k
  end.
Proof.
  intros -> Hns Hc Hn Hp Hch users Hnd Hlen Hk. unfold tick. fold users.
  rewrite bool_decide_eq_false_2 by done. rewrite Hc. rewrite bool_decide_eq_false_2 by done.
  unfold drain_tasks.
  assert (Htasks : taskCh (prune (list_to_set (User.PubKey <$> users))
    (foldl (tick_user cfg now peers ifs) s users)) = round_tasks cfg now peers ifs s users).
  { unfold prune. change (taskCh (foldl (tick_user cfg now peers ifs) s users) = round_tasks cfg now peers ifs s users).
    rewrite tick_users_tasks; rewrite ?Hch; [done..| |done].
    intros u _. rewrite Hp. apply not_elem_of_empty. }
  rewrite Htasks. apply drain_ledger; [apply round_tasks_NoDup, Hnd|exact Hk].
Qed.

(** C22. The tick and the worker interleave; transactions of failed calls,
    also those of an earlier daemon, land at any time or never; accounts are
    closed and created again. At every reachable state: the submitter's record
    of a user's status is the one on the ledger, except while the worker has an
    acknowledged write to record, and except if, since the last acknowledged
    write or the first reading of the user, its account was closed or created
    or an unacknowledged transaction landed; a user marked pending has a task in
    the channel or at the worker, which will clear the mark; the channel never
    exceeds its capacity; and no user the ledger says is Down has a round-trip
    time. *)
Theorem bgp_status_tracked cfg c fl y :
  ledger_ok c -> Forall (task_ok cfg) fl -> bgp_reachable cfg c fl y ->
  (forall k us, userStates (sys_sub y) !! k = Some us ->
     unrecorded (sys_worker y) k \/ k ∈ sys_stray y \/ fst <$> sys_ledger y !! k = Some (lastOnchainStatus us)) /\
  (forall k, k ∈ pending (sys_sub y) ->
     exists t, t ∈ worker_tasks (sys_worker y) ++ taskCh (sys_sub y) /\ task_key t = k) /\
  Z.of_nat (length (taskCh (sys_sub y))) <= taskChannelCapacity /\
  (forall k rtt, sys_ledger y !! k = Some (BGPStatusDown, rtt) -> rtt = 0).
Proof.
  intros Hc Hfl Hr. destruct (reachable_system_ok cfg c fl y Hc Hfl Hr) as [[Hcap Hp Ht _] Hl _ _ _].
  split_and!; [done| |done|].
  - intros k Hk. apply Hp in Hk. apply list_elem_of_fmap in Hk as (t & -> & Hin). by exists t.
  - intros k rtt Hk. by apply (Hl k BGPStatusDown).
Qed.

(** A round converges: from any reachable state in which no submission is
    under way and no stray transaction or new account changed the user, a tick that reads the current ledger and at least one namespace,
    followed by the worker on what it queued, leaves the ledger with the due
    status for every activated user of the device: Up with an established
    session, Up within the grace period and Down after it when the tunnel is
    there or the ledger said Up, unchanged otherwise. *)
Theorem status_round_converges cfg c fl y pd ns collect peers ifs n now now' u :
  is_i64 (BgpStatusConfig.DownGracePeriod cfg) -> ledger_ok c -> Forall (task_ok cfg) fl -> bgp_reachable cfg c fl y ->
  User.PubKey u ∉ sys_stray y -> sys_worker y = WIdle -> taskCh (sys_sub y) = [] ->
  pd_current (sys_ledger y) pd ->
  ns <> [] -> collect_all collect ns = (peers, ifs, n) -> n <> 0%nat ->
  let users := device_users (BgpStatusConfig.LocalDevicePK cfg) (ProgramData.Users pd) in
  NoDup (User.PubKey <$> users) -> Z.of_nat (length users) <= taskChannelCapacity -> u ∈ users ->
  fst <$> (drain_tasks now' (tick cfg now (Some pd) (Some ns) collect (sys_sub y)) (sys_ledger y)).2 !! User.PubKey u =
  Some (due_status cfg now peers ifs (user_entry (sys_sub y) u) u).
Proof.
  intros Hg Hc Hfl Hr Hst Hw Hch Hpd Hns Hcol Hn users Hnd Hlen Hu.
  destruct (reachable_system_ok cfg c fl y Hc Hfl Hr) as [Hs _ _ _ _]. rewrite Hw in Hs.
  assert (Hpend : pending (sys_sub y) = ∅).
  { apply elem_of_equiv_empty_L. intros k Hk. apply (ok_pending _ _ _ _ _ Hs) in Hk. by rewrite Hch in Hk; apply not_elem_of_nil in Hk. }
  assert (Hcur := Hpd u (proj2 (device_users_self _ _ _ Hu))).
  assert (Hent := entry_current _ _ _ _ u Hs Hst ltac:(by rewrite Hcur)).
  rewrite (drain_tick cfg now now' pd _ collect ns peers ifs n) by (done || by rewrite Hcur). fold users.
  rewrite round_tasks_user by done. rewrite <- (wanted_due cfg now peers ifs _ u Hg Hent).
  destruct (user_task cfg now peers ifs (user_entry (sys_sub y) u) u) as [t|] eqn:Ht.
  - apply user_task_spec in Ht as (_ & -> & _). done.
  - change (option_list None) with (@nil submitTask). rewrite Hcur.
    destruct (wanted_status _ _ _ _ _ _) as [st|] eqn:Hwant; [|done].
    pose proof (no_task_current _ _ _ _ _ _ _ Hwant Ht) as Hlast. cbn. congruence.
Qed.

(** ** Sample data: a user whose session comes up, one whose tunnel is gone *)

Definition bgp_user (n status : Z) : User.t := sample_user
  <| User.PubKey := sample_key n |> <| User.BgpStatus := status |> <| User.BgpRttNs := 0 |>
  <| User.TunnelNet := [169; 254; 0; 2 * n; 31] |>.

Definition bgp_cfg : BgpStatusConfig.t :=
  BgpStatusConfig.mk true true true true (sample_key 2) defaultNetnsDir defaultInterval defaultRefreshInterval (30 * Second).

Definition bgp_data : ProgramData.t :=
  ProgramData.empty <| ProgramData.Users := [bgp_user 9 BGPStatusDown; bgp_user 10 BGPStatusUp] |>.

Definition bgp_ledger : Ledger :=
  <[sample_key 9 := (BGPStatusDown, 0)]> (<[sample_key 10 := (BGPStatusUp, 0)]> ∅).

Definition bgp_collect (ns : bytes) : Collection :=
  if bool_decide (ns = lit "ns-vrf1") then
    Some (buildPeerStateMap [mkBgpSocket (lit "169.254.0.19") (lit "ESTABLISHED") 1500000],
          [mkNetInterface (lit "Tunnel509") [Some (mkIPNet [169; 254; 0; 18] [255; 255; 255; 254])]])
  else None.

Definition bgp_namespaces : list bytes := [lit "default"; lit "ns-vrf1"].

Lemma bgp_ledger_ok : ledger_ok bgp_ledger.
Proof.
  intros k st rtt. unfold bgp_ledger.
  intros [[_ [= <- <-]]|[_ Hk]]%lookup_insert_Some; [done|].
  apply lookup_insert_Some in Hk as [[_ [= <- <-]]|[_ Hk]]; [done|]. by rewrite lookup_empty in Hk.
Qed.

Lemma bgp_data_current : pd_current bgp_ledger bgp_data.
Proof.
  intros u Hu. cbn in Hu. repeat apply elem_of_cons in Hu as [->|Hu]; [vm_compute; reflexivity..|].
  by apply not_elem_of_nil in Hu.
Qed.

Definition bgp_ticked : BgpSubmitter :=
  tick bgp_cfg unix_epoch (Some bgp_data) (Some bgp_namespaces) bgp_collect (mkBgpSubmitter ∅ ∅ []).

Definition bgp_up_task : submitTask := mkSubmitTask (bgp_user 9 BGPStatusDown) BGPStatusUp 1500000.

(** After the tick the worker has written the first task at the second call;
    the transaction of the first may still land. *)
Definition bgp_written : BgpSystem :=
  mkBgpSystem (bgp_ticked <| taskCh := tail (taskCh bgp_ticked) |>) None (WDone bgp_up_task true)
    (write_task bgp_up_task bgp_ledger) [bgp_up_task] ∅.

Lemma bgp_written_reachable : bgp_reachable bgp_cfg bgp_ledger [] bgp_written.
Proof.
  unfold bgp_reachable, bgp_init.
  eapply rtc_l; [apply step_fetch, bgp_data_current|].
  eapply rtc_l; [apply (step_tick _ _ _ _ _ _ _ unix_epoch (Some bgp_namespaces) bgp_collect)|].
  fold bgp_ticked.
  eapply rtc_l; [apply (step_take _ _ _ _ _ _ bgp_up_task (tail (taskCh bgp_ticked))); vm_compute; reflexivity|].
  eapply rtc_l; [apply step_call|].
  eapply rtc_l; [apply (step_submit _ _ _ _ _ _ _ (fun i => if bool_decide (i = 0%nat) then Failed else Sent []) []);
    [vm_compute; reflexivity|by vm_compute; eexists]|].
  replace (_ ∖ _) with (∅ : gset pubkey) by set_solver. apply rtc_refl.
Qed.

Lemma bgp_status_tracked_witness :
  exists t, t ∈ worker_tasks (sys_worker bgp_written) ++ taskCh (sys_sub bgp_written) /\ task_key t = sample_key 10.
Proof.
  refine (proj1 (proj2 (bgp_status_tracked bgp_cfg bgp_ledger [] bgp_written bgp_ledger_ok (Forall_nil_2 _) bgp_written_reachable))
    (sample_key 10) _).
  apply (bool_decide_unpack _). vm_compute. exact I.
Defined.

Definition bgp_drained (s : BgpSubmitter) : Ledger := (drain_tasks (unix_epoch + Second) s bgp_ledger).2.

(** The first user becomes Up, the second Down. *)
Lemma status_round_converges_witness :
  fst <$> bgp_drained bgp_ticked !! sample_key 9 = Some BGPStatusUp /\
  fst <$> bgp_drained bgp_ticked !! sample_key 10 = Some BGPStatusDown.
Proof.
  assert (Hc : exists peers ifs, collect_all bgp_collect bgp_namespaces = (peers, ifs, 1%nat) /\
    forall u, u ∈ ProgramData.Users bgp_data ->
      due_status bgp_cfg unix_epoch peers ifs (user_entry (mkBgpSubmitter ∅ ∅ []) u) u =
      (if bool_decide (User.PubKey u = sample_key 9) then BGPStatusUp else BGPStatusDown)).
  { eexists _, _. split; [reflexivity|]. intros u Hu. cbn in Hu.
    repeat apply elem_of_cons in Hu as [->|Hu]; [vm_compute; reflexivity..|]. by apply not_elem_of_nil in Hu. }
  destruct Hc as (peers & ifs & Hcol & Hdue).
  assert (Hr := fun u (Hu : u ∈ device_users (sample_key 2) (ProgramData.Users bgp_data)) => status_round_converges bgp_cfg bgp_ledger [] (bgp_init bgp_ledger []) bgp_data bgp_namespaces bgp_collect
    peers ifs 1 unix_epoch (unix_epoch + Second) u ltac:(split; vm_compute; congruence) bgp_ledger_ok
    (Forall_nil_2 _) (rtc_refl _ _) (not_elem_of_empty _) eq_refl eq_refl bgp_data_current ltac:(done) Hcol ltac:(done)
    ltac:(apply (bool_decide_unpack _); vm_compute; exact I) ltac:(vm_compute; congruence) Hu).
  split.
  - etransitivity; [exact (Hr (bgp_user 9 BGPStatusDown) (proj2 (list_elem_of_filter _ _ _) (conj (conj eq_refl eq_refl) (list_elem_of_here _ _))))|].
    f_equal. apply Hdue. left.
  - etransitivity; [exact (Hr (bgp_user 10 BGPStatusUp) (proj2 (list_elem_of_filter _ _ _) (conj (conj eq_refl eq_refl) (list_elem_of_further _ _ _ (list_elem_of_here _ _)))))|].
    f_equal. apply Hdue. right. left.
Defined.
