(* ===== verification/Executor.v ===== *)
(** * Serviceability SDK: program addresses and the executor

    Models [pda.go] and [executor.go] of [smartcontract/sdk/go/serviceability]:
    the seeds of the program's accounts, the instructions the executor builds,
    the transaction it sends and waits for, and the retry of a batch without
    the update that failed. [solana.FindProgramAddress], the construction and
    signature of a transaction, and the RPC client are parameters. *)

From stdpp Require Import base tactics numbers list gmap.
From Stdlib Require Import ZArith Lia ZifyBool ZifyNat.
From S2P Require Import Prelude Bytes GoStrings GoCollections ByteReader Accounts Deserialize ProgramData.

#[local] Open Scope Z_scope.

(** ** Program-derived addresses *)

Section Pda.
Context (FindProgramAddress : list bytes -> pubkey -> option (pubkey * Z)) (programID : pubkey).

Definition SeedPrefix : bytes := lit "doublezero".

Definition DeriveGlobalStatePDA := FindProgramAddress [SeedPrefix; lit "globalstate"] programID.
Definition DeriveGlobalConfigPDA := FindProgramAddress [SeedPrefix; lit "config"] programID.
Definition DeriveProgramConfigPDA := FindProgramAddress [SeedPrefix; lit "programconfig"] programID.
Definition GetGlobalStatePDA := DeriveGlobalStatePDA.
Definition GetLinkIdsPDA := FindProgramAddress [SeedPrefix; lit "linkids"] programID.
Definition GetSegmentRoutingIdsPDA := FindProgramAddress [SeedPrefix; lit "segmentroutingids"] programID.
Definition GetUserTunnelBlockPDA := FindProgramAddress [SeedPrefix; lit "usertunnelblock"] programID.
Definition GetDeviceTunnelBlockPDA := FindProgramAddress [SeedPrefix; lit "devicetunnelblock"] programID.
Definition GetMulticastGroupBlockPDA := FindProgramAddress [SeedPrefix; lit "multicastgroupblock"] programID.
Definition GetMulticastPublisherBlockPDA := FindProgramAddress [SeedPrefix; lit "multicastpublisherblock"] programID.
Definition GetTenantPDA (code : bytes) := FindProgramAddress [SeedPrefix; lit "tenant"; code] programID.
Definition GetPermissionPDA (userPayer : pubkey) := FindProgramAddress [SeedPrefix; lit "permission"; userPayer] programID.
Definition GetUserPDA (clientIP : bytes) (userType : Z) :=
  FindProgramAddress [SeedPrefix; lit "user"; clientIP; [u8 userType]] programID.
Definition GetAccessPassPDA (clientIP : bytes) (userPayer : pubkey) :=
  FindProgramAddress [SeedPrefix; lit "accesspass"; clientIP; userPayer] programID.
Definition GetTunnelIdsPDA (devicePK : pubkey) (index : Z) :=
  FindProgramAddress [SeedPrefix; lit "tunnelids"; devicePK; le_bytes 8 index] programID.
Definition GetDzPrefixBlockPDA (devicePK : pubkey) (index : Z) :=
  FindProgramAddress [SeedPrefix; lit "dzprefixblock"; devicePK; le_bytes 8 index] programID.
End Pda.

(** ** Instructions *)

Record AccountMeta := mkMeta { meta_key : pubkey; IsSigner : bool; IsWritable : bool }.
Definition Meta (k : pubkey) : AccountMeta := mkMeta k false false.
Definition WRITE (m : AccountMeta) : AccountMeta := mkMeta (meta_key m) (IsSigner m) true.
Definition SIGNER (m : AccountMeta) : AccountMeta := mkMeta (meta_key m) true (IsWritable m).

Record genericInstruction := mkInstruction {
  ins_programID : pubkey;
  accounts : list AccountMeta;
  ins_data : bytes;
  skipPermissionInject : bool
}.
#[global] Instance genericInstruction_eta : RecordEta genericInstruction := {
  eta_record := fun r => mkInstruction (ins_programID r) (accounts r) (ins_data r) (skipPermissionInject r);
  eta_record_id := fun r => match r with mkInstruction _ _ _ _ => eq_refl end
}.

Definition instructionCreateUser : Z := 36.
Definition instructionDeleteUser : Z := 42.
Definition instructionSetDeviceHealth : Z := 83.
Definition instructionSetLinkHealth : Z := 84.
Definition instructionSetUserBGPStatus : Z := 106.

Definition SystemProgramID : pubkey := replicate 32 0.

(** ** Errors *)

(** A value of type [any] that the JSON decoder made: a [json.Number] as what
    its [Int64] returns, a [float64] as the integer it converts to. *)
#[warnings="-register-all"]
Inductive any :=
| AnyMap (m : list (bytes * any))
| AnyList (l : list any)
| AnyNumber (n : option Z)
| AnyFloat (n : Z)
| AnyString (s : bytes)
| AnyOther.

Inductive ex_kind :=
| ErrNoPrivateKey | ErrNoProgramID | ErrAllUpdatesFailed | ErrBlockhash | ErrBuild | ErrSend | ErrDropped
| ErrGetTransaction | ErrInvalidIndex | ErrArgs | ErrDerive | ErrFetchUser | ErrVisibility.

(** An error, with the data of the [*jsonrpc.RPCError] it wraps, if any. *)
Record ex_error := mkExError { err_kind : ex_kind; err_rpc : option any }.

Definition map_get (k : bytes) (m : list (bytes * any)) : option any :=
  snd <$> head (filter (fun p => p.1 = k) m).

Definition parseFailingInstructionIndex (err : ex_error) : option Z :=
  match err_rpc err with
  | Some (AnyMap data) =>
      match map_get (lit "err") data with
      | Some (AnyMap errMap) =>
          match map_get (lit "InstructionError") errMap with
          | Some (AnyList (idx :: _ :: _)) =>
              match idx with AnyNumber n => n | AnyFloat n => Some n | _ => None end
          | _ => None
          end
      | _ => None
      end
  | _ => None
  end.

(** ** The RPC client *)

(** The error of a call, as the data of the RPC error it wraps. *)
Abbreviation rpc_res A := (option any + A)%type.

Record SigStatus := mkSigStatus { st_finalized : bool; st_Err : bool }.

(** An account: missing ([ErrNotFound] or no value), or its data. *)
Inductive account_info := NotFound | NoValue | Account (data : bytes) | InfoErr (e : option any).

(** [Pause d] waits for [d] and tells whether the context ended meanwhile. *)
Class ExecutorRPC (W Tx : Type) := {
  NewSignedTransaction : list genericInstruction -> bytes -> pubkey -> option Tx;
  GetLatestBlockhash : W -> rpc_res bytes * W;
  SendTransaction : Tx -> W -> rpc_res bytes * W;
  GetSignatureStatuses : bytes -> W -> rpc_res (list (option SigStatus)) * W;
  GetTransaction : bytes -> W -> rpc_res bool * W;
  GetAccountInfo : pubkey -> W -> account_info * W;
  Clock : W -> Time;
  Pause : Duration -> W -> bool * W
}.

Module Exec.
(** [permissionOnce] has run; the address it found. *)
Record t := mk {
  signer : option pubkey;
  programID : pubkey;
  waitForVisibleTimeout : Duration;
  permissionOnce : bool;
  permissionPDA : option pubkey
}.
#[global] Instance eta : RecordEta t := {
  eta_record := fun r => mk (signer r) (programID r) (waitForVisibleTimeout r) (permissionOnce r) (permissionPDA r);
  eta_record_id := fun r => match r with mk _ _ _ _ _ => eq_refl end
}.
End Exec.

Definition NewExecutor (signer : option pubkey) (programID : pubkey) (timeout : option Duration) : Exec.t :=
  Exec.mk signer programID (default (3 * Second) timeout) false None.

(** A call of the executor: a result, a run-time panic, or a wait that has not
    ended within the fuel. *)
Inductive outcome (A : Type) := XDone (a : A) | XFailed (e : ex_error) | XPanic | XWait.
Arguments XDone {A} _.
Arguments XFailed {A} _.
Arguments XPanic {A}.
Arguments XWait {A}.

Definition X (W A : Type) : Type := Exec.t -> W -> outcome A * Exec.t * W.

#[global] Instance X_ret W : MRet (X W) := fun A a e w => (XDone a, e, w).
#[global] Instance X_bind W : MBind (X W) := fun A B k m e w =>
  match m e w with
  | (XDone a, e, w) => k a e w
  | (XFailed x, e, w) => (XFailed x, e, w)
  | (XPanic, e, w) => (XPanic, e, w)
  | (XWait, e, w) => (XWait, e, w)
  end.

Definition xfail {W A} (k : ex_kind) (d : option any) : X W A := fun e w => (XFailed (mkExError k d), e, w).
Definition xget {W} : X W Exec.t := fun e w => (XDone e, e, w).
Definition xrpc {W A} (f : W -> A * W) : X W A := fun e w => let '(a, w) := f w in (XDone a, e, w).
(** A call whose error is wrapped. *)
Definition xcall {W A} (k : ex_kind) (f : W -> rpc_res A * W) : X W A :=
  r ← xrpc f; match r with inl d => xfail k d | inr a => mret a end.
(** [e.signer.PublicKey()] dereferences the signer. *)
Definition xsigner {W} : X W pubkey := fun e w =>
  match Exec.signer e with Some k => (XDone k, e, w) | None => (XPanic, e, w) end.

(** ** Transactions *)

Section Executor.
Context {W Tx : Type} `{!ExecutorRPC W Tx}.
Context (find : list bytes -> pubkey -> option (pubkey * Z)) (fuel : nat).

Definition buildSetUserBGPStatusInstruction (programID signer userPubkey devicePubkey : pubkey) (status bgpRttNs : Z) :
    genericInstruction :=
  mkInstruction programID
    [WRITE (Meta userPubkey); Meta devicePubkey; WRITE (SIGNER (Meta signer)); Meta SystemProgramID]
    (instructionSetUserBGPStatus :: u8 status :: le_bytes 8 bgpRttNs) false.

Definition buildSetDeviceHealthInstruction (programID signer devicePubkey globalStatePubkey : pubkey) (health : Z) :
    genericInstruction :=
  mkInstruction programID
    [WRITE (Meta devicePubkey); Meta globalStatePubkey; WRITE (SIGNER (Meta signer)); Meta SystemProgramID]
    [instructionSetDeviceHealth; u8 health] false.

Definition buildSetLinkHealthInstruction (programID signer linkPubkey globalStatePubkey : pubkey) (health : Z) :
    genericInstruction :=
  mkInstruction programID
    [WRITE (Meta linkPubkey); Meta globalStatePubkey; WRITE (SIGNER (Meta signer)); Meta SystemProgramID]
    [instructionSetLinkHealth; u8 health] false.

(** Runs once; an error is taken for the absence of the account. *)
Definition resolvePermissionPDA : X W () := fun e w =>
  if Exec.permissionOnce e then (XDone (), e, w)
  else
    let e := e <| Exec.permissionOnce := true |> in
    match Exec.signer e with
    | None => (XDone (), e, w)
    | Some signer =>
        match GetPermissionPDA find (Exec.programID e) signer with
        | None => (XDone (), e, w)
        | Some (pda, _) =>
            match GetAccountInfo pda w with
            | (Account _, w) => (XDone (), e <| Exec.permissionPDA := Some pda |>, w)
            | (_, w) => (XDone (), e, w)
            end
        end
    end.

Definition inject_permission (p : option pubkey) (i : genericInstruction) : genericInstruction :=
  match p with
  | Some pda => if skipPermissionInject i then i else i <| accounts := accounts i ++ [Meta pda] |>
  | None => i
  end.

(** Poll every 250 milliseconds while the deadline is ahead. *)
Fixpoint signature_visible (n : nat) (sig : bytes) (deadline : Time) : X W () :=
  match n with
  | O => fun e w => (XWait, e, w)
  | S n =>
      now ← xrpc (fun w => (Clock w, w));
      if Before now deadline then
        statuses ← xcall ErrDropped (GetSignatureStatuses sig);
        match statuses with
        | Some _ :: _ => mret ()
        | _ => _ ← xrpc (Pause (250 * Millisecond)); signature_visible n sig deadline
        end
      else xfail ErrDropped None
  end.

Definition waitForSignatureVisible (sig : bytes) (timeout : Duration) : X W () :=
  now ← xrpc (fun w => (Clock w, w));
  signature_visible fuel sig (TimeAdd now timeout).

(** Poll every second until the transaction is finalized; whether it failed. *)
Fixpoint transaction_final (n : nat) (sig : bytes) : X W bool :=
  match n with
  | O => fun e w => (XWait, e, w)
  | S n =>
      statuses ← xcall ErrGetTransaction (GetSignatureStatuses sig);
      match statuses with
      | [] => xfail ErrGetTransaction None
      | Some (mkSigStatus true failed) :: _ => mret failed
      | _ =>
          cancelled ← xrpc (Pause Second);
          if cancelled : bool then xfail ErrGetTransaction None else transaction_final n sig
      end
  end.

Definition waitForTransactionFinalized (sig : bytes) : X W () :=
  failed ← transaction_final fuel sig;
  if failed : bool then xfail ErrGetTransaction None
  else
    found ← xcall ErrGetTransaction (GetTransaction sig);
    if found : bool then mret () else xfail ErrGetTransaction None.

Definition executeTransaction (instructions : list genericInstruction) : X W bytes :=
  e ← xget;
  match Exec.signer e with
  | None => xfail ErrNoPrivateKey None
  | Some signer =>
      if bool_decide (Exec.programID e = replicate 32 0) then xfail ErrNoProgramID None
      else
        _ ← resolvePermissionPDA;
        e ← xget;
        let instructions := inject_permission (Exec.permissionPDA e) <$> instructions in
        blockhash ← xcall ErrBlockhash GetLatestBlockhash;
        match NewSignedTransaction instructions blockhash signer with
        | None => xfail ErrBuild None
        | Some tx =>
            sig ← xcall ErrSend (SendTransaction tx);
            _ ← waitForSignatureVisible sig (Exec.waitForVisibleTimeout e);
            _ ← waitForTransactionFinalized sig;
            mret sig
        end
  end.

Definition SetUserBGPStatus (userPubkey devicePubkey : pubkey) (status bgpRttNs : Z) : X W bytes :=
  e ← xget; signer ← xsigner;
  executeTransaction [buildSetUserBGPStatusInstruction (Exec.programID e) signer userPubkey devicePubkey status bgpRttNs].

(** ** Batches

    [updates] is a slice of [len] elements from [off] on of an array the
    caller shares; removing an element moves the ones after it in place. *)

Definition slice_of {U} (arr : list U) (off len : nat) : list U := take len (drop off arr).

(** [append(s[:i], s[i+1:]...)] *)
Definition slice_remove {U} (arr : list U) (off len i : nat) : list U :=
  take (off + i) arr ++ drop (S i) (slice_of arr off len) ++ drop (off + len - 1) arr.

(** The array after the loop, and what the loop returns. *)
Fixpoint batch_loop {U} (build : U -> genericInstruction) (len : nat) (arr : list U) (off : nat) (e : Exec.t) (w : W) :
    list U * (outcome bytes * Exec.t * W) :=
  match len with
  | O => (arr, (XFailed (mkExError ErrAllUpdatesFailed None), e, w))
  | S len' =>
      match executeTransaction (build <$> slice_of arr off len) e w with
      | (XFailed err, e, w) =>
          match parseFailingInstructionIndex err with
          | None => (arr, (XFailed err, e, w))
          | Some failingIdx =>
              if (failingIdx <? 0) || (Z.of_nat len <=? failingIdx)
              then (arr, (XFailed (mkExError ErrInvalidIndex (err_rpc err)), e, w))
              else batch_loop build len' (slice_remove arr off len (Z.to_nat failingIdx)) off e w
          end
      | r => (arr, r)
      end
  end.

Definition health_batch {U} (build : pubkey -> pubkey -> U -> genericInstruction) (arr : list U) (off len : nat)
    (e : Exec.t) (w : W) : list U * (outcome bytes * Exec.t * W) :=
  match len with
  | O => (arr, (XDone (replicate 64 0), e, w))
  | S _ =>
      match Exec.signer e with
      | None => (arr, (XPanic, e, w))
      | Some signer => batch_loop (build (Exec.programID e) signer) len arr off e w
      end
  end.

(** An update of the health of a device or a link. *)
Record HealthUpdate := mkHealthUpdate { upd_Pubkey : pubkey; upd_Health : Z }.

Definition SetDeviceHealthBatch (globalState : pubkey) (arr : list HealthUpdate) (off len : nat) (e : Exec.t) (w : W) :
    list HealthUpdate * (outcome bytes * Exec.t * W) :=
  health_batch (fun prog signer u => buildSetDeviceHealthInstruction prog signer (upd_Pubkey u) globalState (upd_Health u))
    arr off len e w.

Definition SetLinkHealthBatch (globalState : pubkey) (arr : list HealthUpdate) (off len : nat) (e : Exec.t) (w : W) :
    list HealthUpdate * (outcome bytes * Exec.t * W) :=
  health_batch (fun prog signer u => buildSetLinkHealthInstruction prog signer (upd_Pubkey u) globalState (upd_Health u))
    arr off len e w.

(** ** Users *)

Record UserCreateArgs := mkUserCreateArgs {
  arg_UserType : Z;
  arg_CyoaType : Z;
  arg_ClientIP : bytes;
  arg_TunnelEndpoint : bytes;
  arg_DzPrefixCount : Z;
  arg_DevicePubkey : pubkey;
  arg_TenantPubkey : pubkey
}.

(** The accounts of the prefix blocks of a device, from [i] on. *)
Fixpoint dz_prefix_metas (programID devicePubkey : pubkey) (n : nat) (i : Z) : option (list AccountMeta) :=
  match n with
  | O => Some []
  | S n =>
      pda ← GetDzPrefixBlockPDA find programID devicePubkey i;
      rest ← dz_prefix_metas programID devicePubkey n (i + 1);
      Some (WRITE (Meta pda.1) :: rest)
  end.

Definition tenant_metas (tenant : pubkey) : list AccountMeta :=
  if bool_decide (tenant = replicate 32 0) then [] else [WRITE (Meta tenant)].

Definition buildCreateUserInstruction (programID signer : pubkey) (args : UserCreateArgs) :
    option (genericInstruction * pubkey) :=
  let data := instructionCreateUser :: u8 (arg_UserType args) :: u8 (arg_CyoaType args) ::
    arg_ClientIP args ++ arg_TunnelEndpoint args ++ [arg_DzPrefixCount args] in
  userPDA ← GetUserPDA find programID (arg_ClientIP args) (arg_UserType args);
  accessPassPDA ← GetAccessPassPDA find programID (arg_ClientIP args) signer;
  globalStatePDA ← GetGlobalStatePDA find programID;
  userTunnelBlockPDA ← GetUserTunnelBlockPDA find programID;
  mcPublisherBlockPDA ← GetMulticastPublisherBlockPDA find programID;
  tunnelIdsPDA ← GetTunnelIdsPDA find programID (arg_DevicePubkey args) 0;
  prefixes ← dz_prefix_metas programID (arg_DevicePubkey args) (Z.to_nat (arg_DzPrefixCount args)) 0;
  Some (mkInstruction programID
    ([WRITE (Meta userPDA.1); WRITE (Meta (arg_DevicePubkey args)); WRITE (Meta accessPassPDA.1);
      WRITE (Meta globalStatePDA.1); WRITE (Meta userTunnelBlockPDA.1); WRITE (Meta mcPublisherBlockPDA.1);
      WRITE (Meta tunnelIdsPDA.1)] ++ prefixes ++ tenant_metas (arg_TenantPubkey args) ++
     [WRITE (SIGNER (Meta signer)); Meta SystemProgramID]) data true, userPDA.1).

Definition buildDeleteUserInstruction (programID signer userPubkey : pubkey) (user : User.t)
    (dzPrefixCount multicastPublisherCount : Z) : option genericInstruction :=
  let data := [instructionDeleteUser; dzPrefixCount; multicastPublisherCount] in
  accessPassPDA ← GetAccessPassPDA find programID (User.ClientIp user) (User.Owner user);
  globalStatePDA ← GetGlobalStatePDA find programID;
  userTunnelBlockPDA ← GetUserTunnelBlockPDA find programID;
  mcPublisherBlockPDA ← GetMulticastPublisherBlockPDA find programID;
  tunnelIdsPDA ← GetTunnelIdsPDA find programID (User.DevicePubKey user) 0;
  prefixes ← dz_prefix_metas programID (User.DevicePubKey user) (Z.to_nat dzPrefixCount) 0;
  Some (mkInstruction programID
    ([WRITE (Meta userPubkey); WRITE (Meta accessPassPDA.1); WRITE (Meta globalStatePDA.1);
      WRITE (Meta (User.DevicePubKey user)); WRITE (Meta userTunnelBlockPDA.1); WRITE (Meta mcPublisherBlockPDA.1);
      WRITE (Meta tunnelIdsPDA.1)] ++ prefixes ++ tenant_metas (User.TenantPubKey user) ++
     [WRITE (Meta (User.Owner user)); WRITE (SIGNER (Meta signer)); Meta SystemProgramID]) data true).

(** Poll every 250 milliseconds until [seen] accepts the account or the
    deadline has passed. *)
Fixpoint account_poll (n : nat) (seen : account_info -> bool) (k : pubkey) (deadline : Time) : X W () :=
  match n with
  | O => fun e w => (XWait, e, w)
  | S n =>
      info ← xrpc (GetAccountInfo k);
      if seen info then mret ()
      else
        now ← xrpc (fun w => (Clock w, w));
        if After now deadline then xfail ErrVisibility None
        else
          cancelled ← xrpc (Pause (250 * Millisecond));
          if cancelled : bool then xfail ErrVisibility None else account_poll n seen k deadline
  end.

Definition waitForAccountVisible (k : pubkey) (timeout : Duration) : X W () :=
  now ← xrpc (fun w => (Clock w, w));
  account_poll fuel (fun i => match i with Account _ => true | _ => false end) k (TimeAdd now timeout).

Definition waitForAccountGone (k : pubkey) (timeout : Duration) : X W () :=
  now ← xrpc (fun w => (Clock w, w));
  account_poll fuel (fun i => match i with NotFound | NoValue => true | _ => false end) k (TimeAdd now timeout).

Definition xsome {W A} (k : ex_kind) (o : option A) : X W A := match o with Some a => mret a | None => xfail k None end.

(** The guards shared by [CreateUser] and [DeleteUser]. *)
Definition require_signer : X W pubkey :=
  e ← xget;
  match Exec.signer e with
  | None => xfail ErrNoPrivateKey None
  | Some signer => if bool_decide (Exec.programID e = replicate 32 0) then xfail ErrNoProgramID None else mret signer
  end.

Definition CreateUser (args : UserCreateArgs) : X W (bytes * pubkey) :=
  signer ← require_signer;
  if arg_DzPrefixCount args =? 0 then xfail ErrArgs None
  else if bool_decide (arg_DevicePubkey args = replicate 32 0) then xfail ErrArgs None
  else
    e ← xget;
    built ← xsome ErrDerive (buildCreateUserInstruction (Exec.programID e) signer args);
    let '(instr, userPDA) := built in
    sig ← executeTransaction [instr];
    _ ← waitForAccountVisible userPDA (Exec.waitForVisibleTimeout e);
    mret (sig, userPDA).

Definition DeleteUser (userPubkey : pubkey) : X W bytes :=
  signer ← require_signer;
  e ← xget;
  info ← xrpc (GetAccountInfo userPubkey);
  match info with
  | Account rawData =>
      if bool_decide (rawData = []) then xfail ErrFetchUser None
      else
        let user := (DeserializeUser rawData 0%nat).1 in
        if negb (User.AccountType user =? UserType) then xfail ErrFetchUser None
        else
          instr ← xsome ErrDerive (buildDeleteUserInstruction (Exec.programID e) signer userPubkey user 1 1);
          sig ← executeTransaction [instr];
          _ ← waitForAccountGone userPubkey (Exec.waitForVisibleTimeout e);
          mret sig
  | InfoErr d => xfail ErrFetchUser d
  | _ => xfail ErrFetchUser None
  end.
End Executor.

(** ** Distinct accounts have distinct seeds *)

(** The accounts of the program. *)
Inductive PdaKey :=
| KGlobalState | KGlobalConfig | KProgramConfig | KLinkIds | KSegmentRoutingIds | KUserTunnelBlock
| KDeviceTunnelBlock | KMulticastGroupBlock | KMulticastPublisherBlock
| KTenant (code : bytes)
| KPermission (userPayer : pubkey)
| KUser (clientIP : bytes) (userType : Z)
| KAccessPass (clientIP : bytes) (userPayer : pubkey)
| KTunnelIds (devicePK : pubkey) (index : Z)
| KDzPrefixBlock (devicePK : pubkey) (index : Z).

Definition pda_of (find : list bytes -> pubkey -> option (pubkey * Z)) (programID : pubkey) (k : PdaKey) :
    option (pubkey * Z) :=
  match k with
  | KGlobalState => GetGlobalStatePDA find programID
  | KGlobalConfig => DeriveGlobalConfigPDA find programID
  | KProgramConfig => DeriveProgramConfigPDA find programID
  | KLinkIds => GetLinkIdsPDA find programID
  | KSegmentRoutingIds => GetSegmentRoutingIdsPDA find programID
  | KUserTunnelBlock => GetUserTunnelBlockPDA find programID
  | KDeviceTunnelBlock => GetDeviceTunnelBlockPDA find programID
  | KMulticastGroupBlock => GetMulticastGroupBlockPDA find programID
  | KMulticastPublisherBlock => GetMulticastPublisherBlockPDA find programID
  | KTenant code => GetTenantPDA find programID code
  | KPermission payer => GetPermissionPDA find programID payer
  | KUser ip t => GetUserPDA find programID ip t
  | KAccessPass ip payer => GetAccessPassPDA find programID ip payer
  | KTunnelIds d i => GetTunnelIdsPDA find programID d i
  | KDzPrefixBlock d i => GetDzPrefixBlockPDA find programID d i
  end.

(** Keys of 32 bytes, addresses of 4, and integers in range. *)
Definition valid_key (k : PdaKey) : Prop :=
  match k with
  | KPermission payer => length payer = 32%nat
  | KUser ip t => length ip = 4%nat /\ is_u8 t
  | KAccessPass ip payer => length ip = 4%nat /\ length payer = 32%nat
  | KTunnelIds d i | KDzPrefixBlock d i => length d = 32%nat /\ is_u64 i
  | _ => True
  end.

(** The bytes the address is hashed from, in place of the address. *)
Definition seed_bytes (seeds : list bytes) (programID : pubkey) : option (pubkey * Z) := Some (concat seeds, 0).

Definition pda_seeds (k : PdaKey) : list bytes :=
  match k with
  | KGlobalState => [lit "globalstate"]
  | KGlobalConfig => [lit "config"]
  | KProgramConfig => [lit "programconfig"]
  | KLinkIds => [lit "linkids"]
  | KSegmentRoutingIds => [lit "segmentroutingids"]
  | KUserTunnelBlock => [lit "usertunnelblock"]
  | KDeviceTunnelBlock => [lit "devicetunnelblock"]
  | KMulticastGroupBlock => [lit "multicastgroupblock"]
  | KMulticastPublisherBlock => [lit "multicastpublisherblock"]
  | KTenant code => [lit "tenant"; code]
  | KPermission payer => [lit "permission"; payer]
  | KUser ip t => [lit "user"; ip; [u8 t]]
  | KAccessPass ip payer => [lit "accesspass"; ip; payer]
  | KTunnelIds d i => [lit "tunnelids"; d; le_bytes 8 i]
  | KDzPrefixBlock d i => [lit "dzprefixblock"; d; le_bytes 8 i]
  end.

Lemma pda_of_seeds find programID k : pda_of find programID k = find (SeedPrefix :: pda_seeds k) programID.
Proof. by destruct k. Qed.

(** How many bytes follow the prefix: enough to tell most accounts apart. *)
Lemma pda_seeds_length k : valid_key k ->
  length (concat (pda_seeds k)) =
  match k with
  | KGlobalState => 11 | KGlobalConfig => 6 | KProgramConfig => 13 | KLinkIds => 7 | KSegmentRoutingIds => 17
  | KUserTunnelBlock => 15 | KDeviceTunnelBlock => 17 | KMulticastGroupBlock => 19 | KMulticastPublisherBlock => 23
  | KTenant code => 6 + length code | KPermission _ => 42 | KUser _ _ => 9 | KAccessPass _ _ => 46
  | KTunnelIds _ _ => 49 | KDzPrefixBlock _ _ => 53
  end%nat.
Proof.
  destruct k; intros Hk; cbn [pda_seeds concat valid_key] in *;
    rewrite ?length_app, ?length_le_bytes; cbn; lia.
Qed.

Lemma u8_inj x y : is_u8 x -> is_u8 y -> u8 x = u8 y -> x = y.
Proof. intros Hx Hy. by rewrite !wrap_id. Qed.

Lemma le_bytes_inj n x y : is_u (8 * Z.of_nat n) x -> is_u (8 * Z.of_nat n) y -> le_bytes n x = le_bytes n y -> x = y.
Proof. intros Hx Hy Heq. by rewrite <- (le_round n x), <- (le_round n y), Heq. Qed.

Lemma pda_seeds_injective k k' :
  valid_key k -> valid_key k' -> concat (pda_seeds k) = concat (pda_seeds k') -> k = k'.
Proof.
  intros Hk Hk' Heq. assert (Hlen := f_equal length Heq). rewrite !pda_seeds_length in Hlen by done.
  destruct k, k'; try reflexivity; try discriminate Hlen; try (exfalso; vm_compute in Heq; discriminate Heq);
    cbn [pda_seeds concat valid_key] in *; rewrite ?app_nil_r in Heq; apply app_inv_head in Heq; try (by rewrite Heq).
  - apply app_inj_1 in Heq as [-> [= Ht]]; [|lia]. f_equal. apply u8_inj; tauto.
  - apply app_inj_1 in Heq as [-> ->]; [done|lia].
  - apply app_inj_1 in Heq as [-> Hi]; [|lia]. f_equal. apply (le_bytes_inj 8); tauto.
  - apply app_inj_1 in Heq as [-> Hi]; [|lia]. f_equal. apply (le_bytes_inj 8); tauto.
Qed.

(** The seeds of the program's accounts are unambiguous: two derivations hash
    the same bytes only if they are for the same account with the same
    arguments, although the seeds are concatenated without separators. *)
Theorem pda_unambiguous programID k k' :
  valid_key k -> valid_key k' ->
  pda_of seed_bytes programID k = pda_of seed_bytes programID k' -> k = k'.
Proof.
  intros Hk Hk'. rewrite !pda_of_seeds. intros [= Heq]. by apply pda_seeds_injective.
Qed.

(** ** Calls that leave a view of the cluster as it is *)

Section Quiet.
Context {W Tx O : Type} `{!ExecutorRPC W Tx} (view : W -> O) (mild : option any -> Prop) (mild_none : mild None).

(** The outcome is no panic, and the data of an error is [mild]. *)
Definition harmless {A} (out : outcome A) : Prop := out <> XPanic /\ forall err, out = XFailed err -> mild (err_rpc err).

Definition quiet {A} (m : X W A) : Prop := forall e w, exists out w',
  m e w = (out, e, w') /\ view w' = view w /\ harmless out.

Lemma quiet_done {A} (f : W -> A * W) : (forall w, view (f w).2 = view w) -> quiet (xrpc f).
Proof.
  intros Hf e w. specialize (Hf w). unfold xrpc. destruct (f w) as [a w']. eexists _, _. split; [reflexivity|]. done.
Qed.

Lemma quiet_ret {A} (a : A) : quiet (mret a).
Proof. intros e w. eexists _, _. split; [reflexivity|]. done. Qed.

Lemma quiet_wait {A} : quiet (fun e w => (XWait (A := A), e, w)).
Proof. intros e w. eexists _, _. split; [reflexivity|]. done. Qed.

Lemma quiet_fail {A} k d : mild d -> quiet (xfail (A := A) k d).
Proof. intros Hd e w. eexists _, _. split; [reflexivity|]. split; [done|]. split; [done|]. by intros err [= <-]. Qed.

Lemma quiet_bind {A B} (m : X W A) (f : A -> X W B) : quiet m -> (forall a, quiet (f a)) -> quiet (m ≫= f).
Proof.
  intros Hm Hf e w. destruct (Hm e w) as (out & w1 & Hr & Ha & Hnp & Hno). unfold mbind, X_bind. rewrite Hr. destruct out as [a|x| |].
  - destruct (Hf a e w1) as (out & w2 & Hr2 & Ha2 & Hh). exists out, w2. split_and!; [done|congruence|done..].
  - eexists _, _. split; [reflexivity|]. split; [done|]. split; [done|]. intros err [= <-]. by apply Hno.
  - done.
  - eexists _, _. split; [reflexivity|]. done.
Qed.

(** A call that keeps the view, and whose errors are mild. *)
Definition keeps {A} (f : W -> rpc_res A * W) : Prop :=
  forall w, view (f w).2 = view w /\ (forall d, (f w).1 = inl d -> mild d).

Lemma quiet_call {A} k (f : W -> rpc_res A * W) : keeps f -> quiet (xcall k f).
Proof.
  intros Hf e w. unfold xcall, mbind, X_bind, xrpc. specialize (Hf w). destruct (f w) as [[d|a] w']; cbn [fst snd] in Hf; destruct Hf as [Ha Hd].
  - destruct (quiet_fail (A := A) k d (Hd d eq_refl) e w') as (out & w2 & Hr & Ha2 & Hh). exists out, w2. split_and!; [done|congruence|apply Hh].
  - eexists _, _. split; [reflexivity|]. done.
Qed.

Context (n : nat) (sig : bytes) (Hstatus : keeps (GetSignatureStatuses sig)) (Htx : keeps (GetTransaction sig)).
Context (Hpause : forall d w, view (Pause d w).2 = view w).

Lemma visible_quiet timeout : quiet (waitForSignatureVisible n sig timeout).
Proof.
  unfold waitForSignatureVisible. apply quiet_bind; [by apply quiet_done|]. intros now. generalize (TimeAdd now timeout) as deadline.
  clear now. induction n as [|m IH]; intros deadline; [apply quiet_wait|]. cbn [signature_visible].
  apply quiet_bind; [by apply quiet_done|]. intros t. destruct (Before t deadline); [|by apply quiet_fail].
  apply quiet_bind; [by apply quiet_call|]. intros l.
  assert (Hp : quiet (_ ← xrpc (Pause (250 * Millisecond)); signature_visible m sig deadline)).
  { apply quiet_bind; [by apply quiet_done|]. intros _. apply IH. }
  destruct l as [|[s|] l]; [exact Hp|apply quiet_ret|exact Hp].
Qed.

Lemma final_quiet : quiet (waitForTransactionFinalized n sig).
Proof.
  unfold waitForTransactionFinalized. apply quiet_bind.
  - induction n as [|m IH]; [apply quiet_wait|]. cbn [transaction_final].
    apply quiet_bind; [by apply quiet_call|]. intros l.
    assert (Hp : quiet (cancelled ← xrpc (Pause Second);
      if cancelled : bool then xfail ErrGetTransaction None else transaction_final m sig)).
    { apply quiet_bind; [by apply quiet_done|]. intros []; [by apply quiet_fail|apply IH]. }
    destruct l as [|[[[] f]|] l]; [by apply quiet_fail|apply quiet_ret|exact Hp|exact Hp].
  - intros []; [by apply quiet_fail|]. apply quiet_bind; [by apply quiet_call|].
    intros []; [apply quiet_ret|by apply quiet_fail].
Qed.
End Quiet.

(** ** Batches on a cluster that executes transactions atomically *)

(** The error of a transaction whose instruction [i] fails. *)
Definition instruction_error (i : nat) (detail : any) : any :=
  AnyMap [(lit "err", AnyMap [(lit "InstructionError", AnyList [AnyNumber (Some (Z.of_nat i)); detail])])].

(** The health oracle's limit on the instructions of a transaction, within
    which the cluster has the compute units for them. *)
Definition tx_limit : nat := 8.

(** The data of an RPC error that names no instruction. *)
Definition no_index (d : option any) : Prop := forall k, parseFailingInstructionIndex (mkExError k d) = None.

Lemma no_index_parse err : no_index (err_rpc err) -> parseFailingInstructionIndex err = None.
Proof. intros H. destruct err as [k d]. apply H. Qed.

(** What the executor relies on, whatever else fails. The cluster simulates a
    transaction before it admits it: within the limit, one with an instruction
    that the program rejects is not admitted, and an error that names an
    instruction names the first rejected one. Any other error of a send leaves
    open whether the transaction was admitted. No other call changes what was
    admitted, or returns an error that names an instruction. What the program
    rejects does not change in the course of a batch. *)
Class AtomicCluster (W Tx : Type) `{ExecutorRPC W Tx} := {
  accepts : genericInstruction -> bool;
  admitted : W -> list (list genericInstruction);
  tx_instructions : Tx -> list genericInstruction;
  build_exact l h p tx : NewSignedTransaction l h p = Some tx -> tx_instructions tx = l;
  send_atomic tx w : (length (tx_instructions tx) <= tx_limit)%nat ->
    let '(r, w') := SendTransaction tx w in
    let rejected := list_find (fun i => accepts i = false) (tx_instructions tx) in
    admitted w' = admitted w /\ (exists d i x, r = inl (Some (instruction_error i d)) /\ rejected = Some (i, x)) \/
    admitted w' = admitted w /\ (exists d, r = inl d /\ no_index d) \/
    admitted w' = admitted w ++ [tx_instructions tx] /\ rejected = None /\
      ((exists sig, r = inr sig) \/ exists d, r = inl d /\ no_index d);
  blockhash_keeps : keeps admitted no_index GetLatestBlockhash;
  status_keeps sig : keeps admitted no_index (GetSignatureStatuses sig);
  get_keeps sig : keeps admitted no_index (GetTransaction sig);
  info_keeps k w : admitted (GetAccountInfo k w).2 = admitted w;
  pause_keeps d w : admitted (Pause d w).2 = admitted w
}.

Section Batches.
Context {W Tx : Type} `{AtomicCluster W Tx}.
Context (find : list bytes -> pubkey -> option (pubkey * Z)) (n : nat).

(** Nothing fails but rejected instructions: the calls answer, and what is
    admitted is seen within the executor's timeout and found finalized within
    the fuel. *)
Record responsive (timeout : Duration) : Prop := {
  resp_build l h p : is_Some (NewSignedTransaction l h p);
  resp_blockhash w : exists h, (GetLatestBlockhash w).1 = inr h;
  resp_send tx w d : (length (tx_instructions tx) <= tx_limit)%nat -> (SendTransaction tx w).1 = inl d -> ~ no_index d;
  resp_final tx w sig e : (SendTransaction tx w).1 = inr sig ->
    exists w1 w2, waitForSignatureVisible n sig timeout e (SendTransaction tx w).2 = (XDone (), e, w1) /\
      waitForTransactionFinalized n sig e w1 = (XDone (), e, w2)
}.

Definition ready (e : Exec.t) : Prop :=
  is_Some (Exec.signer e) /\ Exec.programID e <> replicate 32 0 /\
  (Exec.permissionOnce e = false -> Exec.permissionPDA e = None).

(** The executor after transactions: only the permission may be resolved. *)
Definition resolved (e e' : Exec.t) : Prop :=
  Exec.signer e' = Exec.signer e /\ Exec.programID e' = Exec.programID e /\
  Exec.waitForVisibleTimeout e' = Exec.waitForVisibleTimeout e /\
  (Exec.permissionOnce e = true -> Exec.permissionOnce e' = true /\ Exec.permissionPDA e' = Exec.permissionPDA e) /\
  (ready e -> ready e').

Lemma resolved_refl e : resolved e e.
Proof. by unfold resolved. Qed.

Lemma resolved_trans e1 e2 e3 : resolved e1 e2 -> resolved e2 e3 -> resolved e1 e3.
Proof.
  unfold resolved. intros (? & ? & ? & Hone & ?) (? & ? & ? & Htwo & ?). split_and!; [congruence..| |auto].
  intros Ho. destruct (Hone Ho) as [Ho2 Hp]. destruct (Htwo Ho2) as [? ?]. split; [done|congruence].
Qed.

(** *** One transaction *)

Lemma resolve_spec e w : ready e ->
  exists e' w', resolvePermissionPDA find e w = (XDone (), e', w') /\ admitted w' = admitted w /\ resolved e e' /\
    Exec.permissionOnce e' = true.
Proof.
  intros ([k Hk] & Hprog & Hnone). unfold resolvePermissionPDA, resolved, ready.
  destruct e as [signer prog timeout once pda]; cbn in *. subst signer.
  destruct once; [by eexists _, _; cbn|]. rewrite (Hnone eq_refl).
  cbn. destruct (GetPermissionPDA find prog k) as [[p b]|]; cbn;
    [pose proof (info_keeps p w) as Hi; destruct (GetAccountInfo p w) as [[] w']|];
    (eexists _, _; cbn; split_and!; [reflexivity|done..]).
Qed.

(** How a transaction ends: refused for its first rejected instruction, or
    admitted or not with an error that names none. *)
Definition refused (out : outcome bytes) (l : list genericInstruction) (w w' : W) : Prop :=
  admitted w' = admitted w /\ exists err i x, out = XFailed err /\ parseFailingInstructionIndex err = Some (Z.of_nat i) /\
    list_find (fun i => accepts i = false) l = Some (i, x).

Definition entered (l : list genericInstruction) (w w' : W) : Prop :=
  admitted w' = admitted w ++ [l] /\ list_find (fun i => accepts i = false) l = None.

Lemma send_spec tx e w timeout : (length (tx_instructions tx) <= tx_limit)%nat ->
  exists out w', (sig ← xcall ErrSend (SendTransaction tx); _ ← waitForSignatureVisible n sig timeout;
      _ ← waitForTransactionFinalized n sig; mret sig) e w = (out, e, w') /\
    (refused out (tx_instructions tx) w w' \/
     harmless no_index out /\ (admitted w' = admitted w \/ entered (tx_instructions tx) w w')) /\
    (responsive timeout -> refused out (tx_instructions tx) w w' \/
      (exists sig, out = XDone sig) /\ entered (tx_instructions tx) w w').
Proof.
  intros Hlim. pose proof (send_atomic tx w Hlim) as Hs. unfold mbind at 1, X_bind at 1, xcall, mbind at 1, X_bind at 1, xrpc.
  destruct (SendTransaction tx w) as [r w1] eqn:Hsend. cbn zeta in Hs.
  assert (Hfail : forall d, r = inl d -> no_index d -> (admitted w1 = admitted w \/ entered (tx_instructions tx) w w1) ->
    (refused (XFailed (mkExError ErrSend d)) (tx_instructions tx) w w1 \/
     harmless no_index (XFailed (A := bytes) (mkExError ErrSend d)) /\ (admitted w1 = admitted w \/ entered (tx_instructions tx) w w1)) /\
    (responsive timeout -> refused (XFailed (mkExError ErrSend d)) (tx_instructions tx) w w1 \/
      (exists sig : bytes, XFailed (mkExError ErrSend d) = XDone sig) /\ entered (tx_instructions tx) w w1)).
  { intros d -> Hd Ha. split; [right; split; [|done]; split; [done|]; intros err [= <-]; apply Hd|].
    intros Hr. destruct (resp_send _ Hr tx w d Hlim); [by rewrite Hsend|done]. }
  destruct Hs as [[Ha (d & i & x & -> & Hrej)]|[[Ha (d & -> & Hd)]|(Ha & Hrej & [[sig ->]|(d & -> & Hd)])]].
  - assert (Href : refused (XFailed (mkExError ErrSend (Some (instruction_error i d)))) (tx_instructions tx) w w1)
      by (split; [done|]; by eexists _, i, x).
    eexists _, w1. split; [reflexivity|]. split; [by left|intros _; by left].
  - eexists _, w1. split; [reflexivity|]. apply Hfail; auto.
  - assert (Hq : quiet admitted no_index (_ ← waitForSignatureVisible n sig timeout; _ ← waitForTransactionFinalized n sig; mret sig)).
    { apply quiet_bind; [apply visible_quiet; [done|apply status_keeps|apply pause_keeps]|]. intros _.
      apply quiet_bind; [apply final_quiet; [done|apply status_keeps|apply get_keeps|apply pause_keeps]|]. intros _. apply quiet_ret. }
    destruct (Hq e w1) as (out & w2 & Hout & Ha2 & Hh).
    assert (He : entered (tx_instructions tx) w w2) by (split; [congruence|done]).
    exists out, w2. split; [exact Hout|]. split; [right; auto|].
    intros Hr. right. split; [|done]. destruct (resp_final _ Hr tx w sig e) as (w3 & w4 & H3 & H4); [by rewrite Hsend|].
    rewrite Hsend in H3. cbn [snd] in H3. unfold mbind, X_bind in Hout. rewrite H3, H4 in Hout. injection Hout as <- _. by exists sig.
  - eexists _, w1. split; [reflexivity|]. apply Hfail; [done|done|right; by split].
Qed.

Lemma execute_spec l e w : ready e -> (length l <= tx_limit)%nat ->
  exists out e' w', executeTransaction find n l e w = (out, e', w') /\ resolved e e' /\ Exec.permissionOnce e' = true /\
    let l' := inject_permission (Exec.permissionPDA e') <$> l in
    (refused out l' w w' \/ harmless no_index out /\ (admitted w' = admitted w \/ entered l' w w')) /\
    (responsive (Exec.waitForVisibleTimeout e) -> refused out l' w w' \/ (exists sig, out = XDone sig) /\ entered l' w w').
Proof.
  intros He Hlim. destruct (resolve_spec e w He) as (e1 & w1 & Hr & Ha1 & Hres & Honce).
  destruct He as ([k Hk] & Hprog & _). set (l' := inject_permission (Exec.permissionPDA e1) <$> l).
  assert (Hexec : executeTransaction find n l e w =
    (blockhash ← xcall ErrBlockhash GetLatestBlockhash;
     match NewSignedTransaction l' blockhash k with
     | None => xfail ErrBuild None
     | Some tx => sig ← xcall ErrSend (SendTransaction tx);
         _ ← waitForSignatureVisible n sig (Exec.waitForVisibleTimeout e1); _ ← waitForTransactionFinalized n sig; mret sig
     end) e1 w1).
  { unfold executeTransaction. unfold mbind at 1, X_bind at 1, xget. rewrite Hk. rewrite bool_decide_eq_false_2 by done.
    unfold mbind at 1, X_bind at 1. rewrite Hr. reflexivity. }
  rewrite Hexec. clear Hexec. unfold mbind at 1, X_bind at 1, xcall at 1, mbind at 1, X_bind at 1, xrpc at 1.
  pose proof (blockhash_keeps w1) as [Hb Hbe]. destruct (GetLatestBlockhash w1) as [[d|h] w2] eqn:Hbh; cbn [fst snd] in Hb, Hbe.
  { eexists _, e1, w2. split; [reflexivity|]. split_and!; [done|done|right; split; [|left; congruence]|].
    - split; [done|]. intros err [= <-]. by apply Hbe.
    - intros Hresp. destruct (resp_blockhash _ Hresp w1) as [h Hh]. by rewrite Hbh in Hh. }
  cbn -[waitForSignatureVisible waitForTransactionFinalized xcall]. destruct (NewSignedTransaction l' h k) as [tx|] eqn:Htx.
  - pose proof (build_exact _ _ _ _ Htx) as Hins.
    destruct (send_spec tx e1 w2 (Exec.waitForVisibleTimeout e1)) as (out & w3 & Hout & Hcase & Hresp);
      [unfold l' in Hins; by rewrite Hins, length_fmap|].
    rewrite Hins in Hcase, Hresp. unfold refused, entered in *. rewrite Hb, Ha1 in Hcase, Hresp.
    exists out, e1, w3. split_and!; [exact Hout|done|done|exact Hcase|].
    intros Hr'. apply Hresp. by rewrite (proj1 (proj2 (proj2 Hres))).
  - eexists _, e1, w2. split; [reflexivity|]. split_and!; [done|done|right; split; [|left; congruence]|].
    + split; [done|]. by intros err [= <-].
    + intros Hresp. destruct (resp_build _ Hresp l' h k) as [tx Ht]. by rewrite Htx in Ht.
Qed.

Lemma slice_of_app {U} (a s b : list U) : slice_of (a ++ s ++ b) (length a) (length s) = s.
Proof. unfold slice_of. by rewrite drop_app_length, take_app_length. Qed.

(** Removing an element leaves what is around the slice, and its last element
    behind the shorter slice. *)
Lemma slice_remove_app {U} (a s b : list U) i : (i < length s)%nat ->
  slice_remove (a ++ s ++ b) (length a) (length s) i =
  a ++ delete i s ++ drop (length s - 1) s ++ b.
Proof.
  intros Hi. unfold slice_remove. rewrite slice_of_app, delete_take_drop.
  rewrite take_app_add, take_app_le by lia. rewrite <- !app_assoc. do 3 f_equal.
  replace (length a + length s - 1)%nat with (length a + (length s - 1))%nat by lia.
  by rewrite drop_app_add, drop_app_le by lia.
Qed.

Definition accepted (l : list genericInstruction) : list genericInstruction := filter (fun i => accepts i = true) l.

Lemma accepted_delete l i x : list_find (fun i => accepts i = false) l = Some (i, x) -> accepted (delete i l) = accepted l.
Proof.
  intros (Hx & Hacc & _)%list_find_Some. unfold accepted. rewrite delete_take_drop.
  rewrite <- (take_drop_middle l i x Hx) at 3. rewrite !filter_app. f_equal.
  rewrite filter_cons_False; [done|]. congruence.
Qed.

Lemma accepted_all l : list_find (fun i => accepts i = false) l = None -> accepted l = l.
Proof.
  intros Hn%list_find_None. unfold accepted. induction Hn as [|x l Hx _ IH]; [done|].
  rewrite filter_cons_True by (by destruct (accepts x)). by rewrite IH.
Qed.

Lemma fmap_delete {A B} (f : A -> B) i (l : list A) : f <$> delete i l = delete i (f <$> l).
Proof. revert i. induction l as [|x l IH]; intros [|i]; cbn; [done..|]. by f_equal. Qed.

(** *** Batches *)

(** What is admitted for the updates whose instructions are [l]: the accepted
    ones in one transaction, or nothing. *)
Definition batch_admits (l : list genericInstruction) (txs : list (list genericInstruction)) : Prop :=
  txs = [] \/ accepted l <> [] /\ txs = [accepted l].

(** The result of a batch of the slice [s] of an array: the accepted updates are
    admitted at most once, and the array is untouched outside the slice. *)
Definition batch_result {U} (build : U -> genericInstruction) (a s b : list U) (e : Exec.t) (w : W)
    (r : list U * (outcome bytes * Exec.t * W)) : Prop :=
  exists s' out e' w' txs, r = (a ++ s' ++ b, (out, e', w')) /\ length s' = length s /\
    resolved e e' /\ (s <> [] -> Exec.permissionOnce e' = true) /\ out <> XPanic /\ admitted w' = admitted w ++ txs /\
    let l := inject_permission (Exec.permissionPDA e') <$> (build <$> s) in
    batch_admits l txs /\
    (responsive (Exec.waitForVisibleTimeout e) -> out <> XWait /\ txs = if bool_decide (accepted l = []) then [] else [accepted l]).

(** The batch ends with a transaction that was not refused. *)
Lemma batch_result_last {U} (build : U -> genericInstruction) a s b e w out e1 w1 : s <> [] -> resolved e e1 ->
  Exec.permissionOnce e1 = true -> let l := inject_permission (Exec.permissionPDA e1) <$> (build <$> s) in
  out <> XPanic -> (admitted w1 = admitted w \/ entered l w w1) ->
  (responsive (Exec.waitForVisibleTimeout e) -> out <> XWait /\ entered l w w1) ->
  batch_result build a s b e w (a ++ s ++ b, (out, e1, w1)).
Proof.
  intros Hne Hres Honce l Hnp Ha Hr. assert (Hl : l <> []) by (unfold l; by destruct s).
  destruct Ha as [Ha|[Ha Hno]].
  - eexists s, out, e1, w1, []. cbv zeta. fold l. rewrite app_nil_r. split_and!; [done..|by left|].
    intros H'. destruct (Hr H') as [_ [Ha' _]]. rewrite Ha in Ha'. apply (f_equal length) in Ha'. rewrite length_app in Ha'. cbn in Ha'. lia.
  - eexists s, out, e1, w1, [l]. cbv zeta. fold l. unfold batch_admits. rewrite (accepted_all l) by done.
    split_and!; [done..|by right|]. intros H'. rewrite bool_decide_eq_false_2 by done. split; [by apply Hr|done].
Qed.

(** A rejected update is removed, and the others are sent again. *)
Lemma batch_result_retry {U} (build : U -> genericInstruction) a s b e w i x e1 w1 r : (i < length s)%nat -> resolved e e1 ->
  Exec.permissionOnce e1 = true -> admitted w1 = admitted w ->
  list_find (fun i => accepts i = false) (inject_permission (Exec.permissionPDA e1) <$> (build <$> s)) = Some (i, x) ->
  batch_result build a (delete i s) (drop (length s - 1) s ++ b) e1 w1 r -> batch_result build a s b e w r.
Proof.
  intros Hi Hres Honce Ha Hfind (s' & out & e' & w' & txs & -> & Hls & Hres' & _ & Hnp & Ha' & Had & Hr).
  pose proof (proj1 (proj2 (proj2 (proj2 Hres'))) Honce) as [Honce' Hpda].
  rewrite Hpda, !fmap_delete, (accepted_delete _ i x Hfind) in Hr. unfold batch_admits in Had.
  rewrite Hpda, !fmap_delete, (accepted_delete _ i x Hfind) in Had.
  exists (s' ++ drop (length s - 1) s), out, e', w', txs. rewrite Hpda. cbv zeta. split_and!; [| | | |done| |exact Had|].
  - by rewrite <- !app_assoc.
  - rewrite length_app, length_drop, Hls, length_delete by (by apply lookup_lt_is_Some). lia.
  - by eapply resolved_trans.
  - done.
  - congruence.
  - intros H'. apply Hr. by rewrite (proj1 (proj2 (proj2 Hres))).
Qed.

Lemma batch_loop_spec {U} (build : U -> genericInstruction) len : forall a s b e w,
  length s = len -> (len <= tx_limit)%nat -> ready e ->
  batch_result build a s b e w (batch_loop find n build len (a ++ s ++ b) (length a) e w).
Proof.
  induction len as [|len IH]; intros a s b e w Hlen Hlim He.
  { apply nil_length_inv in Hlen. subst s. eexists [], _, e, w, []. cbn. rewrite app_nil_r.
    split_and!; [reflexivity|done|apply resolved_refl|done|done|done|by left|done]. }
  assert (Hs : slice_of (a ++ s ++ b) (length a) (S len) = s) by (rewrite <- Hlen; apply slice_of_app).
  assert (Hne : s <> []) by (by intros ->).
  destruct (execute_spec (build <$> s) e w He ltac:(rewrite length_fmap; lia)) as (out & e1 & w1 & Hx & Hres & Honce & Hcase & Hresp).
  cbn [batch_loop]. rewrite Hs, Hx. destruct Hcase as [[Ha (err & i & x & -> & -> & Hfind)]|[[Hnp Hnone] Ha]].
  - assert (Hi : (i < length s)%nat).
    { apply list_find_Some in Hfind as [Hi%lookup_lt_Some _]. by rewrite !length_fmap in Hi. }
    assert ((Z.of_nat i <? 0) || (Z.of_nat (S len) <=? Z.of_nat i) = false) as -> by lia. rewrite Nat2Z.id, <- Hlen, slice_remove_app by done.
    eapply batch_result_retry; [done..|]. apply IH; [rewrite length_delete; [lia|by apply lookup_lt_is_Some]|lia|by apply Hres].
  - assert (Hlast : batch_result build a s b e w (a ++ s ++ b, (out, e1, w1))).
    { apply batch_result_last; [done..|]. intros [[_ (err & i & x & Herr & Hidx & _)]|[[sig ->] Hent]]%Hresp; [|done].
      by rewrite (no_index_parse _ (Hnone err Herr)) in Hidx. }
    destruct out as [sig|err| |]; [done| |done|done]. by rewrite (no_index_parse _ (Hnone err eq_refl)).
Qed.

(** A batch of at most [tx_limit] updates. *)
Lemma health_batch_spec {U} (build : pubkey -> pubkey -> U -> genericInstruction) a s b e w signer :
  (length s <= tx_limit)%nat -> ready e -> Exec.signer e = Some signer ->
  batch_result (build (Exec.programID e) signer) a s b e w (health_batch find n build (a ++ s ++ b) (length a) (length s) e w).
Proof.
  intros Hlim He Hs. unfold health_batch. rewrite Hs. destruct s as [|u s].
  { eexists [], _, e, w, []. cbn. rewrite app_nil_r.
    split_and!; [reflexivity|done|apply resolved_refl|done|done|done|by left|done]. }
  by apply batch_loop_spec.
Qed.
End Batches.

(** ** The waits end *)

Section Waits.
Context {W Tx : Type} `{!ExecutorRPC W Tx}.

(** A pause lets the clock advance by its length, and no call turns it back. *)
Record clock_runs : Prop := {
  pause_runs d w : Clock w + d <= Clock (Pause d w).2;
  info_runs k w : Clock w <= Clock (GetAccountInfo k w).2;
  status_runs sig w : Clock w <= Clock (GetSignatureStatuses sig w).2
}.

Definition waits {A} (r : outcome A * Exec.t * W) : bool := match r.1.1 with XWait => true | _ => false end.

Definition poll_interval : Duration := 250 * Millisecond.

(** Enough rounds to pass the deadline. *)
Definition enough (n : nat) (left : Duration) : Prop := (0 < n)%nat /\ left < poll_interval * (Z.of_nat n - 1).

Lemma enough_pause (Hc : clock_runs) n deadline w w0 : enough (S n) (deadline - Clock w0) -> Clock w0 <= Clock w ->
  Clock w <= deadline -> enough n (deadline - Clock (Pause poll_interval w).2).
Proof.
  intros [_ Hn] Hw Hd. pose proof (pause_runs Hc poll_interval w) as Hp. unfold enough in *.
  unfold poll_interval, Millisecond in *. destruct n as [|n]; lia.
Qed.

Lemma account_poll_ends (Hc : clock_runs) n seen k deadline e w :
  enough n (deadline - Clock w) -> waits (account_poll n seen k deadline e w) = false.
Proof.
  revert w. induction n as [|n IH]; intros w Hn; [destruct Hn; lia|].
  cbn [account_poll]. unfold mbind, X_bind, xrpc. pose proof (info_runs Hc k w) as Hi.
  destruct (GetAccountInfo k w) as [info w1]. cbn in Hi. cbn. destruct (seen info); [done|]. cbn.
  unfold After. destruct (deadline <? Clock w1) eqn:Hd; [done|].
  pose proof (enough_pause Hc n deadline w1 w Hn Hi ltac:(lia)) as Hp. fold poll_interval.
  destruct (Pause poll_interval w1) as [cancelled w2]. destruct cancelled; [done|]. by apply IH.
Qed.

Lemma signature_visible_ends (Hc : clock_runs) n sig deadline e w :
  enough n (deadline - Clock w) -> waits (signature_visible n sig deadline e w) = false.
Proof.
  revert w. induction n as [|n IH]; intros w Hn; [destruct Hn; lia|].
  cbn [signature_visible]. unfold mbind, X_bind, xcall, xrpc, mbind, X_bind. unfold Before.
  destruct (Clock w <? deadline) eqn:Hd; [|done].
  pose proof (status_runs Hc sig w) as Hi. destruct (GetSignatureStatuses sig w) as [[d|l] w1]; [done|].
  cbn in Hi. cbn. destruct (match l with Some _ :: _ => true | _ => false end) eqn:Hl.
  { by destruct l as [|[]]. }
  assert (Hp : enough n (deadline - Clock (Pause poll_interval w1).2)).
  { pose proof (pause_runs Hc poll_interval w1) as Hp. destruct Hn as [_ Hn]. unfold enough.
    unfold poll_interval, Millisecond in *. destruct n as [|n]; lia. }
  fold poll_interval. destruct l as [|[]]; [|done|]; cbn; fold poll_interval;
    destruct (Pause poll_interval w1) as [c w2]; by apply IH.
Qed.

(** C33. The waits with a timeout end: when pauses let the clock advance, the
    polls for the signature of a transaction and for an account to appear or
    to be gone return within one round more than the timeout takes at four
    polls a second. *)
Theorem timed_waits_end (Hc : clock_runs) n k timeout e w :
  (Z.to_nat (timeout / poll_interval) + 2 < n)%nat ->
  waits (waitForSignatureVisible n k timeout e w) = false /\
  waits (waitForAccountVisible n k timeout e w) = false /\
  waits (waitForAccountGone n k timeout e w) = false.
Proof.
  intros Hn. assert (He : enough n (TimeAdd (Clock w) timeout - Clock w)).
  { unfold enough, TimeAdd. pose proof (Z.mod_pos_bound timeout poll_interval ltac:(unfold poll_interval, Millisecond; lia)) as Hm.
    pose proof (Z.div_mod timeout poll_interval ltac:(unfold poll_interval, Millisecond; lia)) as Hd.
    split; [lia|]. unfold poll_interval, Millisecond in *. lia. }
  split_and!; [by apply signature_visible_ends|by apply account_poll_ends|by apply account_poll_ends].
Qed.

(** A transaction the cluster has forgotten: its status is null in every
    reply. *)
Definition forgotten (P : W -> Prop) (sig : bytes) : Prop :=
  forall w, P w -> exists w' w'', GetSignatureStatuses sig w = (inr [None], w') /\ Pause Second w' = (false, w'') /\ P w''.

(** The wait for finalization has no end of its own: once a transaction has
    been seen and the cluster forgets it, as on a fork that is abandoned, the
    executor polls for as long as the context lives. *)
Theorem forgotten_transaction_hangs (P : W -> Prop) n sig e w :
  forgotten P sig -> P w -> waits (waitForTransactionFinalized n sig e w) = true.
Proof.
  intros Hf Hw. unfold waitForTransactionFinalized.
  assert (H : exists w', transaction_final n sig e w = (XWait, e, w')).
  { revert w Hw. induction n as [|n IH]; intros w Hw; [by eexists|].
    destruct (Hf w Hw) as (w1 & w2 & Hs & Hp & Hw2). destruct (IH w2 Hw2) as (w' & Hw').
    exists w'. cbn. unfold mbind, X_bind, xcall, xrpc, mbind, X_bind. rewrite Hs. cbn. by rewrite Hp. }
  destruct H as (w' & H). unfold mbind, X_bind. by rewrite H.
Qed.
End Waits.

(** ** A small cluster *)

Module SimCluster.
Record t := mk { sent : list (list genericInstruction); clock : Time }.

(** The program rejects the updates of one account. *)
Definition rejected_key : pubkey := sample_key 66.
Definition sim_accepts (i : genericInstruction) : bool :=
  match accounts i with m :: _ => negb (bool_decide (meta_key m = rejected_key)) | [] => true end.

Definition send (l : list genericInstruction) (w : t) : rpc_res bytes * t :=
  match list_find (fun i => sim_accepts i = false) l with
  | None => (inr (lit "sig"), mk (sent w ++ [l]) (clock w))
  | Some (i, _) => (inl (Some (instruction_error i AnyOther)), w)
  end.

#[global] Instance rpc : ExecutorRPC t (list genericInstruction) := {
  NewSignedTransaction l _ _ := Some l;
  GetLatestBlockhash w := (inr (lit "hash"), w);
  SendTransaction := send;
  GetSignatureStatuses _ w := (inr [Some (mkSigStatus true false)], w);
  GetTransaction _ w := (inr true, w);
  GetAccountInfo _ w := (NotFound, w);
  Clock := clock;
  Pause d w := (false, mk (sent w) (clock w + d))
}.

#[global, refine] Instance atomic : AtomicCluster t (list genericInstruction) := {
  accepts := sim_accepts;
  admitted := sent;
  tx_instructions l := l
}.
Proof.
  - by intros l h p tx [= ->].
  - intros tx w _. unfold SendTransaction, rpc, send. destruct (list_find _ tx) as [[i x]|] eqn:Hf.
    + left. split; [done|]. by eexists _, i, x.
    + right. right. split; [done|]. split; [done|]. left. by eexists.
  - by intros w.
  - by intros sig w.
  - by intros sig w.
  - by intros k w.
  - by intros d w.
Defined.

Lemma sim_responsive n timeout : (0 < n)%nat -> 0 < timeout -> responsive (W := t) n timeout.
Proof.
  intros Hn Ht. destruct n as [|n]; [lia|]. constructor.
  - by intros l h p; exists l.
  - by intros w; eexists.
  - intros tx w d _. unfold SendTransaction, rpc, send. destruct (list_find _ tx) as [[i x]|]; [|done].
    intros [= <-] Hd. by specialize (Hd ErrSend).
  - intros tx w sig e _. eexists _, _. split; [|reflexivity].
    unfold waitForSignatureVisible. cbn. unfold mbind, X_bind, xcall, xrpc, Before, TimeAdd. cbn.
    by rewrite (proj2 (Z.ltb_lt _ _)) by lia.
Qed.

Lemma clock_ok : clock_runs (W := t).
Proof. constructor; intros; cbn; lia. Qed.

Definition start : t := mk [] 0.
End SimCluster.

Definition sim_executor : Exec.t := NewExecutor (Some (sample_key 1)) (sample_key 2) None.

Lemma pda_unambiguous_witness : valid_key (KUser [10; 0; 0; 1] 3) /\ valid_key (KUser [10; 0; 0; 1] 0) /\
  pda_of seed_bytes [] (KUser [10; 0; 0; 1] 3) <> pda_of seed_bytes [] (KUser [10; 0; 0; 1] 0).
Proof.
  assert (H : forall t, is_u8 t -> valid_key (KUser [10; 0; 0; 1] t)) by (intros t Ht; split; done).
  split_and!; [apply H; done..|]. intros Heq.
  apply (pda_unambiguous [] (KUser [10; 0; 0; 1] 3) (KUser [10; 0; 0; 1] 0)) in Heq; [discriminate|apply H; done..].
Defined.

Lemma timed_waits_end_witness :
  waits (waitForAccountVisible 20 (sample_key 5) (3 * Second) sim_executor SimCluster.start) = false.
Proof.
  apply (timed_waits_end SimCluster.clock_ok 20 (sample_key 5) (3 * Second) sim_executor SimCluster.start).
  vm_compute. lia.
Defined.

(** A cluster that answers, and knows nothing of the transaction. *)
Module SimForgetful.
#[global] Instance rpc : ExecutorRPC Z () := {
  NewSignedTransaction _ _ _ := Some ();
  GetLatestBlockhash w := (inr (lit "hash"), w);
  SendTransaction _ w := (inr (lit "sig"), w);
  GetSignatureStatuses _ w := (inr [None], w);
  GetTransaction _ w := (inl None, w);
  GetAccountInfo _ w := (NotFound, w);
  Clock w := w;
  Pause d w := (false, w + d)
}.
End SimForgetful.

Lemma forgotten_transaction_hangs_witness :
  waits (waitForTransactionFinalized (W := Z) 1000 (lit "sig") sim_executor 0) = true.
Proof.
  apply (forgotten_transaction_hangs (fun _ => True)); [|exact I].
  intros w _. by eexists _, _.
Defined.
