(* ===== verification/HealthOracle.v ===== *)
(** * The device health oracle

    Models [worker.go], [criteria.go], [controller_success.go] and
    [interface_counters.go] of
    [controlplane/device-health-oracle/internal/worker]: the burn-in windows,
    the criteria, the stages of a device's and a link's health, and the
    batches handed to the executor of [Executor]. The ClickHouse queries and
    the ledger's slots, block times and accounts are arguments. *)

From stdpp Require Import base tactics numbers list gmap.
From Stdlib Require Import ZArith Lia ZifyBool ZifyNat.
From S2P Require Import Prelude Bytes GoStrings GoCollections ByteReader Accounts Deserialize ProgramData.
From S2P Require Import TelemetryBuffer TelemetrySubmitter Executor.

#[local] Open Scope Z_scope.

(** ** Burn-in windows *)

Record BurnInTimes := mkBurnInTimes { ProvisioningStart : Time; DrainedStart : Time; burn_Now : Time }.

(** The start of the window, its end, and its length in minutes. The code
    truncates a [float64] number of minutes, which is exact for windows of
    less than [2 ^ 18] minutes. *)
Definition DeviceBurnIn (ctx : option BurnInTimes) (status : Z) : option (Time * Time * Z) :=
  burnIn ← ctx;
  let start := if DeviceStatus_IsDrained status then DrainedStart burnIn else ProvisioningStart burnIn in
  Some (start, burn_Now burnIn, Z.max (Z.quot (TimeSub (burn_Now burnIn) start) Minute) 0).

(** ** Criteria *)

(** The minutes in a window with a record of a device; [None] is an error. *)
Definition Coverage := pubkey -> Time -> Time -> option Z.

(** [DeviceCriterion.Check], without the reason. *)
Definition DeviceCriterion := option BurnInTimes -> Device.t -> bool.
Definition LinkCriterion := option BurnInTimes -> Link.t -> bool.

Definition ControllerSuccess_Check (controllerCalls : Coverage) : DeviceCriterion := fun ctx device =>
  match DeviceBurnIn ctx (Device.Status device) with
  | None => false
  | Some (start, now, expectedMinutes) =>
      if expectedMinutes =? 0 then true
      else
        match controllerCalls (Device.PubKey device) start now with
        | None => false
        | Some minutesWithCalls => negb (minutesWithCalls <? expectedMinutes)
        end
  end.

Definition InterfaceCounters_Check (interfaceCounters : Coverage) : DeviceCriterion := fun ctx device =>
  match DeviceBurnIn ctx (Device.Status device) with
  | None => false
  | Some (start, now, expectedMinutes) =>
      if expectedMinutes =? 0 then true
      else
        match interfaceCounters (Device.PubKey device) start now with
        | None => false
        | Some minutesWithRecords => negb (minutesWithRecords <? expectedMinutes)
        end
  end.

(** ** Evaluators *)

Definition DeviceHealthReadyForLinks : Z := 2.
Definition DeviceHealthReadyForUsers : Z := 3.
Definition DeviceHealthImpaired : Z := 4.
Definition LinkHealthReadyForService : Z := 2.

Record DeviceHealthEvaluator := mkDeviceHealthEvaluator {
  ReadyForLinksCriteria : list DeviceCriterion;
  ReadyForUsersCriteria : list DeviceCriterion
}.

Fixpoint checkAll (ctx : option BurnInTimes) (device : Device.t) (criteria : list DeviceCriterion) : bool :=
  match criteria with
  | [] => true
  | c :: criteria => if negb (c ctx device) then false else checkAll ctx device criteria
  end.

Definition Evaluate (ev : DeviceHealthEvaluator) (ctx : option BurnInTimes) (device : Device.t) : Z :=
  let current := Device.DeviceHealth device in
  if current =? DeviceHealthReadyForUsers then current
  else if current <? DeviceHealthReadyForLinks then
    if negb (checkAll ctx device (ReadyForLinksCriteria ev)) then current else DeviceHealthReadyForLinks
  else if negb (checkAll ctx device (ReadyForLinksCriteria ev)) then current
  else if negb (checkAll ctx device (ReadyForUsersCriteria ev)) then current
  else DeviceHealthReadyForUsers.

Fixpoint link_criteria (ctx : option BurnInTimes) (link : Link.t) (criteria : list LinkCriterion) : bool :=
  match criteria with
  | [] => true
  | c :: criteria => if negb (c ctx link) then false else link_criteria ctx link criteria
  end.

Definition Link_Evaluate (criteria : list LinkCriterion) (ctx : option BurnInTimes) (link : Link.t) : Z :=
  let current := Link.LinkHealth link in
  if current =? LinkHealthReadyForService then current
  else if link_criteria ctx link criteria then LinkHealthReadyForService else current.

(** ** The worker *)

Definition maxBatchSize : nat := 8.

Section Worker.
Context {W Tx : Type} `{!ExecutorRPC W Tx}.
Context (find : list bytes -> pubkey -> option (pubkey * Z)) (fuel : nat).

(** The batches of an array of updates from index [i] on; the error of a batch
    is logged. A panic or an endless wait of the executor is the worker's. *)
Fixpoint send_batches (set_batch : list HealthUpdate -> nat -> nat -> Exec.t -> W ->
      list HealthUpdate * (outcome bytes * Exec.t * W))
    (rounds : nat) (i : nat) (updates : list HealthUpdate) (e : Exec.t) (w : W) : outcome () * Exec.t * W :=
  match rounds with
  | O => (XDone (), e, w)
  | S rounds =>
      if (length updates <=? i)%nat then (XDone (), e, w)
      else
        let end_ := if (length updates <? i + maxBatchSize)%nat then length updates else (i + maxBatchSize)%nat in
        match set_batch updates i (end_ - i)%nat e w with
        | (_, (XPanic, e, w)) => (XPanic, e, w)
        | (_, (XWait, e, w)) => (XWait, e, w)
        | (updates, (_, e, w)) => send_batches set_batch rounds (i + maxBatchSize) updates e w
        end
  end.

Definition device_updates (ev : DeviceHealthEvaluator) (ctx : option BurnInTimes) (devices : list Device.t) :
    list HealthUpdate :=
  omap (fun device =>
    let targetHealth := Evaluate ev ctx device in
    if targetHealth =? Device.DeviceHealth device then None
    else Some (mkHealthUpdate (Device.PubKey device) targetHealth)) devices.

Definition updatePendingDeviceHealth (ev : DeviceHealthEvaluator) (ctx : option BurnInTimes) (devices : list Device.t)
    (globalState : pubkey) (e : Exec.t) (w : W) : outcome () * Exec.t * W :=
  let updates := device_updates ev ctx devices in
  send_batches (SetDeviceHealthBatch find fuel globalState) (length updates) 0 updates e w.

Definition link_updates (criteria : list LinkCriterion) (ctx : option BurnInTimes) (links : list Link.t) :
    list HealthUpdate :=
  omap (fun link =>
    let targetHealth := Link_Evaluate criteria ctx link in
    if targetHealth =? Link.LinkHealth link then None
    else Some (mkHealthUpdate (Link.PubKey link) targetHealth)) links.

Definition updatePendingLinkHealth (criteria : list LinkCriterion) (ctx : option BurnInTimes) (links : list Link.t)
    (globalState : pubkey) (e : Exec.t) (w : W) : outcome () * Exec.t * W :=
  let updates := link_updates criteria ctx links in
  send_batches (SetLinkHealthBatch find fuel globalState) (length updates) 0 updates e w.

(** The start of a window of [count] slots before [currentSlot]. [blockTime] is
    the reply of the ledger: an error, no time, or Unix seconds. *)
Definition burn_in_start (blockTime : Z -> option (option Z)) (currentSlot count : Z) (now : Time) : res () Time :=
  let slot := if count <? currentSlot then currentSlot - count else 0 in
  if 0 <? slot then
    match blockTime slot with
    | None => Err ()
    | Some None => Panic
    | Some (Some bt) => Ok (unix_epoch + bt * Second)
    end
  else Ok now.

Record OracleConfig := mkOracleConfig {
  ProvisioningSlotCount : Z;
  DrainedSlotCount : Z;
  DeviceEvaluator : DeviceHealthEvaluator;
  LinkEvaluator : list LinkCriterion;
  ServiceabilityProgramID : pubkey
}.

(** What the ledger answers in a tick; [None] is an error. *)
Record LedgerView := mkLedgerView {
  lv_slot : option Z;
  lv_blockTime : Z -> option (option Z);
  lv_data : option ProgramData.t
}.

Definition oracle_tick (cfg : OracleConfig) (lv : LedgerView) (now : Time) (e : Exec.t) (w : W) :
    outcome () * Exec.t * W :=
  match lv_slot lv with
  | None => (XDone (), e, w)
  | Some currentSlot =>
      let starts :=
        p ← burn_in_start (lv_blockTime lv) currentSlot (ProvisioningSlotCount cfg) now;
        d ← burn_in_start (lv_blockTime lv) currentSlot (DrainedSlotCount cfg) now;
        Ok (p, d) in
      match starts with
      | Panic => (XPanic, e, w)
      | Err _ => (XDone (), e, w)
      | Ok (p, d) =>
          let ctx := Some (mkBurnInTimes p d now) in
          match lv_data lv, GetGlobalStatePDA find (ServiceabilityProgramID cfg) with
          | Some pd, Some (globalState, _) =>
              match updatePendingDeviceHealth (DeviceEvaluator cfg) ctx (ProgramData.Devices pd) globalState e w with
              | (XDone _, e, w) =>
                  updatePendingLinkHealth (LinkEvaluator cfg) ctx (ProgramData.Links pd) globalState e w
              | r => r
              end
          | _, _ => (XDone (), e, w)
          end
      end
  end.
End Worker.

(** ** The batches *)

Section Batching.
Context {W Tx : Type} `{AtomicCluster W Tx}.
Context (find : list bytes -> pubkey -> option (pubkey * Z)) (fuel : nat).

Section Build.
Context (build : pubkey -> pubkey -> HealthUpdate -> genericInstruction).

(** The instructions that [e] sends for the updates. *)
Definition update_instructions (e : Exec.t) (updates : list HealthUpdate) : list genericInstruction :=
  match Exec.signer e with
  | Some signer => inject_permission (Exec.permissionPDA e) <$> (build (Exec.programID e) signer <$> updates)
  | None => []
  end.

Lemma update_instructions_nil e : update_instructions e [] = [].
Proof. unfold update_instructions. by destruct (Exec.signer e). Qed.

Lemma update_instructions_resolved e e' updates : resolved e e' -> (updates <> [] -> Exec.permissionOnce e = true) ->
  update_instructions e' updates = update_instructions e updates.
Proof.
  intros (Hs & Hp & _ & Hperm & _) Honce. destruct (decide (updates = [])) as [->|Hne]; [by rewrite !update_instructions_nil|].
  destruct (Hperm (Honce Hne)) as [_ Hpda]. unfold update_instructions. by rewrite Hs, Hp, Hpda.
Qed.

Lemma update_instructions_app e l k :
  update_instructions e (l ++ k) = update_instructions e l ++ update_instructions e k.
Proof. unfold update_instructions. destruct (Exec.signer e); [|done]. by rewrite !fmap_app. Qed.
End Build.

(** The transactions admitted for instructions: none is empty or over the
    limit, and together they are some of the accepted instructions, in order. *)
Definition txs_for (l : list genericInstruction) (txs : list (list genericInstruction)) : Prop :=
  Forall (fun tx => (0 < length tx <= maxBatchSize)%nat) txs /\ concat txs `sublist_of` accepted l.

Lemma txs_for_nil l : txs_for l [].
Proof. split; [constructor|apply sublist_nil_l]. Qed.

Lemma txs_for_app l k txs1 txs2 : txs_for l txs1 -> txs_for k txs2 -> txs_for (l ++ k) (txs1 ++ txs2).
Proof.
  intros [H1 Hs1] [H2 Hs2]. split; [by apply Forall_app|]. rewrite concat_app. unfold accepted in *. rewrite filter_app.
  by apply sublist_app.
Qed.

(** How sending updates ends: it does not panic, and if nothing fails but
    rejected instructions all accepted updates are admitted. *)
Definition sends (build : pubkey -> pubkey -> HealthUpdate -> genericInstruction) (s : list HealthUpdate) (e : Exec.t) (w : W)
    (r : outcome () * Exec.t * W) : Prop :=
  exists out e' w' txs, r = (out, e', w') /\ resolved e e' /\ (s <> [] -> Exec.permissionOnce e' = true) /\
    (out = XDone () \/ out = XWait) /\ admitted w' = admitted w ++ txs /\ txs_for (update_instructions build e' s) txs /\
    (responsive fuel (Exec.waitForVisibleTimeout e) ->
      out = XDone () /\ concat txs = accepted (update_instructions build e' s)).

Lemma sends_nothing build e w : sends build [] e w (XDone (), e, w).
Proof.
  exists (XDone ()), e, w, []. rewrite update_instructions_nil, app_nil_r.
  split_and!; [done|apply resolved_refl|done|by left|done|apply txs_for_nil|done].
Qed.

(** A batch, and then the rest. *)
Lemma sends_batch build signer (a s1 s1' s2 : list HealthUpdate) e w (out : outcome bytes) e1 (w1 : W) txs r : Exec.signer e = Some signer -> s1 <> [] ->
  (length s1 <= maxBatchSize)%nat -> resolved e e1 -> Exec.permissionOnce e1 = true -> out <> XPanic ->
  admitted w1 = admitted w ++ txs ->
  (let l := inject_permission (Exec.permissionPDA e1) <$> (build (Exec.programID e) signer <$> s1) in
   batch_admits l txs /\ (responsive fuel (Exec.waitForVisibleTimeout e) ->
     out <> XWait /\ txs = if bool_decide (accepted l = []) then [] else [accepted l])) ->
  sends build s2 e1 w1 r ->
  sends build (s1 ++ s2) e w
    match (a ++ s1' ++ s2, (out, e1, w1)) with
    | (_, (XPanic, e, w)) => (XPanic, e, w)
    | (_, (XWait, e, w)) => (XWait, e, w)
    | _ => r
    end.
Proof.
  intros Hsig Hne Hlen Hres Honce Hnp Ha Hl (out2 & e2 & w2 & txs2 & -> & Hres2 & _ & Hout2 & Ha2 & Ht2 & Hr2).
  assert (Hins : inject_permission (Exec.permissionPDA e1) <$> (build (Exec.programID e) signer <$> s1) = update_instructions build e1 s1).
  { destruct Hres as (Hs & Hp & _). unfold update_instructions. by rewrite Hs, Hp, Hsig. }
  rewrite Hins in Hl. destruct Hl as [Hadm Hr].
  assert (Ht : txs_for (update_instructions build e1 s1) txs).
  { destruct Hadm as [->|[Hacc ->]]; [apply txs_for_nil|]. split; [|cbn; by rewrite app_nil_r]. constructor; [|done].
    assert (Hle : (length (accepted (update_instructions build e1 s1)) <= length s1)%nat).
    { etrans; [apply length_filter|]. unfold update_instructions. destruct (Exec.signer e1); [by rewrite !length_fmap|cbn; lia]. }
    destruct (accepted (update_instructions build e1 s1)); [done|]. cbn in *. lia. }
  assert (Happ : update_instructions build e2 (s1 ++ s2) = update_instructions build e1 s1 ++ update_instructions build e2 s2).
  { by rewrite update_instructions_app, (update_instructions_resolved build e1 e2 s1) by done. }
  assert (out = XWait \/ out <> XWait) as [->|Hnw] by (destruct out; auto).
  - exists XWait, e1, w1, txs. split_and!; [done..|by right|done| |intros H'; by destruct (Hr H')].
    rewrite update_instructions_app. rewrite <- (app_nil_r txs). apply txs_for_app; [done|apply txs_for_nil].
  - exists out2, e2, w2, (txs ++ txs2). split_and!; [by destruct out|by eapply resolved_trans| |done| | |].
    + intros _. apply (proj1 (proj2 (proj2 (proj2 Hres2))) Honce).
    + by rewrite Ha2, Ha, app_assoc.
    + rewrite Happ. by apply txs_for_app.
    + intros H'. destruct (Hr H') as [_ Htxs]. destruct Hr2 as [-> Hc2]; [by rewrite (proj1 (proj2 (proj2 Hres)))|].
      split; [done|]. rewrite Happ, concat_app, Hc2. unfold accepted. rewrite filter_app. f_equal.
      rewrite Htxs. case_bool_decide as Hnil; [symmetry; exact Hnil|]. cbn. by rewrite app_nil_r.
Qed.

Lemma send_batches_end build rounds i updates e (w : W) : (length updates <= i)%nat ->
  send_batches (health_batch find fuel build) rounds i updates e w = (XDone (), e, w).
Proof. intros Hi. destruct rounds; [done|]. cbn. by rewrite (proj2 (Nat.leb_le _ _) Hi). Qed.

Lemma send_batches_spec build rounds : forall a s e w, (length s <= rounds)%nat -> ready e ->
  sends build s e w (send_batches (health_batch find fuel build) rounds (length a) (a ++ s) e w).
Proof.
  induction rounds as [|rounds IH]; intros a s e w Hs He; [destruct s; [apply sends_nothing|cbn in Hs; lia]|].
  destruct (decide (s = [])) as [->|Hne]; [rewrite send_batches_end by (rewrite app_nil_r; lia); apply sends_nothing|].
  assert (Hlen : (0 < length s)%nat) by (destruct s; cbn; [done|lia]).
  assert (Hsplit := take_drop maxBatchSize s). set (s1 := take maxBatchSize s) in *. set (s2 := drop maxBatchSize s) in *.
  assert (Hs1 : length s1 = Nat.min 8 (length s)) by apply length_take.
  assert (Hs2 : length s2 = (length s - 8)%nat) by apply length_drop.
  assert (Hne1 : s1 <> []) by (intros E%(f_equal length); rewrite Hs1 in E; cbn [length] in E; lia).
  cbn [send_batches]. rewrite (proj2 (Nat.leb_gt (length (a ++ s)) (length a))) by (rewrite length_app; lia).
  assert (Hend : ((if (length (a ++ s) <? length a + maxBatchSize)%nat then length (a ++ s)
    else (length a + maxBatchSize)%nat) - length a)%nat = length s1).
  { rewrite length_app, Hs1. unfold maxBatchSize. destruct (_ <? _)%nat eqn:Hlt; lia. }
  rewrite Hend, <- Hsplit. pose proof He as ([signer Hsig] & _).
  destruct (health_batch_spec find fuel build a s1 s2 e w signer) as (s1' & out & e1 & w1 & txs & Heq & Hl1 & Hres & Honce & Hnp & Hadm & Hl);
    [unfold tx_limit; lia|done..|]. rewrite Heq.
  assert (Hrest : sends build s2 e1 w1 (send_batches (health_batch find fuel build) rounds (length a + maxBatchSize) (a ++ s1' ++ s2) e1 w1)).
  { assert (Hi := IH (a ++ s1') s2 e1 w1 ltac:(lia) ltac:(by apply Hres)). rewrite app_assoc.
    destruct (decide (8 <= length s)%nat) as [Hge|Hlt].
    - replace (length a + maxBatchSize)%nat with (length (a ++ s1')); [done|]. rewrite length_app. unfold maxBatchSize. lia.
    - rewrite send_batches_end in Hi |- * by (rewrite !length_app; unfold maxBatchSize; lia). done. }
  exact (sends_batch build signer a s1 s1' s2 e w out e1 w1 txs _ Hsig Hne1 ltac:(unfold maxBatchSize; lia) Hres (Honce Hne1) Hnp Hadm Hl Hrest).
Qed.
End Batching.

(** The device and link instructions of an executor. *)
Definition device_instruction (globalState : pubkey) (prog signer : pubkey) (u : HealthUpdate) : genericInstruction :=
  buildSetDeviceHealthInstruction prog signer (upd_Pubkey u) globalState (upd_Health u).
Definition link_instruction (globalState : pubkey) (prog signer : pubkey) (u : HealthUpdate) : genericInstruction :=
  buildSetLinkHealthInstruction prog signer (upd_Pubkey u) globalState (upd_Health u).

Lemma tick_starts_ok (lv : LedgerView) slot p d cp cd now :
  burn_in_start (lv_blockTime lv) slot cp now = Ok p -> burn_in_start (lv_blockTime lv) slot cd now = Ok d ->
  (p ← burn_in_start (lv_blockTime lv) slot cp now; d ← burn_in_start (lv_blockTime lv) slot cd now; Ok (p, d))
  = (Ok (p, d) : res () (Time * Time)).
Proof. intros -> ->. done. Qed.

(** C21. Whatever calls of the cluster fail or never answer, a tick of the
    oracle does not panic, and what it has admitted to the cluster are
    transactions of one to eight instructions that hold, in order and at most
    once, updates of the devices and then of the links whose evaluated health
    differs from the one on the ledger. If nothing fails but the updates the
    program rejects, and admitted transactions are seen in time and finalized,
    the tick ends and all the accepted updates are admitted: a rejected update
    costs no other update, although the executor removes it from the oracle's own
    array while it retries. The cluster refuses a transaction with a rejected
    instruction, naming the first. *)
Theorem oracle_tick_lands {W Tx} `{AtomicCluster W Tx} find fuel cfg lv now e w slot p d pd globalState bump :
  ready e ->
  lv_slot lv = Some slot -> lv_data lv = Some pd ->
  burn_in_start (lv_blockTime lv) slot (ProvisioningSlotCount cfg) now = Ok p ->
  burn_in_start (lv_blockTime lv) slot (DrainedSlotCount cfg) now = Ok d ->
  GetGlobalStatePDA find (ServiceabilityProgramID cfg) = Some (globalState, bump) ->
  let ctx := Some (mkBurnInTimes p d now) in
  exists out e' w' txs, oracle_tick find fuel cfg lv now e w = (out, e', w') /\ (out = XDone () \/ out = XWait) /\
    let updates := update_instructions (device_instruction globalState) e'
                     (device_updates (DeviceEvaluator cfg) ctx (ProgramData.Devices pd))
                ++ update_instructions (link_instruction globalState) e'
                     (link_updates (LinkEvaluator cfg) ctx (ProgramData.Links pd)) in
    admitted w' = admitted w ++ txs /\
    Forall (fun tx => (0 < length tx <= 8)%nat) txs /\ concat txs `sublist_of` accepted updates /\
    (responsive fuel (Exec.waitForVisibleTimeout e) -> out = XDone () /\ concat txs = accepted updates).
Proof.
  intros He Hslot Hpd Hp Hd Hgs ctx. unfold oracle_tick. rewrite Hslot, (tick_starts_ok _ _ p d) by done.
  rewrite Hpd, Hgs. fold ctx. unfold updatePendingDeviceHealth, updatePendingLinkHealth.
  set (ds := device_updates _ ctx _). set (ls := link_updates _ ctx _).
  change (SetDeviceHealthBatch find fuel globalState) with (health_batch find fuel (device_instruction globalState)).
  change (SetLinkHealthBatch find fuel globalState) with (health_batch find fuel (link_instruction globalState)).
  destruct (send_batches_spec find fuel (device_instruction globalState) (length ds) [] ds e w ltac:(lia) He)
    as (out1 & e1 & w1 & txs1 & Hs1 & Hres & Honce & Hout1 & Ha1 & Ht1 & Hr1). cbn [app length] in Hs1. rewrite Hs1.
  destruct Hout1 as [-> | ->]; cycle 1.
  { exists XWait, e1, w1, txs1. split; [done|]. split; [by right|].
    destruct (txs_for_app _ (update_instructions (link_instruction globalState) e1 ls) txs1 [] Ht1 (txs_for_nil _)) as [Hf Hsub].
    rewrite app_nil_r in Hf, Hsub. split_and!; [done..|]. intros [? _]%Hr1. done. }
  destruct (send_batches_spec find fuel (link_instruction globalState) (length ls) [] ls e1 w1 ltac:(lia) ltac:(by apply Hres))
    as (out2 & e2 & w2 & txs2 & Hs2 & Hres2 & _ & Hout2 & Ha2 & Ht2 & Hr2). cbn [app length] in Hs2. rewrite Hs2.
  exists out2, e2, w2, (txs1 ++ txs2). split; [done|]. split; [done|]. cbv zeta.
  rewrite (update_instructions_resolved (device_instruction globalState) e1 e2 ds) by done.
  destruct (txs_for_app _ _ _ _ Ht1 Ht2) as [Hf Hsub]. split_and!; [by rewrite Ha2, Ha1, app_assoc|done..|].
  intros Hresp. destruct (Hr1 Hresp) as [_ Hc1]. destruct Hr2 as [-> Hc2]; [by rewrite (proj1 (proj2 (proj2 Hres)))|].
  split; [done|]. unfold accepted. by rewrite concat_app, filter_app, Hc1, Hc2.
Qed.

(** ** The stages of a device *)

(** The outcomes of an evaluation: no change, or one stage up with its
    criteria met. *)
Lemma Evaluate_cases ev ctx d :
  Evaluate ev ctx d = Device.DeviceHealth d \/
  Device.DeviceHealth d < DeviceHealthReadyForLinks /\ Evaluate ev ctx d = DeviceHealthReadyForLinks /\
    checkAll ctx d (ReadyForLinksCriteria ev) = true \/
  DeviceHealthReadyForLinks <= Device.DeviceHealth d /\ Evaluate ev ctx d = DeviceHealthReadyForUsers /\
    checkAll ctx d (ReadyForLinksCriteria ev) = true /\ checkAll ctx d (ReadyForUsersCriteria ev) = true.
Proof.
  unfold Evaluate. destruct (_ =? DeviceHealthReadyForUsers) eqn:H3; [by left|].
  destruct (_ <? DeviceHealthReadyForLinks) eqn:H2;
    (destruct (checkAll ctx d (ReadyForLinksCriteria ev)) eqn:Hl; [|by left]); cbn.
  - right. left. split_and!; [lia|done..].
  - destruct (checkAll ctx d (ReadyForUsersCriteria ev)) eqn:Hu; [|by left]. right. right. split_and!; [lia|done..].
Qed.

(** The health of a device over ticks whose updates all land. *)
Definition health_run (ev : DeviceHealthEvaluator) (d : Device.t) (ctxs : list (option BurnInTimes)) (h : Z) : Z :=
  foldl (fun h ctx => Evaluate ev ctx (d <| Device.DeviceHealth := h |>)) h ctxs.

(** The criteria do not look at the health itself. *)
Definition health_blind (criteria : list DeviceCriterion) : Prop :=
  Forall (fun c : DeviceCriterion => forall ctx d h, c ctx (d <| Device.DeviceHealth := h |>) = c ctx d) criteria.

Lemma checkAll_blind criteria ctx d h : health_blind criteria ->
  checkAll ctx (d <| Device.DeviceHealth := h |>) criteria = checkAll ctx d criteria.
Proof. intros Hb. induction Hb as [|c cs Hc _ IH]; [done|]. cbn [checkAll]. by rewrite Hc, IH. Qed.

Lemma run_links_first ev d ctxs h :
  health_blind (ReadyForLinksCriteria ev) -> h < DeviceHealthReadyForLinks ->
  DeviceHealthReadyForLinks <= health_run ev d ctxs h ->
  exists before ctx after, ctxs = before ++ ctx :: after /\ checkAll ctx d (ReadyForLinksCriteria ev) = true /\
    health_run ev d ctxs h = health_run ev d after DeviceHealthReadyForLinks.
Proof.
  intros Hb. revert h. induction ctxs as [|ctx ctxs IH]; intros h Hh Hend; [cbn in Hend; lia|].
  unfold health_run in Hend |- *. cbn [foldl] in Hend |- *.
  destruct (Evaluate_cases ev ctx (d <| Device.DeviceHealth := h |>)) as [Heq|[(_ & Heq & Hc)|(Hge & _)]].
  - rewrite Heq in Hend |- *. destruct (IH h Hh Hend) as (b & c & a & -> & Hc & Hrun).
    exists (ctx :: b), c, a. split_and!; [done..|exact Hrun].
  - rewrite Heq in Hend |- *. rewrite checkAll_blind in Hc by done. by exists [], ctx, ctxs.
  - cbn in Hge. lia.
Qed.

Lemma run_users_next ev d ctxs :
  health_blind (ReadyForLinksCriteria ev) -> health_blind (ReadyForUsersCriteria ev) ->
  health_run ev d ctxs DeviceHealthReadyForLinks = DeviceHealthReadyForUsers ->
  exists before ctx after, ctxs = before ++ ctx :: after /\
    checkAll ctx d (ReadyForLinksCriteria ev) = true /\ checkAll ctx d (ReadyForUsersCriteria ev) = true.
Proof.
  intros Hb Hb'. induction ctxs as [|ctx ctxs IH]; intros Hend; [done|].
  unfold health_run in Hend. cbn [foldl] in Hend.
  destruct (Evaluate_cases ev ctx (d <| Device.DeviceHealth := DeviceHealthReadyForLinks |>))
    as [Heq|[(Hlt & _)|(_ & _ & Hc & Hc')]].
  - rewrite Heq in Hend. destruct (IH Hend) as (b & c & a & -> & Hc). by exists (ctx :: b), c, a.
  - cbn in Hlt. lia.
  - rewrite checkAll_blind in Hc, Hc' by done. by exists [], ctx, ctxs.
Qed.

(** A device that starts below ReadyForLinks and is found ReadyForUsers has
    met the criteria for links in one tick and, in a later one, those for
    links and users: no sequence of ticks skips a stage. *)
Theorem device_stages_in_order ev d ctxs h :
  health_blind (ReadyForLinksCriteria ev) -> health_blind (ReadyForUsersCriteria ev) ->
  h < DeviceHealthReadyForLinks -> health_run ev d ctxs h = DeviceHealthReadyForUsers ->
  exists a ctx1 b ctx2 c, ctxs = a ++ ctx1 :: b ++ ctx2 :: c /\
    checkAll ctx1 d (ReadyForLinksCriteria ev) = true /\
    checkAll ctx2 d (ReadyForLinksCriteria ev) = true /\ checkAll ctx2 d (ReadyForUsersCriteria ev) = true.
Proof.
  intros Hb Hb' Hh Hend.
  destruct (run_links_first ev d ctxs h Hb Hh) as (a & ctx1 & rest & -> & Hc1 & Hrun); [by rewrite Hend|].
  destruct (run_users_next ev d rest Hb Hb') as (b & ctx2 & c & -> & Hc2 & Hc3); [congruence|].
  by exists a, ctx1, b, ctx2, c.
Qed.

(** ** What the criteria ask for, and what they leave *)

(** A window of less than a minute, or records in each of its minutes. *)
Lemma controller_success_spec cov b d :
  let start := if DeviceStatus_IsDrained (Device.Status d) then DrainedStart b else ProvisioningStart b in
  ControllerSuccess_Check cov (Some b) d = true <->
  TimeSub (burn_Now b) start < Minute \/
  exists m, cov (Device.PubKey d) start (burn_Now b) = Some m /\ Z.quot (TimeSub (burn_Now b) start) Minute <= m.
Proof.
  intros start. unfold ControllerSuccess_Check, DeviceBurnIn. cbn [mbind option_bind]. fold start.
  set (len := TimeSub (burn_Now b) start).
  assert (Hq : Z.max (Z.quot len Minute) 0 = 0 <-> len < Minute) by (unfold Minute; lia).
  destruct (_ =? 0) eqn:Hz; [split; [|done]; intros _; left; lia|].
  destruct (cov _ _ _) as [m|]; [|split; [done|intros [?|(m & [=] & _)]; lia]].
  split; [intros Hm; right; exists m; split; [done|lia]|intros [?|(m' & [= <-] & ?)]; lia].
Qed.

(** A device marked Impaired is promoted like one that is ready for links. *)
Lemma impaired_promoted ev ctx d :
  Device.DeviceHealth d = DeviceHealthImpaired -> checkAll ctx d (ReadyForLinksCriteria ev) = true ->
  checkAll ctx d (ReadyForUsersCriteria ev) = true -> Evaluate ev ctx d = DeviceHealthReadyForUsers.
Proof. intros Hh Hl Hu. unfold Evaluate. by rewrite Hh, Hl, Hu. Qed.

(** A block without a time stops the process. *)
Lemma null_block_time_panics {W Tx} `{!ExecutorRPC W Tx} find fuel cfg lv now (e : Exec.t) (w : W) slot :
  lv_slot lv = Some slot -> ProvisioningSlotCount cfg < slot ->
  lv_blockTime lv (slot - ProvisioningSlotCount cfg) = Some None ->
  oracle_tick find fuel cfg lv now e w = (XPanic, e, w).
Proof.
  intros Hs Hc Hb. unfold oracle_tick. rewrite Hs.
  assert (Hp : burn_in_start (lv_blockTime lv) slot (ProvisioningSlotCount cfg) now = Panic).
  { unfold burn_in_start. rewrite (proj2 (Z.ltb_lt _ _) Hc).
    rewrite (proj2 (Z.ltb_lt 0 (slot - ProvisioningSlotCount cfg))) by lia. by rewrite Hb. }
  by rewrite Hp.
Qed.

(** ** Sample: ten devices to promote, one of which the program rejects *)

Definition oracle_device (n : Z) : Device.t :=
  sample_device <| Device.PubKey := sample_key n |> <| Device.DeviceHealth := 1 |>.

Definition oracle_data : ProgramData.t := ProgramData.empty
  <| ProgramData.Devices := oracle_device <$> [60; 61; 62; 63; 64; 65; 66; 67; 68; 69] |>.

Definition oracle_criterion : DeviceCriterion := ControllerSuccess_Check (fun _ _ _ => Some 60).

Definition oracle_cfg : OracleConfig :=
  mkOracleConfig 1000 500 (mkDeviceHealthEvaluator [oracle_criterion] []) [] (sample_key 2).

Definition oracle_lv : LedgerView :=
  mkLedgerView (Some 5000) (fun slot => Some (Some (1700000000 + slot))) (Some oracle_data).

Definition oracle_now : Time := unix_epoch + 1700006000 * Second.

Lemma oracle_tick_lands_witness :
  exists e' w', oracle_tick seed_bytes 1 oracle_cfg oracle_lv oracle_now sim_executor SimCluster.start = (XDone (), e', w') /\
    (hd [] <$> (fmap meta_key ∘ accounts <$> concat (admitted w'))) = sample_key <$> [60; 61; 62; 63; 64; 65; 67; 68; 69].
Proof.
  destruct (oracle_tick_lands seed_bytes 1 oracle_cfg oracle_lv oracle_now sim_executor SimCluster.start 5000
    (unix_epoch + 1700004000 * Second) (unix_epoch + 1700004500 * Second) oracle_data
    (concat [SeedPrefix; lit "globalstate"]) 0) as (out & e' & w' & txs & Heq & _ & Ha & _ & _ & Hr); try reflexivity.
  { split_and!; [by eexists|discriminate|done]. }
  destruct Hr as [-> Hc]; [apply SimCluster.sim_responsive; [lia|reflexivity]|].
  assert (He : Exec.signer e' = Exec.signer sim_executor /\ Exec.programID e' = Exec.programID sim_executor /\ Exec.permissionPDA e' = None).
  { vm_compute in Heq. by injection Heq as <- _. }
  exists e', w'. split; [exact Heq|]. rewrite Ha. change (admitted SimCluster.start) with (@nil (list genericInstruction)).
  cbn [app]. rewrite Hc. destruct e' as [? ? ? ? ?]. cbn in He. destruct He as (-> & -> & ->). vm_compute. reflexivity.
Defined.

Lemma device_stages_in_order_witness :
  exists a ctx1 b ctx2 c,
    replicate 2 (Some (mkBurnInTimes 0 0 (2 * Minute))) = a ++ ctx1 :: b ++ ctx2 :: c /\
    checkAll ctx1 (oracle_device 60) [oracle_criterion] = true /\
    checkAll ctx2 (oracle_device 60) [oracle_criterion] = true /\ checkAll ctx2 (oracle_device 60) [] = true.
Proof.
  apply (device_stages_in_order (mkDeviceHealthEvaluator [oracle_criterion] []) (oracle_device 60) _ 1);
    [by repeat constructor|constructor|done|vm_compute; reflexivity].
Defined.
