(* ===== verification/Twamp.v ===== *)
(** * TWAMP light

    Models [packet.go], the senders and the reflectors of
    [tools/twamp/pkg/light]. A socket is the sequence of what its reads
    return. *)

From stdpp Require Import base tactics numbers list gmap.
From Stdlib Require Import ZArith Lia ZifyBool ZifyNat.
From S2P Require Import TelemetryBuffer TelemetrySubmitter.
From S2P Require Import Prelude Bytes GoStrings GoCollections.

#[local] Open Scope Z_scope.

(** ** Timestamps *)

Definition ntpEpochOffset : Z := 2208988800.

(** [Time.Unix] and [Time.Nanosecond]. *)
Definition Unix (t : Time) : Z := (t - unix_epoch) / Second.
Definition Nanosecond (t : Time) : Z := (t - unix_epoch) mod Second.
(** [time.Unix(sec, nsec)] *)
Definition time_Unix (sec nsec : Z) : Time := unix_epoch + sec * Second + nsec.

Definition ntpTimestamp (t : Time) : Z * Z :=
  let secs := u32 (u32 (Unix t) + ntpEpochOffset) in
  let frac := u32 (u64 (Nanosecond t * 2 ^ 32) / 1000000000) in
  (secs, frac).

(** [copy] into a zeroed array of [n] bytes. *)
Definition copy_n (n : nat) (b : bytes) : bytes := take n (b ++ replicate n 0).

(** ** TWAMP light *)

Definition PacketSize : nat := 48.

Record Packet := mkPacket { pk_Seq : Z; pk_Sec : Z; pk_Frac : Z; pk_Pad : bytes }.
#[global] Instance Packet_eq_dec : EqDecision Packet.
Proof. solve_decision. Defined.
#[global] Instance Packet_countable : Countable Packet.
Proof.
  refine (inj_countable' (fun p => (pk_Seq p, pk_Sec p, pk_Frac p, pk_Pad p))
    (fun '(a, b, c, d) => mkPacket a b c d) _). by intros [].
Defined.

Definition NewPacket (now : Time) (seq : Z) : Packet :=
  let '(sec, frac) := ntpTimestamp now in mkPacket seq sec frac (replicate 36 0).

Definition Packet_bytes (p : Packet) : bytes :=
  be_bytes 4 (pk_Seq p) ++ be_bytes 4 (pk_Sec p) ++ be_bytes 4 (pk_Frac p) ++ pk_Pad p.

(** The buffer after [Marshal]; [None] is an error. *)
Definition Packet_Marshal (p : Packet) (buf : bytes) : option bytes :=
  if (length buf <? PacketSize)%nat then None else Some (Packet_bytes p ++ drop PacketSize buf).

Definition UnmarshalPacket (buf : bytes) : option Packet :=
  if negb (length buf =? PacketSize)%nat then None
  else if negb (forallb (fun x => x =? 0) (drop 12 buf)) then None
  else Some (mkPacket (be_val (slice buf 0 4)) (be_val (slice buf 4 8)) (be_val (slice buf 8 12)) (replicate 36 0)).

(** A read of [BasicSender]: the context has ended, the deadline has passed,
    another error, or a datagram with the time of its receipt. *)
Inductive basic_read := BasicCancelled | BasicTimeout | BasicError | BasicData (b : bytes) (recv : Time).

Inductive probe_error := ProbeCancelledErr | ProbeTimeoutErr | ProbeReadErr | ProbeInvalid | ProbeNoTimestamp | ProbeMismatch.

(** The loop of [BasicSender.Probe], with the packets received so far. *)
Fixpoint basic_loop (sent : Packet) (sendTime : Time) (received : gset Packet) (reads : list basic_read) :
    option (res probe_error Duration) * gset Packet :=
  match reads with
  | [] => (None, received)
  | BasicCancelled :: _ => (Some (Err ProbeCancelledErr), received)
  | BasicTimeout :: _ => (Some (Err ProbeTimeoutErr), received)
  | BasicError :: _ => (Some (Err ProbeReadErr), received)
  | BasicData b recv :: reads =>
      match UnmarshalPacket b with
      | None => (Some (Err ProbeInvalid), received)
      | Some packet =>
          if bool_decide (packet ∈ received) then basic_loop sent sendTime received reads
          else
            let received := {[packet]} ∪ received in
            if negb (pk_Seq sent =? pk_Seq packet) || negb (pk_Sec sent =? pk_Sec packet)
               || negb (pk_Frac sent =? pk_Frac packet)
            then basic_loop sent sendTime received reads
            else (Some (Ok (Z.max (TimeSub recv sendTime) 0)), received)
      end
  end.

Definition decideRTT (sendTime kernelRecvTime fallbackRecvTime : Time) : Duration :=
  let rtt := TimeSub kernelRecvTime sendTime in
  let rtt := if rtt <? -100 * Microsecond then TimeSub fallbackRecvTime sendTime else rtt in
  Z.max rtt 0.

(** A round of the loop over the socket: the context has ended, the deadline
    has passed, an error, nothing to read, or a datagram with its control
    messages and the time after the read. A control message is its kernel
    timestamp, if it has one; [None] of all is a parse error. *)
Inductive recv_event :=
| EvCancelled | EvDeadline | EvError | EvNothing
| EvPacket (data : bytes) (cmsgs : option (list (option Time))) (fallback : Time).

(** The loop of [LinuxSender.Probe] of the light package. *)
Fixpoint linux_loop (sent : Packet) (sendTime : Time) (received : gset Packet) (events : list recv_event) :
    option (res probe_error Duration) * gset Packet :=
  match events with
  | [] => (None, received)
  | EvCancelled :: _ => (Some (Err ProbeCancelledErr), received)
  | EvDeadline :: _ => (Some (Err ProbeTimeoutErr), received)
  | EvError :: _ => (Some (Err ProbeReadErr), received)
  | EvNothing :: events => linux_loop sent sendTime received events
  | EvPacket b cmsgs fallback :: events =>
      match UnmarshalPacket b with
      | None => linux_loop sent sendTime received events
      | Some packet =>
          if bool_decide (packet ∈ received) then linux_loop sent sendTime received events
          else
            let received := {[packet]} ∪ received in
            match cmsgs with
            | None => (Some (Err ProbeReadErr), received)
            | Some cmsgs =>
                let matches := (pk_Seq sent =? pk_Seq packet) && (pk_Sec sent =? pk_Sec packet)
                  && (pk_Frac sent =? pk_Frac packet) in
                match omap (fun c => if matches then c else None) cmsgs with
                | kernel :: _ => (Some (Ok (decideRTT sendTime kernel fallback)), received)
                | [] => (Some (Err ProbeNoTimestamp), received)
                end
            end
      end
  end.

(** A tick of [cleanUpReceived]. *)
Definition cleanUpReceived (now : Time) (received : gset Packet) : gset Packet :=
  filter (fun p => TimeSub now (time_Unix (pk_Sec p) (pk_Frac p)) <= 5 * Minute) received.

(** What the reflectors of the light package send back. *)
Definition light_reflect (b : bytes) : option bytes := (fun _ => b) <$> UnmarshalPacket b.

(** ** Slices of a concatenation *)

Lemma slice_here (a b : bytes) i j : i = 0%nat -> length a = j -> slice (a ++ b) i j = a.
Proof. intros -> <-. unfold slice. rewrite drop_0, Nat.sub_0_r. apply take_app_length. Qed.

Lemma slice_skip (a b : bytes) i j : (length a <= i <= j)%nat ->
  slice (a ++ b) i j = slice b (i - length a) (j - length a).
Proof.
  intros [Hi Hj]. unfold slice. rewrite drop_app_ge by lia. f_equal; lia.
Qed.

Lemma slice_all (a : bytes) i j : i = 0%nat -> length a = j -> slice a i j = a.
Proof. intros -> <-. unfold slice. rewrite drop_0, Nat.sub_0_r. apply firstn_all. Qed.

(** Read a field of a concatenation of fields of known lengths. *)
Ltac field_tac :=
  repeat (rewrite slice_skip by (autorewrite with bytes; lia));
  first [rewrite slice_here by (autorewrite with bytes; lia) | rewrite slice_all by (autorewrite with bytes; lia)].

(** ** The light packets *)

Definition valid_packet (p : Packet) : Prop :=
  is_u32 (pk_Seq p) /\ is_u32 (pk_Sec p) /\ is_u32 (pk_Frac p) /\ pk_Pad p = replicate 36 0.

Lemma length_Packet_bytes p : valid_packet p -> length (Packet_bytes p) = PacketSize.
Proof. intros (_ & _ & _ & Hp). unfold Packet_bytes. rewrite Hp. by autorewrite with bytes. Qed.

Lemma Packet_roundtrip p : valid_packet p -> UnmarshalPacket (Packet_bytes p) = Some p.
Proof.
  intros Hv. unfold UnmarshalPacket. rewrite length_Packet_bytes by done. cbn [negb Nat.eqb].
  destruct p as [seq sec frac pad]. destruct Hv as (Hs & Hc & Hf & Hp). cbn [pk_Seq pk_Sec pk_Frac pk_Pad] in *. subst pad.
  unfold Packet_bytes. cbn [pk_Seq pk_Sec pk_Frac pk_Pad].
  assert (Hd : drop 12 (be_bytes 4 seq ++ be_bytes 4 sec ++ be_bytes 4 frac ++ replicate 36 0) = replicate 36 0).
  { rewrite !app_assoc. apply drop_app_exact. by autorewrite with bytes. }
  rewrite Hd. cbn [negb forallb replicate andb Z.eqb].
  do 2 f_equal; [field_tac; by apply (be_round 4)..].
Qed.

Lemma NewPacket_valid now seq : is_u32 seq -> valid_packet (NewPacket now seq).
Proof. intros Hs. unfold NewPacket, ntpTimestamp, valid_packet. cbn. split_and!; [done|by apply wrap_range..|done]. Qed.

(** The reflectors send a packet back unchanged. *)
Lemma light_reflect_packet p : valid_packet p -> light_reflect (Packet_bytes p) = Some (Packet_bytes p).
Proof. intros Hp. unfold light_reflect. by rewrite Packet_roundtrip. Qed.

(** ** Probing *)

Definition same_probe (a b : Packet) : bool :=
  (pk_Seq a =? pk_Seq b) && (pk_Sec a =? pk_Sec b) && (pk_Frac a =? pk_Frac b).

(** Datagrams of other probes, or seen before, in front of the answer. *)
Definition basic_skipped (sent : Packet) (r : basic_read) : Prop :=
  exists b recv p, r = BasicData b recv /\ UnmarshalPacket b = Some p /\ p <> sent.

Lemma same_probe_eq a b : valid_packet a -> pk_Pad b = replicate 36 0 -> same_probe a b = true -> b = a.
Proof.
  intros (_ & _ & _ & Ha) Hb. unfold same_probe. destruct a, b; cbn in *. intros Hs. f_equal; [lia..|congruence].
Qed.

Lemma Unmarshal_pad b p : UnmarshalPacket b = Some p -> pk_Pad p = replicate 36 0.
Proof. unfold UnmarshalPacket. repeat case_goal; [done..|]. by intros [= <-]. Qed.

Lemma basic_guard sent packet :
  negb (pk_Seq sent =? pk_Seq packet) || negb (pk_Sec sent =? pk_Sec packet) || negb (pk_Frac sent =? pk_Frac packet)
  = negb (same_probe sent packet).
Proof. unfold same_probe. by rewrite !negb_andb. Qed.

Lemma basic_loop_skip sent sendTime received r reads :
  valid_packet sent -> basic_skipped sent r -> sent ∉ received ->
  exists received', (sent ∉ received') /\
    basic_loop sent sendTime received (r :: reads) = basic_loop sent sendTime received' reads.
Proof.
  intros Hv (b & recv & p & -> & Hp & Hne) Hn. cbn [basic_loop]. rewrite Hp.
  destruct (bool_decide (p ∈ received)); [by exists received|]. exists ({[p]} ∪ received). split.
  - rewrite elem_of_union, elem_of_singleton. intros [?|?]; congruence.
  - rewrite basic_guard. destruct (same_probe sent p) eqn:Hs; [|done].
    apply same_probe_eq in Hs; [congruence|done|by eapply Unmarshal_pad].
Qed.

(** A probe of [BasicSender] over the reflector: whatever well-formed datagrams
    of other probes are in front, the answer gives the round-trip time. *)
Lemma basic_probe_answered sent sendTime recv received stale rest :
  valid_packet sent -> sent ∉ received -> Forall (basic_skipped sent) stale ->
  (basic_loop sent sendTime received (stale ++ BasicData (Packet_bytes sent) recv :: rest)).1
  = Some (Ok (Z.max (TimeSub recv sendTime) 0)).
Proof.
  intros Hv Hn Hs. revert received Hn. induction Hs as [|r stale Hr _ IH]; intros received Hn.
  - cbn [app basic_loop]. rewrite Packet_roundtrip by done. rewrite bool_decide_eq_false_2 by done.
    rewrite basic_guard. unfold same_probe. by rewrite !Z.eqb_refl.
  - cbn [app]. destruct (basic_loop_skip sent sendTime received r (stale ++ BasicData (Packet_bytes sent) recv :: rest))
      as (received' & Hn' & ->); [done..|]. by apply IH.
Qed.

(** A late answer fails the next probe: when the kernel-timestamped sender
    reads the answer to an earlier probe, it gives up with an error instead of
    waiting for its own answer, whatever follows on the socket. *)
Theorem stale_answer_fails_probe sent sendTime received p cmsgs fallback rest :
  valid_packet sent -> valid_packet p -> p <> sent -> p ∉ received ->
  (linux_loop sent sendTime received (EvPacket (Packet_bytes p) (Some cmsgs) fallback :: rest)).1
  = Some (Err ProbeNoTimestamp).
Proof.
  intros Hs Hp Hne Hn. cbn [linux_loop]. rewrite Packet_roundtrip by done. rewrite bool_decide_eq_false_2 by done.
  change ((pk_Seq sent =? pk_Seq p) && (pk_Sec sent =? pk_Sec p) && (pk_Frac sent =? pk_Frac p)) with (same_probe sent p).
  destruct (same_probe sent p) eqn:Hsame.
  { apply same_probe_eq in Hsame; [congruence|done|apply Hp]. }
  assert (Hom : omap (fun _ : option Time => (None : option Time)) cmsgs = []) by (induction cmsgs; done).
  by rewrite Hom.
Qed.

(** The packets remembered against duplicates are never forgotten: the
    clean-up reads the NTP timestamp as a Unix time, seventy years ahead, so
    until 2036 no packet of the last seventy years is old enough. *)
Theorem cleanup_keeps_all t seq now received :
  0 <= Unix t -> Unix t + ntpEpochOffset < 2 ^ 32 -> now - t <= ntpEpochOffset * Second ->
  NewPacket t seq ∈ received -> NewPacket t seq ∈ cleanUpReceived now received.
Proof.
  intros Ht Hlt Hnow Hin. apply elem_of_filter. split; [|done].
  unfold NewPacket, ntpTimestamp, time_Unix. cbn [pk_Sec pk_Frac].
  assert (Hsec : u32 (u32 (Unix t) + ntpEpochOffset) = Unix t + ntpEpochOffset).
  { unfold ntpEpochOffset in *. rewrite (wrap_id 32 (Unix t)) by (unfold is_u; lia). apply wrap_id. unfold is_u. lia. }
  rewrite Hsec. pose proof (wrap_range 32 ltac:(lia) (u64 (Nanosecond t * 2 ^ 32) / 1000000000)) as Hf. unfold is_u in Hf.
  unfold TimeSub, Unix, min_i64, max_i64, Minute in *.
  pose proof (Z.div_mod (t - unix_epoch) Second ltac:(done)). pose proof (Z.mod_pos_bound (t - unix_epoch) Second ltac:(done)).
  unfold Second in *. lia.
Qed.

(** ** Sample probes *)

(** Noon of the first of January 2025. *)
Definition probe_time : Time := time_Unix 1735732800 123456789.

Lemma stale_answer_fails_probe_witness :
  (linux_loop (NewPacket probe_time 8) probe_time ∅
    [EvPacket (Packet_bytes (NewPacket (probe_time - Second) 7)) (Some [Some (probe_time + Millisecond)]) (probe_time + Millisecond);
     EvPacket (Packet_bytes (NewPacket probe_time 8)) (Some [Some (probe_time + 2 * Millisecond)]) (probe_time + 2 * Millisecond)]).1
  = Some (Err ProbeNoTimestamp).
Proof.
  apply stale_answer_fails_probe; [apply NewPacket_valid; done..|discriminate|apply not_elem_of_empty].
Defined.

Lemma cleanup_keeps_all_witness :
  NewPacket probe_time 7 ∈ cleanUpReceived (probe_time + 365 * 24 * 60 * Minute) {[NewPacket probe_time 7]}.
Proof.
  apply cleanup_keeps_all; [vm_compute; congruence|vm_compute; congruence|vm_compute; congruence|by apply elem_of_singleton].
Defined.
