(* ===== verification/TwampSigned.v ===== *)
(** * Signed TWAMP

    Models [packet.go], [reflector_linux.go] and [sender_linux.go] of
    [tools/twamp/pkg/signed]: the signed probes and replies, the reflector
    with its pairs, challenge nonces and rate limit, and the sender's probes
    and pairs. Random nonces, clocks and sockets are arguments. *)

From stdpp Require Import base tactics numbers list gmap.
From Stdlib Require Import ZArith Lia ZifyBool ZifyNat.
From S2P Require Import TelemetryBuffer TelemetrySubmitter.
From S2P Require Import Prelude Bytes GoStrings GoCollections Twamp.

#[local] Open Scope Z_scope.

(** ** Signatures *)

(** Ed25519: what a key signs is verified by its public key. *)
Class Ed25519 (K : Type) := {
  ed_Public : K -> bytes;
  ed_Sign : K -> bytes -> bytes;
  ed_Verify : bytes -> bytes -> bytes -> bool;
  ed_Public_length k : length (ed_Public k) = 32%nat;
  ed_Sign_length k m : length (ed_Sign k m) = 64%nat;
  ed_Verify_Sign k m : ed_Verify (ed_Public k) m (ed_Sign k m) = true
}.

(** ** Packets *)

Definition ProbePacketSize : nat := 108.
Definition LocationOffsetSize : nat := 174.
Definition MaxOffsets : nat := 5.
Definition replyHeaderSize : nat := 213.
Definition signatureSize : nat := 64.
Definition MinReplyPacketSize : nat := replyHeaderSize + signatureSize.
Definition MaxReplyPacketSize : nat := replyHeaderSize + MaxOffsets * LocationOffsetSize + signatureSize.

Record ProbePacket := mkProbePacket {
  pr_Seq : Z;
  pr_Sec : Z;
  pr_Frac : Z;
  pr_SenderPubkey : bytes;
  pr_Signature : bytes
}.

Record ReplyPacket := mkReplyPacket {
  re_Probe : ProbePacket;
  re_AuthorityPubkey : bytes;
  re_GeoprobePubkey : bytes;
  re_MeasurementSlot : Z;
  re_Lat : Z;
  re_Lng : Z;
  re_SinceLastRxNs : Z;
  re_RttNs : Z;
  re_Offsets : list bytes;
  re_Challenged : bool;
  re_Signature : bytes
}.

(** The bytes a probe's signature covers. *)
Definition probe_payload (seq sec frac : Z) (pubkey : bytes) : bytes :=
  be_bytes 4 seq ++ be_bytes 4 sec ++ be_bytes 4 frac ++ pubkey.

Section Packets.
Context {K : Type} `{!Ed25519 K}.

Definition NewProbePacket (now : Time) (seq : Z) (signer : K) : ProbePacket :=
  let '(sec, frac) := ntpTimestamp now in
  let pub := copy_n 32 (ed_Public signer) in
  mkProbePacket seq sec frac pub (copy_n 64 (ed_Sign signer (probe_payload seq sec frac pub))).

Definition newChallengedProbePacket (seq : Z) (signer : K) (nonce : Z) : ProbePacket :=
  let sec := u32 (Z.shiftr nonce 32) in
  let frac := u32 (Z.land nonce 4294967295) in
  let pub := copy_n 32 (ed_Public signer) in
  mkProbePacket seq sec frac pub (copy_n 64 (ed_Sign signer (probe_payload seq sec frac pub))).

Definition Probe_bytes (p : ProbePacket) : bytes :=
  be_bytes 4 (pr_Seq p) ++ be_bytes 4 (pr_Sec p) ++ be_bytes 4 (pr_Frac p) ++ pr_SenderPubkey p ++ pr_Signature p.

(** The buffer after [Marshal]; [None] is an error. *)
Definition Probe_Marshal (p : ProbePacket) (buf : bytes) : option bytes :=
  if (length buf <? ProbePacketSize)%nat then None else Some (Probe_bytes p ++ drop ProbePacketSize buf).

Definition UnmarshalProbePacket (buf : bytes) : option ProbePacket :=
  if negb (length buf =? ProbePacketSize)%nat then None
  else Some (mkProbePacket (be_val (slice buf 0 4)) (be_val (slice buf 4 8)) (be_val (slice buf 8 12))
    (slice buf 12 44) (slice buf 44 108)).

Definition Probe_Verify (p : ProbePacket) : bool :=
  ed_Verify (pr_SenderPubkey p) (probe_payload (pr_Seq p) (pr_Sec p) (pr_Frac p) (pr_SenderPubkey p)) (pr_Signature p).

Definition Size (r : ReplyPacket) : nat := replyHeaderSize + length (re_Offsets r) * LocationOffsetSize + signatureSize.

(** The byte of the number of offsets and the challenged flag. *)
Definition num_offsets_byte (r : ReplyPacket) : Z :=
  let numOffsets := u8 (Z.of_nat (length (re_Offsets r))) in
  if re_Challenged r then Z.lor numOffsets 128 else numOffsets.

(** The signed part, written to a zeroed buffer of its size. *)
Definition marshalPayload (r : ReplyPacket) : bytes :=
  Probe_bytes (re_Probe r) ++ re_AuthorityPubkey r ++ re_GeoprobePubkey r ++ be_bytes 8 (re_MeasurementSlot r) ++
  be_bytes 8 (re_Lat r) ++ be_bytes 8 (re_Lng r) ++ be_bytes 8 (re_SinceLastRxNs r) ++ be_bytes 8 (re_RttNs r) ++
  [num_offsets_byte r] ++ (re_Offsets r ≫= copy_n LocationOffsetSize).

(** [Marshal] into a zeroed buffer of [len] bytes: the datagram. *)
Definition Reply_Marshal (r : ReplyPacket) (len : nat) : option bytes :=
  if (len <? Size r)%nat then None else Some (marshalPayload r ++ re_Signature r).

(** The offsets from position [off] on. *)
Fixpoint read_offsets (buf : bytes) (n : nat) (off : nat) : list bytes :=
  match n with
  | O => []
  | S n => slice buf off (off + LocationOffsetSize) :: read_offsets buf n (off + LocationOffsetSize)
  end.

Definition UnmarshalReplyPacket (buf : bytes) : option ReplyPacket :=
  if (length buf <? MinReplyPacketSize)%nat then None
  else
    let rawNumOffsets := byte_at buf 212 in
    let challenged := negb (Z.land rawNumOffsets 128 =? 0) in
    let numOffsets := Z.to_nat (Z.land rawNumOffsets 127) in
    if (MaxOffsets <? numOffsets)%nat then None
    else if negb (length buf =? replyHeaderSize + numOffsets * LocationOffsetSize + signatureSize)%nat then None
    else
      probe ← UnmarshalProbePacket (slice buf 0 108);
      Some (mkReplyPacket probe (slice buf 108 140) (slice buf 140 172) (be_val (slice buf 172 180))
        (be_val (slice buf 180 188)) (be_val (slice buf 188 196)) (be_val (slice buf 196 204))
        (be_val (slice buf 204 212)) (read_offsets buf numOffsets replyHeaderSize) challenged
        (slice buf (length buf - signatureSize) (length buf))).

Definition NewReplyPacket (probe : ProbePacket) (signer : K) (geoprobePubkey : bytes) (offsets : list bytes)
    (slot lat lng sinceLastRxNs rttNs : Z) (challenged : bool) : option ReplyPacket :=
  if (MaxOffsets <? length offsets)%nat then None
  else if negb (forallb (fun blob => (length blob =? LocationOffsetSize)%nat) offsets) then None
  else
    let r := mkReplyPacket probe (copy_n 32 (ed_Public signer)) geoprobePubkey slot lat lng sinceLastRxNs rttNs offsets
      challenged [] in
    Some (mkReplyPacket probe (copy_n 32 (ed_Public signer)) geoprobePubkey slot lat lng sinceLastRxNs rttNs offsets
      challenged (copy_n 64 (ed_Sign signer (marshalPayload r)))).

Definition Reply_Verify (r : ReplyPacket) : bool :=
  ed_Verify (re_AuthorityPubkey r) (marshalPayload r) (re_Signature r).
End Packets.

Record OffsetInfo := mkOffsetInfo {
  oi_MeasurementSlot : Z;
  oi_Lat : Z;
  oi_Lng : Z;
  oi_RttNs : Z;
  oi_TargetIP : bytes
}.

Definition ParseOffsetInfo (blob : bytes) : option OffsetInfo :=
  if (length blob <? LocationOffsetSize)%nat then None
  else Some (mkOffsetInfo (le_val (slice blob 129 137)) (le_val (slice blob 137 145)) (le_val (slice blob 145 153))
    (le_val (slice blob 161 169)) (slice blob 169 173)).

(** ** The reflector *)

Definition stalePairTimeout : Duration := 5 * Second.

Record senderState := mkSenderState {
  lastTxTime : Time;
  pairCount : Z;
  pairStart : Time;
  pairSourceIP : bytes;
  ss_nonce : Z
}.
#[global] Instance senderState_eta : RecordEta senderState := {
  eta_record := fun r => mkSenderState (lastTxTime r) (pairCount r) (pairStart r) (pairSourceIP r) (ss_nonce r);
  eta_record_id := fun r => match r with mkSenderState _ _ _ _ _ => eq_refl end
}.
Definition new_senderState : senderState := mkSenderState time_zero 0 time_zero [0; 0; 0; 0] 0.

Record SignedReflector := mkSignedReflector {
  verifyInterval : Duration;
  geoprobePubkey : bytes;
  authorizedKeys : gset bytes;
  senderStates : gmap bytes senderState;
  offsets : list bytes
}.
#[global] Instance SignedReflector_eta : RecordEta SignedReflector := {
  eta_record := fun r => mkSignedReflector (verifyInterval r) (geoprobePubkey r) (authorizedKeys r) (senderStates r) (offsets r);
  eta_record_id := fun r => match r with mkSignedReflector _ _ _ _ _ => eq_refl end
}.

Definition SetAuthorizedKeys (keys : list bytes) (r : SignedReflector) : SignedReflector :=
  let newKeys : gset bytes := list_to_set keys in
  let gone := authorizedKeys r ∖ newKeys in
  r <| senderStates := filter (fun p => p.1 ∉ gone) (senderStates r) |>
    <| authorizedKeys := (authorizedKeys r ∖ gone) ∪ newKeys |>.

Definition SetOffsets (l : list bytes) (r : SignedReflector) : SignedReflector := r <| offsets := l |>.

(** The rate limit; [None] drops the probe. *)
Definition rate_limit (interval : Duration) (now : Time) (state : senderState) : option senderState :=
  if (0 <? interval) && (2 <=? pairCount state) then
    if TimeSub now (pairStart state) <? interval then None
    else Some (state <| pairCount := 0 |> <| ss_nonce := 0 |>)
  else Some state.

Definition reset_stale (now : Time) (state : senderState) : senderState :=
  if (pairCount state =? 1) && negb (IsZero (lastTxTime state)) && (stalePairTimeout <? TimeSub now (lastTxTime state))
  then state <| pairCount := 0 |> <| ss_nonce := 0 |> else state.

(** The source of a pair; [None] drops the probe. *)
Definition bind_source (from : bytes) (state : senderState) : option senderState :=
  if pairCount state =? 0 then Some (state <| pairSourceIP := from |>)
  else if bool_decide (from = pairSourceIP state) then Some state else None.

(** The pair's state after a probe, the time or nonce to report, and whether
    the probe answers the challenge. *)
Definition pair_step (now : Time) (random : Z) (probe : ProbePacket) (state : senderState) : senderState * Z * bool :=
  if pairCount state =? 0 then
    (state <| pairStart := now |> <| ss_nonce := random |> <| pairCount := pairCount state + 1 |>, random, false)
  else
    let presentedNonce := Z.lor (Z.shiftl (pr_Sec probe) 32) (pr_Frac probe) in
    let challenged := negb (ss_nonce state =? 0) && (presentedNonce =? ss_nonce state) in
    let since := if IsZero (lastTxTime state) then 0 else u64 (TimeSub now (lastTxTime state)) in
    (state <| ss_nonce := 0 |> <| pairCount := pairCount state + 1 |>, since, challenged).

Section Reflector.
Context {K : Type} `{!Ed25519 K}.
Context (signer : K).

Definition store (key : bytes) (state : senderState) (r : SignedReflector) : SignedReflector :=
  r <| senderStates := <[key := state]> (senderStates r) |>.

(** One datagram: [now] is its kernel timestamp, [from] its IPv4 source if it
    has one, [random] a fresh nonce and [tx] the time before the reply is
    sent. *)
Definition reflect_packet (now : Time) (from : option bytes) (random : Z) (tx : Time) (buf : bytes) (r : SignedReflector) :
    SignedReflector * option ReplyPacket :=
  match UnmarshalProbePacket buf with
  | None => (r, None)
  | Some probe =>
      let key := pr_SenderPubkey probe in
      if bool_decide (key ∉ authorizedKeys r) then (r, None)
      else
        let state := default new_senderState (senderStates r !! key) in
        let r := store key state r in
        match rate_limit (verifyInterval r) now state with
        | None => (r, None)
        | Some state =>
            let state := reset_stale now state in
            let r := store key state r in
            match from with
            | None => (r, None)
            | Some from =>
                match bind_source from state with
                | None => (r, None)
                | Some state =>
                    let isProbe0 := pairCount state =? 0 in
                    let '(state, since, challenged) := pair_step now random probe state in
                    let r := store key state r in
                    let info := match offsets r with blob :: _ => ParseOffsetInfo blob | [] => None end in
                    let info := default (mkOffsetInfo 0 0 0 0 []) info in
                    let rtt := if isProbe0 then oi_RttNs info else u64 (oi_RttNs info + since) in
                    match NewReplyPacket probe signer (geoprobePubkey r) (offsets r) (oi_MeasurementSlot info)
                            (oi_Lat info) (oi_Lng info) since rtt challenged with
                    | None => (r, None)
                    | Some reply =>
                        (store key (state <| lastTxTime := tx |>) r, Some reply)
                    end
                end
            end
        end
  end.

(** The reply as the datagram that is sent. *)
Definition reflect (now : Time) (from : option bytes) (random : Z) (tx : Time) (buf : bytes) (r : SignedReflector) :
    SignedReflector * option bytes :=
  let '(r, reply) := reflect_packet now from random tx buf r in
  (r, reply ← reply; Reply_Marshal reply MaxReplyPacketSize).
End Reflector.

(** ** The sender *)

Section Sender.
Context {K : Type} `{!Ed25519 K}.
Context (signer : K) (remotePubkey : bytes).

(** The first kernel timestamp of the control messages. *)
Definition kernel_time (cmsgs : list (option Time)) : option Time := head (omap id cmsgs).

(** [None] is to keep polling. *)
Definition tryRecv (sendTime : Time) (probe : ProbePacket) (verify : bool) (ev : recv_event) :
    option (res probe_error (Duration * ReplyPacket)) :=
  match ev with
  | EvCancelled => Some (Err ProbeCancelledErr)
  | EvDeadline => Some (Err ProbeTimeoutErr)
  | EvError => Some (Err ProbeReadErr)
  | EvNothing => None
  | EvPacket data cmsgs fallback =>
      if (length data <? MinReplyPacketSize)%nat || (MaxReplyPacketSize <? length data)%nat then None
      else
        match UnmarshalReplyPacket data with
        | None => None
        | Some reply =>
            if negb (pr_Seq (re_Probe reply) =? pr_Seq probe) || negb (pr_Sec (re_Probe reply) =? pr_Sec probe)
               || negb (pr_Frac (re_Probe reply) =? pr_Frac probe) then None
            else if verify && negb (Probe_Verify (re_Probe reply)) then None
            else if verify && negb (bool_decide (re_AuthorityPubkey reply = remotePubkey)) then None
            else if verify && negb (Reply_Verify reply) then None
            else
              match cmsgs with
              | None => Some (Err ProbeReadErr)
              | Some cmsgs =>
                  match kernel_time cmsgs with
                  | Some kernel => Some (Ok (decideRTT sendTime kernel fallback, reply))
                  | None => Some (Err ProbeNoTimestamp)
                  end
              end
        end
  end.

(** The polls of [sendAndRecv]; [None] when the events run out. *)
Fixpoint recv_loop (sendTime : Time) (probe : ProbePacket) (verify : bool) (events : list recv_event) :
    option (res probe_error (Duration * ReplyPacket)) :=
  match events with
  | [] => None
  | ev :: events =>
      match tryRecv sendTime probe verify ev with
      | Some r => Some r
      | None => recv_loop sendTime probe verify events
      end
  end.

(** The network: what the socket yields after a datagram is sent; [None] is an
    error of the call. *)
Definition Network := bytes -> option (list recv_event).

Definition sendAndRecv (net : Network) (sendTime : Time) (probe : ProbePacket) (verify : bool) :
    option (res probe_error (Duration * ReplyPacket)) :=
  match net (Probe_bytes probe) with
  | None => Some (Err ProbeReadErr)
  | Some events => recv_loop sendTime probe verify events
  end.

(** The sequence number after a probe, and its result. *)
Definition Probe (net : Network) (now sendTime : Time) (seq : Z) : Z * option (res probe_error (Duration * ReplyPacket)) :=
  let seq := u32 (seq + 1) in
  (seq, sendAndRecv net sendTime (NewProbePacket now seq signer) true).

Record ProbePairResult := mkProbePairResult {
  RTT0 : Duration;
  RTT1 : Duration;
  Reply0 : ReplyPacket;
  Reply1 : ReplyPacket
}.

Definition probePairChallenged (net0 net1 : Network) (now sendTime0 sendTime1 : Time) (seq : Z) :
    Z * option (res probe_error ProbePairResult) :=
  let seq := u32 (seq + 1) in
  match sendAndRecv net0 sendTime0 (NewProbePacket now seq signer) false with
  | None => (seq, None)
  | Some (Ok (rtt0, reply0)) =>
      let seq := u32 (seq + 1) in
      let probe1 := newChallengedProbePacket seq signer (re_SinceLastRxNs reply0) in
      (seq, match sendAndRecv net1 sendTime1 probe1 true with
            | None => None
            | Some (Ok (rtt1, reply1)) => Some (Ok (mkProbePairResult rtt0 rtt1 reply0 reply1))
            | Some (Err e) => Some (Err e)
            | Some Panic => Some Panic
            end)
  | Some (Err e) => (seq, Some (Err e))
  | Some Panic => (seq, Some Panic)
  end.

(** [recvAndFireProbe1] on the events until one looks like reply 0. *)
Fixpoint fire_loop (seq0 : Z) (events : list recv_event) :
    option (res probe_error (bytes * option (list (option Time)))) :=
  match events with
  | [] => None
  | EvCancelled :: _ => Some (Err ProbeCancelledErr)
  | EvDeadline :: _ => Some (Err ProbeTimeoutErr)
  | EvError :: _ => Some (Err ProbeReadErr)
  | EvNothing :: events => fire_loop seq0 events
  | EvPacket data cmsgs _ :: events =>
      if (length data <? MinReplyPacketSize)%nat || (MaxReplyPacketSize <? length data)%nat then fire_loop seq0 events
      else if negb (be_val (slice data 0 4) =? seq0) then fire_loop seq0 events
      else Some (Ok (data, cmsgs))
  end.

(** The pair whose probes are both signed before the first is sent; [fallback]
    is the time after probe 1 was sent. *)
Definition probePairUnchallenged (net0 net1 : Network) (now0 now1 sendTime0 sendTime1 fallback : Time) (seq : Z) :
    Z * option (res probe_error ProbePairResult) :=
  let seq0 := u32 (seq + 1) in
  let seq1 := u32 (seq0 + 1) in
  let probe0 := NewProbePacket now0 seq0 signer in
  let probe1 := NewProbePacket now1 seq1 signer in
  (seq1,
   match net0 (Probe_bytes probe0) with
   | None => Some (Err ProbeReadErr)
   | Some events =>
       match fire_loop seq0 events with
       | None => None
       | Some (Ok (data, cmsgs)) =>
           match net1 (Probe_bytes probe1) with
           | None => Some (Err ProbeReadErr)
           | Some events1 =>
               match UnmarshalReplyPacket data with
               | None => Some (Err ProbeInvalid)
               | Some reply0 =>
                   if negb (pr_Sec (re_Probe reply0) =? pr_Sec probe0) || negb (pr_Frac (re_Probe reply0) =? pr_Frac probe0)
                   then Some (Err ProbeMismatch)
                   else
                     match cmsgs with
                     | None => Some (Err ProbeReadErr)
                     | Some cmsgs =>
                         let rtt0 := match kernel_time cmsgs with Some k => decideRTT sendTime0 k fallback | None => 0 end in
                         match recv_loop sendTime1 probe1 true events1 with
                         | None => None
                         | Some (Ok (rtt1, reply1)) => Some (Ok (mkProbePairResult rtt0 rtt1 reply0 reply1))
                         | Some (Err e) => Some (Err e)
                         | Some Panic => Some Panic
                         end
                     end
               end
           end
       | Some (Err e) => Some (Err e)
       | Some Panic => Some Panic
       end
   end).
End Sender.

(** ** Round trips *)

Definition valid_probe (p : ProbePacket) : Prop :=
  is_u32 (pr_Seq p) /\ is_u32 (pr_Sec p) /\ is_u32 (pr_Frac p) /\
  length (pr_SenderPubkey p) = 32%nat /\ length (pr_Signature p) = 64%nat.

Lemma copy_n_full n b : length b = n -> copy_n n b = b.
Proof. intros H. unfold copy_n. by apply take_app_exact. Qed.

Lemma length_copy_n n b : length (copy_n n b) = n.
Proof. unfold copy_n. rewrite length_take, length_app, length_replicate. lia. Qed.

Lemma length_Probe_bytes p : valid_probe p -> length (Probe_bytes p) = ProbePacketSize.
Proof. intros (_ & _ & _ & Hk & Hs). unfold Probe_bytes. autorewrite with bytes. rewrite Hk, Hs. done. Qed.

Lemma Probe_roundtrip p : valid_probe p -> UnmarshalProbePacket (Probe_bytes p) = Some p.
Proof.
  intros Hv. unfold UnmarshalProbePacket. rewrite length_Probe_bytes by done. cbn [negb Nat.eqb ProbePacketSize].
  destruct p as [seq sec frac k sg]. destruct Hv as (Hs & Hc & Hf & Hk & Hg).
  unfold Probe_bytes. cbn [pr_Seq pr_Sec pr_Frac pr_SenderPubkey pr_Signature] in *.
  do 2 f_equal; [field_tac; by apply (be_round 4)..|field_tac; done|field_tac; done].
Qed.

Definition valid_reply (r : ReplyPacket) : Prop :=
  valid_probe (re_Probe r) /\ length (re_AuthorityPubkey r) = 32%nat /\ length (re_GeoprobePubkey r) = 32%nat /\
  is_u64 (re_MeasurementSlot r) /\ is_u64 (re_Lat r) /\ is_u64 (re_Lng r) /\ is_u64 (re_SinceLastRxNs r) /\
  is_u64 (re_RttNs r) /\ (length (re_Offsets r) <= MaxOffsets)%nat /\
  Forall (fun b => length b = LocationOffsetSize) (re_Offsets r) /\ length (re_Signature r) = 64%nat.

Lemma offsets_bytes (l : list bytes) : Forall (fun b => length b = LocationOffsetSize) l -> l ≫= copy_n LocationOffsetSize = concat l.
Proof.
  intros H. induction H as [|b l Hb _ IH]; [done|].
  change (copy_n LocationOffsetSize b ++ (l ≫= copy_n LocationOffsetSize) = b ++ concat l). by rewrite copy_n_full, IH.
Qed.

Lemma length_offsets (l : list bytes) : Forall (fun b => length b = LocationOffsetSize) l ->
  length (concat l) = (length l * LocationOffsetSize)%nat.
Proof. intros H. induction H as [|b l Hb _ IH]; [done|]. cbn [concat length]. rewrite length_app, IH, Hb. lia. Qed.

Lemma read_offsets_concat (l : list bytes) : forall a c, Forall (fun b => length b = LocationOffsetSize) l ->
  read_offsets (a ++ concat l ++ c) (length l) (length a) = l.
Proof.
  induction l as [|b l IH]; intros a c Hl; [done|]. apply Forall_cons in Hl as [Hb Hl].
  cbn [length read_offsets concat]. f_equal.
  - rewrite <- app_assoc, slice_skip by lia. apply slice_here; lia.
  - specialize (IH (a ++ b) c Hl). rewrite length_app, Hb in IH.
    by rewrite <- !app_assoc in *.
Qed.

(** The number of offsets and the flag are read back from their byte. *)
Lemma num_offsets_read r : (length (re_Offsets r) <= MaxOffsets)%nat ->
  Z.to_nat (Z.land (num_offsets_byte r) 127) = length (re_Offsets r) /\
  negb (Z.land (num_offsets_byte r) 128 =? 0) = re_Challenged r.
Proof.
  intros Hn. unfold num_offsets_byte, MaxOffsets in *. generalize dependent (length (re_Offsets r)). intros n Hn.
  do 6 (destruct n as [|n]; [by destruct (re_Challenged r)|]). lia.
Qed.

(** The fields of a reply in front of the number of offsets. *)
Definition reply_fields (r : ReplyPacket) : bytes :=
  Probe_bytes (re_Probe r) ++ re_AuthorityPubkey r ++ re_GeoprobePubkey r ++ be_bytes 8 (re_MeasurementSlot r) ++
  be_bytes 8 (re_Lat r) ++ be_bytes 8 (re_Lng r) ++ be_bytes 8 (re_SinceLastRxNs r) ++ be_bytes 8 (re_RttNs r).

Lemma reply_bytes r : valid_reply r ->
  marshalPayload r ++ re_Signature r = reply_fields r ++ [num_offsets_byte r] ++ concat (re_Offsets r) ++ re_Signature r.
Proof.
  intros (_ & _ & _ & _ & _ & _ & _ & _ & _ & Ho & _). unfold marshalPayload, reply_fields.
  rewrite offsets_bytes by done. by rewrite <- !app_assoc.
Qed.

Lemma length_reply_fields r : valid_reply r -> length (reply_fields r) = 212%nat.
Proof.
  intros (Hp & Ha & Hg & _). unfold reply_fields. autorewrite with bytes.
  rewrite length_Probe_bytes, Ha, Hg by done. done.
Qed.

Lemma reply_slices r tail : valid_reply r ->
  let b := reply_fields r ++ tail in
  slice b 0 108 = Probe_bytes (re_Probe r) /\ slice b 108 140 = re_AuthorityPubkey r /\
  slice b 140 172 = re_GeoprobePubkey r /\ be_val (slice b 172 180) = re_MeasurementSlot r /\
  be_val (slice b 180 188) = re_Lat r /\ be_val (slice b 188 196) = re_Lng r /\
  be_val (slice b 196 204) = re_SinceLastRxNs r /\ be_val (slice b 204 212) = re_RttNs r.
Proof.
  intros (Hp & Ha & Hg & Hs & Hla & Hln & Hsi & Hr & _) b.
  assert (Hpl := length_Probe_bytes _ Hp). unfold ProbePacketSize in Hpl.
  unfold b, reply_fields. rewrite <- !app_assoc.
  split_and!; [field_tac; done..|field_tac; by apply (be_round 8)|field_tac; by apply (be_round 8)
    |field_tac; by apply (be_round 8)|field_tac; by apply (be_round 8)|field_tac; by apply (be_round 8)].
Qed.

Lemma Reply_roundtrip r : valid_reply r ->
  exists b, Reply_Marshal r MaxReplyPacketSize = Some b /\ length b = Size r /\ UnmarshalReplyPacket b = Some r.
Proof.
  intros Hv. assert (Hf := length_reply_fields r Hv). assert (Hb := reply_bytes r Hv).
  pose proof Hv as (Hp & Ha & Hg & Hs & Hla & Hln & Hsi & Hr & Hn & Ho & Hsig).
  assert (Hlo := length_offsets _ Ho). destruct (num_offsets_read r Hn) as [Hnum Hch].
  exists (marshalPayload r ++ re_Signature r). unfold Reply_Marshal.
  assert (Hlen : length (marshalPayload r ++ re_Signature r) = Size r).
  { rewrite Hb. rewrite !length_app, Hf, Hlo, Hsig. unfold Size, replyHeaderSize, signatureSize. cbn [length]. lia. }
  split; [|split; [done|]].
  { destruct (_ <? _)%nat eqn:Hlt; [|done]. unfold MaxReplyPacketSize, Size, MaxOffsets, LocationOffsetSize in *. lia. }
  unfold UnmarshalReplyPacket. rewrite Hlen.
  replace (byte_at (marshalPayload r ++ re_Signature r) 212) with (num_offsets_byte r).
  2: { rewrite Hb. unfold byte_at. rewrite app_nth2 by lia. by rewrite Hf. }
  rewrite Hnum, Hch. unfold Size in *.
  destruct (_ <? MinReplyPacketSize)%nat eqn:Hmin; [unfold MinReplyPacketSize in Hmin; lia|].
  destruct (MaxOffsets <? _)%nat eqn:Hmax; [lia|]. rewrite Nat.eqb_refl. cbn [negb].
  destruct (reply_slices r ([num_offsets_byte r] ++ concat (re_Offsets r) ++ re_Signature r) Hv)
    as (Hb1 & Hb2 & Hb3 & Hb4 & Hb5 & Hb6 & Hb7 & Hb8).
  assert (Hread : read_offsets (reply_fields r ++ [num_offsets_byte r] ++ concat (re_Offsets r) ++ re_Signature r)
    (length (re_Offsets r)) replyHeaderSize = re_Offsets r).
  { rewrite app_assoc. replace replyHeaderSize with (length (reply_fields r ++ [num_offsets_byte r])).
    - by apply read_offsets_concat.
    - rewrite length_app, Hf. done. }
  assert (Hsg : slice (reply_fields r ++ [num_offsets_byte r] ++ concat (re_Offsets r) ++ re_Signature r)
    (replyHeaderSize + length (re_Offsets r) * LocationOffsetSize + signatureSize - signatureSize)
    (replyHeaderSize + length (re_Offsets r) * LocationOffsetSize + signatureSize) = re_Signature r).
  { unfold replyHeaderSize, signatureSize. field_tac. done. }
  rewrite Hb, Hread, Hb1, Hb2, Hb3, Hb4, Hb5, Hb6, Hb7, Hb8, Hsg, Probe_roundtrip by done. by destruct r.
Qed.

(** ** Challenges

    What the reflector promises about its nonces: at most one is open for a
    key, it is bound to the address it was issued to, and accepting it closes
    it. *)

Abbreviation Challenges := (gmap bytes (bytes * Z)).

Inductive challenge_label :=
| LIssue (key from : bytes) (nonce : Z)
| LAccept (key from : bytes) (nonce : Z)
| LNone.

Inductive challenge_step : Challenges -> challenge_label -> Challenges -> Prop :=
| challenge_issue m k f v : v <> 0 -> challenge_step m (LIssue k f v) (<[k := (f, v)]> m)
| challenge_accept m k f v : m !! k = Some (f, v) -> v <> 0 -> challenge_step m (LAccept k f v) (delete k m)
| challenge_lapse m m' : m' ⊆ m -> challenge_step m LNone m'.

(** The open challenge of a sender. *)
Definition open_challenge (st : senderState) : option (bytes * Z) :=
  if ss_nonce st =? 0 then None else Some (pairSourceIP st, ss_nonce st).

Definition challenges (r : SignedReflector) : Challenges := omap open_challenge (senderStates r).

Lemma challenges_store k st r : challenges (store k st r) =
  match open_challenge st with Some c => <[k := c]> (challenges r) | None => delete k (challenges r) end.
Proof.
  unfold challenges, store. cbn. destruct (open_challenge st) as [c|] eqn:Hc.
  - by apply omap_insert_Some.
  - by apply omap_insert_None.
Qed.

(** Storing a sender whose challenge is closed or unchanged is a lapse. *)
Lemma store_lapse k st st' r :
  (forall c, open_challenge st' = Some c -> open_challenge st = Some c) ->
  challenges (store k st' r) ⊆ challenges (store k st r).
Proof.
  intros H. rewrite !challenges_store. destruct (open_challenge st') as [c|] eqn:Hc.
  - by rewrite (H c).
  - destruct (open_challenge st) as [c'|]; [|done]. rewrite <- (delete_insert_eq (challenges r) k c').
    apply delete_subseteq.
Qed.

Lemma store_default k r : challenges (store k (default new_senderState (senderStates r !! k)) r) ⊆ challenges r.
Proof.
  rewrite challenges_store. destruct (senderStates r !! k) as [st|] eqn:Hk; cbn [default].
  - assert (Hm : challenges r !! k = open_challenge st) by (unfold challenges; by rewrite lookup_omap, Hk).
    cbn. destruct (open_challenge st) as [c|]; [by rewrite insert_id|apply delete_subseteq].
  - cbn. apply delete_subseteq.
Qed.

Lemma store_store k st st' r : store k st' (store k st r) = store k st' r.
Proof. unfold store. destruct r. cbn. by rewrite insert_insert_eq. Qed.

Lemma rate_limit_open interval now st st' : rate_limit interval now st = Some st' ->
  forall c, open_challenge st' = Some c -> open_challenge st = Some c.
Proof.
  unfold rate_limit. repeat case_goal; intros; simplify_eq; try done.
Qed.

Lemma reset_stale_open now st c : open_challenge (reset_stale now st) = Some c -> open_challenge st = Some c.
Proof. unfold reset_stale. case_goal; done. Qed.

(** The nonce a probe presents. *)
Definition presented (p : ProbePacket) : Z := Z.lor (Z.shiftl (pr_Sec p) 32) (pr_Frac p).

(** What a label says of the datagram that caused it and of the reply. *)
Definition label_ok (from : option bytes) (random : Z) (buf : bytes) (reply : option ReplyPacket) (l : challenge_label) : Prop :=
  match l with
  | LIssue k f v => from = Some f /\ random = v /\ (pr_SenderPubkey <$> UnmarshalProbePacket buf) = Some k
  | _ => True
  end /\
  forall x, reply = Some x -> re_Challenged x = true ->
    exists f, from = Some f /\ l = LAccept (pr_SenderPubkey (re_Probe x)) f (presented (re_Probe x)).

(** The reply that a reflector signs. *)
Definition signed_reply {K} `{!Ed25519 K} (signer : K) (probe : ProbePacket) (g : bytes) (o : list bytes)
    (slot lat lng since rtt : Z) (ch : bool) : ReplyPacket :=
  let pub := copy_n 32 (ed_Public signer) in
  mkReplyPacket probe pub g slot lat lng since rtt o ch
    (copy_n 64 (ed_Sign signer (marshalPayload (mkReplyPacket probe pub g slot lat lng since rtt o ch [])))).

Lemma NewReplyPacket_Some {K} `{!Ed25519 K} probe (signer : K) g o slot lat lng since rtt ch x :
  NewReplyPacket probe signer g o slot lat lng since rtt ch = Some x -> x = signed_reply signer probe g o slot lat lng since rtt ch.
Proof.
  unfold NewReplyPacket. destruct (MaxOffsets <? length o)%nat; [done|]. destruct (negb _); [done|]. by intros [= <-].
Qed.

(** The pair's step as a step of the challenges. *)
Lemma pair_step_refines now random f probe (st0 st2 st3 st4 : senderState) since ch r :
  let k := pr_SenderPubkey probe in
  (forall c, open_challenge st2 = Some c -> challenges r !! k = Some c) ->
  bind_source f st2 = Some st3 -> pair_step now random probe st3 = (st4, since, ch) ->
  exists l, challenge_step (challenges r) l (challenges (store k st4 r)) /\
    (match l with LIssue k' f' v => k' = k /\ f' = f /\ v = random | _ => True end) /\
    (ch = true -> l = LAccept k f (presented probe)).
Proof.
  intros k Hopen Hb Hs. unfold pair_step in Hs. rewrite challenges_store. unfold bind_source in Hb.
  destruct (pairCount st2 =? 0) eqn:H0.
  - injection Hb as <-. cbn in Hs. rewrite H0 in Hs. injection Hs as <- _ <-. unfold open_challenge. cbn.
    destruct (random =? 0) eqn:Hr.
    + exists LNone. split_and!; [|done..]. apply challenge_lapse, delete_subseteq.
    + exists (LIssue k f random). split_and!; [|done..]. apply challenge_issue. lia.
  - case_bool_decide as Hf; [|done]. injection Hb as <-. rewrite H0 in Hs. injection Hs as <- _ <-.
    unfold open_challenge at 1. cbn.
    destruct (negb (ss_nonce st2 =? 0) && (Z.lor (Z.shiftl (pr_Sec probe) 32) (pr_Frac probe) =? ss_nonce st2)) eqn:Hch.
    + exists (LAccept k f (presented probe)). split_and!; [|done..]. unfold presented.
      assert (Hn : ss_nonce st2 <> 0) by lia. assert (Hp : presented probe = ss_nonce st2) by (unfold presented; lia).
      unfold presented in Hp. rewrite Hp. apply challenge_accept; [|done]. apply Hopen. unfold open_challenge.
      rewrite (proj2 (Z.eqb_neq _ _) Hn). by rewrite Hf.
    + exists LNone. split_and!; [|done..]. apply challenge_lapse, delete_subseteq.
Qed.

Lemma challenges_offsets_irrel k st st' r : open_challenge st' = open_challenge st ->
  challenges (store k st' r) = challenges (store k st r).
Proof. intros H. by rewrite !challenges_store, H. Qed.

Section Refines.
Context {K : Type} `{!Ed25519 K}.
Context (signer : K).

Lemma reflect_refines now from random tx buf r :
  exists l, challenge_step (challenges r) l (challenges (reflect_packet signer now from random tx buf r).1) /\
    label_ok from random buf (reflect_packet signer now from random tx buf r).2 l.
Proof.
  assert (Hnone : forall r', challenges r' ⊆ challenges r ->
    exists l, challenge_step (challenges r) l (challenges r') /\ label_ok from random buf None l).
  { intros r' Hr'. exists LNone. split; [by apply challenge_lapse|done]. }
  unfold reflect_packet. destruct (UnmarshalProbePacket buf) as [probe|] eqn:Hun; [|by apply Hnone].
  set (k := pr_SenderPubkey probe). destruct (bool_decide _); [by apply Hnone|].
  set (st0 := default new_senderState (senderStates r !! k)).
  assert (H0 : challenges (store k st0 r) ⊆ challenges r) by apply store_default.
  change (verifyInterval (store k st0 r)) with (verifyInterval r).
  destruct (rate_limit (verifyInterval r) now st0) as [st1|] eqn:Hrl; [|by apply Hnone].
  set (st2 := reset_stale now st1).
  assert (Hst2 : forall c, open_challenge st2 = Some c -> open_challenge st0 = Some c).
  { intros c Hc. eapply rate_limit_open; [done|]. by eapply reset_stale_open. }
  assert (H2 : challenges (store k st2 r) ⊆ challenges r) by (etransitivity; [by apply store_lapse|done]).
  rewrite store_store. destruct from as [f|]; [|by apply Hnone].
  destruct (bind_source f st2) as [st3|] eqn:Hbs; [|by apply Hnone].
  destruct (pair_step now random probe st3) as [[st4 since] ch] eqn:Hps. rewrite store_store.
  destruct (pair_step_refines now random f probe st0 st2 st3 st4 since ch r) as (l & Hl & Hiss & Hacc); [|done..|].
  { intros c Hc. apply Hst2 in Hc. unfold challenges. rewrite lookup_omap. unfold st0 in Hc.
    destruct (senderStates r !! k) as [st|] eqn:Hk; unfold k in Hk; rewrite Hk; [exact Hc|]. cbn in Hc. done. }
  assert (Hlab : forall reply, (forall x, reply = Some x -> re_Probe x = probe /\ re_Challenged x = ch) ->
    label_ok (Some f) random buf reply l).
  { intros reply Hreply. split.
    - destruct l as [k' f' v| |]; [|done..]. destruct Hiss as (-> & -> & ->). rewrite Hun. done.
    - intros x Hx Hcx. destruct (Hreply x Hx) as [-> Hch]. exists f. split; [done|]. apply Hacc. congruence. }
  exists l. destruct (NewReplyPacket _ _ _ _ _ _ _ _ _ _) as [x|] eqn:Hnew; cbn [fst snd].
  - rewrite store_store. rewrite (challenges_offsets_irrel k st4) by done. split; [done|].
    apply Hlab. intros y [= <-]. apply NewReplyPacket_Some in Hnew. by subst x.
  - split; [done|]. by apply Hlab.
Qed.
End Refines.

(** ** Runs of the reflector *)

Inductive reflector_input :=
| IProbe (now : Time) (from : option bytes) (random : Z) (tx : Time) (buf : bytes)
| ISetKeys (keys : list bytes)
| ISetOffsets (l : list bytes).

Section Runs.
Context {K : Type} `{!Ed25519 K}.
Context (signer : K).

Definition reflector_step (r : SignedReflector) (i : reflector_input) : SignedReflector * option ReplyPacket :=
  match i with
  | IProbe now from random tx buf => reflect_packet signer now from random tx buf r
  | ISetKeys keys => (SetAuthorizedKeys keys r, None)
  | ISetOffsets l => (SetOffsets l r, None)
  end.

(** The state after the inputs, and the reply to each of them. *)
Definition reflector_run (r : SignedReflector) (inputs : list reflector_input) :
    SignedReflector * list (reflector_input * option ReplyPacket) :=
  foldl (fun '(r, out) i => let '(r', reply) := reflector_step r i in (r', out ++ [(i, reply)])) (r, []) inputs.

(** The inputs for which the nonce [v] was drawn for key [k] at address [f]. *)
Definition draws (k f : bytes) (v : Z) (i : reflector_input) : bool :=
  match i with
  | IProbe _ from random _ buf =>
      bool_decide (from = Some f /\ random = v /\ (pr_SenderPubkey <$> UnmarshalProbePacket buf) = Some k)
  | _ => false
  end.

(** The challenged replies to [k] at [f] for the nonce [v]. *)
Definition answers (k f : bytes) (v : Z) (o : reflector_input * option ReplyPacket) : bool :=
  match o with
  | (IProbe _ from _ _ _, Some x) =>
      re_Challenged x && bool_decide (from = Some f /\ pr_SenderPubkey (re_Probe x) = k /\ presented (re_Probe x) = v)
  | _ => false
  end.

Definition count {A} (p : A -> bool) (l : list A) : nat := length (filter (fun x => p x = true) l).

Lemma count_snoc {A} (p : A -> bool) l x : count p (l ++ [x]) = (count p l + if p x then 1 else 0)%nat.
Proof. unfold count. rewrite filter_app, length_app. destruct (p x) eqn:Hp; [by rewrite filter_cons_True|by rewrite filter_cons_False by congruence]. Qed.

Definition open_count (k f : bytes) (v : Z) (m : Challenges) : nat := if bool_decide (m !! k = Some (f, v)) then 1 else 0.

Lemma open_count_sub k f v m m' : m' ⊆ m -> (open_count k f v m' <= open_count k f v m)%nat.
Proof.
  intros Hs. unfold open_count. case_bool_decide as H1; [|lia]. rewrite bool_decide_eq_true_2; [lia|]. by eapply lookup_weaken.
Qed.

Lemma step_lapse_keys keys r : challenges (SetAuthorizedKeys keys r) ⊆ challenges r.
Proof.
  unfold challenges, SetAuthorizedKeys. cbn. apply map_subseteq_spec. intros k c. rewrite !lookup_omap.
  destruct (filter _ _ !! k) as [st|] eqn:Hf; [|done]. apply map_lookup_filter_Some in Hf as [-> _]. by intros ?.
Qed.

(** One input: an answer uses up the open challenge, a new one was drawn. *)
Lemma step_count k f v r i : v <> 0 ->
  ((if answers k f v (i, (reflector_step r i).2) then 1 else 0) + open_count k f v (challenges (reflector_step r i).1)
   <= (if draws k f v i then 1 else 0) + open_count k f v (challenges r))%nat.
Proof.
  intros Hv. destruct i as [now from random tx buf|keys|l]; cbn [reflector_step].
  - destruct (reflect_refines signer now from random tx buf r) as (lab & Hstep & Hiss & Hacc).
    destruct (reflect_packet signer now from random tx buf r) as [r' reply]. cbn [fst snd] in *.
    assert (Hans : answers k f v (IProbe now from random tx buf, reply) = true -> lab = LAccept k f v).
    { cbn. destruct reply as [x|]; [|done]. intros [Hch Hx]%andb_true_iff. apply bool_decide_eq_true in Hx as (Hf & Hk & Hp).
      destruct (Hacc x eq_refl Hch) as (f' & Hf' & ->). congruence. }
    destruct (answers k f v _) eqn:Ha.
    + specialize (Hans eq_refl). subst lab. inversion Hstep; subst. unfold open_count.
      rewrite (bool_decide_eq_true_2 (challenges r !! k = Some (f, v))) by done.
      rewrite bool_decide_eq_false_2 by (by rewrite lookup_delete_eq). lia.
    + inversion Hstep as [m k' f' v' Hv'|m k' f' v' Hm Hv'|m m' Hs]; subst.
      * destruct Hiss as (-> & -> & Hkey). unfold open_count, draws. destruct (decide (k' = k)) as [->|Hne].
        -- rewrite lookup_insert_eq. case_bool_decide as Hins; [|lia]. injection Hins as -> ->.
           rewrite bool_decide_eq_true_2 by done. lia.
        -- rewrite lookup_insert_ne by done. lia.
      * assert (Hle := open_count_sub k f v (challenges r) (delete k' (challenges r)) (delete_subseteq _ _)). lia.
      * assert (Hle := open_count_sub k f v _ _ Hs). lia.
  - cbn [answers draws fst snd]. assert (Hle := open_count_sub k f v _ _ (step_lapse_keys keys r)). lia.
  - done.
Qed.

Lemma run_snoc r inputs i :
  reflector_run r (inputs ++ [i]) =
  let '(r1, out) := reflector_run r inputs in
  let '(r2, reply) := reflector_step r1 i in (r2, out ++ [(i, reply)]).
Proof. unfold reflector_run. rewrite foldl_app. cbn. by destruct (foldl _ _ _). Qed.

Lemma run_counts k f v r inputs : v <> 0 -> challenges r = ∅ ->
  (count (answers k f v) (reflector_run r inputs).2 + open_count k f v (challenges (reflector_run r inputs).1)
   <= count (draws k f v) inputs)%nat.
Proof.
  intros Hv Hr. induction inputs as [|i inputs IH] using rev_ind.
  - cbn. rewrite Hr. unfold open_count. rewrite bool_decide_eq_false_2 by (by rewrite lookup_empty). unfold count. cbn. lia.
  - rewrite run_snoc. destruct (reflector_run r inputs) as [r1 out]. cbn [fst snd] in IH.
    assert (Hs := step_count k f v r1 i Hv). destruct (reflector_step r1 i) as [r2 reply]. cbn [fst snd] in *.
    rewrite !count_snoc. lia.
Qed.

(** C25. A challenged reply proves freshness: in every run of the reflector that
    starts without open challenges, the replies flagged as challenged for a
    key, an address and a nonce are at most as many as the times that nonce
    was drawn for a probe of that key from that address. So a nonce that is
    drawn once flags at most one reply, and only to whom it was issued. *)
Theorem challenge_single_use k f v r inputs :
  v <> 0 -> challenges r = ∅ ->
  (count (answers k f v) (reflector_run r inputs).2 <= count (draws k f v) inputs)%nat.
Proof. intros Hv Hr. pose proof (run_counts k f v r inputs Hv Hr). lia. Qed.
End Runs.

(** ** The rate limit *)

Section RateLimit.
Context {K : Type} `{!Ed25519 K}.
Context (signer : K) (k : bytes).

(** Offsets a reply can carry. *)
Definition offsets_ok (r : SignedReflector) : Prop :=
  (length (offsets r) <= MaxOffsets)%nat /\ Forall (fun b => length b = LocationOffsetSize) (offsets r).

(** The next probe of [k] starts a pair: none is open, or its second probe is
    overdue. *)
Definition starts_pair (now : Time) (r : SignedReflector) : Prop :=
  let st := default new_senderState (senderStates r !! k) in
  pairCount st = 0 \/
  pairCount st = 1 /\ lastTxTime st <> 0 /\ stalePairTimeout < now - lastTxTime st.

Lemma NewReplyPacket_some probe g o slot lat lng since rtt ch :
  (length o <= MaxOffsets)%nat -> Forall (fun b => length b = LocationOffsetSize) o ->
  exists x, NewReplyPacket probe signer g o slot lat lng since rtt ch = Some x.
Proof.
  intros Hn Ho. unfold NewReplyPacket. destruct (MaxOffsets <? length o)%nat eqn:Hl; [lia|].
  assert (Hf : forallb (fun blob => (length blob =? LocationOffsetSize)%nat) o = true).
  { apply forallb_forall. intros x Hx. apply Nat.eqb_eq. rewrite Forall_forall in Ho. apply Ho. by apply list_elem_of_In. }
  rewrite Hf. by eexists.
Qed.

Lemma first_probe_answered now f random tx buf probe r :
  UnmarshalProbePacket buf = Some probe -> pr_SenderPubkey probe = k -> k ∈ authorizedKeys r -> offsets_ok r ->
  starts_pair now r ->
  exists reply st, reflect_packet signer now (Some f) random tx buf r = (store k st r, Some reply) /\
    re_Probe reply = probe /\ re_SinceLastRxNs reply = random /\ re_Challenged reply = false /\
    st = mkSenderState tx 1 now f random.
Proof.
  intros Hun Hk Hauth [Hon Hof] Hst. unfold reflect_packet. rewrite Hun, Hk, bool_decide_eq_false_2 by (intros Hn; by apply Hn).
  unfold starts_pair in Hst. set (st0 := default new_senderState (senderStates r !! k)) in *.
  change (verifyInterval (store k st0 r)) with (verifyInterval r).
  assert (Hrl : rate_limit (verifyInterval r) now st0 = Some st0).
  { unfold rate_limit. destruct Hst as [Hc|(Hc & _)]; rewrite Hc; by destruct (0 <? verifyInterval r). }
  rewrite Hrl.
  assert (Hc2 : pairCount (reset_stale now st0) = 0).
  { unfold reset_stale. destruct Hst as [Hc|(Hc & Ht & Hs)]; [by rewrite Hc|].
    rewrite Hc. unfold IsZero. rewrite (proj2 (Z.eqb_neq _ _) Ht). cbn [negb andb Z.eqb Pos.eqb].
    destruct (_ <? _) eqn:Hlt; [done|]. unfold TimeSub, stalePairTimeout, Second, max_i64, min_i64 in *. lia. }
  set (st2 := reset_stale now st0) in *. rewrite store_store.
  assert (Hbs : bind_source f st2 = Some (st2 <| pairSourceIP := f |>)) by (unfold bind_source; by rewrite Hc2).
  assert (Hps : pair_step now random probe (st2 <| pairSourceIP := f |>) =
    (mkSenderState (lastTxTime st2) 1 now f random, random, false)).
  { unfold pair_step. cbn. by rewrite Hc2. }
  rewrite Hbs, Hps, store_store. change (pairCount (st2 <| pairSourceIP := f |>)) with (pairCount st2). rewrite Hc2.
  change (offsets (store k _ r)) with (offsets r). change (geoprobePubkey (store k _ r)) with (geoprobePubkey r).
  set (info := default _ _).
  destruct (NewReplyPacket_some probe (geoprobePubkey r) (offsets r) (oi_MeasurementSlot info) (oi_Lat info) (oi_Lng info)
    random (if 0 =? 0 then oi_RttNs info else u64 (oi_RttNs info + random)) false Hon Hof) as [x Hx].
  rewrite Hx, store_store. eexists x, _. split; [done|]. apply NewReplyPacket_Some in Hx. by subst x.
Qed.

(** Probes of [k], each more than five seconds after the reply to the one
    before it was sent. *)
Fixpoint spaced (last : Time) (l : list reflector_input) : Prop :=
  match l with
  | [] => True
  | IProbe now (Some _) _ tx buf :: l =>
      stalePairTimeout < now - last /\ tx <> 0 /\ (pr_SenderPubkey <$> UnmarshalProbePacket buf) = Some k /\ spaced tx l
  | _ => False
  end.

Lemma run_cons r i l :
  (reflector_run signer r (i :: l)).2 =
  (i, (reflector_step signer r i).2) :: (reflector_run signer (reflector_step signer r i).1 l).2.
Proof.
  unfold reflector_run. cbn [foldl]. destruct (reflector_step signer r i) as [r1 reply]. cbn [fst snd app].
  assert (Hacc : forall r out, foldl (fun '(r, out) i => let '(r', reply) := reflector_step signer r i in (r', out ++ [(i, reply)])) (r, out) l
    = let '(r', out') := foldl (fun '(r, out) i => let '(r', reply) := reflector_step signer r i in (r', out ++ [(i, reply)])) (r, []) l in
      (r', out ++ out')).
  { clear. induction l as [|i l IH]; intros r out; cbn; [by rewrite app_nil_r|].
    destruct (reflector_step signer r i) as [r1 reply]. rewrite (IH r1 (out ++ _)), (IH r1 [(i, reply)]).
    destruct (foldl _ (r1, []) l). by rewrite <- app_assoc. }
  rewrite Hacc. by destruct (foldl _ (r1, []) l).
Qed.

(** The rate limit is not a limit on single probes: an authorized sender
    whose probes are each more than five seconds after the reply to the one
    before has every one of them answered, however long the interval between
    pairs is set. *)
Theorem spaced_probes_unlimited r last l :
  k ∈ authorizedKeys r -> offsets_ok r -> spaced last l ->
  (senderStates r !! k = None \/ exists st, senderStates r !! k = Some st /\ pairCount st = 1 /\ lastTxTime st = last /\ last <> 0) ->
  Forall (fun o => is_Some o.2) (reflector_run signer r l).2.
Proof.
  revert r last. induction l as [|i l IH]; intros r last Hauth Hoff Hs Hst; [constructor|].
  destruct i as [now [f|] random tx buf| |]; [|by destruct Hs..]. destruct Hs as (Hgap & Htx & Hkey & Hs).
  destruct (UnmarshalProbePacket buf) as [probe|] eqn:Hun; [|done]. injection Hkey as Hkey.
  destruct (first_probe_answered now f random tx buf probe r) as (reply & st & Hr & _ & _ & _ & Hst'); [done..| |].
  { unfold starts_pair. destruct Hst as [->|(st & -> & Hc & Hl & Hn)]; [by left|right]. cbn. rewrite Hl. done. }
  rewrite run_cons. cbn [reflector_step]. rewrite Hr. cbn [fst snd]. constructor; [by eexists|].
  apply (IH _ tx); [done..|]. right. exists st. subst st. unfold store. cbn. by rewrite lookup_insert_eq.
Qed.
End RateLimit.

(** ** A challenged pair, end to end *)

Lemma nonce_split v : is_u64 v -> Z.lor (Z.shiftl (u32 (Z.shiftr v 32)) 32) (u32 (Z.land v 4294967295)) = v.
Proof.
  intros Hv. unfold wrap, is_u in *. change 4294967295 with (Z.ones 32). rewrite Z.land_ones, Z.mod_mod by lia.
  rewrite Z.shiftr_div_pow2, Z.mod_small by lia.
  apply Z.bits_inj'. intros n Hn. rewrite Z.lor_spec. destruct (Z.lt_ge_cases n 32) as [Hlt|Hge].
  - rewrite Z.shiftl_spec_low, Z.mod_pow2_bits_low by lia. done.
  - rewrite Z.shiftl_spec, Z.mod_pow2_bits_high, orb_false_r, <- Z.shiftr_div_pow2, Z.shiftr_spec by lia. f_equal. lia.
Qed.

Section Pair.
Context {K : Type} `{!Ed25519 K}.

Lemma presented_challenge seq (ks : K) v : is_u64 v -> presented (newChallengedProbePacket seq ks v) = v.
Proof. intros Hv. unfold presented, newChallengedProbePacket. cbn [pr_Sec pr_Frac]. by apply nonce_split. Qed.

Lemma NewProbePacket_valid now seq (ks : K) : is_u32 seq -> valid_probe (NewProbePacket now seq ks).
Proof.
  intros Hs. unfold NewProbePacket, ntpTimestamp, valid_probe. cbn [pr_Seq pr_Sec pr_Frac pr_SenderPubkey pr_Signature].
  split_and!; [done|by apply wrap_range..|apply length_copy_n|apply length_copy_n].
Qed.

Lemma newChallengedProbePacket_valid seq (ks : K) v : is_u32 seq -> valid_probe (newChallengedProbePacket seq ks v).
Proof.
  intros Hs. unfold newChallengedProbePacket, valid_probe. cbn [pr_Seq pr_Sec pr_Frac pr_SenderPubkey pr_Signature].
  split_and!; [done|by apply wrap_range..|apply length_copy_n|apply length_copy_n].
Qed.

Lemma challenged_probe_verifies seq (ks : K) v : Probe_Verify (newChallengedProbePacket seq ks v) = true.
Proof.
  unfold Probe_Verify, newChallengedProbePacket. cbn [pr_Seq pr_Sec pr_Frac pr_SenderPubkey pr_Signature].
  rewrite (copy_n_full 32 (ed_Public ks)) by apply ed_Public_length.
  rewrite copy_n_full by apply ed_Sign_length. apply ed_Verify_Sign.
Qed.

Lemma signed_reply_verifies (kr : K) probe g o slot lat lng since rtt ch :
  Reply_Verify (signed_reply kr probe g o slot lat lng since rtt ch) = true.
Proof.
  unfold Reply_Verify, signed_reply. cbn [re_AuthorityPubkey re_Signature].
  rewrite (copy_n_full 32 (ed_Public kr)) by apply ed_Public_length.
  rewrite copy_n_full by apply ed_Sign_length. apply ed_Verify_Sign.
Qed.

(** What a reflector is configured with. *)
Definition reflector_ok (r : SignedReflector) : Prop :=
  offsets_ok r /\ Forall bytes_ok (offsets r) /\ length (geoprobePubkey r) = 32%nat.

Definition first_info (r : SignedReflector) : OffsetInfo :=
  default (mkOffsetInfo 0 0 0 0 []) match offsets r with blob :: _ => ParseOffsetInfo blob | [] => None end.

Lemma le_slice_range b i : bytes_ok b -> (i + 8 <= length b)%nat -> is_u64 (le_val (slice b i (i + 8))).
Proof.
  intros Hb Hi. assert (Hr := le_val_range (slice b i (i + 8)) (bytes_ok_slice _ _ _ Hb)).
  rewrite length_slice in Hr by lia. by replace (i + 8 - i)%nat with 8%nat in Hr by lia.
Qed.

Lemma first_info_range r : reflector_ok r ->
  is_u64 (oi_MeasurementSlot (first_info r)) /\ is_u64 (oi_Lat (first_info r)) /\
  is_u64 (oi_Lng (first_info r)) /\ is_u64 (oi_RttNs (first_info r)).
Proof.
  intros ([_ Ho] & Hb & _). unfold first_info. destruct (offsets r) as [|blob l]; [done|].
  apply Forall_cons in Ho as [Hl _]. apply Forall_cons in Hb as [Hb _]. unfold ParseOffsetInfo.
  rewrite Hl. cbn [Nat.ltb Nat.leb LocationOffsetSize default id oi_MeasurementSlot oi_Lat oi_Lng oi_RttNs].
  split_and!; [apply (le_slice_range blob 129)|apply (le_slice_range blob 137)|apply (le_slice_range blob 145)
    |apply (le_slice_range blob 161)]; (done || (rewrite Hl; unfold LocationOffsetSize; lia)).
Qed.

Lemma signed_reply_valid (kr : K) probe r since rtt ch :
  valid_probe probe -> reflector_ok r -> is_u64 since -> is_u64 rtt ->
  valid_reply (signed_reply kr probe (geoprobePubkey r) (offsets r) (oi_MeasurementSlot (first_info r))
    (oi_Lat (first_info r)) (oi_Lng (first_info r)) since rtt ch).
Proof.
  intros Hp Hr Hs Ht. destruct (first_info_range r Hr) as (H1 & H2 & H3 & _). destruct Hr as ([Hn Ho] & _ & Hg).
  unfold valid_reply, signed_reply. cbn. split_and!; try done; apply length_copy_n.
Qed.

(** Every reply of the reflector is one it signed, and can be read back. *)
Lemma reply_sound (kr : K) now from random tx buf probe r r' x :
  UnmarshalProbePacket buf = Some probe -> valid_probe probe -> reflector_ok r -> is_u64 random ->
  reflect_packet kr now from random tx buf r = (r', Some x) ->
  valid_reply x /\ Reply_Verify x = true /\ re_AuthorityPubkey x = ed_Public kr /\ re_Probe x = probe.
Proof.
  intros Hun Hp Hr Hrand. unfold reflect_packet. rewrite Hun. destruct (bool_decide _); [done|].
  destruct (rate_limit _ _ _) as [st1|]; [|done]. destruct from as [f|]; [|done].
  destruct (bind_source _ _) as [st3|]; [|done]. destruct (pair_step now random probe st3) as [[st4 since] ch] eqn:Hps.
  rewrite !store_store. set (k := pr_SenderPubkey probe).
  change (offsets (store k st4 r)) with (offsets r). change (geoprobePubkey (store k st4 r)) with (geoprobePubkey r).
  change (default _ _) with (first_info r). destruct (NewReplyPacket _ _ _ _ _ _ _ _ _ _) as [y|] eqn:Hnew; [|done].
  intros [= _ <-]. apply NewReplyPacket_Some in Hnew. subst y. destruct (first_info_range r Hr) as (_ & _ & _ & Hrtt).
  split_and!; [|by apply signed_reply_verifies|by apply copy_n_full, ed_Public_length|done].
  apply signed_reply_valid; [done..| |by destruct (_ =? 0); [|apply wrap_range]].
  unfold pair_step in Hps. destruct (pairCount st3 =? 0); injection Hps as _ <- _; [done|].
  destruct (IsZero _); [done|by apply wrap_range].
Qed.

(** The second probe of a pair, from the same address and in time, with the
    nonce of the reply. *)
Lemma second_probe_answered (kr : K) k now f random tx buf probe tx0 start nonce r :
  UnmarshalProbePacket buf = Some probe -> pr_SenderPubkey probe = k -> k ∈ authorizedKeys r -> offsets_ok r ->
  senderStates r !! k = Some (mkSenderState tx0 1 start f nonce) -> nonce <> 0 -> presented probe = nonce ->
  tx0 <> 0 -> now - tx0 <= stalePairTimeout ->
  exists reply, reflect_packet kr now (Some f) random tx buf r = (store k (mkSenderState tx 2 start f 0) r, Some reply) /\
    re_SinceLastRxNs reply = u64 (TimeSub now tx0) /\ re_Challenged reply = true.
Proof.
  intros Hun Hk Hauth [Hon Hof] Hst Hn Hpres Htx Hstale. unfold reflect_packet.
  rewrite Hun, Hk, bool_decide_eq_false_2 by (intros Hn'; by apply Hn'). rewrite Hst. cbn [default].
  set (st0 := mkSenderState tx0 1 start f nonce). change (id st0) with st0.
  assert (Hrl : rate_limit (verifyInterval (store k st0 r)) now st0 = Some st0) by (unfold rate_limit; by rewrite andb_false_r).
  assert (Hrs : reset_stale now st0 = st0).
  { unfold reset_stale. destruct (_ <? TimeSub now (lastTxTime st0)) eqn:Hlt; [|by rewrite andb_false_r].
    unfold TimeSub, stalePairTimeout, Second, max_i64, min_i64 in *. cbn [lastTxTime st0] in Hlt. lia. }
  assert (Hbs : bind_source f st0 = Some st0) by (unfold bind_source; cbn; by rewrite bool_decide_eq_true_2).
  assert (Hps : pair_step now random probe st0 = (mkSenderState tx0 2 start f 0, u64 (TimeSub now tx0), true)).
  { unfold pair_step. cbn [pairCount st0 Z.eqb ss_nonce lastTxTime]. unfold presented in Hpres. rewrite Hpres, Z.eqb_refl.
    unfold IsZero. by rewrite (proj2 (Z.eqb_neq _ _) Hn), (proj2 (Z.eqb_neq _ _) Htx). }
  rewrite Hrl, Hrs, Hbs, Hps, !store_store.
  change (offsets (store k _ r)) with (offsets r). change (geoprobePubkey (store k _ r)) with (geoprobePubkey r).
  set (info := default _ _).
  destruct (NewReplyPacket_some kr probe (geoprobePubkey r) (offsets r) (oi_MeasurementSlot info) (oi_Lat info) (oi_Lng info)
    (u64 (TimeSub now tx0)) (if pairCount st0 =? 0 then oi_RttNs info else u64 (oi_RttNs info + u64 (TimeSub now tx0)))
    true Hon Hof) as [x Hx].
  rewrite Hx. exists x. split; [done|]. apply NewReplyPacket_Some in Hx. by subst x.
Qed.

(** The path to the reflector [kr] in state [r]: a probe sent from [f] reaches
    it at [now] and the reply to it, if any, is the next datagram received,
    with kernel timestamp [kernel]. *)
Definition path_to (kr : K) (r : SignedReflector) (now : Time) (f : bytes) (random : Z) (tx kernel fallback : Time) : Network :=
  fun b => match (reflect kr now (Some f) random tx b r).2 with
           | Some d => Some [EvPacket d (Some [Some kernel]) fallback]
           | None => Some [EvDeadline]
           end.

(** A reply of the reflector is taken by the sender's poll. *)
Lemma reply_received (kr : K) r r' now f random tx kernel fallback sendTime probe verify x :
  valid_probe probe -> Probe_Verify probe = true -> reflector_ok r -> is_u64 random ->
  reflect_packet kr now (Some f) random tx (Probe_bytes probe) r = (r', Some x) ->
  sendAndRecv (ed_Public kr) (path_to kr r now f random tx kernel fallback) sendTime probe verify =
    Some (Ok (decideRTT sendTime kernel fallback, x)).
Proof.
  intros Hp Hpv Hr Hrand Hx. assert (Hun := Probe_roundtrip probe Hp).
  destruct (reply_sound kr now (Some f) random tx _ probe r r' x Hun Hp Hr Hrand Hx) as (Hvx & Hver & Hauth & Hpx).
  destruct (Reply_roundtrip x Hvx) as (d & Hm & Hlen & Hunx).
  assert (Hnet : path_to kr r now f random tx kernel fallback (Probe_bytes probe) =
    Some [EvPacket d (Some [Some kernel]) fallback]).
  { unfold path_to, reflect. rewrite Hx. cbn [snd mbind option_bind]. by rewrite Hm. }
  unfold sendAndRecv. rewrite Hnet. cbn [recv_loop tryRecv].
  assert (Hsize : (length d <? MinReplyPacketSize)%nat || (MaxReplyPacketSize <? length d)%nat = false).
  { destruct Hvx as (_ & _ & _ & _ & _ & _ & _ & _ & Hn & _). rewrite Hlen.
    unfold Size, MinReplyPacketSize, MaxReplyPacketSize, MaxOffsets, LocationOffsetSize in *. lia. }
  rewrite Hsize, Hunx, Hpx, !Z.eqb_refl, Hpv, Hver, Hauth, bool_decide_eq_true_2 by done. by rewrite !andb_false_r.
Qed.

Lemma NewProbePacket_verifies now seq (ks : K) : Probe_Verify (NewProbePacket now seq ks) = true.
Proof.
  unfold Probe_Verify, NewProbePacket. destruct (ntpTimestamp now) as [sec frac].
  cbn [pr_Seq pr_Sec pr_Frac pr_SenderPubkey pr_Signature].
  rewrite (copy_n_full 32 (ed_Public ks)) by apply ed_Public_length.
  rewrite copy_n_full by apply ed_Sign_length. apply ed_Verify_Sign.
Qed.

Lemma reflector_ok_store k st r : reflector_ok r -> reflector_ok (store k st r).
Proof. done. Qed.

(** C28. A challenged pair completes: when the path loses nothing, the
    reflector knows the sender's key and starts a pair, its nonce is not zero
    and the second probe arrives within the pair's five seconds, then
    [probePairChallenged] returns, its second reply is flagged as challenged,
    verifies under the reflector's key, and reports the time between the
    first reply and the second probe. *)
Theorem challenge_completes (ks kr : K) r f seq v v' t now0 now1 tx0 tx1 s0 s1 k0 k1 fb0 fb1 :
  reflector_ok r -> ed_Public ks ∈ authorizedKeys r -> starts_pair (ed_Public ks) now0 r ->
  is_u64 v -> v <> 0 -> is_u64 v' -> tx0 <> 0 -> now1 - tx0 <= stalePairTimeout ->
  let r1 := (reflect kr now0 (Some f) v tx0 (Probe_bytes (NewProbePacket t (u32 (seq + 1)) ks)) r).1 in
  exists p, probePairChallenged ks (ed_Public kr) (path_to kr r now0 f v tx0 k0 fb0) (path_to kr r1 now1 f v' tx1 k1 fb1)
      t s0 s1 seq = (u32 (u32 (seq + 1) + 1), Some (Ok p)) /\
    RTT0 p = decideRTT s0 k0 fb0 /\ RTT1 p = decideRTT s1 k1 fb1 /\
    re_Challenged (Reply1 p) = true /\ Reply_Verify (Reply1 p) = true /\
    re_AuthorityPubkey (Reply1 p) = ed_Public kr /\ re_SinceLastRxNs (Reply1 p) = u64 (TimeSub now1 tx0).
Proof.
  intros Hr Hk Hst Hv Hv0 Hv' Htx Hstale r1. pose proof Hr as [Ho _]. unfold probePairChallenged.
  set (probe0 := NewProbePacket t (u32 (seq + 1)) ks) in *.
  assert (Hp0 : valid_probe probe0) by (apply NewProbePacket_valid, wrap_range; lia).
  assert (Hk0 : pr_SenderPubkey probe0 = ed_Public ks) by (apply copy_n_full, ed_Public_length).
  destruct (first_probe_answered kr (ed_Public ks) now0 f v tx0 _ probe0 r (Probe_roundtrip _ Hp0) Hk0 Hk Ho Hst)
    as (reply0 & st & Hx0 & Hpr & Hsince & _ & ->).
  rewrite (reply_received kr r _ now0 f v tx0 k0 fb0 s0 probe0 false reply0 Hp0 (NewProbePacket_verifies _ _ _) Hr Hv Hx0).
  assert (Hr1 : r1 = store (ed_Public ks) (mkSenderState tx0 1 now0 f v) r) by (unfold r1, reflect; by rewrite Hx0).
  rewrite Hsince. set (seq1 := u32 (u32 (seq + 1) + 1)). set (probe1 := newChallengedProbePacket seq1 ks v).
  assert (Hp1 : valid_probe probe1) by (apply newChallengedProbePacket_valid, wrap_range; lia).
  assert (Hk1 : pr_SenderPubkey probe1 = ed_Public ks) by (apply copy_n_full, ed_Public_length).
  assert (Hl1 : senderStates r1 !! ed_Public ks = Some (mkSenderState tx0 1 now0 f v)) by (rewrite Hr1; apply lookup_insert_eq).
  assert (Hok1 : reflector_ok r1) by (rewrite Hr1; by apply reflector_ok_store).
  assert (Ha1 : ed_Public ks ∈ authorizedKeys r1) by (by rewrite Hr1).
  destruct (second_probe_answered kr (ed_Public ks) now1 f v' tx1 _ probe1 tx0 now0 v r1 (Probe_roundtrip _ Hp1) Hk1 Ha1
    (proj1 Hok1) Hl1 Hv0 (presented_challenge _ _ _ Hv) Htx Hstale) as (reply1 & Hx1 & Hs1 & Hc1).
  rewrite (reply_received kr r1 _ now1 f v' tx1 k1 fb1 s1 probe1 true reply1 Hp1 (challenged_probe_verifies _ _ _) Hok1 Hv' Hx1).
  destruct (reply_sound kr now1 _ v' tx1 _ probe1 r1 _ reply1 (Probe_roundtrip _ Hp1) Hp1 Hok1 Hv' Hx1) as (_ & Hver & Hau & _).
  eexists. split; [done|]. by split_and!.
Qed.
End Pair.

(** ** A sender and a reflector *)

(** A stand-in for Ed25519 on keys of 32 bytes that satisfies its laws. *)
Definition toy_sign (k : Z) (m : bytes) : bytes := copy_n 64 ([k; Z.of_nat (length m)] ++ m).

#[local] Instance toy_Ed25519 : Ed25519 Z.
Proof.
  refine {| ed_Public := fun k => copy_n 32 [k]; ed_Sign := toy_sign;
    ed_Verify := fun pub m sg => bool_decide (sg = toy_sign (byte_at pub 0) m) |}.
  - intros k. apply length_copy_n.
  - intros k m. apply length_copy_n.
  - intros k m. by apply bool_decide_eq_true_2.
Defined.

Definition toy_key : bytes := copy_n 32 [7].
Definition toy_reflector : SignedReflector :=
  mkSignedReflector (60 * Second) (replicate 32 0) {[ toy_key ]} ∅ [replicate LocationOffsetSize 0].

Lemma toy_reflector_ok : reflector_ok toy_reflector.
Proof.
  split_and!; [split; [cbn; unfold MaxOffsets; lia|by apply Forall_singleton]|apply Forall_singleton, bytes_ok_zeros|done].
Qed.

Lemma challenge_completes_witness : exists p r1,
  probePairChallenged 7 (ed_Public 9) (path_to 9 toy_reflector 1000 [10; 0; 0; 1] 77 2000 90 100)
    (path_to 9 r1 3000 [10; 0; 0; 1] 5 4000 190 200) 0 80 180 0 = (2, Some (Ok p)) /\ re_Challenged (Reply1 p) = true.
Proof.
  destruct (challenge_completes 7 9 toy_reflector [10; 0; 0; 1] 0 77 5 0 1000 3000 2000 4000 80 180 90 190 100 200
    toy_reflector_ok) as (p & Hp & _ & _ & Hc & _).
  - unfold toy_reflector. cbn [authorizedKeys]. apply elem_of_singleton. reflexivity.
  - by left.
  - unfold is_u. lia.
  - lia.
  - unfold is_u. lia.
  - lia.
  - unfold stalePairTimeout, Second. lia.
  - eexists p, _. split; [exact Hp|done].
Defined.

(** Two probes of one sender, the second with the nonce of the first reply. *)
Definition toy_inputs : list reflector_input :=
  [IProbe 1000 (Some [10; 0; 0; 1]) 77 2000 (Probe_bytes (NewProbePacket 0 1 7));
   IProbe 3000 (Some [10; 0; 0; 1]) 78 4000 (Probe_bytes (newChallengedProbePacket 2 7 77));
   IProbe 5000 (Some [10; 0; 0; 1]) 79 6000 (Probe_bytes (newChallengedProbePacket 2 7 77))].

Definition toy_addr : bytes := [10; 0; 0; 1].

Lemma challenge_single_use_witness :
  challenges toy_reflector = ∅ /\
  (count (answers toy_key toy_addr 77%Z) (reflector_run 9%Z toy_reflector toy_inputs).2 <= 1)%nat /\
  count (answers toy_key toy_addr 77%Z) (reflector_run 9%Z toy_reflector toy_inputs).2 = 1%nat.
Proof.
  split; [vm_compute; reflexivity|]. split; [|vm_compute; reflexivity].
  apply (challenge_single_use 9 toy_key toy_addr 77 toy_reflector toy_inputs); [lia|vm_compute; reflexivity].
Defined.

Definition toy_spaced : list reflector_input :=
  [IProbe 1000 (Some [10; 0; 0; 1]) 77 2000 (Probe_bytes (NewProbePacket 0 1 7));
   IProbe (6 * Second) (Some [10; 0; 0; 1]) 78 (7 * Second) (Probe_bytes (NewProbePacket 0 2 7));
   IProbe (13 * Second) (Some [10; 0; 0; 1]) 79 (14 * Second) (Probe_bytes (NewProbePacket 0 3 7))].

Lemma spaced_probes_unlimited_witness :
  verifyInterval toy_reflector = 60 * Second /\
  Forall (fun o => is_Some o.2) (reflector_run 9 toy_reflector toy_spaced).2.
Proof.
  split; [done|]. apply (spaced_probes_unlimited 9 toy_key toy_reflector (-(6 * Second)) toy_spaced).
  - unfold toy_reflector. cbn [authorizedKeys]. apply elem_of_singleton. reflexivity.
  - apply toy_reflector_ok.
  - unfold toy_spaced, spaced, stalePairTimeout, Second. split_and!; try lia; vm_compute; reflexivity.
  - by left.
Defined.
