(* ===== verification/BorshIncremental.v ===== *)
(** * The incremental Borsh reader

    Models [Reader] of [sdk/borsh-incremental/go/reader.go]: strict reads that
    fail on missing data, and reads that take a default for a missing
    trailing field. It is the library version of the reader of [ByteReader],
    and the two are compared field by field. *)

From stdpp Require Import base tactics numbers list.
From Stdlib Require Import ZArith Lia ZifyBool ZifyNat.
From S2P Require Import Prelude Bytes GoStrings ByteReader.

#[local] Open Scope Z_scope.

Module Borsh.

(** A strict read: its value, or [None] for an error, and the offset it leaves,
    which an error can have moved. *)
Definition SR (A : Type) : Type := bytes -> nat -> option A * nat.

#[global] Instance SR_ret : MRet SR := fun A a _ o => (Some a, o).
#[global] Instance SR_bind : MBind SR := fun A B k m d o =>
  match m d o with (Some a, o') => k a d o' | (None, o') => (None, o') end.
#[global] Instance SR_fmap : FMap SR := fun A B f m d o => let '(a, o') := m d o in (f <$> a, o').

Definition fail {A} : SR A := fun _ o => (None, o).

Definition Remaining : SR Z := fun d o => (Some (Z.of_nat (length d) - Z.of_nat o), o).

(** The shape of the fixed-size reads. *)
Definition read_exact {A} (n : nat) (conv : bytes -> A) : SR A := fun d o =>
  if (length d <? o + n)%nat then (None, o) else (Some (conv (slice d o (o + n))), (o + n)%nat).

Definition ReadU8 : SR Z := read_exact 1 le_val.
Definition ReadBool : SR bool := (fun v => negb (v =? 0)) <$> ReadU8.
Definition ReadU16 : SR Z := read_exact 2 le_val.
Definition ReadU32 : SR Z := read_exact 4 le_val.
Definition ReadU64 : SR Z := read_exact 8 le_val.
Definition ReadU128 : SR bytes := read_exact 16 id.
Definition ReadF64 : SR Z := ReadU64.
Definition ReadPubkey : SR bytes := read_exact 32 id.
Definition ReadIPv4 : SR bytes := read_exact 4 id.
Definition ReadNetworkV4 : SR bytes := read_exact 5 id.
Definition ReadBytes (n : nat) : SR bytes := read_exact n id.

Definition ReadString : SR bytes :=
  len ← ReadU32;
  if len =? 0 then mret [] else ReadBytes (Z.to_nat len).

Fixpoint read_times {A} (n : nat) (m : SR A) : SR (list A) :=
  match n with
  | O => mret []
  | S n => x ← m; xs ← read_times n m; mret (x :: xs)
  end.

(** The slices: the announced size is compared with the remaining bytes before
    anything is allocated. *)
Definition read_vec {A} (size : Z) (m : SR A) : SR (list A) :=
  len ← ReadU32;
  if len =? 0 then mret []
  else
    rem ← Remaining;
    if rem <? len * size then fail else read_times (Z.to_nat len) m.

Definition ReadPubkeySlice : SR (list bytes) := read_vec 32 ReadPubkey.
Definition ReadNetworkV4Slice : SR (list bytes) := read_vec 5 ReadNetworkV4.
Definition ReadU32Slice : SR (list Z) := read_vec 4 ReadU32.

(** The shape of the [TryRead] methods: the default if fewer than [min] bytes
    remain, else the strict read, whose error is dropped for the zero value. *)
Definition try_read {A} (min : nat) (zero : A) (m : SR A) (def : A) : Rd A := fun d o =>
  if Z.of_nat (length d) - Z.of_nat o <? Z.of_nat min then (def, o)
  else let '(v, o') := m d o in (default zero v, o').

Definition TryReadU8 : Z -> Rd Z := try_read 1 0 ReadU8.
Definition TryReadBool : bool -> Rd bool := try_read 1 false ReadBool.
Definition TryReadU16 : Z -> Rd Z := try_read 2 0 ReadU16.
Definition TryReadU32 : Z -> Rd Z := try_read 4 0 ReadU32.
Definition TryReadU64 : Z -> Rd Z := try_read 8 0 ReadU64.
Definition TryReadU128 : bytes -> Rd bytes := try_read 16 (replicate 16 0) ReadU128.
Definition TryReadF64 : Z -> Rd Z := try_read 8 0 ReadF64.
Definition TryReadPubkey : bytes -> Rd bytes := try_read 32 (replicate 32 0) ReadPubkey.
Definition TryReadIPv4 : bytes -> Rd bytes := try_read 4 (replicate 4 0) ReadIPv4.
Definition TryReadNetworkV4 : bytes -> Rd bytes := try_read 5 (replicate 5 0) ReadNetworkV4.
Definition TryReadString : bytes -> Rd bytes := try_read 4 [] ReadString.
Definition TryReadPubkeySlice : list bytes -> Rd (list bytes) := try_read 4 [] ReadPubkeySlice.
Definition TryReadNetworkV4Slice : list bytes -> Rd (list bytes) := try_read 4 [] ReadNetworkV4Slice.
Definition TryReadU32Slice : list Z -> Rd (list Z) := try_read 4 [] ReadU32Slice.

(** ** Fields

    The kinds of field both readers have. *)

Inductive field := FU8 | FBool | FU16 | FU32 | FU64 | FF64 | FPubkey | FIPv4 | FNetworkV4 | FString | FPubkeys | FNetworks.

Definition fval (f : field) : Type :=
  match f with
  | FU8 | FU16 | FU32 | FU64 | FF64 => Z
  | FBool => bool
  | FPubkey | FIPv4 | FNetworkV4 | FString => bytes
  | FPubkeys | FNetworks => list bytes
  end.

Definition strict (f : field) : SR (fval f) :=
  match f with
  | FU8 => ReadU8 | FBool => ReadBool | FU16 => ReadU16 | FU32 => ReadU32 | FU64 => ReadU64 | FF64 => ReadF64
  | FPubkey => ReadPubkey | FIPv4 => ReadIPv4 | FNetworkV4 => ReadNetworkV4 | FString => ReadString
  | FPubkeys => ReadPubkeySlice | FNetworks => ReadNetworkV4Slice
  end.

(** The value both readers give to missing data. *)
Definition zero_of (f : field) : fval f :=
  match f with
  | FU8 | FU16 | FU32 | FU64 | FF64 => 0
  | FBool => false
  | FPubkey => replicate 32 0
  | FIPv4 => replicate 4 0
  | FNetworkV4 => replicate 5 0
  | FString => []
  | FPubkeys | FNetworks => []
  end.

Definition tolerant (f : field) : Rd (fval f) :=
  match f with
  | FU8 => TryReadU8 0 | FBool => TryReadBool false | FU16 => TryReadU16 0 | FU32 => TryReadU32 0 | FU64 => TryReadU64 0
  | FF64 => TryReadF64 0 | FPubkey => TryReadPubkey (replicate 32 0) | FIPv4 => TryReadIPv4 (replicate 4 0)
  | FNetworkV4 => TryReadNetworkV4 (replicate 5 0) | FString => TryReadString []
  | FPubkeys => TryReadPubkeySlice [] | FNetworks => TryReadNetworkV4Slice []
  end.

(** The reader of the accounts; flags are read as a byte. *)
Definition account_read (f : field) : Rd (fval f) :=
  match f with
  | FU8 => ByteReader.ReadU8 | FBool => x ← ByteReader.ReadU8; mret (negb (x =? 0)) | FU16 => ByteReader.ReadU16
  | FU32 => ByteReader.ReadU32 | FU64 => ByteReader.ReadU64 | FF64 => ByteReader.ReadF64 | FPubkey => ByteReader.ReadPubkey
  | FIPv4 => ByteReader.ReadIPv4 | FNetworkV4 => ByteReader.ReadNetworkV4 | FString => ByteReader.ReadString
  | FPubkeys => ByteReader.ReadPubkeySlice | FNetworks => ByteReader.ReadNetworkV4Slice
  end.

(** The size of an element of a slice. *)
Definition elem_size (f : field) : Z := match f with FPubkeys => 32 | FNetworks => 5 | _ => 0 end.

(** The size a slice announces fits 32 bits. *)
Definition announced_fits (f : field) (d : bytes) (o : nat) : Prop :=
  le_val (slice d o (o + 4)) * elem_size f < 2 ^ 32.

(** A record is read field by field. *)
Fixpoint read_fields (read : forall f, Rd (fval f)) (fs : list field) : Rd (list (sigT fval)) :=
  match fs with
  | [] => mret []
  | f :: fs => v ← read f; vs ← read_fields read fs; mret (existT f v :: vs)
  end.

Fixpoint strict_fields (fs : list field) : SR (list (sigT fval)) :=
  match fs with
  | [] => mret []
  | f :: fs => v ← strict f; vs ← strict_fields fs; mret (existT f v :: vs)
  end.

(** At no field does a slice announce a size beyond 32 bits. *)
Fixpoint sizes_below_2_32 (fs : list field) (d : bytes) (o : nat) : Prop :=
  match fs with
  | [] => True
  | f :: fs => announced_fits f d o /\ sizes_below_2_32 fs d (tolerant f d o).2
  end.

(** ** Lemmas *)

Lemma try_exact {A} n (zero : A) conv d o : (0 < n)%nat ->
  try_read n zero (read_exact n conv) zero d o = read_fixed n conv zero d o.
Proof.
  intros Hn. unfold try_read, read_exact, read_fixed. destruct (Nat.leb_spec (o + n) (length d)).
  - rewrite (proj2 (Z.ltb_ge _ _)) by lia. by rewrite (proj2 (Nat.ltb_ge _ _)) by lia.
  - by rewrite (proj2 (Z.ltb_lt _ _)) by lia.
Qed.

Lemma read_times_fixed {A} n k (conv : bytes -> A) def d : forall o, (o + n * k <= length d)%nat ->
  read_n n (read_fixed k conv def) d o = (default [] (read_times n (read_exact k conv) d o).1, (o + n * k)%nat) /\
  exists vs, read_times n (read_exact k conv) d o = (Some vs, (o + n * k)%nat).
Proof.
  induction n as [|n IH]; intros o Ho; cbn [read_n read_times].
  - replace (o + 0 * k)%nat with o by lia. split; [done|by eexists].
  - destruct (IH (o + k)%nat ltac:(lia)) as [H1 [vs H2]].
    unfold mbind, Rd_bind, SR_bind, read_fixed, read_exact in *.
    rewrite (proj2 (Nat.leb_le (o + k) _)), (proj2 (Nat.ltb_ge _ (o + k))) by lia.
    rewrite H1, H2. replace (o + S n * k)%nat with (o + k + n * k)%nat by lia. split; [done|by eexists].
Qed.

Lemma try_vec {A} size k (conv : bytes -> A) def d o : size = Z.of_nat k -> (0 < k)%nat ->
  Z.of_nat (length d) < 2 ^ 32 -> le_val (slice d o (o + 4)) * size < 2 ^ 32 -> bytes_ok d -> (o <= length d)%nat ->
  try_read 4 [] (read_vec size (read_exact k conv)) [] d o = read_slice size (read_fixed k conv def) d o.
Proof.
  intros -> Hk Hd Hfit Hok Ho. unfold try_read, read_vec, read_slice, ReadU32, ByteReader.ReadU32, mbind, SR_bind, Rd_bind.
  unfold read_fixed at 1, read_exact at 1. destruct (Nat.leb_spec (o + 4) (length d)) as [H4|H4].
  2: { rewrite (proj2 (Z.ltb_lt _ _)) by lia. done. }
  rewrite (proj2 (Z.ltb_ge _ _)), (proj2 (Nat.ltb_ge _ _)) by lia.
  assert (Hr : is_u 32 (le_val (slice d o (o + 4)))).
  { assert (Hr := le_val_range (slice d o (o + 4)) (bytes_ok_slice _ _ _ Hok)). rewrite length_slice in Hr by lia.
    by replace (o + 4 - o)%nat with 4%nat in Hr by lia. }
  set (len := le_val (slice d o (o + 4))) in *. unfold is_u in Hr. unfold Remaining, ByteReader.Remaining.
  rewrite (wrap_id 32 (_ - _)) by (unfold is_u; lia). rewrite (wrap_id 32 (_ * _)) by (unfold is_u; nia).
  destruct (Z.eqb_spec len 0) as [H0|H0]; [done|]. cbn [orb].
  destruct (Z.ltb_spec (Z.of_nat (length d) - Z.of_nat (o + 4)) (len * Z.of_nat k)) as [Hlt|Hge]; [done|].
  destruct (read_times_fixed (Z.to_nat len) k conv def d (o + 4)) as [H1 [vs H2]]; [nia|].
  rewrite H1, H2. done.
Qed.

Lemma try_string d o : TryReadString [] d o = ByteReader.ReadString d o.
Proof.
  unfold TryReadString, try_read, ReadString, ByteReader.ReadString, ReadU32, ByteReader.ReadU32, mbind, SR_bind, Rd_bind.
  unfold read_fixed at 1, read_exact at 1. destruct (Nat.leb_spec (o + 4) (length d)) as [H4|H4].
  2: { rewrite (proj2 (Z.ltb_lt _ _)) by lia. done. }
  rewrite (proj2 (Z.ltb_ge _ _)), (proj2 (Nat.ltb_ge _ _)) by lia.
  destruct (_ =? 0); [done|]. unfold ReadBytes, ByteReader.ReadBytes, read_exact, read_fixed.
  destruct (Nat.leb_spec (o + 4 + Z.to_nat (le_val (slice d o (o + 4)))) (length d)).
  - by rewrite (proj2 (Nat.ltb_ge _ _)) by lia.
  - by rewrite (proj2 (Nat.ltb_lt _ _)) by lia.
Qed.

Lemma try_bool d o : TryReadBool false d o = account_read FBool d o.
Proof.
  cbn [account_read]. unfold TryReadBool, try_read, ReadBool, ReadU8, ByteReader.ReadU8, fmap, SR_fmap, mbind, Rd_bind, read_exact, read_fixed.
  destruct (Nat.leb_spec (o + 1) (length d)).
  - rewrite (proj2 (Z.ltb_ge _ _)) by lia. by rewrite (proj2 (Nat.ltb_ge _ _)) by lia.
  - by rewrite (proj2 (Z.ltb_lt _ _)) by lia.
Qed.

Lemma tolerant_account f d o : bytes_ok d -> Z.of_nat (length d) < 2 ^ 32 -> (o <= length d)%nat -> announced_fits f d o ->
  tolerant f d o = account_read f d o.
Proof.
  intros Hok Hd Ho Hfit. destruct f; cbn [tolerant account_read]; try (apply try_exact; lia).
  - apply try_bool.
  - apply try_string.
  - apply (try_vec 32 32); [done|lia|done..].
  - apply (try_vec 5 5); [done|lia|done..].
Qed.

Lemma account_within f : within (account_read f).
Proof.
  destruct f; cbn [account_read]; within_tac.
Qed.

(** A strict read that succeeds is what the tolerant one returns. *)
Lemma exact_tolerant {A} n (zero : A) conv def d o v o' :
  read_exact n conv d o = (Some v, o') -> try_read n zero (read_exact n conv) def d o = (v, o').
Proof.
  unfold try_read, read_exact. destruct (Nat.ltb_spec (length d) (o + n)); [done|]. intros [= <- <-].
  by rewrite (proj2 (Z.ltb_ge _ _)) by lia.
Qed.

Lemma prefixed_tolerant {A} (k : Z -> SR A) (zero def : A) d o v o' :
  (len ← ReadU32; k len) d o = (Some v, o') -> try_read 4 zero (len ← ReadU32; k len) def d o = (v, o').
Proof.
  intros H. unfold try_read. rewrite H. destruct (Z.ltb_spec (Z.of_nat (length d) - Z.of_nat o) (Z.of_nat 4)); [|done].
  unfold mbind, SR_bind, ReadU32, read_exact in H. by rewrite (proj2 (Nat.ltb_lt _ _)) in H by lia.
Qed.

Lemma strict_tolerant f d o v o' : strict f d o = (Some v, o') -> tolerant f d o = (v, o').
Proof.
  destruct f; cbn [strict tolerant]; try apply exact_tolerant; try apply prefixed_tolerant.
  unfold TryReadBool, try_read, ReadBool, fmap, SR_fmap, ReadU8, read_exact.
  destruct (Nat.ltb_spec (length d) (o + 1)); [done|]. intros [= <- <-]. by rewrite (proj2 (Z.ltb_ge _ _)) by lia.
Qed.

Lemma vec_fits {A} size (m : SR A) d o vs o' : bytes_ok d -> 0 < size -> Z.of_nat (length d) < 2 ^ 32 ->
  read_vec size m d o = (Some vs, o') -> le_val (slice d o (o + 4)) * size < 2 ^ 32.
Proof.
  intros Hok Hs Hd. unfold read_vec, mbind, SR_bind, ReadU32, read_exact.
  destruct (Nat.ltb_spec (length d) (o + 4)); [done|]. destruct (Z.eqb_spec (le_val (slice d o (o + 4))) 0) as [->|]; [lia|].
  unfold Remaining. destruct (Z.ltb_spec (Z.of_nat (length d) - Z.of_nat (o + 4)) (le_val (slice d o (o + 4)) * size)); [done|]. lia.
Qed.

Lemma strict_fits f d o v o' : bytes_ok d -> Z.of_nat (length d) < 2 ^ 32 -> strict f d o = (Some v, o') -> announced_fits f d o.
Proof.
  intros Hok Hd H. unfold announced_fits. destruct f; cbn [elem_size]; try lia.
  - by eapply (vec_fits 32 ReadPubkey).
  - by eapply (vec_fits 5 ReadNetworkV4).
Qed.

Lemma strict_account f d o v o' : bytes_ok d -> Z.of_nat (length d) < 2 ^ 32 -> (o <= length d)%nat ->
  strict f d o = (Some v, o') -> account_read f d o = (v, o').
Proof.
  intros Hok Hd Ho H. rewrite <- tolerant_account; [by apply strict_tolerant|done..|by eapply strict_fits].
Qed.

Lemma fields_tolerant_account fs d : bytes_ok d -> Z.of_nat (length d) < 2 ^ 32 -> forall o, (o <= length d)%nat ->
  sizes_below_2_32 fs d o -> read_fields tolerant fs d o = read_fields account_read fs d o.
Proof.
  intros Hok Hd. induction fs as [|f fs IH]; intros o Ho Hfit; [done|]. destruct Hfit as [Hf Hfit].
  cbn [read_fields]. unfold mbind, Rd_bind. rewrite tolerant_account in Hfit |- * by done.
  assert (Hw := account_within f d o Ho). destruct (account_read f d o) as [v o']. cbn [snd] in *.
  by rewrite IH by (done || lia).
Qed.

Lemma fields_strict_account fs d : bytes_ok d -> Z.of_nat (length d) < 2 ^ 32 -> forall o vs o', (o <= length d)%nat ->
  strict_fields fs d o = (Some vs, o') -> sizes_below_2_32 fs d o /\ read_fields account_read fs d o = (vs, o').
Proof.
  intros Hok Hd. induction fs as [|f fs IH]; intros o vs o' Ho H; cbn [strict_fields read_fields sizes_below_2_32] in *.
  { by injection H as <- <-. }
  unfold mbind, SR_bind, Rd_bind in *. destruct (strict f d o) as [[v|] o1] eqn:Hs; [|done].
  assert (Ha := strict_account f d o v o1 Hok Hd Ho Hs). assert (Hw := account_within f d o Ho).
  rewrite Ha in *. cbn [snd] in Hw. destruct (strict_fields fs d o1) as [[ws|] o2] eqn:Hr; [|done]. injection H as <- <-.
  destruct (IH o1 ws o2 ltac:(lia) Hr) as [Hfit Hread]. rewrite Hread.
  rewrite (strict_tolerant f d o v o1 Hs). split; [|done]. split; [by eapply strict_fits|done].
Qed.

(** C32. How far the readers of account data agree, on data of less than 2^32
    bytes and any sequence of fields. What the strict methods of the library
    read without error is exactly what the reader of the accounts returns. With
    defaults of zero the tolerant methods return the same values at the same
    offsets as the reader of the accounts on any data, truncated or corrupt, on
    which no slice announces a size of 2^32 or more. *)
Theorem readers_equivalent fs d o :
  bytes_ok d -> Z.of_nat (length d) < 2 ^ 32 -> (o <= length d)%nat ->
  (forall vs o', strict_fields fs d o = (Some vs, o') -> read_fields account_read fs d o = (vs, o')) /\
  (sizes_below_2_32 fs d o -> read_fields tolerant fs d o = read_fields account_read fs d o).
Proof.
  intros Hok Hd Ho. split.
  - intros vs o' H. by apply (fields_strict_account fs d Hok Hd o vs o' Ho H).
  - intros Hfit. by apply fields_tolerant_account.
Qed.

Lemma readers_equivalent_witness : exists vs,
  strict_fields [FU16; FString; FNetworks] [7; 1; 2; 0; 0; 0; 104; 105; 1; 0; 0; 0; 10; 0; 0; 0; 8] 0%nat = (Some vs, 17%nat) /\
  read_fields account_read [FU16; FString; FNetworks] [7; 1; 2; 0; 0; 0; 104; 105; 1; 0; 0; 0; 10; 0; 0; 0; 8] 0%nat = (vs, 17%nat).
Proof.
  eexists. split; [vm_compute; reflexivity|].
  apply readers_equivalent; [repeat constructor; lia|cbn; lia|cbn; lia|vm_compute; reflexivity].
Defined.

(** A field of which only a part is left is not consumed, so the bytes of it are
    taken for the next field if that is shorter. *)
Lemma truncated_field_shifts a d : length d = 3%nat -> byte_at d 0 = a ->
  (x ← TryReadU32 0; y ← TryReadU8 0; mret (x, y)) d 0%nat = ((0, a), 1%nat).
Proof.
  intros Hd <-. destruct d as [|b [|c [|e [|? ?]]]]; try done.
  change (((0, le_val [b]), 1%nat) = ((0, b), 1%nat)). do 2 f_equal. unfold le_val. lia.
Qed.
End Borsh.
