(* ===== verification/Allocators.v ===== *)
(** * On-chain allocators

    Models [id_allocator.rs], [ip_allocator.rs] and
    [state/resource_extension.rs] of
    [smartcontract/programs/doublezero-serviceability/src]: bitmaps from which
    the program hands out identifiers and blocks of addresses, and the account
    that holds a bitmap. Addresses are the integers of their bits. The
    [ipnetwork] crate is a class. A [None] of a whole operation is a panic. *)

From stdpp Require Import base tactics numbers list gmap sets.
From Stdlib Require Import ZArith Lia ZifyBool ZifyNat.
From S2P Require Import Prelude Bytes GoStrings ByteReader.

#[local] Open Scope Z_scope.

(** ** Networks *)

Record NetworkV4 := mkNet { net_ip : Z; net_prefix : Z }.
#[global] Instance NetworkV4_eq_dec : EqDecision NetworkV4.
Proof. solve_decision. Defined.

(** [1 << (32 - prefix_len)] *)
Definition prefix_len_to_address_count (prefix : Z) : Z := 2 ^ (32 - prefix).

(** A network whose address is the first one of its range. *)
Definition net_aligned (n : NetworkV4) : Prop :=
  0 < net_prefix n <= 32 /\ 0 <= net_ip n /\ net_ip n + prefix_len_to_address_count (net_prefix n) <= 2 ^ 32 /\
  (prefix_len_to_address_count (net_prefix n) | net_ip n).

(** What the program uses of the crate, for a network at its first address. *)
Class IpNetwork := {
  ipn_size : NetworkV4 -> Z;
  ipn_is_subnet_of : NetworkV4 -> NetworkV4 -> bool;
  ipn_nth : NetworkV4 -> Z -> option Z;
  ipn_size_spec n : 0 < net_prefix n <= 32 -> ipn_size n = prefix_len_to_address_count (net_prefix n);
  ipn_subnet_inside n m : net_aligned m -> ipn_is_subnet_of n m = true ->
    net_ip m <= net_ip n < net_ip m + prefix_len_to_address_count (net_prefix m);
  ipn_subnet_intro n m : net_aligned m -> net_aligned n -> net_ip m <= net_ip n ->
    net_ip n + prefix_len_to_address_count (net_prefix n) <= net_ip m + prefix_len_to_address_count (net_prefix m) ->
    ipn_is_subnet_of n m = true;
  ipn_nth_spec n i : net_aligned n -> 0 <= i < prefix_len_to_address_count (net_prefix n) -> ipn_nth n i = Some (net_ip n + i)
}.

(** ** The bitmap *)

(** [bytemuck::cast_slice] to 64-bit words, which panics unless the length is a
    multiple of 8. *)
Definition word_count (bm : bytes) : option nat :=
  if (length bm mod 8 =? 0)%nat then Some (length bm / 8)%nat else None.
Definition word_at (bm : bytes) (i : nat) : Z := le_val (slice bm (8 * i) (8 * i + 8)).
Definition write_word (bm : bytes) (i : nat) (w : Z) : bytes := take (8 * i) bm ++ le_bytes 8 w ++ drop (8 * i + 8) bm.

Definition u64_MAX : Z := 2 ^ 64 - 1.

(** ** Identifiers *)

Record IdAllocator := mkIdAllocator { range_0 : Z; range_1 : Z; id_first_free : nat }.

Definition id_bitmap_required_size (r0 r1 : Z) : nat :=
  let bits_needed := Z.to_nat (u16 (r1 - r0)) in
  let bytes_needed := ((bits_needed + 7) / 8)%nat in
  ((bytes_needed + 7) / 8 * 8)%nat.

(** [None] is the error. *)
Definition IdAllocator_new (r0 r1 : Z) : option IdAllocator :=
  if r1 <=? r0 then None else Some (mkIdAllocator r0 r1 0).

(** The loop over the bits of a word, from [bit] on. *)
Fixpoint id_bits (total base : nat) (word : Z) (bit count : nat) : option nat :=
  match count with
  | O => None
  | S count =>
      if (total <=? base + bit)%nat then None
      else if negb (Z.testbit word (Z.of_nat bit)) then Some bit
      else id_bits total base word (S bit) count
  end.

(** The loop over the words, from [i] on: the word and the bit that are free. *)
Fixpoint id_words (total : nat) (bm : bytes) (i count : nat) : option (nat * nat) :=
  match count with
  | O => None
  | S count =>
      if word_at bm i =? u64_MAX then id_words total bm (S i) count
      else
        match id_bits total (i * 64) (word_at bm i) 0 64 with
        | Some bit => Some (i, bit)
        | None => id_words total bm (S i) count
        end
  end.

Definition IdAllocator_allocate (a : IdAllocator) (bm : bytes) : option (IdAllocator * bytes * option Z) :=
  let total_blocks := Z.to_nat (u16 (range_1 a - range_0 a)) in
  n ← word_count bm;
  Some match id_words total_blocks bm (id_first_free a) (n - id_first_free a) with
       | None => (a, bm, None)
       | Some (i, bit) =>
           let entry := Z.lor (word_at bm i) (2 ^ Z.of_nat bit) in
           let allocated_id := u16 (range_0 a + u16 (Z.of_nat (i * 64 + bit))) in
           let hint := if negb (entry =? u64_MAX) then i else 0%nat in
           (mkIdAllocator (range_0 a) (range_1 a) hint, write_word bm i entry, Some allocated_id)
       end.

(** [Ok true] is success, [Ok false] the error. *)
Definition IdAllocator_allocate_specific (a : IdAllocator) (bm : bytes) (id : Z) : option (IdAllocator * bytes * bool) :=
  if (id <? range_0 a) || (range_1 a <=? id) then Some (a, bm, false)
  else
    let global_bit_index := Z.to_nat (id - range_0 a) in
    let byte_index := (global_bit_index / 8)%nat in
    let mask := 2 ^ Z.of_nat (global_bit_index mod 8) in
    b ← bm !! byte_index;
    Some (if negb (Z.land b mask =? 0) then (a, bm, false)
          else
            let b := Z.lor b mask in
            let a := if b =? 255 then mkIdAllocator (range_0 a) (range_1 a) 0 else a in
            (a, <[byte_index := b]> bm, true)).

Definition IdAllocator_deallocate (a : IdAllocator) (bm : bytes) (id : Z) : option (IdAllocator * bytes * bool) :=
  if (id <? range_0 a) || (range_1 a <=? id) then Some (a, bm, false)
  else
    let global_bit_index := Z.to_nat (id - range_0 a) in
    let byte_index := (global_bit_index / 8)%nat in
    let mask := 2 ^ Z.of_nat (global_bit_index mod 8) in
    b ← bm !! byte_index;
    let was_set := negb (Z.land b mask =? 0) in
    let a := if was_set then mkIdAllocator (range_0 a) (range_1 a) (byte_index / 8) else a in
    Some (a, <[byte_index := Z.ldiff b mask]> bm, was_set).

(** The indices of the set bits, in order. *)
Definition set_bits (bm : bytes) : list nat :=
  filter (fun i => Z.testbit (byte_at bm (i / 8)) (Z.of_nat (i mod 8)) = true) (seq 0 (8 * length bm)).

Definition IdAllocator_iter_allocated (a : IdAllocator) (bm : bytes) : list Z :=
  (fun i => u16 (range_0 a + u16 (Z.of_nat i))) <$> set_bits bm.

(** ** Addresses *)

Record IpAllocator := mkIpAllocator { base_net : NetworkV4; ip_first_free : nat }.

Definition ip_bitmap_required_size (prefix : Z) : nat :=
  (Z.to_nat ((2 ^ (32 - prefix) + 63) / 64) * 8)%nat.

Section Ip.
Context `{!IpNetwork}.

(** [u32::trailing_zeros] *)
Fixpoint trailing_zeros_from (n : Z) (i count : nat) : nat :=
  match count with
  | O => i
  | S count => if Z.testbit n (Z.of_nat i) then i else trailing_zeros_from n (S i) count
  end.
Definition trailing_zeros (n : Z) : nat := trailing_zeros_from n 0 32.

(** What the loop over the slots of a word ends with: a free slot at a bit, the
    end of the addresses, or no free slot. *)
Inductive slot_result := SlotFree (bit_offset : nat) | SlotBeyond | SlotNone.

Fixpoint ip_slots (total size base : nat) (word mask : Z) (slot count : nat) : slot_result :=
  match count with
  | O => SlotNone
  | S count =>
      let bit_offset := (slot * size)%nat in
      if (total <? base + bit_offset + size)%nat then SlotBeyond
      else if Z.land (Z.shiftr word (Z.of_nat bit_offset)) mask =? 0 then SlotFree bit_offset
      else ip_slots total size base word mask (S slot) count
  end.

Fixpoint ip_words (total size : nat) (mask : Z) (bm : bytes) (i count : nat) : option (nat * nat) :=
  match count with
  | O => None
  | S count =>
      if (size <=? 64)%nat && negb (word_at bm i =? u64_MAX) then
        match ip_slots total size (i * 64) (word_at bm i) mask 0 (64 / size) with
        | SlotFree bit_offset => Some (i, bit_offset)
        | SlotBeyond => None
        | SlotNone => ip_words total size mask bm (S i) count
        end
      else ip_words total size mask bm (S i) count
  end.

(** The shift is that of a build without overflow checks: its amount is taken
    modulo 64. *)
Definition IpAllocator_allocate (a : IpAllocator) (bm : bytes) (size : nat) :
    option (IpAllocator * bytes * option NetworkV4) :=
  let prefix_len := 32 - Z.of_nat (trailing_zeros (u32 (Z.of_nat size))) in
  if (prefix_len <? net_prefix (base_net a)) || (prefix_len <? 26) then Some (a, bm, None)
  else
    let total_addresses := Z.to_nat (ipn_size (base_net a)) in
    let mask := u64 (2 ^ (Z.of_nat size mod 64) - 1) in
    n ← word_count bm;
    Some match ip_words total_addresses size mask bm (ip_first_free a) (n - ip_first_free a) with
         | None => (a, bm, None)
         | Some (i, bit_offset) =>
             let word := Z.lor (word_at bm i) (u64 (Z.shiftl mask (Z.of_nat bit_offset))) in
             let ip := u32 (net_ip (base_net a) + u32 (Z.of_nat (i * 64 + bit_offset))) in
             let hint := if (total_addresses <=? (i + 1) * 64)%nat then 0%nat else i in
             (mkIpAllocator (base_net a) hint, write_word bm i word, Some (mkNet ip prefix_len))
         end.

(** Whether every bit of a range has the value [v]; [None] is an index out of
    bounds. *)
Fixpoint is_range (v : bool) (bm : bytes) (start count : nat) : option bool :=
  match count with
  | O => Some true
  | S count =>
      b ← bm !! (start / 8)%nat;
      if Bool.eqb (negb (Z.land b (2 ^ Z.of_nat (start mod 8)) =? 0)) v then is_range v bm (S start) count else Some false
  end.

Fixpoint set_range (v : bool) (bm : bytes) (start count : nat) : option bytes :=
  match count with
  | O => Some bm
  | S count =>
      let mask := 2 ^ Z.of_nat (start mod 8) in
      b ← bm !! (start / 8)%nat;
      set_range v (<[(start / 8)%nat := if v then Z.lor b mask else Z.ldiff b mask]> bm) (S start) count
  end.

Definition IpAllocator_allocate_specific (a : IpAllocator) (bm : bytes) (n : NetworkV4) :
    option (IpAllocator * bytes * bool) :=
  if negb (ipn_is_subnet_of n (base_net a)) then Some (a, bm, false)
  else if net_prefix n <? net_prefix (base_net a) then Some (a, bm, false)
  else
    let size := prefix_len_to_address_count (net_prefix n) in
    let offset := net_ip n - net_ip (base_net a) in
    if offset <? 0 then None
    else if negb (offset mod size =? 0) then Some (a, bm, false)
    else if ipn_size (base_net a) <? offset + size then Some (a, bm, false)
    else
      free ← is_range false bm (Z.to_nat offset) (Z.to_nat size);
      if negb free then Some (a, bm, false)
      else bm ← set_range true bm (Z.to_nat offset) (Z.to_nat size); Some (a, bm, true).

Definition IpAllocator_deallocate (a : IpAllocator) (bm : bytes) (n : NetworkV4) : option (IpAllocator * bytes * bool) :=
  if (net_prefix n <? net_prefix (base_net a)) || negb (ipn_is_subnet_of n (base_net a)) then Some (a, bm, false)
  else
    let size := prefix_len_to_address_count (net_prefix n) in
    let offset := u32 (net_ip n - net_ip (base_net a)) in
    if Z.of_nat (length bm) * 8 <? offset + size then Some (a, bm, false)
    else
      allocated ← is_range true bm (Z.to_nat offset) (Z.to_nat size);
      if negb allocated then Some (a, bm, false)
      else
        bm ← set_range false bm (Z.to_nat offset) (Z.to_nat size);
        let u64_index := (Z.to_nat offset / 64)%nat in
        let a := if (u64_index <? ip_first_free a)%nat then mkIpAllocator (base_net a) u64_index else a in
        Some (a, bm, true).

Definition IpAllocator_iter_allocated (a : IpAllocator) (bm : bytes) : list Z :=
  (fun i => u32 (net_ip (base_net a) + u32 (Z.of_nat i))) <$> set_bits bm.
End Ip.

(** ** Bits of the bitmap *)

Definition bit (bm : bytes) (n : nat) : bool := Z.testbit (le_val bm) (Z.of_nat n).

Lemma le_val_app a b : le_val (a ++ b) = le_val a + 2 ^ (8 * Z.of_nat (length a)) * le_val b.
Proof.
  induction a as [|x a IH]; cbn [app le_val length]; [cbn; lia|]. rewrite IH, pow256_S. lia.
Qed.

Lemma testbit_add_pow2 x y m n : 0 <= x < 2 ^ m -> 0 <= m -> 0 <= n ->
  Z.testbit (x + 2 ^ m * y) n = if n <? m then Z.testbit x n else Z.testbit y (n - m).
Proof.
  intros Hx Hm Hn. destruct (Z.ltb_spec n m).
  - rewrite <- (Z.mod_pow2_bits_low (x + _) m n) by lia. rewrite (Z.mul_comm (2 ^ m)), Z.mod_add by lia.
    by rewrite Z.mod_small by lia.
  - replace n with (n - m + m) at 1 by lia. rewrite <- Z.div_pow2_bits by lia.
    rewrite (Z.mul_comm (2 ^ m)), Z.div_add, Z.div_small by lia. done.
Qed.

Lemma bit_app a b n : bytes_ok a ->
  bit (a ++ b) n = if (n <? 8 * length a)%nat then bit a n else bit b (n - 8 * length a).
Proof.
  intros Ha. unfold bit. assert (Hr := le_val_range a Ha). rewrite le_val_app, testbit_add_pow2 by (unfold is_u in *; lia).
  destruct (Nat.ltb_spec n (8 * length a)).
  - by rewrite (proj2 (Z.ltb_lt _ _)) by lia.
  - rewrite (proj2 (Z.ltb_ge _ _)) by lia. f_equal. lia.
Qed.

Lemma bit_beyond bm n : bytes_ok bm -> (8 * length bm <= n)%nat -> bit bm n = false.
Proof.
  intros Hb Hn. assert (Hr := le_val_range bm Hb). unfold is_u in Hr. unfold bit.
  rewrite <- (Z.mod_small (le_val bm) (2 ^ (8 * Z.of_nat (length bm)))) by lia. apply Z.mod_pow2_bits_high. lia.
Qed.

(** The three parts around a segment of the bitmap. *)
Lemma bit_segment a s c n : bytes_ok a -> bytes_ok s ->
  bit (a ++ s ++ c) n =
  if (n <? 8 * length a)%nat then bit a n
  else if (n <? 8 * (length a + length s))%nat then bit s (n - 8 * length a)
  else bit c (n - 8 * (length a + length s)).
Proof.
  intros Ha Hs. rewrite bit_app by done. destruct (Nat.ltb_spec n (8 * length a)); [done|].
  rewrite bit_app by done. destruct (Nat.ltb_spec (n - 8 * length a) (8 * length s));
    [rewrite (proj2 (Nat.ltb_lt n _)) by lia; done|]. rewrite (proj2 (Nat.ltb_ge n _)) by lia. f_equal. lia.
Qed.

Lemma split_segment (bm : bytes) i k : (i + k <= length bm)%nat ->
  bm = take i bm ++ slice bm i (i + k) ++ drop (i + k) bm.
Proof.
  intros H. unfold slice. replace (i + k - i)%nat with k by lia.
  rewrite <- (take_drop i bm) at 1. f_equal. rewrite <- (take_drop k (drop i bm)) at 1. f_equal. apply drop_drop.
Qed.

Lemma slice_bit bm i k n : bytes_ok bm -> (i + k <= length bm)%nat -> (n < 8 * k)%nat ->
  bit (slice bm i (i + k)) n = bit bm (8 * i + n).
Proof.
  intros Hb Hi Hn. rewrite (split_segment bm i k Hi) at 2. rewrite bit_segment by eauto with dz.
  rewrite length_take, length_slice by lia. replace (i `min` length bm)%nat with i by lia.
  rewrite (proj2 (Nat.ltb_ge _ _)) by lia. rewrite (proj2 (Nat.ltb_lt _ _)) by lia. f_equal. lia.
Qed.

Lemma word_bit bm i b : bytes_ok bm -> (8 * i + 8 <= length bm)%nat -> (b < 64)%nat ->
  Z.testbit (word_at bm i) (Z.of_nat b) = bit bm (64 * i + b).
Proof.
  intros Hb Hi Hn. change (Z.testbit (word_at bm i) (Z.of_nat b)) with (bit (slice bm (8 * i) (8 * i + 8)) b).
  rewrite slice_bit by (done || lia). f_equal. lia.
Qed.

Lemma word_range bm i : bytes_ok bm -> (8 * i + 8 <= length bm)%nat -> is_u64 (word_at bm i).
Proof.
  intros Hb Hi. assert (Hr := le_val_range (slice bm (8 * i) (8 * i + 8)) (bytes_ok_slice _ _ _ Hb)).
  rewrite length_slice in Hr by lia. by replace (8 * i + 8 - 8 * i)%nat with 8%nat in Hr by lia.
Qed.

Lemma segment_replaced bm i k s n : bytes_ok bm -> bytes_ok s -> (i + k <= length bm)%nat -> length s = k ->
  bit (take i bm ++ s ++ drop (i + k) bm) n =
  if (8 * i <=? n)%nat && (n <? 8 * (i + k))%nat then bit s (n - 8 * i) else bit bm n.
Proof.
  intros Hb Hs Hi Hk. rewrite (split_segment bm i k Hi) at 3. rewrite !bit_segment by eauto with dz.
  rewrite length_take, length_slice, Hk by lia. replace (i `min` length bm)%nat with i by lia.
  replace (i + k - i)%nat with k by lia.
  destruct (Nat.ltb_spec n (8 * i)).
  - by rewrite (proj2 (Nat.leb_gt (8 * i) n)) by lia.
  - rewrite (proj2 (Nat.leb_le (8 * i) n)) by lia. cbn [andb]. by destruct (n <? 8 * (i + k))%nat.
Qed.

Lemma write_word_bit bm i w n : bytes_ok bm -> (8 * i + 8 <= length bm)%nat -> is_u64 w ->
  bit (write_word bm i w) n = if (64 * i <=? n)%nat && (n <? 64 * i + 64)%nat then Z.testbit w (Z.of_nat (n - 64 * i)) else bit bm n.
Proof.
  intros Hb Hi Hw. unfold write_word. rewrite segment_replaced by (eauto with dz || done || apply length_le_bytes).
  replace (8 * (8 * i))%nat with (64 * i)%nat by lia. replace (8 * (8 * i + 8))%nat with (64 * i + 64)%nat by lia.
  destruct (_ && _)%bool; [|done]. unfold bit. by rewrite le_round.
Qed.

Lemma length_write_word bm i w : (8 * i + 8 <= length bm)%nat -> length (write_word bm i w) = length bm.
Proof. intros H. unfold write_word. rewrite !length_app, length_take, length_drop, length_le_bytes. lia. Qed.

Lemma write_word_ok bm i w : bytes_ok bm -> bytes_ok (write_word bm i w).
Proof. intros H. unfold write_word. apply bytes_ok_app. split; [eauto with dz|]. apply bytes_ok_app. eauto with dz. Qed.

Lemma bit_byte bm n b : bytes_ok bm -> bm !! (n / 8)%nat = Some b -> bit bm n = Z.testbit b (Z.of_nat (n mod 8)).
Proof.
  intros Hb Hl. assert (Hlt := lookup_lt_Some _ _ _ Hl).
  assert (Hs : slice bm (n / 8) (n / 8 + 1) = [b]).
  { unfold slice. replace (n / 8 + 1 - n / 8)%nat with 1%nat by lia. rewrite (drop_S _ _ _ Hl). done. }
  assert (Hn : (n = 8 * (n / 8) + n mod 8)%nat) by (apply Nat.div_mod; lia).
  assert (Hm := Nat.mod_upper_bound n 8). rewrite Hn at 1. rewrite <- (slice_bit bm (n / 8) 1) by (done || lia).
  rewrite Hs. unfold bit. cbn [le_val]. f_equal. lia.
Qed.

Lemma insert_bit bm k b n : bytes_ok bm -> (k < length bm)%nat -> is_u8 b ->
  bit (<[k := b]> bm) n = if (n / 8 =? k)%nat then Z.testbit b (Z.of_nat (n mod 8)) else bit bm n.
Proof.
  intros Hb Hk Hu. assert (Hb' : bytes_ok (<[k := b]> bm)) by (by apply Forall_insert).
  destruct (Nat.eqb_spec (n / 8) k) as [<-|Hne].
  - apply bit_byte; [done|]. by apply list_lookup_insert_eq.
  - destruct (decide (n / 8 < length bm)%nat) as [Hlt|Hge].
    + destruct (lookup_lt_is_Some_2 bm (n / 8) Hlt) as [c Hc]. rewrite (bit_byte bm n c Hb Hc).
      apply bit_byte; [done|]. by rewrite list_lookup_insert_ne by congruence.
    + assert (8 * length bm <= n)%nat by (assert (Hd := Nat.div_mod n 8 ltac:(lia)); lia).
      rewrite !bit_beyond; [done|done|done|done|by rewrite length_insert].
Qed.

Lemma land_pow2_zero b k : 0 <= k -> (Z.land b (2 ^ k) =? 0) = negb (Z.testbit b k).
Proof.
  intros Hk. destruct (Z.eqb_spec (Z.land b (2 ^ k)) 0) as [H|H]; symmetry.
  - apply negb_true_iff. destruct (Z.testbit b k) eqn:Hb; [|done].
    assert (Ht : Z.testbit (Z.land b (2 ^ k)) k = true) by (by rewrite Z.land_spec, Hb, Z.pow2_bits_true).
    rewrite H in Ht. by rewrite Z.bits_0 in Ht.
  - apply negb_false_iff. destruct (Z.testbit b k) eqn:Hb; [done|]. exfalso. apply H. apply Z.bits_inj'. intros n Hn.
    rewrite Z.land_spec, Z.bits_0, Z.pow2_bits_eqb by lia. destruct (Z.eqb_spec k n) as [<-|]; [by rewrite Hb|by rewrite andb_false_r].
Qed.

(** A number below a power of two, by its bits. *)
Lemma is_u_bits w x : 0 <= w -> 0 <= x -> (forall n, w <= n -> Z.testbit x n = false) -> is_u w x.
Proof.
  intros Hw Hx H. unfold is_u. split; [done|]. destruct (Z.lt_ge_cases x (2 ^ w)) as [|Hge]; [done|].
  assert (Hlog : w <= Z.log2 x) by (by apply Z.log2_le_pow2; lia).
  assert (Hb := Z.bit_log2 x ltac:(lia)). by rewrite H in Hb.
Qed.

Lemma is_u_testbit_high w x n : 0 <= w -> is_u w x -> w <= n -> Z.testbit x n = false.
Proof. intros Hw Hx Hn. unfold is_u in Hx. rewrite <- (Z.mod_small x (2 ^ w)) by lia. apply Z.mod_pow2_bits_high. lia. Qed.

Lemma is_u_lor w x y : 0 <= w -> is_u w x -> is_u w y -> is_u w (Z.lor x y).
Proof.
  intros Hw Hx Hy. apply is_u_bits; [done|apply Z.lor_nonneg; unfold is_u in *; lia|].
  intros n Hn. by rewrite Z.lor_spec, !(is_u_testbit_high w).
Qed.

Lemma is_u_ldiff w x y : 0 <= w -> is_u w x -> 0 <= y -> is_u w (Z.ldiff x y).
Proof.
  intros Hw Hx Hy. apply is_u_bits; [done|apply Z.ldiff_nonneg; unfold is_u in *; lia|].
  intros n Hn. by rewrite Z.ldiff_spec, (is_u_testbit_high w).
Qed.

Lemma is_u_pow2 w k : 0 <= k < w -> is_u w (2 ^ k).
Proof. intros Hk. unfold is_u. split; [lia|]. apply Z.pow_lt_mono_r; lia. Qed.

Lemma byte_lookup (bm : bytes) n : (n < 8 * length bm)%nat -> is_Some (bm !! (n / 8)%nat).
Proof. intros H. apply lookup_lt_is_Some_2. apply Nat.Div0.div_lt_upper_bound. lia. Qed.

Lemma bytes_ok_lookup (bm : bytes) i b : bytes_ok bm -> bm !! i = Some b -> is_u8 b.
Proof. intros Hb Hl. by eapply Forall_lookup_1 in Hb. Qed.

Lemma is_range_spec v bm : bytes_ok bm -> forall count start, (start + count <= 8 * length bm)%nat ->
  exists r, is_range v bm start count = Some r /\
    (r = true <-> forall n, (start <= n < start + count)%nat -> bit bm n = v).
Proof.
  intros Hb. induction count as [|count IH]; intros start Hs; cbn [is_range].
  { exists true. split; [done|]. split; [|done]. intros _ n Hn. lia. }
  destruct (byte_lookup bm start ltac:(lia)) as [b Hl]. rewrite Hl. cbn [mbind option_bind].
  rewrite land_pow2_zero, negb_involutive, <- (bit_byte bm start b Hb Hl) by lia.
  destruct (Bool.eqb (bit bm start) v) eqn:He.
  - apply eqb_prop in He. destruct (IH (S start) ltac:(lia)) as (r & Hr & Hiff). exists r. split; [done|].
    rewrite Hiff. split; intros H n Hn; [|apply H; lia]. destruct (decide (n = start)) as [->|]; [done|]. apply H. lia.
  - exists false. split; [done|]. split; [done|]. intros H. rewrite H in He by lia. by rewrite eqb_reflx in He.
Qed.

Lemma testbit_set (v : bool) b k n : 0 <= k ->  0 <= n ->
  Z.testbit (if v then Z.lor b (2 ^ k) else Z.ldiff b (2 ^ k)) n = if n =? k then v else Z.testbit b n.
Proof.
  intros Hk Hn. destruct v; rewrite ?Z.lor_spec, ?Z.ldiff_spec, Z.pow2_bits_eqb by lia; rewrite (Z.eqb_sym k n);
    destruct (n =? k); by rewrite ?orb_true_r, ?orb_false_r, ?andb_false_r, ?andb_true_r.
Qed.

Lemma set_range_spec v : forall count start bm, bytes_ok bm -> (start + count <= 8 * length bm)%nat ->
  exists bm', set_range v bm start count = Some bm' /\ bytes_ok bm' /\ length bm' = length bm /\
    forall n, bit bm' n = if (start <=? n)%nat && (n <? start + count)%nat then v else bit bm n.
Proof.
  induction count as [|count IH]; intros start bm Hb Hs; cbn [set_range].
  { exists bm. split_and!; [done..|]. intros n. destruct (Nat.leb_spec start n); [|done].
    by rewrite (proj2 (Nat.ltb_ge _ _)) by lia. }
  destruct (byte_lookup bm start ltac:(lia)) as [b Hl]. rewrite Hl. cbn [mbind option_bind].
  assert (Hbu := bytes_ok_lookup _ _ _ Hb Hl). assert (Hm := Nat.mod_upper_bound start 8).
  set (b' := if v then _ else _). assert (Hb'u : is_u8 b').
  { unfold b'. destruct v; [apply is_u_lor|apply is_u_ldiff]; try done; try apply is_u_pow2; lia. }
  assert (Hk : (start / 8 < length bm)%nat) by (by eapply lookup_lt_Some).
  destruct (IH (S start) (<[(start / 8)%nat := b']> bm)) as (bm' & Hset & Hok & Hlen & Hbits);
    [by apply Forall_insert|rewrite length_insert; lia|].
  rewrite length_insert in Hlen. exists bm'. split_and!; [done..|]. intros n. rewrite Hbits, insert_bit by done.
  destruct (decide (n = start)) as [->|Hne].
  - rewrite Nat.eqb_refl. unfold b'. rewrite testbit_set, Z.eqb_refl by lia.
    replace ((start <=? start)%nat && (start <? start + S count)%nat) with true by lia. by destruct (_ && _)%bool.
  - replace ((S start <=? n)%nat && (n <? S start + count)%nat) with ((start <=? n)%nat && (n <? start + S count)%nat) by lia.
    destruct (_ && _)%bool; [done|]. destruct (Nat.eqb_spec (n / 8) (start / 8)) as [He|]; [|done].
    unfold b'. rewrite testbit_set by lia.
    assert (Hn := Nat.div_mod n 8 ltac:(lia)). assert (Hst := Nat.div_mod start 8 ltac:(lia)).
    rewrite (proj2 (Z.eqb_neq _ _)) by lia. symmetry. apply bit_byte; [done|]. by rewrite He.
Qed.

(** ** Scanning for a free bit *)

Lemma id_bits_spec total base word : forall count b0,
  match id_bits total base word b0 count with
  | Some b => (b0 <= b < b0 + count)%nat /\ (base + b < total)%nat /\ Z.testbit word (Z.of_nat b) = false /\
      forall b', (b0 <= b' < b)%nat -> Z.testbit word (Z.of_nat b') = true
  | None => forall b', (b0 <= b' < b0 + count)%nat -> (base + b' < total)%nat -> Z.testbit word (Z.of_nat b') = true
  end.
Proof.
  induction count as [|count IH]; intros b0; cbn [id_bits]; [intros; lia|].
  destruct (Nat.leb_spec total (base + b0)); [intros; lia|].
  destruct (Z.testbit word (Z.of_nat b0)) eqn:Ht; cbn [negb]; [|split; [lia|]; split; [lia|]; split; [done|]; intros; lia].
  specialize (IH (S b0)). destruct (id_bits _ _ _ _ _) as [b|].
  - destruct IH as (H1 & H2 & H3 & H4). split; [lia|]. split; [lia|]. split; [done|]. intros b' Hb'.
    destruct (decide (b' = b0)) as [->|]; [done|]. apply H4. lia.
  - intros b' Hb' Hlt. destruct (decide (b' = b0)) as [->|]; [done|]. apply IH; lia.
Qed.

Lemma testbit_u64_MAX b : (b < 64)%nat -> Z.testbit u64_MAX (Z.of_nat b) = true.
Proof. intros Hb. change u64_MAX with (Z.ones 64). apply Z.ones_spec_low. lia. Qed.

(** A position is in the words from [i] on, or in word [i] or later. *)
Lemma word_position i n : (64 * i <= n)%nat -> (n < 64 * i + 64)%nat \/ (64 * S i <= n)%nat.
Proof. lia. Qed.

Lemma id_words_spec total bm : bytes_ok bm -> forall count i, (8 * (i + count) <= length bm)%nat ->
  match id_words total bm i count with
  | Some (j, b) => (i <= j < i + count)%nat /\ (b < 64)%nat /\ (64 * j + b < total)%nat /\ bit bm (64 * j + b) = false /\
      forall n, (64 * i <= n < 64 * j + b)%nat -> bit bm n = true
  | None => forall n, (64 * i <= n < 64 * (i + count))%nat -> (n < total)%nat -> bit bm n = true
  end.
Proof.
  intros Hb. induction count as [|count IH]; intros i Hi; cbn [id_words]; [intros; lia|].
  specialize (IH (S i) ltac:(lia)).
  (* the word [i] has no free bit *)
  assert (Hnext : (forall n, (64 * i <= n < 64 * i + 64)%nat -> (n < total)%nat -> bit bm n = true) ->
    match id_words total bm (S i) count with
    | Some (j, b) => (i <= j < i + S count)%nat /\ (b < 64)%nat /\ (64 * j + b < total)%nat /\ bit bm (64 * j + b) = false /\
        forall n, (64 * i <= n < 64 * j + b)%nat -> bit bm n = true
    | None => forall n, (64 * i <= n < 64 * (i + S count))%nat -> (n < total)%nat -> bit bm n = true
    end).
  { intros Hfull. destruct (id_words total bm (S i) count) as [[j b]|].
    - destruct IH as (H1 & H2 & H3 & H4 & H5). split; [lia|]. split; [lia|]. split; [lia|]. split; [done|]. intros n Hn.
      destruct (word_position i n ltac:(lia)); [apply Hfull; lia|apply H5; lia].
    - intros n Hn Hlt. destruct (word_position i n ltac:(lia)); [apply Hfull; lia|apply IH; lia]. }
  destruct (Z.eqb_spec (word_at bm i) u64_MAX) as [He|Hne].
  { apply Hnext. intros n Hn _. replace n with (64 * i + (n - 64 * i))%nat by lia.
    rewrite <- word_bit by (done || lia). rewrite He. apply testbit_u64_MAX. lia. }
  assert (Hbits := id_bits_spec total (i * 64) (word_at bm i) 64 0).
  destruct (id_bits total (i * 64) (word_at bm i) 0 64) as [b|].
  - destruct Hbits as (H1 & H2 & H3 & H4). rewrite word_bit in H3 by (done || lia). split; [lia|]. split; [lia|]. split; [lia|]. split; [done|].
    intros n Hn. replace n with (64 * i + (n - 64 * i))%nat by lia. rewrite <- word_bit by (done || lia). apply H4. lia.
  - apply Hnext. intros n Hn Hlt. replace n with (64 * i + (n - 64 * i))%nat by lia.
    rewrite <- word_bit by (done || lia). apply Hbits; lia.
Qed.

Lemma word_count_multiple bm n : length bm = (8 * n)%nat -> word_count bm = Some n.
Proof.
  intros H. unfold word_count. rewrite H, Nat.mul_comm, Nat.Div0.mod_mul, Nat.div_mul by lia. done.
Qed.

(** ** Identifiers: what the allocator does to its bitmap *)

(** An identifier allocator as it is read from its account: the hint is the one
    it was created with. *)
Definition id_ok (a : IdAllocator) (bm : bytes) : Prop :=
  0 <= range_0 a < range_1 a /\ range_1 a < 2 ^ 16 /\ id_first_free a = 0%nat /\ bytes_ok bm /\
  exists n, length bm = (8 * n)%nat /\ range_1 a - range_0 a <= 64 * Z.of_nat n.

Lemma id_allocate_spec a bm : id_ok a bm ->
  exists a' bm' r, IdAllocator_allocate a bm = Some (a', bm', r) /\ bytes_ok bm' /\ length bm' = length bm /\
    match r with
    | Some id => exists k : nat, id = range_0 a + Z.of_nat k /\ id < range_1 a /\ bit bm k = false /\
        (forall n, (n < k)%nat -> bit bm n = true) /\
        forall n, bit bm' n = if (n =? k)%nat then true else bit bm n
    | None => bm' = bm /\ forall n, range_0 a + Z.of_nat n < range_1 a -> bit bm n = true
    end.
Proof.
  intros (Hr & Hr1 & Hh & Hb & nw & Hlen & Hcap). unfold IdAllocator_allocate.
  rewrite (word_count_multiple bm nw Hlen), Hh. cbn [mbind option_bind]. rewrite Nat.sub_0_r.
  rewrite (wrap_id 16) by (unfold is_u; lia). set (total := Z.to_nat (range_1 a - range_0 a)).
  assert (Hs := id_words_spec total bm Hb nw 0 ltac:(lia)).
  destruct (id_words total bm 0 nw) as [[i b]|].
  2: { exists a, bm, None. split_and!; [done..|]. intros n Hn. apply Hs; lia. }
  destruct Hs as (Hi & Hb64 & Htot & Hfree & Hbefore).
  assert (Hw := word_range bm i Hb ltac:(lia)).
  assert (He : is_u64 (Z.lor (word_at bm i) (2 ^ Z.of_nat b))) by (apply is_u_lor; [lia|done|apply is_u_pow2; lia]).
  do 3 eexists. split; [reflexivity|]. split; [by apply write_word_ok|]. split; [apply length_write_word; lia|].
  exists (64 * i + b)%nat. rewrite (wrap_id 16 (Z.of_nat _)), (wrap_id 16) by (unfold is_u; lia).
  split_and!; [lia|lia|done|intros n Hn; apply Hbefore; lia|]. intros n. rewrite write_word_bit by (done || lia).
  destruct ((64 * i <=? n)%nat && (n <? 64 * i + 64)%nat) eqn:Hin.
  2: { rewrite (proj2 (Nat.eqb_neq _ _)) by lia. done. }
  rewrite (testbit_set true) by lia. destruct (Nat.eqb_spec n (64 * i + b)) as [->|Hne].
  - by rewrite (proj2 (Z.eqb_eq _ _)) by lia.
  - rewrite (proj2 (Z.eqb_neq _ _)) by lia. rewrite word_bit by (done || lia). f_equal. lia.
Qed.

Lemma id_allocate_specific_spec a bm id : id_ok a bm ->
  exists a' bm' ok, IdAllocator_allocate_specific a bm id = Some (a', bm', ok) /\ bytes_ok bm' /\ length bm' = length bm /\
    if ok then exists k : nat, id = range_0 a + Z.of_nat k /\ id < range_1 a /\ bit bm k = false /\
      forall n, bit bm' n = if (n =? k)%nat then true else bit bm n
    else bm' = bm /\ forall k : nat, id = range_0 a + Z.of_nat k -> id < range_1 a -> bit bm k = true.
Proof.
  intros (Hr & Hr1 & Hh & Hb & nw & Hlen & Hcap). unfold IdAllocator_allocate_specific.
  destruct ((id <? range_0 a) || (range_1 a <=? id)) eqn:Hout.
  { exists a, bm, false. split_and!; [done..|]. intros k Hk Hlt. lia. }
  set (k := Z.to_nat (id - range_0 a)). destruct (byte_lookup bm k ltac:(lia)) as [b Hl].
  assert (Hk := bit_byte bm k b Hb Hl). assert (Hbu := bytes_ok_lookup _ _ _ Hb Hl). assert (Hm := Nat.mod_upper_bound k 8).
  assert (Hlt := lookup_lt_Some _ _ _ Hl).
  rewrite Hl. cbn [mbind option_bind]. rewrite land_pow2_zero, negb_involutive, <- Hk by lia. destruct (bit bm k) eqn:Hbit.
  { exists a, bm, false. split_and!; [done..|]. intros k' Hk' _. by replace k' with k by lia. }
  assert (Hu : is_u8 (Z.lor b (2 ^ Z.of_nat (k mod 8)))) by (apply is_u_lor; [lia|done|apply is_u_pow2; lia]).
  do 3 eexists. split; [reflexivity|]. split; [by apply Forall_insert|]. split; [apply length_insert|].
  exists k. split_and!; [lia|lia|done|]. intros n. rewrite insert_bit, (testbit_set true) by (done || lia).
  destruct (Nat.eqb_spec n k) as [->|Hne]; [by rewrite Nat.eqb_refl, Z.eqb_refl|].
  destruct (Nat.eqb_spec (n / 8) (k / 8)) as [He|]; [|done].
  assert (Hn := Nat.div_mod n 8 ltac:(lia)). assert (Hst := Nat.div_mod k 8 ltac:(lia)).
  rewrite (proj2 (Z.eqb_neq _ _)) by lia. symmetry. apply bit_byte; [done|]. by rewrite He.
Qed.

Lemma id_deallocate_spec a bm id : id_ok a bm ->
  exists a' bm' ok, IdAllocator_deallocate a bm id = Some (a', bm', ok) /\ bytes_ok bm' /\ length bm' = length bm /\
    if ok then exists k : nat, id = range_0 a + Z.of_nat k /\ id < range_1 a /\ bit bm k = true /\
      forall n, bit bm' n = if (n =? k)%nat then false else bit bm n
    else (forall n, bit bm' n = bit bm n) /\ forall k : nat, id = range_0 a + Z.of_nat k -> id < range_1 a -> bit bm k = false.
Proof.
  intros (Hr & Hr1 & Hh & Hb & nw & Hlen & Hcap). unfold IdAllocator_deallocate.
  destruct ((id <? range_0 a) || (range_1 a <=? id)) eqn:Hout.
  { exists a, bm, false. split_and!; [done..|]. intros k Hk Hlt. lia. }
  set (k := Z.to_nat (id - range_0 a)). destruct (byte_lookup bm k ltac:(lia)) as [b Hl].
  assert (Hk := bit_byte bm k b Hb Hl). assert (Hbu := bytes_ok_lookup _ _ _ Hb Hl). assert (Hm := Nat.mod_upper_bound k 8).
  assert (Hlt := lookup_lt_Some _ _ _ Hl).
  rewrite Hl. cbn [mbind option_bind]. rewrite land_pow2_zero, negb_involutive, <- Hk by lia.
  assert (Hu : is_u8 (Z.ldiff b (2 ^ Z.of_nat (k mod 8)))) by (apply is_u_ldiff; [lia|done|lia]).
  assert (Hbits : forall n, bit (<[(k / 8)%nat := Z.ldiff b (2 ^ Z.of_nat (k mod 8))]> bm) n = if (n =? k)%nat then false else bit bm n).
  { intros n. rewrite insert_bit, (testbit_set false) by (done || lia).
    destruct (Nat.eqb_spec n k) as [->|Hne]; [by rewrite Nat.eqb_refl, Z.eqb_refl|].
    destruct (Nat.eqb_spec (n / 8) (k / 8)) as [He|]; [|done].
    assert (Hn := Nat.div_mod n 8 ltac:(lia)). assert (Hst := Nat.div_mod k 8 ltac:(lia)).
    rewrite (proj2 (Z.eqb_neq _ _)) by lia. symmetry. apply bit_byte; [done|]. by rewrite He. }
  do 3 eexists. split; [reflexivity|]. split; [by apply Forall_insert|]. split; [apply length_insert|].
  destruct (bit bm k) eqn:Hbit.
  - exists k. split_and!; [lia|lia|done|done].
  - split; [|intros k' Hk' _; by replace k' with k by lia]. intros n. rewrite Hbits.
    destruct (Nat.eqb_spec n k) as [->|]; done.
Qed.

(** ** Addresses: scanning for a free block

    Blocks of [size] bits are numbered from the start of the bitmap; [per] of
    them make a word. *)

Definition busy (bm : bytes) (size q : nat) : Prop := exists j, (j < size)%nat /\ bit bm (size * q + j) = true.
Definition free (bm : bytes) (size q : nat) : Prop := forall j, (j < size)%nat -> bit bm (size * q + j) = false.

Lemma land_ones_zero w off s : 0 <= off -> 0 <= s ->
  (Z.land (Z.shiftr w off) (2 ^ s - 1) = 0 <-> forall j, 0 <= j < s -> Z.testbit w (off + j) = false).
Proof.
  intros Ho Hs. replace (2 ^ s - 1) with (Z.ones s) by (rewrite Z.ones_equiv; lia). split.
  - intros H j Hj. assert (Ht : Z.testbit (Z.land (Z.shiftr w off) (Z.ones s)) j = false) by (rewrite H; apply Z.bits_0).
    rewrite Z.land_spec, Z.shiftr_spec, Z.ones_spec_low, andb_true_r in Ht by lia. by rewrite Z.add_comm.
  - intros H. apply Z.bits_inj'. intros n Hn. rewrite Z.bits_0, Z.land_spec, Z.shiftr_spec by lia.
    destruct (Z.lt_ge_cases n s); [rewrite Z.add_comm, H by lia; done|]. by rewrite Z.ones_spec_high, andb_false_r by lia.
Qed.

Section Scan.
Context (total size per : nat) (bm : bytes).
Context (Hsize : (0 < size)%nat) (Hper : (size * per = 64)%nat) (Hbm : bytes_ok bm).

Lemma slot_free i slot : (8 * i + 8 <= length bm)%nat -> (slot < per)%nat ->
  Z.land (Z.shiftr (word_at bm i) (Z.of_nat (slot * size))) (2 ^ Z.of_nat size - 1) = 0 <-> free bm size (i * per + slot).
Proof.
  intros Hi Hs. rewrite land_ones_zero by lia. unfold free.
  assert (Hidx : forall j, (j < size)%nat -> (size * (i * per + slot) + j = 64 * i + (slot * size + j))%nat) by (intros; nia).
  assert (Hlt : forall j, (j < size)%nat -> (slot * size + j < 64)%nat) by (intros; nia). split.
  - intros H j Hj. rewrite Hidx, <- word_bit by (done || auto). replace (Z.of_nat (slot * size + j)) with (Z.of_nat (slot * size) + Z.of_nat j) by lia.
    apply H. lia.
  - intros H j Hj. specialize (H (Z.to_nat j) ltac:(lia)). rewrite Hidx, <- word_bit in H by (done || lia || (apply Hlt; lia)).
    by replace (Z.of_nat (slot * size) + j) with (Z.of_nat (slot * size + Z.to_nat j)) by lia.
Qed.

Lemma not_free_busy q : ~ free bm size q -> busy bm size q.
Proof.
  intros H. unfold busy, free in *. destruct (existsb (fun j => bit bm (size * q + j)) (seq 0 size)) eqn:He.
  - apply existsb_exists in He as (j & Hj & Hb). apply in_seq in Hj. exists j. split; [lia|done].
  - exfalso. apply H. intros j Hj. destruct (bit bm (size * q + j)) eqn:Hb; [|done].
    assert (Hx : existsb (fun j => bit bm (size * q + j)) (seq 0 size) = true); [|congruence].
    apply existsb_exists. exists j. split; [apply in_seq; lia|done].
Qed.

Lemma ip_slots_spec i : (8 * i + 8 <= length bm)%nat -> forall count slot, (slot + count = per)%nat ->
  match ip_slots total size (i * 64) (word_at bm i) (2 ^ Z.of_nat size - 1) slot count with
  | SlotFree off => exists s, off = (s * size)%nat /\ (slot <= s < per)%nat /\ (i * 64 + off + size <= total)%nat /\
      free bm size (i * per + s) /\ forall q, (i * per + slot <= q < i * per + s)%nat -> busy bm size q
  | SlotBeyond => exists s, (slot <= s < per)%nat /\ (total < i * 64 + s * size + size)%nat /\
      forall q, (i * per + slot <= q < i * per + s)%nat -> busy bm size q
  | SlotNone => forall q, (i * per + slot <= q < i * per + per)%nat -> busy bm size q
  end.
Proof.
  intros Hi. induction count as [|count IH]; intros slot Hs; cbn [ip_slots]; [intros; lia|].
  destruct (Nat.ltb_spec total (i * 64 + slot * size + size)).
  { exists slot. split; [lia|]. split; [lia|]. intros; lia. }
  destruct (Z.eqb_spec (Z.land (Z.shiftr (word_at bm i) (Z.of_nat (slot * size))) (2 ^ Z.of_nat size - 1)) 0) as [He|Hne].
  { exists slot. split; [done|]. split; [lia|]. split; [lia|]. split; [by apply slot_free; lia|]. intros; lia. }
  assert (Hbusy : busy bm size (i * per + slot)).
  { apply not_free_busy. intros Hf. apply Hne. apply slot_free; [lia|lia|done]. }
  assert (Hstep : forall e q, (forall q, (i * per + S slot <= q < e)%nat -> busy bm size q) ->
    (i * per + slot <= q < e)%nat -> busy bm size q).
  { intros e q H' Hq. destruct (decide (q = i * per + slot)%nat) as [->|]; [done|]. apply H'. lia. }
  specialize (IH (S slot) ltac:(lia)). destruct (ip_slots _ _ _ _ _ _ _) as [off| |].
  - destruct IH as (s & -> & H1 & H2 & H3 & H4). exists s. split; [done|]. split; [lia|]. split; [lia|]. split; [done|].
    intros q Hq. by eapply Hstep.
  - destruct IH as (s & H1 & H2 & H3). exists s. split; [lia|]. split; [lia|]. intros q Hq. by eapply Hstep.
  - intros q Hq. by eapply Hstep.
Qed.

Lemma full_word_busy i q : (8 * i + 8 <= length bm)%nat -> word_at bm i = u64_MAX ->
  (i * per <= q < i * per + per)%nat -> busy bm size q.
Proof.
  intros Hi Hw Hq. exists 0%nat. split; [done|].
  replace (size * q + 0)%nat with (64 * i + (size * (q - i * per)))%nat by nia.
  assert (size * (q - i * per) < 64)%nat by nia. rewrite <- word_bit by (done || lia). rewrite Hw. by apply testbit_u64_MAX.
Qed.

Lemma ip_words_spec : (size <= 64)%nat -> forall count i, (8 * (i + count) <= length bm)%nat ->
  match ip_words total size (2 ^ Z.of_nat size - 1) bm i count with
  | Some (j, off) => exists q, (64 * j + off = size * q)%nat /\ (i <= j < i + count)%nat /\ (off + size <= 64)%nat /\
      (size * q + size <= total)%nat /\ free bm size q /\ forall q', (i * per <= q' < q)%nat -> busy bm size q'
  | None => forall q, (i * per <= q < (i + count) * per)%nat -> (size * q + size <= total)%nat -> busy bm size q
  end.
Proof.
  intros H64. induction count as [|count IH]; intros i Hi; cbn [ip_words]; [intros; lia|].
  rewrite (proj2 (Nat.leb_le size 64)) by done. cbn [andb]. specialize (IH (S i) ltac:(lia)).
  assert (Hnext : (forall q, (i * per <= q < i * per + per)%nat -> busy bm size q) ->
    match ip_words total size (2 ^ Z.of_nat size - 1) bm (S i) count with
    | Some (j, off) => exists q, (64 * j + off = size * q)%nat /\ (i <= j < i + S count)%nat /\ (off + size <= 64)%nat /\
        (size * q + size <= total)%nat /\ free bm size q /\ forall q', (i * per <= q' < q)%nat -> busy bm size q'
    | None => forall q, (i * per <= q < (i + S count) * per)%nat -> (size * q + size <= total)%nat -> busy bm size q
    end).
  { intros Hfull. destruct (ip_words _ _ _ _ _ _) as [[j off]|].
    - destruct IH as (q & H1 & H2 & H3 & H4 & H5 & H6). exists q. split; [done|]. split; [lia|]. do 3 (split; [done|]).
      intros q' Hq'. destruct (decide (q' < i * per + per)%nat); [apply Hfull; lia|apply H6; lia].
    - intros q Hq Hlt. destruct (decide (q < i * per + per)%nat); [apply Hfull; lia|apply IH; [nia|done]]. }
  destruct (Z.eqb_spec (word_at bm i) u64_MAX) as [He|Hne]; cbn [negb].
  { apply Hnext. intros q Hq. apply (full_word_busy i); [lia|done|lia]. }
  assert (Hp : (64 / size = per)%nat) by (rewrite <- Hper, Nat.mul_comm; by rewrite Nat.div_mul by lia).
  rewrite Hp. assert (Hs := ip_slots_spec i ltac:(lia) per 0 ltac:(lia)).
  destruct (ip_slots _ _ _ _ _ _ _) as [off| |].
  - destruct Hs as (s & -> & H1 & H2 & H3 & H4). exists (i * per + s)%nat. split; [nia|]. split; [lia|]. split; [nia|].
    split; [nia|]. split; [done|]. intros q' Hq'. apply H4. lia.
  - destruct Hs as (s & H1 & H2 & H3). intros q Hq Hlt.
    destruct (decide (q < i * per + s)%nat); [apply H3; lia|]. exfalso. nia.
  - apply Hnext. intros q Hq. apply Hs. lia.
Qed.
End Scan.

(** ** Addresses: what the allocator does to its bitmap *)

(** The block sizes a word holds, but for a whole word. *)
Definition block_size (size : nat) : Prop := exists e, (e <= 5)%nat /\ size = (2 ^ e)%nat.

Definition log_size (size : nat) : Z := Z.log2 (Z.of_nat size).

Lemma block_size_facts size : block_size size ->
  (0 < size <= 32)%nat /\ (size * (64 / size) = 64)%nat /\ Z.of_nat (trailing_zeros (u32 (Z.of_nat size))) = log_size size /\
  0 <= log_size size <= 5 /\ prefix_len_to_address_count (32 - log_size size) = Z.of_nat size.
Proof.
  intros (e & He & ->). do 6 (destruct e as [|e]; [repeat split; first [reflexivity|vm_compute; lia|vm_compute; congruence]|]). lia.
Qed.

Definition ip_ok (a : IpAllocator) (bm : bytes) : Prop :=
  net_aligned (base_net a) /\ ip_first_free a = 0%nat /\ bytes_ok bm /\
  exists n, length bm = (8 * n)%nat /\ prefix_len_to_address_count (net_prefix (base_net a)) <= 64 * Z.of_nat n.

Definition ip_total (a : IpAllocator) : nat := Z.to_nat (prefix_len_to_address_count (net_prefix (base_net a))).

Lemma address_count_pos p : 0 <= p <= 32 -> 0 < prefix_len_to_address_count p.
Proof. intros Hp. unfold prefix_len_to_address_count. apply Z.pow_pos_nonneg; lia. Qed.

Lemma testbit_mask_shift w size off n : is_u64 w -> (0 < size)%nat -> (off + size <= 64)%nat -> (n < 64)%nat ->
  Z.testbit (Z.lor w (u64 (Z.shiftl (2 ^ Z.of_nat size - 1) (Z.of_nat off)))) (Z.of_nat n) =
  if (off <=? n)%nat && (n <? off + size)%nat then true else Z.testbit w (Z.of_nat n).
Proof.
  intros Hw Hs Ho Hn. rewrite Z.lor_spec. unfold wrap. rewrite Z.mod_pow2_bits_low, Z.shiftl_spec by lia.
  replace (2 ^ Z.of_nat size - 1) with (Z.ones (Z.of_nat size)) by (rewrite Z.ones_equiv; lia).
  destruct (Nat.leb_spec off n).
  - destruct (Nat.ltb_spec n (off + size)); cbn [andb]; [rewrite Z.ones_spec_low, orb_true_r by lia; done|].
    by rewrite Z.ones_spec_high, orb_false_r by lia.
  - cbn [andb]. by rewrite (Z.testbit_neg_r (Z.ones _)), orb_false_r by lia.
Qed.

Section IpSpec.
Context `{!IpNetwork}.

Lemma ip_allocate_spec a bm size : ip_ok a bm -> block_size size ->
  exists a' bm' r, IpAllocator_allocate a bm size = Some (a', bm', r) /\ bytes_ok bm' /\ length bm' = length bm /\
    match r with
    | Some n => exists q, n = mkNet (net_ip (base_net a) + Z.of_nat (size * q)) (32 - log_size size) /\
        (size * q + size <= ip_total a)%nat /\ free bm size q /\ (forall q', (q' < q)%nat -> busy bm size q') /\
        forall m, bit bm' m = if (size * q <=? m)%nat && (m <? size * q + size)%nat then true else bit bm m
    | None => bm' = bm /\ forall q, (size * q + size <= ip_total a)%nat -> busy bm size q
    end.
Proof.
  intros (Hal & Hh & Hb & nw & Hlen & Hcap) Hsz. destruct (block_size_facts size Hsz) as (Hs & Hper & Htz & Hlog & Hcnt).
  pose proof Hal as (Hpre & Hip0 & Hip1 & _). assert (Hpos := address_count_pos (net_prefix (base_net a)) ltac:(lia)).
  unfold IpAllocator_allocate. rewrite Htz, (ipn_size_spec (base_net a)) by lia.
  rewrite (proj2 (Z.ltb_ge _ 26)), orb_false_r by lia.
  destruct (Z.ltb_spec (32 - log_size size) (net_prefix (base_net a))) as [Hp|Hp].
  { exists a, bm, None. split_and!; [done..|]. intros q Hq. exfalso. unfold ip_total in Hq.
    assert (Hlt : prefix_len_to_address_count (net_prefix (base_net a)) < prefix_len_to_address_count (32 - log_size size)).
    { unfold prefix_len_to_address_count. apply Z.pow_lt_mono_r; lia. } lia. }
  rewrite (word_count_multiple bm nw Hlen), Hh. cbn [mbind option_bind]. rewrite Nat.sub_0_r.
  rewrite (Z.mod_small (Z.of_nat size) 64) by lia.
  assert (Hmask : u64 (2 ^ Z.of_nat size - 1) = 2 ^ Z.of_nat size - 1).
  { apply wrap_id. unfold is_u. assert (0 < 2 ^ Z.of_nat size) by (apply Z.pow_pos_nonneg; lia).
    assert (2 ^ Z.of_nat size < 2 ^ 64) by (apply Z.pow_lt_mono_r; lia). lia. }
  rewrite Hmask. fold (ip_total a).
  assert (Hw := ip_words_spec (ip_total a) size (64 / size) bm ltac:(lia) Hper Hb ltac:(lia) nw 0 ltac:(lia)).
  destruct (ip_words _ _ _ _ _ _) as [[i off]|].
  2: { exists a, bm, None. split_and!; [done..|]. intros q Hq. apply Hw; [|done]. unfold ip_total in Hq. nia. }
  destruct Hw as (q & Hq & Hi & Hoff & Htot & Hfree & Hbusy).
  assert (Hwr := word_range bm i Hb ltac:(lia)).
  set (w := Z.lor (word_at bm i) _). assert (Hwu : is_u64 w) by (apply is_u_lor; [lia|done|by apply wrap_range]).
  do 3 eexists. split; [reflexivity|]. split; [by apply write_word_ok|]. split; [apply length_write_word; lia|].
  exists q. unfold ip_total in Htot. rewrite (wrap_id 32 (Z.of_nat _)), (wrap_id 32) by (unfold is_u; lia).
  split; [do 2 f_equal; lia|]. split; [done|]. split; [done|]. split; [intros q' Hq'; apply Hbusy; lia|].
  intros m. rewrite write_word_bit by (done || lia).
  destruct ((64 * i <=? m)%nat && (m <? 64 * i + 64)%nat) eqn:Hin.
  - unfold w. rewrite testbit_mask_shift by (done || lia). rewrite word_bit by (done || lia).
    replace (64 * i + (m - 64 * i))%nat with m by lia.
    by replace ((off <=? m - 64 * i)%nat && (m - 64 * i <? off + size)%nat) with ((size * q <=? m)%nat && (m <? size * q + size)%nat) by lia.
  - by replace ((size * q <=? m)%nat && (m <? size * q + size)%nat) with false by lia.
Qed.

(** The offset of a network in the range of the allocator. *)
Definition ip_offset (a : IpAllocator) (n : NetworkV4) : nat := Z.to_nat (net_ip n - net_ip (base_net a)).
Definition net_count (n : NetworkV4) : nat := Z.to_nat (prefix_len_to_address_count (net_prefix n)).

(** A network an allocator could hand out. *)
Definition in_allocator (a : IpAllocator) (n : NetworkV4) : Prop :=
  net_aligned n /\ net_ip (base_net a) <= net_ip n /\ (ip_offset a n + net_count n <= ip_total a)%nat.

Lemma count_divides p p' : 0 <= p <= p' -> p' <= 32 -> (prefix_len_to_address_count p' | prefix_len_to_address_count p).
Proof.
  intros Hp Hp'. unfold prefix_len_to_address_count. exists (2 ^ (p' - p)). rewrite <- Z.pow_add_r by lia. f_equal. lia.
Qed.

(** The bits of a network. *)
Definition net_bits (a : IpAllocator) (n : NetworkV4) (m : nat) : bool :=
  (ip_offset a n <=? m)%nat && (m <? ip_offset a n + net_count n)%nat.

(** What [allocate_specific] ([v] is true) or [deallocate] ([v] is false) ends
    with: the bits of the network had the other value and are set to [v], or
    nothing changes. *)
Definition range_outcome (v : bool) (a : IpAllocator) (bm : bytes) (n : NetworkV4)
    (r : option (IpAllocator * bytes * bool)) : Prop :=
  exists a' bm' ok, r = Some (a', bm', ok) /\ bytes_ok bm' /\ length bm' = length bm /\
    if ok then (if v then in_allocator a n else net_ip (base_net a) <= net_ip n) /\
      (forall m, net_bits a n m = true -> bit bm m = negb v) /\ forall m, bit bm' m = if net_bits a n m then v else bit bm m
    else bm' = bm /\ (in_allocator a n -> exists m, net_bits a n m = true /\ bit bm m = v).

Lemma range_refused v a bm n : bytes_ok bm -> ~ in_allocator a n -> range_outcome v a bm n (Some (a, bm, false)).
Proof. intros Hb Hn. exists a, bm, false. do 3 (split; [done|]). by split. Qed.

(** The check of the bits and their update, which both operations end with. *)
Lemma range_checked (v : bool) (a a' : IpAllocator) (bm : bytes) (n : NetworkV4) : bytes_ok bm -> (ip_offset a n + net_count n <= 8 * length bm)%nat ->
  (if v then in_allocator a n else net_ip (base_net a) <= net_ip n) ->
  range_outcome v a bm n
    (ok ← is_range (negb v) bm (ip_offset a n) (net_count n);
     if negb ok then Some (a, bm, false)
     else bm' ← set_range v bm (ip_offset a n) (net_count n); Some (a', bm', true)).
Proof.
  intros Hb Hrange Hin. destruct (is_range_spec (negb v) bm Hb _ _ Hrange) as (r & Hr & Hiff).
  assert (Hnb : forall m, net_bits a n m = true <-> (ip_offset a n <= m < ip_offset a n + net_count n)%nat) by (intros; unfold net_bits; lia).
  rewrite Hr. cbn [mbind option_bind]. destruct r; cbn [negb].
  - destruct (set_range_spec v (net_count n) (ip_offset a n) bm Hb Hrange) as (bm' & Hset & Hok & Hl & Hbits).
    rewrite Hset. cbn [mbind option_bind]. exists a', bm', true. do 4 (split; [done|]). split; [|done].
    intros m Hm. apply Hiff; [done|]. by apply Hnb.
  - exists a, bm, false. do 4 (split; [done|]). intros _.
    destruct (existsb (fun m => Bool.eqb (bit bm m) v) (seq (ip_offset a n) (net_count n))) eqn:He.
    + apply existsb_exists in He as (m & Hm & Hbit). apply in_seq in Hm. exists m. split; [apply Hnb; lia|by apply eqb_prop].
    + exfalso. assert (Hft : false = true); [|done]. apply Hiff. intros m Hm.
      destruct (bit bm m) eqn:Hbit; destruct v; try done; exfalso;
        (rewrite <- not_true_iff_false in He; apply He, existsb_exists; exists m; split; [apply in_seq; lia|by rewrite Hbit]).
Qed.

Lemma ip_allocate_specific_spec a bm n : ip_ok a bm -> 0 <= net_prefix n <= 32 ->
  range_outcome true a bm n (IpAllocator_allocate_specific a bm n).
Proof.
  intros (Hal & Hh & Hb & nw & Hlen & Hcap) Hpn. pose proof Hal as (Hpre & Hip0 & Hip1 & Hdiv).
  assert (Hpos := address_count_pos (net_prefix (base_net a)) ltac:(lia)). assert (Hposn := address_count_pos (net_prefix n) Hpn).
  unfold IpAllocator_allocate_specific. destruct (ipn_is_subnet_of n (base_net a)) eqn:Hsub; cbn [negb].
  2: { apply range_refused; [done|]. intros (Hn & Hle & Hfit). unfold ip_offset, net_count, ip_total in Hfit.
       rewrite ipn_subnet_intro in Hsub; [done|done|done|done|lia]. }
  destruct (Z.ltb_spec (net_prefix n) (net_prefix (base_net a))) as [Hp|Hp].
  { apply range_refused; [done|]. intros (Hn & Hle & Hfit). unfold ip_offset, net_count, ip_total in Hfit.
    assert (prefix_len_to_address_count (net_prefix (base_net a)) < prefix_len_to_address_count (net_prefix n)); [|lia].
    unfold prefix_len_to_address_count. apply Z.pow_lt_mono_r; lia. }
  assert (Hins := ipn_subnet_inside n (base_net a) Hal Hsub). rewrite (proj2 (Z.ltb_ge _ 0)) by lia.
  assert (Hd := count_divides (net_prefix (base_net a)) (net_prefix n) ltac:(lia) ltac:(lia)).
  assert (Hdb : (prefix_len_to_address_count (net_prefix n) | net_ip (base_net a))) by (by etransitivity).
  destruct (Z.eqb_spec ((net_ip n - net_ip (base_net a)) mod prefix_len_to_address_count (net_prefix n)) 0) as [Hmod|Hmod]; cbn [negb].
  2: { apply range_refused; [done|]. intros ((_ & _ & _ & Hdn) & _). apply Hmod. apply Z.mod_divide; [lia|]. by apply Z.divide_sub_r. }
  assert (Hdn : (prefix_len_to_address_count (net_prefix n) | net_ip n)).
  { apply Z.mod_divide in Hmod; [|lia]. replace (net_ip n) with (net_ip n - net_ip (base_net a) + net_ip (base_net a)) by lia.
    by apply Z.divide_add_r. }
  rewrite ipn_size_spec by lia.
  destruct (Z.ltb_spec (prefix_len_to_address_count (net_prefix (base_net a)))
    (net_ip n - net_ip (base_net a) + prefix_len_to_address_count (net_prefix n))) as [Hout|Hfit].
  { apply range_refused; [done|]. intros (_ & Hle & Hfit). unfold ip_offset, net_count, ip_total in Hfit. lia. }
  apply (range_checked true a a bm n); [done|unfold ip_offset, net_count; lia|].
  split; [|split; [lia|unfold ip_offset, net_count, ip_total; lia]]. split; [lia|]. split; [lia|]. split; [lia|done].
Qed.

Lemma ip_deallocate_spec a bm n : ip_ok a bm -> 0 <= net_prefix n <= 32 -> is_u32 (net_ip n) ->
  range_outcome false a bm n (IpAllocator_deallocate a bm n).
Proof.
  intros (Hal & Hh & Hb & nw & Hlen & Hcap) Hpn Hip. pose proof Hal as (Hpre & Hip0 & Hip1 & Hdiv).
  assert (Hpos := address_count_pos (net_prefix (base_net a)) ltac:(lia)). assert (Hposn := address_count_pos (net_prefix n) Hpn).
  unfold IpAllocator_deallocate. destruct (Z.ltb_spec (net_prefix n) (net_prefix (base_net a))) as [Hp|Hp]; cbn [orb].
  { apply range_refused; [done|]. intros (Hn & Hle & Hfit). unfold ip_offset, net_count, ip_total in Hfit.
    assert (prefix_len_to_address_count (net_prefix (base_net a)) < prefix_len_to_address_count (net_prefix n)); [|lia].
    unfold prefix_len_to_address_count. apply Z.pow_lt_mono_r; lia. }
  destruct (ipn_is_subnet_of n (base_net a)) eqn:Hsub; cbn [negb].
  2: { apply range_refused; [done|]. intros (Hn & Hle & Hfit). unfold ip_offset, net_count, ip_total in Hfit.
       rewrite ipn_subnet_intro in Hsub; [done|done|done|done|lia]. }
  assert (Hins := ipn_subnet_inside n (base_net a) Hal Hsub). unfold is_u in Hip. rewrite (wrap_id 32) by (unfold is_u; lia).
  destruct (Z.ltb_spec (Z.of_nat (length bm) * 8) (net_ip n - net_ip (base_net a) + prefix_len_to_address_count (net_prefix n))).
  { apply range_refused; [done|]. intros (_ & Hle & Hfit). unfold ip_offset, net_count, ip_total in Hfit. lia. }
  apply range_checked; [done|unfold ip_offset, net_count; lia|lia].
Qed.
End IpSpec.
