(* ===== verification/OnchainState.v ===== *)
(** * The on-chain program: its accounts

    Models the account types of
    [smartcontract/programs/doublezero-serviceability/src/state] that the
    modelled instructions use (global state, permissions, program
    configuration, contributors, exchanges, devices and their interfaces, links,
    topologies, multicast groups, access passes), with the checks a value
    passes before it is written ([Validate]), the helpers of [helper.rs] and
    the name checks of [smartcontract/programs/common/src]. Strings are the
    code points of their characters and addresses the integers of their
    bits. *)

From stdpp Require Import base tactics numbers list gmap sets.
From Stdlib Require Import ZArith Lia ZifyBool ZifyNat.
From S2P Require Import Prelude Bytes GoStrings Allocators.

#[local] Open Scope Z_scope.

Abbreviation Pubkey := bytes.
Definition Pubkey_default : Pubkey := replicate 32 0.
(** [solana_system_interface::program::ID] *)
Definition SYSTEM_PROGRAM_ID : Pubkey := replicate 32 0.
Definition NetworkV4_default : NetworkV4 := mkNet 0 0.

(** ** Errors *)

Inductive DoubleZeroError :=
| DZ_Custom (code : Z) | DZ_InvalidOwnerPubkey | DZ_InvalidExchangePubkey | DZ_InvalidDevicePubkey | DZ_InvalidLocationPubkey
| DZ_InvalidDeviceAPubkey | DZ_InvalidDeviceZPubkey | DZ_InvalidStatus | DZ_NotAllowed | DZ_InvalidAccountType
| DZ_InvalidContributorPubkey | DZ_InvalidInterfaceVersion | DZ_InvalidInterfaceName | DZ_ReferenceCountNotZero
| DZ_InvalidContributor | DZ_InvalidInterfaceZForExternal | DZ_InvalidIndex | DZ_DeviceAlreadySet | DZ_DeviceNotSet
| DZ_InvalidAccountCode | DZ_MaxUsersExceeded | DZ_InvalidLastAccessEpoch | DZ_Unauthorized | DZ_InvalidSolanaPubkey
| DZ_InterfaceNotFound | DZ_AccessPassUnauthorized | DZ_InvalidClientIp | DZ_InvalidDzIp | DZ_InvalidTunnelNet
| DZ_InvalidTunnelId | DZ_InvalidTunnelIp | DZ_InvalidBandwidth | DZ_InvalidDelay | DZ_InvalidJitter | DZ_CodeTooLong
| DZ_NoDzPrefixes | DZ_InvalidLocation | DZ_InvalidExchange | DZ_InvalidDzPrefix | DZ_NameTooLong | DZ_InvalidLatitude
| DZ_InvalidLongitude | DZ_InvalidLocId | DZ_InvalidCountryCode | DZ_InvalidLocalAsn | DZ_InvalidRemoteAsn | DZ_InvalidMtu
| DZ_InvalidInterfaceIp | DZ_InvalidInterfaceIpNet | DZ_InvalidVlanId | DZ_InvalidMaxBandwidth | DZ_InvalidMulticastIp
| DZ_InvalidAccountOwner | DZ_AccessPassNotFound | DZ_UserAccountNotFound | DZ_InvalidBgpCommunity
| DZ_InterfaceAlreadyExists | DZ_InvalidInterfaceType | DZ_InvalidLoopbackType | DZ_InvalidMinCompatibleVersion
| DZ_InvalidActualLocation | DZ_InvalidUserPubkey | DZ_InvalidPublicIp | DZ_AllocationFailed | DZ_SerializationFailure
| DZ_InvalidArgument | DZ_InvalidFoundationAllowlist | DZ_Deprecated | DZ_ImmutableField | DZ_CyoaRequiresPhysical
| DZ_DeviceHasInterfaces | DZ_MulticastGroupNotEmpty | DZ_AccessPassInUse | DZ_InvalidTenantPubkey | DZ_InvalidVrfId
| DZ_VrfIdTooLong | DZ_AdministratorAlreadyExists | DZ_AdministratorNotFound | DZ_InvalidPaymentStatus
| DZ_TenantNotInAccessPassAllowlist | DZ_InvalidTunnelEndpoint | DZ_MaxUnicastUsersExceeded
| DZ_MaxMulticastSubscribersExceeded | DZ_InterfaceHasEdgeAssignment | DZ_FeatureNotEnabled
| DZ_MaxMulticastPublishersExceeded | DZ_ArithmeticOverflow | DZ_InvalidName | DZ_InvalidDeviceTunnelBlock
| DZ_AccessPassMaxUnicastUsersExceeded | DZ_AccessPassMaxMulticastUsersExceeded | DZ_MetroMismatch | DZ_FeedAccountRequired
| DZ_FeedNotOnAccessPass | DZ_GroupNotInFeed | DZ_FeedSeatFull | DZ_FeedMaxUsersZero | DZ_FeedMaxUsersBelowCurrentUsers
| DZ_FeedMaxFutureUsersBelowMaxUsers | DZ_FeedInvalidAnniversaryDay | DZ_FeedInvalidBillingWindow.

(** The codes of the errors in a transaction result. *)
Definition error_code (e : DoubleZeroError) : Z :=
  match e with
  | DZ_Custom code => code
  | DZ_InvalidOwnerPubkey => 1 | DZ_InvalidLocationPubkey => 2 | DZ_InvalidExchangePubkey => 3 | DZ_InvalidDeviceAPubkey => 4
  | DZ_InvalidDeviceZPubkey => 5 | DZ_InvalidDevicePubkey => 6 | DZ_InvalidStatus => 7 | DZ_NotAllowed => 8
  | DZ_InvalidAccountType => 9 | DZ_InvalidContributorPubkey => 10 | DZ_InvalidInterfaceVersion => 11
  | DZ_InvalidInterfaceName => 12 | DZ_ReferenceCountNotZero => 13 | DZ_InvalidContributor => 14
  | DZ_InvalidInterfaceZForExternal => 15 | DZ_InvalidIndex => 16 | DZ_DeviceAlreadySet => 17 | DZ_DeviceNotSet => 18
  | DZ_InvalidAccountCode => 19 | DZ_MaxUsersExceeded => 20 | DZ_InvalidLastAccessEpoch => 21 | DZ_Unauthorized => 22
  | DZ_InvalidSolanaPubkey => 23 | DZ_InterfaceNotFound => 24 | DZ_AccessPassUnauthorized => 25 | DZ_InvalidClientIp => 26
  | DZ_InvalidDzIp => 27 | DZ_InvalidTunnelNet => 28 | DZ_InvalidTunnelId => 29 | DZ_InvalidTunnelIp => 30
  | DZ_InvalidBandwidth => 31 | DZ_InvalidDelay => 32 | DZ_InvalidJitter => 33 | DZ_CodeTooLong => 34 | DZ_NoDzPrefixes => 35
  | DZ_InvalidLocation => 36 | DZ_InvalidExchange => 37 | DZ_InvalidDzPrefix => 38 | DZ_NameTooLong => 39
  | DZ_InvalidLatitude => 40 | DZ_InvalidLongitude => 41 | DZ_InvalidLocId => 42 | DZ_InvalidCountryCode => 43
  | DZ_InvalidLocalAsn => 44 | DZ_InvalidRemoteAsn => 45 | DZ_InvalidMtu => 46 | DZ_InvalidInterfaceIp => 47
  | DZ_InvalidInterfaceIpNet => 48 | DZ_InvalidVlanId => 49 | DZ_InvalidMaxBandwidth => 50 | DZ_InvalidMulticastIp => 51
  | DZ_InvalidAccountOwner => 52 | DZ_AccessPassNotFound => 53 | DZ_UserAccountNotFound => 54 | DZ_InvalidBgpCommunity => 55
  | DZ_InterfaceAlreadyExists => 56 | DZ_InvalidInterfaceType => 57 | DZ_InvalidLoopbackType => 58
  | DZ_InvalidMinCompatibleVersion => 59 | DZ_InvalidActualLocation => 60 | DZ_InvalidUserPubkey => 61
  | DZ_InvalidPublicIp => 62 | DZ_AllocationFailed => 63 | DZ_SerializationFailure => 64 | DZ_InvalidArgument => 65
  | DZ_InvalidFoundationAllowlist => 66 | DZ_Deprecated => 67 | DZ_ImmutableField => 68 | DZ_CyoaRequiresPhysical => 69
  | DZ_DeviceHasInterfaces => 70 | DZ_MulticastGroupNotEmpty => 71 | DZ_AccessPassInUse => 72 | DZ_InvalidTenantPubkey => 73
  | DZ_InvalidVrfId => 74 | DZ_VrfIdTooLong => 75 | DZ_AdministratorAlreadyExists => 76 | DZ_AdministratorNotFound => 77
  | DZ_InvalidPaymentStatus => 78 | DZ_TenantNotInAccessPassAllowlist => 79 | DZ_InvalidTunnelEndpoint => 80
  | DZ_MaxUnicastUsersExceeded => 81 | DZ_MaxMulticastSubscribersExceeded => 82 | DZ_InterfaceHasEdgeAssignment => 83
  | DZ_FeatureNotEnabled => 84 | DZ_MaxMulticastPublishersExceeded => 85 | DZ_ArithmeticOverflow => 86 | DZ_InvalidName => 87
  | DZ_InvalidDeviceTunnelBlock => 88 | DZ_AccessPassMaxUnicastUsersExceeded => 89
  | DZ_AccessPassMaxMulticastUsersExceeded => 90 | DZ_MetroMismatch => 91 | DZ_FeedAccountRequired => 92
  | DZ_FeedNotOnAccessPass => 93 | DZ_GroupNotInFeed => 94 | DZ_FeedSeatFull => 95 | DZ_FeedMaxUsersZero => 96
  | DZ_FeedMaxUsersBelowCurrentUsers => 97 | DZ_FeedMaxFutureUsersBelowMaxUsers => 98 | DZ_FeedInvalidAnniversaryDay => 99
  | DZ_FeedInvalidBillingWindow => 100
  end.

Definition error_of_code (code : Z) : DoubleZeroError :=
  match code with
  | 1 => DZ_InvalidOwnerPubkey | 2 => DZ_InvalidLocationPubkey | 3 => DZ_InvalidExchangePubkey | 4 => DZ_InvalidDeviceAPubkey
  | 5 => DZ_InvalidDeviceZPubkey | 6 => DZ_InvalidDevicePubkey | 7 => DZ_InvalidStatus | 8 => DZ_NotAllowed
  | 9 => DZ_InvalidAccountType | 10 => DZ_InvalidContributorPubkey | 11 => DZ_InvalidInterfaceVersion
  | 12 => DZ_InvalidInterfaceName | 13 => DZ_ReferenceCountNotZero | 14 => DZ_InvalidContributor
  | 15 => DZ_InvalidInterfaceZForExternal | 16 => DZ_InvalidIndex | 17 => DZ_DeviceAlreadySet | 18 => DZ_DeviceNotSet
  | 19 => DZ_InvalidAccountCode | 20 => DZ_MaxUsersExceeded | 21 => DZ_InvalidLastAccessEpoch | 22 => DZ_Unauthorized
  | 23 => DZ_InvalidSolanaPubkey | 24 => DZ_InterfaceNotFound | 25 => DZ_AccessPassUnauthorized | 26 => DZ_InvalidClientIp
  | 27 => DZ_InvalidDzIp | 28 => DZ_InvalidTunnelNet | 29 => DZ_InvalidTunnelId | 30 => DZ_InvalidTunnelIp
  | 31 => DZ_InvalidBandwidth | 32 => DZ_InvalidDelay | 33 => DZ_InvalidJitter | 34 => DZ_CodeTooLong | 35 => DZ_NoDzPrefixes
  | 36 => DZ_InvalidLocation | 37 => DZ_InvalidExchange | 38 => DZ_InvalidDzPrefix | 39 => DZ_NameTooLong
  | 40 => DZ_InvalidLatitude | 41 => DZ_InvalidLongitude | 42 => DZ_InvalidLocId | 43 => DZ_InvalidCountryCode
  | 44 => DZ_InvalidLocalAsn | 45 => DZ_InvalidRemoteAsn | 46 => DZ_InvalidMtu | 47 => DZ_InvalidInterfaceIp
  | 48 => DZ_InvalidInterfaceIpNet | 49 => DZ_InvalidVlanId | 50 => DZ_InvalidMaxBandwidth | 51 => DZ_InvalidMulticastIp
  | 52 => DZ_InvalidAccountOwner | 53 => DZ_AccessPassNotFound | 54 => DZ_UserAccountNotFound | 55 => DZ_InvalidBgpCommunity
  | 56 => DZ_InterfaceAlreadyExists | 57 => DZ_InvalidInterfaceType | 58 => DZ_InvalidLoopbackType
  | 59 => DZ_InvalidMinCompatibleVersion | 60 => DZ_InvalidActualLocation | 61 => DZ_InvalidUserPubkey
  | 62 => DZ_InvalidPublicIp | 63 => DZ_AllocationFailed | 64 => DZ_SerializationFailure | 65 => DZ_InvalidArgument
  | 66 => DZ_InvalidFoundationAllowlist | 67 => DZ_Deprecated | 68 => DZ_ImmutableField | 69 => DZ_CyoaRequiresPhysical
  | 70 => DZ_DeviceHasInterfaces | 71 => DZ_MulticastGroupNotEmpty | 72 => DZ_AccessPassInUse | 73 => DZ_InvalidTenantPubkey
  | 74 => DZ_InvalidVrfId | 75 => DZ_VrfIdTooLong | 76 => DZ_AdministratorAlreadyExists | 77 => DZ_AdministratorNotFound
  | 78 => DZ_InvalidPaymentStatus | 79 => DZ_TenantNotInAccessPassAllowlist | 80 => DZ_InvalidTunnelEndpoint
  | 81 => DZ_MaxUnicastUsersExceeded | 82 => DZ_MaxMulticastSubscribersExceeded | 83 => DZ_InterfaceHasEdgeAssignment
  | 84 => DZ_FeatureNotEnabled | 85 => DZ_MaxMulticastPublishersExceeded | 86 => DZ_ArithmeticOverflow | 87 => DZ_InvalidName
  | 88 => DZ_InvalidDeviceTunnelBlock | 89 => DZ_AccessPassMaxUnicastUsersExceeded
  | 90 => DZ_AccessPassMaxMulticastUsersExceeded | 91 => DZ_MetroMismatch | 92 => DZ_FeedAccountRequired
  | 93 => DZ_FeedNotOnAccessPass | 94 => DZ_GroupNotInFeed | 95 => DZ_FeedSeatFull | 96 => DZ_FeedMaxUsersZero
  | 97 => DZ_FeedMaxUsersBelowCurrentUsers | 98 => DZ_FeedMaxFutureUsersBelowMaxUsers | 99 => DZ_FeedInvalidAnniversaryDay
  | 100 => DZ_FeedInvalidBillingWindow
  | _ => DZ_Custom code
  end.

(** The client recovers the error from the code of the transaction, unless a
    custom code is one of the numbered ones; no two errors share a code. *)
Lemma error_roundtrip e : (forall code, e = DZ_Custom code -> ~ 1 <= code <= 100) -> error_of_code (error_code e) = e.
Proof.
  destruct e; intros H; [|reflexivity..]. specialize (H _ eq_refl). unfold error_of_code, error_code.
  destruct code as [|p|p]; [done| |done]. do 7 (destruct p as [p|p|]; try done; try lia).
Qed.
Lemma error_code_roundtrip code : error_code (error_of_code code) = code.
Proof. unfold error_of_code. destruct code as [|p|p]; [done| |done]. do 7 (destruct p as [p|p|]; try done). Qed.

Inductive ProgramError :=
| PE_NotEnoughAccountKeys | PE_InvalidArgument | PE_InvalidAccountData | PE_AccountAlreadyInitialized
| PE_MissingRequiredSignature | PE_IncorrectProgramId | PE_InvalidInstructionData | PE_BorshIoError
| PE_Runtime (** refused by the runtime or by the system program *)
| PE_Custom (e : DoubleZeroError).

Definition R (A : Type) : Type := res ProgramError A.
#[global] Instance R_ret : MRet R := @res_ret ProgramError.
#[global] Instance R_bind : MBind R := @res_bind ProgramError.

(** [assert!] *)
Definition assert_that (b : bool) : R unit := if b then Ok () else Panic.
(** [if !b { return Err(e) }] *)
Definition ensure (b : bool) (e : ProgramError) : R unit := if b then Ok () else Err e.
(** [if b { return Err(e.into()) }] *)
Definition reject (b : bool) (e : DoubleZeroError) : R unit := if b then Err (PE_Custom e) else Ok ().

Lemma bind_ok {A B} (m : R A) (k : A -> R B) b : (x ← m; k x) = Ok b <-> exists a, m = Ok a /\ k a = Ok b.
Proof.
  destruct m; cbn; [split; [eauto|by intros (? & [= ->] & ?)]|split; [done|by intros (? & ? & ?)]..].
Qed.

Lemma assert_that_ok b u : assert_that b = Ok u <-> b = true.
Proof. destruct b, u; cbn; split; congruence. Qed.

Lemma ensure_ok b e u : ensure b e = Ok u <-> b = true.
Proof. destruct b, u; cbn; split; congruence. Qed.

Lemma reject_ok b e u : reject b e = Ok u <-> b = false.
Proof. destruct b, u; cbn; split; congruence. Qed.

(** Split an equation between a fallible computation and [Ok _]. *)
Ltac inv_ok :=
  repeat match goal with
  | H : mbind _ _ = Ok _ |- _ => apply bind_ok in H as (? & ? & ?)
  | H : assert_that _ = Ok _ |- _ => apply assert_that_ok in H
  | H : ensure _ _ = Ok _ |- _ => apply ensure_ok in H
  | H : reject _ _ = Ok _ |- _ => apply reject_ok in H
  | H : bool_decide _ = true |- _ => apply bool_decide_eq_true in H
  | H : negb _ = false |- _ => apply negb_false_iff in H
  | H : Ok _ = Ok _ |- _ => injection H as H; subst
  | H : Err _ = Ok _ |- _ => discriminate H
  | H : Panic = Ok _ |- _ => discriminate H
  | x : (_ * _)%type |- _ => destruct x
  | x : unit |- _ => destruct x
  end.

(** Run a fallible computation whose checks hold. *)
Lemma bind_assert {A} b (k : unit -> R A) r : b = true -> k () = r -> (x ← assert_that b; k x) = r.
Proof. by intros ->. Qed.
Lemma bind_ensure {A} b e (k : unit -> R A) r : b = true -> k () = r -> (x ← ensure b e; k x) = r.
Proof. by intros ->. Qed.
Lemma bind_reject {A} b e (k : unit -> R A) r : b = false -> k () = r -> (x ← reject b e; k x) = r.
Proof. by intros ->. Qed.

Ltac check_ok :=
  match goal with
  | H : ?P |- ?P => exact H
  | |- bool_decide _ = true => apply bool_decide_eq_true; check_ok
  | |- bool_decide _ = false => apply bool_decide_eq_false; check_ok
  | |- _ && _ = true => apply andb_true_iff; split; check_ok
  | |- _ || _ = false => apply orb_false_iff; split; check_ok
  | |- negb _ = true => apply negb_true_iff; check_ok
  | |- negb _ = false => apply negb_false_iff; check_ok
  | |- _ => reflexivity
  end.
Ltac run_ok :=
  repeat first [apply bind_assert; [solve [check_ok]|cbn beta iota] | apply bind_ensure; [solve [check_ok]|cbn beta iota]
    | apply bind_reject; [solve [check_ok]|cbn beta iota]
    | apply bind_ok; eexists; split; [solve [eassumption | reflexivity]|cbn beta iota]].

(** ** Strings *)

(** The bytes of a character in UTF-8. *)
Definition utf8_len (c : Z) : nat := if c <? 128 then 1 else if c <? 2048 then 2 else if c <? 65536 then 3 else 4.
(** [str::len] *)
Definition str_len (s : list Z) : nat := foldr (fun c n => utf8_len c + n)%nat 0%nat s.

Definition is_ascii_alphanumeric (c : Z) : bool :=
  (48 <=? c) && (c <=? 57) || (65 <=? c) && (c <=? 90) || (97 <=? c) && (c <=? 122).

(** The Unicode tables beyond ASCII. *)
Class Unicode := unicode_alphanumeric : Z -> bool.

(** [u32::from_str]: an optional sign and digits. *)
Definition parses_as_u32 (s : list Z) : bool :=
  let digits := match s with c :: rest => if c =? 43 then rest else s | [] => [] end in
  match digits with
  | [] => false
  | _ => match digits_val 0 digits with Some n => n <? 2 ^ 32 | None => false end
  end.

(** ** [validate_iface.rs] *)

(** [strip_prefix(p).unwrap_or("")] *)
Definition strip_prefix_or_empty (s p : list Z) : list Z := if HasPrefix s p then drop (length p) s else [].

Definition is_ethernet (s : list Z) : bool :=
  let parts := Split (strip_prefix_or_empty s (lit "ethernet")) 47 in
  (length parts <=? 2)%nat && forallb parses_as_u32 parts.
Definition is_switch (s : list Z) : bool :=
  let parts := Split (strip_prefix_or_empty s (lit "switch")) 47 in
  (length parts =? 3)%nat && forallb parses_as_u32 parts.
Definition is_loopback_name (s : list Z) : bool := parses_as_u32 (strip_prefix_or_empty s (lit "loopback")).
Definition is_port_channel (s : list Z) : bool := parses_as_u32 (strip_prefix_or_empty s (lit "port-channel")).
Definition is_vlan (s : list Z) : bool := parses_as_u32 (strip_prefix_or_empty s (lit "vlan")).
Definition is_valid_subinterface (s : list Z) : bool := parses_as_u32 s.

Definition is_valid_interface_name (s : list Z) : bool :=
  let parts := Split (ToLower s) 46 in
  let main := default [] (parts !! 0%nat) in
  let main_match :=
    if HasPrefix main (lit "ethernet") then is_ethernet main
    else if HasPrefix main (lit "switch") then is_switch main
    else if HasPrefix main (lit "loopback") then is_loopback_name main
    else if HasPrefix main (lit "port-channel") then is_port_channel main
    else if HasPrefix main (lit "vlan") then is_vlan main
    else false in
  main_match && match parts !! 1%nat with Some sub => is_valid_subinterface sub | None => true end.

(** The expansion of a shorthand; [val[0..2]] panics inside a character. *)
Definition expand_shorthand (val : list Z) : R (option (list Z)) :=
  match val with
  | a :: b :: rest =>
      if (utf8_len a =? 2)%nat then Ok None
      else if (utf8_len a =? 1)%nat && (utf8_len b =? 1)%nat then
        let short := ToLower [a; b] in
        Ok (if bool_decide (short = lit "et") then Some (lit "Ethernet" ++ rest)
            else if bool_decide (short = lit "sw") then Some (lit "Switch" ++ rest)
            else if bool_decide (short = lit "lo") then Some (lit "Loopback" ++ rest)
            else if bool_decide (short = lit "po") then Some (lit "Port-channel" ++ rest)
            else if bool_decide (short = lit "vl") then Some (lit "Vlan" ++ rest)
            else None)
      else Panic
  | _ => Panic
  end.

(** Whether the name is accepted; the standardised name is not used. *)
Definition validate_iface (val : list Z) : R bool :=
  if is_valid_interface_name val then Ok true
  else if (str_len val <? 3)%nat then Ok false
  else
    alt ← expand_shorthand val;
    Ok match alt with Some alt => is_valid_interface_name alt | None => false end.

(** ** [validate_account_code.rs] *)
Section Codes.
Context `{!Unicode}.

Definition is_alphanumeric (c : Z) : bool := if c <? 128 then is_ascii_alphanumeric c else unicode_alphanumeric c.
Definition validate_account_code (val : list Z) : option (list Z) :=
  if forallb (fun c => is_alphanumeric c || (c =? 58) || (c =? 95) || (c =? 45)) val then Some val else None.
End Codes.

(** ** Addresses *)

Definition octet (ip : Z) (i : Z) : Z := Z.shiftr ip (8 * (3 - i)) mod 256.
Definition in_net (ip net prefix : Z) : bool := Z.shiftr ip (32 - prefix) =? Z.shiftr net (32 - prefix).
Definition ipv4 (a b c d : Z) : Z := ((a * 256 + b) * 256 + c) * 256 + d.

(** [std::net::Ipv4Addr] *)
Definition is_private (ip : Z) : bool :=
  in_net ip (ipv4 10 0 0 0) 8 || in_net ip (ipv4 172 16 0 0) 12 || in_net ip (ipv4 192 168 0 0) 16.
Definition is_link_local (ip : Z) : bool := in_net ip (ipv4 169 254 0 0) 16.
Definition is_multicast (ip : Z) : bool := in_net ip (ipv4 224 0 0 0) 4.
Definition is_documentation (ip : Z) : bool :=
  in_net ip (ipv4 192 0 2 0) 24 || in_net ip (ipv4 198 51 100 0) 24 || in_net ip (ipv4 203 0 113 0) 24.

(** [helper.rs] *)
Definition is_global (ip : Z) : bool :=
  if (ip =? 0) || is_private ip || (octet ip 0 =? 127) || is_link_local ip || (ip =? 2 ^ 32 - 1) || is_documentation ip then false
  else if octet ip 0 =? 0 then false
  else if (octet ip 0 =? 100) && (Z.land (octet ip 1) 192 =? 64) then false
  else if (octet ip 0 =? 192) && (octet ip 1 =? 0) && (octet ip 2 =? 0) then false
  else if Z.land (octet ip 0) 240 =? 224 then false
  else if 240 <=? octet ip 0 then false
  else true.

(** ** Governing accounts *)

Record GlobalState := mkGlobalState {
  bump_seed : Z;
  account_index : Z;
  foundation_allowlist : list Pubkey;
  device_allowlist : list Pubkey;
  user_allowlist : list Pubkey;
  activator_authority_pk : Pubkey;
  sentinel_authority_pk : Pubkey;
  contributor_airdrop_lamports : Z;
  user_airdrop_lamports : Z;
  health_oracle_pk : Pubkey;
  qa_allowlist : list Pubkey;
  feature_flags : Z;
  feed_authority_pk : Pubkey
}.
#[global] Instance GlobalState_eta : RecordEta GlobalState := {
  eta_record := fun r => mkGlobalState (bump_seed r) (account_index r) (foundation_allowlist r) (device_allowlist r)
    (user_allowlist r) (activator_authority_pk r) (sentinel_authority_pk r) (contributor_airdrop_lamports r)
    (user_airdrop_lamports r) (health_oracle_pk r) (qa_allowlist r) (feature_flags r) (feed_authority_pk r);
  eta_record_id := fun r => match r with mkGlobalState _ _ _ _ _ _ _ _ _ _ _ _ _ => eq_refl end
}.

Inductive PermissionStatus := PermissionNone | PermissionActivated | PermissionSuspended.
#[global] Instance PermissionStatus_eq_dec : EqDecision PermissionStatus.
Proof. solve_decision. Defined.

Record Permission := mkPermission {
  perm_owner : Pubkey;
  perm_bump_seed : Z;
  perm_status : PermissionStatus;
  perm_user_payer : Pubkey;
  permissions : Z
}.
#[global] Instance Permission_eta : RecordEta Permission := {
  eta_record := fun r => mkPermission (perm_owner r) (perm_bump_seed r) (perm_status r) (perm_user_payer r) (permissions r);
  eta_record_id := fun r => match r with mkPermission _ _ _ _ _ => eq_refl end
}.

Record ProgramVersion := mkVersion { major : Z; minor : Z; patch : Z }.

(** [Ord for ProgramVersion] *)
Definition version_cmp (a b : ProgramVersion) : comparison :=
  match major a ?= major b with
  | Eq => match minor a ?= minor b with Eq => patch a ?= patch b | ord => ord end
  | ord => ord
  end.
Definition version_gt (a b : ProgramVersion) : bool := match version_cmp a b with Gt => true | _ => false end.

Record ProgramConfig := mkProgramConfig {
  pc_bump_seed : Z;
  pc_version : ProgramVersion;
  min_compatible_version : ProgramVersion
}.
#[global] Instance ProgramConfig_eta : RecordEta ProgramConfig := {
  eta_record := fun r => mkProgramConfig (pc_bump_seed r) (pc_version r) (min_compatible_version r);
  eta_record_id := fun r => match r with mkProgramConfig _ _ _ => eq_refl end
}.

(** ** Contributors *)

Inductive ContributorStatus := ContributorNone | ContributorActivated | ContributorSuspended | ContributorDeleting.

Module Contributor.
Record t := mk {
  owner : Pubkey;
  index : Z;
  bump_seed : Z;
  status : ContributorStatus;
  code : list Z;
  reference_count : Z;
  ops_manager_pk : Pubkey
}.
#[global] Instance eta : RecordEta t := {
  eta_record := fun r => mk (owner r) (index r) (bump_seed r) (status r) (code r) (reference_count r) (ops_manager_pk r);
  eta_record_id := fun r => match r with mk _ _ _ _ _ _ _ => eq_refl end
}.
Definition validate (c : t) : R unit := reject (32 <? str_len (code c))%nat DZ_CodeTooLong.
End Contributor.

(** ** Exchanges *)

(** A double is the integer of its bits. *)
Module F64.
Definition is_nan (x : Z) : bool := 0x7FF0000000000000 <? Z.land x 0x7FFFFFFFFFFFFFFF.
(** The order of the numbers, as one of integers. *)
Definition rank (x : Z) : Z := if x <? 2 ^ 63 then x else - (x - 2 ^ 63).
Definition lt (x y : Z) : bool := negb (is_nan x) && negb (is_nan y) && (rank x <? rank y).
Definition eq (x y : Z) : bool := negb (is_nan x) && negb (is_nan y) && (rank x =? rank y).
Definition n90 : Z := 0x4056800000000000.
Definition n180 : Z := 0x4066800000000000.
Definition neg (x : Z) : Z := Z.lxor x (2 ^ 63).
End F64.

Inductive ExchangeStatus := ExPendingDeprecated | ExActivated | ExSuspended.
#[global] Instance ExchangeStatus_eq_dec : EqDecision ExchangeStatus.
Proof. solve_decision. Defined.

Module Exchange.
Record t := mk {
  owner : Pubkey;
  index : Z;
  bump_seed : Z;
  lat : Z;
  lng : Z;
  bgp_community : Z;
  unused : Z;
  status : ExchangeStatus;
  code : list Z;
  name : list Z;
  reference_count : Z;
  device1_pk : Pubkey;
  device2_pk : Pubkey
}.
#[global] Instance eta : RecordEta t := {
  eta_record := fun r => mk (owner r) (index r) (bump_seed r) (lat r) (lng r) (bgp_community r) (unused r) (status r) (code r)
    (name r) (reference_count r) (device1_pk r) (device2_pk r);
  eta_record_id := fun r => match r with mk _ _ _ _ _ _ _ _ _ _ _ _ _ => eq_refl end
}.

(** The derived [PartialEq], in which a [NaN] differs from itself. *)
Definition eqb (a b : t) : bool :=
  bool_decide (owner a = owner b) && (index a =? index b) && (bump_seed a =? bump_seed b) && F64.eq (lat a) (lat b) &&
  F64.eq (lng a) (lng b) && (bgp_community a =? bgp_community b) && (unused a =? unused b) &&
  bool_decide (status a = status b) && bool_decide (code a = code b) && bool_decide (name a = name b) &&
  (reference_count a =? reference_count b) && bool_decide (device1_pk a = device1_pk b) &&
  bool_decide (device2_pk a = device2_pk b).

Definition BGP_COMMUNITY_MIN : Z := 10000.
Definition BGP_COMMUNITY_MAX : Z := 10999.

Definition validate (e : t) : R unit :=
  _ ← reject (32 <? str_len (code e))%nat DZ_CodeTooLong;
  _ ← reject (64 <? str_len (name e))%nat DZ_NameTooLong;
  _ ← reject (F64.lt (lat e) (F64.neg F64.n90) || F64.lt F64.n90 (lat e)) DZ_InvalidLatitude;
  _ ← reject (F64.lt (lng e) (F64.neg F64.n180) || F64.lt F64.n180 (lng e)) DZ_InvalidLongitude;
  _ ← reject (negb (bgp_community e =? 0) &&
              ((bgp_community e <? BGP_COMMUNITY_MIN) || (BGP_COMMUNITY_MAX <? bgp_community e))) DZ_InvalidBgpCommunity;
  reject (negb (bool_decide (device1_pk e = Pubkey_default)) && bool_decide (device1_pk e = device2_pk e)) DZ_InvalidDevicePubkey.
End Exchange.

(** ** Devices and interfaces *)

Inductive InterfaceStatus :=
| IfInvalid | IfUnmanaged | IfPending | IfActivated | IfDeleting | IfRejected | IfUnlinked.
#[global] Instance InterfaceStatus_eq_dec : EqDecision InterfaceStatus.
Proof. solve_decision. Defined.
Inductive InterfaceType := TypeInvalid | TypeLoopback | TypePhysical.
#[global] Instance InterfaceType_eq_dec : EqDecision InterfaceType.
Proof. solve_decision. Defined.
Inductive InterfaceCYOA :=
| CYOANone | GREOverDIA | GREOverFabric | GREOverPrivatePeering | GREOverPublicPeering | GREOverCable.
#[global] Instance InterfaceCYOA_eq_dec : EqDecision InterfaceCYOA.
Proof. solve_decision. Defined.
Inductive InterfaceDIA := DIANone | DIA.
#[global] Instance InterfaceDIA_eq_dec : EqDecision InterfaceDIA.
Proof. solve_decision. Defined.

Definition LINK_MTU : Z := 9000.

(** The prefix ([size], [version]) is part of the encoding. *)
Module Interface.
Record t := mk {
  status : InterfaceStatus;
  name : list Z;
  interface_type : InterfaceType;
  interface_cyoa : InterfaceCYOA;
  interface_dia : InterfaceDIA;
  loopback_type : Z;
  bandwidth : Z;
  cir : Z;
  mtu : Z;
  routing_mode : Z;
  vlan_id : Z;
  ip_net : NetworkV4;
  node_segment_idx : Z;
  user_tunnel_endpoint : bool;
  flex_algo_node_segments : list (Pubkey * Z)
}.
#[global] Instance eta : RecordEta t := {
  eta_record := fun r => mk (status r) (name r) (interface_type r) (interface_cyoa r) (interface_dia r) (loopback_type r)
    (bandwidth r) (cir r) (mtu r) (routing_mode r) (vlan_id r) (ip_net r) (node_segment_idx r) (user_tunnel_endpoint r)
    (flex_algo_node_segments r);
  eta_record_id := fun r => match r with mk _ _ _ _ _ _ _ _ _ _ _ _ _ _ _ => eq_refl end
}.

Definition validate (i : t) : R unit :=
  if bool_decide (status i = IfDeleting) then Ok ()
  else
    named ← validate_iface (name i);
    _ ← reject (negb named) DZ_InvalidInterfaceName;
    _ ← reject (4094 <? vlan_id i) DZ_InvalidVlanId;
    _ ← reject (negb (bool_decide (interface_cyoa i = CYOANone)) && negb (bool_decide (interface_type i = TypePhysical)))
          DZ_CyoaRequiresPhysical;
    reject (negb (bool_decide (ip_net i = NetworkV4_default)) && bool_decide (interface_cyoa i = CYOANone) &&
            bool_decide (interface_dia i = DIANone) && negb (is_private (net_ip (ip_net i))) &&
            negb (is_link_local (net_ip (ip_net i))) &&
            negb (bool_decide (interface_type i = TypeLoopback) && user_tunnel_endpoint i))
      DZ_InvalidInterfaceIp.
End Interface.

Inductive DeviceType := Hybrid | Transit | Edge.
#[global] Instance DeviceType_eq_dec : EqDecision DeviceType.
Proof. solve_decision. Defined.

(** The legacy interface list is a projection of [interfaces]. *)
Module Device.
Record t := mk {
  owner : Pubkey;
  index : Z;
  bump_seed : Z;
  location_pk : Pubkey;
  exchange_pk : Pubkey;
  device_type : DeviceType;
  public_ip : Z;
  status : Z;
  code : list Z;
  dz_prefixes : list NetworkV4;
  metrics_publisher_pk : Pubkey;
  contributor_pk : Pubkey;
  mgmt_vrf : list Z;
  reference_count : Z;
  users_count : Z;
  max_users : Z;
  device_health : Z;
  desired_status : Z;
  unicast_users_count : Z;
  multicast_subscribers_count : Z;
  max_unicast_users : Z;
  max_multicast_subscribers : Z;
  reserved_seats : Z;
  multicast_publishers_count : Z;
  max_multicast_publishers : Z;
  interfaces : list Interface.t
}.
#[global] Instance eta : RecordEta t := {
  eta_record := fun r => mk (owner r) (index r) (bump_seed r) (location_pk r) (exchange_pk r) (device_type r) (public_ip r)
    (status r) (code r) (dz_prefixes r) (metrics_publisher_pk r) (contributor_pk r) (mgmt_vrf r) (reference_count r)
    (users_count r) (max_users r) (device_health r) (desired_status r) (unicast_users_count r) (multicast_subscribers_count r)
    (max_unicast_users r) (max_multicast_subscribers r) (reserved_seats r) (multicast_publishers_count r)
    (max_multicast_publishers r) (interfaces r);
  eta_record_id := fun r => match r with mk _ _ _ _ _ _ _ _ _ _ _ _ _ _ _ _ _ _ _ _ _ _ _ _ _ _ => eq_refl end
}.

(** The first interface with the name, compared without case. *)
Fixpoint find_in (ifs : list Interface.t) (name : list Z) (i : nat) : option (nat * Interface.t) :=
  match ifs with
  | [] => None
  | iface :: rest => if bool_decide (ToLower (Interface.name iface) = ToLower name) then Some (i, iface) else find_in rest name (S i)
  end.
Definition find_interface (d : t) (name : list Z) : option (nat * Interface.t) := find_in (interfaces d) name 0.
Definition replace_interface (d : t) (idx : nat) (iface : Interface.t) : t := d <| interfaces := <[idx := iface]> (interfaces d) |>.

Fixpoint validate_interfaces (ifs : list Interface.t) : R unit :=
  match ifs with [] => Ok () | i :: rest => _ ← Interface.validate i; validate_interfaces rest end.

Definition validate `{!Unicode} (d : t) : R unit :=
  _ ← reject (32 <? str_len (code d))%nat DZ_CodeTooLong;
  _ ← reject (bool_decide (validate_account_code (mgmt_vrf d) = None)) DZ_InvalidAccountCode;
  _ ← reject (32 <? str_len (mgmt_vrf d))%nat DZ_CodeTooLong;
  _ ← reject (bool_decide (location_pk d = Pubkey_default)) DZ_InvalidLocation;
  _ ← reject (bool_decide (exchange_pk d = Pubkey_default)) DZ_InvalidExchange;
  _ ← reject (negb (bool_decide (device_type d = Transit)) && negb (is_global (public_ip d))) DZ_InvalidPublicIp;
  _ ← reject (bool_decide (dz_prefixes d = [])) DZ_NoDzPrefixes;
  _ ← reject (existsb (fun p => negb (is_global (net_ip p))) (dz_prefixes d)) DZ_InvalidDzPrefix;
  validate_interfaces (interfaces d).

(** Activated, link or device provisioning, drained. *)
Definition allow_latency (d : t) : bool := bool_decide (status d ∈ [1; 7; 6; 5]).
End Device.

(** ** Links *)

Inductive LinkLinkType := WAN | DZX.
#[global] Instance LinkLinkType_eq_dec : EqDecision LinkLinkType.
Proof. solve_decision. Defined.
Inductive LinkStatus :=
| LkPendingDeprecated | LkActivated | LkDeleting | LkRejectedDeprecated | LkRequested | LkHardDrained | LkSoftDrained
| LkProvisioning.
#[global] Instance LinkStatus_eq_dec : EqDecision LinkStatus.
Proof. solve_decision. Defined.
Inductive LinkDesiredStatus := DesiredPending | DesiredActivated | DesiredHardDrained | DesiredSoftDrained.
Inductive LinkHealth := HealthUnknown | HealthPending | HealthReadyForService | HealthImpaired.

Module Link.
Record t := mk {
  owner : Pubkey;
  index : Z;
  bump_seed : Z;
  side_a_pk : Pubkey;
  side_z_pk : Pubkey;
  link_type : LinkLinkType;
  bandwidth : Z;
  mtu : Z;
  delay_ns : Z;
  jitter_ns : Z;
  tunnel_id : Z;
  tunnel_net : NetworkV4;
  status : LinkStatus;
  code : list Z;
  contributor_pk : Pubkey;
  side_a_iface_name : list Z;
  side_z_iface_name : list Z;
  delay_override_ns : Z;
  link_health : LinkHealth;
  desired_status : LinkDesiredStatus;
  link_topologies : list Pubkey;
  link_flags : Z
}.
#[global] Instance eta : RecordEta t := {
  eta_record := fun r => mk (owner r) (index r) (bump_seed r) (side_a_pk r) (side_z_pk r) (link_type r) (bandwidth r) (mtu r)
    (delay_ns r) (jitter_ns r) (tunnel_id r) (tunnel_net r) (status r) (code r) (contributor_pk r) (side_a_iface_name r)
    (side_z_iface_name r) (delay_override_ns r) (link_health r) (desired_status r) (link_topologies r) (link_flags r);
  eta_record_id := fun r => match r with mk _ _ _ _ _ _ _ _ _ _ _ _ _ _ _ _ _ _ _ _ _ _ => eq_refl end
}.

Definition LINK_FLAG_UNICAST_DRAINED : Z := 1.

(** A time between 0.01 and 1000 ms. *)
Definition bad_time (ns : Z) : bool := (ns <? 10000) || (1000000000 <? ns).

Definition validate (l : t) : R unit :=
  if bool_decide (status l = LkDeleting) then Ok ()
  else
    _ ← reject (negb (bool_decide (status l = LkRequested)) && negb (is_private (net_ip (tunnel_net l)))) DZ_InvalidTunnelNet;
    _ ← reject (1024 <? tunnel_id l) DZ_InvalidTunnelId;
    _ ← reject ((bandwidth l <? 10000000000) || (400000000000 <? bandwidth l)) DZ_InvalidBandwidth;
    _ ← reject (bad_time (delay_ns l)) DZ_InvalidDelay;
    _ ← reject (bad_time (jitter_ns l)) DZ_InvalidJitter;
    _ ← reject (negb (delay_override_ns l =? 0) && bad_time (delay_override_ns l)) DZ_InvalidDelay;
    _ ← reject (negb (bool_decide (side_a_pk l = Pubkey_default)) && bool_decide (side_a_pk l = side_z_pk l)) DZ_InvalidDevicePubkey;
    reject (8 <? length (link_topologies l))%nat DZ_InvalidArgument.

(** It returns before its table of transitions. *)
Definition check_status_transition (l : t) : t := l.
End Link.

(** ** Topologies *)

Definition MAX_TOPOLOGY_NAME_LEN : nat := 32.
Definition is_ascii_uppercase (c : Z) : bool := (65 <=? c) && (c <=? 90).
Definition is_ascii_digit (c : Z) : bool := (48 <=? c) && (c <=? 57).

Definition validate_topology_name (name : list Z) : R unit :=
  match name with
  | [] => Err (PE_Custom DZ_InvalidName)
  | first :: rest =>
      _ ← reject (MAX_TOPOLOGY_NAME_LEN <? str_len name)%nat DZ_NameTooLong;
      _ ← reject (negb (is_ascii_uppercase first)) DZ_InvalidName;
      reject (existsb (fun c => negb (is_ascii_uppercase c || is_ascii_digit c || (c =? 45))) rest) DZ_InvalidName
  end.

Module Topology.
Record t := mk {
  owner : Pubkey;
  bump_seed : Z;
  name : list Z;
  admin_group_bit : Z;
  flex_algo_number : Z;
  constraint : Z;
  reference_count : Z
}.
#[global] Instance eta : RecordEta t := {
  eta_record := fun r => mk (owner r) (bump_seed r) (name r) (admin_group_bit r) (flex_algo_number r) (constraint r)
    (reference_count r);
  eta_record_id := fun r => match r with mk _ _ _ _ _ _ _ => eq_refl end
}.
Definition validate (t : t) : R unit := validate_topology_name (name t).
End Topology.

(** ** Multicast groups and access passes *)

Module MulticastGroup.
Record t := mk {
  owner : Pubkey;
  index : Z;
  bump_seed : Z;
  tenant_pk : Pubkey;
  multicast_ip : Z;
  max_bandwidth : Z;
  status : Z;
  code : list Z;
  publisher_count : Z;
  subscriber_count : Z
}.
#[global] Instance eta : RecordEta t := {
  eta_record := fun r => mk (owner r) (index r) (bump_seed r) (tenant_pk r) (multicast_ip r) (max_bandwidth r) (status r)
    (code r) (publisher_count r) (subscriber_count r);
  eta_record_id := fun r => match r with mk _ _ _ _ _ _ _ _ _ _ => eq_refl end
}.
Definition validate (g : t) : R unit :=
  _ ← reject (negb (is_multicast (multicast_ip g))) DZ_InvalidMulticastIp;
  _ ← reject (max_bandwidth g =? 0) DZ_InvalidMaxBandwidth;
  reject (32 <? str_len (code g))%nat DZ_CodeTooLong.
End MulticastGroup.

Record FeedSeat := mkFeedSeat {
  feed_key : Pubkey;
  seat_max_users : Z;
  seat_max_future_users : Z;
  seat_current_users : Z;
  anniversary_day : Z;
  window_end : Z;
  terminates_at : Z
}.

Inductive AccessPassType :=
| Prepaid
| SolanaValidator (k : Pubkey)
| SolanaRPC (k : Pubkey)
| Others (type_name key : list Z)
| EdgeSeat (seats : list FeedSeat).

Inductive AccessPassStatus := ApRequested | ApConnected | ApDisconnected | ApExpiredDeprecated.

Module AccessPass.
Record t := mk {
  owner : Pubkey;
  bump_seed : Z;
  accesspass_type : AccessPassType;
  client_ip : Z;
  user_payer : Pubkey;
  last_access_epoch : Z;
  connection_count : Z;
  status : AccessPassStatus;
  mgroup_pub_allowlist : list Pubkey;
  mgroup_sub_allowlist : list Pubkey;
  flags : Z;
  tenant_allowlist : list Pubkey;
  unicast_user_count : Z;
  max_unicast_users : Z;
  multicast_user_count : Z;
  max_multicast_users : Z
}.
#[global] Instance eta : RecordEta t := {
  eta_record := fun r => mk (owner r) (bump_seed r) (accesspass_type r) (client_ip r) (user_payer r) (last_access_epoch r)
    (connection_count r) (status r) (mgroup_pub_allowlist r) (mgroup_sub_allowlist r) (flags r) (tenant_allowlist r)
    (unicast_user_count r) (max_unicast_users r) (multicast_user_count r) (max_multicast_users r);
  eta_record_id := fun r => match r with mk _ _ _ _ _ _ _ _ _ _ _ _ _ _ _ _ => eq_refl end
}.

Definition validate (p : t) : R unit :=
  match accesspass_type p with
  | SolanaValidator k | SolanaRPC k => reject (bool_decide (k = Pubkey_default)) DZ_InvalidSolanaPubkey
  | _ => Ok ()
  end.

Definition ALLOW_MULTIPLE_IP : Z := 2.
Definition allow_multiple_ip (p : t) : bool := negb (Z.land (flags p) ALLOW_MULTIPLE_IP =? 0).
End AccessPass.

(** ** Names that pass the checks *)

(** Whatever follows the second dot of an interface name is not looked at:
    a name that goes on after [Ethernet1.1.] with any characters, line feeds
    and spaces included, is accepted. *)
Theorem interface_suffix_unchecked suffix : validate_iface (lit "Ethernet1.1." ++ suffix) = Ok true.
Proof.
  unfold validate_iface. replace (is_valid_interface_name _) with true; [done|]. symmetry.
  unfold is_valid_interface_name. unfold ToLower. rewrite map_app. cbn -[Split]. cbn [Split]. cbn.
  destruct (Split (map to_lower suffix) 46); reflexivity.
Qed.
