(* ===== verification/ResourceExtension.v ===== *)
(** * On-chain resource extensions

    Models [state/resource_extension.rs] of
    [smartcontract/programs/doublezero-serviceability/src] and the helpers of
    [processors/resource/mod.rs] on the bytes of such an account: a header of
    88 bytes that says what is allocated, then the bitmap. The operations work
    on the bitmap in place; the allocator read from the header, its hint
    included, is not written back. *)

From stdpp Require Import base tactics numbers list gmap sets.
From Stdlib Require Import ZArith Lia ZifyBool ZifyNat.
From S2P Require Import Prelude Bytes GoStrings ByteReader Allocators OnchainState.

#[local] Open Scope Z_scope.

Inductive Allocator :=
| AllocIp (a : IpAllocator)
| AllocId (a : IdAllocator).

Inductive ResourceExtensionRange :=
| IpBlock (base : NetworkV4) (allocation_size : Z)
| IdRange (start end_ : Z).

Inductive IdOrIp :=
| Ip (n : NetworkV4)
| Id (id : Z).
#[global] Instance IdOrIp_eq_dec : EqDecision IdOrIp.
Proof. solve_decision. Defined.

Definition as_ip (v : IdOrIp) : option NetworkV4 := match v with Ip n => Some n | Id _ => None end.
Definition as_id (v : IdOrIp) : option Z := match v with Ip _ => None | Id i => Some i end.

(** [RESOURCE_EXTENSION_BITMAP_OFFSET] *)
Definition BITMAP_OFFSET : nat := 88.
(** [AccountType::ResourceExtension] *)
Definition RESOURCE_EXTENSION_TYPE : Z := 12.

Record ResourceExtension := mkResourceExtension {
  re_owner : Pubkey;
  re_bump_seed : Z;
  re_associated_with : Pubkey;
  re_allocator : Allocator;
  re_storage : bytes
}.

Definition size (range : ResourceExtensionRange) : nat :=
  (BITMAP_OFFSET + match range with
                   | IpBlock base _ => ip_bitmap_required_size (net_prefix base)
                   | IdRange start end_ => id_bitmap_required_size start end_
                   end)%nat.

Definition serialize_allocator (a : Allocator) : bytes :=
  match a with
  | AllocIp a => [0] ++ be_bytes 4 (net_ip (base_net a)) ++ [net_prefix (base_net a)] ++ le_bytes 8 (Z.of_nat (ip_first_free a))
  | AllocId a => [1] ++ le_bytes 2 (range_0 a) ++ le_bytes 2 (range_1 a) ++ le_bytes 8 (Z.of_nat (id_first_free a))
  end.

(** The header is written over the start of the account. *)
Definition construct_resource (data : bytes) (owner : Pubkey) (bump_seed : Z) (associated_with : Pubkey)
    (range : ResourceExtensionRange) : R bytes :=
  allocator ← match range with
              | IpBlock base _ => Ok (AllocIp (mkIpAllocator base 0))
              | IdRange start end_ =>
                  match IdAllocator_new start end_ with
                  | Some a => Ok (AllocId a)
                  | None => Err (PE_Custom DZ_SerializationFailure)
                  end
              end;
  let header := [RESOURCE_EXTENSION_TYPE] ++ owner ++ [bump_seed] ++ associated_with ++ serialize_allocator allocator in
  _ ← ensure (length header <=? length data)%nat (PE_Custom DZ_SerializationFailure);
  _ ← assert_that (length header <=? BITMAP_OFFSET)%nat;
  Ok (header ++ drop (length header) data).

(** The deserialisation of the allocator; [None] is its error. *)
Definition deserialize_allocator (h : bytes) : option Allocator :=
  if byte_at h 66 =? 0 then
    if byte_at h 71 <=? 32 then
      Some (AllocIp (mkIpAllocator (mkNet (be_val (slice h 67 71)) (byte_at h 71)) (Z.to_nat (le_val (slice h 72 80)))))
    else None
  else if byte_at h 66 =? 1 then
    Some (AllocId (mkIdAllocator (le_val (slice h 67 69)) (le_val (slice h 69 71)) (Z.to_nat (le_val (slice h 71 79)))))
  else None.

Definition inplace_from (data : bytes) : R ResourceExtension :=
  if (length data <? BITMAP_OFFSET)%nat then Panic
  else
    let h := take BITMAP_OFFSET data in
    match deserialize_allocator h with
    | None => Panic
    | Some a =>
        _ ← ensure (byte_at h 0 =? RESOURCE_EXTENSION_TYPE) (PE_Custom DZ_InvalidAccountType);
        Ok (mkResourceExtension (slice h 1 33) (byte_at h 33) (slice h 34 66) a (drop BITMAP_OFFSET data))
    end.

(** The account after an operation left [storage] in its bitmap. *)
Definition with_storage (data storage : bytes) : bytes := take BITMAP_OFFSET data ++ storage.

Definition is_power_of_two (n : nat) : bool :=
  negb (n =? 0)%nat && (Z.land (Z.of_nat n) (Z.of_nat n - 1) =? 0).

Section Operations.
Context `{!IpNetwork}.

Definition allocate (data : bytes) (count : nat) : R (bytes * IdOrIp) :=
  r ← inplace_from data;
  match re_allocator r with
  | AllocIp a =>
      _ ← assert_that (is_power_of_two count);
      match IpAllocator_allocate a (re_storage r) count with
      | None => Panic
      | Some (_, storage, Some n) => Ok (with_storage data storage, Ip n)
      | Some (_, _, None) => Err (PE_Custom DZ_AllocationFailed)
      end
  | AllocId a =>
      _ ← assert_that (count =? 1)%nat;
      match IdAllocator_allocate a (re_storage r) with
      | None => Panic
      | Some (_, storage, Some id) => Ok (with_storage data storage, Id id)
      | Some (_, _, None) => Err (PE_Custom DZ_AllocationFailed)
      end
  end.

Definition allocate_specific (data : bytes) (value : IdOrIp) : R bytes :=
  r ← inplace_from data;
  match re_allocator r, value with
  | AllocIp a, Ip n =>
      match IpAllocator_allocate_specific a (re_storage r) n with
      | None => Panic
      | Some (_, storage, true) => Ok (with_storage data storage)
      | Some (_, _, false) => Err (PE_Custom DZ_AllocationFailed)
      end
  | AllocId a, Id id =>
      match IdAllocator_allocate_specific a (re_storage r) id with
      | None => Panic
      | Some (_, storage, true) => Ok (with_storage data storage)
      | Some (_, _, false) => Err (PE_Custom DZ_AllocationFailed)
      end
  | _, _ => Err (PE_Custom DZ_InvalidArgument)
  end.

Definition deallocate (data : bytes) (value : IdOrIp) : R (bytes * bool) :=
  r ← inplace_from data;
  match re_allocator r, value with
  | AllocIp a, Ip n =>
      match IpAllocator_deallocate a (re_storage r) n with
      | None => Panic
      | Some (_, storage, freed) => Ok (with_storage data storage, freed)
      end
  | AllocId a, Id id =>
      match IdAllocator_deallocate a (re_storage r) id with
      | None => Panic
      | Some (_, storage, freed) => Ok (with_storage data storage, freed)
      end
  | _, _ => Ok (data, false)
  end.

Definition count_allocated (data : bytes) : R nat :=
  r ← inplace_from data;
  Ok match re_allocator r with
     | AllocIp a => length (IpAllocator_iter_allocated a (re_storage r))
     | AllocId a => length (IdAllocator_iter_allocated a (re_storage r))
     end.

(** ** The helpers of [processors/resource/mod.rs] *)

Definition allocate_ip (data : bytes) (count : nat) : R (bytes * NetworkV4) :=
  '(data, v) ← allocate data count;
  match as_ip v with Some n => Ok (data, n) | None => Err (PE_Custom DZ_InvalidArgument) end.

Definition allocate_id (data : bytes) : R (bytes * Z) :=
  '(data, v) ← allocate data 1;
  match as_id v with Some i => Ok (data, i) | None => Err (PE_Custom DZ_InvalidArgument) end.

Definition allocate_specific_id (data : bytes) (id : Z) : R bytes := allocate_specific data (Id id).
Definition allocate_specific_ip (data : bytes) (ip : NetworkV4) : R bytes := allocate_specific data (Ip ip).

(** An error while reading the account is swallowed. *)
Definition deallocate_value (data : bytes) (v : IdOrIp) : R (bytes * bool) :=
  match inplace_from data with Err _ => Ok (data, false) | Panic => Panic | Ok _ => deallocate data v end.
Definition deallocate_ip (data : bytes) (ip : NetworkV4) : R (bytes * bool) := deallocate_value data (Ip ip).
Definition deallocate_id (data : bytes) (id : Z) : R (bytes * bool) := deallocate_value data (Id id).

(** [accounts] are the data of the accounts; the result has the one that
    changed. *)
Fixpoint allocate_ip_from_first_available (accounts : list bytes) : R (list bytes * Z) :=
  match accounts with
  | [] => Err (PE_Custom DZ_AllocationFailed)
  | data :: rest =>
      match allocate_ip data 1 with
      | Ok (data, n) => Ok (data :: rest, net_ip n)
      | Err _ => '(rest, ip) ← allocate_ip_from_first_available rest; Ok (data :: rest, ip)
      | Panic => Panic
      end
  end.
End Operations.

(** ** Leases

    What a resource hands out is a set of units, the bits of its bitmap. *)

Section Leases.
Context `{Hnet : !IpNetwork}.

Definition storage (data : bytes) : bytes := drop BITMAP_OFFSET data.

Definition alloc_ok (a : Allocator) (bm : bytes) : Prop := match a with AllocIp a => ip_ok a bm | AllocId a => id_ok a bm end.

(** A resource account with allocator [a]. *)
Definition ext_ok (data : bytes) (a : Allocator) : Prop :=
  (BITMAP_OFFSET <= length data)%nat /\ bytes_ok data /\ deserialize_allocator (take BITMAP_OFFSET data) = Some a /\
  byte_at (take BITMAP_OFFSET data) 0 = RESOURCE_EXTENSION_TYPE /\ alloc_ok a (storage data).

(** The units of a value. *)
Definition unit_of (a : Allocator) (v : IdOrIp) (n : nat) : bool :=
  match a, v with
  | AllocIp a, Ip net => net_bits a net n
  | AllocId a, Id id => Z.of_nat n =? id - range_0 a
  | _, _ => false
  end.

(** A value the allocator may hand out. *)
Definition in_range (a : Allocator) (v : IdOrIp) : Prop :=
  match a, v with
  | AllocIp a, Ip net => in_allocator a net
  | AllocId a, Id id => range_0 a <= id < range_1 a
  | _, _ => False
  end.

Definition overlap (a : Allocator) (v w : IdOrIp) : Prop := exists n, unit_of a v n = true /\ unit_of a w n = true.

(** The values [ls] are what is out: all of them in range, no two with a unit
    in common, and the bitmap has exactly their units. *)
Definition leases_ok (a : Allocator) (data : bytes) (ls : list IdOrIp) : Prop :=
  ext_ok data a /\ Forall (in_range a) ls /\
  (forall n, bit (storage data) n = true <-> exists v, v ∈ ls /\ unit_of a v n = true) /\
  (forall i j v w, ls !! i = Some v -> ls !! j = Some w -> i <> j -> ~ overlap a v w).

Lemma inplace_from_ok data a : ext_ok data a -> exists r, inplace_from data = Ok r /\ re_allocator r = a /\ re_storage r = storage data.
Proof.
  intros (Hlen & _ & Hd & Ht & _). unfold inplace_from. rewrite (proj2 (Nat.ltb_ge _ _)) by done. rewrite Hd, Ht.
  eexists. split; [reflexivity|done].
Qed.

Lemma storage_with data bm : (BITMAP_OFFSET <= length data)%nat -> storage (with_storage data bm) = bm.
Proof. intros H. unfold storage, with_storage. apply drop_app_exact. rewrite length_take. lia. Qed.

Lemma header_with data bm : (BITMAP_OFFSET <= length data)%nat ->
  take BITMAP_OFFSET (with_storage data bm) = take BITMAP_OFFSET data.
Proof. intros H. unfold with_storage. apply take_app_exact. rewrite length_take. lia. Qed.

Lemma alloc_ok_same a bm bm' : alloc_ok a bm -> bytes_ok bm' -> length bm' = length bm -> alloc_ok a bm'.
Proof.
  destruct a; intros H Hb Hl.
  - destruct H as (H1 & H2 & _ & H4). split; [done|]. split; [done|]. split; [done|]. by rewrite Hl.
  - destruct H as (H1 & H2 & H3 & _ & H4). split; [done|]. split; [done|]. split; [done|]. split; [done|]. by rewrite Hl.
Qed.

Lemma ext_ok_with data a bm : ext_ok data a -> bytes_ok bm -> length bm = length (storage data) -> ext_ok (with_storage data bm) a.
Proof.
  intros (Hlen & Hb & Hd & Ht & Ha) Hbm Hl. unfold ext_ok. rewrite storage_with, header_with by done.
  split; [unfold with_storage; rewrite length_app, length_take; lia|].
  split; [apply bytes_ok_app; split; [by apply bytes_ok_take|done]|]. do 2 (split; [done|]). by eapply alloc_ok_same.
Qed.

(** Handing out a value whose units are all free. *)
Lemma lease_add a data ls bm v : leases_ok a data ls -> in_range a v -> bytes_ok bm -> length bm = length (storage data) ->
  (forall n, unit_of a v n = true -> bit (storage data) n = false) ->
  (forall n, bit bm n = if unit_of a v n then true else bit (storage data) n) ->
  leases_ok a (with_storage data bm) (v :: ls).
Proof.
  intros (He & Hr & Hbits & Hdis) Hv Hbm Hl Hfree Hnew. split; [by apply ext_ok_with|].
  split; [by constructor|]. split.
  - intros n. rewrite storage_with by apply He. rewrite Hnew. destruct (unit_of a v n) eqn:Hu.
    + split; [|done]. intros _. exists v. split; [by left|done].
    + rewrite Hbits. split; intros (w & Hw & Hn); [exists w; by split; [right|]|].
      exists w. split; [|done]. apply elem_of_cons in Hw as [->|Hw]; [congruence|done].
  - assert (Hvw : forall w, w ∈ ls -> ~ overlap a v w).
    { intros w Hw (n & Hn & Hwn). apply Hfree in Hn. assert (bit (storage data) n = true); [|congruence]. apply Hbits. eauto. }
    intros [|i] [|j] x y Hi Hj Hij; cbn in Hi, Hj; simplify_eq.
    + apply Hvw. by eapply list_elem_of_lookup_2.
    + intros (n & Hn1 & Hn2). eapply Hvw; [by eapply list_elem_of_lookup_2|]. exists n. eauto.
    + eapply Hdis; eauto.
Qed.

(** Taking back a value that is out. *)
Lemma lease_remove a data ls bm i v : leases_ok a data ls -> ls !! i = Some v -> bytes_ok bm -> length bm = length (storage data) ->
  (forall n, bit bm n = if unit_of a v n then false else bit (storage data) n) ->
  leases_ok a (with_storage data bm) (delete i ls).
Proof.
  intros (He & Hr & Hbits & Hdis) Hi Hbm Hl Hnew. split; [by apply ext_ok_with|].
  split; [by apply Forall_delete|]. split.
  - intros n. rewrite storage_with by apply He. rewrite Hnew. destruct (unit_of a v n) eqn:Hu.
    + split; [done|]. intros (w & (j & Hj)%list_elem_of_lookup & Hn). exfalso.
      rewrite list_lookup_delete in Hj. case_decide.
      * by eapply (Hdis i j); eauto; [lia|exists n].
      * by eapply (Hdis i (S j)); eauto; [lia|exists n].
    + rewrite Hbits. split; intros (w & Hw & Hn); exists w; (split; [|done]).
      * apply list_elem_of_lookup in Hw as (j & Hj). assert (j <> i) by congruence. apply list_elem_of_lookup.
        destruct (decide (j < i)%nat); [exists j|exists (pred j)]; rewrite list_lookup_delete; case_decide; try lia; [done|].
        by replace (S (pred j)) with j by lia.
      * apply list_elem_of_lookup in Hw as (j & Hj). rewrite list_lookup_delete in Hj.
        case_decide; by eapply list_elem_of_lookup_2.
  - intros j k x y Hj Hk Hjk. rewrite list_lookup_delete in Hj, Hk. repeat case_decide; eapply Hdis; eauto; lia.
Qed.

Definition capacity (a : Allocator) : nat :=
  match a with AllocIp a => ip_total a | AllocId a => Z.to_nat (range_1 a - range_0 a) end.

(** Every aligned block of [size] units has one that is out. *)
Definition exhausted (a : Allocator) (ls : list IdOrIp) (size : nat) : Prop :=
  forall q, (size * q + size <= capacity a)%nat ->
    exists v j, v ∈ ls /\ (j < size)%nat /\ unit_of a v (size * q + j) = true.

Lemma block_power_of_two size : block_size size -> is_power_of_two size = true.
Proof. intros (e & He & ->). do 6 (destruct e as [|e]; [reflexivity|]). lia. Qed.

(** The block an address allocator picks is a network. *)
Lemma block_in_allocator a bm size q : ip_ok a bm -> block_size size -> (size * q + size <= ip_total a)%nat ->
  let n := mkNet (net_ip (base_net a) + Z.of_nat (size * q)) (32 - log_size size) in
  in_allocator a n /\ forall m, net_bits a n m = ((size * q <=? m)%nat && (m <? size * q + size)%nat).
Proof.
  intros (Hal & _) Hs Hq n. destruct (block_size_facts size Hs) as (Hsz & _ & _ & Hlog & Hcnt).
  pose proof Hal as (Hpre & Hip0 & Hip1 & Hdiv). unfold ip_total in Hq.
  assert (Hpos := address_count_pos (net_prefix (base_net a)) ltac:(lia)).
  assert (Hp : net_prefix (base_net a) <= 32 - log_size size).
  { destruct (Z.le_gt_cases (net_prefix (base_net a)) (32 - log_size size)) as [|Hlt]; [done|].
    assert (prefix_len_to_address_count (net_prefix (base_net a)) < prefix_len_to_address_count (32 - log_size size));
      [unfold prefix_len_to_address_count; apply Z.pow_lt_mono_r; lia|lia]. }
  assert (Hd := count_divides (net_prefix (base_net a)) (32 - log_size size) ltac:(lia) ltac:(lia)).
  assert (ip_offset a n = (size * q)%nat) as Ho by (unfold ip_offset, n; cbn; lia).
  assert (net_count n = size) as Hc by (unfold net_count, n; cbn; lia).
  split; [|intros m; unfold net_bits; by rewrite Ho, Hc].
  split; [|split; [unfold n; cbn; lia|rewrite Ho, Hc; unfold ip_total; lia]]. unfold n, net_aligned. cbn [net_ip net_prefix].
  rewrite Hcnt in *. split; [lia|]. split; [lia|]. split; [lia|].
  apply Z.divide_add_r; [by etransitivity|]. exists (Z.of_nat q). lia.
Qed.

Lemma allocate_ip_lease a data ls size : leases_ok (AllocIp a) data ls -> block_size size ->
  (exists data' v, allocate data size = Ok (data', v) /\ leases_ok (AllocIp a) data' (v :: ls)) \/
  (allocate data size = Err (PE_Custom DZ_AllocationFailed) /\ exhausted (AllocIp a) ls size).
Proof.
  intros Hls Hs. pose proof Hls as (He & Hr & Hbits & _). destruct (inplace_from_ok _ _ He) as (r & Hin & Ha & Hst).
  pose proof He as (_ & _ & _ & _ & Hok). unfold allocate. rewrite Hin. cbn [mbind R_bind res_bind]. rewrite Ha, Hst.
  rewrite (block_power_of_two size Hs). cbn [assert_that mbind R_bind res_bind].
  destruct (ip_allocate_spec a (storage data) size Hok Hs) as (a' & bm' & o & Heq & Hb & Hl & Ho). rewrite Heq.
  destruct o as [n|].
  - left. destruct Ho as (q & -> & Hq & Hfree & _ & Hnew).
    destruct (block_in_allocator a _ size q Hok Hs Hq) as [Hrange Hunits].
    do 2 eexists. split; [reflexivity|]. apply lease_add; [done|done|done|done| |].
    + intros m. cbn [unit_of]. rewrite Hunits. intros Hm. specialize (Hfree (m - size * q)%nat ltac:(lia)).
      by replace (size * q + (m - size * q))%nat with m in Hfree by lia.
    + intros m. cbn [unit_of]. by rewrite Hunits, Hnew.
  - right. split; [done|]. destruct Ho as [_ Hbusy]. intros q Hq. destruct (Hbusy q Hq) as (j & Hj & Hbit).
    apply Hbits in Hbit as (v & Hv & Hu). eauto.
Qed.

Lemma allocate_id_lease a data ls : leases_ok (AllocId a) data ls ->
  (exists data' v, allocate data 1 = Ok (data', v) /\ leases_ok (AllocId a) data' (v :: ls)) \/
  (allocate data 1 = Err (PE_Custom DZ_AllocationFailed) /\ exhausted (AllocId a) ls 1).
Proof.
  intros Hls. pose proof Hls as (He & Hr & Hbits & _). destruct (inplace_from_ok _ _ He) as (r & Hin & Ha & Hst).
  pose proof He as (_ & _ & _ & _ & Hok). unfold allocate. rewrite Hin. cbn [mbind R_bind res_bind]. rewrite Ha, Hst.
  cbn [assert_that Nat.eqb mbind R_bind res_bind]. pose proof Hok as (Hrange & _).
  destruct (id_allocate_spec a (storage data) Hok) as (a' & bm' & o & Heq & Hb & Hl & Ho). rewrite Heq. destruct o as [id|].
  - left. destruct Ho as (k & -> & Hk & Hfree & _ & Hnew). do 2 eexists. split; [reflexivity|].
    assert (forall m, unit_of (AllocId a) (Id (range_0 a + Z.of_nat k)) m = (m =? k)%nat) as Hu by (intros m; cbn; lia).
    apply lease_add; [done|cbn; lia|done|done| |].
    + intros m. rewrite Hu. intros ->%Nat.eqb_eq. done.
    + intros m. by rewrite Hu, Hnew.
  - right. split; [done|]. destruct Ho as [_ Hbusy]. intros q Hq. cbn [capacity] in Hq.
    assert (bit (storage data) (1 * q + 0) = true) as Hbit by (apply Hbusy; lia).
    apply Hbits in Hbit as (v & Hv & Hu). eauto 6 with lia.
Qed.

(** A value as the wire has it. *)
Definition wf_value (v : IdOrIp) : Prop :=
  match v with Ip n => 0 <= net_prefix n <= 32 /\ is_u32 (net_ip n) | Id id => is_u16 id end.

Lemma allocate_specific_lease a data ls v : leases_ok a data ls -> wf_value v ->
  (exists data', allocate_specific data v = Ok data' /\ leases_ok a data' (v :: ls)) \/
  (exists e, allocate_specific data v = Err e) /\ (in_range a v -> exists w, w ∈ ls /\ overlap a v w).
Proof.
  intros Hls Hv. pose proof Hls as (He & Hr & Hbits & _). destruct (inplace_from_ok _ _ He) as (r & Hin & Ha & Hst).
  pose proof He as (_ & _ & _ & _ & Hok). unfold allocate_specific. rewrite Hin. cbn [mbind R_bind res_bind]. rewrite Ha, Hst.
  destruct a as [a|a], v as [n|id]; [| right; split; [eauto|done].. |].
  - destruct Hv as [Hp _]. destruct (ip_allocate_specific_spec a (storage data) n Hok Hp) as (a' & bm' & ok & Heq & Hb & Hl & Ho).
    rewrite Heq. destruct ok.
    + left. destruct Ho as (Hrange & Hfree & Hnew). eexists. split; [reflexivity|]. by apply lease_add.
    + right. split; [eauto|]. intros Hrange. destruct Ho as [_ Ho]. destruct (Ho Hrange) as (m & Hm & Hbit).
      apply Hbits in Hbit as (w & Hw & Hu). exists w. split; [done|]. by exists m.
  - destruct (id_allocate_specific_spec a (storage data) id Hok) as (a' & bm' & ok & Heq & Hb & Hl & Ho). rewrite Heq.
    pose proof Hok as (Hrange & _). destruct ok.
    + left. destruct Ho as (k & -> & Hk & Hfree & Hnew). eexists. split; [reflexivity|].
      assert (forall m, unit_of (AllocId a) (Id (range_0 a + Z.of_nat k)) m = (m =? k)%nat) as Hu by (intros m; cbn; lia).
      apply lease_add; [done|cbn; lia|done|done| |]; intros m; rewrite Hu; [by intros ->%Nat.eqb_eq|apply Hnew].
    + right. split; [eauto|]. cbn [in_range]. intros Hin'. destruct Ho as [_ Ho].
      assert (bit (storage data) (Z.to_nat (id - range_0 a)) = true) as Hbit by (apply Ho; lia).
      apply Hbits in Hbit as (w & Hw & Hu). exists w. split; [done|]. exists (Z.to_nat (id - range_0 a)). split; [cbn; lia|done].
Qed.

Lemma deallocate_lease a data ls i v : leases_ok a data ls -> ls !! i = Some v ->
  exists data', deallocate data v = Ok (data', true) /\ leases_ok a data' (delete i ls).
Proof.
  intros Hls Hi. pose proof Hls as (He & Hr & Hbits & _). destruct (inplace_from_ok _ _ He) as (r & Hin & Ha & Hst).
  pose proof He as (_ & _ & _ & _ & Hok). unfold deallocate. rewrite Hin. cbn [mbind R_bind res_bind]. rewrite Ha, Hst.
  assert (in_range a v) as Hv by (by apply (Forall_lookup_1 _ _ _ _ Hr Hi)).
  assert (forall m, unit_of a v m = true -> bit (storage data) m = true) as Hset.
  { intros m Hm. apply Hbits. exists v. split; [by eapply list_elem_of_lookup_2|done]. }
  destruct a as [a|a], v as [n|id]; [| done.. |].
  - pose proof Hv as ((Hp & Hip0 & Hip1 & _) & _). assert (Hpos := address_count_pos (net_prefix n) ltac:(lia)).
    destruct (ip_deallocate_spec a (storage data) n Hok ltac:(lia)) as (a' & bm' & ok & Heq & Hb & Hl & Ho);
      [unfold is_u; lia|]. rewrite Heq. destruct ok.
    + destruct Ho as (_ & _ & Hnew). eexists. split; [reflexivity|]. by eapply lease_remove.
    + destruct Ho as [_ Ho]. destruct (Ho Hv) as (m & Hm & Hbit). rewrite (Hset m Hm) in Hbit. done.
  - destruct (id_deallocate_spec a (storage data) id Hok) as (a' & bm' & ok & Heq & Hb & Hl & Ho). rewrite Heq.
    pose proof Hok as (Hrange & _). cbn in Hv. destruct ok.
    + destruct Ho as (k & -> & Hk & _ & Hnew). eexists. split; [reflexivity|]. eapply lease_remove; [done..|].
      intros m. replace (unit_of _ _ m) with (m =? k)%nat by (cbn; lia). apply Hnew.
    + destruct Ho as [_ Ho]. assert (bit (storage data) (Z.to_nat (id - range_0 a)) = false) as Hbit by (apply Ho; lia).
      rewrite Hset in Hbit; [done|]. cbn. lia.
Qed.

(** Which value of the list is which does not matter. *)
#[global] Instance leases_ok_perm a data : Proper ((≡ₚ) ==> iff) (leases_ok a data).
Proof.
  assert (forall ls ls', ls ≡ₚ ls' -> leases_ok a data ls -> leases_ok a data ls') as H.
  { intros ls ls' Hp (He & Hr & Hbits & Hdis). split; [done|]. split; [by rewrite <- Hp|]. split.
    - intros n. rewrite Hbits. by setoid_rewrite Hp.
    - apply symmetry, Permutation_inj in Hp as (_ & f & Hf & Hl). intros i j v w Hi Hj Hij.
      rewrite Hl in Hi, Hj. apply (Hdis (f i) (f j)); [done..|]. by intros ?%Hf. }
  intros ls ls' Hp. split; apply H; [done|by symmetry].
Qed.

Lemma with_storage_id data : with_storage data (storage data) = data.
Proof. apply take_drop. Qed.

(** Taking back an identifier nobody holds changes nothing. *)
Lemma deallocate_free_id a data ls id : leases_ok (AllocId a) data ls -> Id id ∉ ls ->
  exists data', deallocate data (Id id) = Ok (data', false) /\ leases_ok (AllocId a) data' ls.
Proof.
  intros (He & Hr & Hbits & Hdis) Hid. destruct (inplace_from_ok _ _ He) as (r & Hin & Ha & Hst).
  pose proof He as (_ & _ & _ & _ & Hok). unfold deallocate. rewrite Hin. cbn [mbind R_bind res_bind]. rewrite Ha, Hst.
  destruct (id_deallocate_spec a (storage data) id Hok) as (a' & bm' & ok & Heq & Hb & Hl & Ho). rewrite Heq. destruct ok.
  - exfalso. destruct Ho as (k & Hk & _ & Hbit & _). apply Hbits in Hbit as (v & Hv & Hu).
    destruct v as [n|w]; [done|]. cbn in Hu. replace w with id in Hv by lia. done.
  - destruct Ho as [Hsame _]. eexists. split; [reflexivity|]. split; [by apply ext_ok_with|]. split; [done|]. split; [|done].
    intros n. rewrite storage_with by apply He. by rewrite Hsame.
Qed.

(** The whole address space is not part of a block. *)
Lemma deallocate_default a data ls : leases_ok (AllocIp a) data ls -> deallocate data (Ip NetworkV4_default) = Ok (data, false).
Proof.
  intros (He & _). destruct (inplace_from_ok _ _ He) as (r & Hin & Ha & Hst).
  pose proof He as (_ & _ & _ & _ & (Hal & _)). unfold deallocate. rewrite Hin. cbn [mbind R_bind res_bind]. rewrite Ha, Hst.
  unfold IpAllocator_deallocate. destruct Hal as (Hp & _). rewrite (proj2 (Z.ltb_lt _ _)) by (cbn; lia).
  cbn [orb]. by rewrite with_storage_id.
Qed.

(** ** A new resource *)

Definition valid_range (range : ResourceExtensionRange) : Prop :=
  match range with IpBlock base _ => net_aligned base | IdRange start end_ => 0 <= start < end_ /\ end_ < 2 ^ 16 end.
Definition range_allocator (range : ResourceExtensionRange) : Allocator :=
  match range with IpBlock base _ => AllocIp (mkIpAllocator base 0) | IdRange start end_ => AllocId (mkIdAllocator start end_ 0) end.

Lemma byte_at_app a b i : (length a <= i)%nat -> byte_at (a ++ b) i = byte_at b (i - length a).
Proof. intros. unfold byte_at. by rewrite app_nth2. Qed.

Lemma slice_app a b i j : (length a <= i)%nat -> slice (a ++ b) i j = slice b (i - length a) (j - length a).
Proof.
  intros. unfold slice. rewrite drop_app_ge by done. f_equal. lia.
Qed.

Lemma byte_at_head x b : byte_at ([x] ++ b) 0 = x.
Proof. done. Qed.

Lemma byte_at_third y (a : bytes) x b : byte_at ([y] ++ a ++ [x] ++ b) (S (length a)) = x.
Proof. unfold byte_at. cbn [app nth]. rewrite app_nth2 by lia. by rewrite Nat.sub_diag. Qed.

Lemma slice_mid (a b c : bytes) i j : i = length a -> (j - i)%nat = length b -> slice (a ++ b ++ c) i j = b.
Proof. intros -> Hj. unfold slice. rewrite drop_app_length, Hj. apply take_app_length. Qed.

Lemma bit_zeros n m : bit (replicate n 0) m = false.
Proof.
  unfold bit. replace (le_val (replicate n 0)) with 0; [apply Z.bits_0|]. induction n; [done|]. cbn. lia.
Qed.

Lemma deserialize_new pre range rest : length pre = 66%nat -> valid_range range ->
  deserialize_allocator (pre ++ serialize_allocator (range_allocator range) ++ rest) = Some (range_allocator range).
Proof.
  intros Hl Hr. unfold deserialize_allocator. rewrite (byte_at_app pre _ 66), (byte_at_app pre _ 71), (slice_app pre _ 67 71),
    (slice_app pre _ 72), (slice_app pre _ 67 69), (slice_app pre _ 69), (slice_app pre _ 71) by lia. rewrite Hl. cbn [Nat.sub].
  destruct range as [base sz|start end_].
  - destruct Hr as (Hp & Hip0 & Hip1 & _). assert (Hpos := address_count_pos (net_prefix base) ltac:(lia)).
    cbn [range_allocator serialize_allocator base_net ip_first_free]. rewrite <- !app_assoc.
    rewrite byte_at_head. cbn [Z.eqb]. pose proof (byte_at_third 0 (be_bytes 4 (net_ip base)) (net_prefix base)) as H5.
    rewrite length_be_bytes in H5. rewrite H5. rewrite (proj2 (Z.leb_le _ _)) by lia.
    rewrite (slice_mid [0] (be_bytes 4 (net_ip base))) by (rewrite ?length_be_bytes; done).
    rewrite be_round by (unfold is_u; lia).
    rewrite !(app_assoc [0]), !(app_assoc _ [net_prefix base]).
    rewrite (slice_mid (([0] ++ be_bytes 4 (net_ip base)) ++ [net_prefix base]) (le_bytes 8 0)) by
      (rewrite ?length_app, ?length_be_bytes, ?length_le_bytes; done). by destruct base.
  - destruct Hr as (Hr0 & Hr1). cbn [range_allocator serialize_allocator range_0 range_1 id_first_free]. rewrite <- !app_assoc.
    rewrite byte_at_head. cbn [Z.eqb].
    rewrite (slice_mid [1] (le_bytes 2 start)) by (rewrite ?length_le_bytes; done).
    rewrite !(app_assoc [1]). rewrite (slice_mid ([1] ++ le_bytes 2 start) (le_bytes 2 end_)) by
      (rewrite ?length_app, ?length_le_bytes; done).
    rewrite !(app_assoc _ (le_bytes 2 end_)). rewrite (slice_mid (([1] ++ le_bytes 2 start) ++ le_bytes 2 end_) (le_bytes 8 0)) by
      (rewrite ?length_app, ?length_le_bytes; done).
    rewrite !le_round by (unfold is_u; lia). done.
Qed.

Lemma new_storage_ok range n : valid_range range -> size range = (BITMAP_OFFSET + n)%nat ->
  alloc_ok (range_allocator range) (replicate n 0).
Proof.
  intros Hr Hn. unfold size in Hn. destruct range as [base sz|start end_]; cbn [range_allocator alloc_ok].
  - split; [done|]. split; [done|]. split; [apply bytes_ok_zeros|]. rewrite length_replicate. cbn [base_net].
    destruct Hr as (Hp & _). assert (Hpos := address_count_pos (net_prefix base) ltac:(lia)).
    unfold ip_bitmap_required_size, prefix_len_to_address_count in *. set (c := 2 ^ (32 - net_prefix base)) in *.
    exists (Z.to_nat ((c + 63) / 64)). pose proof (Z.div_mod (c + 63) 64). pose proof (Z.mod_pos_bound (c + 63) 64). lia.
  - destruct Hr as [Hr0 Hr1]. split; [cbn; lia|]. split; [cbn; lia|]. split; [done|]. split; [apply bytes_ok_zeros|].
    rewrite length_replicate. cbn [range_0 range_1]. unfold id_bitmap_required_size in Hn. rewrite (wrap_id 16) in Hn by (unfold is_u; lia).
    set (k := Z.to_nat (end_ - start)) in *. exists (((k + 7) / 8 + 7) / 8)%nat. split; [lia|].
    pose proof (Nat.div_mod (k + 7) 8). pose proof (Nat.mod_upper_bound (k + 7) 8).
    pose proof (Nat.div_mod ((k + 7) / 8 + 7) 8). pose proof (Nat.mod_upper_bound ((k + 7) / 8 + 7) 8). lia.
Qed.

Definition key_ok (k : Pubkey) : Prop := length k = 32%nat /\ bytes_ok k.

Lemma serialize_allocator_ok range : valid_range range ->
  bytes_ok (serialize_allocator (range_allocator range)) /\ (79 <= 66 + length (serialize_allocator (range_allocator range)) <= 88)%nat.
Proof.
  intros Hr. destruct range as [base sz|start end_]; cbn [range_allocator serialize_allocator base_net ip_first_free range_0 range_1 id_first_free].
  - rewrite !length_app, length_be_bytes, length_le_bytes. cbn [length]. split; [|lia]. destruct Hr as (Hp & _).
    rewrite !bytes_ok_app. split_and!; [by repeat constructor|apply be_bytes_ok|repeat constructor; unfold is_u; lia|apply le_bytes_ok].
  - rewrite !length_app, !length_le_bytes. cbn [length]. split; [|lia].
    rewrite !bytes_ok_app. split_and!; [by repeat constructor|apply le_bytes_ok..].
Qed.

Lemma new_resource owner bump assoc range : valid_range range -> key_ok owner -> key_ok assoc -> is_u8 bump ->
  exists data, construct_resource (replicate (size range) 0) owner bump assoc range = Ok data /\
    leases_ok (range_allocator range) data [].
Proof.
  intros Hr (Ho & Hob) (Has & Hab) Hbump. destruct (serialize_allocator_ok range Hr) as [Hsb Hsl].
  set (pre := [RESOURCE_EXTENSION_TYPE] ++ owner ++ [bump] ++ assoc).
  set (header := pre ++ serialize_allocator (range_allocator range)).
  assert (Hpre : length pre = 66%nat) by (unfold pre; rewrite !length_app; cbn [length]; lia).
  assert (Hlen : length header = (66 + length (serialize_allocator (range_allocator range)))%nat) by (unfold header; rewrite length_app; lia).
  set (n := (size range - BITMAP_OFFSET)%nat). assert (Hn : size range = (BITMAP_OFFSET + n)%nat) by (unfold n, size; lia).
  exists (header ++ replicate (BITMAP_OFFSET - length header) 0 ++ replicate n 0). split.
  - unfold construct_resource. replace (match range with IpBlock _ _ => _ | IdRange _ _ => _ end) with (Ok (range_allocator range) : R Allocator).
    2: { destruct range as [|start end_]; [done|]. unfold IdAllocator_new. cbn in Hr. by rewrite (proj2 (Z.leb_gt _ _)) by lia. }
    cbn [mbind R_bind res_bind]. replace ([RESOURCE_EXTENSION_TYPE] ++ _) with header by (unfold header, pre; by rewrite <- !app_assoc).
    unfold BITMAP_OFFSET in *. rewrite length_replicate, !(proj2 (Nat.leb_le _ _)) by lia. cbn [ensure assert_that mbind R_bind res_bind].
    rewrite drop_replicate, <- replicate_add. do 3 f_equal. lia.
  - assert (Hst : storage (header ++ replicate (BITMAP_OFFSET - length header) 0 ++ replicate n 0) = replicate n 0).
    { unfold storage. rewrite app_assoc. apply drop_app_exact. rewrite length_app, length_replicate. unfold BITMAP_OFFSET in *. lia. }
    split; [|split; [done|]; split; [|done]].
    + unfold ext_ok. rewrite Hst. split; [rewrite !length_app, !length_replicate; unfold BITMAP_OFFSET in *; lia|].
      split. { unfold header, pre. rewrite !bytes_ok_app.
        split_and!; [by apply Forall_singleton|done|by apply Forall_singleton|done|done|apply bytes_ok_zeros..]. }
      rewrite (app_assoc header). rewrite take_app_exact by (rewrite length_app, length_replicate; unfold BITMAP_OFFSET in *; lia).
      split; [unfold header; rewrite <- app_assoc; by apply deserialize_new|]. split; [done|]. by apply new_storage_ok.
    + intros m. rewrite Hst, bit_zeros. split; [done|]. by intros (v & ?%elem_of_nil & _).
Qed.

(** ** Clients that return what they hold *)

Inductive request :=
| RAllocate (count : nat)
| RAllocateSpecific (v : IdOrIp)
| RRelease (i : nat). (** the holder of the [i]th lease returns it *)

Definition wf_request (r : request) : Prop :=
  match r with RAllocate count => block_size count | RAllocateSpecific v => wf_value v | RRelease _ => True end.

(** The account and the leases after a request; one that fails changes nothing. *)
Definition serve (st : bytes * list IdOrIp) (r : request) : bytes * list IdOrIp :=
  let '(data, ls) := st in
  match r with
  | RAllocate count => match allocate data count with Ok (data, v) => (data, v :: ls) | _ => st end
  | RAllocateSpecific v => match allocate_specific data v with Ok data => (data, v :: ls) | _ => st end
  | RRelease i =>
      match ls !! i with
      | Some v => match deallocate data v with Ok (data, _) => (data, delete i ls) | _ => st end
      | None => st
      end
  end.

Lemma allocate_lease a data ls count : leases_ok a data ls -> block_size count ->
  match a with AllocIp _ => True | AllocId _ => count = 1%nat end ->
  (exists data' v, allocate data count = Ok (data', v) /\ leases_ok a data' (v :: ls)) \/
  (allocate data count = Err (PE_Custom DZ_AllocationFailed) /\ exhausted a ls count).
Proof. intros Hls Hb Hc. destruct a; [by apply allocate_ip_lease|subst; by apply allocate_id_lease]. Qed.

Lemma allocate_id_panics a data ls count : leases_ok (AllocId a) data ls -> count <> 1%nat -> allocate data count = Panic.
Proof.
  intros (He & _) Hc. destruct (inplace_from_ok _ _ He) as (r & Hin & Ha & _). unfold allocate. rewrite Hin.
  cbn [mbind R_bind res_bind]. rewrite Ha. by rewrite (proj2 (Nat.eqb_neq _ _) Hc).
Qed.

Lemma serve_ok a st r : leases_ok a st.1 st.2 -> wf_request r -> leases_ok a (serve st r).1 (serve st r).2.
Proof.
  destruct st as [data ls]. cbn [fst snd]. intros Hls Hr. destruct r as [count|v|i]; cbn [serve wf_request] in *.
  - assert (match a with AllocIp _ => True | AllocId _ => count = 1%nat end \/ allocate data count = Panic) as [Hc|Hc].
    { destruct a; [by left|]. destruct (decide (count = 1%nat)); [by left|right; by eapply allocate_id_panics]. }
    + destruct (allocate_lease a data ls count Hls Hr Hc) as [(data' & v & -> & H)|[-> _]]; done.
    + by rewrite Hc.
  - destruct (allocate_specific_lease a data ls v Hls Hr) as [(data' & -> & H)|[[e ->] _]]; done.
  - destruct (ls !! i) as [v|] eqn:Hi; [|done]. by destruct (deallocate_lease a data ls i v Hls Hi) as (data' & -> & H).
Qed.

(** C5. What a resource extension has handed out is disjoint. After any
    requests of clients that return only what they hold and ask for at most 32
    addresses at once, to an account newly created for a range of identifiers or
    a block of addresses, the values that are out lie in the range, no two of
    them share an identifier or an address, and the bitmap records exactly them;
    and a further allocation fails only when every aligned block of its size is
    partly out. The instructions of the program ask for 1 or 2 addresses;
    a request of 64 is accepted and marks nothing. *)
Theorem leases_disjoint range owner bump assoc rs :
  valid_range range -> key_ok owner -> key_ok assoc -> is_u8 bump -> Forall wf_request rs ->
  exists data, construct_resource (replicate (size range) 0) owner bump assoc range = Ok data /\
    let '(data, ls) := foldl serve (data, []) rs in
    leases_ok (range_allocator range) data ls /\
    forall count, block_size count -> match range with IpBlock _ _ => True | IdRange _ _ => count = 1%nat end ->
      (exists data' v, allocate data count = Ok (data', v)) \/
      (allocate data count = Err (PE_Custom DZ_AllocationFailed) /\ exhausted (range_allocator range) ls count).
Proof.
  intros Hr Ho Ha Hb Hrs. destruct (new_resource owner bump assoc range Hr Ho Ha Hb) as (data & Hd & Hls).
  exists data. split; [done|]. assert (leases_ok (range_allocator range) (foldl serve (data, []) rs).1 (foldl serve (data, []) rs).2) as H.
  { clear Hd. change (leases_ok (range_allocator range) (data, ([] : list IdOrIp)).1 (data, ([] : list IdOrIp)).2) in Hls.
    revert Hls. generalize (data, [] : list IdOrIp). induction Hrs as [|r rs Hr1 Hrs IH]; intros st Hst; [done|].
    apply IH. by apply serve_ok. }
  destruct (foldl serve (data, []) rs) as [data' ls]. cbn [fst snd] in H. split; [done|]. intros count Hcount Hc.
  destruct (allocate_lease (range_allocator range) data' ls count H Hcount) as [(d & v & ? & _)|?]; [by destruct range|eauto..].
Qed.
End Leases.

(** ** A concrete [ipnetwork] *)

Module ExactNetwork.
Definition contains_net (n m : NetworkV4) : bool :=
  (net_ip m <=? net_ip n) && (net_ip n + prefix_len_to_address_count (net_prefix n) <=? net_ip m + prefix_len_to_address_count (net_prefix m)).

Lemma inside n m : net_aligned m -> (0 <=? net_prefix n) && (net_prefix n <=? 32) && contains_net n m = true ->
  net_ip m <= net_ip n < net_ip m + prefix_len_to_address_count (net_prefix m).
Proof.
  intros _ H. unfold contains_net in H. assert (Hpos := address_count_pos (net_prefix n) ltac:(lia)). lia.
Qed.

Lemma intro n m : net_aligned m -> net_aligned n -> net_ip m <= net_ip n ->
  net_ip n + prefix_len_to_address_count (net_prefix n) <= net_ip m + prefix_len_to_address_count (net_prefix m) ->
  (0 <=? net_prefix n) && (net_prefix n <=? 32) && contains_net n m = true.
Proof. intros _ (Hp & _) H1 H2. unfold contains_net. lia. Qed.

Lemma nth_inside n i : net_aligned n -> 0 <= i < prefix_len_to_address_count (net_prefix n) ->
  (if i <? prefix_len_to_address_count (net_prefix n) then Some (net_ip n + i) else None) = Some (net_ip n + i).
Proof. intros _ Hi. by rewrite (proj2 (Z.ltb_lt _ _)) by lia. Qed.

#[local] Instance exact_network : IpNetwork := {
  ipn_size := fun n => prefix_len_to_address_count (net_prefix n);
  ipn_is_subnet_of := fun n m => (0 <=? net_prefix n) && (net_prefix n <=? 32) && contains_net n m;
  ipn_nth := fun n i => if i <? prefix_len_to_address_count (net_prefix n) then Some (net_ip n + i) else None;
  ipn_size_spec := fun _ _ => eq_refl;
  ipn_subnet_inside := inside;
  ipn_subnet_intro := intro;
  ipn_nth_spec := nth_inside
}.

(** 172.16.0.0/24 *)
Definition block : NetworkV4 := mkNet 2886729728 24.
Definition history : list request :=
  [RAllocate 2; RAllocate 1; RAllocate 2; RAllocateSpecific (Ip (mkNet 2886729736 30)); RRelease 3; RAllocate 2].
End ExactNetwork.

Lemma leases_disjoint_witness :
  exists data, construct_resource (replicate (size (IpBlock ExactNetwork.block 2)) 0) Pubkey_default 255 Pubkey_default
      (IpBlock ExactNetwork.block 2) = Ok data /\
    let '(data, ls) := foldl (serve (Hnet := ExactNetwork.exact_network)) (data, []) ExactNetwork.history in
    ls = [Ip (mkNet 2886729728 31); Ip (mkNet 2886729736 30); Ip (mkNet 2886729732 31); Ip (mkNet 2886729730 32)] /\
    leases_ok (range_allocator (IpBlock ExactNetwork.block 2)) data ls.
Proof.
  assert (key_ok Pubkey_default) by (split; [reflexivity|apply bytes_ok_zeros]).
  destruct (leases_disjoint (Hnet := ExactNetwork.exact_network) (IpBlock ExactNetwork.block 2) Pubkey_default 255 Pubkey_default
    ExactNetwork.history) as (data & Hd & Hrest); [|done|done|by unfold is_u| |].
  - split; [cbn; lia|]. split; [cbn; lia|]. split; [vm_compute; discriminate|]. exists 11276288. reflexivity.
  - unfold ExactNetwork.history. repeat constructor; cbn; unfold is_u; try lia;
      first [exists 1%nat; split; [lia|reflexivity] | exists 0%nat; split; [lia|reflexivity]].
  - exists data. split; [done|]. vm_compute in Hd. injection Hd as <-.
    set (st := foldl serve _ _) in Hrest |- *.
    assert (Hs : st.2 = [Ip (mkNet 2886729728 31); Ip (mkNet 2886729736 30); Ip (mkNet 2886729732 31); Ip (mkNet 2886729730 32)])
      by (vm_compute; reflexivity).
    destruct st as [d ls]. destruct Hrest as [Hl _]. by split.
Defined.

(** A block of a whole word of addresses is handed out without being marked:
    the shift by 64 gives an empty mask, so the next request gets it again. *)
Lemma whole_word_not_marked data :
  construct_resource (replicate (size (IpBlock ExactNetwork.block 64)) 0) Pubkey_default 255 Pubkey_default
    (IpBlock ExactNetwork.block 64) = Ok data ->
  @allocate ExactNetwork.exact_network data 64 = Ok (data, Ip (mkNet 2886729728 26)).
Proof. intros Hd. vm_compute in Hd. injection Hd as <-. vm_compute. reflexivity. Qed.
