(* ===== verification/OnchainLedger.v ===== *)
(** * The on-chain program: accounts and authorization

    Models what the instructions of
    [smartcontract/programs/doublezero-serviceability/src] share: the accounts
    of the ledger ([serializer.rs], [processors/validation.rs]), the feature
    flags ([state/feature_flags.rs]) and [authorize.rs].

    The ledger maps a public key to the owner of the account and to the value
    last serialised into it; an account without data is absent. A panic of the
    program, a failed [assert!] among them, is [Panic]; both it and an error
    abort the transaction. Lamports are not modelled. *)

From stdpp Require Import base tactics numbers list gmap sets.
From Stdlib Require Import ZArith Lia ZifyBool ZifyNat.
From S2P Require Import Prelude Bytes GoStrings Allocators OnchainState.

#[local] Open Scope Z_scope.

(** ** The ledger *)

(** What an account holds: a value, the bytes of a resource extension, or the
    data of any other account. *)
Inductive content :=
| CGlobalState (g : GlobalState)
| CPermission (p : Permission)
| CProgramConfig (c : ProgramConfig)
| CContributor (c : Contributor.t)
| CDevice (d : Device.t)
| CLink (l : Link.t)
| CTopology (t : Topology.t)
| CMulticastGroup (g : MulticastGroup.t)
| CAccessPass (p : AccessPass.t)
| CResource (data : bytes)
| COther (data : bytes)
| CExchange (e : Exchange.t).

Record account := mkAccount { acc_owner : Pubkey; acc_content : content }.
Abbreviation ledger := (gmap Pubkey account).

(** An account as an instruction lists it. *)
Record meta := mkMeta { key : Pubkey; is_signer : bool; is_writable : bool }.

(** A writable account, and one that signs. *)
Definition acct (k : Pubkey) : meta := mkMeta k false true.
Definition signer (k : Pubkey) : meta := mkMeta k true true.

Definition owner_of (l : ledger) (k : Pubkey) : Pubkey :=
  match l !! k with Some a => acc_owner a | None => SYSTEM_PROGRAM_ID end.
Definition data_is_empty (l : ledger) (k : Pubkey) : bool := bool_decide (l !! k = None).
Definition content_of (l : ledger) (k : Pubkey) : option content := acc_content <$> l !! k.

(** [next_account_info] *)
Definition next_account_info (accounts : list meta) : R (meta * list meta) :=
  match accounts with a :: rest => Ok (a, rest) | [] => Err PE_NotEnoughAccountKeys end.

(** [TryFrom<&AccountInfo>]: an account of another type is refused. *)
Definition try_from {A} (proj : content -> option A) (l : ledger) (a : meta) : R A :=
  match content_of l (key a) ≫= proj with Some x => Ok x | None => Err PE_InvalidAccountData end.

Definition as_GlobalState (c : content) : option GlobalState := match c with CGlobalState g => Some g | _ => None end.
Definition as_Permission (c : content) : option Permission := match c with CPermission p => Some p | _ => None end.
Definition as_ProgramConfig (c : content) : option ProgramConfig := match c with CProgramConfig p => Some p | _ => None end.
Definition as_Contributor (c : content) : option Contributor.t := match c with CContributor x => Some x | _ => None end.
Definition as_Device (c : content) : option Device.t := match c with CDevice x => Some x | _ => None end.
Definition as_Link (c : content) : option Link.t := match c with CLink x => Some x | _ => None end.
Definition as_Topology (c : content) : option Topology.t := match c with CTopology x => Some x | _ => None end.
Definition as_MulticastGroup (c : content) : option MulticastGroup.t := match c with CMulticastGroup x => Some x | _ => None end.
Definition as_AccessPass (c : content) : option AccessPass.t := match c with CAccessPass x => Some x | _ => None end.
Definition as_Exchange (c : content) : option Exchange.t := match c with CExchange x => Some x | _ => None end.

Abbreviation GlobalState_try_from := (try_from as_GlobalState).
Abbreviation Permission_try_from := (try_from as_Permission).
Abbreviation ProgramConfig_try_from := (try_from as_ProgramConfig).
Abbreviation Contributor_try_from := (try_from as_Contributor).
Abbreviation Device_try_from := (try_from as_Device).
Abbreviation Link_try_from := (try_from as_Link).
Abbreviation Topology_try_from := (try_from as_Topology).
Abbreviation MulticastGroup_try_from := (try_from as_MulticastGroup).
Abbreviation AccessPass_try_from := (try_from as_AccessPass).
Abbreviation Exchange_try_from := (try_from as_Exchange).

(** [Validate]: the account types agree by construction. *)
Definition validate `{!Unicode} (c : content) : R unit :=
  match c with
  | CGlobalState g => reject (bool_decide (foundation_allowlist g = [])) DZ_InvalidFoundationAllowlist
  | CContributor c => Contributor.validate c
  | CDevice d => Device.validate d
  | CLink l => Link.validate l
  | CTopology t => Topology.validate t
  | CMulticastGroup g => MulticastGroup.validate g
  | CAccessPass p => AccessPass.validate p
  | CExchange e => Exchange.validate e
  | _ => Ok ()
  end.

Section Accounts.
Context `{Huni : !Unicode} (program_id : Pubkey).

(** [validate_program_account!] *)
Definition validate_program_account (l : ledger) (a : meta) (writable : bool) (pda : option Pubkey) : R unit :=
  _ ← assert_that (bool_decide (owner_of l (key a) = program_id));
  _ ← assert_that (negb (data_is_empty l (key a)));
  _ ← assert_that (negb writable || is_writable a);
  match pda with Some k => assert_that (bool_decide (key a = k)) | None => Ok () end.

(** The system program creates an account that has neither data nor another
    owner; [try_create_account] calls it with the seeds of the new account. *)
Definition try_acc_create (c : content) (a payer system_program : meta) (l : ledger) : R ledger :=
  _ ← validate c;
  _ ← ensure (is_signer payer && is_writable a && bool_decide (key system_program = SYSTEM_PROGRAM_ID) &&
              data_is_empty l (key a)) PE_Runtime;
  Ok (<[key a := mkAccount program_id c]> l).

(** The runtime lets a program change the writable accounts it owns. *)
Definition owned_writable (l : ledger) (a : meta) : bool :=
  is_writable a && bool_decide (owner_of l (key a) = program_id) && negb (data_is_empty l (key a)).

Definition try_acc_write (c : content) (a : meta) (l : ledger) : R ledger :=
  _ ← validate c;
  _ ← ensure (owned_writable l a) PE_Runtime;
  Ok (<[key a := mkAccount program_id c]> l).

Definition try_acc_close (a : meta) (l : ledger) : R ledger :=
  _ ← ensure (owned_writable l a) PE_Runtime;
  Ok (delete (key a) l).
End Accounts.

(** ** Authorization *)

Module flags.
Definition FOUNDATION : Z := 2 ^ 0.
Definition PERMISSION_ADMIN : Z := 2 ^ 1.
Definition INFRA_ADMIN : Z := 2 ^ 2.
Definition NETWORK_ADMIN : Z := 2 ^ 3.
Definition TENANT_ADMIN : Z := 2 ^ 4.
Definition MULTICAST_ADMIN : Z := 2 ^ 5.
Definition FEED_AUTHORITY : Z := 2 ^ 6.
Definition ACTIVATOR : Z := 2 ^ 7.
Definition SENTINEL : Z := 2 ^ 8.
Definition USER_ADMIN : Z := 2 ^ 9.
Definition ACCESS_PASS_ADMIN : Z := 2 ^ 10.
Definition HEALTH_ORACLE : Z := 2 ^ 11.
Definition QA : Z := 2 ^ 12.
Definition GLOBALSTATE_ADMIN : Z := 2 ^ 13.
Definition CONTRIBUTOR_ADMIN : Z := 2 ^ 14.
Definition TOPOLOGY_ADMIN : Z := 2 ^ 15.
Definition RESOURCE_ADMIN : Z := 2 ^ 16.
Definition INDEX_ADMIN : Z := 2 ^ 17.
Definition ALL_FLAGS : Z :=
  foldr Z.lor 0 [FOUNDATION; PERMISSION_ADMIN; GLOBALSTATE_ADMIN; CONTRIBUTOR_ADMIN; INDEX_ADMIN; INFRA_ADMIN;
    NETWORK_ADMIN; TOPOLOGY_ADMIN; RESOURCE_ADMIN; TENANT_ADMIN; MULTICAST_ADMIN; FEED_AUTHORITY; ACTIVATOR; SENTINEL;
    USER_ADMIN; ACCESS_PASS_ADMIN; HEALTH_ORACLE; QA].
End flags.

(** [a & b != 0] *)
Definition has (a b : Z) : bool := negb (Z.land a b =? 0).

Inductive FeatureFlag := OnChainAllocationDeprecated | RequirePermissionAccounts.
Definition to_mask (f : FeatureFlag) : Z :=
  Z.shiftl 1 (match f with OnChainAllocationDeprecated => 0 | RequirePermissionAccounts => 1 end).
Definition is_feature_enabled (flags : Z) (f : FeatureFlag) : bool := has flags (to_mask f).

Definition contains (l : list Pubkey) (k : Pubkey) : bool := bool_decide (k ∈ l).

Definition check_legacy_any (payer : Pubkey) (g : GlobalState) (any_of : Z) : bool :=
  let foundation := contains (foundation_allowlist g) payer in
  let sentinel := bool_decide (sentinel_authority_pk g = payer) in
  if has any_of flags.FOUNDATION && foundation then true
  else if has any_of flags.QA && contains (qa_allowlist g) payer then true
  else if has any_of flags.ACTIVATOR && bool_decide (activator_authority_pk g = payer) then true
  else if has any_of flags.SENTINEL && sentinel then true
  else if has any_of flags.HEALTH_ORACLE && bool_decide (health_oracle_pk g = payer) then true
  else if has any_of flags.FEED_AUTHORITY && bool_decide (feed_authority_pk g = payer) then true
  else if has any_of flags.USER_ADMIN && foundation then true
  else if has any_of flags.ACCESS_PASS_ADMIN && (foundation || sentinel || bool_decide (feed_authority_pk g = payer)) then true
  else if has any_of flags.NETWORK_ADMIN && foundation then true
  else if has any_of flags.TENANT_ADMIN && (foundation || sentinel) then true
  else if has any_of flags.MULTICAST_ADMIN && (foundation || sentinel) then true
  else if has any_of flags.PERMISSION_ADMIN && foundation then true
  else if has any_of flags.INFRA_ADMIN && foundation then true
  else if has any_of flags.GLOBALSTATE_ADMIN && foundation then true
  else if has any_of flags.CONTRIBUTOR_ADMIN && foundation then true
  else if has any_of flags.TOPOLOGY_ADMIN && foundation then true
  else if has any_of flags.RESOURCE_ADMIN && foundation then true
  else if has any_of flags.INDEX_ADMIN && foundation then true
  else false.

Definition AUTHORIZE_GATED_FLAGS : list Z :=
  [flags.PERMISSION_ADMIN; flags.ACCESS_PASS_ADMIN; flags.USER_ADMIN; flags.NETWORK_ADMIN; flags.INFRA_ADMIN;
   flags.TENANT_ADMIN; flags.MULTICAST_ADMIN; flags.CONTRIBUTOR_ADMIN; flags.GLOBALSTATE_ADMIN; flags.TOPOLOGY_ADMIN;
   flags.RESOURCE_ADMIN; flags.INDEX_ADMIN; flags.ACTIVATOR; flags.HEALTH_ORACLE].

Definition FOUNDATION_FLAGS : Z :=
  foldr Z.lor 0 [flags.FOUNDATION; flags.USER_ADMIN; flags.ACCESS_PASS_ADMIN; flags.NETWORK_ADMIN; flags.TENANT_ADMIN;
    flags.MULTICAST_ADMIN; flags.PERMISSION_ADMIN; flags.INFRA_ADMIN; flags.GLOBALSTATE_ADMIN; flags.CONTRIBUTOR_ADMIN;
    flags.TOPOLOGY_ADMIN; flags.RESOURCE_ADMIN; flags.INDEX_ADMIN].
Definition SENTINEL_FLAGS : Z :=
  foldr Z.lor 0 [flags.SENTINEL; flags.ACCESS_PASS_ADMIN; flags.TENANT_ADMIN; flags.MULTICAST_ADMIN].
Definition FEED_FLAGS : Z := foldr Z.lor 0 [flags.FEED_AUTHORITY; flags.ACCESS_PASS_ADMIN].

(** One labelled source of keys. *)
Definition legacy_keys (enabled : bool) (keys : list Pubkey) (label : bytes) : list (Pubkey * bytes) :=
  if enabled then (fun k => (k, label)) <$> filter (fun k => k <> Pubkey_default) keys else [].

Definition legacy_keys_for_flags (g : GlobalState) (any_of : Z) : list (Pubkey * bytes) :=
  legacy_keys (has any_of FOUNDATION_FLAGS) (foundation_allowlist g) (lit "foundation-allowlist") ++
  legacy_keys (has any_of flags.QA) (qa_allowlist g) (lit "qa-allowlist") ++
  legacy_keys (has any_of SENTINEL_FLAGS) [sentinel_authority_pk g] (lit "sentinel-authority") ++
  legacy_keys (has any_of FEED_FLAGS) [feed_authority_pk g] (lit "feed-authority") ++
  legacy_keys (has any_of flags.ACTIVATOR) [activator_authority_pk g] (lit "activator-authority") ++
  legacy_keys (has any_of flags.HEALTH_ORACLE) [health_oracle_pk g] (lit "health-oracle").

Definition foundation_permission_recovery (g : GlobalState) (payer : Pubkey) (any_of : Z) : bool :=
  has any_of flags.PERMISSION_ADMIN && contains (foundation_allowlist g) payer.

Lemma content_account (l : ledger) k o c : l !! k = Some (mkAccount o c) ->
  owner_of l k = o /\ data_is_empty l k = false /\ content_of l k = Some c.
Proof. unfold owner_of, data_is_empty, content_of. intros ->. by rewrite bool_decide_false. Qed.

Lemma validated `{!Unicode} program_id l k c w : l !! k = Some (mkAccount program_id c) ->
  validate_program_account program_id l (acct k) w None = Ok ().
Proof.
  intros (? & ? & _)%content_account. assert (negb w || is_writable (acct k) = true) by by destruct w.
  unfold validate_program_account. run_ok. done.
Qed.

Lemma try_from_account {A} (proj : content -> option A) (l : ledger) k c x : content_of l k = Some c -> proj c = Some x ->
  try_from proj l (acct k) = Ok x.
Proof. unfold try_from. cbn [key acct]. intros -> Hx. cbn. by rewrite Hx. Qed.

Section Authorize.
Context (find_program_address : list bytes -> Pubkey -> Pubkey * Z) (program_id : Pubkey).

Definition get_globalstate_pda : Pubkey * Z := find_program_address [lit "doublezero"; lit "globalstate"] program_id.
Definition get_program_config_pda : Pubkey * Z := find_program_address [lit "doublezero"; lit "programconfig"] program_id.
Definition get_permission_pda (user_payer : Pubkey) : Pubkey * Z :=
  find_program_address [lit "doublezero"; lit "permission"; user_payer] program_id.

(** Whether the account holds an activated permission with one of the flags. *)
Definition permission_grants (l : ledger) (a : meta) (any_of : Z) : bool :=
  negb (data_is_empty l (key a)) &&
  match Permission_try_from l a with
  | Ok p => bool_decide (perm_status p = PermissionActivated) && has (permissions p) any_of
  | _ => false
  end.

(** [permission_account] is the next account of the iterator. *)
Definition authorize (l : ledger) (permission_account : option meta) (payer : Pubkey) (g : GlobalState) (any_of : Z) : R unit :=
  let strict := is_feature_enabled (feature_flags g) RequirePermissionAccounts in
  match permission_account with
  | Some a =>
      _ ← ensure (bool_decide (key a = (get_permission_pda payer).1)) PE_InvalidArgument;
      _ ← ensure (bool_decide (owner_of l (key a) = program_id)) PE_InvalidAccountData;
      if permission_grants l a any_of then Ok ()
      else if foundation_permission_recovery g payer any_of then Ok ()
      else if negb strict && check_legacy_any payer g any_of then Ok ()
      else Err (PE_Custom DZ_NotAllowed)
  | None =>
      if strict then
        if foundation_permission_recovery g payer any_of then Ok () else Err (PE_Custom DZ_NotAllowed)
      else ensure (check_legacy_any payer g any_of) (PE_Custom DZ_NotAllowed)
  end.

Definition can_grant_foundation (l : ledger) (permission_account : option meta) (payer : Pubkey) (g : GlobalState) : bool :=
  contains (foundation_allowlist g) payer ||
  match permission_account with
  | Some a =>
      bool_decide (key a = (get_permission_pda payer).1) && bool_decide (owner_of l (key a) = program_id) &&
      permission_grants l a flags.FOUNDATION
  | None => false
  end.

(** The accounts of a variable-length instruction: payer, system program, the
    leading ones and the permission. *)
Definition split_trailing_permission (remaining : list meta) : R (meta * meta * list meta * option meta) :=
  let n := length remaining in
  if (n <? 2)%nat then Err (PE_Custom DZ_InvalidArgument)
  else
    let permission :=
      match remaining !! (n - 3)%nat, remaining !! (n - 1)%nat with
      | Some candidate_payer, Some last =>
          if (3 <=? n)%nat && bool_decide (key last = (get_permission_pda (key candidate_payer)).1) then Some last else None
      | _, _ => None
      end in
    let tail := match permission with Some _ => 3%nat | None => 2%nat end in
    match remaining !! (n - tail)%nat, remaining !! (n - tail + 1)%nat with
    | Some payer, Some system => Ok (payer, system, take (n - tail) remaining, permission)
    | _, _ => Panic
    end.
End Authorize.

(** ** Properties of authorization *)

Lemma has_lor a b c : has a (Z.lor b c) = has a b || has a c.
Proof.
  unfold has. rewrite Z.land_lor_distr_r, <- negb_andb. f_equal. apply eq_bool_prop_intro.
  rewrite andb_True, !Is_true_true, !Z.eqb_eq. apply Z.lor_eq_0_iff.
Qed.

Lemma has_0 a : has a 0 = false.
Proof. unfold has. by rewrite Z.land_0_r. Qed.

Lemma has_self f : f <> 0 -> has f f = true.
Proof. intros. unfold has. rewrite Z.land_diag. lia. Qed.

Lemma contains_spec l k : contains l k = true <-> k ∈ l.
Proof. apply bool_decide_eq_true. Qed.

Lemma elem_of_legacy_keys b ks label k : k <> Pubkey_default ->
  k ∈ (legacy_keys b ks label).*1 <-> b = true /\ k ∈ ks.
Proof.
  intros Hk. unfold legacy_keys. destruct b; [|split; [by intros ?%elem_of_nil|by intros [? _]]].
  replace ((fun k0 => (k0, label)) <$> filter (fun k0 => k0 <> Pubkey_default) ks).*1
    with (filter (fun k0 => k0 <> Pubkey_default) ks).
  - rewrite list_elem_of_filter. tauto.
  - rewrite <- list_fmap_compose. symmetry. apply list_fmap_id.
Qed.

Lemma if_true_orb (a b : bool) : (if a then true else b) = a || b.
Proof. by destruct a. Qed.

(** The two tables of the legacy authorities agree: for every mask of
    permission flags and every state of the allowlists and authority keys, a
    key other than the default one (which cannot sign) passes the check an
    instruction makes exactly when the enumeration that the audit command
    prints lists it. *)
Theorem legacy_tables_agree payer g any_of : payer <> Pubkey_default ->
  check_legacy_any payer g any_of = true <-> payer ∈ (legacy_keys_for_flags g any_of).*1.
Proof.
  intros Hp. unfold legacy_keys_for_flags. rewrite !fmap_app, !elem_of_app, !elem_of_legacy_keys by done.
  unfold FOUNDATION_FLAGS, SENTINEL_FLAGS, FEED_FLAGS. cbn [foldr]. rewrite !has_lor, !has_0, !list_elem_of_singleton.
  unfold check_legacy_any, contains. rewrite !if_true_orb. rewrite !orb_true_iff, !andb_true_iff, !orb_true_iff, !bool_decide_eq_true.
  split; intros H; repeat (destruct H as [H|H]); destruct_and?; destruct_or?; try done; subst; tauto.
Qed.

Definition sample_globalstate : GlobalState :=
  mkGlobalState 255 0 [lit "foundation"] [] [] (lit "activator") (lit "sentinel") 0 0 (lit "oracle") [lit "qa"] 0 Pubkey_default.

Lemma legacy_tables_agree_witness : check_legacy_any (lit "sentinel") sample_globalstate flags.TENANT_ADMIN = true.
Proof.
  apply (legacy_tables_agree (lit "sentinel") sample_globalstate flags.TENANT_ADMIN); [discriminate|].
  vm_compute. right. left.
Defined.

Lemma recovery_legacy g payer any_of :
  foundation_permission_recovery g payer any_of = true -> check_legacy_any payer g any_of = true.
Proof.
  unfold foundation_permission_recovery, check_legacy_any. rewrite !if_true_orb. intros [Hf Hc]%andb_true_iff.
  rewrite Hf, Hc. cbn [andb]. rewrite !orb_true_r. done.
Qed.

Section AuthorizeSpec.
Context (find_program_address : list bytes -> Pubkey -> Pubkey * Z) (program_id : Pubkey).

(** The account offered as the payer's permission is the payer's own. *)
Definition own_permission (l : ledger) (pa : option meta) (payer : Pubkey) : Prop :=
  match pa with
  | Some a => key a = (get_permission_pda find_program_address program_id payer).1 /\ owner_of l (key a) = program_id
  | None => True
  end.

Definition grants (l : ledger) (pa : option meta) (any_of : Z) : Prop :=
  match pa with Some a => permission_grants l a any_of = true | None => False end.

Lemma authorize_ok l pa payer g any_of :
  authorize find_program_address program_id l pa payer g any_of = Ok () <->
  own_permission l pa payer /\
  (grants l pa any_of \/ foundation_permission_recovery g payer any_of = true \/
   is_feature_enabled (feature_flags g) RequirePermissionAccounts = false /\ check_legacy_any payer g any_of = true).
Proof.
  pose proof (recovery_legacy g payer any_of). unfold authorize, own_permission, grants, mbind, R_bind, res_bind, ensure.
  destruct pa as [a|].
  - repeat case_bool_decide; destruct (permission_grants l a any_of), (foundation_permission_recovery g payer any_of),
      (is_feature_enabled _ _), (check_legacy_any payer g any_of); cbn; intuition congruence.
  - destruct (foundation_permission_recovery g payer any_of), (is_feature_enabled _ _), (check_legacy_any payer g any_of);
      cbn; intuition congruence.
Qed.

Lemma legacy_foundation payer g f :
  f = flags.PERMISSION_ADMIN \/ f = flags.GLOBALSTATE_ADMIN ->
  check_legacy_any payer g f = contains (foundation_allowlist g) payer.
Proof.
  intros [-> | ->]; unfold check_legacy_any; generalize (contains (foundation_allowlist g) payer); intros []; reflexivity.
Qed.

(** Offering the payer's own permission never takes an authorization away. *)
Lemma permission_account_no_lockout l a payer g any_of : own_permission l (Some a) payer ->
  authorize find_program_address program_id l None payer g any_of = Ok () ->
  authorize find_program_address program_id l (Some a) payer g any_of = Ok ().
Proof. rewrite !authorize_ok. cbn [grants own_permission]; tauto. Qed.

Lemma grants_activated l pa payer any_of : own_permission l pa payer -> grants l pa any_of ->
  exists p, l !! (get_permission_pda find_program_address program_id payer).1 = Some (mkAccount program_id (CPermission p)) /\
    perm_status p = PermissionActivated /\ has (permissions p) any_of = true.
Proof.
  destruct pa as [a|]; [|done]. intros [Hk Ho]. cbn. unfold permission_grants, try_from, content_of.
  unfold data_is_empty, owner_of in *. rewrite Hk in *.
  destruct (l !! _) as [[o c]|]; cbn in *; [|done]. subst o.
  destruct c as [|p| | | | | | | | | |]; cbn; try done. intros [Hs Hf]%andb_true_iff. apply bool_decide_eq_true in Hs. eauto.
Qed.
End AuthorizeSpec.
