(* ===== verification/OnchainGovernance.v ===== *)
(** * The on-chain program: governance

    Models the instructions that decide who may do what, of
    [smartcontract/programs/doublezero-serviceability/src/processors]: those of
    [permission/], [globalstate/] and [allowlist/]. *)

From stdpp Require Import base tactics numbers list gmap sets.
From Stdlib Require Import ZArith Lia ZifyBool ZifyNat.
From S2P Require Import Prelude Bytes GoStrings Allocators OnchainState OnchainLedger.

#[local] Open Scope Z_scope.

Record PermissionCreateArgs := mkPermissionCreateArgs { pca_user_payer : Pubkey; pca_permissions : Z }.
Record PermissionUpdateArgs := mkPermissionUpdateArgs { pua_add : Z; pua_remove : Z }.
Record SetAuthorityArgs := mkSetAuthorityArgs {
  saa_activator : option Pubkey; saa_sentinel : option Pubkey; saa_health_oracle : option Pubkey; saa_feed : option Pubkey
}.
Record SetAirdropArgs := mkSetAirdropArgs { sad_contributor : option Z; sad_user : option Z }.

Inductive instruction :=
| InitGlobalState
| SetAuthority (v : SetAuthorityArgs)
| SetAirdrop (v : SetAirdropArgs)
| SetFeatureFlags (v : Z)
| SetVersion (v : ProgramVersion)
| AddFoundationAllowlist (v : Pubkey)
| RemoveFoundationAllowlist (v : Pubkey)
| AddQaAllowlist (v : Pubkey)
| RemoveQaAllowlist (v : Pubkey)
| CreatePermission (v : PermissionCreateArgs)
| UpdatePermission (v : PermissionUpdateArgs)
| SuspendPermission
| ResumePermission
| DeletePermission.

Section Processors.
Context `{Huni : !Unicode} (find_program_address : list bytes -> Pubkey -> Pubkey * Z) (program_id : Pubkey).
(** [ProgramVersion::current()] and [MIN_COMPATIBLE_VERSION], fixed when the
    program is built. *)
Context (current_version MIN_COMPATIBLE_VERSION : ProgramVersion).

#[local] Abbreviation globalstate_pda := (get_globalstate_pda find_program_address program_id).
#[local] Abbreviation program_config_pda := (get_program_config_pda find_program_address program_id).
#[local] Abbreviation permission_pda := (get_permission_pda find_program_address program_id).
#[local] Abbreviation authorize := (authorize find_program_address program_id).
#[local] Abbreviation can_grant_foundation := (can_grant_foundation find_program_address program_id).
#[local] Abbreviation validate_program_account := (validate_program_account program_id).
#[local] Abbreviation try_acc_create := (try_acc_create program_id).
#[local] Abbreviation try_acc_write := (try_acc_write program_id).
#[local] Abbreviation try_acc_close := (try_acc_close program_id).

(** ** [globalstate/] *)

Definition DEFAULT_USER_AIRDROP_LAMPORTS : Z := 40000.

Definition initialize_global_state (l : ledger) (accounts : list meta) : R ledger :=
  '(program_config_account, rest) ← next_account_info accounts;
  '(globalstate_account, rest) ← next_account_info rest;
  '(payer_account, rest) ← next_account_info rest;
  '(system_account, rest) ← next_account_info rest;
  _ ← assert_that (is_writable program_config_account);
  _ ← assert_that (is_writable globalstate_account);
  _ ← assert_that (is_signer payer_account);
  _ ← assert_that (bool_decide (key system_account = SYSTEM_PROGRAM_ID));
  _ ← assert_that (bool_decide (key program_config_account = program_config_pda.1));
  let program_config := CProgramConfig (mkProgramConfig (program_config_pda.2) current_version MIN_COMPATIBLE_VERSION) in
  l ← (if data_is_empty l (key program_config_account)
       then try_acc_create program_config program_config_account payer_account system_account l
       else try_acc_write program_config program_config_account l);
  _ ← assert_that (bool_decide (key globalstate_account = globalstate_pda.1));
  if negb (data_is_empty l (key globalstate_account)) then Ok l
  else
    let payer := key payer_account in
    let globalstate := mkGlobalState globalstate_pda.2 0 [payer] [payer] [] payer payer 1000000000
      DEFAULT_USER_AIRDROP_LAMPORTS payer [payer] 0 Pubkey_default in
    try_acc_create (CGlobalState globalstate) globalstate_account payer_account system_account l.

(** What the instructions on the global state begin with: its account, the
    payer's and the state. [w] is whether the account is asserted to be
    writable. *)
Definition globalstate_admin (w : bool) (l : ledger) (accounts : list meta) : R (meta * meta * GlobalState) :=
  '(globalstate_account, rest) ← next_account_info accounts;
  '(payer_account, rest) ← next_account_info rest;
  '(system_program, rest) ← next_account_info rest;
  _ ← assert_that (is_signer payer_account);
  _ ← assert_that (bool_decide (owner_of l (key globalstate_account) = program_id));
  _ ← assert_that (bool_decide (key system_program = SYSTEM_PROGRAM_ID));
  _ ← assert_that (negb w || is_writable globalstate_account);
  _ ← assert_that (bool_decide (key globalstate_account = globalstate_pda.1));
  globalstate ← GlobalState_try_from l globalstate_account;
  _ ← authorize l (head rest) (key payer_account) globalstate flags.GLOBALSTATE_ADMIN;
  Ok (globalstate_account, payer_account, globalstate).

Definition process_set_authority (l : ledger) (accounts : list meta) (v : SetAuthorityArgs) : R ledger :=
  '(globalstate_account, _, g) ← globalstate_admin true l accounts;
  let g := g <| activator_authority_pk := default (activator_authority_pk g) (saa_activator v) |> in
  let g := g <| sentinel_authority_pk := default (sentinel_authority_pk g) (saa_sentinel v) |> in
  let g := g <| health_oracle_pk := default (health_oracle_pk g) (saa_health_oracle v) |> in
  let g := g <| feed_authority_pk := default (feed_authority_pk g) (saa_feed v) |> in
  try_acc_write (CGlobalState g) globalstate_account l.

Definition process_set_airdrop (l : ledger) (accounts : list meta) (v : SetAirdropArgs) : R ledger :=
  '(globalstate_account, _, g) ← globalstate_admin false l accounts;
  let g := g <| contributor_airdrop_lamports := default (contributor_airdrop_lamports g) (sad_contributor v) |> in
  let g := g <| user_airdrop_lamports := default (user_airdrop_lamports g) (sad_user v) |> in
  try_acc_write (CGlobalState g) globalstate_account l.

Definition process_set_feature_flags (l : ledger) (accounts : list meta) (v : Z) : R ledger :=
  '(globalstate_account, _, g) ← globalstate_admin false l accounts;
  try_acc_write (CGlobalState (g <| feature_flags := v |>)) globalstate_account l.

Definition process_set_version (l : ledger) (accounts : list meta) (v : ProgramVersion) : R ledger :=
  '(program_config_account, rest) ← next_account_info accounts;
  '(globalstate_account, rest) ← next_account_info rest;
  '(payer_account, rest) ← next_account_info rest;
  '(system_program, rest) ← next_account_info rest;
  _ ← assert_that (is_signer payer_account);
  _ ← assert_that (bool_decide (owner_of l (key program_config_account) = program_id));
  _ ← assert_that (bool_decide (owner_of l (key globalstate_account) = program_id));
  _ ← assert_that (bool_decide (key system_program = SYSTEM_PROGRAM_ID));
  _ ← assert_that (is_writable globalstate_account);
  _ ← assert_that (bool_decide (key globalstate_account = globalstate_pda.1));
  globalstate ← GlobalState_try_from l globalstate_account;
  _ ← authorize l (head rest) (key payer_account) globalstate flags.GLOBALSTATE_ADMIN;
  program_config ← ProgramConfig_try_from l program_config_account;
  _ ← ensure (negb (version_gt v (pc_version program_config))) (PE_Custom DZ_InvalidMinCompatibleVersion);
  try_acc_write (CProgramConfig (program_config <| min_compatible_version := v |>)) program_config_account l.

(** ** [allowlist/] *)

Definition process_add_foundation_allowlist_globalconfig (l : ledger) (accounts : list meta) (v : Pubkey) : R ledger :=
  '(globalstate_account, _, g) ← globalstate_admin true l accounts;
  _ ← ensure (negb (contains (foundation_allowlist g) v)) PE_InvalidArgument;
  try_acc_write (CGlobalState (g <| foundation_allowlist := foundation_allowlist g ++ [v] |>)) globalstate_account l.

Definition process_remove_foundation_allowlist_globalconfig (l : ledger) (accounts : list meta) (v : Pubkey) : R ledger :=
  '(globalstate_account, payer_account, g) ← globalstate_admin true l accounts;
  _ ← ensure (negb (bool_decide (v = key payer_account))) (PE_Custom DZ_InvalidFoundationAllowlist);
  _ ← ensure (negb (length (foundation_allowlist g) <=? 1)%nat) (PE_Custom DZ_InvalidFoundationAllowlist);
  let g := g <| foundation_allowlist := filter (fun x => x <> v) (foundation_allowlist g) |> in
  try_acc_write (CGlobalState g) globalstate_account l.

Definition process_add_qa_allowlist_globalconfig (l : ledger) (accounts : list meta) (v : Pubkey) : R ledger :=
  '(globalstate_account, _, g) ← globalstate_admin true l accounts;
  _ ← ensure (negb (contains (qa_allowlist g) v)) PE_InvalidArgument;
  try_acc_write (CGlobalState (g <| qa_allowlist := qa_allowlist g ++ [v] |>)) globalstate_account l.

Definition process_remove_qa_allowlist_globalconfig (l : ledger) (accounts : list meta) (v : Pubkey) : R ledger :=
  '(globalstate_account, _, g) ← globalstate_admin true l accounts;
  try_acc_write (CGlobalState (g <| qa_allowlist := filter (fun x => x <> v) (qa_allowlist g) |>)) globalstate_account l.

(** ** [permission/] *)

Definition process_create_permission (l : ledger) (accounts : list meta) (v : PermissionCreateArgs) : R ledger :=
  '(permission_account, rest) ← next_account_info accounts;
  '(globalstate_account, rest) ← next_account_info rest;
  '(payer_account, rest) ← next_account_info rest;
  '(system_program, rest) ← next_account_info rest;
  _ ← assert_that (is_signer payer_account);
  _ ← assert_that (bool_decide (owner_of l (key globalstate_account) = program_id));
  _ ← assert_that (is_writable permission_account);
  let expected_pda := permission_pda (pca_user_payer v) in
  _ ← ensure (bool_decide (key permission_account = expected_pda.1)) PE_InvalidArgument;
  _ ← ensure (bool_decide (owner_of l (key permission_account) = SYSTEM_PROGRAM_ID)) PE_AccountAlreadyInitialized;
  globalstate ← GlobalState_try_from l globalstate_account;
  let caller_permission := head rest in
  _ ← authorize l caller_permission (key payer_account) globalstate flags.PERMISSION_ADMIN;
  _ ← ensure (negb (has (pca_permissions v) flags.FOUNDATION &&
                    negb (can_grant_foundation l caller_permission (key payer_account) globalstate)))
        (PE_Custom DZ_NotAllowed);
  let permission := mkPermission (key payer_account) expected_pda.2 PermissionActivated (pca_user_payer v) (pca_permissions v) in
  _ ← ensure (has (pca_permissions v) flags.ALL_FLAGS) (PE_Custom DZ_InvalidArgument);
  try_acc_create (CPermission permission) permission_account payer_account system_program l.

(** What the instructions on an existing permission begin with: its account,
    the global state's, the payer's, the accounts that remain and the
    permission, stored at the address of its user. *)
Definition permission_prologue (l : ledger) (accounts : list meta) : R (meta * meta * meta * list meta * Permission) :=
  '(permission_account, rest) ← next_account_info accounts;
  '(globalstate_account, rest) ← next_account_info rest;
  '(payer_account, rest) ← next_account_info rest;
  '(_, rest) ← next_account_info rest;
  _ ← assert_that (is_signer payer_account);
  _ ← validate_program_account l globalstate_account false None;
  _ ← validate_program_account l permission_account true None;
  permission ← Permission_try_from l permission_account;
  _ ← ensure (bool_decide (key permission_account = (permission_pda (perm_user_payer permission)).1)) PE_InvalidArgument;
  Ok (permission_account, globalstate_account, payer_account, rest, permission).

(** No caller may change their own permission. *)
Definition not_own (permission : Permission) (payer_account : meta) : R unit :=
  ensure (negb (bool_decide (perm_user_payer permission = key payer_account))) (PE_Custom DZ_InvalidArgument).

Definition process_update_permission (l : ledger) (accounts : list meta) (v : PermissionUpdateArgs) : R ledger :=
  '(permission_account, globalstate_account, payer_account, rest, permission) ← permission_prologue l accounts;
  _ ← not_own permission payer_account;
  _ ← ensure (negb (has (pua_add v) (pua_remove v))) (PE_Custom DZ_InvalidArgument);
  _ ← ensure (negb ((pua_add v =? 0) && (pua_remove v =? 0))) (PE_Custom DZ_InvalidArgument);
  globalstate ← GlobalState_try_from l globalstate_account;
  let caller_permission := head rest in
  _ ← authorize l caller_permission (key payer_account) globalstate flags.PERMISSION_ADMIN;
  _ ← ensure (negb (has (pua_add v) flags.FOUNDATION &&
                    negb (can_grant_foundation l caller_permission (key payer_account) globalstate)))
        (PE_Custom DZ_NotAllowed);
  let permission := permission <| permissions := Z.ldiff (Z.lor (permissions permission) (pua_add v)) (pua_remove v) |> in
  _ ← ensure (has (permissions permission) flags.ALL_FLAGS) (PE_Custom DZ_InvalidArgument);
  try_acc_write (CPermission permission) permission_account l.

Definition process_suspend_permission (l : ledger) (accounts : list meta) : R ledger :=
  '(permission_account, globalstate_account, payer_account, rest, permission) ← permission_prologue l accounts;
  _ ← not_own permission payer_account;
  _ ← ensure (bool_decide (perm_status permission = PermissionActivated)) (PE_Custom DZ_InvalidStatus);
  globalstate ← GlobalState_try_from l globalstate_account;
  _ ← authorize l (head rest) (key payer_account) globalstate flags.PERMISSION_ADMIN;
  try_acc_write (CPermission (permission <| perm_status := PermissionSuspended |>)) permission_account l.

Definition process_resume_permission (l : ledger) (accounts : list meta) : R ledger :=
  '(permission_account, globalstate_account, payer_account, rest, permission) ← permission_prologue l accounts;
  _ ← ensure (bool_decide (perm_status permission = PermissionSuspended)) (PE_Custom DZ_InvalidStatus);
  globalstate ← GlobalState_try_from l globalstate_account;
  _ ← authorize l (head rest) (key payer_account) globalstate flags.PERMISSION_ADMIN;
  try_acc_write (CPermission (permission <| perm_status := PermissionActivated |>)) permission_account l.

Definition process_delete_permission (l : ledger) (accounts : list meta) : R ledger :=
  '(permission_account, globalstate_account, payer_account, rest, permission) ← permission_prologue l accounts;
  _ ← not_own permission payer_account;
  globalstate ← GlobalState_try_from l globalstate_account;
  _ ← authorize l (head rest) (key payer_account) globalstate flags.PERMISSION_ADMIN;
  try_acc_close permission_account l.

(** ** [process_instruction] on these instructions *)
Definition process_instruction (l : ledger) (accounts : list meta) (i : instruction) : R ledger :=
  match i with
  | InitGlobalState => initialize_global_state l accounts
  | SetAuthority v => process_set_authority l accounts v
  | SetAirdrop v => process_set_airdrop l accounts v
  | SetFeatureFlags v => process_set_feature_flags l accounts v
  | SetVersion v => process_set_version l accounts v
  | AddFoundationAllowlist v => process_add_foundation_allowlist_globalconfig l accounts v
  | RemoveFoundationAllowlist v => process_remove_foundation_allowlist_globalconfig l accounts v
  | AddQaAllowlist v => process_add_qa_allowlist_globalconfig l accounts v
  | RemoveQaAllowlist v => process_remove_qa_allowlist_globalconfig l accounts v
  | CreatePermission v => process_create_permission l accounts v
  | UpdatePermission v => process_update_permission l accounts v
  | SuspendPermission => process_suspend_permission l accounts
  | ResumePermission => process_resume_permission l accounts
  | DeletePermission => process_delete_permission l accounts
  end.
End Processors.

(** ** Transactions

    A transaction that fails leaves the ledger as it was. *)

Section Ledger.
Context `{Huni : !Unicode} (find_program_address : list bytes -> Pubkey -> Pubkey * Z) (program_id : Pubkey).
Context (current_version MIN_COMPATIBLE_VERSION : ProgramVersion).

#[local] Abbreviation globalstate_pda := (get_globalstate_pda find_program_address program_id).
#[local] Abbreviation program_config_pda := (get_program_config_pda find_program_address program_id).
#[local] Abbreviation permission_pda := (get_permission_pda find_program_address program_id).
#[local] Abbreviation authorize := (authorize find_program_address program_id).
#[local] Abbreviation own_permission := (own_permission find_program_address program_id).
#[local] Abbreviation process := (process_instruction find_program_address program_id current_version MIN_COMPATIBLE_VERSION).

Definition transaction : Type := list meta * instruction.
Definition exec (l : ledger) (t : transaction) : ledger := match process l t.1 t.2 with Ok l' => l' | _ => l end.
Definition exec_all (l : ledger) (ts : list transaction) : ledger := foldl exec l ts.

Definition signs (t : transaction) (k : Pubkey) : Prop := Exists (fun m => is_signer m = true /\ key m = k) t.1.

(** What the program keeps of the accounts it owns. *)
Definition content_ok (k : Pubkey) (c : content) : Prop :=
  match c with
  | CGlobalState g => k = globalstate_pda.1 /\ foundation_allowlist g <> []
  | CPermission p =>
      k = (permission_pda (perm_user_payer p)).1 /\ perm_status p <> PermissionNone /\ has (permissions p) flags.ALL_FLAGS = true
  | CProgramConfig _ => k = program_config_pda.1
  | _ => True
  end.
Definition ledger_ok : ledger -> Prop :=
  map_Forall (fun k a => acc_owner a = program_id -> content_ok k (acc_content a)).

(** The global state as stored. *)
Definition has_globalstate (l : ledger) (g : GlobalState) : Prop :=
  l !! globalstate_pda.1 = Some (mkAccount program_id (CGlobalState g)).
Definition has_permission (l : ledger) (u : Pubkey) (p : Permission) : Prop :=
  l !! (permission_pda u).1 = Some (mkAccount program_id (CPermission p)).

Lemma owner_content l k c : owner_of l k = program_id -> content_of l k = Some c -> l !! k = Some (mkAccount program_id c).
Proof. unfold owner_of, content_of. destruct (l !! k) as [[o c']|]; cbn; [|done]. intros -> [= ->]. done. Qed.

Lemma GlobalState_try_from_ok l a g : GlobalState_try_from l a = Ok g <-> content_of l (key a) = Some (CGlobalState g).
Proof. unfold try_from. destruct (content_of _ _) as [[]|]; cbn; split; congruence. Qed.
Lemma Permission_try_from_ok l a p : Permission_try_from l a = Ok p <-> content_of l (key a) = Some (CPermission p).
Proof. unfold try_from. destruct (content_of _ _) as [[]|]; cbn; split; congruence. Qed.
Lemma ProgramConfig_try_from_ok l a c : ProgramConfig_try_from l a = Ok c <-> content_of l (key a) = Some (CProgramConfig c).
Proof. unfold try_from. destruct (content_of _ _) as [[]|]; cbn; split; congruence. Qed.

Lemma validate_program_account_ok l a w pda u : validate_program_account program_id l a w pda = Ok u ->
  owner_of l (key a) = program_id.
Proof. unfold validate_program_account. intros. by inv_ok. Qed.

Ltac inv_gov :=
  inv_ok;
  repeat match goal with
  | H : try_from as_GlobalState _ _ = Ok _ |- _ => apply GlobalState_try_from_ok in H
  | H : try_from as_Permission _ _ = Ok _ |- _ => apply Permission_try_from_ok in H
  | H : try_from as_ProgramConfig _ _ = Ok _ |- _ => apply ProgramConfig_try_from_ok in H
  | H : validate_program_account _ _ _ _ _ = Ok _ |- _ => apply validate_program_account_ok in H
  end.

(** The payer signs, and one of the flags is theirs. *)
Definition payer_authorized (l : ledger) (accounts : list meta) (payer : meta) (g : GlobalState) (f : Z) : Prop :=
  payer ∈ accounts /\ is_signer payer = true /\ exists pa, authorize l pa (key payer) g f = Ok ().

Lemma globalstate_admin_ok w l accounts a payer g :
  globalstate_admin find_program_address program_id w l accounts = Ok (a, payer, g) ->
  key a = globalstate_pda.1 /\ has_globalstate l g /\ payer_authorized l accounts payer g flags.GLOBALSTATE_ADMIN.
Proof.
  unfold globalstate_admin. destruct accounts as [|a1 [|a2 [|a3 rest]]]; try done. cbn -[authorize try_from].
  intros. inv_gov. split; [done|]. split; [|split; [set_solver|eauto]].
  unfold has_globalstate. replace (globalstate_pda.1) with (key a). by apply owner_content.
Qed.

Lemma permission_prologue_ok l accounts a ga payer rest p :
  permission_prologue find_program_address program_id l accounts = Ok (a, ga, payer, rest, p) ->
  key a = (permission_pda (perm_user_payer p)).1 /\ has_permission l (perm_user_payer p) p /\
  owner_of l (key ga) = program_id /\ payer ∈ accounts /\ is_signer payer = true.
Proof.
  unfold permission_prologue. destruct accounts as [|a1 [|a2 [|a3 [|a4 r]]]]; try done.
  cbn -[try_from validate_program_account]. intros. inv_gov. split; [done|]. split.
  - unfold has_permission. replace (permission_pda _).1 with (key a). by apply owner_content.
  - split; [done|]. split; [set_solver|done].
Qed.

(** ** What an accepted instruction does *)

Definition initial_globalstate (payer : Pubkey) : GlobalState :=
  mkGlobalState globalstate_pda.2 0 [payer] [payer] [] payer payer 1000000000 DEFAULT_USER_AIRDROP_LAMPORTS payer [payer] 0
    Pubkey_default.

Definition initialized (payer : Pubkey) (l : ledger) : ledger :=
  let l := <[program_config_pda.1 :=
    mkAccount program_id (CProgramConfig (mkProgramConfig (program_config_pda.2) current_version MIN_COMPATIBLE_VERSION))]> l in
  if data_is_empty l globalstate_pda.1
  then <[globalstate_pda.1 := mkAccount program_id (CGlobalState (initial_globalstate payer))]> l else l.

(** The payer may hand out [FOUNDATION]. *)
Definition may_grant_foundation (l : ledger) (payer : meta) (g : GlobalState) : Prop :=
  exists pa, can_grant_foundation find_program_address program_id l pa (key payer) g = true.

Definition has_foundation (l : ledger) (u : Pubkey) : Prop :=
  exists p, has_permission l u p /\ has (permissions p) flags.FOUNDATION = true.

Inductive effect (l : ledger) (accounts : list meta) : ledger -> Prop :=
| eff_init payer : payer ∈ accounts -> is_signer payer = true -> effect l accounts (initialized (key payer) l)
| eff_globalstate payer g g' :
    has_globalstate l g -> payer_authorized l accounts payer g flags.GLOBALSTATE_ADMIN -> foundation_allowlist g' <> [] ->
    effect l accounts (<[globalstate_pda.1 := mkAccount program_id (CGlobalState g')]> l)
| eff_version payer g k c c' :
    has_globalstate l g -> payer_authorized l accounts payer g flags.GLOBALSTATE_ADMIN ->
    l !! k = Some (mkAccount program_id (CProgramConfig c)) ->
    effect l accounts (<[k := mkAccount program_id (CProgramConfig c')]> l)
| eff_permission payer kg g p :
    l !! kg = Some (mkAccount program_id (CGlobalState g)) ->
    payer_authorized l accounts payer g flags.PERMISSION_ADMIN ->
    perm_status p <> PermissionNone -> has (permissions p) flags.ALL_FLAGS = true ->
    (has (permissions p) flags.FOUNDATION = true -> has_foundation l (perm_user_payer p) \/ may_grant_foundation l payer g) ->
    effect l accounts (<[(permission_pda (perm_user_payer p)).1 := mkAccount program_id (CPermission p)]> l)
| eff_delete payer kg g p :
    l !! kg = Some (mkAccount program_id (CGlobalState g)) ->
    payer_authorized l accounts payer g flags.PERMISSION_ADMIN ->
    has_permission l (perm_user_payer p) p -> perm_user_payer p <> key payer ->
    effect l accounts (delete (permission_pda (perm_user_payer p)).1 l).

Lemma try_acc_write_ok c a l l' : try_acc_write program_id c a l = Ok l' ->
  l' = <[key a := mkAccount program_id c]> l /\ validate c = Ok ().
Proof. unfold try_acc_write. intros. by inv_ok. Qed.

Lemma try_acc_create_ok c a payer sys l l' : try_acc_create program_id c a payer sys l = Ok l' ->
  l' = <[key a := mkAccount program_id c]> l /\ validate c = Ok ().
Proof. unfold try_acc_create. intros. by inv_ok. Qed.

Lemma write_globalstate w l accounts a payer g g' l' :
  globalstate_admin find_program_address program_id w l accounts = Ok (a, payer, g) ->
  try_acc_write program_id (CGlobalState g') a l = Ok l' -> effect l accounts l'.
Proof.
  intros (Hk & Hg & Hp)%globalstate_admin_ok (-> & Hv)%try_acc_write_ok. rewrite Hk.
  eapply eff_globalstate; [done..|]. cbn in Hv. inv_ok. intros Hn. rewrite bool_decide_true in Hv by done. done.
Qed.

Lemma init_effect l accounts l' :
  initialize_global_state find_program_address program_id current_version MIN_COMPATIBLE_VERSION l accounts = Ok l' ->
  effect l accounts l'.
Proof.
  unfold initialize_global_state. destruct accounts as [|a1 [|a2 [|a3 [|a4 r]]]]; try done.
  cbn -[data_is_empty try_acc_create try_acc_write]. intros H. apply bind_ok in H as (? & _ & H).
  inv_ok. match goal with H : (if _ then try_acc_create _ _ _ _ _ _ else _) = Ok ?m |- _ =>
    assert (m = <[key a1 := mkAccount program_id (CProgramConfig (mkProgramConfig (program_config_pda.2)
      current_version MIN_COMPATIBLE_VERSION))]> l) by (destruct (data_is_empty l (key a1));
        [by apply try_acc_create_ok in H as [-> _]|by apply try_acc_write_ok in H as [-> _]]) end.
  subst. replace l' with (initialized (key a3) l); [by constructor; [set_solver|]|].
  unfold initialized. repeat match goal with H : key _ = _ |- _ => rewrite H in * end.
  destruct (data_is_empty _ globalstate_pda.1); cbn [negb] in *; [|by inv_ok].
  match goal with H : try_acc_create _ _ _ _ _ _ = Ok _, Hk : key a2 = _ |- _ =>
    apply try_acc_create_ok in H as [-> _]; by rewrite Hk end.
Qed.

Lemma version_effect l accounts v l' :
  process_set_version find_program_address program_id l accounts v = Ok l' -> effect l accounts l'.
Proof.
  unfold process_set_version. destruct accounts as [|a1 [|a2 [|a3 [|a4 r]]]]; try done.
  cbn -[authorize try_acc_write try_from]. intros. inv_gov.
  match goal with H : try_acc_write _ _ _ _ = Ok _ |- _ => apply try_acc_write_ok in H as [-> _] end.
  eapply eff_version with (payer := a3); [|split; [|split; [done|eauto]]|by apply owner_content].
  - unfold has_globalstate. replace (globalstate_pda.1) with (key a2). by apply owner_content.
  - rewrite !elem_of_cons. auto.
Qed.

Lemma create_effect l accounts v l' :
  process_create_permission find_program_address program_id l accounts v = Ok l' -> effect l accounts l'.
Proof.
  unfold process_create_permission. destruct accounts as [|a1 [|a2 [|a3 [|a4 r]]]]; try done.
  cbn -[authorize can_grant_foundation has try_acc_create try_from]. intros. inv_gov.
  match goal with H : try_acc_create _ _ _ _ _ _ = Ok _ |- _ => apply try_acc_create_ok in H as [-> _] end.
  match goal with H : key a1 = _ |- _ => rewrite H end.
  match goal with H : content_of l (key a2) = Some (CGlobalState ?x) |- _ => rename x into g end.
  apply (eff_permission l (a1 :: a2 :: a3 :: a4 :: r) a3 (key a2) g
    (mkPermission (key a3) (permission_pda (pca_user_payer v)).2 PermissionActivated (pca_user_payer v) (pca_permissions v)));
    [by apply owner_content| |done|done|].
  - split; [rewrite !elem_of_cons; auto|eauto].
  - cbn. intros Hf. right. exists (head r). destruct (can_grant_foundation _ _ _ _ _); [done|].
    match goal with H : negb (_ && _) = true |- _ => by rewrite Hf in H end.
Qed.

Lemma ldiff_lor_has a b c f : has (Z.ldiff (Z.lor a b) c) f = true -> has a f = true \/ has b f = true.
Proof.
  unfold has. intros H. destruct (Z.eqb_spec (Z.land a f) 0) as [Ha|], (Z.eqb_spec (Z.land b f) 0) as [Hb|]; auto.
  exfalso. assert (Z.land (Z.ldiff (Z.lor a b) c) f = 0) as E; [|by rewrite E in H].
  apply Z.bits_inj'. intros n Hn. apply (f_equal (fun z => Z.testbit z n)) in Ha, Hb. rewrite !Z.land_spec, Z.bits_0 in Ha, Hb.
  rewrite Z.land_spec, Z.ldiff_spec, Z.lor_spec, Z.bits_0.
  by destruct (Z.testbit a n), (Z.testbit b n), (Z.testbit c n), (Z.testbit f n).
Qed.

(** The rest of the instructions on an existing permission. *)
Lemma permission_effect l accounts a ga payer rest p p' g pa l' :
  permission_prologue find_program_address program_id l accounts = Ok (a, ga, payer, rest, p) ->
  GlobalState_try_from l ga = Ok g -> authorize l pa (key payer) g flags.PERMISSION_ADMIN = Ok () ->
  try_acc_write program_id (CPermission p') a l = Ok l' ->
  perm_user_payer p' = perm_user_payer p -> perm_status p' <> PermissionNone ->
  has (permissions p') flags.ALL_FLAGS = true ->
  (has (permissions p') flags.FOUNDATION = true ->
   has (permissions p) flags.FOUNDATION = true \/ may_grant_foundation l payer g) -> effect l accounts l'.
Proof.
  intros (Hk & Hp & Ho & Hin & Hs)%permission_prologue_ok Hg%GlobalState_try_from_ok Ha (-> & _)%try_acc_write_ok Hu Hst Hall Hf.
  rewrite Hk, <- Hu. eapply (eff_permission l accounts payer (key ga) g p'); [by apply owner_content| |done|done|].
  - split; [done|eauto].
  - intros [H|H]%Hf; [left|by right]. rewrite Hu. by exists p.
Qed.

Lemma update_effect l accounts v l' :
  process_update_permission find_program_address program_id l accounts v = Ok l' -> ledger_ok l -> effect l accounts l'.
Proof.
  unfold process_update_permission. intros H Hok. apply bind_ok in H as ([[[[a ga] payer] rest] p] & Hp & H).
  unfold not_own in H. inv_ok. pose proof (permission_prologue_ok _ _ _ _ _ _ _ Hp) as (_ & Hs & _).
  destruct (Hok _ _ Hs eq_refl) as (_ & Hst & _). eapply permission_effect; [done..|].
  cbn. intros [?|Hf]%ldiff_lor_has; [by left|]. right. exists (head rest).
  destruct (can_grant_foundation _ _ _ _ _); [done|].
  match goal with H : negb (has _ flags.FOUNDATION && _) = true |- _ => by rewrite Hf in H end.
Qed.

Lemma suspend_effect l accounts l' :
  process_suspend_permission find_program_address program_id l accounts = Ok l' -> ledger_ok l -> effect l accounts l'.
Proof.
  unfold process_suspend_permission. intros H Hok. apply bind_ok in H as ([[[[a ga] payer] rest] p] & Hp & H).
  unfold not_own in H. inv_ok. pose proof (permission_prologue_ok _ _ _ _ _ _ _ Hp) as (_ & Hs & _).
  destruct (Hok _ _ Hs eq_refl) as (_ & _ & Hall). eapply permission_effect; [done..|by left].
Qed.

Lemma resume_effect l accounts l' :
  process_resume_permission find_program_address program_id l accounts = Ok l' -> ledger_ok l -> effect l accounts l'.
Proof.
  unfold process_resume_permission. intros H Hok. apply bind_ok in H as ([[[[a ga] payer] rest] p] & Hp & H).
  inv_ok. pose proof (permission_prologue_ok _ _ _ _ _ _ _ Hp) as (_ & Hs & _).
  destruct (Hok _ _ Hs eq_refl) as (_ & _ & Hall). eapply permission_effect; [done..|by left].
Qed.

Lemma delete_effect l accounts l' :
  process_delete_permission find_program_address program_id l accounts = Ok l' -> effect l accounts l'.
Proof.
  unfold process_delete_permission. intros H. apply bind_ok in H as ([[[[a ga] payer] rest] p] & Hp & H).
  unfold not_own in H. inv_gov. apply permission_prologue_ok in Hp as (Hk & Hs & Ho & Hin & Hsig).
  match goal with H : try_acc_close _ _ _ = Ok _ |- _ => unfold try_acc_close in H end. inv_ok. rewrite Hk.
  eapply eff_delete; [by apply owner_content|split; [done|eauto]|done|].
  intros Heq. match goal with H : negb (bool_decide _) = true |- _ => by rewrite bool_decide_true in H end.
Qed.

Lemma process_effect l accounts i l' : process l accounts i = Ok l' -> ledger_ok l -> effect l accounts l'.
Proof.
  intros H Hok. destruct i; cbn [process_instruction] in H.
  all: try (match type of H with ?f _ _ _ _ _ _ = Ok _ => unfold f in H | ?f _ _ _ _ _ = Ok _ => unfold f in H end;
    apply bind_ok in H as ([[a payer] g] & Ha & H); inv_ok; by eapply write_globalstate).
  - by apply init_effect.
  - by eapply version_effect.
  - by eapply create_effect.
  - by eapply update_effect.
  - by apply suspend_effect.
  - by apply resume_effect.
  - by apply delete_effect.
Qed.

Lemma exec_effect l t : ledger_ok l -> exec l t = l \/ effect l t.1 (exec l t).
Proof. intros Hok. unfold exec. destruct (process l t.1 t.2) eqn:E; [right; by eapply process_effect|by left..]. Qed.

(** ** The invariant *)

Lemma ledger_ok_insert l k c : ledger_ok l -> content_ok k c -> ledger_ok (<[k := mkAccount program_id c]> l).
Proof. intros Hl Hc. by apply map_Forall_insert_2. Qed.

Lemma effect_ok l accounts l' : ledger_ok l -> effect l accounts l' -> ledger_ok l'.
Proof.
  intros Hl He. destruct He.
  - unfold initialized. case_match; repeat apply ledger_ok_insert; done.
  - by apply ledger_ok_insert.
  - apply ledger_ok_insert; [done|]. by apply (Hl _ _ H1).
  - by apply ledger_ok_insert.
  - by apply map_Forall_delete.
Qed.

Lemma exec_all_ok l ts : ledger_ok l -> ledger_ok (exec_all l ts).
Proof.
  revert l. induction ts as [|t ts IH]; intros l Hl; [done|]. apply IH.
  destruct (exec_effect l t Hl) as [-> |He]; [done|by eapply effect_ok].
Qed.


Lemma globalstate_unique l k g : ledger_ok l -> l !! k = Some (mkAccount program_id (CGlobalState g)) -> has_globalstate l g.
Proof. intros Hl Hk. destruct (Hl _ _ Hk eq_refl) as [-> _]. done. Qed.

(** ** Who may change what *)

Definition holds (l : ledger) (k : Pubkey) (f : Z) : Prop :=
  exists p, has_permission l k p /\ perm_status p = PermissionActivated /\ has (permissions p) f = true.

(** The keys that may change the governing accounts. *)
Definition governor (l : ledger) (g : GlobalState) (k : Pubkey) : Prop :=
  k ∈ foundation_allowlist g \/ holds l k flags.PERMISSION_ADMIN \/ holds l k flags.GLOBALSTATE_ADMIN.

Lemma authorized_holds l pa payer g f : f = flags.PERMISSION_ADMIN \/ f = flags.GLOBALSTATE_ADMIN ->
  authorize l pa payer g f = Ok () -> payer ∈ foundation_allowlist g \/ holds l payer f.
Proof.
  intros Hf [Hown [Hg|[Hr|[_ Hl]]]]%authorize_ok.
  - right. by apply (grants_activated _ _ _ _ _ _ Hown Hg).
  - left. by apply andb_true_iff in Hr as [_ Hr%contains_spec].
  - left. rewrite legacy_foundation in Hl by done. by apply contains_spec.
Qed.

Lemma payer_signs (accounts : list meta) i payer : payer ∈ accounts -> is_signer payer = true -> signs (accounts, i) (key payer).
Proof. intros Hin Hs. apply Exists_exists. by exists payer. Qed.

Lemma authorized_governor l t payer g f : f = flags.PERMISSION_ADMIN \/ f = flags.GLOBALSTATE_ADMIN ->
  payer_authorized l t.1 payer g f -> signs t (key payer) /\ governor l g (key payer).
Proof.
  intros Hf (Hin & Hs & pa & Ha). split; [destruct t; by apply payer_signs|].
  destruct (authorized_holds _ _ _ _ _ Hf Ha) as [H|H]; [by left|right]. destruct Hf as [-> | ->]; auto.
Qed.

Lemma isolated_step l g t : ledger_ok l -> has_globalstate l g -> (forall k, signs t k -> ~ governor l g k) ->
  exec l t = l \/ exists payer, exec l t = initialized payer l.
Proof.
  intros Hl Hg Ht. destruct (exec_effect l t Hl) as [H|He]; [by left|].
  assert (forall payer kg g' f, f = flags.PERMISSION_ADMIN \/ f = flags.GLOBALSTATE_ADMIN ->
    l !! kg = Some (mkAccount program_id (CGlobalState g')) -> payer_authorized l t.1 payer g' f -> False) as Hno.
  { intros payer kg g' f Hf Hk Hp. apply globalstate_unique in Hk; [|done]. unfold has_globalstate in *.
    rewrite Hg in Hk. injection Hk as <-. destruct (authorized_governor _ _ _ _ _ Hf Hp) as [Hs Hgov]. by eapply Ht. }
  inversion He; subst; [right; eauto|exfalso; eapply Hno; [..|done]; eauto; done..].
Qed.

Lemma initialized_lookup l g payer k : has_globalstate l g -> k <> program_config_pda.1 -> initialized payer l !! k = l !! k.
Proof.
  intros Hg Hk. unfold initialized, data_is_empty. cbn zeta. case_bool_decide as Hn; [exfalso|by rewrite lookup_insert_ne].
  destruct (decide (program_config_pda.1 = globalstate_pda.1)) as [E|E].
  - rewrite E in Hn. by rewrite lookup_insert_eq in Hn.
  - rewrite lookup_insert_ne in Hn by done. unfold has_globalstate in Hg. congruence.
Qed.

Lemma initialized_config payer l : program_config_pda.1 <> globalstate_pda.1 ->
  initialized payer l !! program_config_pda.1 =
  Some (mkAccount program_id (CProgramConfig (mkProgramConfig (program_config_pda.2) current_version MIN_COMPATIBLE_VERSION))).
Proof.
  intros Hne. unfold initialized. case_match; [rewrite lookup_insert_ne by done|]; by rewrite lookup_insert_eq.
Qed.

Lemma initialized_governor l g payer k : program_config_pda.1 <> globalstate_pda.1 -> has_globalstate l g ->
  governor (initialized payer l) g k -> governor l g k.
Proof.
  intros Hne Hg. assert (forall f, holds (initialized payer l) k f -> holds l k f) as Hh.
  { intros f (p & Hp & ?). exists p. split; [|done]. unfold has_permission in *.
    destruct (decide ((permission_pda k).1 = program_config_pda.1)) as [E|E].
    - rewrite E, initialized_config in Hp by done. discriminate.
    - by rewrite (initialized_lookup l g) in Hp. }
  unfold governor. intros [?|[?|?]]; auto.
Qed.

(** C6. The governing accounts are isolated from the governance instructions:
    whatever sequence of them is sent, if none of the signers is on the
    foundation allowlist or holds an activated permission to administer
    permissions or the global state, no account changes, except for the program
    configuration. The other instructions of the program are not in these
    transactions. *)
Theorem governance_isolated l g ts k :
  program_config_pda.1 <> globalstate_pda.1 -> ledger_ok l -> has_globalstate l g ->
  (forall t s, t ∈ ts -> signs t s -> ~ governor l g s) ->
  k <> program_config_pda.1 -> exec_all l ts !! k = l !! k.
Proof.
  intros Hne Hl Hg Hts Hk. revert l Hl Hg Hts. induction ts as [|t ts IH]; intros l Hl Hg Hts; [done|].
  cbn [exec_all foldl]. destruct (isolated_step l g t Hl Hg) as [-> |[payer Hp]].
  - intros s Hs. apply (Hts t s); [by left|done].
  - apply IH; [done..|]. intros t' s Ht. apply Hts. by right.
  - rewrite Hp. rewrite <- (initialized_lookup l g payer k) by done. apply IH.
    + rewrite <- Hp. by apply (exec_all_ok l [t]).
    + unfold has_globalstate. by rewrite (initialized_lookup l g).
    + intros t' s Ht Hs Hgov. apply (Hts t' s); [by right|done|]. by eapply initialized_governor.
Qed.

Lemma can_grant_holds l pa payer g : can_grant_foundation find_program_address program_id l pa payer g = true ->
  payer ∈ foundation_allowlist g \/ holds l payer flags.FOUNDATION.
Proof.
  unfold can_grant_foundation. intros [H|H]%orb_true_iff; [left; by apply contains_spec|right].
  destruct pa as [a|]; [|done]. apply andb_true_iff in H as [[Hk Ho]%andb_true_iff Hg].
  apply bool_decide_eq_true in Hk, Ho. by apply (grants_activated find_program_address program_id l (Some a)).
Qed.

(** C29. No instruction lets a mere administrator of permissions hand out
    [FOUNDATION]: when a transaction leaves a user with the flag who did not
    have it, one of its signers is on the foundation allowlist or holds the
    flag in an activated permission. *)
Theorem foundation_flag_gated l g t u :
  ledger_ok l -> has_globalstate l g -> has_foundation (exec l t) u -> ~ has_foundation l u ->
  exists s, signs t s /\ (s ∈ foundation_allowlist g \/ holds l s flags.FOUNDATION).
Proof.
  intros Hl Hg (p & Hp & Hf) Hn. destruct (exec_effect l t Hl) as [E|He]; [rewrite E in Hp; by destruct Hn; exists p|].
  unfold has_permission in Hp. revert Hp. inversion He as [| | |payer kg g' p' Hk Ha _ _ Hfound|]; subst; intros Hp.
  - exfalso. unfold initialized in Hp. apply Hn. exists p. split; [|done]. revert Hp.
    case_match; rewrite ?lookup_insert; repeat case_decide; simplify_eq; done.
  - exfalso. apply Hn. exists p. split; [|done]. revert Hp. rewrite lookup_insert. by case_decide; simplify_eq.
  - exfalso. apply Hn. exists p. split; [|done]. revert Hp. rewrite lookup_insert. by case_decide; simplify_eq.
  - revert Hp. rewrite lookup_insert. case_decide as Hkey; intros Hp; [|exfalso; apply Hn; by exists p].
    injection Hp as <-. destruct (Hfound Hf) as [(q & Hq & Hqf)|[pa Hgr]].
    + exfalso. apply Hn. exists q. unfold has_permission in *. by rewrite <- Hkey.
    + apply globalstate_unique in Hk; [|done]. unfold has_globalstate in *. rewrite Hg in Hk. injection Hk as <-.
      exists (key payer). destruct Ha as (Hin & Hs & _). split; [destruct t; by apply payer_signs|].
      by eapply can_grant_holds.
  - exfalso. apply Hn. exists p. split; [|done]. revert Hp. rewrite lookup_delete. by case_decide.
Qed.

(** ** Transactions that are accepted *)

(** The payer's own permission, as the client appends it when it exists. *)
Definition trailing (l : ledger) (payer : Pubkey) : list meta :=
  match l !! (permission_pda payer).1 with Some _ => [acct (permission_pda payer).1] | None => [] end.

Definition permission_accounts (l : ledger) (u payer : Pubkey) : list meta :=
  [acct (permission_pda u).1; acct globalstate_pda.1; signer payer; acct SYSTEM_PROGRAM_ID] ++ trailing l payer.
Definition create_tx (l : ledger) (payer u : Pubkey) (f : Z) : transaction :=
  (permission_accounts l u payer, CreatePermission (mkPermissionCreateArgs u f)).
Definition update_tx (l : ledger) (payer u : Pubkey) (add remove : Z) : transaction :=
  (permission_accounts l u payer, UpdatePermission (mkPermissionUpdateArgs add remove)).
Definition resume_tx (l : ledger) (payer u : Pubkey) : transaction := (permission_accounts l u payer, ResumePermission).
Definition add_foundation_tx (l : ledger) (payer k : Pubkey) : transaction :=
  ([acct globalstate_pda.1; signer payer; acct SYSTEM_PROGRAM_ID] ++ trailing l payer, AddFoundationAllowlist k).
Definition init_tx (payer : Pubkey) : transaction :=
  ([acct program_config_pda.1; acct globalstate_pda.1; signer payer; acct SYSTEM_PROGRAM_ID], InitGlobalState).

(** The payer passes the check for [f] with the accounts the client sends. *)
Definition accepted (l : ledger) (g : GlobalState) (payer : Pubkey) (f : Z) : Prop :=
  authorize l (head (trailing l payer)) payer g f = Ok ().

Lemma accepted_holds l g payer f : holds l payer f -> accepted l g payer f.
Proof.
  intros (p & Hp & Hs & Hf). unfold accepted, trailing. unfold has_permission in Hp. rewrite Hp. cbn [head].
  apply authorize_ok. split; [split; [done|]; unfold owner_of; cbn; by rewrite Hp|]. left. cbn.
  unfold permission_grants, data_is_empty, try_from, content_of. cbn. rewrite Hp. cbn. by rewrite bool_decide_true.
Qed.

(** A permission PDA is the program's, once there is data in it. *)
Definition pda_owned (l : ledger) (u : Pubkey) : Prop :=
  l !! (permission_pda u).1 = None \/ exists p, has_permission l u p /\ perm_user_payer p = u.

Lemma accepted_foundation l g payer : pda_owned l payer -> payer ∈ foundation_allowlist g -> accepted l g payer flags.PERMISSION_ADMIN.
Proof.
  intros Ho Hin. apply authorize_ok. split.
  - unfold trailing. destruct Ho as [-> |(p & Hp & _)]; [done|]. unfold has_permission in Hp. rewrite Hp. cbn.
    split; [done|]. unfold owner_of. by rewrite Hp.
  - right. left. apply andb_true_iff. split; [done|]. by apply contains_spec.
Qed.

Lemma read_globalstate l g : has_globalstate l g ->
  owner_of l globalstate_pda.1 = program_id /\ data_is_empty l globalstate_pda.1 = false /\
  GlobalState_try_from l (acct globalstate_pda.1) = Ok g.
Proof.
  unfold has_globalstate, owner_of, data_is_empty, try_from, content_of. cbn [key acct]. intros ->.
  by rewrite bool_decide_false.
Qed.

Lemma read_permission l u p : has_permission l u p ->
  owner_of l (permission_pda u).1 = program_id /\ data_is_empty l (permission_pda u).1 = false /\
  Permission_try_from l (acct (permission_pda u).1) = Ok p.
Proof.
  unfold has_permission, owner_of, data_is_empty, try_from, content_of. cbn [key acct]. intros ->.
  by rewrite bool_decide_false.
Qed.

Lemma exec_ok l t l' : process l t.1 t.2 = Ok l' -> exec l t = l'.
Proof. unfold exec. by intros ->. Qed.

Lemma exec_create l g payer u f : has_globalstate l g -> accepted l g payer flags.PERMISSION_ADMIN ->
  l !! (permission_pda u).1 = None -> has f flags.ALL_FLAGS = true ->
  (has f flags.FOUNDATION = true -> payer ∈ foundation_allowlist g) ->
  exec l (create_tx l payer u f) =
  <[(permission_pda u).1 := mkAccount program_id (CPermission (mkPermission payer (permission_pda u).2 PermissionActivated u f))]> l.
Proof.
  intros Hg Ha Hn Hall Hf. destruct (read_globalstate l g Hg) as (Ho & He & Hr).
  assert (owner_of l (permission_pda u).1 = SYSTEM_PROGRAM_ID) by (unfold owner_of; by rewrite Hn).
  assert (data_is_empty l (permission_pda u).1 = true) by (unfold data_is_empty; by rewrite Hn, bool_decide_true).
  assert (has f flags.FOUNDATION && negb (can_grant_foundation find_program_address program_id l
    (head (trailing l payer)) payer g) = false).
  { destruct (has f flags.FOUNDATION); [|done]. unfold can_grant_foundation.
    by rewrite (proj2 (contains_spec _ _) (Hf eq_refl)). }
  apply exec_ok. unfold create_tx, process_instruction, process_create_permission. cbn [fst snd]. run_ok.
  unfold try_acc_create. run_ok. done.
Qed.

Lemma can_grant_trailing l g payer : payer ∈ foundation_allowlist g \/ holds l payer flags.FOUNDATION ->
  can_grant_foundation find_program_address program_id l (head (trailing l payer)) payer g = true.
Proof.
  intros [Hin|(p & Hp & Hs & Hf)]; unfold can_grant_foundation; [by rewrite (proj2 (contains_spec _ _) Hin)|].
  apply orb_true_iff. right. unfold trailing. unfold has_permission in Hp. rewrite Hp. cbn -[permission_grants].
  rewrite !bool_decide_true by (unfold owner_of; rewrite ?Hp; done).
  unfold permission_grants, data_is_empty, try_from, content_of. cbn. rewrite Hp. cbn. by rewrite bool_decide_true.
Qed.

Lemma has_lor_l a b f : has b f = true -> has (Z.lor a b) f = true.
Proof.
  unfold has. intros H. apply negb_true_iff, Z.eqb_neq. intros E. rewrite Z.land_lor_distr_l in E.
  apply Z.lor_eq_0_iff in E as [_ E]. by rewrite E in H.
Qed.

Lemma has_nonzero a f : has a f = true -> (a =? 0) = false.
Proof. unfold has. intros H. destruct (Z.eqb_spec a 0) as [-> |]; [by rewrite Z.land_0_l in H|done]. Qed.

Lemma exec_update l g payer u p add : has_globalstate l g -> accepted l g payer flags.PERMISSION_ADMIN ->
  has_permission l u p -> perm_user_payer p = u -> u <> payer -> has add flags.ALL_FLAGS = true ->
  payer ∈ foundation_allowlist g \/ holds l payer flags.FOUNDATION ->
  exec l (update_tx l payer u add 0) =
  <[(permission_pda u).1 := mkAccount program_id (CPermission (p <| permissions := Z.lor (permissions p) add |>))]> l.
Proof.
  intros Hg Ha Hp Hu Hne Hall Hf. destruct (read_globalstate l g Hg) as (Ho & He & Hr).
  destruct (read_permission l u p Hp) as (Hpo & Hpe & Hpr). apply exec_ok.
  pose proof (validated program_id l _ _ false Hg). pose proof (validated program_id l _ _ true Hp).
  pose proof (can_grant_trailing l g payer Hf) as Hcan. pose proof (has_0 add). pose proof (has_nonzero _ _ Hall) as Hnz.
  assert (has (Z.lor (permissions p) add) flags.ALL_FLAGS = true) by by apply has_lor_l.
  assert (key (acct (permission_pda u).1) = (permission_pda (perm_user_payer p)).1) by by rewrite Hu.
  assert (perm_user_payer p <> key (signer payer)) by by rewrite Hu.
  assert (has add flags.FOUNDATION && negb (can_grant_foundation find_program_address program_id l
    (head (trailing l payer)) payer g) = false) by by rewrite Hcan, andb_false_r.
  assert ((add =? 0) && (0 =? 0) = false) by by rewrite Hnz.
  unfold update_tx, process_instruction, process_update_permission, permission_prologue, not_own. cbn [fst snd].
  apply bind_ok. eexists. split; [run_ok; reflexivity|]. cbn beta iota.
  cbn [pua_add pua_remove]. rewrite Z.ldiff_0_r. run_ok. unfold try_acc_write, owned_writable. run_ok. done.
Qed.

Lemma exec_resume l g payer u p : has_globalstate l g -> accepted l g payer flags.PERMISSION_ADMIN ->
  has_permission l u p -> perm_user_payer p = u -> perm_status p = PermissionSuspended ->
  exec l (resume_tx l payer u) =
  <[(permission_pda u).1 := mkAccount program_id (CPermission (p <| perm_status := PermissionActivated |>))]> l.
Proof.
  intros Hg Ha Hp Hu Hs. destruct (read_globalstate l g Hg) as (Ho & He & Hr).
  destruct (read_permission l u p Hp) as (Hpo & Hpe & Hpr). apply exec_ok.
  pose proof (validated program_id l _ _ false Hg). pose proof (validated program_id l _ _ true Hp).
  assert (key (acct (permission_pda u).1) = (permission_pda (perm_user_payer p)).1) by by rewrite Hu.
  unfold resume_tx, process_instruction, process_resume_permission, permission_prologue. cbn [fst snd].
  apply bind_ok. eexists. split; [run_ok; reflexivity|]. cbn beta iota.
  run_ok. unfold try_acc_write, owned_writable. run_ok. done.
Qed.

Lemma exec_add_foundation l g payer k : has_globalstate l g -> accepted l g payer flags.GLOBALSTATE_ADMIN ->
  k ∉ foundation_allowlist g ->
  exec l (add_foundation_tx l payer k) =
  <[globalstate_pda.1 := mkAccount program_id (CGlobalState (g <| foundation_allowlist := foundation_allowlist g ++ [k] |>))]> l.
Proof.
  intros Hg Ha Hk. destruct (read_globalstate l g Hg) as (Ho & He & Hr). apply exec_ok.
  assert (foundation_allowlist g ++ [k] <> []) by by destruct (foundation_allowlist g).
  unfold add_foundation_tx, process_instruction, process_add_foundation_allowlist_globalconfig, globalstate_admin. cbn [fst snd].
  apply bind_ok. eexists. split; [run_ok; reflexivity|]. cbn beta iota. unfold contains. run_ok.
  unfold try_acc_write, owned_writable, validate. cbn [foundation_allowlist set_field]. run_ok. done.
Qed.

Lemma signers_trailing l payer ms i s : Forall (fun m => is_signer m = false \/ key m = payer) ms ->
  signs (ms ++ trailing l payer, i) s -> s = payer.
Proof.
  unfold signs. cbn [fst]. intros Hms Hs. apply Exists_exists in Hs as (m & Hin & Hsig & <-).
  apply elem_of_app in Hin as [Hin|Hin].
  - rewrite Forall_forall in Hms. destruct (Hms m Hin); congruence.
  - unfold trailing in Hin. case_match; [|by apply elem_of_nil in Hin]. apply list_elem_of_singleton in Hin as ->. done.
Qed.

Lemma signers_permission l payer u i s : signs (permission_accounts l u payer, i) s -> s = payer.
Proof. apply signers_trailing. repeat (constructor; [(by left) || (by right)|]). constructor. Qed.

Lemma signers_add_foundation l payer k s : signs (add_foundation_tx l payer k) s -> s = payer.
Proof. apply signers_trailing. repeat (constructor; [(by left) || (by right)|]). constructor. Qed.

Lemma insert_globalstate l k a g : has_globalstate l g -> k <> globalstate_pda.1 -> has_globalstate (<[k := a]> l) g.
Proof. unfold has_globalstate. intros. by rewrite lookup_insert_ne. Qed.

Lemma permission_not_globalstate l g u p : has_globalstate l g -> has_permission l u p -> (permission_pda u).1 <> globalstate_pda.1.
Proof. unfold has_globalstate, has_permission. congruence. Qed.

Lemma absent_not_globalstate l g u : has_globalstate l g -> l !! (permission_pda u).1 = None ->
  (permission_pda u).1 <> globalstate_pda.1.
Proof. unfold has_globalstate. congruence. Qed.

Lemma insert_permission l k a u p : has_permission l u p -> k <> (permission_pda u).1 -> has_permission (<[k := a]> l) u p.
Proof. unfold has_permission. intros. by rewrite lookup_insert_ne. Qed.

Lemma insert_holds l k a u f : holds l u f -> k <> (permission_pda u).1 -> holds (<[k := a]> l) u f.
Proof. intros (p & Hp & ?) Hk. exists p. split; [by apply insert_permission|done]. Qed.

(** An activated permission granted by an administrator [h] who is also
    [FOUNDATION]. *)
Lemma restored l g f h p m : has_globalstate l g -> has_permission l f p -> perm_user_payer p = f -> h <> f ->
  perm_status p <> PermissionNone -> holds l h flags.PERMISSION_ADMIN -> holds l h flags.FOUNDATION ->
  (permission_pda h).1 <> (permission_pda f).1 -> has m flags.ALL_FLAGS = true ->
  exists ts, (forall t s, t ∈ ts -> signs t s -> s = h) /\ has_globalstate (exec_all l ts) g /\
    exists q, has_permission (exec_all l ts) f q /\ perm_status q = PermissionActivated /\ Z.land (permissions q) m = m.
Proof.
  intros Hg Hp Hu Hne Hst Hh Hf Hpda Hm. pose proof (permission_not_globalstate _ _ _ _ Hg Hp) as Hk.
  assert (forall l p, has_globalstate l g -> has_permission l f p -> perm_user_payer p = f ->
    perm_status p = PermissionActivated -> holds l h flags.PERMISSION_ADMIN -> holds l h flags.FOUNDATION ->
    has_globalstate (exec l (update_tx l h f m 0)) g /\
    exists q, has_permission (exec l (update_tx l h f m 0)) f q /\ perm_status q = PermissionActivated /\
      Z.land (permissions q) m = m) as Hupd.
  { clear - Hk Hne Hm. intros l p Hg Hp Hu Hs Hh Hf.
    rewrite (exec_update l g h f p m) by eauto using accepted_holds. split; [by apply insert_globalstate|].
    eexists. split; [apply lookup_insert_eq|]. split; [done|]. cbn.
    apply Z.bits_inj'. intros n _. rewrite Z.land_spec, Z.lor_spec. by destruct (Z.testbit _ n), (Z.testbit m n). }
  destruct (perm_status p) eqn:Es; [done| |].
  - exists [update_tx l h f m 0]. split; [|by eapply Hupd].
    intros t s ->%list_elem_of_singleton. apply signers_permission.
  - set (l1 := exec l (resume_tx l h f)). exists [resume_tx l h f; update_tx l1 h f m 0]. split.
    + intros t s Ht. rewrite !elem_of_cons in Ht. destruct Ht as [-> |[-> |Ht%elem_of_nil]]; [..|done]; apply signers_permission.
    + cbn [exec_all foldl]. fold l1. unfold l1 in *. rewrite (exec_resume l g h f p) in * by eauto using accepted_holds.
      eapply Hupd; [by apply insert_globalstate|apply lookup_insert_eq|done|done|by apply insert_holds..].
Qed.

(** Foundation is never locked out. Whatever became of their own
    permission (missing, suspended or without the flags) and whether or not
    permission accounts are required, a member of the foundation allowlist
    and a second key of theirs can sign transactions after which the member
    holds an activated permission with any flags they want. *)
Theorem foundation_recovers l g f h m :
  ledger_ok l -> has_globalstate l g -> f ∈ foundation_allowlist g -> pda_owned l f ->
  l !! (permission_pda h).1 = None -> h <> f -> has m flags.ALL_FLAGS = true ->
  exists ts, (forall t s, t ∈ ts -> signs t s -> s = f \/ s = h) /\ has_globalstate (exec_all l ts) g /\
    exists p, has_permission (exec_all l ts) f p /\ perm_status p = PermissionActivated /\ Z.land (permissions p) m = m.
Proof.
  intros Hl Hg Hf Ho Hh Hne Hm. pose proof (accepted_foundation _ _ _ Ho Hf) as Hacc. destruct Ho as [Hn|(p & Hp & Hu)].
  - exists [create_tx l f f m]. split; [intros t s ->%list_elem_of_singleton Hs; left; by eapply signers_permission|].
    cbn [exec_all foldl]. rewrite (exec_create l g) by done.
    split; [apply insert_globalstate; [done|by eapply absent_not_globalstate]|].
    eexists. split; [apply lookup_insert_eq|]. split; [done|]. apply Z.land_diag.
  - set (both := Z.lor flags.PERMISSION_ADMIN flags.FOUNDATION). set (l1 := exec l (create_tx l f h both)).
    assert ((permission_pda h).1 <> (permission_pda f).1) as Hpda by (unfold has_permission in Hp; congruence).
    destruct (Hl _ _ Hp eq_refl) as (_ & Hst & _).
    destruct (restored l1 g f h p m) as (ts & Hts & Hfin); unfold l1; try rewrite (exec_create l g) by done.
    1: by apply insert_globalstate; [|eapply absent_not_globalstate]. 1: by apply insert_permission. 1-3: done.
    1-2: eexists; split; [apply lookup_insert_eq|done]. 1-2: done.
    exists (create_tx l f h both :: ts). split; [|done].
    intros t s [-> |Ht]%elem_of_cons Hs; [left; by eapply signers_permission|right; by eapply Hts].
Qed.

(** C34. An administrator of permissions becomes foundation all the same. From
    any state, in either mode, a holder [a] of nothing but
    [PERMISSION_ADMIN] and a second key [q] of theirs, known to nobody, sign
    three transactions after which [q] is on the foundation allowlist and [a]
    holds [FOUNDATION]: granting [GLOBALSTATE_ADMIN], which extends the
    allowlist, is not restricted the way granting [FOUNDATION] is. *)
Theorem permission_admin_escalates l g a p q :
  has_globalstate l g -> has_permission l a p -> perm_user_payer p = a -> perm_status p = PermissionActivated ->
  permissions p = flags.PERMISSION_ADMIN -> q <> a -> q ∉ foundation_allowlist g -> l !! (permission_pda q).1 = None ->
  exists t1 t2 t3, (forall s, signs t1 s -> s = a) /\ (forall s, signs t2 s \/ signs t3 s -> s = q) /\
    has_foundation (exec_all l [t1; t2; t3]) a /\
    exists g', has_globalstate (exec_all l [t1; t2; t3]) g' /\ q ∈ foundation_allowlist g'.
Proof.
  intros Hg Hp Hu Hs Hf Hne Hq Hn. set (both := Z.lor flags.PERMISSION_ADMIN flags.GLOBALSTATE_ADMIN).
  set (g' := g <| foundation_allowlist := foundation_allowlist g ++ [q] |>).
  pose proof (permission_not_globalstate _ _ _ _ Hg Hp) as Hk. pose proof (absent_not_globalstate _ _ _ Hg Hn) as Hkq.
  assert ((permission_pda q).1 <> (permission_pda a).1) as Hpda by (unfold has_permission in Hp; congruence).
  set (l1 := exec l (create_tx l a q both)). set (l2 := exec l1 (add_foundation_tx l1 q q)).
  assert (l1 = <[(permission_pda q).1 := mkAccount program_id
    (CPermission (mkPermission a (permission_pda q).2 PermissionActivated q both))]> l) as E1.
  { apply (exec_create l g); [done| |done..]. apply accepted_holds. exists p. by rewrite Hf. }
  assert (forall f, has both f = true -> holds l1 q f) as Hh.
  { intros f Hb. rewrite E1. eexists. split; [apply lookup_insert_eq|done]. }
  assert (l2 = <[globalstate_pda.1 := mkAccount program_id (CGlobalState g')]> l1) as E2.
  { apply exec_add_foundation; [rewrite E1; by apply insert_globalstate| |done]. by apply accepted_holds, Hh. }
  exists (create_tx l a q both), (add_foundation_tx l1 q q), (update_tx l2 q a flags.FOUNDATION 0).
  split; [intros s; apply signers_permission|].
  split; [intros s [H|H]; [by eapply signers_add_foundation|by eapply signers_permission]|].
  cbn [exec_all foldl]. fold l1. fold l2.
  assert (has_globalstate l2 g') as Hg2 by (rewrite E2; apply lookup_insert_eq).
  assert (q ∈ foundation_allowlist g') as Hq2 by (apply elem_of_app; right; by left).
  rewrite (exec_update l2 g' q a p); [|done| | |done|done|done|by left].
  - split; [|exists g'; split; [by apply insert_globalstate|done]].
    eexists. split; [apply lookup_insert_eq|]. cbn [permissions set_field]. rewrite Hf. done.
  - apply accepted_holds. rewrite E2. apply insert_holds; [by apply Hh|done].
  - rewrite E2, E1. apply insert_permission; [apply insert_permission; [done|done]|done].
Qed.

(** Anyone undoes the minimum version: whatever minimum version of the
    clients an administrator set, a transaction signed by any key, without
    permission of any kind, sets it back to the one the program was built with
    and changes nothing else. *)
Theorem anyone_resets_min_version l g c payer :
  program_config_pda.1 <> globalstate_pda.1 -> has_globalstate l g ->
  l !! program_config_pda.1 = Some (mkAccount program_id (CProgramConfig c)) ->
  exec l (init_tx payer) = <[program_config_pda.1 := mkAccount program_id
    (CProgramConfig (mkProgramConfig (program_config_pda.2) current_version MIN_COMPATIBLE_VERSION))]> l.
Proof.
  intros Hne Hg Hc. set (l' := <[_ := _]> l).
  assert (data_is_empty l program_config_pda.1 = false) as He by (unfold data_is_empty; rewrite Hc; by apply bool_decide_false).
  assert (owner_of l program_config_pda.1 = program_id) as Ho by (unfold owner_of; by rewrite Hc).
  assert (data_is_empty l' globalstate_pda.1 = false) as Hn.
  { unfold data_is_empty, l'. apply bool_decide_false. rewrite lookup_insert_ne by done. unfold has_globalstate in Hg. by rewrite Hg. }
  apply exec_ok. unfold init_tx, process_instruction, initialize_global_state. cbn [fst snd].
  run_ok. cbn [key acct signer]. apply bind_ok. exists l'. split.
  - rewrite He. unfold try_acc_write, owned_writable. run_ok. done.
  - run_ok. by rewrite Hn.
Qed.
End Ledger.

(** ** A concrete ledger *)

(** No letters beyond ASCII. *)
#[local] Instance ascii_only : Unicode := fun _ => false.

Module Sample.
(** A program address that spells out its seeds. *)
Definition find_program_address (seeds : list bytes) (program : Pubkey) : Pubkey * Z := (mjoin seeds ++ program, 255).
Definition program_id : Pubkey := lit "serviceability".
Definition version : ProgramVersion := mkVersion 0 8 2.
Definition min_version : ProgramVersion := mkVersion 0 7 0.
Definition foundation_key : Pubkey := lit "foundation".
Definition admin_key : Pubkey := lit "permission-admin".
Definition other_key : Pubkey := lit "second-key".

(** Foundation initialises the program and appoints an administrator of
    permissions. *)
Definition founded : ledger :=
  exec_all find_program_address program_id version min_version ∅ [init_tx find_program_address program_id foundation_key].
Definition appointed : ledger :=
  exec_all find_program_address program_id version min_version founded
    [create_tx find_program_address program_id founded foundation_key admin_key flags.PERMISSION_ADMIN].
Definition globalstate : GlobalState := initial_globalstate find_program_address program_id foundation_key.
Definition admin_permission : Permission :=
  mkPermission foundation_key 255 PermissionActivated admin_key flags.PERMISSION_ADMIN.

Lemma appointed_ok : ledger_ok find_program_address program_id appointed.
Proof. apply exec_all_ok, exec_all_ok. apply map_Forall_empty. Qed.
Lemma appointed_globalstate : has_globalstate find_program_address program_id appointed globalstate.
Proof. vm_compute. reflexivity. Qed.
Lemma appointed_admin : has_permission find_program_address program_id appointed admin_key admin_permission.
Proof. vm_compute. reflexivity. Qed.
Lemma other_absent : appointed !! (get_permission_pda find_program_address program_id other_key).1 = None.
Proof. vm_compute. reflexivity. Qed.
End Sample.


Lemma governance_isolated_witness :
  exec_all Sample.find_program_address Sample.program_id Sample.version Sample.min_version Sample.appointed
    [init_tx Sample.find_program_address Sample.program_id Sample.other_key]
    !! (get_globalstate_pda Sample.find_program_address Sample.program_id).1
  = Sample.appointed !! (get_globalstate_pda Sample.find_program_address Sample.program_id).1.
Proof.
  apply (governance_isolated Sample.find_program_address Sample.program_id Sample.version Sample.min_version
    Sample.appointed Sample.globalstate); [discriminate|apply Sample.appointed_ok|apply Sample.appointed_globalstate| |discriminate].
  intros t s ->%list_elem_of_singleton Hs.
  assert (s = Sample.other_key) as ->.
  { apply Exists_exists in Hs as (m & Hin & Hsig & <-). unfold init_tx in Hin. cbn [fst] in Hin.
    repeat (apply elem_of_cons in Hin as [-> |Hin]; [done|]). by apply elem_of_nil in Hin. }
  assert (Sample.appointed !! (get_permission_pda Sample.find_program_address Sample.program_id Sample.other_key).1 = None)
    by apply Sample.other_absent.
  intros [Hin|[(p & Hp & _)|(p & Hp & _)]].
  - apply contains_spec in Hin. vm_compute in Hin. discriminate.
  - unfold has_permission in Hp. congruence.
  - unfold has_permission in Hp. congruence.
Defined.

Lemma foundation_flag_gated_witness :
  exists s, signs (create_tx Sample.find_program_address Sample.program_id Sample.appointed Sample.foundation_key Sample.other_key
      flags.FOUNDATION) s /\
    (s ∈ foundation_allowlist Sample.globalstate \/
     holds Sample.find_program_address Sample.program_id Sample.appointed s flags.FOUNDATION).
Proof.
  apply (foundation_flag_gated Sample.find_program_address Sample.program_id Sample.version Sample.min_version
    Sample.appointed Sample.globalstate _ Sample.other_key).
  - apply Sample.appointed_ok.
  - apply Sample.appointed_globalstate.
  - eexists. split; [vm_compute; reflexivity|reflexivity].
  - intros (p & Hp & _). unfold has_permission in Hp.
    assert (Sample.appointed !! (get_permission_pda Sample.find_program_address Sample.program_id Sample.other_key).1 = None)
      by apply Sample.other_absent. congruence.
Defined.

Lemma foundation_recovers_witness :
  exists ts, (forall t s, t ∈ ts -> signs t s -> s = Sample.foundation_key \/ s = Sample.other_key) /\
    has_globalstate Sample.find_program_address Sample.program_id
      (exec_all Sample.find_program_address Sample.program_id Sample.version Sample.min_version Sample.appointed ts) Sample.globalstate /\
    exists p, has_permission Sample.find_program_address Sample.program_id
        (exec_all Sample.find_program_address Sample.program_id Sample.version Sample.min_version Sample.appointed ts)
        Sample.foundation_key p /\
      perm_status p = PermissionActivated /\ Z.land (permissions p) flags.ALL_FLAGS = flags.ALL_FLAGS.
Proof.
  apply (foundation_recovers Sample.find_program_address Sample.program_id Sample.version Sample.min_version);
    [apply Sample.appointed_ok|apply Sample.appointed_globalstate|by left| |apply Sample.other_absent|discriminate|reflexivity].
  left. vm_compute. reflexivity.
Defined.

Lemma permission_admin_escalates_witness :
  exists t1 t2 t3, (forall s, signs t1 s -> s = Sample.admin_key) /\ (forall s, signs t2 s \/ signs t3 s -> s = Sample.other_key) /\
    has_foundation Sample.find_program_address Sample.program_id
      (exec_all Sample.find_program_address Sample.program_id Sample.version Sample.min_version Sample.appointed [t1; t2; t3])
      Sample.admin_key /\
    exists g', has_globalstate Sample.find_program_address Sample.program_id
        (exec_all Sample.find_program_address Sample.program_id Sample.version Sample.min_version Sample.appointed [t1; t2; t3]) g' /\
      Sample.other_key ∈ foundation_allowlist g'.
Proof.
  apply (permission_admin_escalates Sample.find_program_address Sample.program_id Sample.version Sample.min_version
    Sample.appointed Sample.globalstate Sample.admin_key Sample.admin_permission Sample.other_key);
    [apply Sample.appointed_globalstate|apply Sample.appointed_admin|reflexivity..|discriminate| |apply Sample.other_absent].
  intros Hin%contains_spec. vm_compute in Hin. discriminate.
Defined.

Lemma anyone_resets_min_version_witness :
  exec Sample.find_program_address Sample.program_id Sample.version Sample.min_version Sample.appointed
    (init_tx Sample.find_program_address Sample.program_id Sample.other_key) =
  <[(get_program_config_pda Sample.find_program_address Sample.program_id).1 := mkAccount Sample.program_id
    (CProgramConfig (mkProgramConfig 255 Sample.version Sample.min_version))]> Sample.appointed.
Proof.
  apply (anyone_resets_min_version Sample.find_program_address Sample.program_id Sample.version Sample.min_version
    Sample.appointed Sample.globalstate (mkProgramConfig 255 Sample.version Sample.min_version));
    [discriminate|apply Sample.appointed_globalstate|vm_compute; reflexivity].
Defined.
