(* ===== verification/OnchainAccess.v ===== *)
(** * The on-chain program: allowlists of multicast groups

    Models [processors/multicastgroup/allowlist] of
    [smartcontract/programs/doublezero-serviceability/src]: the instructions
    that put a multicast group on an access pass, creating the pass if needed,
    or take it off. The transfer of lamports to the user is not modelled. *)

From stdpp Require Import base tactics numbers list gmap sets.
From Stdlib Require Import ZArith Lia ZifyBool ZifyNat.
From S2P Require Import Prelude Bytes GoStrings Allocators OnchainState OnchainLedger.

#[local] Open Scope Z_scope.

Inductive allowlist_side := Publisher | Subscriber.

Record AllowlistArgs := mkAllowlistArgs { ala_client_ip : Z; ala_user_payer : Pubkey }.

Section Processors.
Context `{Huni : !Unicode} (find_program_address : list bytes -> Pubkey -> Pubkey * Z) (program_id : Pubkey).

#[local] Abbreviation authorize := (authorize find_program_address program_id).

Definition get_accesspass_pda (client_ip : Z) (user_payer : Pubkey) : Pubkey * Z :=
  find_program_address [lit "doublezero"; lit "accesspass"; be_bytes 4 client_ip; user_payer] program_id.

(** The flag that administers the list. *)
Definition side_flag (side : allowlist_side) : Z :=
  match side with Publisher => flags.MULTICAST_ADMIN | Subscriber => flags.ACCESS_PASS_ADMIN end.

(** [is_ok()] *)
Definition is_ok {A} (r : R A) : R bool := match r with Ok _ => Ok true | Err _ => Ok false | Panic => Panic end.

(** The group's owner, or whoever [authorize] lets through. *)
Definition allowlist_authorized (l : ledger) (mgroup : MulticastGroup.t) (payer : meta) (g : GlobalState) (pa : option meta)
    (side : allowlist_side) : R unit :=
  ok ← (if bool_decide (MulticastGroup.owner mgroup = key payer) then Ok true
        else is_ok (authorize l pa (key payer) g (side_flag side)));
  reject (negb ok) DZ_NotAllowed.

(** The address of the pass, from the client's address or, for a pass with
    several, from 0.0.0.0. *)
Definition check_pass (p : AccessPass.t) (accesspass_account : meta) (v : AllowlistArgs) : R unit :=
  let expected := (get_accesspass_pda (ala_client_ip v) (AccessPass.user_payer p)).1 in
  let dynamic := (get_accesspass_pda 0 (AccessPass.user_payer p)).1 in
  assert_that (bool_decide (key accesspass_account = expected) ||
    AccessPass.allow_multiple_ip p && bool_decide (key accesspass_account = dynamic)).

Definition check_client_ip (p : AccessPass.t) (v : AllowlistArgs) : R unit :=
  if AccessPass.allow_multiple_ip p then Ok () else assert_that (AccessPass.client_ip p =? ala_client_ip v).

(** The feed authority works on passes of other users when it administers
    subscribers. *)
Definition check_user_payer (p : AccessPass.t) (v : AllowlistArgs) (payer : meta) (g : GlobalState) (side : allowlist_side) : R unit :=
  match side with
  | Publisher => assert_that (bool_decide (AccessPass.user_payer p = ala_user_payer v))
  | Subscriber =>
      if bool_decide (feed_authority_pk g = key payer) then Ok ()
      else assert_that (bool_decide (AccessPass.user_payer p = ala_user_payer v))
  end.

(** [contains] and [push] on the list of the side. *)
Definition pass_push (p : AccessPass.t) (k : Pubkey) (side : allowlist_side) : AccessPass.t :=
  match side with
  | Publisher =>
      if contains (AccessPass.mgroup_pub_allowlist p) k then p
      else p <| AccessPass.mgroup_pub_allowlist := AccessPass.mgroup_pub_allowlist p ++ [k] |>
  | Subscriber =>
      if contains (AccessPass.mgroup_sub_allowlist p) k then p
      else p <| AccessPass.mgroup_sub_allowlist := AccessPass.mgroup_sub_allowlist p ++ [k] |>
  end.
(** [retain] *)
Definition pass_remove (p : AccessPass.t) (k : Pubkey) (side : allowlist_side) : AccessPass.t :=
  match side with
  | Publisher => p <| AccessPass.mgroup_pub_allowlist := filter (fun x => x <> k) (AccessPass.mgroup_pub_allowlist p) |>
  | Subscriber => p <| AccessPass.mgroup_sub_allowlist := filter (fun x => x <> k) (AccessPass.mgroup_sub_allowlist p) |>
  end.

Definition new_pass (bump : Z) (v : AllowlistArgs) (payer : Pubkey) (k : Pubkey) (side : allowlist_side) : AccessPass.t :=
  AccessPass.mk payer bump Prepaid (ala_client_ip v) (ala_user_payer v) 0 0 ApRequested
    (match side with Publisher => [k] | Subscriber => [] end) (match side with Publisher => [] | Subscriber => [k] end)
    0 [] 0 1 0 1.

(** The pass, created or updated: the ledger and whom it funds. *)
Definition upsert_pass (l : ledger) (mgroup_account accesspass_account payer system_program : meta) (v : AllowlistArgs)
    (g : GlobalState) (side : allowlist_side) : R (ledger * Pubkey) :=
  if data_is_empty l (key accesspass_account) then
    let '(expected, bump) := get_accesspass_pda (ala_client_ip v) (ala_user_payer v) in
    _ ← assert_that (bool_decide (key accesspass_account = expected));
    l ← try_acc_create program_id (CAccessPass (new_pass bump v (key payer) (key mgroup_account) side))
          accesspass_account payer system_program l;
    Ok (l, ala_user_payer v)
  else
    _ ← assert_that (bool_decide (owner_of l (key accesspass_account) = program_id));
    p ← AccessPass_try_from l accesspass_account;
    _ ← check_pass p accesspass_account v;
    _ ← match side with
        | Publisher => Ok ()
        | Subscriber =>
            reject (bool_decide (feed_authority_pk g = key payer) && negb (bool_decide (AccessPass.owner p = key payer))) DZ_NotAllowed
        end;
    _ ← check_client_ip p v;
    _ ← check_user_payer p v payer g side;
    l ← try_acc_write program_id (CAccessPass (pass_push p (key mgroup_account) side)) accesspass_account l;
    Ok (l, AccessPass.user_payer p).

Definition add_allowlist (side : allowlist_side) (l : ledger) (accounts : list meta) (v : AllowlistArgs) : R ledger :=
  '(mgroup_account, rest) ← next_account_info accounts;
  '(accesspass_account, rest) ← next_account_info rest;
  '(globalstate_account, rest) ← next_account_info rest;
  '(payer, system_program, leading, permission_account) ← split_trailing_permission find_program_address program_id rest;
  _ ← assert_that (is_signer payer);
  _ ← validate_program_account program_id l mgroup_account true None;
  _ ← assert_that (bool_decide (key system_program = SYSTEM_PROGRAM_ID));
  mgroup ← MulticastGroup_try_from l mgroup_account;
  g ← GlobalState_try_from l globalstate_account;
  _ ← allowlist_authorized l mgroup payer g permission_account side;
  '(l, funded) ← upsert_pass l mgroup_account accesspass_account payer system_program v g side;
  _ ← match head leading with Some u => assert_that (bool_decide (key u = funded)) | None => Ok () end;
  Ok l.

Definition process_add_multicastgroup_pub_allowlist : ledger -> list meta -> AllowlistArgs -> R ledger := add_allowlist Publisher.
Definition process_add_multicastgroup_sub_allowlist : ledger -> list meta -> AllowlistArgs -> R ledger := add_allowlist Subscriber.

Definition remove_allowlist (side : allowlist_side) (l : ledger) (accounts : list meta) (v : AllowlistArgs) : R ledger :=
  '(mgroup_account, rest) ← next_account_info accounts;
  '(accesspass_account, rest) ← next_account_info rest;
  '(globalstate_account, rest) ← next_account_info rest;
  '(payer, rest) ← next_account_info rest;
  '(system_program, rest) ← next_account_info rest;
  _ ← assert_that (is_signer payer);
  _ ← validate_program_account program_id l mgroup_account true None;
  _ ← reject (data_is_empty l (key accesspass_account)) DZ_AccessPassNotFound;
  _ ← validate_program_account program_id l accesspass_account false None;
  _ ← assert_that (bool_decide (key system_program = SYSTEM_PROGRAM_ID));
  mgroup ← MulticastGroup_try_from l mgroup_account;
  g ← GlobalState_try_from l globalstate_account;
  _ ← allowlist_authorized l mgroup payer g (head rest) side;
  p ← AccessPass_try_from l accesspass_account;
  _ ← check_pass p accesspass_account v;
  _ ← check_client_ip p v;
  _ ← check_user_payer p v payer g side;
  try_acc_write program_id (CAccessPass (pass_remove p (key mgroup_account) side)) accesspass_account l.

Definition process_remove_multicast_pub_allowlist : ledger -> list meta -> AllowlistArgs -> R ledger := remove_allowlist Publisher.
Definition process_remove_multicast_sub_allowlist : ledger -> list meta -> AllowlistArgs -> R ledger := remove_allowlist Subscriber.
End Processors.

Section Forgery.
Context `{Huni : !Unicode} (find_program_address : list bytes -> Pubkey -> Pubkey * Z) (program_id : Pubkey).

(** A global state that names [payer] as foundation. *)
Definition forged_globalstate (payer : Pubkey) : GlobalState :=
  mkGlobalState 0 0 [payer] [] [] Pubkey_default Pubkey_default 0 0 Pubkey_default [] 0 Pubkey_default.

Lemma forged_authorized l payer side :
  authorize find_program_address program_id l None payer (forged_globalstate payer) (side_flag side) = Ok ().
Proof.
  apply authorize_ok. split; [done|]. right. right. split; [done|].
  assert (contains [payer] payer = true) as Hc by (apply contains_spec; by left).
  unfold check_legacy_any. cbn [forged_globalstate foundation_allowlist]. rewrite Hc, !if_true_orb.
  destruct side; cbn [side_flag]; rewrite ?andb_true_r; reflexivity.
Qed.

(** C35. A forged global state admits anyone to any multicast group. The
    instructions that put a group on an access pass do not check who owns the
    account they read the global state from, so any key, whatever its rights,
    that has an account of some other program say it is foundation gets an
    access pass with the group on it, to publish as well as to subscribe. *)
Theorem forged_globalstate_admits side l mgroup_key mgroup payer client_ip forged other :
  l !! mgroup_key = Some (mkAccount program_id (CMulticastGroup mgroup)) ->
  forged <> mgroup_key -> forged <> (get_accesspass_pda find_program_address program_id client_ip payer).1 -> other <> program_id ->
  l !! (get_accesspass_pda find_program_address program_id client_ip payer).1 = None ->
  let pda := get_accesspass_pda find_program_address program_id client_ip payer in
  let l := <[forged := mkAccount other (CGlobalState (forged_globalstate payer))]> l in
  add_allowlist find_program_address program_id side l
    [acct mgroup_key; acct pda.1; acct forged; signer payer; acct SYSTEM_PROGRAM_ID] (mkAllowlistArgs client_ip payer)
  = Ok (<[pda.1 := mkAccount program_id
      (CAccessPass (new_pass pda.2 (mkAllowlistArgs client_ip payer) payer mgroup_key side))]> l).
Proof.
  intros Hm Hne Hnp _ Hn pda l'. destruct pda as [k bump] eqn:Hpda. unfold pda in Hpda. rewrite Hpda in *. cbn [fst snd] in *.
  assert (l' !! mgroup_key = Some (mkAccount program_id (CMulticastGroup mgroup))) as Hm' by (unfold l'; by rewrite lookup_insert_ne).
  assert (l' !! k = None) as Hn' by (unfold l'; by rewrite lookup_insert_ne).
  assert (data_is_empty l' k = true) as He by (unfold data_is_empty; by rewrite bool_decide_true).
  pose proof (content_account _ _ _ _ (lookup_insert_eq l forged _ : l' !! forged = _)) as (_ & _ & Hf).
  pose proof (content_account _ _ _ _ Hm') as (_ & _ & Hmc).
  pose proof (try_from_account as_GlobalState l' forged _ _ Hf eq_refl) as Hg.
  pose proof (try_from_account as_MulticastGroup l' mgroup_key _ _ Hmc eq_refl) as Hmg.
  pose proof (validated program_id l' mgroup_key _ true Hm') as Hv.
  assert (allowlist_authorized find_program_address program_id l' mgroup (signer payer) (forged_globalstate payer) None side = Ok ()) as Ha.
  { unfold allowlist_authorized. case_bool_decide; [done|]. cbn [key signer]. by rewrite forged_authorized. }
  unfold add_allowlist. run_ok. unfold upsert_pass. cbn [key acct]. rewrite He. cbn [ala_client_ip ala_user_payer]. rewrite Hpda.
  unfold try_acc_create. cbn [key acct signer is_writable is_signer]. rewrite He, !bool_decide_true by done.
  destruct side; reflexivity.
Qed.
End Forgery.

Section Gate.
Context `{Huni : !Unicode} (find_program_address : list bytes -> Pubkey -> Pubkey * Z) (program_id : Pubkey).

(** When the global state they read is the program's, the instructions are
    accepted from the group's owner and from who is authorized only. *)
Lemma allowlist_gated side l m a gs rest v l' g :
  add_allowlist find_program_address program_id side l (m :: a :: gs :: rest) v = Ok l' ->
  l !! key gs = Some (mkAccount program_id (CGlobalState g)) ->
  exists payer mgroup pa, payer ∈ rest /\ is_signer payer = true /\
    l !! key m = Some (mkAccount program_id (CMulticastGroup mgroup)) /\
    (MulticastGroup.owner mgroup = key payer \/
     authorize find_program_address program_id l pa (key payer) g (side_flag side) = Ok ()).
Proof.
  intros H Hg. unfold add_allowlist in H. cbn [next_account_info] in H.
  apply bind_ok in H as (? & [= <-] & H). apply bind_ok in H as (? & [= <-] & H). apply bind_ok in H as (? & [= <-] & H).
  apply bind_ok in H as ([[[payer sys] leading] pa] & Hsplit & H).
  apply bind_ok in H as ([] & Hs & H). apply bind_ok in H as ([] & Hv & H). apply bind_ok in H as ([] & _ & H).
  apply bind_ok in H as (mgroup & Hm & H). apply bind_ok in H as (g' & Hg' & H). apply bind_ok in H as ([] & Ha & _).
  apply assert_that_ok in Hs. exists payer, mgroup, pa. split; [|split; [done|split]].
  - unfold split_trailing_permission in Hsplit. repeat case_match; simplify_eq; by eapply list_elem_of_lookup_2.
  - unfold validate_program_account in Hv. apply bind_ok in Hv as ([] & Ho%assert_that_ok & _). apply bool_decide_eq_true in Ho.
    unfold try_from, content_of, owner_of in *. destruct (l !! key m) as [[o c]|]; [|done]. cbn in *. subst o.
    destruct c; cbn in Hm; congruence.
  - assert (g' = g) as -> by (unfold try_from, content_of in Hg'; rewrite Hg in Hg'; cbn in Hg'; congruence).
    unfold allowlist_authorized in Ha. apply bind_ok in Ha as (ok & Hok & Hr%reject_ok). apply negb_false_iff in Hr as ->.
    case_bool_decide; [by left|right]. destruct (authorize _ _ _ _ _ _ _) as [[]| |]; done.
Qed.
End Gate.

Module AccessSample.
#[local] Instance ascii_only : Unicode := fun _ => false.
Definition find_program_address (seeds : list bytes) (program : Pubkey) : Pubkey * Z := (mjoin seeds ++ program, 255).
Definition program_id : Pubkey := lit "serviceability".
Definition mgroup : MulticastGroup.t :=
  MulticastGroup.mk (lit "group-owner") 7 255 Pubkey_default (ipv4 233 84 178 1) 1000000000 1 (lit "feed") 0 0.
Definition genuine : GlobalState :=
  mkGlobalState 255 7 [lit "foundation"] [] [] Pubkey_default Pubkey_default 0 0 Pubkey_default [] 0 Pubkey_default.
Definition state : ledger :=
  <[lit "group" := mkAccount program_id (CMulticastGroup mgroup)]>
    {[ (get_globalstate_pda find_program_address program_id).1 := mkAccount program_id (CGlobalState genuine) ]}.
End AccessSample.

Lemma forged_globalstate_admits_witness :
  let pda := get_accesspass_pda AccessSample.find_program_address AccessSample.program_id (ipv4 198 18 0 1) (lit "nobody") in
  let l := <[lit "forged" := mkAccount (lit "my-program") (CGlobalState (forged_globalstate (lit "nobody")))]> AccessSample.state in
  add_allowlist (Huni := AccessSample.ascii_only) AccessSample.find_program_address AccessSample.program_id Publisher l
    [acct (lit "group"); acct pda.1; acct (lit "forged"); signer (lit "nobody"); acct SYSTEM_PROGRAM_ID]
    (mkAllowlistArgs (ipv4 198 18 0 1) (lit "nobody"))
  = Ok (<[pda.1 := mkAccount AccessSample.program_id
      (CAccessPass (new_pass pda.2 (mkAllowlistArgs (ipv4 198 18 0 1) (lit "nobody")) (lit "nobody") (lit "group") Publisher))]> l).
Proof.
  apply (forged_globalstate_admits (Huni := AccessSample.ascii_only) AccessSample.find_program_address AccessSample.program_id
    Publisher AccessSample.state (lit "group") AccessSample.mgroup (lit "nobody") (ipv4 198 18 0 1) (lit "forged") (lit "my-program"));
    [vm_compute; reflexivity|discriminate|discriminate|discriminate|vm_compute; reflexivity].
Defined.
