(* ===== verification/OnchainLink.v ===== *)
(** * The on-chain program: links

    Models the instructions on links of
    [smartcontract/programs/doublezero-serviceability/src/processors/link] on
    the ledger, with the resource accounts the links take their tunnel networks
    and numbers from. The counters wrap around, as in a release build. *)

From stdpp Require Import base tactics numbers list gmap sets.
From Stdlib Require Import ZArith Lia ZifyBool ZifyNat.
From S2P Require Import Prelude Bytes GoStrings ByteReader Allocators OnchainState ResourceExtension OnchainLedger.

#[local] Open Scope Z_scope.

(** ** Arguments *)

Record LinkCreateArgs := mkLinkCreateArgs {
  lca_code : list Z;
  lca_link_type : LinkLinkType;
  lca_bandwidth : Z;
  lca_mtu : Z;
  lca_delay_ns : Z;
  lca_jitter_ns : Z;
  lca_side_a_iface_name : list Z;
  lca_side_z_iface_name : option (list Z);
  lca_desired_status : option LinkDesiredStatus;
  lca_use_onchain_allocation : bool
}.

Record LinkAcceptArgs := mkLinkAcceptArgs { laa_side_z_iface_name : list Z; laa_use_onchain_allocation : bool }.

Record LinkUpdateArgs := mkLinkUpdateArgs {
  lua_code : option (list Z);
  lua_contributor_pk : option Pubkey;
  lua_tunnel_type : option LinkLinkType;
  lua_bandwidth : option Z;
  lua_mtu : option Z;
  lua_delay_ns : option Z;
  lua_jitter_ns : option Z;
  lua_status : option LinkStatus;
  lua_delay_override_ns : option Z;
  lua_desired_status : option LinkDesiredStatus;
  lua_tunnel_id : option Z;
  lua_tunnel_net : option NetworkV4;
  lua_use_onchain_allocation : bool;
  lua_link_topologies : option (list Pubkey);
  lua_unicast_drained : option bool
}.

Inductive link_instruction :=
| CreateLink (v : LinkCreateArgs)
| AcceptLink (v : LinkAcceptArgs)
| UpdateLink (v : LinkUpdateArgs)
| DeleteLink (use_onchain_deallocation : bool)
| SetLinkHealth (health : LinkHealth).

(** Whether an authorization succeeds. *)
Definition allowed (r : R unit) : bool := match r with Ok _ => true | _ => false end.

(** ** Resources *)

Inductive ResourceType :=
| DeviceTunnelBlock | UserTunnelBlock | MulticastGroupBlock | MulticastPublisherBlock
| DzPrefixBlock (device : Pubkey) (index : Z) | TunnelIds (device : Pubkey) (index : Z)
| LinkIds | SegmentRoutingIds | VrfIds | AdminGroupBits.

Section Links.
Context `{Huni : !Unicode} `{Hnet : !IpNetwork} (find_program_address : list bytes -> Pubkey -> Pubkey * Z) (program_id : Pubkey).

#[local] Abbreviation globalstate_pda := (get_globalstate_pda find_program_address program_id).
#[local] Abbreviation authorize := (authorize find_program_address program_id).
#[local] Abbreviation split_trailing_permission := (split_trailing_permission find_program_address program_id).
#[local] Abbreviation validate_program_account := (validate_program_account program_id).
#[local] Abbreviation try_acc_create := (try_acc_create program_id).
#[local] Abbreviation try_acc_write := (try_acc_write program_id).
#[local] Abbreviation try_acc_close := (try_acc_close program_id).

Definition get_resource_extension_pda (t : ResourceType) : Pubkey * Z :=
  let seeds :=
    match t with
    | DeviceTunnelBlock => [lit "devicetunnelblock"]
    | UserTunnelBlock => [lit "usertunnelblock"]
    | MulticastGroupBlock => [lit "multicastgroupblock"]
    | MulticastPublisherBlock => [lit "multicastpublisherblock"]
    | DzPrefixBlock k index => [lit "dzprefixblock"; k; le_bytes 8 index]
    | TunnelIds k index => [lit "tunnelids"; k; le_bytes 8 index]
    | LinkIds => [lit "linkids"]
    | SegmentRoutingIds => [lit "segmentroutingids"]
    | VrfIds => [lit "vrfids"]
    | AdminGroupBits => [lit "admingroupbits"]
    end in
  find_program_address (lit "doublezero" :: seeds) program_id.

Definition get_link_pda (index : Z) : Pubkey * Z :=
  find_program_address [lit "doublezero"; lit "link"; le_bytes 16 index] program_id.
(** The name is put into upper case. *)
Definition get_unicast_default_pda : Pubkey * Z :=
  find_program_address [lit "doublezero"; lit "topology"; lit "UNICAST-DEFAULT"] program_id.

(** Changes the data of a resource account in place. *)
Definition with_resource {A : Type} (l : ledger) (a : meta) (f : bytes -> R (bytes * A)) : R (ledger * A) :=
  match content_of l (key a) with
  | Some (CResource data) =>
      '(data, x) ← f data;
      Ok (<[key a := mkAccount (owner_of l (key a)) (CResource data)]> l, x)
  | _ => Err (PE_Custom DZ_InvalidAccountType)
  end.
Definition claim_resource (l : ledger) (a : meta) (f : bytes -> R bytes) : R ledger :=
  '(l, _) ← with_resource l a (fun data => data ← f data; Ok (data, ())); Ok l.
(** The result of a release is not looked at. *)
Definition release_resource (l : ledger) (a : meta) (f : bytes -> R (bytes * bool)) : R ledger :=
  match content_of l (key a) with
  | Some (CResource _) => '(l, _) ← with_resource l a f; Ok l
  | _ => Ok l
  end.

(** ** [resource_onchain_helpers.rs] *)

Definition validate_link_resources (l : ledger) (block ids : meta) : R unit :=
  _ ← validate_program_account l block true (Some (get_resource_extension_pda DeviceTunnelBlock).1);
  validate_program_account l ids true (Some (get_resource_extension_pda LinkIds).1).

Definition validate_and_allocate_link_resources (l : ledger) (link : Link.t) (block ids : meta) : R (ledger * Link.t) :=
  _ ← validate_link_resources l block ids;
  '(l, net) ← (if bool_decide (Link.tunnel_net link = NetworkV4_default)
               then with_resource l block (fun data => allocate_ip data 2) else Ok (l, Link.tunnel_net link));
  '(l, id) ← (if Link.tunnel_id link =? 0 then with_resource l ids allocate_id else Ok (l, Link.tunnel_id link));
  Ok (l, link <| Link.tunnel_net := net |> <| Link.tunnel_id := id |>).

Definition validate_and_deallocate_link_resources (l : ledger) (link : Link.t) (block ids : meta) : R ledger :=
  _ ← validate_link_resources l block ids;
  l ← release_resource l block (fun data => deallocate_ip data (Link.tunnel_net link));
  release_resource l ids (fun data => deallocate_id data (Link.tunnel_id link)).

(** ** Interfaces and reference counts *)

(** The first interface of exactly this name. *)
Definition iface_named (d : Device.t) (name : list Z) : option Interface.t :=
  head (filter (fun i => Interface.name i = name) (Device.interfaces d)).

Definition has_edge (i : Interface.t) : bool :=
  negb (bool_decide (Interface.interface_cyoa i = CYOANone)) || negb (bool_decide (Interface.interface_dia i = DIANone)).

Definition check_endpoint (d : Device.t) (name : list Z) (bandwidth : Z) : R unit :=
  match iface_named d name with
  | None => Err (PE_Custom DZ_InvalidInterfaceName)
  | Some i =>
      _ ← reject (has_edge i) DZ_InterfaceHasEdgeAssignment;
      reject (Interface.bandwidth i <? bandwidth) DZ_InvalidBandwidth
  end.

(** [NetworkV4::new(net.nth(n).unwrap(), net.prefix()).unwrap()] *)
Definition nth_net (net : NetworkV4) (n : Z) : R NetworkV4 :=
  match ipn_nth net n with
  | Some ip => _ ← assert_that (net_prefix net <=? 32); Ok (mkNet ip (net_prefix net))
  | None => Panic
  end.

(** An interface that takes up a link: an address it has is kept. *)
Definition activate_iface (i : Interface.t) (net : NetworkV4) (n : Z) : R Interface.t :=
  let i := i <| Interface.status := IfActivated |> in
  if bool_decide (Interface.ip_net i = NetworkV4_default)
  then ip ← nth_net net n; Ok (i <| Interface.ip_net := ip |>) else Ok i.

Definition unlink_iface (i : Interface.t) : Interface.t :=
  let i := i <| Interface.status := IfUnlinked |> in
  if bool_decide (Interface.interface_type i = TypePhysical) && has_edge i then i else i <| Interface.ip_net := NetworkV4_default |>.

Definition unlink_named (d : Device.t) (name : list Z) : Device.t :=
  match Device.find_interface d name with Some (idx, i) => Device.replace_interface d idx (unlink_iface i) | None => d end.

Definition incr (n : Z) : Z := u32 (n + 1).
Definition saturating_decr (n : Z) : Z := Z.max 0 (n - 1).

(** ** [create.rs] *)

Definition tag_unicast_default (l : ledger) (topology : meta) : R (ledger * list Pubkey) :=
  _ ← reject (negb (bool_decide (key topology = get_unicast_default_pda.1))) DZ_InvalidArgument;
  if bool_decide (owner_of l (key topology) = program_id) && negb (data_is_empty l (key topology)) then
    _ ← assert_that (is_writable topology);
    t ← Topology_try_from l topology;
    _ ← reject (2 ^ 32 <=? Topology.reference_count t + 1) DZ_ArithmeticOverflow;
    l ← try_acc_write (CTopology (t <| Topology.reference_count := Topology.reference_count t + 1 |>)) topology l;
    Ok (l, [key topology])
  else Ok (l, []).

(** The interfaces of an activated link take its addresses. *)
Definition activate_sides (link : Link.t) (a z : Device.t) : R (Device.t * Device.t) :=
  match Device.find_interface a (Link.side_a_iface_name link) with
  | None => Err (PE_Custom DZ_InterfaceNotFound)
  | Some (idx_a, iface_a) =>
      _ ← ensure (bool_decide (Interface.status iface_a = IfUnlinked)) (PE_Custom DZ_InvalidStatus);
      iface_a ← activate_iface iface_a (Link.tunnel_net link) 0;
      z ← match Device.find_interface z (Link.side_z_iface_name link) with
          | None => Ok z
          | Some (idx_z, iface_z) =>
              _ ← ensure (bool_decide (Interface.status iface_z = IfUnlinked)) (PE_Custom DZ_InvalidStatus);
              iface_z ← activate_iface iface_z (Link.tunnel_net link) 1;
              Ok (Device.replace_interface z idx_z iface_z)
          end;
      Ok (Device.replace_interface a idx_a iface_a, z)
  end.

(** A link that does not wait for side Z is activated at once. *)
Definition activate_created (l : ledger) (link : Link.t) (block ids : meta) (a z : Device.t) : R (ledger * Link.t * Device.t * Device.t) :=
  if bool_decide (Link.status link = LkRequested) then Ok (l, link, a, z)
  else
    '(l, link) ← validate_and_allocate_link_resources l link block ids;
    '(a, z) ← activate_sides link a z;
    Ok (l, Link.check_status_transition (link <| Link.status := LkActivated |>), a, z).

Definition process_create_link (l : ledger) (accounts : list meta) (v : LinkCreateArgs) : R ledger :=
  _ ← ensure (lca_use_onchain_allocation v) (PE_Custom DZ_InvalidArgument);
  '(link_account, rest) ← next_account_info accounts;
  '(contributor_account, rest) ← next_account_info rest;
  '(side_a_account, rest) ← next_account_info rest;
  '(side_z_account, rest) ← next_account_info rest;
  '(globalstate_account, rest) ← next_account_info rest;
  '(topology_account, rest) ← next_account_info rest;
  '(block, rest) ← next_account_info rest;
  '(ids, rest) ← next_account_info rest;
  '(payer, rest) ← next_account_info rest;
  '(system_program, rest) ← next_account_info rest;
  _ ← assert_that (is_signer payer);
  code ← match validate_account_code (lca_code v) with
         | Some code => Ok (ToLower code)
         | None => Err (PE_Custom DZ_InvalidAccountCode)
         end;
  _ ← validate_program_account l contributor_account true None;
  _ ← validate_program_account l side_a_account true None;
  _ ← validate_program_account l side_z_account true None;
  _ ← validate_program_account l globalstate_account true None;
  _ ← assert_that (bool_decide (key system_program = SYSTEM_PROGRAM_ID));
  _ ← ensure (data_is_empty l (key link_account)) PE_AccountAlreadyInitialized;
  globalstate ← GlobalState_try_from l globalstate_account;
  let globalstate := globalstate <| account_index := wrap 128 (account_index globalstate + 1) |> in
  contributor ← Contributor_try_from l contributor_account;
  _ ← ensure (bool_decide (Contributor.owner contributor = key payer) ||
              allowed (authorize l (head rest) (key payer) globalstate flags.NETWORK_ADMIN))
        (PE_Custom DZ_InvalidOwnerPubkey);
  let pda := get_link_pda (account_index globalstate) in
  _ ← assert_that (bool_decide (key link_account = pda.1));
  side_a_dev ← Device_try_from l side_a_account;
  _ ← ensure (bool_decide (Device.contributor_pk side_a_dev = key contributor_account)) (PE_Custom DZ_InvalidContributor);
  side_z_dev ← Device_try_from l side_z_account;
  _ ← ensure (bool_decide (lca_link_type v = DZX) || bool_decide (Device.contributor_pk side_z_dev = key contributor_account))
        (PE_Custom DZ_InvalidContributor);
  _ ← check_endpoint side_a_dev (lca_side_a_iface_name v) (lca_bandwidth v);
  _ ← match lca_side_z_iface_name v with Some z_name => check_endpoint side_z_dev z_name (lca_bandwidth v) | None => Ok () end;
  _ ← reject (bool_decide (lca_link_type v = DZX) && bool_decide (is_Some (lca_side_z_iface_name v))) DZ_InvalidInterfaceZForExternal;
  _ ← reject (negb (lca_mtu v =? LINK_MTU)) DZ_InvalidMtu;
  let contributor := contributor <| Contributor.reference_count := incr (Contributor.reference_count contributor) |> in
  let side_a_dev := side_a_dev <| Device.reference_count := incr (Device.reference_count side_a_dev) |> in
  let side_z_dev := side_z_dev <| Device.reference_count := incr (Device.reference_count side_z_dev) |> in
  let link := Link.mk (key payer) (account_index globalstate) pda.2 (key side_a_account) (key side_z_account) (lca_link_type v)
    (lca_bandwidth v) (lca_mtu v) (lca_delay_ns v) (lca_jitter_ns v) 0 NetworkV4_default
    (if bool_decide (lca_link_type v = DZX) then LkRequested else LkActivated) code (key contributor_account)
    (lca_side_a_iface_name v) (default [] (lca_side_z_iface_name v)) 0 HealthReadyForService
    (default DesiredActivated (lca_desired_status v)) [] 0 in
  let link := Link.check_status_transition link in
  '(l, topologies) ← tag_unicast_default l topology_account;
  let link := link <| Link.link_topologies := topologies |> in
  '(l, link, side_a_dev, side_z_dev) ← activate_created l link block ids side_a_dev side_z_dev;
  l ← try_acc_create (CLink link) link_account payer system_program l;
  l ← try_acc_write (CContributor contributor) contributor_account l;
  l ← try_acc_write (CDevice side_a_dev) side_a_account l;
  l ← try_acc_write (CDevice side_z_dev) side_z_account l;
  try_acc_write (CGlobalState globalstate) globalstate_account l.

(** ** [accept.rs] *)

Definition process_accept_link (l : ledger) (accounts : list meta) (v : LinkAcceptArgs) : R ledger :=
  _ ← ensure (laa_use_onchain_allocation v) (PE_Custom DZ_InvalidArgument);
  '(link_account, rest) ← next_account_info accounts;
  '(contributor_account, rest) ← next_account_info rest;
  '(side_z_account, rest) ← next_account_info rest;
  '(globalstate_account, rest) ← next_account_info rest;
  '(side_a_account, rest) ← next_account_info rest;
  '(block, rest) ← next_account_info rest;
  '(ids, rest) ← next_account_info rest;
  '(payer, rest) ← next_account_info rest;
  '(_, rest) ← next_account_info rest;
  _ ← assert_that (is_signer payer);
  _ ← validate_program_account l link_account true None;
  _ ← validate_program_account l contributor_account false None;
  _ ← validate_program_account l side_z_account true None;
  contributor ← Contributor_try_from l contributor_account;
  globalstate ← GlobalState_try_from l globalstate_account;
  _ ← ensure (bool_decide (Contributor.owner contributor = key payer) ||
              allowed (authorize l (head rest) (key payer) globalstate flags.NETWORK_ADMIN))
        (PE_Custom DZ_NotAllowed);
  link ← Link_try_from l link_account;
  _ ← ensure (bool_decide (Link.status link = LkRequested)) (PE_Custom DZ_InvalidStatus);
  _ ← ensure (bool_decide (Link.side_z_pk link = key side_z_account)) (PE_Custom DZ_InvalidAccountOwner);
  side_z_dev ← Device_try_from l side_z_account;
  _ ← ensure (bool_decide (Device.contributor_pk side_z_dev = key contributor_account)) (PE_Custom DZ_NotAllowed);
  _ ← ensure (bool_decide (is_Some (iface_named side_z_dev (laa_side_z_iface_name v)))) (PE_Custom DZ_InvalidInterfaceName);
  let link := link <| Link.side_z_iface_name := laa_side_z_iface_name v |> in
  _ ← validate_program_account l side_a_account true None;
  side_a_dev ← Device_try_from l side_a_account;
  _ ← ensure (bool_decide (Link.side_a_pk link = key side_a_account)) PE_InvalidAccountData;
  match Device.find_interface side_a_dev (Link.side_a_iface_name link), Device.find_interface side_z_dev (Link.side_z_iface_name link) with
  | Some (idx_a, iface_a), Some (idx_z, iface_z) =>
      _ ← ensure (bool_decide (Interface.status iface_a = IfUnlinked) && bool_decide (Interface.status iface_z = IfUnlinked))
            (PE_Custom DZ_InvalidStatus);
      _ ← reject (has_edge iface_a || has_edge iface_z) DZ_InterfaceHasEdgeAssignment;
      _ ← reject ((Interface.bandwidth iface_a <? Link.bandwidth link) || (Interface.bandwidth iface_z <? Link.bandwidth link))
            DZ_InvalidBandwidth;
      '(l, link) ← validate_and_allocate_link_resources l link block ids;
      iface_a ← activate_iface iface_a (Link.tunnel_net link) 0;
      iface_z ← activate_iface iface_z (Link.tunnel_net link) 1;
      let link := Link.check_status_transition (link <| Link.status := LkActivated |>) in
      l ← try_acc_write (CDevice (Device.replace_interface side_a_dev idx_a iface_a)) side_a_account l;
      l ← try_acc_write (CDevice (Device.replace_interface side_z_dev idx_z iface_z)) side_z_account l;
      try_acc_write (CLink link) link_account l
  | _, _ => Err (PE_Custom DZ_InterfaceNotFound)
  end.

(** ** Topologies of a link *)

Definition account_of (accounts : list meta) (k : Pubkey) : option meta := head (filter (fun a => key a = k) accounts).

Definition adjust_topology (f : Topology.t -> R Topology.t) (accounts : list meta) (l : ledger) (k : Pubkey) : R ledger :=
  match account_of accounts k with
  | None => Err (PE_Custom DZ_InvalidArgument)
  | Some a =>
      t ← Topology_try_from l a;
      t ← f t;
      try_acc_write (CTopology t) a l
  end.

Fixpoint adjust_topologies (f : Topology.t -> R Topology.t) (accounts : list meta) (l : ledger) (ks : list Pubkey) : R ledger :=
  match ks with
  | [] => Ok l
  | k :: ks => l ← adjust_topology f accounts l k; adjust_topologies f accounts l ks
  end.

Definition untag (t : Topology.t) : R Topology.t :=
  Ok (t <| Topology.reference_count := saturating_decr (Topology.reference_count t) |>).
Definition tag (t : Topology.t) : R Topology.t :=
  _ ← reject (2 ^ 32 <=? Topology.reference_count t + 1) DZ_ArithmeticOverflow;
  Ok (t <| Topology.reference_count := Topology.reference_count t + 1 |>).

Fixpoint check_accounts (check : meta -> R unit) (accounts : list meta) : R unit :=
  match accounts with [] => Ok () | a :: rest => _ ← check a; check_accounts check rest end.

(** ** [delete.rs] *)

Definition process_delete_link (l : ledger) (accounts : list meta) (use_onchain_deallocation : bool) : R ledger :=
  _ ← ensure use_onchain_deallocation (PE_Custom DZ_InvalidArgument);
  '(link_account, rest) ← next_account_info accounts;
  '(contributor_account, rest) ← next_account_info rest;
  '(globalstate_account, rest) ← next_account_info rest;
  '(side_a_account, rest) ← next_account_info rest;
  '(side_z_account, rest) ← next_account_info rest;
  '(block, rest) ← next_account_info rest;
  '(ids, rest) ← next_account_info rest;
  '(owner_account, rest) ← next_account_info rest;
  '(payer, system_program, topology_accounts, permission) ← split_trailing_permission rest;
  _ ← assert_that (is_signer payer);
  _ ← validate_program_account l link_account true None;
  _ ← validate_program_account l contributor_account true None;
  _ ← validate_program_account l globalstate_account false None;
  _ ← assert_that (bool_decide (key system_program = SYSTEM_PROGRAM_ID));
  globalstate ← GlobalState_try_from l globalstate_account;
  contributor ← Contributor_try_from l contributor_account;
  let is_privileged := allowed (authorize l permission (key payer) globalstate flags.NETWORK_ADMIN) in
  _ ← ensure (bool_decide (Contributor.owner contributor = key payer) || is_privileged) (PE_Custom DZ_InvalidOwnerPubkey);
  link ← Link_try_from l link_account;
  _ ← reject (bool_decide (Link.status link = LkActivated) || bool_decide (Link.status link = LkDeleting)) DZ_InvalidStatus;
  _ ← ensure (is_privileged || bool_decide (Link.contributor_pk link = key contributor_account)) (PE_Custom DZ_NotAllowed);
  _ ← validate_program_account l side_a_account true None;
  _ ← validate_program_account l side_z_account true None;
  _ ← ensure (bool_decide (Link.owner link = key owner_account) && bool_decide (Link.side_a_pk link = key side_a_account) &&
              bool_decide (Link.side_z_pk link = key side_z_account)) PE_InvalidAccountData;
  l ← validate_and_deallocate_link_resources l link block ids;
  side_a_dev ← Device_try_from l side_a_account;
  side_z_dev ← Device_try_from l side_z_account;
  let side_a_dev := unlink_named side_a_dev (Link.side_a_iface_name link) in
  let side_z_dev := unlink_named side_z_dev (Link.side_z_iface_name link) in
  let contributor := contributor <| Contributor.reference_count := saturating_decr (Contributor.reference_count contributor) |> in
  let side_a_dev := side_a_dev <| Device.reference_count := saturating_decr (Device.reference_count side_a_dev) |> in
  let side_z_dev := side_z_dev <| Device.reference_count := saturating_decr (Device.reference_count side_z_dev) |> in
  l ← try_acc_write (CContributor contributor) contributor_account l;
  l ← try_acc_write (CDevice side_a_dev) side_a_account l;
  l ← try_acc_write (CDevice side_z_dev) side_z_account l;
  l ← (if bool_decide (Link.link_topologies link = []) then Ok l
       else
         _ ← check_accounts (fun a => validate_program_account l a true None) topology_accounts;
         adjust_topologies untag topology_accounts l (Link.link_topologies link));
  try_acc_close link_account l.

(** ** [update.rs] *)

Definition set_opt {A : Type} (f : A -> Link.t -> Link.t) (o : option A) (link : Link.t) : Link.t :=
  match o with Some x => f x link | None => link end.

(** What contributor A may change. *)
Definition update_a (v : LinkUpdateArgs) (link : Link.t) : R Link.t :=
  link ← match lua_code v with
         | None => Ok link
         | Some code =>
             match validate_account_code code with
             | Some code => Ok (link <| Link.code := ToLower code |>)
             | None => Err (PE_Custom DZ_InvalidAccountCode)
             end
         end;
  let link := set_opt (fun x link => link <| Link.link_type := x |>) (lua_tunnel_type v) link in
  let link := set_opt (fun x link => link <| Link.bandwidth := x |>) (lua_bandwidth v) link in
  link ← match lua_mtu v with
         | None => Ok link
         | Some mtu => _ ← reject (negb (mtu =? LINK_MTU)) DZ_InvalidMtu; Ok (link <| Link.mtu := mtu |>)
         end;
  let link := set_opt (fun x link => link <| Link.delay_ns := x |>) (lua_delay_ns v) link in
  Ok (set_opt (fun x link => link <| Link.jitter_ns := x |>) (lua_jitter_ns v) link).

(** What either contributor may change. *)
Definition update_both (v : LinkUpdateArgs) (link : Link.t) : Link.t :=
  let link := set_opt (fun x link => link <| Link.delay_override_ns := x |>) (lua_delay_override_ns v) link in
  let link := set_opt (fun x link => link <| Link.desired_status := x |>) (lua_desired_status v) link in
  set_opt (fun x link => link <| Link.status := x |>) (lua_status v) link.

Definition reallocate_id (l : ledger) (ids : meta) (link : Link.t) (new : Z) : R (ledger * Link.t) :=
  l ← (if negb (Link.tunnel_id link =? 0) then release_resource l ids (fun data => deallocate_id data (Link.tunnel_id link)) else Ok l);
  l ← (if negb (new =? 0) then claim_resource l ids (fun data => allocate_specific_id data new) else Ok l);
  Ok (l, link <| Link.tunnel_id := new |>).

Definition reallocate_net (l : ledger) (block : meta) (link : Link.t) (new : NetworkV4) : R (ledger * Link.t) :=
  l ← (if negb (bool_decide (Link.tunnel_net link = NetworkV4_default))
       then release_resource l block (fun data => deallocate_ip data (Link.tunnel_net link)) else Ok l);
  l ← (if negb (bool_decide (new = NetworkV4_default)) then claim_resource l block (fun data => allocate_specific_ip data new) else Ok l);
  Ok (l, link <| Link.tunnel_net := new |>).

Definition update_tunnel (l : ledger) (resources : option (meta * meta)) (is_privileged : bool) (v : LinkUpdateArgs) (link : Link.t) :
    R (ledger * Link.t) :=
  match resources with
  | None => Ok (l, link)
  | Some (block, ids) =>
      _ ← ensure is_privileged (PE_Custom DZ_NotAllowed);
      _ ← validate_link_resources l block ids;
      '(l, link) ← match lua_tunnel_id v with Some new => reallocate_id l ids link new | None => Ok (l, link) end;
      match lua_tunnel_net v with Some new => reallocate_net l block link new | None => Ok (l, link) end
  end.

(** The address of the side of the link moves to its interface. *)
Definition readdress (d : Device.t) (name : list Z) (net : NetworkV4) (n : Z) : R Device.t :=
  match Device.find_interface d name with
  | None => Err (PE_Custom DZ_InterfaceNotFound)
  | Some (idx, i) => ip ← nth_net net n; Ok (Device.replace_interface d idx (i <| Interface.ip_net := ip |>))
  end.

Definition update_devices (l : ledger) (devices : option (meta * meta)) (link : Link.t) : R ledger :=
  match devices with
  | None => Ok l
  | Some (device_a, device_z) =>
      _ ← validate_program_account l device_a true None;
      _ ← validate_program_account l device_z true None;
      _ ← ensure (bool_decide (Link.side_a_pk link = key device_a) && bool_decide (Link.side_z_pk link = key device_z))
            PE_InvalidAccountData;
      a ← Device_try_from l device_a;
      z ← Device_try_from l device_z;
      a ← readdress a (Link.side_a_iface_name link) (Link.tunnel_net link) 0;
      z ← readdress z (Link.side_z_iface_name link) (Link.tunnel_net link) 1;
      l ← try_acc_write (CDevice a) device_a l;
      try_acc_write (CDevice z) device_z l
  end.

Definition check_topology (l : ledger) (a : meta) : R unit :=
  _ ← validate_program_account l a true None;
  match Topology_try_from l a with Ok t => Topology.validate t | _ => Err (PE_Custom DZ_InvalidAccountType) end.

Definition update_topologies (l : ledger) (topology_accounts : list meta) (is_privileged : bool) (v : LinkUpdateArgs) (link : Link.t) :
    R (ledger * Link.t) :=
  match lua_link_topologies v with
  | None => Ok (l, link)
  | Some new =>
      _ ← ensure is_privileged (PE_Custom DZ_NotAllowed);
      let old := Link.link_topologies link in
      let added := filter (fun k => k ∉ old) new in
      let removed := filter (fun k => k ∉ new) old in
      _ ← check_accounts (check_topology l) topology_accounts;
      _ ← ensure (forallb (fun k => bool_decide (is_Some (account_of topology_accounts k))) (added ++ removed))
            (PE_Custom DZ_InvalidArgument);
      l ← adjust_topologies untag topology_accounts l removed;
      l ← adjust_topologies tag topology_accounts l added;
      Ok (l, link <| Link.link_topologies := new |>)
  end.

Definition update_drained (contributor_a is_privileged : bool) (v : LinkUpdateArgs) (link : Link.t) : R Link.t :=
  match lua_unicast_drained v with
  | None => Ok link
  | Some drained =>
      _ ← ensure (contributor_a || is_privileged) (PE_Custom DZ_NotAllowed);
      Ok (link <| Link.link_flags := if drained then Z.lor (Link.link_flags link) Link.LINK_FLAG_UNICAST_DRAINED
                                     else Z.ldiff (Link.link_flags link) Link.LINK_FLAG_UNICAST_DRAINED |>)
  end.

(** Two accounts if they are called for. *)
Definition next_pair (wanted : bool) (accounts : list meta) : R (option (meta * meta) * list meta) :=
  if wanted then
    '(a, accounts) ← next_account_info accounts;
    '(b, accounts) ← next_account_info accounts;
    Ok (Some (a, b), accounts)
  else Ok (None, accounts).

(** The contributor is that of the link, or of its far device. *)
Definition check_contributor (l : ledger) (side_z : option meta) (contributor_account : meta) (link : Link.t) : R unit :=
  match side_z with
  | None => ensure (bool_decide (Link.contributor_pk link = key contributor_account)) (PE_Custom DZ_NotAllowed)
  | Some a =>
      side_z ← Device_try_from l a;
      _ ← ensure (bool_decide (Link.side_z_pk link = key a)) (PE_Custom DZ_InvalidAccountOwner);
      ensure (bool_decide (Device.contributor_pk side_z = key contributor_account)) (PE_Custom DZ_NotAllowed)
  end.

Definition process_update_link (l : ledger) (accounts : list meta) (v : LinkUpdateArgs) : R ledger :=
  '(link_account, rest) ← next_account_info accounts;
  '(contributor_account, rest) ← next_account_info rest;
  '(first, rest) ← next_account_info rest;
  '(side_z, globalstate_account, rest) ←
    (if bool_decide (key first = globalstate_pda.1) then Ok (None, first, rest)
     else '(gs, rest) ← next_account_info rest; Ok (Some first, gs, rest));
  '(devices, rest) ← next_pair (bool_decide (is_Some (lua_tunnel_net v))) rest;
  let needs_resources := bool_decide (is_Some (lua_tunnel_id v)) || bool_decide (is_Some (lua_tunnel_net v)) in
  _ ← reject (needs_resources && negb (lua_use_onchain_allocation v)) DZ_InvalidArgument;
  '(resources, rest) ← next_pair needs_resources rest;
  _ ← reject (8 <? length (default [] (lua_link_topologies v)))%nat DZ_InvalidArgument;
  '(payer, _, topology_accounts, permission) ← split_trailing_permission rest;
  _ ← assert_that (is_signer payer);
  _ ← validate_program_account l link_account true None;
  _ ← validate_program_account l globalstate_account false None;
  globalstate ← GlobalState_try_from l globalstate_account;
  contributor ← Contributor_try_from l contributor_account;
  let is_privileged := allowed (authorize l permission (key payer) globalstate flags.NETWORK_ADMIN) in
  _ ← ensure (bool_decide (Contributor.owner contributor = key payer) || is_privileged) (PE_Custom DZ_NotAllowed);
  _ ← match side_z with
      | Some a => ensure (bool_decide (owner_of l (key a) = program_id)) (PE_Custom DZ_InvalidAccountOwner)
      | None => Ok ()
      end;
  link ← Link_try_from l link_account;
  _ ← check_contributor l side_z contributor_account link;
  let contributor_a := bool_decide (Link.contributor_pk link = key contributor_account) in
  link ← (if contributor_a then update_a v link else Ok link);
  let link := update_both v link in
  '(l, link) ← update_tunnel l resources is_privileged v link;
  l ← update_devices l devices link;
  '(l, link) ← update_topologies l topology_accounts is_privileged v link;
  link ← update_drained contributor_a is_privileged v link;
  let link := Link.check_status_transition link in
  _ ← Link.validate link;
  try_acc_write (CLink link) link_account l.

(** ** [sethealth.rs] *)

Definition process_set_health_link (l : ledger) (accounts : list meta) (health : LinkHealth) : R ledger :=
  '(link_account, rest) ← next_account_info accounts;
  '(globalstate_account, rest) ← next_account_info rest;
  '(payer, rest) ← next_account_info rest;
  '(system_program, rest) ← next_account_info rest;
  _ ← assert_that (is_signer payer);
  _ ← validate_program_account l link_account true None;
  _ ← validate_program_account l globalstate_account false None;
  _ ← assert_that (bool_decide (key system_program = SYSTEM_PROGRAM_ID));
  globalstate ← GlobalState_try_from l globalstate_account;
  _ ← authorize l (head rest) (key payer) globalstate (Z.lor flags.HEALTH_ORACLE flags.NETWORK_ADMIN);
  link ← Link_try_from l link_account;
  try_acc_write (CLink (Link.check_status_transition (link <| Link.link_health := health |>))) link_account l.

(** ** Transactions *)

Definition process_link (l : ledger) (accounts : list meta) (i : link_instruction) : R ledger :=
  match i with
  | CreateLink v => process_create_link l accounts v
  | AcceptLink v => process_accept_link l accounts v
  | UpdateLink v => process_update_link l accounts v
  | DeleteLink d => process_delete_link l accounts d
  | SetLinkHealth h => process_set_health_link l accounts h
  end.

Definition link_transaction : Type := list meta * link_instruction.
Definition link_exec (l : ledger) (t : link_transaction) : ledger := match process_link l t.1 t.2 with Ok l' => l' | _ => l end.
Definition link_exec_all (l : ledger) (ts : list link_transaction) : ledger := foldl link_exec l ts.
End Links.

(** ** The resources of the links

    What the accepted instructions do to the links and to the two resource
    accounts. *)

Section LinkLeases.
Context `{Huni : !Unicode} `{Hnet : !IpNetwork} (find_program_address : list bytes -> Pubkey -> Pubkey * Z) (program_id : Pubkey).

#[local] Abbreviation block_pda := (get_resource_extension_pda find_program_address program_id DeviceTunnelBlock).1.
#[local] Abbreviation ids_pda := (get_resource_extension_pda find_program_address program_id LinkIds).1.

Definition link_at (a : account) : option Link.t :=
  match acc_content a with CLink x => if bool_decide (acc_owner a = program_id) then Some x else None | _ => None end.
(** The links of the program. *)
Definition links (l : ledger) : gmap Pubkey Link.t := omap link_at l.

Definition resource_in (a : account) : option bytes :=
  match acc_content a with CResource d => if bool_decide (acc_owner a = program_id) then Some d else None | _ => None end.
Definition resource_at (l : ledger) (k : Pubkey) : option bytes := l !! k ≫= resource_in.

(** What kind of value an account holds. *)
Definition kind (c : content) : nat :=
  match c with
  | CGlobalState _ => 0 | CPermission _ => 1 | CProgramConfig _ => 2 | CContributor _ => 3 | CDevice _ => 4 | CLink _ => 5
  | CTopology _ => 6 | CMulticastGroup _ => 7 | CAccessPass _ => 8 | CResource _ => 9 | COther _ => 10
  | CExchange _ => 11
  end.
Definition kind_at (l : ledger) (k : Pubkey) : option nat := kind <$> content_of l k.
Definition plain (c : content) : Prop := kind c <> 5%nat /\ kind c <> 9%nat.

(** No account changes its kind, and no link and no resource its value. *)
Definition undisturbed (l l' : ledger) : Prop :=
  (forall k, kind_at l' k = kind_at l k) /\ links l' = links l /\ forall k, resource_at l' k = resource_at l k.

#[local] Instance undisturbed_preorder : PreOrder undisturbed.
Proof.
  split; [done|]. intros l1 l2 l3 (Hk1 & Hl1 & Hr1) (Hk2 & Hl2 & Hr2). split; [by intros k; rewrite Hk2|].
  split; [congruence|]. intros k. by rewrite Hr2.
Qed.

Lemma links_lookup l k : links l !! k = l !! k ≫= link_at.
Proof. apply lookup_omap. Qed.

Lemma links_insert l k a : links (<[k := a]> l) = match link_at a with Some x => <[k := x]> (links l) | None => delete k (links l) end.
Proof. unfold links. destruct (link_at a) as [x|] eqn:E; [by apply omap_insert_Some|by apply omap_insert_None]. Qed.

Lemma kind_insert l k a k' : kind_at (<[k := a]> l) k' = if decide (k = k') then Some (kind (acc_content a)) else kind_at l k'.
Proof. unfold kind_at, content_of. rewrite lookup_insert. by case_decide. Qed.

Lemma resource_insert l k a k' : resource_at (<[k := a]> l) k' = if decide (k = k') then resource_in a else resource_at l k'.
Proof. unfold resource_at. rewrite lookup_insert. by case_decide. Qed.

Lemma kind_link l k n : kind_at l k = Some n -> n <> 5%nat -> links l !! k = None.
Proof.
  unfold kind_at, content_of. rewrite links_lookup. destruct (l !! k) as [[o c]|]; [|done]. cbn.
  destruct c; cbn; intros; simplify_eq; done.
Qed.

Lemma kind_resource l k n : kind_at l k = Some n -> n <> 9%nat -> resource_at l k = None.
Proof.
  unfold kind_at, content_of, resource_at. destruct (l !! k) as [[o c]|]; [|done]. cbn.
  destruct c; cbn; intros; simplify_eq; done.
Qed.

Lemma insert_plain l k c : plain c -> kind_at l k = Some (kind c) -> undisturbed l (<[k := mkAccount program_id c]> l).
Proof.
  intros [H5 H9] Hk. split; [|split].
  - intros k'. rewrite kind_insert. case_decide; [by subst|done].
  - rewrite links_insert. replace (link_at _) with (@None Link.t) by (unfold link_at; destruct c; cbn in *; congruence).
    apply delete_id. by eapply kind_link.
  - intros k'. rewrite resource_insert. case_decide; [subst|done]. rewrite (kind_resource l k' _ Hk H9).
    unfold resource_in. destruct c; cbn in *; congruence.
Qed.

Lemma write_plain c a l l' : try_acc_write program_id c a l = Ok l' -> plain c -> kind_at l (key a) = Some (kind c) -> undisturbed l l'.
Proof. unfold try_acc_write. intros H Hp Hk. inv_ok. by apply insert_plain. Qed.

Lemma try_from_kind {A : Type} (proj : content -> option A) n l a (x : A) :
  (forall c y, proj c = Some y -> kind c = n) -> try_from proj l a = Ok x -> kind_at l (key a) = Some n.
Proof.
  unfold try_from, kind_at. intros Hp. destruct (content_of l (key a)) as [c|]; cbn; [|done].
  destruct (proj c) as [y|] eqn:E; [|done]. intros _. by rewrite (Hp _ _ E).
Qed.

Lemma device_kind l a d : Device_try_from l a = Ok d -> kind_at l (key a) = Some 4%nat.
Proof. apply try_from_kind. by intros []. Qed.
Lemma contributor_kind l a d : Contributor_try_from l a = Ok d -> kind_at l (key a) = Some 3%nat.
Proof. apply try_from_kind. by intros []. Qed.
Lemma globalstate_kind l a d : GlobalState_try_from l a = Ok d -> kind_at l (key a) = Some 0%nat.
Proof. apply try_from_kind. by intros []. Qed.
Lemma topology_kind l a d : Topology_try_from l a = Ok d -> kind_at l (key a) = Some 6%nat.
Proof. apply try_from_kind. by intros []. Qed.

(** A link that was read from an account of the program. *)
Lemma link_read l a x : Link_try_from l a = Ok x -> owner_of l (key a) = program_id -> links l !! key a = Some x.
Proof.
  unfold try_from, content_of, owner_of. rewrite links_lookup. destruct (l !! key a) as [[o c]|]; [|done]. cbn.
  destruct c; cbn; try done. intros [= ->] ->. unfold link_at. cbn. by rewrite bool_decide_true.
Qed.

Lemma write_link x a l l' : try_acc_write program_id (CLink x) a l = Ok l' -> is_Some (links l !! key a) ->
  (forall k, kind_at l' k = kind_at l k) /\ links l' = <[key a := x]> (links l) /\ forall k, resource_at l' k = resource_at l k.
Proof.
  unfold try_acc_write. intros H [y Hy]. inv_ok. rewrite links_lookup in Hy.
  assert (kind_at l (key a) = Some 5%nat /\ resource_at l (key a) = None) as [Hk Hr].
  { unfold kind_at, content_of, resource_at. destruct (l !! key a) as [[o c]|]; [|done]. destruct c; cbn in Hy; try done. }
  split; [intros k; rewrite kind_insert; case_decide; by subst|]. split.
  - rewrite links_insert. unfold link_at. cbn. by rewrite bool_decide_true.
  - intros k. rewrite resource_insert. case_decide; by subst.
Qed.

(** ** The leases of the links *)

Definition net_lease (n : NetworkV4) : list IdOrIp := if bool_decide (n = NetworkV4_default) then [] else [Ip n].
Definition id_lease (id : Z) : list IdOrIp := if id =? 0 then [] else [Id id].
Definition leased (sel : Link.t -> list IdOrIp) (m : gmap Pubkey Link.t) : list IdOrIp := map_to_list m ≫= fun p => sel p.2.
Definition nets_of : gmap Pubkey Link.t -> list IdOrIp := leased (fun x => net_lease (Link.tunnel_net x)).
Definition ids_of : gmap Pubkey Link.t -> list IdOrIp := leased (fun x => id_lease (Link.tunnel_id x)).

Lemma leased_insert sel m k x : m !! k = None -> leased sel (<[k := x]> m) ≡ₚ sel x ++ leased sel m.
Proof. intros H. unfold leased. by rewrite (map_to_list_insert m k x H). Qed.

Lemma leased_delete sel m k x : m !! k = Some x -> leased sel m ≡ₚ sel x ++ leased sel (delete k m).
Proof. intros H. rewrite <- leased_insert by apply lookup_delete_eq. by rewrite insert_delete_id. Qed.

Lemma leased_replace sel m k x y : m !! k = Some x -> leased sel (<[k := y]> m) ≡ₚ sel y ++ leased sel (delete k m).
Proof. intros H. rewrite <- leased_insert by apply lookup_delete_eq. by rewrite insert_delete_eq. Qed.

Lemma zero_not_leased m : Id 0 ∉ ids_of m.
Proof.
  intros ([k x] & Hx & _)%list_elem_of_bind. cbn in Hx. unfold id_lease in Hx.
  destruct (Z.eqb_spec (Link.tunnel_id x) 0); [by apply elem_of_nil in Hx|]. apply list_elem_of_singleton in Hx. congruence.
Qed.

(** The block has allocator [ab] and, besides the links, [others] hold
    addresses of it; the numbers have allocator [ai]. *)
Context (ab : IpAllocator) (ai : IdAllocator) (others : list IdOrIp).

(** [nets] and [ids] are out; number 0 may be marked or not. *)
Definition res_ok (l : ledger) (nets ids : list IdOrIp) : Prop :=
  (Id 0 ∉ ids) /\ (exists bd idd z,
    resource_at l block_pda = Some bd /\ resource_at l ids_pda = Some idd /\ (z = [] \/ z = [Id 0]) /\
    leases_ok (AllocIp ab) bd (nets ++ others) /\ leases_ok (AllocId ai) idd (z ++ ids)).

#[local] Instance res_ok_perm l : Proper ((≡ₚ) ==> (≡ₚ) ==> iff) (res_ok l).
Proof.
  intros n n' Hn i i' Hi. unfold res_ok. setoid_rewrite Hn. rewrite Hi. by setoid_rewrite Hi.
Qed.

Lemma pdas_differ l nets ids : res_ok l nets ids -> block_pda <> ids_pda.
Proof.
  intros (_ & bd & idd & z & Hb & Hi & _ & ((_ & _ & Hd & _) & _) & ((_ & _ & Hd' & _) & _)) Heq. rewrite Heq in Hb. congruence.
Qed.

Lemma res_ok_block l l' nets ids nets' bd : res_ok l nets ids ->
  (forall k, resource_at l' k = if decide (block_pda = k) then Some bd else resource_at l k) ->
  leases_ok (AllocIp ab) bd (nets' ++ others) -> res_ok l' nets' ids.
Proof.
  intros H Hr Hls. pose proof (pdas_differ _ _ _ H) as Hpda. destruct H as (H0 & _ & idd & z & _ & Hi & Hz & _ & Hid).
  split; [done|]. exists bd, idd, z. rewrite !Hr. rewrite decide_True by done. by rewrite decide_False by done.
Qed.

Lemma res_ok_ids l l' nets ids ids' z idd : res_ok l nets ids -> Id 0 ∉ ids' ->
  (forall k, resource_at l' k = if decide (ids_pda = k) then Some idd else resource_at l k) ->
  z = [] \/ z = [Id 0] -> leases_ok (AllocId ai) idd (z ++ ids') -> res_ok l' nets ids'.
Proof.
  intros H H0 Hr Hz Hls. pose proof (pdas_differ _ _ _ H) as Hpda. destruct H as (_ & bd & _ & _ & Hb & _ & _ & Hbd & _).
  split; [done|]. exists bd, idd, z. rewrite !Hr. rewrite decide_False by congruence. by rewrite decide_True by done.
Qed.

(** The resources change, the links do not. *)
Definition quiet (l l' : ledger) : Prop := (forall k, kind_at l' k = kind_at l k) /\ links l' = links l.

#[local] Instance quiet_preorder : PreOrder quiet.
Proof. split; [done|]. intros l1 l2 l3 [Hk1 Hl1] [Hk2 Hl2]. split; [by intros k; rewrite Hk2|congruence]. Qed.

Lemma undisturbed_quiet l l' : undisturbed l l' -> quiet l l'.
Proof. by intros (? & ? & _). Qed.

Lemma undisturbed_res l l' nets ids : undisturbed l l' -> res_ok l nets ids -> res_ok l' nets ids.
Proof. intros (_ & _ & Hr). unfold res_ok. by rewrite !Hr. Qed.

Lemma with_resource_ok {A : Type} l a (f : bytes -> R (bytes * A)) l' x : with_resource l a f = Ok (l', x) ->
  owner_of l (key a) = program_id ->
  exists d d', resource_at l (key a) = Some d /\ f d = Ok (d', x) /\ quiet l l' /\
    forall k, resource_at l' k = if decide (key a = k) then Some d' else resource_at l k.
Proof.
  unfold with_resource. destruct (content_of l (key a)) as [[| | | | | | | | |d| |]|] eqn:Hc; try done.
  intros ([d' y] & Hf & [= <- <-])%bind_ok Ho.
  assert (kind_at l (key a) = Some 9%nat) as Hk by (unfold kind_at; by rewrite Hc).
  exists d, d'. split; [|split; [done|split; [split|]]].
  - unfold resource_at, content_of, owner_of in *. destruct (l !! key a) as [[o c]|]; [|done]. cbn in *. simplify_eq.
    unfold resource_in. cbn. by rewrite bool_decide_true.
  - intros k. rewrite kind_insert. case_decide; by subst.
  - rewrite links_insert. cbn. apply delete_id. by eapply kind_link.
  - intros k. rewrite resource_insert. case_decide; [|done]. unfold resource_in. cbn. by rewrite bool_decide_true.
Qed.

Lemma resource_read l k d nets ids : res_ok l nets ids -> resource_at l k = Some d ->
  (k = block_pda -> leases_ok (AllocIp ab) d (nets ++ others)) /\
  (k = ids_pda -> exists z, (z = [] \/ z = [Id 0]) /\ leases_ok (AllocId ai) d (z ++ ids)).
Proof.
  intros (_ & bd & idd & z & Hb & Hi & Hz & Hbd & Hid) Hd. split; intros ->; [congruence|].
  exists z. split; [done|]. congruence.
Qed.

Lemma lease_not_default v d ls : leases_ok (AllocIp ab) d (Ip v :: ls) -> v <> NetworkV4_default.
Proof. intros (_ & Hr & _) ->. apply Forall_cons_1 in Hr as [((Hp & _) & _) _]. cbn in Hp. lia. Qed.

Lemma claim_net l a l' net nets ids : with_resource l a (fun data => allocate_ip data 2) = Ok (l', net) ->
  owner_of l (key a) = program_id -> key a = block_pda -> res_ok l nets ids ->
  quiet l l' /\ res_ok l' (net_lease net ++ nets) ids.
Proof.
  intros H Ho Hk Hres. destruct (with_resource_ok _ _ _ _ _ H Ho) as (d & d' & Hd & Hf & Hq & Hr). split; [done|].
  destruct (resource_read _ _ _ _ _ Hres Hd) as [Hls _]. specialize (Hls Hk). unfold allocate_ip in Hf.
  apply bind_ok in Hf as ([d2 v] & Hall & Hv). destruct (allocate_ip_lease ab d _ 2 Hls) as [(d3 & v3 & E & Hls3)|[E _]];
    [exists 1%nat; split; [lia|done]| |congruence]. rewrite E in Hall. injection Hall as -> ->.
  destruct v as [n|]; [|done]. cbn in Hv. injection Hv as -> ->. unfold net_lease.
  rewrite bool_decide_false by (by eapply lease_not_default). rewrite Hk in Hr. by eapply res_ok_block.
Qed.

Lemma claim_id l a l' id nets ids : with_resource l a allocate_id = Ok (l', id) ->
  owner_of l (key a) = program_id -> key a = ids_pda -> res_ok l nets ids ->
  quiet l l' /\ res_ok l' nets (id_lease id ++ ids).
Proof.
  intros H Ho Hk Hres. destruct (with_resource_ok _ _ _ _ _ H Ho) as (d & d' & Hd & Hf & Hq & Hr). split; [done|].
  destruct (resource_read _ _ _ _ _ Hres Hd) as [_ Hls]. destruct (Hls Hk) as (z & Hz & Hls1). unfold allocate_id in Hf.
  apply bind_ok in Hf as ([d2 v] & Hall & Hv). destruct (allocate_id_lease ai d _ Hls1) as [(d3 & v3 & E & Hls3)|[E _]]; [|congruence].
  rewrite E in Hall. injection Hall as -> ->. destruct v as [|i]; [done|]. cbn in Hv. injection Hv as -> ->.
  pose proof Hres as [H0 _]. rewrite Hk in Hr. unfold id_lease. destruct (Z.eqb_spec id 0) as [->|Hne].
  - destruct Hz as [-> | ->].
    + eapply (res_ok_ids l l' nets ids ids [Id 0]); eauto.
    + exfalso. destruct Hls3 as (_ & Hr3 & _ & Hdis). apply (Hdis 0%nat 1%nat (Id 0) (Id 0)); [done..|].
      inversion Hr3; subst. cbn in *. exists (Z.to_nat (0 - range_0 ai)). cbn. lia.
  - eapply (res_ok_ids l l' nets ids (Id id :: ids) z); eauto; [intros [?|?]%elem_of_cons; congruence|].
    by rewrite Permutation_middle in Hls3.
Qed.

Lemma release_ok l a f l' : release_resource l a f = Ok l' -> owner_of l (key a) = program_id ->
  is_Some (resource_at l (key a)) ->
  exists d d' b, resource_at l (key a) = Some d /\ f d = Ok (d', b) /\ quiet l l' /\
    forall k, resource_at l' k = if decide (key a = k) then Some d' else resource_at l k.
Proof.
  unfold release_resource. intros H Ho [d Hd].
  assert (content_of l (key a) = Some (CResource d)) as Hc.
  { unfold resource_at, content_of in *. destruct (l !! key a) as [[o c]|]; [|done]. cbn in *. destruct c; cbn in *; try done.
    unfold resource_in in Hd. cbn in Hd. case_bool_decide; congruence. }
  rewrite Hc in H. apply bind_ok in H as ([l2 b] & H & [= ->]).
  destruct (with_resource_ok _ _ _ _ _ H Ho) as (d1 & d' & ? & ? & ? & ?). eauto 10.
Qed.

Lemma deallocate_value_eq a d v : ext_ok d a -> deallocate_value d v = deallocate d v.
Proof. intros He. unfold deallocate_value. by destruct (inplace_from_ok _ _ He) as (r & -> & _). Qed.

Lemma block_read l nets ids : res_ok l nets ids -> is_Some (resource_at l block_pda).
Proof. intros (_ & bd & ? & ? & -> & _). eauto. Qed.
Lemma ids_read l nets ids : res_ok l nets ids -> is_Some (resource_at l ids_pda).
Proof. intros (_ & ? & idd & ? & _ & -> & _). eauto. Qed.

Lemma release_net l a l' n nets ids : release_resource l a (fun data => deallocate_ip data n) = Ok l' ->
  owner_of l (key a) = program_id -> key a = block_pda -> res_ok l (net_lease n ++ nets) ids ->
  quiet l l' /\ res_ok l' nets ids.
Proof.
  intros H Ho Hk Hres. destruct (release_ok _ _ _ _ H Ho) as (d & d' & b & Hd & Hf & Hq & Hr); [rewrite Hk; by eapply block_read|].
  split; [done|]. destruct (resource_read _ _ _ _ _ Hres Hd) as [Hls _]. specialize (Hls Hk). rewrite Hk in Hr.
  unfold deallocate_ip in Hf. rewrite (deallocate_value_eq (AllocIp ab)) in Hf by apply Hls.
  eapply res_ok_block; [done..|]. revert Hls. unfold net_lease. case_bool_decide as Hn; intros Hls.
  - subst n. rewrite (deallocate_default _ _ _ Hls) in Hf. injection Hf as -> _. done.
  - destruct (deallocate_lease _ _ _ 0 (Ip n) Hls) as (d2 & E & Hls2); [done|]. rewrite E in Hf. injection Hf as -> _. done.
Qed.

(** Number 0 is free after it was returned, whoever has it. *)
Lemma deallocate_zero d d' b z ids : z = [] \/ z = [Id 0] -> (Id 0 ∉ ids) -> leases_ok (AllocId ai) d (z ++ ids) ->
  deallocate_id d 0 = Ok (d', b) -> leases_ok (AllocId ai) d' ids.
Proof.
  intros Hz H0 Hls Hf. unfold deallocate_id in Hf. rewrite (deallocate_value_eq (AllocId ai)) in Hf by apply Hls. destruct Hz as [-> | ->].
  - destruct (deallocate_free_id _ _ _ 0 Hls H0) as (d2 & E & Hls2). rewrite E in Hf. injection Hf as -> _. done.
  - destruct (deallocate_lease _ _ _ 0 (Id 0) Hls) as (d2 & E & Hls2); [done|]. rewrite E in Hf. injection Hf as -> _. done.
Qed.

Lemma release_id l a l' id nets ids : release_resource l a (fun data => deallocate_id data id) = Ok l' ->
  owner_of l (key a) = program_id -> key a = ids_pda -> (Id 0 ∉ ids) -> res_ok l nets (id_lease id ++ ids) ->
  quiet l l' /\ res_ok l' nets ids.
Proof.
  intros H Ho Hk H0 Hres. destruct (release_ok _ _ _ _ H Ho) as (d & d' & b & Hd & Hf & Hq & Hr); [rewrite Hk; by eapply ids_read|].
  split; [done|]. destruct (resource_read _ _ _ _ _ Hres Hd) as [_ Hls]. destruct (Hls Hk) as (z & Hz & Hls1). rewrite Hk in Hr.
  revert Hls1. unfold id_lease. destruct (Z.eqb_spec id 0) as [->|Hne]; intros Hls1.
  - pose proof (deallocate_zero _ _ _ _ _ Hz H0 Hls1 Hf) as Hd'.
    eapply (res_ok_ids l l' nets _ ids []); eauto.
  - unfold deallocate_id in Hf. rewrite (deallocate_value_eq (AllocId ai)) in Hf by apply Hls1.
    cbn [app] in Hls1. rewrite <- Permutation_middle in Hls1. destruct (deallocate_lease _ _ _ 0 (Id id) Hls1) as (d2 & E & Hls2); [done|].
    rewrite E in Hf. injection Hf as -> _. eapply (res_ok_ids l l' nets _ ids z); eauto.
Qed.

Lemma claim_resource_ok l a f l' : claim_resource l a f = Ok l' -> owner_of l (key a) = program_id ->
  exists d d', resource_at l (key a) = Some d /\ f d = Ok d' /\ quiet l l' /\
    forall k, resource_at l' k = if decide (key a = k) then Some d' else resource_at l k.
Proof.
  intros ([l2 []] & H & [= ->])%bind_ok Ho. destruct (with_resource_ok _ _ _ _ _ H Ho) as (d & d' & Hd & Hf & Hq & Hr).
  apply bind_ok in Hf as (d2 & Hf & [= ->]). eauto 10.
Qed.

Lemma claim_specific_net l a l' n nets ids : claim_resource l a (fun data => allocate_specific_ip data n) = Ok l' ->
  owner_of l (key a) = program_id -> key a = block_pda -> wf_value (Ip n) -> res_ok l nets ids ->
  quiet l l' /\ res_ok l' (net_lease n ++ nets) ids.
Proof.
  intros H Ho Hk Hwf Hres. destruct (claim_resource_ok _ _ _ _ H Ho) as (d & d' & Hd & Hf & Hq & Hr). split; [done|].
  destruct (resource_read _ _ _ _ _ Hres Hd) as [Hls _]. specialize (Hls Hk). unfold allocate_specific_ip in Hf.
  destruct (allocate_specific_lease _ _ _ _ Hls Hwf) as [(d2 & E & Hls2)|[[e E] _]]; [|congruence].
  rewrite E in Hf. injection Hf as ->. unfold net_lease. rewrite bool_decide_false by (by eapply lease_not_default).
  rewrite Hk in Hr. by eapply res_ok_block.
Qed.

Lemma claim_specific_id l a l' id nets ids : claim_resource l a (fun data => allocate_specific_id data id) = Ok l' ->
  owner_of l (key a) = program_id -> key a = ids_pda -> wf_value (Id id) -> id <> 0 -> res_ok l nets ids ->
  quiet l l' /\ res_ok l' nets (id_lease id ++ ids).
Proof.
  intros H Ho Hk Hwf Hne Hres. destruct (claim_resource_ok _ _ _ _ H Ho) as (d & d' & Hd & Hf & Hq & Hr). split; [done|].
  destruct (resource_read _ _ _ _ _ Hres Hd) as [_ Hls]. destruct (Hls Hk) as (z & Hz & Hls1). unfold allocate_specific_id in Hf.
  destruct (allocate_specific_lease _ _ _ _ Hls1 Hwf) as [(d2 & E & Hls2)|[[e E] _]]; [|congruence].
  rewrite E in Hf. injection Hf as ->. unfold id_lease. rewrite (proj2 (Z.eqb_neq _ _) Hne). pose proof Hres as [H0 _].
  rewrite Hk in Hr. eapply (res_ok_ids l l' nets ids (Id id :: ids) z); eauto; [intros [?|?]%elem_of_cons; congruence|].
  by rewrite Permutation_middle in Hls2.
Qed.

Lemma validate_program_account_pda l a w pda : validate_program_account program_id l a w (Some pda) = Ok () ->
  owner_of l (key a) = program_id /\ key a = pda.
Proof. unfold validate_program_account. intros. by inv_ok. Qed.

Lemma validate_link_resources_ok l block ids_acc : validate_link_resources find_program_address program_id l block ids_acc = Ok () ->
  (owner_of l (key block) = program_id /\ key block = block_pda) /\ (owner_of l (key ids_acc) = program_id /\ key ids_acc = ids_pda).
Proof.
  unfold validate_link_resources. intros ([] & H1 & H2)%bind_ok. split; by eapply validate_program_account_pda.
Qed.

(** A change of the resources leaves the owner of their accounts. *)
Lemma owner_kept l nets ids k : res_ok l nets ids -> k = block_pda \/ k = ids_pda -> owner_of l k = program_id.
Proof.
  intros (_ & bd & idd & z & Hb & Hi & _) [-> | ->]; unfold resource_at, owner_of in *.
  - destruct (l !! block_pda) as [[o c]|]; [|done]. cbn in *. unfold resource_in in Hb. destruct c; cbn in Hb; try done. by case_bool_decide.
  - destruct (l !! ids_pda) as [[o c]|]; [|done]. cbn in *. unfold resource_in in Hi. destruct c; cbn in Hi; try done. by case_bool_decide.
Qed.

(** A link gets the resources it does not have. *)
Lemma allocate_link_ok l x block ids_acc l' y nets ids :
  validate_and_allocate_link_resources find_program_address program_id l x block ids_acc = Ok (l', y) ->
  res_ok l (net_lease (Link.tunnel_net x) ++ nets) (id_lease (Link.tunnel_id x) ++ ids) ->
  quiet l l' /\ res_ok l' (net_lease (Link.tunnel_net y) ++ nets) (id_lease (Link.tunnel_id y) ++ ids) /\
  y = x <| Link.tunnel_net := Link.tunnel_net y |> <| Link.tunnel_id := Link.tunnel_id y |>.
Proof.
  unfold validate_and_allocate_link_resources. intros H Hres. apply bind_ok in H as ([] & Hv & H).
  destruct (validate_link_resources_ok _ _ _ Hv) as [[Hob Hkb] [Hoi Hki]].
  apply bind_ok in H as ([l1 net] & H1 & H). apply bind_ok in H as ([l2 id] & H2 & [= <- <-]). cbn [Link.tunnel_net Link.tunnel_id].
  assert (quiet l l1 /\ res_ok l1 (net_lease net ++ nets) (id_lease (Link.tunnel_id x) ++ ids)) as [Hq1 Hres1].
  { revert H1 Hres. unfold net_lease at 1. case_bool_decide; intros H1 Hres; [by eapply claim_net|].
    injection H1 as <- <-. split; [done|]. unfold net_lease. by rewrite bool_decide_false. }
  assert (quiet l1 l2 /\ res_ok l2 (net_lease net ++ nets) (id_lease id ++ ids)) as [Hq2 Hres2].
  { revert H2 Hres1. unfold id_lease at 1. destruct (Z.eqb_spec (Link.tunnel_id x) 0) as [|Hne]; intros H2 Hres1.
    - eapply claim_id; [done| |done|done]. eapply owner_kept; [done|by right].
    - injection H2 as <- <-. split; [done|]. unfold id_lease. by rewrite (proj2 (Z.eqb_neq _ _) Hne). }
  split; [by etransitivity|]. split; [done|]. by destruct x.
Qed.

Lemma deallocate_link_ok l x block ids_acc l' nets ids :
  validate_and_deallocate_link_resources find_program_address program_id l x block ids_acc = Ok l' -> (Id 0 ∉ ids) ->
  res_ok l (net_lease (Link.tunnel_net x) ++ nets) (id_lease (Link.tunnel_id x) ++ ids) -> quiet l l' /\ res_ok l' nets ids.
Proof.
  unfold validate_and_deallocate_link_resources. intros H H0 Hres. apply bind_ok in H as ([] & Hv & H).
  destruct (validate_link_resources_ok _ _ _ Hv) as [[Hob Hkb] [Hoi Hki]]. apply bind_ok in H as (l1 & H1 & H2).
  destruct (release_net _ _ _ _ _ _ H1 Hob Hkb Hres) as [Hq1 Hres1].
  destruct (release_id l1 ids_acc l' (Link.tunnel_id x) nets ids) as [Hq2 Hres2]; [done| |done|done|done|].
  - eapply owner_kept; [done|by right].
  - split; [by etransitivity|done].
Qed.

(** ** The instructions *)

(** The links hold disjoint networks and different numbers, 0 apart. *)
Definition links_ok (l : ledger) : Prop := res_ok l (nets_of (links l)) (ids_of (links l)).

Lemma links_ok_split l k x : links_ok l -> links l !! k = Some x ->
  res_ok l (net_lease (Link.tunnel_net x) ++ nets_of (delete k (links l))) (id_lease (Link.tunnel_id x) ++ ids_of (delete k (links l))).
Proof. intros H Hx. unfold links_ok, nets_of, ids_of in H. by rewrite !(leased_delete _ _ _ _ Hx) in H. Qed.

Lemma links_replaced l l1 l' a x y : links l !! key a = Some x -> quiet l l1 ->
  res_ok l1 (net_lease (Link.tunnel_net y) ++ nets_of (delete (key a) (links l)))
    (id_lease (Link.tunnel_id y) ++ ids_of (delete (key a) (links l))) ->
  try_acc_write program_id (CLink y) a l1 = Ok l' -> links_ok l'.
Proof.
  intros Hx [_ Hl] Hres Hw. destruct (write_link _ _ _ _ Hw) as (_ & Hl' & Hr); [rewrite Hl; eauto|].
  unfold links_ok. rewrite Hl', Hl. unfold nets_of, ids_of. rewrite !(leased_replace _ _ _ _ _ Hx). unfold res_ok. rewrite !Hr. exact Hres.
Qed.

(** A link that keeps its resources. *)
Lemma links_same_lease l l1 l' a x y : links_ok l -> links l !! key a = Some x -> undisturbed l l1 ->
  Link.tunnel_net y = Link.tunnel_net x -> Link.tunnel_id y = Link.tunnel_id x ->
  try_acc_write program_id (CLink y) a l1 = Ok l' -> links_ok l'.
Proof.
  intros Hok Hx Hu Hn Hi. apply (links_replaced l l1 l' a x y Hx); [by apply undisturbed_quiet|].
  rewrite Hn, Hi. eapply undisturbed_res; [done|]. by apply links_ok_split.
Qed.

Lemma created_link l a payer sys x l' : try_acc_create program_id (CLink x) a payer sys l = Ok l' ->
  links l !! key a = None /\ links l' = <[key a := x]> (links l) /\ (forall k, resource_at l' k = resource_at l k) /\
  forall k n, kind_at l k = Some n -> kind_at l' k = Some n.
Proof.
  unfold try_acc_create. intros ([] & _ & H)%bind_ok. apply bind_ok in H as ([] & Hc%ensure_ok & [= <-]).
  apply andb_true_iff in Hc as [_ He]. unfold data_is_empty in He. apply bool_decide_eq_true in He. split; [|split; [|split]].
  - by rewrite links_lookup, He.
  - rewrite links_insert. unfold link_at. cbn. by rewrite bool_decide_true.
  - intros k. rewrite resource_insert. case_decide; [subst|done]. unfold resource_at. by rewrite He.
  - intros k n Hk. rewrite kind_insert. case_decide; [subst|done]. unfold kind_at, content_of in Hk. by rewrite He in Hk.
Qed.

Lemma validate_program_account_owner l a w pda : validate_program_account program_id l a w pda = Ok () -> owner_of l (key a) = program_id.
Proof. unfold validate_program_account. intros ([] & H & _)%bind_ok. apply assert_that_ok in H. by apply bool_decide_eq_true in H. Qed.

Lemma tag_unicast_default_ok l a l' ks : tag_unicast_default find_program_address program_id l a = Ok (l', ks) -> undisturbed l l'.
Proof.
  unfold tag_unicast_default. intros ([] & _ & H)%bind_ok. destruct (_ && _); [|by injection H as <- _].
  apply bind_ok in H as ([] & _ & H). apply bind_ok in H as (t & Ht & H). apply bind_ok in H as ([] & _ & H).
  apply bind_ok in H as (l2 & Hw & [= <- _]). eapply write_plain; [done|done|]. by eapply topology_kind.
Qed.

(** An account that held a value still holds one of its kind. *)
Definition kinds_kept (l l' : ledger) : Prop := forall k n, kind_at l k = Some n -> kind_at l' k = Some n.

Lemma quiet_kinds l l' : quiet l l' -> kinds_kept l l'.
Proof. intros [H _] k n. by rewrite H. Qed.
Lemma kinds_trans l1 l2 l3 : kinds_kept l1 l2 -> kinds_kept l2 l3 -> kinds_kept l1 l3.
Proof. intros H1 H2 k n Hk. by apply H2, H1. Qed.

(** A write of a value that is neither a link nor a resource, over one of its
    kind read from [l0] earlier. *)
Lemma write_after l0 c a l l' : try_acc_write program_id c a l = Ok l' -> kinds_kept l0 l -> plain c ->
  kind_at l0 (key a) = Some (kind c) -> undisturbed l l' /\ kinds_kept l0 l'.
Proof.
  intros H Hk Hp Ha. assert (undisturbed l l') as Hu by (eapply write_plain; eauto). split; [done|].
  eapply kinds_trans; [done|]. by apply quiet_kinds, undisturbed_quiet.
Qed.

Lemma adjust_topologies_ok f accounts l ks l' : adjust_topologies program_id f accounts l ks = Ok l' -> undisturbed l l'.
Proof.
  revert l. induction ks as [|k ks IH]; intros l; cbn [adjust_topologies]; [by intros [= <-]|].
  intros (l1 & H1 & H2)%bind_ok. etransitivity; [|by apply IH]. unfold adjust_topology in H1. destruct (account_of accounts k); [|done].
  apply bind_ok in H1 as (t & Ht & H1). apply bind_ok in H1 as (t' & _ & H1). eapply write_plain; [done|done|]. by eapply topology_kind.
Qed.

Ltac run_inv H :=
  repeat (match type of H with mbind _ _ = Ok _ => idtac end;
    apply bind_ok in H; let Hx := fresh "E" in destruct H as (? & Hx & H);
    repeat match goal with p : (_ * _)%type |- _ => destruct p | u : unit |- _ => destruct u end; cbn beta iota in H).

(** The kinds of what was read. *)
Ltac kinds :=
  repeat match goal with
  | E : try_from as_GlobalState _ _ = Ok _ |- _ => apply globalstate_kind in E
  | E : try_from as_Contributor _ _ = Ok _ |- _ => apply contributor_kind in E
  | E : try_from as_Device _ _ = Ok _ |- _ => apply device_kind in E
  end.

(** The writes that follow [l0], of which [K] keeps the kinds. *)
Ltac plain_writes l0 K :=
  repeat match type of K with
  | kinds_kept _ ?l => match goal with
    | E : try_acc_write _ ?c _ l = Ok _ |- _ =>
        let U := fresh "U" in
        destruct (write_after l0 _ _ _ _ E K) as [U K']; [done|done|]; clear K; rename K' into K; clear E
    end
  end.

Lemma undisturbed_links l l' : undisturbed l l' -> links_ok l -> links_ok l'.
Proof. intros U H. unfold links_ok in *. pose proof U as (_ & -> & _). by eapply undisturbed_res. Qed.

Ltac undisturb :=
  repeat match goal with U : undisturbed _ ?l |- links_ok ?l => apply (undisturbed_links _ _ U); clear U end.

Ltac settle Hq Hres :=
  repeat match type of Hq with
  | quiet ?l ?l1 => match goal with
    | U : undisturbed l1 ?l2 |- _ =>
        apply (undisturbed_res _ _ _ _ U) in Hres; apply (transitivity (z := l2)) in Hq; [|by apply undisturbed_quiet]; clear U
    end
  end.

Lemma activate_created_ok l x block ids_acc a z l' y a' z' nets ids :
  activate_created find_program_address program_id l x block ids_acc a z = Ok (l', y, a', z') ->
  res_ok l (net_lease (Link.tunnel_net x) ++ nets) (id_lease (Link.tunnel_id x) ++ ids) ->
  quiet l l' /\ res_ok l' (net_lease (Link.tunnel_net y) ++ nets) (id_lease (Link.tunnel_id y) ++ ids).
Proof.
  unfold activate_created. case_bool_decide as Hs; [intros [= <- <- <- <-]; done|]. intros H Hres. run_inv H. injection H as <- <- <- <-.
  match goal with E : validate_and_allocate_link_resources _ _ _ _ _ _ = Ok _ |- _ =>
    destruct (allocate_link_ok _ _ _ _ _ _ _ _ E Hres) as (Hq & Hres' & _) end. done.
Qed.

Lemma create_links_ok l accounts v l' : process_create_link find_program_address program_id l accounts v = Ok l' ->
  links_ok l -> links_ok l'.
Proof.
  unfold process_create_link. intros H Hok. run_inv H. kinds.
  match goal with E : tag_unicast_default _ _ l _ = Ok _ |- _ => apply tag_unicast_default_ok in E as Ht end.
  match goal with E : activate_created _ _ _ _ _ _ _ _ = Ok _ |- _ =>
    eapply (activate_created_ok _ _ _ _ _ _ _ _ _ _ (nets_of (links l)) (ids_of (links l))) in E as [Hq Hres];
      [|by eapply undisturbed_res] end.
  match goal with E : try_acc_create _ _ _ _ _ _ = Ok _ |- _ => destruct (created_link _ _ _ _ _ _ E) as (Hn & Hl & Hr & Hk) end.
  match type of Hk with forall k n, _ -> kind_at ?l3 _ = _ => assert (kinds_kept l l3) as K end.
  { eapply kinds_trans; [apply quiet_kinds, undisturbed_quiet, Ht|]. eapply kinds_trans; [by apply quiet_kinds|done]. }
  plain_writes l K. undisturb. unfold links_ok. rewrite Hl. unfold nets_of, ids_of. rewrite !leased_insert by done.
  destruct Hq as [_ ->]. destruct Ht as (_ & -> & _). unfold res_ok. rewrite !Hr. exact Hres.
Qed.

Lemma accept_links_ok l accounts v l' : process_accept_link find_program_address program_id l accounts v = Ok l' ->
  links_ok l -> links_ok l'.
Proof.
  unfold process_accept_link. intros H Hok. run_inv H.
  destruct (Device.find_interface _ _) as [[ia fa]|]; [|done]. destruct (Device.find_interface _ _) as [[iz fz]|]; [|done].
  run_inv H. kinds.
  match goal with E : try_from as_Link _ ?a = Ok ?x, V : validate_program_account _ _ ?a _ _ = Ok _ |- _ =>
    apply validate_program_account_owner in V; pose proof (link_read _ _ _ E V) as Hx end.
  match goal with E : validate_and_allocate_link_resources _ _ _ _ _ _ = Ok (?l1, _) |- _ =>
    eapply allocate_link_ok in E as (Hq & Hres & _); [|by apply (links_ok_split l _ _ Hok Hx)]; pose proof (quiet_kinds _ _ Hq) as K end.
  plain_writes l K. settle Hq Hres. eapply (links_replaced l); [exact Hx|exact Hq| |exact H]. exact Hres.
Qed.

Lemma close_link a l l' : try_acc_close program_id a l = Ok l' -> is_Some (links l !! key a) ->
  links l' = delete (key a) (links l) /\ forall k, resource_at l' k = resource_at l k.
Proof.
  unfold try_acc_close. intros ([] & _ & [= <-])%bind_ok [x Hx]. split; [apply omap_delete|]. intros k.
  unfold resource_at. rewrite lookup_delete. case_decide; [subst|done]. rewrite links_lookup in Hx.
  destruct (l !! key a) as [[o c]|]; [|done]. destruct c; cbn in Hx; done.
Qed.

(** What a deletion leaves of the devices. *)

Lemma write_elsewhere c a l l' k : try_acc_write program_id c a l = Ok l' -> key a <> k -> content_of l' k = content_of l k.
Proof. unfold try_acc_write. intros H Hk. inv_ok. unfold content_of. by rewrite lookup_insert_ne. Qed.

Lemma write_here c a l l' : try_acc_write program_id c a l = Ok l' -> content_of l' (key a) = Some c.
Proof. unfold try_acc_write. intros H. inv_ok. unfold content_of. by rewrite lookup_insert_eq. Qed.

Lemma release_device l a f l' k d : release_resource l a f = Ok l' -> content_of l k = Some (CDevice d) -> content_of l' k = Some (CDevice d).
Proof.
  unfold release_resource, with_resource. intros H Hk. destruct (content_of l (key a)) as [c|] eqn:Ha; [|by injection H as <-].
  destruct c; try (by injection H as <-). apply bind_ok in H as ([l1 b] & H & [= <-]). apply bind_ok in H as ([d' b'] & _ & [= <- _]).
  destruct (decide (key a = k)) as [E|Hne]; [rewrite E in Ha; congruence|]. unfold content_of in *. by rewrite lookup_insert_ne.
Qed.

Lemma adjust_topologies_device f accounts l ks l' k d : adjust_topologies program_id f accounts l ks = Ok l' ->
  content_of l k = Some (CDevice d) -> content_of l' k = Some (CDevice d).
Proof.
  revert l. induction ks as [|t ks IH]; intros l; cbn [adjust_topologies]; [by intros [= <-]|].
  intros (l1 & H1 & H2)%bind_ok Hk. eapply IH; [done|]. unfold adjust_topology in H1. destruct (account_of accounts t) as [a|]; [|done].
  apply bind_ok in H1 as (x & Hx & H1). apply bind_ok in H1 as (y & _ & H1). rewrite (write_elsewhere _ _ _ _ _ H1); [done|].
  intros <-. unfold try_from in Hx. rewrite Hk in Hx. done.
Qed.

Lemma find_in_replaced ifs name n idx i i' : Device.find_in ifs name n = Some (idx, i) -> Interface.name i' = Interface.name i ->
  Device.find_in (<[(idx - n)%nat := i']> ifs) name n = Some (idx, i').
Proof.
  revert n. induction ifs as [|j ifs IH]; intros n; cbn [Device.find_in]; [done|]. case_bool_decide as Hj.
  - intros [= <- <-] Hi. rewrite Nat.sub_diag. cbn. by rewrite Hi, bool_decide_true.
  - intros H Hi. assert (n < idx)%nat as Hlt.
    { clear -H. revert n H. induction ifs as [|j ifs IH]; intros n; cbn [Device.find_in]; [done|].
      case_bool_decide; [intros [= <- _]; lia|intros ?%IH; lia]. }
    replace (idx - n)%nat with (S (idx - S n)) by lia. cbn. rewrite bool_decide_false by done. by apply IH.
Qed.

Lemma unlink_found d name idx i n : Device.find_interface d name = Some (idx, i) ->
  Device.find_interface ((unlink_named d name) <| Device.reference_count := n |>) name = Some (idx, unlink_iface i).
Proof.
  intros H. unfold unlink_named. rewrite H. unfold Device.find_interface in *. cbn.
  pose proof (find_in_replaced _ _ _ _ _ (unlink_iface i) H) as E. rewrite Nat.sub_0_r in E. apply E.
  unfold unlink_iface. by case_match.
Qed.

Lemma sides_written l0 (c a z : meta) contributor da dz (topologies : list Pubkey) accounts l1 l2 l3 l4 :
  kind_at l0 (key c) = Some 3%nat -> kind_at l0 (key a) = Some 4%nat -> kind_at l0 (key z) = Some 4%nat ->
  try_acc_write program_id (CContributor contributor) c l0 = Ok l1 -> try_acc_write program_id (CDevice da) a l1 = Ok l2 ->
  try_acc_write program_id (CDevice dz) z l2 = Ok l3 ->
  (if bool_decide (topologies = []) then Ok l3
   else _ ← check_accounts (fun a => validate_program_account program_id l3 a true None) accounts;
        adjust_topologies program_id untag accounts l3 topologies) = Ok l4 ->
  undisturbed l0 l4 /\ (key a <> key z -> content_of l4 (key a) = Some (CDevice da)).
Proof.
  intros Kc Ka Kz Hc Ha Hz Ht.
  assert (undisturbed l3 l4 /\ forall k d, content_of l3 k = Some (CDevice d) -> content_of l4 k = Some (CDevice d)) as [Ut Hdev].
  { case_bool_decide; [by injection Ht as <-|]. apply bind_ok in Ht as ([] & _ & Ht).
    split; [by eapply adjust_topologies_ok|]. intros k d. by eapply adjust_topologies_device. }
  split.
  - assert (kinds_kept l0 l0) as K by (by intros ?). pose proof Ha as Ha'. plain_writes l0 K. do 3 (etransitivity; [eassumption|]). done.
  - intros Hne. apply Hdev. rewrite (write_elsewhere _ _ _ _ _ Hz) by congruence. by eapply write_here.
Qed.

(** A deletion returns the resources of the link, resets its interfaces and
    closes its account; of the devices, the one at side A, when it is not at
    side Z too. *)
Lemma delete_trace l accounts b l' : process_delete_link find_program_address program_id l accounts b = Ok l' -> links_ok l ->
  exists a x block ids l1 l2, head accounts = Some a /\ links l !! key a = Some x /\
    validate_and_deallocate_link_resources find_program_address program_id l x block ids = Ok l1 /\
    undisturbed l1 l2 /\ try_acc_close program_id a l2 = Ok l' /\
    (Link.side_a_pk x <> Link.side_z_pk x -> forall d, content_of l (Link.side_a_pk x) = Some (CDevice d) ->
     exists n, content_of l2 (Link.side_a_pk x) = Some (CDevice ((unlink_named d (Link.side_a_iface_name x)) <| Device.reference_count := n |>))).
Proof.
  unfold process_delete_link. intros H Hok. destruct accounts as [|a0 accounts]; [by run_inv H|]. run_inv H.
  match goal with E : next_account_info (a0 :: _) = Ok _ |- _ => injection E as <- <- end.
  match goal with E : try_from as_Link l a0 = Ok ?y, V : validate_program_account _ _ a0 _ _ = Ok _ |- _ =>
    rename y into link; apply validate_program_account_owner in V; pose proof (link_read _ _ _ E V) as Hx end.
  match goal with E : validate_and_deallocate_link_resources _ _ _ _ ?m ?n = Ok ?p |- _ =>
    rename p into dealt, m into block, n into ids, E into Hdeal end.
  match goal with E : (if _ then Ok ?p else _) = Ok ?q |- _ => rename q into l4', E into Htop end.
  exists a0, link, block, ids, dealt, l4'. split; [done|]. split; [done|]. split; [done|].
  destruct (deallocate_link_ok _ _ _ _ _ _ _ Hdeal (zero_not_leased _) (links_ok_split l _ _ Hok Hx)) as [Hq _].
  match goal with E : ensure (bool_decide (Link.owner link = _) && _ && _) _ = Ok _ |- _ => apply ensure_ok in E end.
  rewrite !andb_true_iff, !bool_decide_eq_true in *. destruct_and!.
  match goal with E : try_from as_Contributor l ?c = Ok _, A : try_from as_Device dealt ?a = Ok _, Z : try_from as_Device dealt ?z = Ok _,
      Ea : Link.side_a_pk link = key ?a, Ez : Link.side_z_pk link = key ?z,
      W1 : try_acc_write _ _ ?c dealt = Ok ?p, W2 : try_acc_write _ _ ?a ?p = Ok ?q, W3 : try_acc_write _ _ ?z ?q = Ok _ |- _ =>
    apply contributor_kind in E; rewrite <- (proj1 Hq) in E; rewrite Ea, Ez; rename A into Hda;
    destruct (sides_written _ _ _ _ _ _ _ _ _ _ _ _ _ E (device_kind _ _ _ Hda) (device_kind _ _ _ Z) W1 W2 W3 Htop) as [Hu Hside] end.
  split; [exact Hu|]. split; [exact H|]. intros Hne d Hd. rewrite (Hside Hne).
  unfold validate_and_deallocate_link_resources in Hdeal. run_inv Hdeal.
  eapply (release_device _ _ _ _ _ d) in Hd; [|eassumption]. eapply (release_device _ _ _ _ _ d) in Hd; [|eassumption].
  unfold try_from in Hda. rewrite Hd in Hda. injection Hda as <-. eauto.
Qed.

Lemma delete_links_ok l accounts d l' : process_delete_link find_program_address program_id l accounts d = Ok l' ->
  links_ok l -> links_ok l'.
Proof.
  intros H Hok. destruct (delete_trace _ _ _ _ H Hok) as (a & x & block & ids & l1 & l2 & _ & Hx & Hd & Hu & Hc & _).
  destruct (deallocate_link_ok _ _ _ _ _ _ _ Hd (zero_not_leased _) (links_ok_split l _ _ Hok Hx)) as [[_ Hl] Hres].
  apply (undisturbed_res _ _ _ _ Hu) in Hres. destruct Hu as (_ & Hl2 & _). rewrite <- Hl2 in Hl.
  destruct (close_link _ _ _ Hc) as [Hl' Hr]; [rewrite Hl; eauto|]. unfold links_ok. rewrite Hl', Hl. unfold res_ok. rewrite !Hr. exact Hres.
Qed.

Lemma set_health_links_ok l accounts h l' : process_set_health_link find_program_address program_id l accounts h = Ok l' ->
  links_ok l -> links_ok l'.
Proof.
  unfold process_set_health_link. intros H Hok. run_inv H.
  match goal with E : try_from as_Link _ ?a = Ok ?x, V : validate_program_account _ _ ?a _ _ = Ok _ |- _ =>
    apply validate_program_account_owner in V; pose proof (link_read _ _ _ E V) as Hx end.
  by eapply (links_same_lease l l); [..|exact H].
Qed.

(** What the fields of an update can be on the wire. *)
Definition wf_update (v : LinkUpdateArgs) : Prop :=
  (forall id, lua_tunnel_id v = Some id -> is_u16 id) /\
  (forall n, lua_tunnel_net v = Some n -> 0 <= net_prefix n <= 32 /\ is_u32 (net_ip n)).

Definition same_lease (x y : Link.t) : Prop := Link.tunnel_net y = Link.tunnel_net x /\ Link.tunnel_id y = Link.tunnel_id x.

#[local] Instance same_lease_trans : Transitive same_lease.
Proof. intros x y z [Hn Hi] [Hn' Hi']. split; congruence. Qed.

Lemma set_opt_lease {A : Type} (f : A -> Link.t -> Link.t) o x : (forall a y, same_lease y (f a y)) -> same_lease x (set_opt f o x).
Proof. intros Hf. destruct o; [apply Hf|done]. Qed.

Lemma update_a_lease v x y : update_a v x = Ok y -> same_lease x y.
Proof.
  unfold update_a. intros (x1 & H1 & H)%bind_ok. apply bind_ok in H as (x2 & H2 & [= <-]).
  trans x1. { destruct (lua_code v); [|by injection H1 as <-]. destruct (validate_account_code _); [|done]. by injection H1 as <-. }
  trans x2; [|do 2 (etransitivity; [|by apply set_opt_lease]); done].
  revert H2. generalize (lua_mtu v). intros o H2.
  etransitivity; [by apply (set_opt_lease (fun x link => link <| Link.link_type := x |>) (lua_tunnel_type v))|].
  etransitivity; [by apply (set_opt_lease (fun x link => link <| Link.bandwidth := x |>) (lua_bandwidth v))|].
  destruct o; [|by injection H2 as <-]. apply bind_ok in H2 as ([] & _ & [= <-]). done.
Qed.

Lemma update_both_lease v x : same_lease x (update_both v x).
Proof. unfold update_both. repeat (etransitivity; [|by apply set_opt_lease]). done. Qed.

Lemma reallocate_id_ok l a x id l' y nets ids : reallocate_id l a x id = Ok (l', y) -> is_u16 id ->
  owner_of l (key a) = program_id -> key a = ids_pda -> (Id 0 ∉ ids) -> res_ok l nets (id_lease (Link.tunnel_id x) ++ ids) ->
  quiet l l' /\ res_ok l' nets (id_lease (Link.tunnel_id y) ++ ids) /\ Link.tunnel_net y = Link.tunnel_net x.
Proof.
  unfold reallocate_id. intros H Hid Ho Hk H0 Hres. apply bind_ok in H as (l1 & H1 & H). apply bind_ok in H as (l2 & H2 & [= <- <-]).
  assert (quiet l l1 /\ res_ok l1 nets ids) as [Hq1 Hres1].
  { destruct (Z.eqb_spec (Link.tunnel_id x) 0) as [E|E]; cbn [negb] in H1; [|by eapply release_id].
    injection H1 as <-. rewrite E in Hres. done. }
  cbn [Link.tunnel_id Link.tunnel_net]. destruct (Z.eqb_spec id 0) as [->|E]; cbn [negb] in H2.
  { injection H2 as <-. split; [done|]. split; [exact Hres1|reflexivity]. }
  destruct (claim_specific_id l1 a l2 id nets ids) as [Hq2 Hres2]; [done| |done..|].
  - eapply owner_kept; [done|by right].
  - split; [by etransitivity|]. split; [exact Hres2|reflexivity].
Qed.

Lemma reallocate_net_ok l a x n l' y nets ids : reallocate_net l a x n = Ok (l', y) -> 0 <= net_prefix n <= 32 /\ is_u32 (net_ip n) ->
  owner_of l (key a) = program_id -> key a = block_pda -> res_ok l (net_lease (Link.tunnel_net x) ++ nets) ids ->
  quiet l l' /\ res_ok l' (net_lease (Link.tunnel_net y) ++ nets) ids /\ Link.tunnel_id y = Link.tunnel_id x.
Proof.
  unfold reallocate_net. intros H Hn Ho Hk Hres. apply bind_ok in H as (l1 & H1 & H). apply bind_ok in H as (l2 & H2 & [= <- <-]).
  assert (quiet l l1 /\ res_ok l1 nets ids) as [Hq1 Hres1].
  { destruct (bool_decide_reflect (Link.tunnel_net x = NetworkV4_default)) as [E|E]; cbn [negb] in H1; [|by eapply release_net].
    injection H1 as <-. rewrite E in Hres. done. }
  cbn [Link.tunnel_id Link.tunnel_net]. destruct (bool_decide_reflect (n = NetworkV4_default)) as [E|E]; cbn [negb] in H2.
  { injection H2 as <-. subst n. split; [done|]. split; [exact Hres1|reflexivity]. }
  destruct (claim_specific_net l1 a l2 n nets ids) as [Hq2 Hres2]; [done| |done..|].
  - eapply owner_kept; [done|by left].
  - split; [by etransitivity|]. split; [exact Hres2|reflexivity].
Qed.

Lemma update_tunnel_ok l resources p v x l' y nets ids : update_tunnel find_program_address program_id l resources p v x = Ok (l', y) ->
  wf_update v -> (Id 0 ∉ ids) -> res_ok l (net_lease (Link.tunnel_net x) ++ nets) (id_lease (Link.tunnel_id x) ++ ids) ->
  quiet l l' /\ res_ok l' (net_lease (Link.tunnel_net y) ++ nets) (id_lease (Link.tunnel_id y) ++ ids).
Proof.
  unfold update_tunnel. intros H [Hid Hnet'] H0 Hres. destruct resources as [[block ids_acc]|]; [|by injection H as <- <-].
  apply bind_ok in H as ([] & _ & H). apply bind_ok in H as ([] & Hv & H). apply bind_ok in H as ([l1 x1] & H1 & H2).
  destruct (validate_link_resources_ok _ _ _ Hv) as [[Hob Hkb] [Hoi Hki]].
  assert (quiet l l1 /\ res_ok l1 (net_lease (Link.tunnel_net x1) ++ nets) (id_lease (Link.tunnel_id x1) ++ ids)) as [Hq1 Hres1].
  { destruct (lua_tunnel_id v) as [id|]; [|by injection H1 as <- <-].
    destruct (reallocate_id_ok _ _ _ _ _ _ _ _ H1 (Hid id eq_refl) Hoi Hki H0 Hres) as (Hq & Hres1 & ->). done. }
  destruct (lua_tunnel_net v) as [n|]; [|by injection H2 as <- <-].
  eapply reallocate_net_ok in H2 as (Hq2 & Hres2 & Hi); [|by apply Hnet'| |exact Hkb|exact Hres1].
  - rewrite Hi. split; [by etransitivity|done].
  - eapply owner_kept; [exact Hres1|by left].
Qed.

Lemma update_devices_ok l devices x l' : update_devices program_id l devices x = Ok l' -> undisturbed l l'.
Proof.
  unfold update_devices. intros H. destruct devices as [[a z]|]; [|by injection H as <-]. run_inv H. kinds.
  assert (kinds_kept l l) as K by (by intros ?). plain_writes l K. by etransitivity.
Qed.

Lemma update_topologies_ok l accounts p v x l' y : update_topologies program_id l accounts p v x = Ok (l', y) ->
  undisturbed l l' /\ same_lease x y.
Proof.
  unfold update_topologies. destruct (lua_link_topologies v) as [new|]; [|by intros [= <- <-]]. intros H. run_inv H.
  injection H as <- <-. split; [|done]. etransitivity; by eapply adjust_topologies_ok.
Qed.

Lemma update_drained_lease ca p v x y : update_drained ca p v x = Ok y -> same_lease x y.
Proof.
  unfold update_drained. destruct (lua_unicast_drained v); [|by intros [= <-]]. by intros ([] & _ & [= <-])%bind_ok.
Qed.

Lemma update_links_ok l accounts v l' : process_update_link find_program_address program_id l accounts v = Ok l' ->
  wf_update v -> links_ok l -> links_ok l'.
Proof.
  unfold process_update_link. intros H Hwf Hok. run_inv H.
  match goal with E : try_from as_Link _ ?a = Ok ?x, V : validate_program_account _ _ ?a _ _ = Ok _ |- _ =>
    apply validate_program_account_owner in V; pose proof (link_read _ _ _ E V) as Hx; pose proof (links_ok_split l _ _ Hok Hx) as Hres end.
  match goal with E : (if ?b then update_a v ?x else Ok ?x) = Ok ?y |- _ =>
    assert (same_lease x y) as [Hn1 Hi1] by (destruct b; [by eapply update_a_lease|by injection E as <-]); clear E;
    destruct (update_both_lease v y) as [Hn2 Hi2] end.
  rewrite <- Hn1, <- Hi1, <- Hn2, <- Hi2 in Hres.
  match goal with E : update_tunnel _ _ _ _ _ _ _ = Ok _ |- _ =>
    eapply update_tunnel_ok in E as [Hq Hres2]; [|done|apply zero_not_leased|exact Hres] end.
  match goal with E : update_devices _ _ _ _ = Ok _ |- _ => apply update_devices_ok in E end.
  match goal with E : update_topologies _ _ _ _ _ _ = Ok _ |- _ => apply update_topologies_ok in E as [? [Hn3 Hi3]] end.
  match goal with E : update_drained _ _ _ _ = Ok _ |- _ => apply update_drained_lease in E as [Hn4 Hi4] end.
  settle Hq Hres2. rewrite <- Hn3, <- Hi3, <- Hn4, <- Hi4 in Hres2.
  eapply (links_replaced l); [exact Hx|exact Hq|exact Hres2|exact H].
Qed.

Definition wf_link_transaction (t : link_transaction) : Prop := match t.2 with UpdateLink v => wf_update v | _ => True end.

Lemma link_exec_ok l t : wf_link_transaction t -> links_ok l -> links_ok (link_exec find_program_address program_id l t).
Proof.
  intros Hwf Hok. unfold link_exec. destruct (process_link _ _ l t.1 t.2) as [l'| |] eqn:H; [|done..]. destruct t as [accounts i].
  destruct i; cbn in H, Hwf; [by eapply create_links_ok|by eapply accept_links_ok|by eapply update_links_ok|by eapply delete_links_ok|
    by eapply set_health_links_ok].
Qed.

Lemma link_exec_all_ok l ts : Forall wf_link_transaction ts -> links_ok l -> links_ok (link_exec_all find_program_address program_id l ts).
Proof. intros Hts. revert l. induction Hts as [|t ts Ht Hts IH]; intros l Hl; [done|]. apply IH. by apply link_exec_ok. Qed.

Definition holds_address (n : NetworkV4) (ip : Z) : Prop :=
  net_ip n <= ip < net_ip n + prefix_len_to_address_count (net_prefix n).

Lemma disjoint_nets d ls n m : leases_ok (AllocIp ab) d (Ip n :: Ip m :: ls) -> ~ exists ip, holds_address n ip /\ holds_address m ip.
Proof.
  intros (_ & Hr & _ & Hdis) (ip & Hn & Hm). apply Forall_cons_1 in Hr as [(Hn1 & Hn2 & _) Hr].
  apply Forall_cons_1 in Hr as [(Hm1 & Hm2 & _) _]. apply (Hdis 0%nat 1%nat (Ip n) (Ip m)); [done..|].
  exists (Z.to_nat (ip - net_ip (base_net ab))). unfold holds_address in *. cbn [unit_of]. unfold net_bits, ip_offset, net_count. lia.
Qed.

(** C7. Links never share what they are given. Whatever link instructions are
    executed, from a ledger where the links hold disjoint networks of the
    tunnel block and different numbers, and the bitmaps record exactly what the
    links and the other holders of the block have, this stays so: no address
    is in the networks of two links, the network of a link is in the block,
    and no two links have a number in common, 0 apart. *)
Theorem link_resources_exclusive l ts k1 k2 x y :
  Forall wf_link_transaction ts -> links_ok l ->
  links (link_exec_all find_program_address program_id l ts) !! k1 = Some x ->
  links (link_exec_all find_program_address program_id l ts) !! k2 = Some y -> k1 <> k2 ->
  links_ok (link_exec_all find_program_address program_id l ts) /\
  (Link.tunnel_net x <> NetworkV4_default -> Link.tunnel_net y <> NetworkV4_default ->
   in_allocator ab (Link.tunnel_net x) /\ ~ exists ip, holds_address (Link.tunnel_net x) ip /\ holds_address (Link.tunnel_net y) ip) /\
  (Link.tunnel_id x <> 0 -> Link.tunnel_id x <> Link.tunnel_id y).
Proof.
  intros Hts Hl Hx Hy Hne. pose proof (link_exec_all_ok l ts Hts Hl) as Hok. split; [done|].
  revert Hok Hx Hy. generalize (link_exec_all find_program_address program_id l ts). clear l ts Hts Hl. intros l Hok Hx Hy.
  assert (delete k1 (links l) !! k2 = Some y) as Hy' by (by rewrite lookup_delete_ne).
  pose proof (links_ok_split _ _ _ Hok Hx) as (_ & bd & idd & z & _ & _ & _ & Hb & Hi).
  unfold nets_of, ids_of in Hb, Hi. rewrite (leased_delete _ _ _ _ Hy') in Hb. rewrite (leased_delete _ _ _ _ Hy') in Hi. split.
  - intros Hnx Hny. unfold net_lease in Hb at 1 2. rewrite !bool_decide_false in Hb by done. cbn [app] in Hb.
    split; [|by eapply disjoint_nets]. destruct Hb as (_ & Hr & _). by apply Forall_cons_1 in Hr as [Hr _].
  - intros Hnx Heq. unfold id_lease in Hi at 1 2. rewrite <- Heq, !(proj2 (Z.eqb_neq _ _) Hnx) in Hi. cbn [app] in Hi.
    destruct Hi as (_ & Hr & _ & Hdis). apply (Hdis (length z) (S (length z)) (Id (Link.tunnel_id x)) (Id (Link.tunnel_id x))).
    + by rewrite lookup_app_r, Nat.sub_diag by lia.
    + rewrite lookup_app_r by lia. by replace (S (length z) - length z)%nat with 1%nat by lia.
    + lia.
    + apply Forall_app in Hr as [_ Hr]. apply Forall_cons_1 in Hr as [Hr _]. cbn in Hr.
      exists (Z.to_nat (Link.tunnel_id x - range_0 ai)). cbn. lia.
Qed.

(** ** Deleted requests *)

(** The lowest free number is 0. *)
Lemma allocate_zero d ids : leases_ok (AllocId ai) d ids -> (Id 0 ∉ ids) -> range_0 ai = 0 -> exists d', allocate_id d = Ok (d', 0).
Proof.
  intros (He & _ & Hbits & _) H0 Hr0. destruct (inplace_from_ok _ _ He) as (r & Hin & Ha & Hst).
  pose proof He as (_ & _ & _ & _ & Hok). assert (bit (storage d) 0 = false) as Hfree.
  { apply not_true_iff_false. intros (v & Hv & Hu)%Hbits. destruct v as [n|w]; [done|]. cbn in Hu. replace w with 0 in Hv by lia. done. }
  unfold allocate_id, allocate. rewrite Hin. cbn [mbind R_bind res_bind]. rewrite Ha, Hst. cbn [assert_that Nat.eqb mbind R_bind res_bind].
  pose proof Hok as (Hrange & _). destruct (id_allocate_spec ai (storage d) Hok) as (a' & bm' & o & -> & _ & _ & Ho). destruct o as [id|].
  - destruct Ho as (k & -> & _ & _ & Hbefore & _). destruct k as [|k]; [|by rewrite Hbefore in Hfree by lia].
    eexists. cbn. by rewrite Hr0.
  - destruct Ho as [_ Ho]. rewrite Ho in Hfree by lia. done.
Qed.

Lemma release_zero l x block ids_acc l' nets ids :
  validate_and_deallocate_link_resources find_program_address program_id l x block ids_acc = Ok l' -> Link.tunnel_id x = 0 ->
  (Id 0 ∉ ids) -> res_ok l (net_lease (Link.tunnel_net x) ++ nets) ids ->
  exists d, resource_at l' ids_pda = Some d /\ leases_ok (AllocId ai) d ids.
Proof.
  unfold validate_and_deallocate_link_resources. intros H Hid H0 Hres. apply bind_ok in H as ([] & Hv & H).
  destruct (validate_link_resources_ok _ _ _ Hv) as [[Hob Hkb] [_ Hki]]. apply bind_ok in H as (l1 & H1 & H2).
  destruct (release_net _ _ _ _ _ _ H1 Hob Hkb Hres) as [_ Hres1]. rewrite Hid in H2.
  assert (owner_of l1 (key ids_acc) = program_id) as Ho by (eapply owner_kept; [done|by right]).
  destruct (release_ok _ _ _ _ H2 Ho) as (d & d' & b & Hd & Hf & _ & Hr); [rewrite Hki; by eapply ids_read|].
  destruct (resource_read _ _ _ _ _ Hres1 Hd) as [_ Hls]. destruct (Hls Hki) as (z & Hz & Hls1).
  exists d'. rewrite Hr, decide_True by done. split; [done|]. by eapply deallocate_zero.
Qed.

(** C36. Deleting a request harms other links. When a link is deleted that is
    on an interface at side A which another link names too, which creation allows
    as the witness shows, the other link keeps its state, activated or not, while the
    interface is unlinked and has no address (unless it has an edge assignment).
    If the deleted link had no number, as one that was requested and not
    accepted, its number 0 is returned: the next link gets number 0, also if
    another link has it. The link has different devices at its sides, and the
    numbers start at 0. *)
Theorem deleted_request_harms_link l accounts b l' link x k y d idx i :
  links_ok l -> process_link find_program_address program_id l accounts (DeleteLink b) = Ok l' ->
  head accounts = Some link -> links l !! key link = Some x -> Link.side_a_pk x <> Link.side_z_pk x ->
  links l !! k = Some y -> k <> key link ->
  Link.side_a_pk y = Link.side_a_pk x -> Link.side_a_iface_name y = Link.side_a_iface_name x ->
  content_of l (Link.side_a_pk x) = Some (CDevice d) -> Device.find_interface d (Link.side_a_iface_name x) = Some (idx, i) ->
  links l' !! k = Some y /\
  (exists d' i', content_of l' (Link.side_a_pk y) = Some (CDevice d') /\ Device.find_interface d' (Link.side_a_iface_name y) = Some (idx, i') /\
    Interface.status i' = IfUnlinked /\ (has_edge i = false -> Interface.ip_net i' = NetworkV4_default)) /\
  (Link.tunnel_id x = 0 -> range_0 ai = 0 -> exists data data', resource_at l' ids_pda = Some data /\ allocate_id data = Ok (data', 0)).
Proof.
  intros Hok H Hh Hx Hne Hy Hk Hpk Hname Hd Hi. rewrite Hpk, Hname.
  destruct (delete_trace _ _ _ _ H Hok) as (a & x' & block & ids & l1 & l2 & Ha & Hx' & Hdeal & Hu & Hc & Hside).
  rewrite Hh in Ha. injection Ha as <-. rewrite Hx in Hx'. injection Hx' as <-. pose proof (links_ok_split _ _ _ Hok Hx) as Hres.
  destruct (deallocate_link_ok _ _ _ _ _ _ _ Hdeal (zero_not_leased _) Hres) as [[_ Hl] _].
  pose proof Hu as (_ & Hl2 & Hr2). destruct (close_link _ _ _ Hc) as [Hl' Hr']; [rewrite Hl2, Hl; eauto|].
  split; [by rewrite Hl', Hl2, Hl, lookup_delete_ne|]. split.
  - destruct (Hside Hne d Hd) as [n Hd2]. exists ((unlink_named d (Link.side_a_iface_name x)) <| Device.reference_count := n |>), (unlink_iface i).
    split_and!; [|by apply unlink_found|unfold unlink_iface; by case_match|].
    + unfold try_acc_close in Hc. inv_ok. unfold content_of in *. rewrite lookup_delete_ne; [done|]. intros E.
      rewrite links_lookup, E in Hx. destruct (l !! Link.side_a_pk x) as [[o c]|]; [|done]. injection Hd as ->. done.
    + intros He. unfold unlink_iface. replace (has_edge _) with (has_edge i) by done. by rewrite He, andb_false_r.
  - intros Hid Hr0. unfold id_lease in Hres. rewrite Hid in Hres.
    destruct (release_zero _ _ _ _ _ _ _ Hdeal Hid (zero_not_leased _) Hres) as (data & Hdata & Hls).
    destruct (allocate_zero _ _ Hls (zero_not_leased _) Hr0) as [data' Hnext]. exists data, data'. by rewrite Hr', Hr2.
Qed.
End LinkLeases.

(** ** A network *)

Module LinkSample.
Import ExactNetwork.
#[local] Instance ascii_only : Unicode := fun _ => false.
#[local] Existing Instance exact_network.
Definition find_program_address (seeds : list bytes) (program : Pubkey) : Pubkey * Z := (mjoin seeds ++ program, 255).
Definition program_id : Pubkey := lit "serviceability".
Definition block_pda : Pubkey := (get_resource_extension_pda find_program_address program_id DeviceTunnelBlock).1.
Definition ids_pda : Pubkey := (get_resource_extension_pda find_program_address program_id LinkIds).1.
Definition topology_pda : Pubkey := (get_unicast_default_pda find_program_address program_id).1.
Definition globalstate_pda : Pubkey := (get_globalstate_pda find_program_address program_id).1.
Definition link_pda (i : Z) : Pubkey := (get_link_pda find_program_address program_id i).1.

Definition created (range : ResourceExtensionRange) : bytes :=
  match construct_resource (replicate (size range) 0) Pubkey_default 255 Pubkey_default range with Ok d => d | _ => [] end.

Definition iface (name : list Z) : Interface.t :=
  Interface.mk IfUnlinked name TypePhysical CYOANone DIANone 0 100000000000 0 9000 0 0 NetworkV4_default 0 false [].
Definition device (code : list Z) : Device.t :=
  Device.mk (lit "contributor") 1 255 (lit "location") (lit "exchange") Hybrid (ipv4 195 219 120 1) 1 code [mkNet (ipv4 195 219 121 0) 24]
    (lit "publisher") (lit "con") [] 0 0 0 0 0 0 0 0 0 0 0 0 [iface (lit "Ethernet1"); iface (lit "Ethernet2")].
Definition genuine : GlobalState :=
  mkGlobalState 255 7 [lit "foundation"] [] [] Pubkey_default Pubkey_default 0 0 Pubkey_default [] 0 Pubkey_default.
Definition state : ledger :=
  <[block_pda := mkAccount program_id (CResource (created (IpBlock block 2)))]>
    (<[ids_pda := mkAccount program_id (CResource (created (IdRange 0 65535)))]>
    (<[globalstate_pda := mkAccount program_id (CGlobalState genuine)]>
    (<[lit "con" := mkAccount program_id (CContributor (Contributor.mk (lit "contributor") 2 255 ContributorActivated (lit "co") 0 Pubkey_default))]>
    (<[lit "dev-a" := mkAccount program_id (CDevice (device (lit "a")))]>
    {[ lit "dev-z" := mkAccount program_id (CDevice (device (lit "z"))) ]})))).

Definition create (index : Z) (type : LinkLinkType) (a : list Z) (z : option (list Z)) : link_transaction :=
  ([acct (link_pda index); acct (lit "con"); acct (lit "dev-a"); acct (lit "dev-z"); acct globalstate_pda; acct topology_pda;
    acct block_pda; acct ids_pda; signer (lit "contributor"); acct SYSTEM_PROGRAM_ID],
   CreateLink (mkLinkCreateArgs (lit "link") type 10000000000 9000 1000000 1000000 a z None true)).
Definition remove (index : Z) : link_transaction :=
  ([acct (link_pda index); acct (lit "con"); acct globalstate_pda; acct (lit "dev-a"); acct (lit "dev-z"); acct block_pda; acct ids_pda;
    acct (lit "contributor"); signer (lit "contributor"); acct SYSTEM_PROGRAM_ID], DeleteLink true).

(** A link between the first interfaces; a second one, to another
    contributor, is requested on the same interface of device A and deleted
    before it is accepted; then a link between the second interfaces. *)
Definition history : list link_transaction :=
  [create 8 WAN (lit "Ethernet1") (Some (lit "Ethernet1")); create 9 DZX (lit "Ethernet1") None; remove 9;
   create 10 WAN (lit "Ethernet2") (Some (lit "Ethernet2"))].
Definition final : ledger := link_exec_all find_program_address program_id state history.
End LinkSample.

Lemma sample_links_ok :
  links_ok LinkSample.find_program_address LinkSample.program_id
    (mkIpAllocator ExactNetwork.block 0) (mkIdAllocator 0 65535 0) [] LinkSample.state.
Proof.
  assert (key_ok Pubkey_default) as Hk by (split; [reflexivity|apply bytes_ok_zeros]).
  assert (valid_range (IpBlock ExactNetwork.block 2)) as Hb.
  { split; [cbn; lia|]. split; [cbn; lia|]. split; [vm_compute; discriminate|]. exists 11276288. reflexivity. }
  assert (valid_range (IdRange 0 65535)) as Hi by (cbn; lia).
  destruct (new_resource Pubkey_default 255 Pubkey_default _ Hb Hk Hk) as (bd & Hbd & Hlb); [by unfold is_u|].
  destruct (new_resource Pubkey_default 255 Pubkey_default _ Hi Hk Hk) as (idd & Hid & Hli); [by unfold is_u|].
  assert (links LinkSample.program_id LinkSample.state = ∅) as Hl by (vm_compute; reflexivity).
  unfold links_ok. rewrite Hl. split; [apply zero_not_leased|]. exists bd, idd, []. split; [|split; [|split; [by left|split; [exact Hlb|exact Hli]]]].
  - transitivity (Some (LinkSample.created (IpBlock ExactNetwork.block 2))); [vm_compute; reflexivity|].
    unfold LinkSample.created. by rewrite Hbd.
  - transitivity (Some (LinkSample.created (IdRange 0 65535))); [vm_compute; reflexivity|].
    unfold LinkSample.created. by rewrite Hid.
Qed.


Lemma link_resources_exclusive_witness :
  exists x y, links LinkSample.program_id LinkSample.final !! LinkSample.link_pda 8 = Some x /\
    links LinkSample.program_id LinkSample.final !! LinkSample.link_pda 10 = Some y /\
    ~ exists ip, holds_address (Link.tunnel_net x) ip /\ holds_address (Link.tunnel_net y) ip.
Proof.
  destruct (links LinkSample.program_id LinkSample.final !! LinkSample.link_pda 8) as [x|] eqn:Hx; [|vm_compute in Hx; discriminate].
  destruct (links LinkSample.program_id LinkSample.final !! LinkSample.link_pda 10) as [y|] eqn:Hy; [|vm_compute in Hy; discriminate].
  exists x, y. split; [done|]. split; [done|].
  apply (link_resources_exclusive (Hnet := ExactNetwork.exact_network) (Huni := LinkSample.ascii_only)
    LinkSample.find_program_address LinkSample.program_id (mkIpAllocator ExactNetwork.block 0) (mkIdAllocator 0 65535 0) []
    LinkSample.state LinkSample.history (LinkSample.link_pda 8) (LinkSample.link_pda 10));
    [by repeat constructor|apply sample_links_ok|exact Hx|exact Hy|discriminate|
     vm_compute in Hx; injection Hx as <-; discriminate|vm_compute in Hy; injection Hy as <-; discriminate].
Defined.

(** A link between the first interfaces, and a request on the same interface of
    device A that is deleted. *)
Lemma deleted_request_harms_link_witness :
  exists l l' y d i, LinkSample.history !! 2%nat = Some (LinkSample.remove 9) /\
    l = link_exec_all (Hnet := ExactNetwork.exact_network) (Huni := LinkSample.ascii_only)
      LinkSample.find_program_address LinkSample.program_id LinkSample.state (take 2 LinkSample.history) /\
    process_link (Hnet := ExactNetwork.exact_network) (Huni := LinkSample.ascii_only)
      LinkSample.find_program_address LinkSample.program_id l (LinkSample.remove 9).1 (DeleteLink true) = Ok l' /\
    links LinkSample.program_id l' !! LinkSample.link_pda 8 = Some y /\ Link.status y = LkActivated /\ Link.tunnel_id y = 0 /\
    content_of l' (Link.side_a_pk y) = Some (CDevice d) /\ Device.find_interface d (Link.side_a_iface_name y) = Some i /\
    Interface.status i.2 = IfUnlinked /\ Interface.ip_net i.2 = NetworkV4_default.
Proof.
  set (l := link_exec_all (Hnet := ExactNetwork.exact_network) (Huni := LinkSample.ascii_only)
      LinkSample.find_program_address LinkSample.program_id LinkSample.state (take 2 LinkSample.history)).
  destruct (process_link (Hnet := ExactNetwork.exact_network) (Huni := LinkSample.ascii_only)
      LinkSample.find_program_address LinkSample.program_id l (LinkSample.remove 9).1 (DeleteLink true)) as [l'|e|] eqn:Hl';
    [|vm_compute in Hl'; discriminate..].
  destruct (links LinkSample.program_id l !! LinkSample.link_pda 9) as [x|] eqn:Hx; [|vm_compute in Hx; discriminate].
  destruct (links LinkSample.program_id l !! LinkSample.link_pda 8) as [y|] eqn:Hy; [|vm_compute in Hy; discriminate].
  assert (exists d, content_of l (lit "dev-a") = Some (CDevice d)) as [d Hd] by (vm_compute; eexists; reflexivity).
  destruct (Device.find_interface d (lit "Ethernet1")) as [[idx i]|] eqn:Hi;
    [|vm_compute in Hd; injection Hd as <-; vm_compute in Hi; discriminate].
  destruct (deleted_request_harms_link (Hnet := ExactNetwork.exact_network) (Huni := LinkSample.ascii_only)
    LinkSample.find_program_address LinkSample.program_id (mkIpAllocator ExactNetwork.block 0) (mkIdAllocator 0 65535 0) []
    l (LinkSample.remove 9).1 true l' (acct (LinkSample.link_pda 9)) x (LinkSample.link_pda 8) y d idx i)
    as (H1 & (d' & i' & H2 & H3 & H4 & H5) & _).
  - apply link_exec_all_ok; [by repeat constructor|apply sample_links_ok].
  - exact Hl'.
  - reflexivity.
  - exact Hx.
  - vm_compute in Hx. injection Hx as <-. discriminate.
  - exact Hy.
  - discriminate.
  - vm_compute in Hx, Hy. injection Hx as <-. injection Hy as <-. reflexivity.
  - vm_compute in Hx, Hy. injection Hx as <-. injection Hy as <-. reflexivity.
  - vm_compute in Hx. injection Hx as <-. exact Hd.
  - vm_compute in Hx. injection Hx as <-. exact Hi.
  - exists l, l', y, d', (idx, i'). split_and!; [reflexivity|reflexivity|exact Hl'|exact H1|..|exact H2|exact H3|exact H4|].
    + vm_compute in Hy. by injection Hy as <-.
    + vm_compute in Hy. by injection Hy as <-.
    + apply H5. vm_compute in Hd. injection Hd as <-. vm_compute in Hi. by injection Hi as <- <-.
Defined.
