(* ===== verification/TelemetryAccounts.v ===== *)
(** * Telemetry accounts

    Models the accounts that hold latency samples: the headers and samples of
    [smartcontract/programs/doublezero-telemetry/src/state], which the
    on-chain program writes, and their Go readers in [state.go] and
    [state_v0.go] of [smartcontract/sdk/go/telemetry]. Both sides encode a
    struct as Borsh does: the fields in order, integers in little-endian, a
    string behind its length. *)

From stdpp Require Import base tactics numbers list.
From Stdlib Require Import ZArith Lia ZifyBool ZifyNat.
From S2P Require Import Prelude Bytes ByteReader BorshIncremental.

#[local] Open Scope Z_scope.

(** ** Exact readers

    [reads m x v]: where the data goes on with [x], [m] takes exactly [x] and
    returns [v]. *)

Definition reads {A : Type} (m : Borsh.SR A) (x : bytes) (v : A) : Prop :=
  forall d o rest, (o <= length d)%nat -> drop o d = x ++ rest -> m d o = (Some v, (o + length x)%nat).

Lemma reads_rest (d x rest : bytes) o : (o <= length d)%nat -> drop o d = x ++ rest ->
  (o + length x <= length d)%nat /\ drop (o + length x) d = rest.
Proof.
  intros Ho Hd. split.
  - apply (f_equal length) in Hd. rewrite length_drop, length_app in Hd. lia.
  - by rewrite <- drop_drop, Hd, drop_app_length.
Qed.

Lemma sr_start {A : Type} (m : Borsh.SR A) x v rest : reads m x v -> m (x ++ rest) 0%nat = (Some v, length x).
Proof. intros H. exact (H (x ++ rest) 0%nat rest (Nat.le_0_l _) eq_refl). Qed.

Lemma sr_ret {A : Type} (v : A) : reads (mret v) [] v.
Proof. intros d o rest _ _. unfold mret, Borsh.SR_ret. cbn [length]. by rewrite Nat.add_0_r. Qed.

Lemma sr_bind {A B : Type} (m : Borsh.SR A) (k : A -> Borsh.SR B) x y v w :
  reads m x v -> reads (k v) y w -> reads (m ≫= k) (x ++ y) w.
Proof.
  intros Hm Hk d o rest Ho Hd. rewrite <- app_assoc in Hd. unfold mbind, Borsh.SR_bind. rewrite (Hm d o _ Ho Hd).
  apply reads_rest in Hd as [Ho' Hd]; [|done]. rewrite (Hk _ _ _ Ho' Hd). by rewrite length_app, Nat.add_assoc.
Qed.

Lemma reads_last {A B : Type} (m : Borsh.SR A) (f : A -> B) x v : reads m x v -> reads (y ← m; mret (f y)) x (f v).
Proof. intros H. rewrite <- (app_nil_r x). eapply sr_bind; [exact H|apply sr_ret]. Qed.

Lemma reads_exact {A : Type} n (conv : bytes -> A) x v : length x = n -> conv x = v -> reads (Borsh.read_exact n conv) x v.
Proof.
  intros <- <- d o rest Ho Hd. unfold Borsh.read_exact, slice.
  destruct (Nat.ltb_spec (length d) (o + length x)) as [Hlt|_];
    [apply reads_rest in Hd as [? _]; [lia|done]|].
  replace (o + length x - o)%nat with (length x) by lia. by rewrite Hd, take_app_length.
Qed.

Lemma reads_times {A : Type} (m : Borsh.SR A) (f : A -> bytes) vs : Forall (fun v => reads m (f v) v) vs ->
  reads (Borsh.read_times (length vs) m) (concat (f <$> vs)) vs.
Proof.
  induction 1 as [|v vs Hv _ IH]; cbn; [apply sr_ret|].
  eapply sr_bind; [exact Hv|]. apply (reads_last _ (cons v)), IH.
Qed.

Lemma reads_U8 v : reads Borsh.ReadU8 [v] v.
Proof. apply reads_exact; [done|]. cbn. lia. Qed.

Lemma reads_U32 v : is_u32 v -> reads Borsh.ReadU32 (le_bytes 4 v) v.
Proof. intros. apply reads_exact; [apply length_le_bytes|by apply le_round]. Qed.

Lemma reads_U64 v : is_u64 v -> reads Borsh.ReadU64 (le_bytes 8 v) v.
Proof. intros. apply reads_exact; [apply length_le_bytes|by apply le_round]. Qed.

Lemma reads_Bytes n x : length x = n -> reads (Borsh.ReadBytes n) x x.
Proof. intros. by apply reads_exact. Qed.

Lemma reads_Pubkey x : length x = 32%nat -> reads Borsh.ReadPubkey x x.
Proof. apply reads_Bytes. Qed.

Lemma reads_String x : is_u32 (Z.of_nat (length x)) -> reads Borsh.ReadString (le_bytes 4 (Z.of_nat (length x)) ++ x) x.
Proof.
  intros Hx. unfold Borsh.ReadString. eapply sr_bind; [by apply reads_U32|].
  destruct (Z.eqb_spec (Z.of_nat (length x)) 0) as [Hz|_]; [destruct x; [apply sr_ret|done]|].
  apply reads_Bytes. lia.
Qed.

Create HintDb reads.
#[export] Hint Resolve sr_ret reads_U8 reads_U32 reads_U64 reads_Pubkey reads_Bytes reads_String : reads.

(** Read the fields of a record one by one. *)
Ltac read_fields := repeat (eapply sr_bind; [solve [eauto with reads]|]); refine (reads_last _ _ _ _ _); eauto with reads.

(** ** UTF-8: [String::from_utf8] *)

Definition utf8_cont (lo hi c : Z) : bool := (lo <=? c) && (c <=? hi).

Fixpoint utf8_valid (s : bytes) : bool :=
  match s with
  | [] => true
  | a :: s =>
      if a <? 128 then utf8_valid s
      else
        match s with
        | [] => false
        | b :: s =>
            if utf8_cont 194 223 a then utf8_cont 128 191 b && utf8_valid s
            else
              match s with
              | [] => false
              | c :: s =>
                  let lo := if a =? 224 then 160 else if a =? 240 then 144 else 128 in
                  let hi := if a =? 237 then 159 else if a =? 244 then 143 else 191 in
                  if utf8_cont 224 239 a then utf8_cont lo hi b && utf8_cont 128 191 c && utf8_valid s
                  else
                    match s with
                    | [] => false
                    | d :: s =>
                        utf8_cont 240 244 a && utf8_cont lo hi b && utf8_cont 128 191 c && utf8_cont 128 191 d && utf8_valid s
                    end
              end
        end
  end.

(** ** Account types *)

Definition AccountTypeDeviceLatencySamplesV0 : Z := 1.
Definition AccountTypeInternetLatencySamplesV0 : Z := 2.
Definition AccountTypeDeviceLatencySamples : Z := 3.
Definition AccountTypeInternetLatencySamples : Z := 4.

(** The Rust enum reads no other value. *)
Definition AccountType_deserialize : Borsh.SR Z :=
  t ← Borsh.ReadU8; if (1 <=? t) && (t <=? 4) then mret t else Borsh.fail.

Lemma reads_AccountType t : 1 <= t <= 4 -> reads AccountType_deserialize [t] t.
Proof.
  intros Ht. unfold AccountType_deserialize. rewrite <- (app_nil_r [t]). eapply sr_bind; [apply reads_U8|].
  rewrite (proj2 (andb_true_iff _ _)) by lia. apply sr_ret.
Qed.

Definition MAX_DEVICE_LATENCY_SAMPLES : Z := 35000.
Definition MAX_INTERNET_LATENCY_SAMPLES : Z := 3000.
Definition MAX_DATA_PROVIDER_NAME_BYTES : nat := 32.

(** The samples behind a header. *)
Definition samples_bytes (samples : list Z) : bytes := concat (le_bytes 4 <$> samples).

Lemma length_samples_bytes samples : length (samples_bytes samples) = (4 * length samples)%nat.
Proof.
  unfold samples_bytes. induction samples as [|s samples IH]; [done|]. cbn [fmap list_fmap concat length].
  rewrite length_app, length_le_bytes, IH. lia.
Qed.

Lemma reads_samples samples : Forall is_u32 samples ->
  reads (Borsh.read_times (length samples) Borsh.ReadU32) (samples_bytes samples) samples.
Proof. intros H. apply reads_times. eapply Forall_impl; [exact H|]. eauto with reads. Qed.

(** ** Device samples *)

(** The header, as both sides declare it. *)
Module DeviceHeader.
Record t := mk {
  account_type : Z;
  epoch : Z;
  origin_device_agent_pk : bytes;
  origin_device_pk : bytes;
  target_device_pk : bytes;
  origin_device_location_pk : bytes;
  target_device_location_pk : bytes;
  link_pk : bytes;
  sampling_interval_microseconds : Z;
  start_timestamp_microseconds : Z;
  next_sample_index : Z;
  agent_version : bytes;
  agent_commit : bytes;
  unused : bytes
}.
#[global] Instance eta : RecordEta t := {
  eta_record := fun r => mk (account_type r) (epoch r) (origin_device_agent_pk r) (origin_device_pk r) (target_device_pk r)
    (origin_device_location_pk r) (target_device_location_pk r) (link_pk r) (sampling_interval_microseconds r)
    (start_timestamp_microseconds r) (next_sample_index r) (agent_version r) (agent_commit r) (unused r);
  eta_record_id := fun r => match r with mk _ _ _ _ _ _ _ _ _ _ _ _ _ _ => eq_refl end
}.

Definition HEADER_SIZE : nat := 1 + 8 + 32 + 32 + 32 + 32 + 32 + 32 + 8 + 8 + 4 + 16 + 8 + 104.

Definition serialize (h : t) : bytes :=
  [account_type h] ++ le_bytes 8 (epoch h) ++ origin_device_agent_pk h ++ origin_device_pk h ++ target_device_pk h ++
  origin_device_location_pk h ++ target_device_location_pk h ++ link_pk h ++ le_bytes 8 (sampling_interval_microseconds h) ++
  le_bytes 8 (start_timestamp_microseconds h) ++ le_bytes 4 (next_sample_index h) ++ agent_version h ++ agent_commit h ++
  unused h.

(** The fields behind the account type. *)
Definition fields (account_type : Z) : Borsh.SR t :=
  epoch ← Borsh.ReadU64;
  agent ← Borsh.ReadPubkey;
  origin ← Borsh.ReadPubkey;
  target ← Borsh.ReadPubkey;
  origin_location ← Borsh.ReadPubkey;
  target_location ← Borsh.ReadPubkey;
  link ← Borsh.ReadPubkey;
  interval ← Borsh.ReadU64;
  start ← Borsh.ReadU64;
  next ← Borsh.ReadU32;
  version ← Borsh.ReadBytes 16;
  commit ← Borsh.ReadBytes 8;
  unused ← Borsh.ReadBytes 104;
  mret (mk account_type epoch agent origin target origin_location target_location link interval start next version commit
    unused).

(** [deserialize_reader] of Rust, and the decoder of Go. *)
Definition deserialize : Borsh.SR t := t ← AccountType_deserialize; fields t.
Definition Decode : Borsh.SR t := t ← Borsh.ReadU8; fields t.

(** [TryFrom<&[u8]>] *)
Definition try_from (data : bytes) : option t :=
  if (length data <? HEADER_SIZE)%nat then None else (deserialize data 0%nat).1.

(** The ranges of the fields. *)
Record wf (h : t) : Prop := mk_wf {
  wf_epoch : is_u64 (epoch h);
  wf_agent : length (origin_device_agent_pk h) = 32%nat;
  wf_origin : length (origin_device_pk h) = 32%nat;
  wf_target : length (target_device_pk h) = 32%nat;
  wf_origin_location : length (origin_device_location_pk h) = 32%nat;
  wf_target_location : length (target_device_location_pk h) = 32%nat;
  wf_link : length (link_pk h) = 32%nat;
  wf_interval : is_u64 (sampling_interval_microseconds h);
  wf_start : is_u64 (start_timestamp_microseconds h);
  wf_next : is_u32 (next_sample_index h);
  wf_version : length (agent_version h) = 16%nat;
  wf_commit : length (agent_commit h) = 8%nat;
  wf_unused : length (unused h) = 104%nat
}.

Lemma device_reads_fields h : wf h -> reads (fields (account_type h)) (tail (serialize h)) h.
Proof.
  intros []. destruct h. unfold serialize, fields. cbn -[le_bytes is_u] in *. read_fields.
Qed.

Lemma device_reads_Decode h : wf h -> reads Decode (serialize h) h.
Proof.
  intros H%device_reads_fields. change (serialize h) with ([account_type h] ++ tail (serialize h)).
  eapply sr_bind; [apply reads_U8|done].
Qed.

Lemma device_reads_deserialize h : wf h -> 1 <= account_type h <= 4 -> reads deserialize (serialize h) h.
Proof.
  intros H%device_reads_fields Ht. change (serialize h) with ([account_type h] ++ tail (serialize h)).
  eapply sr_bind; [by apply reads_AccountType|done].
Qed.

Lemma device_length_serialize h : wf h -> length (serialize h) = HEADER_SIZE.
Proof. intros []. unfold serialize. by rewrite !length_app, !length_le_bytes; cbn; lia. Qed.
End DeviceHeader.

(** Errors of the Go readers. *)
Inductive des_error := DecodeFailed | TooManySamples (next : Z).

Definition decoded {A : Type} (r : option A * nat) : res des_error (A * nat) :=
  match r with (Some a, o) => Ok (a, o) | (None, _) => Err DecodeFailed end.

(** [for i := 0; i < int(next); i++ { dec.Decode(&samples[i]) }] after the
    check of the limit. *)
Definition decode_samples (limit next : Z) (data : bytes) (o : nat) : res des_error (list Z) :=
  if limit <? next then Err (TooManySamples next)
  else '(samples, _) ← decoded (Borsh.read_times (Z.to_nat next) Borsh.ReadU32 data o); Ok samples.

Definition MaxDeviceLatencySamplesPerAccount : Z := 35000.
Definition MaxInternetLatencySamplesPerAccount : Z := 3000.

Module DeviceSamples.
Record t := mk { header : DeviceHeader.t; samples : list Z }.

Definition serialize (d : t) : bytes := DeviceHeader.serialize (header d) ++ samples_bytes (samples d).

(** Rust: [deserialize_reader], and [borsh::from_slice], which takes all of
    the data. *)
Definition deserialize_reader : Borsh.SR t :=
  header ← DeviceHeader.deserialize;
  samples ← Borsh.read_times (Z.to_nat (DeviceHeader.next_sample_index header)) Borsh.ReadU32;
  mret (mk header samples).
Definition try_from (data : bytes) : option t :=
  match deserialize_reader data 0%nat with
  | (Some d, o) => if (o =? length data)%nat then Some d else None
  | (None, _) => None
  end.

Definition size (d : t) : nat := DeviceHeader.HEADER_SIZE + length (samples d) * 4.
Definition owner (d : t) : bytes := DeviceHeader.origin_device_agent_pk (header d).

(** Go *)
Definition Deserialize (data : bytes) : res des_error t :=
  '(header, o) ← decoded (DeviceHeader.Decode data 0%nat);
  samples ← decode_samples MaxDeviceLatencySamplesPerAccount (DeviceHeader.next_sample_index header) data o;
  Ok (mk header samples).

Record wf (d : t) : Prop := mk_wf {
  wf_header : DeviceHeader.wf (header d);
  wf_samples : Forall is_u32 (samples d);
  wf_count : DeviceHeader.next_sample_index (header d) = Z.of_nat (length (samples d))
}.
End DeviceSamples.

(** The layout before the agent's version was recorded. *)
Module DeviceHeaderV0.
Record t := mk {
  AccountType : Z;
  BumpSeed : Z;
  Epoch : Z;
  OriginDeviceAgentPK : bytes;
  OriginDevicePK : bytes;
  TargetDevicePK : bytes;
  OriginDeviceLocationPK : bytes;
  TargetDeviceLocationPK : bytes;
  LinkPK : bytes;
  SamplingIntervalMicroseconds : Z;
  StartTimestampMicroseconds : Z;
  NextSampleIndex : Z;
  Unused : bytes
}.

Definition Encode (h : t) : bytes :=
  [AccountType h] ++ [BumpSeed h] ++ le_bytes 8 (Epoch h) ++ OriginDeviceAgentPK h ++ OriginDevicePK h ++ TargetDevicePK h ++
  OriginDeviceLocationPK h ++ TargetDeviceLocationPK h ++ LinkPK h ++ le_bytes 8 (SamplingIntervalMicroseconds h) ++
  le_bytes 8 (StartTimestampMicroseconds h) ++ le_bytes 4 (NextSampleIndex h) ++ Unused h.

Definition Decode : Borsh.SR t :=
  account_type ← Borsh.ReadU8;
  bump_seed ← Borsh.ReadU8;
  epoch ← Borsh.ReadU64;
  agent ← Borsh.ReadPubkey;
  origin ← Borsh.ReadPubkey;
  target ← Borsh.ReadPubkey;
  origin_location ← Borsh.ReadPubkey;
  target_location ← Borsh.ReadPubkey;
  link ← Borsh.ReadPubkey;
  interval ← Borsh.ReadU64;
  start ← Borsh.ReadU64;
  next ← Borsh.ReadU32;
  unused ← Borsh.ReadBytes 128;
  mret (mk account_type bump_seed epoch agent origin target origin_location target_location link interval start next unused).

Definition ToV1Header (d : t) : DeviceHeader.t :=
  DeviceHeader.mk AccountTypeDeviceLatencySamples (Epoch d) (OriginDeviceAgentPK d) (OriginDevicePK d) (TargetDevicePK d)
    (OriginDeviceLocationPK d) (TargetDeviceLocationPK d) (LinkPK d) (SamplingIntervalMicroseconds d)
    (StartTimestampMicroseconds d) (NextSampleIndex d) (slice (Unused d) 0 16) (slice (Unused d) 16 24)
    (slice (Unused d) 24 128).

Record wf (h : t) : Prop := mk_wf {
  wf_epoch : is_u64 (Epoch h);
  wf_agent : length (OriginDeviceAgentPK h) = 32%nat;
  wf_origin : length (OriginDevicePK h) = 32%nat;
  wf_target : length (TargetDevicePK h) = 32%nat;
  wf_origin_location : length (OriginDeviceLocationPK h) = 32%nat;
  wf_target_location : length (TargetDeviceLocationPK h) = 32%nat;
  wf_link : length (LinkPK h) = 32%nat;
  wf_interval : is_u64 (SamplingIntervalMicroseconds h);
  wf_start : is_u64 (StartTimestampMicroseconds h);
  wf_next : is_u32 (NextSampleIndex h);
  wf_unused : length (Unused h) = 128%nat
}.

Lemma v0_reads_Decode h : wf h -> reads Decode (Encode h) h.
Proof. intros []. destruct h. unfold Encode, Decode. cbn -[le_bytes is_u app] in *. read_fields. Qed.
End DeviceHeaderV0.

Module DeviceSamplesV0.
Record t := mk { header : DeviceHeaderV0.t; samples : list Z }.

Definition Serialize (d : t) : bytes := DeviceHeaderV0.Encode (header d) ++ samples_bytes (samples d).

Definition Deserialize (data : bytes) : res des_error t :=
  '(header, o) ← decoded (DeviceHeaderV0.Decode data 0%nat);
  samples ← decode_samples MaxDeviceLatencySamplesPerAccount (DeviceHeaderV0.NextSampleIndex header) data o;
  Ok (mk header samples).

Definition ToV1 (d : t) : DeviceSamples.t := DeviceSamples.mk (DeviceHeaderV0.ToV1Header (header d)) (samples d).
End DeviceSamplesV0.

(** ** Internet samples *)

Module InternetHeader.
Record t := mk {
  account_type : Z;
  epoch : Z;
  data_provider_name : bytes;
  oracle_agent_pk : bytes;
  origin_exchange_pk : bytes;
  target_exchange_pk : bytes;
  sampling_interval_microseconds : Z;
  start_timestamp_microseconds : Z;
  next_sample_index : Z;
  unused : bytes
}.
#[global] Instance eta : RecordEta t := {
  eta_record := fun r => mk (account_type r) (epoch r) (data_provider_name r) (oracle_agent_pk r) (origin_exchange_pk r)
    (target_exchange_pk r) (sampling_interval_microseconds r) (start_timestamp_microseconds r) (next_sample_index r) (unused r);
  eta_record_id := fun r => match r with mk _ _ _ _ _ _ _ _ _ _ => eq_refl end
}.

Definition HEADER_SIZE_MINUS_PROVIDER : nat := 1 + 8 + 4 + 32 + 32 + 32 + 8 + 8 + 4 + 128.
Definition MAX_HEADER_SIZE : nat := HEADER_SIZE_MINUS_PROVIDER + MAX_DATA_PROVIDER_NAME_BYTES.
Definition instance_size (data_provider_name_size : nat) : nat := HEADER_SIZE_MINUS_PROVIDER + data_provider_name_size.

Definition serialize (h : t) : bytes :=
  [account_type h] ++ le_bytes 8 (epoch h) ++
  (le_bytes 4 (Z.of_nat (length (data_provider_name h))) ++ data_provider_name h) ++
  oracle_agent_pk h ++ origin_exchange_pk h ++ target_exchange_pk h ++ le_bytes 8 (sampling_interval_microseconds h) ++
  le_bytes 8 (start_timestamp_microseconds h) ++ le_bytes 4 (next_sample_index h) ++ unused h.

(** The fields behind the account type; [read_name] reads the string. *)
Definition fields (read_name : Borsh.SR bytes) (account_type : Z) : Borsh.SR t :=
  epoch ← Borsh.ReadU64;
  name ← read_name;
  agent ← Borsh.ReadPubkey;
  origin ← Borsh.ReadPubkey;
  target ← Borsh.ReadPubkey;
  interval ← Borsh.ReadU64;
  start ← Borsh.ReadU64;
  next ← Borsh.ReadU32;
  unused ← Borsh.ReadBytes 128;
  mret (mk account_type epoch name agent origin target interval start next unused).

(** A Rust string is UTF-8; a Go string is any bytes. *)
Definition String_deserialize : Borsh.SR bytes :=
  s ← Borsh.ReadString; if utf8_valid s then mret s else Borsh.fail.
Definition deserialize : Borsh.SR t := t ← AccountType_deserialize; fields String_deserialize t.
Definition Decode : Borsh.SR t := t ← Borsh.ReadU8; fields Borsh.ReadString t.

Definition data_provider_name_length (data : bytes) : option nat :=
  (fun b => Z.to_nat (le_val b)) <$> slice_opt data 9 13.

(** [TryFrom<&[u8]>]; outside the data a slice panics. *)
Definition try_from (data : bytes) : res unit t :=
  if (length data <=? MAX_HEADER_SIZE - MAX_DATA_PROVIDER_NAME_BYTES)%nat then Err ()
  else
    match data_provider_name_length data with
    | None => Panic
    | Some name_length =>
        let header_len := instance_size name_length in
        if (MAX_HEADER_SIZE <? header_len)%nat then Err ()
        else
          match slice_opt data 0 header_len with
          | None => Panic
          | Some d => match (deserialize d 0%nat).1 with Some h => Ok h | None => Err () end
          end
    end.

Record wf (h : t) : Prop := mk_wf {
  wf_epoch : is_u64 (epoch h);
  wf_name : (length (data_provider_name h) <= 32)%nat;
  wf_utf8 : utf8_valid (data_provider_name h) = true;
  wf_agent : length (oracle_agent_pk h) = 32%nat;
  wf_origin : length (origin_exchange_pk h) = 32%nat;
  wf_target : length (target_exchange_pk h) = 32%nat;
  wf_interval : is_u64 (sampling_interval_microseconds h);
  wf_start : is_u64 (start_timestamp_microseconds h);
  wf_next : is_u32 (next_sample_index h);
  wf_unused : length (unused h) = 128%nat
}.

Lemma internet_reads_fields read_name h : wf h ->
  reads read_name (le_bytes 4 (Z.of_nat (length (data_provider_name h))) ++ data_provider_name h) (data_provider_name h) ->
  reads (fields read_name (account_type h)) (tail (serialize h)) h.
Proof. intros [] Hname. destruct h. unfold serialize, fields. cbn -[le_bytes is_u] in *. read_fields. Qed.

Lemma internet_reads_name h : wf h ->
  reads Borsh.ReadString (le_bytes 4 (Z.of_nat (length (data_provider_name h))) ++ data_provider_name h) (data_provider_name h).
Proof. intros []. apply reads_String. unfold is_u. lia. Qed.

Lemma internet_reads_Decode h : wf h -> reads Decode (serialize h) h.
Proof.
  intros H. change (serialize h) with ([account_type h] ++ tail (serialize h)).
  eapply sr_bind; [apply reads_U8|]. apply internet_reads_fields; [done|by apply internet_reads_name].
Qed.

Lemma internet_reads_deserialize h : wf h -> 1 <= account_type h <= 4 -> reads deserialize (serialize h) h.
Proof.
  intros H Ht. change (serialize h) with ([account_type h] ++ tail (serialize h)).
  eapply sr_bind; [by apply reads_AccountType|]. apply internet_reads_fields; [done|].
  unfold String_deserialize. rewrite <- (app_nil_r (_ ++ _)). eapply sr_bind; [by apply internet_reads_name|].
  rewrite (wf_utf8 h H). apply sr_ret.
Qed.

Lemma internet_length_serialize h : wf h -> length (serialize h) = instance_size (length (data_provider_name h)).
Proof. intros []. unfold serialize, instance_size. rewrite !length_app, !length_le_bytes. cbn. lia. Qed.
End InternetHeader.

Module InternetSamples.
Record t := mk { header : InternetHeader.t; samples : list Z }.

Definition serialize (d : t) : bytes := InternetHeader.serialize (header d) ++ samples_bytes (samples d).

Definition deserialize_reader : Borsh.SR t :=
  header ← InternetHeader.deserialize;
  samples ← Borsh.read_times (Z.to_nat (InternetHeader.next_sample_index header)) Borsh.ReadU32;
  mret (mk header samples).
Definition try_from (data : bytes) : option t :=
  match deserialize_reader data 0%nat with
  | (Some d, o) => if (o =? length data)%nat then Some d else None
  | (None, _) => None
  end.

Definition size (d : t) : nat :=
  InternetHeader.HEADER_SIZE_MINUS_PROVIDER + length (InternetHeader.data_provider_name (header d)) + length (samples d) * 4.
Definition owner (d : t) : bytes := InternetHeader.oracle_agent_pk (header d).

Definition Deserialize (data : bytes) : res des_error t :=
  '(header, o) ← decoded (InternetHeader.Decode data 0%nat);
  samples ← decode_samples MaxInternetLatencySamplesPerAccount (InternetHeader.next_sample_index header) data o;
  Ok (mk header samples).

Record wf (d : t) : Prop := mk_wf {
  wf_header : InternetHeader.wf (header d);
  wf_samples : Forall is_u32 (samples d);
  wf_count : InternetHeader.next_sample_index (header d) = Z.of_nat (length (samples d))
}.
End InternetSamples.

(** ** What is written is read back *)

Lemma decoded_start {A : Type} (m : Borsh.SR A) x v rest : reads m x v -> decoded (m (x ++ rest) 0%nat) = Ok (v, length x).
Proof. intros H. by rewrite (sr_start m x v rest H). Qed.

Lemma decode_samples_spec limit next samples pre rest :
  Forall is_u32 samples -> next = Z.of_nat (length samples) -> next <= limit ->
  decode_samples limit next (pre ++ samples_bytes samples ++ rest) (length pre) = Ok samples.
Proof.
  intros Hs -> Hl. unfold decode_samples. destruct (Z.ltb_spec limit (Z.of_nat (length samples))); [lia|].
  rewrite Nat2Z.id. rewrite (reads_samples samples Hs _ _ rest); [done|rewrite length_app; lia|].
  apply drop_app_length.
Qed.

Lemma device_Deserialize d rest : DeviceSamples.wf d -> Z.of_nat (length (DeviceSamples.samples d)) <= MaxDeviceLatencySamplesPerAccount ->
  DeviceSamples.Deserialize (DeviceSamples.serialize d ++ rest) = Ok d.
Proof.
  intros [Hh Hs Hn] Hl. unfold DeviceSamples.Deserialize, DeviceSamples.serialize. rewrite <- app_assoc.
  rewrite (decoded_start _ _ (DeviceSamples.header d)) by by apply DeviceHeader.device_reads_Decode.
  cbn beta iota delta [mbind res_bind]. rewrite decode_samples_spec by (done || lia). by destruct d.
Qed.

Lemma internet_Deserialize d rest : InternetSamples.wf d ->
  Z.of_nat (length (InternetSamples.samples d)) <= MaxInternetLatencySamplesPerAccount ->
  InternetSamples.Deserialize (InternetSamples.serialize d ++ rest) = Ok d.
Proof.
  intros [Hh Hs Hn] Hl. unfold InternetSamples.Deserialize, InternetSamples.serialize. rewrite <- app_assoc.
  rewrite (decoded_start _ _ (InternetSamples.header d)) by by apply InternetHeader.internet_reads_Decode.
  cbn beta iota delta [mbind res_bind]. rewrite decode_samples_spec by (done || lia). by destruct d.
Qed.

Lemma v0_Deserialize h samples rest : DeviceHeaderV0.wf h -> Forall is_u32 samples ->
  DeviceHeaderV0.NextSampleIndex h = Z.of_nat (length samples) -> Z.of_nat (length samples) <= MaxDeviceLatencySamplesPerAccount ->
  DeviceSamplesV0.Deserialize (DeviceSamplesV0.Serialize (DeviceSamplesV0.mk h samples) ++ rest) = Ok (DeviceSamplesV0.mk h samples).
Proof.
  intros Hh Hs Hn Hl. unfold DeviceSamplesV0.Deserialize, DeviceSamplesV0.Serialize. cbn [DeviceSamplesV0.header DeviceSamplesV0.samples].
  rewrite <- app_assoc. rewrite (decoded_start _ _ h) by by apply DeviceHeaderV0.v0_reads_Decode.
  cbn beta iota delta [mbind res_bind]. by rewrite decode_samples_spec by (done || lia).
Qed.

(** Rust reads back the whole account. *)
Lemma device_try_from d : DeviceSamples.wf d -> 1 <= DeviceHeader.account_type (DeviceSamples.header d) <= 4 ->
  DeviceSamples.try_from (DeviceSamples.serialize d) = Some d.
Proof.
  intros [Hh Hs Hn] Ht. unfold DeviceSamples.try_from.
  assert (Hr : reads DeviceSamples.deserialize_reader (DeviceSamples.serialize d) d).
  { unfold DeviceSamples.deserialize_reader, DeviceSamples.serialize. eapply sr_bind;
      [by apply DeviceHeader.device_reads_deserialize|]. destruct d as [h s]. cbn in *. rewrite Hn, Nat2Z.id.
    apply (reads_last _ (DeviceSamples.mk h)), reads_samples, Hs. }
  apply sr_start with (rest := []) in Hr. rewrite app_nil_r in Hr. by rewrite Hr, Nat.eqb_refl.
Qed.

Lemma internet_try_from d : InternetSamples.wf d -> 1 <= InternetHeader.account_type (InternetSamples.header d) <= 4 ->
  InternetSamples.try_from (InternetSamples.serialize d) = Some d.
Proof.
  intros [Hh Hs Hn] Ht. unfold InternetSamples.try_from.
  assert (Hr : reads InternetSamples.deserialize_reader (InternetSamples.serialize d) d).
  { unfold InternetSamples.deserialize_reader, InternetSamples.serialize. eapply sr_bind;
      [by apply InternetHeader.internet_reads_deserialize|]. destruct d as [h s]. cbn in *. rewrite Hn, Nat2Z.id.
    apply (reads_last _ (InternetSamples.mk h)), reads_samples, Hs. }
  apply sr_start with (rest := []) in Hr. rewrite app_nil_r in Hr. by rewrite Hr, Nat.eqb_refl.
Qed.

(** The headers, as the program reads them from the data of an account. *)
Lemma device_header_try_from h rest : DeviceHeader.wf h -> 1 <= DeviceHeader.account_type h <= 4 ->
  DeviceHeader.try_from (take DeviceHeader.HEADER_SIZE (DeviceHeader.serialize h ++ rest)) = Some h.
Proof.
  intros Hh Ht. rewrite take_app_exact by by apply DeviceHeader.device_length_serialize.
  unfold DeviceHeader.try_from. rewrite DeviceHeader.device_length_serialize, Nat.ltb_irrefl by done.
  pose proof (sr_start _ _ _ [] (DeviceHeader.device_reads_deserialize h Hh Ht)) as Hr. rewrite app_nil_r in Hr.
  by rewrite Hr.
Qed.

Lemma internet_header_try_from h rest : InternetHeader.wf h -> 1 <= InternetHeader.account_type h <= 4 ->
  InternetHeader.data_provider_name h <> [] ->
  InternetHeader.try_from (InternetHeader.serialize h ++ rest) = Ok h.
Proof.
  intros Hh Ht Hne. pose proof (InternetHeader.internet_length_serialize h Hh) as Hlen.
  assert (Hn : (0 < length (InternetHeader.data_provider_name h) <= 32)%nat).
  { split; [by destruct (InternetHeader.data_provider_name h); [|cbn; lia]|apply Hh]. }
  unfold InternetHeader.try_from. rewrite length_app, Hlen.
  unfold InternetHeader.instance_size, InternetHeader.MAX_HEADER_SIZE, MAX_DATA_PROVIDER_NAME_BYTES in *.
  destruct (Nat.leb_spec (InternetHeader.HEADER_SIZE_MINUS_PROVIDER + length (InternetHeader.data_provider_name h) + length rest)
    (InternetHeader.HEADER_SIZE_MINUS_PROVIDER + 32 - 32)); [lia|].
  assert (Hname : InternetHeader.data_provider_name_length (InternetHeader.serialize h ++ rest) =
    Some (length (InternetHeader.data_provider_name h))).
  { unfold InternetHeader.data_provider_name_length, slice_opt. rewrite length_app, Hlen.
    unfold InternetHeader.HEADER_SIZE_MINUS_PROVIDER. rewrite decide_True by lia. cbn [fmap option_fmap option_map].
    unfold slice, InternetHeader.serialize. rewrite <- !app_assoc, app_assoc.
    rewrite drop_app_exact by by rewrite length_app, length_le_bytes.
    rewrite take_app_exact by by rewrite length_le_bytes.
    rewrite (le_round 4) by (unfold is_u; change (2 ^ (8 * Z.of_nat 4)) with 4294967296; lia). by rewrite Nat2Z.id. }
  rewrite Hname. destruct (Nat.ltb_spec (InternetHeader.HEADER_SIZE_MINUS_PROVIDER + 32)
    (InternetHeader.HEADER_SIZE_MINUS_PROVIDER + length (InternetHeader.data_provider_name h))); [lia|].
  unfold slice_opt. rewrite length_app, Hlen. rewrite decide_True by lia.
  unfold slice. rewrite Nat.sub_0_r, drop_0, take_app_exact by done.
  pose proof (sr_start _ _ _ [] (InternetHeader.internet_reads_deserialize h Hh Ht)) as Hr. rewrite app_nil_r in Hr.
  by rewrite Hr.
Qed.

(** ** The type of an account is its first byte *)

Lemma sr_bind_inv {A B : Type} (m : Borsh.SR A) (k : A -> Borsh.SR B) d o b o' :
  (m ≫= k) d o = (Some b, o') -> exists a o1, m d o = (Some a, o1) /\ k a d o1 = (Some b, o').
Proof. unfold mbind, Borsh.SR_bind. destruct (m d o) as [[a|] o1]; [eauto|done]. Qed.

Ltac sr_inv := repeat match goal with H : mbind _ _ _ _ = (Some _, _) |- _ => apply sr_bind_inv in H as (? & ? & ? & H) end.

Lemma AccountType_first d t o : AccountType_deserialize d 0%nat = (Some t, o) -> head d = Some t.
Proof.
  unfold AccountType_deserialize. intros H. sr_inv. revert H. case_match; [|done]. intros [= -> ->].
  match goal with H : Borsh.ReadU8 _ _ = _ |- _ => revert H end. unfold Borsh.ReadU8, Borsh.read_exact.
  destruct d as [|b d]; [done|]. cbn. intros [= <- _]. f_equal. lia.
Qed.

Lemma device_deserialize_type d h o : DeviceHeader.deserialize d 0%nat = (Some h, o) -> head d = Some (DeviceHeader.account_type h).
Proof.
  unfold DeviceHeader.deserialize, DeviceHeader.fields. intros H. sr_inv. injection H as <- _. by eapply AccountType_first.
Qed.

Lemma internet_deserialize_type d h o : InternetHeader.deserialize d 0%nat = (Some h, o) -> head d = Some (InternetHeader.account_type h).
Proof.
  unfold InternetHeader.deserialize, InternetHeader.fields. intros H. sr_inv. injection H as <- _. by eapply AccountType_first.
Qed.

Lemma device_type_first data h : DeviceHeader.try_from data = Some h -> head data = Some (DeviceHeader.account_type h).
Proof.
  unfold DeviceHeader.try_from. case_match; [done|]. destruct (DeviceHeader.deserialize data 0%nat) as [h' o] eqn:Hd.
  cbn. intros ->. by apply device_deserialize_type in Hd.
Qed.

Lemma internet_type_first data h : InternetHeader.try_from data = Ok h -> head data = Some (InternetHeader.account_type h).
Proof.
  unfold InternetHeader.try_from, slice_opt, slice. case_match; [done|]. case_match; [|done]. case_match; [done|].
  destruct (decide _) as [_|]; [|done]. rewrite drop_0.
  destruct (InternetHeader.deserialize (take _ data) 0%nat) as [[h'|] o] eqn:Hd; [|done]. cbn. intros [= ->].
  apply internet_deserialize_type in Hd as <-. by destruct data; [rewrite take_nil|].
Qed.
