(* ===== verification/OnchainTelemetry.v ===== *)
(** * The on-chain telemetry program

    Models [smartcontract/programs/doublezero-telemetry/src]: the four
    instructions that create the accounts of latency samples and append to
    them, on the ledger of [OnchainLedger], and
    [smartcontract/programs/common/src/resize_account.rs]. The program keeps
    its accounts as bytes. The rent of the accounts is not modelled. *)

From stdpp Require Import base tactics numbers list gmap.
From Stdlib Require Import ZArith Lia ZifyBool ZifyNat.
From S2P Require Import Prelude Bytes GoStrings BorshIncremental TelemetryAccounts OnchainState OnchainLedger.

#[local] Open Scope Z_scope.

(** ** Errors *)

Inductive TelemetryError :=
| UnauthorizedAgent | DeviceNotActivated | LinkNotActivated | InvalidLink | EpochMismatch | SamplesAccountFull
| InvalidAccountType | InvalidAccountOwner | InvalidPDA | AccountAlreadyExists | AccountDoesNotExist
| InvalidSamplingInterval | SamplesBatchTooLarge | ExchangeNotActiveOrSuspended | DataProviderNameTooLong
| SameTargetAsOrigin | EmptyLatencySamples.

Definition telemetry_code (e : TelemetryError) : Z :=
  match e with
  | UnauthorizedAgent => 1001 | DeviceNotActivated => 1002 | LinkNotActivated => 1003 | InvalidLink => 1004
  | EpochMismatch => 1005 | SamplesAccountFull => 1006 | InvalidAccountType => 1007 | InvalidAccountOwner => 1008
  | InvalidPDA => 1009 | AccountAlreadyExists => 1010 | AccountDoesNotExist => 1011 | InvalidSamplingInterval => 1012
  | SamplesBatchTooLarge => 1013 | ExchangeNotActiveOrSuspended => 1014 | DataProviderNameTooLong => 1015
  | SameTargetAsOrigin => 1016 | EmptyLatencySamples => 1017
  end.

(** [ProgramError::Custom(e as u32)] *)
Definition te (e : TelemetryError) : DoubleZeroError := DZ_Custom (telemetry_code e).

(** ** Instructions *)

Record InitializeDeviceLatencySamplesArgs := mkInitDevice {
  id_epoch : Z;
  id_sampling_interval_microseconds : Z;
  id_agent_version : bytes;
  id_agent_commit : bytes
}.
Record WriteDeviceLatencySamplesArgs := mkWriteDevice {
  wd_start_timestamp_microseconds : Z;
  wd_samples : list Z;
  wd_agent_version : bytes;
  wd_agent_commit : bytes
}.
Record InitializeInternetLatencySamplesArgs := mkInitInternet {
  ii_data_provider_name : bytes;
  ii_epoch : Z;
  ii_sampling_interval_microseconds : Z
}.
Record WriteInternetLatencySamplesArgs := mkWriteInternet {
  wi_start_timestamp_microseconds : Z;
  wi_samples : list Z
}.

Inductive TelemetryInstruction :=
| InitializeDeviceLatencySamples (args : InitializeDeviceLatencySamplesArgs)
| WriteDeviceLatencySamples (args : WriteDeviceLatencySamplesArgs)
| InitializeInternetLatencySamples (args : InitializeInternetLatencySamplesArgs)
| WriteInternetLatencySamples (args : WriteInternetLatencySamplesArgs).

Definition INITIALIZE_DEVICE_LATENCY_SAMPLES_INSTRUCTION_INDEX : Z := 0.
Definition WRITE_DEVICE_LATENCY_SAMPLES_INSTRUCTION_INDEX : Z := 1.
Definition INITIALIZE_INTERNET_LATENCY_SAMPLES_INSTRUCTION_INDEX : Z := 2.
Definition WRITE_INTERNET_LATENCY_SAMPLES_INSTRUCTION_INDEX : Z := 3.

(** The Borsh encoding of the arguments; a vector is behind its length. *)
Definition vec_bytes (samples : list Z) : bytes := le_bytes 4 (Z.of_nat (length samples)) ++ samples_bytes samples.
Definition pack_args (i : TelemetryInstruction) : bytes :=
  match i with
  | InitializeDeviceLatencySamples a =>
      le_bytes 8 (id_epoch a) ++ le_bytes 8 (id_sampling_interval_microseconds a) ++ id_agent_version a ++ id_agent_commit a
  | WriteDeviceLatencySamples a =>
      le_bytes 8 (wd_start_timestamp_microseconds a) ++ vec_bytes (wd_samples a) ++ wd_agent_version a ++ wd_agent_commit a
  | InitializeInternetLatencySamples a =>
      (le_bytes 4 (Z.of_nat (length (ii_data_provider_name a))) ++ ii_data_provider_name a) ++ le_bytes 8 (ii_epoch a) ++
      le_bytes 8 (ii_sampling_interval_microseconds a)
  | WriteInternetLatencySamples a => le_bytes 8 (wi_start_timestamp_microseconds a) ++ vec_bytes (wi_samples a)
  end.

Definition instruction_index (i : TelemetryInstruction) : Z :=
  match i with
  | InitializeDeviceLatencySamples _ => INITIALIZE_DEVICE_LATENCY_SAMPLES_INSTRUCTION_INDEX
  | WriteDeviceLatencySamples _ => WRITE_DEVICE_LATENCY_SAMPLES_INSTRUCTION_INDEX
  | InitializeInternetLatencySamples _ => INITIALIZE_INTERNET_LATENCY_SAMPLES_INSTRUCTION_INDEX
  | WriteInternetLatencySamples _ => WRITE_INTERNET_LATENCY_SAMPLES_INSTRUCTION_INDEX
  end.
Definition pack (i : TelemetryInstruction) : bytes := instruction_index i :: pack_args i.

(** The ranges of the arguments' types. *)
Definition samples_ok (samples : list Z) : Prop := Forall is_u32 samples /\ is_u32 (Z.of_nat (length samples)).
Definition instruction_ok (i : TelemetryInstruction) : Prop :=
  match i with
  | InitializeDeviceLatencySamples a => is_u64 (id_epoch a) /\ is_u64 (id_sampling_interval_microseconds a) /\
      length (id_agent_version a) = 16%nat /\ length (id_agent_commit a) = 8%nat
  | WriteDeviceLatencySamples a => is_u64 (wd_start_timestamp_microseconds a) /\ samples_ok (wd_samples a) /\
      length (wd_agent_version a) = 16%nat /\ length (wd_agent_commit a) = 8%nat
  | InitializeInternetLatencySamples a => utf8_valid (ii_data_provider_name a) = true /\
      is_u32 (Z.of_nat (length (ii_data_provider_name a))) /\ is_u64 (ii_epoch a) /\ is_u64 (ii_sampling_interval_microseconds a)
  | WriteInternetLatencySamples a => is_u64 (wi_start_timestamp_microseconds a) /\ samples_ok (wi_samples a)
  end.

(** The readers the [borsh-incremental] crate derives. They return values of
    the arguments' types, undo the encoding, and give the default to fields
    that are missing at the end. *)
Class IncrementalReader := {
  read_init_device : bytes -> option InitializeDeviceLatencySamplesArgs;
  read_write_device : bytes -> option WriteDeviceLatencySamplesArgs;
  read_init_internet : bytes -> option InitializeInternetLatencySamplesArgs;
  read_write_internet : bytes -> option WriteInternetLatencySamplesArgs;
  read_args (index : Z) (data : bytes) : option TelemetryInstruction :=
    if index =? INITIALIZE_DEVICE_LATENCY_SAMPLES_INSTRUCTION_INDEX then InitializeDeviceLatencySamples <$> read_init_device data
    else if index =? WRITE_DEVICE_LATENCY_SAMPLES_INSTRUCTION_INDEX then WriteDeviceLatencySamples <$> read_write_device data
    else if index =? INITIALIZE_INTERNET_LATENCY_SAMPLES_INSTRUCTION_INDEX
      then InitializeInternetLatencySamples <$> read_init_internet data
    else WriteInternetLatencySamples <$> read_write_internet data;
  read_typed index data i : read_args index data = Some i -> instruction_ok i;
  read_packed i : instruction_ok i -> read_args (instruction_index i) (pack_args i) = Some i;
  read_missing start samples : is_u64 start -> samples_ok samples ->
    read_write_device (le_bytes 8 start ++ vec_bytes samples) = Some (mkWriteDevice start samples (replicate 16 0) (replicate 8 0))
}.

Definition unpack `{!IncrementalReader} (data : bytes) : R TelemetryInstruction :=
  match data with
  | [] => Err PE_InvalidInstructionData
  | index :: rest =>
      if (0 <=? index) && (index <=? 3)
      then match read_args index rest with Some i => Ok i | None => Err PE_BorshIoError end
      else Err PE_InvalidInstructionData
  end.

(** ** [resize_account.rs] *)

Definition MAX_PERMITTED_DATA_INCREASE : Z := 10240.

(** [AccountInfo::resize], within the limit of one instruction. *)
Definition resize (data : bytes) (new_len : nat) : bytes := take new_len data ++ replicate (new_len - length data) 0.

Definition resize_account_if_needed (data : bytes) (new_len : nat) : R bytes :=
  if (length data =? new_len)%nat then Ok data
  else if Z.of_nat (length data) + MAX_PERMITTED_DATA_INCREASE <? Z.of_nat new_len then Panic
  else Ok (resize data new_len).

(** ** Writing samples *)

(** [serialize] into the front of a slice: what was written and what is left. *)
Definition write_front (src data : bytes) : R (bytes * bytes) :=
  if (length data <? length src)%nat then Err PE_BorshIoError else Ok (src, drop (length src) data).

(** [data[offset..offset + 4].copy_from_slice(&sample.to_le_bytes())] *)
Fixpoint copy_samples (data : bytes) (write_index : nat) (samples : list Z) : R bytes :=
  match samples with
  | [] => Ok data
  | sample :: samples =>
      let offset := (write_index * 4)%nat in
      if (offset + 4 <=? length data)%nat
      then copy_samples (take offset data ++ le_bytes 4 sample ++ drop (offset + 4) data) (S write_index) samples
      else Panic
  end.

Definition account_data (l : ledger) (a : meta) : R bytes :=
  match content_of l (key a) with Some (COther data) => Ok data | _ => Err PE_InvalidAccountData end.

(** The fields a write sets: the time of the first one, the agent's version
    unless the agent is too old to send it. *)
Definition stamp_device_header (args : WriteDeviceLatencySamplesArgs) (header : DeviceHeader.t) : DeviceHeader.t :=
  let header := if DeviceHeader.start_timestamp_microseconds header =? 0
    then header <| DeviceHeader.start_timestamp_microseconds := wd_start_timestamp_microseconds args |> else header in
  let header := if bool_decide (wd_agent_version args <> replicate 16 0)
    then header <| DeviceHeader.agent_version := wd_agent_version args |> else header in
  if bool_decide (wd_agent_commit args <> replicate 8 0)
    then header <| DeviceHeader.agent_commit := wd_agent_commit args |> else header.
Definition stamp_internet_header (args : WriteInternetLatencySamplesArgs) (header : InternetHeader.t) : InternetHeader.t :=
  if InternetHeader.start_timestamp_microseconds header =? 0
    then header <| InternetHeader.start_timestamp_microseconds := wi_start_timestamp_microseconds args |> else header.

(** ** Addresses *)

Definition SEED_PREFIX : bytes := lit "telemetry".
Definition SEED_DEVICE_LATENCY_SAMPLES : bytes := lit "dzlatency".
Definition SEED_INTERNET_LATENCY_SAMPLES : bytes := lit "inetlatency".

Definition device_seeds (origin target link : Pubkey) (epoch : Z) : list bytes :=
  [SEED_PREFIX; SEED_DEVICE_LATENCY_SAMPLES; origin; target; link; le_bytes 8 epoch].
Definition internet_seeds (agent : Pubkey) (name : bytes) (origin target : Pubkey) (epoch : Z) : list bytes :=
  [SEED_PREFIX; SEED_INTERNET_LATENCY_SAMPLES; agent; name; origin; target; le_bytes 8 epoch].

Section Program.
Context `{Hreader : !IncrementalReader} (find_program_address : list bytes -> Pubkey -> Pubkey * Z).
Context (program_id serviceability_program_id : Pubkey).

Definition derive_device_latency_samples_pda (origin target link : Pubkey) (epoch : Z) : Pubkey * Z :=
  find_program_address (device_seeds origin target link epoch) program_id.
Definition derive_internet_latency_samples_pda (agent : Pubkey) (name : bytes) (origin target : Pubkey) (epoch : Z) : Pubkey * Z :=
  find_program_address (internet_seeds agent name origin target epoch) program_id.

(** [try_create_account], then the header into the new account. *)
Definition create_with_header (accounts : list meta) (a payer : meta) (space : nat) (header : bytes) (l : ledger) : R ledger :=
  _ ← ensure (is_signer payer && is_writable a && bool_decide (SYSTEM_PROGRAM_ID ∈ key <$> accounts) && data_is_empty l (key a))
        PE_Runtime;
  '(front, rest) ← write_front header (replicate space 0);
  Ok (<[key a := mkAccount program_id (COther (front ++ rest))]> l).

Definition update_data (a : meta) (data : bytes) (l : ledger) : R ledger :=
  _ ← ensure (owned_writable program_id l a) PE_Runtime;
  Ok (<[key a := mkAccount program_id (COther data)]> l).

(** ** The instructions *)

Definition process_initialize_device_latency_samples (accounts : list meta) (args : InitializeDeviceLatencySamplesArgs)
    (l : ledger) : R ledger :=
  _ ← reject (id_sampling_interval_microseconds args =? 0) (te InvalidSamplingInterval);
  '(latency_samples_account, rest) ← next_account_info accounts;
  '(agent, rest) ← next_account_info rest;
  '(origin_device_account, rest) ← next_account_info rest;
  '(target_device_account, rest) ← next_account_info rest;
  '(link_account, rest) ← next_account_info rest;
  '(system_program, _) ← next_account_info rest;
  _ ← ensure (is_signer agent) PE_MissingRequiredSignature;
  _ ← ensure (bool_decide (owner_of l (key origin_device_account) = serviceability_program_id)) PE_IncorrectProgramId;
  _ ← ensure (bool_decide (owner_of l (key target_device_account) = serviceability_program_id)) PE_IncorrectProgramId;
  _ ← ensure (bool_decide (owner_of l (key link_account) = serviceability_program_id)) PE_IncorrectProgramId;
  origin_device ← Device_try_from l origin_device_account;
  _ ← reject (negb (Device.allow_latency origin_device)) (te DeviceNotActivated);
  _ ← reject (negb (bool_decide (Device.metrics_publisher_pk origin_device = key agent))) (te UnauthorizedAgent);
  target_device ← Device_try_from l target_device_account;
  _ ← reject (negb (Device.allow_latency target_device)) (te DeviceNotActivated);
  link ← Link_try_from l link_account;
  _ ← reject (negb (bool_decide (Link.status link ∈ [LkActivated; LkProvisioning; LkSoftDrained; LkHardDrained])))
        (te LinkNotActivated);
  _ ← reject (negb (bool_decide (Link.side_a_pk link = key origin_device_account) &&
                    bool_decide (Link.side_z_pk link = key target_device_account) ||
                    bool_decide (Link.side_z_pk link = key origin_device_account) &&
                    bool_decide (Link.side_a_pk link = key target_device_account))) (te InvalidLink);
  let latency_samples_pda :=
    (derive_device_latency_samples_pda (key origin_device_account) (key target_device_account) (key link_account) (id_epoch args)).1 in
  _ ← reject (negb (bool_decide (key latency_samples_account = latency_samples_pda))) (te InvalidPDA);
  _ ← reject (negb (data_is_empty l (key latency_samples_account))) (te AccountAlreadyExists);
  let header := DeviceHeader.mk AccountTypeDeviceLatencySamples (id_epoch args) (key agent) (key origin_device_account)
    (key target_device_account) (Device.location_pk origin_device) (Device.location_pk target_device) (key link_account)
    (id_sampling_interval_microseconds args) 0 0 (id_agent_version args) (id_agent_commit args) (replicate 104 0) in
  create_with_header accounts latency_samples_account agent DeviceHeader.HEADER_SIZE (DeviceHeader.serialize header) l.

Definition process_write_device_latency_samples (accounts : list meta) (args : WriteDeviceLatencySamplesArgs) (l : ledger) :
    R ledger :=
  _ ← reject (bool_decide (wd_samples args = [])) (te EmptyLatencySamples);
  '(latency_samples_account, rest) ← next_account_info accounts;
  '(agent, _) ← next_account_info rest;
  _ ← ensure (is_signer agent) PE_MissingRequiredSignature;
  _ ← reject (data_is_empty l (key latency_samples_account)) (te AccountDoesNotExist);
  _ ← reject (negb (bool_decide (owner_of l (key latency_samples_account) = program_id))) (te InvalidAccountOwner);
  data ← account_data l latency_samples_account;
  _ ← assert_that (DeviceHeader.HEADER_SIZE <=? length data)%nat;
  header ← match DeviceHeader.try_from (take DeviceHeader.HEADER_SIZE data) with
           | Some h => Ok h
           | None => Err PE_InvalidAccountData
           end;
  _ ← reject (negb (DeviceHeader.account_type header =? AccountTypeDeviceLatencySamples)) (te InvalidAccountType);
  _ ← reject (negb (bool_decide (DeviceHeader.origin_device_agent_pk header = key agent))) (te UnauthorizedAgent);
  let len := Z.of_nat (length (wd_samples args)) in
  _ ← reject (MAX_DEVICE_LATENCY_SAMPLES <? DeviceHeader.next_sample_index header + len) (te SamplesAccountFull);
  let header := stamp_device_header args header in
  _ ← reject (MAX_PERMITTED_DATA_INCREASE / 4 <? len) (te SamplesBatchTooLarge);
  let write_index := Z.to_nat (DeviceHeader.next_sample_index header) in
  let header := header <| DeviceHeader.next_sample_index := u32 (DeviceHeader.next_sample_index header + len) |> in
  let new_len := (DeviceHeader.HEADER_SIZE + Z.to_nat (DeviceHeader.next_sample_index header) * 4)%nat in
  data ← resize_account_if_needed data new_len;
  '(front, data) ← write_front (DeviceHeader.serialize header) data;
  data ← copy_samples data write_index (wd_samples args);
  update_data latency_samples_account (front ++ data) l.

Definition exchange_usable (e : Exchange.t) : bool :=
  bool_decide (Exchange.status e = ExActivated) || bool_decide (Exchange.status e = ExSuspended).

Definition process_initialize_internet_latency_samples (accounts : list meta) (args : InitializeInternetLatencySamplesArgs)
    (l : ledger) : R ledger :=
  _ ← reject (32 <? length (ii_data_provider_name args))%nat (te DataProviderNameTooLong);
  _ ← reject (ii_sampling_interval_microseconds args =? 0) (te InvalidSamplingInterval);
  '(latency_samples_acct, rest) ← next_account_info accounts;
  '(collector_agent, rest) ← next_account_info rest;
  '(origin_exchange_account, rest) ← next_account_info rest;
  '(target_exchange_account, rest) ← next_account_info rest;
  '(system_program, _) ← next_account_info rest;
  _ ← ensure (is_signer collector_agent) PE_MissingRequiredSignature;
  _ ← ensure (bool_decide (owner_of l (key origin_exchange_account) = serviceability_program_id)) PE_IncorrectProgramId;
  _ ← ensure (bool_decide (owner_of l (key target_exchange_account) = serviceability_program_id)) PE_IncorrectProgramId;
  origin_exchange ← Exchange_try_from l origin_exchange_account;
  _ ← reject (negb (exchange_usable origin_exchange)) (te ExchangeNotActiveOrSuspended);
  target_exchange ← Exchange_try_from l target_exchange_account;
  _ ← reject (negb (exchange_usable target_exchange)) (te ExchangeNotActiveOrSuspended);
  _ ← reject (Exchange.eqb origin_exchange target_exchange) (te SameTargetAsOrigin);
  let latency_samples_pda :=
    (derive_internet_latency_samples_pda (key collector_agent) (ii_data_provider_name args) (key origin_exchange_account)
       (key target_exchange_account) (ii_epoch args)).1 in
  _ ← reject (negb (bool_decide (key latency_samples_acct = latency_samples_pda))) (te InvalidPDA);
  _ ← reject (negb (data_is_empty l (key latency_samples_acct))) (te AccountAlreadyExists);
  let header := InternetHeader.mk AccountTypeInternetLatencySamples (ii_epoch args) (ii_data_provider_name args)
    (key collector_agent) (key origin_exchange_account) (key target_exchange_account)
    (ii_sampling_interval_microseconds args) 0 0 (replicate 128 0) in
  create_with_header accounts latency_samples_acct collector_agent
    (InternetHeader.instance_size (length (ii_data_provider_name args))) (InternetHeader.serialize header) l.

Definition process_write_internet_latency_samples (accounts : list meta) (args : WriteInternetLatencySamplesArgs) (l : ledger) :
    R ledger :=
  _ ← reject (bool_decide (wi_samples args = [])) (te EmptyLatencySamples);
  '(latency_samples_acct, rest) ← next_account_info accounts;
  '(collector_agent, _) ← next_account_info rest;
  _ ← ensure (is_signer collector_agent) PE_MissingRequiredSignature;
  _ ← reject (data_is_empty l (key latency_samples_acct)) (te AccountDoesNotExist);
  _ ← reject (negb (bool_decide (owner_of l (key latency_samples_acct) = program_id))) (te InvalidAccountOwner);
  data ← account_data l latency_samples_acct;
  header ← match InternetHeader.try_from data with
           | Ok h => Ok h
           | Err _ => Err PE_InvalidAccountData
           | Panic => Panic
           end;
  _ ← reject (negb (InternetHeader.account_type header =? AccountTypeInternetLatencySamples)) (te InvalidAccountType);
  _ ← reject (negb (bool_decide (InternetHeader.oracle_agent_pk header = key collector_agent))) (te UnauthorizedAgent);
  let len := Z.of_nat (length (wi_samples args)) in
  _ ← reject (MAX_INTERNET_LATENCY_SAMPLES <? InternetHeader.next_sample_index header + len) (te SamplesAccountFull);
  let header := stamp_internet_header args header in
  _ ← reject (MAX_PERMITTED_DATA_INCREASE / 4 <? len) (te SamplesBatchTooLarge);
  let write_index := Z.to_nat (InternetHeader.next_sample_index header) in
  let header := header <| InternetHeader.next_sample_index := u32 (InternetHeader.next_sample_index header + len) |> in
  let new_len := (InternetHeader.instance_size (length (InternetHeader.data_provider_name header)) +
                  Z.to_nat (InternetHeader.next_sample_index header) * 4)%nat in
  data ← resize_account_if_needed data new_len;
  '(front, data) ← write_front (InternetHeader.serialize header) data;
  data ← copy_samples data write_index (wi_samples args);
  update_data latency_samples_acct (front ++ data) l.

Definition process_instruction (accounts : list meta) (data : bytes) (l : ledger) : R ledger :=
  instruction ← unpack data;
  match instruction with
  | InitializeDeviceLatencySamples args => process_initialize_device_latency_samples accounts args l
  | WriteDeviceLatencySamples args => process_write_device_latency_samples accounts args l
  | InitializeInternetLatencySamples args => process_initialize_internet_latency_samples accounts args l
  | WriteInternetLatencySamples args => process_write_internet_latency_samples accounts args l
  end.
End Program.

(** ** Instructions are read back *)

Lemma unpack_pack `{!IncrementalReader} i : instruction_ok i -> unpack (pack i) = Ok i.
Proof.
  intros Hi. unfold unpack, pack. rewrite (read_packed i Hi). by destruct i.
Qed.

(** ** Appending to the data of an account *)

Lemma samples_bytes_app a b : samples_bytes (a ++ b) = samples_bytes a ++ samples_bytes b.
Proof. unfold samples_bytes. by rewrite fmap_app, concat_app. Qed.

Lemma copy_samples_spec new : forall old pad, (length pad = 4 * length new)%nat ->
  copy_samples (samples_bytes old ++ pad) (length old) new = Ok (samples_bytes (old ++ new)).
Proof.
  induction new as [|s new IH]; intros old pad Hp; cbn [copy_samples].
  { destruct pad; [|done]. by rewrite !app_nil_r. }
  cbn [length] in Hp. rewrite length_app, length_samples_bytes.
  destruct (Nat.leb_spec (length old * 4 + 4) (4 * length old + length pad)); [|lia].
  rewrite take_app_exact by (rewrite length_samples_bytes; lia).
  replace (length old * 4 + 4)%nat with (length (samples_bytes old) + 4)%nat by (rewrite length_samples_bytes; lia).
  rewrite drop_app_add, app_assoc.
  replace (samples_bytes old ++ le_bytes 4 s) with (samples_bytes (old ++ [s])) by (rewrite samples_bytes_app; unfold samples_bytes at 2; cbn [fmap list_fmap concat]; by rewrite app_nil_r).
  replace (S (length old)) with (length (old ++ [s])) by (rewrite length_app; cbn; lia).
  rewrite IH by (rewrite length_drop; lia). by rewrite <- app_assoc.
Qed.

(** The common end of the two writes: the header is replaced and the samples
    are put behind the old ones, whatever follows. *)
Lemma append_data {A : Type} front front' old new new_len (k : bytes -> R A) :
  length front' = length front -> new_len = (length front + 4 * (length old + length new))%nat ->
  Z.of_nat (length new) <= 2560 ->
  (data ← resize_account_if_needed (front ++ samples_bytes old) new_len;
   '(f, data) ← write_front front' data;
   data ← copy_samples data (length old) new;
   k (f ++ data)) = k (front' ++ samples_bytes (old ++ new)).
Proof.
  intros Hf -> Hn.
  assert (Hr : resize_account_if_needed (front ++ samples_bytes old) (length front + 4 * (length old + length new)) =
    Ok (front ++ samples_bytes old ++ replicate (4 * length new) 0)).
  { unfold resize_account_if_needed, resize. rewrite length_app, length_samples_bytes.
    destruct (Nat.eqb_spec (length front + 4 * length old) (length front + 4 * (length old + length new))) as [He|_].
    { assert (length new = 0%nat) as -> by lia. cbn. by rewrite app_nil_r. }
    unfold MAX_PERMITTED_DATA_INCREASE.
    destruct (Z.ltb_spec (Z.of_nat (length front + 4 * length old) + 10240) (Z.of_nat (length front + 4 * (length old + length new)))); [lia|].
    rewrite take_ge by (rewrite length_app, length_samples_bytes; lia). rewrite app_assoc. do 3 f_equal. lia. }
  rewrite Hr. cbn beta iota delta [mbind R_bind res_bind]. unfold write_front. rewrite Hf, length_app.
  destruct (Nat.ltb_spec (length front + length (samples_bytes old ++ replicate (4 * length new) 0)) (length front)); [lia|].
  rewrite drop_app_length. cbn beta iota delta [mbind R_bind res_bind]. by rewrite copy_samples_spec by by rewrite length_replicate.
Qed.

(** ** What a write does to an account *)

Lemma bind_value {A B : Type} (a : A) (k : A -> R B) r : k a = r -> (x ← Ok a; k x) = r.
Proof. done. Qed.

(** Run the steps whose outcome is known. *)
Ltac go :=
  repeat first [apply bind_reject; [solve [check_ok]|] | apply bind_ensure; [solve [check_ok]|]
    | apply bind_assert; [solve [check_ok]|] | apply bind_value]; cbn beta iota.

Definition device_appended (args : WriteDeviceLatencySamplesArgs) (d : DeviceSamples.t) : DeviceSamples.t :=
  let samples := DeviceSamples.samples d ++ wd_samples args in
  DeviceSamples.mk
    ((stamp_device_header args (DeviceSamples.header d)) <| DeviceHeader.next_sample_index := Z.of_nat (length samples) |>) samples.
Definition internet_appended (args : WriteInternetLatencySamplesArgs) (d : InternetSamples.t) : InternetSamples.t :=
  let samples := InternetSamples.samples d ++ wi_samples args in
  InternetSamples.mk
    ((stamp_internet_header args (InternetSamples.header d)) <| InternetHeader.next_sample_index := Z.of_nat (length samples) |>) samples.

Lemma stamp_device_wf args h n : DeviceHeader.wf h -> instruction_ok (WriteDeviceLatencySamples args) -> is_u32 n ->
  DeviceHeader.wf ((stamp_device_header args h) <| DeviceHeader.next_sample_index := n |>).
Proof.
  intros [] (? & _ & ? & ?) Hn. unfold stamp_device_header.
  destruct (_ =? 0), (bool_decide (wd_agent_version _ <> _)), (bool_decide (wd_agent_commit _ <> _)); by constructor.
Qed.

Lemma stamp_internet_wf args h n : InternetHeader.wf h -> instruction_ok (WriteInternetLatencySamples args) -> is_u32 n ->
  InternetHeader.wf ((stamp_internet_header args h) <| InternetHeader.next_sample_index := n |>).
Proof. intros [] (? & _) Hn. unfold stamp_internet_header. destruct (_ =? 0); by constructor. Qed.

(** What stamping leaves alone. *)
Lemma stamp_device_fixed args h : let h' := stamp_device_header args h in
  DeviceHeader.account_type h' = DeviceHeader.account_type h /\ DeviceHeader.epoch h' = DeviceHeader.epoch h /\
  DeviceHeader.origin_device_agent_pk h' = DeviceHeader.origin_device_agent_pk h /\
  DeviceHeader.origin_device_pk h' = DeviceHeader.origin_device_pk h /\
  DeviceHeader.target_device_pk h' = DeviceHeader.target_device_pk h /\ DeviceHeader.link_pk h' = DeviceHeader.link_pk h /\
  DeviceHeader.next_sample_index h' = DeviceHeader.next_sample_index h /\
  DeviceHeader.start_timestamp_microseconds h' = (if DeviceHeader.start_timestamp_microseconds h =? 0
    then wd_start_timestamp_microseconds args else DeviceHeader.start_timestamp_microseconds h).
Proof.
  unfold stamp_device_header.
  destruct (_ =? 0), (bool_decide (wd_agent_version _ <> _)), (bool_decide (wd_agent_commit _ <> _)); cbn; split_and!; done.
Qed.

Lemma stamp_internet_fixed args h : let h' := stamp_internet_header args h in
  InternetHeader.account_type h' = InternetHeader.account_type h /\ InternetHeader.epoch h' = InternetHeader.epoch h /\
  InternetHeader.data_provider_name h' = InternetHeader.data_provider_name h /\
  InternetHeader.oracle_agent_pk h' = InternetHeader.oracle_agent_pk h /\
  InternetHeader.origin_exchange_pk h' = InternetHeader.origin_exchange_pk h /\
  InternetHeader.target_exchange_pk h' = InternetHeader.target_exchange_pk h /\
  InternetHeader.next_sample_index h' = InternetHeader.next_sample_index h /\
  InternetHeader.start_timestamp_microseconds h' = (if InternetHeader.start_timestamp_microseconds h =? 0
    then wi_start_timestamp_microseconds args else InternetHeader.start_timestamp_microseconds h).
Proof. unfold stamp_internet_header. destruct (_ =? 0); cbn; split_and!; done. Qed.

Section Spec.
Context (program_id : Pubkey).

(** A write to an account of device samples: the answer of every branch. *)
Lemma write_device_spec a agent rest args l d :
  wd_samples args <> [] -> instruction_ok (WriteDeviceLatencySamples args) -> is_signer agent = true ->
  l !! key a = Some (mkAccount program_id (COther (DeviceSamples.serialize d))) ->
  DeviceSamples.wf d -> DeviceHeader.account_type (DeviceSamples.header d) = AccountTypeDeviceLatencySamples ->
  let total := Z.of_nat (length (DeviceSamples.samples d ++ wd_samples args)) in
  process_write_device_latency_samples program_id (a :: agent :: rest) args l =
  if bool_decide (DeviceHeader.origin_device_agent_pk (DeviceSamples.header d) = key agent) then
    if MAX_DEVICE_LATENCY_SAMPLES <? total then Err (PE_Custom (te SamplesAccountFull))
    else if 2560 <? Z.of_nat (length (wd_samples args)) then Err (PE_Custom (te SamplesBatchTooLarge))
    else update_data program_id a (DeviceSamples.serialize (device_appended args d)) l
  else Err (PE_Custom (te UnauthorizedAgent)).
Proof.
  intros Hne Hi Hsig Hl [Hh Hs Hn] Ht total. pose proof (content_account _ _ _ _ Hl) as (Ho & He & Hc).
  assert (Hlen : (DeviceHeader.HEADER_SIZE <=? length (DeviceSamples.serialize d))%nat = true).
  { unfold DeviceSamples.serialize. rewrite length_app, DeviceHeader.device_length_serialize by done. apply Nat.leb_le. lia. }
  assert (Ht' : (DeviceHeader.account_type (DeviceSamples.header d) =? AccountTypeDeviceLatencySamples) = true) by (by rewrite Ht).
  unfold process_write_device_latency_samples. go. unfold account_data. rewrite Hc. go.
  replace (DeviceHeader.try_from _) with (Some (DeviceSamples.header d))
    by (symmetry; apply device_header_try_from; [done|rewrite Ht; unfold AccountTypeDeviceLatencySamples; lia]).
  go. rewrite Hn. destruct (bool_decide (DeviceHeader.origin_device_agent_pk _ = _)) eqn:Hag; [|done]. go.
  replace (Z.of_nat (length (DeviceSamples.samples d)) + Z.of_nat (length (wd_samples args))) with total
    by (unfold total; rewrite length_app; lia).
  destruct (Z.ltb_spec MAX_DEVICE_LATENCY_SAMPLES total) as [|Htot]; [done|]. go.
  unfold MAX_PERMITTED_DATA_INCREASE. change (10240 / 4) with 2560.
  destruct (Z.ltb_spec 2560 (Z.of_nat (length (wd_samples args)))) as [|Hlen']; [done|]. go.
  assert (Hu : is_u32 total) by (unfold is_u, MAX_DEVICE_LATENCY_SAMPLES in *; unfold total in *; lia).
  destruct (stamp_device_fixed args (DeviceSamples.header d)) as (_ & _ & _ & _ & _ & _ & Hnext & _).
  rewrite Hnext, Hn. replace (Z.of_nat (length (DeviceSamples.samples d)) + Z.of_nat (length (wd_samples args))) with total
    by (unfold total; rewrite length_app; lia).
  rewrite wrap_id, Nat2Z.id by done.
  pose proof (stamp_device_wf args _ total Hh Hi Hu) as Hwf.
  etransitivity; [refine (append_data _ _ _ _ _ (fun x => update_data program_id a x l) _ _ _)|reflexivity];
    [by rewrite !DeviceHeader.device_length_serialize| |done].
  rewrite DeviceHeader.device_length_serialize by done. cbn. unfold total. rewrite Nat2Z.id, length_app. lia.
Qed.

Lemma write_internet_spec a agent rest args l d :
  wi_samples args <> [] -> instruction_ok (WriteInternetLatencySamples args) -> is_signer agent = true ->
  l !! key a = Some (mkAccount program_id (COther (InternetSamples.serialize d))) ->
  InternetSamples.wf d -> InternetHeader.account_type (InternetSamples.header d) = AccountTypeInternetLatencySamples ->
  InternetHeader.data_provider_name (InternetSamples.header d) <> [] ->
  let total := Z.of_nat (length (InternetSamples.samples d ++ wi_samples args)) in
  process_write_internet_latency_samples program_id (a :: agent :: rest) args l =
  if bool_decide (InternetHeader.oracle_agent_pk (InternetSamples.header d) = key agent) then
    if MAX_INTERNET_LATENCY_SAMPLES <? total then Err (PE_Custom (te SamplesAccountFull))
    else if 2560 <? Z.of_nat (length (wi_samples args)) then Err (PE_Custom (te SamplesBatchTooLarge))
    else update_data program_id a (InternetSamples.serialize (internet_appended args d)) l
  else Err (PE_Custom (te UnauthorizedAgent)).
Proof.
  intros Hne Hi Hsig Hl [Hh Hs Hn] Ht Hname total. pose proof (content_account _ _ _ _ Hl) as (Ho & He & Hc).
  assert (Ht' : (InternetHeader.account_type (InternetSamples.header d) =? AccountTypeInternetLatencySamples) = true) by (by rewrite Ht).
  unfold process_write_internet_latency_samples. go. unfold account_data. rewrite Hc. go.
  replace (InternetHeader.try_from _) with (@Ok unit _ (InternetSamples.header d))
    by (symmetry; apply internet_header_try_from; [done|rewrite Ht; unfold AccountTypeInternetLatencySamples; lia|done]).
  go. rewrite Hn. destruct (bool_decide (InternetHeader.oracle_agent_pk _ = _)) eqn:Hag; [|done]. go.
  replace (Z.of_nat (length (InternetSamples.samples d)) + Z.of_nat (length (wi_samples args))) with total
    by (unfold total; rewrite length_app; lia).
  destruct (Z.ltb_spec MAX_INTERNET_LATENCY_SAMPLES total) as [|Htot]; [done|]. go.
  unfold MAX_PERMITTED_DATA_INCREASE. change (10240 / 4) with 2560.
  destruct (Z.ltb_spec 2560 (Z.of_nat (length (wi_samples args)))) as [|Hlen']; [done|]. go.
  assert (Hu : is_u32 total) by (unfold is_u, MAX_INTERNET_LATENCY_SAMPLES in *; unfold total in *; lia).
  destruct (stamp_internet_fixed args (InternetSamples.header d)) as (_ & _ & Hnm & _ & _ & _ & Hnext & _).
  rewrite Hnext, Hn. replace (Z.of_nat (length (InternetSamples.samples d)) + Z.of_nat (length (wi_samples args))) with total
    by (unfold total; rewrite length_app; lia).
  rewrite wrap_id, Nat2Z.id by done.
  pose proof (stamp_internet_wf args _ total Hh Hi Hu) as Hwf.
  etransitivity; [refine (append_data _ _ _ _ _ (fun x => update_data program_id a x l) _ _ _)|reflexivity];
    [rewrite !InternetHeader.internet_length_serialize by done; cbn; by rewrite Hnm| |done].
  rewrite InternetHeader.internet_length_serialize by done. cbn. rewrite Hnm. unfold total. rewrite Nat2Z.id, length_app. lia.
Qed.
End Spec.

(** ** Histories

    The writes an account has accepted, in order: who signed, the time given
    and the samples. *)

Record batch := mkBatch { by_agent : Pubkey; b_start : Z; b_samples : list Z }.
Abbreviation history := (gmap Pubkey (list batch)).

Definition samples_of (bs : list batch) : list Z := concat (b_samples <$> bs).
(** The first time that is not zero. *)
Definition start_of (bs : list batch) : Z := fold_left (fun s b => if s =? 0 then b_start b else s) bs 0.

Lemma samples_of_snoc bs b : samples_of (bs ++ [b]) = samples_of bs ++ b_samples b.
Proof. unfold samples_of. rewrite fmap_app, concat_app. cbn. by rewrite app_nil_r. Qed.

Lemma start_of_snoc bs b : start_of (bs ++ [b]) = if start_of bs =? 0 then b_start b else start_of bs.
Proof. unfold start_of. by rewrite fold_left_app. Qed.

Section Reachable.
Context `{Hreader : !IncrementalReader} (find_program_address : list bytes -> Pubkey -> Pubkey * Z).
Context (program_id serviceability_program_id : Pubkey).
#[local] Abbreviation process := (process_instruction find_program_address program_id serviceability_program_id).
#[local] Abbreviation device_pda := (derive_device_latency_samples_pda find_program_address program_id).
#[local] Abbreviation internet_pda := (derive_internet_latency_samples_pda find_program_address program_id).

Definition written (i : TelemetryInstruction) (agent : Pubkey) : option batch :=
  match i with
  | WriteDeviceLatencySamples a => Some (mkBatch agent (wd_start_timestamp_microseconds a) (wd_samples a))
  | WriteInternetLatencySamples a => Some (mkBatch agent (wi_start_timestamp_microseconds a) (wi_samples a))
  | _ => None
  end.

Definition record_batch (accounts : list meta) (i : TelemetryInstruction) (h : history) : history :=
  match accounts with
  | a :: agent :: _ =>
      match written i (key agent) with Some b => <[key a := h !!! key a ++ [b]]> h | None => h end
  | _ => h
  end.

(** Public keys have 32 bytes. *)
Definition locations_ok (l : ledger) : Prop :=
  forall k d, content_of l k = Some (CDevice d) -> length (Device.location_pk d) = 32%nat.

(** What the other programs can do: they leave the accounts of this one. *)
Definition others_step (l l' : ledger) : Prop :=
  locations_ok l' /\ (forall k, owner_of l k = program_id -> l' !! k = l !! k) /\
  (forall k, owner_of l k <> program_id -> owner_of l' k <> program_id).

(** The ledgers that any instructions, sent by anyone, lead to. *)
Inductive reachable : ledger -> history -> Prop :=
| reach_start l : locations_ok l -> (forall k, owner_of l k <> program_id) -> reachable l ∅
| reach_others l l' h : reachable l h -> others_step l l' -> reachable l' h
| reach_instruction l h accounts data i l' : reachable l h ->
    Forall (fun a => length (key a) = 32%nat) (tail accounts) -> unpack data = Ok i ->
    process accounts data l = Ok l' -> reachable l' (record_batch accounts i h).

Record device_account (k : Pubkey) (data : bytes) (bs : list batch) (d : DeviceSamples.t) : Prop := mk_device_account {
  da_data : data = DeviceSamples.serialize d;
  da_wf : DeviceSamples.wf d;
  da_type : DeviceHeader.account_type (DeviceSamples.header d) = AccountTypeDeviceLatencySamples;
  da_samples : DeviceSamples.samples d = samples_of bs;
  da_limit : Z.of_nat (length (DeviceSamples.samples d)) <= MAX_DEVICE_LATENCY_SAMPLES;
  da_key : let h := DeviceSamples.header d in
    k = (device_pda (DeviceHeader.origin_device_pk h) (DeviceHeader.target_device_pk h) (DeviceHeader.link_pk h) (DeviceHeader.epoch h)).1;
  da_agent : Forall (fun b => by_agent b = DeviceHeader.origin_device_agent_pk (DeviceSamples.header d)) bs;
  da_start : DeviceHeader.start_timestamp_microseconds (DeviceSamples.header d) = start_of bs
}.

Record internet_account (k : Pubkey) (data : bytes) (bs : list batch) (d : InternetSamples.t) : Prop := mk_internet_account {
  ia_data : data = InternetSamples.serialize d;
  ia_wf : InternetSamples.wf d;
  ia_type : InternetHeader.account_type (InternetSamples.header d) = AccountTypeInternetLatencySamples;
  ia_samples : InternetSamples.samples d = samples_of bs;
  ia_limit : Z.of_nat (length (InternetSamples.samples d)) <= MAX_INTERNET_LATENCY_SAMPLES;
  ia_key : let h := InternetSamples.header d in
    k = (internet_pda (InternetHeader.oracle_agent_pk h) (InternetHeader.data_provider_name h) (InternetHeader.origin_exchange_pk h)
           (InternetHeader.target_exchange_pk h) (InternetHeader.epoch h)).1;
  ia_agent : Forall (fun b => by_agent b = InternetHeader.oracle_agent_pk (InternetSamples.header d)) bs;
  ia_start : InternetHeader.start_timestamp_microseconds (InternetSamples.header d) = start_of bs;
  ia_named : InternetHeader.data_provider_name (InternetSamples.header d) <> [] \/ bs = []
}.

(** Every account of the program holds its history. *)
Definition account_ok (k : Pubkey) (c : content) (bs : list batch) : Prop :=
  exists data, c = COther data /\
    ((exists d, device_account k data bs d) \/ (exists d, internet_account k data bs d)).
Definition accounts_ok (l : ledger) (h : history) : Prop :=
  forall k, match l !! k with
            | Some a => if bool_decide (acc_owner a = program_id) then account_ok k (acc_content a) (h !!! k) else h !!! k = []
            | None => h !!! k = []
            end.

Hypothesis not_system : program_id <> SYSTEM_PROGRAM_ID.

Lemma accounts_ok_owned l h k : accounts_ok l h -> owner_of l k = program_id ->
  exists c, l !! k = Some (mkAccount program_id c) /\ account_ok k c (h !!! k).
Proof.
  intros Hok Ho. specialize (Hok k). unfold owner_of in Ho. destruct (l !! k) as [[o c]|]; cbn in *; [|congruence].
  subst o. rewrite bool_decide_true in Hok by done. eauto.
Qed.

Lemma accounts_ok_free l h k : accounts_ok l h -> owner_of l k <> program_id -> h !!! k = [].
Proof.
  intros Hok Ho. specialize (Hok k). unfold owner_of in Ho. destruct (l !! k) as [a|]; [|done].
  by rewrite bool_decide_false in Hok.
Qed.

Lemma accounts_ok_update l h k c bs : accounts_ok l h -> account_ok k c bs ->
  accounts_ok (<[k := mkAccount program_id c]> l) (<[k := bs]> h).
Proof.
  intros Hok Hc k'. destruct (decide (k' = k)) as [->|Hne].
  - rewrite lookup_insert_eq, lookup_total_insert_eq. cbn. by rewrite bool_decide_true.
  - rewrite lookup_insert_ne, lookup_total_insert_ne by done. apply Hok.
Qed.

Lemma accounts_ok_create l h k c : accounts_ok l h -> data_is_empty l k = true -> account_ok k c [] ->
  accounts_ok (<[k := mkAccount program_id c]> l) h.
Proof.
  intros Hok He%bool_decide_eq_true Hc k'. destruct (decide (k' = k)) as [->|Hne].
  - rewrite lookup_insert_eq. cbn. rewrite bool_decide_true by done. specialize (Hok k). rewrite He in Hok. by rewrite Hok.
  - rewrite lookup_insert_ne by done. apply Hok.
Qed.

Lemma accounts_ok_others l l' h : accounts_ok l h -> others_step l l' -> accounts_ok l' h.
Proof.
  intros Hok (_ & Hkeep & Hfree) k. destruct (decide (owner_of l k = program_id)) as [Ho|Ho].
  - rewrite Hkeep by done. apply Hok.
  - rewrite (accounts_ok_free l h k Hok Ho). apply Hfree in Ho. unfold owner_of in Ho. destruct (l' !! k); [|done].
    by rewrite bool_decide_false.
Qed.

Lemma device_account_append k data bs d args agent : device_account k data bs d ->
  instruction_ok (WriteDeviceLatencySamples args) -> DeviceHeader.origin_device_agent_pk (DeviceSamples.header d) = agent ->
  Z.of_nat (length (DeviceSamples.samples d ++ wd_samples args)) <= MAX_DEVICE_LATENCY_SAMPLES ->
  device_account k (DeviceSamples.serialize (device_appended args d))
    (bs ++ [mkBatch agent (wd_start_timestamp_microseconds args) (wd_samples args)]) (device_appended args d).
Proof.
  intros [_ [Hwf Hs Hn] Ht Hsam _ Hk Hag Hst] Hi Ha Hl.
  destruct (stamp_device_fixed args (DeviceSamples.header d)) as (E1 & E2 & E3 & E4 & E5 & E6 & _ & E8).
  assert (Hu : is_u32 (Z.of_nat (length (DeviceSamples.samples d ++ wd_samples args))))
    by (unfold is_u, MAX_DEVICE_LATENCY_SAMPLES in *; lia).
  pose proof Hi as (_ & [Hs' _] & _).
  constructor; cbn [device_appended DeviceSamples.header DeviceSamples.samples]; [done| |cbn; congruence| |done|cbn..].
  - constructor; cbn [DeviceSamples.header DeviceSamples.samples]; [by apply stamp_device_wf|by apply Forall_app|done].
  - by rewrite samples_of_snoc, Hsam.
  - rewrite E2, E4, E5, E6. exact Hk.
  - rewrite E3. apply Forall_app. split; [done|]. by repeat constructor.
  - by rewrite E8, start_of_snoc, Hst.
Qed.

Lemma internet_account_append k data bs d args agent : internet_account k data bs d ->
  InternetHeader.data_provider_name (InternetSamples.header d) <> [] ->
  instruction_ok (WriteInternetLatencySamples args) -> InternetHeader.oracle_agent_pk (InternetSamples.header d) = agent ->
  Z.of_nat (length (InternetSamples.samples d ++ wi_samples args)) <= MAX_INTERNET_LATENCY_SAMPLES ->
  internet_account k (InternetSamples.serialize (internet_appended args d))
    (bs ++ [mkBatch agent (wi_start_timestamp_microseconds args) (wi_samples args)]) (internet_appended args d).
Proof.
  intros [_ [Hwf Hs Hn] Ht Hsam _ Hk Hag Hst _] Hname Hi Ha Hl.
  destruct (stamp_internet_fixed args (InternetSamples.header d)) as (E1 & E2 & E3 & E4 & E5 & E6 & _ & E8).
  assert (Hu : is_u32 (Z.of_nat (length (InternetSamples.samples d ++ wi_samples args))))
    by (unfold is_u, MAX_INTERNET_LATENCY_SAMPLES in *; lia).
  pose proof Hi as (_ & Hs' & _).
  constructor; cbn [internet_appended InternetSamples.header InternetSamples.samples]; [done| |cbn; congruence| |done|cbn..].
  - constructor; cbn [InternetSamples.header InternetSamples.samples]; [by apply stamp_internet_wf|by apply Forall_app|done].
  - by rewrite samples_of_snoc, Hsam.
  - rewrite E2, E3, E4, E5, E6. exact Hk.
  - rewrite E4. apply Forall_app. split; [done|]. by repeat constructor.
  - by rewrite E8, start_of_snoc, Hst.
  - left. by rewrite E3.
Qed.

Lemma update_data_ok a data l l' : update_data program_id a data l = Ok l' ->
  l' = <[key a := mkAccount program_id (COther data)]> l.
Proof. unfold update_data. intros H. by inv_ok. Qed.

Lemma device_head d : head (DeviceSamples.serialize d) = Some (DeviceHeader.account_type (DeviceSamples.header d)).
Proof. done. Qed.
Lemma internet_head d : head (InternetSamples.serialize d) = Some (InternetHeader.account_type (InternetSamples.header d)).
Proof. done. Qed.

Lemma one_account {A : Type} accounts (k : meta -> list meta -> R A) x :
  ('(a, rest) ← next_account_info accounts; k a rest) = Ok x -> exists a rest, accounts = a :: rest /\ k a rest = Ok x.
Proof. destruct accounts as [|a rest]; cbn; [done|eauto]. Qed.

Lemma locations_ok_insert l k data : locations_ok l -> locations_ok (<[k := mkAccount program_id (COther data)]> l).
Proof.
  intros H k' d. unfold content_of. destruct (decide (k' = k)) as [->|?]; [by rewrite lookup_insert_eq|].
  rewrite lookup_insert_ne by done. apply H.
Qed.

Lemma two_accounts {A : Type} accounts (k : meta -> meta -> R A) x :
  ('(a, rest) ← next_account_info accounts; '(agent, _) ← next_account_info rest; k a agent) = Ok x ->
  exists a agent rest, accounts = a :: agent :: rest /\ k a agent = Ok x.
Proof. destruct accounts as [|a [|agent rest]]; cbn; [done..|eauto]. Qed.

(** A write that succeeds names an account of the program, and a signer. *)
Lemma write_device_inv accounts args l l' :
  process_write_device_latency_samples program_id accounts args l = Ok l' ->
  exists a agent rest, accounts = a :: agent :: rest /\ wd_samples args <> [] /\ is_signer agent = true /\
    owner_of l (key a) = program_id.
Proof.
  unfold process_write_device_latency_samples. intros (_ & H0%reject_ok & H)%bind_ok. apply bool_decide_eq_false in H0.
  apply two_accounts in H as (a & agent & rest & -> & H). apply bind_ok in H as (_ & Hs%ensure_ok & H).
  apply bind_ok in H as (_ & _ & H). apply bind_ok in H as (_ & Ho%reject_ok & _).
  apply negb_false_iff, bool_decide_eq_true in Ho. eauto 8.
Qed.

Lemma write_internet_inv accounts args l l' :
  process_write_internet_latency_samples program_id accounts args l = Ok l' ->
  exists a agent rest, accounts = a :: agent :: rest /\ wi_samples args <> [] /\ is_signer agent = true /\
    owner_of l (key a) = program_id.
Proof.
  unfold process_write_internet_latency_samples. intros (_ & H0%reject_ok & H)%bind_ok. apply bool_decide_eq_false in H0.
  apply two_accounts in H as (a & agent & rest & -> & H). apply bind_ok in H as (_ & Hs%ensure_ok & H).
  apply bind_ok in H as (_ & _ & H). apply bind_ok in H as (_ & Ho%reject_ok & _).
  apply negb_false_iff, bool_decide_eq_true in Ho. eauto 8.
Qed.

(** A write to the other kind of account is refused. *)
Lemma write_device_type a agent rest args l l' data : l !! key a = Some (mkAccount program_id (COther data)) ->
  process_write_device_latency_samples program_id (a :: agent :: rest) args l = Ok l' ->
  head data = Some AccountTypeDeviceLatencySamples.
Proof.
  intros (_ & _ & Hc)%content_account. unfold process_write_device_latency_samples. intros (_ & _ & H)%bind_ok.
  apply two_accounts in H as (? & ? & ? & [= <- <- <-] & H). do 3 apply bind_ok in H as (_ & _ & H).
  apply bind_ok in H as (data' & Hd & H). unfold account_data in Hd. rewrite Hc in Hd. injection Hd as <-.
  apply bind_ok in H as (_ & _ & H). apply bind_ok in H as (h & Hh & H).
  destruct (DeviceHeader.try_from _) as [h'|] eqn:Hf; [injection Hh as ->|done]. apply bind_ok in H as (_ & Ht%reject_ok & _).
  apply negb_false_iff, Z.eqb_eq in Ht as <-. apply device_type_first in Hf as <-. by destruct data.
Qed.

Lemma write_internet_type a agent rest args l l' data : l !! key a = Some (mkAccount program_id (COther data)) ->
  process_write_internet_latency_samples program_id (a :: agent :: rest) args l = Ok l' ->
  head data = Some AccountTypeInternetLatencySamples.
Proof.
  intros (_ & _ & Hc)%content_account. unfold process_write_internet_latency_samples. intros (_ & _ & H)%bind_ok.
  apply two_accounts in H as (? & ? & ? & [= <- <- <-] & H). do 3 apply bind_ok in H as (_ & _ & H).
  apply bind_ok in H as (data' & Hd & H). unfold account_data in Hd. rewrite Hc in Hd. injection Hd as <-.
  apply bind_ok in H as (h & Hh & H).
  destruct (InternetHeader.try_from data) as [h'| |] eqn:Hf; [injection Hh as ->|done..]. apply bind_ok in H as (_ & Ht%reject_ok & _).
  apply negb_false_iff, Z.eqb_eq in Ht as <-. by apply internet_type_first in Hf as <-.
Qed.

(** An account without a provider's name is too short for the reader. *)
Lemma write_internet_named a agent rest args l l' d :
  l !! key a = Some (mkAccount program_id (COther (InternetSamples.serialize d))) -> InternetSamples.wf d ->
  process_write_internet_latency_samples program_id (a :: agent :: rest) args l = Ok l' ->
  InternetHeader.data_provider_name (InternetSamples.header d) <> [] \/ InternetSamples.samples d <> [].
Proof.
  intros (_ & _ & Hc)%content_account [Hh _ _]. unfold process_write_internet_latency_samples. intros (_ & _ & H)%bind_ok.
  apply two_accounts in H as (? & ? & ? & [= <- <- <-] & H). do 3 apply bind_ok in H as (_ & _ & H).
  apply bind_ok in H as (data' & Hd & H). unfold account_data in Hd. rewrite Hc in Hd. injection Hd as <-.
  destruct (decide (InternetHeader.data_provider_name (InternetSamples.header d) = [])) as [Hn|]; [right|by left].
  intros Hs. apply bind_ok in H as (h & He & _). unfold InternetHeader.try_from, InternetSamples.serialize in He.
  rewrite length_app, InternetHeader.internet_length_serialize, Hs, Hn in He by done. done.
Qed.

(** What a write does, in terms of the accounts' histories. *)
Lemma write_device_effect accounts args l l' h : accounts_ok l h -> instruction_ok (WriteDeviceLatencySamples args) ->
  process_write_device_latency_samples program_id accounts args l = Ok l' ->
  exists a agent rest d, accounts = a :: agent :: rest /\ is_signer agent = true /\
    l !! key a = Some (mkAccount program_id (COther (DeviceSamples.serialize d))) /\
    device_account (key a) (DeviceSamples.serialize d) (h !!! key a) d /\
    DeviceHeader.origin_device_agent_pk (DeviceSamples.header d) = key agent /\
    (Z.of_nat (length (DeviceSamples.samples d ++ wd_samples args)) <= MAX_DEVICE_LATENCY_SAMPLES /\
     Z.of_nat (length (wd_samples args)) <= 2560) /\
    l' = <[key a := mkAccount program_id (COther (DeviceSamples.serialize (device_appended args d)))]> l.
Proof.
  intros Hok Hi Hw. pose proof Hw as (a & agent & rest & -> & Hne & Hs & Ho)%write_device_inv.
  destruct (accounts_ok_owned l h _ Hok Ho) as (c & Hl & data & -> & Hacc).
  pose proof (write_device_type _ _ _ _ _ _ _ Hl Hw) as Ht. destruct Hacc as [[d Hd]|[d Hd]].
  - pose proof Hd as [-> Hwf Hty _ _ _ _ _].
    rewrite (write_device_spec program_id a agent rest args l d) in Hw by done. revert Hw. case_bool_decide as Hag; [|done].
    case_match eqn:Hfull; [done|]. case_match; [done|]. intros ->%update_data_ok.
    exists a, agent, rest, d. split_and!; [done..|lia|lia|done].
  - pose proof Hd as [-> Hwf Hty _ _ _ _ _ _]. rewrite internet_head, Hty in Ht. done.
Qed.

Lemma write_internet_effect accounts args l l' h : accounts_ok l h -> instruction_ok (WriteInternetLatencySamples args) ->
  process_write_internet_latency_samples program_id accounts args l = Ok l' ->
  exists a agent rest d, accounts = a :: agent :: rest /\ is_signer agent = true /\
    l !! key a = Some (mkAccount program_id (COther (InternetSamples.serialize d))) /\
    internet_account (key a) (InternetSamples.serialize d) (h !!! key a) d /\
    InternetHeader.data_provider_name (InternetSamples.header d) <> [] /\
    InternetHeader.oracle_agent_pk (InternetSamples.header d) = key agent /\
    (Z.of_nat (length (InternetSamples.samples d ++ wi_samples args)) <= MAX_INTERNET_LATENCY_SAMPLES /\
     Z.of_nat (length (wi_samples args)) <= 2560) /\
    l' = <[key a := mkAccount program_id (COther (InternetSamples.serialize (internet_appended args d)))]> l.
Proof.
  intros Hok Hi Hw. pose proof Hw as (a & agent & rest & -> & Hne & Hs & Ho)%write_internet_inv.
  destruct (accounts_ok_owned l h _ Hok Ho) as (c & Hl & data & -> & Hacc).
  pose proof (write_internet_type _ _ _ _ _ _ _ Hl Hw) as Ht. destruct Hacc as [[d Hd]|[d Hd]].
  - pose proof Hd as [-> _ Hty _ _ _ _ _]. rewrite device_head, Hty in Ht. done.
  - pose proof Hd as [-> Hwf Hty Hsam _ _ _ _ Hnm].
    assert (Hname : InternetHeader.data_provider_name (InternetSamples.header d) <> []).
    { destruct (write_internet_named _ _ _ _ _ _ _ Hl Hwf Hw) as [|Hx]; [done|]. destruct Hnm as [|Hbs]; [done|].
      by rewrite Hsam, Hbs in Hx. }
    rewrite (write_internet_spec program_id a agent rest args l d) in Hw by done. revert Hw. case_bool_decide as Hag; [|done].
    case_match eqn:Hfull; [done|]. case_match; [done|]. intros ->%update_data_ok.
    exists a, agent, rest, d. split_and!; [done..|lia|lia|done].
Qed.

Lemma create_with_header_ok accounts a payer space header l l' : length header = space ->
  create_with_header program_id accounts a payer space header l = Ok l' ->
  data_is_empty l (key a) = true /\ l' = <[key a := mkAccount program_id (COther header)]> l.
Proof.
  intros Hlen. unfold create_with_header, write_front. intros (_ & H0%ensure_ok & H)%bind_ok.
  rewrite length_replicate, Hlen, Nat.ltb_irrefl in H. apply bind_ok in H as ([f r] & [= <- <-] & [= <-]).
  rewrite drop_ge by (rewrite length_replicate; lia). rewrite app_nil_r. split; [|done].
  by apply andb_true_iff in H0 as [_ ?].
Qed.

Lemma try_from_inv {A : Type} (proj : content -> option A) l (a : meta) x : try_from proj l a = Ok x ->
  exists c, content_of l (key a) = Some c /\ proj c = Some x.
Proof.
  unfold try_from. destruct (content_of l (key a)) as [c|]; cbn; [|done]. destruct (proj c) eqn:Hp; [|done].
  intros [= ->]. eauto.
Qed.

Lemma device_location_ok l a d : locations_ok l -> Device_try_from l a = Ok d -> length (Device.location_pk d) = 32%nat.
Proof. intros Hl (c & Hc & Hp)%try_from_inv. destruct c; try done. injection Hp as ->. by eapply Hl. Qed.

Lemma init_device_effect accounts args l l' : locations_ok l ->
  Forall (fun a => length (key a) = 32%nat) (tail accounts) ->
  instruction_ok (InitializeDeviceLatencySamples args) ->
  process_initialize_device_latency_samples find_program_address program_id serviceability_program_id accounts args l = Ok l' ->
  exists a agent rest data, accounts = a :: agent :: rest /\ is_signer agent = true /\ data_is_empty l (key a) = true /\
    (exists d, device_account (key a) data [] d /\ DeviceHeader.origin_device_agent_pk (DeviceSamples.header d) = key agent) /\
    l' = <[key a := mkAccount program_id (COther data)]> l.
Proof.
  intros Hloc Hacc (Hi1 & Hi2 & Hi3 & Hi4) H. unfold process_initialize_device_latency_samples in H.
  apply bind_ok in H as (_ & _ & H).
  apply one_account in H as (a & ? & -> & H). apply one_account in H as (agent & ? & -> & H).
  apply one_account in H as (origin & ? & -> & H). apply one_account in H as (target & ? & -> & H).
  apply one_account in H as (link & ? & -> & H). apply one_account in H as (sys & ? & -> & H). cbn [tail] in Hacc.
  apply bind_ok in H as (_ & Hsig%ensure_ok & H). do 3 apply bind_ok in H as (_ & _ & H). apply bind_ok in H as (od & Hod & H). do 2 apply bind_ok in H as (_ & _ & H).
  apply bind_ok in H as (td & Htd & H). apply bind_ok in H as (_ & _ & H). apply bind_ok in H as (lk & _ & H).
  do 2 apply bind_ok in H as (_ & _ & H). apply bind_ok in H as (_ & Hk%reject_ok & H).
  apply negb_false_iff, bool_decide_eq_true in Hk. apply bind_ok in H as (_ & _ & H).
  apply device_location_ok in Hod; [|done]. apply device_location_ok in Htd; [|done].
  repeat match goal with H : Forall _ (_ :: _) |- _ => apply Forall_cons in H as [? H] end.
  set (header := DeviceHeader.mk _ _ _ _ _ _ _ _ _ _ _ _ _ _) in H.
  assert (Hwf : DeviceHeader.wf header) by by constructor.
  apply create_with_header_ok in H as [He ->]; [|by apply DeviceHeader.device_length_serialize].
  eexists a, agent, _, _. split_and!; [done..| |done]. exists (DeviceSamples.mk header []). split; [|done]. constructor; cbn [DeviceSamples.header DeviceSamples.samples]; try done.
  unfold DeviceSamples.serialize. cbn [DeviceSamples.header DeviceSamples.samples]. by rewrite app_nil_r.
Qed.

Lemma init_internet_effect accounts args l l' :
  Forall (fun a => length (key a) = 32%nat) (tail accounts) ->
  instruction_ok (InitializeInternetLatencySamples args) ->
  process_initialize_internet_latency_samples find_program_address program_id serviceability_program_id accounts args l = Ok l' ->
  exists a agent rest data, accounts = a :: agent :: rest /\ is_signer agent = true /\ data_is_empty l (key a) = true /\
    (exists d, internet_account (key a) data [] d /\ InternetHeader.oracle_agent_pk (InternetSamples.header d) = key agent) /\
    l' = <[key a := mkAccount program_id (COther data)]> l.
Proof.
  intros Hacc (Hi1 & Hi2 & Hi3 & Hi4) H. unfold process_initialize_internet_latency_samples in H.
  apply bind_ok in H as (_ & Hn%reject_ok & H). apply bind_ok in H as (_ & _ & H).
  apply one_account in H as (a & ? & -> & H). apply one_account in H as (agent & ? & -> & H).
  apply one_account in H as (origin & ? & -> & H). apply one_account in H as (target & ? & -> & H).
  apply one_account in H as (sys & ? & -> & H). cbn [tail] in Hacc.
  apply bind_ok in H as (_ & Hsig%ensure_ok & H). do 2 apply bind_ok in H as (_ & _ & H). apply bind_ok in H as (oe & _ & H). apply bind_ok in H as (_ & _ & H).
  apply bind_ok in H as (te & _ & H). do 2 apply bind_ok in H as (_ & _ & H). apply bind_ok in H as (_ & Hk%reject_ok & H).
  apply negb_false_iff, bool_decide_eq_true in Hk. apply bind_ok in H as (_ & _ & H).
  repeat match goal with H : Forall _ (_ :: _) |- _ => apply Forall_cons in H as [? H] end.
  set (header := InternetHeader.mk _ _ _ _ _ _ _ _ _ _) in H.
  assert (Hwf : InternetHeader.wf header) by (constructor; cbn; try done; lia).
  apply create_with_header_ok in H as [He ->]; [|by apply InternetHeader.internet_length_serialize].
  eexists a, agent, _, _. split_and!; [done..| |done]. exists (InternetSamples.mk header []). split; [|done]. constructor; cbn [InternetSamples.header InternetSamples.samples]; try done; [|by right].
  unfold InternetSamples.serialize. cbn [InternetSamples.header InternetSamples.samples]. by rewrite app_nil_r.
Qed.

Lemma unpack_typed data i : unpack data = Ok i -> instruction_ok i.
Proof.
  unfold unpack. destruct data as [|index rest]; [done|]. case_match; [|done].
  destruct (read_args index rest) eqn:Hr; [|done]. intros [= ->]. by eapply read_typed.
Qed.

Lemma record_create accounts i h : (forall k, written i k = None) -> record_batch accounts i h = h.
Proof. intros Hw. destruct accounts as [|a [|agent rest]]; [done..|]. cbn. by rewrite Hw. Qed.

(** The agent of an account of device samples. *)
Definition device_of (k : Pubkey) (data : bytes) (bs : list batch) (agent : Pubkey) : Prop :=
  exists d, device_account k data bs d /\ DeviceHeader.origin_device_agent_pk (DeviceSamples.header d) = agent.
Definition internet_of (k : Pubkey) (data : bytes) (bs : list batch) (agent : Pubkey) : Prop :=
  exists d, internet_account k data bs d /\ InternetHeader.oracle_agent_pk (InternetSamples.header d) = agent.
Definition account_of (k : Pubkey) (data : bytes) (bs : list batch) (agent : Pubkey) : Prop :=
  device_of k data bs agent \/ internet_of k data bs agent.

Lemma account_of_ok k data bs agent : account_of k data bs agent -> account_ok k (COther data) bs.
Proof. intros [(d & Hd & _)|(d & Hd & _)]; eexists; eauto. Qed.

(** An instruction creates an account with an empty history for its signer, or
    is a write that the agent of the account has signed. *)
Lemma instruction_cases accounts data i l l' h : accounts_ok l h -> locations_ok l ->
  Forall (fun a => length (key a) = 32%nat) (tail accounts) -> unpack data = Ok i -> process accounts data l = Ok l' ->
  exists a agent rest data' bs, accounts = a :: agent :: rest /\ is_signer agent = true /\
    l' = <[key a := mkAccount program_id (COther data')]> l /\ account_of (key a) data' bs (key agent) /\
    (data_is_empty l (key a) = true /\ bs = [] /\ record_batch accounts i h = h \/
     record_batch accounts i h = <[key a := bs]> h /\
     exists data, l !! key a = Some (mkAccount program_id (COther data)) /\ account_of (key a) data (h !!! key a) (key agent)).
Proof.
  intros Hok Hloc Hacc Hu Hp. pose proof (unpack_typed _ _ Hu) as Hi. unfold OnchainTelemetry.process_instruction in Hp.
  rewrite Hu in Hp. cbn in Hp. destruct i as [args|args|args|args].
  - apply init_device_effect in Hp as (a & agent & rest & data' & -> & Hs & He & Hnew & ->); [|done..].
    eexists a, agent, rest, data', []. split_and!; [done..|by left|by left].
  - eapply write_device_effect in Hp as (a & agent & rest & d & -> & Hs & Hl & Hd & Hag & [Hmax _] & ->); [|done..].
    eexists a, agent, rest, _, _. split_and!; [done..| |right; split; [done|]; eexists; split; [done|]; left; by exists d].
    left. eexists. split; [by apply device_account_append with (1 := Hd)|]. cbn. rewrite <- Hag. apply stamp_device_fixed.
  - apply init_internet_effect in Hp as (a & agent & rest & data' & -> & Hs & He & Hnew & ->); [|done..].
    eexists a, agent, rest, data', []. split_and!; [done..|by right|by left].
  - eapply write_internet_effect in Hp as (a & agent & rest & d & -> & Hs & Hl & Hd & Hn & Hag & [Hmax _] & ->); [|done..].
    eexists a, agent, rest, _, _. split_and!; [done..| |right; split; [done|]; eexists; split; [done|]; right; by exists d].
    right. eexists. split; [by apply internet_account_append with (1 := Hd)|]. cbn. rewrite <- Hag. apply stamp_internet_fixed.
Qed.

Lemma instruction_preserves accounts data i l l' h : accounts_ok l h -> locations_ok l ->
  Forall (fun a => length (key a) = 32%nat) (tail accounts) -> unpack data = Ok i -> process accounts data l = Ok l' ->
  accounts_ok l' (record_batch accounts i h) /\ locations_ok l'.
Proof.
  intros Hok Hloc Hacc Hu Hp.
  destruct (instruction_cases accounts data i l l' h) as (a & agent & rest & data' & bs & -> & Hs & -> & Hnew & Hcase); [done..|].
  split; [|by apply locations_ok_insert]. destruct Hcase as [(He & -> & ->)|(-> & _)];
    [by eapply accounts_ok_create, account_of_ok|by eapply accounts_ok_update, account_of_ok].
Qed.

(** Every reachable account holds its history. *)
Lemma reachable_ok l h : reachable l h -> accounts_ok l h /\ locations_ok l.
Proof.
  induction 1 as [l Hloc Hfree|l l' h _ [IH _] Ho|l h accounts data i l' _ [IH Hloc] Hacc Hu Hp].
  - split; [|done]. intros k. specialize (Hfree k). unfold owner_of in Hfree. destruct (l !! k); [|done].
    by rewrite bool_decide_false.
  - split; [by eapply accounts_ok_others|apply Ho].
  - by eapply instruction_preserves.
Qed.

(** ** Who can change an account *)

Lemma device_account_unique k data bs bs' d d' : device_account k data bs d -> device_account k data bs' d' -> d = d'.
Proof.
  intros [-> Hwf _ _ Hl _ _ _] [He Hwf' _ _ Hl' _ _ _].
  pose proof (device_Deserialize d [] Hwf Hl) as H1. pose proof (device_Deserialize d' [] Hwf' Hl') as H2.
  rewrite He in H1. congruence.
Qed.

Lemma account_kinds k data bs bs' d d' : device_account k data bs d -> internet_account k data bs' d' -> False.
Proof.
  intros [-> _ Hty _ _ _ _ _] [He _ Hty' _ _ _ _ _ _]. apply (f_equal head) in He.
  rewrite device_head, internet_head, Hty, Hty' in He. done.
Qed.

Lemma account_of_unique k data bs bs' agent agent' : account_of k data bs agent -> account_of k data bs' agent' -> agent = agent'.
Proof.
  intros [(d & Hd & <-)|(d & Hd & <-)] [(d' & Hd' & <-)|(d' & Hd' & <-)];
    [by rewrite (device_account_unique _ _ _ _ _ _ Hd Hd')|by destruct (account_kinds _ _ _ _ _ _ Hd Hd')
    |by destruct (account_kinds _ _ _ _ _ _ Hd' Hd)|].
  pose proof Hd as [-> Hwf _ _ Hl _ _ _ _]. pose proof Hd' as [He Hwf' _ _ Hl' _ _ _ _].
  pose proof (internet_Deserialize d [] Hwf Hl) as H1. pose proof (internet_Deserialize d' [] Hwf' Hl') as H2.
  rewrite He in H1. congruence.
Qed.

(** Without the signature of its agent an account stays as it is. *)
Lemma unsigned_keeps accounts data i l l' h k data0 agent : accounts_ok l h -> locations_ok l ->
  Forall (fun a => length (key a) = 32%nat) (tail accounts) -> unpack data = Ok i -> process accounts data l = Ok l' ->
  l !! k = Some (mkAccount program_id (COther data0)) -> account_of k data0 (h !!! k) agent ->
  Forall (fun a => is_signer a = true -> key a <> agent) accounts ->
  l' !! k = l !! k /\ record_batch accounts i h !!! k = h !!! k.
Proof.
  intros Hok Hloc Hacc Hu Hp Hl Hd Hsig.
  destruct (instruction_cases accounts data i l l' h) as (a & ag & rest & data' & bs & -> & Hs & -> & _ & Hcase); [done..|].
  apply Forall_cons in Hsig as [_ Hsig]. apply Forall_cons in Hsig as [Hsig _]. specialize (Hsig Hs).
  assert (Hne : key a <> k).
  { intros <-. destruct Hcase as [(He & _)|(_ & data1 & Hl1 & Hcase)]; [by apply bool_decide_eq_true in He; congruence|].
    assert (data1 = data0) as -> by congruence. by rewrite (account_of_unique _ _ _ _ _ _ Hd Hcase) in Hsig. }
  split; [by rewrite lookup_insert_ne|]. destruct Hcase as [(_ & _ & ->)|(-> & _)]; [done|]. by rewrite lookup_total_insert_ne.
Qed.

(** An account keeps its agent. *)
Lemma agent_kept accounts data i l l' h k data0 agent : accounts_ok l h -> locations_ok l ->
  Forall (fun a => length (key a) = 32%nat) (tail accounts) -> unpack data = Ok i -> process accounts data l = Ok l' ->
  l !! k = Some (mkAccount program_id (COther data0)) -> account_of k data0 (h !!! k) agent ->
  exists data1, l' !! k = Some (mkAccount program_id (COther data1)) /\ account_of k data1 (record_batch accounts i h !!! k) agent.
Proof.
  intros Hok Hloc Hacc Hu Hp Hl Hd.
  destruct (instruction_cases accounts data i l l' h) as (a & ag & rest & data' & bs & -> & Hs & -> & Hnew & Hcase); [done..|].
  destruct (decide (key a = k)) as [<-|Hne].
  - destruct Hcase as [(He & _)|(-> & data1 & Hl1 & Hcase)]; [by apply bool_decide_eq_true in He; congruence|].
    assert (data1 = data0) as -> by congruence. rewrite (account_of_unique _ _ _ _ _ _ Hd Hcase).
    rewrite lookup_insert_eq, lookup_total_insert_eq. eauto.
  - rewrite lookup_insert_ne by done. exists data0. split; [done|].
    destruct Hcase as [(_ & _ & ->)|(-> & _)]; [done|]. by rewrite lookup_total_insert_ne.
Qed.
(** ** The sizes of the accounts *)

Lemma device_length d : DeviceSamples.wf d ->
  length (DeviceSamples.serialize d) = (349 + 4 * length (DeviceSamples.samples d))%nat.
Proof.
  intros [Hh _ _]. unfold DeviceSamples.serialize. rewrite length_app, length_samples_bytes.
  rewrite DeviceHeader.device_length_serialize by done. unfold DeviceHeader.HEADER_SIZE. lia.
Qed.

Lemma internet_length d : InternetSamples.wf d ->
  length (InternetSamples.serialize d) =
    (257 + length (InternetHeader.data_provider_name (InternetSamples.header d)) + 4 * length (InternetSamples.samples d))%nat.
Proof.
  intros [Hh _ _]. unfold InternetSamples.serialize. rewrite length_app, length_samples_bytes.
  rewrite InternetHeader.internet_length_serialize by done. unfold InternetHeader.instance_size. cbn. lia.
Qed.

Definition data_len (l : ledger) (k : Pubkey) : nat :=
  match content_of l k with Some (COther data) => length data | _ => 0%nat end.

Lemma data_len_insert l k data : data_len (<[k := mkAccount program_id (COther data)]> l) k = length data.
Proof. unfold data_len, content_of. by rewrite lookup_insert_eq. Qed.
Lemma data_len_ne l k k' c : k <> k' -> data_len (<[k := c]> l) k' = data_len l k'.
Proof. intros. unfold data_len, content_of. by rewrite lookup_insert_ne. Qed.
Lemma data_len_account l k o data : l !! k = Some (mkAccount o (COther data)) -> data_len l k = length data.
Proof. intros H. unfold data_len, content_of. by rewrite H. Qed.
Lemma data_len_empty l k : data_is_empty l k = true -> data_len l k = 0%nat.
Proof. intros H%bool_decide_eq_true. unfold data_len, content_of. by rewrite H. Qed.

(** What an instruction adds to the data of an account. *)
Lemma instruction_grows accounts data i l l' h k : accounts_ok l h -> locations_ok l ->
  Forall (fun a => length (key a) = 32%nat) (tail accounts) -> unpack data = Ok i -> process accounts data l = Ok l' ->
  (data_len l k <= data_len l' k)%nat /\ Z.of_nat (data_len l' k) <= Z.of_nat (data_len l k) + MAX_PERMITTED_DATA_INCREASE.
Proof.
  intros Hok Hloc Hacc Hu Hp. pose proof (unpack_typed _ _ Hu) as Hi. unfold OnchainTelemetry.process_instruction in Hp.
  rewrite Hu in Hp. cbn in Hp. unfold MAX_PERMITTED_DATA_INCREASE.
  destruct i as [args|args|args|args];
    [apply init_device_effect in Hp as (a & agent & rest & data' & -> & _ & He & (d & Hd & _) & ->); [|done..]
    |eapply write_device_effect in Hp as (a & agent & rest & d & -> & _ & Hl & Hd & Hag & [Hmax Hlen] & ->); [|done..]
    |apply init_internet_effect in Hp as (a & agent & rest & data' & -> & _ & He & (d & Hd & _) & ->); [|done..]
    |eapply write_internet_effect in Hp as (a & agent & rest & d & -> & _ & Hl & Hd & Hn & Hag & [Hmax Hlen] & ->); [|done..]];
    (destruct (decide (key a = k)) as [<-|Hne]; [|rewrite data_len_ne by done; lia]); rewrite data_len_insert.
  - rewrite data_len_empty by done. pose proof Hd as [-> Hwf _ Hs _ _ _ _]. rewrite device_length, Hs by done. cbn. lia.
  - rewrite (data_len_account _ _ _ _ Hl). pose proof Hd as [_ Hwf _ _ _ _ _ _].
    pose proof (device_account_append _ _ _ _ args _ Hd Hi Hag Hmax) as [_ Hwf' _ _ _ _ _ _].
    rewrite !device_length by done. cbn. rewrite length_app. lia.
  - rewrite data_len_empty by done. pose proof Hd as [-> Hwf _ Hs _ _ _ _ _]. rewrite internet_length, Hs by done.
    destruct Hwf as [[] _ _]. cbn. lia.
  - rewrite (data_len_account _ _ _ _ Hl). pose proof Hd as [_ Hwf _ _ _ _ _ _ _].
    pose proof (internet_account_append _ _ _ _ args _ Hd Hn Hi Hag Hmax) as [_ Hwf' _ _ _ _ _ _ _].
    destruct (stamp_internet_fixed args (InternetSamples.header d)) as (_ & _ & Hname & _).
    rewrite !internet_length by done. cbn. rewrite length_app, Hname. lia.
Qed.
Lemma reject_panic {A : Type} b e (k : R A) : (_ ← reject b e; k) = Panic -> b = false /\ k = Panic.
Proof. by destruct b. Qed.
Lemma ensure_panic {A : Type} b e (k : R A) : (_ ← ensure b e; k) = Panic -> b = true /\ k = Panic.
Proof. by destruct b. Qed.

(** On an account of device samples no slice is out of range and the account
    never grows too fast. *)
Lemma write_device_panics accounts args l h : accounts_ok l h -> instruction_ok (WriteDeviceLatencySamples args) ->
  process_write_device_latency_samples program_id accounts args l = Panic ->
  exists a rest data, accounts = a :: rest /\ l !! key a = Some (mkAccount program_id (COther data)) /\
    head data = Some AccountTypeInternetLatencySamples.
Proof.
  intros Hok Hi Hw. pose proof Hw as H. unfold process_write_device_latency_samples in H.
  apply reject_panic in H as [Hne%bool_decide_eq_false H]. destruct accounts as [|a [|agent rest]]; [done..|]. cbn beta iota in H.
  apply ensure_panic in H as [Hs H]. apply reject_panic in H as [_ H]. apply reject_panic in H as [Ho _].
  apply negb_false_iff, bool_decide_eq_true in Ho.
  destruct (accounts_ok_owned l h _ Hok Ho) as (c & Hl & data & -> & [[d Hd]|[d Hd]]).
  - pose proof Hd as [-> Hwf Hty _ _ _ _ _]. rewrite (write_device_spec program_id a agent rest args l d) in Hw by done.
    revert Hw. repeat case_match; try done. unfold update_data. by intros [_ ?]%ensure_panic.
  - pose proof Hd as [-> _ Hty _ _ _ _ _ _]. exists a, (agent :: rest), (InternetSamples.serialize d). split_and!; [done..|]. by rewrite internet_head, Hty.
Qed.

(** C18. The sizes on every reachable ledger. An account of device samples is
    349 bytes and four for each sample of its history, at most 35,000 of them;
    an account of internet samples is 257 bytes, a provider's name of at most
    32, and four for each of at most 3,000 samples. No instruction shrinks an
    account or grows one by more than the runtime's limit of 10,240 bytes. A
    device write panics, by slicing out of range or resizing too far, only
    when it is pointed at an account of internet samples. *)
Theorem sample_accounts_bounded l h : reachable l h ->
  (forall k, owner_of l k = program_id -> exists data, l !! k = Some (mkAccount program_id (COther data)) /\
     let n := length (samples_of (h !!! k)) in
     (head data = Some AccountTypeDeviceLatencySamples /\ length data = (349 + 4 * n)%nat /\ Z.of_nat n <= 35000 \/
      head data = Some AccountTypeInternetLatencySamples /\ Z.of_nat n <= 3000 /\
        exists m, (m <= 32)%nat /\ length data = (257 + m + 4 * n)%nat)) /\
  (forall accounts data i l' k, Forall (fun a => length (key a) = 32%nat) (tail accounts) -> unpack data = Ok i ->
     process accounts data l = Ok l' ->
     (data_len l k <= data_len l' k)%nat /\ Z.of_nat (data_len l' k) <= Z.of_nat (data_len l k) + MAX_PERMITTED_DATA_INCREASE) /\
  (forall accounts args, instruction_ok (WriteDeviceLatencySamples args) ->
     process_write_device_latency_samples program_id accounts args l = Panic ->
     exists a rest data, accounts = a :: rest /\ l !! key a = Some (mkAccount program_id (COther data)) /\
       head data = Some AccountTypeInternetLatencySamples).
Proof.
  intros [Hok Hloc]%reachable_ok. split_and!.
  - intros k Ho. destruct (accounts_ok_owned l h k Hok Ho) as (c & Hl & data & -> & [[d Hd]|[d Hd]]); exists data; (split; [done|]).
    + left. destruct Hd as [-> Hwf Hty Hs Hmax _ _ _]. rewrite device_head, Hty, device_length, <- Hs by done. done.
    + right. destruct Hd as [-> Hwf Hty Hs Hmax _ _ _ _]. rewrite internet_head, Hty, internet_length, <- Hs by done.
      split_and!; [done..|]. destruct Hwf as [[] _ _]. eexists. split; [|done]. lia.
  - intros. by eapply instruction_grows.
  - intros. by eapply write_device_panics.
Qed.
End Reachable.

(** ** A reader and a ledger *)

(** A reader of the arguments that also checks their types. *)
Module ExactReader.
Definition vec : Borsh.SR (list Z) := n ← Borsh.ReadU32; Borsh.read_times (Z.to_nat n) Borsh.ReadU32.
Definition init_device : Borsh.SR TelemetryInstruction :=
  epoch ← Borsh.ReadU64; interval ← Borsh.ReadU64; version ← Borsh.ReadBytes 16; commit ← Borsh.ReadBytes 8;
  mret (InitializeDeviceLatencySamples (mkInitDevice epoch interval version commit)).
(** The version and the commit are zero when nothing is left. *)
Definition optional (n : nat) : Borsh.SR bytes := fun d o =>
  if (length d <=? o)%nat then (Some (replicate n 0), o) else Borsh.ReadBytes n d o.
Definition write_device : Borsh.SR TelemetryInstruction :=
  start ← Borsh.ReadU64; samples ← vec; version ← optional 16; commit ← optional 8;
  mret (WriteDeviceLatencySamples (mkWriteDevice start samples version commit)).
Definition init_internet : Borsh.SR TelemetryInstruction :=
  name ← Borsh.ReadString; epoch ← Borsh.ReadU64; interval ← Borsh.ReadU64;
  mret (InitializeInternetLatencySamples (mkInitInternet name epoch interval)).
Definition write_internet : Borsh.SR TelemetryInstruction :=
  start ← Borsh.ReadU64; samples ← vec; mret (WriteInternetLatencySamples (mkWriteInternet start samples)).

#[local] Instance is_u_dec w x : Decision (is_u w x) := decide (0 <= x < 2 ^ w).
#[local] Instance samples_ok_dec samples : Decision (samples_ok samples).
Proof. unfold samples_ok. apply _. Defined.
#[local] Instance instruction_ok_dec i : Decision (instruction_ok i).
Proof. destruct i; cbn; apply _. Defined.

Definition checked (m : Borsh.SR TelemetryInstruction) (data : bytes) : option TelemetryInstruction :=
  match (m data 0%nat).1 with
  | Some i => if decide (instruction_ok i) then Some i else None
  | None => None
  end.

Lemma checked_ok m data i : checked m data = Some i -> instruction_ok i.
Proof. unfold checked. repeat case_match; try done. by intros [= ->]. Qed.

Lemma checked_reads m data i : reads m data i -> instruction_ok i -> checked m data = Some i.
Proof.
  intros Hr Hi. pose proof (sr_start m data i [] Hr) as Hm. rewrite app_nil_r in Hm. unfold checked. rewrite Hm. cbn.
  by rewrite decide_True.
Qed.

Definition get_init_device (i : TelemetryInstruction) : option InitializeDeviceLatencySamplesArgs :=
  match i with InitializeDeviceLatencySamples a => Some a | _ => None end.
Definition get_write_device (i : TelemetryInstruction) : option WriteDeviceLatencySamplesArgs :=
  match i with WriteDeviceLatencySamples a => Some a | _ => None end.
Definition get_init_internet (i : TelemetryInstruction) : option InitializeInternetLatencySamplesArgs :=
  match i with InitializeInternetLatencySamples a => Some a | _ => None end.
Definition get_write_internet (i : TelemetryInstruction) : option WriteInternetLatencySamplesArgs :=
  match i with WriteInternetLatencySamples a => Some a | _ => None end.

Lemma sr_vec samples : samples_ok samples -> reads vec (vec_bytes samples) samples.
Proof.
  intros [Hs Hn]. unfold vec, vec_bytes. eapply sr_bind; [by apply reads_U32|]. rewrite Nat2Z.id. by apply reads_samples.
Qed.

Lemma reads_optional n x : length x = S n -> reads (optional (S n)) x x.
Proof.
  intros Hx d o rest Ho Hd. unfold optional. destruct (Nat.leb_spec (length d) o); [|by apply (reads_Bytes (S n) x Hx d o rest)].
  apply (f_equal length) in Hd. rewrite length_drop, length_app in Hd. lia.
Qed.
#[local] Hint Resolve sr_vec reads_optional : reads.

Lemma write_device_missing start samples : is_u64 start -> samples_ok samples ->
  write_device (le_bytes 8 start ++ vec_bytes samples) 0%nat =
    (Some (WriteDeviceLatencySamples (mkWriteDevice start samples (replicate 16 0) (replicate 8 0))),
     length (le_bytes 8 start ++ vec_bytes samples)).
Proof.
  intros Hst Hs. set (d := le_bytes 8 start ++ vec_bytes samples). unfold write_device, mbind, Borsh.SR_bind.
  rewrite (reads_U64 start Hst d 0%nat (vec_bytes samples)) by (done || lia). cbn [fst snd].
  rewrite (sr_vec samples Hs d _ []); [|unfold d; rewrite length_app; lia|unfold d; rewrite drop_app_length' by done; by rewrite app_nil_r].
  assert (Hlen : (length d <= 0 + length (le_bytes 8 start) + length (vec_bytes samples))%nat) by (unfold d; rewrite length_app; lia).
  cbn [fst snd]. unfold optional. rewrite (proj2 (Nat.leb_le _ _) Hlen). cbn [fst snd]. rewrite (proj2 (Nat.leb_le _ _) Hlen).
  cbn [fst snd]. unfold mret, Borsh.SR_ret, d. by rewrite length_app.
Qed.

#[refine] Instance exact_reader : IncrementalReader := {
  read_init_device d := checked init_device d ≫= get_init_device;
  read_write_device d := checked write_device d ≫= get_write_device;
  read_init_internet d := checked init_internet d ≫= get_init_internet;
  read_write_internet d := checked write_internet d ≫= get_write_internet
}.
Proof.
  - intros index data i H. repeat case_match; apply fmap_Some in H as (x & H & ->); apply bind_Some in H as (j & Hj & Hx);
      destruct j; try done; injection Hx as ->; by apply checked_ok in Hj.
  - intros i Hi. assert (Hc : forall m, reads m (pack_args i) i -> checked m (pack_args i) = Some i)
      by (intros; by apply checked_reads).
    destruct i as [[]|[]|[]|[]]; cbn -[checked pack_args]; (rewrite Hc; [done|]); cbn -[le_bytes is_u] in Hi; clear Hc;
      unfold init_device, write_device, init_internet, write_internet; cbn -[le_bytes]; destruct_and?; read_fields.
  - intros start samples Hst Hs. unfold checked. rewrite (write_device_missing start samples Hst Hs). cbn [fst].
    rewrite decide_True; [done|]. done.
Defined.
End ExactReader.

(** An agent, two devices and the link between them. *)
Module TelemetrySample.
Import ExactReader.
(** An address that spells out its seeds. *)
Definition find_program_address (seeds : list bytes) (program : Pubkey) : Pubkey * Z := (concat seeds, 255).
Definition program_id : Pubkey := replicate 32 9.
Definition serviceability_program_id : Pubkey := replicate 32 8.
Definition agent : Pubkey := replicate 32 1.
Definition origin : Pubkey := replicate 32 2.
Definition target : Pubkey := replicate 32 3.
Definition link : Pubkey := replicate 32 4.
Definition epoch : Z := 19800.
Definition device (code : list Z) : Device.t :=
  Device.mk (lit "contributor") 1 255 (replicate 32 5) (lit "exchange") Hybrid (ipv4 195 219 120 1) 1 code [] agent (lit "con")
    [] 0 0 0 0 0 0 0 0 0 0 0 0 [].
Definition circuit : Link.t :=
  Link.mk (lit "contributor") 1 255 origin target WAN 10000000000 9000 1000000 1000000 1 NetworkV4_default LkActivated
    (lit "link") (lit "con") (lit "Ethernet1") (lit "Ethernet2") 0 HealthUnknown DesiredActivated [] 0.
Definition state : ledger :=
  <[origin := mkAccount serviceability_program_id (CDevice (device (lit "a")))]>
    (<[target := mkAccount serviceability_program_id (CDevice (device (lit "z")))]>
    {[ link := mkAccount serviceability_program_id (CLink circuit) ]}).
Definition samples_pda : Pubkey := (derive_device_latency_samples_pda find_program_address program_id origin target link epoch).1.

Definition acct (k : Pubkey) : meta := mkMeta k false true.
Definition signed (k : Pubkey) : meta := mkMeta k true true.
Definition create : list meta * TelemetryInstruction :=
  ([acct samples_pda; signed agent; acct origin; acct target; acct link; acct SYSTEM_PROGRAM_ID],
   InitializeDeviceLatencySamples (mkInitDevice epoch 5000000 (replicate 16 0) (replicate 8 0))).
Definition append (start : Z) (samples : list Z) : list meta * TelemetryInstruction :=
  ([acct samples_pda; signed agent; acct SYSTEM_PROGRAM_ID],
   WriteDeviceLatencySamples (mkWriteDevice start samples (replicate 16 0) (replicate 8 0))).

Definition step (s : ledger * history) (t : list meta * TelemetryInstruction) : ledger * history :=
  match process_instruction find_program_address program_id serviceability_program_id t.1 (pack t.2) s.1 with
  | Ok l' => (l', record_batch t.1 t.2 s.2)
  | _ => s
  end.
Definition run (ts : list (list meta * TelemetryInstruction)) : ledger * history := foldl step (state, ∅) ts.

#[local] Abbreviation reached := (reachable find_program_address program_id serviceability_program_id).

Lemma state_reached : reached state ∅.
Proof.
  assert (H : map_Forall (fun _ a => acc_owner a = serviceability_program_id /\
    forall d, acc_content a = CDevice d -> length (Device.location_pk d) = 32%nat) state).
  { repeat (apply map_Forall_insert_2; [split; [done|by intros d [= <-]]|]). apply map_Forall_empty. }
  constructor.
  - intros k d. unfold content_of. destruct (state !! k) as [a|] eqn:Ha; [|done]. intros [= Hd]. apply H in Ha as [_ Ha]. by apply Ha.
  - intros k. unfold owner_of. destruct (state !! k) as [a|] eqn:Ha; [|done]. apply H in Ha as [-> _]. done.
Qed.

Lemma run_reached ts : Forall (fun t => Forall (fun a => length (key a) = 32%nat) (tail t.1) /\ instruction_ok t.2) ts ->
  reached (run ts).1 (run ts).2.
Proof.
  induction ts as [|t ts IH] using rev_ind; [intros _; apply state_reached|]. intros [Hts [[Ht Hi] _]%Forall_cons]%Forall_app.
  unfold run. rewrite foldl_snoc. fold (run ts). unfold step. specialize (IH Hts). destruct (run ts) as [l h].
  destruct (process_instruction _ _ _ _ _ _) eqn:Hp; [|done..]. by eapply reach_instruction; [done|done|by apply unpack_pack|].
Qed.

Lemma create_ok : Forall (fun a => length (key a) = 32%nat) (tail create.1) /\ instruction_ok create.2.
Proof. split; [by repeat constructor|]. cbn. unfold is_u. by repeat split. Qed.
Lemma append_ok start samples : is_u64 start -> samples_ok samples ->
  Forall (fun a => length (key a) = 32%nat) (tail (append start samples).1) /\ instruction_ok (append start samples).2.
Proof. intros. split; [by repeat constructor|done]. Qed.

(** The account is created and written to twice. *)
Definition written_twice : list (list meta * TelemetryInstruction) := [create; append 1000 [7; 8]; append 2000 [9]].
Lemma written_twice_reached : reached (run written_twice).1 (run written_twice).2.
Proof.
  apply run_reached. repeat (apply Forall_cons; split); [apply create_ok|apply append_ok..|by apply Forall_nil];
    try (unfold is_u; lia); (split; [repeat constructor; unfold is_u; lia|unfold is_u; cbn; lia]).
Qed.
End TelemetrySample.

Lemma sample_accounts_bounded_witness :
  exists data, (TelemetrySample.run TelemetrySample.written_twice).1 !! TelemetrySample.samples_pda =
      Some (mkAccount TelemetrySample.program_id (COther data)) /\
    (length data = 349 + 4 * 3 \/ exists m, (m <= 32)%nat /\ length data = 257 + m + 4 * 3)%nat.
Proof.
  destruct (sample_accounts_bounded (Hreader := ExactReader.exact_reader) TelemetrySample.find_program_address
    TelemetrySample.program_id TelemetrySample.serviceability_program_id ltac:(discriminate) _ _
    TelemetrySample.written_twice_reached) as (H & _ & _).
  destruct (H TelemetrySample.samples_pda) as (data & Hl & Hd); [vm_compute; reflexivity|].
  exists data. split; [exact Hl|]. clear Hl.
  assert (E : samples_of ((TelemetrySample.run TelemetrySample.written_twice).2 !!! TelemetrySample.samples_pda) = [7; 8; 9])
    by (vm_compute; reflexivity).
  rewrite E in Hd. destruct Hd as [(_ & Hd & _)|(_ & _ & m & Hm & Hd)]; [left; exact Hd|right; exists m; split; [exact Hm|exact Hd]].
Defined.
