(* ===== verification/TelemetryClient.v ===== *)
(** * Telemetry SDK

    Models [smartcontract/sdk/go/telemetry]: the addresses ([pda.go]), the
    instructions (the [initialize_] and [write_] files), the executor
    ([executor.go]) and the client ([client.go]) through which the telemetry
    agent writes samples and the readers fetch them. The RPC client is that of
    [Executor]. The client is joined with the on-chain program of
    [OnchainTelemetry] and the submitter of [TelemetrySubmitter]. *)

From stdpp Require Import base tactics numbers list gmap.
From Stdlib Require Import ZArith Lia ZifyBool ZifyNat.
From S2P Require Import Prelude Bytes GoStrings ByteReader BorshIncremental TelemetrySubmitter Executor TelemetryAccounts.
From S2P Require Import OnchainState OnchainLedger OnchainTelemetry.

#[local] Open Scope Z_scope.

(** ** Errors *)

Inductive cli_error :=
| CliAccountNotFound | CliSamplesBatchTooLarge | CliSamplesAccountFull
| CliValidate | CliDerive | CliGetAccount | CliEmptyData | CliDeserialize (e : des_error) | CliUnknownType (t : Z)
| CliShortSamples | CliExecute (e : ex_error).

Definition InstructionErrorAccountSamplesAccountFull : Z := 1006.
Definition InstructionErrorAccountDoesNotExist : Z := 1011.
Definition MaxDeviceLatencySamplesPerBatch : nat := 239.
Definition MaxInternetLatencySamplesPerBatch : nat := 245.
Definition MaxInternetLatencyDataProviderNameLength : nat := 32.
Definition DeviceLatencySamplesHeaderSize : nat := 350.

Definition IsZero_key (k : pubkey) : bool := bool_decide (k = replicate 32 0).

(** ** Addresses *)

Definition TelemetrySeedPrefix : bytes := lit "telemetry".
Definition DeviceLatencySamplesSeed : bytes := lit "dzlatency".
Definition InternetLatencySamplesSeed : bytes := lit "inetlatency".

Section Addresses.
Context (FindProgramAddress : list bytes -> pubkey -> option (pubkey * Z)) (programID : pubkey).

Definition DeriveDeviceLatencySamplesPDA (originDevicePK targetDevicePK linkPK : pubkey) (epoch : Z) : option (pubkey * Z) :=
  FindProgramAddress [TelemetrySeedPrefix; DeviceLatencySamplesSeed; originDevicePK; targetDevicePK; linkPK; le_bytes 8 epoch]
    programID.
Definition DeriveInternetLatencySamplesPDA (collectorOraclePK : pubkey) (dataProviderName : bytes)
    (originLocationPK targetLocationPK : pubkey) (epoch : Z) : option (pubkey * Z) :=
  FindProgramAddress [TelemetrySeedPrefix; InternetLatencySamplesSeed; collectorOraclePK; dataProviderName; originLocationPK;
    targetLocationPK; le_bytes 8 epoch] programID.
End Addresses.

(** ** Instructions *)

(** [copy(a[:], s)] into a zero array of [n] bytes. *)
Definition fixed (n : nat) (s : bytes) : bytes := take n s ++ replicate (n - length s) 0.

Module InitDevice.
Record config := mk {
  AgentPK : pubkey;
  OriginDevicePK : pubkey;
  TargetDevicePK : pubkey;
  LinkPK : pubkey;
  Epoch : option Z;
  SamplingIntervalMicroseconds : Z;
  AgentVersion : bytes;
  AgentCommit : bytes
}.

Definition Validate (c : config) : bool :=
  negb (IsZero_key (AgentPK c)) && negb (IsZero_key (OriginDevicePK c)) && negb (IsZero_key (TargetDevicePK c)) &&
  negb (IsZero_key (LinkPK c)) && bool_decide (is_Some (Epoch c)) && negb (SamplingIntervalMicroseconds c =? 0).

Definition Build (find : list bytes -> pubkey -> option (pubkey * Z)) (programID : pubkey) (c : config) :
    res cli_error genericInstruction :=
  if negb (Validate c) then Err CliValidate
  else
    let epoch := default 0 (Epoch c) in
    let data := [0] ++ le_bytes 8 epoch ++ le_bytes 8 (SamplingIntervalMicroseconds c) ++ fixed 16 (AgentVersion c) ++
      fixed 8 (AgentCommit c) in
    match DeriveDeviceLatencySamplesPDA find programID (OriginDevicePK c) (TargetDevicePK c) (LinkPK c) epoch with
    | None => Err CliDerive
    | Some (pda, _) =>
        Ok (mkInstruction programID
          [Executor.mkMeta pda false true; Executor.mkMeta (AgentPK c) true true; Executor.mkMeta (OriginDevicePK c) false false;
           Executor.mkMeta (TargetDevicePK c) false false; Executor.mkMeta (LinkPK c) false false;
           Executor.mkMeta SystemProgramID false false] data false)
    end.
End InitDevice.

Module WriteDevice.
Record config := mk {
  AgentPK : pubkey;
  OriginDevicePK : pubkey;
  TargetDevicePK : pubkey;
  LinkPK : pubkey;
  Epoch : option Z;
  StartTimestampMicroseconds : Z;
  Samples : list Z;
  AgentVersion : bytes;
  AgentCommit : bytes
}.

Definition Validate (c : config) : bool :=
  negb (IsZero_key (AgentPK c)) && negb (IsZero_key (OriginDevicePK c)) && negb (IsZero_key (TargetDevicePK c)) &&
  negb (IsZero_key (LinkPK c)) && bool_decide (is_Some (Epoch c)).

Definition Build (find : list bytes -> pubkey -> option (pubkey * Z)) (programID : pubkey) (c : config) :
    res cli_error genericInstruction :=
  if negb (Validate c) then Err CliValidate
  else
    let data := [1] ++ le_bytes 8 (StartTimestampMicroseconds c) ++
      (le_bytes 4 (Z.of_nat (length (Samples c))) ++ samples_bytes (Samples c)) ++ fixed 16 (AgentVersion c) ++
      fixed 8 (AgentCommit c) in
    match DeriveDeviceLatencySamplesPDA find programID (OriginDevicePK c) (TargetDevicePK c) (LinkPK c) (default 0 (Epoch c)) with
    | None => Err CliDerive
    | Some (pda, _) =>
        Ok (mkInstruction programID
          [Executor.mkMeta pda false true; Executor.mkMeta (AgentPK c) true false; Executor.mkMeta SystemProgramID false false]
          data false)
    end.
End WriteDevice.

Module InitInternet.
Record config := mk {
  OriginExchangePK : pubkey;
  TargetExchangePK : pubkey;
  DataProviderName : bytes;
  Epoch : Z;
  SamplingIntervalMicroseconds : Z
}.

Definition Validate (c : config) : bool :=
  negb (IsZero_key (OriginExchangePK c)) && negb (IsZero_key (TargetExchangePK c)) &&
  negb (bool_decide (DataProviderName c = [])) &&
  (length (DataProviderName c) <=? MaxInternetLatencyDataProviderNameLength)%nat &&
  negb (Epoch c =? 0) && negb (SamplingIntervalMicroseconds c =? 0).

Definition Build (find : list bytes -> pubkey -> option (pubkey * Z)) (programID signerPK : pubkey) (c : config) :
    res cli_error genericInstruction :=
  if negb (Validate c) then Err CliValidate
  else
    let data := [2] ++ (le_bytes 4 (Z.of_nat (length (DataProviderName c))) ++ DataProviderName c) ++ le_bytes 8 (Epoch c) ++
      le_bytes 8 (SamplingIntervalMicroseconds c) in
    match DeriveInternetLatencySamplesPDA find programID signerPK (DataProviderName c) (OriginExchangePK c) (TargetExchangePK c)
            (Epoch c) with
    | None => Err CliDerive
    | Some (pda, _) =>
        Ok (mkInstruction programID
          [Executor.mkMeta pda false true; Executor.mkMeta signerPK true true; Executor.mkMeta (OriginExchangePK c) false false;
           Executor.mkMeta (TargetExchangePK c) false false; Executor.mkMeta SystemProgramID false false] data false)
    end.
End InitInternet.

Module WriteInternet.
Record config := mk {
  OriginExchangePK : pubkey;
  TargetExchangePK : pubkey;
  DataProviderName : bytes;
  Epoch : Z;
  StartTimestampMicroseconds : Z;
  Samples : list Z
}.

Definition Validate (c : config) : bool :=
  negb (IsZero_key (OriginExchangePK c)) && negb (IsZero_key (TargetExchangePK c)) &&
  negb (bool_decide (DataProviderName c = [])) && negb (Epoch c =? 0).

Definition Build (find : list bytes -> pubkey -> option (pubkey * Z)) (programID signerPK : pubkey) (c : config) :
    res cli_error genericInstruction :=
  if negb (Validate c) then Err CliValidate
  else
    let data := [3] ++ le_bytes 8 (StartTimestampMicroseconds c) ++
      (le_bytes 4 (Z.of_nat (length (Samples c))) ++ samples_bytes (Samples c)) in
    match DeriveInternetLatencySamplesPDA find programID signerPK (DataProviderName c) (OriginExchangePK c) (TargetExchangePK c)
            (Epoch c) with
    | None => Err CliDerive
    | Some (pda, _) =>
        Ok (mkInstruction programID
          [Executor.mkMeta pda false true; Executor.mkMeta signerPK true false; Executor.mkMeta SystemProgramID false false]
          data false)
    end.
End WriteInternet.

(** ** The executor *)

Class TelemetryRPC (W Tx : Type) `{ExecutorRPC W Tx} := {
  (** with [SkipPreflight] *)
  SendTransactionWithOpts : bool -> Tx -> W -> rpc_res bytes * W;
  (** with a [DataSlice] of the given offset and length *)
  GetAccountInfoWithOpts : nat -> nat -> pubkey -> W -> account_info * W
}.

Section Executor.
Context {W Tx : Type} `{!ExecutorRPC W Tx, !TelemetryRPC W Tx} (fuel : nat).

(** Poll every second until the transaction is finalized, failed or not. *)
Fixpoint poll_finalized (n : nat) (sig : bytes) : X W () :=
  match n with
  | O => fun e w => (XWait, e, w)
  | S n =>
      statuses ← xcall ErrGetTransaction (GetSignatureStatuses sig);
      match statuses with
      | [] => xfail ErrGetTransaction None
      | Some (mkSigStatus true _) :: _ => mret ()
      | _ =>
          cancelled ← xrpc (Pause Second);
          if cancelled : bool then xfail ErrGetTransaction None else poll_finalized n sig
      end
  end.

Definition wait_finalized (sig : bytes) : X W () :=
  _ ← poll_finalized fuel sig;
  found ← xcall ErrGetTransaction (GetTransaction sig);
  if found : bool then mret () else xfail ErrGetTransaction None.

(** [waitForSignatureVisible] is that of the serviceability SDK. *)
Definition ExecuteTransactions (instructions : list genericInstruction) (skipPreflight : bool) : X W bytes :=
  e ← xget;
  match Exec.signer e with
  | None => xfail ErrNoPrivateKey None
  | Some signer =>
      if bool_decide (Exec.programID e = replicate 32 0) then xfail ErrNoProgramID None
      else
        blockhash ← xcall ErrBlockhash GetLatestBlockhash;
        match NewSignedTransaction instructions blockhash signer with
        | None => xfail ErrBuild None
        | Some tx =>
            sig ← xcall ErrSend (SendTransactionWithOpts skipPreflight tx);
            _ ← waitForSignatureVisible fuel sig (Exec.waitForVisibleTimeout e);
            _ ← wait_finalized sig;
            mret sig
        end
  end.

Definition ExecuteTransaction (instruction : genericInstruction) (skipPreflight : bool) : X W bytes :=
  ExecuteTransactions [instruction] skipPreflight.
End Executor.

(** ** The client *)

Module Client.
Section Client.
Context {W Tx : Type} `{!ExecutorRPC W Tx, !TelemetryRPC W Tx}.
Context (find : list bytes -> pubkey -> option (pubkey * Z)) (fuel : nat).

(** The data of an account, or the error of the call. *)
Definition account_binary (info : account_info) : res cli_error bytes :=
  match info with
  | NotFound | NoValue => Err CliAccountNotFound
  | InfoErr _ => Err CliGetAccount
  | Account data => Ok data
  end.

Definition des {A : Type} (r : res des_error A) : res cli_error A :=
  match r with Ok a => Ok a | Err e => Err (CliDeserialize e) | Panic => Panic end.

(** [switch] on the account type. *)
Definition read_device_samples (data : bytes) : res cli_error DeviceSamples.t :=
  '(t, _) ← des (decoded (Borsh.ReadU8 data 0%nat));
  if t =? AccountTypeDeviceLatencySamplesV0 then v0 ← des (DeviceSamplesV0.Deserialize data); Ok (DeviceSamplesV0.ToV1 v0)
  else if t =? AccountTypeDeviceLatencySamples then des (DeviceSamples.Deserialize data)
  else Err (CliUnknownType t).

Definition GetDeviceLatencySamples (programID originDevicePK targetDevicePK linkPK : pubkey) (epoch : Z) (w : W) :
    res cli_error DeviceSamples.t * W :=
  match DeriveDeviceLatencySamplesPDA find programID originDevicePK targetDevicePK linkPK epoch with
  | None => (Err CliDerive, w)
  | Some (pda, _) =>
      let '(info, w) := GetAccountInfo pda w in
      (data ← account_binary info; read_device_samples data, w)
  end.

Definition read_device_header (data : bytes) : res cli_error DeviceHeader.t :=
  match data with
  | [] => Err CliEmptyData
  | t :: _ =>
      if t =? AccountTypeDeviceLatencySamples then '(hdr, _) ← des (decoded (DeviceHeader.Decode data 0%nat)); Ok hdr
      else if t =? AccountTypeDeviceLatencySamplesV0
      then '(v0hdr, _) ← des (decoded (DeviceHeaderV0.Decode data 0%nat)); Ok (DeviceHeaderV0.ToV1Header v0hdr)
      else Err (CliUnknownType t)
  end.

Definition GetDeviceLatencySamplesHeader (programID originDevicePK targetDevicePK linkPK : pubkey) (epoch : Z) (w : W) :
    res cli_error DeviceHeader.t * W :=
  match DeriveDeviceLatencySamplesPDA find programID originDevicePK targetDevicePK linkPK epoch with
  | None => (Err CliDerive, w)
  | Some (pda, _) =>
      let '(info, w) := GetAccountInfoWithOpts 0 DeviceLatencySamplesHeaderSize pda w in
      (data ← account_binary info; read_device_header data, w)
  end.

(** Where the tail starts: behind the samples the caller has, clamped. *)
Definition tail_start (existingMaxIdx stop : Z) : Z :=
  let start := i64 (existingMaxIdx + 1) in
  let start := if start <? 0 then 0 else start in
  if stop <? start then stop else start.

(** The samples from [start] to [stop] behind a header of [headerBytes]. *)
Definition tail_samples (data : bytes) (headerBytes : nat) (start stop : Z) : list Z :=
  (fun i => let off := (headerBytes + Z.to_nat start * 4 + i * 4)%nat in le_val (slice data off (off + 4)))
    <$> seq 0 (Z.to_nat (stop - start)).

Definition read_device_tail (data : bytes) (existingMaxIdx : Z) : res cli_error (DeviceHeader.t * Z * list Z) :=
  match data with
  | [] => Err CliEmptyData
  | t :: _ =>
      if t =? AccountTypeDeviceLatencySamples then
        '(hdr, headerBytes) ← des (decoded (DeviceHeader.Decode data 0%nat));
        let stop := DeviceHeader.next_sample_index hdr in
        if MaxDeviceLatencySamplesPerAccount <? stop then Err (CliDeserialize (TooManySamples stop))
        else
          let start := tail_start existingMaxIdx stop in
          if start =? stop then Ok (hdr, start, [])
          else if Z.of_nat (length data) <? Z.of_nat headerBytes + stop * 4 then Err CliShortSamples
          else Ok (hdr, start, tail_samples data headerBytes start stop)
      else if t =? AccountTypeDeviceLatencySamplesV0 then
        v0 ← des (DeviceSamplesV0.Deserialize data);
        let v1 := DeviceSamplesV0.ToV1 v0 in
        let hdr := DeviceSamples.header v1 in
        let stop := DeviceHeader.next_sample_index hdr in
        let start := tail_start existingMaxIdx stop in
        if start =? stop then Ok (hdr, start, [])
        else Ok (hdr, start, take (Z.to_nat (stop - start)) (drop (Z.to_nat start) (DeviceSamples.samples v1)))
      else Err (CliUnknownType t)
  end.

Definition GetDeviceLatencySamplesTail (programID originDevicePK targetDevicePK linkPK : pubkey) (epoch existingMaxIdx : Z) (w : W) :
    res cli_error (DeviceHeader.t * Z * list Z) * W :=
  match DeriveDeviceLatencySamplesPDA find programID originDevicePK targetDevicePK linkPK epoch with
  | None => (Err CliDerive, w)
  | Some (pda, _) =>
      let '(info, w) := GetAccountInfo pda w in
      (data ← account_binary info; read_device_tail data existingMaxIdx, w)
  end.

Definition GetInternetLatencySamples (programID : pubkey) (dataProviderName : bytes) (originLocationPK targetLocationPK agentPK : pubkey)
    (epoch : Z) (w : W) : res cli_error InternetSamples.t * W :=
  match DeriveInternetLatencySamplesPDA find programID agentPK dataProviderName originLocationPK targetLocationPK epoch with
  | None => (Err CliDerive, w)
  | Some (pda, _) =>
      let '(info, w) := GetAccountInfo pda w in
      (data ← account_binary info; des (InternetSamples.Deserialize data), w)
  end.

(** ** Writing *)

(** A call that ends, panics, or waits beyond the fuel. *)
Inductive result := Done (sig : bytes) | Failed (e : cli_error) | Panicked | Waiting.

(** What [WriteDeviceLatencySamples] and [WriteInternetLatencySamples] make of
    an error of the executor. *)
Definition write_error (err : ex_error) : cli_error :=
  match err_rpc err with
  | Some (AnyMap data) =>
      match map_get (lit "err") data with
      | Some (AnyString v) => if bool_decide (v = lit "AccountNotFound") then CliAccountNotFound else CliExecute err
      | Some (AnyMap v) =>
          match map_get (lit "InstructionError") v with
          | Some (AnyList [_; AnyMap custom]) =>
              match map_get (lit "Custom") custom with
              | Some (AnyNumber (Some code)) =>
                  if code =? InstructionErrorAccountDoesNotExist then CliAccountNotFound
                  else if code =? InstructionErrorAccountSamplesAccountFull then CliSamplesAccountFull
                  else CliExecute err
              | _ => CliExecute err
              end
          | _ => CliExecute err
          end
      | _ => CliExecute err
      end
  | _ => CliExecute err
  end.

(** Execute a built instruction. *)
Definition execute (built : res cli_error genericInstruction) (skipPreflight : bool) (on_error : ex_error -> cli_error)
    (e : Exec.t) (w : W) : result * Exec.t * W :=
  match built with
  | Err x => (Failed x, e, w)
  | Panic => (Panicked, e, w)
  | Ok i =>
      let '(r, e, w) := ExecuteTransaction fuel i skipPreflight e w in
      (match r with XDone sig => Done sig | XFailed err => Failed (on_error err) | XPanic => Panicked | XWait => Waiting end, e, w)
  end.

Definition InitializeDeviceLatencySamples (config : InitDevice.config) (e : Exec.t) (w : W) : result * Exec.t * W :=
  execute (InitDevice.Build find (Exec.programID e) config) true CliExecute e w.

Definition WriteDeviceLatencySamples (config : WriteDevice.config) (e : Exec.t) (w : W) : result * Exec.t * W :=
  if (MaxDeviceLatencySamplesPerBatch <? length (WriteDevice.Samples config))%nat then (Failed CliSamplesBatchTooLarge, e, w)
  else execute (WriteDevice.Build find (Exec.programID e) config) false write_error e w.

(** [c.executor.signer.PublicKey()] *)
Definition with_signer (e : Exec.t) (build : pubkey -> res cli_error genericInstruction) : res cli_error genericInstruction :=
  match Exec.signer e with Some k => build k | None => Panic end.

Definition InitializeInternetLatencySamples (config : InitInternet.config) (e : Exec.t) (w : W) : result * Exec.t * W :=
  execute (with_signer e (fun k => InitInternet.Build find (Exec.programID e) k config)) true CliExecute e w.

Definition WriteInternetLatencySamples (config : WriteInternet.config) (e : Exec.t) (w : W) : result * Exec.t * W :=
  if (MaxInternetLatencySamplesPerBatch <? length (WriteInternet.Samples config))%nat then (Failed CliSamplesBatchTooLarge, e, w)
  else execute (with_signer e (fun k => WriteInternet.Build find (Exec.programID e) k config)) false write_error e w.
End Client.
End Client.

(** ** Reading an account *)

Lemma samples_slice front samples j v : samples !! j = Some v ->
  slice (front ++ samples_bytes samples) (length front + j * 4) (length front + j * 4 + 4) = le_bytes 4 v.
Proof.
  intros Hj. rewrite <- (take_drop_middle samples j v Hj), samples_bytes_app. unfold slice.
  replace (length front + j * 4 + 4 - (length front + j * 4))%nat with 4%nat by lia.
  rewrite drop_app_add, drop_app_exact; cycle 1.
  { rewrite length_samples_bytes, length_take. apply lookup_lt_Some in Hj. lia. }
  unfold samples_bytes. cbn [fmap list_fmap concat]. apply take_app_exact, length_le_bytes.
Qed.

Lemma tail_samples_spec front samples start : Forall is_u32 samples -> 0 <= start <= Z.of_nat (length samples) ->
  Client.tail_samples (front ++ samples_bytes samples) (length front) start (Z.of_nat (length samples)) =
  drop (Z.to_nat start) samples.
Proof.
  intros Hs Hr. unfold Client.tail_samples. apply list_eq. intros i. rewrite list_lookup_fmap, lookup_drop.
  destruct (decide (i < Z.to_nat (Z.of_nat (length samples) - start))%nat) as [Hi|Hi].
  - rewrite lookup_seq_lt by done. cbn.
    destruct (lookup_lt_is_Some_2 samples (Z.to_nat start + i)) as [v Hv]; [lia|]. rewrite Hv. f_equal.
    replace (length front + Z.to_nat start * 4 + i * 4)%nat with (length front + (Z.to_nat start + i) * 4)%nat by lia.
    rewrite (samples_slice front samples _ v Hv). apply le_round. rewrite Forall_lookup in Hs. by apply Hs in Hv.
  - rewrite lookup_seq_ge by lia. cbn. symmetry. apply lookup_ge_None. lia.
Qed.

Lemma tail_start_range idx stop : 0 <= stop -> 0 <= Client.tail_start idx stop <= stop.
Proof. intros. unfold Client.tail_start. repeat case_match; lia. Qed.

(** The tail behind the samples a reader has. *)
Lemma tail_start_spec idx stop : -1 <= idx < 2 ^ 63 - 1 -> 0 <= stop -> Client.tail_start idx stop = Z.min (idx + 1) stop.
Proof.
  intros Hi Hs. unfold Client.tail_start. rewrite swrap_id by (unfold is_i; lia).
  destruct (Z.ltb_spec (idx + 1) 0); [lia|]. destruct (Z.ltb_spec stop (idx + 1)); lia.
Qed.

Section Read.
Context (d : DeviceSamples.t).
Hypothesis wf : DeviceSamples.wf d.
Hypothesis kind : DeviceHeader.account_type (DeviceSamples.header d) = AccountTypeDeviceLatencySamples.
Hypothesis limit : Z.of_nat (length (DeviceSamples.samples d)) <= MAX_DEVICE_LATENCY_SAMPLES.
#[local] Abbreviation header := (DeviceSamples.header d).
#[local] Abbreviation samples := (DeviceSamples.samples d).

Lemma serialize_cons : exists rest, DeviceSamples.serialize d = AccountTypeDeviceLatencySamples :: rest.
Proof. eexists. unfold DeviceSamples.serialize, DeviceHeader.serialize. by rewrite kind. Qed.

Lemma read_samples_spec : Client.read_device_samples (DeviceSamples.serialize d) = Ok d.
Proof.
  unfold Client.read_device_samples. rewrite <- (app_nil_r (DeviceSamples.serialize d)), device_Deserialize by done.
  destruct serialize_cons as [rest ->]. done.
Qed.

Lemma read_header_spec : Client.read_device_header (take DeviceLatencySamplesHeaderSize (DeviceSamples.serialize d)) = Ok header.
Proof.
  pose proof (DeviceHeader.device_length_serialize _ (DeviceSamples.wf_header d wf)) as Hlen.
  assert (Ht : exists rest, take DeviceLatencySamplesHeaderSize (DeviceSamples.serialize d) = DeviceHeader.serialize header ++ rest).
  { unfold DeviceSamples.serialize. exists (take 1 (samples_bytes samples)).
    replace DeviceLatencySamplesHeaderSize with (length (DeviceHeader.serialize header) + 1)%nat by (by rewrite Hlen).
    by rewrite take_app_add. }
  destruct Ht as [rest ->]. unfold Client.read_device_header.
  rewrite (decoded_start _ _ header) by (by apply DeviceHeader.device_reads_Decode; apply wf).
  unfold DeviceHeader.serialize. rewrite kind. done.
Qed.

Lemma read_tail_spec idx : let start := Client.tail_start idx (Z.of_nat (length samples)) in
  Client.read_device_tail (DeviceSamples.serialize d) idx = Ok (header, start, drop (Z.to_nat start) samples).
Proof.
  intros start. pose proof wf as [Hh Hs Hn].
  pose proof (tail_start_range idx (Z.of_nat (length samples)) ltac:(lia)) as Hr. fold start in Hr.
  assert (Hdec : decoded (DeviceHeader.Decode (DeviceSamples.serialize d) 0%nat) = Ok (header, length (DeviceHeader.serialize header))).
  { apply decoded_start. by apply DeviceHeader.device_reads_Decode. }
  assert (Hbody : forall t rest, DeviceSamples.serialize d = t :: rest -> t = AccountTypeDeviceLatencySamples ->
    Client.read_device_tail (t :: rest) idx = Ok (header, start, drop (Z.to_nat start) samples)).
  { intros t rest Ht ->. unfold Client.read_device_tail. cbn [Z.eqb AccountTypeDeviceLatencySamples]. rewrite <- Ht, Hdec.
    cbn beta iota delta [mbind res_bind Client.des]. rewrite Hn. fold start.
    destruct (Z.ltb_spec MaxDeviceLatencySamplesPerAccount (Z.of_nat (length samples))) as [Hx|_];
      [unfold MaxDeviceLatencySamplesPerAccount, MAX_DEVICE_LATENCY_SAMPLES in *; lia|].
    destruct (Z.eqb_spec start (Z.of_nat (length samples))) as [He|_]; [rewrite drop_ge by lia; done|].
    unfold DeviceSamples.serialize. rewrite length_app, length_samples_bytes.
    destruct (Z.ltb_spec (Z.of_nat (length (DeviceHeader.serialize header) + 4 * length samples))
      (Z.of_nat (length (DeviceHeader.serialize header)) + Z.of_nat (length samples) * 4)); [lia|].
    by rewrite tail_samples_spec. }
  destruct serialize_cons as [rest Ht]. rewrite Ht. by apply Hbody.
Qed.
End Read.

(** ** The client on a cluster that runs the program *)

(** The accounts of an instruction as the program sees them: the payer of the
    transaction is writable. *)
Definition metas_of (payer : pubkey) (i : genericInstruction) : list meta :=
  (fun m => OnchainLedger.mkMeta (meta_key m) (IsSigner m) (IsWritable m || bool_decide (meta_key m = payer))) <$> accounts i.

Definition custom_error (code : Z) : any := instruction_error 0 (AnyMap [(lit "Custom", AnyNumber (Some code))]).

(** The reads are answered with what the ledger holds. *)
Class AnsweredReads (W Tx : Type) `{TelemetryRPC W Tx} := {
  ledger_of : W -> ledger;
  cl_info k w : exists info w', GetAccountInfo k w = (info, w') /\ ledger_of w' = ledger_of w /\
    (ledger_of w !! k = None -> info = NotFound) /\
    (forall data, content_of (ledger_of w) k = Some (COther data) -> info = Account data);
  cl_slice o n k w : exists info w', GetAccountInfoWithOpts o n k w = (info, w') /\ ledger_of w' = ledger_of w /\
    (forall data, content_of (ledger_of w) k = Some (COther data) -> info = Account (take n (drop o data)))
}.

(** The data of an error that names no error of the program. *)
Definition uncoded (d : option any) : Prop := forall k, Client.write_error (mkExError k d) = CliExecute (mkExError k d).

(** What the writes rely on, whatever else fails. A transaction takes effect on
    the ledger when it is sent or never; if it does, the call may still return an
    error, but none of the program. Of one that has no effect the cluster
    returns no signature, or one that is never found finalized; only without a
    simulation a transaction that the program refuses is finalized. The other
    calls change nothing. *)
Class TelemetryCluster (W Tx : Type) `{AnsweredReads W Tx} (run : list meta -> bytes -> ledger -> R ledger) := {
  tx_single : Tx -> option (genericInstruction * pubkey);
  lost : W -> bytes -> Prop;
  cl_build i h p tx : NewSignedTransaction [i] h p = Some tx -> tx_single tx = Some (i, p);
  cl_send skip tx i p w : tx_single tx = Some (i, p) ->
    let res := run (metas_of p i) (ins_data i) (ledger_of w) in
    let '(r, w') := SendTransactionWithOpts skip tx w in
    (exists l', res = Ok l' /\ ledger_of w' = l' /\ forall d, r = inl d -> uncoded d) \/
    ledger_of w' = ledger_of w /\ forall sig, r = inr sig -> lost w' sig \/ skip = true /\ forall l', res <> Ok l';
  cl_blockhash : keeps ledger_of uncoded GetLatestBlockhash;
  cl_status sig : keeps ledger_of uncoded (GetSignatureStatuses sig);
  cl_transaction sig : keeps ledger_of uncoded (GetTransaction sig);
  cl_pause d w : ledger_of (Pause d w).2 = ledger_of w;
  lost_status sig w : lost w sig -> lost (GetSignatureStatuses sig w).2 sig /\
    forall f rest, (GetSignatureStatuses sig w).1 <> inr (Some (mkSigStatus true f) :: rest);
  lost_pause sig d w : lost w sig -> lost (Pause d w).2 sig
}.

Section Cluster.
Context `{Hreader : !IncrementalReader} (find_program_address : list bytes -> Pubkey -> Pubkey * Z).
Context (program_id serviceability_program_id : Pubkey).
#[local] Abbreviation program := (process_instruction find_program_address program_id serviceability_program_id).
Context {W Tx : Type} {Hrpc : ExecutorRPC W Tx} {Htrpc : TelemetryRPC W Tx} {Hreads : AnsweredReads W Tx}.
Context (find : list bytes -> pubkey -> option (pubkey * Z)).

(** The client derives the addresses the program does, from seeds within the
    limits. *)
Hypothesis find_agrees : forall seeds, Forall (fun s => (length s <= 32)%nat) seeds ->
  find seeds program_id = Some (find_program_address seeds program_id).
Hypothesis not_system : program_id <> SYSTEM_PROGRAM_ID.
#[local] Abbreviation device_pda o t l e := (derive_device_latency_samples_pda find_program_address program_id o t l e).1.

Lemma seeds_short origin target link epoch : length origin = 32%nat -> length target = 32%nat -> length link = 32%nat ->
  Forall (fun s => (length s <= 32)%nat) (device_seeds origin target link epoch).
Proof.
  intros H1 H2 H3. unfold device_seeds. repeat (apply Forall_cons; split);
    [vm_compute; lia|vm_compute; lia|lia|lia|lia|rewrite length_le_bytes; lia|apply Forall_nil; done].
Qed.

(** *** Reading *)

(** Addresses of different seeds differ. *)
Hypothesis collision_free : forall s s', (find_program_address s program_id).1 = (find_program_address s' program_id).1 ->
  concat s = concat s'.
#[local] Abbreviation accounts_ok := (accounts_ok find_program_address program_id).
#[local] Abbreviation device_account := (device_account find_program_address program_id).
#[local] Abbreviation internet_account := (internet_account find_program_address program_id).
#[local] Abbreviation internet_pda a n o t e := (derive_internet_latency_samples_pda find_program_address program_id a n o t e).1.

(** The account at the address of a partition holds the samples of that
    partition. *)
Lemma device_at_pda l h origin target link epoch : accounts_ok l h ->
  length origin = 32%nat -> length target = 32%nat -> length link = 32%nat -> is_u64 epoch ->
  let k := device_pda origin target link epoch in
  owner_of l k = program_id ->
  exists d, l !! k = Some (mkAccount program_id (COther (DeviceSamples.serialize d))) /\
    device_account k (DeviceSamples.serialize d) (h !!! k) d /\
    DeviceHeader.origin_device_pk (DeviceSamples.header d) = origin /\
    DeviceHeader.target_device_pk (DeviceSamples.header d) = target /\
    DeviceHeader.link_pk (DeviceSamples.header d) = link /\ DeviceHeader.epoch (DeviceSamples.header d) = epoch.
Proof.
  intros Hok H1 H2 H3 He k Ho. destruct (accounts_ok_owned _ _ not_system l h k Hok Ho) as (c & Hl & data & -> & [[d Hd]|[d Hd]]).
  - pose proof Hd as [-> [[] _ _] _ _ _ Hk _ _]. apply collision_free in Hk.
    unfold device_seeds in Hk. cbn [concat] in Hk. rewrite !app_nil_r in Hk. do 2 apply app_inv_head in Hk.
    apply app_inj_1 in Hk as [E1 Hk]; [|congruence]. apply app_inj_1 in Hk as [E2 Hk]; [|congruence].
    apply app_inj_1 in Hk as [E3 Hk]; [|congruence]. exists d. split_and!; [done..|].
    symmetry. by apply (le_bytes_inj 8).
  - pose proof Hd as [_ [[] _ _] _ _ _ Hk _ _ _]. apply collision_free in Hk. apply (f_equal length) in Hk. exfalso.
    unfold device_seeds, internet_seeds in Hk. cbn [concat] in Hk. rewrite !length_app in Hk. rewrite H1, H2, H3, wf_agent, wf_origin, wf_target in Hk.
    rewrite !length_le_bytes in Hk. vm_compute (length SEED_PREFIX) in Hk. vm_compute (length SEED_DEVICE_LATENCY_SAMPLES) in Hk.
    vm_compute (length SEED_INTERNET_LATENCY_SAMPLES) in Hk. cbn [length] in Hk. lia.
Qed.

Lemma derive_device origin target link epoch : length origin = 32%nat -> length target = 32%nat -> length link = 32%nat ->
  exists bump, DeriveDeviceLatencySamplesPDA find program_id origin target link epoch = Some (device_pda origin target link epoch, bump).
Proof.
  intros. unfold DeriveDeviceLatencySamplesPDA.
  change [TelemetrySeedPrefix; DeviceLatencySamplesSeed; origin; target; link; le_bytes 8 epoch] with (device_seeds origin target link epoch).
  rewrite find_agrees by by apply seeds_short. unfold derive_device_latency_samples_pda.
  destruct (find_program_address _ _) as [k b]. by exists b.
Qed.

(** What the three readers return for an account of the program. *)
Lemma device_readers origin target link epoch w d :
  length origin = 32%nat -> length target = 32%nat -> length link = 32%nat ->
  let k := device_pda origin target link epoch in
  ledger_of w !! k = Some (mkAccount program_id (COther (DeviceSamples.serialize d))) ->
  DeviceSamples.wf d -> DeviceHeader.account_type (DeviceSamples.header d) = AccountTypeDeviceLatencySamples ->
  Z.of_nat (length (DeviceSamples.samples d)) <= MAX_DEVICE_LATENCY_SAMPLES ->
  (exists w', Client.GetDeviceLatencySamples find program_id origin target link epoch w = (Ok d, w') /\ ledger_of w' = ledger_of w) /\
  (exists w', Client.GetDeviceLatencySamplesHeader find program_id origin target link epoch w = (Ok (DeviceSamples.header d), w') /\
     ledger_of w' = ledger_of w) /\
  (forall idx, let start := Client.tail_start idx (Z.of_nat (length (DeviceSamples.samples d))) in
     exists w', Client.GetDeviceLatencySamplesTail find program_id origin target link epoch idx w =
       (Ok (DeviceSamples.header d, start, drop (Z.to_nat start) (DeviceSamples.samples d)), w') /\ ledger_of w' = ledger_of w).
Proof.
  intros H1 H2 H3 k Hl Hwf Hty Hmax. destruct (derive_device origin target link epoch H1 H2 H3) as [bump Hpda].
  pose proof (content_account _ _ _ _ Hl) as (_ & _ & Hc).
  destruct (cl_info k w) as (info & w1 & Hi & Hl1 & _ & Hdata). rewrite (Hdata _ Hc) in Hi.
  destruct (cl_slice 0 DeviceLatencySamplesHeaderSize k w) as (info2 & w2 & Hi2 & Hl2 & Hdata2). rewrite (Hdata2 _ Hc), drop_0 in Hi2.
  split_and!.
  - exists w1. unfold Client.GetDeviceLatencySamples. rewrite Hpda. fold k. rewrite Hi. cbn beta iota delta [Client.account_binary mbind res_bind].
    by rewrite read_samples_spec.
  - exists w2. unfold Client.GetDeviceLatencySamplesHeader. rewrite Hpda. fold k. rewrite Hi2.
    cbn beta iota delta [Client.account_binary mbind res_bind]. by rewrite read_header_spec.
  - intros idx start. exists w1. unfold Client.GetDeviceLatencySamplesTail. rewrite Hpda. fold k. rewrite Hi.
    cbn beta iota delta [Client.account_binary mbind res_bind]. by rewrite read_tail_spec.
Qed.

Lemma internet_at_pda l h agent name origin target epoch : accounts_ok l h ->
  length agent = 32%nat -> length origin = 32%nat -> length target = 32%nat -> is_u64 epoch ->
  let k := internet_pda agent name origin target epoch in
  owner_of l k = program_id ->
  exists d, l !! k = Some (mkAccount program_id (COther (InternetSamples.serialize d))) /\
    internet_account k (InternetSamples.serialize d) (h !!! k) d /\
    InternetHeader.oracle_agent_pk (InternetSamples.header d) = agent /\
    InternetHeader.data_provider_name (InternetSamples.header d) = name /\
    InternetHeader.origin_exchange_pk (InternetSamples.header d) = origin /\
    InternetHeader.target_exchange_pk (InternetSamples.header d) = target /\ InternetHeader.epoch (InternetSamples.header d) = epoch.
Proof.
  intros Hok H1 H2 H3 He k Ho. destruct (accounts_ok_owned _ _ not_system l h k Hok Ho) as (c & Hl & data & -> & [[d Hd]|[d Hd]]).
  - pose proof Hd as [_ [[] _ _] _ _ _ Hk _ _]. apply collision_free in Hk. apply (f_equal length) in Hk. exfalso.
    unfold device_seeds, internet_seeds in Hk. cbn [concat] in Hk. rewrite !length_app in Hk.
    rewrite H1, H2, H3, wf_link, wf_origin, wf_target in Hk.
    rewrite !length_le_bytes in Hk. vm_compute (length SEED_PREFIX) in Hk. vm_compute (length SEED_DEVICE_LATENCY_SAMPLES) in Hk.
    vm_compute (length SEED_INTERNET_LATENCY_SAMPLES) in Hk. cbn [length] in Hk. lia.
  - pose proof Hd as [-> [[] _ _] _ _ _ Hk _ _ _]. apply collision_free in Hk. pose proof (f_equal length Hk) as Hlen.
    unfold internet_seeds in Hk, Hlen. cbn [concat] in Hk, Hlen. rewrite !app_nil_r in Hk. do 2 apply app_inv_head in Hk.
    rewrite !length_app, !length_le_bytes in Hlen.
    apply app_inj_1 in Hk as [E1 Hk]; [|congruence]. apply app_inj_1 in Hk as [E2 Hk]; [|lia].
    apply app_inj_1 in Hk as [E3 Hk]; [|congruence]. apply app_inj_1 in Hk as [E4 Hk]; [|congruence].
    exists d. split_and!; [done..|]. symmetry. by apply (le_bytes_inj 8).
Qed.

Lemma derive_internet agent name origin target epoch : length agent = 32%nat -> (length name <= 32)%nat ->
  length origin = 32%nat -> length target = 32%nat ->
  exists bump, DeriveInternetLatencySamplesPDA find program_id agent name origin target epoch =
    Some (internet_pda agent name origin target epoch, bump).
Proof.
  intros. unfold DeriveInternetLatencySamplesPDA.
  change [TelemetrySeedPrefix; InternetLatencySamplesSeed; agent; name; origin; target; le_bytes 8 epoch]
    with (internet_seeds agent name origin target epoch).
  rewrite find_agrees.
  - unfold derive_internet_latency_samples_pda. destruct (find_program_address _ _) as [k b]. by exists b.
  - unfold internet_seeds. repeat (apply Forall_cons; split);
      [vm_compute; lia|vm_compute; lia|lia|lia|lia|lia|rewrite length_le_bytes; lia|apply Forall_nil; done].
Qed.

(** C8. On every ledger that any sequence of instructions, sent by anyone, and
    of steps of other programs leads to, the client's readers return the
    account's history. For device accounts: the samples of the accepted
    writes in order, the header with the keys of the address, their number and
    the time of the first one, with every write made by the agent the header
    names; the header reader returns the same header, and the tail reader the
    samples after an index. For internet accounts likewise. *)
Theorem telemetry_reads_history w h : reachable find_program_address program_id serviceability_program_id (ledger_of w) h ->
  (forall origin target link epoch,
     length origin = 32%nat -> length target = 32%nat -> length link = 32%nat -> is_u64 epoch ->
     let k := device_pda origin target link epoch in
     owner_of (ledger_of w) k = program_id ->
     exists d w', Client.GetDeviceLatencySamples find program_id origin target link epoch w = (Ok d, w') /\
       DeviceSamples.samples d = samples_of (h !!! k) /\
       (let hd := DeviceSamples.header d in
        DeviceHeader.origin_device_pk hd = origin /\ DeviceHeader.target_device_pk hd = target /\
        DeviceHeader.link_pk hd = link /\ DeviceHeader.epoch hd = epoch /\
        DeviceHeader.next_sample_index hd = Z.of_nat (length (samples_of (h !!! k))) /\
        DeviceHeader.start_timestamp_microseconds hd = start_of (h !!! k) /\
        Forall (fun b => by_agent b = DeviceHeader.origin_device_agent_pk hd) (h !!! k)) /\
       (exists w', Client.GetDeviceLatencySamplesHeader find program_id origin target link epoch w = (Ok (DeviceSamples.header d), w')) /\
       (forall idx, -1 <= idx < 2 ^ 63 - 1 -> exists start w',
          Client.GetDeviceLatencySamplesTail find program_id origin target link epoch idx w =
            (Ok (DeviceSamples.header d, start, drop (Z.to_nat (idx + 1)) (samples_of (h !!! k))), w'))) /\
  (forall agent name origin target epoch,
     length agent = 32%nat -> (length name <= 32)%nat -> length origin = 32%nat -> length target = 32%nat -> is_u64 epoch ->
     let k := internet_pda agent name origin target epoch in
     owner_of (ledger_of w) k = program_id ->
     exists d w', Client.GetInternetLatencySamples find program_id name origin target agent epoch w = (Ok d, w') /\
       InternetSamples.samples d = samples_of (h !!! k) /\
       InternetHeader.start_timestamp_microseconds (InternetSamples.header d) = start_of (h !!! k) /\
       InternetHeader.data_provider_name (InternetSamples.header d) = name /\
       Forall (fun b => by_agent b = agent) (h !!! k)).
Proof.
  intros (Hok & _)%reachable_ok; [|done]. split.
  - intros origin target link epoch H1 H2 H3 He k Ho.
    destruct (device_at_pda _ h origin target link epoch Hok H1 H2 H3 He Ho) as (d & Hl & Hd & Hf). fold k in Hl, Hd.
    pose proof Hd as [_ Hwf Hty Hsam Hmax _ Hag Hst].
    destruct (device_readers origin target link epoch w d H1 H2 H3 Hl Hwf Hty Hmax) as ((w1 & Hg & _) & (w2 & Hh & _) & Ht).
    exists d, w1. destruct Hf as (F1 & F2 & F3 & F4). rewrite <- Hsam. cbn zeta.
    split_and!; [done..|apply Hwf|done|done|by exists w2|]. intros idx Hidx. destruct (Ht idx) as (w3 & Hx & _).
    eexists _, w3. rewrite Hx. do 3 f_equal. rewrite tail_start_spec by lia.
    destruct (decide (idx + 1 <= Z.of_nat (length (DeviceSamples.samples d)))); [f_equal; lia|].
    rewrite !drop_ge by lia. done.
  - intros agent name origin target epoch H0 Hn H1 H2 He k Ho.
    destruct (internet_at_pda _ h agent name origin target epoch Hok H0 H1 H2 He Ho) as (d & Hl & Hd & Hf). fold k in Hl, Hd.
    pose proof Hd as [_ Hwf Hty Hsam Hmax _ Hag Hst _].
    destruct (derive_internet agent name origin target epoch H0 Hn H1 H2) as [bump Hpda].
    pose proof (content_account _ _ _ _ Hl) as (_ & _ & Hc).
    destruct (cl_info k w) as (info & w1 & Hi & _ & _ & Hdata). rewrite (Hdata _ Hc) in Hi.
    exists d, w1. destruct Hf as (F1 & F2 & _). split_and!; [|done..|by rewrite <- F1].
    unfold Client.GetInternetLatencySamples. rewrite Hpda. fold k. rewrite Hi.
    cbn beta iota delta [Client.account_binary mbind res_bind].
    pose proof (internet_Deserialize d [] Hwf Hmax) as Hdes. rewrite app_nil_r in Hdes. by rewrite Hdes.
Qed.

(** *** Executing transactions *)

Context {Hcl : TelemetryCluster W Tx program}.
Context (fuel : nat).

Definition ready_client (agent : pubkey) (e : Exec.t) : Prop := Exec.signer e = Some agent /\ Exec.programID e = program_id.

#[local] Abbreviation rest_of sig timeout := (_ ← waitForSignatureVisible fuel sig timeout; _ ← wait_finalized fuel sig; mret sig).

Lemma uncoded_none : uncoded None.
Proof. done. Qed.

Lemma poll_quiet n sig : quiet ledger_of uncoded (poll_finalized (W := W) n sig).
Proof.
  induction n as [|n IH]; [apply quiet_wait|]. cbn [poll_finalized]. apply quiet_bind; [apply quiet_call, cl_status|]. intros l.
  assert (Hp : quiet ledger_of uncoded (cancelled ← xrpc (Pause Second);
    if cancelled : bool then xfail ErrGetTransaction None else poll_finalized n sig)).
  { apply quiet_bind; [apply quiet_done, cl_pause|]. intros []; [apply quiet_fail, uncoded_none|apply IH]. }
  destruct l as [|[[[] f]|] l]; [apply quiet_fail, uncoded_none|apply quiet_ret|exact Hp|exact Hp].
Qed.

Lemma rest_quiet sig timeout : quiet ledger_of uncoded (rest_of sig timeout).
Proof.
  apply quiet_bind; [apply visible_quiet; [apply uncoded_none|apply cl_status|apply cl_pause]|]. intros _.
  apply quiet_bind; [|intros _; apply quiet_ret]. unfold wait_finalized. apply quiet_bind; [apply poll_quiet|]. intros _.
  apply quiet_bind; [apply quiet_call, cl_transaction|]. intros []; [apply quiet_ret|apply quiet_fail, uncoded_none].
Qed.

(** The wait for a lost transaction does not end well. *)
Lemma lost_visible n sig deadline e w : lost w sig -> lost (signature_visible n sig deadline e w).2 sig.
Proof.
  revert w. induction n as [|n IH]; intros w Hw; [done|]. cbn [signature_visible].
  unfold mbind, X_bind, xcall, xrpc, mbind, X_bind. destruct (Before (Clock w) deadline); [|done].
  pose proof (lost_status sig w Hw) as [Hl _]. destruct (GetSignatureStatuses sig w) as [[d|l] w1]; [done|]. cbn [snd] in Hl.
  pose proof (lost_pause sig (250 * Millisecond) w1 Hl) as Hp. cbn.
  destruct l as [|[st|] l]; cbn; [|done|]; destruct (Pause _ w1) as [c w2]; by apply IH.
Qed.

Lemma lost_polled n sig e w : lost w sig -> (poll_finalized n sig e w).1.1 <> XDone ().
Proof.
  revert w. induction n as [|n IH]; intros w Hw; [done|]. cbn [poll_finalized].
  unfold mbind, X_bind, xcall, xrpc, mbind, X_bind. pose proof (lost_status sig w Hw) as [Hl Hs].
  destruct (GetSignatureStatuses sig w) as [[d|l] w1]; [done|]. cbn [fst snd] in Hl, Hs. cbn.
  pose proof (lost_pause sig Second w1 Hl) as Hp.
  destruct l as [|[[[] f]|] l]; [done|by destruct (Hs f l)| |]; cbn; destruct (Pause Second w1) as [c w2]; (destruct c; [done|by apply IH]).
Qed.

Lemma lost_rest sig timeout e w x : lost w sig -> (rest_of sig timeout e w).1.1 <> XDone x.
Proof.
  intros Hw. unfold waitForSignatureVisible, wait_finalized, mbind, X_bind, xrpc.
  pose proof (lost_visible fuel sig (TimeAdd (Clock w) timeout) e w Hw) as Hv.
  destruct (signature_visible _ _ _ e w) as [[[a|err| |] e1] w1]; [|done..]. cbn [snd] in Hv.
  pose proof (lost_polled fuel sig e1 w1 Hv) as Hp. destruct (poll_finalized fuel sig e1 w1) as [[[a'|err| |] e2] w2]; [|done..].
  cbn in Hp. by destruct a'.
Qed.

(** A transaction has the effect of the program, and then no error of it is
    returned; or it has none, and then it is reported as done only if it was
    sent without a simulation and the program refused it. *)
Lemma execute_any agent i skip e w : ready_client agent e ->
  let res := program (metas_of agent i) (ins_data i) (ledger_of w) in
  exists out w', ExecuteTransaction fuel i skip e w = (out, e, w') /\ out <> XPanic /\
    ((exists l', res = Ok l' /\ ledger_of w' = l' /\ harmless uncoded out) \/
     ledger_of w' = ledger_of w /\ forall sig, out = XDone sig -> skip = true /\ forall l', res <> Ok l').
Proof.
  intros (Hsig & Hprog). cbn zeta. assert (Hz : program_id <> replicate 32 0) by done.
  unfold ExecuteTransaction, ExecuteTransactions. unfold mbind at 1, X_bind at 1, xget. rewrite Hsig, Hprog, bool_decide_false by done.
  unfold mbind at 1, X_bind at 1, xcall at 1, mbind at 1, X_bind at 1, xrpc at 1.
  pose proof (cl_blockhash w) as [Hb _]. destruct (GetLatestBlockhash w) as [[d|h] w1]; cbn [snd] in Hb.
  { eexists _, w1. split; [reflexivity|]. split; [done|]. by right. }
  cbn -[waitForSignatureVisible wait_finalized xcall]. destruct (NewSignedTransaction [i] h agent) as [tx|] eqn:Htx; cycle 1.
  { eexists _, w1. split; [reflexivity|]. split; [done|]. by right. }
  pose proof (cl_send skip tx i agent w1 (cl_build _ _ _ _ Htx)) as Hs. rewrite Hb in Hs. cbn zeta in Hs.
  unfold mbind at 1, X_bind at 1, xcall, mbind at 1, X_bind at 1, xrpc.
  destruct (SendTransactionWithOpts skip tx w1) as [[d|sig] w2].
  - eexists _, w2. split; [reflexivity|]. split; [done|]. destruct Hs as [(l' & Hr & Hl & Hd)|[Hl _]]; [left|by right].
    exists l'. split_and!; [done..|]. split; [done|]. intros err [= <-]. by apply Hd.
  - cbn -[waitForSignatureVisible wait_finalized]. destruct (rest_quiet sig (Exec.waitForVisibleTimeout e) e w2) as (out & w3 & Hout & Hl3 & Hh).
    exists out, w3. split; [exact Hout|]. split; [apply Hh|]. destruct Hs as [(l' & Hr & Hl & _)|[Hl Hs]].
    + left. exists l'. split_and!; [done|congruence|done..].
    + right. split; [congruence|]. intros x ->. destruct (Hs sig eq_refl) as [Hlost|?]; [|done].
      pose proof (lost_rest sig (Exec.waitForVisibleTimeout e) e w2 x Hlost) as Hno. rewrite Hout in Hno. by destruct Hno.
Qed.

(** *** Writing device samples *)

Record write_ok (agent : pubkey) (epoch : Z) (c : WriteDevice.config) : Prop := mk_write_ok {
  wo_agent : WriteDevice.AgentPK c = agent;
  wo_valid : WriteDevice.Validate c = true;
  wo_epoch : WriteDevice.Epoch c = Some epoch;
  wo_origin : length (WriteDevice.OriginDevicePK c) = 32%nat;
  wo_target : length (WriteDevice.TargetDevicePK c) = 32%nat;
  wo_link : length (WriteDevice.LinkPK c) = 32%nat;
  wo_start : is_u64 (WriteDevice.StartTimestampMicroseconds c);
  wo_samples : Forall is_u32 (WriteDevice.Samples c);
  wo_batch : (0 < length (WriteDevice.Samples c) <= MaxDeviceLatencySamplesPerBatch)%nat
}.

Definition write_pda (c : WriteDevice.config) (epoch : Z) : Pubkey :=
  device_pda (WriteDevice.OriginDevicePK c) (WriteDevice.TargetDevicePK c) (WriteDevice.LinkPK c) epoch.
Definition write_args (c : WriteDevice.config) : WriteDeviceLatencySamplesArgs :=
  mkWriteDevice (WriteDevice.StartTimestampMicroseconds c) (WriteDevice.Samples c) (fixed 16 (WriteDevice.AgentVersion c))
    (fixed 8 (WriteDevice.AgentCommit c)).

Lemma length_fixed n s : length (fixed n s) = n.
Proof. unfold fixed. rewrite length_app, length_take, length_replicate. lia. Qed.

Lemma write_args_ok agent epoch c : write_ok agent epoch c -> instruction_ok (OnchainTelemetry.WriteDeviceLatencySamples (write_args c)).
Proof.
  intros []. cbn -[is_u]. split_and!; [done| |apply length_fixed..]. split; [done|].
  unfold MaxDeviceLatencySamplesPerBatch in *. unfold is_u. lia.
Qed.

(** The client asks the program for exactly this write. *)
Lemma write_built agent epoch c e : ready_client agent e -> write_ok agent epoch c ->
  exists i, WriteDevice.Build find (Exec.programID e) c = Ok i /\
    Forall (fun m => IsSigner m = true -> meta_key m = agent) (accounts i) /\
    forall l, program (metas_of agent i) (ins_data i) l =
      process_write_device_latency_samples program_id
        [OnchainLedger.mkMeta (write_pda c epoch) false true; OnchainLedger.mkMeta agent true true;
         OnchainLedger.mkMeta SYSTEM_PROGRAM_ID false (bool_decide (SYSTEM_PROGRAM_ID = agent))] (write_args c) l.
Proof.
  intros (Hsig & Hprog) Hc. pose proof (write_args_ok _ _ _ Hc) as Hargs. destruct Hc.
  unfold WriteDevice.Build, DeriveDeviceLatencySamplesPDA. rewrite wo_valid0, wo_epoch0, Hprog. cbn [negb default].
  change [TelemetrySeedPrefix; DeviceLatencySamplesSeed; WriteDevice.OriginDevicePK c; WriteDevice.TargetDevicePK c;
          WriteDevice.LinkPK c; le_bytes 8 epoch]
    with (device_seeds (WriteDevice.OriginDevicePK c) (WriteDevice.TargetDevicePK c) (WriteDevice.LinkPK c) epoch).
  rewrite find_agrees by by apply seeds_short. unfold write_pda, derive_device_latency_samples_pda.
  destruct (find_program_address _ _) as [pda bump]. eexists. split; [done|]. split.
  { cbn. repeat (apply Forall_cons; split; [done|]). by apply Forall_nil. }
  intros l. unfold process_instruction. change (ins_data _) with (pack (OnchainTelemetry.WriteDeviceLatencySamples (write_args c))).
  rewrite unpack_pack by done. cbn -[process_write_device_latency_samples]. rewrite wo_agent0, (bool_decide_true (agent = agent)) by done. done.
Qed.

(** The outcomes of a write by the client: it has its effect on an account of
    the agent that is not full, and then no error of the program is reported; or
    it has none, and then it is not reported as done. *)
Lemma client_write agent epoch c e w h : ready_client agent e -> write_ok agent epoch c ->
  accounts_ok (ledger_of w) h ->
  let k := write_pda c epoch in
  let l := ledger_of w in
  exists r w', Client.WriteDeviceLatencySamples find fuel c e w = (r, e, w') /\
    ((exists d, l !! k = Some (mkAccount program_id (COther (DeviceSamples.serialize d))) /\
        device_account k (DeviceSamples.serialize d) (h !!! k) d /\
        DeviceHeader.origin_device_agent_pk (DeviceSamples.header d) = agent /\
        Z.of_nat (length (DeviceSamples.samples d ++ WriteDevice.Samples c)) <= MAX_DEVICE_LATENCY_SAMPLES /\
        ledger_of w' = <[k := mkAccount program_id (COther (DeviceSamples.serialize (device_appended (write_args c) d)))]> l) /\
       (forall x, r = Client.Failed x -> exists err, x = CliExecute err) \/
     ledger_of w' = l /\ forall sig, r <> Client.Done sig).
Proof.
  intros He Hc Hok k l. destruct (write_built agent epoch c e He Hc) as (i & Hb & Hsig & Hrun).
  pose proof (write_args_ok _ _ _ Hc) as Hargs.
  destruct (execute_any agent i false e w He) as (out & w' & Hx & Hnp & Hcase). rewrite Hrun in Hcase.
  unfold Client.WriteDeviceLatencySamples. rewrite (proj2 (Nat.ltb_ge _ _)) by apply Hc. rewrite Hb. unfold Client.execute. rewrite Hx.
  eexists _, w'. split; [reflexivity|]. destruct Hcase as [(l' & Hp & Hl' & _ & Hh)|[Hl Hdone]].
  - left. split.
    + eapply write_device_effect in Hp as (a & ag & rest & d & [= <- <- <-] & _ & Hl & Hd & Hag & [Hmax _] & ->); [|done..].
      cbn [key] in *. exists d. split_and!; [done..|done].
    + intros x. destruct out as [sig|err| |]; [done| |done..]. intros [= <-]. exists err. specialize (Hh err eq_refl (err_kind err)). by destruct err.
  - right. split; [done|]. intros sig. destruct out; [|done..]. by destruct (Hdone _ eq_refl).
Qed.

(** *** What may be on the ledger after calls

    A write that is reported as done is, one with an error that names no error
    of the program may be, and no other. *)
Fixpoint may_land (cs : list rpc_call) (l : list Z) : Prop :=
  match cs with
  | [] => l = []
  | TelemetrySubmitter.WriteDeviceLatencySamples _ rtts RpcOk :: cs => exists l', l = rtts ++ l' /\ may_land cs l'
  | TelemetrySubmitter.WriteDeviceLatencySamples _ rtts RpcError :: cs => may_land cs l \/ exists l', l = rtts ++ l' /\ may_land cs l'
  | _ :: cs => may_land cs l
  end.

Lemma may_land_app c1 c2 l : may_land (c1 ++ c2) l -> exists l1 l2, l = l1 ++ l2 /\ may_land c1 l1 /\ may_land c2 l2.
Proof.
  revert l. induction c1 as [|c c1 IH]; intros l; [by exists [], l|]. cbn [may_land app].
  destruct c as [start rtts res|res]; [destruct res|]; [| | |intros [H|H]|].
  all: try (intros (l1 & l2 & -> & H1 & H2)%IH; by exists l1, l2).
  - intros (l' & -> & (l1 & l2 & -> & H1 & H2)%IH). exists (rtts ++ l1), l2. rewrite app_assoc. eauto.
  - apply IH in H as (l1 & l2 & -> & H1 & H2). exists l1, l2. eauto.
  - destruct H as (l' & -> & (l1 & l2 & -> & H1 & H2)%IH). exists (rtts ++ l1), l2. rewrite app_assoc. eauto 6.
Qed.

Lemma submit_batch_lands env n batch o n' calls l : submit_batch env n batch = (o, n', calls) -> may_land calls l ->
  match o with
  | None => l = rtt_of <$> batch
  | Some SubmitErr => l = [] \/ l = rtt_of <$> batch
  | Some SubmitAccountFull => l = []
  | Some SubmitOk => False
  end.
Proof.
  unfold submit_batch. destruct (env n) eqn:En; [|case_bool_decide; [destruct (env (S (S n)))|]|..]; intros [= <- <- <-]; cbn.
  all: repeat match goal with
    | |- (exists l', _ = _ ++ l' /\ _ = []) -> _ => intros (l' & -> & ->); rewrite app_nil_r
    | |- _ \/ _ -> _ => intros [Hm|Hm]; [|destruct Hm as (l' & -> & ->); rewrite app_nil_r]
    end; auto.
Qed.

(** Of the samples of a submission, those of the first batches: all on success,
    not all if the account is full. *)
Lemma submit_from_lands env fl samples : forall i n o n' calls l, (length samples <= i + fl * MaxDeviceLatencySamplesPerBatch)%nat ->
  submit_from env fl samples i n = (o, n', calls) -> may_land calls l ->
  exists m, l = rtt_of <$> take m (drop i samples) /\ (m <= length samples - i)%nat /\
    (o = SubmitOk -> m = (length samples - i)%nat) /\ (o = SubmitAccountFull -> (m < length samples - i)%nat) /\
    (m = (length samples - i)%nat \/ exists j, m = (j * MaxDeviceLatencySamplesPerBatch)%nat).
Proof.
  induction fl as [|fl IH]; intros i n o n' calls l Hfl; cbn [submit_from].
  { intros [= <- <- <-] ->. exists 0%nat. split_and!; [done|lia|lia|done|left; lia]. }
  destruct (i <? length samples)%nat eqn:Hi; cycle 1.
  { intros [= <- <- <-] ->. exists 0%nat. apply Nat.ltb_ge in Hi. split_and!; [done|lia|lia|done|left; lia]. }
  apply Nat.ltb_lt in Hi. set (size := (Nat.min (i + TelemetrySubmitter.MaxDeviceLatencySamplesPerBatch) (length samples) - i)%nat).
  assert (Hsize : size = Nat.min 239 (length samples - i)) by (unfold size, TelemetrySubmitter.MaxDeviceLatencySamplesPerBatch; lia).
  unfold MaxDeviceLatencySamplesPerBatch in *.
  destruct (submit_batch env n (take size (drop i samples))) as [[o1 n1] c1] eqn:Hb. destruct o1 as [o1|].
  - intros [= <- <- <-] Hm. pose proof (submit_batch_lands _ _ _ _ _ _ _ Hb Hm) as Hl. destruct o1; [done|..].
    + exists 0%nat. split_and!; [done|lia|done|lia|right; by exists 0%nat].
    + destruct Hl as [-> | ->]; [exists 0%nat|exists size].
      * split_and!; [done|lia|done|done|right; by exists 0%nat].
      * split_and!; [done|lia|done|done|]. destruct (decide (239 <= length samples - i)%nat); [right; exists 1%nat; lia|left; lia].
  - destruct (submit_from env fl samples _ n1) as [[o2 n2] c2] eqn:Hf. intros [= <- <- <-] (l1 & l2 & -> & H1 & H2)%may_land_app.
    pose proof (submit_batch_lands _ _ _ _ _ _ _ Hb H1) as ->. destruct (fun H => IH _ _ _ _ _ _ H Hf H2) as (m & -> & Hle & Hok & Hfull & Hj).
    1: { unfold TelemetrySubmitter.MaxDeviceLatencySamplesPerBatch. lia. }
    unfold TelemetrySubmitter.MaxDeviceLatencySamplesPerBatch in *. exists (size + m)%nat.
    destruct (decide (239 <= length samples - i)%nat) as [Hge|Hlt].
    + split_and!; [|lia|intros ->%Hok; lia|intros ?%Hfull; lia|].
      * assert (size = 239%nat) as -> by lia. rewrite <- fmap_app. f_equal.
        by rewrite <- drop_drop, take_take_drop.
      * destruct Hj as [->|[j ->]]; [left; lia|right; exists (S j); lia].
    + assert (m = 0%nat) as -> by lia. rewrite Nat.add_0_r, take_0, app_nil_r. split_and!; [done|lia|lia|intros ?%Hfull; lia|left; lia].
Qed.

Lemma SubmitSamples_lands env samples n o n' calls l : SubmitSamples env samples n = (o, n', calls) -> may_land calls l ->
  exists m, l = rtt_of <$> take m samples /\ (m <= length samples)%nat /\
    (o = SubmitOk -> m = length samples) /\ (o = SubmitAccountFull -> (m < length samples)%nat) /\
    (m = length samples \/ exists j, m = (j * MaxDeviceLatencySamplesPerBatch)%nat).
Proof.
  unfold SubmitSamples. destruct (length samples =? 0)%nat eqn:Hz.
  - intros [= <- <- <-] ->. apply Nat.eqb_eq in Hz. exists 0%nat. split_and!; [done|lia|lia|done|left; lia].
  - intros Hf Hm. destruct (fun H => submit_from_lands _ _ _ _ _ _ _ _ _ H Hf Hm) as (m & -> & H); [unfold MaxDeviceLatencySamplesPerBatch; lia|].
    rewrite ?drop_0, Nat.sub_0_r in H. exists m. by rewrite drop_0.
Qed.

(** *** Submitting

    The calls of the submitter for one partition, through the client, with the
    other users of the ledger at work between them. *)

Section Submission.
Context (agent : pubkey) (pk : PartitionKey) (interval : Z) (version commit : bytes) (e : Exec.t).
#[local] Abbreviation origin := (TelemetrySubmitter.OriginDevicePK pk).
#[local] Abbreviation target := (TelemetrySubmitter.TargetDevicePK pk).
#[local] Abbreviation link := (TelemetrySubmitter.LinkPK pk).
#[local] Abbreviation epoch := (TelemetrySubmitter.Epoch pk).

Definition write_config (start : Z) (rtts : list Z) : WriteDevice.config :=
  WriteDevice.mk agent origin target link (Some epoch) start rtts version commit.
Definition init_config : InitDevice.config := InitDevice.mk agent origin target link (Some epoch) interval version commit.

(** What the submitter sees of the result of a call. *)
Definition reported (r : Client.result) : option rpc_result :=
  match r with
  | Client.Done _ => Some RpcOk
  | Client.Failed CliAccountNotFound => Some RpcAccountNotFound
  | Client.Failed CliSamplesAccountFull => Some RpcAccountFull
  | Client.Failed _ => Some RpcError
  | Client.Panicked | Client.Waiting => None
  end.

(** The history after a write: it has a batch more if the ledger changed. *)
Definition log_write (l l' : ledger) (start : Z) (rtts : list Z) (h h' : history) : Prop :=
  let k := device_pda origin target link epoch in
  l' = l /\ h' = h \/ l' <> l /\ h' = <[k := h !!! k ++ [mkBatch agent start rtts]]> h.

(** A step of somebody else: another program, or an instruction that the agent
    has not signed. *)
Inductive foreign_step : ledger * history -> ledger * history -> Prop :=
| foreign_others l l' h : others_step program_id l l' -> foreign_step (l, h) (l', h)
| foreign_instruction l h accounts data i l' : Forall (fun a => length (key a) = 32%nat) (tail accounts) ->
    unpack data = Ok i -> program accounts data l = Ok l' ->
    Forall (fun a => is_signer a = true -> key a <> agent) accounts -> foreign_step (l, h) (l', record_batch accounts i h).

Inductive calls_run : W -> history -> list rpc_call -> W -> history -> Prop :=
| calls_done w h : calls_run w h [] w h
| calls_foreign w h w1 h1 cs w2 h2 : rtc foreign_step (ledger_of w, h) (ledger_of w1, h1) ->
    calls_run w1 h1 cs w2 h2 -> calls_run w h cs w2 h2
| calls_write w h start rtts r res w1 h1 cs w2 h2 :
    Client.WriteDeviceLatencySamples find fuel (write_config start rtts) e w = (r, e, w1) -> reported r = Some res ->
    log_write (ledger_of w) (ledger_of w1) start rtts h h1 -> calls_run w1 h1 cs w2 h2 ->
    calls_run w h (TelemetrySubmitter.WriteDeviceLatencySamples start rtts res :: cs) w2 h2
| calls_init w h r res w1 cs w2 h2 :
    Client.InitializeDeviceLatencySamples find fuel init_config e w = (r, e, w1) -> reported r = Some res ->
    calls_run w1 h cs w2 h2 -> calls_run w h (TelemetrySubmitter.InitializeDeviceLatencySamples res :: cs) w2 h2.

Hypothesis client_ready : ready_client agent e.
Hypothesis config_ok : WriteDevice.Validate (write_config 0 []) = true /\ InitDevice.Validate init_config = true.
Hypothesis keys_ok : length agent = 32%nat /\ length origin = 32%nat /\ length target = 32%nat /\ length link = 32%nat.
Hypothesis numbers_ok : is_u64 epoch /\ is_u64 interval.
#[local] Abbreviation k := (device_pda origin target link epoch).

Definition sound (l : ledger) (h : history) : Prop := accounts_ok l h /\ locations_ok l.

(** The account of the partition belongs to the agent. *)
Definition ours (l : ledger) (h : history) : Prop :=
  exists data, l !! k = Some (mkAccount program_id (COther data)) /\ device_of find_program_address program_id k data (h !!! k) agent.

Definition call_typed (c : rpc_call) : Prop :=
  call_ok c /\ match c with TelemetrySubmitter.WriteDeviceLatencySamples start rtts _ => is_u64 start /\ Forall is_u32 rtts | _ => True end.

Lemma write_config_ok start rtts : call_typed (TelemetrySubmitter.WriteDeviceLatencySamples start rtts RpcOk) ->
  write_ok agent epoch (write_config start rtts).
Proof.
  intros (Hlen & Hst & Hr). destruct keys_ok as (? & ? & ? & ?). constructor; cbn; try done. apply config_ok.
Qed.

(** *** The steps *)

Lemma log_sound l h l' start rtts d : sound l h -> is_u64 start -> Forall is_u32 rtts ->
  (0 < length rtts <= 239)%nat ->
  device_account k (DeviceSamples.serialize d) (h !!! k) d ->
  DeviceHeader.origin_device_agent_pk (DeviceSamples.header d) = agent ->
  Z.of_nat (length (DeviceSamples.samples d ++ rtts)) <= MAX_DEVICE_LATENCY_SAMPLES ->
  l !! k = Some (mkAccount program_id (COther (DeviceSamples.serialize d))) ->
  l' = <[k := mkAccount program_id (COther (DeviceSamples.serialize (device_appended (write_args (write_config start rtts)) d)))]> l ->
  let h' := <[k := h !!! k ++ [mkBatch agent start rtts]]> h in
  l' <> l /\ sound l' h' /\ ours l' h'.
Proof.
  intros [Hok Hloc] Hst Hr Hlen Hd Hag Hmax Hl ->. cbn zeta.
  assert (Hnew : device_of find_program_address program_id k
    (DeviceSamples.serialize (device_appended (write_args (write_config start rtts)) d)) (h !!! k ++ [mkBatch agent start rtts]) agent).
  { eexists. split.
    - refine (device_account_append _ _ _ _ _ _ (write_args (write_config start rtts)) _ Hd _ Hag Hmax). cbn -[is_u]. split_and!; [done| |apply length_fixed..]. split; [done|]. unfold is_u. lia.
    - cbn. rewrite <- Hag. apply (stamp_device_fixed (write_args (write_config start rtts)) (DeviceSamples.header d)). }
  split_and!; [|split; [|by apply locations_ok_insert]|].
  - intros E. apply (f_equal (lookup k)) in E. rewrite lookup_insert_eq, Hl in E.
    set (new := DeviceSamples.serialize (device_appended _ d)) in *. set (old := DeviceSamples.serialize d) in *.
    clearbody new old. injection E as E.
    destruct Hnew as (d' & Hd' & _). pose proof Hd' as [_ _ _ Hs' _ _ _ _]. pose proof Hd as [_ _ _ Hs _ _ _ _].
    rewrite E in Hd'. rewrite (device_account_unique _ _ _ _ _ _ _ _ Hd' Hd), Hs, samples_of_snoc in Hs'.
    apply (f_equal length) in Hs'. rewrite length_app in Hs'. cbn in Hs'. lia.
  - eapply accounts_ok_update; [done|]. eapply account_of_ok. by left.
  - eexists. rewrite lookup_insert_eq, lookup_total_insert_eq. done.
Qed.

(** A write takes effect on an account of the agent, and is then reported as
    done or with an error that names no error of the program; or it takes none. *)
Lemma step_write w h start rtts r w1 h1 : sound (ledger_of w) h ->
  call_typed (TelemetrySubmitter.WriteDeviceLatencySamples start rtts RpcOk) ->
  Client.WriteDeviceLatencySamples find fuel (write_config start rtts) e w = (r, e, w1) ->
  log_write (ledger_of w) (ledger_of w1) start rtts h h1 ->
  sound (ledger_of w1) h1 /\
  (ours (ledger_of w) h /\ ours (ledger_of w1) h1 /\ samples_of (h1 !!! k) = samples_of (h !!! k) ++ rtts /\
     (forall x, r = Client.Failed x -> exists err, x = CliExecute err) \/
   ledger_of w1 = ledger_of w /\ h1 = h /\ forall sig, r <> Client.Done sig).
Proof.
  intros [Hok Hloc] Ht Hc Hlog. pose proof (write_config_ok _ _ Ht) as Hcfg. destruct Ht as (Hlen & Hst & Hr).
  destruct (client_write agent epoch _ e w h client_ready Hcfg Hok) as (r' & w' & Hc' & Hcase).
  rewrite Hc in Hc'. injection Hc' as <- <-. destruct Hcase as [[(d & Hl & Hd & Hag & Hmax & Hl') Hf]|[Hl' Hnd]].
  - destruct (log_sound _ h _ start rtts d (conj Hok Hloc) Hst Hr Hlen Hd Hag Hmax Hl Hl') as (Hne & Hs & Ho).
    destruct Hlog as [[? _]|[_ ->]]; [done|]. split; [done|]. left. split_and!; [|done| |done].
    + eexists. split; [done|]. by exists d.
    + by rewrite lookup_total_insert_eq, samples_of_snoc.
  - destruct Hlog as [[_ ->]|[? _]]; [|done]. split; [by rewrite Hl'|]. by right.
Qed.

(** *** Whose account it is *)

Definition none (l : ledger) : Prop := owner_of l k <> program_id.
Definition theirs (l : ledger) (h : history) : Prop :=
  exists data ag, l !! k = Some (mkAccount program_id (COther data)) /\
    account_of find_program_address program_id k data (h !!! k) ag /\ ag <> agent.

Lemma whose l h : sound l h -> none l \/ ours l h \/ theirs l h.
Proof.
  intros [Hok _]. destruct (decide (owner_of l k = program_id)) as [Ho|]; [|by left]. destruct keys_ok as (_ & ? & ? & ?).
  right. destruct (device_at_pda l h origin target link epoch Hok) as (d & Hl & Hd & _); [done..|apply numbers_ok|done|].
  destruct (decide (DeviceHeader.origin_device_agent_pk (DeviceSamples.header d) = agent)) as [He|Hne]; [left|right].
  - eexists. split; [done|]. by exists d.
  - eexists _, _. split; [done|]. split; [left; by exists d|done].
Qed.

Lemma ours_not_theirs l h : ours l h -> theirs l h -> False.
Proof.
  intros (data & Hl & Hd) (data' & ag & Hl' & Ha & Hne). assert (data' = data) as -> by congruence.
  apply Hne. symmetry. refine (account_of_unique _ _ _ _ _ _ _ _ _ Ha). by left.
Qed.

Lemma foreign_spec l h l' h' : foreign_step (l, h) (l', h') -> sound l h ->
  sound l' h' /\ (ours l h -> ours l' h' /\ h' !!! k = h !!! k) /\ (theirs l h -> theirs l' h') /\ (none l -> none l' \/ theirs l' h').
Proof.
  inversion 1 as [? ? ? Ho|? ? accounts data i ? Hacc Hu Hp Hsig]; subst; intros [Hok Hloc].
  - destruct Ho as (Hloc' & Hkeep & Hfree). split; [split; [by eapply accounts_ok_others|done]|].
    assert (Hk : forall c, l !! k = Some (mkAccount program_id c) -> l' !! k = Some (mkAccount program_id c)).
    { intros c Hc. rewrite Hkeep; [done|]. by destruct (content_account _ _ _ _ Hc). }
    split_and!; [intros (data & Hl & Hd); split; [exists data; by split; [apply Hk|]|done]
      |intros (data & ag & Hl & Ha); exists data, ag; by split; [apply Hk|]|intros Hn; left; by apply Hfree].
  - split; [by eapply instruction_preserves|]. split_and!.
    + intros (data0 & Hl & Hd). destruct (unsigned_keeps find_program_address program_id serviceability_program_id not_system
        accounts data i l l' h k data0 agent) as [Hl' Hh]; [done..|by left|done|].
      split; [|done]. exists data0. rewrite Hl', Hh. done.
    + intros (data0 & ag & Hl & Ha & Hne). destruct (agent_kept find_program_address program_id serviceability_program_id not_system
        accounts data i l l' h k data0 ag) as (data1 & Hl1 & Ha1); [done..|]. by exists data1, ag.
    + intros Hn. destruct (instruction_cases find_program_address program_id serviceability_program_id not_system accounts data i l l' h)
        as (a & ag & rest & data' & bs & -> & Hs & -> & Hnew & Hcase); [done..|].
      apply Forall_cons in Hsig as [_ Hsig]. apply Forall_cons in Hsig as [Hsig _]. specialize (Hsig Hs).
      destruct (decide (key a = k)) as [Hk|Hne]; cycle 1.
      { left. unfold none, owner_of in *. by rewrite lookup_insert_ne. }
      right. destruct Hcase as [(He & -> & ->)|(-> & data0 & Hl & _)].
      * exists data', (key ag). rewrite <- Hk, lookup_insert_eq. rewrite (accounts_ok_free _ _ l h (key a) Hok) by (by rewrite Hk). done.
      * exfalso. apply Hn. rewrite Hk in Hl. by destruct (content_account _ _ _ _ Hl).
Qed.

Lemma foreign_steps s s' : rtc foreign_step s s' -> sound s.1 s.2 ->
  sound s'.1 s'.2 /\ (ours s.1 s.2 -> ours s'.1 s'.2 /\ s'.2 !!! k = s.2 !!! k) /\ (theirs s.1 s.2 -> theirs s'.1 s'.2) /\
  (none s.1 -> none s'.1 \/ theirs s'.1 s'.2).
Proof.
  induction 1 as [s|[l h] [l1 h1] [l2 h2] Hstep _ IH]; [tauto|]. cbn in *. intros Hs.
  destruct (foreign_spec _ _ _ _ Hstep Hs) as (Hs1 & Ho & Ht & Hn). destruct (IH Hs1) as (Hs2 & Ho2 & Ht2 & Hn2).
  split_and!; [done| | |].
  - intros [H1 E1]%Ho. destruct (Ho2 H1) as [H2 E2]. split; [done|congruence].
  - auto.
  - intros [H1|H1]%Hn; auto.
Qed.

(** *** Creating the account *)

Definition init_args : InitializeDeviceLatencySamplesArgs := mkInitDevice epoch interval (fixed 16 version) (fixed 8 commit).

Lemma init_built : exists i, InitDevice.Build find (Exec.programID e) init_config = Ok i /\
  Forall (fun m => IsSigner m = true -> meta_key m = agent) (accounts i) /\
  exists rest, Forall (fun a => length (key a) = 32%nat) (OnchainLedger.mkMeta agent true true :: rest) /\
  forall l, program (metas_of agent i) (ins_data i) l =
    process_initialize_device_latency_samples find_program_address program_id serviceability_program_id
      (OnchainLedger.mkMeta k false true :: OnchainLedger.mkMeta agent true true :: rest) init_args l.
Proof.
  destruct client_ready as (Hsig & Hprog). destruct keys_ok as (Ka & Ko & Kt & Kl). destruct numbers_ok as (Ne & Ni).
  unfold InitDevice.Build. rewrite (proj2 config_ok), Hprog. cbn [negb default InitDevice.Epoch init_config].
  destruct (derive_device origin target link epoch Ko Kt Kl) as [bump Hd].
  cbn [InitDevice.OriginDevicePK InitDevice.TargetDevicePK InitDevice.LinkPK init_config from_option id]. rewrite Hd.
  eexists. split; [done|]. split; [cbn; repeat (apply Forall_cons; split; [done|]); by apply Forall_nil|].
  eexists [_; _; _; _]. split; cycle 1.
  - intros l. unfold process_instruction, metas_of. cbn [accounts fmap list_fmap meta_key IsSigner IsWritable InitDevice.AgentPK init_config orb].
    change (ins_data _) with (pack (OnchainTelemetry.InitializeDeviceLatencySamples init_args)).
    rewrite unpack_pack; [|cbn -[is_u]; split_and!; [done..|apply length_fixed|apply length_fixed]].
    reflexivity.
  - repeat (apply Forall_cons; split; [done|]). by apply Forall_nil.
Qed.

Lemma step_init w h r w1 : sound (ledger_of w) h ->
  Client.InitializeDeviceLatencySamples find fuel init_config e w = (r, e, w1) ->
  sound (ledger_of w1) h /\ (ledger_of w1 = ledger_of w \/ none (ledger_of w) /\ ours (ledger_of w1) h).
Proof.
  intros [Hok Hloc] Hc. destruct init_built as (i & Hb & Hsig & rest & Hkeys & Hrun).
  destruct (execute_any agent i true e w client_ready) as (out & w' & Hx & _ & Hcase). rewrite Hrun in Hcase.
  unfold Client.InitializeDeviceLatencySamples, Client.execute in Hc. rewrite Hb, Hx in Hc. injection Hc as _ <-.
  destruct Hcase as [(l' & Hp & Hl & _)|[Hl _]]; [|rewrite Hl; split; [done|by left]].
  rewrite Hl. destruct keys_ok as (Ka & Ko & Kt & Kl). destruct numbers_ok as (Ne & Ni).
  apply init_device_effect in Hp as (a & ag & rs & data & [= <- <- <-] & _ & He & (d & Hd & Hag) & ->);
    [|done|done|cbn -[is_u]; split_and!; [done..|apply length_fixed|apply length_fixed]].
  cbn [key] in *. assert (Hno : none (ledger_of w)).
  { apply bool_decide_eq_true in He. unfold none, owner_of. rewrite He. done. }
  split; [split; [|by apply locations_ok_insert]|right; split; [done|]].
  - apply accounts_ok_create; [done..|]. eapply account_of_ok. left. by exists d.
  - exists data. rewrite lookup_insert_eq. split; [done|]. rewrite (accounts_ok_free _ _ _ h k Hok Hno). by exists d.
Qed.

(** *** A run *)

Lemma reported_ok r : reported r = Some RpcOk -> exists sig, r = Client.Done sig.
Proof. destruct r as [sig|[]| |]; cbn; intros; try discriminate. by exists sig. Qed.

Lemma run_landed w h cs w2 h2 : calls_run w h cs w2 h2 -> Forall call_typed cs -> sound (ledger_of w) h ->
  sound (ledger_of w2) h2 /\
  (ours (ledger_of w) h -> ours (ledger_of w2) h2 /\ exists l, may_land cs l /\ samples_of (h2 !!! k) = samples_of (h !!! k) ++ l) /\
  (theirs (ledger_of w) h -> may_land cs []) /\
  (none (ledger_of w) -> may_land cs [] \/ ours (ledger_of w2) h2 /\ may_land cs (samples_of (h2 !!! k))).
Proof.
  induction 1 as [w h|w h w1 h1 cs w2 h2 Hf _ IH|w h start rtts r res w1 h1 cs w2 h2 Hc Hr Hlog _ IH|w h r res w1 cs w2 h2 Hc Hr _ IH];
    intros Hcs Hs.
  - split_and!; [done| |done|by left]. intros. split; [done|]. exists []. by rewrite app_nil_r.
  - destruct (foreign_steps _ _ Hf Hs) as (Hs1 & Ho & Ht & Hn). cbn in *. destruct (IH Hcs Hs1) as (Hs2 & Ho2 & Ht2 & Hn2).
    split_and!; [done| | |].
    + intros [H1 E1]%Ho. rewrite <- E1. auto.
    + auto.
    + intros [H1|H1]%Hn; auto.
  - apply Forall_cons in Hcs as [Ht Hcs].
    destruct (step_write w h start rtts r w1 h1 Hs Ht Hc Hlog) as (Hs1 & Hcase). destruct (IH Hcs Hs1) as (Hs2 & Ho2 & Ht2 & Hn2).
    split; [done|]. destruct Hcase as [(Ho & Ho1 & E1 & Hx)|(Hl & -> & Hnd)].
    + destruct (Ho2 Ho1) as [H2 (l & Hm & E2)].
      assert (Hres : res = RpcOk \/ res = RpcError).
      { destruct r as [sig|x| |]; cbn in Hr; [injection Hr as <-; by left| |done..]. destruct (Hx x eq_refl) as [err ->]. right. by injection Hr. }
      split_and!.
      * intros _. split; [done|]. exists (rtts ++ l). split; [|by rewrite E2, E1, app_assoc]. destruct Hres as [-> | ->]; cbn; [|right]; eauto.
      * intros H3. destruct (ours_not_theirs _ _ Ho H3).
      * intros Hn. destruct Ho as (data & Hd & _). destruct Hn. by destruct (content_account _ _ _ _ Hd).
    + assert (Hskip : forall l, may_land cs l -> may_land (TelemetrySubmitter.WriteDeviceLatencySamples start rtts res :: cs) l).
      { intros l Hm. destruct res; cbn; auto. destruct (reported_ok _ Hr) as [sig ->]. by destruct (Hnd sig). }
      rewrite Hl in *. split_and!.
      * intros [H2 (l & Hm & E)]%Ho2. eauto.
      * auto.
      * intros [?|[? ?]]%Hn2; auto.
  - apply Forall_cons in Hcs as [_ Hcs]. destruct (step_init w h r w1 Hs Hc) as (Hs1 & Hcase).
    destruct (IH Hcs Hs1) as (Hs2 & Ho2 & Ht2 & Hn2). cbn [may_land].
    split; [done|]. destruct Hcase as [Hl|[Hn Ho]]; [rewrite Hl in *; auto|]. destruct (Ho2 Ho) as [H2 (l & Hm & E2)]. split_and!.
    + intros (data & Hd & _). destruct Hn. by destruct (content_account _ _ _ _ Hd).
    + intros (data & ag & Hd & _). destruct Hn. by destruct (content_account _ _ _ _ Hd).
    + intros _. right. split; [done|]. by rewrite E2, (accounts_ok_free _ _ _ h k (proj1 Hs) Hn).
Qed.

(** What the submitter sends fits its types. *)
Definition call_ranges (c : rpc_call) : Prop :=
  match c with TelemetrySubmitter.WriteDeviceLatencySamples start rtts _ => is_u64 start /\ Forall is_u32 rtts | _ => True end.

Lemma rtt_of_u32 s : is_u32 (rtt_of s).
Proof. unfold rtt_of. repeat case_match; [by unfold is_u; lia..|]. apply wrap_range. lia. Qed.

Lemma submit_batch_ranges env n batch o n' calls : submit_batch env n batch = (o, n', calls) -> Forall call_ranges calls.
Proof.
  assert (Hw : forall r, call_ranges (TelemetrySubmitter.WriteDeviceLatencySamples (u64 (UnixMicro (min_timestamp batch))) (rtt_of <$> batch) r)).
  { intros r. split; [apply wrap_range; lia|]. apply Forall_fmap, Forall_true. intros. apply rtt_of_u32. }
  unfold submit_batch. destruct (env n); [|case_bool_decide; [destruct (env (S (S n)))|]|..]; intros [= <- <- <-];
    repeat (apply Forall_cons; split; [apply Hw || exact I|]); by apply Forall_nil.
Qed.

Lemma submit_from_ranges env fl samples : forall i n o n' calls,
  submit_from env fl samples i n = (o, n', calls) -> Forall call_ranges calls.
Proof.
  induction fl as [|fl IH]; intros i n o n' calls; cbn [submit_from]; [by intros [= <- <- <-]|].
  destruct (i <? length samples)%nat; [|by intros [= <- <- <-]].
  destruct (submit_batch _ _ _) as [[o1 n1] c1] eqn:Hb. apply submit_batch_ranges in Hb. destruct o1; [by intros [= <- <- <-]|].
  destruct (submit_from _ _ _ _ n1) as [[o2 n2] c2] eqn:Hf. intros [= <- <- <-]. apply Forall_app. split; [done|]. by eapply IH.
Qed.

Lemma submit_calls_typed env samples n o n' calls : SubmitSamples env samples n = (o, n', calls) -> Forall call_typed calls.
Proof.
  intros Hs. pose proof Hs as (_ & Hok & _)%SubmitSamples_exact.
  assert (Hr : Forall call_ranges calls).
  { unfold SubmitSamples in Hs. case_match; [by injection Hs as <- <- <-|by eapply submit_from_ranges]. }
  rewrite Forall_forall in *. intros c Hc. split; [by apply Hok|by apply Hr].
Qed.

End Submission.
End Cluster.

(** ** A cluster *)

Module ClusterSample.
Import ExactReader TelemetrySample.
#[local] Abbreviation program := (process_instruction find_program_address program_id serviceability_program_id).
Definition Tx : Type := genericInstruction * pubkey.

(** The state is the ledger; every transaction is final at once. *)
Definition send (skip : bool) (tx : Tx) (l : ledger) : rpc_res bytes * ledger :=
  match program (metas_of tx.2 tx.1) (ins_data tx.1) l with
  | Ok l' => (inr [1], l')
  | Err (PE_Custom e) => (if skip then inr [1] else inl (Some (custom_error (error_code e))), l)
  | _ => (if skip then inr [1] else inl None, l)
  end.
Definition account (k : pubkey) (l : ledger) : option bytes :=
  match content_of l k with Some (COther data) => Some data | Some _ => Some [] | None => None end.
#[export] Instance cluster_rpc : ExecutorRPC ledger Tx := {
  NewSignedTransaction ins _ p := match ins with [i] => Some (i, p) | _ => None end;
  GetLatestBlockhash l := (inr [0], l);
  SendTransaction := send false;
  GetSignatureStatuses _ l := (inr [Some (mkSigStatus true false)], l);
  GetTransaction _ l := (inr true, l);
  GetAccountInfo k l := (match account k l with Some data => Account data | None => NotFound end, l);
  Clock _ := 0;
  Pause _ l := (true, l)
}.
#[export] Instance cluster_telemetry : TelemetryRPC ledger Tx := {
  SendTransactionWithOpts := send;
  GetAccountInfoWithOpts o n k l := (match account k l with Some data => Account (take n (drop o data)) | None => NotFound end, l)
}.
#[export] #[refine] Instance cluster_reads : AnsweredReads ledger Tx := { ledger_of l := l }.
Proof.
  - intros k l. eexists _, l. split_and!; [done..| |]; unfold account, content_of; [by intros ->|]. intros data ->. done.
  - intros o n k l. eexists _, l. split_and!; [done..|]. unfold account. intros data ->. done.
Defined.

#[export] #[refine] Instance cluster_writes : TelemetryCluster ledger Tx program := {
  tx_single tx := Some tx;
  lost _ _ := False
}.
Proof.
  - intros i h p tx [= <-]. done.
  - intros skip tx i p l [= ->]. cbn zeta. unfold SendTransactionWithOpts, cluster_telemetry, send. cbn [fst snd].
    change (ledger_of (W := ledger) l) with l. destruct (program (metas_of p i) (ins_data i) l) as [l'|[]|].
    1: left; by exists l'.
    all: right; split; [done|]; destruct skip; [right; split; [done|by intros]|done].
  - by intros l.
  - by intros sig l.
  - by intros sig l.
  - by intros d l.
  - by intros sig l [].
  - by intros sig d l [].
Defined.
End ClusterSample.

Module SubmissionSample.
Import ExactReader TelemetrySample ClusterSample.
Definition find (seeds : list bytes) (program : pubkey) : option (pubkey * Z) := Some (find_program_address seeds program).
Definition key : PartitionKey := mkPartitionKey origin target link epoch.
Definition executor : Exec.t := Exec.mk (Some agent) program_id 30 false None.
Definition interval : Z := 5000000.
Definition ticks : list Sample := [sample_tick 1; sample_tick 2].
(** The account is missing at the first write. *)
Definition answers (n : nat) : rpc_result := if (n =? 0)%nat then RpcAccountNotFound else RpcOk.

Definition write_batch (rtts : list Z) (l : ledger) : Client.result * Exec.t * ledger :=
  Client.WriteDeviceLatencySamples find 1 (write_config agent key [] [] 1000000 rtts) executor l.
Definition init (l : ledger) : Client.result * Exec.t * ledger :=
  Client.InitializeDeviceLatencySamples find 1 (init_config agent key interval [] []) executor l.
Definition created : ledger := (init state).2.
Definition filled : ledger := (write_batch [5; 10] created).2.

Lemma find_agrees seeds : Forall (fun s => (length s <= 32)%nat) seeds ->
  find seeds program_id = Some (find_program_address seeds program_id).
Proof. done. Qed.
Lemma collision_free s s' : (find_program_address s program_id).1 = (find_program_address s' program_id).1 -> concat s = concat s'.
Proof. done. Qed.
End SubmissionSample.

#[local] Existing Instance ClusterSample.cluster_rpc.
#[local] Existing Instance ClusterSample.cluster_telemetry.

Lemma telemetry_reads_history_witness :
  exists d w', Client.GetDeviceLatencySamples SubmissionSample.find TelemetrySample.program_id TelemetrySample.origin
      TelemetrySample.target TelemetrySample.link TelemetrySample.epoch (TelemetrySample.run TelemetrySample.written_twice).1 =
      (Ok d, w') /\ DeviceSamples.samples d = [7; 8; 9].
Proof.
  destruct (telemetry_reads_history (Hreader := ExactReader.exact_reader) TelemetrySample.find_program_address
    TelemetrySample.program_id TelemetrySample.serviceability_program_id (W := ledger) (Tx := ClusterSample.Tx)
    (Hreads := ClusterSample.cluster_reads) SubmissionSample.find SubmissionSample.find_agrees ltac:(discriminate)
    SubmissionSample.collision_free (TelemetrySample.run TelemetrySample.written_twice).1
    (TelemetrySample.run TelemetrySample.written_twice).2 TelemetrySample.written_twice_reached) as [H _].
  destruct (H TelemetrySample.origin TelemetrySample.target TelemetrySample.link TelemetrySample.epoch) as (d & w' & Hg & Hs & _);
    [reflexivity..|split; [discriminate|reflexivity]|vm_compute; reflexivity|].
  exists d, w'. split; [exact Hg|]. transitivity (samples_of ((TelemetrySample.run TelemetrySample.written_twice).2 !!!
    TelemetrySample.samples_pda)); [exact Hs|vm_compute; reflexivity].
Defined.


(** The transaction that creates an account is sent without a simulation,
    and the executor does not look at the error of a finalized transaction: an
    initialization that the program refuses is reported as done, and leaves
    the ledger as it is. The write that follows still reports that the account
    does not exist. *)
Lemma refused_initialization_reported :
  SubmissionSample.init ∅ = (Client.Done [1], SubmissionSample.executor, ∅) /\
  SubmissionSample.write_batch [5; 10] ∅ = (Client.Failed CliAccountNotFound, SubmissionSample.executor, ∅).
Proof. split; vm_compute; reflexivity. Qed.
