(* ===== verification/GeoOffset.v ===== *)
(** * Location offsets

    Models [offset.go], [signer.go] and [transport.go] of
    [controlplane/telemetry/internal/geoprobe]: signed measurements of the
    latency between a device, a probe and a target, each of which can carry the
    measurements it builds on. Doubles are kept as their bits. *)

From stdpp Require Import base tactics numbers countable list.
From Stdlib Require Import ZArith Lia ZifyBool ZifyNat.
From S2P Require Import Prelude Bytes GoStrings ByteReader BorshIncremental TelemetryAccounts Twamp TwampSigned.

#[local] Open Scope Z_scope.

Definition LocationOffsetVersion : Z := 1.
Definition MaxReferenceDepth : nat := 2.
Definition MaxTotalReferences : nat := 5.
Definition MaxUDPPacketSize : nat := 1232.

Inductive LocationOffset := mkOffset {
  Signature : bytes;
  Version : Z;
  AuthorityPubkey : bytes;
  SenderPubkey : bytes;
  MeasurementSlot : Z;
  MeasuredRttNs : Z;
  Lat : Z;
  Lng : Z;
  RttNs : Z;
  TargetIP : bytes;
  NumReferences : Z;
  References : list LocationOffset
}.
#[global] Instance LocationOffset_eta : RecordEta LocationOffset := {
  eta_record := fun r => mkOffset (Signature r) (Version r) (AuthorityPubkey r) (SenderPubkey r) (MeasurementSlot r) (MeasuredRttNs r)
    (Lat r) (Lng r) (RttNs r) (TargetIP r) (NumReferences r) (References r);
  eta_record_id := fun r => match r with mkOffset _ _ _ _ _ _ _ _ _ _ _ _ => eq_refl end
}.

(** [floats] says which doubles the Borsh library takes; it refuses those that
    are not numbers. *)
Section Codec.
Context (floats : Z -> bool).

(** The fields behind the signature, in the order of the encoding. *)
Definition offset_fields (o : LocationOffset) : option bytes :=
  if floats (Lat o) && floats (Lng o) then
    Some ([Version o] ++ AuthorityPubkey o ++ SenderPubkey o ++ le_bytes 8 (MeasurementSlot o) ++ le_bytes 8 (Lat o) ++
      le_bytes 8 (Lng o) ++ le_bytes 8 (MeasuredRttNs o) ++ le_bytes 8 (RttNs o) ++ TargetIP o ++ [NumReferences o])
  else None.

Fixpoint Marshal (o : LocationOffset) : option bytes :=
  fields ← offset_fields o;
  refs ← mapM Marshal (References o);
  Some (Signature o ++ fields ++ concat refs).

Definition GetSigningBytes (o : LocationOffset) : option bytes :=
  fields ← offset_fields o;
  refs ← mapM Marshal (References o);
  Some (fields ++ concat refs).

Definition read_float : Borsh.SR Z := v ← Borsh.ReadU64; if floats v then mret v else Borsh.fail.

(** [levels] is what the depth limit leaves, and one more. *)
Fixpoint unmarshalHelper (levels : nat) : Borsh.SR LocationOffset :=
  match levels with
  | O => Borsh.fail
  | S levels =>
      signature ← Borsh.ReadBytes 64;
      version ← Borsh.ReadU8;
      if negb (version =? LocationOffsetVersion) then Borsh.fail
      else
        authority ← Borsh.ReadPubkey;
        sender ← Borsh.ReadPubkey;
        slot ← Borsh.ReadU64;
        lat ← read_float;
        lng ← read_float;
        measured ← Borsh.ReadU64;
        rtt ← Borsh.ReadU64;
        target ← Borsh.ReadBytes 4;
        num ← Borsh.ReadU8;
        refs ← Borsh.read_times (Z.to_nat num) (unmarshalHelper levels);
        mret (mkOffset signature version authority sender slot measured lat lng rtt target num refs)
  end.

Fixpoint countTotalReferences (o : LocationOffset) : nat :=
  length (References o) + list_sum (countTotalReferences <$> References o).

Inductive offset_error := OffsetDecode | OffsetTooMany (total : nat).

Definition Unmarshal (data : bytes) : res offset_error LocationOffset :=
  match (unmarshalHelper (S MaxReferenceDepth) data 0%nat).1 with
  | None => Err OffsetDecode
  | Some o =>
      let totalRefs := countTotalReferences o in
      if (MaxTotalReferences <? totalRefs)%nat then Err (OffsetTooMany totalRefs) else Ok o
  end.
End Codec.

(** ** Signatures *)

Record OffsetSigner (K : Type) := mkSigner { keypair : K; senderPubkey : bytes }.
Arguments mkSigner {K} _ _.
Arguments keypair {K} _.
Arguments senderPubkey {K} _.

Definition NewOffsetSigner {K : Type} (k : K) (sender : bytes) : option (OffsetSigner K) :=
  if bool_decide (sender = replicate 32 0) then None else Some (mkSigner k sender).

Section Signing.
Context {K : Type} `{!Ed25519 K} (floats : Z -> bool).

(** The offset as it is left, and whether it was signed. *)
Definition SignOffset (s : OffsetSigner K) (o : LocationOffset) : LocationOffset * bool :=
  let o := o <| AuthorityPubkey := ed_Public (keypair s) |> <| SenderPubkey := senderPubkey s |> in
  match GetSigningBytes floats o with
  | None => (o, false)
  | Some signingBytes => (o <| Signature := ed_Sign (keypair s) signingBytes |>, true)
  end.

Definition VerifyOffset (o : LocationOffset) : bool :=
  match GetSigningBytes floats o with
  | None => false
  | Some signingBytes => ed_Verify (AuthorityPubkey o) signingBytes (Signature o)
  end.

Fixpoint VerifyOffsetChain (o : LocationOffset) : bool :=
  VerifyOffset o && forallb VerifyOffsetChain (References o).
End Signing.

(** ** Datagrams

    [written] is the number of bytes that [WriteToUDP] reports, or its error. *)
Inductive send_error := SendMarshal | SendTooLarge (size : nat) | SendWrite | SendIncomplete (n : nat).

Definition SendOffset (floats : Z -> bool) (o : LocationOffset) (write : bytes -> option nat) : res send_error () :=
  match Marshal floats o with
  | None => Err SendMarshal
  | Some data =>
      if (MaxUDPPacketSize <? length data)%nat then Err (SendTooLarge (length data))
      else match write data with
           | None => Err SendWrite
           | Some n => if negb (n =? length data)%nat then Err (SendIncomplete n) else Ok ()
           end
  end.

(** What a datagram is received as: a read returns what fits the buffer. *)
Definition ReceiveOffset (floats : Z -> bool) (datagram : bytes) : res offset_error LocationOffset :=
  Unmarshal floats (take MaxUDPPacketSize datagram).

(** ** The size of an offset *)

Fixpoint depth (o : LocationOffset) : nat :=
  match References o with [] => 0%nat | refs => S (foldr Nat.max 0%nat (depth <$> refs)) end.

(** Induction over an offset and its references. *)
Lemma offset_induction (P : LocationOffset -> Prop) : (forall o, Forall P (References o) -> P o) -> forall o, P o.
Proof.
  intros H. fix IH 1. intros o. apply H. destruct o as [? ? ? ? ? ? ? ? ? ? ? refs]. cbn [References].
  induction refs as [|r refs IHr]; constructor; [apply IH|apply IHr].
Qed.

(** The fields are in the ranges of their types, and the references are as many
    as announced. *)
Record node_ok (o : LocationOffset) : Prop := mk_node_ok {
  ok_signature : length (Signature o) = 64%nat;
  ok_version : Version o = LocationOffsetVersion;
  ok_authority : length (AuthorityPubkey o) = 32%nat;
  ok_sender : length (SenderPubkey o) = 32%nat;
  ok_slot : is_u64 (MeasurementSlot o);
  ok_measured : is_u64 (MeasuredRttNs o);
  ok_lat : is_u64 (Lat o);
  ok_lng : is_u64 (Lng o);
  ok_rtt : is_u64 (RttNs o);
  ok_target : length (TargetIP o) = 4%nat;
  ok_number : NumReferences o = Z.of_nat (length (References o));
  ok_number_byte : is_u8 (NumReferences o)
}.
Inductive offset_ok (o : LocationOffset) : Prop := mk_offset_ok (_ : node_ok o) (_ : Forall offset_ok (References o)).

Lemma offset_ok_node o : offset_ok o -> node_ok o.
Proof. by destruct 1. Qed.
Lemma offset_ok_refs o : offset_ok o -> Forall offset_ok (References o).
Proof. by destruct 1. Qed.

Section Roundtrip.
Context (floats : Z -> bool).

Lemma Marshal_eq o : Marshal floats o = fields ← offset_fields floats o; refs ← mapM (Marshal floats) (References o);
  Some (Signature o ++ fields ++ concat refs).
Proof. by destruct o. Qed.

Lemma Marshal_signing o b : Marshal floats o = Some b <->
  exists s, GetSigningBytes floats o = Some s /\ b = Signature o ++ s.
Proof.
  rewrite Marshal_eq. unfold GetSigningBytes. destruct (offset_fields floats o) as [fields|]; cbn; [|naive_solver].
  destruct (mapM (Marshal floats) (References o)) as [refs|]; cbn; naive_solver.
Qed.

Lemma sr_float v : is_u64 v -> floats v = true -> reads (read_float floats) (le_bytes 8 v) v.
Proof.
  intros Hv Hf. rewrite <- (app_nil_r (le_bytes 8 v)). eapply sr_bind; [by apply reads_U64|]. rewrite Hf. apply sr_ret.
Qed.
#[local] Hint Resolve sr_float : reads.

Lemma depth_refs o n : (depth o <= n)%nat -> Forall (fun r => (S (depth r) <= n)%nat) (References o).
Proof.
  assert (H : forall l, Forall (fun r => (depth r <= foldr Nat.max 0 (depth <$> l))%nat) l).
  { induction l as [|x l IH]; constructor; cbn [fmap list_fmap foldr]; [lia|]. eapply Forall_impl; [exact IH|]. cbv beta. lia. }
  replace (depth o) with (match References o with [] => 0%nat | refs => S (foldr Nat.max 0%nat (depth <$> refs)) end) by by destruct o.
  intros Hn. destruct (References o) as [|r refs]; [done|]. eapply Forall_impl; [apply H|]. cbv beta. lia.
Qed.

Lemma reads_refs m os bs : Forall (fun o => forall b, Marshal floats o = Some b -> reads m b o) os ->
  mapM (Marshal floats) os = Some bs -> reads (Borsh.read_times (length os) m) (concat bs) os.
Proof.
  intros H. revert bs. induction H as [|o os Ho _ IH]; intros bs Hm; [injection Hm as <-; apply sr_ret|].
  cbn in Hm. apply bind_Some in Hm as (b & Hb & Hm). apply bind_Some in Hm as (bs' & Hbs & [= <-]).
  cbn [concat length Borsh.read_times]. eapply sr_bind; [by apply Ho|]. apply (reads_last _ (cons o)). by apply IH.
Qed.

(** What was encoded is read back, whatever follows it. *)
Lemma reads_Marshal o : forall n b, offset_ok o -> (depth o <= n)%nat -> Marshal floats o = Some b ->
  reads (unmarshalHelper floats (S n)) b o.
Proof.
  induction o as [o IH] using offset_induction. intros n b Ho Hd Hb. pose proof (offset_ok_refs o Ho) as Hrefs.
  destruct (offset_ok_node o Ho). rewrite Marshal_eq in Hb. apply bind_Some in Hb as (fields & Hf & Hb).
  apply bind_Some in Hb as (refs & Hm & Hb). unfold offset_fields in Hf.
  destruct (floats (Lat o) && floats (Lng o)) eqn:Hfl; [|done]. apply andb_true_iff in Hfl as [Hla Hln].
  assert (Hr : reads (Borsh.read_times (Z.to_nat (NumReferences o)) (unmarshalHelper floats n)) (concat refs) (References o)).
  { rewrite ok_number0, Nat2Z.id. apply reads_refs; [|done]. pose proof (depth_refs o n Hd) as Hdr. clear Hm ok_number0 Hd.
    rewrite Forall_forall in *. intros r Hin r' Hr'. specialize (Hdr r Hin). destruct n as [|n]; [lia|].
    apply IH; [done|by apply Hrefs|lia|done]. }
  replace b with (Signature o ++ [Version o] ++ AuthorityPubkey o ++ SenderPubkey o ++ le_bytes 8 (MeasurementSlot o) ++ le_bytes 8 (Lat o) ++
    le_bytes 8 (Lng o) ++ le_bytes 8 (MeasuredRttNs o) ++ le_bytes 8 (RttNs o) ++ TargetIP o ++ [NumReferences o] ++ concat refs)
    by (apply Some_inj in Hb as <-; apply Some_inj in Hf as <-; by rewrite <- !app_assoc).
  destruct o as [sig ver au se slot me la ln rtt tgt num rs]. cbn [Signature Version AuthorityPubkey SenderPubkey MeasurementSlot
    MeasuredRttNs Lat Lng RttNs TargetIP NumReferences References] in *. cbn [unmarshalHelper].
  eapply sr_bind; [by apply reads_Bytes|]. eapply sr_bind; [apply reads_U8|]. rewrite ok_version0. cbn [negb Z.eqb Pos.eqb LocationOffsetVersion].
  read_fields.
Qed.

(** Enough levels for any offset. *)
Lemma Marshal_inj o o' b : offset_ok o -> offset_ok o' -> Marshal floats o = Some b -> Marshal floats o' = Some b -> o = o'.
Proof.
  intros Ho Ho' Hb Hb'. set (n := Nat.max (depth o) (depth o')).
  pose proof (sr_start _ b o [] (reads_Marshal o n b Ho ltac:(lia) Hb)) as H1.
  pose proof (sr_start _ b o' [] (reads_Marshal o' n b Ho' ltac:(lia) Hb')) as H2. congruence.
Qed.

(** *** What was read *)

(** The bytes [x] of [d] from [o] to [o']. *)
Definition taken (d : bytes) (o : nat) (x : bytes) (o' : nat) : Prop :=
  drop o d = x ++ drop o' d /\ o' = (o + length x)%nat /\ (o' <= length d)%nat.

Lemma taken_app d o x o1 y o2 : taken d o x o1 -> taken d o1 y o2 -> taken d o (x ++ y) o2.
Proof. intros (H1 & -> & _) (H2 & -> & ?). split_and!; [by rewrite H1, H2, app_assoc|rewrite length_app; lia|done]. Qed.

Lemma exact_taken {A : Type} n (conv : bytes -> A) d o v o' : bytes_ok d -> Borsh.read_exact n conv d o = (Some v, o') ->
  exists x, taken d o x o' /\ length x = n /\ bytes_ok x /\ v = conv x.
Proof.
  intros Hd. unfold Borsh.read_exact. destruct (Nat.ltb_spec (length d) (o + n)); [done|]. intros [= <- <-].
  assert (Hlen : length (slice d o (o + n)) = n) by (unfold slice; rewrite length_take, length_drop; lia).
  exists (slice d o (o + n)). split_and!; [|done|by apply bytes_ok_slice|done].
  split_and!; [|by rewrite Hlen|lia]. unfold slice. replace (o + n - o)%nat with n by lia.
  rewrite <- (take_drop n (drop o d)) at 1. by rewrite drop_drop.
Qed.

Lemma Bytes_taken n d o v o' : bytes_ok d -> Borsh.ReadBytes n d o = (Some v, o') -> length v = n /\ taken d o v o'.
Proof. intros Hd H. destruct (exact_taken _ _ _ _ _ _ Hd H) as (x & Ht & Hl & _ & ->). done. Qed.
Lemma U64_taken d o v o' : bytes_ok d -> Borsh.ReadU64 d o = (Some v, o') -> is_u64 v /\ taken d o (le_bytes 8 v) o'.
Proof.
  intros Hd H. destruct (exact_taken _ _ _ _ _ _ Hd H) as (x & Ht & Hl & Hb & ->). rewrite <- Hl at 1.
  split; [|by rewrite le_bytes_val]. pose proof (le_val_range x Hb) as Hr. by rewrite Hl in Hr.
Qed.
Lemma U8_taken d o v o' : bytes_ok d -> Borsh.ReadU8 d o = (Some v, o') -> is_u8 v /\ taken d o [v] o'.
Proof.
  intros Hd H. destruct (exact_taken _ _ _ _ _ _ Hd H) as (x & Ht & Hl & Hb & ->). destruct x as [|b [|]]; try done.
  cbn. rewrite Z.add_0_r. split; [by apply Forall_inv in Hb|done].
Qed.
Lemma float_taken d o v o' : bytes_ok d -> read_float floats d o = (Some v, o') ->
  is_u64 v /\ floats v = true /\ taken d o (le_bytes 8 v) o'.
Proof.
  intros Hd H. unfold read_float in H. sr_inv. revert H. case_match eqn:Hf; [|done]. intros [= <- <-].
  match goal with H : Borsh.ReadU64 _ _ = _ |- _ => apply U64_taken in H as []; done end.
Qed.

Lemma times_taken n m (Q : LocationOffset -> bytes -> Prop) d : (forall o v o', m d o = (Some v, o') -> exists x, Q v x /\ taken d o x o') ->
  forall o vs o', (o <= length d)%nat -> Borsh.read_times n m d o = (Some vs, o') ->
  exists xs, Forall2 Q vs xs /\ length vs = n /\ taken d o (concat xs) o'.
Proof.
  intros Hm. induction n as [|n IH]; intros o vs o' Ho H; cbn in H.
  - injection H as <- <-. exists []. split_and!; [constructor|done|]. split_and!; [done|cbn; lia|done].
  - apply sr_bind_inv in H as (v & o1 & Hv & H). apply sr_bind_inv in H as (vs' & o2 & Hvs & [= <- <-]).
    destruct (Hm _ _ _ Hv) as (x & Hx & Ht). apply IH in Hvs as (xs & Hxs & Hl & Ht'); [|apply Ht]. exists (x :: xs).
    split_and!; [by constructor|cbn; lia|]. cbn [concat]. by eapply taken_app.
Qed.

Lemma depth_bound o n : Forall (fun r => (depth r < n)%nat) (References o) -> (depth o <= n)%nat.
Proof.
  replace (depth o) with (match References o with [] => 0%nat | refs => S (foldr Nat.max 0%nat (depth <$> refs)) end) by by destruct o.
  intros H. destruct (References o) as [|r refs]; [lia|].
  assert (Hl : forall l, Forall (fun r => (depth r < n)%nat) l -> (foldr Nat.max 0 (depth <$> l) <= n - 1)%nat).
  { induction 1 as [|x l Hx _ IH]; cbn [fmap list_fmap foldr]; lia. }
  apply Hl in H as Hf. apply Forall_inv in H. lia.
Qed.

(** What is decoded is a well-formed offset within the limit of depth, and the
    bytes read are its encoding. *)
Lemma unmarshal_inv levels d : bytes_ok d -> forall o v o', unmarshalHelper floats levels d o = (Some v, o') ->
  exists x, (offset_ok v /\ (depth v < levels)%nat /\ Marshal floats v = Some x) /\ taken d o x o'.
Proof.
  intros Hd. induction levels as [|levels IH]; intros o v o' H; [done|]. cbn [unmarshalHelper] in H.
  apply sr_bind_inv in H as (sig & o1 & H1%Bytes_taken & H); [|done].
  apply sr_bind_inv in H as (ver & o2 & H2%U8_taken & H); [|done].
  destruct (Z.eqb_spec ver LocationOffsetVersion) as [Hver|]; [|done]. cbn [negb] in H.
  apply sr_bind_inv in H as (au & o3 & H3%Bytes_taken & H); [|done]. apply sr_bind_inv in H as (se & o4 & H4%Bytes_taken & H); [|done].
  apply sr_bind_inv in H as (slot & o5 & H5%U64_taken & H); [|done]. apply sr_bind_inv in H as (la & o6 & H6%float_taken & H); [|done].
  apply sr_bind_inv in H as (ln & o7 & H7%float_taken & H); [|done]. apply sr_bind_inv in H as (me & o8 & H8%U64_taken & H); [|done].
  apply sr_bind_inv in H as (rtt & o9 & H9%U64_taken & H); [|done]. apply sr_bind_inv in H as (tgt & o10 & H10%Bytes_taken & H); [|done].
  apply sr_bind_inv in H as (num & o11 & H11%U8_taken & H); [|done]. apply sr_bind_inv in H as (refs & o12 & H12 & [= <- <-]).
  eapply times_taken in H12 as (xs & Hxs & Hlen & T12); [|exact IH|apply H11].
  destruct H1 as [L1 T1], H2 as [L2 T2], H3 as [L3 T3], H4 as [L4 T4], H5 as [L5 T5], H6 as (L6 & F6 & T6), H7 as (L7 & F7 & T7),
    H8 as [L8 T8], H9 as [L9 T9], H10 as [L10 T10], H11 as [L11 T11].
  assert (Hnum : num = Z.of_nat (length refs)) by (unfold is_u in L11; lia).
  assert (Hrefs : Forall offset_ok refs /\ Forall (fun r => (depth r < levels)%nat) refs /\ mapM (Marshal floats) refs = Some xs).
  { clear -Hxs. induction Hxs as [|r x refs xs (Hr & Hdr & Hm) _ (IH1 & IH2 & IH3)]; [done|].
    split_and!; [by constructor..|]. cbn. rewrite Hm. cbn. by rewrite IH3. }
  destruct Hrefs as (Hr1 & Hr2 & Hr3). set (v := mkOffset _ _ _ _ _ _ _ _ _ _ _ _). eexists. split.
  - split_and!.
    + constructor; [|done]. by constructor.
    + apply (Nat.lt_le_trans _ (S levels)); [|lia]. apply Nat.lt_succ_r. by apply depth_bound.
    + rewrite Marshal_eq. unfold offset_fields. cbn [v Lat Lng References]. rewrite F6, F7. cbn [andb]. cbn [mbind option_bind]. by rewrite Hr3.
  - cbn [v Signature Version AuthorityPubkey SenderPubkey MeasurementSlot Lat Lng MeasuredRttNs RttNs TargetIP NumReferences].
    rewrite <- !app_assoc. repeat (eapply taken_app; [eassumption|]). done.
Qed.

Lemma total_eq o : countTotalReferences o = (length (References o) + list_sum (countTotalReferences <$> References o))%nat.
Proof. by destruct o. Qed.

Lemma length_offset_Marshal o : forall b, offset_ok o -> Marshal floats o = Some b -> length b = (174 * S (countTotalReferences o))%nat.
Proof.
  induction o as [o IH] using offset_induction. intros b Ho Hb. pose proof (offset_ok_refs o Ho) as Hrefs.
  destruct (offset_ok_node o Ho). rewrite Marshal_eq in Hb. apply bind_Some in Hb as (fields & Hf & Hb).
  apply bind_Some in Hb as (refs & Hm & Hb). apply Some_inj in Hb as <-. unfold offset_fields in Hf.
  destruct (floats (Lat o) && floats (Lng o)); [|done]. apply Some_inj in Hf as <-. rewrite total_eq. clear ok_number0 Ho.
  assert (Hr : length (concat refs) = (174 * (length (References o) + list_sum (countTotalReferences <$> References o)))%nat).
  { revert refs Hm. induction (References o) as [|r rs IHr]; intros refs Hm; [by injection Hm as <-|].
    cbn in Hm. apply bind_Some in Hm as (x & Hx & Hm). apply bind_Some in Hm as (xs & Hxs & [= <-]).
    apply Forall_cons in IH as [IH1 IH2]. apply Forall_cons in Hrefs as [R1 R2]. specialize (IHr IH2 R2 xs Hxs).
    cbn [concat fmap list_fmap length]. change (list_sum (?a :: ?l)) with (a + list_sum l)%nat.
    rewrite length_app, IHr, (IH1 x R1 Hx). lia. }
  rewrite !length_app, !length_le_bytes, Hr. cbn [length]. lia.
Qed.
End Roundtrip.

(** Whatever follows it, an encoding within the limits is accepted. *)
Lemma offset_Unmarshal_Marshal floats o b rest : Marshal floats o = Some b -> offset_ok o -> (depth o <= MaxReferenceDepth)%nat ->
  (countTotalReferences o <= MaxTotalReferences)%nat -> Unmarshal floats (b ++ rest) = Ok o.
Proof.
  intros Hm Hok Hdep Htot. unfold Unmarshal. rewrite (sr_start _ _ _ rest (reads_Marshal floats o MaxReferenceDepth b Hok Hdep Hm)). cbn [fst].
  by rewrite (proj2 (Nat.ltb_ge _ _) Htot).
Qed.

(** What is accepted is an encoding within the limits. *)
Lemma Unmarshal_inv floats data o : bytes_ok data -> Unmarshal floats data = Ok o -> exists b rest, data = b ++ rest /\ Marshal floats o = Some b /\
  offset_ok o /\ (depth o <= MaxReferenceDepth)%nat /\ (countTotalReferences o <= MaxTotalReferences)%nat.
Proof.
  intros Hd. unfold Unmarshal. destruct (unmarshalHelper floats (S MaxReferenceDepth) data 0%nat) as [[v|] o'] eqn:Hu; [|done]. cbn [fst].
  case_match eqn:Hc; [done|]. intros [= ->]. apply Nat.ltb_ge in Hc.
  apply unmarshal_inv in Hu as (x & (Hok & Hdep & Hm) & Ht & _); [|done]. rewrite drop_0 in Ht.
  exists x, (drop o' data). split_and!; [done..|lia|done].
Qed.

(** C31. The decoder accepts exactly the data that begin with an encoding,
    whatever follows it: of a well-formed offset with at most two levels of
    references below it and at most five references in all, which is the offset
    it returns. An encoding is 174 bytes for every offset in it, so the encoding
    of whatever was accepted fits into a datagram when it is passed on. *)
Theorem offset_codec_exact floats data o : bytes_ok data ->
  (Unmarshal floats data = Ok o <->
   exists b rest, data = b ++ rest /\ Marshal floats o = Some b /\ offset_ok o /\ (depth o <= MaxReferenceDepth)%nat /\
     (countTotalReferences o <= MaxTotalReferences)%nat) /\
  (Unmarshal floats data = Ok o -> forall b, Marshal floats o = Some b ->
     length b = (174 * S (countTotalReferences o))%nat /\ (length b <= MaxUDPPacketSize)%nat).
Proof.
  intros Hd. split; [split; [by apply Unmarshal_inv|]|].
  - intros (b & rest & -> & Hm & Hok & Hdep & Htot). by apply offset_Unmarshal_Marshal.
  - intros (b' & rest & -> & Hm' & Hok & _ & Htot)%Unmarshal_inv b Hm; [|done]. pose proof (length_offset_Marshal floats o b Hok Hm) as Hl.
    split; [done|]. rewrite Hl. unfold MaxTotalReferences, MaxUDPPacketSize in *. lia.
Qed.

(** ** What is signed *)

Section Authentic.
Context {K : Type} `{!Ed25519 K} (floats : Z -> bool).

(** The bytes that are signed determine everything but the signature. *)
Lemma signing_inj o o' m : offset_ok o -> offset_ok o' -> GetSigningBytes floats o = Some m -> GetSigningBytes floats o' = Some m ->
  o' = o <| Signature := Signature o' |>.
Proof.
  intros Ho Ho' Hm Hm'. assert (Ho2 : offset_ok (o <| Signature := Signature o' |>)).
  { destruct o, Ho as [[] Hr]. constructor; [|done]. constructor; try done. apply (ok_signature _ (offset_ok_node _ Ho')). }
  apply (Marshal_inj floats _ _ (Signature o' ++ m)); [done|done|apply Marshal_signing; by exists m|].
  apply Marshal_signing. exists m. split; [|by destruct o]. rewrite <- Hm. by destruct o.
Qed.

Fixpoint nodes (o : LocationOffset) : list LocationOffset := o :: (References o ≫= nodes).

Lemma nodes_eq o : nodes o = o :: (References o ≫= nodes).
Proof. by destruct o. Qed.

Lemma VerifyOffsetChain_eq o : VerifyOffsetChain floats o = VerifyOffset floats o && forallb (VerifyOffsetChain floats) (References o).
Proof. by destruct o. Qed.

Lemma chain_nodes o : VerifyOffsetChain floats o = true -> Forall (fun x => VerifyOffset floats x = true) (nodes o).
Proof.
  induction o as [o IH] using offset_induction. rewrite VerifyOffsetChain_eq, nodes_eq. intros [Hv Hr]%andb_true_iff.
  constructor; [done|]. apply Forall_bind. rewrite forallb_forall in Hr. rewrite Forall_forall in *. intros x Hx.
  apply IH; [done|]. apply Hr. by apply list_elem_of_In.
Qed.

Lemma ok_nodes o : offset_ok o -> Forall offset_ok (nodes o).
Proof.
  induction o as [o IH] using offset_induction. intros Ho. rewrite nodes_eq. constructor; [done|]. apply Forall_bind.
  pose proof (offset_ok_refs o Ho) as Hr. rewrite Forall_forall in *. intros x Hx. apply IH; [done|by apply Hr].
Qed.

Lemma length_signing o m : offset_ok o -> GetSigningBytes floats o = Some m -> length m = (110 + 174 * countTotalReferences o)%nat.
Proof.
  intros Ho Hm. assert (Hb : Marshal floats o = Some (Signature o ++ m)) by (apply Marshal_signing; by exists m).
  apply length_offset_Marshal in Hb; [|done]. rewrite length_app, (ok_signature o (offset_ok_node o Ho)) in Hb. lia.
Qed.

(** A signature on a probe or a reply of signed TWAMP is not one on an offset:
    the messages differ in length. *)
Definition twamp_message (m : bytes) : Prop :=
  (exists seq sec frac pub, length pub = 32%nat /\ m = probe_payload seq sec frac pub) \/
  (exists r, valid_reply r /\ m = marshalPayload r).

Lemma twamp_not_offset o m : offset_ok o -> GetSigningBytes floats o = Some m -> ~ twamp_message m.
Proof.
  intros Ho Hm. apply length_signing in Hm; [|done]. intros [(seq & sec & frac & pub & Hp & ->)|(r & Hr & ->)].
  - unfold probe_payload in Hm. rewrite !length_app, !length_be_bytes, Hp in Hm. lia.
  - pose proof (f_equal length (reply_bytes r Hr)) as Hl. rewrite !length_app, length_reply_fields in Hl by done.
    destruct Hr as (_ & _ & _ & _ & _ & _ & _ & _ & _ & Ho' & Hs). rewrite (length_offsets _ Ho'), Hs, Hm in Hl.
    unfold LocationOffsetSize in Hl. cbn [length] in Hl. lia.
Qed.

(** The other uses of the key of a device. The requests to the state ingest
    server are texts ([CanonicalAuthMessage] of
    [telemetry/state-ingest/pkg/types/types.go]; [digest] is the body's SHA-256
    in hexadecimal). *)
Definition AuthPrefixV1 : bytes := lit "DOUBLEZERO_V1".
Definition CanonicalAuthMessage (prefix method path timestamp digest : bytes) : bytes :=
  prefix ++ [10] ++ lit "method:" ++ method ++ [10] ++ lit "path:" ++ path ++ [10] ++ lit "timestamp:" ++ timestamp ++ [10] ++
  lit "body-sha256:" ++ digest ++ [10].
Definition ingest_message (m : bytes) : Prop := exists method path timestamp digest, m = CanonicalAuthMessage AuthPrefixV1 method path timestamp digest.

(** A transaction that a key pays for, as the Solana library lays it out: three
    bytes of counts, the number of accounts (below 128, since a transaction fits
    into a packet), and the accounts, of which the payer is the first. *)
Definition transaction_message (pk m : bytes) : Prop :=
  exists header number rest, length header = 3%nat /\ m = header ++ [number] ++ pk ++ rest.

Lemma signing_prefix o m : GetSigningBytes floats o = Some m -> exists rest, m = Version o :: AuthorityPubkey o ++ rest.
Proof.
  unfold GetSigningBytes, offset_fields. destruct (floats (Lat o) && floats (Lng o)); [|done]. cbn [mbind option_bind].
  destruct (mapM _ _); [|done]. intros [= <-]. eexists. by rewrite <- !app_assoc.
Qed.

Lemma ingest_not_offset o m : offset_ok o -> GetSigningBytes floats o = Some m -> ~ ingest_message m.
Proof.
  intros Ho [rest ->]%signing_prefix (method & path & timestamp & digest & Hm). rewrite (ok_version _ (offset_ok_node o Ho)) in Hm.
  by injection Hm.
Qed.

(** The bytes of an offset repeat the key one place further on than those of a
    transaction; only a key that repeats itself every three bytes fits both. *)
Lemma transaction_not_offset o m : offset_ok o -> GetSigningBytes floats o = Some m -> drop 3 (AuthorityPubkey o) <> take 29 (AuthorityPubkey o) ->
  ~ transaction_message (AuthorityPubkey o) m.
Proof.
  intros Ho [rest ->]%signing_prefix Hk (header & number & rest' & Hh & Hm). pose proof (ok_authority _ (offset_ok_node o Ho)) as Hl.
  destruct header as [|h0 [|h1 [|h2 [|]]]]; try done. injection Hm as _ Hm. apply Hk. apply (f_equal (take 32)) in Hm.
  rewrite take_app_length' in Hm by done. rewrite Hm at 1. cbn [app take drop]. by rewrite take_app_le by lia.
Qed.

Lemma SignOffset_sender s o : SenderPubkey (SignOffset floats s o).1 = senderPubkey s.
Proof. unfold SignOffset. destruct (GetSigningBytes floats _); by destruct o. Qed.

(** [seen] are the signatures that occur; [signed pk m]: the holder of [pk] has
    signed [m]. A signature that occurs and verifies under an honest key was
    made by its holder, and the holders of honest keys sign what the programs
    under [src/] sign with such keys: offsets, the messages of signed TWAMP,
    requests to the state ingest server and transactions they pay for. An honest
    key does not repeat itself every three bytes. *)
Context (honest : bytes -> Prop) (seen : bytes -> Prop) (signed : bytes -> bytes -> Prop).
Hypothesis unforgeable : forall pk m sg, honest pk -> seen sg -> ed_Verify pk m sg = true -> signed pk m.
Hypothesis ordinary : forall pk, honest pk -> drop 3 pk <> take 29 pk.
Hypothesis signs : forall pk m, honest pk -> signed pk m -> twamp_message m \/ ingest_message m \/ transaction_message pk m \/
  exists s o, let o' := (SignOffset floats s o).1 in
    pk = ed_Public (keypair s) /\ offset_ok o' /\ GetSigningBytes floats o' = Some m.

(** In a chain of offsets that verifies, whoever sent it, each offset with the
    authority of an honest key is one that the holder of the key has signed as an
    offset: with the same sender, slot, place, times, target and references. *)
Lemma chain_signed o : offset_ok o -> VerifyOffsetChain floats o = true -> Forall (fun x => seen (Signature x)) (nodes o) ->
  Forall (fun x => honest (AuthorityPubkey x) -> exists s o0, let o' := (SignOffset floats s o0).1 in
    AuthorityPubkey x = ed_Public (keypair s) /\ SenderPubkey x = senderPubkey s /\ x = o' <| Signature := Signature x |>) (nodes o).
Proof.
  intros Ho%ok_nodes Hv%chain_nodes Hs. rewrite Forall_forall in *. intros x Hx Hh. specialize (Ho x Hx). specialize (Hv x Hx). specialize (Hs x Hx).
  unfold VerifyOffset in Hv. destruct (GetSigningBytes floats x) as [m|] eqn:Hm; [|done].
  destruct (signs _ _ Hh (unforgeable _ _ _ Hh Hs Hv)) as [Ht|[Ht|[Ht|(s & o0 & Hpk & Hok & Hsb)]]];
    [by destruct (twamp_not_offset x m Ho Hm)|by destruct (ingest_not_offset x m Ho Hm)|by destruct (transaction_not_offset x m Ho Hm (ordinary _ Hh))|].
  exists s, o0. cbv zeta. pose proof (signing_inj _ _ m Hok Ho Hsb Hm) as Hx'. split_and!; [done| |done].
  transitivity (SenderPubkey (SignOffset floats s o0).1); [rewrite Hx'; by destruct (SignOffset floats s o0).1|].
  apply SignOffset_sender.
Qed.

End Authentic.

(** ** Signing and verifying *)

Section Signed.
Context {K : Type} `{!Ed25519 K} (floats : Z -> bool).

Lemma signing_signature o sg : GetSigningBytes floats (o <| Signature := sg |>) = GetSigningBytes floats o.
Proof. by destruct o. Qed.

(** What was signed verifies, if its references do. *)
Lemma SignOffset_verifies s o o' : SignOffset floats s o = (o', true) -> Forall (fun r => VerifyOffsetChain floats r = true) (References o) ->
  VerifyOffsetChain floats o' = true /\ AuthorityPubkey o' = ed_Public (keypair s) /\ SenderPubkey o' = senderPubkey s.
Proof.
  unfold SignOffset. set (o1 := o <| AuthorityPubkey := _ |> <| SenderPubkey := _ |>).
  destruct (GetSigningBytes floats o1) as [m|] eqn:Hm; [|done]. intros He Hr.
  assert (o' = o1 <| Signature := ed_Sign (keypair s) m |>) as -> by congruence. clear He.
  split_and!; [|done..]. rewrite VerifyOffsetChain_eq. apply andb_true_iff. split.
  - unfold VerifyOffset. rewrite signing_signature, Hm. apply ed_Verify_Sign.
  - apply forallb_forall. intros x Hx%list_elem_of_In. rewrite Forall_forall in Hr. by apply Hr.
Qed.

Lemma SignOffset_ok s o o' : SignOffset floats s o = (o', true) -> length (senderPubkey s) = 32%nat -> length (Signature o) = 64%nat ->
  (forall sg au se, length sg = 64%nat -> length au = 32%nat -> length se = 32%nat ->
     offset_ok (o <| AuthorityPubkey := au |> <| SenderPubkey := se |> <| Signature := sg |>)) -> offset_ok o'.
Proof.
  unfold SignOffset. destruct (GetSigningBytes floats _) as [m|] eqn:Hm; [|done]. intros [= <-] Hse Hsg Hok.
  apply Hok; [apply ed_Sign_length|apply ed_Public_length|done].
Qed.
End Signed.

(** ** A chain of two *)

Module OffsetSample.
Definition all_floats : Z -> bool := fun _ => true.
Definition device : OffsetSigner Z := mkSigner 7 (replicate 32 1).
Definition probe : OffsetSigner Z := mkSigner 9 (replicate 32 2).
Definition plain (slot rtt : Z) (refs : list LocationOffset) : LocationOffset :=
  mkOffset (replicate 64 0) LocationOffsetVersion (replicate 32 0) (replicate 32 0) slot rtt 11 22 rtt [192; 0; 9; 1] (Z.of_nat (length refs)) refs.
Definition message : bytes :=
  default [] (GetSigningBytes all_floats ((plain 5 1000 []) <| AuthorityPubkey := copy_n 32 [7] |> <| SenderPubkey := replicate 32 1 |>)).
End OffsetSample.

(** A stand-in for Ed25519 in which one message has a signature of its own. *)
Definition sample_sign (k : Z) (m : bytes) : bytes := copy_n 64 [k; if bool_decide (m = OffsetSample.message) then 1 else 0].

#[global] Instance sample_Ed25519 : Ed25519 Z.
Proof.
  refine {| ed_Public := fun k => copy_n 32 [k]; ed_Sign := sample_sign;
    ed_Verify := fun pub m sg => bool_decide (sg = sample_sign (byte_at pub 0) m) |}.
  - intros k. apply length_copy_n.
  - intros k m. apply length_copy_n.
  - intros k m. by apply bool_decide_eq_true_2.
Defined.

(** The offset of a device, and the composite of a probe. *)
Definition sample_measured : LocationOffset := (SignOffset OffsetSample.all_floats OffsetSample.device (OffsetSample.plain 5 1000 [])).1.
Definition sample_composite : LocationOffset := (SignOffset OffsetSample.all_floats OffsetSample.probe (OffsetSample.plain 6 2500 [sample_measured])).1.
Definition sample_datagram (o : LocationOffset) : bytes := default [] (Marshal OffsetSample.all_floats o).

Lemma sample_offsets_ok : offset_ok sample_measured /\ offset_ok sample_composite.
Proof.
  assert (H : offset_ok sample_measured) by (constructor; [constructor; vm_compute; done|constructor]).
  split; [done|]. constructor; [constructor; vm_compute; done|]. by apply Forall_singleton.
Qed.

Lemma bytes_ok_check l : forallb (fun b => bool_decide (is_u8 b)) l = true -> bytes_ok l.
Proof.
  intros H. apply Forall_forall. intros x Hx%list_elem_of_In. rewrite forallb_forall in H. by apply H, bool_decide_eq_true_1 in Hx.
Qed.

Lemma offset_codec_exact_witness : Unmarshal OffsetSample.all_floats (sample_datagram sample_composite ++ [1; 2; 3]) = Ok sample_composite.
Proof.
  apply (offset_codec_exact OffsetSample.all_floats (sample_datagram sample_composite ++ [1; 2; 3]) sample_composite).
  - by apply bytes_ok_check; vm_compute.
  - exists (sample_datagram sample_composite), [1; 2; 3]. split_and!; [done|by vm_compute|apply sample_offsets_ok|vm_compute; lia|vm_compute; lia].
Defined.
