(* ===== verification/GeoCaches.v ===== *)
(** * The caches of minimal round trip times

    Models [mincache.go] of [controlplane/telemetry/internal/geoprobe], the
    cache in which a target keeps the best offset of each probe, and the older
    cache of the probe in [cmd/geoprobe-agent/main.go]. Both keep a best value
    and a backup for when the best one expires. *)

From stdpp Require Import base tactics numbers list gmap.
From Stdlib Require Import ZArith Lia ZifyBool ZifyNat.
From S2P Require Import Prelude Bytes TwampSigned GeoOffset.

#[local] Open Scope Z_scope.

(** ** [MinCache] *)

Inductive UpdateResult := UpdateNone | UpdateBest | UpdateBackup.
Record UpdateInfo := mkInfo {
  Result : UpdateResult;
  Promoted : bool;
  PrevBestRttNs : Z;
  HadPrevBest : bool
}.
Definition Changed (u : UpdateInfo) : bool := (match Result u with UpdateBest => true | _ => false end) || Promoted u.

Record minEntry (T : Type) := mkEntry { e_value : T; e_rttNs : Z; receivedAt : Time }.
Arguments mkEntry {T} _ _ _.
Arguments e_value {T} _.
Arguments e_rttNs {T} _.
Arguments receivedAt {T} _.

Definition expiredAt {T : Type} (e : option (minEntry T)) (now : Time) (maxAge : Duration) : bool :=
  match e with None => true | Some e => maxAge <? TimeSub now (receivedAt e) end.

Module MinCache.
Record t (T : Type) := mk { best : option (minEntry T); backup : option (minEntry T); maxAge : Duration }.
Arguments mk {T} _ _ _.
Arguments best {T} _.
Arguments backup {T} _.
Arguments maxAge {T} _.
#[global] Instance eta {T : Type} : RecordEta (t T) := {
  eta_record := fun r => mk (best r) (backup r) (maxAge r);
  eta_record_id := fun r => match r with mk _ _ _ => eq_refl end
}.

Section Ops.
Context {T : Type} (rttFunc : T -> Z).

Definition New (maxAge : Duration) : t T := mk None None maxAge.

(** The loop that expires and promotes; [n] bounds its rounds. *)
Fixpoint expire (n : nat) (now : Time) (c : t T) (promoted : bool) : t T * bool :=
  match n with
  | O => (c, promoted)
  | S n =>
      if expiredAt (best c) now (maxAge c)
      then if negb (expiredAt (backup c) now (maxAge c))
           then expire n now (c <| best := backup c |> <| backup := None |>) true
           else (c <| best := None |> <| backup := None |>, promoted)
      else (c, promoted)
  end.

Definition Update (value : T) (now : Time) (c : t T) : t T * UpdateInfo :=
  let rttNs := rttFunc value in
  let guard := Z.quot (maxAge c) 2 in
  let entry := mkEntry value rttNs now in
  let '(prev, had) := match best c with
    | Some b => if negb (expiredAt (Some b) now (maxAge c)) then (e_rttNs b, true) else (0, false)
    | None => (0, false)
    end in
  let '(c, promoted) := expire 2 now c false in
  match best c with
  | None => (c <| best := Some entry |>, mkInfo UpdateBest promoted prev had)
  | Some b =>
      if rttNs <=? e_rttNs b then (c <| best := Some entry |> <| backup := None |>, mkInfo UpdateBest promoted prev had)
      else if guard <? i64 (maxAge c - TimeSub now (receivedAt b)) then (c <| backup := None |>, mkInfo UpdateNone promoted prev had)
      else match backup c with
           | Some k => if rttNs <=? e_rttNs k then (c <| backup := Some entry |>, mkInfo UpdateBackup promoted prev had)
                       else (c, mkInfo UpdateNone promoted prev had)
           | None => (c <| backup := Some entry |>, mkInfo UpdateBackup promoted prev had)
           end
  end.

Definition lowestLocked (now : Time) (c : t T) : option (minEntry T) :=
  let e := if negb (expiredAt (best c) now (maxAge c)) then best c else None in
  match backup c with
  | Some k =>
      if negb (expiredAt (Some k) now (maxAge c)) && match e with None => true | Some b => e_rttNs k <? e_rttNs b end then Some k else e
  | None => e
  end.
Definition Best (now : Time) (c : t T) : option T := e_value <$> lowestLocked now c.
Definition BestRttNs (now : Time) (c : t T) : option Z := e_rttNs <$> lowestLocked now c.
Definition Empty (now : Time) (c : t T) : bool := expiredAt (best c) now (maxAge c) && expiredAt (backup c) now (maxAge c).
End Ops.
End MinCache.

(** *** The window it covers *)

Section Window.
Context {T : Type} (rttFunc : T -> Z) (A : Duration).
Hypothesis maxAge_ok : 0 <= A < max_i64.
#[local] Abbreviation sample := (Time * T)%type.
Implicit Types (us : list sample) (u : sample) (c : MinCache.t T) (e b k : minEntry T).

Definition run_cache (us : list sample) : MinCache.t T :=
  foldl (fun c u => (MinCache.Update rttFunc u.2 u.1 c).1) (MinCache.New A) us.

Lemma fresh_spec e now : receivedAt e <= now -> expiredAt (Some e) now A = false <-> now - receivedAt e <= A.
Proof. intros H. cbn. unfold TimeSub, min_i64, max_i64 in *. lia. Qed.

(** [e] is a sample, and none that came later is better. *)
Definition record_low us e : Prop :=
  (receivedAt e, e_value e) ∈ us /\ e_rttNs e = rttFunc (e_value e) /\
  forall u, u ∈ us -> receivedAt e < u.1 -> e_rttNs e <= rttFunc u.2.

(** [e] is as good as [u], and lives at least half the age longer than [u]. *)
Definition covers e u : Prop := e_rttNs e <= rttFunc u.2 /\ u.1 + Z.quot A 2 <= receivedAt e + A.

Record cache_ok (us : list sample) (now : Time) (c : MinCache.t T) : Prop := mk_cache_ok {
  c_age : MinCache.maxAge c = A;
  c_best : forall b, MinCache.best c = Some b -> record_low us b;
  c_backup : forall k, MinCache.backup c = Some k -> record_low us k /\
    exists b, MinCache.best c = Some b /\ e_rttNs b < e_rttNs k /\ A - Z.quot A 2 <= receivedAt k - receivedAt b;
  c_covered : forall u, u ∈ us -> now <= u.1 + Z.quot A 2 ->
    exists e, (MinCache.best c = Some e \/ MinCache.backup c = Some e) /\ covers e u
}.

Lemma half_ok : 0 <= Z.quot A 2 /\ 2 * Z.quot A 2 <= A.
Proof. pose proof (Z.quot_rem' A 2). pose proof (Z.rem_bound_pos A 2). lia. Qed.

Lemma cache_ok_later us now now' c : now <= now' -> cache_ok us now c -> cache_ok us now' c.
Proof. intros Hle []. constructor; [done..|]. intros u Hu Hn. apply c_covered0; [done|lia]. Qed.

(** Every sample is in the past. *)
Definition past us (now : Time) : Prop := Forall (fun u => u.1 <= now) us.

Lemma past_record us now e : past us now -> record_low us e -> receivedAt e <= now.
Proof. intros Hp (Hin & _). unfold past in Hp. rewrite Forall_forall in Hp. apply (Hp _ Hin). Qed.

(** After the loop the best value is fresh, or there is none. *)
Lemma expire_ok us now c : past us now -> cache_ok us now c ->
  cache_ok us now (MinCache.expire 2 now c false).1 /\
  match MinCache.best (MinCache.expire 2 now c false).1 with
  | Some b => now - receivedAt b <= A
  | None => MinCache.backup (MinCache.expire 2 now c false).1 = None
  end.
Proof.
  intros Hp [Hage Hb Hk Hc]. destruct c as [b k a]. cbn [MinCache.maxAge] in Hage. subst a.
  cbn [MinCache.expire MinCache.best MinCache.backup MinCache.maxAge] in *.
  destruct (expiredAt b now A) eqn:Hexp; cycle 1.
  { split; [done|]. destruct b as [b|]; [|done]. cbn [fst MinCache.best]. apply fresh_spec; [|done]. by eapply past_record, Hb. }
  assert (Hdead : forall e u, b = Some e -> covers e u -> now <= u.1 + Z.quot A 2 -> False).
  { intros e u -> [_ Hcov] Hn. pose proof (past_record us now e Hp (Hb e eq_refl)) as He.
    assert (expiredAt (Some e) now A = false); [|congruence]. apply fresh_spec; lia. }
  destruct (expiredAt k now A) eqn:Hkexp; cbn [negb fst].
  - split; [|done]. constructor; [done..|]. intros u Hu Hn. destruct (Hc u Hu Hn) as (e & [He|He] & Hcov); [by destruct (Hdead e u)|].
    subst k. destruct (Hk e eq_refl) as [Hr _]. pose proof (past_record us now e Hp Hr) as He.
    assert (expiredAt (Some e) now A = false); [|congruence]. apply fresh_spec; [done|]. destruct Hcov. lia.
  - destruct k as [k|]; [|done]. destruct (Hk k eq_refl) as [Hr _]. cbn. cbn in Hkexp. rewrite Hkexp.
    split; [|apply fresh_spec; [by eapply past_record|done]]. constructor; [done|by intros ? [= <-]|done|].
    intros u Hu Hn. destruct (Hc u Hu Hn) as (e & [He|He] & Hcov); [by destruct (Hdead e u)|]. exists e. split; [by left|done].
Qed.

Lemma record_low_keep us now v e : record_low us e -> e_rttNs e <= rttFunc v -> record_low (us ++ [(now, v)]) e.
Proof.
  intros (Hin & Hr & Hlow) Hle. split_and!; [set_solver|done|]. intros u [Hu| ->%list_elem_of_singleton]%elem_of_app Ht; [by apply Hlow|done].
Qed.

Lemma record_low_new us now v : past us now -> record_low (us ++ [(now, v)]) (mkEntry v (rttFunc v) now).
Proof.
  intros Hp. split_and!; [cbn; set_solver|done|]. intros u [Hu| ->%list_elem_of_singleton]%elem_of_app Ht; [|cbn in Ht; lia].
  unfold past in Hp. rewrite Forall_forall in Hp. specialize (Hp u Hu). cbn in *. lia.
Qed.

Lemma covers_new us now v u : past us now -> u ∈ us ++ [(now, v)] -> rttFunc v <= rttFunc u.2 -> covers (mkEntry v (rttFunc v) now) u.
Proof.
  intros Hp Hu Hle. split; [done|]. cbn. pose proof half_ok. unfold past in Hp. rewrite Forall_forall in Hp.
  apply elem_of_app in Hu as [Hu| ->%list_elem_of_singleton]; [specialize (Hp u Hu)|cbn]; lia.
Qed.

(** The sample as the new best value, and as the new backup. *)
Lemma new_best_ok us now v : past us now -> (forall u, u ∈ us -> now <= u.1 + Z.quot A 2 -> rttFunc v <= rttFunc u.2) ->
  cache_ok (us ++ [(now, v)]) now (MinCache.mk (Some (mkEntry v (rttFunc v) now)) None A).
Proof.
  intros Hp Hle. constructor; [done|intros ? [= <-]; by apply record_low_new|done|]. intros u Hu Hn. eexists. split; [by left|].
  apply (covers_new us); [done|done|]. apply elem_of_app in Hu as [Hu| ->%list_elem_of_singleton]; [by apply Hle|done].
Qed.

Lemma new_backup_ok us now v b : past us now -> record_low us b -> e_rttNs b < rttFunc v -> A - Z.quot A 2 <= now - receivedAt b ->
  (forall u, u ∈ us -> now <= u.1 + Z.quot A 2 -> covers b u \/ rttFunc v <= rttFunc u.2) ->
  cache_ok (us ++ [(now, v)]) now (MinCache.mk (Some b) (Some (mkEntry v (rttFunc v) now)) A).
Proof.
  intros Hp Hb Hlt Hage Hcov. constructor; [done|intros ? [= <-]; apply record_low_keep; [done|lia]| |].
  - intros ? [= <-]. split; [by apply record_low_new|]. exists b. done.
  - intros u Hu Hn. assert (Hor : covers b u \/ rttFunc v <= rttFunc u.2).
    { apply elem_of_app in Hu as [Hu| ->%list_elem_of_singleton]; [by apply Hcov|by right]. }
    destruct Hor as [|Hle]; [exists b; split; [by left|done]|]. eexists. split; [by right|]. by apply (covers_new us).
Qed.

(** The sample finds its place behind the loop. *)
Lemma place_ok us now v c : past us now -> cache_ok us now c ->
  match MinCache.best c with Some b => now - receivedAt b <= A | None => MinCache.backup c = None end ->
  let entry := mkEntry v (rttFunc v) now in
  let c' := match MinCache.best c with
    | None => c <| MinCache.best := Some entry |>
    | Some b =>
        if rttFunc v <=? e_rttNs b then c <| MinCache.best := Some entry |> <| MinCache.backup := None |>
        else if Z.quot A 2 <? i64 (A - TimeSub now (receivedAt b)) then c <| MinCache.backup := None |>
        else match MinCache.backup c with
             | Some k => if rttFunc v <=? e_rttNs k then c <| MinCache.backup := Some entry |> else c
             | None => c <| MinCache.backup := Some entry |>
             end
    end in
  cache_ok (us ++ [(now, v)]) now c'.
Proof.
  intros Hp [Hage Hb Hk Hc] Hfresh entry. pose proof half_ok as Hhalf. destruct c as [ob ok a]. cbn [MinCache.maxAge] in Hage. subst a.
  cbn [MinCache.best MinCache.backup MinCache.maxAge] in *. destruct ob as [b|]; cycle 1.
  { subst ok. apply new_best_ok; [done|]. intros u Hu Hn. by destruct (Hc u Hu Hn) as (e & [|] & _). }
  pose proof (past_record us now b Hp (Hb b eq_refl)) as Htb.
  replace (i64 (A - TimeSub now (receivedAt b))) with (A - (now - receivedAt b))
    by (unfold TimeSub, max_i64, min_i64 in *; rewrite swrap_id; unfold is_i; lia).
  assert (Hcov : forall u, u ∈ us -> now <= u.1 + Z.quot A 2 -> covers b u \/ exists k, ok = Some k /\ e_rttNs k <= rttFunc u.2).
  { intros u Hu Hn. destruct (Hc u Hu Hn) as (e & [[= ->]| ->] & He); [by left|right; exists e; split; [done|apply He]]. }
  destruct (Z.leb_spec (rttFunc v) (e_rttNs b)) as [Hle|Hgt].
  - apply new_best_ok; [done|]. intros u Hu Hn. destruct (Hcov u Hu Hn) as [[? _]|(k & -> & ?)]; [lia|].
    destruct (Hk k eq_refl) as (_ & b' & [= <-] & Hlt & _). lia.
  - destruct (Z.ltb_spec (Z.quot A 2) (A - (now - receivedAt b))) as [Hfar|Hguard].
    + constructor; [done|intros ? [= <-]; apply record_low_keep; [by apply Hb|lia]|done|]. intros u Hu Hn. exists b. split; [by left|].
      apply elem_of_app in Hu as [Hu| ->%list_elem_of_singleton]; [|split; cbn; lia].
      destruct (Hcov u Hu Hn) as [|(k & -> & _)]; [done|]. destruct (Hk k eq_refl) as (Hr & b' & [= <-] & _ & Hage).
      pose proof (past_record us now k Hp Hr). lia.
    + destruct ok as [k|]; [destruct (Z.leb_spec (rttFunc v) (e_rttNs k)) as [Hle|Hgtk]|].
      * apply new_backup_ok; [done|by apply Hb|done|lia|]. intros u Hu Hn. destruct (Hcov u Hu Hn) as [|(k' & [= <-] & ?)]; [by left|right; lia].
      * destruct (Hk k eq_refl) as (Hr & b' & [= <-] & Hlt & Hage).
        constructor; [done|intros ? [= <-]; apply record_low_keep; [by apply Hb|lia]| |].
        -- intros ? [= <-]. split; [apply record_low_keep; [done|lia]|]. exists b. done.
        -- intros u Hu Hn. apply elem_of_app in Hu as [Hu| ->%list_elem_of_singleton]; [by apply Hc|].
           exists k. split; [by right|]. split; cbn; lia.
      * apply new_backup_ok; [done|by apply Hb|done|lia|]. intros u Hu Hn. destruct (Hcov u Hu Hn) as [|(k' & ? & _)]; [by left|done].
Qed.

Lemma cache_update_ok us now v c : past us now -> cache_ok us now c ->
  cache_ok (us ++ [(now, v)]) now (MinCache.Update rttFunc v now c).1.
Proof.
  intros Hp Hc. destruct (expire_ok us now c Hp Hc) as [Hc' Hf]. pose proof (place_ok us now v _ Hp Hc' Hf) as H. cbv zeta in H.
  unfold MinCache.Update. rewrite (c_age _ _ _ Hc). destruct (match MinCache.best c with Some _ => _ | None => _ end) as [prev had].
  destruct (MinCache.expire 2 now c false) as [c1 promoted]. cbn [fst] in H, Hc'. rewrite (c_age _ _ _ Hc').
  destruct (MinCache.best c1) as [b|]; [|done]. destruct (rttFunc v <=? e_rttNs b); [done|].
  destruct (Z.quot A 2 <? _); [done|]. destruct (MinCache.backup c1) as [k|]; [|done]. by destruct (rttFunc v <=? e_rttNs k).
Qed.

(** The clock does not run backwards, and [now] is after all samples. *)
Fixpoint in_order us (now : Time) : Prop :=
  match us with [] => True | u :: us => u.1 <= now /\ Forall (fun u' => u.1 <= u'.1) us /\ in_order us now end.

Lemma in_order_snoc us u now : in_order (us ++ [u]) now -> in_order us u.1 /\ past us u.1 /\ u.1 <= now.
Proof.
  induction us as [|x us IH]; [intros (? & _); split_and!; [done|by constructor|done]|]. cbn [app in_order]. intros (Hx & Hall & H).
  apply Forall_app in Hall as [Hall [Hu _]%Forall_cons]. destruct (IH H) as (H1 & H2 & H3). split_and!; [done..|by constructor|done].
Qed.

Lemma in_order_past us now : in_order us now -> past us now.
Proof. induction us as [|u us IH]; [constructor|]. intros (? & _ & ?). constructor; [done|by apply IH]. Qed.

Lemma run_cache_ok us now : in_order us now -> cache_ok us now (run_cache us).
Proof.
  revert now. induction us as [|u us IH] using rev_ind; intros now Ho; [constructor; [done..|by intros ? ?%not_elem_of_nil]|].
  apply in_order_snoc in Ho as (Ho & Hp & Hle). apply (cache_ok_later _ u.1); [done|]. unfold run_cache. rewrite foldl_snoc.
  destruct u as [t v]. by apply cache_update_ok, IH.
Qed.
End Window.

(** The slot that is read. *)
Lemma lowest_slot {T : Type} now (c : MinCache.t T) e : MinCache.lowestLocked now c = Some e ->
  (MinCache.best c = Some e \/ MinCache.backup c = Some e) /\ expiredAt (Some e) now (MinCache.maxAge c) = false.
Proof.
  unfold MinCache.lowestLocked. destruct (MinCache.best c) as [b|], (MinCache.backup c) as [k|]; [| | |done].
  - destruct (expiredAt (Some b) now _) eqn:H1, (expiredAt (Some k) now _) eqn:H2; cbn [negb andb]; try case_match;
      intros [= <-]; auto.
  - destruct (expiredAt (Some b) now _) eqn:H1; intros [= <-]; auto.
  - destruct (expiredAt (Some k) now _) eqn:H2; cbn [negb andb]; case_match; intros [= <-]; auto.
Qed.

Lemma lowest_best {T : Type} now (c : MinCache.t T) e : MinCache.best c = Some e \/ MinCache.backup c = Some e ->
  expiredAt (Some e) now (MinCache.maxAge c) = false -> exists e', MinCache.lowestLocked now c = Some e' /\ e_rttNs e' <= e_rttNs e.
Proof.
  unfold MinCache.lowestLocked. intros [-> | ->] ->; cbn [negb andb].
  - destruct (MinCache.backup c) as [k|]; [|eauto with lia]. destruct (negb _); cbn [andb]; [|eauto with lia].
    destruct (Z.ltb_spec (e_rttNs k) (e_rttNs e)); eauto with lia.
  - destruct (negb _); [|eauto with lia]. destruct (MinCache.best c) as [b|]; [|eauto with lia].
    destruct (Z.ltb_spec (e_rttNs e) (e_rttNs b)); eauto with lia.
Qed.

(** A sample of the last half of the age is covered. *)
Lemma window_covered {T : Type} (rttFunc : T -> Z) A (us : list (Time * T)) (now : Time) (u : Time * T) : 0 <= A < max_i64 -> in_order us now ->
  u ∈ us -> now <= u.1 + Z.quot A 2 -> exists v, MinCache.Best now (run_cache rttFunc A us) = Some v /\ rttFunc v <= rttFunc u.2.
Proof.
  intros HA Ho Hu Hn. pose proof (run_cache_ok rttFunc A HA us now Ho) as [Hage Hb Hk Hc]. set (c := run_cache rttFunc A us) in *.
  pose proof (in_order_past us now Ho) as Hp.
  assert (Hslot : forall e, MinCache.best c = Some e \/ MinCache.backup c = Some e -> record_low rttFunc us e)
    by (intros e [He|He]; [by apply Hb|by apply Hk]).
  destruct (Hc u Hu Hn) as (e & Hs & Hrtt & Hlive).
  destruct (lowest_best now c e Hs) as (e' & He' & Hle).
  { rewrite Hage. apply fresh_spec; [done|eapply past_record; [done|by apply Hslot]|lia]. }
  exists (e_value e'). unfold MinCache.Best. rewrite He'. split; [done|]. apply lowest_slot in He' as [Hs' _].
  destruct (Hslot e' Hs') as (_ & <- & _). lia.
Qed.

(** C17. A [MinCache] is a minimum over a sliding window, under any sequence of
    updates as long as the clock does not run backwards. What it returns at any
    moment is a sample received within the last [maxAge] that no later sample
    beats; and it is at least as good as every sample received within the last
    half of [maxAge], expiry and promotion of the backup included. *)
Theorem mincache_window {T : Type} (rttFunc : T -> Z) maxAge (us : list (Time * T)) (now : Time) : 0 <= maxAge < max_i64 -> in_order us now ->
  let c := run_cache rttFunc maxAge us in
  (forall v, MinCache.Best now c = Some v -> exists t, (t, v) ∈ us /\ now - t <= maxAge /\
     forall u : Time * T, u ∈ us -> t < u.1 -> rttFunc v <= rttFunc u.2) /\
  (forall u : Time * T, u ∈ us -> now <= u.1 + Z.quot maxAge 2 -> exists v, MinCache.Best now c = Some v /\ rttFunc v <= rttFunc u.2).
Proof.
  intros HA Ho c. split; [|intros u; by apply window_covered].
  pose proof (run_cache_ok rttFunc maxAge HA us now Ho) as [Hage Hb Hk _]. fold c in Hage, Hb, Hk. intros v Hv.
  unfold MinCache.Best in Hv. apply fmap_Some in Hv as (e & He & ->). apply lowest_slot in He as [Hs Hx]. rewrite Hage in Hx.
  assert (Hr : record_low rttFunc us e) by (destruct Hs as [Hs|Hs]; [by apply Hb|by apply Hk]).
  apply fresh_spec in Hx; [|done|eapply past_record; [by apply in_order_past|done]]. destruct Hr as (Hin & Hr & Hlow).
  exists (receivedAt e). by rewrite <- Hr.
Qed.

(** ** The cache of the probe

    [cmd/geoprobe-agent/main.go]. Each operation reads the clock at [now]. *)

Module OffsetCache.
Record cachedOffset := mkCached { offset : LocationOffset; cachedAt : Time }.
Record cachedSender := mkCachedSender { best : option cachedOffset; backup : option cachedOffset }.
Record t := mk { entries : gmap bytes cachedSender; maxAge : Duration }.

Definition expired (now : Time) (age : Duration) (co : option cachedOffset) : bool :=
  match co with None => true | Some co => age <? TimeSub now (cachedAt co) end.

Definition newOffsetCache (age : Duration) : t := mk ∅ age.

(** What [Put] does to the entry of the sender. *)
Definition put_sender (now : Time) (age : Duration) (o : LocationOffset) (s : cachedSender) : cachedSender :=
  let entry := mkCached o now in
  let s := if expired now age (best s)
    then mkCachedSender (if negb (expired now age (backup s)) then backup s else None) None
    else s in
  match best s with
  | None => mkCachedSender (Some entry) (backup s)
  | Some b =>
      if RttNs o <=? RttNs (offset b) then mkCachedSender (Some entry) (backup s)
      else
        let halfMaxAge := Z.quot age 2 in
        if expired now age (backup s) || match backup s with Some k => RttNs o <=? RttNs (offset k) | None => true end
        then mkCachedSender (best s) (Some entry)
        else match backup s with
             | Some k => if halfMaxAge <? TimeSub now (cachedAt k) then mkCachedSender (best s) (Some entry) else s
             | None => s
             end
  end.
Definition Put (now : Time) (o : LocationOffset) (c : t) : t :=
  let sender := default (mkCachedSender None None) (entries c !! SenderPubkey o) in
  mk (<[SenderPubkey o := put_sender now (maxAge c) o sender]> (entries c)) (maxAge c).

Definition Get (now : Time) (sender : bytes) (c : t) : option LocationOffset :=
  s ← entries c !! sender;
  if negb (expired now (maxAge c) (best s)) then offset <$> best s
  else if negb (expired now (maxAge c) (backup s)) then offset <$> backup s else None.

(** [order] is the order in which the map is ranged over. *)
Definition better (now : Time) (age : Duration) (acc : option LocationOffset) (entry : option cachedOffset) : option LocationOffset :=
  match entry with
  | Some e =>
      if expired now age entry then acc
      else match acc with
           | Some b => if RttNs (offset e) <? RttNs b then Some (offset e) else acc
           | None => Some (offset e)
           end
  | None => acc
  end.
Definition slots (order : list (bytes * cachedSender)) : list (option cachedOffset) := order ≫= fun kv => [best kv.2; backup kv.2].
Definition GetBest (now : Time) (order : list (bytes * cachedSender)) (c : t) : option LocationOffset :=
  foldl (better now (maxAge c)) None (slots order).

Definition dead (now : Time) (age : Duration) (s : cachedSender) : bool := expired now age (best s) && expired now age (backup s).
Definition Evict (now : Time) (c : t) : t * nat :=
  let entries' := filter (fun kv => dead now (maxAge c) kv.2 = false) (entries c) in
  (mk entries' (maxAge c), size (entries c) - size entries')%nat.

Definition marshalBestOffset (floats : Z -> bool) (now : Time) (order : list (bytes * cachedSender)) (c : t) : list bytes :=
  match GetBest now order c with
  | None => []
  | Some o => match Marshal floats o with Some data => [data] | None => [] end
  end.
End OffsetCache.

(** The cached offsets, with the sender under which they are kept. *)
Definition cached_in (c : OffsetCache.t) (sender : bytes) (o : LocationOffset) : Prop :=
  exists s e, OffsetCache.entries c !! sender = Some s /\ (OffsetCache.best s = Some e \/ OffsetCache.backup s = Some e) /\ OffsetCache.offset e = o.

Lemma put_sender_slots now age o s e :
  let s' := OffsetCache.put_sender now age o s in
  OffsetCache.best s' = Some e \/ OffsetCache.backup s' = Some e ->
  OffsetCache.offset e = o \/ OffsetCache.best s = Some e \/ OffsetCache.backup s = Some e.
Proof.
  unfold OffsetCache.put_sender. destruct s as [[b|] [k|]]; cbn [OffsetCache.best OffsetCache.backup]; repeat case_match; simplify_eq/=; naive_solver.
Qed.

(** Nothing is cached that was not put. *)
Lemma cached_Put now o c sender o' : cached_in (OffsetCache.Put now o c) sender o' -> cached_in c sender o' \/ o' = o /\ sender = SenderPubkey o.
Proof.
  intros (s & e & Hs & He & <-). unfold OffsetCache.Put in Hs. cbn [OffsetCache.entries] in Hs.
  destruct (decide (SenderPubkey o = sender)) as [Hk|Hk]; [|rewrite lookup_insert_ne in Hs by done; left; by exists s, e].
  subst sender. rewrite lookup_insert_eq in Hs. injection Hs as <-. apply put_sender_slots in He as [He|He]; [by right|].
  left. destruct (OffsetCache.entries c !! SenderPubkey o) as [s|] eqn:Hs; [by exists s, e|]. by destruct He.
Qed.

Lemma cached_Evict now c sender o : cached_in (OffsetCache.Evict now c).1 sender o -> cached_in c sender o.
Proof. intros (s & e & [Hs _]%map_lookup_filter_Some & He). by exists s, e. Qed.

(** [GetBest] finds the lowest of the unexpired ones. *)
Lemma better_spec now age l : forall acc,
  let r := foldl (OffsetCache.better now age) acc l in
  (forall o, r = Some o -> acc = Some o \/ exists e, Some e ∈ l /\ OffsetCache.expired now age (Some e) = false /\ OffsetCache.offset e = o) /\
  (forall o, acc = Some o -> exists o', r = Some o' /\ RttNs o' <= RttNs o) /\
  (forall e, Some e ∈ l -> OffsetCache.expired now age (Some e) = false -> exists o', r = Some o' /\ RttNs o' <= RttNs (OffsetCache.offset e)).
Proof.
  induction l as [|x l IH]; intros acc r.
  - split_and!; [by left|intros o Ho; exists o; split; [done|lia]|by intros e ?%not_elem_of_nil].
  - subst r. cbn [foldl]. destruct (IH (OffsetCache.better now age acc x)) as (H1 & H2 & H3). clear IH.
    assert (Hacc : forall o, acc = Some o -> exists o', OffsetCache.better now age acc x = Some o' /\ RttNs o' <= RttNs o).
    { intros o ->. unfold OffsetCache.better. destruct x as [e|]; [|eauto with lia]. destruct (OffsetCache.expired _ _ _); [eauto with lia|].
      destruct (Z.ltb_spec (RttNs (OffsetCache.offset e)) (RttNs o)); eauto with lia. }
    assert (Hx : forall e, x = Some e -> OffsetCache.expired now age (Some e) = false ->
      exists o', OffsetCache.better now age acc x = Some o' /\ RttNs o' <= RttNs (OffsetCache.offset e)).
    { intros e -> He. unfold OffsetCache.better. rewrite He. destruct acc as [b|]; [|eauto with lia].
      destruct (Z.ltb_spec (RttNs (OffsetCache.offset e)) (RttNs b)); eauto with lia. }
    assert (Hstep : forall y, (exists o', OffsetCache.better now age acc x = Some o' /\ RttNs o' <= y) ->
      exists o', foldl (OffsetCache.better now age) (OffsetCache.better now age acc x) l = Some o' /\ RttNs o' <= y).
    { intros y (o' & Ho & Hle). destruct (H2 o' Ho) as (o2 & -> & ?). exists o2. split; [done|lia]. }
    split_and!.
    + intros o Ho. destruct (H1 o Ho) as [Hb|(e & He & ?)]; [|right; exists e; split; [by right|done]].
      unfold OffsetCache.better in Hb. destruct x as [e|]; [|by left]. destruct (OffsetCache.expired _ _ _) eqn:Hexp; [by left|].
      repeat case_match; simplify_eq; [right; exists e; split; [by left|done]|by left|right; exists e; split; [by left|done]].
    + intros o Ho. by apply Hstep, Hacc.
    + intros e [Heq|Hin]%elem_of_cons He; [apply Hstep; by apply Hx|by apply H3].
Qed.

Lemma GetBest_cached now order c o : order ≡ₚ map_to_list (OffsetCache.entries c) -> OffsetCache.GetBest now order c = Some o ->
  exists sender, cached_in c sender o.
Proof.
  intros Hp Ho. apply better_spec in Ho as [|(e & He & _ & <-)]; [done|].
  apply list_elem_of_bind in He as ([k s] & He & Hks). rewrite Hp in Hks. apply elem_of_map_to_list in Hks.
  exists k, s, e. split_and!; [done| |done]. cbn in He. set_solver.
Qed.

(** *** What the backup is not *)

Lemma TimeSub_id x y : min_i64 <= x - y <= max_i64 -> TimeSub x y = x - y.
Proof. unfold TimeSub. lia. Qed.

(** The comparisons of a step, by arithmetic. *)
Ltac cached_step half :=
  unfold OffsetCache.put_sender, OffsetCache.expired; cbn [OffsetCache.best OffsetCache.backup OffsetCache.offset OffsetCache.cachedAt];
  rewrite ?(Z.mul_comm 2 half), ?Z.quot_mul by done;
  repeat first
    [ rewrite TimeSub_id by (unfold min_i64, max_i64 in *; lia) | rewrite (proj2 (Z.ltb_lt _ _)) by lia | rewrite (proj2 (Z.ltb_ge _ _)) by lia
    | rewrite (proj2 (Z.leb_le _ _)) by lia | rewrite (proj2 (Z.leb_gt _ _)) by lia
    | progress cbn [negb orb OffsetCache.best OffsetCache.backup OffsetCache.offset OffsetCache.cachedAt fmap option_fmap option_map] ];
  try done.

(** Offsets of one sender change its entry only. *)
Lemma puts_same sender age m ps : Forall (fun p : Time * LocationOffset => SenderPubkey p.2 = sender) ps -> forall s,
  foldl (fun c p => OffsetCache.Put p.1 p.2 c) (OffsetCache.mk (<[sender := s]> m) age) ps =
  OffsetCache.mk (<[sender := foldl (fun s p => OffsetCache.put_sender p.1 age p.2 s) s ps]> m) age.
Proof.
  induction 1 as [|p ps Hp _ IH]; intros s; [done|]. cbn [foldl]. rewrite <- IH. f_equal. unfold OffsetCache.Put.
  cbn. by rewrite Hp, lookup_insert_eq, insert_insert_eq.
Qed.

(** The backup of the probe's cache is not "the lowest RTT seen in the
    recent half-maxAge window", as its comment has it. A backup that is older
    than half the age is replaced by whatever comes next: of four offsets of a
    sender with rising times, the fourth replaces the second, after the third
    was ignored in favour of the second. When the best one expires, the fourth
    is used, the worst of all, although the third was received within the last
    half of [maxAge]. [MinCache] would return at most the third. *)
Theorem agent_cache_gap half sender a b s x t0 : 2 <= half -> 2 * half < max_i64 ->
  Forall (fun o => SenderPubkey o = sender) [a; b; s; x] -> RttNs a < RttNs b < RttNs s -> RttNs s < RttNs x ->
  let puts := [(t0, a); (t0 + 1, b); (t0 + 1 + half, s); (t0 + 2 + half, x)] in
  let now := t0 + 2 * half + 1 in
  OffsetCache.Get now sender (foldl (fun c p => OffsetCache.Put p.1 p.2 c) (OffsetCache.newOffsetCache (2 * half)) puts) = Some x /\
  now - (t0 + 1 + half) <= half /\
  exists v, MinCache.Best now (run_cache RttNs (2 * half) puts) = Some v /\ RttNs v <= RttNs s.
Proof.
  intros Hh Hm Hs Hab Hsx puts now. split_and!; [|lia|apply (window_covered _ _ _ _ (t0 + 1 + half, s));
    [lia|cbn; repeat (split || constructor); cbn; lia|set_solver|cbn; rewrite (Z.mul_comm 2 half), Z.quot_mul; lia]].
  apply Forall_cons in Hs as [Ka [Kb [Ks [Kx _]%Forall_cons]%Forall_cons]%Forall_cons].
  set (p0 := OffsetCache.mkCachedSender None None).
  assert (H1 : OffsetCache.put_sender t0 (2 * half) a p0 = OffsetCache.mkCachedSender (Some (OffsetCache.mkCached a t0)) None) by done.
  assert (H2 : OffsetCache.put_sender (t0 + 1) (2 * half) b (OffsetCache.mkCachedSender (Some (OffsetCache.mkCached a t0)) None) =
    OffsetCache.mkCachedSender (Some (OffsetCache.mkCached a t0)) (Some (OffsetCache.mkCached b (t0 + 1)))) by cached_step half.
  assert (H3 : OffsetCache.put_sender (t0 + 1 + half) (2 * half) s
      (OffsetCache.mkCachedSender (Some (OffsetCache.mkCached a t0)) (Some (OffsetCache.mkCached b (t0 + 1)))) =
    OffsetCache.mkCachedSender (Some (OffsetCache.mkCached a t0)) (Some (OffsetCache.mkCached b (t0 + 1)))) by cached_step half.
  assert (H4 : OffsetCache.put_sender (t0 + 2 + half) (2 * half) x
      (OffsetCache.mkCachedSender (Some (OffsetCache.mkCached a t0)) (Some (OffsetCache.mkCached b (t0 + 1)))) =
    OffsetCache.mkCachedSender (Some (OffsetCache.mkCached a t0)) (Some (OffsetCache.mkCached x (t0 + 2 + half)))) by cached_step half.
  assert (H0 : OffsetCache.Put t0 a (OffsetCache.newOffsetCache (2 * half)) = OffsetCache.mk (<[sender := OffsetCache.put_sender t0 (2 * half) a p0]> ∅) (2 * half)).
  { unfold OffsetCache.Put. cbn. by subst sender. }
  subst puts. cbn [foldl fst snd] in H0 |- *. rewrite H0.
  pose proof (puts_same sender (2 * half) ∅ [(t0 + 1, b); (t0 + 1 + half, s); (t0 + 2 + half, x)]) as Hp. cbn [foldl fst snd] in Hp.
  rewrite Hp by (by repeat constructor). rewrite H1, H2, H3, H4.
  unfold OffsetCache.Get. cbn [OffsetCache.entries OffsetCache.maxAge]. rewrite lookup_insert_eq. cbn [mbind option_bind].
  subst now. cached_step half.
Qed.

(** ** The caches of many keys

    [MinCacheMap] hands out pointers to its caches; [heap] is the store they
    point to. *)

Module MinCacheMap.
Section Ops.
Context {K V : Type} `{Countable K} (rttFunc : V -> Z).

Record t := mk { caches : gmap K nat; heap : list (MinCache.t V); maxAge : Duration }.

Definition New (age : Duration) : t := mk ∅ [] age.

Definition Get (key : K) (m : t) : t * nat :=
  match caches m !! key with
  | Some l => (m, l)
  | None => (mk (<[key := length (heap m)]> (caches m)) (heap m ++ [MinCache.New (maxAge m)]) (maxAge m), length (heap m))
  end.

(** [Update] through a pointer. *)
Definition Update (l : nat) (value : V) (now : Time) (m : t) : t * UpdateInfo :=
  match heap m !! l with
  | Some c => let '(c, info) := MinCache.Update rttFunc value now c in (mk (caches m) (<[l := c]> (heap m)) (maxAge m), info)
  | None => (m, mkInfo UpdateNone false 0 false)
  end.

Definition empty_at (now : Time) (m : t) (l : nat) : bool := match heap m !! l with Some c => MinCache.Empty now c | None => true end.
Definition Sweep (now : Time) (m : t) : t := mk (filter (fun kl => empty_at now m kl.2 = false) (caches m)) (heap m) (maxAge m).

(** The cache that a key names. *)
Definition view (m : t) (key : K) : option (MinCache.t V) := caches m !! key ≫= fun l => heap m !! l.

(** Every pointer of the map is valid, and no two keys share a cache. *)
Record map_ok (m : t) : Prop := mk_map_ok {
  valid_pointers : forall k l, caches m !! k = Some l -> (l < length (heap m))%nat;
  unshared : forall k k' l, caches m !! k = Some l -> caches m !! k' = Some l -> k = k';
  same_age : Forall (fun c => MinCache.maxAge c = maxAge m) (heap m)
}.
End Ops.
Arguments t : clear implicits.
Arguments t _ _ {_ _}.
End MinCacheMap.

Section Maps.
Context {K V : Type} `{Countable K} (rttFunc : V -> Z).
Implicit Types (m : MinCacheMap.t K V) (c : MinCache.t V).

Lemma age_expire n now c b : MinCache.maxAge (MinCache.expire n now c b).1 = MinCache.maxAge c.
Proof. revert c b. induction n as [|n IH]; intros c b; [done|]. cbn. case_match; [|done]. case_match; [|done]. by rewrite IH. Qed.

Lemma age_Update v now c : MinCache.maxAge (MinCache.Update rttFunc v now c).1 = MinCache.maxAge c.
Proof.
  unfold MinCache.Update. destruct (match MinCache.best c with Some _ => _ | None => _ end) as [prev had].
  pose proof (age_expire 2 now c false) as He. destruct (MinCache.expire 2 now c false) as [c' pr]. cbn [fst] in He.
  rewrite <- He. by repeat case_match.
Qed.

Lemma Get_ok key m : MinCacheMap.map_ok m -> MinCacheMap.map_ok (MinCacheMap.Get key m).1.
Proof.
  intros [H1 H2 H3]. unfold MinCacheMap.Get. destruct (MinCacheMap.caches m !! key) as [l|] eqn:Hl; [done|].
  constructor; cbn [fst MinCacheMap.caches MinCacheMap.heap MinCacheMap.maxAge].
  - intros k l. rewrite length_app. cbn [length]. intros [[_ <-]|[_ Hk%H1]]%lookup_insert_Some; lia.
  - intros k k' l [[<- <-]|[? Hk]]%lookup_insert_Some [[<- Hl']|[? Hk']]%lookup_insert_Some; [done|apply H1 in Hk'; lia|subst; apply H1 in Hk; lia|by eapply H2].
  - apply Forall_app. split; [done|by constructor].
Qed.

Lemma Update_map_ok l v now m : MinCacheMap.map_ok m -> MinCacheMap.map_ok (MinCacheMap.Update rttFunc l v now m).1.
Proof.
  intros [H1 H2 H3]. unfold MinCacheMap.Update. destruct (MinCacheMap.heap m !! l) as [c|] eqn:Hc; [|done].
  pose proof (age_Update v now c) as Ha. destruct (MinCache.Update rttFunc v now c) as [c' info]. cbn [fst] in *.
  constructor; cbn [MinCacheMap.caches MinCacheMap.heap MinCacheMap.maxAge]; [by rewrite length_insert|done|].
  apply Forall_insert; [done|]. rewrite Ha. by eapply Forall_lookup_1 in H3.
Qed.

Lemma Sweep_ok now m : MinCacheMap.map_ok m -> MinCacheMap.map_ok (MinCacheMap.Sweep now m).
Proof.
  intros [H1 H2 H3]. constructor; cbn [MinCacheMap.Sweep MinCacheMap.caches MinCacheMap.heap MinCacheMap.maxAge]; [| |done].
  - intros k l [Hk _]%map_lookup_filter_Some. by eapply H1.
  - intros k k' l [Hk _]%map_lookup_filter_Some [Hk' _]%map_lookup_filter_Some. by eapply H2.
Qed.

(** A cache that is empty behaves as a new one. *)
Lemma Update_empty v now c : MinCache.Empty now c = true ->
  MinCache.Update rttFunc v now c = MinCache.Update rttFunc v now (MinCache.New (MinCache.maxAge c)).
Proof.
  destruct c as [b k a]. unfold MinCache.Empty, MinCache.Update, MinCache.New. cbn [MinCache.best MinCache.backup MinCache.maxAge MinCache.expire].
  intros [Hb Hk]%andb_true_iff. rewrite Hb, Hk. cbn. by destruct b as [b|]; cbn in Hb |- *; rewrite ?Hb.
Qed.

Lemma empty_later now now' c : now <= now' -> MinCache.Empty now c = true -> MinCache.Empty now' c = true.
Proof.
  destruct c as [[b|] [k|] a]; unfold MinCache.Empty, expiredAt, TimeSub, max_i64, min_i64; cbn; lia.
Qed.

Lemma Best_empty now c : MinCache.Empty now c = true -> MinCache.Best now c = None.
Proof.
  unfold MinCache.Empty, MinCache.Best, MinCache.lowestLocked. intros [-> Hk]%andb_true_iff. cbn [negb].
  destruct (MinCache.backup c); [|done]. by rewrite Hk.
Qed.

(** An offset is taken in: its cache is fetched, and updated before anything
    else happens to the map. *)
Definition take_in (now : Time) (key : K) (v : V) m : MinCacheMap.t K V :=
  let '(m, l) := MinCacheMap.Get key m in (MinCacheMap.Update rttFunc l v now m).1.

Inductive map_event := MUpdate (now : Time) (key : K) (v : V) | MSweep (now : Time).
Definition event_time (e : map_event) : Time := match e with MUpdate now _ _ => now | MSweep now => now end.
Definition map_step m (e : map_event) : MinCacheMap.t K V :=
  match e with MUpdate now key v => take_in now key v m | MSweep now => MinCacheMap.Sweep now m end.
Definition samples_of (key : K) (es : list map_event) : list (Time * V) :=
  omap (fun e => match e with MUpdate now k v => if decide (k = key) then Some (now, v) else None | MSweep _ => None end) es.

Lemma view_Get key k m : MinCacheMap.map_ok m ->
  MinCacheMap.view (MinCacheMap.Get key m).1 k = if decide (k = key) then Some (default (MinCache.New (MinCacheMap.maxAge m)) (MinCacheMap.view m key))
    else MinCacheMap.view m k.
Proof.
  intros [H1 H2 _]. unfold MinCacheMap.Get, MinCacheMap.view. destruct (MinCacheMap.caches m !! key) as [l|] eqn:Hl; cbn.
  - destruct (decide (k = key)) as [->|]; [|done]. rewrite Hl. cbn. destruct (lookup_lt_is_Some_2 (MinCacheMap.heap m) l (H1 _ _ Hl)) as [c ->]. done.
  - destruct (decide (k = key)) as [->|].
    + rewrite lookup_insert_eq. cbn. by rewrite lookup_app_r, Nat.sub_diag by lia.
    + rewrite lookup_insert_ne by done. destruct (MinCacheMap.caches m !! k) as [l|] eqn:Hk; [|done]. cbn. apply lookup_app_l. by eapply H1.
Qed.

Lemma view_take_in now key v k m : MinCacheMap.map_ok m -> MinCacheMap.view (take_in now key v m) k =
  if decide (k = key) then Some (MinCache.Update rttFunc v now (default (MinCache.New (MinCacheMap.maxAge m)) (MinCacheMap.view m key))).1
  else MinCacheMap.view m k.
Proof.
  intros Hm. pose proof (Get_ok key m Hm) as Hm'. pose proof (view_Get key key m Hm) as Hkey. pose proof (view_Get key k m Hm) as Hk.
  rewrite decide_True in Hkey by done. assert (Hl : MinCacheMap.caches (MinCacheMap.Get key m).1 !! key = Some (MinCacheMap.Get key m).2).
  { unfold MinCacheMap.Get. destruct (MinCacheMap.caches m !! key) eqn:Hl; [done|]. cbn. by rewrite lookup_insert_eq. }
  unfold take_in. destruct (MinCacheMap.Get key m) as [m' l]. cbn [fst snd] in *. unfold MinCacheMap.view in Hkey. rewrite Hl in Hkey. cbn in Hkey.
  unfold MinCacheMap.Update. rewrite Hkey. destruct (MinCache.Update _ _ _ _) as [c info]. cbn [fst]. unfold MinCacheMap.view at 1. cbn [MinCacheMap.caches MinCacheMap.heap].
  destruct (decide (k = key)) as [->|Hne].
  - rewrite Hl. cbn. apply list_lookup_insert_eq. by apply (MinCacheMap.valid_pointers _ Hm' key).
  - rewrite <- Hk. unfold MinCacheMap.view. destruct (MinCacheMap.caches m' !! k) as [l'|] eqn:Hl'; [|done]. cbn.
    apply list_lookup_insert_ne. intros ->. apply Hne. by eapply (MinCacheMap.unshared _ Hm').
Qed.

Lemma take_in_ok now key v m : MinCacheMap.map_ok m -> MinCacheMap.map_ok (take_in now key v m) /\ MinCacheMap.maxAge (take_in now key v m) = MinCacheMap.maxAge m.
Proof.
  intros Hm. pose proof (Get_ok key m Hm) as Hg. unfold take_in.
  assert (Ha : MinCacheMap.maxAge (MinCacheMap.Get key m).1 = MinCacheMap.maxAge m) by (unfold MinCacheMap.Get; by case_match).
  destruct (MinCacheMap.Get key m) as [m' l]. cbn [fst] in *. split; [by apply Update_map_ok|].
  rewrite <- Ha. unfold MinCacheMap.Update. case_match; [|done]. by destruct (MinCache.Update _ _ _ _).
Qed.

(** What a key's cache is, next to one that is never swept. *)
Definition view_ok (age : Duration) (now : Time) (es : list map_event) m : Prop :=
  MinCacheMap.map_ok m /\ MinCacheMap.maxAge m = age /\ forall k,
  let c := run_cache rttFunc age (samples_of k es) in
  match MinCacheMap.view m k with Some c' => c' = c | None => MinCache.Empty now c = true end.

Lemma age_run age us : MinCache.maxAge (run_cache rttFunc age us) = age.
Proof. induction us as [|u us IH] using rev_ind; [done|]. unfold run_cache in *. by rewrite foldl_snoc, age_Update, IH. Qed.

Lemma map_step_ok age now es m e : now <= event_time e -> view_ok age now es m -> view_ok age (event_time e) (es ++ [e]) (map_step m e).
Proof.
  intros Hle (Hm & Ha & Hv). destruct e as [t key v|t]; cbn [event_time map_step] in *.
  - destruct (take_in_ok t key v m Hm) as [Hm' Ha']. split_and!; [done|by rewrite Ha'|]. intros k. specialize (Hv k). cbv zeta in Hv |- *.
    rewrite view_take_in by done. unfold samples_of. rewrite omap_app. fold (samples_of k es). cbn [omap list_omap].
    destruct (decide (k = key)) as [->|Hne]; cycle 1.
    { rewrite decide_False, app_nil_r by congruence. case_match; [done|]. by eapply empty_later. }
    rewrite decide_True by done. unfold run_cache at 1. rewrite foldl_snoc. fold (run_cache rttFunc age (samples_of key es)). cbn [fst snd].
    destruct (MinCacheMap.view m key) as [c|]; [by subst c|]. rewrite (Update_empty v t (run_cache _ _ _)) by (by eapply empty_later).
    by rewrite age_run, Ha.
  - split_and!; [by apply Sweep_ok|done|]. intros k. specialize (Hv k). cbv zeta in Hv |- *.
    unfold samples_of. rewrite omap_app, app_nil_r. fold (samples_of k es). unfold MinCacheMap.view in *. cbn [MinCacheMap.Sweep MinCacheMap.caches MinCacheMap.heap].
    destruct (MinCacheMap.caches m !! k) as [l|] eqn:Hl; cbn in Hv.
    + destruct (MinCacheMap.empty_at t m l) eqn:He.
      * rewrite (proj2 (map_lookup_filter_None _ _ _)) by (right; intros x ?; simplify_eq; cbn; congruence). cbn.
        unfold MinCacheMap.empty_at in He. destruct (MinCacheMap.heap m !! l); [by subst|by eapply empty_later].
      * rewrite (proj2 (map_lookup_filter_Some _ _ _ _)) by (by split; [exact Hl|]). cbn.
        destruct (MinCacheMap.heap m !! l); [done|by eapply empty_later].
    + rewrite (proj2 (map_lookup_filter_None _ _ _)) by (by left). cbn. by eapply empty_later.
Qed.

(** The events in the order of the clock. *)
Fixpoint events_in_order (es : list map_event) (from : Time) : Prop :=
  match es with [] => True | e :: es => from <= event_time e /\ events_in_order es (event_time e) end.
Definition last_time (es : list map_event) (from : Time) : Time := foldl (fun _ e => event_time e) from es.

Lemma map_run_ok age es : forall done m from, view_ok age from done m -> events_in_order es from ->
  view_ok age (last_time es from) (done ++ es) (foldl map_step m es).
Proof.
  induction es as [|e es IH]; intros done m from Hv Ho; [by rewrite app_nil_r|]. destruct Ho as [Hle Ho]. cbn [foldl last_time].
  rewrite cons_middle, app_assoc. apply IH; [|done]. by eapply map_step_ok.
Qed.

(** Sweeping is not observable. Under any sequence of offsets taken in
    whole and of sweeps, in the order of the clock, every key of a
    [MinCacheMap] answers at any later moment as a [MinCache] of its own that
    has seen all samples of the key and is never removed. *)
Theorem sweep_unobservable age es from now k : events_in_order es from -> last_time es from <= now ->
  (MinCacheMap.view (foldl map_step (MinCacheMap.New age) es) k ≫= MinCache.Best now) =
  MinCache.Best now (run_cache rttFunc age (samples_of k es)).
Proof.
  intros Ho Hn. assert (Hinit : view_ok age from [] (MinCacheMap.New age : MinCacheMap.t K V)).
  { split_and!; [by constructor|done|]. intros k'. unfold MinCacheMap.view. cbn. by rewrite lookup_empty. }
  destruct (map_run_ok age es [] _ from Hinit Ho) as (_ & _ & Hv). specialize (Hv k). cbv zeta in Hv. rewrite app_nil_l in Hv.
  destruct (MinCacheMap.view _ k) as [c|]; [by rewrite Hv|]. symmetry. apply Best_empty. by eapply empty_later.
Qed.

(** A sweep between the fetching of a new cache and its update loses it: the
    cache is updated, and no key leads to it. *)
Lemma swept_update_lost key v now1 now2 m : MinCacheMap.caches m !! key = None ->
  let '(m1, l) := MinCacheMap.Get key m in
  MinCacheMap.view (MinCacheMap.Update rttFunc l v now2 (MinCacheMap.Sweep now1 m1)).1 key = None.
Proof.
  intros Hk. unfold MinCacheMap.Get. rewrite Hk. unfold MinCacheMap.Update. cbn [MinCacheMap.Sweep MinCacheMap.heap MinCacheMap.caches MinCacheMap.maxAge].
  rewrite lookup_app_r, Nat.sub_diag by lia. cbn [lookup list_lookup]. destruct (MinCache.Update _ _ _ _) as [c info]. cbn [fst]. unfold MinCacheMap.view.
  cbn [MinCacheMap.caches]. rewrite (proj2 (map_lookup_filter_None _ _ _)); [done|]. right. intros l Hl. rewrite lookup_insert_eq in Hl.
  injection Hl as <-. cbn. unfold MinCacheMap.empty_at. cbn. by rewrite lookup_app_r, Nat.sub_diag by lia.
Qed.
End Maps.

(** ** The caches on samples *)

(** Three samples; the best has expired when the cache is asked. *)
Lemma mincache_window_witness : exists v,
  MinCache.Best 15 (run_cache id 10 [(0, 1); (4, 7); (12, 9)]) = Some v /\ v <= 9.
Proof. apply (proj2 (mincache_window id 10 [(0, 1); (4, 7); (12, 9)] 15 ltac:(by vm_compute) ltac:(repeat (split || constructor); by vm_compute)) (12, 9)); [set_solver|by vm_compute]. Defined.

Lemma agent_cache_gap_witness :
  let o rtt := OffsetSample.plain 5 rtt [] in
  OffsetCache.Get 111 (replicate 32 0) (foldl (fun c p => OffsetCache.Put p.1 p.2 c) (OffsetCache.newOffsetCache 100)
    [(10, o 1); (11, o 2); (61, o 3); (62, o 4)]) = Some (o 4).
Proof. refine (proj1 (agent_cache_gap 50 (replicate 32 0) _ _ _ _ 10 _ _ _ _ _)); [lia|by vm_compute|repeat constructor|by vm_compute|by vm_compute]. Defined.

(** A sweep between two samples, after the first has expired. *)
Lemma sweep_unobservable_witness :
  (MinCacheMap.view (foldl (map_step id) (MinCacheMap.New 10) [MUpdate 0 1 5; MSweep 20; MUpdate 21 1 8]) 1 ≫= MinCache.Best 25) = Some 8.
Proof. refine (eq_trans (sweep_unobservable id 10 [MUpdate 0 1 5; MSweep 20; MUpdate 21 1 8] 0 25 1 _ _) _); [repeat split; by vm_compute|by vm_compute|by vm_compute]. Defined.
