(* ===== verification/GeoAccounts.v ===== *)
(** * The accounts of the geolocation program

    Models [sdk/geolocation/go]: the accounts of [state.go] with their Borsh
    encoding, [deserialize.go], the addresses of [validation.go] and what
    [client.go] makes of the accounts of the program. *)

From stdpp Require Import base tactics numbers list.
From Stdlib Require Import ZArith Lia ZifyBool ZifyNat.
From S2P Require Import Prelude Bytes ByteReader BorshIncremental TelemetryAccounts.

#[local] Open Scope Z_scope.

Definition AccountTypeGeoProbe : Z := 2.
Definition AccountTypeGeolocationUser : Z := 3.
Definition MaxParentDevices : nat := 5.
Definition MaxCodeLength : Z := 32.
Definition MaxTargets : Z := 4096.
Definition GeolocationPaymentStatusPaid : Z := 1.
Definition GeolocationUserStatusActivated : Z := 0.
Definition GeolocationUserStatusSuspended : Z := 1.
Definition GeoLocationTargetTypeOutbound : Z := 0.
Definition GeoLocationTargetTypeInbound : Z := 1.
Definition GeoLocationTargetTypeOutboundIcmp : Z := 2.

Definition string_bytes (s : bytes) : bytes := le_bytes 4 (Z.of_nat (length s)) ++ s.

(** A field that older accounts do not have: the default if it cannot be read. *)
Definition or_default {A : Type} (def : A) (m : Borsh.SR A) : Borsh.SR A := fun d o =>
  let '(a, o') := m d o in (Some (default def a), o').

Module GeoProbe.
Record t := mk {
  AccountType : Z;
  Owner : bytes;
  ExchangePK : bytes;
  PublicIP : bytes;
  LocationOffsetPort : Z;
  MetricsPublisherPK : bytes;
  ReferenceCount : Z;
  Code : bytes;
  ParentDevices : list bytes;
  TargetUpdateCount : Z
}.

(** All fields but the last, which was added later. *)
Definition old_bytes (g : t) : bytes :=
  [AccountType g] ++ Owner g ++ ExchangePK g ++ PublicIP g ++ le_bytes 2 (LocationOffsetPort g) ++ MetricsPublisherPK g ++
  le_bytes 4 (ReferenceCount g) ++ string_bytes (Code g) ++ le_bytes 4 (Z.of_nat (length (ParentDevices g))) ++ concat (ParentDevices g).
Definition Serialize (g : t) : bytes := old_bytes g ++ le_bytes 4 (TargetUpdateCount g).

Definition Deserialize : Borsh.SR t :=
  account_type ← Borsh.ReadU8;
  owner ← Borsh.ReadPubkey;
  exchange ← Borsh.ReadPubkey;
  ip ← Borsh.ReadIPv4;
  port ← Borsh.ReadU16;
  publisher ← Borsh.ReadPubkey;
  count ← Borsh.ReadU32;
  code ← Borsh.ReadString;
  if MaxCodeLength <? Z.of_nat (length code) then Borsh.fail
  else
    n ← Borsh.ReadU32;
    parents ← Borsh.read_times (Z.to_nat n) Borsh.ReadPubkey;
    if (MaxParentDevices <? length parents)%nat then Borsh.fail
    else
      updates ← or_default 0 Borsh.ReadU32;
      mret (mk account_type owner exchange ip port publisher count code parents updates).
End GeoProbe.

Module FlatPerEpochConfig.
Record t := mk { Rate : Z; LastDeductionDzEpoch : Z }.
Definition Serialize (f : t) : bytes := le_bytes 8 (Rate f) ++ le_bytes 8 (LastDeductionDzEpoch f).
Definition Deserialize : Borsh.SR t := r ← Borsh.ReadU64; e ← Borsh.ReadU64; mret (mk r e).
End FlatPerEpochConfig.

Module GeolocationBillingConfig.
Record t := mk { Variant : Z; FlatPerEpoch : FlatPerEpochConfig.t }.
Definition Serialize (b : t) : option bytes :=
  if Variant b =? 0 then Some ([Variant b] ++ FlatPerEpochConfig.Serialize (FlatPerEpoch b)) else None.
Definition Deserialize : Borsh.SR t :=
  v ← Borsh.ReadU8;
  if v =? 0 then f ← FlatPerEpochConfig.Deserialize; mret (mk v f) else Borsh.fail.
End GeolocationBillingConfig.

Module GeolocationTarget.
Record t := mk { TargetType : Z; IPAddress : bytes; LocationOffsetPort : Z; TargetPK : bytes; GeoProbePK : bytes }.
Definition Serialize (g : t) : bytes :=
  [TargetType g] ++ IPAddress g ++ le_bytes 2 (LocationOffsetPort g) ++ TargetPK g ++ GeoProbePK g.
Definition Deserialize : Borsh.SR t :=
  ty ← Borsh.ReadU8;
  if GeoLocationTargetTypeOutboundIcmp <? ty then Borsh.fail
  else
    ip ← Borsh.ReadIPv4;
    port ← Borsh.ReadU16;
    target ← Borsh.ReadPubkey;
    probe ← Borsh.ReadPubkey;
    mret (mk ty ip port target probe).
End GeolocationTarget.

Module GeolocationUser.
Record t := mk {
  AccountType : Z;
  Owner : bytes;
  Code : bytes;
  TokenAccount : bytes;
  PaymentStatus : Z;
  Billing : GeolocationBillingConfig.t;
  Status : Z;
  Targets : list GeolocationTarget.t;
  ResultDestination : bytes
}.

Definition old_bytes (g : t) : option bytes :=
  billing ← GeolocationBillingConfig.Serialize (Billing g);
  Some ([AccountType g] ++ Owner g ++ string_bytes (Code g) ++ TokenAccount g ++ [PaymentStatus g] ++ billing ++ [Status g] ++
    le_bytes 4 (u32 (Z.of_nat (length (Targets g)))) ++ concat (GeolocationTarget.Serialize <$> Targets g)).
Definition Serialize (g : t) : option bytes := b ← old_bytes g; Some (b ++ string_bytes (ResultDestination g)).

Definition geolocationBillingConfigSize : nat := 17.
Definition geolocationUserTargetSize : nat := 71.
Definition codeOffset : nat := 33.

Definition fields (targetCount : Z) : Borsh.SR t :=
  account_type ← Borsh.ReadU8;
  owner ← Borsh.ReadPubkey;
  code ← Borsh.ReadString;
  token ← Borsh.ReadPubkey;
  payment ← Borsh.ReadU8;
  if GeolocationPaymentStatusPaid <? payment then Borsh.fail
  else
    billing ← GeolocationBillingConfig.Deserialize;
    status ← Borsh.ReadU8;
    if GeolocationUserStatusSuspended <? status then Borsh.fail
    else
      _ ← Borsh.ReadU32;
      targets ← Borsh.read_times (Z.to_nat targetCount) GeolocationTarget.Deserialize;
      dest ← or_default [] Borsh.ReadString;
      mret (mk account_type owner code token payment billing status targets dest).

(** The counts are checked on the raw bytes before anything is allocated. *)
Definition Deserialize (data : bytes) : option t :=
  if (length data <? codeOffset + 4)%nat then None
  else
    let codeLen := le_val (slice data codeOffset (codeOffset + 4)) in
    if MaxCodeLength <? codeLen then None
    else
      let targetCountOffset := (codeOffset + 4 + Z.to_nat codeLen + 32 + 1 + geolocationBillingConfigSize + 1)%nat in
      if (length data <? targetCountOffset + 4)%nat then None
      else
        let targetCount := le_val (slice data targetCountOffset (targetCountOffset + 4)) in
        if MaxTargets <? targetCount then None
        else if (length data <? targetCountOffset + 4 + Z.to_nat targetCount * geolocationUserTargetSize)%nat then None
        else (fields targetCount data 0%nat).1.
End GeolocationUser.

Definition DeserializeGeoProbe (data : bytes) : option GeoProbe.t :=
  if (length data <? 1)%nat then None
  else if negb (byte_at data 0 =? AccountTypeGeoProbe) then None
  else (GeoProbe.Deserialize data 0%nat).1.
Definition DeserializeGeolocationUser (data : bytes) : option GeolocationUser.t :=
  if (length data <? 1)%nat then None
  else if negb (byte_at data 0 =? AccountTypeGeolocationUser) then None
  else GeolocationUser.Deserialize data.

(** ** The client

    What it makes of the accounts that the cluster returns: keys, owners and
    data. *)
Record program_account := mkProgramAccount { pa_key : bytes; pa_owner : bytes; pa_data : bytes }.

Definition keyed_probe (a : program_account) : option (bytes * GeoProbe.t) := g ← DeserializeGeoProbe (pa_data a); Some (pa_key a, g).
Definition GetGeoProbes (accounts : option (list program_account)) : option (list (bytes * GeoProbe.t)) :=
  fmap (M := option) (omap (M := list) keyed_probe) accounts.
Definition GetGeoProbeKeys (accounts : option (list program_account)) : option (list bytes) :=
  fmap (M := option) (fmap (M := list) pa_key) accounts.
Definition keyed_user (programID : bytes) (a : program_account) : option (bytes * GeolocationUser.t) :=
  if bool_decide (pa_owner a = programID) then u ← DeserializeGeolocationUser (pa_data a); Some (pa_key a, u) else None.
Definition GetGeolocationUsers (programID : bytes) (accounts : option (list program_account)) : option (list (bytes * GeolocationUser.t)) :=
  fmap (M := option) (omap (M := list) (keyed_user programID)) accounts.

(** ** Public addresses *)
Definition validatePublicIP (ip : bytes) : bool :=
  let b i := byte_at ip i in
  negb (bool_decide (ip = [0; 0; 0; 0]) || (b 0%nat =? 0) || (b 0%nat =? 127) || (b 0%nat =? 10) ||
    (b 0%nat =? 172) && (16 <=? b 1%nat) && (b 1%nat <=? 31) || (b 0%nat =? 192) && (b 1%nat =? 168) ||
    (b 0%nat =? 100) && (64 <=? b 1%nat) && (b 1%nat <=? 127) || (b 0%nat =? 169) && (b 1%nat =? 254) ||
    (b 0%nat =? 192) && (b 1%nat =? 0) && (b 2%nat =? 0) || (b 0%nat =? 192) && (b 1%nat =? 0) && (b 2%nat =? 2) ||
    (b 0%nat =? 198) && ((b 1%nat =? 18) || (b 1%nat =? 19)) || (b 0%nat =? 198) && (b 1%nat =? 51) && (b 2%nat =? 100) ||
    (b 0%nat =? 203) && (b 1%nat =? 0) && (b 2%nat =? 113) || (224 <=? b 0%nat) && (b 0%nat <=? 239) ||
    bool_decide (ip = [255; 255; 255; 255]) || (240 <=? b 0%nat)).

(** ** Round trips *)

Lemma reads_U16 v : is_u16 v -> reads Borsh.ReadU16 (le_bytes 2 v) v.
Proof. intros. apply reads_exact; [apply length_le_bytes|by apply le_round]. Qed.
Lemma reads_IPv4 x : length x = 4%nat -> reads Borsh.ReadIPv4 x x.
Proof. apply reads_Bytes. Qed.
#[export] Hint Resolve reads_U16 reads_IPv4 : reads.

(** [reads_before P m x v]: as [reads], where what follows satisfies [P]. *)
Definition reads_before {A : Type} (P : bytes -> Prop) (m : Borsh.SR A) (x : bytes) (v : A) : Prop :=
  forall d o rest, P rest -> (o <= length d)%nat -> drop o d = x ++ rest -> m d o = (Some v, (o + length x)%nat).
Definition at_end (rest : bytes) : Prop := rest = [].
Definition anywhere (rest : bytes) : Prop := True.

Lemma sr_before {A B : Type} P (m : Borsh.SR A) (k : A -> Borsh.SR B) x y v w :
  reads m x v -> reads_before P (k v) y w -> reads_before P (m ≫= k) (x ++ y) w.
Proof.
  intros Hm Hk d o rest Hr Ho Hd. unfold mbind, Borsh.SR_bind. rewrite <- app_assoc in Hd. rewrite (Hm d o _ Ho Hd).
  apply reads_rest in Hd as [Ho' Hd]; [|done]. rewrite (Hk _ _ _ Hr Ho' Hd). by rewrite length_app, Nat.add_assoc.
Qed.

Lemma sr_before_last {A B : Type} P (m : Borsh.SR A) (f : A -> B) x v : reads_before P m x v -> reads_before P (y ← m; mret (f y)) x (f v).
Proof. intros Hm d o rest Hr Ho Hd. unfold mbind, Borsh.SR_bind. by rewrite (Hm d o rest Hr Ho Hd). Qed.

Lemma sr_default {A : Type} (def : A) (m : Borsh.SR A) x v : reads m x v -> reads_before anywhere (or_default def m) x v.
Proof. intros H d o rest _ Ho Hd. unfold or_default. by rewrite (H d o rest Ho Hd). Qed.

(** A field that is missing altogether. *)
Lemma sr_missing {A B : Type} (def : A) n (conv : bytes -> B) (k : B -> Borsh.SR A) : (0 < n)%nat ->
  reads_before at_end (or_default def (Borsh.read_exact n conv ≫= k)) [] def.
Proof.
  intros Hn d o rest -> Ho Hd. apply (f_equal length) in Hd. rewrite length_drop in Hd. cbn in Hd.
  unfold or_default, mbind, Borsh.SR_bind, Borsh.read_exact. rewrite (proj2 (Nat.ltb_lt _ _)) by lia. cbn. by rewrite Nat.add_0_r.
Qed.
Lemma sr_missing_last {A : Type} (def : A) n (conv : bytes -> A) : (0 < n)%nat -> reads_before at_end (or_default def (Borsh.read_exact n conv)) [] def.
Proof.
  intros Hn d o rest -> Ho Hd. apply (f_equal length) in Hd. rewrite length_drop in Hd. cbn in Hd.
  unfold or_default, Borsh.read_exact. rewrite (proj2 (Nat.ltb_lt _ _)) by lia. cbn. by rewrite Nat.add_0_r.
Qed.

Lemma before_start {A : Type} P (m : Borsh.SR A) x v rest : reads_before P m x v -> P rest -> (m (x ++ rest) 0%nat).1 = Some v.
Proof. intros H Hr. by rewrite (H (x ++ rest) 0%nat rest Hr (Nat.le_0_l _) eq_refl). Qed.

Definition key_ok (k : bytes) : Prop := length k = 32%nat.

Record probe_ok (g : GeoProbe.t) : Prop := mk_probe_ok {
  gp_type : GeoProbe.AccountType g = AccountTypeGeoProbe;
  gp_owner : key_ok (GeoProbe.Owner g);
  gp_exchange : key_ok (GeoProbe.ExchangePK g);
  gp_ip : length (GeoProbe.PublicIP g) = 4%nat;
  gp_port : is_u16 (GeoProbe.LocationOffsetPort g);
  gp_publisher : key_ok (GeoProbe.MetricsPublisherPK g);
  gp_references : is_u32 (GeoProbe.ReferenceCount g);
  gp_code : Z.of_nat (length (GeoProbe.Code g)) <= MaxCodeLength;
  gp_parents : Forall key_ok (GeoProbe.ParentDevices g) /\ (length (GeoProbe.ParentDevices g) <= MaxParentDevices)%nat;
  gp_updates : is_u32 (GeoProbe.TargetUpdateCount g)
}.

Lemma reads_short_string s : Z.of_nat (length s) <= MaxCodeLength -> reads Borsh.ReadString (string_bytes s) s.
Proof. intros H. apply reads_String. unfold MaxCodeLength, is_u in *. lia. Qed.

(** The fields up to the last, which is in [x]. *)
Definition with_updates (g : GeoProbe.t) (n : Z) : GeoProbe.t :=
  GeoProbe.mk (GeoProbe.AccountType g) (GeoProbe.Owner g) (GeoProbe.ExchangePK g) (GeoProbe.PublicIP g) (GeoProbe.LocationOffsetPort g)
    (GeoProbe.MetricsPublisherPK g) (GeoProbe.ReferenceCount g) (GeoProbe.Code g) (GeoProbe.ParentDevices g) n.

Lemma reads_probe P g x n : probe_ok g -> reads_before P (or_default 0 Borsh.ReadU32) x n ->
  reads_before P GeoProbe.Deserialize (GeoProbe.old_bytes g ++ x) (with_updates g n).
Proof.
  intros [] Hx. destruct gp_parents0 as [Hp Hl]. unfold GeoProbe.old_bytes, GeoProbe.Deserialize. rewrite <- !app_assoc.
  do 7 (eapply sr_before; [solve [eauto with reads]|]). eapply sr_before; [by apply reads_short_string|].
  rewrite (proj2 (Z.ltb_ge _ _)) by done. eapply sr_before; [apply reads_U32; unfold MaxParentDevices, is_u in *; lia|].
  rewrite Nat2Z.id. eapply sr_before.
  { replace (concat (GeoProbe.ParentDevices g)) with (concat (id <$> GeoProbe.ParentDevices g)) by (by rewrite list_fmap_id).
    apply (reads_times _ id). eapply Forall_impl; [exact Hp|]. intros k. apply reads_Pubkey. }
  rewrite (proj2 (Nat.ltb_ge _ _)) by done. by apply (sr_before_last P _ (GeoProbe.mk _ _ _ _ _ _ _ _ _)).
Qed.

Definition target_ok (g : GeolocationTarget.t) : Prop :=
  GeolocationTarget.TargetType g <= GeoLocationTargetTypeOutboundIcmp /\ length (GeolocationTarget.IPAddress g) = 4%nat /\
  is_u16 (GeolocationTarget.LocationOffsetPort g) /\ key_ok (GeolocationTarget.TargetPK g) /\ key_ok (GeolocationTarget.GeoProbePK g).

Record user_ok (g : GeolocationUser.t) : Prop := mk_user_ok {
  gu_type : GeolocationUser.AccountType g = AccountTypeGeolocationUser;
  gu_owner : key_ok (GeolocationUser.Owner g);
  gu_code : Z.of_nat (length (GeolocationUser.Code g)) <= MaxCodeLength;
  gu_token : key_ok (GeolocationUser.TokenAccount g);
  gu_payment : GeolocationUser.PaymentStatus g <= GeolocationPaymentStatusPaid;
  gu_billing : GeolocationBillingConfig.Variant (GeolocationUser.Billing g) = 0;
  gu_rate : is_u64 (FlatPerEpochConfig.Rate (GeolocationBillingConfig.FlatPerEpoch (GeolocationUser.Billing g)));
  gu_epoch : is_u64 (FlatPerEpochConfig.LastDeductionDzEpoch (GeolocationBillingConfig.FlatPerEpoch (GeolocationUser.Billing g)));
  gu_status : GeolocationUser.Status g <= GeolocationUserStatusSuspended;
  gu_targets : Forall target_ok (GeolocationUser.Targets g);
  gu_count : Z.of_nat (length (GeolocationUser.Targets g)) <= MaxTargets;
  gu_destination : is_u32 (Z.of_nat (length (GeolocationUser.ResultDestination g)))
}.

Lemma reads_targets ts : Forall target_ok ts ->
  reads (Borsh.read_times (length ts) GeolocationTarget.Deserialize) (concat (GeolocationTarget.Serialize <$> ts)) ts.
Proof.
  intros H. apply reads_times. eapply Forall_impl; [exact H|]. intros [ty ip port target probe]. unfold GeolocationTarget.Serialize, GeolocationTarget.Deserialize.
  cbn [GeolocationTarget.TargetType GeolocationTarget.IPAddress GeolocationTarget.LocationOffsetPort GeolocationTarget.TargetPK GeolocationTarget.GeoProbePK].
  intros (Ht & Hi & Hp & Hk & Hg).
  eapply sr_bind; [apply reads_U8|]. rewrite (proj2 (Z.ltb_ge _ _)) by done. read_fields.
Qed.

Lemma reads_billing b : GeolocationBillingConfig.Variant b = 0 -> is_u64 (FlatPerEpochConfig.Rate (GeolocationBillingConfig.FlatPerEpoch b)) ->
  is_u64 (FlatPerEpochConfig.LastDeductionDzEpoch (GeolocationBillingConfig.FlatPerEpoch b)) ->
  exists x, GeolocationBillingConfig.Serialize b = Some x /\ length x = 17%nat /\ reads GeolocationBillingConfig.Deserialize x b.
Proof.
  destruct b as [v [r e]]. cbn [GeolocationBillingConfig.Variant GeolocationBillingConfig.FlatPerEpoch FlatPerEpochConfig.Rate FlatPerEpochConfig.LastDeductionDzEpoch].
  intros -> Hr He. eexists. split_and!; [done|by rewrite length_app; unfold FlatPerEpochConfig.Serialize; rewrite length_app, !length_le_bytes|].
  unfold GeolocationBillingConfig.Deserialize. eapply sr_bind; [apply reads_U8|]. cbn [Z.eqb].
  apply (reads_last _ (GeolocationBillingConfig.mk 0)). unfold FlatPerEpochConfig.Serialize, FlatPerEpochConfig.Deserialize. read_fields.
Qed.

(** A count at a known place. *)
Lemma slice_le4 x v y : is_u32 v -> le_val (slice (x ++ le_bytes 4 v ++ y) (length x) (length x + 4)) = v.
Proof.
  intros Hv. unfold slice. rewrite drop_app_length. replace (length x + 4 - length x)%nat with 4%nat by lia.
  rewrite take_app_le by (by rewrite length_le_bytes). rewrite take_ge by (by rewrite length_le_bytes). by apply le_round.
Qed.

Lemma length_targets ts : Forall target_ok ts -> length (concat (GeolocationTarget.Serialize <$> ts)) = (71 * length ts)%nat.
Proof.
  induction 1 as [|g ts (_ & Hi & _ & Hk & Hg) _ IH]; [done|]. rewrite fmap_cons. cbn [concat length]. rewrite length_app, IH.
  unfold GeolocationTarget.Serialize. rewrite !length_app, !length_le_bytes, Hi, Hk, Hg. cbn [length]. lia.
Qed.

(** The fields of a user, with the billing in [bb] and the destination in [x]. *)
Definition user_parts (g : GeolocationUser.t) (bb x : bytes) : bytes :=
  [GeolocationUser.AccountType g] ++ GeolocationUser.Owner g ++ string_bytes (GeolocationUser.Code g) ++ GeolocationUser.TokenAccount g ++
  [GeolocationUser.PaymentStatus g] ++ bb ++ [GeolocationUser.Status g] ++ le_bytes 4 (Z.of_nat (length (GeolocationUser.Targets g))) ++
  concat (GeolocationTarget.Serialize <$> GeolocationUser.Targets g) ++ x.
Definition with_destination (g : GeolocationUser.t) (dest : bytes) : GeolocationUser.t :=
  GeolocationUser.mk (GeolocationUser.AccountType g) (GeolocationUser.Owner g) (GeolocationUser.Code g) (GeolocationUser.TokenAccount g)
    (GeolocationUser.PaymentStatus g) (GeolocationUser.Billing g) (GeolocationUser.Status g) (GeolocationUser.Targets g) dest.

Lemma reads_user_fields P g bb x dest : user_ok g -> reads GeolocationBillingConfig.Deserialize bb (GeolocationUser.Billing g) ->
  reads_before P (or_default [] Borsh.ReadString) x dest ->
  reads_before P (GeolocationUser.fields (Z.of_nat (length (GeolocationUser.Targets g)))) (user_parts g bb x) (with_destination g dest).
Proof.
  intros [] Hb Hx. unfold user_parts, GeolocationUser.fields.
  do 2 (eapply sr_before; [solve [eauto with reads]|]). eapply sr_before; [by apply reads_short_string|].
  do 2 (eapply sr_before; [solve [eauto with reads]|]). rewrite (proj2 (Z.ltb_ge _ _)) by done.
  eapply sr_before; [done|]. eapply sr_before; [apply reads_U8|]. rewrite (proj2 (Z.ltb_ge _ _)) by done.
  eapply sr_before; [apply reads_U32; unfold MaxTargets, is_u in *; lia|]. eapply sr_before; [rewrite Nat2Z.id; by apply reads_targets|].
  by apply (sr_before_last P _ (GeolocationUser.mk _ _ _ _ _ _ _ _)).
Qed.

(** The counts are where the first checks look for them. *)
Lemma user_prechecks g bb x rest : user_ok g -> length bb = 17%nat ->
  GeolocationUser.Deserialize (user_parts g bb x ++ rest) =
  (GeolocationUser.fields (Z.of_nat (length (GeolocationUser.Targets g))) (user_parts g bb x ++ rest) 0%nat).1.
Proof.
  intros [] Hbl. assert (Hc : is_u32 (Z.of_nat (length (GeolocationUser.Code g)))) by (unfold MaxCodeLength, is_u in *; lia).
  assert (Ht : is_u32 (Z.of_nat (length (GeolocationUser.Targets g)))) by (unfold MaxTargets, is_u in *; lia).
  pose proof (length_targets _ gu_targets0) as Htl. set (data := user_parts g bb x ++ rest).
  set (code := GeolocationUser.Code g) in *. set (n := length (GeolocationUser.Targets g)) in *.
  set (tb := concat (GeolocationTarget.Serialize <$> GeolocationUser.Targets g)) in *.
  set (pre := [GeolocationUser.AccountType g] ++ GeolocationUser.Owner g).
  set (mid := GeolocationUser.TokenAccount g ++ [GeolocationUser.PaymentStatus g] ++ bb ++ [GeolocationUser.Status g]).
  assert (Hpre : length pre = 33%nat) by (unfold pre; rewrite length_app, gu_owner0; done).
  assert (Hmid : length mid = 51%nat) by (unfold mid; rewrite !length_app, gu_token0, Hbl; done).
  assert (Hd : data = pre ++ le_bytes 4 (Z.of_nat (length code)) ++ code ++ mid ++ le_bytes 4 (Z.of_nat n) ++ tb ++ x ++ rest)
    by (unfold data, user_parts, pre, mid, string_bytes; by rewrite <- !app_assoc).
  set (front := pre ++ le_bytes 4 (Z.of_nat (length code)) ++ code ++ mid).
  assert (Hfront : length front = (88 + length code)%nat) by (unfold front; rewrite !length_app, length_le_bytes, Hpre, Hmid; lia).
  assert (Hd2 : data = front ++ le_bytes 4 (Z.of_nat n) ++ tb ++ x ++ rest) by (rewrite Hd; unfold front; by rewrite <- !app_assoc).
  assert (Hlen : length data = (92 + length code + 71 * n + length x + length rest)%nat)
    by (rewrite Hd2, !length_app, length_le_bytes, Hfront, Htl; lia).
  assert (Hs1 : le_val (slice data 33 (33 + 4)) = Z.of_nat (length code)) by (rewrite Hd, <- Hpre; by apply slice_le4).
  assert (Hs2 : le_val (slice data (88 + length code) (88 + length code + 4)) = Z.of_nat n) by (rewrite Hd2, <- Hfront; by apply slice_le4).
  unfold GeolocationUser.Deserialize, GeolocationUser.codeOffset, GeolocationUser.geolocationBillingConfigSize, GeolocationUser.geolocationUserTargetSize.
  rewrite (proj2 (Nat.ltb_ge _ _)) by lia. rewrite Hs1, (proj2 (Z.ltb_ge _ _)), Nat2Z.id by done. cbv zeta.
  replace (33 + 4 + length code + 32 + 1 + 17 + 1)%nat with (88 + length code)%nat by lia.
  rewrite (proj2 (Nat.ltb_ge _ _)) by lia. rewrite Hs2, (proj2 (Z.ltb_ge _ _)), Nat2Z.id by done. by rewrite (proj2 (Nat.ltb_ge _ _)) by lia.
Qed.

Lemma user_encoding g : user_ok g -> exists bb, length bb = 17%nat /\ reads GeolocationBillingConfig.Deserialize bb (GeolocationUser.Billing g) /\
  GeolocationUser.old_bytes g = Some (user_parts g bb []).
Proof.
  intros []. destruct (reads_billing _ gu_billing0 gu_rate0 gu_epoch0) as (bb & Hb & Hbl & Hbr). exists bb. split_and!; [done..|].
  unfold GeolocationUser.old_bytes. rewrite Hb. cbn [mbind option_bind]. rewrite wrap_id by (unfold MaxTargets, is_u in *; lia).
  unfold user_parts. by rewrite app_nil_r.
Qed.

Lemma user_read P g bb x dest rest : user_ok g -> length bb = 17%nat -> reads GeolocationBillingConfig.Deserialize bb (GeolocationUser.Billing g) ->
  reads_before P (or_default [] Borsh.ReadString) x dest -> P rest ->
  DeserializeGeolocationUser (user_parts g bb x ++ rest) = Some (with_destination g dest).
Proof.
  intros Hg Hl Hb Hx Hr. unfold DeserializeGeolocationUser. rewrite user_prechecks by done.
  rewrite (before_start P _ _ _ rest (reads_user_fields P g bb x dest Hg Hb Hx) Hr). unfold user_parts. cbn [app length Nat.ltb Nat.leb byte_at nth].
  by rewrite (gu_type g Hg).
Qed.

Lemma probe_read P g x n rest : probe_ok g -> reads_before P (or_default 0 Borsh.ReadU32) x n -> P rest ->
  DeserializeGeoProbe ((GeoProbe.old_bytes g ++ x) ++ rest) = Some (with_updates g n).
Proof.
  intros Hg Hx Hr. unfold DeserializeGeoProbe. rewrite (before_start P _ _ _ rest (reads_probe P g x n Hg Hx) Hr).
  unfold GeoProbe.old_bytes. cbn [app length Nat.ltb Nat.leb byte_at nth]. by rewrite (gp_type g Hg).
Qed.

(** What the SDK writes it reads back, for probes and for users, whatever
    follows: the checks of the counts on the raw bytes look at the right places.
    Accounts written before the last field existed are read with its default. *)
Theorem geo_accounts_roundtrip (g : GeoProbe.t) (u : GeolocationUser.t) rest : probe_ok g -> user_ok u ->
  DeserializeGeoProbe (GeoProbe.Serialize g ++ rest) = Some g /\
  DeserializeGeoProbe (GeoProbe.old_bytes g) = Some (with_updates g 0) /\
  (exists b, GeolocationUser.Serialize u = Some b /\ DeserializeGeolocationUser (b ++ rest) = Some u) /\
  (exists b, GeolocationUser.old_bytes u = Some b /\ DeserializeGeolocationUser b = Some (with_destination u [])).
Proof.
  intros Hg Hu. destruct (user_encoding u Hu) as (bb & Hl & Hb & He). split_and!.
  - unfold GeoProbe.Serialize. rewrite (probe_read anywhere g _ (GeoProbe.TargetUpdateCount g)); [by destruct g|done| |done].
    apply sr_default, reads_U32, (gp_updates g Hg).
  - rewrite <- (app_nil_r (GeoProbe.old_bytes g)), <- (app_nil_r (GeoProbe.old_bytes g ++ [])).
    apply (probe_read at_end); [done|apply sr_missing_last; lia|done].
  - unfold GeolocationUser.Serialize. rewrite He. eexists. split; [done|].
    replace (user_parts u bb [] ++ string_bytes (GeolocationUser.ResultDestination u)) with (user_parts u bb (string_bytes (GeolocationUser.ResultDestination u)))
      by (unfold user_parts; by rewrite app_nil_r, <- !app_assoc).
    rewrite (user_read anywhere u bb _ (GeolocationUser.ResultDestination u)); [by destruct u|done..| |done].
    apply sr_default, reads_String, (gu_destination u Hu).
  - rewrite He. eexists. split; [done|]. rewrite <- (app_nil_r (user_parts u bb [])). apply (user_read at_end); [done..|apply sr_missing; lia|done].
Qed.

Module GeoAccountSample.
Definition probe : GeoProbe.t :=
  GeoProbe.mk 2 (replicate 32 1) (replicate 32 2) [62; 1; 2; 3] 8923 (replicate 32 3) 1 [112; 49] [replicate 32 7] 4.
Definition target : GeolocationTarget.t := GeolocationTarget.mk 0 [81; 2; 69; 142] 8923 (replicate 32 0) (replicate 32 9).
Definition user : GeolocationUser.t :=
  GeolocationUser.mk 3 (replicate 32 4) [117; 49] (replicate 32 5) 1 (GeolocationBillingConfig.mk 0 (FlatPerEpochConfig.mk 10 20)) 0 [target] [].
End GeoAccountSample.

Lemma sample_accounts_ok : probe_ok GeoAccountSample.probe /\ user_ok GeoAccountSample.user.
Proof.
  split; constructor; try (vm_compute; done); [split; [by repeat constructor|vm_compute; lia]|].
  apply Forall_singleton. split_and!; vm_compute; done.
Qed.

Lemma geo_accounts_roundtrip_witness :
  DeserializeGeoProbe (GeoProbe.Serialize GeoAccountSample.probe ++ []) = Some GeoAccountSample.probe.
Proof.
  destruct sample_accounts_ok as [Hp Hu]. exact (proj1 (geo_accounts_roundtrip GeoAccountSample.probe GeoAccountSample.user [] Hp Hu)).
Defined.
