(* ===== verification/GeoDevice.v ===== *)
(** * The device's side of geolocation

    Models [controlplane/telemetry/internal/geoprobe] as a device runs it:
    [discovery.go] finds the probes of which the device is a parent,
    [coordinator.go] keeps them, [pinger.go] measures them and [publisher.go]
    sends each a signed offset. *)

From stdpp Require Import base tactics numbers list gmap sorting.
From Stdlib Require Import ZArith Lia ZifyBool ZifyNat.
From S2P Require Import Prelude Bytes GoStrings GoCollections Routing GoNet Accounts ProgramData TwampSigned GeoOffset GeoAccounts.

#[local] Open Scope Z_scope.

(** ** Addresses *)

(** [net.ParseIP] on dotted decimals, the form in which all hosts are written:
    four numbers up to 255 without leading zeros. *)
Definition parse_octet (s : bytes) : option Z :=
  match s with
  | [] => None
  | c :: (_ :: _) => if c =? 48 then None else v ← digits_val 0 s; if 255 <? v then None else Some v
  | _ => digits_val 0 s
  end.
Definition ParseIP (s : bytes) : option IP :=
  ip ← mapM parse_octet (Split s 46);
  if (length ip =? 4)%nat then Some ip else None.

Definition IPToTargetIP (host : bytes) : bytes := default [0; 0; 0; 0] (ParseIP host).
Definition FormatTargetIP (ip : bytes) : bytes := IP_String ip.

Record ProbeAddress := mkAddr { Host : bytes; Port : Z; TWAMPPort : Z }.
#[global] Instance ProbeAddress_eq_dec : EqDecision ProbeAddress.
Proof. solve_decision. Defined.
#[global] Instance ProbeAddress_countable : Countable ProbeAddress.
Proof. by refine (inj_countable' (fun a => (Host a, Port a, TWAMPPort a)) (fun t => mkAddr t.1.1 t.1.2 t.2) _); intros []. Defined.

Definition addr_String (p : ProbeAddress) : bytes := Join [Host p; format_uint (Port p); format_uint (TWAMPPort p)] (lit ":").

Inductive addr_error := HostEmpty | HostInvalid | PortZero | TwampPortZero | NotPublic.

Definition ValidateICMP (p : ProbeAddress) : res addr_error () :=
  if bool_decide (Host p = []) then Err HostEmpty
  else match ParseIP (Host p) with
       | None => Err HostInvalid
       | Some _ => if Port p =? 0 then Err PortZero else Ok ()
       end.
Definition Validate (p : ProbeAddress) : res addr_error () :=
  match ValidateICMP p with
  | Ok _ => if TWAMPPort p =? 0 then Err TwampPortZero else Ok ()
  | e => e
  end.

Definition additionalNonPublicIPv4Ranges : list IPNet :=
  [mkIPNet [100; 64; 0; 0] (CIDRMask 10); mkIPNet [198; 18; 0; 0] (CIDRMask 15); mkIPNet [192; 0; 2; 0] (CIDRMask 24);
   mkIPNet [198; 51; 100; 0] (CIDRMask 24); mkIPNet [203; 0; 113; 0] (CIDRMask 24)].
Definition isNonPublicUnicast (ip : IP) : bool := existsb (fun block => net_Contains block ip) additionalNonPublicIPv4Ranges.

(** The classes of package [net], on four bytes. *)
Definition IsLoopback (ip : IP) : bool := byte_at ip 0 =? 127.
Definition IsMulticast (ip : IP) : bool := Z.land (byte_at ip 0) 240 =? 224.
Definition IsLinkLocalUnicast (ip : IP) : bool := (byte_at ip 0 =? 169) && (byte_at ip 1 =? 254).
Definition IsLinkLocalMulticast (ip : IP) : bool := (byte_at ip 0 =? 224) && (byte_at ip 1 =? 0) && (byte_at ip 2 =? 0).
Definition IsGlobalUnicast (ip : IP) : bool :=
  negb (bool_decide (ip = [255; 255; 255; 255])) && negb (IsUnspecified ip) && negb (IsLoopback ip) && negb (IsMulticast ip) && negb (IsLinkLocalUnicast ip).
Definition IsPrivate (ip : IP) : bool :=
  (byte_at ip 0 =? 10) || (byte_at ip 0 =? 172) && (Z.land (byte_at ip 1) 240 =? 16) || (byte_at ip 0 =? 192) && (byte_at ip 1 =? 168).

Definition ValidateScope (p : ProbeAddress) : res addr_error () :=
  match ParseIP (Host p) with
  | None => Err HostInvalid
  | Some ip =>
      if negb (IsGlobalUnicast ip) || IsPrivate ip || IsLinkLocalMulticast ip || isNonPublicUnicast ip then Err NotPublic else Ok ()
  end.

(** *** Their text *)

Lemma digits_dec fuel : forall n acc, 0 <= n < 10 ^ Z.of_nat fuel -> digits_val 0 (dec_digits fuel n acc) = digits_val n acc.
Proof.
  induction fuel as [|fuel IH]; intros n acc Hn; [cbn in Hn; by replace n with 0 by lia|]. rewrite Nat2Z.inj_succ, Z.pow_succ_r in Hn by lia.
  assert (Hd : digit_val (48 + n mod 10) = Some (n mod 10)).
  { unfold digit_val. pose proof (Z.mod_pos_bound n 10). rewrite (proj2 (andb_true_iff _ _)) by lia. f_equal. lia. }
  cbn [dec_digits]. pose proof (Z.div_mod n 10). destruct (Z.eqb_spec (n / 10) 0) as [E|E].
  - cbn [digits_val]. rewrite Hd. cbn. f_equal. lia.
  - rewrite IH by (split; [apply Z.div_pos; lia|apply Z.div_lt_upper_bound; lia]). cbn [digits_val]. rewrite Hd. cbn. f_equal. lia.
Qed.

Lemma dec_digits_ok fuel : forall n acc, Forall (fun c => digit_val c <> None) acc -> Forall (fun c => digit_val c <> None) (dec_digits fuel n acc).
Proof.
  induction fuel as [|fuel IH]; intros n acc Ha; [done|]. cbn. pose proof (Z.mod_pos_bound n 10).
  assert (Forall (fun c => digit_val c <> None) ((48 + n mod 10) :: acc)).
  { constructor; [|done]. unfold digit_val. by rewrite (proj2 (andb_true_iff _ _)) by lia. }
  case_match; [done|by apply IH].
Qed.

Lemma format_uint_val n : is_u64 n -> digits_val 0 (format_uint n) = Some n.
Proof. intros Hn. with_strategy transparent [format_uint] unfold format_uint. rewrite digits_dec; [done|]. unfold is_u in Hn. lia. Qed.

Lemma format_uint_no_colon n : Forall (fun c => (c =? 58) = false) (format_uint n).
Proof.
  with_strategy transparent [format_uint] unfold format_uint.
  eapply Forall_impl; [by apply dec_digits_ok, Forall_nil_2|]. intros c Hc. apply Z.eqb_neq. by intros ->.
Qed.

(** The key of an address determines it. *)
Definition addr_wf (p : ProbeAddress) : Prop := Forall (fun c => (c =? 58) = false) (Host p) /\ is_u16 (Port p) /\ is_u16 (TWAMPPort p).

Lemma u16_u64 n : is_u16 n -> is_u64 n.
Proof. unfold is_u. lia. Qed.

Lemma addr_String_inj p q : addr_wf p -> addr_wf q -> addr_String p = addr_String q -> p = q.
Proof.
  assert (Hs : forall p, addr_wf p -> Split (addr_String p) 58 = [Host p; format_uint (Port p); format_uint (TWAMPPort p)]).
  { intros x (Hh & _). apply Split_Join; [done|]. repeat constructor; [done|apply format_uint_no_colon..]. }
  intros Hp Hq E. apply (f_equal (fun s => Split s 58)) in E. rewrite !Hs in E by done. injection E as E1 E2 E3.
  destruct Hp as (_ & Hp1 & Hp2), Hq as (_ & Hq1 & Hq2). destruct p as [h1 a1 b1], q as [h2 a2 b2]. cbn in *.
  apply (f_equal (digits_val 0)) in E2, E3. rewrite !format_uint_val in E2, E3 by (by apply u16_u64). congruence.
Qed.

#[global] Arguments addr_String : simpl never.
#[global] Arguments Validate : simpl never.
#[global] Arguments ValidateICMP : simpl never.
#[global] Arguments ValidateScope : simpl never.
#[global] Arguments ParseIP : simpl never.

(** What was written from four bytes is read back. *)
Lemma parse_octet_format n : is_u8 n -> parse_octet (format_uint n) = Some n.
Proof.
  intros Hn. pose (f := fun n => bool_decide (parse_octet (format_uint n) = Some n)).
  assert (f n = true) as H by (apply all_bytes_spec; [vm_compute; reflexivity|done]). unfold f in H. by apply bool_decide_eq_true in H.
Qed.

Lemma ParseIP_String ip : addr_ok ip -> ParseIP (IP_String ip) = Some ip.
Proof.
  intros [Hl Hb]. unfold ParseIP, IP_String. rewrite (Split_Join _ 46); [|by destruct ip|].
  - replace (mapM parse_octet (map format_uint ip)) with (Some ip); [cbn; by rewrite Hl|]. symmetry. clear Hl.
    induction Hb as [|n ip Hn _ IH]; [done|]. cbn. by rewrite parse_octet_format, IH.
  - apply Forall_map. eapply Forall_impl; [exact Hb|]. intros c Hc. by apply format_uint_no_sep.
Qed.

(** ** The pinger

    [targets] by their text. *)

Module Pinger.
Abbreviation t := (gmap bytes ProbeAddress).
Definition NewPinger : t := ∅.

Definition AddProbe (addr : ProbeAddress) (p : t) : res addr_error t :=
  let key := addr_String addr in
  match p !! key with
  | Some _ => Ok p
  | None => match Validate addr with Ok _ => Ok (<[key := addr]> p) | Err e => Err e | Panic => Panic end
  end.
Definition RemoveProbe (addr : ProbeAddress) (p : t) : t := delete (addr_String addr) p.

Definition MaxWorkers : nat := 32.
Definition ProbesPerWorker : nat := 512.
Definition numWorkers (n : nat) : nat :=
  let w := Nat.min MaxWorkers ((n + ProbesPerWorker - 1) / ProbesPerWorker) in if (w =? 0)%nat then 1%nat else w.
Definition batchSize (n : nat) : nat := (n + numWorkers n - 1) / numWorkers n.

(** The loop that starts the workers, from the [i]-th on; [k] are left. *)
Fixpoint batches (l : list ProbeAddress) (size i k : nat) : list (list ProbeAddress) :=
  match k with
  | O => []
  | S k =>
      let start := (i * size)%nat in
      if (length l <=? start)%nat then []
      else take (Nat.min (start + size) (length l) - start) (drop start l) :: batches l size (S i) k
  end.

(** The answers to the warmup probe and to the probe, as they come in; nothing
    if the sockets could not be made. *)
Definition best_rtt (rs : list (option Duration)) : option Duration :=
  foldl (fun best r => match r, best with
    | Some rtt, None => Some rtt
    | Some rtt, Some b => if rtt <? b then Some rtt else best
    | None, _ => best
    end) None rs.
Definition probeTarget (answers : option (option Duration * option Duration)) : option Duration :=
  answers ≫= fun '(first, second) => best_rtt [first; second].

Section Measure.
Context (network : ProbeAddress -> option (option Duration * option Duration)).

Definition probeWorker (batch : list ProbeAddress) (results : gmap ProbeAddress Z) : gmap ProbeAddress Z :=
  foldl (fun results addr => match probeTarget (network addr) with Some rtt => <[addr := u64 rtt]> results | None => results end) results batch.

Definition MeasureOne (addr : ProbeAddress) (p : t) : option Z :=
  match p !! addr_String addr with
  | None => None
  | Some _ => u64 <$> probeTarget (network addr)
  end.

(** [order] is the order in which the targets are ranged over. *)
Definition MeasureAll (order : list ProbeAddress) : gmap ProbeAddress Z :=
  foldl (fun results batch => probeWorker batch results) ∅ (batches order (batchSize (length order)) 0 (numWorkers (length order))).
End Measure.
End Pinger.

(** ** The publisher *)

Record PublisherState (K : Type) := mkPublisher {
  signer : OffsetSigner K;
  localDevicePK : bytes;
  cachedLat : Z;
  cachedLng : Z;
  latLngCachedAt : Time;
  cachedSlot : Z;
  slotCachedAt : Time;
  conns : gmap bytes (IP * Z)
}.
Arguments mkPublisher {K} _ _ _ _ _ _ _ _.
Arguments signer {K} _.
Arguments localDevicePK {K} _.
Arguments cachedLat {K} _.
Arguments cachedLng {K} _.
Arguments latLngCachedAt {K} _.
Arguments cachedSlot {K} _.
Arguments slotCachedAt {K} _.
Arguments conns {K} _.
#[global] Instance PublisherState_eta {K : Type} : RecordEta (PublisherState K) := {
  eta_record := fun r => mkPublisher (signer r) (localDevicePK r) (cachedLat r) (cachedLng r) (latLngCachedAt r) (cachedSlot r) (slotCachedAt r) (conns r);
  eta_record_id := fun r => match r with mkPublisher _ _ _ _ _ _ _ _ => eq_refl end
}.

Module Publisher.
Definition LatLngCacheTTL : Duration := 86400 * Second.
Definition SlotCacheTTL : Duration := 300 * Second.

Inductive error := InvalidAddress (e : addr_error) | NoConnection | NoLatLng | NoSlot | PublishErrors (n : nat).

Section Ops.
Context {K : Type} `{!Ed25519 K} (floats : Z -> bool).
#[local] Abbreviation t := (PublisherState K).

Definition NewPublisher (keypair : K) (device : bytes) : option t :=
  if bool_decide (device = replicate 32 0) then None
  else s ← NewOffsetSigner keypair device; Some (mkPublisher s device 0 0 time_zero 0 time_zero ∅).

(** [created] tells whether a socket could be made. *)
Definition AddProbe (created : bool) (addr : ProbeAddress) (p : t) : res error t :=
  match conns p !! Host addr with
  | Some _ => Ok p
  | None =>
      match Validate addr with
      | Ok _ => if created then Ok (p <| conns := <[Host addr := (default [] (ParseIP (Host addr)), Port addr)]> (conns p) |>) else Err NoConnection
      | Err e => Err (InvalidAddress e)
      | Panic => Panic
      end
  end.
Definition RemoveProbe (addr : ProbeAddress) (p : t) : t := p <| conns := delete (Host addr) (conns p) |>.

(** [data] is what the serviceability client returns. *)
Definition getLatLng (now : Time) (data : option ProgramData.t) (p : t) : option (Z * Z) * t :=
  let stale := (if negb (IsZero (latLngCachedAt p)) then Some (cachedLat p, cachedLng p) else None, p) in
  if negb (IsZero (latLngCachedAt p)) && (TimeSub now (latLngCachedAt p) <? LatLngCacheTTL) then (Some (cachedLat p, cachedLng p), p)
  else match data with
       | None => stale
       | Some d =>
           match list_find (fun dev => Device.PubKey dev = localDevicePK p) (ProgramData.Devices d) with
           | None => stale
           | Some (_, device) =>
               match list_find (fun loc => Location.PubKey loc = Device.LocationPubKey device) (ProgramData.Locations d) with
               | None => stale
               | Some (_, location) =>
                   (Some (Location.Lat location, Location.Lng location),
                    p <| cachedLat := Location.Lat location |> <| cachedLng := Location.Lng location |> <| latLngCachedAt := now |>)
               end
           end
       end.

Definition getCurrentSlot (now : Time) (slot : option Z) (p : t) : option Z * t :=
  match slot with
  | None => (if negb (IsZero (slotCachedAt p)) && (TimeSub now (slotCachedAt p) <? SlotCacheTTL) then Some (cachedSlot p) else None, p)
  | Some slot => (Some slot, p <| cachedSlot := slot |> <| slotCachedAt := now |>)
  end.

(** What becomes of a measurement; [write] sends a datagram. *)
Inductive outcome := Skipped | SignFailed | Delivered (to : IP * Z) (offset : LocationOffset) (result : res send_error ()).

Definition offset_for (slot lat lng : Z) (addr : ProbeAddress) (rttNs : Z) : LocationOffset :=
  mkOffset (replicate 64 0) LocationOffsetVersion (replicate 32 0) (replicate 32 0) slot rttNs lat lng rttNs (IPToTargetIP (Host addr)) 0 [].

Definition publish_one (write : IP * Z -> bytes -> option nat) (slot lat lng : Z) (p : t) (addr : ProbeAddress) (rttNs : Z) : outcome :=
  match conns p !! Host addr with
  | None => Skipped
  | Some resolvedAddr =>
      let '(offset, ok) := SignOffset floats (signer p) (offset_for slot lat lng addr rttNs) in
      if ok then Delivered resolvedAddr offset (SendOffset floats offset (write resolvedAddr)) else SignFailed
  end.

Definition failed (o : outcome) : bool :=
  match o with SignFailed => true | Delivered _ _ (Ok _) => false | Delivered _ _ _ => true | Skipped => false end.

(** [order] is the order in which the measurements are ranged over. *)
Definition Publish (write : IP * Z -> bytes -> option nat) (now now' : Time) (data : option ProgramData.t) (current : option Z)
    (order : list (ProbeAddress * Z)) (p : t) : t * res error () * list outcome :=
  if (length order =? 0)%nat then (p, Ok (), [])
  else
    let '(latlng, p) := getLatLng now data p in
    match latlng with
    | None => (p, Err NoLatLng, [])
    | Some (lat, lng) =>
        let '(slot, p) := getCurrentSlot now' current p in
        match slot with
        | None => (p, Err NoSlot, [])
        | Some slot =>
            let outcomes := (fun ar => publish_one write slot lat lng p ar.1 ar.2) <$> order in
            let n := length (filter (fun o => failed o = true) outcomes) in
            (p, if (0 <? n)%nat then Err (PublishErrors n) else Ok (), outcomes)
        end
    end.
End Ops.
End Publisher.

(** ** The coordinator *)

Record Coordinator (K : Type) := mkCoordinator { probes : gmap bytes ProbeAddress; pinger : Pinger.t; publisher : PublisherState K }.
Arguments mkCoordinator {K} _ _ _.
Arguments probes {K} _.
Arguments pinger {K} _.
Arguments publisher {K} _.
#[global] Instance Coordinator_eta {K : Type} : RecordEta (Coordinator K) := {
  eta_record := fun r => mkCoordinator (probes r) (pinger r) (publisher r);
  eta_record_id := fun r => match r with mkCoordinator _ _ _ => eq_refl end
}.

Section Update.
Context {K : Type}.
Implicit Type c : Coordinator K.

(** [created] tells for which addresses a socket can be made. *)
Definition add_one (created : ProbeAddress -> bool) (c : Coordinator K) (addr : ProbeAddress) : Coordinator K :=
  match probes c !! addr_String addr with
  | Some _ => c
  | None =>
      let c := c <| probes := <[addr_String addr := addr]> (probes c) |> in
      match Pinger.AddProbe addr (pinger c) with
      | Ok pinger' =>
          let c := c <| pinger := pinger' |> in
          match Publisher.AddProbe (created addr) addr (publisher c) with
          | Ok publisher' => c <| publisher := publisher' |>
          | _ => c <| probes := delete (addr_String addr) (probes c) |> <| pinger := Pinger.RemoveProbe addr (pinger c) |>
          end
      | _ => c <| probes := delete (addr_String addr) (probes c) |>
      end
  end.

Definition remove_one (keep : gmap bytes ProbeAddress) (c : Coordinator K) (kv : bytes * ProbeAddress) : Coordinator K :=
  match keep !! kv.1 with
  | Some _ => c
  | None =>
      c <| probes := delete kv.1 (probes c) |> <| pinger := Pinger.RemoveProbe kv.2 (pinger c) |>
        <| publisher := Publisher.RemoveProbe kv.2 (publisher c) |>
  end.

(** [range] gives the order in which a map is ranged over. *)
Definition handleProbeUpdate (range : gmap bytes ProbeAddress -> list (bytes * ProbeAddress)) (created : ProbeAddress -> bool)
    (newProbes : list ProbeAddress) (c : Coordinator K) : Coordinator K :=
  let newProbesMap := index_by addr_String newProbes in
  let c := foldl (add_one created) c ((range newProbesMap).*2) in
  foldl (remove_one newProbesMap) c (range (probes c)).
End Update.

(** A measurement cycle: [None] if there is nothing to publish. *)
Definition runMeasurementCycle {K : Type} `{!Ed25519 K} (floats : Z -> bool) (network : ProbeAddress -> option (option Duration * option Duration))
    (write : IP * Z -> bytes -> option nat) (now now' : Time) (data : option ProgramData.t) (current : option Z)
    (targets : list ProbeAddress) (order : gmap ProbeAddress Z -> list (ProbeAddress * Z)) (c : Coordinator K) :
    Coordinator K * list Publisher.outcome :=
  if (size (probes c) =? 0)%nat then (c, [])
  else
    let rttData := Pinger.MeasureAll network targets in
    if (size rttData =? 0)%nat then (c, [])
    else let '(p, _, outcomes) := Publisher.Publish floats write now now' data current (order rttData) (publisher c) in
      (c <| publisher := p |>, outcomes).

(** ** Discovery *)

Definition DefaultGeoprobeUDPPort : Z := 8923.
Definition DefaultGeoprobeTWAMPPort : Z := 8925.
Definition fullRefreshEvery : Z := 5.

Record Discovery := mkDiscovery { discovererPK : bytes; cachedKeys : gset bytes; tickCount : Z }.

Definition GeoProbeToAddress (probe : GeoProbe.t) : ProbeAddress :=
  mkAddr (IP_String (GeoProbe.PublicIP probe)) (GeoProbe.LocationOffsetPort probe) DefaultGeoprobeTWAMPPort.
Definition hasParentDevice (probe : GeoProbe.t) (devicePK : bytes) : bool := existsb (fun parent => bool_decide (parent = devicePK)) (GeoProbe.ParentDevices probe).

Definition is_ok {E A : Type} (r : res E A) : bool := match r with Ok _ => true | _ => false end.

Definition match_probe (devicePK : bytes) (kp : bytes * GeoProbe.t) : option ProbeAddress :=
  if negb (hasParentDevice kp.2 devicePK) then None
  else let addr := GeoProbeToAddress kp.2 in if is_ok (Validate addr) then Some addr else None.

(** [keys] and [onchain] are what the client returns; the result is the list
    that is offered to the channel, if any. *)
Definition discover (keys : option (list bytes)) (onchain : option (list (bytes * GeoProbe.t))) (d : Discovery) :
    Discovery * option (list ProbeAddress) :=
  let forceFullRefresh := Z.rem (tickCount d) fullRefreshEvery =? 0 in
  let d := mkDiscovery (discovererPK d) (cachedKeys d) (u64 (tickCount d + 1)) in
  let unchanged := match keys with Some keys => bool_decide (cachedKeys d = list_to_set keys) | None => false end in
  if negb forceFullRefresh && unchanged then (d, None)
  else match onchain with
       | None => (d, None)
       | Some onchainProbes =>
           (mkDiscovery (discovererPK d) (list_to_set onchainProbes.*1) (tickCount d), Some (omap (match_probe (discovererPK d)) onchainProbes))
       end.

(** ** Measuring *)

Lemma batches_spec l size k : (0 < size)%nat -> forall i, (length l <= (i + k) * size)%nat -> concat (Pinger.batches l size i k) = drop (i * size) l.
Proof.
  intros Hs. induction k as [|k IH]; intros i Hk; cbn [Pinger.batches].
  - rewrite drop_ge by lia. done.
  - destruct (Nat.leb_spec (length l) (i * size)) as [Hle|Hgt]; [by rewrite drop_ge|]. cbn [concat]. rewrite IH by lia.
    replace (S i * size)%nat with (i * size + size)%nat by lia. rewrite <- drop_drop.
    destruct (Nat.le_gt_cases (i * size + size) (length l)) as [Hl|Hl].
    + rewrite Nat.min_l by done. replace (i * size + size - i * size)%nat with size by lia. apply take_drop.
    + rewrite Nat.min_r by lia. rewrite take_ge by (rewrite length_drop; lia). rewrite (drop_ge (drop _ _)) by (rewrite length_drop; lia). by rewrite app_nil_r.
Qed.

Lemma workers_pos n : (0 < Pinger.numWorkers n <= Pinger.MaxWorkers)%nat.
Proof. unfold Pinger.numWorkers, Pinger.MaxWorkers. destruct (Nat.eqb_spec (Nat.min 32 ((n + Pinger.ProbesPerWorker - 1) / Pinger.ProbesPerWorker)) 0); lia. Qed.

Lemma batch_covers n : (n <= Pinger.numWorkers n * Pinger.batchSize n)%nat.
Proof.
  unfold Pinger.batchSize. pose proof (workers_pos n) as Hw. set (w := Pinger.numWorkers n) in *.
  pose proof (Nat.div_mod (n + w - 1) w ltac:(lia)). pose proof (Nat.mod_upper_bound (n + w - 1) w ltac:(lia)). lia.
Qed.

(** The batches of the workers are the targets, each in one batch. *)
Lemma batches_all l : concat (Pinger.batches l (Pinger.batchSize (length l)) 0 (Pinger.numWorkers (length l))) = l.
Proof.
  destruct l as [|a l]; [done|]. set (n := length (a :: l)). pose proof (batch_covers n) as Hc. rewrite batches_spec; [by rewrite drop_0| |done].
  assert (0 < n)%nat by (cbn; lia). destruct (Pinger.batchSize n); lia.
Qed.

Section Measured.
Context (network : ProbeAddress -> option (option Duration * option Duration)).

Lemma probeWorker_lookup l : forall results a, Pinger.probeWorker network l results !! a =
  if bool_decide (a ∈ l) then match Pinger.probeTarget (network a) with Some rtt => Some (u64 rtt) | None => results !! a end else results !! a.
Proof.
  induction l as [|x l IH]; intros results a; [done|]. 
  transitivity (Pinger.probeWorker network l (match Pinger.probeTarget (network x) with Some rtt => <[x := u64 rtt]> results | None => results end) !! a); [done|].
  rewrite IH. destruct (decide (a = x)) as [->|Hne].
  - rewrite (bool_decide_eq_true_2 (x ∈ x :: l)) by set_solver. destruct (Pinger.probeTarget (network x)) as [rtt|]; [|by case_bool_decide].
    rewrite lookup_insert_eq. by case_bool_decide.
  - rewrite (bool_decide_ext (a ∈ x :: l) (a ∈ l)) by set_solver. destruct (Pinger.probeTarget (network x)); [|done].
    by rewrite lookup_insert_ne by done.
Qed.

(** Every target is measured once, and nothing else; the time is the smaller of
    the two answers. *)
Lemma MeasureAll_lookup order a : Pinger.MeasureAll network order !! a =
  if bool_decide (a ∈ order) then u64 <$> Pinger.probeTarget (network a) else None.
Proof.
  unfold Pinger.MeasureAll. assert (H : forall bs results, foldl (fun results batch => Pinger.probeWorker network batch results) results bs =
    Pinger.probeWorker network (concat bs) results).
  { induction bs as [|b bs IH]; intros results; [done|]. cbn [foldl concat]. rewrite IH. unfold Pinger.probeWorker. by rewrite foldl_app. }
  rewrite H, batches_all, probeWorker_lookup, lookup_empty. case_bool_decide; [|done]. by destruct (Pinger.probeTarget (network a)).
Qed.
End Measured.

(** ** The probes, the pinger and the publisher *)

Section Coordination.
Context {K : Type}.
Implicit Types (c : Coordinator K) (a b : ProbeAddress).

Definition conn_of a : IP * Z := (default [] (ParseIP (Host a)), Port a).
Definition has c a : Prop := probes c !! addr_String a = Some a.

(** The three agree: the pinger measures the probes, and the publisher has a
    connection to each, and no others. *)
Record synced (c : Coordinator K) : Prop := mk_synced {
  sy_pinger : pinger c = probes c;
  sy_probe : forall k a, probes c !! k = Some a -> k = addr_String a /\ addr_wf a /\ is_ok (Validate a) = true /\ conns (publisher c) !! Host a = Some (conn_of a);
  sy_conn : forall h v, conns (publisher c) !! h = Some v -> exists a, has c a /\ Host a = h
}.

Lemma synced_has c k a : synced c -> probes c !! k = Some a -> has c a /\ k = addr_String a /\ addr_wf a.
Proof. intros Hs Hk. destruct (sy_probe c Hs k a Hk) as (-> & Hw & _). by split_and!. Qed.

(** No two addresses among those in use share a host. *)
Definition distinct_hosts (U : ProbeAddress -> Prop) : Prop := forall a b, U a -> U b -> Host a = Host b -> a = b.

Lemma is_ok_unit {E : Type} (r : res E ()) : is_ok r = true -> r = Ok ().
Proof. by destruct r as [[]| |]. Qed.

Lemma add_one_spec U created c a : distinct_hosts U -> (forall b, has c b -> U b) -> U a -> addr_wf a -> synced c -> created a = true ->
  let c' := add_one created c a in
  synced c' /\ forall b, has c' b <-> has c b \/ b = a /\ is_ok (Validate a) = true.
Proof.
  intros HU Hc Ha Hw Hs Hcr. unfold add_one. destruct (probes c !! addr_String a) as [a'|] eqn:Hp.
  { cbv zeta. split; [done|]. destruct (synced_has c _ a' Hs Hp) as (Hh & Hk & Hw'). apply addr_String_inj in Hk as ->; [|done..].
    intros b. split; [by left|]. by intros [|[-> _]]. }
  destruct c as [ps pg pub]. cbn [probes pinger publisher] in *. pose proof (sy_pinger _ Hs) as Hpg. cbn [probes pinger] in Hpg. subst pg.
  unfold Pinger.AddProbe. cbn. rewrite Hp. destruct (is_ok (Validate a)) eqn:Hv; cycle 1.
  { cbv zeta. assert (delete (addr_String a) (<[addr_String a := a]> ps) = ps) as Hd by (by rewrite delete_insert_id).
    destruct (Validate a) as [[]| |]; [done| |]; cbn; rewrite Hd; (split; [done|]; intros b; split; [by left|by intros [|[]]]). }
  apply is_ok_unit in Hv as Hv'. rewrite Hv'. unfold Publisher.AddProbe. cbn.
  destruct (conns pub !! Host a) as [v|] eqn:Hconn.
  { destruct (sy_conn _ Hs _ _ Hconn) as (b & Hb & Hh). rewrite (HU b a) in Hb by auto. unfold has in Hb. cbn in Hb. congruence. }
  cbn. rewrite Hv', Hcr. cbv zeta. split.
  - constructor; cbn [probes pinger publisher conns]; [done| |].
    + intros k b [[<- <-]|[Hne Hk]]%lookup_insert_Some; [split_and!; [done..|apply lookup_insert_eq]|].
      destruct (sy_probe _ Hs k b Hk) as (H1 & H2 & H3 & H4). cbn in H4. split_and!; [done..|].
      rewrite lookup_insert_ne; [done|]. intros Hh. apply Hne. rewrite H1. f_equal. apply HU; [done| |done]. apply Hc. subst k. exact Hk.
    + intros h v [[<- <-]|[Hne Hk]]%lookup_insert_Some; [exists a; split; [apply lookup_insert_eq|done]|].
      destruct (sy_conn _ Hs h v Hk) as (b & Hb & Hh). exists b. split; [|done]. unfold has in *. cbn in *.
      rewrite lookup_insert_ne; [done|]. intros He. rewrite <- He in Hb. congruence.
  - intros b. unfold has. cbn. split.
    + intros [[He <-]|[_ ?]]%lookup_insert_Some; [by right|by left].
    + intros [Hb|[-> _]]; [|apply lookup_insert_eq]. rewrite lookup_insert_ne; [done|]. intros He. rewrite <- He in Hb. congruence.
Qed.

Lemma add_all_spec U created l : distinct_hosts U -> (forall b, created b = true) -> Forall (fun a => U a /\ addr_wf a) l -> forall c,
  (forall b, has c b -> U b) -> synced c ->
  let c' := foldl (add_one created) c l in
  synced c' /\ forall b, has c' b <-> has c b \/ b ∈ l /\ is_ok (Validate b) = true.
Proof.
  intros HU Hcr. induction 1 as [|a l [Ha Hw] Hl IH]; intros c Hc Hs; cbv zeta; [split; [done|]; intros b; set_solver|].
  cbn [foldl]. destruct (add_one_spec U created c a HU Hc Ha Hw Hs (Hcr a)) as [Hs1 Hb1]. cbv zeta in Hb1.
  destruct (IH (add_one created c a)) as [Hs2 Hb2]; [|done|].
  { intros b [Hb|[-> _]]%Hb1; [by apply Hc|done]. }
  split; [done|]. intros b. rewrite Hb2, Hb1, elem_of_cons. naive_solver.
Qed.

Lemma remove_one_spec U keep c a : distinct_hosts U -> (forall b, has c b -> U b) -> has c a -> synced c ->
  let c' := remove_one keep c (addr_String a, a) in
  synced c' /\ forall b, has c' b <-> has c b /\ (b = a -> keep !! addr_String a <> None).
Proof.
  intros HU Hc Ha Hs. unfold remove_one. cbn [fst snd]. destruct (keep !! addr_String a) as [x|] eqn:Hk; [split; [done|]; naive_solver|].
  cbv zeta. destruct c as [ps pg pub]. pose proof (sy_pinger _ Hs) as Hpg. cbn [probes pinger] in Hpg. subst pg.
  assert (Hkey : forall b, has (mkCoordinator ps ps pub) b -> addr_String b = addr_String a -> b = a) by (intros b Hb He; unfold has in Hb, Ha; cbn in Hb, Ha; congruence).
  split.
  - constructor; cbn; [done| |].
    + intros k b [Hne Hb]%lookup_delete_Some. destruct (sy_probe _ Hs k b Hb) as (H1 & H2 & H3 & H4). split_and!; [done..|].
      cbn in *. rewrite lookup_delete_ne; [done|]. intros Hh. apply Hne. rewrite H1. f_equal. apply HU; [by apply Hc| |done]. apply Hc. subst k. exact Hb.
    + intros h v [Hne Hv]%lookup_delete_Some. destruct (sy_conn _ Hs h v Hv) as (b & Hb & Hh). exists b. split; [|done].
      unfold has. cbn. rewrite lookup_delete_ne; [exact Hb|]. intros He. apply Hne. rewrite <- Hh. f_equal. symmetry. by apply Hkey.
  - intros b. unfold has. cbn. rewrite lookup_delete_Some. split.
    + intros [Hne Hb]. split; [done|]. intros ->. done.
    + intros [Hb Hne]. split; [|done]. intros He. symmetry in He. apply Hkey in He; [|done]. by apply Hne in He.
Qed.

Lemma remove_all_spec U keep l : distinct_hosts U -> forall c, NoDup l.*1 -> Forall (fun kv => kv.1 = addr_String kv.2 /\ has c kv.2) l ->
  (forall b, has c b -> U b) -> synced c ->
  let c' := foldl (remove_one keep) c l in
  synced c' /\ forall b, has c' b <-> has c b /\ (b ∈ l.*2 -> keep !! addr_String b <> None).
Proof.
  intros HU. induction l as [|[k a] l IH]; intros c Hnd Hl Hc Hs; cbv zeta; [split; [done|]; intros b; set_solver|].
  apply Forall_cons in Hl as [[Hk Ha] Hl]. cbn [fst snd] in Hk, Ha. subst k. apply NoDup_cons in Hnd as [Hni Hnd]. cbn [foldl].
  destruct (remove_one_spec U keep c a HU Hc Ha Hs) as [Hs1 Hb1]. cbv zeta in Hb1.
  destruct (IH (remove_one keep c (addr_String a, a))) as [Hs2 Hb2]; [done| |naive_solver|done|].
  - rewrite Forall_forall in Hl |- *. intros [k b] Hin. destruct (Hl _ Hin) as [Hk Hb]. cbn [fst snd] in *. split; [done|]. apply Hb1.
    split; [done|]. intros ->. exfalso. apply Hni. cbn. rewrite <- Hk. apply list_elem_of_fmap. by exists (k, a).
  - split; [done|]. intros b. rewrite Hb2, Hb1. cbn. rewrite elem_of_cons. naive_solver.
Qed.

Context (range : gmap bytes ProbeAddress -> list (bytes * ProbeAddress)).
Hypothesis range_perm : forall m, range m ≡ₚ map_to_list m.

Lemma index_range l a : a ∈ (range (index_by addr_String l)).*2 -> a ∈ l.
Proof.
  intros ([k b] & -> & Hb)%list_elem_of_fmap. rewrite range_perm in Hb. apply elem_of_map_to_list, index_by_elem in Hb. apply Hb.
Qed.

Lemma index_lookup l a : Forall addr_wf l -> a ∈ l -> index_by addr_String l !! addr_String a = Some a.
Proof.
  intros Hw Ha. destruct (index_by addr_String l !! addr_String a) as [b|] eqn:Hb.
  - apply index_by_elem in Hb as [Hin Hk]. rewrite Forall_forall in Hw. f_equal. apply addr_String_inj; auto.
  - exfalso. revert Hb. clear Hw. unfold index_by. revert Ha. generalize (∅ : gmap bytes ProbeAddress).
    induction l as [|x l IH] using rev_ind; intros m Ha; [by apply not_elem_of_nil in Ha|]. rewrite foldl_snoc.
    intros [Hne Hn]%lookup_insert_None. apply elem_of_app in Ha as [Ha| ->%list_elem_of_singleton]; [by eapply IH|done].
Qed.

Lemma range_index l a : Forall addr_wf l -> a ∈ l -> a ∈ (range (index_by addr_String l)).*2.
Proof.
  intros Hw Ha. apply list_elem_of_fmap. exists (addr_String a, a). split; [done|]. rewrite range_perm.
  apply elem_of_map_to_list. by apply index_lookup.
Qed.

(** C23. An update of the probes is carried out exactly, in whatever order the
    maps are ranged over, if sockets can be made and no two addresses of the old
    and the new probes share a host. The valid addresses of the update are the
    probes from then on; the pinger measures them and no others, and the
    publisher has a connection to the right port of each and no others. *)
Theorem probe_update_exact created newProbes c : (forall a, created a = true) -> Forall addr_wf newProbes -> synced c ->
  distinct_hosts (fun a => has c a \/ a ∈ newProbes) ->
  let c' := handleProbeUpdate range created newProbes c in
  synced c' /\ forall a, has c' a <-> a ∈ newProbes /\ is_ok (Validate a) = true.
Proof.
  intros Hcr Hw Hs HU. unfold handleProbeUpdate. cbv zeta. set (U := fun a => has c a \/ a ∈ newProbes) in HU.
  set (l := (range (index_by addr_String newProbes)).*2). set (c1 := foldl (add_one created) c l).
  destruct (add_all_spec U created l HU Hcr) with c as [Hs1 Hb1]; [|by left|done|].
  { apply Forall_forall. intros a Ha%index_range. split; [by right|]. rewrite Forall_forall in Hw. by apply Hw. }
  fold c1 in Hs1, Hb1. destruct (remove_all_spec U (index_by addr_String newProbes) (range (probes c1)) HU c1) as [Hs2 Hb2].
  - rewrite range_perm. apply NoDup_fst_map_to_list.
  - apply Forall_forall. intros [k a] Ha. rewrite range_perm in Ha. apply elem_of_map_to_list in Ha.
    by destruct (synced_has c1 k a Hs1 Ha) as (? & ? & _).
  - intros b [Hb|[Hb%index_range _]]%Hb1; [by left|by right].
  - done.
  - split; [done|]. intros a. rewrite Hb2. split.
    + intros [Ha Hkeep]. assert (Hn : index_by addr_String newProbes !! addr_String a <> None).
      { apply Hkeep, list_elem_of_fmap. exists (addr_String a, a). split; [done|]. rewrite range_perm. by apply elem_of_map_to_list. }
      destruct (sy_probe c1 Hs1 _ a Ha) as (_ & Hwa & Hv & _). split; [|done].
      destruct (index_by addr_String newProbes !! addr_String a) as [b|] eqn:Hb; [|done]. apply index_by_elem in Hb as [Hin Hk].
      rewrite Forall_forall in Hw. apply addr_String_inj in Hk as <-; auto.
    + intros [Hin Hv]. split; [apply Hb1; right; split; [by apply range_index|done]|]. intros _. by rewrite (index_lookup newProbes a).
Qed.
End Coordination.

(** ** A probe that changes its port

    The publisher keeps its connections by host, the coordinator its probes by
    host and ports. *)

Section PortChange.
Context {K : Type}.
Implicit Types (c : Coordinator K) (a b : ProbeAddress).

(** [a] is a probe that is measured and has no connection. *)
Definition unconnected a c : Prop := has c a /\ pinger c !! addr_String a = Some a /\ conns (publisher c) !! Host a = None.

Lemma add_one_other created c b k : addr_String b <> k ->
  probes (add_one created c b) !! k = probes c !! k /\ pinger (add_one created c b) !! k = pinger c !! k.
Proof.
  intros Hne. destruct c as [ps pg pub]. unfold add_one. cbn. destruct (ps !! addr_String b); [done|].
  assert (Hk : delete (addr_String b) (<[addr_String b := b]> ps) !! k = ps !! k) by (by rewrite lookup_delete_ne, lookup_insert_ne).
  destruct (Pinger.AddProbe b pg) as [pg'| |] eqn:Hp; cbn; [|by rewrite Hk..].
  assert (Hpk : pg' !! k = pg !! k).
  { unfold Pinger.AddProbe in Hp. destruct (pg !! addr_String b); [by injection Hp as <-|]. destruct (Validate b); simplify_eq. by rewrite lookup_insert_ne. }
  destruct (Publisher.AddProbe _ _ _); cbn; unfold Pinger.RemoveProbe; rewrite ?Hk, ?lookup_delete_ne, ?lookup_insert_ne by done; done.
Qed.

Lemma add_one_conns created c b : conns (publisher (add_one created c b)) = conns (publisher c) \/
  conns (publisher c) !! Host b = None /\ conns (publisher (add_one created c b)) = <[Host b := conn_of b]> (conns (publisher c)).
Proof.
  destruct c as [ps pg pub]. unfold add_one. cbn. destruct (ps !! addr_String b); [by left|].
  destruct (Pinger.AddProbe b pg) as [pg'| |]; cbn; [|by left..]. unfold Publisher.AddProbe.
  destruct (conns pub !! Host b) as [v|] eqn:Hv; [by left|]. destruct (Validate b); [|by left..]. destruct (created b); [by right|by left].
Qed.

Lemma add_all_conns created l c h v : conns (publisher c) !! h = Some v -> conns (publisher (foldl (add_one created) c l)) !! h = Some v.
Proof.
  revert c. induction l as [|b l IH]; intros c Hh; [done|]. cbn [foldl]. apply IH.
  destruct (add_one_conns created c b) as [->|[Hn ->]]; [done|]. rewrite lookup_insert_ne; [done|]. intros He. rewrite <- He in Hh. congruence.
Qed.

Lemma add_all_other created l c k : Forall (fun b => addr_String b <> k) l ->
  probes (foldl (add_one created) c l) !! k = probes c !! k /\ pinger (foldl (add_one created) c l) !! k = pinger c !! k.
Proof.
  intros H. revert c. induction H as [|b l Hb _ IH]; intros c; [done|]. cbn [foldl]. destruct (IH (add_one created c b)) as [-> ->].
  by apply add_one_other.
Qed.

Lemma remove_one_keeps keep c kv : (forall h, conns (publisher c) !! h = None -> conns (publisher (remove_one keep c kv)) !! h = None) /\
  (forall k, keep !! k <> None -> kv.1 = addr_String kv.2 -> probes (remove_one keep c kv) !! k = probes c !! k /\ pinger (remove_one keep c kv) !! k = pinger c !! k).
Proof.
  destruct c as [ps pg pub]. unfold remove_one. destruct (keep !! kv.1) eqn:Hk; [done|]. cbn. split.
  - intros h Hh. by apply lookup_delete_None; right.
  - intros k Hn He. unfold Pinger.RemoveProbe. rewrite <- He. rewrite !lookup_delete_ne by congruence. done.
Qed.

Lemma remove_all_keeps keep l c : Forall (fun kv => kv.1 = addr_String kv.2) l ->
  (forall h, conns (publisher c) !! h = None -> conns (publisher (foldl (remove_one keep) c l)) !! h = None) /\
  (forall k, keep !! k <> None -> probes (foldl (remove_one keep) c l) !! k = probes c !! k /\ pinger (foldl (remove_one keep) c l) !! k = pinger c !! k).
Proof.
  intros H. revert c. induction H as [|kv l Hkv _ IH]; intros c; [done|]. cbn [foldl].
  destruct (remove_one_keeps keep c kv) as [H1 H2], (IH (remove_one keep c kv)) as [I1 I2]. split; [by intros h Hh; apply I1, H1|].
  intros k Hk. destruct (I2 k Hk) as [-> ->]. by apply H2.
Qed.

Lemma remove_all_gone keep l c k a : Forall (fun kv => kv.1 = addr_String kv.2) l -> (k, a) ∈ l -> keep !! k = None ->
  conns (publisher (foldl (remove_one keep) c l)) !! Host a = None.
Proof.
  intros H Hin Hk. apply list_elem_of_split in Hin as (l1 & l2 & ->). rewrite foldl_app. cbn [foldl].
  apply Forall_app in H as [_ [_ H]%Forall_cons]. apply remove_all_keeps; [done|]. unfold remove_one. cbn [fst snd]. rewrite Hk. cbn. apply lookup_delete_eq.
Qed.

(** All probes are kept under their text. *)
Definition keyed c : Prop := forall k b, probes c !! k = Some b -> k = addr_String b.

Lemma keyed_add created l c : keyed c -> keyed (foldl (add_one created) c l).
Proof.
  revert c. induction l as [|b l IH]; intros c Hc; [done|]. cbn [foldl]. apply IH. clear IH.
  assert (Hd : forall k x, delete (addr_String b) (<[addr_String b := b]> (probes c)) !! k = Some x -> k = addr_String x).
  { intros k x [Hne [[<- _]|[_ Hk]]%lookup_insert_Some]%lookup_delete_Some; [done|by apply Hc]. }
  destruct c as [ps pg pub]. unfold add_one, keyed. cbn in *. destruct (ps !! addr_String b); [done|].
  destruct (Pinger.AddProbe b pg); [|apply Hd..]. cbn. destruct (Publisher.AddProbe _ _ _); cbn; [|apply Hd..].
  intros k x [[<- <-]|[_ Hk]]%lookup_insert_Some; [done|by apply Hc].
Qed.

Lemma keyed_remove keep rs c : keyed c -> keyed (foldl (remove_one keep) c rs).
Proof.
  revert c. induction rs as [|kv rs IH]; intros c Hc; [done|]. cbn [foldl]. apply IH.
  unfold remove_one. case_match; [done|]. intros k b. cbn. intros [_ Hb]%lookup_delete_Some. by apply Hc.
Qed.

Context (range : gmap bytes ProbeAddress -> list (bytes * ProbeAddress)).
Hypothesis range_perm : forall m, range m ≡ₚ map_to_list m.

Lemma range_keyed c : keyed c -> Forall (fun kv : bytes * ProbeAddress => kv.1 = addr_String kv.2) (range (probes c)).
Proof. intros Hc. apply Forall_forall. intros [k b] Hb. rewrite range_perm in Hb. apply elem_of_map_to_list in Hb. by apply Hc. Qed.

(** An update that still lists [a], and no other address of its host. *)
Definition only_of_host a (l : list ProbeAddress) : Prop := Forall addr_wf l /\ a ∈ l /\ forall b, b ∈ l -> Host b = Host a -> b = a.

Lemma unconnected_stays created l a c : only_of_host a l -> keyed c -> unconnected a c ->
  unconnected a (handleProbeUpdate range created l c) /\ keyed (handleProbeUpdate range created l c).
Proof.
  intros (Hw & Ha & Hhost) Hk (Hh & Hp & Hn). unfold handleProbeUpdate. cbv zeta. set (keep := index_by addr_String l).
  set (us := (range keep).*2). set (c1 := foldl (add_one created) c us).
  assert (Hus : Forall (fun b => b ∈ l) us) by (apply Forall_forall; intros b; by apply index_range).
  assert (H1 : unconnected a c1).
  { subst c1. clearbody us. revert c Hk Hh Hp Hn. induction Hus as [|b us Hb _ IH]; intros c Hk Hh Hp Hn; [done|]. cbn [foldl].
    pose proof (keyed_add created [b] c Hk) as Hk1. cbn [foldl] in Hk1. destruct (decide (b = a)) as [->|Hne].
    - assert (add_one created c a = c) as -> by (unfold add_one; by rewrite Hh). by apply IH.
    - assert (Hsn : addr_String b <> addr_String a).
      { intros He. apply Hne. rewrite Forall_forall in Hw. apply addr_String_inj; [by apply Hw..|done]. }
      destruct (add_one_other created c b _ Hsn) as [E1 E2]. apply IH; [done|unfold has; by rewrite E1|by rewrite E2|].
      destruct (add_one_conns created c b) as [->|[_ ->]]; [done|]. rewrite lookup_insert_ne; [done|]. intros He. apply Hne. by apply Hhost. }
  assert (Hk1 : keyed c1) by by apply keyed_add. destruct H1 as (Hh1 & Hp1 & Hn1).
  assert (Hkeep : keep !! addr_String a <> None) by (unfold keep; by rewrite (index_lookup l a)).
  destruct (remove_all_keeps keep (range (probes c1)) c1 (range_keyed c1 Hk1)) as [R1 R2]. destruct (R2 _ Hkeep) as [E1 E2]. split.
  - split_and!; [unfold has; by rewrite E1|by rewrite E2|by apply R1].
  - by apply keyed_remove.
Qed.

(** The new address finds the connection of its host, and is added. *)
Lemma added_behind created us a c v : is_ok (Validate a) = true -> conns (publisher c) !! Host a = Some v -> probes c !! addr_String a = None ->
  pinger c !! addr_String a = None -> NoDup (addr_String <$> us) -> a ∈ us ->
  let c' := foldl (add_one created) c us in has c' a /\ pinger c' !! addr_String a = Some a.
Proof.
  intros Hv Hc Hp Hg Hnd Ha. apply list_elem_of_split in Ha as (l1 & l2 & ->). cbv zeta. rewrite foldl_app. cbn [foldl].
  rewrite fmap_app, fmap_cons in Hnd. apply NoDup_app in Hnd as (_ & H12 & [Hn2 _]%NoDup_cons).
  assert (F1 : Forall (fun b => addr_String b <> addr_String a) l1).
  { apply Forall_forall. intros b Hb He. apply (H12 (addr_String b)); [by apply list_elem_of_fmap_2|]. rewrite He. by left. }
  assert (F2 : Forall (fun b => addr_String b <> addr_String a) l2).
  { apply Forall_forall. intros b Hb He. apply Hn2. rewrite <- He. by apply list_elem_of_fmap_2. }
  destruct (add_all_other created l1 c _ F1) as [P1 G1]. pose proof (add_all_conns created l1 c _ _ Hc) as C1.
  set (c1 := foldl (add_one created) c l1) in *. rewrite Hp in P1. rewrite Hg in G1. apply is_ok_unit in Hv.
  assert (Hadd : probes (add_one created c1 a) !! addr_String a = Some a /\ pinger (add_one created c1 a) !! addr_String a = Some a).
  { clearbody c1. destruct c1 as [ps pg pub]. cbn in *. unfold add_one. cbn. rewrite P1. unfold Pinger.AddProbe. rewrite G1, Hv. cbn.
    unfold Publisher.AddProbe. rewrite C1. cbn. by rewrite !lookup_insert_eq. }
  unfold has. destruct (add_all_other created l2 (add_one created c1 a) _ F2) as [-> ->]. done.
Qed.

Lemma range_strings l : NoDup (addr_String <$> (range (index_by addr_String l)).*2).
Proof.
  assert (He : addr_String <$> (range (index_by addr_String l)).*2 = (range (index_by addr_String l)).*1).
  { rewrite <- list_fmap_compose. apply list_fmap_ext. intros i [k b] Hb%list_elem_of_lookup_2. rewrite range_perm in Hb.
    apply elem_of_map_to_list, index_by_elem in Hb. by destruct Hb as [_ <-]. }
  rewrite He, range_perm. apply NoDup_fst_map_to_list.
Qed.

Lemma port_change_first created newProbes a old c : synced c -> Forall addr_wf newProbes -> has c old -> Host a = Host old ->
  probes c !! addr_String a = None -> a ∈ newProbes -> old ∉ newProbes -> is_ok (Validate a) = true ->
  unconnected a (handleProbeUpdate range created newProbes c) /\ keyed (handleProbeUpdate range created newProbes c).
Proof.
  intros Hs Hw Hold Hhost Hnew Hin Hgone Hv. assert (Hkc : keyed c) by (intros k b Hb; by apply (sy_probe c Hs)).
  destruct (sy_probe c Hs _ old Hold) as (_ & Hwo & _ & Hco). rewrite <- Hhost in Hco.
  unfold handleProbeUpdate. cbv zeta. set (keep := index_by addr_String newProbes). set (us := (range keep).*2).
  assert (Hg : pinger c !! addr_String a = None) by (by rewrite (sy_pinger c Hs)).
  destruct (added_behind created us a c _ Hv Hco Hnew Hg) as [Hh1 Hp1]; [apply range_strings|by apply range_index|].
  assert (Hk1 : keyed (foldl (add_one created) c us)) by by apply keyed_add.
  assert (Hne : forall b, b ∈ newProbes -> addr_String b <> addr_String old).
  { intros b Hb He. apply Hgone. rewrite Forall_forall in Hw. by apply addr_String_inj in He as <-; [|apply Hw|]. }
  destruct (add_all_other created us c (addr_String old)) as [Ho _]; [apply Forall_forall; intros b Hb%(index_range range range_perm); by apply Hne|].
  set (c1 := foldl (add_one created) c us) in *. rewrite Hold in Ho. split; [|by apply keyed_remove].
  assert (Hkeep : keep !! addr_String a <> None) by (unfold keep; by rewrite (index_lookup newProbes a)).
  destruct (remove_all_keeps keep (range (probes c1)) c1 (range_keyed c1 Hk1)) as [_ R2]. destruct (R2 _ Hkeep) as [E1 E2].
  split_and!; [unfold has; by rewrite E1|by rewrite E2|]. rewrite Hhost.
  apply (remove_all_gone keep _ c1 (addr_String old)); [by apply range_keyed|rewrite range_perm; by apply elem_of_map_to_list|].
  destruct (keep !! addr_String old) as [b|] eqn:Hb; [|done]. apply index_by_elem in Hb as [Hb He]. by apply Hne in Hb.
Qed.

(** C39. A probe that changes its port is not published to any more. The
    publisher finds a connection to the old port under the host and makes none;
    then the coordinator removes the old address, and with it the connection of
    the host. The probe is measured, and no offset is sent to it and no error
    is reported, after this update and after all later ones that list it. *)
Theorem port_change_loses_connection created newProbes a old c : synced c -> Forall addr_wf newProbes -> has c old -> Host a = Host old ->
  probes c !! addr_String a = None -> a ∈ newProbes -> old ∉ newProbes -> is_ok (Validate a) = true ->
  forall updates, Forall (fun u => only_of_host a u.2) updates ->
  let c' := foldl (fun c u => handleProbeUpdate range u.1 u.2 c) (handleProbeUpdate range created newProbes c) updates in
  has c' a /\ pinger c' !! addr_String a = Some a /\ conns (publisher c') !! Host a = None /\
  forall `{!Ed25519 K} floats write slot lat lng rtt, Publisher.publish_one floats write slot lat lng (publisher c') a rtt = Publisher.Skipped.
Proof.
  intros Hs Hw Hold Hhost Hnew Hin Hgone Hv updates Hus. cbv zeta.
  destruct (port_change_first created newProbes a old c Hs Hw Hold Hhost Hnew Hin Hgone Hv) as [Hu Hk]. revert Hu Hk.
  generalize (handleProbeUpdate range created newProbes c). induction Hus as [|u us Hsame _ IH]; intros c1 Hu Hk; cbn [foldl].
  - destruct Hu as (Hh & Hp & Hn). split_and!; [done..|]. intros. unfold Publisher.publish_one. by rewrite Hn.
  - destruct (unconnected_stays u.1 u.2 a c1 Hsame Hk Hu) as [Hu' Hk']. by apply IH.
Qed.
End PortChange.

(** ** Public addresses *)

(** Addresses of no public host that the SDK refuses and the probe does not:
    0.0.0.0/8, 192.0.0.0/24 and 240.0.0.0/4. *)
Definition reserved (ip : bytes) : bool :=
  (byte_at ip 0 =? 0) || (byte_at ip 0 =? 192) && (byte_at ip 1 =? 0) && (byte_at ip 2 =? 0) || (240 <=? byte_at ip 0).

Lemma land_bytes n : is_u8 n -> Z.land n 255 = n /\ Z.land n 0 = 0 /\ (Z.land n 192 =? 64) = (64 <=? n) && (n <=? 127) /\
  (Z.land n 254 =? 18) = (18 <=? n) && (n <=? 19) /\ (Z.land n 240 =? 224) = (224 <=? n) && (n <=? 239) /\
  (Z.land n 240 =? 16) = (16 <=? n) && (n <=? 31).
Proof.
  intros Hn. pose (f := fun n => bool_decide (Z.land n 255 = n /\ Z.land n 0 = 0 /\ (Z.land n 192 =? 64) = (64 <=? n) && (n <=? 127) /\
    (Z.land n 254 =? 18) = (18 <=? n) && (n <=? 19) /\ (Z.land n 240 =? 224) = (224 <=? n) && (n <=? 239) /\
    (Z.land n 240 =? 16) = (16 <=? n) && (n <=? 31))).
  assert (f n = true) as H by (apply all_bytes_spec; [vm_compute; reflexivity|done]). unfold f in H. by apply bool_decide_eq_true in H.
Qed.

Lemma list4_eqb a b c d x y z w : bool_decide ([a; b; c; d] = [x; y; z; w]) = (a =? x) && (b =? y) && (c =? z) && (d =? w) :> bool.
Proof.
  apply eq_bool_prop_intro. rewrite bool_decide_spec, !andb_True, !Is_true_true, !Z.eqb_eq. split; [by intros [= -> -> -> ->]|by intros [[[-> ->] ->] ->]].
Qed.

Lemma contains4 a b c d x y z w ones m1 m2 m3 m4 : CIDRMask ones = [m1; m2; m3; m4] ->
  net_Contains (mkIPNet [x; y; z; w] (CIDRMask ones)) [a; b; c; d] =
  (Z.land x m1 =? Z.land a m1) && (Z.land y m2 =? Z.land b m2) && (Z.land z m3 =? Z.land c m3) && (Z.land w m4 =? Z.land d m4).
Proof. intros ->. unfold net_Contains. cbn [net_IP net_Mask To4]. by rewrite bool_decide_eq_true_2, <- list4_eqb by done. Qed.

(** One value of a byte at a time. *)
Ltac on_value a k := destruct (Z.eqb_spec a k) as [->|]; [cbn [Z.eqb Pos.eqb Z.leb Z.compare Pos.compare Pos.compare_cont CompOpp andb orb negb]; lia|].

(** Which addresses the probe takes from the ledger, next to the SDK that
    puts them there: it takes every address that the SDK takes, so that no
    target is added in vain; and beyond these exactly the reserved ones, which
    belong to no public host, except for 0.0.0.0 and 255.255.255.255. *)
Theorem scope_of_probe ip port twamp : addr_ok ip ->
  is_ok (ValidateScope (mkAddr (IP_String ip) port twamp)) =
  validatePublicIP ip || reserved ip && negb (bool_decide (ip = [0; 0; 0; 0])) && negb (bool_decide (ip = [255; 255; 255; 255])).
Proof.
  intros Hip. unfold ValidateScope. cbn [Host]. rewrite ParseIP_String by done. destruct Hip as [Hl Hb].
  destruct ip as [|a [|b [|c [|d [|]]]]]; try done. clear Hl.
  apply Forall_cons in Hb as [Ha [Hb [Hc [Hd _]%Forall_cons]%Forall_cons]%Forall_cons].
  unfold isNonPublicUnicast, additionalNonPublicIPv4Ranges. cbn [existsb].
  rewrite (contains4 a b c d 100 64 0 0 10 255 192 0 0), (contains4 a b c d 198 18 0 0 15 255 254 0 0), (contains4 a b c d 192 0 2 0 24 255 255 255 0),
    (contains4 a b c d 198 51 100 0 24 255 255 255 0), (contains4 a b c d 203 0 113 0 24 255 255 255 0) by done.
  unfold IsGlobalUnicast, IsUnspecified, IsLoopback, IsMulticast, IsLinkLocalUnicast, IsPrivate, IsLinkLocalMulticast, validatePublicIP, reserved.
  assert (To4 [a; b; c; d] = [a; b; c; d]) as -> by done. rewrite (bool_decide_eq_false_2 (_ = replicate 16 0)) by done. cbn [byte_at nth].
  rewrite !list4_eqb. change (Z.land 0 0) with 0. change (Z.land 64 192) with 64. change (Z.land 18 254) with 18.
  destruct (land_bytes a Ha) as (A1 & _ & _ & _ & A5 & _), (land_bytes b Hb) as (B1 & _ & B3 & B4 & _ & B6),
    (land_bytes c Hc) as (C1 & C0 & _), (land_bytes d Hd) as (_ & D0 & _).
  rewrite A1, A5, B1, B6, C1, C0, D0, (Z.eqb_sym 64), (Z.eqb_sym 18), B3, B4.
  repeat match goal with |- context [Z.land ?x 255] => change (Z.land x 255) with x end.
  match goal with |- is_ok (if ?x then _ else _) = ?y => transitivity (negb x); [by destruct x|] end.
  clear -Ha Hb Hc Hd. unfold is_u in *.
  rewrite ?(Z.eqb_sym 100), ?(Z.eqb_sym 198), ?(Z.eqb_sym 192), ?(Z.eqb_sym 203), ?(Z.eqb_sym 0 b), ?(Z.eqb_sym 2), ?(Z.eqb_sym 51), ?(Z.eqb_sym 113).
  on_value a 0; on_value a 127; on_value a 10; on_value a 172; on_value a 192; on_value a 100; on_value a 169; on_value a 198; on_value a 203; on_value a 224; on_value a 255.
  lia.
Qed.

(** ** A device and its probes *)

Module DeviceSample.
Definition old_port : ProbeAddress := mkAddr (lit "62.1.2.3") 8923 8925.
Definition new_port : ProbeAddress := mkAddr (lit "62.1.2.3") 9000 8925.
Definition other : ProbeAddress := mkAddr (lit "62.1.2.4") 8923 8925.
Definition publisher0 : PublisherState Z := mkPublisher OffsetSample.device (replicate 32 1) 0 0 time_zero 0 time_zero {[ lit "62.1.2.3" := ([62; 1; 2; 3], 8923) ]}.
Definition coordinator : Coordinator Z := mkCoordinator {[ addr_String old_port := old_port ]} {[ addr_String old_port := old_port ]} publisher0.
Definition range : gmap bytes ProbeAddress -> list (bytes * ProbeAddress) := map_to_list.
End DeviceSample.

Lemma probe_sample_wf : Forall addr_wf [DeviceSample.old_port; DeviceSample.new_port; DeviceSample.other].
Proof. repeat constructor; vm_compute; done. Qed.

Lemma sample_synced : synced DeviceSample.coordinator /\ forall a, has DeviceSample.coordinator a <-> a = DeviceSample.old_port.
Proof.
  split.
  - constructor; [done| |].
    + intros k a Hk. change (({[addr_String DeviceSample.old_port := DeviceSample.old_port]} : gmap bytes ProbeAddress) !! k = Some a) in Hk. apply lookup_singleton_Some in Hk as [<- <-]. split_and!; [done|by apply (Forall_lookup_1 _ _ 0%nat _ probe_sample_wf)|by vm_compute|by vm_compute].
    + intros h v Hk. change (({[lit "62.1.2.3" := ([62; 1; 2; 3], 8923)]} : gmap bytes (IP * Z)) !! h = Some v) in Hk. apply lookup_singleton_Some in Hk as [<- <-]. exists DeviceSample.old_port. split; [|done]. apply lookup_singleton_eq.
  - intros a. unfold has. change (probes DeviceSample.coordinator) with ({[addr_String DeviceSample.old_port := DeviceSample.old_port]} : gmap bytes ProbeAddress).
    rewrite lookup_singleton_Some. split; [by intros [_ <-]|by intros ->].
Qed.

Lemma probe_update_exact_witness :
  let c' := handleProbeUpdate DeviceSample.range (fun _ => true) [DeviceSample.old_port; DeviceSample.other] DeviceSample.coordinator in
  synced c' /\ has c' DeviceSample.other.
Proof.
  cbv zeta. destruct sample_synced as [Hs Hh]. pose proof probe_sample_wf as Hw.
  destruct (probe_update_exact DeviceSample.range (fun m => Permutation_refl _) (fun _ => true) [DeviceSample.old_port; DeviceSample.other] DeviceSample.coordinator) as [H1 H2].
  - done.
  - apply Forall_cons in Hw as [H1 [_ H3]%Forall_cons]. by constructor.
  - exact Hs.
  - intros a b Ha Hb. rewrite Hh in Ha, Hb. destruct Ha as [->|Ha], Hb as [->|Hb]; try done;
      repeat (match goal with H : _ ∈ _ :: _ |- _ => apply elem_of_cons in H as [->|H] | H : _ ∈ [] |- _ => by apply not_elem_of_nil in H end); done.
  - split; [done|]. apply H2. split; [apply elem_of_cons; right; by apply list_elem_of_singleton|by vm_compute].
Defined.

Lemma port_change_loses_connection_witness :
  let c' := handleProbeUpdate DeviceSample.range (fun _ => true) [DeviceSample.new_port] DeviceSample.coordinator in
  has c' DeviceSample.new_port /\ conns (publisher c') !! Host DeviceSample.new_port = None.
Proof.
  destruct sample_synced as [Hs Hh]. pose proof probe_sample_wf as Hw.
  destruct (port_change_loses_connection DeviceSample.range (fun m => Permutation_refl _) (fun _ => true) [DeviceSample.new_port] DeviceSample.new_port
    DeviceSample.old_port DeviceSample.coordinator) with (updates := @nil ((ProbeAddress -> bool) * list ProbeAddress)) as (H1 & _ & H3 & _).
  - exact Hs.
  - apply Forall_cons in Hw as [_ [H2 _]%Forall_cons]. by constructor.
  - by apply Hh.
  - done.
  - by vm_compute.
  - by apply list_elem_of_singleton.
  - by rewrite list_elem_of_singleton.
  - by vm_compute.
  - constructor.
  - by split.
Defined.

Lemma scope_of_probe_witness : is_ok (ValidateScope (mkAddr (IP_String [240; 0; 0; 1]) 8923 0)) = true.
Proof. rewrite (scope_of_probe [240; 0; 0; 1] 8923 0); [by vm_compute|]. split; [done|]. by repeat constructor. Defined.
