(* ===== verification/GeoDiscovery.v ===== *)
(** * What a probe measures, and where it sends the results

    Models the parts of [controlplane/telemetry/internal/geoprobe] that a probe
    takes its work from: [onchain_discovery.go] for its parents,
    [target_discovery.go] for its targets, [dns_cache.go] and
    [delivery_dns_refresher.go] for the destinations of the results, and the set
    of targets of [icmp_pinger.go]. *)

From stdpp Require Import base tactics numbers list gmap sorting.
From Stdlib Require Import ZArith Lia ZifyBool ZifyNat.
From S2P Require Import Prelude Bytes ByteReader Deserialize GoStrings GoCollections Routing GoNet Accounts TwampSigned GeoOffset GeoAccounts GeoDevice.

#[local] Open Scope Z_scope.

(** ** Destinations *)

(** The first and the last position of a byte. *)
Fixpoint index_byte (s : bytes) (c : Z) : option nat :=
  match s with [] => None | x :: s => if x =? c then Some 0%nat else S <$> index_byte s c end.
Definition last_index_byte (s : bytes) (c : Z) : option nat :=
  i ← index_byte (rev s) c; Some (length s - 1 - i)%nat.

(** [net.SplitHostPort]. *)
Definition SplitHostPort (hostport : bytes) : option (bytes * bytes) :=
  i ← last_index_byte hostport 58;
  '(host, j, k) ← (if byte_at hostport 0 =? 91 then
      close ← index_byte hostport 93;
      if (close + 1 =? length hostport)%nat then None
      else if (close + 1 =? i)%nat then Some (take (close - 1) (drop 1 hostport), 1%nat, (close + 1)%nat) else None
    else
      let host := take i hostport in
      match index_byte host 58 with Some _ => None | None => Some (host, 0%nat, 0%nat) end);
  match index_byte (drop j hostport) 91, index_byte (drop k hostport) 93 with
  | None, None => Some (host, drop (S i) hostport)
  | _, _ => None
  end.

Module DNSCache.
Record entry := mkEntry { ip : bytes; expiresAt : Time }.
Record t := mk { entries : gmap bytes entry; ttl : Duration }.
Definition New (d : Duration) : t := mk ∅ d.

Definition public (host : bytes) : bool := is_ok (ValidateScope (mkAddr host 0 0)).

(** [lookup] is [net.LookupHost] at this moment. *)
Definition Resolve (lookup : bytes -> option (list bytes)) (now : Time) (hostPort : bytes) (c : t) : t * option (IP * Z) :=
  match SplitHostPort hostPort with
  | None => (c, None)
  | Some (host, portStr) =>
      match Atoi portStr with
      | None => (c, None)
      | Some port =>
          match ParseIP host with
          | Some ip => (c, if public host then Some (ip, port) else None)
          | None =>
              let cached := match entries c !! host with Some e => if Before now (expiresAt e) then Some e else None | None => None end in
              match cached with
              | Some e => (c, Some (default [] (ParseIP (ip e)), port))
              | None =>
                  match lookup host with
                  | Some (resolved :: _) =>
                      match ParseIP resolved with
                      | Some resolvedIP =>
                          if public resolved then (mk (<[host := mkEntry resolved (TimeAdd now (ttl c))]> (entries c)) (ttl c), Some (resolvedIP, port))
                          else (c, None)
                      | None => (c, None)
                      end
                  | _ => (c, None)
                  end
              end
          end
      end
  end.

Definition LookupDeliveryUDPAddr (now : Time) (hostPort : bytes) (c : t) : option (IP * Z) :=
  '(host, portStr) ← SplitHostPort hostPort;
  port ← Atoi portStr;
  match ParseIP host with
  | Some ip => if public host then Some (ip, port) else None
  | None =>
      e ← entries c !! host;
      if negb (Before now (expiresAt e)) then None
      else
        resolvedIP ← ParseIP (ip e);
        if public (ip e) then Some (resolvedIP, port) else None
  end.
End DNSCache.

(** The refresher: what should stay resolved, in the order in which the set is
    ranged over. *)
Definition refresh (lookup : bytes -> option (list bytes)) (now : Time) (desired : list bytes) (c : DNSCache.t) : DNSCache.t :=
  foldl (fun c hp => (DNSCache.Resolve lookup now hp c).1) c desired.
Definition SetDesiredHostPorts (hostPorts : list bytes) : gset bytes := list_to_set (filter (fun h => h <> []) hostPorts).
Definition defaultDeliveryDNSRefreshInterval : Duration := 300 * Second.
Definition defaultDeliveryDNSTTL : Duration := Z.quot (defaultDeliveryDNSRefreshInterval * 5) 2.

(** *** What is resolved is public *)

Lemma Lookup_public now hp c ip port : DNSCache.LookupDeliveryUDPAddr now hp c = Some (ip, port) ->
  exists host, ParseIP host = Some ip /\ DNSCache.public host = true.
Proof.
  unfold DNSCache.LookupDeliveryUDPAddr. destruct (SplitHostPort hp) as [[host ps]|]; [|done]. cbn [mbind option_bind].
  destruct (Atoi ps) as [p|]; [|done]. cbn [mbind option_bind]. destruct (ParseIP host) as [ip'|] eqn:Hp.
  - destruct (DNSCache.public host) eqn:Hs; [|done]. intros [= <- <-]. eauto.
  - destruct (DNSCache.entries c !! host) as [e|]; [|done]. cbn [mbind option_bind]. destruct (negb _); [done|].
    destruct (ParseIP (DNSCache.ip e)) as [ip'|] eqn:Hi; [|done]. cbn [mbind option_bind]. destruct (DNSCache.public (DNSCache.ip e)) eqn:Hs; [|done].
    intros [= <- <-]. eauto.
Qed.

(** *** When it is resolved *)

(** [hp] names a host, and DNS has an address for it. *)
Definition resolvable (lookup : bytes -> option (list bytes)) (hp host : bytes) : Prop :=
  (exists ps p, SplitHostPort hp = Some (host, ps) /\ Atoi ps = Some p) /\ ParseIP host = None /\
  exists r rs, lookup host = Some (r :: rs) /\ ParseIP r <> None /\ DNSCache.public r = true.

Lemma Resolve_fresh lookup now hp host c e : resolvable lookup hp host -> DNSCache.entries c !! host = Some e -> Before now (DNSCache.expiresAt e) = true ->
  (DNSCache.Resolve lookup now hp c).1 = c.
Proof.
  intros ((ps & p & Hs & Ha) & Hp & _) He Hb. unfold DNSCache.Resolve. by rewrite Hs, Ha, Hp, He, Hb.
Qed.

Lemma Resolve_miss lookup now hp host c : resolvable lookup hp host ->
  match DNSCache.entries c !! host with Some e => Before now (DNSCache.expiresAt e) = false | None => True end ->
  exists r, (DNSCache.Resolve lookup now hp c).1 =
    DNSCache.mk (<[host := DNSCache.mkEntry r (TimeAdd now (DNSCache.ttl c))]> (DNSCache.entries c)) (DNSCache.ttl c).
Proof.
  intros ((ps & p & Hs & Ha) & Hp & r & rs & Hl & Hr & Hpub) He. exists r. unfold DNSCache.Resolve. rewrite Hs, Ha, Hp.
  destruct (DNSCache.entries c !! host) as [e|]; [rewrite He|]; rewrite Hl, Hpub; by destruct (ParseIP r).
Qed.

Lemma Lookup_expired now hp host c e lookup : resolvable lookup hp host -> DNSCache.entries c !! host = Some e ->
  Before now (DNSCache.expiresAt e) = false -> DNSCache.LookupDeliveryUDPAddr now hp c = None.
Proof.
  intros ((ps & p & Hs & Ha) & Hp & _) He Hb. unfold DNSCache.LookupDeliveryUDPAddr. rewrite Hs. cbn [mbind option_bind].
  rewrite Ha. cbn [mbind option_bind]. rewrite Hp, He. cbn [mbind option_bind]. by rewrite Hb.
Qed.

(** The results for a destination with a host name are not sent for part of
    the time, although its name resolves at all times and the refresher runs as
    configured, every five minutes. A refresh leaves an entry alone that has not
    expired: one that is made at [t0] is made again by the third refresh, fifteen
    minutes later, and it expires after twelve and a half. In between the
    destination is not ready, every time an entry is made. The comment says that
    the interval is shorter than the lifetime so that entries are refreshed
    before they expire. *)
Theorem delivery_gap lookup hp host (t0 now : Time) c : resolvable lookup hp host -> DNSCache.ttl c = defaultDeliveryDNSTTL ->
  match DNSCache.entries c !! host with Some e => DNSCache.expiresAt e <= t0 | None => True end ->
  let I := defaultDeliveryDNSRefreshInterval in
  let tick now c := refresh lookup now [hp] c in
  let c2 := tick (t0 + 2 * I) (tick (t0 + I) (tick t0 c)) in
  t0 + defaultDeliveryDNSTTL <= now < t0 + 3 * I ->
  DNSCache.LookupDeliveryUDPAddr now hp c2 = None /\
  match DNSCache.entries c2 !! host with Some e => DNSCache.expiresAt e <= t0 + 3 * I | None => True end.
Proof.
  intros Hr Ht He I tick c2 Hn. destruct (Resolve_miss lookup t0 hp host c Hr) as [r Hc]; [case_match; [unfold Before; lia|done]|].
  set (c0 := tick t0 c) in *. rewrite Ht in Hc.
  assert (H0 : DNSCache.entries c0 !! host = Some (DNSCache.mkEntry r (TimeAdd t0 defaultDeliveryDNSTTL))).
  { unfold c0, tick, refresh. cbn [foldl]. rewrite Hc. apply lookup_insert_eq. }
  assert (HI : defaultDeliveryDNSTTL = 750 * Second /\ I = 300 * Second) by done. destruct HI as [HT HI]. unfold Second in *.
  assert (H1 : tick (t0 + I) c0 = c0)
    by (eapply (Resolve_fresh lookup _ hp host); [done|exact H0|cbn; unfold Before, TimeAdd; lia]).
  assert (H2 : c2 = c0)
    by (unfold c2; rewrite H1; eapply (Resolve_fresh lookup _ hp host); [done|exact H0|cbn; unfold Before, TimeAdd; lia]).
  rewrite H2, H0. split; [|cbn; unfold TimeAdd; lia]. eapply Lookup_expired; [done|exact H0|]. cbn. unfold Before, TimeAdd. lia.
Qed.

(** ** Parents *)

Definition parentDiscoveryFullRefreshEvery : Z := 5.

Record ParentUpdate := mkParentUpdate { Authorities : gmap bytes bytes; AllowedKeys : list bytes }.
Record ParentDiscovery := mkParentDiscovery { cachedParentDevices : list bytes; parentTicks : Z }.
Definition emptyUpdate : ParentUpdate := mkParentUpdate ∅ [].

(** What fetching the probe's account gives. *)
Inductive probe_fetch := ProbeNotFound | ProbeFetchFailed | ProbeFound (probe : GeoProbe.t).

(** What a request for an account gives: the owner and the data, if there is
    one. *)
Inductive rpc_result := RpcNotFound | RpcFailed | RpcValue (account : option (bytes * bytes)).

Definition GetGeoProbeByPubkey (programID : bytes) (r : rpc_result) : probe_fetch :=
  match r with
  | RpcNotFound | RpcValue None => ProbeNotFound
  | RpcFailed => ProbeFetchFailed
  | RpcValue (Some (owner, data)) =>
      if bool_decide (owner <> programID) then ProbeFetchFailed
      else match DeserializeGeoProbe data with Some probe => ProbeFound probe | None => ProbeFetchFailed end
  end.

(** The device's key for metrics is all that is used of it. *)
Definition GetDevice (programID pubkey : bytes) (r : rpc_result) : option Device.t :=
  match r with
  | RpcValue (Some (owner, data)) =>
      if bool_decide (owner <> programID) then None
      else if (length data =? 0)%nat then None
      else Some ((DeserializeDevice data 0%nat).1 <| Device.PubKey := pubkey |>)
  | _ => None
  end.

Section Parents.
(** [resolve] is the metrics publisher key of a device, if it can be fetched. *)
Context (resolve : bytes -> option bytes).

Definition resolve_parents (parents : list bytes) : ParentUpdate :=
  foldl (fun u pk => match resolve pk with
    | None => u
    | Some publisher => if bool_decide (publisher = replicate 32 0) then u else mkParentUpdate (<[pk := publisher]> (Authorities u)) (AllowedKeys u ++ [publisher])
    end) emptyUpdate parents.

(** The counter of target updates that is published, and the update, if any. *)
Definition discover_parents (fetch : probe_fetch) (d : ParentDiscovery) : ParentDiscovery * option Z * option ParentUpdate :=
  let forceFullRefresh := Z.rem (parentTicks d) parentDiscoveryFullRefreshEvery =? 0 in
  let d := mkParentDiscovery (cachedParentDevices d) (u64 (parentTicks d + 1)) in
  match fetch with
  | ProbeNotFound => (d, None, Some emptyUpdate)
  | ProbeFetchFailed => (d, None, None)
  | ProbeFound probe =>
      let count := Some (GeoProbe.TargetUpdateCount probe) in
      if negb forceFullRefresh && bool_decide (cachedParentDevices d = GeoProbe.ParentDevices probe) then (d, count, None)
      else (mkParentDiscovery (GeoProbe.ParentDevices probe) (parentTicks d), count, Some (resolve_parents (GeoProbe.ParentDevices probe)))
  end.
End Parents.

(** ** Targets *)

Definition targetDiscoveryFullRefreshEvery : Z := 5.

Record TargetUpdate := mkTargetUpdate { Targets : list ProbeAddress; DeliveryAddrs : gmap ProbeAddress bytes }.
Record TargetDiscovery := mkTargetDiscovery {
  geoProbePubkey : bytes;
  cachedTargets : list ProbeAddress;
  cachedIcmpTargets : list ProbeAddress;
  cachedInboundKeys : list bytes;
  cachedOutboundDelivery : gmap ProbeAddress bytes;
  cachedIcmpDelivery : gmap ProbeAddress bytes;
  targetTicks : Z;
  lastSeenTargetUpdateCount : Z
}.
#[global] Instance TargetDiscovery_eta : RecordEta TargetDiscovery := {
  eta_record := fun r => mkTargetDiscovery (geoProbePubkey r) (cachedTargets r) (cachedIcmpTargets r) (cachedInboundKeys r) (cachedOutboundDelivery r)
    (cachedIcmpDelivery r) (targetTicks r) (lastSeenTargetUpdateCount r);
  eta_record_id := fun r => match r with mkTargetDiscovery _ _ _ _ _ _ _ _ => eq_refl end
}.
Definition NewTargetDiscovery (pk : bytes) : TargetDiscovery := mkTargetDiscovery pk [] [] [] ∅ ∅ 0 0.

Definition targetToProbeAddress (t : GeolocationTarget.t) : ProbeAddress :=
  mkAddr (IP_String (GeolocationTarget.IPAddress t)) (GeolocationTarget.LocationOffsetPort t) DefaultGeoprobeTWAMPPort.
Definition icmpTargetToProbeAddress (t : GeolocationTarget.t) : ProbeAddress :=
  let port := GeolocationTarget.LocationOffsetPort t in
  mkAddr (IP_String (GeolocationTarget.IPAddress t)) (if port =? 0 then DefaultGeoprobeUDPPort else port) 0.

(** What a scan collects; an empty list is Go's nil. *)
Record scan := mkScan {
  sc_targets : list ProbeAddress;
  sc_icmp : list ProbeAddress;
  sc_keys : list bytes;
  sc_outbound : gmap ProbeAddress bytes;
  sc_icmpDelivery : gmap ProbeAddress bytes
}.
#[global] Instance scan_eta : RecordEta scan := {
  eta_record := fun r => mkScan (sc_targets r) (sc_icmp r) (sc_keys r) (sc_outbound r) (sc_icmpDelivery r);
  eta_record_id := fun r => match r with mkScan _ _ _ _ _ => eq_refl end
}.
Definition empty_scan : scan := mkScan [] [] [] ∅ ∅.

Definition add_delivery (addr : ProbeAddress) (resultDest : bytes) (m : gmap ProbeAddress bytes) : gmap ProbeAddress bytes :=
  if bool_decide (resultDest = []) then m else <[addr := resultDest]> m.

Definition scan_target (probePK resultDest : bytes) (s : scan) (target : GeolocationTarget.t) : scan :=
  if bool_decide (GeolocationTarget.GeoProbePK target <> probePK) then s
  else
    let ty := GeolocationTarget.TargetType target in
    if ty =? GeoLocationTargetTypeOutbound then
      let addr := targetToProbeAddress target in
      if negb (is_ok (Validate addr)) || negb (is_ok (ValidateScope addr)) then s
      else s <| sc_targets := sc_targets s ++ [addr] |> <| sc_outbound := add_delivery addr resultDest (sc_outbound s) |>
    else if ty =? GeoLocationTargetTypeInbound then
      let key := GeolocationTarget.TargetPK target in
      if bool_decide (key ∈ sc_keys s) then s else s <| sc_keys := sc_keys s ++ [key] |>
    else if ty =? GeoLocationTargetTypeOutboundIcmp then
      let addr := icmpTargetToProbeAddress target in
      if negb (is_ok (ValidateICMP addr)) || negb (is_ok (ValidateScope addr)) then s
      else s <| sc_icmp := sc_icmp s ++ [addr] |> <| sc_icmpDelivery := add_delivery addr resultDest (sc_icmpDelivery s) |>
    else s.

Definition eligible (user : GeolocationUser.t) : bool :=
  (GeolocationUser.Status user =? GeolocationUserStatusActivated) && (GeolocationUser.PaymentStatus user =? GeolocationPaymentStatusPaid).
Definition result_destination (user : GeolocationUser.t) : bytes :=
  let dest := GeolocationUser.ResultDestination user in
  match SplitHostPort dest with None => [] | Some _ => dest end.
Definition scan_user (probePK : bytes) (s : scan) (user : bytes * GeolocationUser.t) : scan :=
  if eligible user.2 then foldl (scan_target probePK (result_destination user.2)) s (GeolocationUser.Targets user.2) else s.
Definition scan_users (probePK : bytes) (users : list (bytes * GeolocationUser.t)) : scan := foldl (scan_user probePK) empty_scan users.

(** [count] is the counter that the parent discovery publishes. *)
Definition discover_targets (count : Z) (users : option (list (bytes * GeolocationUser.t))) (d : TargetDiscovery) : TargetDiscovery * option scan :=
  let forceFullRefresh := Z.rem (targetTicks d) targetDiscoveryFullRefreshEvery =? 0 in
  let d := d <| targetTicks := u64 (targetTicks d + 1) |> in
  if negb forceFullRefresh && (count =? lastSeenTargetUpdateCount d) && (1 <? targetTicks d) then (d, Some empty_scan)
  else
    let d := if negb forceFullRefresh then d <| lastSeenTargetUpdateCount := count |> else d in
    match users with
    | None => (d, None)
    | Some users => (d <| lastSeenTargetUpdateCount := count |>, Some (scan_users (geoProbePubkey d) users))
    end.

Definition probeAddressSlicesEqual (a b : list ProbeAddress) : bool :=
  (length a =? length b)%nat && bool_decide (merge_sort bytes_le (addr_String <$> a) = merge_sort bytes_le (addr_String <$> b)).
Definition deliveryAddrsEqual (a b : gmap ProbeAddress bytes) : bool := bool_decide (a = b).
Definition keySlicesEqual (a b : list bytes) : bool := (length a =? length b)%nat && forallb (fun k => bool_decide (k ∈ a)) b.

(** What is offered to the three channels. *)
Record updates := mkUpdates { up_targets : option TargetUpdate; up_keys : option (list bytes); up_icmp : option TargetUpdate }.

Definition discoverAndSend (count : Z) (users : option (list (bytes * GeolocationUser.t))) (d : TargetDiscovery) : TargetDiscovery * updates :=
  let '(d, found) := discover_targets count users d in
  match found with
  | None => (d, mkUpdates None None None)
  | Some s =>
      if bool_decide (sc_targets s = []) && bool_decide (sc_keys s = []) && bool_decide (sc_icmp s = []) then (d, mkUpdates None None None)
      else
        let '(d, t) := if negb (probeAddressSlicesEqual (sc_targets s) (cachedTargets d)) || negb (deliveryAddrsEqual (sc_outbound s) (cachedOutboundDelivery d))
          then (d <| cachedTargets := sc_targets s |> <| cachedOutboundDelivery := sc_outbound s |>, Some (mkTargetUpdate (sc_targets s) (sc_outbound s)))
          else (d, None) in
        let '(d, k) := if negb (keySlicesEqual (sc_keys s) (cachedInboundKeys d))
          then (d <| cachedInboundKeys := sc_keys s |>, Some (sc_keys s)) else (d, None) in
        let '(d, i) := if negb (probeAddressSlicesEqual (sc_icmp s) (cachedIcmpTargets d)) || negb (deliveryAddrsEqual (sc_icmpDelivery s) (cachedIcmpDelivery d))
          then (d <| cachedIcmpTargets := sc_icmp s |> <| cachedIcmpDelivery := sc_icmpDelivery s |>, Some (mkTargetUpdate (sc_icmp s) (sc_icmpDelivery s)))
          else (d, None) in
        (d, mkUpdates t k i)
  end.

(** ** What a scan finds *)

(** A target of this probe, of an activated and paid user. *)
Definition assigned (probePK : bytes) (users : list (bytes * GeolocationUser.t)) (ty : Z) (t : GeolocationTarget.t) : Prop :=
  exists user, user ∈ users /\ GeolocationUser.Status user.2 = GeolocationUserStatusActivated /\
    GeolocationUser.PaymentStatus user.2 = GeolocationPaymentStatusPaid /\ t ∈ GeolocationUser.Targets user.2 /\
    GeolocationTarget.GeoProbePK t = probePK /\ GeolocationTarget.TargetType t = ty.

(** The targets that a scan has seen. *)
Definition seen_targets (probePK : bytes) (users : list (bytes * GeolocationUser.t)) : list GeolocationTarget.t :=
  filter (fun t => GeolocationTarget.GeoProbePK t = probePK) (users ≫= fun user => if eligible user.2 then GeolocationUser.Targets user.2 else []).

Lemma seen_assigned probePK users ty t : t ∈ seen_targets probePK users /\ GeolocationTarget.TargetType t = ty <-> assigned probePK users ty t.
Proof.
  unfold seen_targets, assigned. rewrite list_elem_of_filter, list_elem_of_bind. split.
  - intros [[Hk (u & Ht & Hu)] Hty]. destruct (eligible u.2) eqn:He; [|by apply not_elem_of_nil in Ht].
    unfold eligible in He. exists u. split_and!; [done|lia|lia|done..].
  - intros (u & Hu & He & Hp & Ht & Hk & Hty). split; [|done]. split; [done|]. exists u. unfold eligible. by rewrite He, Hp.
Qed.

Definition outbound_ok (a : ProbeAddress) : bool := is_ok (Validate a) && is_ok (ValidateScope a).
Definition icmp_ok (a : ProbeAddress) : bool := is_ok (ValidateICMP a) && is_ok (ValidateScope a).
Definition of_type (ty : Z) (ts : list GeolocationTarget.t) : list GeolocationTarget.t := filter (fun t => GeolocationTarget.TargetType t = ty) ts.

(** The lists that a scan collects from the targets [ts]. *)
Record scan_of (ts : list GeolocationTarget.t) (s : scan) : Prop := mk_scan_of {
  so_targets : sc_targets s = filter (fun a => outbound_ok a = true) (targetToProbeAddress <$> of_type GeoLocationTargetTypeOutbound ts);
  so_icmp : sc_icmp s = filter (fun a => icmp_ok a = true) (icmpTargetToProbeAddress <$> of_type GeoLocationTargetTypeOutboundIcmp ts);
  so_keys : NoDup (sc_keys s) /\ forall k, k ∈ sc_keys s <-> exists t, t ∈ of_type GeoLocationTargetTypeInbound ts /\ GeolocationTarget.TargetPK t = k;
  so_outbound : forall a, a ∈ dom (sc_outbound s) -> a ∈ sc_targets s;
  so_icmpDelivery : forall a, a ∈ dom (sc_icmpDelivery s) -> a ∈ sc_icmp s
}.

Lemma of_type_eq ty ts t : GeolocationTarget.TargetType t = ty -> of_type ty (ts ++ [t]) = of_type ty ts ++ [t].
Proof. intros H. unfold of_type. rewrite filter_app. f_equal. by rewrite filter_cons_True. Qed.
Lemma of_type_ne ty ts t : GeolocationTarget.TargetType t <> ty -> of_type ty (ts ++ [t]) = of_type ty ts.
Proof. intros H. unfold of_type. rewrite filter_app, filter_cons_False, filter_nil by done. apply app_nil_r. Qed.

Lemma filter_snoc_ok (f : ProbeAddress -> bool) l a : filter (fun a => f a = true) (l ++ [a]) = filter (fun a => f a = true) l ++ (if f a then [a] else []).
Proof. rewrite filter_app. f_equal. rewrite filter_cons. by destruct (f a); [rewrite decide_True|rewrite decide_False]. Qed.

Lemma dom_add_delivery addr dest m l : (forall a, a ∈ dom m -> a ∈ l) -> forall a, a ∈ dom (add_delivery addr dest m) -> a ∈ l ++ [addr].
Proof. intros H a. unfold add_delivery. case_bool_decide; [|rewrite dom_insert]; set_solver. Qed.

(** A target of each type, and one of another. *)
Lemma scan_outbound probePK dest ts s t : GeolocationTarget.GeoProbePK t = probePK -> GeolocationTarget.TargetType t = GeoLocationTargetTypeOutbound ->
  scan_of ts s -> scan_of (ts ++ [t]) (scan_target probePK dest s t).
Proof.
  intros Hk E [H1 H2 H3 H4 H5]. unfold scan_target. rewrite bool_decide_eq_false_2 by (by intros []). rewrite E. cbn [Z.eqb GeoLocationTargetTypeOutbound].
  rewrite <- negb_andb. fold (outbound_ok (targetToProbeAddress t)).
  destruct (outbound_ok (targetToProbeAddress t)) eqn:Ho; cbn [negb]; constructor; cbn;
    rewrite ?(of_type_eq GeoLocationTargetTypeOutbound), ?(of_type_ne GeoLocationTargetTypeInbound), ?(of_type_ne GeoLocationTargetTypeOutboundIcmp)
      by (by rewrite ?E); try done.
  - by rewrite fmap_app, list_fmap_singleton, filter_snoc_ok, Ho, <- H1.
  - by apply dom_add_delivery.
  - by rewrite fmap_app, list_fmap_singleton, filter_snoc_ok, Ho, app_nil_r.
Qed.

Lemma scan_outbound_icmp probePK dest ts s t : GeolocationTarget.GeoProbePK t = probePK -> GeolocationTarget.TargetType t = GeoLocationTargetTypeOutboundIcmp ->
  scan_of ts s -> scan_of (ts ++ [t]) (scan_target probePK dest s t).
Proof.
  intros Hk E [H1 H2 H3 H4 H5]. unfold scan_target. rewrite bool_decide_eq_false_2 by (by intros []). rewrite E. cbn [Z.eqb GeoLocationTargetTypeOutboundIcmp GeoLocationTargetTypeOutbound GeoLocationTargetTypeInbound Pos.eqb].
  rewrite <- negb_andb. fold (icmp_ok (icmpTargetToProbeAddress t)).
  destruct (icmp_ok (icmpTargetToProbeAddress t)) eqn:Ho; cbn [negb]; constructor; cbn;
    rewrite ?(of_type_eq GeoLocationTargetTypeOutboundIcmp), ?(of_type_ne GeoLocationTargetTypeInbound), ?(of_type_ne GeoLocationTargetTypeOutbound)
      by (by rewrite ?E); try done.
  - by rewrite fmap_app, list_fmap_singleton, filter_snoc_ok, Ho, <- H2.
  - by apply dom_add_delivery.
  - by rewrite fmap_app, list_fmap_singleton, filter_snoc_ok, Ho, app_nil_r.
Qed.

Lemma scan_inbound probePK dest ts s t : GeolocationTarget.GeoProbePK t = probePK -> GeolocationTarget.TargetType t = GeoLocationTargetTypeInbound ->
  scan_of ts s -> scan_of (ts ++ [t]) (scan_target probePK dest s t).
Proof.
  intros Hk E [H1 H2 [H3 H3'] H4 H5]. unfold scan_target. rewrite bool_decide_eq_false_2 by (by intros []). rewrite E. cbn [Z.eqb GeoLocationTargetTypeInbound GeoLocationTargetTypeOutbound Pos.eqb].
  case_bool_decide as Hin; constructor; cbn;
    rewrite ?(of_type_eq GeoLocationTargetTypeInbound), ?(of_type_ne GeoLocationTargetTypeOutboundIcmp), ?(of_type_ne GeoLocationTargetTypeOutbound)
      by (by rewrite ?E); try done.
  - split; [done|]. intros k. rewrite H3'. setoid_rewrite elem_of_app. setoid_rewrite list_elem_of_singleton. split; [naive_solver|].
    intros (t' & [Ht| ->] & <-); [by eauto|]. by apply H3'.
  - split; [apply NoDup_app; split_and!; [done|set_solver|apply NoDup_singleton]|].
    intros k. rewrite elem_of_app, H3', list_elem_of_singleton. setoid_rewrite elem_of_app. setoid_rewrite list_elem_of_singleton. naive_solver.
Qed.

Lemma scan_other probePK dest ts s t : GeolocationTarget.TargetType t <> GeoLocationTargetTypeOutbound -> GeolocationTarget.TargetType t <> GeoLocationTargetTypeInbound ->
  GeolocationTarget.TargetType t <> GeoLocationTargetTypeOutboundIcmp -> scan_of ts s -> scan_of (ts ++ [t]) (scan_target probePK dest s t).
Proof.
  intros E0 E1 E2 [H1 H2 H3 H4 H5]. unfold scan_target. cbv zeta.
  rewrite (proj2 (Z.eqb_neq _ _) E0), (proj2 (Z.eqb_neq _ _) E1), (proj2 (Z.eqb_neq _ _) E2).
  by case_bool_decide; constructor; rewrite ?of_type_ne.
Qed.

Lemma scan_target_ok probePK dest ts s t : scan_of ts s ->
  scan_of (ts ++ filter (fun t => GeolocationTarget.GeoProbePK t = probePK) [t]) (scan_target probePK dest s t).
Proof.
  intros H. rewrite filter_cons, filter_nil. destruct (decide (GeolocationTarget.GeoProbePK t = probePK)) as [Hk|Hk].
  - destruct (decide (GeolocationTarget.TargetType t = GeoLocationTargetTypeOutbound)); [by apply scan_outbound|].
    destruct (decide (GeolocationTarget.TargetType t = GeoLocationTargetTypeInbound)); [by apply scan_inbound|].
    destruct (decide (GeolocationTarget.TargetType t = GeoLocationTargetTypeOutboundIcmp)); [by apply scan_outbound_icmp|by apply scan_other].
  - unfold scan_target. rewrite app_nil_r, bool_decide_eq_true_2 by done. done.
Qed.

Lemma scan_users_ok probePK users : scan_of (seen_targets probePK users) (scan_users probePK users).
Proof.
  unfold scan_users, seen_targets. assert (H0 : scan_of [] empty_scan).
  { constructor; [done|done| |intros a; cbn; by rewrite dom_empty_L, elem_of_empty..]. split; [constructor|]. intros k. split; [by intros ?%not_elem_of_nil|by intros (t & ?%not_elem_of_nil & _)]. }
  enough (H : forall ts s, scan_of ts s -> scan_of (ts ++ filter (fun t => GeolocationTarget.GeoProbePK t = probePK)
    (users ≫= fun user => if eligible user.2 then GeolocationUser.Targets user.2 else [])) (foldl (scan_user probePK) s users)) by apply (H [] _ H0).
  induction users as [|user users IH]; intros ts s Hs; [by rewrite app_nil_r|]. cbn [foldl]. rewrite bind_cons, filter_app, app_assoc. apply IH.
  unfold scan_user. destruct (eligible user.2); [|by rewrite app_nil_r]. clear IH. revert ts s Hs.
  induction (GeolocationUser.Targets user.2) as [|t l IH]; intros ts s Hs; [by rewrite app_nil_r|]. cbn [foldl].
  change (t :: l) with ([t] ++ l). rewrite filter_app, app_assoc. by apply IH, scan_target_ok.
Qed.

(** C24. What a probe measures is exactly what activated and paid users have
    assigned to it. An address is a target iff such a user has an outbound
    target with it for this probe, and it passes [Validate] and [ValidateScope],
    which lets some reserved ranges through; likewise for ICMP targets with
    [ValidateICMP]. The keys are exactly those of the inbound targets, which are
    not validated, each once. Destinations are kept for these targets only. *)
Theorem scan_exact probePK users :
  let s := scan_users probePK users in
  (forall a, a ∈ sc_targets s <-> exists t, assigned probePK users GeoLocationTargetTypeOutbound t /\ a = targetToProbeAddress t /\
     is_ok (Validate a) = true /\ is_ok (ValidateScope a) = true) /\
  (forall a, a ∈ sc_icmp s <-> exists t, assigned probePK users GeoLocationTargetTypeOutboundIcmp t /\ a = icmpTargetToProbeAddress t /\
     is_ok (ValidateICMP a) = true /\ is_ok (ValidateScope a) = true) /\
  (forall k, k ∈ sc_keys s <-> exists t, assigned probePK users GeoLocationTargetTypeInbound t /\ k = GeolocationTarget.TargetPK t) /\
  NoDup (sc_keys s) /\ (forall a, a ∈ dom (sc_outbound s) -> a ∈ sc_targets s) /\ (forall a, a ∈ dom (sc_icmpDelivery s) -> a ∈ sc_icmp s).
Proof.
  cbv zeta. destruct (scan_users_ok probePK users) as [H1 H2 [H3 H3'] H4 H5]. setoid_rewrite <- seen_assigned.
  assert (Hof : forall ty t, t ∈ of_type ty (seen_targets probePK users) <-> t ∈ seen_targets probePK users /\ GeolocationTarget.TargetType t = ty)
    by (intros ty t; unfold of_type; rewrite list_elem_of_filter; naive_solver).
  split_and!; try done.
  - intros a. rewrite H1, list_elem_of_filter, list_elem_of_fmap. unfold outbound_ok. rewrite andb_true_iff. setoid_rewrite Hof. naive_solver.
  - intros a. rewrite H2, list_elem_of_filter, list_elem_of_fmap. unfold icmp_ok. rewrite andb_true_iff. setoid_rewrite Hof. naive_solver.
  - intros k. rewrite H3'. setoid_rewrite Hof. naive_solver.
Qed.

(** ** What is sent on *)

(** Ticks of the discovery, with the counter and the users that each sees. *)
Definition tick := (Z * option (list (bytes * GeolocationUser.t)))%type.
Fixpoint run_ticks (d : TargetDiscovery) (ticks : list tick) : TargetDiscovery * list updates :=
  match ticks with
  | [] => (d, [])
  | t :: ticks => let '(d, u) := discoverAndSend t.1 t.2 d in let '(d, us) := run_ticks d ticks in (d, u :: us)
  end.

Definition no_updates : updates := mkUpdates None None None.
Definition same_caches (d d' : TargetDiscovery) : Prop :=
  geoProbePubkey d' = geoProbePubkey d /\ cachedTargets d' = cachedTargets d /\ cachedIcmpTargets d' = cachedIcmpTargets d /\ cachedInboundKeys d' = cachedInboundKeys d.

Lemma discover_targets_spec count users d : let '(d', found) := discover_targets count users d in
  same_caches d d' /\ cachedOutboundDelivery d' = cachedOutboundDelivery d /\ cachedIcmpDelivery d' = cachedIcmpDelivery d /\
  (found = None /\ users = None \/ found = Some empty_scan \/ exists us, users = Some us /\ found = Some (scan_users (geoProbePubkey d) us)).
Proof.
  unfold discover_targets, same_caches. destruct (negb _ && _ && _); [by split_and!; auto|]. destruct users as [us|], (negb _); split_and!; eauto.
Qed.

Definition nothing (s : scan) : Prop := sc_targets s = [] /\ sc_keys s = [] /\ sc_icmp s = [].

Lemma nothing_assigned probePK users : (forall ty t, ~ assigned probePK users ty t) -> nothing (scan_users probePK users).
Proof.
  intros H. assert (Hs : seen_targets probePK users = []).
  { destruct (seen_targets probePK users) as [|t l] eqn:Ht; [done|]. exfalso. apply (H (GeolocationTarget.TargetType t) t), seen_assigned.
    rewrite Ht. split; [by left|done]. }
  destruct (scan_users_ok probePK users) as [H1 H2 [_ H3] _ _]. rewrite Hs in H1, H2, H3. split_and!; [done| |done].
  destruct (sc_keys (scan_users probePK users)) as [|k l]; [done|]. destruct (proj1 (H3 k)) as (t & Ht & _); [by left|]. by apply not_elem_of_nil in Ht.
Qed.

Lemma send_nothing count users d : (forall us, users = Some us -> nothing (scan_users (geoProbePubkey d) us)) ->
  let '(d', u) := discoverAndSend count users d in same_caches d d' /\ u = no_updates.
Proof.
  intros H. unfold discoverAndSend. pose proof (discover_targets_spec count users d) as Hd.
  destruct (discover_targets count users d) as [d' found]. destruct Hd as (Hs & _ & _ & [[-> _]|[->|(us & Hus & ->)]]); [done|done|].
  destruct (H us Hus) as (-> & -> & ->). done.
Qed.

(** C40. A probe never learns that its last target was removed. Once no user has
    a target for the probe, its scans find nothing, which is taken for a scan
    that was skipped: no update is sent, at this tick or at any later one, as
    long as nothing is assigned to the probe. It goes on measuring the targets,
    and accepting the keys, that it had last. *)
Theorem last_target_never_removed d ticks : Forall (fun t : tick => forall us, t.2 = Some us -> forall ty g, ~ assigned (geoProbePubkey d) us ty g) ticks ->
  let '(d', us) := run_ticks d ticks in Forall (fun u => u = no_updates) us /\ length us = length ticks /\
    cachedTargets d' = cachedTargets d /\ cachedIcmpTargets d' = cachedIcmpTargets d /\ cachedInboundKeys d' = cachedInboundKeys d.
Proof.
  revert d. induction ticks as [|t ticks IH]; intros d H; [done|]. apply Forall_cons in H as [Ht H]. cbn [run_ticks].
  pose proof (send_nothing t.1 t.2 d (fun us E => nothing_assigned _ _ (Ht us E))) as Hs.
  destruct (discoverAndSend t.1 t.2 d) as [d1 u]. destruct Hs as [(Hk & H1 & H2 & H3) ->]. rewrite <- Hk in H. specialize (IH d1 H).
  destruct (run_ticks d1 ticks) as [d' us]. destruct IH as (I1 & I2 & I3 & I4 & I5). split_and!; [by constructor|cbn; lia|congruence..].
Qed.

(** The discovery has recorded the scan. *)
Definition recorded (s : scan) (d : TargetDiscovery) : Prop :=
  probeAddressSlicesEqual (sc_targets s) (cachedTargets d) = true /\ cachedOutboundDelivery d = sc_outbound s /\
  keySlicesEqual (sc_keys s) (cachedInboundKeys d) = true /\
  probeAddressSlicesEqual (sc_icmp s) (cachedIcmpTargets d) = true /\ cachedIcmpDelivery d = sc_icmpDelivery s.

Lemma addresses_refl l : probeAddressSlicesEqual l l = true.
Proof. unfold probeAddressSlicesEqual. by rewrite Nat.eqb_refl, bool_decide_eq_true_2. Qed.
Lemma keys_refl l : keySlicesEqual l l = true.
Proof. unfold keySlicesEqual. rewrite Nat.eqb_refl. cbn. apply forallb_forall. intros k Hk%list_elem_of_In. by apply bool_decide_eq_true_2. Qed.

Lemma forced_scan count us d : Z.rem (targetTicks d) targetDiscoveryFullRefreshEvery = 0 ->
  (discover_targets count (Some us) d).2 = Some (scan_users (geoProbePubkey d) us).
Proof. intros H. unfold discover_targets. by rewrite H. Qed.

Lemma send_records count us d : Z.rem (targetTicks d) targetDiscoveryFullRefreshEvery = 0 ->
  let s := scan_users (geoProbePubkey d) us in let d' := (discoverAndSend count (Some us) d).1 in
  geoProbePubkey d' = geoProbePubkey d /\ (nothing s \/ recorded s d').
Proof.
  intros Hf. cbv zeta. unfold discoverAndSend. pose proof (discover_targets_spec count (Some us) d) as Hd. pose proof (forced_scan count us d Hf) as Hs.
  destruct (discover_targets count (Some us) d) as [d1 found]. cbn [snd] in Hs. subst found. destruct Hd as ((Hk & _) & _).
  set (s := scan_users (geoProbePubkey d) us). destruct (bool_decide (sc_targets s = []) && _ && _) eqn:Hn.
  { apply andb_true_iff in Hn as [[H1%bool_decide_eq_true_1 H2%bool_decide_eq_true_1]%andb_true_iff H3%bool_decide_eq_true_1]. split; [done|by left]. }
  unfold recorded, deliveryAddrsEqual. destruct d1 as [pk ct ci ck co cd n l]. cbn in Hk. subst pk. cbn.
  assert (F : forall (b1 : bool) (m m' : gmap ProbeAddress bytes), negb b1 || negb (bool_decide (m = m')) = false -> b1 = true /\ m' = m).
  { intros [] m m' H; [|done]. case_bool_decide; done. }
  destruct (negb (probeAddressSlicesEqual (sc_targets s) ct) || _) eqn:C1; cbn; destruct (negb (keySlicesEqual (sc_keys s) ck)) eqn:C2; cbn;
    destruct (negb (probeAddressSlicesEqual (sc_icmp s) ci) || _) eqn:C3; cbn; (split; [done|right]);
    try apply F in C1 as [-> ->]; try apply F in C3 as [-> ->]; try apply negb_false_iff in C2 as ->; rewrite ?addresses_refl, ?keys_refl; done.
Qed.

Lemma recorded_silent count us d : recorded (scan_users (geoProbePubkey d) us) d -> (discoverAndSend count (Some us) d).2 = no_updates.
Proof.
  intros (H1 & H2 & H3 & H4 & H5). unfold discoverAndSend. pose proof (discover_targets_spec count (Some us) d) as Hd.
  destruct (discover_targets count (Some us) d) as [d1 found]. destruct Hd as ((_ & Ht & Hi & Hk) & Ho & Hc & [[_ ?]|[->|(us' & [= <-] & ->)]]); [done|done|].
  case_match; [done|]. rewrite <- Ht in H1. rewrite <- Hk in H3. rewrite <- Hi in H4. rewrite <- Ho in H2. rewrite <- Hc in H5.
  unfold deliveryAddrsEqual. rewrite H1, H2, bool_decide_eq_true_2 by done. cbn. rewrite H3. cbn. by rewrite H4, H5, bool_decide_eq_true_2 by done.
Qed.

(** What was found once is not sent again as long as it stays the same, whether
    or not there was room for it in the channel. *)
Lemma sent_once count count' us d : Z.rem (targetTicks d) targetDiscoveryFullRefreshEvery = 0 ->
  (discoverAndSend count' (Some us) (discoverAndSend count (Some us) d).1).2 = no_updates.
Proof.
  intros Hf. destruct (send_records count us d Hf) as [Hk [Hn|Hr]].
  - pose proof (send_nothing count' (Some us) (discoverAndSend count (Some us) d).1) as Hs. rewrite Hk in Hs.
    destruct (discoverAndSend count' (Some us) _) as [d2 u]. apply Hs. by intros us' [= <-].
  - apply recorded_silent. by rewrite Hk.
Qed.

(** ** Parents *)

Lemma resolve_parents_spec resolve parents pk publisher :
  Authorities (resolve_parents resolve parents) !! pk = Some publisher <->
  pk ∈ parents /\ resolve pk = Some publisher /\ publisher <> replicate 32 0.
Proof.
  unfold resolve_parents. induction parents as [|x parents IH] using rev_ind; [cbn; rewrite lookup_empty; split; [done|by intros [?%not_elem_of_nil _]]|].
  rewrite foldl_snoc, elem_of_app, list_elem_of_singleton. set (u := foldl _ _ _) in *. destruct (resolve x) as [p|] eqn:Hx.
  - case_bool_decide as Hz; cbn [Authorities].
    + rewrite IH. split; [naive_solver|]. intros [[Hp| ->] [Hr Hn]]; [done|]. congruence.
    + destruct (decide (pk = x)) as [->|Hne]; [rewrite lookup_insert_eq|rewrite lookup_insert_ne, IH by done]; naive_solver.
  - rewrite IH. naive_solver.
Qed.

(** ** ICMP targets

    The pinger keeps them by host. *)

Module ICMPPinger.
Definition AddProbe (addr : ProbeAddress) (p : gmap bytes ProbeAddress) : res addr_error (gmap bytes ProbeAddress) :=
  match ValidateICMP addr with
  | Ok _ => match p !! Host addr with Some _ => Ok p | None => Ok (<[Host addr := addr]> p) end
  | Err e => Err e
  | Panic => Panic
  end.
Definition RemoveProbe (addr : ProbeAddress) (p : gmap bytes ProbeAddress) : gmap bytes ProbeAddress := delete (Host addr) p.

(** What a receive gives: nothing after a wakeup without data, an error or the
    end of the time, a datagram that is no echo reply, or one. *)
Inductive recv_event := Again | Failed | NoReply | EchoReply (id seq : Z) (rxTime : Time).

Record pendingProbe := mkPending { p_addr : ProbeAddress; txTime : Time }.

Definition rtt_of (rx tx : Time) : Z := Z.max (TimeSub rx tx) 0.

Section Echo.
Context (id : Z).

(** Replies are matched with the pending probes until none is left. *)
Fixpoint readReplies (events : list recv_event) (pending : gmap Z pendingProbe) (results : gmap ProbeAddress Z) : gmap Z pendingProbe * gmap ProbeAddress Z :=
  if (size pending =? 0)%nat then (pending, results)
  else match events with
       | [] | Failed :: _ => (pending, results)
       | EchoReply i seq rx :: events =>
           if negb (i =? id) then readReplies events pending results
           else match pending !! u16 seq with
                | None => readReplies events pending results
                | Some pp => readReplies events (delete (u16 seq) pending) (<[p_addr pp := rtt_of rx (txTime pp)]> results)
                end
       | _ :: events => readReplies events pending results
       end.

(** A single probe: [sent] is the time at which it was sent. *)
Fixpoint await (seq : Z) (tx : Time) (events : list recv_event) : option Z :=
  match events with
  | [] | Failed :: _ => None
  | EchoReply i s rx :: events => if negb (i =? id) || negb (u16 s =? seq) then await seq tx events else Some (rtt_of rx tx)
  | _ :: events => await seq tx events
  end.
Definition MeasureOne (addr : ProbeAddress) (seq : Z) (sent : option Time) (events : list recv_event) (p : gmap bytes ProbeAddress) : option Z :=
  match p !! Host addr with
  | None => None
  | Some _ => tx ← sent; await (u16 seq) tx events
  end.

(** The requests of a batch: the sequence number grows with each, also with one
    that cannot be sent. *)
Fixpoint send_batch (batch : list (ProbeAddress * option Time)) (seq : Z) (pending : gmap Z pendingProbe) : Z * gmap Z pendingProbe :=
  match batch with
  | [] => (seq, pending)
  | (addr, sent) :: batch =>
      let seq := u32 (seq + 1) in
      send_batch batch seq (match sent with Some tx => <[u16 seq := mkPending addr tx]> pending | None => pending end)
  end.
(** [batches] are the entries in batches, each with its sending times and with
    what is received after it. *)
Fixpoint measure_batches (batches : list (list (ProbeAddress * option Time) * list recv_event)) (seq : Z) (pending : gmap Z pendingProbe)
    (results : gmap ProbeAddress Z) : Z * gmap ProbeAddress Z :=
  match batches with
  | [] => (seq, results)
  | (batch, events) :: batches =>
      let '(seq, pending) := send_batch batch seq pending in
      let '(pending, results) := readReplies events pending results in
      measure_batches batches seq pending results
  end.
Definition MeasureAll (batches : list (list (ProbeAddress * option Time) * list recv_event)) (seq : Z) : Z * gmap ProbeAddress Z :=
  measure_batches batches seq ∅ ∅.
End Echo.
End ICMPPinger.

(** Only the addresses that were asked are measured. *)
Lemma readReplies_dom id events (P : ProbeAddress -> Prop) : forall pending results,
  map_Forall (fun _ pp => P (ICMPPinger.p_addr pp)) pending -> map_Forall (fun a _ => P a) results ->
  let '(pending', results') := ICMPPinger.readReplies id events pending results in
  map_Forall (fun _ pp => P (ICMPPinger.p_addr pp)) pending' /\ map_Forall (fun a _ => P a) results'.
Proof.
  induction events as [|e events IH]; intros pending results Hp Hr; cbn [ICMPPinger.readReplies]; (destruct (size pending =? 0)%nat; [done|]); [done|].
  destruct e as [| | |i seq rx]; [by apply IH|done|by apply IH|]. destruct (negb (i =? id)); [by apply IH|].
  destruct (pending !! u16 seq) as [pp|] eqn:Hpp; [|by apply IH]. apply IH; [by apply map_Forall_delete|].
  apply map_Forall_insert_2; [by apply (Hp (u16 seq))|done].
Qed.

Lemma icmp_measures_asked id batches (P : ProbeAddress -> Prop) : Forall (fun b => Forall (fun e => P e.1) b.1) batches ->
  forall seq, map_Forall (fun a _ => P a) (ICMPPinger.MeasureAll id batches seq).2.
Proof.
  intros H seq. unfold ICMPPinger.MeasureAll. assert (H1 : map_Forall (fun (_ : Z) pp => P (ICMPPinger.p_addr pp)) ∅) by apply map_Forall_empty.
  assert (H2 : map_Forall (fun a (_ : Z) => P a) ∅) by apply map_Forall_empty. revert seq H1 H2.
  generalize (∅ : gmap Z ICMPPinger.pendingProbe) as pending, (∅ : gmap ProbeAddress Z) as results.
  induction H as [|[batch events] batches Hb _ IH]; intros pending results seq H1 H2; [done|]. cbn [ICMPPinger.measure_batches].
  assert (Hs : map_Forall (fun (_ : Z) pp => P (ICMPPinger.p_addr pp)) (ICMPPinger.send_batch batch seq pending).2).
  { clear -Hb H1. cbn [fst] in Hb. revert seq pending H1. induction Hb as [|[a [tx|]] batch Ha _ IH]; intros seq pending H1; [done| |];
      cbn [ICMPPinger.send_batch]; apply IH; [|done]. by apply map_Forall_insert_2. }
  destruct (ICMPPinger.send_batch batch seq pending) as [seq' pending']. cbn [snd] in Hs.
  pose proof (readReplies_dom id events P pending' results Hs H2) as Hr. destruct (ICMPPinger.readReplies id events pending' results) as [p2 r2].
  destruct Hr. by apply IH.
Qed.

(** ** A probe and its destination *)

Module ProbeSample.
Definition destination : bytes := lit "collector.example:9000".
Definition dns : bytes -> option (list bytes) := fun _ => Some [lit "81.2.69.142"].
Definition target : ProbeAddress := mkAddr (lit "81.2.69.142") 8923 8925.
Definition discovery : TargetDiscovery := (NewTargetDiscovery (replicate 32 9)) <| cachedTargets := [target] |>.
End ProbeSample.

Lemma delivery_gap_witness :
  let tick now c := refresh ProbeSample.dns now [ProbeSample.destination] c in
  let I := defaultDeliveryDNSRefreshInterval in
  DNSCache.LookupDeliveryUDPAddr (800 * Second) ProbeSample.destination (tick (0 + 2 * I) (tick (0 + I) (tick 0 (DNSCache.New defaultDeliveryDNSTTL)))) = None.
Proof.
  cbv zeta. pose proof (delivery_gap ProbeSample.dns ProbeSample.destination (lit "collector.example") 0 (800 * Second) (DNSCache.New defaultDeliveryDNSTTL)) as H.
  cbv zeta in H. refine (proj1 (H _ _ _ _)); clear H.
  - split_and!; [exists (lit "9000"), 9000; by vm_compute|by vm_compute|]. exists (lit "81.2.69.142"), []. split_and!; by vm_compute.
  - done.
  - unfold DNSCache.New. cbn [DNSCache.entries]. by rewrite lookup_empty.
  - vm_compute. split; [by intros|done].
Defined.

Lemma last_target_never_removed_witness :
  let '(d', us) := run_ticks ProbeSample.discovery [(5, Some []); (5, Some []); (6, Some [])] in
  Forall (fun u => u = no_updates) us /\ cachedTargets d' = [ProbeSample.target].
Proof.
  pose proof (last_target_never_removed ProbeSample.discovery [(5, Some []); (5, Some []); (6, Some [])]) as H.
  destruct (run_ticks ProbeSample.discovery _) as [d' us]. destruct H as (H1 & _ & H3 & _); [|by split].
  repeat constructor; intros us' [= <-] ty g (u & Hu & _); by apply not_elem_of_nil in Hu.
Defined.
