(* ===== verification/GeoAgent.v ===== *)
(** * The probe and its targets

    Models [cmd/geoprobe-agent/main.go], the probe: it takes the offsets of its
    parents, measures its targets and sends them composite offsets; and
    [cmd/geoprobe-target/main.go], a target: it takes what the probes send. *)

From stdpp Require Import base tactics numbers list gmap.
From Stdlib Require Import ZArith Lia ZifyBool ZifyNat.
From S2P Require Import Prelude Bytes GoStrings GoCollections Routing GoNet Twamp TwampSigned GeoOffset GeoCaches GeoAccounts GeoDevice GeoDiscovery.

#[local] Open Scope Z_scope.

(** ** The listener of the probe *)

Record Agent := mkAgent { parents : gmap bytes bytes; cache : OffsetCache.t; reflector : SignedReflector }.
#[global] Instance Agent_eta : RecordEta Agent := {
  eta_record := fun r => mkAgent (parents r) (cache r) (reflector r);
  eta_record_id := fun r => match r with mkAgent _ _ _ => eq_refl end
}.

Inductive reject := OffsetReceive | RejectUnknownParent | RejectWrongAuthority | RejectInvalidSignature.

(** [range] is the order in which the cache is ranged over. *)
Definition cache_order := gmap bytes OffsetCache.cachedSender -> list (bytes * OffsetCache.cachedSender).

Section Agent.
Context {K : Type} `{!Ed25519 K} (floats : Z -> bool) (range : cache_order).

Definition set_offsets (now : Time) (a : Agent) : Agent :=
  a <| reflector := SetOffsets (OffsetCache.marshalBestOffset floats now (range (OffsetCache.entries (cache a))) (cache a)) (reflector a) |>.

(** A datagram of the offset listener. *)
Definition receive_offset (now : Time) (datagram : bytes) (a : Agent) : Agent * option reject :=
  match ReceiveOffset floats datagram with
  | Ok offset =>
      match parents a !! SenderPubkey offset with
      | None => (a, Some RejectUnknownParent)
      | Some expectedAuthority =>
          if bool_decide (expectedAuthority <> AuthorityPubkey offset) then (a, Some RejectWrongAuthority)
          else if negb (VerifyOffsetChain floats offset) then (a, Some RejectInvalidSignature)
          else (set_offsets now (a <| cache := OffsetCache.Put now offset (cache a) |>), None)
      end
  | _ => (a, Some OffsetReceive)
  end.

Definition update_parents (u : ParentUpdate) (a : Agent) : Agent := a <| parents := Authorities u |>.

(** The eviction of expired offsets. *)
Definition evict (now : Time) (a : Agent) : Agent :=
  let '(c, evicted) := OffsetCache.Evict now (cache a) in
  let a := a <| cache := c |> in
  if (0 <? evicted)%nat then set_offsets now a else a.
End Agent.

(** ** Composite offsets *)

Record SlotCache := mkSlotCache { agentSlot : Z; agentSlotAt : Time }.
Definition agent_getCurrentSlot (now : Time) (rpc : option Z) (c : SlotCache) : SlotCache * option Z :=
  if negb (IsZero (agentSlotAt c)) && (TimeSub now (agentSlotAt c) <? 300 * Second) then (c, Some (agentSlot c))
  else match rpc with
       | None => (c, if negb (IsZero (agentSlotAt c)) then Some (agentSlot c) else None)
       | Some slot => (mkSlotCache slot now, Some slot)
       end.

(** What becomes of a measurement of a target. *)
Inductive delivery := NotReady | NoListener | NotSigned | SentTo (to : IP * Z) (offset : LocationOffset) (result : res send_error ()).

Section Composite.
Context {K : Type} `{!Ed25519 K} (floats : Z -> bool) (signer : OffsetSigner K).
(** [dns] is the lookup of destinations, [write] sends a datagram. *)
Context (dns : bytes -> option (IP * Z)) (write : IP * Z -> bytes -> option nat).

Definition composite_of (dzd : LocationOffset) (slot : Z) (addr : ProbeAddress) (measuredRttNs : Z) : LocationOffset :=
  mkOffset (replicate 64 0) LocationOffsetVersion (replicate 32 0) (replicate 32 0) slot measuredRttNs (Lat dzd) (Lng dzd)
    (u64 (RttNs dzd + measuredRttNs)) (IPToTargetIP (Host addr)) 1 [dzd].

(** Where the offset goes: to the destination of the results, to nobody for an
    ICMP target without one, or to the target. *)
Definition delivery_address (deliveryAddrs : gmap ProbeAddress bytes) (icmpTargets : gset ProbeAddress) (addr : ProbeAddress) : delivery + IP * Z :=
  match deliveryAddrs !! addr with
  | Some dest => match dns dest with Some to => inr to | None => inl NotReady end
  | None => if bool_decide (addr ∈ icmpTargets) then inl NoListener else inr (default [] (ParseIP (Host addr)), Port addr)
  end.
Definition send_composite (dzd : LocationOffset) (slot : Z) (deliveryAddrs : gmap ProbeAddress bytes) (icmpTargets : gset ProbeAddress)
    (addr : ProbeAddress) (measuredRttNs : Z) : delivery :=
  match delivery_address deliveryAddrs icmpTargets addr with
  | inl d => d
  | inr to =>
      let '(offset, ok) := SignOffset floats signer (composite_of dzd slot addr measuredRttNs) in
      if ok then SentTo to offset (SendOffset floats offset (write to)) else NotSigned
  end.

(** [order] is the order of the measurements, [best] the best cached offset. *)
Definition sendCompositeOffsets (best : option LocationOffset) (slot : option Z) (order : list (ProbeAddress * Z))
    (deliveryAddrs : gmap ProbeAddress bytes) (icmpTargets : gset ProbeAddress) : list delivery :=
  match best, slot with
  | Some dzd, Some slot => (fun ar => send_composite dzd slot deliveryAddrs icmpTargets ar.1 ar.2) <$> order
  | _, _ => []
  end.
End Composite.

(** ** The measurement loop *)

(** [range] gives the order in which a map of addresses is ranged over. *)
Definition addr_order := gmap bytes ProbeAddress -> list (bytes * ProbeAddress).

Section Reconcile.
Context {P : Type} (range : addr_order) (addProbe : ProbeAddress -> P -> option P) (removeProbe : ProbeAddress -> P -> P).

Definition add_new (oldSet : gmap bytes ProbeAddress) (st : P * list ProbeAddress) (kv : bytes * ProbeAddress) : P * list ProbeAddress :=
  match oldSet !! kv.1 with
  | Some _ => st
  | None => match addProbe kv.2 st.1 with None => st | Some p => (p, st.2 ++ [kv.2]) end
  end.
Definition remove_stale (newSet : gmap bytes ProbeAddress) (p : P) (kv : bytes * ProbeAddress) : P :=
  match newSet !! kv.1 with Some _ => p | None => removeProbe kv.2 p end.

(** The pinger, and the addresses that were added and are to be measured. *)
Definition reconcileTargets (oldTargets newTargets : list ProbeAddress) (p : P) : P * list ProbeAddress :=
  let oldSet := index_by addr_String oldTargets in
  let newSet := index_by addr_String newTargets in
  let '(p, newlyAdded) := foldl (add_new oldSet) (p, []) (range newSet) in
  (foldl (remove_stale newSet) p (range oldSet), newlyAdded).
End Reconcile.

Definition ok_value {E A : Type} (r : res E A) : option A := match r with Ok a => Some a | _ => None end.

Record MeasurementLoop := mkLoop {
  targets : list ProbeAddress;
  icmpTargets : list ProbeAddress;
  deliveryAddrs : gmap ProbeAddress bytes;
  icmpDeliveryAddrs : gmap ProbeAddress bytes;
  ml_pinger : gmap bytes ProbeAddress;
  ml_icmpPinger : gmap bytes ProbeAddress
}.
#[global] Instance MeasurementLoop_eta : RecordEta MeasurementLoop := {
  eta_record := fun r => mkLoop (targets r) (icmpTargets r) (deliveryAddrs r) (icmpDeliveryAddrs r) (ml_pinger r) (ml_icmpPinger r);
  eta_record_id := fun r => match r with mkLoop _ _ _ _ _ _ => eq_refl end
}.

(** The two updates; the second result are the addresses to be measured at once. *)
Definition target_update (range : addr_order) (u : TargetUpdate) (ml : MeasurementLoop) : MeasurementLoop * list ProbeAddress :=
  let '(p, added) := reconcileTargets range (fun a p => ok_value (Pinger.AddProbe a p)) Pinger.RemoveProbe (targets ml) (Targets u) (ml_pinger ml) in
  (ml <| ml_pinger := p |> <| targets := Targets u |> <| deliveryAddrs := DeliveryAddrs u |>, added).
Definition icmp_target_update (range : addr_order) (u : TargetUpdate) (ml : MeasurementLoop) : MeasurementLoop * list ProbeAddress :=
  let '(p, added) := reconcileTargets range (fun a p => ok_value (ICMPPinger.AddProbe a p)) ICMPPinger.RemoveProbe (icmpTargets ml) (Targets u) (ml_icmpPinger ml) in
  (ml <| ml_icmpPinger := p |> <| icmpTargets := Targets u |> <| icmpDeliveryAddrs := DeliveryAddrs u |>, added).

Definition uniqueDeliveryHostPorts (outbound icmp : gmap ProbeAddress bytes) : gset bytes :=
  list_to_set (filter (fun v => v <> []) ((map_to_list outbound).*2 ++ (map_to_list icmp).*2)).

(** A cycle: [twamp] and [icmp] are the measurements of the two pingers. *)
Definition runCycle {K : Type} `{!Ed25519 K} (floats : Z -> bool) (signer : OffsetSigner K) (dns : bytes -> option (IP * Z))
    (write : IP * Z -> bytes -> option nat) (twamp icmp : gmap ProbeAddress Z) (order : gmap ProbeAddress Z -> list (ProbeAddress * Z))
    (best : option LocationOffset) (slot : option Z) (ml : MeasurementLoop) : list delivery :=
  if (length (targets ml) =? 0)%nat && (length (icmpTargets ml) =? 0)%nat then []
  else
    let rttData := if (0 <? length (targets ml))%nat then twamp else ∅ in
    let rttData := if (0 <? length (icmpTargets ml))%nat then icmp ∪ rttData else rttData in
    if (size rttData =? 0)%nat then []
    else sendCompositeOffsets floats signer dns write best slot (order rttData) (icmpDeliveryAddrs ml ∪ deliveryAddrs ml) (list_to_set (icmpTargets ml)).

(** ** A target *)

Definition target_maxReferenceDepth : nat := 5.
Definition offset_caches := MinCacheMap.t bytes LocationOffset.

(** An offset as it is recorded and printed. *)
Record handled := mkHandled { h_offset : LocationOffset; h_valid : bool; h_info : UpdateInfo; h_recorded : option bytes; h_printed : bool }.

Section Target.
Context {K : Type} `{!Ed25519 K} (floats : Z -> bool).

(** [writer]: rows are recorded; the cache is updated before anything else
    happens to the map. *)
Definition handleOffset (now : Time) (verifySignatures writer verbose : bool) (offset : LocationOffset) (caches : offset_caches) : offset_caches * handled :=
  let signatureValid := if verifySignatures then VerifyOffsetChain floats offset else true in
  let recorded := if writer then Marshal floats offset else None in
  let '(caches, l) := MinCacheMap.Get (SenderPubkey offset) caches in
  let '(caches, info) := MinCacheMap.Update RttNs l offset now caches in
  (caches, mkHandled offset signatureValid info recorded (verbose || Changed info)).

(** A datagram; [allowed] is the answer of the rate limiter. *)
Definition target_receive (now : Time) (allowed verifySignatures writer verbose : bool) (datagram : bytes) (caches : offset_caches) : offset_caches * option handled :=
  match ReceiveOffset floats datagram with
  | Ok offset =>
      if negb allowed then (caches, None)
      else if (target_maxReferenceDepth <? depth offset)%nat then (caches, None)
      else let '(caches, h) := handleOffset now verifySignatures writer verbose offset caches in (caches, Some h)
  | _ => (caches, None)
  end.
End Target.

(** ** What the probe holds *)

Section Held.
Context {K : Type} `{!Ed25519 K} (floats : Z -> bool) (range : cache_order).
Implicit Types (a : Agent) (o : LocationOffset).

Inductive agent_event := AReceive (now : Time) (datagram : bytes) | AParents (u : ParentUpdate) | AEvict (now : Time).
Definition agent_step (a : Agent) (e : agent_event) : Agent :=
  match e with
  | AReceive now datagram => (receive_offset floats range now datagram a).1
  | AParents u => update_parents u a
  | AEvict now => evict floats range now a
  end.

(** The parents that were known at some time. *)
Definition known (m : gmap bytes bytes) (es : list agent_event) : list (gmap bytes bytes) :=
  m :: omap (fun e => match e with AParents u => Some (Authorities u) | _ => None end) es.

Definition arrived (es : list agent_event) o : Prop := exists now datagram, AReceive now datagram ∈ es /\ ReceiveOffset floats datagram = Ok o.

Record held_ok (m : gmap bytes bytes) (es : list agent_event) (a : Agent) : Prop := mk_held_ok {
  h_parents : parents a ∈ known m es;
  h_cached : forall sender o, cached_in (cache a) sender o -> sender = SenderPubkey o /\ arrived es o /\ VerifyOffsetChain floats o = true /\
    exists authorities, authorities ∈ known m es /\ authorities !! sender = Some (AuthorityPubkey o)
}.

Lemma known_snoc m es e x : x ∈ known m es -> x ∈ known m (es ++ [e]).
Proof. unfold known. rewrite omap_app. rewrite !elem_of_cons, elem_of_app. naive_solver. Qed.
Lemma arrived_snoc es e o : arrived es o -> arrived (es ++ [e]) o.
Proof. intros (now & d & Hin & Hr). exists now, d. split; [set_solver|done]. Qed.

Lemma held_snoc m es e a : held_ok m es a -> held_ok m (es ++ [e]) a.
Proof.
  intros [H1 H2]. constructor; [by apply known_snoc|]. intros sender o Hc. destruct (H2 sender o Hc) as (Hs & Ha & Hv & au & Hau & Hl).
  split_and!; [done|by apply arrived_snoc|done|]. exists au. split; [by apply known_snoc|done].
Qed.

Lemma agent_step_ok m es a e : held_ok m es a -> held_ok m (es ++ [e]) (agent_step a e).
Proof.
  intros H. pose proof (held_snoc m es e a H) as [H1 H2]. destruct e as [now datagram|u|now]; cbn [agent_step].
  - unfold receive_offset. destruct (ReceiveOffset floats datagram) as [o| |] eqn:Ho; [|by constructor..].
    destruct (parents a !! SenderPubkey o) as [expected|] eqn:Hp; [|by constructor]. case_bool_decide as He; [by constructor|].
    destruct (VerifyOffsetChain floats o) eqn:Hv; [|by constructor]. constructor; [done|]. intros sender o' Hc. cbn in Hc.
    apply cached_Put in Hc as [Hc|[-> ->]]; [by apply H2|]. split_and!; [done| |done|].
    + exists now, datagram. split; [set_solver|done].
    + exists (parents a). split; [done|]. rewrite Hp. f_equal. destruct (decide (expected = AuthorityPubkey o)); [done|]. by destruct He.
  - constructor; [|done]. unfold known. rewrite omap_app. cbn. set_solver.
  - unfold evict. destruct (OffsetCache.Evict now (cache a)) as [c n] eqn:Hev.
    assert (Hc : forall sender o, cached_in c sender o -> cached_in (cache a) sender o)
      by (intros sender o Hc; apply (cached_Evict now); by rewrite Hev).
    destruct (0 <? n)%nat; (constructor; [done|]; intros sender o Hin; by apply H2, Hc).
Qed.

Lemma agent_run_ok a0 es : OffsetCache.entries (cache a0) = ∅ -> held_ok (parents a0) es (foldl agent_step a0 es).
Proof.
  intros H0. induction es as [|e es IH] using rev_ind; [|rewrite foldl_snoc; by apply agent_step_ok].
  constructor; [by left|]. intros sender o (s & x & Hs & _). cbn [foldl] in Hs. by rewrite H0, lookup_empty in Hs.
Qed.

Lemma arrived_ok es o : Forall (fun e => match e with AReceive _ datagram => bytes_ok datagram | _ => True end) es -> arrived es o ->
  offset_ok o /\ (depth o <= MaxReferenceDepth)%nat /\ (countTotalReferences o <= MaxTotalReferences)%nat.
Proof.
  intros Hb (now & d & Hin & Hr). rewrite Forall_forall in Hb. specialize (Hb _ Hin). unfold ReceiveOffset in Hr.
  apply Unmarshal_inv in Hr as (b & rest & _ & _ & ? & ? & ?); [done|]. by apply Forall_take.
Qed.

(** The signatures, as for a chain of offsets. *)
Context (honest : bytes -> Prop) (seen : bytes -> Prop) (signed : bytes -> bytes -> Prop).
Hypothesis unforgeable : forall pk m sg, honest pk -> seen sg -> ed_Verify pk m sg = true -> signed pk m.
Hypothesis ordinary : forall pk, honest pk -> drop 3 pk <> take 29 pk.
Hypothesis signs : forall pk m, honest pk -> signed pk m -> twamp_message m \/ ingest_message m \/ transaction_message pk m \/
  exists s o, let o' := (SignOffset floats s o).1 in
    pk = ed_Public (keypair s) /\ offset_ok o' /\ GetSigningBytes floats o' = Some m.

End Held.

(** ** From a device to a target *)

Section EndToEnd.
Context {K : Type} `{!Ed25519 K} (floats : Z -> bool).
Implicit Types (o : LocationOffset) (s : OffsetSigner K).

Lemma length_target_ip host : length (IPToTargetIP host) = 4%nat.
Proof.
  unfold IPToTargetIP, ParseIP. destruct (mapM parse_octet (Split host 46)) as [ip|]; [|done]. cbn.
  destruct (Nat.eqb_spec (length ip) 4); done.
Qed.

(** Signing succeeds on numbers, and sets what it sets. *)
Lemma SignOffset_total s o refs : floats (Lat o) = true -> floats (Lng o) = true -> mapM (Marshal floats) (References o) = Some refs ->
  exists sg, length sg = 64%nat /\
    SignOffset floats s o = (o <| AuthorityPubkey := ed_Public (keypair s) |> <| SenderPubkey := senderPubkey s |> <| Signature := sg |>, true).
Proof.
  intros Hla Hln Hr. unfold SignOffset, GetSigningBytes, offset_fields. destruct o. cbn in *. rewrite Hla, Hln. cbn. rewrite Hr. cbn.
  eexists. split; [|done]. apply ed_Sign_length.
Qed.

Lemma Marshal_total o refs : floats (Lat o) = true -> floats (Lng o) = true -> mapM (Marshal floats) (References o) = Some refs -> exists b, Marshal floats o = Some b.
Proof. intros Hla Hln Hr. rewrite Marshal_eq. unfold offset_fields. rewrite Hla, Hln, Hr. by eexists. Qed.

(** What a device publishes. *)
Definition published s (slot lat lng rtt : Z) (target : bytes) o : Prop :=
  offset_ok o /\ VerifyOffsetChain floats o = true /\ AuthorityPubkey o = ed_Public (keypair s) /\ SenderPubkey o = senderPubkey s /\
  MeasurementSlot o = slot /\ Lat o = lat /\ Lng o = lng /\ RttNs o = rtt /\ TargetIP o = target /\ References o = [].

Lemma publishes (write : IP * Z -> bytes -> option nat) (p : PublisherState K) addr dest slot lat lng rtt :
  length (senderPubkey (signer p)) = 32%nat -> conns p !! Host addr = Some dest -> is_u64 slot -> is_u64 lat -> is_u64 lng -> is_u64 rtt ->
  floats lat = true -> floats lng = true ->
  exists o, Publisher.publish_one floats write slot lat lng p addr rtt = Publisher.Delivered dest o (SendOffset floats o (write dest)) /\
    published (signer p) slot lat lng rtt (IPToTargetIP (Host addr)) o.
Proof.
  intros Hl Hc Hs Hla Hln Hr Fla Fln. unfold Publisher.publish_one. rewrite Hc.
  set (o0 := Publisher.offset_for slot lat lng addr rtt).
  destruct (SignOffset_total (signer p) o0 []) as (sg & Hsg & He); [done..|]. rewrite He. eexists. split; [done|].
  destruct (SignOffset_verifies floats (signer p) o0 _ He) as (Hv & Ha & Hse); [constructor|].
  split_and!; try done. constructor; [|constructor]. constructor; try done; [apply ed_Public_length|apply length_target_ip].
Qed.

(** Encodings of offsets without references, and of their composites. *)
Lemma encode_plain o : offset_ok o -> References o = [] -> floats (Lat o) = true -> floats (Lng o) = true ->
  exists b, Marshal floats o = Some b /\ length b = 174%nat.
Proof.
  intros Ho Hr Fla Fln. destruct (Marshal_total o [] Fla Fln) as [b Hb]; [by rewrite Hr|]. exists b. split; [done|].
  rewrite (length_offset_Marshal floats o b Ho Hb), total_eq, Hr. done.
Qed.

Lemma receive_whole o b : Marshal floats o = Some b -> offset_ok o -> (depth o <= MaxReferenceDepth)%nat ->
  (countTotalReferences o <= MaxTotalReferences)%nat -> ReceiveOffset floats b = Ok o.
Proof.
  intros Hb Ho Hd Ht. unfold ReceiveOffset. pose proof (length_offset_Marshal floats o b Ho Hb) as Hl.
  rewrite take_ge by (rewrite Hl; unfold MaxTotalReferences, MaxUDPPacketSize in *; lia). rewrite <- (app_nil_r b). by apply offset_Unmarshal_Marshal.
Qed.

Lemma depth_plain o : References o = [] -> depth o = 0%nat /\ countTotalReferences o = 0%nat.
Proof. intros H. destruct o. cbn in *. by subst. Qed.
Lemma depth_one o r : References o = [r] -> References r = [] -> depth o = 1%nat /\ countTotalReferences o = 1%nat.
Proof. intros H Hr. destruct (depth_plain r Hr) as [Hd Ht]. destruct o. cbn in *. subst. cbn. by rewrite Hd, Ht. Qed.

(** The composite of an offset that a device has published. *)
Lemma composite_ok sd sp slot lat lng rtt target o slot' addr m : published sd slot lat lng rtt target o -> floats lat = true -> floats lng = true ->
  is_u64 slot' -> is_u64 m -> length (senderPubkey sp) = 32%nat ->
  exists c b, SignOffset floats sp (composite_of o slot' addr m) = (c, true) /\ Marshal floats c = Some b /\ length b = 348%nat /\
    ReceiveOffset floats b = Ok c /\ VerifyOffsetChain floats c = true /\ depth c = 1%nat /\
    AuthorityPubkey c = ed_Public (keypair sp) /\ SenderPubkey c = senderPubkey sp /\ RttNs c = u64 (rtt + m) /\ MeasuredRttNs c = m /\
    Lat c = lat /\ Lng c = lng /\ TargetIP c = IPToTargetIP (Host addr) /\ References c = [o].
Proof.
  intros (Ho & Hv & _ & _ & _ & Hla & Hln & Hr & _ & Hrefs) Fla Fln Hs Hm Hl.
  destruct (encode_plain o Ho Hrefs) as (bo & Hbo & _); [by rewrite Hla|by rewrite Hln|].
  destruct (SignOffset_total sp (composite_of o slot' addr m) [bo]) as (sg & Hsg & He); [by cbn; rewrite Hla|by cbn; rewrite Hln|by cbn; rewrite Hbo|].
  destruct (SignOffset_verifies floats sp _ _ He) as (Hcv & Ha & Hse); [by apply Forall_singleton|].
  set (c := (composite_of o slot' addr m) <| AuthorityPubkey := ed_Public (keypair sp) |> <| SenderPubkey := senderPubkey sp |> <| Signature := sg |>) in *.
  assert (Hcr : References c = [o]) by done. destruct (depth_one c o Hcr Hrefs) as [Hd Ht].
  assert (Hok : offset_ok c).
  { constructor; [|rewrite Hcr; by apply Forall_singleton]. pose proof (offset_ok_node o Ho) as [].
    constructor; try done; [apply ed_Public_length|by apply wrap_range|apply length_target_ip]. }
  destruct (Marshal_total c [bo]) as [b Hb]; [by cbn; rewrite Hla|by cbn; rewrite Hln|by rewrite Hcr; cbn; rewrite Hbo|].
  exists c, b. split_and!; try done; [by rewrite (length_offset_Marshal floats c b Hok Hb), Ht| |by rewrite <- Hr].
  apply receive_whole; [done|done|rewrite Hd|rewrite Ht]; unfold MaxReferenceDepth, MaxTotalReferences; lia.
Qed.

Context (range : cache_order).
Hypothesis range_perm : forall m, range m ≡ₚ map_to_list m.

(** A probe without offsets takes that of a parent. *)
Lemma probe_accepts s o b now a : offset_ok o -> VerifyOffsetChain floats o = true -> References o = [] -> Marshal floats o = Some b ->
  SenderPubkey o = senderPubkey s -> AuthorityPubkey o = ed_Public (keypair s) -> parents a !! senderPubkey s = Some (ed_Public (keypair s)) ->
  OffsetCache.entries (cache a) = ∅ ->
  exists a', receive_offset floats range now b a = (a', None) /\ parents a' = parents a /\
    cache a' = OffsetCache.mk {[ senderPubkey s := OffsetCache.mkCachedSender (Some (OffsetCache.mkCached o now)) None ]} (OffsetCache.maxAge (cache a)).
Proof.
  intros Ho Hv Hr Hb Hs Ha Hp He. destruct (depth_plain o Hr) as [Hd Ht]. unfold receive_offset.
  rewrite (receive_whole o b) by (rewrite ?Hd, ?Ht; unfold MaxReferenceDepth, MaxTotalReferences; done || lia). rewrite Hs, Hp, Ha.
  rewrite bool_decide_eq_false_2 by (by intros []). rewrite Hv. cbn [negb]. eexists. split_and!; [done|by destruct a|].
  unfold set_offsets. destruct a as [pa [en age] re]. cbn in *. unfold OffsetCache.Put. cbn. by rewrite Hs, He, lookup_empty, insert_empty.
Qed.

Lemma best_of_one now now' age sender o : now <= now' -> now' - now <= age -> age < max_i64 ->
  let c := OffsetCache.mk {[ sender := OffsetCache.mkCachedSender (Some (OffsetCache.mkCached o now)) None ]} age in
  OffsetCache.GetBest now' (range (OffsetCache.entries c)) c = Some o.
Proof.
  intros Hle Ha Hm c. pose proof (range_perm (OffsetCache.entries c)) as Hp. cbn [c OffsetCache.entries] in Hp |- *.
  rewrite map_to_list_singleton in Hp. apply Permutation_singleton_r in Hp. rewrite Hp.
  unfold OffsetCache.GetBest. cbn. rewrite (proj2 (Z.ltb_ge _ _)); [done|]. unfold TimeSub, max_i64, min_i64 in *. lia.
Qed.

(** C3. A location travels from a device to a target. What the device publishes
    to a probe of which it is a parent, and which holds no other offset, is
    accepted by the probe, and it is the basis of what the probe sends on as long
    as it has not expired. The target of any measurement, or the destination of
    its results, receives a datagram of 348 bytes that it accepts as valid: it
    carries the device's signed offset, the device's place, the probe as sender
    and the sum of both times. *)
Theorem location_end_to_end (p : PublisherState K) (sp : OffsetSigner K) write write' dns addr dest slot lat lng rtt a now :
  length (senderPubkey (signer p)) = 32%nat -> length (senderPubkey sp) = 32%nat -> conns p !! Host addr = Some dest ->
  is_u64 slot -> is_u64 lat -> is_u64 lng -> is_u64 rtt -> floats lat = true -> floats lng = true ->
  parents a !! senderPubkey (signer p) = Some (ed_Public (keypair (signer p))) -> OffsetCache.entries (cache a) = ∅ -> OffsetCache.maxAge (cache a) < max_i64 ->
  exists o b a',
    Publisher.publish_one floats write slot lat lng p addr rtt = Publisher.Delivered dest o (SendOffset floats o (write dest)) /\
    Marshal floats o = Some b /\ receive_offset floats range now b a = (a', None) /\
    forall now' slot' target m deliveries icmp to, now <= now' <= now + OffsetCache.maxAge (cache a) -> is_u64 slot' -> is_u64 m ->
      delivery_address dns deliveries icmp target = inr to ->
      let best := OffsetCache.GetBest now' (range (OffsetCache.entries (cache a'))) (cache a') in
      exists c b',
        sendCompositeOffsets floats sp dns write' best (Some slot') [(target, m)] deliveries icmp = [SentTo to c (SendOffset floats c (write' to))] /\
        Marshal floats c = Some b' /\ length b' = 348%nat /\
        (forall now'' writer verbose caches, exists caches' h,
           target_receive floats now'' true true writer verbose b' caches = (caches', Some h) /\ h_offset h = c /\ h_valid h = true) /\
        SenderPubkey c = senderPubkey sp /\ RttNs c = u64 (rtt + m) /\ Lat c = lat /\ Lng c = lng /\
        TargetIP c = IPToTargetIP (Host target) /\ References c = [o] /\ SenderPubkey o = senderPubkey (signer p) /\ RttNs o = rtt.
Proof.
  intros Hl Hl' Hc Hs Hla Hln Hr Fla Fln Hp He Hage.
  destruct (publishes write p addr dest slot lat lng rtt Hl Hc Hs Hla Hln Hr Fla Fln) as (o & Hpub & Ho).
  pose proof Ho as (Hok & Hv & Hau & Hse & _ & Hlo & Hno & Hro & _ & Hrefs).
  destruct (encode_plain o Hok Hrefs) as (b & Hb & _); [by rewrite Hlo|by rewrite Hno|].
  destruct (probe_accepts (signer p) o b now a Hok Hv Hrefs Hb Hse Hau Hp He) as (a' & Hacc & _ & Hcache).
  exists o, b, a'. split_and!; [done..|]. intros now' slot' target m deliveries icmp to Hn Hs' Hm Hto. cbv zeta.
  rewrite Hcache, best_of_one by lia.
  destruct (composite_ok (signer p) sp slot lat lng rtt _ o slot' target m Ho Fla Fln Hs' Hm Hl') as (c & b' & Hsig & Hb' & Hlen & Hrec & Hcv & Hd & _ & Hcs & Hcr & _ & Hcla & Hcln & Ht & Href).
  exists c, b'. split_and!; try done.
  - unfold sendCompositeOffsets. cbn [fmap list_fmap fst snd]. unfold send_composite. by rewrite Hto, Hsig.
  - intros now'' writer verbose caches. unfold target_receive. rewrite Hrec. cbn [negb]. rewrite Hd. cbn [Nat.ltb Nat.leb target_maxReferenceDepth].
    unfold handleOffset. destruct (MinCacheMap.Get (SenderPubkey c) caches) as [m1 l]. destruct (MinCacheMap.Update RttNs l c now'' m1) as [m2 info].
    eexists _, _. split; [done|]. by cbn.
Qed.
End EndToEnd.

(** ** Offsets with references at the signed reflector *)

Section Silence.
Context {K : Type} `{!Ed25519 K} (floats : Z -> bool) (range : cache_order).
Hypothesis range_perm : forall m, range m ≡ₚ map_to_list m.

(** A reply needs offsets of one size. *)
Lemma no_reply (signer : K) now from random tx buf (r : SignedReflector) : Exists (fun blob => length blob <> LocationOffsetSize) (offsets r) ->
  (reflect_packet signer now from random tx buf r).2 = None.
Proof.
  intros He. unfold reflect_packet. destruct (UnmarshalProbePacket buf) as [probe|]; [|done]. case_bool_decide; [done|]. cbv zeta.
  destruct (rate_limit _ _ _) as [st|]; [|done]. destruct from as [from|]; [|done]. destruct (bind_source _ _) as [st'|]; [|done].
  destruct (pair_step _ _ _ _) as [[st2 since] challenged].
  assert (Hn : forall g slot lat lng si rtt ch, NewReplyPacket probe signer g (offsets r) slot lat lng si rtt ch = None).
  { intros. unfold NewReplyPacket. case_match; [done|]. replace (forallb _ (offsets r)) with false; [done|]. symmetry.
    apply Exists_exists in He as (blob & Hin & Hl). apply not_true_iff_false. rewrite forallb_forall. intros Hall.
    apply Hl, Nat.eqb_eq, Hall. by apply list_elem_of_In. }
  cbn [store offsets]. by rewrite Hn.
Qed.

(** C38. An offset with references silences the signed reflector of a probe.
    After any history, when an offset was accepted, the reflector hands out the
    best cached one. If it has no references it fits the replies. If it has any,
    which a parent may send and the listener accepts, then no probe of anybody is
    answered any more until the offsets change: a reply is refused if an offset
    in it is not of the size of one without references. *)
Theorem references_silence_reflector a0 es now datagram o : OffsetCache.entries (cache a0) = ∅ ->
  Forall (fun e => match e with AReceive _ datagram => bytes_ok datagram | _ => True end) (es ++ [AReceive now datagram]) ->
  let a := foldl (agent_step floats range) a0 es in
  let '(a', rejected) := receive_offset floats range now datagram a in
  rejected = None -> OffsetCache.GetBest now (range (OffsetCache.entries (cache a'))) (cache a') = Some o ->
  (References o = [] -> offsets_ok (reflector a')) /\
  (References o <> [] -> forall (signer : K) now' from random tx buf, (reflect_packet signer now' from random tx buf (reflector a')).2 = None).
Proof.
  intros H0 Hb. cbv zeta. set (a := foldl (agent_step floats range) a0 es). pose proof (agent_run_ok floats range a0 (es ++ [AReceive now datagram]) H0) as [_ Hh].
  rewrite foldl_snoc in Hh. cbn [agent_step] in Hh. fold a in Hh.
  destruct (receive_offset floats range now datagram a) as [a' rejected] eqn:Hr. cbn [fst] in Hh. intros -> Hbest.
  assert (Hre : reflector a' = SetOffsets (OffsetCache.marshalBestOffset floats now (range (OffsetCache.entries (cache a'))) (cache a')) (reflector a)).
  { unfold receive_offset in Hr. repeat (case_match; simplify_eq). by destruct a. }
  destruct (GetBest_cached now _ _ o (range_perm _) Hbest) as [sender Hin]. destruct (Hh sender o Hin) as (_ & Ha & _).
  destruct (arrived_ok floats _ o Hb Ha) as [Hok _]. destruct Ha as (t & d & Hd & Hrec). rewrite Forall_forall in Hb. specialize (Hb _ Hd).
  unfold ReceiveOffset in Hrec. apply Unmarshal_inv in Hrec as (b & rest & _ & Hm & _); [|by apply Forall_take].
  pose proof (length_offset_Marshal floats o b Hok Hm) as Hl. unfold OffsetCache.marshalBestOffset in Hre. rewrite Hbest, Hm in Hre.
  assert (Hoff : offsets (reflector a') = [b]) by (rewrite Hre; by destruct (reflector a)). split.
  - intros Hn. unfold offsets_ok. rewrite Hoff. split; [cbn; unfold MaxOffsets; lia|]. apply Forall_singleton. rewrite Hl, (proj2 (depth_plain o Hn)). done.
  - intros Hn signer now' from random tx buf. apply no_reply. rewrite Hoff. apply Exists_cons_hd. rewrite Hl, total_eq.
    destruct (References o); [done|]. cbn [length]. unfold LocationOffsetSize. lia.
Qed.
End Silence.

(** ** Forged offsets at a target *)

(** A sample above the best one changes nothing of it. *)
Lemma Update_above {T : Type} (rttFunc : T -> Z) (c : MinCache.t T) b v now : MinCache.best c = Some b -> expiredAt (Some b) now (MinCache.maxAge c) = false ->
  e_rttNs b < rttFunc v -> let '(c', info) := MinCache.Update rttFunc v now c in
  MinCache.best c' = Some b /\ MinCache.maxAge c' = MinCache.maxAge c /\ Changed info = false.
Proof.
  intros Hb He Hr. destruct c as [ob k age]. cbn in Hb. subst ob. unfold MinCache.Update. cbn [MinCache.best MinCache.backup MinCache.maxAge] in *.
  rewrite He. cbn [negb MinCache.expire MinCache.best MinCache.backup MinCache.maxAge]. rewrite He. cbn [MinCache.best MinCache.backup MinCache.maxAge].
  rewrite (proj2 (Z.leb_gt _ _)) by done. destruct (Z.quot age 2 <? _); [done|]. destruct k as [k|]; [|done]. by destruct (rttFunc v <=? e_rttNs k).
Qed.

Section Forged.
Context {K : Type} `{!Ed25519 K} (floats : Z -> bool).

(** The offsets of a run, with their times, as they are handled. *)
Fixpoint handle_all (verifySignatures writer : bool) (us : list (Time * LocationOffset)) (caches : offset_caches) : list handled :=
  match us with
  | [] => []
  | (t, o) :: us => let '(caches, h) := handleOffset floats t verifySignatures writer false o caches in h :: handle_all verifySignatures writer us caches
  end.

Lemma handle_view now verify writer verbose o (caches : offset_caches) : MinCacheMap.map_ok caches ->
  let '(caches', h) := handleOffset floats now verify writer verbose o caches in
  let c := default (MinCache.New (MinCacheMap.maxAge caches)) (MinCacheMap.view caches (SenderPubkey o)) in
  MinCacheMap.map_ok caches' /\ MinCacheMap.view caches' (SenderPubkey o) = Some (MinCache.Update RttNs o now c).1 /\
  h_valid h = (if verify then VerifyOffsetChain floats o else true) /\ h_printed h = verbose || Changed (MinCache.Update RttNs o now c).2.
Proof.
  intros Hm. pose proof (view_take_in RttNs now (SenderPubkey o) o (SenderPubkey o) caches Hm) as Hv. rewrite decide_True in Hv by done.
  pose proof (take_in_ok RttNs now (SenderPubkey o) o caches Hm) as [Hok _]. pose proof (Get_ok (SenderPubkey o) caches Hm) as Hg.
  pose proof (view_Get (SenderPubkey o) (SenderPubkey o) caches Hm) as Hgv. rewrite decide_True in Hgv by done.
  assert (Hl : MinCacheMap.caches (MinCacheMap.Get (SenderPubkey o) caches).1 !! SenderPubkey o = Some (MinCacheMap.Get (SenderPubkey o) caches).2).
  { unfold MinCacheMap.Get. destruct (MinCacheMap.caches caches !! SenderPubkey o) eqn:Hl; [done|]. cbn. by rewrite lookup_insert_eq. }
  unfold handleOffset. unfold take_in in Hv, Hok. destruct (MinCacheMap.Get (SenderPubkey o) caches) as [m1 l]. cbn [fst snd] in *.
  unfold MinCacheMap.view in Hgv. rewrite Hl in Hgv. cbn in Hgv. unfold MinCacheMap.Update in *. rewrite Hgv in *.
  destruct (MinCache.Update RttNs o now _) as [c' info]. cbn in *. done.
Qed.

(** C37. A forged offset silences a probe at a target. The target checks the
    signatures of what arrives, prints and records the verdict, and caches the
    offset in any case. If anybody sends an offset in the name of a probe, with a
    time below those of the probe, then none of the probe's own offsets is
    printed for as long as the forged one lives, valid as they are. *)
Theorem forged_offset_silences_probe t forged us (caches : offset_caches) : MinCacheMap.map_ok caches ->
  MinCacheMap.view caches (SenderPubkey forged) = None -> 0 <= MinCacheMap.maxAge caches < max_i64 -> VerifyOffsetChain floats forged = false ->
  Forall (fun u => SenderPubkey u.2 = SenderPubkey forged /\ RttNs forged < RttNs u.2 /\ t <= u.1 <= t + MinCacheMap.maxAge caches) us ->
  forall writer, match handle_all true writer ((t, forged) :: us) caches with
  | h :: hs => h_valid h = false /\ h_printed h = true /\ Forall (fun h => h_printed h = false) hs
  | [] => False
  end.
Proof.
  intros Hm Hv Hage Hf Hus writer. cbn [handle_all].
  pose proof (handle_view t true writer false forged caches Hm) as Hh. destruct (handleOffset floats t true writer false forged caches) as [c1 h1].
  rewrite Hv in Hh. cbn [default] in Hh. destruct Hh as (Hm1 & Hv1 & Hval & Hpr). split_and!; [by rewrite Hval|by rewrite Hpr|].
  set (b := mkEntry forged (RttNs forged) t). set (age := MinCacheMap.maxAge caches) in *.
  assert (Hc : exists c, MinCacheMap.view c1 (SenderPubkey forged) = Some c /\ MinCache.best c = Some b /\ MinCache.maxAge c = age) by (eexists; split; [exact Hv1|done]).
  clear -Hm1 Hc Hus Hage. clearbody age. revert c1 Hm1 Hc. induction Hus as [|[t' g] us (Hs & Hr & Ht) _ IH]; intros c1 Hm1 (c & Hv & Hb & Ha); [constructor|].
  cbn [fst snd] in *. cbn [handle_all]. pose proof (handle_view t' true writer false g c1 Hm1) as Hh.
  destruct (handleOffset floats t' true writer false g c1) as [c2 h2]. rewrite Hs, Hv in Hh. cbn [default id] in Hh. destruct Hh as (Hm2 & Hv2 & _ & Hpr).
  pose proof (Update_above RttNs c b g t' Hb) as Hu. rewrite Ha in Hu.
  assert (He : expiredAt (Some b) t' age = false) by (cbn; unfold TimeSub, max_i64, min_i64 in *; lia). specialize (Hu He Hr).
  destruct (MinCache.Update RttNs g t' c) as [c' info]. destruct Hu as (Hb' & Ha' & Hch). cbn [fst snd] in *.
  constructor; [by rewrite Hpr, Hch|]. apply IH; [done|]. by exists c'.
Qed.
End Forged.

(** ** An ICMP target that changes its port *)

Section IcmpPort.
Context (range : addr_order).
Hypothesis range_perm : forall m, range m ≡ₚ map_to_list m.
#[local] Abbreviation icmp_add := (fun a p => ok_value (ICMPPinger.AddProbe a p)).

Lemma remove_stale_none newSet l p h : p !! h = None -> foldl (remove_stale ICMPPinger.RemoveProbe newSet) p l !! h = None.
Proof.
  revert p. induction l as [|kv l IH]; intros p Hp; [done|]. cbn [foldl]. apply IH. unfold remove_stale, ICMPPinger.RemoveProbe.
  case_match; [done|]. apply lookup_delete_None. by right.
Qed.

Lemma remove_stale_gone newSet l p k a : (k, a) ∈ l -> newSet !! k = None -> foldl (remove_stale ICMPPinger.RemoveProbe newSet) p l !! Host a = None.
Proof.
  intros (l1 & l2 & ->)%list_elem_of_split Hk. rewrite foldl_app. cbn [foldl]. apply remove_stale_none. unfold remove_stale. cbn [fst snd]. rewrite Hk.
  apply lookup_delete_eq.
Qed.

Lemma icmp_add_other a p p' h : icmp_add a p = Some p' -> Host a <> h -> p' !! h = p !! h.
Proof.
  unfold ICMPPinger.AddProbe. destruct (ValidateICMP a); [|done..]. destruct (p !! Host a); intros [= <-] Hne; [done|]. by apply lookup_insert_ne.
Qed.

(** The target is listed, and not measured. *)
Definition unmeasured (a : ProbeAddress) (ml : MeasurementLoop) : Prop := a ∈ icmpTargets ml /\ ml_icmpPinger ml !! Host a = None.

Lemma index_none l a : Forall addr_wf (a :: l) -> a ∉ l -> index_by addr_String l !! addr_String a = None.
Proof.
  intros [Ha Hl]%Forall_cons Hn. destruct (index_by addr_String l !! addr_String a) as [b|] eqn:Hb; [|done].
  apply index_by_elem in Hb as [Hin Hk]. rewrite Forall_forall in Hl. apply addr_String_inj in Hk as ->; [done|by apply Hl|done].
Qed.

Lemma in_range l a : Forall addr_wf l -> a ∈ l -> (addr_String a, a) ∈ range (index_by addr_String l).
Proof. intros Hl Ha. rewrite range_perm. apply elem_of_map_to_list. by apply index_lookup. Qed.

Lemma icmp_first ml u a a' : Forall addr_wf (icmpTargets ml) -> Forall addr_wf (Targets u) -> a ∈ icmpTargets ml -> a ∉ Targets u -> a' ∈ Targets u -> Host a' = Host a ->
  unmeasured a' (icmp_target_update range u ml).1.
Proof.
  intros Ho Hn Ha Hgone Ha' Hh. unfold icmp_target_update, reconcileTargets. destruct (foldl _ _ (range (index_by addr_String (Targets u)))) as [p added].
  split; [done|]. cbn. rewrite Hh. apply (remove_stale_gone _ _ _ (addr_String a)); [by apply in_range|]. apply index_none; [|done].
  constructor; [|done]. rewrite Forall_forall in Ho. by apply Ho.
Qed.

Lemma icmp_later ml u a : only_of_host a (Targets u) -> Forall addr_wf (icmpTargets ml) -> unmeasured a ml -> unmeasured a (icmp_target_update range u ml).1.
Proof.
  intros (Hw & Ha & Hhost) Ho [Hin Hp]. unfold icmp_target_update, reconcileTargets.
  assert (Hadd : forall l st, Forall (fun kv => kv.1 = addr_String kv.2 /\ kv.2 ∈ Targets u) l -> st.1 !! Host a = None ->
    (foldl (add_new icmp_add (index_by addr_String (icmpTargets ml))) st l).1 !! Host a = None).
  { induction l as [|[k b] l IH]; intros st Hl Hs; [done|]. apply Forall_cons in Hl as [[Hk Hb] Hl]. cbn [fst snd] in Hk, Hb. subst k. cbn [foldl]. apply IH; [done|].
    unfold add_new. cbn [fst snd]. destruct (decide (b = a)) as [->|Hne]; [by rewrite (index_lookup (icmpTargets ml) a)|].
    destruct (index_by addr_String (icmpTargets ml) !! addr_String b); [done|].
    destruct (ok_value (ICMPPinger.AddProbe b st.1)) as [p'|] eqn:Hadd; [|done]. cbn [fst]. rewrite (icmp_add_other b st.1 p' (Host a) Hadd); [done|].
    intros He. by apply Hne, Hhost. }
  specialize (Hadd (range (index_by addr_String (Targets u))) (ml_icmpPinger ml, [])).
  destruct (foldl _ _ (range (index_by addr_String (Targets u)))) as [p added]. split; [done|]. cbn. apply remove_stale_none. apply Hadd; [|done].
  apply Forall_forall. intros [k b] Hb. rewrite range_perm in Hb. apply elem_of_map_to_list, index_by_elem in Hb as [Hb <-]. done.
Qed.

(** An ICMP target that changes its port is not measured any more. The loop
    tells targets apart by host and port, the pinger by host: the new address is
    taken for one that is there already, and then the removal of the old one
    removes it. It stays listed and unmeasured through all later updates that
    list it; the same happens if one of two users with a target on the same host
    removes theirs. *)
Theorem icmp_port_change_loses_target ml u a a' : Forall addr_wf (icmpTargets ml) -> Forall addr_wf (Targets u) ->
  a ∈ icmpTargets ml -> a ∉ Targets u -> a' ∈ Targets u -> Host a' = Host a ->
  forall us, Forall (fun u => only_of_host a' (Targets u)) us ->
  let ml' := foldl (fun ml u => (icmp_target_update range u ml).1) (icmp_target_update range u ml).1 us in
  a' ∈ icmpTargets ml' /\ ml_icmpPinger ml' !! Host a' = None /\
  forall id seq sent events, ICMPPinger.MeasureOne id a' seq sent events (ml_icmpPinger ml') = None.
Proof.
  intros Ho Hn Ha Hgone Ha' Hh us Hus. cbv zeta. pose proof (icmp_first ml u a a' Ho Hn Ha Hgone Ha' Hh) as H1.
  assert (Hw : Forall addr_wf (icmpTargets (icmp_target_update range u ml).1)).
  { unfold icmp_target_update. by destruct (reconcileTargets _ _ _ _ _ _). }
  revert H1 Hw. generalize (icmp_target_update range u ml).1. induction Hus as [|v us Hv _ IH]; intros ml1 H1 Hw; cbn [foldl].
  - destruct H1 as [H1 H2]. split_and!; [done..|]. intros. unfold ICMPPinger.MeasureOne. by rewrite H2.
  - apply IH; [by apply icmp_later|]. unfold icmp_target_update. destruct (reconcileTargets _ _ _ _ _ _). apply Hv.
Qed.
End IcmpPort.

(** ** A probe and a target on samples *)

Module AgentSample.
Definition floats : Z -> bool := OffsetSample.all_floats.
Definition reflector0 : SignedReflector := mkSignedReflector 0 (replicate 32 2) {[ ed_Public 7 ]} ∅ [].
Definition agent0 : Agent := mkAgent {[ replicate 32 1 := ed_Public 7; replicate 32 2 := ed_Public 9 ]} (OffsetCache.newOffsetCache (300 * Second)) reflector0.
Definition history : list agent_event := [AReceive 100 (sample_datagram sample_measured)].
Definition forged : LocationOffset := sample_measured <| RttNs := 1 |> <| Signature := replicate 64 0 |>.
Definition twamp_probe : bytes := Probe_bytes (NewProbePacket 0 1 7).
Definition reply_after (o : LocationOffset) : option ReplyPacket :=
  let a := (receive_offset floats map_to_list 100 (sample_datagram o) agent0).1 in
  (reflect_packet 9 1000 (Some [10; 0; 0; 1]) 77 2000 twamp_probe (reflector a)).2.
Definition loop0 : MeasurementLoop :=
  mkLoop [] [DeviceSample.old_port] ∅ ∅ ∅ {[ Host DeviceSample.old_port := DeviceSample.old_port ]}.
End AgentSample.

Lemma sample_arrived o : arrived AgentSample.floats AgentSample.history o -> o = sample_measured.
Proof.
  intros (now & d & Hin%list_elem_of_singleton & Hr). injection Hin as -> ->.
  assert (He : ReceiveOffset AgentSample.floats (sample_datagram sample_measured) = Ok sample_measured) by (by vm_compute). rewrite He in Hr. by injection Hr.
Qed.

(** Everything that the sample key signs under the signature of the message is
    the message. *)
Lemma sample_unforgeable m : ed_Verify (ed_Public 7) m (Signature sample_measured) = true -> m = OffsetSample.message.
Proof.
  intros H%bool_decide_eq_true_1. change (Signature sample_measured) with (copy_n 64 [7; 1]) in H. unfold sample_sign in H.
  case_bool_decide; [done|]. discriminate H.
Qed.


Lemma location_end_to_end_witness :
  exists o b a', Publisher.publish_one AgentSample.floats (fun _ b => Some (length b)) 5 11 22 DeviceSample.publisher0 DeviceSample.old_port 1000 =
      Publisher.Delivered ([62; 1; 2; 3], 8923) o (SendOffset AgentSample.floats o (fun b => Some (length b))) /\ Marshal AgentSample.floats o = Some b /\
    receive_offset AgentSample.floats map_to_list 100 b AgentSample.agent0 = (a', None).
Proof.
  destruct (location_end_to_end AgentSample.floats map_to_list (fun m => Permutation_refl _) DeviceSample.publisher0 OffsetSample.probe (fun _ b => Some (length b))
    (fun _ b => Some (length b)) (fun _ => None) DeviceSample.old_port ([62; 1; 2; 3], 8923) 5 11 22 1000 AgentSample.agent0 100)
    as (o & b & a' & Hp & Hm & Hr & _); [by vm_compute..|]. by exists o, b, a'.
Defined.

(** A parent sends on a composite offset, and a probe that was answered after a
    plain one is not answered after it. *)
Lemma references_silence_reflector_witness :
  is_Some (AgentSample.reply_after sample_measured) /\ AgentSample.reply_after sample_composite = None.
Proof.
  split; [by vm_compute; eexists|]. unfold AgentSample.reply_after. cbv zeta.
  pose proof (references_silence_reflector AgentSample.floats map_to_list (fun m => Permutation_refl _) AgentSample.agent0 [] 100 (sample_datagram sample_composite) sample_composite) as H.
  cbn [foldl] in H. destruct (receive_offset _ _ _ _ _) as [a' r] eqn:Hr. cbn [fst]. apply H.
  - done.
  - apply Forall_singleton. by apply bytes_ok_check; vm_compute.
  - assert (He : (receive_offset AgentSample.floats map_to_list 100 (sample_datagram sample_composite) AgentSample.agent0).2 = None) by (by vm_compute). by rewrite Hr in He.
  - assert (He : let a := (receive_offset AgentSample.floats map_to_list 100 (sample_datagram sample_composite) AgentSample.agent0).1 in
      OffsetCache.GetBest 100 (map_to_list (OffsetCache.entries (cache a))) (cache a) = Some sample_composite) by (by vm_compute). by rewrite Hr in He.
  - done.
Defined.

Lemma forged_offset_silences_probe_witness :
  VerifyOffsetChain AgentSample.floats sample_measured = true /\
  match handle_all AgentSample.floats true false [(100, AgentSample.forged); (200, sample_measured)] (MinCacheMap.New 1000) with
  | h :: hs => h_valid h = false /\ Forall (fun h => h_printed h = false) hs
  | [] => False
  end.
Proof.
  split; [by vm_compute|].
  pose proof (forged_offset_silences_probe AgentSample.floats 100 AgentSample.forged [(200, sample_measured)] (MinCacheMap.New 1000)) as H.
  destruct (H ltac:(by constructor) eq_refl ltac:(by vm_compute) ltac:(by vm_compute) ltac:(apply Forall_singleton; by vm_compute) false) as (H1 & _ & H3). by split.
Defined.

Lemma icmp_port_change_loses_target_witness :
  ml_icmpPinger (icmp_target_update map_to_list (mkTargetUpdate [DeviceSample.new_port] ∅) AgentSample.loop0).1 !! Host DeviceSample.new_port = None.
Proof.
  pose proof probe_sample_wf as Hw. apply Forall_cons in Hw as [H1 [H2 _]%Forall_cons].
  destruct (icmp_port_change_loses_target map_to_list (fun m => Permutation_refl _) AgentSample.loop0 (mkTargetUpdate [DeviceSample.new_port] ∅)
    DeviceSample.old_port DeviceSample.new_port) with (us := @nil TargetUpdate) as (_ & H & _);
    [by apply Forall_singleton|by apply Forall_singleton|by apply list_elem_of_singleton|by intros ?%list_elem_of_singleton|by apply list_elem_of_singleton|done|constructor|done].
Defined.
